(* ===== verification/_CoqProject ===== *)
-Q . S2P
Prelude.v
PyText.v
PyFloat.v
Enums.v
SymbolMatch.v
PyDecimal.v
Attribution.v
PyNum.v
Calendar.v
TradingCalendar.v
Records.v
Models.v
Safeguards.v
Book.v
Ledger.v
Samples.v
PositionManager.v
StrategyExecutor.v
DirectExit.v
DayState.v
ScripMaster.v
FuturesResolver.v
AiValidator.v
PineMapper.v
RateLimit.v
CircuitBreaker.v
BreakerSafety.v
MarketShield.v
OrderService.v
KillSwitch.v
KillSafety.v
KillGate.v
Webhook.v
WebhookSafety.v
WebhookGate.v
BrokerBatch.v
Fanout.v
StrategyWebhook.v
FanoutSafety.v
Mirroring.v
MirroredExit.v
StrategyGate.v
AnomalyShield.v
TradeDna.v
OptionOrder.v
PaperExecutors.v
ExpirySweeps.v
SignalTask.v
SignalSafety.v
SignalGuarantees.v
DhanBroker.v
DhanSafety.v
TradeBook.v
PnlReconciler.v
PnlSafety.v
TruthCheck.v
PnlCommand.v
StrategyDsl.v
Engines.v
PaperTrading.v
LiveOrders.v
Backtest.v
BacktestSafety.v
Subscribers.v
DriftSafety.v
Reconcile.v
ReconcileSafety.v
ReconcileAlerts.v
Lifecycle.v
