(* ===== verification/Prelude.v ===== *)
(** * Trading Bridge: a verification library

    The program (backend/app under src/, Python) receives trading signals,
    executes them at a retail broker or on paper, tracks the resulting positions
    in a database and exits them, mirrors them to marketplace subscribers,
    guards every account with a loss brake and compares what it believes with
    what the brokers hold.  This library models the trading core as executable
    definitions and proves what makes it correct.

    ** Parts of the program and the files that model them

    - Foundations.  [Prelude]: results, tactics, list and integer lemmas.
      [Records]: record update.  [PyText], [PyFloat], [PyDecimal], [PyNum]:
      the fragments of Python the program computes with (ASCII strings and
      regular expressions, binary64 floats, the decimal module's default
      context, numbers in JSON payloads).
    - [SymbolMatch] (services/symbol_match.py): contract identity across the
      spellings of a symbol, and the scans of a broker's position list.
    - [Attribution] (domains/pnl_reconciler/attribution.py): which fills of an
      account price a bot trade.
    - [Models]: the schemas (schemas/broker.py), the rows (db/models), the
      broker and Redis contracts as type classes, and the world that the
      services act on, with the state-and-exception monad [M].  [Book] is the
      invariant of the positions table, [Ledger] the abstract specification
      the table refines, [Samples] the concrete broker and rows the witnesses
      evaluate.
    - [Safeguards] (core/signal_idempotency.py, services/ambiguous_fill.py,
      services/paper_mode_resolver.py), [StrategyExecutor]
      (services/strategy_executor.py), [PositionManager]
      (services/position_manager.py), [DirectExit] (services/direct_exit.py
      and the dispatch of tasks/signal_execution.py): entries, the exit loop
      and Pine-driven exits of the strategy owner.
    - [DayState] (core/redis_client.py, services/pnl_service.py), [KillSwitch]
      with [KillSafety] and [KillGate] (services/kill_switch_service.py,
      services/master_emergency.py): daily counters and the loss brake.
    - [BrokerBatch] (services/broker_position_batch.py), [Fanout] with
      [FanoutSafety] and [Mirroring] (services/marketplace_fanout.py,
      strategy_engine/instrument_router.py), [MirroredExit] (the hook of
      services/direct_exit.py), [Subscribers] with [DriftSafety]
      (services/subscriber_broker_positions.py,
      services/subscriber_drift_service.py, workers/subscriber_drift_pass.py):
      the marketplace.
    - [Reconcile] with [ReconcileSafety] and [ReconcileAlerts]
      (workers/reconciliation_loop.py, services/broker_resting_stops.py).
    - [Enums] (the enumerations of schemas/broker.py), [CircuitBreaker] with
      [BreakerSafety] (services/circuit_breaker_service.py), [RateLimit] (the
      limiter of core/redis_client.py), [OrderService]
      (services/order_service.py, schemas/webhook.py), [Webhook] with
      [WebhookSafety] and [WebhookGate] (api/webhook.py, sanitize_input of
      core/security_ext.py): a TradingView alert from the request to the order.
    - [Calendar] (dates and the IST clock), [TradingCalendar]
      (strategy_engine/trading_calendar.py), [ScripMaster] (class _ScripMaster of
      brokers/dhan.py), [FuturesResolver] (services/futures_resolver.py),
      [PineMapper] (services/pine_mapper.py), [AiValidator]
      (services/ai_validator.py), [MarketShield]
      (services/market_shield_service.py), [StrategyWebhook] with [StrategyGate]
      (api/strategy_webhook.py, schemas/strategy_webhook.py,
      services/position_lookup.py): a strategy alert from the request to the
      persisted signal.
    - [AnomalyShield] (services/anomaly_shield_service.py), [TradeDna]
      (services/trade_dna_service.py, services/probability_engine.py),
      [OptionOrder] (the options builder of services/pine_mapper.py,
      schemas/pine_webhook.py), [PaperExecutors] (services/cash_executor.py,
      services/options_executor.py), [SignalTask] with [SignalSafety] and
      [SignalGuarantees] (tasks/signal_execution.py): the worker that executes a
      persisted signal.
    - [DhanBroker] with [DhanSafety] (brokers/dhan.py): the Dhan adapter as an
      instance of [BrokerInterface], over a Dhan that is a parameter.
    - [TradeBook] (tradebook.py, order_tape.py), [PnlReconciler] with [PnlSafety]
      (service.py, costs.py), [TruthCheck] (ingest.py, truth_check.py,
      truth_check_runner.py), [PnlCommand] (__main__.py), all of
      domains/pnl_reconciler/ around [Attribution]: realized P&L after the fact and
      the daily comparison with the broker.
    - [StrategyDsl] (schema/strategy.py), [Engines] (engines/, schema/ohlcv.py),
      [PaperTrading] (paper_trading/ and its two tables), [LiveOrders]
      (live_orders/, the live-trading flag of feature_flags/), [Backtest] with
      [BacktestSafety] (backtest/), all of strategy_engine/: strategies as documents,
      what a bar makes of them, and the path from a paper record to a live order.
    - [ExpirySweeps] (services/futures_expiry_backstop.py,
      services/options_expiry_sweep.py): the scheduled expiry passes.
    - [Lifecycle]: the services that write positions as one step relation on worlds.

    Parts interact through the world: rows, Redis keys, alerts and broker calls
    written by one service are read by the next.  Definitions keep the names of
    the functions they translate (a leading underscore is dropped); a handler of
    the source is one definition with its guards and early returns in the
    source's order, and its state changes happen in [M], where a raise keeps the
    changes made before it.

    ** What the theorems show

    - Whole system ([Lifecycle]): in every reachable state each row has
      0 <= remaining <= total and is closed exactly at zero, ids are unique and
      there is one open row per strategy, symbol, side and subscription; every
      run refines the ledger; a closed row stays closed.
    - Entries and exits: one order per signal, sized in whole lots, rows sized by
      what the broker confirmed, failures leave the book alone; the tick rules
      of the exit loop in their order of precedence, conservation of lots,
      termination.
    - Kill switch: the flag goes up before anything is sent and holds until a
      reset, a square-off touches only the user's own rows and accounts and
      closes or reports each of them, a subscriber's kill stays contained.
    - Marketplace: subscribers are isolated from the owner and from each other,
      a re-delivered signal is mirrored once, mirrored exits take at least one
      unit and at most what the copy has, an unverified position authorises
      nothing, a batch of broker calls keeps its limits and misses no timely
      answer, a drift pass demotes exactly the confirmed shortfalls.
    - Reconciliation: a tick only observes, watches exactly the accounts the
      executor trades on, is silent exactly on agreement, and repeats a standing
      alert at a bounded cadence.
    - TradingView alerts: an order needs every gate and goes to the alert's own
      user, an alert is executed once a minute at most, an answered alert is one
      trade row and one count, which accepted payloads are orders; a halted
      instrument stays halted; the limiter admits at most its maximum in any
      window.
    - Strategy alerts: a persisted signal is canonical and unique, an exit is
      pinned to the contract that is held, an entry's contract follows the roll
      rule, a held exit has exactly one fate.
    - Signal worker: a task sends once, an entry trades only through every gate, a
      replayed Pine fire is suppressed, the signal's status never hides a
      position, an anomaly trip blocks for exactly its cooldown, an option order is
      a whole-lot buy of the nearest eligible contract.
    - Dhan: an order leaves the adapter at most three times and only through
      place_order, a fill is what the orderbook last said, a position is closed
      where it was read.
    - P&L: a published amount is the bot's own round trip less what the broker billed,
      a run is row by row and idempotent, settled rows are kept, the scheduled scan
      never prices live money; a green check means the record matches the book, an
      ingested day is fully recorded, a verdict is told once.
    - Strategy engine: a validated strategy is well formed and is read back from its
      column; a bar's exits are exactly what it triggers; a paper session holds one
      position, its completed sessions are distinct days; a live order needs every
      gate; a backtest does not look ahead, trades on signals only and keeps the
      caps.  Prices there are binary64 numbers with the rounding of the code.
    - Expiry: a sweep empties exactly the rows that are due, a fresh entry is clear
      of the backstop, the stored bars never show a session to come.
    - Attribution and symbols: a priced trade consists of the bot's own fills
      and its gross is their cash flow; the spellings of a contract agree.

    Broker, Redis store, cipher, scrip master, margin check, digests, the JSON
    reader and writer, the coercions of the validation library ([Coercion]) and the
    stored daily bars are parameters.  Theorems hold for any of them; where
    they depend on Redis the store satisfies [RedisLaws] (documented SET NX EX, GET
    and DEL behaviour), where they depend on the position provider it satisfies
    [ProviderLaws].  The witnesses instantiate them by [ScriptedBroker] and
    [store].

    ** Fuel and bounds

    Recursion is structural except in five number routines.  [digit_count] and
    [digits_fuel] get one unit per binary digit of the argument, more than its
    decimal digits ([ndigits_fuel], [int_of_digits_fuel]); [strip_zeros] gets the
    number of digits a quotient may have to lose; [shortest] tries the 17
    significant digits that always identify a double; [find_top] moves one power
    of ten per unit from a start that is a few powers away.  Integers are
    unbounded, as Python's are.  Times are whole seconds (milliseconds in
    [BrokerBatch]).

    ** Not modelled

    Logging, message texts and delivery of alerts (levels, events and figures are
    kept), Redis failures (Redis is taken to be reachable), rounding of Numeric
    columns on reload, Decimal special values, transaction boundaries other than
    the savepoints of the fan-out and the commits of the signal row, reading the
    drift bias from the environment and the random draws (arguments),
    interleaving of concurrently gathered broker calls other than in
    [BrokerBatch] (they act on disjoint rows and are served one after the other),
    the persistent halt flag of the emergency service, the listing of past trips,
    endless loops around single ticks.

    HTTP routes other than the two webhooks, authentication, plans and
    entitlements, the other broker adapters, the reports and messages as text, and
    of the strategy engine the indicator kernels, the importers and translator and
    the reliability and truth reports are separate subsystems that the trading core
    only calls or is called by; the series and scores they produce are arguments. *)

From Stdlib Require Import ZArith Lia List Bool.
From stdpp Require Import base list strings.

#[global] Open Scope Z_scope.

(** ** Results and the exception-free fragment

    Fallible pure code returns a [result]; code that also changes shared state
    runs in the state monad of [Models.v], which is built on it. *)

Inductive result (E A : Type) : Type :=
| Ok (a : A)
| Err (e : E).

Arguments Ok {E A} a.
Arguments Err {E A} e.

(** Exception propagation: [x ← m; k] (stdpp's monad notation). *)
#[export] Instance result_ret {E : Type} : MRet (result E) := fun A a => Ok a.

#[export] Instance result_bind {E : Type} : MBind (result E) :=
  fun A B k m =>
    match m with
    | Ok a => k a
    | Err e => Err e
    end.

Definition is_ok {E A : Type} (m : result E A) : bool :=
  match m with
  | Ok _ => true
  | Err _ => false
  end.

Lemma res_bind_ok {E A B : Type} (m : result E A) (k : A -> result E B) b :
  (m ≫= k) = Ok b <-> exists a, m = Ok a /\ k a = Ok b.
Proof. destruct m as [a|e]; simpl; split; [eauto | by intros (? & [= ->] & ?) | done | by intros (? & ? & ?)]. Qed.

(** ** Tactics of the development *)

(** Case analysis on the scrutinee of a match or conditional of the goal. *)
Ltac split_match :=
  match goal with
  | |- context [match ?x with _ => _ end] =>
      lazymatch x with
      | context [match _ with _ => _ end] => fail
      | _ => destruct x eqn:?
      end
  end.

(** The same for a hypothesis. *)
Ltac split_match_in H :=
  match type of H with
  | context [match ?x with _ => _ end] =>
      lazymatch x with
      | context [match _ with _ => _ end] => fail
      | _ => destruct x eqn:?
      end
  end.

(** Turn boolean tests of the code into the propositions they decide. *)
Ltac bool_to_prop :=
  repeat match goal with
  | H : (_ && _) = true |- _ => apply andb_prop in H; destruct H
  | H : (_ || _) = false |- _ => apply orb_false_elim in H; destruct H
  | H : (_ && _) = false |- _ => apply andb_false_iff in H
  | H : (_ || _) = true |- _ => apply orb_true_iff in H
  | H : negb _ = true |- _ => apply negb_true_iff in H
  | H : negb _ = false |- _ => apply negb_false_iff in H
  | H : (_ <=? _) = true |- _ => apply Z.leb_le in H
  | H : (_ <=? _) = false |- _ => apply Z.leb_gt in H
  | H : (_ <? _) = true |- _ => apply Z.ltb_lt in H
  | H : (_ <? _) = false |- _ => apply Z.ltb_ge in H
  | H : (_ >? _) = true |- _ => apply Z.gtb_lt in H
  | H : (_ =? _) = true |- _ => apply Z.eqb_eq in H
  | H : (_ =? _) = false |- _ => apply Z.eqb_neq in H
  | H : String.eqb _ _ = true |- _ => apply String.eqb_eq in H
  | H : String.eqb _ _ = false |- _ => apply String.eqb_neq in H
  | H : bool_decide _ = true |- _ => apply bool_decide_eq_true in H
  | H : bool_decide _ = false |- _ => apply bool_decide_eq_false in H
  end.

(** ** Sums over lists *)

Definition sum_by {A : Type} (f : A -> Z) (l : list A) : Z :=
  foldr (fun x acc => f x + acc) 0 l.

Section SumBy.
Context {A : Type}.
Implicit Types (f g : A -> Z) (l : list A).

Lemma sum_by_nil f : sum_by f [] = 0.
Proof. reflexivity. Qed.

Lemma sum_by_cons f x l : sum_by f (x :: l) = f x + sum_by f l.
Proof. reflexivity. Qed.

Lemma sum_by_app f l1 l2 : sum_by f (l1 ++ l2) = sum_by f l1 + sum_by f l2.
Proof. induction l1 as [|x l1 IH]; simpl; [reflexivity|]. rewrite IH. lia. Qed.

Lemma sum_by_perm f l1 l2 : l1 ≡ₚ l2 -> sum_by f l1 = sum_by f l2.
Proof. induction 1; simpl in *; lia. Qed.

Lemma sum_by_nonneg f l : (forall x, In x l -> 0 <= f x) -> 0 <= sum_by f l.
Proof.
  induction l as [|x l IH]; simpl; intros H; [lia|].
  specialize (IH (fun y Hy => H y (or_intror Hy))). specialize (H x (or_introl eq_refl)). lia.
Qed.

Lemma sum_by_ge_elem f l x :
  (forall y, In y l -> 0 <= f y) -> In x l -> f x <= sum_by f l.
Proof.
  intros Hnn Hin. apply in_split in Hin as (l1 & l2 & ->).
  rewrite sum_by_app, sum_by_cons.
  pose proof (sum_by_nonneg f l1) as H1. pose proof (sum_by_nonneg f l2) as H2.
  setoid_rewrite in_app_iff in Hnn. simpl in Hnn.
  specialize (H1 ltac:(eauto)). specialize (H2 ltac:(eauto)). lia.
Qed.

Lemma sum_by_ext f g l : (forall x, In x l -> f x = g x) -> sum_by f l = sum_by g l.
Proof.
  induction l as [|x l IH]; simpl; intros H; [reflexivity|].
  rewrite (H x (or_introl eq_refl)), IH by eauto. reflexivity.
Qed.

Lemma sum_by_scale f c l : sum_by (fun x => c * f x) l = c * sum_by f l.
Proof. induction l as [|x l IH]; simpl; [lia|]. rewrite IH. lia. Qed.
End SumBy.

Create HintDb bridge.
Create Rewrite HintDb bridge.
#[export] Hint Rewrite @sum_by_nil @sum_by_cons @sum_by_app : bridge.
#[export] Hint Resolve sum_by_nonneg : bridge.
