(* ===== verification/PyText.v ===== *)
(** * Python text: ASCII strings and the [re] fragment the program uses

    A Python [str] is modelled by its list of characters ([text]); the symbols
    and payload words the program handles are ASCII, and the functions below
    are Python's on ASCII input ([str.upper], [str.lower], [str.strip],
    [str.partition], [int] on digit strings).  Regular expressions are syntax
    ([regex]) with a backtracking matcher ([run]) that explores alternatives in
    the order of Python's engine: greedy repetition tries the longest run
    first, lazy repetition the shortest, an alternation its left branch.
    [derives] is the language of a pattern together with its captures;
    [run_sound] says that what the matcher returns is in it. *)

From Stdlib Require Import ZArith Lia List Bool Ascii String.
From stdpp Require Import base list strings.
From S2P Require Import Prelude.

Abbreviation text := (list ascii).

Definition L (s : string) : text := list_ascii_of_string s.

(** ** Characters *)

Definition between (lo hi c : ascii) : bool :=
  (N_of_ascii lo <=? N_of_ascii c)%N && (N_of_ascii c <=? N_of_ascii hi)%N.

Definition is_upper (c : ascii) : bool := between "A" "Z" c.
Definition is_lower (c : ascii) : bool := between "a" "z" c.
Definition is_digit (c : ascii) : bool := between "0" "9" c.
Definition is_upnum (c : ascii) : bool := is_upper c || is_digit c.

(** The ASCII characters [str.strip] removes: tab to carriage return, the
    separators FS to US, and the space. *)
Definition is_space (c : ascii) : bool :=
  between "009" "013" c || between "028" " " c.

Definition up_char (c : ascii) : ascii :=
  if is_lower c then ascii_of_N (N_of_ascii c - 32) else c.

Definition low_char (c : ascii) : ascii :=
  if is_upper c then ascii_of_N (N_of_ascii c + 32) else c.

Definition upper (s : text) : text := map up_char s.
Definition lower (s : text) : text := map low_char s.

Fixpoint lstrip (s : text) : text :=
  match s with
  | c :: s' => if is_space c then lstrip s' else s
  | [] => []
  end.

Definition strip (s : text) : text := rev (lstrip (rev (lstrip s))).

Definition str_upper (s : string) : string := string_of_list_ascii (upper (L s)).
Definition str_lower (s : string) : string := string_of_list_ascii (lower (L s)).
Definition str_strip (s : string) : string := string_of_list_ascii (strip (L s)).

(** [s.partition(":")]: [None] when the separator is absent. *)
Fixpoint partition_at (sep : ascii) (s : text) : option (text * text) :=
  match s with
  | [] => None
  | c :: s' =>
      if Ascii.eqb c sep then Some ([], s')
      else
        match partition_at sep s' with
        | Some (h, t) => Some (c :: h, t)
        | None => None
        end
  end.

(** [s in names]. *)
Definition one_of (name : string) (names : list string) : bool := existsb (String.eqb name) names.

Lemma one_of_In (s : string) (l : list string) : one_of s l = true <-> In s l.
Proof.
  unfold one_of. rewrite existsb_exists. split.
  - intros (x & Hx & E). apply String.eqb_eq in E. now subst.
  - intros Hx. exists s. split; [exact Hx | apply String.eqb_refl].
Qed.

(** [s.split(sep)] for one character. *)
Fixpoint split_on (sep : ascii) (s : text) : list text :=
  match s with
  | [] => [[]]
  | c :: s' =>
      if Ascii.eqb c sep then [] :: split_on sep s'
      else match split_on sep s' with part :: parts => (c :: part) :: parts | [] => [[c]] end
  end.

Definition ends_with (suffix s : text) : bool :=
  (length suffix <=? length s)%nat
  && bool_decide (drop (length s - length suffix) s = suffix).

(** [int(s)] on a string of ASCII digits. *)
Definition digit_val (c : ascii) : Z := Z.of_N (N_of_ascii c) - 48.

Definition int_of (s : text) : Z :=
  fold_left (fun acc c => 10 * acc + digit_val c) s 0.

(** [str(n)] for a non-negative integer. *)
Definition digit_char (d : Z) : ascii := ascii_of_N (Z.to_N (48 + d)).

Fixpoint digits_fuel (fuel : nat) (n : Z) (acc : text) : text :=
  match fuel with
  | O => acc
  | S fuel' =>
      if n <? 10 then digit_char n :: acc
      else digits_fuel fuel' (n / 10) (digit_char (n mod 10) :: acc)
  end.

Definition str_of_nonneg (n : Z) : text := digits_fuel (S (Z.to_nat (Z.log2 n))) n [].

(** [n] as exactly [w] digits, most significant first (format [%0wd]). *)
Fixpoint digits_width (w : nat) (n : Z) : text :=
  match w with
  | O => []
  | S w' => digits_width w' (n / 10) ++ [digit_char (n mod 10)]
  end.

(** ** Regular expressions *)

Inductive regex : Type :=
| Lit (s : text)
| Rep (p : ascii -> bool) (lo : nat) (hi : option nat) (greedy : bool)
| Cat (r1 r2 : regex)
| Alt (r1 r2 : regex)
| Grp (n : nat) (r : regex)
| Eos.

Abbreviation caps := (list (nat * text)).

(** The characters consumed between two suffixes of the input. *)
Definition consumed (s s' : text) : text := take (length s - length s') s.

Section Repetition.
Context (p : ascii -> bool) (greedy : bool) (k : text -> option caps).

Fixpoint run_rep (lo : nat) (hi : option nat) (s : text) : option caps :=
  let stop := match lo with O => k s | S _ => None end in
  match hi, s with
  | Some O, _ => stop
  | _, [] => stop
  | _, c :: s' =>
      if p c then
        if greedy then
          match run_rep (pred lo) (pred <$> hi) s' with
          | Some out => Some out
          | None => stop
          end
        else
          match stop with
          | Some out => Some out
          | None => run_rep (pred lo) (pred <$> hi) s'
          end
      else stop
  end.
End Repetition.

(** [$] without MULTILINE: the end of the string or just before a final newline. *)
Definition at_end (s : text) : bool :=
  match s with
  | [] => true
  | [c] => Ascii.eqb c "010"
  | _ => false
  end.

Fixpoint strip_prefix (pre s : text) : option text :=
  match pre, s with
  | [], _ => Some s
  | c :: pre', d :: s' => if Ascii.eqb c d then strip_prefix pre' s' else None
  | _ :: _, [] => None
  end.

Fixpoint run (r : regex) (s : text) (cs : caps) (k : text -> caps -> option caps) : option caps :=
  match r with
  | Lit l => match strip_prefix l s with Some s' => k s' cs | None => None end
  | Rep p lo hi greedy => run_rep p greedy (fun s' => k s' cs) lo hi s
  | Cat r1 r2 => run r1 s cs (fun s' cs' => run r2 s' cs' k)
  | Alt r1 r2 =>
      match run r1 s cs k with
      | Some out => Some out
      | None => run r2 s cs k
      end
  | Grp n r1 => run r1 s cs (fun s' cs' => k s' ((n, consumed s s') :: cs'))
  | Eos => if at_end s then k s cs else None
  end.

(** [pattern.match(s)]: the captured groups of the first match at the start. *)
Definition re_match (r : regex) (s : text) : option caps := run r s [] (fun _ cs => Some cs).

Definition group (n : nat) (cs : caps) : text :=
  match find (fun e => Nat.eqb (fst e) n) cs with
  | Some (_, t) => t
  | None => []
  end.

(** ** The language of a pattern *)

(** [derives r s rest cs cs']: [r] can consume [s] when [rest] follows it,
    extending the captures [cs] to [cs']. *)
Inductive derives : regex -> text -> text -> caps -> caps -> Prop :=
| D_Lit l rest cs : derives (Lit l) l rest cs cs
| D_Rep p lo hi g s rest cs :
    forallb p s = true ->
    (lo <= length s)%nat ->
    (forall h, hi = Some h -> (length s <= h)%nat) ->
    derives (Rep p lo hi g) s rest cs cs
| D_Cat r1 r2 s1 s2 rest cs cs1 cs2 :
    derives r1 s1 (s2 ++ rest) cs cs1 ->
    derives r2 s2 rest cs1 cs2 ->
    derives (Cat r1 r2) (s1 ++ s2) rest cs cs2
| D_AltL r1 r2 s rest cs cs' : derives r1 s rest cs cs' -> derives (Alt r1 r2) s rest cs cs'
| D_AltR r1 r2 s rest cs cs' : derives r2 s rest cs cs' -> derives (Alt r1 r2) s rest cs cs'
| D_Grp n r s rest cs cs' : derives r s rest cs cs' -> derives (Grp n r) s rest cs ((n, s) :: cs')
| D_Eos rest cs : at_end rest = true -> derives Eos [] rest cs cs.

Lemma strip_prefix_spec pre s s' : strip_prefix pre s = Some s' <-> s = pre ++ s'.
Proof.
  revert s. induction pre as [|c pre IH]; intros [|d s]; simpl; try naive_solver.
  destruct (Ascii.eqb_spec c d) as [->|Hne]; [|naive_solver].
  rewrite IH. naive_solver.
Qed.

Lemma consumed_app s1 s2 : consumed (s1 ++ s2) s2 = s1.
Proof.
  unfold consumed. rewrite length_app.
  replace (length s1 + length s2 - length s2)%nat with (length s1) by lia.
  apply take_app_length.
Qed.

Lemma run_rep_sound p g k lo hi s out :
  run_rep p g k lo hi s = Some out ->
  exists s1 s2, s = s1 ++ s2 /\ forallb p s1 = true /\ (lo <= length s1)%nat
    /\ (forall h, hi = Some h -> (length s1 <= h)%nat) /\ k s2 = Some out.
Proof.
  revert lo hi. induction s as [|c s IH]; intros lo hi.
  - simpl. destruct hi as [[|h]|]; destruct lo; intros H; try discriminate;
      exists [], []; repeat split; simpl; auto with lia.
  - assert (Hstop : match lo with O => k (c :: s) | S _ => None end = Some out ->
      exists s1 s2, c :: s = s1 ++ s2 /\ forallb p s1 = true /\ (lo <= length s1)%nat
        /\ (forall h, hi = Some h -> (length s1 <= h)%nat) /\ k s2 = Some out).
    { destruct lo; [|discriminate]. intros H. exists [], (c :: s).
      repeat split; simpl; auto with lia. }
    assert (Hstep : p c = true -> hi <> Some O -> run_rep p g k (pred lo) (pred <$> hi) s = Some out ->
      exists s1 s2, c :: s = s1 ++ s2 /\ forallb p s1 = true /\ (lo <= length s1)%nat
        /\ (forall h, hi = Some h -> (length s1 <= h)%nat) /\ k s2 = Some out).
    { intros Hp Hhi H. apply IH in H as (s1 & s2 & -> & Hall & Hlo & Hle & Hk).
      exists (c :: s1), s2. simpl. rewrite Hp. repeat split; auto; [lia|].
      intros h ->. specialize (Hle (pred h) eq_refl). destruct h; [done|simpl in *; lia]. }
    simpl. destruct hi as [[|h]|]; [by auto | |]; destruct (p c) eqn:Hp; auto;
      destruct g; intros H.
    all: match type of H with
         | match ?m with Some _ => _ | None => _ end = _ => destruct m eqn:E
         end; simplify_eq; auto.
Qed.

Theorem run_sound r s cs k out :
  run r s cs k = Some out ->
  exists s1 s2 cs', s = s1 ++ s2 /\ derives r s1 s2 cs cs' /\ k s2 cs' = Some out.
Proof.
  revert s cs k. induction r as [l|p lo hi g|r1 IH1 r2 IH2|r1 IH1 r2 IH2|n r IH|]; simpl; intros s cs k H.
  - destruct (strip_prefix l s) as [s'|] eqn:E; [|discriminate].
    apply strip_prefix_spec in E as ->. exists l, s', cs. eauto using derives.
  - apply run_rep_sound in H as (s1 & s2 & -> & ? & ? & ? & ?).
    exists s1, s2, cs. eauto using derives.
  - apply IH1 in H as (s1 & s2 & cs1 & -> & D1 & H).
    apply IH2 in H as (s3 & s4 & cs2 & -> & D2 & H).
    exists (s1 ++ s3), s4, cs2. rewrite app_assoc. eauto using derives.
  - destruct (run r1 s cs k) eqn:E; simplify_eq.
    + apply IH1 in E as (s1 & s2 & cs' & -> & ? & ?).
      exists s1, s2, cs'. eauto using derives.
    + apply IH2 in H as (s1 & s2 & cs' & -> & ? & ?).
      exists s1, s2, cs'. eauto using derives.
  - apply IH in H as (s1 & s2 & cs' & -> & D & H). rewrite consumed_app in H.
    exists s1, s2, ((n, s1) :: cs'). eauto using derives.
  - destruct (at_end s) eqn:E; [|discriminate]. exists [], s, cs. eauto using derives.
Qed.

Lemma re_match_sound r s cs :
  re_match r s = Some cs -> exists s1 s2, s = s1 ++ s2 /\ derives r s1 s2 [] cs.
Proof. intros H. apply run_sound in H as (s1 & s2 & cs' & -> & D & [= ->]). eauto. Qed.

(** ** Evaluating the matcher on symbolic input *)

Definition head_not (p : ascii -> bool) (s : text) : Prop :=
  match s with
  | [] => True
  | c :: _ => p c = false
  end.

Lemma run_rep_fixed p g k n a b :
  length a = n -> forallb p a = true ->
  run_rep p g k n (Some n) (a ++ b) = k b.
Proof.
  intros <-. induction a as [|c a IH]; simpl; intros H.
  - by destruct b.
  - apply andb_prop in H as [-> Ha]. specialize (IH Ha).
    destruct g; simpl in *; rewrite IH; [by destruct (k b) | done].
Qed.

Lemma run_rep_greedy p k lo a b out :
  forallb p a = true -> (lo <= length a)%nat -> head_not p b -> k b = Some out ->
  run_rep p true k lo None (a ++ b) = Some out.
Proof.
  revert lo. induction a as [|c a IH]; simpl; intros lo Ha Hlo Hb Hk.
  - destruct lo; [|lia]. destruct b as [|d b]; simpl; [done|]. simpl in Hb. by rewrite Hb.
  - apply andb_prop in Ha as [-> Ha]. rewrite (IH (pred lo)); auto; lia.
Qed.

Lemma run_rep_lazy p k a b out :
  forallb p a = true ->
  (forall a1 a2, a = a1 ++ a2 -> a2 <> [] -> k (a2 ++ b) = None) ->
  k b = Some out ->
  run_rep p false k 0 None (a ++ b) = Some out.
Proof.
  induction a as [|c a IH]; simpl; intros Ha Hno Hk.
  - destruct b as [|d b]; simpl; [done|]. rewrite Hk. by destruct (p d).
  - apply andb_prop in Ha as [-> Ha].
    pose proof (Hno [] (c :: a) eq_refl ltac:(done)) as E. simpl in E. rewrite E.
    apply IH; auto. intros a1 a2 -> Hne. exact (Hno (c :: a1) a2 eq_refl Hne).
Qed.

(** Decimal digits. *)

Lemma digit_char_range d : 0 <= d < 10 ->
  is_digit (digit_char d) = true /\ digit_val (digit_char d) = d.
Proof.
  intros H.
  assert (d = 0 \/ d = 1 \/ d = 2 \/ d = 3 \/ d = 4 \/ d = 5 \/ d = 6 \/ d = 7 \/ d = 8 \/ d = 9) by lia.
  destruct_or?; subst; split; reflexivity.
Qed.

Lemma length_digits_width w n : length (digits_width w n) = w.
Proof.
  revert n. induction w as [|w IH]; intros n; simpl; [done|].
  rewrite length_app, IH. simpl. lia.
Qed.

Lemma digits_width_digits w n : forallb is_digit (digits_width w n) = true.
Proof.
  revert n. induction w as [|w IH]; intros n; simpl; [done|].
  rewrite forallb_app, IH. simpl.
  destruct (digit_char_range (n mod 10)) as [-> _]; [apply Z.mod_pos_bound; lia | done].
Qed.

Lemma int_of_snoc s c : int_of (s ++ [c]) = 10 * int_of s + digit_val c.
Proof. unfold int_of. by rewrite fold_left_app. Qed.

Lemma int_of_digits_width w n :
  0 <= n < 10 ^ Z.of_nat w -> int_of (digits_width w n) = n.
Proof.
  revert n. induction w as [|w IH]; intros n Hn; simpl.
  - change (10 ^ Z.of_nat 0) with 1 in Hn. cbn. lia.
  - rewrite Nat2Z.inj_succ, Z.pow_succ_r in Hn by lia.
    rewrite int_of_snoc, IH by (split; [apply Z.div_pos; lia | apply Z.div_lt_upper_bound; lia]).
    destruct (digit_char_range (n mod 10)) as [_ ->]; [apply Z.mod_pos_bound; lia |].
    pose proof (Z.div_mod n 10). lia.
Qed.

Lemma digit_val_range c : is_digit c = true -> 0 <= digit_val c <= 9.
Proof.
  unfold is_digit, between, digit_val. intros H. apply andb_prop in H as [H1 H2].
  apply N.leb_le in H1, H2. change (N_of_ascii "0") with 48%N in H1.
  change (N_of_ascii "9") with 57%N in H2. lia.
Qed.

Lemma int_of_range s : forallb is_digit s = true -> 0 <= int_of s < 10 ^ Z.of_nat (length s).
Proof.
  induction s as [|c s IH] using rev_ind; simpl; intros H; [cbn; lia|].
  rewrite forallb_app in H. simpl in H. apply andb_prop in H as [Hs Hc].
  rewrite andb_true_r in Hc. apply digit_val_range in Hc. specialize (IH Hs).
  rewrite int_of_snoc, length_app, Nat2Z.inj_add, Z.pow_add_r by lia.
  change (10 ^ Z.of_nat (length [c])) with 10. lia.
Qed.

(** Case and whitespace. *)

Lemma up_char_fix c : is_lower c = false -> up_char c = c.
Proof. unfold up_char. by intros ->. Qed.

Lemma upper_fix s : forallb (fun c => negb (is_lower c)) s = true -> upper s = s.
Proof.
  induction s as [|c s IH]; simpl; [done|]. intros H. apply andb_prop in H as [Hc Hs].
  apply negb_true_iff in Hc. by rewrite up_char_fix, IH.
Qed.

Lemma lstrip_fix c s : is_space c = false -> lstrip (c :: s) = c :: s.
Proof. simpl. by intros ->. Qed.

Lemma forall_ascii (P : ascii -> bool) :
  forallb (fun n => P (ascii_of_nat n)) (seq 0 256) = true -> forall c, P c = true.
Proof.
  intros H c. rewrite forallb_forall in H.
  specialize (H (nat_of_ascii c)). rewrite ascii_nat_embedding in H. apply H.
  apply in_seq. pose proof (nat_ascii_bounded c). lia.
Qed.

Lemma up_char_idem c : up_char (up_char c) = up_char c.
Proof. apply Ascii.eqb_eq. revert c. apply forall_ascii. by vm_compute. Qed.

Lemma is_space_up c : is_space (up_char c) = is_space c.
Proof. apply eqb_prop. revert c. apply forall_ascii. by vm_compute. Qed.

Lemma up_low_char c : up_char (low_char c) = up_char c.
Proof. apply Ascii.eqb_eq. revert c. apply forall_ascii. by vm_compute. Qed.

Lemma is_space_low c : is_space (low_char c) = is_space c.
Proof. apply eqb_prop. revert c. apply forall_ascii. by vm_compute. Qed.

Lemma lstrip_map f s :
  (forall c, is_space (f c) = is_space c) -> lstrip (map f s) = map f (lstrip s).
Proof. intros Hf. induction s as [|c s IH]; simpl; [done|]. rewrite Hf. by destruct (is_space c). Qed.

Lemma strip_map f s :
  (forall c, is_space (f c) = is_space c) -> strip (map f s) = map f (strip s).
Proof. intros Hf. unfold strip. by rewrite (lstrip_map f), <- map_rev, (lstrip_map f), <- map_rev. Qed.

Lemma upper_lower s : upper (lower s) = upper s.
Proof. unfold upper, lower. rewrite map_map. apply map_ext, up_low_char. Qed.

Lemma upper_idem s : upper (upper s) = upper s.
Proof. unfold upper. rewrite map_map. apply map_ext, up_char_idem. Qed.

(** Leading and trailing blanks. *)
Lemma lstrip_blanks w s : forallb is_space w = true -> lstrip (w ++ s) = lstrip s.
Proof.
  induction w as [|c w IH]; simpl; [done|]. intros H. apply andb_prop in H as [-> Hw]. auto.
Qed.

Lemma lstrip_idem s : lstrip (lstrip s) = lstrip s.
Proof. induction s as [|c s IH]; simpl; [done|]. destruct (is_space c) eqn:E; [done|]. simpl. by rewrite E. Qed.

Lemma partition_at_none sep s : ~ In sep s -> partition_at sep s = None.
Proof.
  induction s as [|c s IH]; simpl; intros H; [done|].
  destruct (Ascii.eqb_spec c sep) as [->|]; [tauto|]. by rewrite IH by tauto.
Qed.

Lemma partition_at_app sep h t : ~ In sep h -> partition_at sep (h ++ sep :: t) = Some (h, t).
Proof.
  induction h as [|c h IH]; simpl; intros H.
  - by rewrite Ascii.eqb_refl.
  - destruct (Ascii.eqb_spec c sep) as [->|]; [tauto|]. by rewrite IH by tauto.
Qed.

Lemma lstrip_app s w : lstrip (s ++ w) = match lstrip s with [] => lstrip w | t => t ++ w end.
Proof.
  induction s as [|c s IH]; simpl; [done|]. destruct (is_space c) eqn:E; [done|]. done.
Qed.

Lemma strip_pad w1 s w2 :
  forallb is_space w1 = true -> forallb is_space w2 = true -> strip (w1 ++ s ++ w2) = strip s.
Proof.
  intros H1 H2. unfold strip. rewrite lstrip_blanks, lstrip_app by done.
  destruct (lstrip s) as [|c t] eqn:E.
  - rewrite <- (app_nil_r w2), lstrip_blanks by done. done.
  - rewrite rev_app_distr, lstrip_blanks; [done|].
    rewrite forallb_forall in *. intros x Hx%in_rev. auto.
Qed.
