(* ===== verification/PyFloat.v ===== *)
(** * Python floats: IEEE 754 binary64

    A Python [float] is an IEEE 754 double.  [float64] is the Standard Library's
    [spec_float] at precision 53 and maximal exponent 1024; the operations are
    its round-to-nearest-even operations, so every value below is the one
    CPython computes, rounding included.  [float_of_decimal] is the correctly
    rounded conversion of a decimal literal (what [float("2400.50")] does). *)

From Stdlib Require Import ZArith Lia List Bool Ascii SpecFloat.
From stdpp Require Import base list strings.
From S2P Require Import Prelude PyText.

Abbreviation float64 := spec_float.

Definition fprec : Z := 53.
Definition femax : Z := 1024.

Definition f_mul (x y : float64) : float64 := SFmul fprec femax x y.
Definition f_div (x y : float64) : float64 := SFdiv fprec femax x y.

Definition f_add (x y : float64) : float64 := SFadd fprec femax x y.
Definition f_sub (x y : float64) : float64 := SFsub fprec femax x y.
Definition f_sqrt (x : float64) : float64 := SFsqrt fprec femax x.
Definition f_abs (x : float64) : float64 := SFabs x.

(** Exact conversion of an integer, rounded to nearest even. *)
Definition f_of_Z (n : Z) : float64 := binary_normalize fprec femax n 0 false.

(** The double nearest to [m * 10^e], for [m >= 0]. *)
Definition float_of_decimal (m e : Z) : float64 :=
  if 0 <=? e then f_of_Z (m * 10 ^ e)
  else
    match m with
    | Zpos p =>
        let '(mz, ez, lz) := SFdiv_core_binary fprec femax (Zpos p) 0 (10 ^ (- e)) 0 in
        binary_round_aux fprec femax false mz ez lz
    | _ => S754_zero false
    end.

(** [float(s)] for a string of the shape [digits] or [digits.digits]. *)
Definition float_of_text (s : text) : float64 :=
  match partition_at "."%char s with
  | None => float_of_decimal (int_of s) 0
  | Some (ip, fp) => float_of_decimal (int_of (ip ++ fp)) (- Z.of_nat (length fp))
  end.

Definition f_is_integer (x : float64) : bool :=
  match x with
  | S754_zero _ => true
  | S754_finite _ m e => (0 <=? e) || (Zpos m mod 2 ^ (- e) =? 0)
  | _ => false
  end.

(** [int(x)]: truncation; [None] where Python raises (infinities, NaN). *)
Definition f_trunc (x : float64) : option Z :=
  match x with
  | S754_zero _ => Some 0
  | S754_finite s m e =>
      let a := if 0 <=? e then Zpos m * 2 ^ e else Zpos m / 2 ^ (- e) in
      Some (if s then - a else a)
  | _ => None
  end.

(** [math.floor(x)]; [None] where Python raises. *)
Definition f_floor (x : float64) : option Z :=
  match x with
  | S754_zero _ => Some 0
  | S754_finite s m e =>
      let v := if s then Zneg m else Zpos m in
      Some (if 0 <=? e then v * 2 ^ e else v / 2 ^ (- e))
  | _ => None
  end.

Definition f_ltb (x y : float64) : bool := SFltb x y.
Definition f_leb (x y : float64) : bool := SFleb x y.
Definition f_zero : float64 := S754_zero false.

Lemma f_floor_nonneg x z : f_ltb f_zero x = true -> f_floor x = Some z -> 0 <= z.
Proof.
  destruct x as [s|s| |s m e]; simpl; try discriminate.
  unfold f_ltb, SFltb; simpl. destruct s; [discriminate|]. intros _ [= <-].
  destruct (Z.leb_spec 0 e); [nia|]. apply Z.div_pos; lia.
Qed.
