(* ===== verification/Enums.v ===== *)
(** * The vocabulary of the broker contract (backend/app/schemas/broker.py)

    The string enums every other schema is built from. *)

From Stdlib Require Import String.
From stdpp Require Import base decidable.

Inductive BrokerName : Type := FYERS | DHAN | SHOONYA | ZERODHA | UPSTOX | ANGELONE.
Inductive OrderSide : Type := BUY | SELL.
Inductive OrderType : Type := MARKET | LIMIT | SL | SL_M.
Inductive ProductType : Type := INTRADAY | DELIVERY | MARGIN | BO | CO.
Inductive Exchange : Type := NSE | BSE | NFO | BFO | MCX | CDS | IDX.
Inductive OrderStatus : Type := PENDING | OPEN | COMPLETE | CANCELLED | REJECTED | PARTIAL.

#[export] Instance BrokerName_eq_dec : EqDecision BrokerName.
Proof. solve_decision. Defined.
#[export] Instance OrderSide_eq_dec : EqDecision OrderSide.
Proof. solve_decision. Defined.
#[export] Instance OrderType_eq_dec : EqDecision OrderType.
Proof. solve_decision. Defined.
#[export] Instance ProductType_eq_dec : EqDecision ProductType.
Proof. solve_decision. Defined.
#[export] Instance Exchange_eq_dec : EqDecision Exchange.
Proof. solve_decision. Defined.
#[export] Instance OrderStatus_eq_dec : EqDecision OrderStatus.
Proof. solve_decision. Defined.

(** The enum's string value. *)
Definition exchange_value (e : Exchange) : string :=
  match e with
  | NSE => "NSE" | BSE => "BSE" | NFO => "NFO" | BFO => "BFO" | MCX => "MCX" | CDS => "CDS" | IDX => "IDX"
  end.
