(* ===== verification/SymbolMatch.v ===== *)
(** * Symbol matching (backend/app/services/symbol_match.py)

    The stored (TradingView) and the broker spelling of one contract differ, so
    positions are compared through a parsed contract identity
    ([NormalizedSymbol]).  Comparison is tri-state: [Some true] (same contract),
    [Some false] (different contract), [None] (cannot tell).  The file models
    the five patterns, [normalize_symbol], [symbols_match] and the two scans of
    a broker's position list, and proves what callers rely on: every spelling of
    a contract parses to the same identity, what is returned is well formed,
    and the scans never turn "cannot tell" into an answer. *)

From Stdlib Require Import ZArith Lia List Bool Ascii String SpecFloat.
From stdpp Require Import base list strings.
From S2P Require Import Prelude PyText Enums PyFloat.

(** ** Patterns *)

Definition MONTHS : list text :=
  map L ["JAN"; "FEB"; "MAR"; "APR"; "MAY"; "JUN";
         "JUL"; "AUG"; "SEP"; "OCT"; "NOV"; "DEC"]%string.

Fixpoint index_from (n : Z) (l : list text) (s : text) : option Z :=
  match l with
  | [] => None
  | m :: l' => if bool_decide (m = s) then Some n else index_from (n + 1) l' s
  end.

(** [_MONTHS.get(s)]. *)
Definition month_of (s : text) : option Z := index_from 1 MONTHS s.

Definition exactly (p : ascii -> bool) (n : nat) : regex := Rep p n (Some n) true.
Definition many (p : ascii -> bool) : regex := Rep p 0 None true.
Definition many_lazy (p : ascii -> bool) : regex := Rep p 0 None false.
Definition lit (s : string) : regex := Lit (L s).
Definition opt (r : regex) : regex := Alt r (Lit []).

Declare Scope regex_scope.
Delimit Scope regex_scope with regex.
Infix "▷" := Cat (at level 60, right associativity) : regex_scope.
Open Scope regex_scope.

(** [[A-Z][A-Z0-9]*], greedy and lazy. *)
Definition root_re : regex := exactly is_upper 1 ▷ many is_upnum.
Definition root_lazy_re : regex := exactly is_upper 1 ▷ many_lazy is_upnum.

Definition CANONICAL_FUT : regex :=
  Grp 1 root_re ▷ lit "-" ▷ Grp 2 (exactly is_upper 3) ▷ Grp 3 (exactly is_digit 4)
    ▷ lit "-FUT" ▷ Eos.

Definition COMPACT_FUT : regex :=
  Grp 1 root_lazy_re ▷ Grp 2 (exactly is_digit 2) ▷ Grp 3 (exactly is_upper 3)
    ▷ lit "FUT" ▷ Eos.

(** [\d+(?:\.\d+)?] *)
Definition strike_re : regex :=
  Rep is_digit 1 None true ▷ opt (lit "." ▷ Rep is_digit 1 None true).

Definition right_re : regex := Alt (lit "CE") (lit "PE").

Definition OPTION : regex :=
  Grp 1 root_re ▷ lit "-" ▷ Grp 2 (Rep is_digit 1 (Some 2%nat) true)
    ▷ Grp 3 (exactly is_upper 3) ▷ Grp 4 (exactly is_digit 4)
    ▷ lit "-" ▷ Grp 5 strike_re ▷ lit "-" ▷ Grp 6 right_re ▷ Eos.

Definition OPTION_MONTHLY : regex :=
  Grp 1 root_re ▷ lit "-" ▷ Grp 2 (exactly is_upper 3) ▷ Grp 3 (exactly is_digit 4)
    ▷ lit "-" ▷ Grp 4 strike_re ▷ lit "-" ▷ Grp 5 right_re ▷ Eos.

Definition EQUITY : regex :=
  opt (Alt (lit "NSE") (Alt (lit "BSE") (Alt (lit "NFO") (lit "BFO"))) ▷ lit ":")
    ▷ Grp 1 root_lazy_re ▷ opt (lit "-EQ") ▷ Eos.

(** ** Contract identity *)

Inductive symbol_kind : Type := FUT | CE | PE | EQ.

#[export] Instance symbol_kind_eq_dec : EqDecision symbol_kind.
Proof. solve_decision. Defined.

Record NormalizedSymbol : Type := {
  root : text;
  kind : symbol_kind;
  year : option Z;
  month : option Z;
  day : option Z;
  strike : option text
}.

(** The comparable identity tuple. *)
Definition key (n : NormalizedSymbol)
  : text * symbol_kind * option Z * option Z * option Z * option text :=
  (root n, kind n, year n, month n, day n, strike n).

Definition expand_year (yy : text) : Z := 2000 + int_of yy.

(** 2400 / 2400.0 / 2400.00 become one spelling. *)
Definition normalize_strike (s : text) : text :=
  let x := float_of_text s in
  if f_is_integer x then
    match f_trunc x with
    | Some n => str_of_nonneg n
    | None => s
    end
  else s.

Definition kind_of (s : text) : symbol_kind :=
  if bool_decide (s = L "CE") then CE else PE.

Definition EXCHANGE_PREFIXES : list text :=
  map L ["NSE"; "BSE"; "NFO"; "BFO"; "MCX"; "CDS"]%string.

(** Strip a leading exchange prefix once. *)
Definition drop_exchange (sym : text) : text :=
  match partition_at ":" sym with
  | Some (head, tail) =>
      if bool_decide (head ∈ EXCHANGE_PREFIXES) && negb (bool_decide (tail = [])) then tail else sym
  | None => sym
  end.

(** The pattern cascade on a stripped, upper-cased, prefix-free symbol. *)
Definition parse_symbol (sym : text) : option NormalizedSymbol :=
  match re_match CANONICAL_FUT sym with
  | Some m =>
      match month_of (group 2 m) with
      | None => None
      | Some mo =>
          Some {| root := group 1 m; kind := FUT; year := Some (int_of (group 3 m));
                  month := Some mo; day := None; strike := None |}
      end
  | None =>
  match re_match COMPACT_FUT sym with
  | Some m =>
      match month_of (group 3 m) with
      | None => None
      | Some mo =>
          Some {| root := group 1 m; kind := FUT; year := Some (expand_year (group 2 m));
                  month := Some mo; day := None; strike := None |}
      end
  | None =>
  match re_match OPTION sym with
  | Some m =>
      match month_of (group 3 m) with
      | None => None
      | Some mo =>
          Some {| root := group 1 m; kind := kind_of (group 6 m);
                  year := Some (int_of (group 4 m)); month := Some mo;
                  day := Some (int_of (group 2 m));
                  strike := Some (normalize_strike (group 5 m)) |}
      end
  | None =>
  match re_match OPTION_MONTHLY sym with
  | Some m =>
      match month_of (group 2 m) with
      | None => None
      | Some mo =>
          Some {| root := group 1 m; kind := kind_of (group 5 m);
                  year := Some (int_of (group 3 m)); month := Some mo;
                  day := None;
                  strike := Some (normalize_strike (group 4 m)) |}
      end
  | None =>
  match re_match EQUITY sym with
  | Some m =>
      let r := group 1 m in
      let has_digit := existsb is_digit r in
      if ends_with (L "FUT") r || ((ends_with (L "CE") r || ends_with (L "PE") r) && has_digit)
      then None
      else Some {| root := r; kind := EQ; year := None; month := None; day := None; strike := None |}
  | None => None
  end end end end end.

Definition normalize_symbol (raw : option text) : option NormalizedSymbol :=
  match raw with
  | None => None
  | Some raw =>
      let sym := upper (strip raw) in
      if bool_decide (sym = []) then None else parse_symbol (drop_exchange sym)
  end.

Definition symbols_match (stored broker : option text) : option bool :=
  match normalize_symbol stored, normalize_symbol broker with
  | Some a, Some b => Some (bool_decide (key a = key b))
  | _, _ => None
  end.

(** ** Scanning a broker's positions *)

(** The value of a position row's [quantity] attribute, as [int(q or 0)] sees
    it: an integer, absent/None, or a value [int] raises TypeError or
    ValueError on. *)
Inductive quantity_field : Type :=
| QInt (z : Z)
| QNone
| QBad.

(** A position row of a broker ([schemas.broker.Position]): the attributes the
    services read. *)
Record broker_row : Type := {
  row_symbol : option text;
  row_quantity : quantity_field;
  row_exchange : Exchange;
  row_product_type : ProductType
}.

Definition row_magnitude (q : quantity_field) : option Z :=
  match q with
  | QInt z => Some (Z.abs z)
  | QNone => Some 0
  | QBad => None
  end.

Fixpoint total_loop (stored : option text) (rows : list broker_row) (total : Z) (saw_unparseable : bool)
  : Z * bool :=
  match rows with
  | [] => (total, saw_unparseable)
  | pos :: rows' =>
      match symbols_match stored (row_symbol pos) with
      | Some true =>
          match row_magnitude (row_quantity pos) with
          | Some q => total_loop stored rows' (total + q) saw_unparseable
          | None => total_loop stored rows' total true
          end
      | None => total_loop stored rows' total true
      | Some false => total_loop stored rows' total saw_unparseable
      end
  end.

Definition total_matching_quantity (stored : option text) (rows : list broker_row)
  : option Z * bool :=
  let '(total, saw) := total_loop stored rows 0 (bool_decide (normalize_symbol stored = None)) in
  if saw then (None, false) else (Some total, true).

Fixpoint find_loop (stored : option text) (rows : list broker_row) (saw_unparseable : bool)
  : option broker_row * bool :=
  match rows with
  | [] => (None, negb saw_unparseable)
  | pos :: rows' =>
      match symbols_match stored (row_symbol pos) with
      | Some true => (Some pos, true)
      | None => find_loop stored rows' true
      | Some false => find_loop stored rows' saw_unparseable
      end
  end.

Definition find_matching_position (stored : option text) (rows : list broker_row)
  : option broker_row * bool :=
  find_loop stored rows (bool_decide (normalize_symbol stored = None)).

(** ** Specification: well-formed identities and the two futures spellings *)

Definition valid_root (r : text) : bool :=
  match r with
  | [] => false
  | c :: r' => is_upper c && forallb is_upnum r'
  end.

Definition derivative_looking (r : text) : bool :=
  ends_with (L "FUT") r || ((ends_with (L "CE") r || ends_with (L "PE") r) && existsb is_digit r).

Definition some_in (lo hi : Z) (o : option Z) : Prop := exists z, o = Some z /\ lo <= z <= hi.

Definition wf_symbol (n : NormalizedSymbol) : Prop :=
  valid_root (root n) = true
  /\ match kind n with
     | FUT => some_in 0 9999 (year n) /\ some_in 1 12 (month n) /\ day n = None /\ strike n = None
     | CE | PE =>
         some_in 0 9999 (year n) /\ some_in 1 12 (month n)
         /\ (day n = None \/ some_in 0 99 (day n)) /\ strike n <> None
     | EQ =>
         year n = None /\ month n = None /\ day n = None /\ strike n = None
         /\ derivative_looking (root n) = false
     end.

Definition month_name (m : Z) : text := nth (Z.to_nat (m - 1)) MONTHS [].

(** [BSE-AUG2026-FUT] and [BSE26AUGFUT]. *)
Definition canonical_future (r : text) (m y : Z) : text :=
  r ++ L "-" ++ month_name m ++ digits_width 4 y ++ L "-FUT".

Definition compact_future (r : text) (m yy : Z) : text :=
  r ++ digits_width 2 yy ++ month_name m ++ L "FUT".

(** ** Parsing lemmas *)

Lemma index_from_range n l s z :
  index_from n l s = Some z -> n <= z < n + Z.of_nat (length l).
Proof.
  revert n. induction l as [|m l IH]; intros n; simpl; [discriminate|].
  case_bool_decide; [intros [= <-]; lia|]. intros Hi%IH. lia.
Qed.

Lemma month_of_range s m : month_of s = Some m -> 1 <= m <= 12.
Proof. intros H%index_from_range. change (length MONTHS) with 12%nat in H. lia. Qed.

Lemma month_cases m : 1 <= m <= 12 ->
  m = 1 \/ m = 2 \/ m = 3 \/ m = 4 \/ m = 5 \/ m = 6 \/ m = 7 \/ m = 8 \/ m = 9 \/ m = 10
  \/ m = 11 \/ m = 12.
Proof. lia. Qed.

Lemma month_name_spec m : 1 <= m <= 12 ->
  month_of (month_name m) = Some m /\ length (month_name m) = 3%nat
  /\ forallb is_upper (month_name m) = true.
Proof. intros H. apply month_cases in H. destruct_or?; subst; repeat split; reflexivity. Qed.

(** Inversion of a derivation all the way down a concrete pattern. *)
Ltac inv_derives :=
  repeat match goal with
  | H : derives (Cat _ _) _ _ _ _ |- _ => inversion H; clear H; subst
  | H : derives (Grp _ _) _ _ _ _ |- _ => inversion H; clear H; subst
  | H : derives (Rep _ _ _ _) _ _ _ _ |- _ => inversion H; clear H; subst
  | H : derives (Lit _) _ _ _ _ |- _ => inversion H; clear H; subst
  | H : derives Eos _ _ _ _ |- _ => inversion H; clear H; subst
  | H : derives (Alt _ _) _ _ _ _ |- _ => inversion H; clear H; subst
  end.

Lemma exactly_derives p n s rest cs cs' :
  derives (exactly p n) s rest cs cs' -> forallb p s = true /\ length s = n /\ cs' = cs.
Proof.
  unfold exactly. inversion 1 as [|? ? ? ? ? ? ? ? ? Hh| | | | |]; subst. repeat split; auto.
  specialize (Hh n eq_refl). lia.
Qed.

Lemma root_derives lazy s rest cs cs' :
  derives (exactly is_upper 1 ▷ Rep is_upnum 0 None lazy) s rest cs cs' ->
  valid_root s = true /\ cs' = cs.
Proof.
  inversion 1 as [| |? ? s1 s2 ? ? ? ? D1 D2| | | |]; subst.
  apply exactly_derives in D1 as (Hp & Hl & ->). inversion D2; subst.
  destruct s1 as [|c [|]]; try discriminate. simpl in *. rewrite andb_true_r in Hp.
  by rewrite Hp.
Qed.

Lemma strike_derives s rest cs cs' : derives strike_re s rest cs cs' -> cs' = cs.
Proof. unfold strike_re, opt, lit. intros H; inv_derives; reflexivity. Qed.

Lemma right_derives s rest cs cs' : derives right_re s rest cs cs' -> cs' = cs.
Proof. unfold right_re, lit. intros H; inv_derives; reflexivity. Qed.

(** One layer of a pattern: sequencing and grouping only. *)
Ltac inv_layer :=
  repeat match goal with
  | H : derives (Cat _ _) _ _ _ _ |- _ => inversion H; clear H; subst
  | H : derives (Grp _ _) _ _ _ _ |- _ => inversion H; clear H; subst
  | H : derives root_re _ _ _ _ |- _ => apply (root_derives true) in H as [? ->]
  | H : derives root_lazy_re _ _ _ _ |- _ => apply (root_derives false) in H as [? ->]
  | H : derives strike_re _ _ _ _ |- _ => apply strike_derives in H as ->
  | H : derives right_re _ _ _ _ |- _ => apply right_derives in H as ->
  | H : derives (exactly _ _) _ _ _ _ |- _ => apply exactly_derives in H as (? & ? & ->)
  | H : derives (lit _) _ _ _ _ |- _ => inversion H; clear H; subst
  | H : derives Eos _ _ _ _ |- _ => inversion H; clear H; subst
  end.

Lemma int_of_width s w : forallb is_digit s = true -> (length s <= w)%nat -> 0 <= int_of s < 10 ^ Z.of_nat w.
Proof.
  intros H Hl. pose proof (int_of_range s H).
  assert (10 ^ Z.of_nat (length s) <= 10 ^ Z.of_nat w) by (apply Z.pow_le_mono_r; lia). lia.
Qed.

Lemma canonical_match_wf s m :
  re_match CANONICAL_FUT s = Some m ->
  valid_root (group 1 m) = true /\ 0 <= int_of (group 3 m) <= 9999.
Proof.
  intros (s1 & s2 & -> & D)%re_match_sound. unfold CANONICAL_FUT in D. inv_layer. cbv [group find fst Nat.eqb].
  split; [done|]. match goal with |- context [int_of ?d] => pose proof (int_of_width d 4) as Hi end.
  change (10 ^ Z.of_nat 4) with 10000 in Hi. specialize (Hi ltac:(done) ltac:(lia)). lia.
Qed.

Lemma compact_match_wf s m :
  re_match COMPACT_FUT s = Some m ->
  valid_root (group 1 m) = true /\ 0 <= int_of (group 2 m) <= 99.
Proof.
  intros (s1 & s2 & -> & D)%re_match_sound. unfold COMPACT_FUT in D. inv_layer. cbv [group find fst Nat.eqb].
  split; [done|]. match goal with |- context [int_of ?d] => pose proof (int_of_width d 2) as Hi end.
  change (10 ^ Z.of_nat 2) with 100 in Hi. specialize (Hi ltac:(done) ltac:(lia)). lia.
Qed.

Lemma option_match_wf s m :
  re_match OPTION s = Some m ->
  valid_root (group 1 m) = true /\ 0 <= int_of (group 4 m) <= 9999 /\ 0 <= int_of (group 2 m) <= 99.
Proof.
  intros (s1 & s2 & -> & D)%re_match_sound. unfold OPTION in D. inv_layer. inv_derives. cbv [group find fst Nat.eqb].
  match goal with H : forall h, Some 2%nat = Some h -> _ |- _ => specialize (H 2%nat eq_refl) end.
  match goal with |- _ /\ 0 <= int_of ?y <= _ /\ 0 <= int_of ?d <= _ =>
    pose proof (int_of_width y 4) as Hy; pose proof (int_of_width d 2) as Hd end.
  change (10 ^ Z.of_nat 4) with 10000 in Hy. change (10 ^ Z.of_nat 2) with 100 in Hd.
  specialize (Hy ltac:(done) ltac:(lia)). specialize (Hd ltac:(done) ltac:(lia)).
  split; [done | lia].
Qed.

Lemma option_monthly_match_wf s m :
  re_match OPTION_MONTHLY s = Some m ->
  valid_root (group 1 m) = true /\ 0 <= int_of (group 3 m) <= 9999.
Proof.
  intros (s1 & s2 & -> & D)%re_match_sound. unfold OPTION_MONTHLY in D. inv_layer. cbv [group find fst Nat.eqb].
  split; [done|]. match goal with |- context [int_of ?d] => pose proof (int_of_width d 4) as Hi end.
  change (10 ^ Z.of_nat 4) with 10000 in Hi. specialize (Hi ltac:(done) ltac:(lia)). lia.
Qed.

Lemma equity_match_wf s m : re_match EQUITY s = Some m -> valid_root (group 1 m) = true.
Proof.
  intros (s1 & s2 & -> & D)%re_match_sound. unfold EQUITY, opt in D. inv_layer. inv_derives; inv_layer; done.
Qed.

(** A match of the month group and its consequences for the returned record. *)
Lemma parse_symbol_wf s n : parse_symbol s = Some n -> wf_symbol n.
Proof.
  unfold parse_symbol, wf_symbol, some_in. intros H.
  destruct (re_match CANONICAL_FUT s) as [m|] eqn:E1.
  { apply canonical_match_wf in E1 as [? ?]. split_match_in H; simplify_eq; simpl.
    apply month_of_range in Heqo. eauto 10. }
  destruct (re_match COMPACT_FUT s) as [m|] eqn:E2.
  { apply compact_match_wf in E2 as [? ?]. split_match_in H; simplify_eq; simpl.
    apply month_of_range in Heqo. unfold expand_year. repeat split; auto; eexists; split; eauto; lia. }
  destruct (re_match OPTION s) as [m|] eqn:E3.
  { apply option_match_wf in E3 as (? & ? & ?). split_match_in H; simplify_eq; simpl.
    apply month_of_range in Heqo. split; [done|]. unfold kind_of. case_bool_decide; repeat split; eauto. }
  destruct (re_match OPTION_MONTHLY s) as [m|] eqn:E4.
  { apply option_monthly_match_wf in E4 as (? & ?). split_match_in H; simplify_eq; simpl.
    apply month_of_range in Heqo. split; [done|]. unfold kind_of. case_bool_decide; repeat split; eauto. }
  destruct (re_match EQUITY s) as [m|] eqn:E5; [|discriminate].
  apply equity_match_wf in E5. cbv zeta in H. split_match_in H; simplify_eq; simpl.
  repeat split; auto.
Qed.

(** ** Futures spellings *)

Definition sym_char (c : ascii) : bool := is_upnum c || Ascii.eqb c "-".

Lemma sym_char_plain c : sym_char c = true ->
  is_space c = false /\ is_lower c = false /\ Ascii.eqb c ":" = false.
Proof.
  intros H.
  assert (negb (sym_char c) || (negb (is_space c) && negb (is_lower c) && negb (Ascii.eqb c ":")) = true)
    as E by (revert c H; intros c _; revert c; apply forall_ascii; by vm_compute).
  rewrite H in E. simpl in E. bool_to_prop. auto.
Qed.

Lemma is_upper_upnum c : is_upper c = true -> is_upnum c = true.
Proof. unfold is_upnum. by intros ->. Qed.

Lemma is_digit_upnum c : is_digit c = true -> is_upnum c = true.
Proof. unfold is_upnum. intros ->. by rewrite orb_true_r. Qed.

Lemma is_upnum_sym c : is_upnum c = true -> sym_char c = true.
Proof. unfold sym_char. by intros ->. Qed.

Lemma forallb_impl (p q : ascii -> bool) s :
  (forall c, p c = true -> q c = true) -> forallb p s = true -> forallb q s = true.
Proof. rewrite !forallb_forall. auto. Qed.

Lemma strip_plain s : forallb sym_char s = true -> strip s = s.
Proof.
  assert (Hl : forall t, forallb sym_char t = true -> lstrip t = t).
  { intros [|c t]; [done|]. simpl. intros [Hc _]%andb_prop. apply sym_char_plain in Hc as [-> _]. reflexivity. }
  intros H. unfold strip. rewrite (Hl s) by done. rewrite Hl, rev_involutive; [done|].
  rewrite forallb_forall in *. intros c Hc%in_rev. auto.
Qed.

Lemma normalize_plain s :
  forallb sym_char s = true -> s <> [] -> normalize_symbol (Some s) = parse_symbol s.
Proof.
  intros H Hne. simpl. rewrite strip_plain by done.
  rewrite upper_fix.
  2:{ revert H. apply forallb_impl. intros c Hc. apply sym_char_plain in Hc as (_ & -> & _). done. }
  rewrite bool_decide_false by done. unfold drop_exchange. rewrite partition_at_none; [done|].
  rewrite forallb_forall in H. intros Hin%H. apply sym_char_plain in Hin as (_ & _ & Hc). by rewrite Ascii.eqb_refl in Hc.
Qed.

Lemma valid_root_inv r : valid_root r = true ->
  exists c r', r = c :: r' /\ is_upper c = true /\ forallb is_upnum r' = true.
Proof. destruct r as [|c r']; [done|]. simpl. intros [? ?]%andb_prop. eauto. Qed.

Lemma valid_root_upnum r : valid_root r = true -> forallb is_upnum r = true.
Proof. intros (c & r' & -> & Hc & Hr)%valid_root_inv. simpl. by rewrite (is_upper_upnum c Hc), Hr. Qed.

Section Futures.
Context (r : text) (m : Z).
Context (Hr : valid_root r = true) (Hm : 1 <= m <= 12).

Lemma canonical_plain y : forallb sym_char (canonical_future r m y) = true.
Proof using Hr Hm.
  unfold canonical_future. destruct (month_name_spec m Hm) as (_ & _ & Hup).
  rewrite !forallb_app. rewrite (forallb_impl is_upnum sym_char r is_upnum_sym) by by apply valid_root_upnum.
  rewrite (forallb_impl is_upper sym_char (month_name m)) by auto using is_upnum_sym, is_upper_upnum.
  rewrite (forallb_impl is_digit sym_char (digits_width 4 y)) by auto using is_upnum_sym, is_digit_upnum, digits_width_digits.
  reflexivity.
Qed.

Lemma compact_upnum yy : forallb is_upnum (compact_future r m yy) = true.
Proof using Hr Hm.
  unfold compact_future. destruct (month_name_spec m Hm) as (_ & _ & Hup).
  rewrite !forallb_app. rewrite valid_root_upnum by done.
  rewrite (forallb_impl is_upper is_upnum (month_name m)) by auto using is_upper_upnum.
  rewrite (forallb_impl is_digit is_upnum (digits_width 2 yy)) by auto using is_digit_upnum, digits_width_digits.
  reflexivity.
Qed.

Lemma canonical_re y :
  re_match CANONICAL_FUT (canonical_future r m y)
  = Some [(3, digits_width 4 y); (2, month_name m); (1, r)]%nat.
Proof using Hr Hm.
  unfold re_match, canonical_future. destruct (month_name_spec m Hm) as (_ & Hlen & Hup).
  destruct (valid_root_inv r Hr) as (c & r' & Er & Hc & Hr').
  set (mm := month_name m) in *. set (yy := digits_width 4 y).
  assert (Hy : forallb is_digit yy = true) by apply digits_width_digits.
  assert (Ly : length yy = 4%nat) by apply length_digits_width.
  set (tail := L "-" ++ mm ++ yy ++ L "-FUT").
  unfold CANONICAL_FUT, root_re, exactly, many. cbn [run]. subst r.
  change ((c :: r') ++ tail) with ([c] ++ r' ++ tail).
  rewrite (run_rep_fixed _ _ _ 1 [c]) by (simpl; rewrite ?Hc; done).
  apply run_rep_greedy; [done | lia | done |].
  change ([c] ++ r' ++ tail) with ((c :: r') ++ tail). rewrite consumed_app.
  unfold lit at 1. cbn [run]. unfold tail. change (L "-" ++ mm ++ yy ++ L "-FUT") with (L "-" ++ (mm ++ yy ++ L "-FUT")).
  rewrite (proj2 (strip_prefix_spec (L "-") _ (mm ++ yy ++ L "-FUT")) eq_refl).
  rewrite (run_rep_fixed _ _ _ 3 mm) by done. rewrite consumed_app.
  rewrite (run_rep_fixed _ _ _ 4 yy) by done. rewrite consumed_app. reflexivity.
Qed.

Lemma canonical_parse y : 0 <= y <= 9999 ->
  normalize_symbol (Some (canonical_future r m y))
  = Some {| root := r; kind := FUT; year := Some y; month := Some m; day := None; strike := None |}.
Proof using Hr Hm.
  intros Hy. rewrite normalize_plain; [|apply canonical_plain|].
  2:{ unfold canonical_future. destruct (valid_root_inv r Hr) as (c & r' & -> & _). done. }
  unfold parse_symbol. rewrite canonical_re. cbv [group find fst Nat.eqb].
  destruct (month_name_spec m Hm) as (-> & _ & _). rewrite int_of_digits_width; [done|].
  change (10 ^ Z.of_nat 4) with 10000. lia.
Qed.

(** The part of the compact pattern after the root consumes exactly eight
    characters, so at most one split of the input can succeed. *)
Definition compact_tail_re : regex :=
  Grp 2 (exactly is_digit 2) ▷ Grp 3 (exactly is_upper 3) ▷ lit "FUT" ▷ Eos.

Lemma compact_tail_length s cs k out :
  forallb is_upnum s = true -> run compact_tail_re s cs k = Some out -> length s = 8%nat.
Proof using.
  intros Hs (s1 & s2 & cs' & -> & D & _)%run_sound. unfold compact_tail_re in D. inv_layer.
  match goal with He : at_end s2 = true |- _ => rename He into Hend end.
  destruct s2 as [|c [|]]; simpl in Hend; [|exfalso|discriminate].
  - rewrite !length_app. simpl. lia.
  - apply Ascii.eqb_eq in Hend as ->. rewrite forallb_app in Hs.
    apply andb_prop in Hs as [_ Hs]. discriminate Hs.
Qed.

Lemma compact_not_canonical s : forallb is_upnum s = true -> re_match CANONICAL_FUT s = None.
Proof using.
  intros Hs. destruct (re_match CANONICAL_FUT s) as [m'|] eqn:E; [|done]. exfalso.
  apply re_match_sound in E as (s1 & s2 & -> & D). unfold CANONICAL_FUT in D. inv_layer.
  rewrite !forallb_app in Hs. bool_to_prop. discriminate.
Qed.

Lemma compact_re yy :
  re_match COMPACT_FUT (compact_future r m yy)
  = Some [(3, month_name m); (2, digits_width 2 yy); (1, r)]%nat.
Proof using Hr Hm.
  pose proof (compact_upnum yy) as Hall. revert Hall.
  unfold re_match, compact_future. destruct (month_name_spec m Hm) as (_ & Hlen & Hup).
  destruct (valid_root_inv r Hr) as (c & r' & Er & Hc & Hr').
  set (mm := month_name m) in *. set (dd := digits_width 2 yy).
  assert (Hd : forallb is_digit dd = true) by apply digits_width_digits.
  assert (Ld : length dd = 2%nat) by apply length_digits_width.
  set (tail := dd ++ mm ++ L "FUT"). intros Hall.
  change COMPACT_FUT with (Grp 1 root_lazy_re ▷ compact_tail_re).
  unfold root_lazy_re, exactly, many_lazy. cbn [run]. subst r.
  change ((c :: r') ++ tail) with ([c] ++ r' ++ tail) in *.
  rewrite (run_rep_fixed _ _ _ 1 [c]) by (simpl; rewrite ?Hc; done).
  apply run_rep_lazy; [done | |].
  - intros a1 a2 -> Hne. match goal with |- ?x = None => destruct x eqn:E; [exfalso|done] end.
    apply compact_tail_length in E.
    + unfold tail in E. rewrite !length_app, Ld, Hlen in E. destruct a2; [done|]. simpl in E. lia.
    + rewrite !forallb_app in Hall. rewrite forallb_app.
      apply andb_prop in Hall as [_ Hall]. apply andb_prop in Hall as [Ha Ht].
      apply andb_prop in Ha as [_ Ha]. by rewrite Ha, Ht.
  - change ([c] ++ r' ++ tail) with ((c :: r') ++ tail). rewrite consumed_app.
    unfold compact_tail_re, exactly, tail. cbn [run].
    rewrite (run_rep_fixed _ _ _ 2 dd) by done. rewrite consumed_app.
    rewrite (run_rep_fixed _ _ _ 3 mm) by done. rewrite consumed_app. reflexivity.
Qed.

Lemma compact_parse yy : 0 <= yy <= 99 ->
  normalize_symbol (Some (compact_future r m yy))
  = Some {| root := r; kind := FUT; year := Some (2000 + yy); month := Some m; day := None; strike := None |}.
Proof using Hr Hm.
  intros Hy. pose proof (compact_upnum yy) as Hall. rewrite normalize_plain.
  2:{ revert Hall. apply forallb_impl, is_upnum_sym. }
  2:{ unfold compact_future. destruct (valid_root_inv r Hr) as (c & r' & -> & _). done. }
  unfold parse_symbol. rewrite compact_not_canonical, compact_re by done.
  cbv [group find fst Nat.eqb]. destruct (month_name_spec m Hm) as (-> & _ & _).
  unfold expand_year. rewrite int_of_digits_width; [done|].
  change (10 ^ Z.of_nat 2) with 100. lia.
Qed.
End Futures.

(** ** Properties *)

(** What [normalize_symbol] returns is a well-formed contract identity: the
    root is a letter followed by letters and digits; a future has a year in
    0..9999, a month in 1..12 and neither day nor strike; an option leg has
    year, month and strike and its day is absent or in 0..99; an equity has no
    contract fields and does not look like an unparsed derivative (no FUT
    ending, no CE/PE ending with digits in the root). *)
Theorem normalize_symbol_wf raw n : normalize_symbol raw = Some n -> wf_symbol n.
Proof.
  destruct raw as [raw|]; simpl; [|discriminate].
  case_bool_decide; [discriminate|]. apply parse_symbol_wf.
Qed.

Lemma normalize_symbol_wf_witness :
  exists n, normalize_symbol (Some (L " nfo:bse-16jul2026-2400.00-ce")) = Some n /\ wf_symbol n.
Proof. eexists. split; [vm_compute; reflexivity | apply (normalize_symbol_wf (Some (L " nfo:bse-16jul2026-2400.00-ce"))); vm_compute; reflexivity]. Defined.

(** The TradingView spelling of a monthly future and the broker's compact
    spelling are compared by contract: for all roots, months and years the
    verdict is confident, and it is "same contract" exactly when root, month and
    year agree.  No spelling difference reads as "different" and no pair of
    different contracts reads as "same". *)
Theorem futures_spellings_match r1 r2 m1 m2 y yy :
  valid_root r1 = true -> valid_root r2 = true ->
  1 <= m1 <= 12 -> 1 <= m2 <= 12 -> 0 <= y <= 9999 -> 0 <= yy <= 99 ->
  symbols_match (Some (canonical_future r1 m1 y)) (Some (compact_future r2 m2 yy))
  = Some (bool_decide (r1 = r2 /\ m1 = m2 /\ y = 2000 + yy)).
Proof.
  intros. unfold symbols_match. rewrite canonical_parse, compact_parse by done.
  f_equal. apply bool_decide_ext. unfold key; simpl. naive_solver.
Qed.

Lemma futures_spellings_match_witness :
  symbols_match (Some (canonical_future (L "NIFTY50") 8 2026)) (Some (compact_future (L "NIFTY50") 8 26))
  = Some (bool_decide (L "NIFTY50" = L "NIFTY50" /\ 8 = 8 /\ 2026 = 2000 + 26)).
Proof. apply (futures_spellings_match (L "NIFTY50") (L "NIFTY50") 8 8 2026 26); try lia; reflexivity. Defined.

(** Blanks around a symbol, its letter case and a known exchange prefix do not
    change the parse. *)
Lemma normalize_pad w1 s w2 :
  forallb is_space w1 = true -> forallb is_space w2 = true ->
  normalize_symbol (Some (w1 ++ s ++ w2)) = normalize_symbol (Some s).
Proof. intros H1 H2. simpl. by rewrite strip_pad. Qed.

Lemma upper_strip_case f s : (f = upper \/ f = lower) -> upper (strip (f s)) = upper (strip s).
Proof.
  intros [-> | ->].
  - transitivity (upper (upper (strip s))); [|apply upper_idem]. f_equal. apply strip_map, is_space_up.
  - transitivity (upper (lower (strip s))); [|apply upper_lower]. f_equal. apply strip_map, is_space_low.
Qed.

Lemma normalize_case f s :
  (f = upper \/ f = lower) -> normalize_symbol (Some (f s)) = normalize_symbol (Some s).
Proof. intros Hf. simpl. by rewrite (upper_strip_case f s Hf). Qed.

Lemma exchange_plain ex :
  ex ∈ EXCHANGE_PREFIXES -> forallb sym_char ex = true /\ ~ In ":"%char ex.
Proof.
  rewrite list_elem_of_In. unfold EXCHANGE_PREFIXES. simpl.
  intros H. destruct_or?; subst; (split; [reflexivity|]); simpl; intuition discriminate.
Qed.

Lemma strip_plain_colon a b :
  forallb sym_char a = true -> forallb sym_char b = true -> a <> [] -> b <> [] ->
  strip (a ++ ":"%char :: b) = a ++ ":"%char :: b.
Proof.
  intros Ha Hb Hna Hnb. unfold strip.
  assert (Hl : forall x t, forallb sym_char x = true -> x <> [] -> lstrip (x ++ t) = x ++ t).
  { intros [|c x] t; [done|]. simpl. intros [Hc _]%andb_prop _. apply sym_char_plain in Hc as [-> _]. done. }
  rewrite Hl by done. rewrite rev_app_distr. simpl. rewrite <- app_assoc.
  rewrite Hl; [by rewrite !rev_app_distr, !rev_involutive, <- app_assoc| |].
  - rewrite forallb_forall in *. intros c Hc%in_rev. auto.
  - intros E. apply (f_equal (@length ascii)) in E. rewrite length_rev in E. by destruct b.
Qed.

Lemma normalize_prefix ex s :
  ex ∈ EXCHANGE_PREFIXES -> forallb sym_char s = true -> s <> [] ->
  normalize_symbol (Some (ex ++ ":"%char :: s)) = normalize_symbol (Some s).
Proof.
  intros Hex Hs Hne. rewrite (normalize_plain s) by done. simpl.
  pose proof (exchange_plain ex Hex) as [Hp Hc].
  assert (ex <> []) by (intros ->; revert Hex; rewrite list_elem_of_In; simpl; intuition discriminate).
  rewrite (strip_plain_colon ex s) by done. rewrite (upper_fix (ex ++ ":"%char :: s)).
  2:{ assert (Hi : forall c, sym_char c = true -> negb (is_lower c) = true)
        by (intros c Hc'; apply sym_char_plain in Hc' as (_ & -> & _); done).
      rewrite forallb_app. simpl. rewrite !(forallb_impl sym_char (fun c => negb (is_lower c)) _ Hi) by done. done. }
  rewrite bool_decide_false by (by destruct ex). unfold drop_exchange.
  rewrite partition_at_app by done. rewrite bool_decide_true by done.
  by rewrite bool_decide_false by done.
Qed.

(** The parse of a symbol does not depend on its letter case, on blanks
    around it, or on a known exchange prefix: for every non-empty symbol of
    letters, digits and hyphens, [" nfo:<symbol> "] in any case parses as the
    symbol itself. *)
Theorem normalize_symbol_spelling_insensitive f w1 w2 ex s :
  (f = upper \/ f = lower) ->
  forallb is_space w1 = true -> forallb is_space w2 = true ->
  ex ∈ EXCHANGE_PREFIXES -> forallb sym_char s = true -> s <> [] ->
  normalize_symbol (Some (w1 ++ f (ex ++ ":"%char :: s) ++ w2)) = normalize_symbol (Some s).
Proof. intros. rewrite normalize_pad, normalize_case by done. by apply normalize_prefix. Qed.

Lemma normalize_symbol_spelling_insensitive_witness :
  normalize_symbol (Some (L " " ++ lower (L "NFO" ++ ":"%char :: L "BSE-AUG2026-FUT") ++ L "  "))
  = normalize_symbol (Some (L "BSE-AUG2026-FUT")).
Proof.
  apply (normalize_symbol_spelling_insensitive lower (L " ") (L "  ") (L "NFO") (L "BSE-AUG2026-FUT"));
    [by right | done | done | by apply list_elem_of_In; simpl; auto | done | done].
Defined.

(** The tri-state comparison is symmetric, and confident exactly when both
    sides parse. *)
Lemma symbols_match_sym a b : symbols_match a b = symbols_match b a.
Proof.
  unfold symbols_match. destruct (normalize_symbol a), (normalize_symbol b); try done.
  f_equal. apply bool_decide_ext. naive_solver.
Qed.

Lemma symbols_match_unknown a b :
  symbols_match a b = None <-> normalize_symbol a = None \/ normalize_symbol b = None.
Proof. unfold symbols_match. destruct (normalize_symbol a), (normalize_symbol b); naive_solver. Qed.

Lemma symbols_match_trans a b c :
  symbols_match a b = Some true -> symbols_match b c = symbols_match a c.
Proof.
  unfold symbols_match. destruct (normalize_symbol a), (normalize_symbol b), (normalize_symbol c); try done.
  intros [= E%bool_decide_eq_true]. by rewrite E.
Qed.

(** ** The scans *)

(** A row is readable when the verdict on it is confident and, if it matches,
    its quantity is a number. *)
Definition row_readable (stored : option text) (row : broker_row) : Prop :=
  symbols_match stored (row_symbol row) = Some false
  \/ (symbols_match stored (row_symbol row) = Some true /\ row_magnitude (row_quantity row) <> None).

Definition row_matching (stored : option text) (row : broker_row) : Z :=
  match symbols_match stored (row_symbol row), row_magnitude (row_quantity row) with
  | Some true, Some q => q
  | _, _ => 0
  end.

Lemma total_loop_spec stored rows t saw :
  (Forall (row_readable stored) rows /\ total_loop stored rows t saw = (t + sum_by (row_matching stored) rows, saw))
  \/ (~ Forall (row_readable stored) rows /\ snd (total_loop stored rows t saw) = true).
Proof.
  revert t saw. induction rows as [|row rows IH]; intros t saw; simpl.
  - left. split; [constructor | f_equal; lia].
  - unfold row_matching at 1.
    assert (Hbad : ~ row_readable stored row -> snd (total_loop stored rows t true) = true ->
      ~ Forall (row_readable stored) (row :: rows)) by (intros Hn _ [? ?]%Forall_cons; done).
    assert (Htrue : snd (total_loop stored rows t true) = true)
      by (destruct (IH t true) as [[_ ->] | [_ ->]]; done).
    destruct (symbols_match stored (row_symbol row)) as [[|]|] eqn:E;
      [destruct (row_magnitude (row_quantity row)) as [q|] eqn:Eq| |].
    + destruct (IH (t + q) saw) as [[Hall ->] | [Hn ->]]; [left | right].
      * split; [constructor; [right; split; [done|by rewrite Eq] | done] | f_equal; lia].
      * split; [|done]. by intros [_ ?]%Forall_cons.
    + right. split; [|done]. apply Hbad; [|done]. unfold row_readable. rewrite E, Eq. naive_solver.
    + destruct (IH t saw) as [[Hall ->] | [Hn ->]]; [left | right].
      * split; [constructor; [by left | done] | f_equal; lia].
      * split; [|done]. by intros [_ ?]%Forall_cons.
    + right. split; [|done]. apply Hbad; [|done]. unfold row_readable. rewrite E. naive_solver.
Qed.

Lemma row_matching_nonneg stored row : 0 <= row_matching stored row.
Proof. unfold row_matching, row_magnitude. repeat case_match; simplify_eq; lia. Qed.

(** The quantity scan answers exactly when every symbol involved parses and
    every matching quantity is a number; the answer is the sum of the magnitudes
    of the matching rows, so it does not depend on the order of the rows and is
    never below any single matching row (no under-report that would look like a
    partial close); otherwise it is (None, False). *)
Theorem total_matching_quantity_spec stored rows :
  let certain := normalize_symbol stored <> None /\ Forall (row_readable stored) rows in
  (certain <-> total_matching_quantity stored rows = (Some (sum_by (row_matching stored) rows), true))
  /\ (~ certain <-> total_matching_quantity stored rows = (None, false))
  /\ (forall rows', rows ≡ₚ rows' -> total_matching_quantity stored rows' = total_matching_quantity stored rows)
  /\ (forall row t, In row rows -> total_matching_quantity stored rows = (Some t, true) ->
        row_matching stored row <= t).
Proof.
  intros certain.
  assert (Hspec : forall rs, (normalize_symbol stored <> None /\ Forall (row_readable stored) rs
      /\ total_matching_quantity stored rs = (Some (sum_by (row_matching stored) rs), true))
    \/ (~ (normalize_symbol stored <> None /\ Forall (row_readable stored) rs)
      /\ total_matching_quantity stored rs = (None, false))).
  { intros rs. unfold total_matching_quantity.
    destruct (total_loop_spec stored rs 0 (bool_decide (normalize_symbol stored = None))) as [[Hall ->] | [Hn Hs]].
    - case_bool_decide; [right; split; [tauto|done] | left; by rewrite Z.add_0_l].
    - right. destruct (total_loop _ _ _ _) as [t b]. simpl in Hs. subst b. tauto. }
  split; [|split; [|split]].
  - subst certain. destruct (Hspec rows) as [(? & ? & ->) | [? ->]]; split; try tauto. discriminate.
  - subst certain. destruct (Hspec rows) as [(? & ? & ->) | [? ->]]; split; try tauto. discriminate.
  - intros rows' Hp. destruct (Hspec rows) as [(? & Hf & ->) | [Hn ->]], (Hspec rows') as [(? & Hf' & ->) | [Hn' ->]].
    + by rewrite (sum_by_perm _ _ _ Hp).
    + destruct Hn'. by rewrite <- Hp.
    + destruct Hn. by rewrite Hp.
    + done.
  - intros row t Hin Ht. destruct (Hspec rows) as [(_ & _ & E) | [_ E]]; rewrite E in Ht; simplify_eq.
    apply sum_by_ge_elem; auto using row_matching_nonneg.
Qed.

(** The presence scan is safe in the dangerous direction: it says "not
    present" with certainty exactly when the stored symbol parses and every row
    is confidently a different contract; it reports a row only when that row is a
    confident match from the list, the first one; in every other case the
    answer is uncertain.  A certain "not present" agrees with a certain total of
    zero. *)
Theorem find_matching_position_spec stored rows :
  (find_matching_position stored rows = (None, true)
    <-> normalize_symbol stored <> None
        /\ Forall (fun row => symbols_match stored (row_symbol row) = Some false) rows)
  /\ (forall pos certain, find_matching_position stored rows = (Some pos, certain) ->
        certain = true
        /\ exists before after, rows = before ++ pos :: after
             /\ symbols_match stored (row_symbol pos) = Some true
             /\ Forall (fun row => symbols_match stored (row_symbol row) <> Some true) before)
  /\ (find_matching_position stored rows = (None, true) ->
        total_matching_quantity stored rows = (Some 0, true)).
Proof.
  assert (Hloop : forall rs saw,
    (find_loop stored rs saw = (None, true)
       <-> saw = false /\ Forall (fun row => symbols_match stored (row_symbol row) = Some false) rs)
    /\ (forall pos certain, find_loop stored rs saw = (Some pos, certain) ->
        certain = true
        /\ exists before after, rs = before ++ pos :: after
             /\ symbols_match stored (row_symbol pos) = Some true
             /\ Forall (fun row => symbols_match stored (row_symbol row) <> Some true) before)).
  { induction rs as [|row rs IH]; intros saw; simpl.
    - split; [|discriminate]. destruct saw; simpl; split; naive_solver.
    - destruct (symbols_match stored (row_symbol row)) as [[|]|] eqn:E.
      + split; [split; [discriminate | intros [_ [? _]%Forall_cons]; congruence]|].
        intros pos certain [= <- <-]. split; [done|]. exists [], rs. auto.
      + destruct (IH saw) as [H1 H2]. split.
        * rewrite H1, Forall_cons. tauto.
        * intros pos certain (-> & b & a & -> & ? & ?)%H2. split; [done|]. exists (row :: b), a.
          split; [done|]. split; [done|]. constructor; [congruence|done].
      + destruct (IH true) as [H1 H2]. split.
        * rewrite H1, Forall_cons. split; [naive_solver | intros [_ [? _]]; congruence].
        * intros pos certain (-> & b & a & -> & ? & ?)%H2. split; [done|]. exists (row :: b), a.
          split; [done|]. split; [done|]. constructor; [congruence|done]. }
  unfold find_matching_position. destruct (Hloop rows (bool_decide (normalize_symbol stored = None))) as [H1 H2].
  split; [|split]; auto.
  - rewrite H1, bool_decide_eq_false. tauto.
  - intros [Hs Hall]%H1. unfold total_matching_quantity.
    destruct (total_loop_spec stored rows 0 (bool_decide (normalize_symbol stored = None))) as [[_ ->] | [Hn _]].
    + rewrite Hs. simpl. do 2 f_equal. clear - Hall. induction Hall as [|row rs E _ IH]; simpl; [done|].
      unfold row_matching at 1. rewrite E. lia.
    + destruct Hn. eapply Forall_impl; [exact Hall|]. intros row ?. by left.
Qed.
