(* ===== verification/PyDecimal.v ===== *)
(** * Python's [decimal.Decimal] in the default context

    A finite Decimal is a signed coefficient and an exponent (value
    [coef * 10^expo]).  Addition, subtraction, multiplication and division round
    to 28 significant digits, half to even, as the default context does;
    [quantize] rescales to a given exponent and raises InvalidOperation when the
    result needs more than 28 digits.  Comparisons are exact.  The exponent
    limits of the context (999999) and the special values (NaN, infinities,
    negative zero) are outside the model: prices, quantities and percentages
    are finite and small.

    [at_scale s d] is the integer value of [d] in units of [10^s]; it turns
    comparisons and exact operations into integer arithmetic. *)

From Stdlib Require Import ZArith Lia List Bool.
From stdpp Require Import base list.
From S2P Require Import Prelude.

Record dec : Type := Dec { coef : Z; expo : Z }.

#[export] Instance dec_eq_dec : EqDecision dec.
Proof. solve_decision. Defined.

Definition prec : Z := 28.

Definition dec_of_Z (n : Z) : dec := Dec n 0.
Definition dzero : dec := Dec 0 0.

(** Number of decimal digits of [n >= 0] ([len(str(n))]). *)
Fixpoint digit_count (fuel : nat) (d pw n : Z) : Z :=
  match fuel with
  | O => d
  | S fuel' => if n <? pw then d else digit_count fuel' (d + 1) (10 * pw) n
  end.

Definition ndigits (n : Z) : Z := digit_count (S (Z.to_nat (Z.log2 n))) 1 10 n.

(** Rounding modes on a quotient of magnitudes ([0 <= n], [0 < m]). *)
Definition half_even (n m : Z) : Z :=
  let q := n / m in
  let r := n mod m in
  if 2 * r <? m then q else if m <? 2 * r then q + 1 else if Z.even q then q else q + 1.

Definition half_up (n m : Z) : Z :=
  let q := n / m in
  if 2 * (n mod m) <? m then q else q + 1.

Definition signed (round : Z -> Z -> Z) (c m : Z) : Z := Z.sgn c * round (Z.abs c) m.

(** Rounding of an exact result to the context precision. *)
Definition dfix (d : dec) : dec :=
  let n := ndigits (Z.abs (coef d)) in
  if n <=? prec then d
  else
    let drop := n - prec in
    let c := signed half_even (coef d) (10 ^ drop) in
    if Z.abs c =? 10 ^ prec then Dec (c / 10) (expo d + drop + 1) else Dec c (expo d + drop).

Definition dadd (a b : dec) : dec :=
  let e := Z.min (expo a) (expo b) in
  dfix (Dec (coef a * 10 ^ (expo a - e) + coef b * 10 ^ (expo b - e)) e).

Definition dneg (a : dec) : dec := Dec (- coef a) (expo a).
Definition dsub (a b : dec) : dec := dadd a (dneg b).
Definition dmul (a b : dec) : dec := dfix (Dec (coef a * coef b) (expo a + expo b)).

(** Trailing zeros are removed from an exact quotient up to the ideal exponent. *)
Fixpoint strip_zeros (fuel : nat) (c e ideal : Z) : dec :=
  match fuel with
  | O => Dec c e
  | S fuel' =>
      if (e <? ideal) && (c mod 10 =? 0) then strip_zeros fuel' (c / 10) (e + 1) ideal else Dec c e
  end.

(** [a / b] for a non-zero [b]. *)
Definition ddiv (a b : dec) : dec :=
  if coef a =? 0 then Dec 0 (expo a - expo b)
  else
    let na := Z.abs (coef a) in
    let nb := Z.abs (coef b) in
    let shift := ndigits nb - ndigits na + prec + 1 in
    let e := expo a - expo b - shift in
    let num := if 0 <=? shift then na * 10 ^ shift else na in
    let den := if 0 <=? shift then nb else nb * 10 ^ (- shift) in
    let q := num / den in
    let s := Z.sgn (coef a) * Z.sgn (coef b) in
    if num mod den =? 0 then
      let d := strip_zeros (Z.to_nat (Z.max 0 shift)) q e (expo a - expo b) in
      dfix (Dec (s * coef d) (expo d))
    else dfix (Dec (s * (if q mod 5 =? 0 then q + 1 else q)) e).

(** [d.quantize(Decimal((0, (1,), e)))]: [None] stands for InvalidOperation. *)
Definition dquantize (round : Z -> Z -> Z) (d : dec) (e : Z) : option dec :=
  let c :=
    if e <=? expo d then coef d * 10 ^ (expo d - e)
    else signed round (coef d) (10 ^ (e - expo d)) in
  if ndigits (Z.abs c) <=? prec then Some (Dec c e) else None.

(** ** Comparison *)

Definition at_scale (s : Z) (d : dec) : Z := coef d * 10 ^ (expo d - s).

Definition scale2 (a b : dec) : Z := Z.min (expo a) (expo b).

Definition dleb (a b : dec) : bool := at_scale (scale2 a b) a <=? at_scale (scale2 a b) b.
Definition dltb (a b : dec) : bool := at_scale (scale2 a b) a <? at_scale (scale2 a b) b.
Definition deqb (a b : dec) : bool := at_scale (scale2 a b) a =? at_scale (scale2 a b) b.
Definition is_dzero (a : dec) : bool := coef a =? 0.

(** [sum(l, Decimal(0))]. *)
Definition dsum (l : list dec) : dec := fold_left dadd l dzero.

(** ** Lemmas *)

Lemma at_scale_shift s t d : s <= t <= expo d -> at_scale s d = at_scale t d * 10 ^ (t - s).
Proof.
  intros H. unfold at_scale. rewrite <- Z.mul_assoc, <- Z.pow_add_r by lia. do 2 f_equal. lia.
Qed.

Section Compare.
Context (s : Z) (a b : dec) (Ha : s <= expo a) (Hb : s <= expo b).

Lemma at_scale_pair :
  at_scale s a = at_scale (scale2 a b) a * 10 ^ (scale2 a b - s)
  /\ at_scale s b = at_scale (scale2 a b) b * 10 ^ (scale2 a b - s).
Proof using Ha Hb. unfold scale2. split; apply at_scale_shift; lia. Qed.

Lemma dleb_scale : dleb a b = (at_scale s a <=? at_scale s b).
Proof using Ha Hb.
  unfold dleb. destruct at_scale_pair as [-> ->].
  assert (0 < 10 ^ (scale2 a b - s)) by (apply Z.pow_pos_nonneg; unfold scale2; lia).
  apply eq_true_iff_eq. rewrite !Z.leb_le. nia.
Qed.

Lemma dltb_scale : dltb a b = (at_scale s a <? at_scale s b).
Proof using Ha Hb.
  unfold dltb. destruct at_scale_pair as [-> ->].
  assert (0 < 10 ^ (scale2 a b - s)) by (apply Z.pow_pos_nonneg; unfold scale2; lia).
  apply eq_true_iff_eq. rewrite !Z.ltb_lt. nia.
Qed.

Lemma deqb_scale : deqb a b = (at_scale s a =? at_scale s b).
Proof using Ha Hb.
  unfold deqb. destruct at_scale_pair as [-> ->].
  assert (0 < 10 ^ (scale2 a b - s)) by (apply Z.pow_pos_nonneg; unfold scale2; lia).
  apply eq_true_iff_eq. rewrite !Z.eqb_eq. nia.
Qed.
End Compare.

(** A common scale of up to three decimals, for goals about their order. *)
Ltac dec_order :=
  repeat match goal with
  | H : dleb _ _ = _ |- _ => revert H
  | H : dltb _ _ = _ |- _ => revert H
  | H : deqb _ _ = _ |- _ => revert H
  end;
  match goal with
  | a : dec, b : dec, c : dec |- _ =>
      let s := constr:(Z.min (expo a) (Z.min (expo b) (expo c))) in
      rewrite ?(dleb_scale s), ?(dltb_scale s), ?(deqb_scale s) by lia;
      rewrite ?Z.leb_le, ?Z.leb_gt, ?Z.ltb_lt, ?Z.ltb_ge, ?Z.eqb_eq, ?Z.eqb_neq; lia
  | a : dec, b : dec |- _ =>
      let s := constr:(Z.min (expo a) (expo b)) in
      rewrite ?(dleb_scale s), ?(dltb_scale s), ?(deqb_scale s) by lia;
      rewrite ?Z.leb_le, ?Z.leb_gt, ?Z.ltb_lt, ?Z.ltb_ge, ?Z.eqb_eq, ?Z.eqb_neq; lia
  end.

Lemma dleb_refl a : dleb a a = true.
Proof. unfold dleb. apply Z.leb_refl. Qed.

Lemma dleb_trans a b c : dleb a b = true -> dleb b c = true -> dleb a c = true.
Proof. dec_order. Qed.

Lemma dltb_negb_dleb a b : dltb a b = negb (dleb b a).
Proof.
  rewrite (dltb_scale (scale2 a b)), (dleb_scale (scale2 a b)) by (unfold scale2; lia).
  apply Z.ltb_antisym.
Qed.

Lemma dltb_dleb a b : dltb a b = true -> dleb a b = true.
Proof. dec_order. Qed.

Lemma dleb_total a b : dleb a b = false -> dleb b a = true.
Proof. dec_order. Qed.

#[export] Hint Resolve dleb_refl dltb_dleb dleb_total : bridge.

(** ** Exactness *)

Lemma digit_count_spec fuel d pw n :
  0 < pw -> n < pw * 10 ^ Z.of_nat fuel ->
  digit_count fuel d pw n <= d + Z.of_nat fuel
  /\ d <= digit_count fuel d pw n
  /\ n < pw * 10 ^ (digit_count fuel d pw n - d)
  /\ (digit_count fuel d pw n = d \/ pw * 10 ^ (digit_count fuel d pw n - d - 1) <= n).
Proof.
  revert d pw. induction fuel as [|fuel IH]; intros d pw Hpw Hn; simpl digit_count.
  - rewrite Z.sub_diag. change (10 ^ Z.of_nat 0) with 1 in Hn. change (10 ^ 0) with 1. repeat split; lia.
  - destruct (Z.ltb_spec n pw).
    + rewrite Z.sub_diag. change (10 ^ 0) with 1. repeat split; lia.
    + rewrite Nat2Z.inj_succ, Z.pow_succ_r in Hn by lia.
      destruct (IH (d + 1) (10 * pw)) as (H1 & H2 & H3 & H4); [lia | lia |].
      set (D := digit_count fuel (d + 1) (10 * pw) n) in *.
      replace (10 * pw * 10 ^ (D - (d + 1))) with (pw * 10 ^ (D - d)) in H3.
      2:{ replace (D - d) with (Z.succ (D - (d + 1))) by lia. rewrite Z.pow_succ_r by lia. ring. }
      repeat split; try lia. right. destruct H4 as [E | H4].
      * rewrite E. replace (d + 1 - d - 1) with 0 by lia. change (10 ^ 0) with 1. lia.
      * assert (D <> d + 1 \/ D = d + 1) as [Hne | ->] by lia.
        -- replace (D - d - 1) with (Z.succ (D - (d + 1) - 1)) by lia.
           rewrite Z.pow_succ_r by lia. lia.
        -- replace (d + 1 - d - 1) with 0 by lia. change (10 ^ 0) with 1. lia.
Qed.

Lemma ndigits_fuel n : 0 <= n -> n < 10 * 10 ^ Z.of_nat (S (Z.to_nat (Z.log2 n))).
Proof.
  intros Hn. destruct (Z.eq_dec n 0) as [->|Hne]; [vm_compute; reflexivity|].
  pose proof (Z.log2_spec n ltac:(lia)) as [_ H].
  pose proof (Z.log2_nonneg n). rewrite Nat2Z.inj_succ, Z2Nat.id by lia.
  assert (2 ^ Z.succ (Z.log2 n) <= 10 ^ Z.succ (Z.log2 n)) by (apply Z.pow_le_mono_l; lia). lia.
Qed.

(** [ndigits n] is the number of decimal digits of [n]. *)
Lemma ndigits_spec n : 0 <= n ->
  1 <= ndigits n /\ n < 10 ^ ndigits n /\ (ndigits n = 1 \/ 10 ^ (ndigits n - 1) <= n).
Proof.
  intros Hn. pose proof (digit_count_spec _ 1 10 n ltac:(lia) (ndigits_fuel n Hn)) as (_ & H2 & H3 & H4).
  fold (ndigits n) in *. split; [lia|]. split.
  - replace (ndigits n) with (Z.succ (ndigits n - 1)) by lia. rewrite Z.pow_succ_r by lia. lia.
  - destruct H4 as [->|H4]; [by left|]. destruct (Z.eq_dec (ndigits n) 1); [by left|right].
    replace (ndigits n - 1) with (Z.succ (ndigits n - 1 - 1)) by lia. rewrite Z.pow_succ_r by lia. lia.
Qed.

Lemma ndigits_le n k : 0 <= n -> 1 <= k -> n < 10 ^ k -> ndigits n <= k.
Proof.
  intros Hn Hk Hlt. destruct (ndigits_spec n Hn) as (H1 & _ & [-> | H3]); [done|].
  destruct (Z.le_gt_cases (ndigits n) k); [done|].
  assert (10 ^ k <= 10 ^ (ndigits n - 1)) by (apply Z.pow_le_mono_r; lia). lia.
Qed.

Lemma dfix_exact d : Z.abs (coef d) < 10 ^ prec -> dfix d = d.
Proof.
  intros H. unfold dfix. pose proof (ndigits_le (Z.abs (coef d)) prec ltac:(lia) ltac:(unfold prec; lia) H).
  by rewrite (proj2 (Z.leb_le _ _)).
Qed.

Lemma abs_coef_le_scale s d : s <= expo d -> Z.abs (coef d) <= Z.abs (at_scale s d).
Proof.
  intros H. unfold at_scale. rewrite Z.abs_mul.
  assert (0 < 10 ^ (expo d - s)) by (apply Z.pow_pos_nonneg; lia).
  rewrite (Z.abs_eq (10 ^ _)) by lia. nia.
Qed.

(** Sums and integer multiples are exact while they fit in 28 digits. *)
Lemma dadd_exact s a b :
  s <= expo a -> s <= expo b -> Z.abs (at_scale s a + at_scale s b) < 10 ^ prec ->
  s <= expo (dadd a b) /\ at_scale s (dadd a b) = at_scale s a + at_scale s b.
Proof.
  intros Ha Hb Hfit. unfold dadd. set (e := Z.min (expo a) (expo b)).
  set (d := Dec _ e).
  assert (Hd : at_scale s d = at_scale s a + at_scale s b).
  { unfold at_scale, d. simpl. rewrite Z.mul_add_distr_r, <- !Z.mul_assoc, <- !Z.pow_add_r by lia.
    do 2 f_equal; f_equal; lia. }
  rewrite dfix_exact; [split; [simpl; lia | done]|].
  apply (Z.le_lt_trans _ (Z.abs (at_scale s d))); [apply abs_coef_le_scale; simpl; lia | by rewrite Hd].
Qed.

Lemma dmul_int_exact s a n :
  s <= expo a -> Z.abs (at_scale s a * n) < 10 ^ prec ->
  s <= expo (dmul a (dec_of_Z n)) /\ at_scale s (dmul a (dec_of_Z n)) = at_scale s a * n.
Proof.
  intros Ha Hfit. unfold dmul. simpl. rewrite Z.add_0_r. set (d := Dec _ _).
  assert (Hd : at_scale s d = at_scale s a * n) by (unfold at_scale, d; simpl; ring).
  rewrite dfix_exact; [split; [simpl; lia | done]|].
  apply (Z.le_lt_trans _ (Z.abs (at_scale s d))); [apply abs_coef_le_scale; simpl; lia | by rewrite Hd].
Qed.

Lemma at_scale_neg s d : at_scale s (dneg d) = - at_scale s d.
Proof. unfold at_scale. simpl. ring. Qed.

Lemma dsub_exact s a b :
  s <= expo a -> s <= expo b -> Z.abs (at_scale s a - at_scale s b) < 10 ^ prec ->
  s <= expo (dsub a b) /\ at_scale s (dsub a b) = at_scale s a - at_scale s b.
Proof.
  intros Ha Hb Hfit. destruct (dadd_exact s a (dneg b)) as [H1 H2]; rewrite ?at_scale_neg; auto.
  unfold dsub. rewrite H2, at_scale_neg. split; [done|lia].
Qed.

Lemma dsum_exact s l :
  s <= 0 -> Forall (fun d => s <= expo d) l ->
  sum_by (fun d => Z.abs (at_scale s d)) l < 10 ^ prec ->
  s <= expo (dsum l) /\ at_scale s (dsum l) = sum_by (at_scale s) l.
Proof.
  intros Hs Hall Hfit. unfold dsum.
  assert (Hgen : forall acc, s <= expo acc ->
    Z.abs (at_scale s acc) + sum_by (fun d => Z.abs (at_scale s d)) l < 10 ^ prec ->
    s <= expo (fold_left dadd l acc) /\ at_scale s (fold_left dadd l acc) = at_scale s acc + sum_by (at_scale s) l).
  { clear Hfit. induction Hall as [|d l Hd Hall IH]; intros acc Hacc Hfit; simpl in *; [split; [done|lia]|].
    pose proof (sum_by_nonneg (fun d => Z.abs (at_scale s d)) l ltac:(intros; lia)).
    destruct (dadd_exact s acc d) as [H1 H2]; [done|done|lia|].
    destruct (IH (dadd acc d)) as [H3 H4]; [done | rewrite H2; lia |].
    split; [done|]. rewrite H4, H2. lia. }
  destruct (Hgen dzero) as [H1 H2]; [done | unfold at_scale at 1; simpl coef; lia |].
  split; [done|]. rewrite H2. unfold at_scale at 1. simpl coef. lia.
Qed.

(** ** Columns of type Numeric(18, 4)

    Such a value fits the context with room for a product with a 32-bit
    quantity, so the arithmetic on prices is exact and quantize succeeds. *)
Definition numeric_18_4 (d : dec) : Prop := -4 <= expo d /\ Z.abs (at_scale (-4) d) < 10 ^ 18.

Lemma half_even_le n m : 0 <= n -> 0 < m -> 0 <= half_even n m <= n + 1.
Proof.
  intros Hn Hm. unfold half_even. pose proof (Z.div_pos n m Hn Hm).
  assert (n / m <= n) by (apply Z.div_le_upper_bound; nia).
  repeat split_match; lia.
Qed.

Lemma at_scale_le s t d : s <= t -> t <= expo d -> Z.abs (at_scale t d) <= Z.abs (at_scale s d).
Proof.
  intros H1 H2. rewrite (at_scale_shift s t d) by lia. rewrite Z.abs_mul.
  assert (0 < 10 ^ (t - s)) by (apply Z.pow_pos_nonneg; lia). rewrite (Z.abs_eq (10 ^ _)) by lia. nia.
Qed.

Lemma dquantize_some s d e :
  s <= expo d -> s <= e -> Z.abs (at_scale s d) < 10 ^ 28 - 1 -> is_Some (dquantize half_even d e).
Proof.
  intros Hs He Hfit. unfold dquantize.
  set (c := if e <=? expo d then _ else _).
  assert (Hc : Z.abs c < 10 ^ prec).
  { unfold c, prec. destruct (Z.leb_spec e (expo d)).
    - fold (at_scale e d). pose proof (at_scale_le s e d He ltac:(lia)). lia.
    - unfold signed. pose proof (abs_coef_le_scale s d Hs).
      pose proof (half_even_le (Z.abs (coef d)) (10 ^ (e - expo d)) ltac:(lia)
                    ltac:(apply Z.pow_pos_nonneg; lia)).
      rewrite Z.abs_mul. assert (Z.abs (Z.sgn (coef d)) <= 1) by lia. nia. }
  pose proof (ndigits_le (Z.abs c) prec ltac:(lia) ltac:(unfold prec; lia) Hc).
  rewrite (proj2 (Z.leb_le _ _)) by lia. eauto.
Qed.

(** One percent of a price. *)
Lemma percent_fits d e : numeric_18_4 d -> -6 <= e -> is_Some (dquantize half_even (dmul d (Dec 1 (-2))) e).
Proof.
  intros [He Hd] Hq. pose proof (abs_coef_le_scale (-4) d He).
  unfold dmul. simpl. rewrite Z.mul_1_r, dfix_exact; [|simpl; unfold prec; lia].
  apply (dquantize_some (-6)); simpl; [lia | done |].
  replace (at_scale (-6) _) with (at_scale (-4) d); [lia|].
  unfold at_scale. simpl. do 2 f_equal. lia.
Qed.

(** The P&L of [q] units between two prices. *)
Lemma pnl_fits a b q :
  numeric_18_4 a -> numeric_18_4 b -> 0 <= q < 2 ^ 31 ->
  is_Some (dquantize half_even (dmul (dsub a b) (dec_of_Z q)) (-2)).
Proof.
  intros [Ha Hva] [Hb Hvb] Hq.
  destruct (dsub_exact (-4) a b Ha Hb) as [He Hs]; [unfold prec; lia|].
  destruct (dmul_int_exact (-4) (dsub a b) q He) as [Hm Hv].
  { rewrite Hs, Z.abs_mul. unfold prec. nia. }
  apply (dquantize_some (-4)); [done | lia |]. rewrite Hv, Hs, Z.abs_mul. nia.
Qed.

(** ** Exact division by a hundred *)

Lemma strip_zeros_spec fuel c e ideal k :
  0 <= k -> (10 ^ k | c) -> k <= Z.of_nat fuel -> e + k <= ideal ->
  let d := strip_zeros fuel c e ideal in e + k <= expo d /\ coef d * 10 ^ (expo d - e) = c.
Proof.
  revert c e k. induction fuel as [|fuel IH]; intros c e k Hk Hdiv Hfuel Hideal; simpl.
  { assert (k = 0) as -> by lia. rewrite Z.sub_diag. change (10 ^ 0) with 1. lia. }
  destruct (Z.ltb_spec e ideal), (Z.eqb_spec (c mod 10) 0) as [Em|Em]; simpl.
  - assert (Hc : c = 10 * (c / 10)) by (pose proof (Z.div_mod c 10); lia).
    assert (Hdiv' : (10 ^ Z.max 0 (k - 1) | c / 10)).
    { destruct (Z.eq_dec k 0) as [->|]; [apply Z.divide_1_l|].
      rewrite Z.max_r by lia. destruct Hdiv as [x Hx]. exists x.
      replace k with (Z.succ (k - 1)) in Hx by lia. rewrite Z.pow_succ_r in Hx by lia. lia. }
    destruct (IH (c / 10) (e + 1) (Z.max 0 (k - 1))) as [H1 H2]; [lia | done | lia | lia|].
    set (d := strip_zeros fuel (c / 10) (e + 1) ideal) in *. split; [lia|].
    replace (expo d - e) with (Z.succ (expo d - (e + 1))) by lia. rewrite Z.pow_succ_r by lia. lia.
  - destruct (Z.eq_dec k 0) as [->|]; [rewrite Z.sub_diag; change (10 ^ 0) with 1; lia|].
    destruct Em. destruct Hdiv as [x ->]. replace k with (Z.succ (k - 1)) by lia.
    rewrite Z.pow_succ_r by lia. rewrite Z.mul_assoc, (Z.mul_comm x 10), <- Z.mul_assoc, Z.mul_comm.
    apply Z.mod_mul. lia.
  - assert (k = 0) as -> by lia. rewrite Z.sub_diag. change (10 ^ 0) with 1. lia.
  - assert (k = 0) as -> by lia. rewrite Z.sub_diag. change (10 ^ 0) with 1. lia.
Qed.

Lemma ddiv_100 m :
  Z.abs (coef m) < 10 ^ 24 ->
  expo m - 2 <= expo (ddiv m (dec_of_Z 100)) /\ at_scale (expo m - 2) (ddiv m (dec_of_Z 100)) = coef m.
Proof.
  intros Hm. unfold ddiv. simpl expo. simpl (coef (dec_of_Z 100)).
  destruct (Z.eqb_spec (coef m) 0) as [E|E]; [unfold at_scale; simpl; lia|].
  change (ndigits (Z.abs 100)) with 3. change (Z.sgn 100) with 1. change (Z.abs 100) with 100.
  pose proof (ndigits_le (Z.abs (coef m)) 24 ltac:(lia) ltac:(lia) Hm) as Hnd.
  destruct (ndigits_spec (Z.abs (coef m)) ltac:(lia)) as (Hn1 & _).
  set (na := Z.abs (coef m)) in *. unfold prec. set (shift := 3 - ndigits na + 28 + 1).
  assert (Hshift : 8 <= shift) by lia. rewrite (proj2 (Z.leb_le 0 shift)) by lia.
  assert (Hnum : na * 10 ^ shift = na * 10 ^ (shift - 2) * 100).
  { replace shift with (shift - 2 + 2) at 1 by lia. rewrite Z.pow_add_r by lia. lia. }
  rewrite Hnum, Z.mod_mul, Z.div_mul by lia. simpl (0 =? 0).
  destruct (strip_zeros_spec (Z.to_nat (Z.max 0 shift)) (na * 10 ^ (shift - 2)) (expo m - 0 - shift) (expo m - 0)
              (shift - 2)) as [H1 H2]; [lia | by exists na | lia | lia |].
  set (d := strip_zeros _ _ _ _) in *. rewrite Z.mul_1_r.
  assert (Hv : coef d * 10 ^ (expo d - (expo m - 2)) = na).
  { apply (Z.mul_reg_r _ _ (10 ^ (shift - 2))); [pose proof (Z.pow_pos_nonneg 10 (shift - 2)); lia|].
    rewrite <- H2, <- Z.mul_assoc, <- Z.pow_add_r by lia. do 2 f_equal. lia. }
  assert (0 < 10 ^ (expo d - (expo m - 2))) by (apply Z.pow_pos_nonneg; lia).
  assert (Hc : 0 <= coef d <= na) by nia.
  rewrite dfix_exact.
  - simpl. split; [lia|]. unfold at_scale. simpl. rewrite <- Z.mul_assoc, Hv. unfold na. lia.
  - simpl. rewrite Z.abs_mul. unfold prec. assert (Z.abs (Z.sgn (coef m)) <= 1) by lia. nia.
Qed.

(** Columns of type Numeric(6, 3), non-negative: a percentage. *)
Definition percent_6_3 (d : dec) : Prop := -3 <= expo d /\ 0 <= at_scale (-3) d < 10 ^ 6.

(** [price * pct / 100] is exact on column values. *)
Lemma percent_exact d pct :
  numeric_18_4 d -> percent_6_3 pct ->
  let delta := ddiv (dmul d pct) (dec_of_Z 100) in
  -9 <= expo delta /\ at_scale (-9) delta = at_scale (-4) d * at_scale (-3) pct.
Proof.
  intros [Hd Hvd] [Hp Hvp]. pose proof (abs_coef_le_scale (-4) d Hd) as Hcd.
  pose proof (abs_coef_le_scale (-3) pct Hp) as Hcp.
  assert (Hm : dmul d pct = Dec (coef d * coef pct) (expo d + expo pct)).
  { apply dfix_exact. simpl. rewrite Z.abs_mul. unfold prec. nia. }
  destruct (ddiv_100 (dmul d pct)) as [H1 H2]; rewrite Hm in *; simpl in *; [rewrite Z.abs_mul; nia|].
  split; [lia|]. rewrite (at_scale_shift (-9) (expo d + expo pct - 2)), H2 by lia.
  unfold at_scale. replace (expo d + expo pct - 2 - -9) with ((expo d - -4) + (expo pct - -3)) by lia.
  rewrite Z.pow_add_r by lia. ring.
Qed.
