(* ===== verification/Attribution.v ===== *)
(** * Account-level P&L attribution (backend/app/domains/pnl_reconciler/attribution.py)

    The founder's exit rule: a bot trade is priced from what the ACCOUNT did on
    the contract.  [attribute] walks the account's trade book, sorted by
    exchange time, and either prices the trade from fills that are all the
    bot's ([TAG_BOT_ONLY]) or refuses with a tag.  The human-readable reason is
    kept as structured data ([why]) instead of formatted text.  The [assert] in
    the middle of the function is modelled as the error value
    [AssertionError]; [attribute_total] proves that it never fires on books
    whose quantities are not negative. *)

From Stdlib Require Import ZArith Lia List Bool String.
From stdpp Require Import base list strings sorting.
From S2P Require Import Prelude PyText PyDecimal.

(** ** Data *)

Inductive attribution_tag : Type :=
| TAG_BOT_ONLY
| TAG_ACCOUNT_FLAT
| TAG_HUMAN_INTERFERED
| TAG_UNPRICEABLE
| TAG_PAPER_SIM
| TAG_OPERATOR_ESTIMATE
| TAG_UNIDENTIFIED_FILL.

#[export] Instance attribution_tag_eq_dec : EqDecision attribution_tag.
Proof. solve_decision. Defined.

Record AccountFill : Type := {
  contract : string;
  order_id : string;
  side : string;
  qty : Z;
  price : dec;
  ts : string;
  trade_id : string;
  order_platform : option string;
  charges : option dec
}.

#[export] Instance AccountFill_eq_dec : EqDecision AccountFill.
Proof. solve_decision. Defined.

Definition is_buy (f : AccountFill) : bool := String.eqb (str_upper (side f)) "BUY".

Definition signed_qty (f : AccountFill) : Z := if is_buy f then qty f else - qty f.

Inductive provenance_kind : Type := Bot | Manual | Unknown.

#[export] Instance provenance_kind_eq_dec : EqDecision provenance_kind.
Proof. solve_decision. Defined.

Definition claimed (ids : list string) (f : AccountFill) : bool :=
  bool_decide (order_id f ∈ ids).

(** A ledger claim beats the platform field; only FAST makes a fill manual. *)
Definition provenance (bot_order_ids : list string) (f : AccountFill) : provenance_kind :=
  if claimed bot_order_ids f then Bot
  else if String.eqb (str_upper (str_strip (default "" (order_platform f)))) "FAST" then Manual
  else Unknown.

(** Why the verdict was reached (the source's [reason] text, as data). *)
Inductive why : Type :=
| NoEntryFill
| EntrySpansContracts
| SelfClosing (entry_qty n0 : Z)
| PriorLots (n0 : Z) (first_entry : AccountFill) (since_flat : list AccountFill)
| EntryNotOneSide
| EntryInterleaved (net expected : Z)
| ExposureIncreased (f : AccountFill) (before after : Z)
| CrossedZero (f : AccountFill) (before after : Z)
| NeverFlat (net_at_end : Z)
| UnidentifiedFills (fs : list AccountFill)
| ManualFills (fs : list AccountFill)
| ClosedByBot.

Record Attribution : Type := {
  tag : attribution_tag;
  entry_fills : list AccountFill;
  exit_fills : list AccountFill;
  gross_pnl : option dec;
  reason : why
}.

Definition priced (a : Attribution) : bool :=
  bool_decide (tag a = TAG_BOT_ONLY) || bool_decide (tag a = TAG_ACCOUNT_FLAT).

Definition manual_exit (a : Attribution) : bool := bool_decide (tag a = TAG_ACCOUNT_FLAT).

Definition total_qty (fs : list AccountFill) : Z := sum_by qty fs.

Definition turnover (fs : list AccountFill) : dec :=
  dsum (map (fun f => dmul (price f) (dec_of_Z (qty f))) fs).

Definition entry_qty (a : Attribution) : Z := total_qty (entry_fills a).
Definition entry_turnover (a : Attribution) : dec := turnover (entry_fills a).
Definition exit_turnover (a : Attribution) : dec := turnover (exit_fills a).

Fixpoint billed_loop (fs : list AccountFill) (seen : list (string * string)) (total : dec) : option dec :=
  match fs with
  | [] => Some total
  | f :: fs' =>
      match charges f with
      | None => None
      | Some c =>
          if bool_decide ((order_id f, trade_id f) ∈ seen) then billed_loop fs' seen total
          else billed_loop fs' ((order_id f, trade_id f) :: seen) (dadd total c)
      end
  end.

Definition billed_charges (a : Attribution) : option dec :=
  billed_loop (entry_fills a ++ exit_fills a) [] dzero.

Definition distinct_orders (a : Attribution) : nat :=
  length (remove_dups (map order_id (entry_fills a ++ exit_fills a))).

(** ** Sorting the book: Python's stable [sorted] on (ts, order id, trade id) *)

Definition key_leb (a b : AccountFill) : bool :=
  match String.compare (ts a) (ts b) with
  | Lt => true
  | Gt => false
  | Eq =>
      match String.compare (order_id a) (order_id b) with
      | Lt => true
      | Gt => false
      | Eq => String.leb (trade_id a) (trade_id b)
      end
  end.

Fixpoint insert_fill (f : AccountFill) (l : list AccountFill) : list AccountFill :=
  match l with
  | [] => [f]
  | g :: l' => if key_leb f g then f :: g :: l' else g :: insert_fill f l'
  end.

Definition sorted_fills (fs : list AccountFill) : list AccountFill := foldr insert_fill [] fs.

(** ** The walk *)

(** A fill of the sorted book with the account's net on the contract before and
    after it.  (Fills of other contracts leave the net unchanged; the code keeps
    no entry for them and skips them everywhere.) *)
Record step : Type := { fill : AccountFill; net_before : Z; net_after : Z }.

Fixpoint annotate (c : string) (running : Z) (book : list AccountFill) : list step :=
  match book with
  | [] => []
  | f :: book' =>
      let after := if String.eqb (contract f) c then running + signed_qty f else running in
      {| fill := f; net_before := running; net_after := after |} :: annotate c after book'
  end.

Definition on_contract (c : string) (s : step) : bool := String.eqb (contract (fill s)) c.

(** The bot's own exits that close exactly its own quantity, or [None]. *)
Fixpoint bot_self_closing_exits (bot_ids : list string) (c : string) (sign entry_qty : Z)
    (rest : list step) (exits : list AccountFill) (got : Z) : option (list AccountFill) :=
  match rest with
  | [] => None
  | s :: rest' =>
      let f := fill s in
      if negb (on_contract c s) then bot_self_closing_exits bot_ids c sign entry_qty rest' exits got
      else if 0 <? signed_qty f * sign then None
      else if negb (claimed bot_ids f) then None
      else
        let exits' := exits ++ [f] in
        let got' := got + qty f in
        if got' =? entry_qty then Some exits'
        else if entry_qty <? got' then None
        else bot_self_closing_exits bot_ids c sign entry_qty rest' exits' got'
  end.

(** Walk forward until flat: every fill must reduce exposure and not cross zero.
    Returns the exits and, when the walk fails, the reason. *)
Fixpoint walk (c : string) (sign net_at_end : Z) (rest : list step) (exits : list AccountFill)
  : list AccountFill * option why :=
  match rest with
  | [] => (exits, Some (NeverFlat net_at_end))
  | s :: rest' =>
      let f := fill s in
      if negb (on_contract c s) then walk c sign net_at_end rest' exits
      else if 0 <? signed_qty f * sign then
        (exits, Some (ExposureIncreased f (net_before s) (net_after s)))
      else if net_after s * sign <? 0 then
        (exits, Some (CrossedZero f (net_before s) (net_after s)))
      else
        let exits' := exits ++ [f] in
        if net_after s =? 0 then (exits', None) else walk c sign net_at_end rest' exits'
  end.

(** The fills since the account was last flat, newest first on input. *)
Fixpoint back_to_flat (prior : list step) : list AccountFill :=
  match prior with
  | [] => []
  | s :: prior' => if net_before s =? 0 then [fill s] else back_to_flat prior' ++ [fill s]
  end.

Definition sign_of (f : AccountFill) : Z := if is_buy f then 1 else -1.

Definition gross_of (sign : Z) (entries exits : list AccountFill) : dec :=
  if 0 <? sign then dsub (turnover exits) (turnover entries)
  else dsub (turnover entries) (turnover exits).

(** [[i for i, f in enumerate(book) if p f]], counting from [k]. *)
Fixpoint enumerate_where (p : AccountFill -> bool) (k : nat) (book : list AccountFill) : list nat :=
  match book with
  | [] => []
  | f :: book' => if p f then k :: enumerate_where p (S k) book' else enumerate_where p (S k) book'
  end.

Definition interfered (entries exits : list AccountFill) (w : why) : Attribution :=
  {| tag := TAG_HUMAN_INTERFERED; entry_fills := entries; exit_fills := exits;
     gross_pnl := None; reason := w |}.

Inductive attribute_error : Type := AssertionError (exit_qty entry_qty : Z).

(** The closing part of [attribute], once the walk reached a flat account. *)
Definition close_verdict (bot_ids : list string) (sign : Z) (entries exits : list AccountFill) : Attribution :=
  let manual := List.filter (fun f => bool_decide (provenance bot_ids f = Manual)) exits in
  let unknown := List.filter (fun f => bool_decide (provenance bot_ids f = Unknown)) exits in
  match unknown, manual with
  | _ :: _, _ =>
      {| tag := TAG_UNIDENTIFIED_FILL; entry_fills := entries; exit_fills := exits;
         gross_pnl := None; reason := UnidentifiedFills unknown |}
  | [], _ :: _ => interfered entries exits (ManualFills manual)
  | [], [] =>
      {| tag := TAG_BOT_ONLY; entry_fills := entries; exit_fills := exits;
         gross_pnl := Some (gross_of sign entries exits); reason := ClosedByBot |}
  end.

(** The verdict on one contract, from the entry fills [entries] (the first is
    [e0]), the net before the first and after the last of them, the steps before
    the first entry and the steps after the last. *)
Definition judge (bot_ids : list string) (e0 : AccountFill) (entries : list AccountFill)
    (n0 nl net_at_end : Z) (before rest : list step) : result attribute_error Attribution :=
  let c := contract e0 in
  let sign := sign_of e0 in
  let eq := total_qty entries in
  if negb (n0 =? 0) then
    let refuse :=
      interfered entries [] (PriorLots n0 e0 (back_to_flat (rev (List.filter (on_contract c) before)))) in
    if forallb (fun f => 0 <? signed_qty f * sign) entries then
      match bot_self_closing_exits bot_ids c sign eq rest [] 0 with
      | Some exits =>
          Ok {| tag := TAG_BOT_ONLY; entry_fills := entries; exit_fills := exits;
                gross_pnl := Some (gross_of sign entries exits);
                reason := SelfClosing eq n0 |}
      | None => Ok refuse
      end
    else Ok refuse
  else if existsb (fun f => signed_qty f * sign <=? 0) entries then
    Ok (interfered entries [] EntryNotOneSide)
  else if negb (nl =? sign * eq) then
    Ok (interfered entries [] (EntryInterleaved nl (sign * eq)))
  else
    match walk c sign net_at_end rest [] with
    | (exits, Some w) => Ok (interfered entries exits w)
    | (exits, None) =>
        if negb (total_qty exits =? eq) then Err (AssertionError (total_qty exits) eq)
        else Ok (close_verdict bot_ids sign entries exits)
    end.

Definition net_on (c : string) (book : list AccountFill) : Z :=
  sum_by (fun f => if String.eqb (contract f) c then signed_qty f else 0) book.

Definition attribute (entry_order_ids : list string) (account_fills : list AccountFill)
    (bot_order_ids : list string) : result attribute_error Attribution :=
  let book := sorted_fills account_fills in
  let entry_idx := enumerate_where (claimed entry_order_ids) 0 book in
  let entries := omap (fun i => nth_error book i) entry_idx in
  match entry_idx, entries with
  | first :: _, e0 :: _ =>
      let last := List.last entry_idx 0%nat in
      let c := contract e0 in
      if existsb (fun f => negb (String.eqb (contract f) c)) entries
      then Ok (interfered [] [] EntrySpansContracts)
      else
        let steps := annotate c 0 book in
        let n0 := match nth_error steps first with Some s => net_before s | None => 0 end in
        let nl := match nth_error steps last with Some s => net_after s | None => 0 end in
        judge bot_order_ids e0 entries n0 nl (net_on c book) (take first steps) (drop (S last) steps)
  | _, _ =>
      Ok {| tag := TAG_UNPRICEABLE; entry_fills := []; exit_fills := []; gross_pnl := None;
            reason := NoEntryFill |}
  end.

(** ** Structure of the book around the entry *)

Lemma enumerate_where_none p k l : forallb (fun f => negb (p f)) l = true -> enumerate_where p k l = [].
Proof.
  revert k. induction l as [|f l IH]; intros k; simpl; [done|]. intros [Hf Hl]%andb_prop.
  apply negb_true_iff in Hf. rewrite Hf. auto.
Qed.

Lemma enumerate_where_app p k l1 l2 :
  enumerate_where p k (l1 ++ l2) = enumerate_where p k l1 ++ enumerate_where p (k + length l1) l2.
Proof.
  revert k. induction l1 as [|f l1 IH]; intros k; simpl; [by rewrite Nat.add_0_r|].
  rewrite IH. replace (k + S (length l1))%nat with (S k + length l1)%nat by lia. by destruct (p f).
Qed.

Lemma omap_enumerate p pre l :
  omap (fun i => nth_error (pre ++ l) i) (enumerate_where p (length pre) l) = List.filter p l.
Proof.
  revert pre. induction l as [|f l IH]; intros pre; simpl; [done|].
  specialize (IH (pre ++ [f])). rewrite length_app, <- app_assoc in IH. simpl in IH.
  rewrite Nat.add_1_r in IH. destruct (p f); simpl; [|done].
  rewrite nth_error_app2, Nat.sub_diag by lia. simpl. f_equal. exact IH.
Qed.

(** Either nothing is claimed, or the book splits around the first and the last
    claimed fill. *)
Lemma claimed_split p (book : list AccountFill) :
  forallb (fun f => negb (p f)) book = true
  \/ exists pre mid post e0 el,
       book = pre ++ mid ++ post /\ (exists t, mid = e0 :: t) /\ (exists t, mid = t ++ [el])
       /\ p e0 = true /\ p el = true
       /\ forallb (fun f => negb (p f)) pre = true /\ forallb (fun f => negb (p f)) post = true.
Proof.
  induction book as [|f book IH]; [by left|].
  destruct IH as [Hn | (pre & mid & post & e0 & el & -> & [t Ht] & [t' Ht'] & H0 & Hl & Hpre & Hpost)].
  - destruct (p f) eqn:Ef; [right | left; simpl; by rewrite Ef].
    exists [], [f], book, f, f. repeat split; auto; [by exists [] | by exists []].
  - right. destruct (p f) eqn:Ef.
    + exists [], (f :: pre ++ mid), post, f, el. simpl. rewrite app_assoc.
      repeat split; auto; [by eexists |]. rewrite Ht'. exists (f :: pre ++ t'). simpl. by rewrite app_assoc.
    + exists (f :: pre), mid, post, e0, el. simpl. rewrite Ef. repeat split; eauto.
Qed.

Lemma length_annotate c r book : length (annotate c r book) = length book.
Proof. revert r. induction book; intros r; simpl; auto. Qed.

Lemma annotate_app c r b1 b2 :
  annotate c r (b1 ++ b2) = annotate c r b1 ++ annotate c (r + net_on c b1) b2.
Proof.
  revert r. induction b1 as [|f b1 IH]; intros r; simpl; [by rewrite Z.add_0_r|].
  rewrite IH. do 3 f_equal. unfold net_on. simpl. destruct (String.eqb _ _); lia.
Qed.

Lemma net_on_app c b1 b2 : net_on c (b1 ++ b2) = net_on c b1 + net_on c b2.
Proof. apply sum_by_app. Qed.

Lemma filter_none (p : AccountFill -> bool) l :
  forallb (fun f => negb (p f)) l = true -> List.filter p l = [].
Proof.
  induction l as [|f l IH]; simpl; [done|]. intros [Hf Hl]%andb_prop.
  apply negb_true_iff in Hf. rewrite Hf. auto.
Qed.

(** [attribute] in terms of that split. *)
Lemma attribute_split ids fills bot pre mid post e0 t el t' :
  sorted_fills fills = pre ++ mid ++ post ->
  mid = e0 :: t -> mid = t' ++ [el] ->
  claimed ids e0 = true -> claimed ids el = true ->
  forallb (fun f => negb (claimed ids f)) pre = true ->
  forallb (fun f => negb (claimed ids f)) post = true ->
  let entries := List.filter (claimed ids) mid in
  let c := contract e0 in
  attribute ids fills bot =
    if existsb (fun f => negb (String.eqb (contract f) c)) entries
    then Ok (interfered [] [] EntrySpansContracts)
    else judge bot e0 entries (net_on c pre) (net_on c (pre ++ mid)) (net_on c (pre ++ mid ++ post))
           (annotate c 0 pre) (annotate c (net_on c (pre ++ mid)) post).
Proof.
  intros Hs Hm Hm' He0 Hel Hpre Hpost entries c. unfold attribute. rewrite Hs.
  set (p := claimed ids) in *.
  assert (Eidx : enumerate_where p 0 (pre ++ mid ++ post) = enumerate_where p (length pre) mid).
  { rewrite !enumerate_where_app, (enumerate_where_none p _ pre), (enumerate_where_none p _ post) by done.
    by rewrite app_nil_r. }
  assert (Eent : omap (fun i => nth_error (pre ++ mid ++ post) i) (enumerate_where p (length pre) mid) = entries).
  { rewrite <- Eidx. pose proof (omap_enumerate p [] (pre ++ mid ++ post)) as E. simpl in E. rewrite E.
    by rewrite !List.filter_app, (filter_none p pre), (filter_none p post), app_nil_r. }
  assert (Ehd : exists tl, enumerate_where p (length pre) mid = length pre :: tl)
    by (rewrite Hm; simpl; rewrite He0; eauto).
  assert (Elast : List.last (enumerate_where p (length pre) mid) 0%nat = (length pre + length t')%nat).
  { rewrite Hm', enumerate_where_app. simpl. rewrite Hel. apply last_last. }
  assert (Ee : exists tl, entries = e0 :: tl) by (unfold entries; rewrite Hm; simpl; rewrite He0; eauto).
  destruct Ee as [etl Ee]. destruct Ehd as [tl Etl]. cbv zeta. rewrite Eidx.
  rewrite Etl in *. cbv iota. rewrite Eent, Elast, Ee. cbv iota. fold c. rewrite <- Ee.
  destruct (existsb _ entries); [done|].
  rewrite !annotate_app, Z.add_0_l.
  set (steps := annotate c 0 pre ++ annotate c (net_on c pre) mid
      ++ annotate c (net_on c pre + net_on c mid) post).
  assert (E1 : exists a, nth_error steps (length pre)
      = Some {| fill := e0; net_before := net_on c pre; net_after := a |}).
  { unfold steps. rewrite nth_error_app2 by (rewrite length_annotate; lia).
    rewrite length_annotate, Nat.sub_diag, Hm. simpl. eauto. }
  assert (E2 : exists b, nth_error steps (length pre + length t')
      = Some {| fill := el; net_before := b; net_after := net_on c (pre ++ mid) |}).
  { unfold steps. rewrite nth_error_app2 by (rewrite length_annotate; lia).
    rewrite length_annotate. replace (length pre + length t' - length pre)%nat with (length t') by lia.
    rewrite net_on_app, Hm', annotate_app, <- app_assoc.
    rewrite nth_error_app2 by (rewrite length_annotate; lia).
    rewrite length_annotate, Nat.sub_diag, net_on_app. simpl. eexists. do 2 f_equal.
    change (net_on c [el]) with ((if String.eqb (contract el) c then signed_qty el else 0) + 0).
    destruct (String.eqb _ _); lia. }
  destruct E1 as [a ->], E2 as [b ->]. unfold steps. simpl. f_equal.
  - rewrite take_app_le, take_ge by (rewrite ?length_annotate; lia). done.
  - rewrite app_assoc, drop_app_ge by (rewrite length_app, !length_annotate, Hm', length_app; simpl; lia).
    rewrite length_app, !length_annotate, Hm', length_app. simpl length.
    replace (S (length pre + length t') - (length pre + (length t' + 1)))%nat with 0%nat by lia.
    by rewrite <- Hm', net_on_app.
Qed.

(** ** What the two exit scans return *)

Definition on_c (c : string) (f : AccountFill) : bool := String.eqb (contract f) c.

Lemma sign_of_cases f : sign_of f = 1 \/ sign_of f = -1.
Proof. unfold sign_of. destruct (is_buy f); auto. Qed.

(** A successful walk: the exits are the contract's fills of a prefix of the
    book, all reducing, and they bring the net exactly to zero. *)
Lemma walk_flat c sign ne n post acc exits :
  walk c sign ne (annotate c n post) acc = (exits, None) ->
  exists post1 post2, post = post1 ++ post2
    /\ exits = acc ++ List.filter (on_c c) post1
    /\ Forall (fun f => signed_qty f * sign <= 0) (List.filter (on_c c) post1)
    /\ n + net_on c post1 = 0.
Proof.
  revert n acc. induction post as [|f post IH]; intros n acc; simpl; [discriminate|].
  unfold on_contract; simpl. fold (on_c c f). destruct (on_c c f) eqn:Ec; simpl.
  - destruct (Z.ltb_spec 0 (signed_qty f * sign)); [discriminate|].
    destruct (Z.ltb_spec ((n + signed_qty f) * sign) 0); [discriminate|].
    destruct (Z.eqb_spec (n + signed_qty f) 0) as [E0|E0].
    + intros [= <-]. exists [f], post. simpl. rewrite Ec. unfold net_on; simpl.
      fold (on_c c f). rewrite Ec. repeat split; auto; lia.
    + intros (p1 & p2 & -> & -> & Hall & Hn)%IH. exists (f :: p1), p2. simpl. rewrite Ec.
      rewrite <- app_assoc. unfold net_on in *; simpl. fold (on_c c f). rewrite Ec.
      repeat split; auto; lia.
  - intros (p1 & p2 & -> & -> & Hall & Hn)%IH. exists (f :: p1), p2. simpl. rewrite Ec.
    unfold net_on in *; simpl. fold (on_c c f). rewrite Ec. repeat split; auto; lia.
Qed.

Lemma self_closing_spec bot c sign eq n post acc got exits :
  bot_self_closing_exits bot c sign eq (annotate c n post) acc got = Some exits ->
  exists post1 post2, post = post1 ++ post2
    /\ exits = acc ++ List.filter (on_c c) post1
    /\ Forall (fun f => signed_qty f * sign <= 0 /\ claimed bot f = true) (List.filter (on_c c) post1)
    /\ got + total_qty (List.filter (on_c c) post1) = eq.
Proof.
  revert n acc got. induction post as [|f post IH]; intros n acc got; simpl; [discriminate|].
  unfold on_contract; simpl. fold (on_c c f). destruct (on_c c f) eqn:Ec; simpl.
  - destruct (Z.ltb_spec 0 (signed_qty f * sign)); [discriminate|].
    destruct (claimed bot f) eqn:Eb; [|discriminate]. simpl.
    destruct (Z.eqb_spec (got + qty f) eq) as [E0|E0].
    + intros [= <-]. exists [f], post. simpl. rewrite Ec. unfold total_qty; simpl.
      repeat split; auto; lia.
    + destruct (Z.ltb_spec eq (got + qty f)); [discriminate|].
      intros (p1 & p2 & -> & -> & Hall & Hn)%IH. exists (f :: p1), p2. simpl. rewrite Ec.
      rewrite <- app_assoc. unfold total_qty in *; simpl. repeat split; auto; lia.
  - intros (p1 & p2 & -> & -> & Hall & Hn)%IH. exists (f :: p1), p2. simpl. rewrite Ec. auto.
Qed.

(** Reducing fills with non-negative quantities: quantity is net, up to sign. *)
Lemma reducing_total sign fs :
  (sign = 1 \/ sign = -1) -> Forall (fun f => 0 <= qty f) fs ->
  Forall (fun f => signed_qty f * sign <= 0) fs -> total_qty fs = - (sign * sum_by signed_qty fs).
Proof.
  intros Hs Hq Hr. unfold total_qty. induction fs as [|f fs IH]; simpl; [lia|].
  apply Forall_cons in Hq as [Hq Hqs], Hr as [Hr Hrs]. rewrite IH by done.
  unfold signed_qty in *. destruct (is_buy f), Hs; subst; lia.
Qed.

Lemma increasing_total sign fs :
  (sign = 1 \/ sign = -1) -> Forall (fun f => 0 <= qty f) fs ->
  Forall (fun f => 0 < signed_qty f * sign) fs -> total_qty fs = sign * sum_by signed_qty fs.
Proof.
  intros Hs Hq Hr. unfold total_qty. induction fs as [|f fs IH]; simpl; [lia|].
  apply Forall_cons in Hq as [Hq Hqs], Hr as [Hr Hrs]. rewrite IH by done.
  unfold signed_qty in *. destruct (is_buy f), Hs; subst; lia.
Qed.

Lemma net_on_filter c book : net_on c book = sum_by signed_qty (List.filter (on_c c) book).
Proof.
  induction book as [|f book IH]; simpl; [done|]. unfold net_on in *; simpl. rewrite IH.
  fold (on_c c f). destruct (on_c c f); simpl; lia.
Qed.

Lemma insert_fill_perm f l : insert_fill f l ≡ₚ f :: l.
Proof.
  induction l as [|g l IH]; simpl; [done|]. destruct (key_leb f g); [done|].
  rewrite IH. apply Permutation_swap.
Qed.

Lemma sorted_fills_perm fs : sorted_fills fs ≡ₚ fs.
Proof. induction fs as [|f fs IH]; simpl; [done|]. by rewrite insert_fill_perm, IH. Qed.

Lemma Forall_sorted (P : AccountFill -> Prop) fs : Forall P fs -> Forall P (sorted_fills fs).
Proof. by rewrite sorted_fills_perm. Qed.

Lemma Forall_filter_list {A} (P : A -> Prop) (p : A -> bool) l : Forall P l -> Forall P (List.filter p l).
Proof. rewrite !Forall_forall. intros H x. rewrite list_elem_of_In, filter_In, <- list_elem_of_In. naive_solver. Qed.

(** The verdict of [close_verdict] is a price exactly when every exit is the
    bot's. *)
Lemma close_verdict_cases bot sign entries exits :
  let a := close_verdict bot sign entries exits in
  (Forall (fun f => claimed bot f = true) exits
     /\ a = {| tag := TAG_BOT_ONLY; entry_fills := entries; exit_fills := exits;
               gross_pnl := Some (gross_of sign entries exits); reason := ClosedByBot |})
  \/ (~ Forall (fun f => claimed bot f = true) exits /\ gross_pnl a = None
      /\ entry_fills a = entries /\ exit_fills a = exits
      /\ (tag a = TAG_UNIDENTIFIED_FILL \/ tag a = TAG_HUMAN_INTERFERED)
      /\ (tag a = TAG_HUMAN_INTERFERED <-> Forall (fun f => provenance bot f <> Unknown) exits)).
Proof.
  unfold close_verdict. cbv zeta.
  set (unknown := List.filter _ exits). set (manual := List.filter _ exits).
  assert (Hu : forall f, In f unknown <-> In f exits /\ provenance bot f = Unknown)
    by (intros f; unfold unknown; rewrite filter_In, bool_decide_eq_true; done).
  assert (Hm : forall f, In f manual <-> In f exits /\ provenance bot f = Manual)
    by (intros f; unfold manual; rewrite filter_In, bool_decide_eq_true; done).
  assert (Hb : forall f, provenance bot f = Bot <-> claimed bot f = true)
    by (intros f; unfold provenance; destruct (claimed bot f); [done|]; destruct (String.eqb _ _); done).
  assert (Hno : forall f, In f exits -> provenance bot f <> Bot ->
      ~ Forall (fun f => claimed bot f = true) exits).
  { intros f Hf Hne HF. rewrite List.Forall_forall in HF. apply Hne, Hb, HF, Hf. }
  destruct unknown as [|u us] eqn:Eu.
  - destruct manual as [|m ms] eqn:Em; [left|right].
    + split; [|done]. rewrite List.Forall_forall. intros f Hf. apply Hb.
      destruct (provenance bot f) eqn:E; [done | destruct (proj2 (Hm f) (conj Hf E)) | destruct (proj2 (Hu f) (conj Hf E))].
    + destruct (proj1 (Hm m) (or_introl eq_refl)) as [Hin Hp]. simpl. repeat split; auto.
      * apply (Hno m Hin). by rewrite Hp.
      * intros _. rewrite List.Forall_forall. intros f Hf E. destruct (proj2 (Hu f) (conj Hf E)).
  - right. destruct (proj1 (Hu u) (or_introl eq_refl)) as [Hin Hp]. simpl. repeat split; auto.
    + apply (Hno u Hin). by rewrite Hp.
    + discriminate.
    + rewrite List.Forall_forall. intros HF. destruct (HF u Hin Hp).
Qed.

(** ** Properties *)

Definition entries_of (ids : list string) (book : list AccountFill) : list AccountFill :=
  List.filter (claimed ids) book.

Definition spans_contracts (c : string) (entries : list AccountFill) : bool :=
  existsb (fun f => negb (on_c c f)) entries.

(** Every run of [attribute] is one of: no entry fill; entries on several
    contracts; a verdict of [judge] on the split book. *)
Lemma attribute_inv ids fills bot :
  (entries_of ids (sorted_fills fills) = []
     /\ attribute ids fills bot
        = Ok {| tag := TAG_UNPRICEABLE; entry_fills := []; exit_fills := []; gross_pnl := None;
                reason := NoEntryFill |})
  \/ exists pre mid post e0 t,
       sorted_fills fills = pre ++ mid ++ post /\ mid = e0 :: t
       /\ entries_of ids pre = [] /\ entries_of ids post = [] /\ claimed ids e0 = true
       /\ ((spans_contracts (contract e0) (entries_of ids mid) = true
              /\ attribute ids fills bot = Ok (interfered [] [] EntrySpansContracts))
           \/ (spans_contracts (contract e0) (entries_of ids mid) = false
              /\ attribute ids fills bot
                 = judge bot e0 (entries_of ids mid) (net_on (contract e0) pre)
                     (net_on (contract e0) (pre ++ mid)) (net_on (contract e0) (pre ++ mid ++ post))
                     (annotate (contract e0) 0 pre)
                     (annotate (contract e0) (net_on (contract e0) (pre ++ mid)) post))).
Proof.
  destruct (claimed_split (claimed ids) (sorted_fills fills))
    as [Hn | (pre & mid & post & e0 & el & Hs & [t Ht] & [t' Ht'] & H0 & Hl & Hpre & Hpost)].
  - left. split; [by apply filter_none|]. unfold attribute. by rewrite enumerate_where_none.
  - right. exists pre, mid, post, e0, t.
    split; [done|]. split; [done|]. split; [by apply filter_none|]. split; [by apply filter_none|].
    split; [done|].
    rewrite (attribute_split ids fills bot pre mid post e0 t el t') by done.
    fold (entries_of ids mid). fold (on_c (contract e0)).
    change (existsb (fun f => negb (String.eqb (contract f) (contract e0))) (entries_of ids mid))
      with (spans_contracts (contract e0) (entries_of ids mid)).
    destruct (spans_contracts _ _); auto.
Qed.

Lemma existsb_false_Forall {A} (p : A -> bool) l : existsb p l = false -> Forall (fun x => p x = false) l.
Proof.
  induction l as [|x l IH]; simpl; [constructor|]. intros [? ?]%orb_false_elim. constructor; auto.
Qed.

(** The successful walk closes exactly the entry quantity. *)
Lemma walk_total c sign ne n post exits :
  (sign = 1 \/ sign = -1) -> Forall (fun f => 0 <= qty f) post ->
  walk c sign ne (annotate c n post) [] = (exits, None) -> total_qty exits = sign * n.
Proof.
  intros Hs Hq (p1 & p2 & -> & -> & Hr & Hn)%walk_flat. simpl.
  apply Forall_app in Hq as [Hq _]. rewrite reducing_total with (sign := sign); auto using Forall_filter_list.
  rewrite <- net_on_filter. lia.
Qed.

(** The walk's internal assertion "exit quantity equals entry quantity" is a
    theorem: on a book whose quantities are not negative, [attribute] never
    raises, whatever the fills, the order ids and their interleaving. *)
Theorem attribute_total ids fills bot :
  Forall (fun f => 0 <= qty f) fills -> exists a, attribute ids fills bot = Ok a.
Proof.
  intros Hq%Forall_sorted. destruct (attribute_inv ids fills bot) as [[_ ->] | H]; [eauto|].
  destruct H as (pre & mid & post & e0 & t & Hs & _ & _ & _ & _ & [[_ ->] | [_ ->]]); [eauto|].
  rewrite Hs in Hq. apply Forall_app in Hq as [_ Hq]. apply Forall_app in Hq as [_ Hq].
  unfold judge. cbv zeta. split_match.
  { repeat split_match; eauto. }
  split_match; [eauto|]. split_match; [eauto|].
  destruct (walk _ _ _ _ _) as [exits [w|]] eqn:Ew; [eauto|].
  apply walk_total in Ew; auto using sign_of_cases. bool_to_prop.
  rewrite Ew, Heqb1. destruct (sign_of_cases e0) as [-> | ->]; rewrite (proj2 (Z.eqb_eq _ _)) by lia; eauto.
Qed.

(** Pricing is all or nothing: a verdict carries a gross P&L exactly when it
    is tagged as priced, the tag is never the superseded "account flat" nor one
    of the tags other code assigns, and an unpriced trip carries no number a
    later reader could pick up. *)
Theorem attribute_tag_gross ids fills bot a :
  attribute ids fills bot = Ok a ->
  (priced a = true <-> gross_pnl a <> None)
  /\ (tag a = TAG_BOT_ONLY \/ tag a = TAG_HUMAN_INTERFERED \/ tag a = TAG_UNPRICEABLE
      \/ tag a = TAG_UNIDENTIFIED_FILL)
  /\ manual_exit a = false.
Proof.
  assert (Hgood : forall a, (tag a = TAG_BOT_ONLY /\ gross_pnl a <> None)
      \/ ((tag a = TAG_HUMAN_INTERFERED \/ tag a = TAG_UNPRICEABLE \/ tag a = TAG_UNIDENTIFIED_FILL)
          /\ gross_pnl a = None) ->
      (priced a = true <-> gross_pnl a <> None)
      /\ (tag a = TAG_BOT_ONLY \/ tag a = TAG_HUMAN_INTERFERED \/ tag a = TAG_UNPRICEABLE
          \/ tag a = TAG_UNIDENTIFIED_FILL) /\ manual_exit a = false).
  { intros [tg es xs g w]. unfold priced, manual_exit; simpl.
    intros [[-> Hg] | [[-> | [-> | ->]] ->]]; repeat split; simpl; auto; done. }
  destruct (attribute_inv ids fills bot) as [[_ ->] | H]; [intros [= <-]; apply Hgood; simpl; auto|].
  destruct H as (pre & mid & post & e0 & t & Hs & _ & _ & _ & _ & [[_ ->] | [_ ->]]);
    [intros [= <-]; apply Hgood; simpl; auto|].
  unfold judge. cbv zeta.
  repeat (split_match; try (intros [= <-]; apply Hgood; simpl; by auto)); try discriminate.
  intros [= <-]. apply Hgood.
  match goal with |- context [close_verdict ?b ?s ?es ?xs] =>
    destruct (close_verdict_cases b s es xs) as [[_ ->] | (_ & Hg & _ & _ & Ht & _)] end; simpl; [by left|].
  right. destruct Ht; auto.
Qed.

(** A priced round trip in a book: where its entry and exit fills sit, whose
    they are, and what they add up to. *)
Inductive round_trip (ids bot : list string) (book : list AccountFill) (a : Attribution) : Prop :=
| RoundTrip (pre mid close post : list AccountFill) (e0 : AccountFill) :
    book = pre ++ mid ++ close ++ post ->
    entry_fills a = entries_of ids book ->
    entry_fills a = entries_of ids mid ->
    hd_error mid = Some e0 ->
    Forall (fun f => contract f = contract e0 /\ 0 < signed_qty f * sign_of e0) (entry_fills a) ->
    exit_fills a = List.filter (on_c (contract e0)) close ->
    Forall (fun f => claimed bot f = true /\ signed_qty f * sign_of e0 <= 0) (exit_fills a) ->
    total_qty (exit_fills a) = total_qty (entry_fills a) ->
    gross_pnl a = Some (gross_of (sign_of e0) (entry_fills a) (exit_fills a)) ->
    (reason a = ClosedByBot ->
       net_on (contract e0) pre = 0 /\ net_on (contract e0) (pre ++ mid ++ close) = 0) ->
    round_trip ids bot book a.

Lemma Forall_and_intro {A} (P Q : A -> Prop) l : Forall P l -> Forall Q l -> Forall (fun x => P x /\ Q x) l.
Proof. rewrite !Forall_forall. naive_solver. Qed.

Lemma one_side_entries c sign (entries : list AccountFill) :
  spans_contracts c entries = false -> Forall (fun f => 0 < signed_qty f * sign) entries ->
  Forall (fun f => contract f = c /\ 0 < signed_qty f * sign) entries.
Proof.
  intros Hc Hs. apply Forall_and_intro; [|done]. apply existsb_false_Forall in Hc.
  eapply Forall_impl; [exact Hc|]. intros f Hf%negb_false_iff. by apply String.eqb_eq in Hf.
Qed.

Lemma bot_only_round_trip ids fills bot a :
  Forall (fun f => 0 <= qty f) fills ->
  attribute ids fills bot = Ok a -> tag a = TAG_BOT_ONLY ->
  round_trip ids bot (sorted_fills fills) a.
Proof.
  intros Hq%Forall_sorted. destruct (attribute_inv ids fills bot) as [[_ ->] | H]; [by intros [= <-]|].
  destruct H as (pre & mid & post & e0 & t & Hs & Hm & Hpre & Hpost & He0 & [[_ ->] | [Hc ->]]); [by intros [= <-]|].
  assert (Hent : entries_of ids (pre ++ mid ++ post) = entries_of ids mid)
    by (unfold entries_of in *; by rewrite !List.filter_app, Hpre, Hpost, app_nil_r).
  rewrite Hs in *. apply Forall_app in Hq as [_ Hq]. apply Forall_app in Hq as [_ Hq].
  unfold judge. cbv zeta. split_match.
  - destruct (forallb _ _) eqn:Hside; [|by intros [= <-]].
    destruct (bot_self_closing_exits _ _ _ _ _ _ _) as [exits|] eqn:Ex; [|by intros [= <-]].
    intros [= <-] _. apply self_closing_spec in Ex as (p1 & p2 & -> & -> & Hall & Htot).
    eapply (RoundTrip _ _ _ _ pre mid p1 p2 e0); simpl; auto; [by rewrite Hm| | |discriminate].
    + apply one_side_entries; [done|]. rewrite List.Forall_forall. rewrite forallb_forall in Hside.
      intros f Hf%Hside. lia.
    + eapply Forall_impl; [exact Hall|]. naive_solver.
  - destruct (existsb _ (entries_of ids mid)) eqn:Hside; [by intros [= <-]|]. split_match; [by intros [= <-]|].
    destruct (walk _ _ _ _ _) as [exits [w|]] eqn:Ew; [by intros [= <-]|].
    pose proof (walk_total _ _ _ _ _ _ (sign_of_cases e0) Hq Ew) as Htot.
    apply walk_flat in Ew as (p1 & p2 & -> & -> & Hr & Hn). simpl in *.
    split_match; [discriminate|]. bool_to_prop.
    match goal with |- context [close_verdict ?b ?s ?es ?xs] =>
      destruct (close_verdict_cases b s es xs) as [[Hbot ->] | (_ & _ & _ & _ & Ht & _)] end.
    2:{ intros [= <-] E. destruct Ht; congruence. }
    intros [= <-] _.
    eapply (RoundTrip _ _ _ _ pre mid p1 p2 e0); simpl; auto; [by rewrite Hm| | |].
    + apply one_side_entries; [done|]. apply existsb_false_Forall in Hside.
      eapply Forall_impl; [exact Hside|]. simpl. intros f Hf. lia.
    + by apply Forall_and_intro.
    + intros _. split; [done|]. rewrite app_assoc, net_on_app. lia.
Qed.

(** A price is never attached to anything but the bot's own round trip.  If
    the verdict is "bot only", the entry fills are exactly the position's entry
    orders, on one contract and one side; the exit fills are the contract's
    fills of a stretch of the book right after the last entry, every one of them
    placed by the bot (so no manual and no unidentified fill is among them) and
    reducing; entry and exit quantities are equal; and the gross P&L is the
    signed difference of their turnovers.  Outside the self-closing case the
    account was flat before the entry and is flat after the exits. *)
Theorem attribute_bot_only_sound ids fills bot a :
  Forall (fun f => 0 <= qty f) fills ->
  attribute ids fills bot = Ok a -> tag a = TAG_BOT_ONLY ->
  round_trip ids bot (sorted_fills fills) a.
Proof. apply bot_only_round_trip. Qed.

(** ** Fills after the close *)

Lemma insert_fill_app f s x :
  (forall g, In g x -> key_leb f g = true) -> insert_fill f (s ++ x) = insert_fill f s ++ x.
Proof.
  intros Hx. induction s as [|h s IH]; simpl.
  - destruct x as [|g x]; simpl; [done|]. by rewrite (Hx g (or_introl eq_refl)).
  - by destruct (key_leb f h); [|rewrite IH].
Qed.

Lemma sorted_fills_app fs later :
  (forall f g, In f fs -> In g later -> key_leb f g = true) ->
  sorted_fills (fs ++ later) = sorted_fills fs ++ sorted_fills later.
Proof.
  intros H. unfold sorted_fills. rewrite foldr_app. fold (sorted_fills later).
  induction fs as [|f fs IH]; simpl; [done|]. rewrite IH by (simpl in *; eauto).
  apply insert_fill_app. intros g Hg. apply H; [by left|].
  rewrite <- list_elem_of_In in *. by rewrite sorted_fills_perm in Hg.
Qed.

Lemma walk_later c sign ne ne' rest later acc exits :
  walk c sign ne rest acc = (exits, None) -> walk c sign ne' (rest ++ later) acc = (exits, None).
Proof.
  revert acc. induction rest as [|s rest IH]; intros acc; simpl; [discriminate|].
  repeat split_match; auto; discriminate.
Qed.

Lemma self_closing_later bot c sign eq rest later acc got exits :
  bot_self_closing_exits bot c sign eq rest acc got = Some exits ->
  bot_self_closing_exits bot c sign eq (rest ++ later) acc got = Some exits.
Proof.
  revert acc got. induction rest as [|s rest IH]; intros acc got; simpl; [discriminate|].
  repeat split_match; auto; discriminate.
Qed.

Lemma judge_later bot e0 entries n0 nl ne ne' before rest later a :
  judge bot e0 entries n0 nl ne before rest = Ok a -> tag a = TAG_BOT_ONLY ->
  judge bot e0 entries n0 nl ne' before (rest ++ later) = Ok a.
Proof.
  unfold judge. cbv zeta. split_match.
  - split_match; [|intros [= <-]; discriminate].
    destruct (bot_self_closing_exits _ _ _ _ rest _ _) eqn:E; [|intros [= <-]; discriminate].
    by rewrite (self_closing_later _ _ _ _ _ later _ _ _ E).
  - split_match; [intros [= <-]; discriminate|]. split_match; [intros [= <-]; discriminate|].
    destruct (walk _ _ ne rest _) as [exits [w|]] eqn:E; [intros [= <-]; discriminate|].
    by rewrite (walk_later _ _ _ ne' _ later _ _ E).
Qed.

(** A fill after a position closed does not taint it: once a trip is priced,
    supplying any further fills whose keys sort after the book (manual or not,
    on any contract, but not one of the position's own entry orders) leaves
    the whole verdict unchanged. *)
Theorem attribute_ignores_later_fills ids fills later bot a :
  attribute ids fills bot = Ok a -> tag a = TAG_BOT_ONLY ->
  (forall f g, In f fills -> In g later -> key_leb f g = true) ->
  Forall (fun g => claimed ids g = false) later ->
  attribute ids (fills ++ later) bot = Ok a.
Proof.
  intros Ha Ht Hk Hl.
  destruct (claimed_split (claimed ids) (sorted_fills fills))
    as [Hn | (pre & mid & post & e0 & el & Hs & [t Ht0] & [t' Ht'] & H0 & Hel & Hpre & Hpost)].
  { revert Ha. unfold attribute. rewrite enumerate_where_none by done. intros [= <-]. discriminate. }
  assert (Hs' : sorted_fills (fills ++ later) = pre ++ mid ++ (post ++ sorted_fills later))
    by (rewrite sorted_fills_app, Hs, <- !app_assoc; done).
  assert (Hpost' : forallb (fun f => negb (claimed ids f)) (post ++ sorted_fills later) = true).
  { rewrite forallb_app, Hpost. apply forallb_forall. intros g Hg. apply negb_true_iff.
    apply Forall_sorted in Hl. rewrite List.Forall_forall in Hl. auto. }
  rewrite (attribute_split ids _ bot _ _ _ e0 t el t' Hs) in Ha by done.
  rewrite (attribute_split ids _ bot _ _ _ e0 t el t' Hs') by done.
  destruct (existsb _ _); [by simplify_eq|]. rewrite annotate_app.
  by eapply judge_later.
Qed.

(** ** Completeness and money *)

Lemma walk_reaches_flat c sign ne n close post acc :
  (sign = 1 \/ sign = -1) -> 0 < n * sign ->
  Forall (fun f => signed_qty f * sign < 0) (List.filter (on_c c) close) ->
  n + net_on c close = 0 ->
  walk c sign ne (annotate c n (close ++ post)) acc = (acc ++ List.filter (on_c c) close, None).
Proof.
  intros Hs. revert n acc. induction close as [|f close IH]; intros n acc Hn Hr Hz.
  - unfold net_on in Hz; simpl in Hz. lia.
  - rewrite net_on_filter in Hz, IH. simpl in *. unfold on_contract; simpl. fold (on_c c f).
    destruct (on_c c f) eqn:Ec; simpl in *; [|by apply IH].
    apply Forall_cons in Hr as [Hf Hr].
    assert (Hrest : sum_by signed_qty (List.filter (on_c c) close) * sign <= 0).
    { clear -Hr. induction (List.filter (on_c c) close) as [|g l IHl]; simpl; [lia|].
      apply Forall_cons in Hr as [? Hr]. specialize (IHl Hr). lia. }
    rewrite (proj2 (Z.ltb_ge _ _)), (proj2 (Z.ltb_ge _ _)) by (destruct Hs; subst; lia).
    destruct (Z.eqb_spec (n + signed_qty f) 0) as [E|E].
    + assert (List.filter (on_c c) close = []) as ->; [|done].
      destruct (List.filter (on_c c) close) as [|g l] eqn:El; [done|]. exfalso.
      simpl in *. apply Forall_cons in Hr as [Hg Hr].
      assert (sum_by signed_qty l * sign <= 0).
      { clear -Hr. induction l as [|h l IHl]; simpl; [lia|].
        apply Forall_cons in Hr as [? Hr]. specialize (IHl Hr). lia. }
      destruct Hs; subst; lia.
    + rewrite IH; auto; [|destruct Hs; subst; lia | lia]. by rewrite <- app_assoc.
Qed.

(** The bot's own clean round trip is always priced.  If the account was
    flat on the contract before the entry, the entry orders' fills are on one
    side and account for the whole net after the last of them, and the
    contract's following fills are bot fills that strictly reduce and bring the
    net back to zero, then the verdict is "bot only" with exactly these fills
    and their turnover difference, whatever else the book holds before,
    after and on other contracts. *)
Theorem attribute_prices_clean_trip ids bot fills pre mid close post e0 t el t' :
  sorted_fills fills = pre ++ mid ++ close ++ post ->
  mid = e0 :: t -> mid = t' ++ [el] -> claimed ids e0 = true -> claimed ids el = true ->
  entries_of ids pre = [] -> entries_of ids (close ++ post) = [] ->
  Forall (fun f => contract f = contract e0 /\ 0 < qty f /\ 0 < signed_qty f * sign_of e0) (entries_of ids mid) ->
  net_on (contract e0) pre = 0 ->
  net_on (contract e0) mid = sign_of e0 * total_qty (entries_of ids mid) ->
  Forall (fun f => claimed bot f = true /\ 0 < qty f /\ signed_qty f * sign_of e0 < 0)
    (List.filter (on_c (contract e0)) close) ->
  net_on (contract e0) (mid ++ close) = 0 ->
  attribute ids fills bot
  = Ok {| tag := TAG_BOT_ONLY; entry_fills := entries_of ids mid;
          exit_fills := List.filter (on_c (contract e0)) close;
          gross_pnl := Some (gross_of (sign_of e0) (entries_of ids mid)
                               (List.filter (on_c (contract e0)) close));
          reason := ClosedByBot |}.
Proof.
  intros Hs Hm Hm' H0 Hel Hpre Hpost Hent Hn0 Hnm Hcl Hz.
  assert (Hnone : forall l, entries_of ids l = [] -> forallb (fun f => negb (claimed ids f)) l = true).
  { intros l Hl. apply forallb_forall. intros f Hf. apply negb_true_iff.
    destruct (claimed ids f) eqn:E; [|done]. assert (In f (entries_of ids l)) as Hin by (by apply filter_In).
    rewrite Hl in Hin. destruct Hin. }
  rewrite (attribute_split ids fills bot pre mid (close ++ post) e0 t el t') by auto.
  fold (entries_of ids mid).
  assert (Hpos : 0 < total_qty (entries_of ids mid)).
  { unfold entries_of in *. rewrite Hm in Hent |- *. simpl in Hent |- *. rewrite H0 in Hent |- *.
    unfold total_qty; simpl. apply Forall_cons in Hent as [(_ & ? & _) Hent].
    pose proof (sum_by_nonneg qty (List.filter (claimed ids) t)) as Hnn.
    rewrite List.Forall_forall in Hent. specialize (Hnn ltac:(intros f (_ & ? & _)%Hent; lia)). lia. }
  assert (E1 : existsb (fun f => negb (String.eqb (contract f) (contract e0))) (entries_of ids mid) = false).
  { apply not_true_is_false. intros (f & Hf & Hne)%existsb_exists.
    rewrite List.Forall_forall in Hent. destruct (Hent f Hf) as [E _].
    rewrite E, String.eqb_refl in Hne. discriminate. }
  rewrite E1. unfold judge. cbv zeta. rewrite Hn0, Z.eqb_refl. simpl negb.
  assert (E2 : existsb (fun f => signed_qty f * sign_of e0 <=? 0) (entries_of ids mid) = false).
  { apply not_true_is_false. intros (f & Hf & Hle)%existsb_exists.
    rewrite List.Forall_forall in Hent. destruct (Hent f Hf) as (_ & _ & ?). lia. }
  rewrite E2, net_on_app, Hn0, Z.add_0_l, Hnm, Z.eqb_refl. simpl negb.
  pose proof (sign_of_cases e0) as Hsg.
  rewrite walk_reaches_flat; auto; [|destruct Hsg as [-> | ->]; lia | |].
  2:{ eapply Forall_impl; [exact Hcl|]. naive_solver. }
  2:{ rewrite <- Hnm. by rewrite net_on_app in Hz. }
  simpl app.
  rewrite (reducing_total (sign_of e0)); [|done | |].
  2,3: eapply Forall_impl; [exact Hcl|]; naive_solver lia.
  rewrite <- net_on_filter. rewrite net_on_app in Hz.
  rewrite (proj2 (Z.eqb_eq _ _)) by (destruct Hsg as [Hsg | Hsg]; rewrite Hsg in *; lia). simpl negb.
  destruct (close_verdict_cases bot (sign_of e0) (entries_of ids mid) (List.filter (on_c (contract e0)) close))
    as [[_ ->] | [Hno _]]; [done|].
  destruct Hno. eapply Forall_impl; [exact Hcl|]. naive_solver.
Qed.

(** Turnover in units of [10^s], while it fits the 28 digits of the context. *)
Definition value_at (s : Z) (f : AccountFill) : Z := at_scale s (price f) * qty f.

Definition fits (s : Z) (fs : list AccountFill) : Prop :=
  s <= 0 /\ Forall (fun f => s <= expo (price f)) fs
  /\ sum_by (fun f => Z.abs (value_at s f)) fs < 10 ^ PyDecimal.prec.

Lemma turnover_exact s fs :
  fits s fs -> s <= expo (turnover fs) /\ at_scale s (turnover fs) = sum_by (value_at s) fs.
Proof.
  intros (Hs & He & Hf). unfold turnover.
  assert (Hmul : Forall (fun f => s <= expo (dmul (price f) (dec_of_Z (qty f)))
      /\ at_scale s (dmul (price f) (dec_of_Z (qty f))) = value_at s f) fs).
  { rewrite List.Forall_forall in *. intros f Hin. apply dmul_int_exact; [auto|].
    pose proof (sum_by_ge_elem (fun f => Z.abs (value_at s f)) fs f ltac:(intros; lia) Hin).
    unfold value_at in *. lia. }
  assert (Hsum : forall g : Z -> Z, sum_by (fun d => g (at_scale s d))
      (map (fun f => dmul (price f) (dec_of_Z (qty f))) fs) = sum_by (fun f => g (value_at s f)) fs).
  { intros g. clear -Hmul. induction Hmul as [|f fs [_ E] _ IH]; simpl; [done|]. by rewrite E, IH. }
  destruct (dsum_exact s (map (fun f => dmul (price f) (dec_of_Z (qty f))) fs)) as [H1 H2]; auto.
  - rewrite Forall_map. eapply Forall_impl; [exact Hmul|]. naive_solver.
  - rewrite (Hsum Z.abs). done.
  - split; [done|]. rewrite H2. apply (Hsum (fun z => z)).
Qed.

Lemma fits_app s es xs : fits s (es ++ xs) -> fits s es /\ fits s xs.
Proof.
  intros (Hs & He & Hf). apply Forall_app in He as [? ?]. rewrite sum_by_app in Hf.
  pose proof (sum_by_nonneg (fun f => Z.abs (value_at s f)) es ltac:(intros; lia)).
  pose proof (sum_by_nonneg (fun f => Z.abs (value_at s f)) xs ltac:(intros; lia)).
  repeat split; auto; lia.
Qed.

Lemma sum_abs_le s fs : Z.abs (sum_by (value_at s) fs) <= sum_by (fun f => Z.abs (value_at s f)) fs.
Proof. induction fs as [|f fs IH]; simpl; lia. Qed.

Lemma gross_exact s sign es xs :
  (sign = 1 \/ sign = -1) -> fits s (es ++ xs) ->
  at_scale s (gross_of sign es xs) = sign * (sum_by (value_at s) xs - sum_by (value_at s) es).
Proof.
  intros Hsign Hfit. pose proof (fits_app _ _ _ Hfit) as [Hes Hxs].
  destruct Hfit as (_ & _ & Hb). rewrite sum_by_app in Hb.
  pose proof (sum_abs_le s es). pose proof (sum_abs_le s xs).
  apply turnover_exact in Hes as [E1 E2], Hxs as [X1 X2].
  unfold gross_of. destruct Hsign as [-> | ->]; simpl.
  - destruct (dsub_exact s (turnover xs) (turnover es)) as [_ ->]; rewrite ?E2, ?X2; auto; lia.
  - destruct (dsub_exact s (turnover es) (turnover xs)) as [_ ->]; rewrite ?E2, ?X2; auto; lia.
Qed.

Lemma value_signed s sign fs :
  (sign = 1 \/ sign = -1) -> Forall (fun f => qty f = sign * signed_qty f) fs ->
  sum_by (value_at s) fs = sign * sum_by (fun f => at_scale s (price f) * signed_qty f) fs.
Proof.
  intros Hs. induction 1 as [|f fs E _ IH]; simpl; [lia|]. rewrite IH. unfold value_at.
  destruct Hs; subst; rewrite E at 1; lia.
Qed.

(** The published gross P&L is the trip's cash flow, to the last digit: in
    any unit [10^s] at least as fine as the prices, it equals minus the sum of
    price times signed quantity over the entry and exit fills (sale proceeds
    minus purchase cost), provided the turnover fits the 28 digits of the
    decimal context. *)
Theorem attribute_gross_is_cash_flow ids fills bot a s :
  Forall (fun f => 0 <= qty f) fills ->
  attribute ids fills bot = Ok a -> tag a = TAG_BOT_ONLY ->
  fits s (entry_fills a ++ exit_fills a) ->
  exists g, gross_pnl a = Some g
    /\ at_scale s g = - sum_by (fun f => at_scale s (price f) * signed_qty f) (entry_fills a ++ exit_fills a).
Proof.
  intros Hq Ha Ht Hfit. destruct (bot_only_round_trip ids fills bot a Hq Ha Ht)
    as [pre mid close post e0 Hb He Hme H0 Hone Hx Hbot Hbal Hg _].
  exists (gross_of (sign_of e0) (entry_fills a) (exit_fills a)). split; [done|].
  pose proof (sign_of_cases e0) as Hsg. rewrite (gross_exact s) by done.
  assert (Hq' : forall p, Forall (fun f => 0 <= qty f) (List.filter p (sorted_fills fills)))
    by (intros p; by apply Forall_filter_list, Forall_sorted).
  assert (HqX : Forall (fun f => 0 <= qty f) (exit_fills a)).
  { rewrite Hx. apply Forall_filter_list. apply Forall_sorted in Hq. rewrite Hb in Hq.
    rewrite !Forall_app in Hq. tauto. }
  assert (HqE : Forall (fun f => 0 <= qty f) (entry_fills a)) by (rewrite He; apply Hq').
  rewrite (value_signed s (sign_of e0) (entry_fills a)), (value_signed s (- sign_of e0) (exit_fills a)), sum_by_app.
  - destruct Hsg as [-> | ->]; lia.
  - destruct Hsg as [-> | ->]; lia.
  - rewrite List.Forall_forall in *. intros f Hf. specialize (HqX f Hf). specialize (Hbot f Hf) as [_ Hr].
    unfold signed_qty in *. destruct (is_buy f), Hsg as [E | E]; rewrite E in *; lia.
  - done.
  - rewrite List.Forall_forall in *. intros f Hf. specialize (HqE f Hf). specialize (Hone f Hf) as [_ Hr].
    unfold signed_qty in *. destruct (is_buy f), Hsg as [E | E]; rewrite E in *; lia.
Qed.

(** ** Billed charges *)

Lemma billed_loop_none fs seen total :
  billed_loop fs seen total = None <-> Exists (fun f => charges f = None) fs.
Proof.
  revert seen total. induction fs as [|f fs IH]; intros seen total; simpl.
  - split; [done | by intros ?%Exists_nil].
  - rewrite Exists_cons. destruct (charges f) as [c|] eqn:E; [|by split; auto].
    case_bool_decide; rewrite IH; naive_solver.
Qed.

Lemma billed_loop_seen fs seen total :
  Forall (fun f => charges f <> None /\ (order_id f, trade_id f) ∈ seen) fs ->
  billed_loop fs seen total = Some total.
Proof.
  induction 1 as [|f fs [Hc Hs] _ IH]; simpl; [done|]. destruct (charges f); [|done].
  by rewrite bool_decide_true.
Qed.

Lemma billed_loop_app fs dup seen total t :
  billed_loop fs seen total = Some t ->
  Forall (fun g => charges g <> None /\ ((order_id g, trade_id g) ∈ seen
     \/ exists f, In f fs /\ order_id f = order_id g /\ trade_id f = trade_id g)) dup ->
  billed_loop (fs ++ dup) seen total = Some t.
Proof.
  revert seen total. induction fs as [|f fs IH]; intros seen total; simpl.
  - intros [= ->] Hd. apply billed_loop_seen. eapply Forall_impl; [exact Hd|].
    intros g [Hc [Hs | (f & [] & _)]]; auto.
  - destruct (charges f) as [c|]; [|done].
    assert (Hmono : forall seen' : list (string * string), (forall k, k ∈ seen -> k ∈ seen') -> (order_id f, trade_id f) ∈ seen' ->
      forall g, (order_id g, trade_id g) ∈ seen
        \/ (exists h, (f = h \/ In h fs) /\ order_id h = order_id g /\ trade_id h = trade_id g) ->
      (order_id g, trade_id g) ∈ seen'
        \/ exists h, In h fs /\ order_id h = order_id g /\ trade_id h = trade_id g).
    { intros seen' Hsub Hf g [Hs | (h & [<- | Hin] & <- & <-)]; eauto 6. }
    case_bool_decide as Hseen; intros Hb Hd; apply IH; auto; (eapply Forall_impl; [exact Hd|]);
      intros g [Hc Hg]; (split; [done|]); eapply Hmono; eauto; [intros k; by right | by left].
Qed.

(** The billed charges of a trip are published only when every one of its
    fills carries them (a partial sum is never reported), and a fill that is
    read again with its order id and trade id does not change the total. *)
Theorem billed_charges_complete_once a b dup :
  (billed_charges a = None <-> Exists (fun f => charges f = None) (entry_fills a ++ exit_fills a))
  /\ (entry_fills b ++ exit_fills b = (entry_fills a ++ exit_fills a) ++ dup ->
      Forall (fun g => charges g <> None /\ exists f, In f (entry_fills a ++ exit_fills a)
                /\ order_id f = order_id g /\ trade_id f = trade_id g) dup ->
      billed_charges b = billed_charges a).
Proof.
  split; [apply billed_loop_none|]. intros Hb Hd. unfold billed_charges. rewrite Hb.
  destruct (billed_loop (entry_fills a ++ exit_fills a) [] dzero) as [t|] eqn:E.
  - apply billed_loop_app; [done|]. eapply Forall_impl; [exact Hd|]. naive_solver.
  - apply billed_loop_none. apply billed_loop_none in E. rewrite Exists_app. by left.
Qed.

(** ** Witnesses and examples *)

Module Book.
Definition mk (c o s : string) (q : Z) (p : dec) (t : string) (id : string) (plat : option string) (ch : option dec)
  : AccountFill :=
  {| contract := c; order_id := o; side := s; qty := q; price := p; ts := t; trade_id := id;
     order_platform := plat; charges := ch |}.

Definition e1 := mk "61093" "E1" "BUY" 400 (Dec 240005 (-2)) "2026-09-04T09:20:00" "1" (Some "API") (Some (Dec 2050 (-2))).
Definition e2 := mk "61093" "E1" "BUY" 400 (Dec 240010 (-2)) "2026-09-04T09:20:01" "2" (Some "API") (Some (Dec 2050 (-2))).
Definition other := mk "50000" "Z9" "SELL" 75 (Dec 100 0) "2026-09-04T09:30:00" "9" (Some "FAST") None.
Definition x1 := mk "61093" "X1" "sell" 300 (Dec 241000 (-2)) "2026-09-04T10:00:00" "3" (Some "FOVR") (Some (Dec 136640 (-2))).
Definition x2 := mk "61093" "X2" "SELL" 500 (Dec 241250 (-2)) "2026-09-04T11:00:00" "4" (Some "API") (Some (Dec 0 0)).
Definition later := mk "61093" "M1" "BUY" 200 (Dec 242000 (-2)) "2026-09-04T12:00:00" "5" (Some "FAST") None.
Definition fills := [x2; e1; other; x1; e2].
Definition entry_ids := ["E1"]%string.
Definition bot_ids := ["E1"; "X1"; "X2"]%string.
Definition verdict : Attribution :=
  {| tag := TAG_BOT_ONLY; entry_fills := [e1; e2]; exit_fills := [x1; x2];
     gross_pnl := Some (gross_of 1 [e1; e2] [x1; x2]); reason := ClosedByBot |}.

Lemma fills_nonneg : Forall (fun f => 0 <= qty f) fills.
Proof. repeat constructor; simpl; lia. Defined.

Lemma run : attribute entry_ids fills bot_ids = Ok verdict.
Proof. vm_compute. reflexivity. Defined.
End Book.

Lemma attribute_total_witness : exists a, attribute Book.entry_ids Book.fills Book.bot_ids = Ok a.
Proof. apply (attribute_total Book.entry_ids Book.fills Book.bot_ids), Book.fills_nonneg. Defined.

Lemma attribute_tag_gross_witness : priced Book.verdict = true <-> gross_pnl Book.verdict <> None.
Proof. apply (attribute_tag_gross Book.entry_ids Book.fills Book.bot_ids Book.verdict), Book.run. Defined.

Lemma attribute_bot_only_sound_witness :
  round_trip Book.entry_ids Book.bot_ids (sorted_fills Book.fills) Book.verdict.
Proof.
  apply (attribute_bot_only_sound Book.entry_ids Book.fills Book.bot_ids Book.verdict);
    [apply Book.fills_nonneg | apply Book.run | reflexivity].
Defined.

Lemma attribute_ignores_later_fills_witness :
  attribute Book.entry_ids (Book.fills ++ [Book.later]) Book.bot_ids = Ok Book.verdict.
Proof.
  apply (attribute_ignores_later_fills Book.entry_ids Book.fills [Book.later] Book.bot_ids Book.verdict);
    [apply Book.run | reflexivity | | repeat constructor].
  intros f g Hf [<- | []]. simpl in Hf. destruct Hf as [<- | [<- | [<- | [<- | [<- | []]]]]]; reflexivity.
Defined.

Lemma attribute_prices_clean_trip_witness :
  attribute Book.entry_ids Book.fills Book.bot_ids = Ok Book.verdict.
Proof.
  apply (attribute_prices_clean_trip Book.entry_ids Book.bot_ids Book.fills [] [Book.e1; Book.e2]
    [Book.other; Book.x1; Book.x2] [] Book.e1 [Book.e2] Book.e2 [Book.e1]);
    try reflexivity; vm_compute; repeat constructor; discriminate.
Defined.

Lemma attribute_gross_is_cash_flow_witness :
  exists g, gross_pnl Book.verdict = Some g
    /\ at_scale (-2) g
       = - sum_by (fun f => at_scale (-2) (price f) * signed_qty f)
             (entry_fills Book.verdict ++ exit_fills Book.verdict).
Proof.
  apply (attribute_gross_is_cash_flow Book.entry_ids Book.fills Book.bot_ids Book.verdict (-2));
    [apply Book.fills_nonneg | apply Book.run | reflexivity |].
  split; [lia|]. split; [vm_compute; repeat constructor; discriminate | vm_compute; reflexivity].
Defined.

(** (finding) the trade book's history rows stamp trade id "0" on every
    fill, and the charge sum de-duplicates on (order id, trade id): of two
    different partial fills of one order read from history, only the first is
    billed, so the published charges are too small. *)
Theorem billed_charges_drops_history_partial :
  let p1 := Book.mk "61093" "E1" "BUY" 400 (Dec 240005 (-2)) "2026-09-04T09:20:00" "0" None (Some (Dec 2050 (-2))) in
  let p2 := Book.mk "61093" "E1" "BUY" 400 (Dec 240010 (-2)) "2026-09-04T09:20:01" "0" None (Some (Dec 3050 (-2))) in
  let a := {| tag := TAG_BOT_ONLY; entry_fills := [p1; p2]; exit_fills := []; gross_pnl := None; reason := ClosedByBot |} in
  p1 <> p2 /\ billed_charges a = Some (Dec 2050 (-2)).
Proof. split; [discriminate | vm_compute; reflexivity]. Qed.

(** (finding) the 2026-09-16 rule makes a trip human-interfered when a
    MANUAL fill falls between its entry and its close, but the walk only looks
    after the last entry fill: two manual (FAST) fills that cancel out between
    two entry fills leave the net as expected, and the trip is priced with the
    reason "no manual fill touched the trade". *)
Theorem attribute_prices_manual_fills_inside_entry :
  let m1 := Book.mk "61093" "M1" "BUY" 200 (Dec 240000 (-2)) "2026-09-04T09:20:00" "6" (Some "FAST") None in
  let m2 := Book.mk "61093" "M2" "SELL" 200 (Dec 240100 (-2)) "2026-09-04T09:20:00" "7" (Some "FAST") None in
  provenance Book.bot_ids m1 = Manual /\ provenance Book.bot_ids m2 = Manual
  /\ sorted_fills (m1 :: m2 :: Book.fills) = [Book.e1; m1; m2; Book.e2; Book.other; Book.x1; Book.x2]
  /\ attribute Book.entry_ids (m1 :: m2 :: Book.fills) Book.bot_ids = Ok Book.verdict.
Proof. vm_compute. repeat split; reflexivity. Qed.
