(* ===== verification/PyNum.v ===== *)
(** * Numbers in payloads: JSON values, [float(x)], [Decimal(str(x))]

    Webhook payloads are JSON objects stored as Python dicts.  [json] is a
    decoded JSON value; [jget] is [payload.get(key)].  The conversions are
    those the services apply to payload fields.  [dec_of_float] is
    [Decimal(str(f))], where [str(f)] is the shortest decimal that reads back
    as [f] (at most 17 significant digits).  Decimal special values (NaN,
    Infinity) and digit separators in numeric strings are not modelled. *)

From Stdlib Require Import ZArith Lia List Bool Ascii String SpecFloat.
From stdpp Require Import base list strings gmap.
From S2P Require Import Prelude PyText PyFloat PyDecimal.

(** ** Decimal literals *)

(** [[+-]?digits[.digits][e[+-]digits]], with at least one digit, as
    (negative, coefficient, exponent). *)
Definition sign_re : regex := Alt (Lit (L "-")) (Alt (Lit (L "+")) (Lit [])).
Definition digits0 : regex := Rep is_digit 0 None true.
Definition digits1 : regex := Rep is_digit 1 None true.
Definition exp_char (c : ascii) : bool := Ascii.eqb c "e" || Ascii.eqb c "E".
Definition LITERAL : regex :=
  Cat (Grp 1 sign_re) (Cat (Grp 2 digits0)
    (Cat (Alt (Cat (Lit (L ".")) (Grp 3 digits0)) (Lit []))
      (Cat (Alt (Cat (Rep exp_char 1 (Some 1%nat) true) (Cat (Grp 4 sign_re) (Grp 5 digits1))) (Lit []))
         Eos))).

Definition literal_of (s : text) : option (bool * Z * Z) :=
  match re_match LITERAL (strip s) with
  | None => None
  | Some m =>
      let ip := group 2 m in
      let fp := group 3 m in
      if bool_decide (ip ++ fp = []) then None
      else
        let e := if bool_decide (group 4 m = L "-") then - int_of (group 5 m) else int_of (group 5 m) in
        Some (bool_decide (group 1 m = L "-"), int_of (ip ++ fp), e - Z.of_nat (length fp))
  end.

(** [Decimal(s)]: [None] stands for InvalidOperation. *)
Definition dec_of_text (s : text) : option dec :=
  match literal_of s with
  | Some (neg, c, e) => Some (Dec (if neg : bool then - c else c) e)
  | None => None
  end.

Definition f_neg (x : float64) : float64 := SFopp x.

(** [float(s)]: [None] stands for ValueError. *)
Definition float_of_string (s : text) : option float64 :=
  match literal_of s with
  | Some (neg, c, e) => Some (let x := float_of_decimal c e in if neg : bool then f_neg x else x)
  | None =>
      let w := lower (strip s) in
      if bool_decide (w ∈ map L ["inf"; "+inf"; "infinity"; "+infinity"]%string) then Some (S754_infinity false)
      else if bool_decide (w ∈ map L ["-inf"; "-infinity"]%string) then Some (S754_infinity true)
      else if bool_decide (w ∈ map L ["nan"; "+nan"; "-nan"]%string) then Some S754_nan
      else None
  end.

(** ** Shortest decimal of a double *)

Definition float_eqb (x y : float64) : bool :=
  match x, y with
  | S754_finite s1 m1 e1, S754_finite s2 m2 e2 => Bool.eqb s1 s2 && Pos.eqb m1 m2 && (e1 =? e2)
  | _, _ => false
  end.

(** The magnitude [m * 2^e] as a fraction. *)
Definition frac_of (m : positive) (e : Z) : Z * Z :=
  if 0 <=? e then (Zpos m * 2 ^ e, 1) else (Zpos m, 2 ^ (- e)).

(** [n/d] rounded to the nearest multiple of [10^k]: the multiple. *)
Definition round_to (n d k : Z) : Z :=
  if 0 <=? k then half_even n (d * 10 ^ k) else half_even (n * 10 ^ (- k)) d.

(** [round(x, n)] for [n >= 0]: the exact value rounded half to even at [n]
    decimals, read back as a double. *)
Definition f_round (n : Z) (x : float64) : float64 :=
  match x with
  | S754_finite s m e =>
      let '(p, q) := frac_of m e in
      let y := float_of_decimal (half_even (p * 10 ^ n) q) (- n) in
      if s then f_neg y else y
  | _ => x
  end.

(** [round(x)]: an integer; [None] where Python raises. *)
Definition f_round_int (x : float64) : option Z :=
  match x with
  | S754_zero _ => Some 0
  | S754_finite s m e => let '(p, q) := frac_of m e in Some (if s then - half_even p q else half_even p q)
  | _ => None
  end.

(** Try 1, 2, ... significant digits until the decimal reads back as [x];
    [top] is the number of integer digits of the value (may be negative). *)
Fixpoint shortest (fuel : nat) (p top : Z) (m : positive) (e : Z) : Z * Z :=
  let '(n, d) := frac_of m e in
  let k := top - p in
  let c := round_to n d k in
  match fuel with
  | O => (c, k)
  | S fuel' => if float_eqb (float_of_decimal c k) (S754_finite false m e) then (c, k)
               else shortest fuel' (p + 1) top m e
  end.

(** Decimal exponent [t] with [10^(t-1) <= m*2^e < 10^t], found from an estimate. *)
Fixpoint find_top (fuel : nat) (t n d : Z) : Z :=
  match fuel with
  | O => t
  | S fuel' =>
      let lt_pow (t : Z) := if 0 <=? t then n <? d * 10 ^ t else n * 10 ^ (- t) <? d in
      if lt_pow (t - 1) then find_top fuel' (t - 1) n d
      else if lt_pow t then t else find_top fuel' (t + 1) n d
  end.

Definition drop_zeros (c k : Z) : Z * Z :=
  let d := strip_zeros 20 c k 400 in (coef d, expo d).

(** [Decimal(str(x))] of a finite double; [None] for NaN and the infinities. *)
Definition dec_of_float (x : float64) : option dec :=
  match x with
  | S754_zero _ => Some (Dec 0 (-1))
  | S754_finite s m e =>
      let '(n, d) := frac_of m e in
      let est := (e + Zpos (digits2_pos m)) * 30103 / 100000 in
      let top := find_top 8 est n d in
      let '(c0, k0) := shortest 16 1 top m e in
      let '(c, k) := drop_zeros c0 k0 in
      let fixed := (0 <=? k) && (ndigits c + k <=? 16) in
      let '(c', k') := if fixed then (c * 10 ^ (k + 1), -1) else (c, k) in
      Some (Dec (if s then - c' else c') k')
  | _ => None
  end.

(** ** JSON values

    An object is an association list in insertion order; [fields] is the dict it
    denotes. *)

Inductive json : Type :=
| JNull
| JBool (b : bool)
| JInt (z : Z)
| JFloat (x : float64)
| JStr (s : string)
| JDict (entries : list (string * json))
| JList (items : list json).

Abbreviation payload := (gmap string json).

Definition fields (entries : list (string * json)) : payload := list_to_map entries.

Definition jget (p : payload) (k : string) : json := default JNull (p !! k).

(** Python truthiness. *)
Definition truthy (j : json) : bool :=
  match j with
  | JNull => false
  | JBool b => b
  | JInt z => negb (z =? 0)
  | JFloat x => match x with S754_zero _ => false | _ => true end
  | JStr s => negb (String.eqb s "")
  | JDict entries => match entries with [] => false | _ => true end
  | JList items => match items with [] => false | _ => true end
  end.

(** [v == "word"]. *)
Definition j_is_str (j : json) (word : string) : bool :=
  match j with JStr s => String.eqb s word | _ => false end.

(** [a or b]. *)
Definition j_or (a b : json) : json := if truthy a then a else b.

Definition z_str (z : Z) : string :=
  let d := string_of_list_ascii (str_of_nonneg (Z.abs z)) in
  if z <? 0 then String "-" d else d.

(** [str(d)] for a Decimal: plain digits when the exponent is not positive and
    the number not tiny, else scientific notation. *)
Definition dec_str (d : dec) : string :=
  let digits := str_of_nonneg (Z.abs (coef d)) in
  let len := Z.of_nat (length digits) in
  let left := expo d + len in
  let dot := if (expo d <=? 0) && (-6 <? left) then left else 1 in
  let zeros n := repeat "0"%char (Z.to_nat n) in
  let body :=
    if dot <=? 0 then L "0." ++ zeros (- dot) ++ digits
    else if len <=? dot then digits ++ zeros (dot - len)
    else firstn (Z.to_nat dot) digits ++ L "." ++ skipn (Z.to_nat dot) digits in
  let shift := left - dot in
  let exponent :=
    if shift =? 0 then [] else L "E" ++ L (if 0 <? shift then "+" else "-") ++ str_of_nonneg (Z.abs shift) in
  string_of_list_ascii ((if coef d <? 0 then L "-" else []) ++ body ++ exponent).

(** [str(v or "")].  The text of a float or of a container is not modelled; the
    stand-ins are, like those texts, none of the words the services compare
    with. *)
Definition str_or_empty (j : json) : string :=
  if negb (truthy j) then ""%string
  else
    match j with
    | JStr s => s
    | JInt z => z_str z
    | JBool _ => "True"
    | JFloat _ => "<float>"
    | _ => "<object>"
    end.

(** Outcome of [Decimal(str(v))] for [v] not None: a value, or the exception
    InvalidOperation (which is an ArithmeticError, not a ValueError).  The
    special values Decimal accepts by name (NaN, Infinity) are outside the
    decimal model and count as invalid. *)
Definition decimal_of_json (j : json) : option dec :=
  match j with
  | JInt z => Some (dec_of_Z z)
  | JFloat x => dec_of_float x
  | JStr s => dec_of_text (L s)
  | _ => None
  end.

(** [float(v)]: a value or ValueError/TypeError; an integer too large for a
    double raises OverflowError. *)
Inductive float_outcome : Type :=
| FloatOk (x : float64)
| FloatValueError
| FloatOverflow.

Definition float_of_json (j : json) : float_outcome :=
  match j with
  | JBool b => FloatOk (f_of_Z (if b then 1 else 0))
  | JInt z => match f_of_Z z with S754_infinity _ => FloatOverflow | x => FloatOk x end
  | JFloat x => FloatOk x
  | JStr s => match float_of_string (L s) with Some x => FloatOk x | None => FloatValueError end
  | JNull | JDict _ | JList _ => FloatValueError
  end.

(** [int(v)]: truncation for floats (OverflowError for an infinity), strict
    digits for strings. *)
Inductive int_outcome : Type :=
| IntOk (z : Z)
| IntValueError
| IntOverflow.

Definition INT_LITERAL : regex := Cat (Grp 1 sign_re) (Cat (Grp 2 digits1) Eos).

Definition int_of_json (j : json) : int_outcome :=
  match j with
  | JBool b => IntOk (if b then 1 else 0)
  | JInt z => IntOk z
  | JFloat x =>
      match f_trunc x with
      | Some z => IntOk z
      | None => match x with S754_infinity _ => IntOverflow | _ => IntValueError end
      end
  | JStr s =>
      match re_match INT_LITERAL (strip (L s)) with
      | Some m => IntOk (if bool_decide (group 1 m = L "-") then - int_of (group 2 m) else int_of (group 2 m))
      | None => IntValueError
      end
  | _ => IntValueError
  end.
