(* ===== verification/Calendar.v ===== *)
(** * Dates and the Indian trading day

    Python's [datetime.date] as its proleptic Gregorian ordinal (day 1 is
    1 January of year 1): calendar arithmetic is integer arithmetic.  [ymd_ord]
    is [date(y, m, d).toordinal()], with [None] where the constructor raises
    ValueError.  A clock reading is the number of seconds since 1970 UTC; the
    services look at it in Asia/Kolkata, which is UTC+05:30 all year. *)

From Stdlib Require Import ZArith Lia List Bool Ascii String.
From stdpp Require Import base list strings.
From S2P Require Import Prelude PyText PyDecimal PyNum.

Abbreviation date := Z.

Definition is_leap (y : Z) : bool := (y mod 4 =? 0) && (negb (y mod 100 =? 0) || (y mod 400 =? 0)).

Definition days_before_year (y : Z) : Z := let y' := y - 1 in y' * 365 + y' / 4 - y' / 100 + y' / 400.

Definition month_days (y m : Z) : Z :=
  match m with
  | 2 => if is_leap y then 29 else 28
  | 4 | 6 | 9 | 11 => 30
  | _ => 31
  end.

(** Days of the months of [y] before the [n+1]st. *)
Fixpoint days_before_month (y : Z) (n : nat) : Z :=
  match n with O => 0 | S n' => days_before_month y n' + month_days y (Z.of_nat n) end.

Definition ymd_ord (y m d : Z) : option date :=
  if (1 <=? y) && (y <=? 9999) && (1 <=? m) && (m <=? 12) && (1 <=? d) && (d <=? month_days y m)
  then Some (days_before_year y + days_before_month y (Z.to_nat (m - 1)) + d) else None.

(** [weekday()]: Monday is 0. *)
Definition weekday (d : date) : Z := (d + 6) mod 7.

(** The ordinal of 1 January 1970. *)
Definition EPOCH_ORD : date := 719163.

Definition IST_SECONDS : Z := 19800.
Definition DAY_SECONDS : Z := 86400.

(** [datetime.now(IST).date()] and the seconds since midnight of [.time()]. *)
Definition ist_date (now : Z) : date := EPOCH_ORD + (now + IST_SECONDS) / DAY_SECONDS.
Definition ist_time (now : Z) : Z := (now + IST_SECONDS) mod DAY_SECONDS.
Definition clock (h m : Z) : Z := h * 3600 + m * 60.

(** Year, month and day of an ordinal: Python's [date.fromordinal]. *)
Fixpoint month_of_day (y : Z) (fuel : nat) (m d : Z) : Z * Z :=
  match fuel with
  | O => (m, d)
  | S fuel' => if d <=? month_days y m then (m, d) else month_of_day y fuel' (m + 1) (d - month_days y m)
  end.

Definition ord_ymd (n : date) : Z * Z * Z :=
  let n := n - 1 in
  let n400 := n / 146097 in let n := n mod 146097 in
  let n100 := n / 36524 in let n' := n mod 36524 in
  let n4 := n' / 1461 in let n := n' mod 1461 in
  let n1 := n / 365 in let n := n mod 365 in
  let y := n400 * 400 + n100 * 100 + n4 * 4 + n1 + 1 in
  if (n1 =? 4) || (n100 =? 4) then (y - 1, 12, 31)
  else let '(m, d) := month_of_day y 12 1 (n + 1) in (y, m, d).

Definition pad (width : nat) (z : Z) : text :=
  let s := str_of_nonneg z in repeat "0"%char (width - length s) ++ s.

(** [datetime.now(UTC).isoformat()], at whole seconds. *)
Definition iso_utc (now : Z) : string :=
  let '(y, m, d) := ord_ymd (EPOCH_ORD + now / DAY_SECONDS) in
  let t := now mod DAY_SECONDS in
  string_of_list_ascii
    (pad 4 y ++ L "-" ++ pad 2 m ++ L "-" ++ pad 2 d ++ L "T" ++ pad 2 (t / 3600) ++ L ":" ++ pad 2 (t mod 3600 / 60)
     ++ L ":" ++ pad 2 (t mod 60) ++ L "+00:00").

(** Month abbreviations, as the symbols spell them. *)
Definition MONTH_NAMES : list text :=
  map L ["JAN"; "FEB"; "MAR"; "APR"; "MAY"; "JUN"; "JUL"; "AUG"; "SEP"; "OCT"; "NOV"; "DEC"]%string.

Example known_dates :
  ymd_ord 1970 1 1 = Some EPOCH_ORD /\ ymd_ord 2026 8 25 = Some 739853 /\ weekday 739853 = 1
  /\ ord_ymd 739853 = (2026, 8, 25) /\ ord_ymd 730120 = (2000, 1, 1) /\ ymd_ord 2025 2 29 = None.
Proof. vm_compute. auto 10. Qed.
Example known_time : iso_utc 1786953600 = "2026-08-17T08:00:00+00:00"%string.
Proof. vm_compute. reflexivity. Qed.
