(* ===== verification/TradingCalendar.v ===== *)
(** * Trading days (backend/app/strategy_engine/trading_calendar.py)

    Weekdays that are no holidays, and how many of them lie after one date up to and
    including another. *)

From Stdlib Require Import ZArith Lia List Bool.
From stdpp Require Import base list.
From S2P Require Import Prelude Calendar.

Definition on_weekend (d : date) : bool := 5 <=? weekday d.

Definition is_trading_day (holidays : list date) (d : date) : bool :=
  if on_weekend d then false else negb (existsb (Z.eqb d) holidays).

(** The loop over [n] days from [day]. *)
Fixpoint count_days (holidays : list date) (n : nat) (day : date) (count : Z) : Z :=
  match n with
  | O => count
  | S n' => count_days holidays n' (day + 1) (if is_trading_day holidays day then count + 1 else count)
  end.

Definition trading_days_between (start end_ : date) (holidays : list date) : Z :=
  if end_ <=? start then 0 else count_days holidays (Z.to_nat (end_ - start)) (start + 1) 0.

(** ** What is counted *)

Definition days_from (n : nat) (d : date) : list date := map (fun k => d + Z.of_nat k) (seq 0 n).

Lemma days_from_S n d : days_from (S n) d = d :: days_from n (d + 1).
Proof.
  unfold days_from. cbn [seq map]. f_equal; [lia|]. rewrite <- seq_shift, map_map. apply map_ext. intros k. lia.
Qed.

Lemma days_from_in n d x : In x (days_from n d) <-> d <= x < d + Z.of_nat n.
Proof.
  unfold days_from. rewrite in_map_iff. split.
  - intros (k & <- & Hk%in_seq). lia.
  - intros Hx. exists (Z.to_nat (x - d)). split; [lia|]. apply in_seq. lia.
Qed.

Lemma days_from_NoDup n d : List.NoDup (days_from n d).
Proof. unfold days_from. apply Finite.Injective_map_NoDup; [intros x y; lia | apply seq_NoDup]. Qed.

(** The loop counts the trading days of its window. *)
Lemma count_days_length h n d c :
  count_days h n d c = c + Z.of_nat (length (List.filter (is_trading_day h) (days_from n d))).
Proof.
  revert d c. induction n as [|n IH]; intros d c; [simpl; lia|]. rewrite days_from_S. cbn [count_days List.filter]. rewrite IH.
  destruct (is_trading_day h d); cbn [length]; lia.
Qed.

Lemma between_length h s e :
  trading_days_between s e h = Z.of_nat (length (List.filter (is_trading_day h) (days_from (Z.to_nat (e - s)) (s + 1)))).
Proof.
  unfold trading_days_between. destruct (Z.leb_spec e s); [|by rewrite count_days_length].
  replace (Z.to_nat (e - s)) with 0%nat by lia. done.
Qed.

Lemma filter_length_le {A : Type} (p q : A -> bool) l :
  (forall x, In x l -> p x = true -> q x = true) -> (length (List.filter p l) <= length (List.filter q l))%nat.
Proof.
  induction l as [|x l IH]; intros Hpq; simpl; [done|]. specialize (IH (fun y Hy => Hpq y (or_intror Hy))).
  pose proof (Hpq x (or_introl eq_refl)) as Hx. destruct (p x), (q x); simpl; try lia; by specialize (Hx eq_refl).
Qed.

(** More known holidays never leave more sessions. *)
Lemma between_mono h h' s e : incl h h' -> trading_days_between s e h' <= trading_days_between s e h.
Proof.
  intros Hi. rewrite !between_length. apply Nat2Z.inj_le, filter_length_le. intros d _. unfold is_trading_day.
  destruct (on_weekend d); [done|]. rewrite !negb_true_iff. intros Hf. apply not_true_iff_false. intros Ht.
  apply existsb_exists in Ht as (x & Hx & Ex). apply not_true_iff_false in Hf. apply Hf, existsb_exists. eauto.
Qed.

(** Each known holiday removes at most one session. *)
Lemma between_holidays h s e : trading_days_between s e [] <= trading_days_between s e h + Z.of_nat (length h).
Proof.
  rewrite !between_length. set (l := days_from _ _).
  assert (Hsplit : forall l, (length (List.filter (is_trading_day []) l)
     <= length (List.filter (is_trading_day h) l) + length (List.filter (fun d => existsb (Z.eqb d) h) l))%nat).
  { clear l. induction l as [|d l IH]; [done|]. cbn [List.filter].
    assert (Hd : is_trading_day [] d = true -> is_trading_day h d = true \/ existsb (Z.eqb d) h = true).
    { unfold is_trading_day. destruct (on_weekend d), (existsb (Z.eqb d) h); auto. }
    destruct (is_trading_day [] d), (is_trading_day h d), (existsb (Z.eqb d) h); cbn [length]; try lia; by destruct Hd. }
  assert (Hin : (length (List.filter (fun d => existsb (Z.eqb d) h) l) <= length h)%nat).
  { apply NoDup_incl_length; [apply List.NoDup_filter, days_from_NoDup|].
    intros d [_ Hd]%filter_In. apply existsb_exists in Hd as (x & Hx & ->%Z.eqb_eq). done. }
  specialize (Hsplit l). lia.
Qed.

(** A window of six calendar days or more has at least four weekdays. *)
Lemma weekday_shift d k : weekday (d + k) = (weekday d + k) mod 7.
Proof. unfold weekday. rewrite Zplus_mod_idemp_l. f_equal. lia. Qed.

Lemma six_days d : (4 <= length (List.filter (is_trading_day []) (days_from 6 d)))%nat.
Proof.
  unfold days_from. cbn [seq map List.filter]. unfold is_trading_day, on_weekend. cbn [existsb negb].
  rewrite !weekday_shift. assert (Hw : 0 <= weekday d < 7) by (apply Z.mod_pos_bound; lia).
  generalize dependent (weekday d). intros w Hw.
  assert (Hc : w = 0 \/ w = 1 \/ w = 2 \/ w = 3 \/ w = 4 \/ w = 5 \/ w = 6) by lia.
  destruct Hc as [-> | [-> | [-> | [-> | [-> | [-> | ->]]]]]]; vm_compute; lia.
Qed.

Lemma long_window s e : 6 <= e - s -> 4 <= trading_days_between s e [].
Proof.
  intros He. rewrite between_length. replace (Z.to_nat (e - s)) with (6 + (Z.to_nat (e - s) - 6))%nat by lia.
  set (m := (Z.to_nat (e - s) - 6)%nat). unfold days_from. rewrite seq_app, map_app, List.filter_app, length_app.
  pose proof (six_days (s + 1)) as Hs. unfold days_from in Hs. lia.
Qed.
