(* ===== verification/Records.v ===== *)
(** * Functional record update

    [r <| f := v |>] is the record [r] with field [f] replaced by [v];
    [r <| f ::= g |>] applies [g] to the field.  A record type opts in by
    giving its eta expansion ([Eta]); the updater of a field is found by
    abstracting the field's projection in that expansion. *)

Class Eta (R : Type) : Type := eta : R -> R.

Class Setter {R T : Type} (field : R -> T) : Type := set : (T -> T) -> R -> R.
Arguments set {R T} field {_} _ _.

Ltac build_setter :=
  match goal with
  | |- @Setter ?R ?T ?field =>
      let inst := constr:(_ : Eta R) in
      let body := eval hnf in inst in
      let abstracted := eval pattern field in body in
      match abstracted with
      | ?g _ => let upd := eval cbv beta in (fun (h : T -> T) => g (fun r : R => h (field r))) in exact upd
      end
  end.

#[export] Hint Extern 1 (Setter _) => build_setter : typeclass_instances.

Declare Scope record_scope.
Delimit Scope record_scope with record.

Notation "r <| f := v |>" := (set f (fun _ => v) r)
  (at level 12, f at next level, left associativity, format "r  <| f  :=  v |>") : record_scope.
Notation "r <| f ::= g |>" := (set f g r)
  (at level 12, f at next level, left associativity, format "r  <| f  ::=  g |>") : record_scope.

#[global] Open Scope record_scope.

(** Compute projections of updated records. *)
Ltac simpl_rec := unfold set in *; cbn beta iota in *; simpl in *.
