(* ===== verification/Models.v ===== *)
(** * Shared data model, services and effects

    The schemas of backend/app/schemas/broker.py, the rows of
    backend/app/db/models, and the world the services act on: the database
    tables, the Redis store, the operator alerts, the broker and the clock.
    Service code runs in the monad [M]: it passes the world along and either
    returns or raises ([exn]); a raise keeps the changes made before it, as in
    Python.  [BrokerInterface] is the broker contract of
    backend/app/brokers/base.py and [RedisStore] the key-value contract; both
    are type classes, so the services are verified against any broker and any
    store that satisfies the documented laws.

    Rows of a table are kept in insertion order; ids and clock readings are
    integers ([w_next_id] is the source of fresh ids).  Structured logging is
    not modelled.  Alert texts are kept as data.  Redis is taken to be reachable,
    and values written to Numeric columns are read back as written (the rounding
    to the column's decimals on reload is not modelled).  The tables of the kill switch and the
    marketplace, the JSON cache and the in-process memories are in [platform]. *)

From Stdlib Require Import ZArith Lia List Bool String.
From stdpp Require Import base list strings gmap.
From S2P Require Import Prelude PyText PyFloat Enums SymbolMatch PyDecimal PyNum Records.

Abbreviation uuid := Z.
Abbreviation datetime := Z.

(** ** Broker schemas *)

(** The enum's string value. *)
Definition side_value (s : OrderSide) : string := match s with BUY => "buy" | SELL => "sell" end.

(** [OrderSide(value)]: [None] stands for ValueError. *)
Definition OrderSide_of (v : string) : option OrderSide :=
  if String.eqb v "buy" then Some BUY else if String.eqb v "sell" then Some SELL else None.

Definition opposite (s : OrderSide) : OrderSide := match s with BUY => SELL | SELL => BUY end.

Record OrderRequest : Type := {
  o_symbol : string;
  o_exchange : Exchange;
  o_side : OrderSide;
  o_quantity : Z;
  o_order_type : OrderType;
  o_product_type : ProductType;
  o_price : option dec;
  o_trigger_price : option dec;
  o_tag : option string
}.

Record OrderResponse : Type := {
  r_broker_order_id : string;
  r_status : OrderStatus;
  r_message : string
}.

Record OrderFill : Type := {
  f_broker_order_id : string;
  f_order_status : OrderStatus;
  f_raw_status : string;
  f_filled_qty : Z;
  f_avg_price : option dec;
  f_reason : option string;
  f_timed_out : bool
}.

Definition dpos (d : dec) : bool := 0 <? coef d.
Definition dnonneg (d : dec) : bool := 0 <=? coef d.

Definition opt_is {A : Type} (p : A -> bool) (o : option A) : bool :=
  match o with Some a => p a | None => false end.

Definition opt_ok {A : Type} (p : A -> bool) (o : option A) : bool :=
  match o with Some a => p a | None => true end.

Definition absent {A : Type} (o : option A) : bool :=
  match o with Some _ => false | None => true end.

(** [_validate_price_and_trigger]: price and trigger rules per order type. *)
Definition price_and_trigger_ok (o : OrderRequest) : bool :=
  match o_order_type o with
  | MARKET => absent (o_price o) && absent (o_trigger_price o)
  | LIMIT => opt_is dpos (o_price o) && absent (o_trigger_price o)
  | SL => opt_is dpos (o_price o) && opt_is dpos (o_trigger_price o)
  | SL_M => opt_is dpos (o_trigger_price o) && absent (o_price o)
  end.

Definition str_len (s : string) : nat := String.length s.

(** The field constraints of the schema; construction raises ValidationError
    when one fails.  The symbol is stripped first ([str_strip_whitespace]). *)
Definition order_request_ok (o : OrderRequest) : bool :=
  let n := str_len (str_strip (o_symbol o)) in
  (1 <=? n)%nat && (n <=? 64)%nat && (0 <? o_quantity o)
  && opt_ok dnonneg (o_price o) && opt_ok dnonneg (o_trigger_price o)
  && opt_ok (fun t => (str_len (str_strip t) <=? 32)%nat) (o_tag o)
  && price_and_trigger_ok o.

(** ** Exceptions *)

Inductive broker_error : Type :=
| BrokerOrderRejectedError
| BrokerInsufficientFundsError
| DuplicateOrderSuppressedError
| BrokerInvalidSymbolError
| BrokerAuthError
| BrokerConnectionError
| BrokerSessionExpiredError
| BrokerRateLimitError
| OtherBrokerError.

Inductive exn : Type :=
| StrategyExecutorError (why : string)
| InvalidProductTypeError
| BrokerError (e : broker_error)
| ValidationError
| ValueError
| TypeError
| AttributeError
| InvalidOperation
| OverflowError
| InvalidToken
| KeyError
| PermissionError
| RuntimeError
| IntegrityError
| SubscriberPositionUnavailableError
| HTTPException (status_code : Z)
| PineMappingError
| MultipleResultsFound
| ZeroDivisionError.

(** ** Database rows *)

Inductive pos_status : Type := st_open | st_partial | st_closed.

#[export] Instance pos_status_eq_dec : EqDecision pos_status.
Proof. solve_decision. Defined.

(** An entry of the action_history column: the executor and the direct exits
    write signal events, the kill switch and the expiry sweeps their own shapes. *)
Record action_event : Type := {
  ev_action : string;
  ev_qty : Z;
  ev_side : string;
  ev_ts : datetime;
  ev_signal_id : uuid;
  ev_leg_role : string
}.

Record kill_event : Type := {
  ke_qty : Z;
  ke_side : string;
  ke_ts : datetime;
  ke_broker_order_id : string;
  ke_broker_status : OrderStatus;
  ke_paper : bool
}.

Record sweep_event : Type := {
  se_action : string;
  se_qty : Z;
  se_ts : datetime;
  se_sessions : option Z;
  se_broker_order_id : string
}.

Inductive history_entry : Type :=
| SignalEvent (e : action_event)
| KillEvent (e : kill_event)
| SweepEvent (e : sweep_event).

Record StrategyPosition : Type := {
  p_id : uuid;
  p_user_id : uuid;
  p_strategy_id : uuid;
  p_broker_credential_id : uuid;
  p_signal_id : option uuid;
  p_subscription_id : option uuid;
  p_symbol : string;
  p_side : string;
  total_quantity : Z;
  remaining_quantity : Z;
  avg_entry_price : option dec;
  target_price : option dec;
  stop_loss_price : option dec;
  trail_offset : option dec;
  highest_price_seen : option dec;
  best_price : option dec;
  current_atr : option dec;
  circuit_breaker_triggered : bool;
  exit_reason : option string;
  status : pos_status;
  last_action : option string;
  last_action_at : option datetime;
  action_history : list history_entry;
  opened_at : datetime;
  closed_at : option datetime;
  final_pnl : option dec
}.

#[export] Instance StrategyPosition_eta : Eta StrategyPosition := fun p =>
  {| p_id := p_id p; p_user_id := p_user_id p; p_strategy_id := p_strategy_id p;
     p_broker_credential_id := p_broker_credential_id p; p_signal_id := p_signal_id p;
     p_subscription_id := p_subscription_id p; p_symbol := p_symbol p; p_side := p_side p;
     total_quantity := total_quantity p; remaining_quantity := remaining_quantity p;
     avg_entry_price := avg_entry_price p; target_price := target_price p;
     stop_loss_price := stop_loss_price p; trail_offset := trail_offset p;
     highest_price_seen := highest_price_seen p; best_price := best_price p;
     current_atr := current_atr p; circuit_breaker_triggered := circuit_breaker_triggered p;
     exit_reason := exit_reason p; status := status p; last_action := last_action p;
     last_action_at := last_action_at p; action_history := action_history p;
     opened_at := opened_at p; closed_at := closed_at p; final_pnl := final_pnl p |}.

Record StrategyExecution : Type := {
  x_id : uuid;
  x_signal_id : uuid;
  x_subscription_id : option uuid;
  x_broker_credential_id : uuid;
  x_leg_number : Z;
  x_leg_role : string;
  x_symbol : string;
  x_side : string;
  x_quantity : Z;
  x_order_type : OrderType;
  x_price : option dec;
  x_broker_order_id : string;
  x_broker_status : option OrderStatus;
  x_placed_at : datetime;
  x_completed_at : option datetime
}.

Record Strategy : Type := {
  s_id : uuid;
  s_user_id : uuid;
  s_broker_credential_id : option uuid;
  entry_lots : Z;
  partial_profit_lots : Z;
  partial_profit_target_pct : option dec;
  trail_offset_pct : option dec;
  hard_sl_pct : option dec;
  ai_validation_enabled : bool;
  exit_strategy_type : string;
  strategy_json : option payload;
  is_paper : option bool;
  s_is_active : bool;
  s_webhook_token_id : option uuid;
  allowed_symbols : list json
}.

(** The life cycle of a signal row. *)
Inductive signal_status : Type :=
| sg_received | sg_validating | sg_rejected | sg_executing | sg_executed | sg_failed
| sg_duplicate | sg_skipped | sg_ignored | sg_held.

#[export] Instance signal_status_eq_dec : EqDecision signal_status.
Proof. solve_decision. Defined.

Inductive AIDecisionStatus : Type := AI_APPROVED | AI_REJECTED | AI_PENDING.

#[export] Instance AIDecisionStatus_eq_dec : EqDecision AIDecisionStatus.
Proof. solve_decision. Defined.

Record StrategySignal : Type := {
  g_id : uuid;
  g_user_id : uuid;
  g_strategy_id : uuid;
  raw_payload : payload;
  g_symbol : string;
  g_action : string;
  g_quantity : option Z;
  g_order_type : string;
  g_ai_decision : option AIDecisionStatus;
  g_status : signal_status;
  g_received_at : datetime
}.

#[export] Instance StrategySignal_eta : Eta StrategySignal := fun g =>
  {| g_id := g_id g; g_user_id := g_user_id g; g_strategy_id := g_strategy_id g; raw_payload := raw_payload g;
     g_symbol := g_symbol g; g_action := g_action g; g_quantity := g_quantity g; g_order_type := g_order_type g;
     g_ai_decision := g_ai_decision g; g_status := g_status g; g_received_at := g_received_at g |}.

Record BrokerCredential : Type := {
  c_id : uuid;
  c_user_id : uuid;
  c_broker_name : BrokerName;
  c_client_id_enc : string;
  c_api_key_enc : string;
  c_api_secret_enc : string;
  c_access_token_enc : option string;
  c_refresh_token_enc : option string;
  c_is_active : bool;
  c_created_at : datetime
}.

Record BrokerCredentials : Type := {
  k_broker : BrokerName;
  k_user_id : uuid;
  k_client_id : string;
  k_api_key : string;
  k_api_secret : string;
  k_access_token : option string;
  k_refresh_token : option string
}.

(** An address and a network of the [ipaddress] module: the version and the
    address as an integer, and the length of the prefix. *)
Inductive ip_address : Type := IPv4 (a : Z) | IPv6 (a : Z).

Record ip_network : Type := { net_address : ip_address; net_prefixlen : Z }.

Record Settings : Type := {
  strategy_paper_mode : bool;
  pre_trade_margin_per_lot_inr : dec;
  marketplace_fanout_enabled : bool;
  subscriber_drift_enabled : bool;
  reconciliation_telegram_enabled : bool;
  webhook_require_hmac : bool;
  tradingview_trusted_ips : list ip_network;
  market_shield_enabled : bool;
  black_swan_shield_enabled : bool;
  anomaly_z_threshold : float64;
  anomaly_composite_threshold : float64;
  anomaly_block_bars : Z;
  options_execution_enabled : bool;
  cash_execution_enabled : bool;
  use_regime_detection : bool;
  futures_expiry_backstop_enabled : bool;
  trade_dna_enabled : bool;
  trade_dna_min_history : Z;
  trade_dna_top_k : Z;
  trade_dna_lookback_days : Z;
  trade_dna_winner_threshold_inr : float64;
  trade_dna_cache_ttl_secs : Z;
  probability_engine_enabled : bool;
  probability_dna_weight : float64;
  probability_cascade_weight : float64;
  probability_anomaly_penalty_factor : float64;
  probability_clamp_min : float64;
  probability_clamp_max : float64
}.

#[export] Instance Settings_eta : Eta Settings := fun s =>
  {| strategy_paper_mode := strategy_paper_mode s; pre_trade_margin_per_lot_inr := pre_trade_margin_per_lot_inr s;
     marketplace_fanout_enabled := marketplace_fanout_enabled s; subscriber_drift_enabled := subscriber_drift_enabled s;
     reconciliation_telegram_enabled := reconciliation_telegram_enabled s; webhook_require_hmac := webhook_require_hmac s;
     tradingview_trusted_ips := tradingview_trusted_ips s; market_shield_enabled := market_shield_enabled s;
     black_swan_shield_enabled := black_swan_shield_enabled s; anomaly_z_threshold := anomaly_z_threshold s;
     anomaly_composite_threshold := anomaly_composite_threshold s; anomaly_block_bars := anomaly_block_bars s;
     options_execution_enabled := options_execution_enabled s; cash_execution_enabled := cash_execution_enabled s;
     use_regime_detection := use_regime_detection s; futures_expiry_backstop_enabled := futures_expiry_backstop_enabled s;
     trade_dna_enabled := trade_dna_enabled s; trade_dna_min_history := trade_dna_min_history s; trade_dna_top_k := trade_dna_top_k s;
     trade_dna_lookback_days := trade_dna_lookback_days s; trade_dna_winner_threshold_inr := trade_dna_winner_threshold_inr s;
     trade_dna_cache_ttl_secs := trade_dna_cache_ttl_secs s; probability_engine_enabled := probability_engine_enabled s;
     probability_dna_weight := probability_dna_weight s; probability_cascade_weight := probability_cascade_weight s;
     probability_anomaly_penalty_factor := probability_anomaly_penalty_factor s; probability_clamp_min := probability_clamp_min s;
     probability_clamp_max := probability_clamp_max s |}.

(** ** Kill-switch and marketplace rows *)

Inductive TripReason : Type :=
| DAILY_LOSS_BREACHED
| MAX_TRADES_BREACHED
| CIRCUIT_BREAKER_HALT
| MANUAL
| SUSPICIOUS_ACTIVITY
| AUTO_SQUARE_OFF.

Record KillSwitchConfig : Type := {
  kc_user_id : uuid;
  max_daily_loss_inr : dec;
  max_daily_trades : Z;
  enabled : bool;
  auto_square_off : bool;
  kc_updated_at : datetime
}.

(** What went wrong in a square-off, by where it went wrong. *)
Inductive close_error : Type :=
| CredentialMissing (credential_id : uuid)
| SessionFailed (credential_id : uuid) (e : exn)
| CloseFailed (symbol : string) (e : exn)
| NoCredential.

(** One credential's part of a square-off; [broker_name] is [None] for
    "unknown", [error] is [None] exactly when [al_errors] is empty. *)
Record KillSwitchActionLog : Type := {
  al_broker_credential_id : uuid;
  al_broker_name : option BrokerName;
  positions_squared_off : Z;
  al_errors : list close_error
}.

Record KillSwitchEvent : Type := {
  e_id : uuid;
  e_user_id : uuid;
  triggered_at : datetime;
  e_reason : TripReason;
  daily_pnl_at_trigger : dec;
  e_actions : list KillSwitchActionLog;
  reset_at : option datetime;
  reset_by : option uuid
}.

#[export] Instance KillSwitchEvent_eta : Eta KillSwitchEvent := fun e =>
  {| e_id := e_id e; e_user_id := e_user_id e; triggered_at := triggered_at e; e_reason := e_reason e;
     daily_pnl_at_trigger := daily_pnl_at_trigger e; e_actions := e_actions e; reset_at := reset_at e;
     reset_by := reset_by e |}.

Inductive ActorType : Type := ActorUser | ActorSystem | ActorAdmin.

Record AuditLog : Type := {
  au_user_id : option uuid;
  au_actor : ActorType;
  au_action : string;
  au_resource_type : option string;
  au_resource_id : option string
}.

Inductive subscription_status : Type := sub_pending | sub_active | sub_cancelled | sub_expired.

#[export] Instance subscription_status_eq_dec : EqDecision subscription_status.
Proof. solve_decision. Defined.

Record MarketplaceSubscription : Type := {
  m_id : uuid;
  m_listing_id : uuid;
  m_subscriber_id : uuid;
  m_subscribed_at : datetime;
  m_access_until : option datetime;
  m_status : subscription_status;
  m_lots_override : option Z;
  m_execution_mode : string;
  m_is_paper : bool;
  m_direction_filter : string;
  m_broker_credential_id : option uuid
}.

#[export] Instance MarketplaceSubscription_eta : Eta MarketplaceSubscription := fun m =>
  {| m_id := m_id m; m_listing_id := m_listing_id m; m_subscriber_id := m_subscriber_id m;
     m_subscribed_at := m_subscribed_at m; m_access_until := m_access_until m; m_status := m_status m;
     m_lots_override := m_lots_override m; m_execution_mode := m_execution_mode m; m_is_paper := m_is_paper m;
     m_direction_filter := m_direction_filter m;
     m_broker_credential_id := m_broker_credential_id m |}.

Record MarketplaceListing : Type := {
  li_id : uuid;
  li_strategy_id : uuid
}.

(** ** Webhook rows *)

Record User : Type := {
  u_id : uuid;
  u_is_active : bool
}.

Record WebhookToken : Type := {
  wt_id : uuid;
  wt_user_id : uuid;
  wt_token_hash : string;
  wt_hmac_secret_enc : string;
  wt_is_active : bool
}.

Inductive TradeStatus : Type :=
| T_PENDING | T_OPEN | T_COMPLETE | T_CANCELLED | T_REJECTED | T_PARTIAL | T_SQUARED_OFF.

Record Trade : Type := {
  t_id : uuid;
  t_user_id : uuid;
  t_broker_credential_id : uuid;
  t_strategy_id : option uuid;
  t_broker_order_id : option string;
  t_signal_id : option string;
  t_symbol : string;
  t_exchange : Exchange;
  t_side : OrderSide;
  t_order_type : OrderType;
  t_product_type : ProductType;
  t_quantity : Z;
  t_price : option dec;
  t_status : TradeStatus
}.

Inductive ProcessingStatus : Type := P_RECEIVED | P_VALIDATED | P_EXECUTED | P_FAILED | P_SKIPPED.

Record WebhookEvent : Type := {
  we_user_id : uuid;
  we_signature_valid : bool;
  we_status : ProcessingStatus;
  we_error : option string
}.

Inductive CircuitBreakerLevel : Type := ALLOW | PAUSE_SHORT | PAUSE_LONG | HALT.

#[export] Instance CircuitBreakerLevel_eq_dec : EqDecision CircuitBreakerLevel.
Proof. solve_decision. Defined.

(** A value of Redis's JSON cache namespace ("cache:..."), kept as the
    dictionary it encodes. *)
(** The training pool of the trade DNA service. *)
Record dna_pool : Type := {
  dp_means : list float64;
  dp_stds : list float64;
  dp_vectors : list (list float64);
  dp_winners : list bool;
  dp_pnls : list float64
}.

Inductive cached : Type :=
| CachedConfig (c : KillSwitchConfig)
| CachedTrip (tripped_at : datetime) (reason : TripReason) (event_id : uuid)
| CachedStops (stops : gmap string (dec * string * Z))
| CachedBreaker (level : CircuitBreakerLevel) (until : option datetime)
| CachedPrice (price : dec) (ts : datetime)
| CachedToken (user_id token_id : uuid) (hmac_secret : string)
| CachedHold (signal_id : uuid) (side : string) (entry_price atr_at_hold : float64) (release_at : datetime)
| CachedBars (history : list (list float64))
| CachedPool (pool : dna_pool)
| CachedJson (j : json)
| CachedText (s : string).

(** A key-value table: the newest binding of a key comes first; a binding
    without an expiry time never ends. *)
Abbreviation table V := (list (string * (V * option datetime))).

(** The tables and stores the kill switch keeps besides positions: its database
    tables, the JSON cache namespace of Redis, the cached position snapshots
    ("pos:..."), the platform-wide halt flag, the reconciliation loop's memory
    of its last alerts, the rows of the webhooks, the audit events handed to the
    response's background tasks, the queue of the signal worker (signal and action
    kind, oldest first) and the per-day cache of resolved contracts. *)
Record platform : Type := {
  pf_configs : list KillSwitchConfig;
  pf_events : list KillSwitchEvent;
  pf_audit : list AuditLog;
  pf_subscriptions : list MarketplaceSubscription;
  pf_listings : list MarketplaceListing;
  pf_cache : table cached;
  pf_position_cache : table (list payload);
  pf_halted : bool;
  pf_last_alert : gmap (uuid * string) (gset (string * string * Z) * datetime);
  pf_users : list User;
  pf_webhook_tokens : list WebhookToken;
  pf_trades : list Trade;
  pf_webhook_audit : list WebhookEvent;
  pf_signals : list StrategySignal;
  pf_queue : list (uuid * string);
  pf_resolutions : list (string * Z * string)
}.

#[export] Instance platform_eta : Eta platform := fun f =>
  {| pf_configs := pf_configs f; pf_events := pf_events f; pf_audit := pf_audit f;
     pf_subscriptions := pf_subscriptions f; pf_listings := pf_listings f; pf_cache := pf_cache f;
     pf_position_cache := pf_position_cache f; pf_halted := pf_halted f;
     pf_last_alert := pf_last_alert f; pf_users := pf_users f; pf_webhook_tokens := pf_webhook_tokens f;
     pf_trades := pf_trades f; pf_webhook_audit := pf_webhook_audit f; pf_signals := pf_signals f;
     pf_queue := pf_queue f; pf_resolutions := pf_resolutions f |}.

Definition empty_platform : platform :=
  {| pf_configs := []; pf_events := []; pf_audit := []; pf_subscriptions := []; pf_listings := [];
     pf_cache := []; pf_position_cache := []; pf_halted := false; pf_last_alert := ∅;
     pf_users := []; pf_webhook_tokens := []; pf_trades := []; pf_webhook_audit := []; pf_signals := []; pf_queue := [];
     pf_resolutions := [] |}.

(** ** Alerts *)

Inductive AlertLevel : Type := INFO | SUCCESS | WARNING | CRITICAL.

(** A contract, its side and a quantity, as the reconciliation compares them. *)
Abbreviation leg := (string * string * Z)%type.

Record alert : Type := {
  a_level : AlertLevel;
  a_event : string;
  a_symbol : string;
  a_qty : Z;
  a_remaining : Z;
  a_price : option dec;
  a_pnl : option dec;
  a_legs : list leg
}.

(** ** Key-value tables *)

Section Tables.
Context {V : Type}.

Definition live_at (t : datetime) (exp : option datetime) : bool := opt_ok (fun e => t <? e) exp.

Fixpoint store_get (k : string) (t : datetime) (r : table V) : option V :=
  match r with
  | [] => None
  | (k', (v, exp)) :: r' => if String.eqb k' k then (if live_at t exp then Some v else None) else store_get k t r'
  end.

Definition store_drop (p : string -> bool) (r : table V) : table V := List.filter (fun e => negb (p (fst e))) r.

Definition store_delete (k : string) : table V -> table V := store_drop (fun k' => String.eqb k' k).

Lemma store_get_drop p k t r : store_get k t (store_drop p r) = if p k then None else store_get k t r.
Proof.
  induction r as [|[k0 [v e]] r IH]; simpl; [by destruct (p k)|].
  destruct (String.eqb_spec k0 k) as [->|Hne].
  - destruct (p k) eqn:E; simpl; [done|]. by rewrite String.eqb_refl.
  - destruct (p k0); simpl; [done|]. by rewrite (proj2 (String.eqb_neq _ _) Hne).
Qed.
End Tables.

(** ** Interfaces *)

(** Redis: keys with values and expiry times.  [redis_get k t r] is the value a
    GET of [k] at time [t] sees; [redis_put] sets with an expiry time,
    [redis_set] without one; [redis_scan_delete p] deletes every key that
    starts with [p] (SCAN MATCH p* and DEL). *)
Class RedisStore (R : Type) : Type := {
  redis_get : string -> datetime -> R -> option string;
  redis_put : string -> string -> datetime -> R -> R;
  redis_set : string -> string -> R -> R;
  redis_delete : string -> R -> R;
  redis_scan_delete : string -> R -> R
}.

(** The documented behaviour of SET (with and without EX), GET, DEL and SCAN. *)
Class RedisLaws (R : Type) `{RedisStore R} : Prop := {
  redis_get_put k k' v exp t r :
    redis_get k' t (redis_put k v exp r)
    = if decide (k = k') then (if t <? exp then Some v else None) else redis_get k' t r;
  redis_get_set k k' v t r :
    redis_get k' t (redis_set k v r) = if decide (k = k') then Some v else redis_get k' t r;
  redis_get_delete k k' t r :
    redis_get k' t (redis_delete k r) = if decide (k = k') then None else redis_get k' t r;
  redis_get_scan p k' t r :
    redis_get k' t (redis_scan_delete p r) = if String.prefix p k' then None else redis_get k' t r
}.

(** [SET key value NX EX ttl]: [true] when the key was absent and is now held. *)
Definition redis_set_nx {R : Type} `{RedisStore R} (k v : string) (ttl : Z) (now : datetime) (r : R) : bool * R :=
  match redis_get k now r with
  | Some _ => (false, r)
  | None => (true, redis_put k v (now + ttl) r)
  end.

(** The broker contract (backend/app/brokers/base.py).  A broker object is built
    from decrypted credentials, so every call names the account it acts on; each
    call may raise and may change the broker's own state.  [get_positions] is
    the account's position list: [None] for no list at all, and in it [None] for
    a row without the symbol or quantity attribute.  [get_lot_size] is
    [None] for a broker that does not have the method. *)
Class BrokerInterface (B : Type) : Type := {
  is_session_valid : BrokerCredentials -> B -> result exn bool * B;
  login : BrokerCredentials -> B -> result exn unit * B;
  validate_symbol : BrokerCredentials -> string -> Exchange -> B -> result exn unit * B;
  get_lot_size : option (BrokerCredentials -> string -> Exchange -> B -> result exn (option Z) * B);
  get_funds : BrokerCredentials -> B -> result exn dec * B;
  place_order : BrokerCredentials -> OrderRequest -> B -> result exn OrderResponse * B;
  confirm_fill : BrokerCredentials -> string -> Z -> B -> result exn OrderFill * B;
  get_quote_ltp : BrokerCredentials -> string -> Exchange -> B -> result exn dec * B;
  get_positions : BrokerCredentials -> B -> result exn (option (list (option broker_row))) * B;
  broker_normalize_symbol : BrokerCredentials -> string -> Exchange -> result exn string;
  resting_orders : option (BrokerCredentials -> B -> result exn (option (list (option payload))) * B)
}.

(** [BrokerInterface.confirm_fill]'s default: the acknowledgement is taken for a
    complete fill of the expected quantity. *)
Definition default_confirm_fill (broker_order_id : string) (expected_qty : Z) : OrderFill :=
  {| f_broker_order_id := broker_order_id; f_order_status := COMPLETE; f_raw_status := "ASSUMED";
     f_filled_qty := expected_qty; f_avg_price := None; f_reason := None; f_timed_out := false |}.

(** Decryption of stored credentials (a third-party cipher): [None] stands for
    InvalidToken. *)
Class Decryptor : Type := decrypt_credential : string -> option string.

Definition decrypted `{Decryptor} (enc : string) : result exn string :=
  match decrypt_credential enc with Some s => Ok s | None => Err InvalidToken end.

(** [decrypt(enc) if enc else None]: an empty column counts as absent. *)
Definition decrypted_opt `{Decryptor} (enc : option string) : result exn (option string) :=
  match enc with
  | Some s => if String.eqb s "" then Ok None else t ← decrypted s; Ok (Some t)
  | None => Ok None
  end.

(** The credential row decrypted for [user_id]. *)
Definition build_broker_credentials `{Decryptor} (row : BrokerCredential) (user_id : uuid)
  : result exn BrokerCredentials :=
  client_id ← decrypted (c_client_id_enc row);
  api_key ← decrypted (c_api_key_enc row);
  api_secret ← decrypted (c_api_secret_enc row);
  access_token ← decrypted_opt (c_access_token_enc row);
  refresh_token ← decrypted_opt (c_refresh_token_enc row);
  Ok {| k_broker := c_broker_name row; k_user_id := user_id; k_client_id := client_id;
        k_api_key := api_key; k_api_secret := api_secret; k_access_token := access_token;
        k_refresh_token := refresh_token |}.

(** ** The world and the monad *)

Record world (B R : Type) : Type := {
  w_positions : list StrategyPosition;
  w_executions : list StrategyExecution;
  w_credentials : list BrokerCredential;
  w_strategies : list Strategy;
  w_platform : platform;
  w_redis : R;
  w_alerts : list alert;
  w_broker : B;
  w_orders : list (BrokerCredentials * OrderRequest);
  w_now : datetime;
  w_next_id : uuid
}.

Arguments w_positions {B R} _.
Arguments w_executions {B R} _.
Arguments w_credentials {B R} _.
Arguments w_strategies {B R} _.
Arguments w_platform {B R} _.
Arguments w_redis {B R} _.
Arguments w_alerts {B R} _.
Arguments w_broker {B R} _.
Arguments w_orders {B R} _.
Arguments w_now {B R} _.
Arguments w_next_id {B R} _.

#[export] Instance world_eta {B R : Type} : Eta (world B R) := fun w =>
  {| w_positions := w_positions w; w_executions := w_executions w; w_credentials := w_credentials w;
     w_strategies := w_strategies w; w_platform := w_platform w; w_redis := w_redis w; w_alerts := w_alerts w;
     w_broker := w_broker w; w_orders := w_orders w; w_now := w_now w; w_next_id := w_next_id w |}.

Section Monad.
Context {B R : Type}.

Definition M (A : Type) : Type := world B R -> result exn A * world B R.

#[global] Instance M_ret : MRet M := fun A a w => (Ok a, w).

#[global] Instance M_bind : MBind M := fun A C k m w =>
  match m w with
  | (Ok a, w') => k a w'
  | (Err e, w') => (Err e, w')
  end.

Definition raise {A : Type} (e : exn) : M A := fun w => (Err e, w).

Definition gets {A : Type} (f : world B R -> A) : M A := fun w => (Ok (f w), w).

Definition modify (f : world B R -> world B R) : M unit := fun w => (Ok tt, f w).

Definition from_result {A : Type} (r : result exn A) : M A := fun w => (r, w).

(** [if cond: raise e]. *)
Definition raise_when (cond : bool) (e : exn) : M unit := if cond then raise e else mret tt.

(** A call on the broker object. *)
Definition on_broker {A : Type} (f : B -> result exn A * B) : M A := fun w =>
  let '(r, b) := f (w_broker w) in (r, w <| w_broker := b |>).

(** [if not await broker.is_session_valid(): await broker.login()]. *)
Definition ensure_session `{BrokerInterface B} (k : BrokerCredentials) : M unit :=
  valid ← on_broker (is_session_valid k);
  if valid : bool then mret tt else on_broker (login k).

(** [await broker.place_order(order)]; [w_orders] keeps every attempt. *)
Definition send_order `{BrokerInterface B} (k : BrokerCredentials) (o : OrderRequest) : M OrderResponse :=
  modify (fun w => w <| w_orders := w_orders w ++ [(k, o)] |>) ;;
  on_broker (place_order k o).

(** [try: ... except Exception as exc: ...]: the outcome becomes a value. *)
Definition attempt {A : Type} (m : M A) : M (result exn A) := fun w => let '(r, w') := m w in (Ok r, w').

(** [uuid.uuid4()]. *)
Definition fresh : M uuid := fun w => (Ok (w_next_id w), w <| w_next_id := w_next_id w + 1 |>).

(** [session.add(row); await session.flush()]. *)
Definition add_execution (x : StrategyExecution) : M unit :=
  modify (fun w => w <| w_executions := w_executions w ++ [x] |>).

Definition add_position (p : StrategyPosition) : M unit :=
  modify (fun w => w <| w_positions := w_positions w ++ [p] |>).

Definition send_alert (a : alert) : M unit :=
  modify (fun w => w <| w_alerts := w_alerts w ++ [a] |>).
End Monad.

Arguments M B R A : clear implicits.

(** In-place mutation of a tracked row: every row with the row's id changes. *)
Definition put_row (p : StrategyPosition) (rows : list StrategyPosition) : list StrategyPosition :=
  map (fun q => if p_id q =? p_id p then p else q) rows.

Definition save_position {B R : Type} (p : StrategyPosition) : M B R unit :=
  modify (fun w => w <| w_positions := put_row p (w_positions w) |>).

(** [ORDER BY opened_at DESC LIMIT 1]: the first row with the greatest key. *)
Fixpoint latest_by {A : Type} (key : A -> Z) (l : list A) : option A :=
  match l with
  | [] => None
  | x :: l' =>
      match latest_by key l' with
      | Some y => if key x <? key y then Some y else Some x
      | None => Some x
      end
  end.

(** A position row the poller and the exit handlers consider open. *)
Definition is_open (p : StrategyPosition) : bool :=
  bool_decide (status p = st_open) || bool_decide (status p = st_partial).

Definition owner_row (p : StrategyPosition) : bool := absent (p_subscription_id p).

(** ** Lemmas *)

Section MonadLemmas.
Context {B R : Type}.

(** Inversion of a sequenced computation. *)
Lemma bind_ok {A C : Type} (m : M B R A) (k : A -> M B R C) w c w' :
  (m ≫= k) w = (Ok c, w') <-> exists a w1, m w = (Ok a, w1) /\ k a w1 = (Ok c, w').
Proof.
  unfold mbind, M_bind. destruct (m w) as [[a|e] w1].
  - split; [eauto | by intros (? & ? & [= <- <-] & ?)].
  - split; [done | by intros (? & ? & ? & _)].
Qed.

Lemma bind_err {A C : Type} (m : M B R A) (k : A -> M B R C) w e w' :
  (m ≫= k) w = (Err e, w')
  <-> m w = (Err e, w') \/ exists a w1, m w = (Ok a, w1) /\ k a w1 = (Err e, w').
Proof.
  unfold mbind, M_bind. destruct (m w) as [[a|e'] w1].
  - split; [eauto | intros [[=] | (? & ? & [= <- <-] & H)]; exact H].
  - split; [intros [= <- <-]; by left | intros [[= <- <-] | (? & ? & [=] & _)]; reflexivity].
Qed.

(** The computation returns (does not raise) from [w]. *)
Definition returns {A : Type} (m : M B R A) (w : world B R) : Prop := exists a w', m w = (Ok a, w').

Lemma returns_bind {A C : Type} (m : M B R A) (k : A -> M B R C) w :
  returns m w -> (forall a w', m w = (Ok a, w') -> returns (k a) w') -> returns (m ≫= k) w.
Proof.
  intros (a & w1 & E) Hk. destruct (Hk a w1 E) as (c & w2 & E2). exists c, w2.
  unfold mbind, M_bind. by rewrite E.
Qed.

Lemma returns_ret {A : Type} (a : A) w : returns (mret a) w.
Proof. by exists a, w. Qed.
End MonadLemmas.

#[export] Hint Resolve returns_ret : bridge.

Lemma latest_by_in {A : Type} (key : A -> Z) l x : latest_by key l = Some x -> In x l.
Proof.
  induction l as [|y l IH]; simpl; [done|]. destruct (latest_by key l) as [z|]; [|intros [= ->]; auto].
  destruct (key y <? key z); intros [= ->]; auto.
Qed.

Lemma latest_by_max {A : Type} (key : A -> Z) l x y :
  latest_by key l = Some x -> In y l -> key y <= key x.
Proof.
  revert x. induction l as [|z l IH]; intros x; simpl; [done|].
  destruct (latest_by key l) as [u|] eqn:E.
  - specialize (IH u eq_refl). destruct (Z.ltb_spec (key z) (key u)); intros [= <-] [<- | Hin]; try lia;
      specialize (IH Hin); lia.
  - intros [= <-] [<- | Hin]; [lia|]. destruct l as [|v l]; [done|]. simpl in E.
    destruct (latest_by key l) as [u|]; [destruct (_ <? _)|]; discriminate.
Qed.

Lemma latest_by_none {A : Type} (key : A -> Z) l : latest_by key l = None <-> l = [].
Proof.
  destruct l as [|x l]; simpl; [done|].
  destruct (latest_by key l) as [y|]; [destruct (_ <? _)|]; done.
Qed.

Lemma put_row_In p rows q :
  In q (put_row p rows) ->
  (q = p /\ exists q0, In q0 rows /\ p_id q0 = p_id p) \/ (In q rows /\ p_id q <> p_id p).
Proof.
  unfold put_row. rewrite in_map_iff. intros (q0 & E & Hin).
  destruct (Z.eqb_spec (p_id q0) (p_id p)); subst; eauto.
Qed.

Lemma put_row_ids p rows : map p_id (put_row p rows) = map p_id rows.
Proof.
  unfold put_row. rewrite map_map. apply map_ext. intros q.
  destruct (Z.eqb_spec (p_id q) (p_id p)); auto.
Qed.

(** A concrete store. *)
Abbreviation store := (table string).

#[export] Instance list_redis : RedisStore store := {
  redis_get := store_get;
  redis_put k v exp r := (k, (v, Some exp)) :: r;
  redis_set k v r := (k, (v, None)) :: r;
  redis_delete := store_delete;
  redis_scan_delete p := store_drop (String.prefix p)
}.

#[export] Instance list_redis_laws : RedisLaws store.
Proof.
  split; intros; simpl.
  - destruct (String.eqb_spec k k'); by case_decide.
  - destruct (String.eqb_spec k k'); by case_decide.
  - unfold store_delete. rewrite store_get_drop. destruct (String.eqb_spec k' k); case_decide; congruence.
  - apply store_get_drop.
Qed.
