(* ===== verification/Safeguards.v ===== *)
(** * Execution safeguards

    Three small services every order path goes through:
    - backend/app/core/signal_idempotency.py: the per-signal claim taken right
      before a broker call, so that a retry cannot place a second order;
    - backend/app/services/ambiguous_fill.py: the marker of an order that did not
      reach a terminal state in the confirmation window;
    - backend/app/services/paper_mode_resolver.py: the effective paper flag.

    The Redis-backed services are verified against any [RedisStore] that
    satisfies [RedisLaws]. *)

From Stdlib Require Import ZArith Lia List Bool String Ascii.
From stdpp Require Import base list strings gmap.
From S2P Require Import Prelude PyText PyDecimal PyNum Records Enums Models.


(** ** Signal idempotency *)

Definition SIGNAL_IDEMPOTENCY_TTL_SECONDS : Z := 3600.

Definition signal_idempotency_key (signal_id : uuid) (action_kind : string) : string :=
  String.append "signal:idempotency:" (String.append (z_str signal_id) (String.append ":" action_kind)).

(** ** Ambiguous fills *)

Definition AMBIGUOUS_TTL_S : Z := 900.

Definition ambiguous_key (symbol : string) : string :=
  String.append "ambiguous_fill:" (str_upper symbol).

Section Services.
Context {B R : Type} `{RedisStore R}.

Definition check_and_set_signal_idempotent (signal_id : uuid) (action_kind : string) (ttl_seconds : Z)
  : M B R bool := fun w =>
  if ttl_seconds <=? 0 then (Err ValueError, w)
  else
    let '(acquired, r) :=
      redis_set_nx (signal_idempotency_key signal_id action_kind) "1" ttl_seconds (w_now w) (w_redis w) in
    (Ok acquired, w <| w_redis := r |>).

Definition release_signal_idempotent (signal_id : uuid) (action_kind : string) : M B R unit :=
  modify (fun w => w <| w_redis := redis_delete (signal_idempotency_key signal_id action_kind) (w_redis w) |>).

Definition flag_ambiguous_fill (broker_order_id symbol : string) (side : OrderSide) (qty : Z) (context : string)
  : M B R unit :=
  modify (fun w => w <| w_redis := redis_put (ambiguous_key symbol) broker_order_id
                                     (w_now w + AMBIGUOUS_TTL_S) (w_redis w) |>) ;;
  send_alert {| a_level := CRITICAL; a_event := String.append "ambiguous_fill:" context; a_symbol := symbol;
                a_qty := qty; a_remaining := 0; a_price := None; a_pnl := None; a_legs := [] |}.

Definition is_flagged (symbol : string) : M B R (option string) :=
  gets (fun w => redis_get (ambiguous_key symbol) (w_now w) (w_redis w)).

Definition clear_flag (symbol : string) : M B R unit :=
  modify (fun w => w <| w_redis := redis_delete (ambiguous_key symbol) (w_redis w) |>).
End Services.

(** ** Paper mode *)

Definition resolve_paper_mode (settings : Settings) (strategy : option Strategy) : bool :=
  match strategy with
  | Some s =>
      match is_paper s with
      | Some flag => flag
      | None => strategy_paper_mode settings
      end
  | None => strategy_paper_mode settings
  end.

(** ** Keys *)

Lemma int_of_digits_fuel fuel n acc :
  0 <= n -> n < 10 ^ Z.of_nat fuel ->
  exists d, digits_fuel fuel n acc = d ++ acc /\ int_of d = n /\ forallb is_digit d = true.
Proof.
  revert n acc. induction fuel as [|fuel IH]; intros n acc Hn Hlt.
  - change (10 ^ Z.of_nat 0) with 1 in Hlt. exists []. split; [done|]. split; [cbn; lia | done].
  - rewrite Nat2Z.inj_succ, Z.pow_succ_r in Hlt by lia. simpl.
    destruct (Z.ltb_spec n 10) as [Hs|Hs].
    + destruct (digit_char_range n ltac:(lia)) as [Hd Hv].
      exists [digit_char n]. simpl. rewrite Hd. split; [done|]. split; [|done]. cbn. lia.
    + destruct (digit_char_range (n mod 10) ltac:(apply Z.mod_pos_bound; lia)) as [Hd Hv].
      destruct (IH (n / 10) (digit_char (n mod 10) :: acc)) as (d & E & Hi & Hf);
        [apply Z.div_pos; lia | apply Z.div_lt_upper_bound; lia|].
      exists (d ++ [digit_char (n mod 10)]). rewrite E, <- app_assoc. split; [done|]. split.
      * rewrite int_of_snoc, Hi, Hv. pose proof (Z.div_mod n 10). lia.
      * rewrite forallb_app, Hf. simpl. by rewrite Hd.
Qed.

Lemma str_of_nonneg_spec n : 0 <= n ->
  int_of (str_of_nonneg n) = n /\ forallb is_digit (str_of_nonneg n) = true.
Proof.
  intros Hn. unfold str_of_nonneg.
  destruct (int_of_digits_fuel (S (Z.to_nat (Z.log2 n))) n []) as (d & -> & Hi & Hf); [done| |].
  - destruct (Z.eq_dec n 0) as [->|]; [vm_compute; reflexivity|].
    pose proof (Z.log2_spec n ltac:(lia)) as [_ Hl]. pose proof (Z.log2_nonneg n).
    rewrite Nat2Z.inj_succ, Z2Nat.id by lia.
    assert (2 ^ Z.succ (Z.log2 n) <= 10 ^ Z.succ (Z.log2 n)) by (apply Z.pow_le_mono_l; lia). lia.
  - by rewrite app_nil_r.
Qed.

(** Text up to the first colon is unambiguous. *)
Lemma colon_split_inj (a b s t : text) :
  ~ In ":"%char a -> ~ In ":"%char b -> a ++ ":"%char :: s = b ++ ":"%char :: t -> a = b /\ s = t.
Proof.
  revert b. induction a as [|c a IH]; intros [|d b] Ha Hb E; simpl in *.
  - injection E as <-. auto.
  - injection E as <- _. tauto.
  - injection E as -> _. tauto.
  - injection E as <- E. destruct (IH b ltac:(tauto) ltac:(tauto) E) as [-> ->]. auto.
Qed.

Lemma L_append s t : L (String.append s t) = L s ++ L t.
Proof. unfold L. induction s as [|c s IH]; simpl; [done|]. by rewrite IH. Qed.

Lemma L_inj s t : L s = L t -> s = t.
Proof. unfold L. intros E. by rewrite <- (string_of_list_ascii_of_string s), E, string_of_list_ascii_of_string. Qed.

Lemma L_of_text t : L (string_of_list_ascii t) = t.
Proof. apply list_ascii_of_string_of_list_ascii. Qed.

Lemma z_str_digits n : 0 <= n -> L (z_str n) = str_of_nonneg n.
Proof.
  intros Hn. unfold z_str. rewrite (proj2 (Z.ltb_ge n 0)) by lia.
  by rewrite L_of_text, Z.abs_eq.
Qed.

Lemma z_str_inj m n : z_str m = z_str n -> m = n.
Proof.
  assert (Hd : forall z, L (z_str z) = (if z <? 0 then ["-"%char] else []) ++ str_of_nonneg (Z.abs z)).
  { intros z. unfold z_str. destruct (z <? 0); [|by rewrite L_of_text].
    set (t := string_of_list_ascii _). change (String "-" t) with (String.append "-" t). unfold t.
    by rewrite L_append, L_of_text. }
  intros E. apply (f_equal L) in E. rewrite !Hd in E.
  destruct (str_of_nonneg_spec (Z.abs m) ltac:(lia)) as [I1 D1], (str_of_nonneg_spec (Z.abs n) ltac:(lia)) as [I2 D2].
  destruct (Z.ltb_spec m 0), (Z.ltb_spec n 0); simpl in E.
  - injection E as E. rewrite E, I2 in I1. lia.
  - rewrite <- E in D2. discriminate D2.
  - rewrite E in D1. discriminate D1.
  - rewrite E, I2 in I1. lia.
Qed.

Lemma digits_no_colon t : forallb is_digit t = true -> ~ In ":"%char t.
Proof. rewrite forallb_forall. intros Hd Hin. apply Hd in Hin. discriminate. Qed.

(** Slots of different signals, and of different actions of one signal, are
    different keys. *)
Lemma signal_idempotency_key_inj id1 id2 k1 k2 :
  0 <= id1 -> 0 <= id2 ->
  signal_idempotency_key id1 k1 = signal_idempotency_key id2 k2 -> id1 = id2 /\ k1 = k2.
Proof.
  intros H1 H2 E. apply (f_equal L) in E. unfold signal_idempotency_key in E. rewrite !L_append in E.
  apply app_inv_head in E. rewrite !z_str_digits in E by done.
  destruct (str_of_nonneg_spec id1 H1) as [I1 D1], (str_of_nonneg_spec id2 H2) as [I2 D2].
  apply colon_split_inj in E as [E1 E2]; auto using digits_no_colon.
  split; [congruence | by apply L_inj].
Qed.

(** The two services' key spaces are disjoint. *)
Lemma keys_disjoint id k symbol : signal_idempotency_key id k <> ambiguous_key symbol.
Proof. discriminate. Qed.

(** ** Interleavings of claims and markers *)

Inductive redis_op : Type :=
| OpClaim (id : uuid) (kind : string) (ttl : Z)
| OpRelease (id : uuid) (kind : string)
| OpFlag (symbol order_id : string) (side : OrderSide) (qty : Z) (context : string)
| OpClear (symbol : string).

Section Interleaving.
Context {B R : Type} `{RedisLaws R}.
Implicit Types w : world B R.

(** One call of a service at time [now]: the verdict of a claim that did not
    raise, and the new world. *)
Definition run_op (now : datetime) (op : redis_op) (w : world B R) : option bool * world B R :=
  let w := w <| w_now := now |> in
  match op with
  | OpClaim id kind ttl =>
      match check_and_set_signal_idempotent id kind ttl w with
      | (Ok b, w') => (Some b, w')
      | (Err _, w') => (None, w')
      end
  | OpRelease id kind => (None, snd (release_signal_idempotent id kind w))
  | OpFlag symbol oid side qty context => (None, snd (flag_ambiguous_fill oid symbol side qty context w))
  | OpClear symbol => (None, snd (clear_flag symbol w))
  end.

Fixpoint run_ops (ops : list (datetime * redis_op)) (w : world B R) : list (option bool) :=
  match ops with
  | [] => []
  | (now, op) :: ops' => let '(v, w') := run_op now op w in v :: run_ops ops' w'
  end.

(** The slot [key] is held at every time of the window [lo, hi). *)
Definition held (key : string) (lo hi : datetime) (r : R) : Prop :=
  forall t, lo <= t < hi -> is_Some (redis_get key t r).

(** [op] releases the slot of (id, kind). *)
Definition releases (id : uuid) (kind : string) (op : redis_op) : Prop :=
  exists id' kind', op = OpRelease id' kind' /\ (id' < 0 \/ (id' = id /\ kind' = kind)).

Lemma held_run_op id kind lo hi now op w :
  0 <= id -> lo <= now < hi -> held (signal_idempotency_key id kind) lo hi (w_redis w) -> ~ releases id kind op ->
  held (signal_idempotency_key id kind) lo hi (w_redis (snd (run_op now op w))).
Proof.
  intros Hid Hnow Hh Hop t Ht. specialize (Hh t Ht) as Hget.
  destruct op as [id' kind' ttl | id' kind' | symbol oid side qty context | symbol]; simpl.
  - unfold check_and_set_signal_idempotent, redis_set_nx. destruct (ttl <=? 0); simpl_rec; [done|].
    destruct (redis_get _ now (w_redis w)) eqn:E; simpl_rec; [done|].
    rewrite redis_get_put. case_decide as Ek; [|done]. rewrite Ek in E.
    destruct (Hh now Hnow) as [? E']. congruence.
  - simpl_rec. rewrite redis_get_delete. case_decide as Ek; [|done]. destruct Hop. exists id', kind'. split; [done|].
    destruct (Z.lt_ge_cases id' 0) as [|Hge]; [by left | right]. by apply signal_idempotency_key_inj in Ek.
  - simpl_rec. rewrite redis_get_put. case_decide as Ek; [|done]. by destruct (keys_disjoint id kind symbol).
  - simpl_rec. rewrite redis_get_delete. case_decide as Ek; [|done]. by destruct (keys_disjoint id kind symbol).
Qed.

Lemma held_claims_refused id kind lo hi ops w :
  0 <= id -> held (signal_idempotency_key id kind) lo hi (w_redis w) ->
  Forall (fun e => lo <= fst e < hi /\ ~ releases id kind (snd e)) ops ->
  Forall2 (fun e v => forall ttl, snd e = OpClaim id kind ttl -> v = if ttl <=? 0 then None else Some false)
    ops (run_ops ops w).
Proof.
  intros Hid Hh Ht. revert w Hh. induction ops as [|[now op] ops IH]; intros w Hh; simpl; [constructor|].
  apply Forall_cons in Ht as [[Hnow Hop] Ht]. simpl in *.
  pose proof (held_run_op id kind lo hi now op w Hid Hnow Hh Hop) as Hh'.
  destruct (run_op now op w) as [v w'] eqn:E. constructor; [|by apply IH].
  simpl. intros ttl ->. simpl in E. unfold check_and_set_signal_idempotent in E.
  destruct (ttl <=? 0); [by simplify_eq|]. unfold redis_set_nx in E. simpl_rec.
  destruct (Hh now Hnow) as [x Ex]. rewrite Ex in E. by simplify_eq.
Qed.
End Interleaving.

(** At most one broker attempt per signal and action.  Once a claim of the
    slot of (signal, action) at time [t] succeeded, every later claim of that
    slot inside the suppression window is refused (or raises, for a window that
    is not positive), whatever claims of other slots, ambiguous-fill markers,
    marker clearings and releases of other slots are interleaved, on any store
    with the documented SET NX EX semantics. *)
Theorem signal_claim_at_most_once {B R : Type} `{RedisLaws R} id kind ttl t (w w' : world B R) ops :
  0 <= id ->
  run_op t (OpClaim id kind ttl) w = (Some true, w') ->
  Forall (fun e => t <= fst e < t + ttl /\ ~ releases id kind (snd e)) ops ->
  Forall2 (fun e v => forall ttl', snd e = OpClaim id kind ttl' -> v = if ttl' <=? 0 then None else Some false)
    ops (run_ops ops w').
Proof.
  intros Hid Hrun Hops. apply held_claims_refused with (lo := t) (hi := t + ttl); auto.
  simpl in Hrun. unfold check_and_set_signal_idempotent, redis_set_nx in Hrun. simpl_rec.
  destruct (ttl <=? 0); [done|]. destruct (redis_get _ t (w_redis w)); simplify_eq. simpl_rec.
  intros u Hu. rewrite redis_get_put, decide_True by done.
  rewrite (proj2 (Z.ltb_lt u (t + ttl))) by lia. eauto.
Qed.

Definition idle_world : world unit store :=
  {| w_positions := []; w_executions := []; w_credentials := []; w_strategies := []; w_platform := empty_platform; w_redis := []; w_alerts := [];
     w_broker := tt; w_orders := []; w_now := 1000; w_next_id := 1 |}.

Definition sample_ops : list (datetime * redis_op) :=
  [(110, OpClaim 7 "exit" 3600); (120, OpFlag "BSE-AUG2026-FUT" "O1" BUY 375 "entry"); (200, OpClaim 7 "entry" 3600)].

Lemma signal_claim_at_most_once_witness :
  Forall2 (fun e v => forall ttl', snd e = OpClaim 7 "entry" ttl' -> v = if ttl' <=? 0 then None else Some false)
    sample_ops (run_ops sample_ops (snd (run_op 100 (OpClaim 7 "entry" 3600) idle_world))).
Proof.
  apply (signal_claim_at_most_once 7 "entry" 3600 100 idle_world); [lia | reflexivity |].
  repeat constructor; simpl; try lia; intros (id' & kind' & [=] & _).
Defined.

(** The reverse-phantom marker is found for its whole watch window under any
    letter case of the symbol, with the id of the order that timed out; it is
    gone after 900 seconds, gone once cleared, and does not touch any signal
    slot. *)
Theorem ambiguous_marker_window {B R : Type} `{RedisLaws R} (w w1 : world B R) oid symbol side qty context t :
  flag_ambiguous_fill oid symbol side qty context w = (Ok tt, w1) ->
  (forall spelling, str_upper spelling = str_upper symbol ->
     fst (is_flagged spelling (w1 <| w_now := t |>))
     = Ok (if t <? w_now w + AMBIGUOUS_TTL_S then Some oid else None))
  /\ (forall w2, clear_flag symbol w1 = (Ok tt, w2) -> fst (is_flagged symbol (w2 <| w_now := t |>)) = Ok None)
  /\ (forall id kind, redis_get (signal_idempotency_key id kind) t (w_redis w1)
                      = redis_get (signal_idempotency_key id kind) t (w_redis w)).
Proof.
  unfold flag_ambiguous_fill, send_alert, modify. intros E. cbv [mbind M_bind] in E. simplify_eq.
  split; [|split].
  - intros spelling Es. unfold is_flagged, gets, ambiguous_key. simpl_rec. rewrite Es.
    rewrite redis_get_put. by rewrite decide_True.
  - unfold clear_flag, modify. intros w2 [= <-]. unfold is_flagged, gets. simpl_rec.
    rewrite redis_get_delete. by rewrite decide_True.
  - intros id kind. simpl_rec. rewrite redis_get_put. rewrite decide_False; [done|].
    intros E'. by destruct (keys_disjoint id kind symbol).
Qed.

Lemma ambiguous_marker_window_witness :
  exists w1, flag_ambiguous_fill "O7" "bse-aug2026-fut" BUY 375 "entry" idle_world = (Ok tt, w1)
  /\ (forall spelling, str_upper spelling = str_upper "bse-aug2026-fut" ->
        fst (is_flagged spelling (w1 <| w_now := 1899 |>))
        = Ok (if 1899 <? w_now idle_world + AMBIGUOUS_TTL_S then Some "O7"%string else None))
  /\ (forall w2, clear_flag "bse-aug2026-fut" w1 = (Ok tt, w2) ->
        fst (is_flagged "bse-aug2026-fut" (w2 <| w_now := 1899 |>)) = Ok None)
  /\ (forall id kind, redis_get (signal_idempotency_key id kind) 1899 (w_redis w1)
                      = redis_get (signal_idempotency_key id kind) 1899 (w_redis idle_world)).
Proof.
  eexists. split; [reflexivity|].
  apply (ambiguous_marker_window idle_world _ "O7" "bse-aug2026-fut" BUY 375 "entry" 1899). reflexivity.
Defined.

(** The per-strategy paper flag always wins over the global one; the global
    flag decides only when there is no strategy or the flag is unset. *)
Theorem resolve_paper_mode_spec settings strategy b :
  resolve_paper_mode settings strategy = b <->
  (exists s, strategy = Some s /\ is_paper s = Some b)
  \/ ((strategy = None \/ exists s, strategy = Some s /\ is_paper s = None) /\ strategy_paper_mode settings = b).
Proof.
  unfold resolve_paper_mode. destruct strategy as [s|]; [destruct (is_paper s) eqn:E|]; naive_solver.
Qed.
