(* ===== verification/Book.v ===== *)
(** * The positions book: the invariant the services share

    [pos_inv] is the well-formedness of one strategy_positions row (the
    lifecycle documented in backend/app/db/models/strategy_position.py: open,
    partial, closed), [book_inv] that of the whole table.  [same_env] says that
    a computation left the parts of the world other than the tables it writes
    alone.  The services are shown to preserve [book_inv] in their own files. *)

From Stdlib Require Import ZArith Lia List Bool String.
From stdpp Require Import base list strings.
From S2P Require Import Prelude PyDecimal PyNum Records Enums Models.

Definition side_ok (p : StrategyPosition) : bool := negb (absent (OrderSide_of (p_side p))).

(** Between nothing and everything is left; nothing is left exactly when the
    row is closed; an open row has had no exit. *)
Record pos_inv (p : StrategyPosition) : Prop := {
  inv_bounds : 0 <= remaining_quantity p <= total_quantity p;
  inv_closed : status p = st_closed <-> remaining_quantity p = 0;
  inv_untouched : status p = st_open -> remaining_quantity p = total_quantity p;
  inv_side : side_ok p = true
}.

Definition pos_invb (p : StrategyPosition) : bool :=
  (0 <=? remaining_quantity p) && (remaining_quantity p <=? total_quantity p)
  && eqb (bool_decide (status p = st_closed)) (remaining_quantity p =? 0)
  && (negb (bool_decide (status p = st_open)) || (remaining_quantity p =? total_quantity p))
  && side_ok p.

Lemma pos_invb_sound p : pos_invb p = true -> pos_inv p.
Proof.
  unfold pos_invb. rewrite !andb_true_iff. intros ((((Hlo & Hhi) & Hc) & Ho) & Hs).
  apply eqb_prop in Hc. bool_to_prop. split; [lia | | | done].
  - rewrite <- (bool_decide_eq_true (status p = st_closed)), Hc. apply Z.eqb_eq.
  - intros E. rewrite E in Ho. destruct Ho as [Ho | Ho]; [discriminate | by apply Z.eqb_eq].
Qed.

(** The whole table: distinct ids (below the next fresh one), every row well formed. *)
Record book_inv {B R : Type} (w : world B R) : Prop := {
  book_ids : NoDup (map p_id (w_positions w));
  book_fresh : Forall (fun p => p_id p < w_next_id w) (w_positions w);
  book_rows : Forall pos_inv (w_positions w)
}.

(** What identifies a row and where it trades; no exit changes it. *)
Record same_row (p q : StrategyPosition) : Prop := {
  same_id : p_id p = p_id q;
  same_user : p_user_id p = p_user_id q;
  same_strategy : p_strategy_id p = p_strategy_id q;
  same_credential : p_broker_credential_id p = p_broker_credential_id q;
  same_subscription : p_subscription_id p = p_subscription_id q;
  same_symbol : p_symbol p = p_symbol q;
  same_side : p_side p = p_side q
}.

#[export] Instance same_row_preorder : PreOrder same_row.
Proof.
  split; [done|]. intros p q r [] []. split; etransitivity; eauto.
Qed.

(** The parts of the world exit booking never touches. *)
Record same_env {B R : Type} (w w' : world B R) : Prop := {
  env_credentials : w_credentials w' = w_credentials w;
  env_strategies : w_strategies w' = w_strategies w;
  env_platform : w_platform w' = w_platform w;
  env_redis : w_redis w' = w_redis w;
  env_orders : w_orders w' = w_orders w;
  env_now : w_now w' = w_now w;
  env_next : w_next_id w <= w_next_id w'
}.

#[export] Instance same_env_preorder {B R : Type} : PreOrder (@same_env B R).
Proof.
  split; [by split|]. intros u v w [] []. split; try (etransitivity; eauto; done).
Qed.

#[export] Hint Resolve same_id : bridge.

(** Only the broker's own state, the alerts and the supply of ids differ. *)
Record quiet {B R : Type} (w w' : world B R) : Prop := {
  qt_positions : w_positions w' = w_positions w;
  qt_executions : w_executions w' = w_executions w;
  qt_credentials : w_credentials w' = w_credentials w;
  qt_strategies : w_strategies w' = w_strategies w;
  qt_platform : w_platform w' = w_platform w;
  qt_redis : w_redis w' = w_redis w;
  qt_orders : w_orders w' = w_orders w;
  qt_now : w_now w' = w_now w;
  qt_next : w_next_id w <= w_next_id w'
}.

#[export] Instance quiet_preorder {B R : Type} : PreOrder (@quiet B R).
Proof. split; [by split|]. intros u v w [] []. split; try (etransitivity; eauto; done). Qed.

#[export] Hint Extern 0 (quiet ?w ?w) => reflexivity : core.

(** ** Frame reasoning: a computation relates its worlds by [P], returning or not *)

Definition preserves {B R A : Type} (P : relation (world B R)) (m : M B R A) : Prop :=
  forall w r w', m w = (r, w') -> P w w'.

Section Preserves.
Context {B R : Type} (P : relation (world B R)) `{PreOrder _ P}.

Lemma preserves_ret {A : Type} (a : A) : preserves P (mret a).
Proof. by intros w r w' [= <- <-]. Qed.

Lemma preserves_raise {A : Type} (e : exn) : preserves P (@raise B R A e).
Proof. by intros w r w' [= <- <-]. Qed.

Lemma preserves_gets {A : Type} (f : world B R -> A) : preserves P (gets f).
Proof. by intros w r w' [= <- <-]. Qed.

Lemma preserves_from_result {A : Type} (x : result exn A) : preserves P (from_result x).
Proof. by intros w r w' [= <- <-]. Qed.

Lemma preserves_raise_when (b : bool) (e : exn) : preserves P (raise_when b e).
Proof. destruct b; [apply preserves_raise | apply preserves_ret]. Qed.

Lemma preserves_bind {A C : Type} (m : M B R A) (k : A -> M B R C) :
  preserves P m -> (forall a, preserves P (k a)) -> preserves P (m ≫= k).
Proof.
  intros Hm Hk w r w'. unfold mbind, M_bind. destruct (m w) as [[a|e] w1] eqn:E.
  - intros E2. transitivity w1; [by eapply Hm | by eapply Hk].
  - intros [= <- <-]. by eapply Hm.
Qed.
End Preserves.

#[export] Hint Resolve preserves_ret preserves_raise preserves_gets preserves_from_result
  preserves_raise_when preserves_bind : bridge.

Section QuietCalls.
Context {B R : Type}.

Lemma on_broker_quiet {A : Type} (f : B -> result exn A * B) : preserves (@quiet B R) (on_broker f).
Proof. intros w r w'. unfold on_broker. destruct (f (w_broker w)). by intros [= <- <-]. Qed.

Lemma fresh_quiet : preserves (@quiet B R) fresh.
Proof. intros w r w' [= <- <-]. split; simpl_rec; lia || done. Qed.

Lemma ensure_session_quiet `{BrokerInterface B} k : preserves (@quiet B R) (ensure_session k).
Proof.
  apply preserves_bind; [apply _ | apply on_broker_quiet|].
  intros []; [apply preserves_ret, _ | apply on_broker_quiet].
Qed.
End QuietCalls.

#[export] Hint Resolve on_broker_quiet fresh_quiet ensure_session_quiet : bridge.

Lemma raise_when_spec {B R : Type} b e (w w' : world B R) r :
  raise_when b e w = (r, w') -> w' = w /\ r = if b then Err e else Ok tt.
Proof. destruct b; by intros [= <- <-]. Qed.

Lemma from_result_spec {B R A : Type} (x r : result exn A) (w w' : world B R) :
  from_result x w = (r, w') -> w' = w /\ r = x.
Proof. by intros [= <- <-]. Qed.

(** A sequenced computation either ran its first part, or raised in it. *)
Lemma bind_cases {B R A C : Type} (m : M B R A) (k : A -> M B R C) w r w' :
  (m ≫= k) w = (r, w') ->
  (exists a w1, m w = (Ok a, w1) /\ k a w1 = (r, w')) \/ (exists e, r = Err e /\ m w = (Err e, w')).
Proof.
  unfold mbind, M_bind. destruct (m w) as [[a|e] w1]; intros E; [left; eauto|]. injection E as <- <-. eauto.
Qed.

(** ** Row updates *)

Lemma put_row_twice p q rows : p_id p = p_id q -> put_row p (put_row q rows) = put_row p rows.
Proof.
  intros E. unfold put_row. rewrite map_map. apply map_ext. intros r.
  destruct (Z.eqb_spec (p_id r) (p_id q)) as [Er|Er].
  - rewrite E, (proj2 (Z.eqb_eq _ _) Er). by rewrite Z.eqb_refl.
  - reflexivity.
Qed.

Lemma put_row_Forall (P : StrategyPosition -> Prop) p rows :
  P p -> Forall P rows -> Forall P (put_row p rows).
Proof.
  intros Hp H. unfold put_row. apply List.Forall_map. eapply Forall_impl; [exact H|].
  intros q Hq. simpl. by destruct (_ =? _).
Qed.

(** Rows with another id stay. *)
Lemma put_row_other p rows q : In q rows -> p_id q <> p_id p -> In q (put_row p rows).
Proof.
  intros Hin Hne. unfold put_row. apply in_map_iff. exists q.
  by rewrite (proj2 (Z.eqb_neq _ _)).
Qed.

Lemma put_row_self p rows q : In q rows -> p_id q = p_id p -> In p (put_row p rows).
Proof.
  intros Hin E. unfold put_row. apply in_map_iff. exists q. by rewrite (proj2 (Z.eqb_eq _ _)).
Qed.

(** Rows with distinct keys are determined by their key. *)
Lemma NoDup_map_inj {A K : Type} (f : A -> K) (rows : list A) p q :
  NoDup (map f rows) -> In p rows -> In q rows -> f p = f q -> p = q.
Proof.
  intros Hnd. induction rows as [|r rows IH]; simpl in *; [done|].
  apply NoDup_cons in Hnd as [Hr Hnd].
  assert (Hid : forall s, In s rows -> f s <> f r).
  { intros s Hs E. apply Hr. rewrite <- E, list_elem_of_In. by apply in_map. }
  intros [<- | Hp] [<- | Hq] E; auto; exfalso; eapply Hid; eauto.
Qed.

Lemma in_ids_inj (rows : list StrategyPosition) p q :
  NoDup (map p_id rows) -> In p rows -> In q rows -> p_id p = p_id q -> p = q.
Proof. apply NoDup_map_inj. Qed.

Lemma put_row_id p rows : NoDup (map p_id rows) -> In p rows -> put_row p rows = rows.
Proof.
  intros Hnd Hin. unfold put_row. rewrite <- (map_id rows) at 2. apply map_ext_in. intros q Hq.
  destruct (Z.eqb_spec (p_id q) (p_id p)); [|done]. by apply (in_ids_inj rows).
Qed.

Lemma put_row_absent p rows : ~ In (p_id p) (map p_id rows) -> put_row p rows = rows.
Proof.
  intros Hn. unfold put_row. rewrite <- (map_id rows) at 2. apply map_ext_in. intros q Hq.
  destruct (Z.eqb_spec (p_id q) (p_id p)) as [E|]; [|done]. destruct Hn. rewrite <- E. by apply in_map.
Qed.

(** Replacing a row changes a total by the difference. *)
Lemma sum_put_row (f : StrategyPosition -> Z) p p' rows :
  NoDup (map p_id rows) -> In p rows -> p_id p' = p_id p ->
  sum_by f (put_row p' rows) = sum_by f rows - f p + f p'.
Proof.
  intros Hnd Hin Hid. induction rows as [|q rows IH]; [done|].
  simpl in Hnd. apply NoDup_cons in Hnd as [Hq Hnd]. rewrite list_elem_of_In in Hq.
  change (put_row p' (q :: rows)) with ((if p_id q =? p_id p' then p' else q) :: put_row p' rows).
  rewrite !sum_by_cons. destruct Hin as [-> | Hin].
  - rewrite Hid, Z.eqb_refl, put_row_absent by (by rewrite Hid). lia.
  - rewrite (proj2 (Z.eqb_neq _ _)), IH by (auto; intros E; apply Hq; rewrite E, Hid; by apply in_map). lia.
Qed.

(** A table whose ids are distinct is unchanged where the new row equals the old. *)
Lemma book_inv_update {B R : Type} (w w' : world B R) p :
  book_inv w -> pos_inv p -> p_id p < w_next_id w' -> w_next_id w <= w_next_id w' ->
  w_positions w' = put_row p (w_positions w) -> book_inv w'.
Proof.
  intros [Hids Hfr Hrows] Hp Hid Hn E. split; rewrite E.
  - by rewrite put_row_ids.
  - apply put_row_Forall; [done|]. eapply Forall_impl; [exact Hfr|]. simpl. intros. lia.
  - by apply put_row_Forall.
Qed.

Lemma book_inv_ext {B R : Type} (w w' : world B R) :
  book_inv w -> w_positions w' = w_positions w -> w_next_id w <= w_next_id w' -> book_inv w'.
Proof.
  intros [Hids Hfr Hrows] E Hn. split; rewrite E; auto.
  eapply Forall_impl; [exact Hfr|]. simpl. intros. lia.
Qed.

Lemma is_open_inv p : pos_inv p -> (is_open p = true <-> 0 < remaining_quantity p).
Proof.
  intros [Hb Hc _ _]. unfold is_open. rewrite orb_true_iff, !bool_decide_eq_true.
  assert (Hn : status p <> st_closed <-> 0 < remaining_quantity p) by (rewrite Hc; lia).
  rewrite <- Hn. destruct (status p); split; intuition discriminate.
Qed.

(** A row after [q] more units left it: everything gone closes it. *)
Definition after_exit (p p' : StrategyPosition) (q : Z) : Prop :=
  same_row p p' /\ total_quantity p' = total_quantity p
  /\ remaining_quantity p' = remaining_quantity p - q
  /\ status p' = (if 0 <? remaining_quantity p' then st_partial else st_closed).

Lemma after_exit_inv p p' q :
  pos_inv p -> 0 < q <= remaining_quantity p -> after_exit p p' q -> pos_inv p'.
Proof.
  intros [Hb Hc Hu Hs] Hq (Hrow & Ht & Hr & Hst).
  destruct (Z.ltb_spec 0 (remaining_quantity p')); split; try lia; rewrite ?Hst.
  - split; [done | lia].
  - done.
  - revert Hs. unfold side_ok. by rewrite (same_side _ _ Hrow).
  - split; [lia | done].
  - done.
  - revert Hs. unfold side_ok. by rewrite (same_side _ _ Hrow).
Qed.

Lemma NoDup_map_filter_ids (f : StrategyPosition -> bool) rows :
  NoDup (map p_id rows) -> NoDup (map p_id (List.filter f rows)).
Proof.
  induction rows as [|p rows IH]; simpl; [done|]. intros [Hp Hnd]%NoDup_cons.
  rewrite list_elem_of_In in Hp. destruct (f p); simpl; [|auto]. apply NoDup_cons. split; [|auto].
  rewrite list_elem_of_In. intros Hin. apply Hp. apply in_map_iff in Hin as (q & <- & Hq).
  apply filter_In in Hq as [Hq _]. by apply in_map.
Qed.

(** ** At most one open row per (strategy, symbol, side) within a subscription *)

Definition rivals (p q : StrategyPosition) : Prop :=
  p_strategy_id p = p_strategy_id q /\ p_symbol p = p_symbol q /\ p_side p = p_side q
  /\ p_subscription_id p = p_subscription_id q.

Definition one_open (rows : list StrategyPosition) : Prop :=
  forall p q, In p rows -> In q rows -> is_open p = true -> is_open q = true -> rivals p q -> p_id p = p_id q.

#[export] Instance rivals_equivalence : Equivalence rivals.
Proof. split; [done|..]; unfold rivals; [intros p q|intros p q r]; intuition congruence. Qed.

Lemma same_row_rivals p q : same_row p q -> rivals p q.
Proof. intros []. by repeat split. Qed.

(** Replacing a row by one that is open only if it was keeps the property. *)
Lemma one_open_put p p' rows :
  one_open rows -> In p rows -> same_row p p' -> (is_open p' = true -> is_open p = true) ->
  one_open (put_row p' rows).
Proof.
  intros Hone Hin Hrow Hop.
  assert (Hback : forall q, In q (put_row p' rows) -> is_open q = true ->
            exists q0, In q0 rows /\ is_open q0 = true /\ rivals q0 q /\ p_id q0 = p_id q).
  { intros q Hq Ho. apply put_row_In in Hq as [(-> & _) | (Hq & _)].
    - exists p. auto using same_row_rivals, same_id.
    - exists q. by repeat split. }
  intros a b Ha Hb Hoa Hob Hr.
  destruct (Hback a Ha Hoa) as (a0 & Ia & Oa & Ra & <-), (Hback b Hb Hob) as (b0 & Ib & Ob & Rb & <-).
  apply Hone; auto. rewrite Ra, Rb. done.
Qed.

Lemma one_open_snoc p rows :
  one_open rows -> (forall q, In q rows -> is_open q = true -> ~ rivals q p) -> one_open (rows ++ [p]).
Proof.
  intros Hone Hnew a b Ha Hb Hoa Hob Hr. rewrite in_app_iff in Ha, Hb. simpl in Ha, Hb.
  destruct Ha as [Ha | [<- | []]], Hb as [Hb | [<- | []]]; auto.
  - by destruct (Hnew a Ha Hoa).
  - destruct (Hnew b Hb Hob). by symmetry.
Qed.

Lemma book_inv_snoc {B R : Type} (w w' : world B R) p :
  book_inv w -> pos_inv p -> w_next_id w <= p_id p < w_next_id w' -> w_positions w' = w_positions w ++ [p] ->
  book_inv w'.
Proof.
  intros [Hids Hfr Hrows] Hp Hid E. split; rewrite E.
  - rewrite map_app. apply NoDup_app. split; [done|]. split; [|by apply NoDup_singleton].
    intros i. rewrite !list_elem_of_In. intros Hi [<- | []]. apply in_map_iff in Hi as (q & Eq & Hq).
    rewrite List.Forall_forall in Hfr. specialize (Hfr q Hq). simpl in Hfr. lia.
  - apply Forall_app. split; [|by constructor; [lia|]]. eapply Forall_impl; [exact Hfr|]. simpl. intros. lia.
  - apply Forall_app. split; [done|]. by constructor.
Qed.
