(* ===== verification/Ledger.v ===== *)
(** * The abstract ledger the positions table refines

    A ledger maps position ids to the quantity still open.  Its steps are what
    the program promises about exposure: a new position opens with a positive
    quantity, an open position grows by a positive quantity, an open position
    loses a positive quantity it has.  In particular a position at zero stays
    at zero.  [exposure] is the abstraction of a positions table. *)

From Stdlib Require Import ZArith Lia List Bool String.
From stdpp Require Import base list strings gmap relations.
From S2P Require Import Prelude PyDecimal PyNum Records Enums Models Book.

Abbreviation ledger := (gmap uuid Z).

Inductive ledger_step : ledger -> ledger -> Prop :=
| ledger_open l id q : l !! id = None -> 0 < q -> ledger_step l (<[id := q]> l)
| ledger_grow l id n q : l !! id = Some n -> 0 < n -> 0 < q -> ledger_step l (<[id := n + q]> l)
| ledger_leave l id n q : l !! id = Some n -> 0 < q <= n -> ledger_step l (<[id := n - q]> l).

Definition exposure (rows : list StrategyPosition) : ledger :=
  list_to_map (map (fun p => (p_id p, remaining_quantity p)) rows).

(** ** Properties of the ledger itself *)

Lemma ledger_step_nonneg l l' :
  ledger_step l l' -> map_Forall (fun _ n => 0 <= n) l -> map_Forall (fun _ n => 0 <= n) l'.
Proof. destruct 1; intros Hall; apply map_Forall_insert_2; auto; lia. Qed.

Lemma ledger_zero_step l l' id : ledger_step l l' -> l !! id = Some 0 -> l' !! id = Some 0.
Proof.
  destruct 1 as [l i q Hi Hq | l i n q Hi Hn Hq | l i n q Hi Hq]; intros Hz;
    (rewrite lookup_insert_ne; [done|]); intros ->; simplify_eq; lia.
Qed.

(** A closed position never re-opens. *)
Lemma ledger_zero_stays l l' id : rtc ledger_step l l' -> l !! id = Some 0 -> l' !! id = Some 0.
Proof. induction 1; eauto using ledger_zero_step. Qed.

(** Positions are never forgotten. *)
Lemma ledger_dom_grows l l' id : rtc ledger_step l l' -> is_Some (l !! id) -> is_Some (l' !! id).
Proof.
  induction 1 as [|l l1 l2 Hs _ IH]; [done|]. intros Hl. apply IH.
  destruct Hs; rewrite lookup_insert; by case_decide.
Qed.

(** ** The abstraction *)

Lemma map_fst_exposure rows :
  map fst (map (fun p => (p_id p, remaining_quantity p)) rows) = map p_id rows.
Proof. by rewrite map_map. Qed.

Lemma exposure_lookup rows p :
  NoDup (map p_id rows) -> In p rows -> exposure rows !! p_id p = Some (remaining_quantity p).
Proof.
  intros Hnd Hin. unfold exposure. apply elem_of_list_to_map_1.
  - change (fst <$> map (fun p => (p_id p, remaining_quantity p)) rows)
      with (map fst (map (fun p => (p_id p, remaining_quantity p)) rows)).
    by rewrite map_fst_exposure.
  - rewrite list_elem_of_In. apply in_map_iff. eauto.
Qed.

Lemma exposure_absent rows id : ~ In id (map p_id rows) -> exposure rows !! id = None.
Proof.
  intros Hn. unfold exposure. apply not_elem_of_list_to_map_1.
  change (fst <$> map (fun p => (p_id p, remaining_quantity p)) rows)
    with (map fst (map (fun p => (p_id p, remaining_quantity p)) rows)).
  by rewrite map_fst_exposure, list_elem_of_In.
Qed.

Lemma exposure_cons p rows : exposure (p :: rows) = <[p_id p := remaining_quantity p]> (exposure rows).
Proof. reflexivity. Qed.

Lemma exposure_put rows p p' :
  NoDup (map p_id rows) -> In p rows -> p_id p' = p_id p ->
  exposure (put_row p' rows) = <[p_id p := remaining_quantity p']> (exposure rows).
Proof.
  intros Hnd Hin Hid. induction rows as [|r rows IH]; [done|].
  simpl in Hnd. apply NoDup_cons in Hnd as [Hr Hnd]. rewrite list_elem_of_In in Hr.
  change (put_row p' (r :: rows)) with ((if p_id r =? p_id p' then p' else r) :: put_row p' rows).
  rewrite !exposure_cons. destruct Hin as [-> | Hin].
  - rewrite Hid, Z.eqb_refl, put_row_absent by (by rewrite Hid). rewrite Hid, insert_insert_eq. done.
  - assert (Hne : p_id r <> p_id p) by (intros E; apply Hr; rewrite E; by apply in_map).
    rewrite (proj2 (Z.eqb_neq _ _)) by congruence. rewrite IH by done. by rewrite insert_insert_ne.
Qed.

Lemma exposure_snoc rows p :
  ~ In (p_id p) (map p_id rows) -> exposure (rows ++ [p]) = <[p_id p := remaining_quantity p]> (exposure rows).
Proof.
  induction rows as [|r rows IH]; intros Hn; [done|]. simpl in Hn. simpl. rewrite !exposure_cons, IH by tauto.
  rewrite insert_insert_ne; [done|]. intros E. apply Hn. auto.
Qed.

(** A row that lost some quantity (or none). *)
Lemma exposure_leave rows p p' :
  NoDup (map p_id rows) -> In p rows -> p_id p' = p_id p ->
  0 <= remaining_quantity p' <= remaining_quantity p ->
  rtc ledger_step (exposure rows) (exposure (put_row p' rows)).
Proof.
  intros Hnd Hin Hid Hr. rewrite (exposure_put rows p) by done.
  pose proof (exposure_lookup rows p Hnd Hin) as Hl.
  destruct (Z.eq_dec (remaining_quantity p') (remaining_quantity p)) as [E|E].
  - rewrite E, insert_id by done. apply rtc_refl.
  - apply rtc_once. replace (remaining_quantity p')
      with (remaining_quantity p - (remaining_quantity p - remaining_quantity p')) by lia.
    apply ledger_leave; [done | lia].
Qed.
