(* ===== verification/Samples.v ===== *)
(** * Concrete instances

    A scripted broker (it answers every call from a fixed record), the identity
    cipher and a few rows: the instances at which the theorems of the service
    files are evaluated. *)

From Stdlib Require Import ZArith List Bool String.
From stdpp Require Import base list strings gmap.
From S2P Require Import Prelude SymbolMatch PyFloat PyDecimal PyNum Records Enums Models.

Record ScriptedBroker : Type := {
  sb_session : bool;
  sb_lot_size : option Z;
  sb_funds : dec;
  sb_ltp : dec;
  sb_ack : OrderStatus;
  sb_fill_status : OrderStatus;
  sb_filled : Z;
  sb_avg_price : option dec;
  sb_timed_out : bool;
  sb_positions : list broker_row
}.

#[export] Instance ScriptedBroker_eta : Eta ScriptedBroker := fun b =>
  {| sb_session := sb_session b; sb_lot_size := sb_lot_size b; sb_funds := sb_funds b; sb_ltp := sb_ltp b;
     sb_ack := sb_ack b; sb_fill_status := sb_fill_status b; sb_filled := sb_filled b;
     sb_avg_price := sb_avg_price b; sb_timed_out := sb_timed_out b;
     sb_positions := sb_positions b |}.

#[export] Instance scripted_broker : BrokerInterface ScriptedBroker := {
  is_session_valid _ b := (Ok (sb_session b), b);
  login _ b := (Ok tt, b <| sb_session := true |>);
  validate_symbol _ _ _ b := (Ok tt, b);
  get_lot_size := Some (fun _ _ _ b => (Ok (sb_lot_size b), b));
  get_funds _ b := (Ok (sb_funds b), b);
  place_order _ _ b := (Ok {| r_broker_order_id := "11"; r_status := sb_ack b; r_message := "" |}, b);
  confirm_fill _ oid _ b :=
    (Ok {| f_broker_order_id := oid; f_order_status := sb_fill_status b; f_raw_status := "TRADED";
           f_filled_qty := sb_filled b; f_avg_price := sb_avg_price b; f_reason := None;
           f_timed_out := sb_timed_out b |}, b);
  get_quote_ltp _ _ _ b := (Ok (sb_ltp b), b);
  get_positions _ b := (Ok (Some (map Some (sb_positions b))), b);
  broker_normalize_symbol _ s _ := Ok s;
  resting_orders := None
}.

#[export] Instance identity_cipher : Decryptor := Some.

Definition sample_broker : ScriptedBroker :=
  {| sb_session := false; sb_lot_size := Some 375; sb_funds := Dec 900000 0; sb_ltp := Dec 2400 0;
     sb_ack := PENDING; sb_fill_status := COMPLETE; sb_filled := 750; sb_avg_price := Some (Dec 24155 (-1));
     sb_timed_out := false; sb_positions := [] |}.

Definition sample_credential : BrokerCredential :=
  {| c_id := 5; c_user_id := 1; c_broker_name := DHAN; c_client_id_enc := "c"; c_api_key_enc := "k";
     c_api_secret_enc := "s"; c_access_token_enc := Some "t"; c_refresh_token_enc := None; c_is_active := true;
     c_created_at := 10 |}.

Definition sample_strategy : Strategy :=
  {| s_id := 2; s_user_id := 1; s_broker_credential_id := Some 5; entry_lots := 4; partial_profit_lots := 1;
     partial_profit_target_pct := None; trail_offset_pct := None; hard_sl_pct := None;
     ai_validation_enabled := false; exit_strategy_type := "internal"; strategy_json := None; is_paper := Some false; s_is_active := true; s_webhook_token_id := None;
     allowed_symbols := [] |}.

(** A long position of two lots of 375 at 2400, target 2450, stop 2300, trail 40. *)
Definition sample_position : StrategyPosition :=
  {| p_id := 20; p_user_id := 1; p_strategy_id := 2; p_broker_credential_id := 5; p_signal_id := Some 9;
     p_subscription_id := None; p_symbol := "BSE-AUG2026-FUT"; p_side := "buy"; total_quantity := 750;
     remaining_quantity := 750; avg_entry_price := Some (Dec 2400 0); target_price := Some (Dec 2450 0);
     stop_loss_price := Some (Dec 2300 0); trail_offset := Some (Dec 40 0);
     highest_price_seen := Some (Dec 2400 0); best_price := None; current_atr := None;
     circuit_breaker_triggered := false; exit_reason := None; status := st_open; last_action := Some "entry";
     last_action_at := Some 90; action_history := []; opened_at := 90; closed_at := None; final_pnl := None |}.

Definition sample_entry (leg : Z) : StrategyExecution :=
  {| x_id := 30 + leg; x_signal_id := 9; x_subscription_id := None; x_broker_credential_id := 5; x_leg_number := leg; x_leg_role := "entry";
     x_symbol := "BSE-AUG2026-FUT"; x_side := "buy"; x_quantity := 375; x_order_type := MARKET;
     x_price := Some (Dec 2400 0); x_broker_order_id := "10"; x_broker_status := None; x_placed_at := 90;
     x_completed_at := None |}.

Definition sample_world : world ScriptedBroker store :=
  {| w_positions := [sample_position]; w_executions := [sample_entry 1; sample_entry 2];
     w_credentials := [sample_credential]; w_strategies := [sample_strategy];
     w_platform := empty_platform; w_redis := []; w_alerts := [];
     w_broker := sample_broker; w_orders := []; w_now := 100; w_next_id := 1000 |}.

Definition sample_settings : Settings :=
  {| strategy_paper_mode := false; pre_trade_margin_per_lot_inr := Dec 50000 0;
     marketplace_fanout_enabled := true; subscriber_drift_enabled := true; reconciliation_telegram_enabled := false;
     webhook_require_hmac := false; tradingview_trusted_ips := []; market_shield_enabled := false;
     black_swan_shield_enabled := false; anomaly_z_threshold := float_of_decimal 25 (-1);
     anomaly_composite_threshold := float_of_decimal 70 0; anomaly_block_bars := 4; options_execution_enabled := false;
     cash_execution_enabled := false; use_regime_detection := false; futures_expiry_backstop_enabled := false;
     trade_dna_enabled := false; trade_dna_min_history := 20; trade_dna_top_k := 10; trade_dna_lookback_days := 30;
     trade_dna_winner_threshold_inr := float_of_decimal 500 0; trade_dna_cache_ttl_secs := 1800; probability_engine_enabled := false;
     probability_dna_weight := float_of_decimal 4 (-1); probability_cascade_weight := float_of_decimal 3 (-1);
     probability_anomaly_penalty_factor := float_of_decimal 3 (-1); probability_clamp_min := float_of_decimal 5 0;
     probability_clamp_max := float_of_decimal 95 0 |}.

(** A 750-contract long entry alert. *)
Definition sample_signal : StrategySignal :=
  {| g_id := 40; g_user_id := 1; g_strategy_id := 2;
     raw_payload := <["side"%string := JStr "long"]> (<["price"%string := JInt 2400]> ∅);
     g_symbol := "BSE-AUG2026-FUT"; g_action := "ENTRY"; g_quantity := Some 750; g_order_type := "market"; g_ai_decision := None;
     g_status := sg_received; g_received_at := 0 |}.

Definition empty_world : world ScriptedBroker store := sample_world <| w_positions := [] |> <| w_executions := [] |>.
