(* ===== verification/PositionManager.v ===== *)
(** * Position manager (backend/app/services/position_manager.py)

    The trailing-stop / partial-profit / hard-stop state machine run on every
    open position.  [apply_tick] is one price observation on one row,
    [manage_open_positions] one pass over all open rows, [close_position_now]
    the forced close.  The random draw of the paper price walk is an argument
    ([uniform]); everything else of [simulate_paper_ltp] is computed as the code
    does, in doubles. *)

From Stdlib Require Import ZArith Lia List Bool String SpecFloat.
From stdpp Require Import base list strings gmap relations.
From S2P Require Import Prelude PyText PyFloat PyDecimal PyNum Records Enums Models Book Ledger Samples.

Record TickOutcome : Type := {
  t_position_id : uuid;
  triggered : list string;
  t_closed : bool
}.

(** ** Price tests *)

Definition CIRCUIT_BREAKER_ATR_MULTIPLIER : dec := Dec 30 (-1).
Definition PAPER_ATR_FRAC : dec := Dec 1 (-2).

Definition hits_target (ltp target : dec) (side : OrderSide) : bool :=
  match side with BUY => dleb target ltp | SELL => dleb ltp target end.

Definition hits_stop (ltp stop : dec) (side : OrderSide) : bool :=
  match side with BUY => dleb ltp stop | SELL => dleb stop ltp end.

Definition trail_triggered (ltp high offset : dec) (side : OrderSide) : bool :=
  match side with
  | BUY => dleb ltp (dsub high offset)
  | SELL => dleb (dadd high offset) ltp
  end.

Definition circuit_breaker_fires (p : StrategyPosition) (ltp : dec) (side : OrderSide) : bool :=
  match avg_entry_price p, current_atr p with
  | Some entry, Some atr =>
      if dleb atr dzero then false
      else
        let threshold := dmul atr CIRCUIT_BREAKER_ATR_MULTIPLIER in
        match side with
        | BUY => dltb threshold (dsub entry ltp)
        | SELL => dltb threshold (dsub ltp entry)
        end
  | _, _ => false
  end.

Definition partial_already_booked (p : StrategyPosition) : bool :=
  remaining_quantity p <? total_quantity p.

(** Best price seen so far, direction-aware. *)
Definition next_best (side : OrderSide) (seen : option dec) (ltp : dec) : dec :=
  match seen with
  | None => ltp
  | Some h =>
      match side with
      | BUY => if dltb h ltp then ltp else h
      | SELL => if dltb ltp h then ltp else h
      end
  end.

(** P&L on the exited slice; [None] stands for InvalidOperation in quantize. *)
Definition compute_pnl (side : OrderSide) (entry : option dec) (ltp : dec) (qty : Z) : option dec :=
  match entry with
  | None => Some dzero
  | Some e =>
      if is_dzero e then Some dzero
      else
        let per_share := match side with BUY => dsub ltp e | SELL => dsub e ltp end in
        dquantize half_even (dmul per_share (dec_of_Z qty)) (-2)
  end.

Definition exit_alert_level (event : string) : AlertLevel :=
  if String.eqb event "partial_target" then SUCCESS
  else if String.eqb event "hard_sl" then WARNING
  else if String.eqb event "circuit_breaker" then CRITICAL
  else INFO.

(** ** Paper price walk *)

Definition f_add (x y : float64) : float64 := SFadd fprec femax x y.
Definition f_one : float64 := f_of_Z 1.
Definition PAPER_TARGET_DRIFT_FRAC : float64 := float_of_decimal 4 (-1).
Definition STRATEGY_PAPER_LTP_VOLATILITY : float64 := float_of_decimal 1 (-3).

Inductive drift_bias : Type := BiasUp | BiasDown | BiasNeutral.

Definition float_of_dec (d : dec) : float64 :=
  let x := float_of_decimal (Z.abs (coef d)) (expo d) in if coef d <? 0 then f_neg x else x.

(** [round(x, 4)] of a finite double. *)
Definition f_round4 (x : float64) : float64 :=
  match x with
  | S754_finite s m e =>
      let '(n, d) := frac_of m e in
      let y := float_of_decimal (round_to n d (-4)) (-4) in if s then f_neg y else y
  | _ => x
  end.

(** [a or b] on optional decimals: zero is falsy. *)
Definition dec_or (a b : option dec) : option dec :=
  match a with
  | Some d => if is_dzero d then b else a
  | None => b
  end.

Definition paper_drift (p : StrategyPosition) (side : OrderSide) (base : dec) (bias : drift_bias) (vol : float64)
  : float64 :=
  let step (up : bool) := f_mul (f_mul PAPER_TARGET_DRIFT_FRAC vol) (if up then f_one else f_neg f_one) in
  match bias, target_price p, stop_loss_price p with
  | BiasUp, Some target, _ =>
      let target_above := dltb base target in
      match side with BUY => step target_above | SELL => step (negb target_above) end
  | BiasDown, _, Some stop =>
      let sl_below := dltb stop base in
      match side with BUY => step (negb sl_below) | SELL => step sl_below end
  | _, _, _ => f_zero
  end.

(** The next paper price; [uniform] is the draw in [-1, 1].  [None] where the
    side is not a valid enum value, or the price is not finite. *)
Definition simulate_paper_ltp (p : StrategyPosition) (uniform vol : float64) (bias : drift_bias) : option dec :=
  match dec_or (dec_or (best_price p) (highest_price_seen p)) (avg_entry_price p) with
  | None => Some dzero
  | Some base =>
      match OrderSide_of (p_side p) with
      | None => None
      | Some side =>
          let walk := f_mul uniform vol in
          let drift := paper_drift p side base bias vol in
          dec_of_float (f_round4 (f_mul (float_of_dec base) (f_add (f_add f_one walk) drift)))
      end
  end.

Section Manager.
Context {B R : Type} `{BrokerInterface B} `{Decryptor}.
Context (settings : Settings).

(** ** Booking an exit *)

Definition book_exit (p : StrategyPosition) (side : OrderSide) (ltp : dec) (quantity : Z) (leg_role : string)
  : M B R StrategyExecution :=
  sid ← match p_signal_id p with Some s => mret s | None => fresh end;
  oid ← fresh;
  xid ← fresh;
  now ← gets w_now;
  let row := {| x_id := xid; x_signal_id := sid; x_subscription_id := None; x_broker_credential_id := p_broker_credential_id p;
                x_leg_number := 0; x_leg_role := leg_role; x_symbol := p_symbol p;
                x_side := side_value (opposite side); x_quantity := quantity; x_order_type := MARKET;
                x_price := Some ltp; x_broker_order_id := String.append "PAPER-EXIT-" (z_str oid);
                x_broker_status := Some COMPLETE; x_placed_at := now; x_completed_at := Some now |} in
  add_execution row ;;
  mret row.

Definition alert_exit (event : string) (p : StrategyPosition) (side : OrderSide) (ltp : dec) (exited_qty : Z)
  : M B R unit :=
  match compute_pnl side (avg_entry_price p) ltp exited_qty with
  | None => raise InvalidOperation
  | Some pnl =>
      send_alert {| a_level := exit_alert_level event; a_event := event; a_symbol := p_symbol p;
                    a_qty := exited_qty; a_remaining := remaining_quantity p; a_price := Some ltp;
                    a_pnl := Some pnl; a_legs := [] |}
  end.

(** Partial-profit size in contracts: lots times the first entry leg's size. *)
Definition strategy_partial_contracts (p : StrategyPosition) : M B R Z :=
  strategies ← gets w_strategies;
  match find (fun s => s_id s =? p_strategy_id p) strategies with
  | None => mret 0
  | Some s =>
      if partial_profit_lots s <=? 0 then mret 0
      else
        rows ← gets w_executions;
        match find (fun x => bool_decide (Some (x_signal_id x) = p_signal_id p)
                             && String.eqb (x_leg_role x) "entry") rows with
        | None => mret 0
        | Some entry_row =>
            if x_quantity entry_row <=? 0 then mret 0
            else mret (partial_profit_lots s * x_quantity entry_row)
        end
  end.

(** Book an exit of [q] units, leave the row as [p'], alert. *)
Definition exit_with (p p' : StrategyPosition) (side : OrderSide) (ltp : dec) (q : Z) (role : string) : M B R unit :=
  _ ← book_exit p side ltp q role;
  save_position p' ;;
  alert_exit role p' side ltp q.

(** Close everything that is left, in one exit ([hard_sl], [circuit_breaker],
    [trailing_sl]). *)
Definition exit_all (p : StrategyPosition) (side : OrderSide) (ltp : dec) (role : string)
  : M B R StrategyPosition :=
  now ← gets w_now;
  let p' := p <| remaining_quantity := 0 |> <| status := st_closed |>
              <| circuit_breaker_triggered ::= orb (String.eqb role "circuit_breaker") |>
              <| exit_reason := Some role |> <| closed_at := Some now |> in
  exit_with p p' side ltp (remaining_quantity p) role ;;
  mret p'.

(** Book the partial profit once, when the target is hit. *)
Definition partial_step (p : StrategyPosition) (side : OrderSide) (ltp : dec)
  : M B R (StrategyPosition * list string) :=
  match target_price p with
  | Some target =>
      if hits_target ltp target side && negb (partial_already_booked p) then
        lots ← strategy_partial_contracts p;
        let partial_qty := Z.min (remaining_quantity p) lots in
        if 0 <? partial_qty then
          let left := remaining_quantity p - partial_qty in
          let p' := p <| remaining_quantity := left |>
                      <| status := if 0 <? left then st_partial else st_closed |> in
          exit_with p p' side ltp partial_qty "partial_target" ;;
          mret (p', ["partial_target"])
        else mret (p, [])
      else mret (p, [])
  | None => mret (p, [])
  end.

Definition trail_step (p : StrategyPosition) (side : OrderSide) (ltp : dec) (done_so_far : list string)
  : M B R (StrategyPosition * list string) :=
  match trail_offset p, highest_price_seen p with
  | Some offset, Some high =>
      if (0 <? remaining_quantity p) && trail_triggered ltp high offset side then
        p' ← exit_all p side ltp "trailing_sl";
        mret (p', done_so_far ++ ["trailing_sl"])
      else mret (p, done_so_far)
  | _, _ => mret (p, done_so_far)
  end.

(** Update the best price and lazily seed the ATR. *)
Definition observe (p : StrategyPosition) (side : OrderSide) (ltp : dec) : M B R StrategyPosition :=
  let best := next_best side (highest_price_seen p) ltp in
  let p := p <| highest_price_seen := Some best |> <| best_price := Some best |> in
  match current_atr p, avg_entry_price p with
  | None, Some entry =>
      match dquantize half_even (dmul entry PAPER_ATR_FRAC) (-4) with
      | Some atr => mret (p <| current_atr := Some atr |>)
      | None => raise InvalidOperation
      end
  | _, _ => mret p
  end.

Definition outcome (p : StrategyPosition) (trig : list string) (closed : bool) : TickOutcome :=
  {| t_position_id := p_id p; triggered := trig; t_closed := closed |}.

(** Hard stop, circuit breaker, partial profit, trailing stop, in this order. *)
Definition exit_rules (p : StrategyPosition) (side : OrderSide) (ltp : dec) : M B R TickOutcome :=
  if opt_is (fun stop => hits_stop ltp stop side) (stop_loss_price p) then
    p' ← exit_all p side ltp "hard_sl";
    mret (outcome p' ["hard_sl"] true)
  else if circuit_breaker_fires p ltp side then
    p' ← exit_all p side ltp "circuit_breaker";
    mret (outcome p' ["circuit_breaker"] true)
  else
    '(p1, trig) ← partial_step p side ltp;
    '(p2, trig) ← trail_step p1 side ltp trig;
    mret (outcome p2 trig (bool_decide (status p2 = st_closed))).

(** One price observation on one position. *)
Definition apply_tick (position : StrategyPosition) (ltp : dec) : M B R TickOutcome :=
  match OrderSide_of (p_side position) with
  | None => raise ValueError
  | Some side =>
      p ← observe position side ltp;
      save_position p ;;
      exit_rules p side ltp
  end.

Definition parse_side (v : string) : M B R OrderSide :=
  match OrderSide_of v with Some side => mret side | None => raise ValueError end.

(** Forced close: a row with nothing left is only marked closed (the returned
    row is not stored); otherwise everything left is booked out. *)
Definition close_position_now (position : StrategyPosition) (reason : string) (ltp : option dec)
  : M B R StrategyExecution :=
  now ← gets w_now;
  if remaining_quantity position <=? 0 then
    save_position (position <| status := st_closed |> <| closed_at := Some now |>) ;;
    sid ← match p_signal_id position with Some s => mret s | None => fresh end;
    side ← parse_side (p_side position);
    mret {| x_id := 0; x_signal_id := sid; x_subscription_id := None; x_broker_credential_id := p_broker_credential_id position;
            x_leg_number := 0; x_leg_role := reason; x_symbol := p_symbol position;
            x_side := side_value (opposite side); x_quantity := 0; x_order_type := MARKET;
            x_price := None; x_broker_order_id := "NOOP"; x_broker_status := None;
            x_placed_at := now; x_completed_at := None |}
  else
    let exit_price := default dzero (dec_or ltp (dec_or (avg_entry_price position) (Some dzero))) in
    side ← parse_side (p_side position);
    ex ← book_exit position side exit_price (remaining_quantity position) reason;
    save_position (position <| remaining_quantity := 0 |> <| status := st_closed |>
                            <| closed_at := Some now |>) ;;
    mret ex.

(** ** One pass over the open positions *)

(** Live price lookup on the position's own credential; no row, no price. *)
Definition fetch_ltp (p : StrategyPosition) (price_provider : option (string -> B -> result exn (option dec) * B))
  : M B R (option dec) :=
  creds ← gets w_credentials;
  match find (fun c => c_id c =? p_broker_credential_id p) creds with
  | None => mret None
  | Some cred_row =>
      k ← from_result (build_broker_credentials cred_row (p_user_id p));
      ensure_session k ;;
      match price_provider with
      | Some provider => on_broker (provider (p_symbol p))
      | None => ltp ← on_broker (get_quote_ltp k (p_symbol p) NFO); mret (Some ltp)
      end
  end.

Definition exit_type_of (strategies : list Strategy) (sid : uuid) : string :=
  match find (fun s => s_id s =? sid) strategies with
  | Some s => exit_strategy_type s
  | None => "internal"
  end.

(** The price of one position, with broker errors turned into "skip". *)
Definition price_for (p : StrategyPosition) (uniform : StrategyPosition -> float64) (bias : drift_bias)
    (price_provider : option (string -> B -> result exn (option dec) * B)) : M B R (option dec) := fun w =>
  if strategy_paper_mode settings && absent price_provider then
    match simulate_paper_ltp p (uniform p) STRATEGY_PAPER_LTP_VOLATILITY bias with
    | Some ltp => (Ok (Some ltp), w)
    | None => (Err ValueError, w)
    end
  else
    match fetch_ltp p price_provider w with
    | (Err (BrokerError _), w') => (Ok None, w')
    | r => r
    end.

Fixpoint manage_rows (rows : list StrategyPosition) (uniform : StrategyPosition -> float64) (bias : drift_bias)
    (price_provider : option (string -> B -> result exn (option dec) * B)) : M B R (list TickOutcome) :=
  match rows with
  | [] => mret []
  | p :: rows' =>
      strategies ← gets w_strategies;
      if String.eqb (exit_type_of strategies (p_strategy_id p)) "direct_exit"
      then manage_rows rows' uniform bias price_provider
      else
        price ← price_for p uniform bias price_provider;
        match price with
        | None => manage_rows rows' uniform bias price_provider
        | Some ltp =>
            o ← apply_tick p ltp;
            os ← manage_rows rows' uniform bias price_provider;
            mret (o :: os)
        end
  end.

Definition manage_open_positions (uniform : StrategyPosition -> float64) (bias : drift_bias)
    (price_provider : option (string -> B -> result exn (option dec) * B)) : M B R (list TickOutcome) :=
  rows ← gets (fun w => List.filter (fun p => is_open p && owner_row p) (w_positions w));
  manage_rows rows uniform bias price_provider.
End Manager.

(** ** The exit rules as a step relation

    One step books one exit of an open row at price [ltp]; the guards make the
    priority explicit: hard stop, then circuit breaker, then the partial profit
    (once, [lots] contracts at most), then the trailing stop. *)

Definition stop_hit (side : OrderSide) (ltp : dec) (p : StrategyPosition) : bool :=
  opt_is (fun stop => hits_stop ltp stop side) (stop_loss_price p).

Definition partial_due (lots : Z) (side : OrderSide) (ltp : dec) (p : StrategyPosition) : Z :=
  if opt_is (fun target => hits_target ltp target side) (target_price p)
     && (remaining_quantity p =? total_quantity p)
  then Z.max 0 (Z.min (remaining_quantity p) lots) else 0.

Definition trail_due (side : OrderSide) (ltp : dec) (p : StrategyPosition) : bool :=
  match trail_offset p, highest_price_seen p with
  | Some offset, Some high => trail_triggered ltp high offset side
  | _, _ => false
  end.

Definition closed_row (role : string) (now : datetime) (p : StrategyPosition) : StrategyPosition :=
  p <| remaining_quantity := 0 |> <| status := st_closed |>
    <| circuit_breaker_triggered ::= orb (String.eqb role "circuit_breaker") |>
    <| exit_reason := Some role |> <| closed_at := Some now |>.

Definition partial_row (q : Z) (p : StrategyPosition) : StrategyPosition :=
  p <| remaining_quantity := remaining_quantity p - q |>
    <| status := if 0 <? remaining_quantity p - q then st_partial else st_closed |>.

Inductive exit_step (lots : Z) (side : OrderSide) (ltp : dec) (now : datetime)
  : StrategyPosition -> string * Z -> StrategyPosition -> Prop :=
| step_hard_sl p :
    0 < remaining_quantity p -> stop_hit side ltp p = true ->
    exit_step lots side ltp now p ("hard_sl", remaining_quantity p) (closed_row "hard_sl" now p)
| step_circuit_breaker p :
    0 < remaining_quantity p -> stop_hit side ltp p = false -> circuit_breaker_fires p ltp side = true ->
    exit_step lots side ltp now p ("circuit_breaker", remaining_quantity p) (closed_row "circuit_breaker" now p)
| step_partial p :
    stop_hit side ltp p = false -> circuit_breaker_fires p ltp side = false ->
    0 < partial_due lots side ltp p ->
    exit_step lots side ltp now p ("partial_target", partial_due lots side ltp p)
      (partial_row (partial_due lots side ltp p) p)
| step_trailing_sl p :
    0 < remaining_quantity p -> stop_hit side ltp p = false -> circuit_breaker_fires p ltp side = false ->
    partial_due lots side ltp p = 0 -> trail_due side ltp p = true ->
    exit_step lots side ltp now p ("trailing_sl", remaining_quantity p) (closed_row "trailing_sl" now p).

Inductive exit_run (lots : Z) (side : OrderSide) (ltp : dec) (now : datetime)
  : StrategyPosition -> list (string * Z) -> StrategyPosition -> Prop :=
| run_done p : exit_run lots side ltp now p [] p
| run_more p e p1 es p2 :
    exit_step lots side ltp now p e p1 -> exit_run lots side ltp now p1 es p2 ->
    exit_run lots side ltp now p (e :: es) p2.

(** No rule applies any more. *)
Definition quiescent (lots : Z) (side : OrderSide) (ltp : dec) (now : datetime) (p : StrategyPosition) : Prop :=
  forall e p', ~ exit_step lots side ltp now p e p'.

(** The row once the price is observed: only the best price and the lazily
    seeded ATR differ. *)
Definition observed (side : OrderSide) (ltp : dec) (p p1 : StrategyPosition) : Prop :=
  exists atr, (is_Some (current_atr p) -> atr = current_atr p)
  /\ p1 = p <| highest_price_seen := Some (next_best side (highest_price_seen p) ltp) |>
            <| best_price := Some (next_best side (highest_price_seen p) ltp) |>
            <| current_atr := atr |>.

(** [a] is a price at least as favourable as [b] for the position's side. *)
Definition as_good (side : OrderSide) (a b : dec) : bool :=
  match side with BUY => dleb b a | SELL => dleb a b end.

Lemma next_best_extreme side seen ltp :
  let best := next_best side seen ltp in
  as_good side best ltp = true /\ (forall h, seen = Some h -> as_good side best h = true)
  /\ (best = ltp \/ seen = Some best).
Proof.
  assert (Hge : forall a b, dltb a b = false -> dleb b a = true).
  { intros a b. rewrite dltb_negb_dleb. apply negb_false_iff. }
  destruct seen as [h|], side; simpl; try (split; [apply dleb_refl | split; [done | by left]]);
    (destruct (dltb _ _) eqn:E; simpl);
    (split; [auto using dleb_refl|]); (split; [intros ? [= <-]; auto using dleb_refl, dltb_dleb | auto]).
Qed.

(** The execution row that books the exit [e] of position [p]. *)
Record booked (p : StrategyPosition) (side : OrderSide) (ltp : dec) (e : string * Z) (x : StrategyExecution)
  : Prop := {
  bk_role : x_leg_role x = fst e;
  bk_qty : x_quantity x = snd e;
  bk_side : x_side x = side_value (opposite side);
  bk_symbol : x_symbol x = p_symbol p;
  bk_price : x_price x = Some ltp;
  bk_signal : forall s, p_signal_id p = Some s -> x_signal_id x = s
}.

(** ** What each operation does to the world *)

Section Effects.
Context {B R : Type} `{BrokerInterface B} `{Decryptor}.
Implicit Types (w : world B R) (p : StrategyPosition).

(** The tables after the exits [es] of [p] left it as [p']. *)
Record exits_applied (p : StrategyPosition) (side : OrderSide) (ltp : dec) (es : list (string * Z))
    (p' : StrategyPosition) (w w' : world B R) : Prop := {
  ea_rows : w_positions w' = put_row p' (w_positions w);
  ea_booked : exists rows, w_executions w' = w_executions w ++ rows /\ Forall2 (booked p side ltp) es rows;
  ea_env : same_env w w'
}.

Lemma exits_applied_app p side ltp es1 es2 p1 p2 w w1 w2 :
  p_id p1 = p_id p2 ->
  exits_applied p side ltp es1 p1 w w1 -> exits_applied p side ltp es2 p2 w1 w2 ->
  exits_applied p side ltp (es1 ++ es2) p2 w w2.
Proof.
  intros Hid [Hr1 (xs & Hx1 & Hb1) He1] [Hr2 (ys & Hx2 & Hb2) He2]. split.
  - rewrite Hr2, Hr1. by apply put_row_twice.
  - exists (xs ++ ys). rewrite Hx2, Hx1, app_assoc. split; [done|]. by apply Forall2_app.
  - by transitivity w1.
Qed.

Lemma booked_same p q side ltp e x :
  p_symbol p = p_symbol q -> p_signal_id p = p_signal_id q -> booked p side ltp e x -> booked q side ltp e x.
Proof. intros E1 E2 []. split; rewrite <- ?E1, <- ?E2; auto. Qed.

Lemma exits_applied_same p q side ltp es p' w w' :
  p_symbol p = p_symbol q -> p_signal_id p = p_signal_id q ->
  exits_applied p side ltp es p' w w' -> exits_applied q side ltp es p' w w'.
Proof.
  intros E1 E2 [Hr (xs & Hx & Hb) He]. split; [done| |done]. exists xs. split; [done|].
  eapply Forall2_impl; [exact Hb|]. intros e x. by apply booked_same.
Qed.

Lemma save_position_spec p w :
  exists w1, save_position p w = (Ok tt, w1) /\ w_positions w1 = put_row p (w_positions w)
             /\ w_executions w1 = w_executions w /\ same_env w w1.
Proof. eexists. split; [reflexivity|]. simpl_rec. split; [done|]. split; [done|]. by split. Qed.

Lemma book_exit_spec p side ltp q role w :
  exists x w1, book_exit p side ltp q role w = (Ok x, w1) /\ booked p side ltp (role, q) x
               /\ w_positions w1 = w_positions w /\ w_executions w1 = w_executions w ++ [x] /\ same_env w w1.
Proof.
  unfold book_exit. destruct (p_signal_id p) as [s|] eqn:Es; cbv [mbind M_bind mret M_ret fresh gets add_execution modify];
    (do 2 eexists; split; [reflexivity|]; split; [split; simpl; try done; intros; congruence|]);
    simpl_rec; (split; [done|]); (split; [done|]); split; simpl; lia || done.
Qed.

Lemma alert_exit_spec event p side ltp q w r w' :
  alert_exit event p side ltp q w = (r, w') ->
  (r = Ok tt \/ r = Err InvalidOperation)
  /\ w_positions w' = w_positions w /\ w_executions w' = w_executions w /\ same_env w w'.
Proof.
  unfold alert_exit. destruct (compute_pnl _ _ _ _); cbv [send_alert modify raise]; intros [= <- <-];
    simpl_rec; (split; [auto|]); (split; [done|]); (split; [done|]); by split.
Qed.

Lemma exit_with_spec p p' side ltp q role w r w' :
  exit_with p p' side ltp q role w = (r, w') ->
  (r = Ok tt \/ r = Err InvalidOperation) /\ exits_applied p side ltp [(role, q)] p' w w'.
Proof.
  unfold exit_with.
  destruct (book_exit_spec p side ltp q role w) as (x & w1 & E1 & Hb & Hp1 & Hx1 & He1).
  unfold mbind at 1, M_bind at 1. rewrite E1.
  destruct (save_position_spec p' w1) as (w2 & E2 & Hp2 & Hx2 & He2).
  unfold mbind, M_bind. rewrite E2. intros E.
  apply alert_exit_spec in E as (Hr & Hp3 & Hx3 & He3). split; [done|]. split.
  - by rewrite Hp3, Hp2, Hp1.
  - exists [x]. rewrite Hx3, Hx2, Hx1. split; [done|]. constructor; [done | constructor].
  - by do 2 (etransitivity; [eassumption|]).
Qed.

(** The same followed by a return. *)
Lemma exit_with_ret {A : Type} (a : A) p p' side ltp q role w r w' :
  (exit_with p p' side ltp q role ;; mret a) w = (r, w') ->
  (r = Ok a \/ r = Err InvalidOperation) /\ exits_applied p side ltp [(role, q)] p' w w'.
Proof.
  unfold mbind, M_bind. destruct (exit_with _ _ _ _ _ _ _) as [r1 w1] eqn:E1.
  apply exit_with_spec in E1 as [[-> | ->] Hea]; intros [= <- <-]; auto.
Qed.

Lemma exit_all_spec p side ltp role w r w' :
  exit_all p side ltp role w = (r, w') ->
  (r = Ok (closed_row role (w_now w) p) \/ r = Err InvalidOperation)
  /\ exits_applied p side ltp [(role, remaining_quantity p)] (closed_row role (w_now w) p) w w'.
Proof. exact (exit_with_ret (closed_row role (w_now w) p) _ _ _ _ _ _ _ _ _). Qed.

(** The contracts a partial exit may take: a read of two tables. *)
Lemma strategy_partial_contracts_read p w :
  exists lots, 0 <= lots /\
    forall p' w', p_strategy_id p' = p_strategy_id p -> p_signal_id p' = p_signal_id p ->
      w_strategies w' = w_strategies w -> w_executions w' = w_executions w ->
      strategy_partial_contracts p' w' = (Ok lots, w').
Proof.
  destruct (strategy_partial_contracts p w) as [r w1] eqn:E.
  assert (exists lots, 0 <= lots /\ r = Ok lots) as (lots & Hl & ->).
  { revert E. unfold strategy_partial_contracts. cbv [mbind M_bind gets mret M_ret].
    repeat split_match; intros [= <- <-]; try (by exists 0). bool_to_prop. eexists. split; [|reflexivity]. nia. }
  exists lots. split; [done|]. intros p' w' E1 E2 E3 E4. revert E. unfold strategy_partial_contracts.
  cbv [mbind M_bind gets mret M_ret]. rewrite E1, E2, E3. repeat (split_match; cbn beta iota; rewrite ?E4); by intros [= <- _].
Qed.

Lemma partial_due_guard lots side ltp p :
  remaining_quantity p <= total_quantity p ->
  partial_due lots side ltp p
  = if opt_is (fun target => hits_target ltp target side) (target_price p) && negb (partial_already_booked p)
    then Z.max 0 (Z.min (remaining_quantity p) lots) else 0.
Proof.
  intros Hle. unfold partial_due, partial_already_booked.
  replace (negb (remaining_quantity p <? total_quantity p)) with (remaining_quantity p =? total_quantity p); [done|].
  apply eq_true_iff_eq. rewrite negb_true_iff, Z.eqb_eq, Z.ltb_ge. lia.
Qed.

Lemma partial_step_spec lots p side ltp w r w' :
  remaining_quantity p <= total_quantity p ->
  strategy_partial_contracts p w = (Ok lots, w) ->
  partial_step p side ltp w = (r, w') ->
  (partial_due lots side ltp p = 0 /\ r = Ok (p, []) /\ w' = w)
  \/ (0 < partial_due lots side ltp p
      /\ (r = Ok (partial_row (partial_due lots side ltp p) p, ["partial_target"]) \/ r = Err InvalidOperation)
      /\ exits_applied p side ltp [("partial_target", partial_due lots side ltp p)]
           (partial_row (partial_due lots side ltp p) p) w w').
Proof.
  intros Hle Hlots. rewrite partial_due_guard by done. unfold partial_step.
  destruct (target_price p) as [target|]; simpl; [|intros [= <- <-]; auto].
  destruct (_ && _); [|intros [= <- <-]; auto].
  unfold mbind at 1, M_bind at 1. rewrite Hlots.
  set (q := Z.min (remaining_quantity p) lots). destruct (Z.ltb_spec 0 q) as [Hq|Hq].
  2:{ intros [= <- <-]. left. split; [lia|auto]. }
  replace (Z.max 0 q) with q by lia. intros E. right. split; [done|].
  exact (exit_with_ret _ _ _ _ _ _ _ _ _ _ E).
Qed.

Lemma trail_step_spec p side ltp trig w r w' :
  trail_step p side ltp trig w = (r, w') ->
  ((0 <? remaining_quantity p) && trail_due side ltp p = false /\ r = Ok (p, trig) /\ w' = w)
  \/ (0 < remaining_quantity p /\ trail_due side ltp p = true
      /\ (r = Ok (closed_row "trailing_sl" (w_now w) p, trig ++ ["trailing_sl"]) \/ r = Err InvalidOperation)
      /\ exits_applied p side ltp [("trailing_sl", remaining_quantity p)] (closed_row "trailing_sl" (w_now w) p) w w').
Proof.
  unfold trail_step, trail_due. destruct (trail_offset p) as [off|], (highest_price_seen p) as [high|];
    try (intros [= <- <-]; left; by rewrite andb_false_r).
  destruct (_ && _) eqn:Eg; [|intros [= <- <-]; auto]. bool_to_prop. intros E. right.
  split; [done|]. split; [done|]. unfold mbind, M_bind in E.
  destruct (exit_all p side ltp "trailing_sl" w) as [r1 w1] eqn:E1.
  apply exit_all_spec in E1 as [[-> | ->] Hea]; cbv [mret M_ret] in E; simplify_eq; auto.
Qed.
End Effects.

(** ** The step relation *)

Section Rules.
Context (lots : Z) (side : OrderSide) (ltp : dec) (now : datetime).
Abbreviation step := (exit_step lots side ltp now).
Abbreviation run := (exit_run lots side ltp now).

Lemma partial_due_bounds p : 0 <= remaining_quantity p -> 0 <= partial_due lots side ltp p <= remaining_quantity p.
Proof. unfold partial_due. destruct (_ && _); lia. Qed.

Lemma partial_due_spent p : remaining_quantity p <> total_quantity p -> partial_due lots side ltp p = 0.
Proof. intros Hne. unfold partial_due. rewrite (proj2 (Z.eqb_neq _ _) Hne). by rewrite andb_false_r. Qed.

Lemma partial_due_fresh p : 0 < partial_due lots side ltp p -> remaining_quantity p = total_quantity p.
Proof. intros Hq. apply Z.eq_dne. intros Hne. rewrite (partial_due_spent p Hne) in Hq. lia. Qed.

(** Each step takes its quantity out of the row and nothing else. *)
Lemma exit_step_after p e p' :
  0 <= remaining_quantity p -> step p e p' -> 0 < snd e <= remaining_quantity p /\ after_exit p p' (snd e).
Proof.
  intros Hr Hs. unfold after_exit. destruct Hs; simpl.
  1,2,4: split; [lia|]; split; [by split|]; split; [done|]; split; [simpl; lia | done].
  pose proof (partial_due_bounds p Hr). split; [lia|]. split; [by split|]. by split.
Qed.

Lemma exit_step_signal p e p' : step p e p' -> p_signal_id p' = p_signal_id p.
Proof. by destruct 1. Qed.

(** A closed row is quiescent. *)
Lemma quiescent_closed p : remaining_quantity p = 0 -> quiescent lots side ltp now p.
Proof.
  intros Hr e p' Hs. destruct (exit_step_after p e p') as [H _]; [lia | done |]. lia.
Qed.

(** The guards do not look at what a partial exit changes. *)
Lemma partial_row_quiescent p :
  0 < partial_due lots side ltp p ->
  stop_hit side ltp p = false -> circuit_breaker_fires p ltp side = false ->
  trail_due side ltp p = false \/ remaining_quantity p = partial_due lots side ltp p ->
  quiescent lots side ltp now (partial_row (partial_due lots side ltp p) p).
Proof.
  intros Hq Hstop Hcb Ht e p' Hs. set (q := partial_due lots side ltp p) in *.
  assert (Hspent : partial_due lots side ltp (partial_row q p) = 0).
  { apply partial_due_spent. simpl. pose proof (partial_due_fresh p Hq). lia. }
  assert (Hstop' : stop_hit side ltp (partial_row q p) = false) by exact Hstop.
  assert (Hcb' : circuit_breaker_fires (partial_row q p) ltp side = false) by exact Hcb.
  inversion Hs; subst; try congruence; [lia|].
  change (trail_due side ltp (partial_row q p)) with (trail_due side ltp p) in *.
  destruct Ht as [Ht | Ht]; [congruence | simpl in *; lia].
Qed.

Lemma exit_run_after p es p' :
  0 <= remaining_quantity p -> run p es p' ->
  same_row p p' /\ total_quantity p' = total_quantity p
  /\ remaining_quantity p' = remaining_quantity p - sum_by snd es
  /\ 0 <= remaining_quantity p' /\ Forall (fun e => 0 < snd e) es
  /\ (pos_inv p -> pos_inv p').
Proof.
  intros Hr Hrun. induction Hrun as [p | p e p1 es p2 Hs Hrun IH].
  - simpl. rewrite Z.sub_0_r. by do 5 (split; [done|]).
  - destruct (exit_step_after _ _ _ Hr Hs) as [Hq Ha]. pose proof Ha as (Hrow & Ht & Hrem & _).
    destruct IH as (Hrow' & Ht' & Hrem' & Hnn & Hpos & Hinv); [lia|].
    split; [by transitivity p1|]. split; [congruence|]. split; [rewrite sum_by_cons; lia|].
    split; [done|]. split; [by constructor; [lia|]|]. eauto using after_exit_inv.
Qed.

(** An open row no rule applies to is clear of every exit price. *)
Lemma quiescent_guards p :
  quiescent lots side ltp now p -> 0 < remaining_quantity p ->
  stop_hit side ltp p = false /\ circuit_breaker_fires p ltp side = false /\ trail_due side ltp p = false.
Proof.
  intros Hq Hr. destruct (stop_hit side ltp p) eqn:E1; [by destruct (Hq _ _ (step_hard_sl lots side ltp now p Hr E1))|].
  destruct (circuit_breaker_fires p ltp side) eqn:E2;
    [by destruct (Hq _ _ (step_circuit_breaker lots side ltp now p Hr E1 E2))|].
  split; [done|]. split; [done|]. pose proof (partial_due_bounds p ltac:(lia)).
  destruct (Z.eq_dec (partial_due lots side ltp p) 0) as [E3|];
    [|by destruct (Hq _ _ (step_partial lots side ltp now p E1 E2 ltac:(lia)))].
  destruct (trail_due side ltp p) eqn:E4; [|done].
  by destruct (Hq _ _ (step_trailing_sl lots side ltp now p Hr E1 E2 E3 E4)).
Qed.

Lemma exit_run_high p es p' : run p es p' -> highest_price_seen p' = highest_price_seen p.
Proof. induction 1 as [|p e p1 es p2 [] _ IH]; [done|..]; by rewrite IH. Qed.

Lemma exit_run_partial_once p es p' :
  run p es p' -> remaining_quantity p <= total_quantity p ->
  (length (List.filter (fun e => String.eqb (fst e) "partial_target") es)
   <= if (remaining_quantity p <? total_quantity p)%Z then 0 else 1)%nat.
Proof.
  induction 1 as [p | p e p1 es p2 Hs Hrun IH]; intros Hle; [simpl; by destruct (_ <? _); lia|].
  destruct Hs as [p Hr ? | p Hr ? ? | p ? ? Hq | p Hr ? ? ? ?]; simpl in *.
  1,2,4: rewrite (proj2 (Z.ltb_lt _ _)) in IH by lia; specialize (IH ltac:(lia)); destruct (_ <? _); lia.
  rewrite (proj2 (Z.ltb_lt _ _)) in IH.
  - specialize (IH ltac:(lia)). pose proof (partial_due_fresh _ Hq).
    rewrite (proj2 (Z.ltb_ge _ _)) by lia. lia.
  - lia.
Qed.
End Rules.

Lemma observed_same side ltp p p1 :
  observed side ltp p p1 ->
  same_row p p1 /\ total_quantity p1 = total_quantity p /\ remaining_quantity p1 = remaining_quantity p
  /\ status p1 = status p /\ p_signal_id p1 = p_signal_id p
  /\ highest_price_seen p1 = Some (next_best side (highest_price_seen p) ltp)
  /\ (pos_inv p -> pos_inv p1).
Proof.
  intros (atr & _ & ->). do 6 (split; [done|]). intros []. by split.
Qed.

Section Tick.
Context {B R : Type} `{BrokerInterface B} `{Decryptor}.
Implicit Types (w : world B R) (p : StrategyPosition).

Lemma observe_spec p side ltp w r w' :
  observe p side ltp w = (r, w') ->
  w' = w /\ (r = Err InvalidOperation \/ exists p1, r = Ok p1 /\ observed side ltp p p1).
Proof.
  unfold observe, observed. intros E. repeat split_match_in E; cbv [mret M_ret raise] in E; simplify_eq;
    (split; [done|]); auto; right; eexists; (split; [done|]); eexists; (split; [|reflexivity]); simpl in *;
    rewrite ?Heqo; auto; by intros [? [=]].
Qed.

(** The exits [es] of [p] end at [p'] with the result [r]. *)
Record ruled (lots : Z) (side : OrderSide) (ltp : dec) (p : StrategyPosition) (w : world B R)
    (r : result exn TickOutcome) (w' : world B R) (es : list (string * Z)) (p' : StrategyPosition) : Prop := {
  ruled_run : exit_run lots side ltp (w_now w) p es p';
  ruled_tables : (p' = p /\ es = [] /\ w' = w) \/ exits_applied p side ltp es p' w w';
  ruled_result : r = Err InvalidOperation
    \/ quiescent lots side ltp (w_now w) p'
       /\ r = Ok (outcome p' (map fst es) (bool_decide (status p' = st_closed)))
}.

Lemma exit_all_rule lots p side ltp role w r w' :
  0 <= remaining_quantity p ->
  exit_step lots side ltp (w_now w) p (role, remaining_quantity p) (closed_row role (w_now w) p) ->
  (p' ← exit_all p side ltp role; mret (outcome p' [role] true)) w = (r, w') ->
  ruled lots side ltp p w r w' [(role, remaining_quantity p)] (closed_row role (w_now w) p).
Proof.
  intros Hr Hs. unfold mbind, M_bind. destruct (exit_all p side ltp role w) as [r1 w1] eqn:E.
  apply exit_all_spec in E as [Hr1 Hea]. intros E. split.
  - by econstructor; [eassumption|constructor].
  - right. by destruct Hr1 as [-> | ->]; cbv [mret M_ret] in E; simplify_eq.
  - destruct Hr1 as [-> | ->]; cbv [mret M_ret] in E; simplify_eq; [|by left].
    right. split; [by apply quiescent_closed | done].
Qed.

(** The trailing step on a row no earlier rule applies to. *)
Lemma trail_rule lots p side ltp trig w r w' :
  0 <= remaining_quantity p ->
  stop_hit side ltp p = false -> circuit_breaker_fires p ltp side = false -> partial_due lots side ltp p = 0 ->
  ('(p2, trig) ← trail_step p side ltp trig;
   mret (outcome p2 trig (bool_decide (status p2 = st_closed)))) w = (r, w') ->
  exists es p', exit_run lots side ltp (w_now w) p es p'
    /\ ((p' = p /\ es = [] /\ w' = w) \/ exits_applied p side ltp es p' w w')
    /\ (r = Err InvalidOperation
        \/ quiescent lots side ltp (w_now w) p'
           /\ r = Ok (outcome p' (trig ++ map fst es) (bool_decide (status p' = st_closed)))).
Proof.
  intros Hr Hstop Hcb Hq. unfold mbind, M_bind. destruct (trail_step p side ltp trig w) as [r1 w1] eqn:E.
  apply trail_step_spec in E as [(Ht & -> & ->) | (Hpos & Ht & Hr1 & Hea)].
  - intros [= <- <-]. exists [], p. split; [constructor|]. split; [by left|]. right.
    split; [|by rewrite app_nil_r]. intros e p' Hs. inversion Hs; subst; try congruence; [lia|].
    rewrite (proj2 (Z.ltb_lt _ _)) in Ht by lia. simpl in Ht. congruence.
  - intros E. exists [("trailing_sl", remaining_quantity p)], (closed_row "trailing_sl" (w_now w) p).
    split; [econstructor; [by constructor | constructor]|].
    destruct Hr1 as [-> | ->]; cbv [mret M_ret] in E; simplify_eq; (split; [by right|]); [right|by left].
    split; [by apply quiescent_closed | done].
Qed.

Lemma exit_rules_spec lots p side ltp w r w' :
  pos_inv p -> 0 < remaining_quantity p -> strategy_partial_contracts p w = (Ok lots, w) ->
  exit_rules p side ltp w = (r, w') ->
  exists es p', ruled lots side ltp p w r w' es p'.
Proof.
  intros Hinv Hrem Hread. unfold exit_rules. pose proof (inv_bounds _ Hinv) as Hb.
  destruct (opt_is _ (stop_loss_price p)) eqn:Estop; fold (stop_hit side ltp p) in Estop.
  { intros E. do 2 eexists. eapply exit_all_rule; eauto; [lia|]. by constructor. }
  destruct (circuit_breaker_fires p ltp side) eqn:Ecb.
  { intros E. do 2 eexists. eapply exit_all_rule; eauto; [lia|]. by constructor. }
  unfold mbind at 1, M_bind at 1. destruct (partial_step p side ltp w) as [r1 w1] eqn:E1.
  apply (partial_step_spec lots) in E1; [|lia|done].
  destruct E1 as [(Hq & -> & ->) | (Hq & Hr1 & Hea)].
  { intros E. apply (trail_rule lots) in E as (es & p' & ? & ? & ?); auto; [|lia]. exists es, p'. by split. }
  set (q := partial_due lots side ltp p) in *. set (pp := partial_row q p) in *.
  assert (Hs : exit_step lots side ltp (w_now w) p ("partial_target", q) pp) by (by constructor).
  destruct Hr1 as [-> | ->].
  2:{ intros [= <- <-]. exists [("partial_target", q)], pp. split; [by econstructor; [|constructor] | by right | by left]. }
  assert (Hnow : w_now w1 = w_now w) by apply Hea. pose proof (partial_due_bounds lots side ltp p ltac:(lia)) as Hqb.
  pose proof (partial_due_fresh _ _ _ _ Hq) as Hfresh. fold q in Hqb.
  intros E. apply (trail_rule lots) in E as (es & p' & Hrun & Htab & Hres); [|simpl; lia|done|done|].
  2:{ apply partial_due_spent. simpl. lia. }
  rewrite Hnow in *. exists (("partial_target", q) :: es), p'.
  assert (Hleft : 0 <= remaining_quantity pp) by (simpl; lia).
  destruct (exit_run_after _ _ _ _ _ _ _ Hleft Hrun) as (Hrow & _).
  split; [by econstructor | right | done].
  destruct Htab as [(-> & -> & ->) | Hea2]; [done|].
  apply (exits_applied_app p side ltp [("partial_target", q)] es pp p' w w1 w'); eauto with bridge.
  by apply (exits_applied_same pp p).
Qed.

(** Everything one tick does, on every path: an arithmetic error before any
    exit leaves the world alone; otherwise the row moves along exit steps. *)
Lemma apply_tick_effect p ltp side w r w' :
  OrderSide_of (p_side p) = Some side -> pos_inv p -> 0 < remaining_quantity p ->
  apply_tick p ltp w = (r, w') ->
  (r = Err InvalidOperation /\ w' = w)
  \/ exists lots p1 es p',
       0 <= lots /\ strategy_partial_contracts p w = (Ok lots, w)
       /\ observed side ltp p p1
       /\ exit_run lots side ltp (w_now w) p1 es p'
       /\ exits_applied p side ltp es p' w w'
       /\ (r = Err InvalidOperation
           \/ quiescent lots side ltp (w_now w) p'
              /\ r = Ok (outcome p' (map fst es) (bool_decide (status p' = st_closed)))).
Proof.
  intros Hside Hinv Hrem. unfold apply_tick. rewrite Hside. unfold mbind at 1, M_bind at 1.
  destruct (observe p side ltp w) as [r0 w0] eqn:E0.
  apply observe_spec in E0 as [-> [-> | (p1 & -> & Hobs)]]; [intros [= <- <-]; auto|].
  destruct (observed_same _ _ _ _ Hobs) as (Hrow & Htot & Hr1 & Hst & Hsig & _ & Hinv1).
  destruct (save_position_spec p1 w) as (w1 & E1 & Hp1 & Hx1 & He1).
  unfold mbind at 1, M_bind at 1. rewrite E1. intros E. right.
  destruct (strategy_partial_contracts_read p w) as (lots & Hlots & Hread).
  assert (Hread1 : strategy_partial_contracts p1 w1 = (Ok lots, w1)).
  { apply Hread; [by rewrite (same_strategy _ _ Hrow) | done | apply He1 | done]. }
  destruct (exit_rules_spec lots p1 side ltp w1 r w' (Hinv1 Hinv) ltac:(lia) Hread1 E)
    as (es & p' & [Hrun Htab Hres]).
  rewrite (env_now _ _ He1) in Hrun, Hres. exists lots, p1, es, p'.
  do 4 (split; [by auto|]). split; [|done].
  assert (Hea1 : exits_applied p side ltp [] p1 w w1).
  { split; [done| |done]. exists []. by rewrite Hx1, app_nil_r. }
  destruct Htab as [(-> & -> & ->) | Hea2]; [done|].
  assert (Hb : 0 <= remaining_quantity p1) by lia.
  destruct (exit_run_after _ _ _ _ _ _ _ Hb Hrun) as (Hrow' & _).
  apply (exits_applied_app p side ltp [] es p1 p' w w1 w'); eauto with bridge.
  apply (exits_applied_same p1 p); [by rewrite (same_symbol _ _ Hrow) | done | done].
Qed.
End Tick.

(** ** Polling one position over time *)

Section Polling.
Context {B R : Type} `{BrokerInterface B} `{Decryptor}.
Implicit Types (w : world B R) (p : StrategyPosition).

(** The poller's view of one row: tick it when it is still open. *)
Definition poll_once (id : uuid) (ltp : dec) : M B R unit :=
  rows ← gets w_positions;
  match find (fun p => (p_id p =? id) && is_open p) rows with
  | Some p => _ ← apply_tick p ltp; mret tt
  | None => mret tt
  end.

Fixpoint poll (id : uuid) (ltps : list dec) : M B R unit :=
  match ltps with
  | [] => mret tt
  | ltp :: ltps' => poll_once id ltp ;; poll id ltps'
  end.

Definition is_partial (x : StrategyExecution) : bool := String.eqb (x_leg_role x) "partial_target".

(** Row [p] became [p'] while the executions [xs] were booked. *)
Record polled (p p' : StrategyPosition) (xs : list StrategyExecution) (w w' : world B R) : Prop := {
  pl_before : pos_inv p;
  pl_row : same_row p p';
  pl_was : In p (w_positions w);
  pl_rows : w_positions w' = put_row p' (w_positions w);
  pl_total : total_quantity p' = total_quantity p;
  pl_booked : w_executions w' = w_executions w ++ xs;
  pl_conserved : remaining_quantity p' + sum_by x_quantity xs = remaining_quantity p;
  pl_exits : Forall (fun x => 0 < x_quantity x /\ Some (x_side x) = side_value ∘ opposite <$> OrderSide_of (p_side p)) xs;
  pl_partial : (length (List.filter is_partial xs) <= if (remaining_quantity p <? total_quantity p)%Z then 0 else 1)%nat;
  pl_book : book_inv w';
  pl_env : same_env w w'
}.

Lemma polled_refl p w : book_inv w -> In p (w_positions w) -> polled p p [] w w.
Proof.
  intros Hbook Hin. split; auto; try done.
  - pose proof (book_rows _ Hbook) as Hrows. rewrite List.Forall_forall in Hrows. by apply Hrows.
  - symmetry. apply put_row_id; [apply Hbook | done].
  - by rewrite app_nil_r.
  - simpl. lia.
  - simpl. destruct (_ <? _); lia.
Qed.

Lemma polled_intro p p' xs w w' :
  book_inv w -> In p (w_positions w) -> same_row p p' -> pos_inv p' -> total_quantity p' = total_quantity p ->
  w_positions w' = put_row p' (w_positions w) -> w_executions w' = w_executions w ++ xs ->
  remaining_quantity p' + sum_by x_quantity xs = remaining_quantity p ->
  Forall (fun x => 0 < x_quantity x /\ Some (x_side x) = side_value ∘ opposite <$> OrderSide_of (p_side p)) xs ->
  (length (List.filter is_partial xs) <= if (remaining_quantity p <? total_quantity p)%Z then 0 else 1)%nat ->
  same_env w w' -> polled p p' xs w w'.
Proof.
  intros Hbook Hin Hrow Hinv' Ht Hput Hx Hc He Hp Henv. split; auto.
  - pose proof (book_rows _ Hbook) as Hrows. rewrite List.Forall_forall in Hrows. by apply Hrows.
  - pose proof (book_fresh _ Hbook) as Hfr. rewrite List.Forall_forall in Hfr. specialize (Hfr p Hin). simpl in Hfr.
    pose proof (env_next _ _ Henv). assert (Hid := same_id _ _ Hrow).
    apply (book_inv_update w w' p'); auto; lia.
Qed.

Lemma pl_in p p' xs w w' : polled p p' xs w w' -> In p' (w_positions w').
Proof. intros []. rewrite pl_rows0. apply (put_row_self p' _ p); auto with bridge. Qed.

Lemma pl_others p p' xs w w' q :
  polled p p' xs w w' -> In q (w_positions w) -> p_id q <> p_id p -> In q (w_positions w').
Proof.
  intros [] Hq Hne. rewrite pl_rows0. apply put_row_other; [done|]. by rewrite <- (same_id _ _ pl_row0).
Qed.

Lemma sum_by_pos {A : Type} (f : A -> Z) l : Forall (fun x => 0 < f x) l -> l <> [] -> 0 < sum_by f l.
Proof.
  intros Hall Hne. destruct l as [|x l]; [done|]. apply Forall_cons in Hall as [Hx Hall].
  rewrite sum_by_cons. rewrite List.Forall_forall in Hall.
  pose proof (sum_by_nonneg f l ltac:(intros y Hy; specialize (Hall y Hy); lia)). lia.
Qed.

(** Once something was booked the row counts as partially exited. *)
Lemma partial_count_app p p1 (xs ys : list StrategyExecution) :
  remaining_quantity p <= total_quantity p -> total_quantity p1 = total_quantity p ->
  remaining_quantity p1 + sum_by x_quantity xs = remaining_quantity p ->
  Forall (fun x => 0 < x_quantity x) xs ->
  (length (List.filter is_partial xs) <= if (remaining_quantity p <? total_quantity p)%Z then 0 else 1)%nat ->
  (length (List.filter is_partial ys) <= if (remaining_quantity p1 <? total_quantity p1)%Z then 0 else 1)%nat ->
  (length (List.filter is_partial (xs ++ ys)) <= if (remaining_quantity p <? total_quantity p)%Z then 0 else 1)%nat.
Proof.
  intros Hle Ht Hc Hpos H1 H2. rewrite List.filter_app, length_app. destruct xs as [|x xs].
  - simpl in *. rewrite Ht, <- Hc, Z.add_0_r in *. lia.
  - pose proof (sum_by_pos x_quantity (x :: xs) Hpos ltac:(done)).
    rewrite (proj2 (Z.ltb_lt _ _)) in H2 by lia. lia.
Qed.

Lemma polled_trans p p1 p2 xs ys w w1 w2 :
  polled p p1 xs w w1 -> polled p1 p2 ys w1 w2 -> polled p p2 (xs ++ ys) w w2.
Proof.
  intros [Hi Hrow1 Hin1 Hput1 Ht1 Hx1 Hc1 He1 Hp1 Hb1 Hn1] [_ Hrow2 Hin2 Hput2 Ht2 Hx2 Hc2 He2 Hp2 Hb2 Hn2].
  assert (Hside := same_side _ _ Hrow1). assert (Hid := same_id _ _ Hrow1). split; auto.
  - by transitivity p1.
  - rewrite Hput2, Hput1. apply put_row_twice. by rewrite (same_id _ _ Hrow2).
  - congruence.
  - by rewrite Hx2, Hx1, app_assoc.
  - rewrite sum_by_app. lia.
  - apply Forall_app. rewrite Hside. split; [|done]. by rewrite <- Hside.
  - apply (partial_count_app p p1); auto; [apply inv_bounds, Hi|].
    eapply Forall_impl; [exact He1|]. by intros x [].
  - by transitivity w1.
Qed.

Lemma booked_sums p side ltp es xs :
  Forall2 (booked p side ltp) es xs ->
  sum_by x_quantity xs = sum_by snd es
  /\ length (List.filter is_partial xs) = length (List.filter (fun e => String.eqb (fst e) "partial_target") es).
Proof.
  induction 1 as [|e x es xs [Hrole Hq _ _ _ _] _ [IH1 IH2]]; simpl; [done|].
  rewrite Hq, IH1. split; [done|]. unfold is_partial at 1. rewrite Hrole. destruct (String.eqb _ _); simpl; lia.
Qed.

Lemma booked_exits p side ltp es xs :
  OrderSide_of (p_side p) = Some side -> Forall (fun e => 0 < snd e) es -> Forall2 (booked p side ltp) es xs ->
  Forall (fun x => 0 < x_quantity x /\ Some (x_side x) = side_value ∘ opposite <$> OrderSide_of (p_side p)) xs.
Proof.
  intros Hside Hpos Hb. rewrite Hside. revert Hpos. induction Hb as [|e x es xs [_ Hq Hs _ _ _] _ IH]; [done|].
  intros [He Hpos]%Forall_cons. constructor; [|by apply IH]. rewrite Hq, Hs. auto.
Qed.

Lemma apply_tick_polled p ltp w r w' :
  book_inv w -> In p (w_positions w) -> is_open p = true -> apply_tick p ltp w = (r, w') ->
  exists p' xs, polled p p' xs w w'.
Proof.
  intros Hbook Hin Hopen E. pose proof (book_rows _ Hbook) as Hrows. rewrite List.Forall_forall in Hrows.
  pose proof (Hrows p Hin) as Hinv. apply (is_open_inv p Hinv) in Hopen.
  destruct (OrderSide_of (p_side p)) as [side|] eqn:Hside.
  2:{ pose proof (inv_side _ Hinv) as Hs. unfold side_ok in Hs. by rewrite Hside in Hs. }
  destruct (apply_tick_effect p ltp side w r w' Hside Hinv Hopen E)
    as [(_ & ->) | (lots & p1 & es & p' & Hl & _ & Hobs & Hrun & [Hrow' (xs & Hx & Hbk) Henv] & _)].
  { exists p, []. by apply polled_refl. }
  destruct (observed_same _ _ _ _ Hobs) as (Hr1 & Ht1 & Hrem1 & _ & _ & _ & Hinv1).
  assert (Hnn : 0 <= remaining_quantity p1) by lia.
  destruct (exit_run_after _ _ _ _ _ _ _ Hnn Hrun) as (Hr2 & Ht2 & Hrem2 & _ & Hpos & Hinv2).
  assert (Hsame : same_row p p') by (by transitivity p1).
  assert (Hid := same_id _ _ Hsame). destruct (booked_sums _ _ _ _ _ Hbk) as [Hsum Hcnt].
  exists p', xs. apply polled_intro; auto; try lia.
  - by eapply booked_exits.
  - rewrite Hcnt, <- Ht1, <- Hrem1. eapply exit_run_partial_once; [exact Hrun|]. apply inv_bounds. auto.
Qed.

Lemma poll_once_polled id ltp p w r w' :
  book_inv w -> In p (w_positions w) -> p_id p = id -> poll_once id ltp w = (r, w') ->
  exists p' xs, polled p p' xs w w'.
Proof.
  intros Hbook Hin Hid. unfold poll_once, mbind, M_bind, gets.
  destruct (find _ _) as [q|] eqn:Ef.
  - apply find_some in Ef as [Hq Eq]. bool_to_prop.
    assert (q = p) as -> by (apply (in_ids_inj (w_positions w)); auto; [apply Hbook | lia]).
    destruct (apply_tick p ltp w) as [[o|e] w1] eqn:E; intros [= <- <-]; by eapply apply_tick_polled.
  - intros [= <- <-]. exists p, []. by apply polled_refl.
Qed.

Lemma poll_polled id ltps p w r w' :
  book_inv w -> In p (w_positions w) -> p_id p = id -> poll id ltps w = (r, w') ->
  exists p' xs, polled p p' xs w w'.
Proof.
  revert p w. induction ltps as [|ltp ltps IH]; intros p w Hbook Hin Hid; simpl.
  - intros [= <- <-]. exists p, []. by apply polled_refl.
  - unfold mbind, M_bind. destruct (poll_once id ltp w) as [r1 w1] eqn:E1.
    apply (poll_once_polled id ltp p) in E1 as (p1 & xs & Hp1); auto.
    destruct r1 as [[]|e]; [|intros [= <- <-]; eauto]. intros E.
    destruct (IH p1 w1 (pl_book _ _ _ _ _ Hp1) (pl_in _ _ _ _ _ Hp1)) as (p2 & ys & Hp2); auto.
    { by rewrite <- (same_id _ _ (pl_row _ _ _ _ _ Hp1)). }
    exists p2, (xs ++ ys). by eapply polled_trans.
Qed.
End Polling.

(** ** One pass over the table *)

Section Pass.
Context {B R : Type} `{BrokerInterface B} `{Decryptor}.
Context (settings : Settings).
Implicit Types (w : world B R) (p : StrategyPosition).

Lemma fetch_ltp_quiet p provider : preserves (@quiet B R) (fetch_ltp p provider).
Proof.
  apply preserves_bind; [apply _ | auto with bridge typeclass_instances|]. intros creds.
  destruct (find _ creds) as [c|]; [|auto with bridge typeclass_instances].
  do 2 (apply preserves_bind; [apply _ | auto with bridge typeclass_instances | intros ?]).
  destruct provider; [auto with bridge|].
  apply preserves_bind; [apply _ | auto with bridge | auto with bridge typeclass_instances].
Qed.

Lemma price_for_quiet p uniform bias provider : preserves (@quiet B R) (price_for settings p uniform bias provider).
Proof.
  intros w r w'. unfold price_for. destruct (_ && _); [by destruct (simulate_paper_ltp _ _ _ _); intros [= <- <-]|].
  destruct (fetch_ltp p provider w) as [r1 w1] eqn:E. apply fetch_ltp_quiet in E.
  destruct r1 as [[ltp|]|[]]; by intros [= <- <-].
Qed.

(** What a pass did to the tables. *)
Record passed (w w' : world B R) : Prop := {
  ps_book : book_inv w';
  ps_env : same_env w w';
  ps_ids : map p_id (w_positions w') = map p_id (w_positions w);
  ps_exits : exists xs, w_executions w' = w_executions w ++ xs
    /\ Forall (fun x => 0 < x_quantity x) xs
    /\ sum_by remaining_quantity (w_positions w') + sum_by x_quantity xs
       = sum_by remaining_quantity (w_positions w);
  ps_ledger : rtc ledger_step (exposure (w_positions w)) (exposure (w_positions w'));
  ps_one : one_open (w_positions w) -> one_open (w_positions w')
}.

Lemma passed_refl w w' : book_inv w -> quiet w w' -> passed w w'.
Proof.
  intros Hb []. split.
  - by apply (book_inv_ext w).
  - by split.
  - congruence.
  - exists []. rewrite app_nil_r, qt_positions. split; [done|]. split; [done|]. simpl. lia.
  - rewrite qt_positions. apply rtc_refl.
  - by rewrite qt_positions.
Qed.

Lemma passed_trans w w1 w2 : passed w w1 -> passed w1 w2 -> passed w w2.
Proof.
  intros [_ He1 Hi1 (xs & Hx1 & Hp1 & Hs1) Hl1 Ho1] [Hb2 He2 Hi2 (ys & Hx2 & Hp2 & Hs2) Hl2 Ho2]. split; auto.
  - by transitivity w1.
  - congruence.
  - exists (xs ++ ys). rewrite Hx2, Hx1, app_assoc, sum_by_app. split; [done|].
    split; [by apply Forall_app | lia].
  - by etransitivity.
Qed.

Lemma polled_passed p p' xs w w' : book_inv w -> polled p p' xs w w' -> passed w w'.
Proof.
  intros Hb Hpl. pose proof (pl_in _ _ _ _ _ Hpl) as Hin'. destruct Hpl as [Hi Hrow Hin Hput Ht Hx Hc He Hp Hb' Hn].
  pose proof (book_rows _ Hb') as Hall. rewrite List.Forall_forall in Hall. specialize (Hall p' Hin').
  assert (Hid := same_id _ _ Hrow).
  assert (Hle : 0 <= remaining_quantity p' <= remaining_quantity p).
  { assert (Hpos : Forall (fun x => 0 < x_quantity x) xs) by (eapply Forall_impl; [exact He|]; by intros x []).
    rewrite List.Forall_forall in Hpos.
    pose proof (sum_by_nonneg x_quantity xs ltac:(intros x Hx'; specialize (Hpos x Hx'); lia)).
    pose proof (inv_bounds _ Hall). lia. }
  split; auto.
  - by rewrite Hput, put_row_ids.
  - exists xs. split; [done|]. split; [eapply Forall_impl; [exact He|]; by intros x []|].
    rewrite Hput, (sum_put_row _ p); [lia | apply Hb | done | done].
  - rewrite Hput. apply (exposure_leave _ p); auto. apply Hb.
  - intros Hone. rewrite Hput. apply (one_open_put p); auto.
    rewrite (is_open_inv p Hi), (is_open_inv p' Hall). lia.
Qed.

(** Forced close: the row with nothing left. *)
Definition flat_row (now : datetime) (p : StrategyPosition) : StrategyPosition :=
  p <| remaining_quantity := 0 |> <| status := st_closed |> <| closed_at := Some now |>.

Lemma flat_row_inv now p : pos_inv p -> pos_inv (flat_row now p).
Proof. intros []. split; simpl; [lia | done | done | done]. Qed.

Lemma close_now_empty p reason ltp side w r w' :
  OrderSide_of (p_side p) = Some side -> remaining_quantity p = 0 ->
  close_position_now p reason ltp w = (r, w') ->
  (exists x, r = Ok x /\ x_quantity x = 0)
  /\ w_positions w' = put_row (flat_row (w_now w) p) (w_positions w) /\ w_executions w' = w_executions w
  /\ same_env w w'.
Proof.
  intros Es Hr. unfold close_position_now, gets. cbv [mbind M_bind]. rewrite Hr. simpl (0 <=? 0).
  assert (Heq : p <| status := st_closed |> <| closed_at := Some (w_now w) |> = flat_row (w_now w) p)
    by (unfold flat_row, set; simpl; by rewrite Hr).
  rewrite Heq. unfold save_position, modify, parse_side. rewrite Es.
  destruct (p_signal_id p); cbv [mret M_ret fresh]; intros [= <- <-]; simpl_rec;
    (split; [by eexists|]); (split; [done|]); (split; [done|]); split; simpl; lia || done.
Qed.

Lemma close_now_open p reason ltp side w r w' :
  OrderSide_of (p_side p) = Some side -> 0 < remaining_quantity p ->
  close_position_now p reason ltp w = (r, w') ->
  exists x price, r = Ok x /\ booked p side price (reason, remaining_quantity p) x
  /\ w_positions w' = put_row (flat_row (w_now w) p) (w_positions w) /\ w_executions w' = w_executions w ++ [x]
  /\ same_env w w'.
Proof.
  intros Es Hr. unfold close_position_now, gets. cbv [mbind M_bind].
  rewrite (proj2 (Z.leb_gt _ _) Hr). unfold parse_side. rewrite Es. cbv [mret M_ret].
  set (price := default dzero _).
  destruct (book_exit_spec p side price (remaining_quantity p) reason w) as (x & w1 & E1 & Hb & Hp1 & Hx1 & He1).
  rewrite E1. destruct (save_position_spec (flat_row (w_now w) p) w1) as (w2 & E2 & Hp2 & Hx2 & He2).
  fold (flat_row (w_now w) p). rewrite E2. intros [= <- <-]. exists x, price. split; [done|]. split; [done|].
  split; [by rewrite Hp2, Hp1|]. split; [by rewrite Hx2, Hx1 | by transitivity w1].
Qed.

Lemma close_position_now_polled p reason ltp w r w' :
  book_inv w -> In p (w_positions w) -> reason <> "partial_target"%string ->
  close_position_now p reason ltp w = (r, w') ->
  (exists x, r = Ok x /\ x_quantity x = remaining_quantity p)
  /\ exists xs, polled p (flat_row (w_now w) p) xs w w'.
Proof.
  intros Hbook Hin Hreason E. pose proof (book_rows _ Hbook) as Hall.
  rewrite List.Forall_forall in Hall. pose proof (Hall p Hin) as Hinv.
  pose proof (inv_side _ Hinv) as Hside. unfold side_ok in Hside. pose proof (inv_bounds _ Hinv) as Hb.
  destruct (OrderSide_of (p_side p)) as [side|] eqn:Es; [|done].
  assert (Hcount : forall n : nat, (0 <= if (remaining_quantity p <? total_quantity p)%Z then 0 else 1)%nat)
    by (intros; destruct (_ <? _); lia).
  destruct (Z.eq_dec (remaining_quantity p) 0) as [Hz|Hz].
  - destruct (close_now_empty p reason ltp side w r w' Es Hz E) as ((x & -> & Hq) & Hp & Hx & He).
    split; [exists x; by rewrite Hz|]. exists [].
    apply polled_intro; auto using flat_row_inv; [by split | by rewrite Hx, app_nil_r | simpl; lia].
  - destruct (close_now_open p reason ltp side w r w' Es ltac:(lia) E) as (x & price & -> & Hbk & Hp & Hx & He).
    split; [exists x; by destruct Hbk|]. exists [x]. destruct Hbk as [Hrole Hq Hsd _ _ _]. simpl in Hq.
    apply polled_intro; auto using flat_row_inv.
    + by split.
    + simpl. lia.
    + constructor; [|constructor]. rewrite Hq, Hsd, Es. split; [lia | done].
    + simpl. unfold is_partial. rewrite Hrole. simpl.
      destruct (String.eqb_spec reason "partial_target"); [done | apply (Hcount 0%nat)].
Qed.

Definition is_direct (strategies : list Strategy) (p : StrategyPosition) : bool :=
  String.eqb (exit_type_of strategies (p_strategy_id p)) "direct_exit".

(** [w'] is [w] after a pass that touched no row but [p]'s. *)
Definition passed_only (p : StrategyPosition) (w w' : world B R) : Prop :=
  passed w w' /\ forall q, In q (w_positions w) -> p_id q <> p_id p -> In q (w_positions w').

Lemma priced_tick_passed p ltp w w1 r w2 :
  book_inv w -> In p (w_positions w) -> is_open p = true -> quiet w w1 ->
  apply_tick p ltp w1 = (r, w2) -> passed_only p w w2.
Proof.
  intros Hbook Hin Hopen E1 E2. pose proof (passed_refl w w1 Hbook E1) as Hps1.
  assert (Hpos := qt_positions _ _ E1).
  destruct (apply_tick_polled p ltp w1 r w2) as (p' & xs & Hpl); auto; [apply Hps1 | by rewrite Hpos|].
  split; [eapply passed_trans, polled_passed; eauto; apply Hps1|].
  intros q Hq Hne. eapply pl_others; [exact Hpl | by rewrite Hpos | done].
Qed.

(** The rows a pass over [rows] may change. *)
Definition untouched (rows : list StrategyPosition) (w w' : world B R) : Prop :=
  forall q, In q (w_positions w) ->
    (forall p, In p rows -> p_id p = p_id q -> is_direct (w_strategies w) p = true) -> In q (w_positions w').

Lemma manage_rows_passed rows uniform bias provider w r w' :
  book_inv w -> NoDup (map p_id rows) -> Forall (fun p => In p (w_positions w) /\ is_open p = true) rows ->
  manage_rows settings rows uniform bias provider w = (r, w') ->
  passed w w' /\ untouched rows w w'.
Proof.
  revert w r w'. induction rows as [|p rows IH]; intros w r w' Hbook Hnd Hall.
  { intros [= <- <-]. split; [by apply passed_refl | by intros ?]. }
  simpl in Hnd. apply NoDup_cons in Hnd as [Hp Hnd]. apply Forall_cons in Hall as [[Hin Hopen] Hall].
  rewrite list_elem_of_In in Hp. simpl. unfold mbind at 1, M_bind at 1, gets.
  fold (is_direct (w_strategies w) p). destruct (is_direct (w_strategies w) p) eqn:Edir.
  { intros E. apply IH in E as [Hps Hq]; auto. split; [done|]. intros q Hqin Hdir. apply Hq; simpl in *; auto. }
  unfold mbind at 1, M_bind at 1. destruct (price_for settings p uniform bias provider w) as [r1 w1] eqn:E1.
  apply price_for_quiet in E1. pose proof (passed_refl w w1 Hbook E1) as Hps1.
  assert (Hpos1 := qt_positions _ _ E1). assert (Hstr1 := qt_strategies _ _ E1).
  destruct r1 as [[ltp|]|e].
  3:{ intros [= <- <-]. split; [done|]. intros q Hq _. by rewrite Hpos1. }
  2:{ intros E. rewrite <- Hpos1 in Hall. apply IH in E as [Hps Hq]; auto; [|apply Hps1].
      split; [by apply (passed_trans w w1)|]. intros q Hqin Hdir. apply Hq; [by rewrite Hpos1|].
      rewrite Hstr1. simpl in *. auto. }
  unfold mbind at 1, M_bind at 1. destruct (apply_tick p ltp w1) as [r2 w2] eqn:E2.
  destruct (priced_tick_passed p ltp w w1 r2 w2 Hbook Hin Hopen E1 E2) as [Hps Hother].
  assert (Hkeep : untouched (p :: rows) w w2).
  { intros q Hq Hdir. apply Hother; [done|]. intros E. rewrite Hdir in Edir; simpl; auto; done. }
  destruct r2 as [o|e]; [|by intros [= <- <-]].
  unfold mbind, M_bind. destruct (manage_rows settings rows uniform bias provider w2) as [r3 w3] eqn:E3.
  apply IH in E3 as [Hps3 Hq3]; [|apply Hps | done|].
  - intros E. assert (w' = w3) as -> by (destruct r3; cbv [mret M_ret] in E; by simplify_eq).
    split; [by apply (passed_trans w w2)|]. intros q Hq Hdir. apply Hq3; [by apply Hkeep|].
    rewrite (env_strategies _ _ (ps_env _ _ Hps)). simpl in *. auto.
  - apply List.Forall_forall. intros q Hq. rewrite List.Forall_forall in Hall. destruct (Hall q Hq).
    split; [|done]. apply Hother; [done|]. intros E. apply Hp. rewrite <- E. by apply in_map.
Qed.
End Pass.

(** ** Returning *)

Section Returns.
Context {B R : Type} `{BrokerInterface B} `{Decryptor}.
Implicit Types (w : world B R) (p : StrategyPosition).

(** The arithmetic of exits from [p] at [ltp] stays in range. *)
Record in_range (p : StrategyPosition) (ltp : dec) : Prop := {
  rg_ltp : numeric_18_4 ltp;
  rg_entry : forall e, avg_entry_price p = Some e -> numeric_18_4 e;
  rg_qty : 0 <= remaining_quantity p < 2 ^ 31
}.

Lemma compute_pnl_some side entry ltp q :
  numeric_18_4 ltp -> (forall e, entry = Some e -> numeric_18_4 e) -> 0 <= q < 2 ^ 31 ->
  is_Some (compute_pnl side entry ltp q).
Proof.
  intros Hl He Hq. unfold compute_pnl. destruct entry as [e|]; [|eauto]. destruct (is_dzero e); [eauto|].
  specialize (He e eq_refl). destruct side; by apply pnl_fits.
Qed.

Lemma exit_with_returns p p' side ltp q role w :
  in_range p ltp -> avg_entry_price p' = avg_entry_price p -> 0 <= q <= remaining_quantity p ->
  returns (exit_with p p' side ltp q role) w.
Proof.
  intros [Hl He Hr] Ee Hq. apply returns_bind.
  { destruct (book_exit_spec p side ltp q role w) as (x & w1 & E & _). by exists x, w1. }
  intros x w1 _. apply returns_bind; [eexists _, _; reflexivity|]. intros [] w2 _.
  unfold returns, alert_exit. rewrite Ee. destruct (compute_pnl_some side (avg_entry_price p) ltp q) as [pnl ->]; auto; [lia|].
  by eexists _, _.
Qed.

Lemma exit_all_returns p side ltp role w : in_range p ltp -> returns (exit_all p side ltp role) w.
Proof.
  intros Hrg. apply returns_bind; [by eexists _, _|]. intros now w1 _.
  apply returns_bind; [|auto with bridge]. apply exit_with_returns; auto. pose proof (rg_qty _ _ Hrg). lia.
Qed.

Lemma observe_returns p side ltp w :
  (forall e, avg_entry_price p = Some e -> numeric_18_4 e) -> returns (observe p side ltp) w.
Proof.
  intros He. unfold observe. simpl. destruct (current_atr p); [auto with bridge|].
  destruct (avg_entry_price p) as [e|] eqn:Ee; [|auto with bridge].
  destruct (percent_fits e (-4)) as [atr Ea]; [by apply He | lia|].
  unfold PAPER_ATR_FRAC. rewrite Ea. auto with bridge.
Qed.

Lemma partial_step_returns p side ltp w :
  in_range p ltp ->
  returns (partial_step p side ltp) w
  /\ (forall p1 trig w1, partial_step p side ltp w = (Ok (p1, trig), w1) -> in_range p1 ltp).
Proof.
  intros Hrg. pose proof (rg_qty _ _ Hrg) as Hq. unfold partial_step.
  destruct (target_price p) as [t|]; [|split; [auto with bridge | by intros ? ? ? [= <- <- <-]]].
  destruct (_ && _); [|split; [auto with bridge | by intros ? ? ? [= <- <- <-]]].
  destruct (strategy_partial_contracts_read p w) as (lots & Hl & Hread).
  pose proof (Hread p w eq_refl eq_refl eq_refl eq_refl) as Hlots. split.
  - apply returns_bind; [by eexists _, _|]. intros lots' w1 _.
    destruct (Z.ltb_spec 0 (Z.min (remaining_quantity p) lots')); [|auto with bridge].
    apply returns_bind; [|auto with bridge]. apply exit_with_returns; auto. lia.
  - intros p1 trig w1 (lots' & w2 & E & E2)%bind_ok. rewrite Hlots in E. simplify_eq. revert E2.
    destruct (Z.ltb_spec 0 (Z.min (remaining_quantity p) lots')); [|by intros [= <- <- <-]].
    intros (? & ? & _ & [= <- <- <-])%bind_ok. destruct Hrg. split; auto. simpl. lia.
Qed.

Lemma exit_rules_returns p side ltp w : in_range p ltp -> returns (exit_rules p side ltp) w.
Proof.
  intros Hrg. unfold exit_rules.
  destruct (opt_is _ _); [apply returns_bind; [by apply exit_all_returns | auto with bridge]|].
  destruct (circuit_breaker_fires _ _ _); [apply returns_bind; [by apply exit_all_returns | auto with bridge]|].
  destruct (partial_step_returns p side ltp w Hrg) as [Hret Hnext].
  apply returns_bind; [done|]. intros [p1 trig] w1 E1. specialize (Hnext p1 trig w1 E1).
  apply returns_bind; [|intros [] ? _; auto with bridge]. unfold trail_step.
  destruct (trail_offset p1), (highest_price_seen p1); auto with bridge.
  destruct (_ && _); [|auto with bridge].
  apply returns_bind; [by apply exit_all_returns | auto with bridge].
Qed.
End Returns.

(** ** Theorems *)

Section Theorems.
Context {B R : Type} `{BrokerInterface B} `{Decryptor}.
Implicit Types (w : world B R) (p : StrategyPosition).

(** C21: one tick refines the exit rules.  A tick on an open row that returns
    observes the price (only the best price and the ATR seed change), then runs
    the priority rules to quiescence: the stored row is the last of the run, one
    execution row per exit is appended with that exit's role and quantity, on
    the opposite side and at the tick's price, the outcome lists exactly the
    exits, and nothing else of the world changes. *)
Theorem apply_tick_refines_rules p ltp side w o w' :
  OrderSide_of (p_side p) = Some side -> pos_inv p -> is_open p = true ->
  apply_tick p ltp w = (Ok o, w') ->
  exists lots p1 es p',
    strategy_partial_contracts p w = (Ok lots, w)
    /\ observed side ltp p p1
    /\ exit_run lots side ltp (w_now w) p1 es p'
    /\ quiescent lots side ltp (w_now w) p'
    /\ exits_applied p side ltp es p' w w'
    /\ o = outcome p' (map fst es) (bool_decide (status p' = st_closed)).
Proof.
  intros Hside Hinv Hopen E. apply (is_open_inv p Hinv) in Hopen.
  destruct (apply_tick_effect p ltp side w (Ok o) w' Hside Hinv Hopen E)
    as [([=] & _) | (lots & p1 & es & p' & _ & Hl & Hobs & Hrun & Hea & [[=] | (Hq & [= ->])])].
  exists lots, p1, es, p'. auto 10.
Qed.

(** A row that survives a tick is strictly inside all its exits.  If a tick
    returns "not closed", the stored row has lots left, the price is beyond the
    stop and within three ATR of the entry, the price has not retraced the trail
    offset from the best price, and that best price is the most favourable one
    seen: at least as good as this tick and as every earlier best. *)
Theorem apply_tick_survivor_inside_stops p ltp side w o w' :
  OrderSide_of (p_side p) = Some side -> pos_inv p -> is_open p = true -> In p (w_positions w) ->
  apply_tick p ltp w = (Ok o, w') -> t_closed o = false ->
  exists p' best, In p' (w_positions w') /\ same_row p p' /\ 0 < remaining_quantity p'
    /\ stop_hit side ltp p' = false
    /\ circuit_breaker_fires p' ltp side = false
    /\ (forall offset, trail_offset p' = Some offset -> trail_triggered ltp best offset side = false)
    /\ highest_price_seen p' = Some best
    /\ as_good side best ltp = true
    /\ (forall h, highest_price_seen p = Some h -> as_good side best h = true)
    /\ (best = ltp \/ highest_price_seen p = Some best).
Proof.
  intros Hside Hinv Hopen Hin E Hcl. apply (is_open_inv p Hinv) in Hopen.
  destruct (apply_tick_effect p ltp side w (Ok o) w' Hside Hinv Hopen E)
    as [([=] & _) | (lots & p1 & es & p' & Hl0 & Hl & Hobs & Hrun & Hea & [[=] | (Hq & [= ->])])].
  destruct (observed_same _ _ _ _ Hobs) as (Hrow1 & _ & Hr1 & _ & _ & Hhigh & Hinv1).
  assert (Hnn : 0 <= remaining_quantity p1) by lia.
  destruct (exit_run_after _ _ _ _ _ _ _ Hnn Hrun) as (Hrow2 & _ & _ & Hnn' & _ & Hinv2).
  specialize (Hinv2 (Hinv1 Hinv)). simpl in Hcl. apply bool_decide_eq_false in Hcl.
  assert (Hrow : same_row p p') by (by transitivity p1).
  assert (Hpos : 0 < remaining_quantity p').
  { pose proof (inv_closed _ Hinv2) as Hc. destruct (Z.eq_dec (remaining_quantity p') 0); [tauto | lia]. }
  destruct (quiescent_guards _ _ _ _ _ Hq Hpos) as (H1 & H2 & H3).
  rewrite <- (exit_run_high _ _ _ _ _ _ _ Hrun) in Hhigh.
  exists p', (next_best side (highest_price_seen p) ltp).
  split; [rewrite (ea_rows _ _ _ _ _ _ _ Hea); apply (put_row_self p' _ p); auto with bridge|].
  do 4 (split; [done|]). split; [|split; [done | apply next_best_extreme]].
  intros offset Ho. unfold trail_due in H3. by rewrite Ho, Hhigh in H3.
Qed.

(** Over any sequence of price observations, whether or not one of them
    raises, a row is only ever exited: its remaining quantity plus everything
    booked against it is what it started with, it ends well formed (between 0
    and its total, closed exactly when nothing is left), every exit is a
    positive quantity on the opposite side, the partial profit is booked at most
    once, and no other row, order or Redis key is touched. *)
Theorem polling_conserves_lots id ltps p w r w' :
  book_inv w -> In p (w_positions w) -> p_id p = id -> poll id ltps w = (r, w') ->
  exists p' xs, In p' (w_positions w') /\ same_row p p' /\ pos_inv p'
    /\ w_executions w' = w_executions w ++ xs
    /\ remaining_quantity p' + sum_by x_quantity xs = remaining_quantity p
    /\ Forall (fun x => 0 < x_quantity x /\ Some (x_side x) = side_value ∘ opposite <$> OrderSide_of (p_side p)) xs
    /\ (length (List.filter is_partial xs) <= 1)%nat
    /\ (forall q, In q (w_positions w) -> p_id q <> id -> In q (w_positions w'))
    /\ w_orders w' = w_orders w /\ w_redis w' = w_redis w.
Proof.
  intros Hbook Hin <- E. destruct (poll_polled _ _ _ _ _ _ Hbook Hin eq_refl E) as (p' & xs & Hpl).
  exists p', xs. pose proof (pl_in _ _ _ _ _ Hpl) as Hin'.
  pose proof (book_rows _ (pl_book _ _ _ _ _ Hpl)) as Hrows. rewrite List.Forall_forall in Hrows.
  split; [done|]. split; [apply Hpl|]. split; [by apply Hrows|]. split; [apply Hpl|]. split; [apply Hpl|].
  split; [apply Hpl|]. split.
  - pose proof (pl_partial _ _ _ _ _ Hpl) as Hp. destruct (_ <? _); lia.
  - split; [intros q Hq Hne; by eapply pl_others|]. split; apply Hpl.
Qed.

(** C22: one pass of the loop, returning or raising, keeps the positions table
    well formed; every closed row, every marketplace subscriber's row and every
    row of a direct-exit strategy is left exactly as it was; the quantity booked
    is exactly the quantity the table lost; and no broker order is sent. *)
Theorem manage_open_positions_safe settings uniform bias provider w r w' :
  book_inv w -> manage_open_positions settings uniform bias provider w = (r, w') ->
  book_inv w'
  /\ (forall q, In q (w_positions w) ->
       is_open q = false \/ owner_row q = false \/ is_direct (w_strategies w) q = true -> In q (w_positions w'))
  /\ (exists xs, w_executions w' = w_executions w ++ xs
       /\ sum_by remaining_quantity (w_positions w') + sum_by x_quantity xs
          = sum_by remaining_quantity (w_positions w))
  /\ w_orders w' = w_orders w.
Proof.
  intros Hbook. unfold manage_open_positions, mbind, M_bind, gets.
  set (rows := List.filter _ _). intros E.
  assert (Hrows : forall q, In q rows -> In q (w_positions w) /\ is_open q = true /\ owner_row q = true).
  { intros q Hq. apply filter_In in Hq as [? Hq]. by bool_to_prop. }
  apply manage_rows_passed in E as [[Hb He _ (xs & Hx & _ & Hs)] Hun]; auto.
  - split; [done|]. split; [|split; [by exists xs | apply He]].
    intros q Hq Hcase. apply Hun; [done|]. intros p Hp Hid. destruct (Hrows p Hp) as (Hin & Ho & Hw).
    assert (p = q) as -> by (apply (in_ids_inj (w_positions w)); auto; apply Hbook).
    destruct Hcase as [|[]]; congruence.
  - apply NoDup_map_filter_ids. apply Hbook.
  - apply List.Forall_forall. intros q Hq. by destruct (Hrows q Hq) as (? & ? & _).
Qed.


(** A partial profit that empties the row closes it without a close stamp.
    When a tick books only the partial profit and thereby closes the row, the
    stored row is closed with nothing left, but [closed_at] and [exit_reason]
    keep their old values, unlike on every other closing path. *)
Theorem partial_close_leaves_no_stamp p ltp side w o w' :
  OrderSide_of (p_side p) = Some side -> pos_inv p -> is_open p = true -> In p (w_positions w) ->
  apply_tick p ltp w = (Ok o, w') -> triggered o = ["partial_target"] -> t_closed o = true ->
  exists p', In p' (w_positions w') /\ same_row p p' /\ status p' = st_closed /\ remaining_quantity p' = 0
    /\ closed_at p' = closed_at p /\ exit_reason p' = exit_reason p.
Proof.
  intros Hside Hinv Hopen Hin E Htr Hcl. apply (is_open_inv p Hinv) in Hopen.
  destruct (apply_tick_effect p ltp side w (Ok o) w' Hside Hinv Hopen E)
    as [([=] & _) | (lots & p1 & es & p' & Hl0 & Hl & Hobs & Hrun & Hea & [[=] | (Hq & [= ->])])].
  simpl in *. destruct (observed_same _ _ _ _ Hobs) as (Hrow1 & _ & Hr1 & _ & _ & _ & Hinv1).
  destruct Hrun as [?|p1 e p2 es p3 Hs Hrun]; [done|]. simpl in Htr. injection Htr as He Hes.
  destruct es; [|done]. inversion Hrun; subst. inversion Hs; subst; try done.
  apply bool_decide_eq_true in Hcl. set (p3 := partial_row _ _) in *.
  assert (Hnn : 0 <= remaining_quantity p1) by lia.
  destruct (exit_step_after _ _ _ _ _ _ _ Hnn Hs) as [Hqb Ha].
  pose proof (after_exit_inv _ _ _ (Hinv1 Hinv) Hqb Ha) as Hinv3.
  assert (Hrow : same_row p p3) by (transitivity p1; [done | apply Ha]).
  exists p3. split; [rewrite (ea_rows _ _ _ _ _ _ _ Hea); apply (put_row_self p3 _ p); auto with bridge|].
  split; [done|]. split; [done|]. split; [by apply (inv_closed _ Hinv3)|].
  destruct Hobs as (atr & _ & ->). done.
Qed.

(** A forced close always returns and flattens.  It books exactly what the
    row has left in one exit on the opposite side, stores the row closed with
    nothing left, touches no other row; and closing again books nothing. *)
Theorem force_close_flattens p reason ltp w :
  book_inv w -> In p (w_positions w) -> reason <> "partial_target"%string ->
  exists x w' p', close_position_now p reason ltp w = (Ok x, w')
    /\ x_quantity x = remaining_quantity p
    /\ In p' (w_positions w') /\ same_row p p' /\ status p' = st_closed /\ remaining_quantity p' = 0
    /\ (forall q, In q (w_positions w) -> p_id q <> p_id p -> In q (w_positions w'))
    /\ (exists xs, w_executions w' = w_executions w ++ xs /\ sum_by x_quantity xs = remaining_quantity p)
    /\ (forall ltp2 r2 w2, close_position_now p' reason ltp2 w' = (r2, w2) -> w_executions w2 = w_executions w').
Proof.
  intros Hbook Hin Hreason. destruct (close_position_now p reason ltp w) as [r w'] eqn:E.
  destruct (close_position_now_polled p reason ltp w r w' Hbook Hin Hreason E) as ((x & -> & Hq) & xs & Hpl).
  exists x, w', (flat_row (w_now w) p). split; [done|]. split; [done|].
  split; [by eapply pl_in|]. split; [by split|]. split; [done|]. split; [done|].
  split; [intros q; by eapply pl_others|]. split.
  - exists xs. split; [apply Hpl|]. pose proof (pl_conserved _ _ _ _ _ Hpl) as Hc. simpl in Hc. lia.
  - intros ltp2 r2 w2 E2. pose proof (inv_side _ (pl_before _ _ _ _ _ Hpl)) as Hs. unfold side_ok in Hs.
    destruct (OrderSide_of (p_side p)) as [side|] eqn:Es; [|done].
    by destruct (close_now_empty (flat_row (w_now w) p) reason ltp2 side w' r2 w2 Es eq_refl E2) as (_ & _ & Hx & _).
Qed.
End Theorems.

(** ** Instances *)

Lemma sample_book : book_inv sample_world.
Proof.
  split; [by repeat constructor; rewrite ?list_elem_of_In; simpl; tauto | by repeat constructor|].
  constructor; [by apply pos_invb_sound | constructor].
Qed.

Lemma sample_inv : pos_inv sample_position.
Proof. by apply pos_invb_sound. Qed.

(** At 2460 the partial profit books one lot; at 2410 the trail closes the rest. *)
Lemma apply_tick_refines_rules_witness :
  exists o w', apply_tick sample_position (Dec 2460 0) sample_world = (Ok o, w') /\
  exists lots p1 es p',
    strategy_partial_contracts sample_position sample_world = (Ok lots, sample_world)
    /\ observed BUY (Dec 2460 0) sample_position p1
    /\ exit_run lots BUY (Dec 2460 0) 100 p1 es p'
    /\ quiescent lots BUY (Dec 2460 0) 100 p'
    /\ exits_applied sample_position BUY (Dec 2460 0) es p' sample_world w'
    /\ o = outcome p' (map fst es) (bool_decide (status p' = st_closed)).
Proof.
  do 2 eexists. split; [vm_compute; reflexivity|].
  apply (apply_tick_refines_rules sample_position (Dec 2460 0) BUY sample_world);
    [reflexivity | exact sample_inv | reflexivity | vm_compute; reflexivity].
Defined.

Lemma apply_tick_survivor_witness :
  exists o w', apply_tick sample_position (Dec 2460 0) sample_world = (Ok o, w') /\ t_closed o = false /\
  exists p' best, In p' (w_positions w') /\ same_row sample_position p' /\ 0 < remaining_quantity p'
    /\ stop_hit BUY (Dec 2460 0) p' = false
    /\ circuit_breaker_fires p' (Dec 2460 0) BUY = false
    /\ (forall offset, trail_offset p' = Some offset -> trail_triggered (Dec 2460 0) best offset BUY = false)
    /\ highest_price_seen p' = Some best
    /\ as_good BUY best (Dec 2460 0) = true
    /\ (forall h, highest_price_seen sample_position = Some h -> as_good BUY best h = true)
    /\ (best = Dec 2460 0 \/ highest_price_seen sample_position = Some best).
Proof.
  do 2 eexists. split; [vm_compute; reflexivity|]. split; [reflexivity|].
  eapply (apply_tick_survivor_inside_stops sample_position (Dec 2460 0) BUY sample_world);
    [reflexivity | exact sample_inv | reflexivity | by left | vm_compute; reflexivity | reflexivity].
Defined.

Lemma polling_conserves_lots_witness :
  exists w', poll 20 [Dec 2460 0; Dec 2410 0] sample_world = (Ok tt, w') /\
  exists p' xs, In p' (w_positions w') /\ same_row sample_position p' /\ pos_inv p'
    /\ w_executions w' = w_executions sample_world ++ xs
    /\ remaining_quantity p' + sum_by x_quantity xs = 750
    /\ Forall (fun x => 0 < x_quantity x /\ Some (x_side x) = Some "sell"%string) xs
    /\ (length (List.filter is_partial xs) <= 1)%nat
    /\ (forall q, In q (w_positions sample_world) -> p_id q <> 20 -> In q (w_positions w'))
    /\ w_orders w' = w_orders sample_world /\ w_redis w' = w_redis sample_world.
Proof.
  eexists. split; [vm_compute; reflexivity|].
  eapply (polling_conserves_lots 20 [Dec 2460 0; Dec 2410 0] sample_position sample_world (Ok tt));
    [exact sample_book | by left | reflexivity | vm_compute; reflexivity].
Defined.

Lemma manage_open_positions_safe_witness :
  exists r w', manage_open_positions sample_settings (fun _ => f_zero) BiasUp None sample_world = (r, w') /\
  book_inv w'
  /\ (forall q, In q (w_positions sample_world) ->
       is_open q = false \/ owner_row q = false \/ is_direct (w_strategies sample_world) q = true ->
       In q (w_positions w'))
  /\ (exists xs, w_executions w' = w_executions sample_world ++ xs
       /\ sum_by remaining_quantity (w_positions w') + sum_by x_quantity xs = 750)
  /\ w_orders w' = w_orders sample_world.
Proof.
  do 2 eexists. split; [vm_compute; reflexivity|].
  eapply (manage_open_positions_safe sample_settings (fun _ => f_zero) BiasUp None sample_world);
    [exact sample_book | vm_compute; reflexivity].
Defined.


(** One lot left to one partial-profit lot: the target closes the row. *)
Definition one_lot : StrategyPosition := sample_position <| total_quantity := 375 |> <| remaining_quantity := 375 |>.

Definition one_lot_world : world ScriptedBroker store := sample_world <| w_positions := [one_lot] |>.

Lemma partial_close_leaves_no_stamp_witness :
  exists o w', apply_tick one_lot (Dec 2460 0) one_lot_world = (Ok o, w') /\ t_closed o = true /\
  exists p', In p' (w_positions w') /\ same_row one_lot p' /\ status p' = st_closed /\ remaining_quantity p' = 0
    /\ closed_at p' = None /\ exit_reason p' = None.
Proof.
  do 2 eexists. split; [vm_compute; reflexivity|]. split; [reflexivity|].
  eapply (partial_close_leaves_no_stamp one_lot (Dec 2460 0) BUY one_lot_world);
    [reflexivity | by apply pos_invb_sound | reflexivity | by left | vm_compute; reflexivity | reflexivity | reflexivity].
Defined.

Lemma force_close_flattens_witness :
  exists x w' p', close_position_now sample_position "kill_switch" None sample_world = (Ok x, w')
    /\ x_quantity x = 750
    /\ In p' (w_positions w') /\ same_row sample_position p' /\ status p' = st_closed /\ remaining_quantity p' = 0
    /\ (forall q, In q (w_positions sample_world) -> p_id q <> 20 -> In q (w_positions w'))
    /\ (exists xs, w_executions w' = w_executions sample_world ++ xs /\ sum_by x_quantity xs = 750)
    /\ (forall ltp2 r2 w2, close_position_now p' "kill_switch" ltp2 w' = (r2, w2) -> w_executions w2 = w_executions w').
Proof.
  apply (force_close_flattens sample_position "kill_switch" None sample_world);
    [exact sample_book | by left | discriminate].
Defined.
