(* ===== verification/StrategyExecutor.v ===== *)
(** * Strategy executor (backend/app/services/strategy_executor.py)

    From an approved signal to an open, tracked position: side, product type and
    quantity resolution, credential lookup with the rotation fallback, the live
    order path (session, symbol probe, funds gate, idempotency claim, placement,
    fill confirmation, ambiguous-fill flag) or the paper fill, the execution
    rows, and the position row that is opened or summed into.

    The average price travels through the code as a Python value: a [Decimal] on
    the paper path, the [str] of one on the live path ([PStr d] is [str(d)]). *)

From Stdlib Require Import ZArith Lia List Bool String.
From stdpp Require Import base list strings gmap.
From S2P Require Import Prelude PyText PyFloat PyDecimal PyNum Records Enums Models Safeguards Book Samples.

Definition QUANTITY_CEILING_CONTRACTS : Z := 10000.

Record ExecutionResult : Type := {
  success : bool;
  position_id : uuid;
  execution_ids : list uuid;
  broker_order_id : string;
  paper_mode : bool;
  message : string;
  broker_status : OrderStatus
}.

Inductive py_price : Type :=
| PNone
| PDec (d : dec)
| PStr (d : dec).

(** The number a Numeric column stores for the value. *)
Definition column_of (v : py_price) : option dec :=
  match v with PNone => None | PDec d | PStr d => Some d end.

(** [broker_response], as far as the executor reads it. *)
Record FillResponse : Type := {
  fr_order_id : string;
  fr_status : OrderStatus;
  fr_avg_price : py_price;
  fr_filled_qty : Z
}.

(** ** Side, product type, quantity *)

(** [(side_hint or "").strip().lower()]; a truthy non-string has no [strip]. *)
Definition hint_text (side_hint : json) : result exn string :=
  match j_or side_hint (JStr "") with
  | JStr s => Ok (str_lower (str_strip s))
  | _ => Err AttributeError
  end.

Definition resolve_side (action : string) (side_hint : json) : result exn OrderSide :=
  let upper := str_upper action in
  if String.eqb upper "BUY" then Ok BUY
  else if String.eqb upper "SELL" then Ok SELL
  else if String.eqb upper "ENTRY" then
    hint ← hint_text side_hint;
    if String.eqb hint "long" then Ok BUY
    else if String.eqb hint "short" then Ok SELL
    else Err (StrategyExecutorError "side_hint")
  else Err (StrategyExecutorError "unsupported action").

Definition PRODUCT_TYPE_FROM_PAYLOAD (raw : string) : option ProductType :=
  if String.eqb raw "INTRADAY" || String.eqb raw "MIS" then Some INTRADAY
  else if String.eqb raw "MARGIN" || String.eqb raw "NRML" then Some MARGIN
  else if String.eqb raw "DELIVERY" || String.eqb raw "CNC" then Some DELIVERY
  else if String.eqb raw "BO" then Some BO
  else if String.eqb raw "CO" then Some CO
  else None.

Definition FNO_EXCHANGES : list Exchange := [NFO; BFO; CDS; MCX].

Definition is_fno (e : Exchange) : bool := bool_decide (e ∈ FNO_EXCHANGES).

Definition FORBIDDEN_FNO_PAYLOAD_PRODUCT_TYPES : list string := ["INTRADAY"; "MIS"]%string.

Definition resolve_product_type (signal : StrategySignal) (exchange : Exchange) : result exn ProductType :=
  let raw := str_upper (str_or_empty (jget (raw_payload signal) "product_type")) in
  if is_fno exchange then
    if bool_decide (raw ∈ FORBIDDEN_FNO_PAYLOAD_PRODUCT_TYPES) then Err InvalidProductTypeError else Ok MARGIN
  else if String.eqb raw "" then Ok DELIVERY
  else Ok (default DELIVERY (PRODUCT_TYPE_FROM_PAYLOAD raw)).

(** [strategy.entry_lots or 1]. *)
Definition ceiling_lots (strategy : Strategy) : Z := if entry_lots strategy =? 0 then 1 else entry_lots strategy.

(** [signal.quantity], converted when the payload says lots; [None] when falsy. *)
Definition signal_contracts (signal : StrategySignal) (lot_size : Z) : option Z :=
  match g_quantity signal with
  | None => None
  | Some q =>
      if q =? 0 then None
      else
        let q := if j_is_str (jget (raw_payload signal) "quantity_unit") "lots" then q * lot_size else q in
        if q =? 0 then None else Some q
  end.

Definition resolve_quantity (signal : StrategySignal) (strategy : Strategy) (recommended_lots : option Z)
    (lot_size : Z) : result exn Z :=
  if opt_is (fun r => r <=? 0) recommended_lots then Err (StrategyExecutorError "recommended_lots=0")
  else
    let ceiling := ceiling_lots strategy in
    let capped r := Z.min r ceiling * lot_size in
    match ai_validation_enabled strategy, recommended_lots with
    | true, Some r => Ok (capped r)
    | _, _ =>
        match signal_contracts signal lot_size with
        | Some q =>
            if q >? ceiling * lot_size then Err (StrategyExecutorError "exceeds strategy ceiling") else Ok q
        | None =>
            match recommended_lots with
            | Some r => Ok (capped r)
            | None => Ok (ceiling * lot_size)
            end
        end
    end.

Definition validate_quantity (quantity lot_size : Z) (strategy : Strategy) : result exn unit :=
  if (quantity <=? 0) || (quantity >? QUANTITY_CEILING_CONTRACTS) then Err (StrategyExecutorError "range")
  else if lot_size <=? 0 then Err (StrategyExecutorError "lot_size")
  else if negb (quantity mod lot_size =? 0) then Err (StrategyExecutorError "whole-lot multiple")
  else if negb (partial_profit_lots strategy =? 0) && negb ((quantity / lot_size) mod 2 =? 0)
  then Err (StrategyExecutorError "even lot count")
  else Ok tt.

(** ** Levels *)

(** [price * pct / 100]: a [str] price raises TypeError. *)
Definition percent_of (price : py_price) (pct : dec) : result exn dec :=
  match price with
  | PDec d => Ok (ddiv (dmul d pct) (dec_of_Z 100))
  | _ => Err TypeError
  end.

Definition levels_of (d : dec) (price : py_price) (side : OrderSide) (strategy : Strategy)
  : result exn (option dec * option dec * option dec) :=
  target ← match partial_profit_target_pct strategy with
           | None => Ok None
           | Some pct =>
               delta ← percent_of price pct;
               Ok (Some (match side with BUY => dadd d delta | SELL => dsub d delta end))
           end;
  stop ← match hard_sl_pct strategy with
         | None => Ok None
         | Some pct =>
             delta ← percent_of price pct;
             Ok (Some (match side with BUY => dsub d delta | SELL => dadd d delta end))
         end;
  trail ← match trail_offset_pct strategy with
          | None => Ok None
          | Some pct => delta ← percent_of price pct; Ok (Some delta)
          end;
  Ok (target, stop, trail).

(** Target, stop-loss and trail offset; a missing or zero price gives none. *)
Definition compute_levels (avg_price : py_price) (side : OrderSide) (strategy : Strategy)
  : result exn (option dec * option dec * option dec) :=
  match avg_price with
  | PNone => Ok (None, None, None)
  | PDec d => if is_dzero d then Ok (None, None, None) else levels_of d avg_price side strategy
  | PStr d => levels_of d avg_price side strategy
  end.

(** ** Marketable limit (dormant) *)

Definition LIMIT_BUY_FACTOR : dec := Dec 1015 (-3).
Definition LIMIT_SELL_FACTOR : dec := Dec 985 (-3).
Definition NSE_FNO_TICK : dec := Dec 5 (-2).

(** Nearest tick; [None] stands for InvalidOperation in quantize. *)
Definition tick_round (value : dec) : option dec :=
  match dquantize half_up (ddiv value NSE_FNO_TICK) 0 with
  | Some n => Some (dmul n NSE_FNO_TICK)
  | None => None
  end.

(** [Err]: quantize raised; [Ok None]: no usable price. *)
Definition marketable_limit (signal : StrategySignal) (side : OrderSide) : result exn (option dec) :=
  match decimal_of_json (jget (raw_payload signal) "price") with
  | None => Ok None
  | Some cash =>
      if dleb cash dzero then Ok None
      else
        let factor := match side with BUY => LIMIT_BUY_FACTOR | SELL => LIMIT_SELL_FACTOR end in
        match tick_round (dmul cash factor) with
        | Some p => Ok (Some p)
        | None => Err InvalidOperation
        end
  end.

(** The payload price of a paper fill, or zero without one; an unparsable one
    raises (InvalidOperation is not caught). *)
Definition paper_price (signal : StrategySignal) : result exn dec :=
  match jget (raw_payload signal) "price" with
  | JNull => Ok dzero
  | j => match decimal_of_json j with Some d => Ok d | None => Err InvalidOperation end
  end.

(** The entry event appended to the row's history. *)
Definition record_entry_action (p : StrategyPosition) (qty : Z) (side : OrderSide) (signal_id : uuid) (now : datetime)
  : StrategyPosition :=
  p <| last_action := Some "entry"%string |> <| last_action_at := Some now |>
    <| action_history ::= fun h => h ++ [SignalEvent {| ev_action := "entry"; ev_qty := qty; ev_side := side_value side;
                                            ev_ts := now; ev_signal_id := signal_id; ev_leg_role := "entry" |}] |>.

(** The lookup of the entry path, on the rows. *)
Definition matches_entry (strategy_id : uuid) (symbol : string) (side : OrderSide) (subscription_id : option uuid)
    (p : StrategyPosition) : bool :=
  (p_strategy_id p =? strategy_id) && String.eqb (p_symbol p) (str_upper symbol)
  && String.eqb (p_side p) (side_value side) && is_open p
  && bool_decide (p_subscription_id p = subscription_id).

Section Executor.
Context {B R : Type} `{BrokerInterface B} `{RedisStore R} `{Decryptor}.
Context (settings : Settings).

Definition find_existing_open_position (strategy_id : uuid) (symbol : string) (side : OrderSide)
    (subscription_id : option uuid) : M B R (option StrategyPosition) :=
  gets (fun w => latest_by opened_at (List.filter (matches_entry strategy_id symbol side subscription_id) (w_positions w))).

(** ** Credentials and lot size *)

Definition load_credential (credential_id user_id : uuid) : M B R BrokerCredential :=
  rows ← gets w_credentials;
  match find (fun c => (c_id c =? credential_id) && (c_user_id c =? user_id) && c_is_active c) rows with
  | Some row => mret row
  | None =>
      match find (fun c => c_id c =? credential_id) rows with
      | None => raise (StrategyExecutorError "credential not found")
      | Some pointed =>
          match latest_by c_created_at
                  (List.filter (fun c => (c_user_id c =? user_id)
                                    && bool_decide (c_broker_name c = c_broker_name pointed)
                                    && c_is_active c) rows) with
          | None => raise (StrategyExecutorError "no active credential")
          | Some fallback => mret fallback
          end
      end
  end.

(** The payload hint, when it is a positive integer. *)
Definition lot_size_hint (signal : StrategySignal) : result exn (option Z) :=
  match jget (raw_payload signal) "lot_size_hint" with
  | JNull => Ok None
  | j =>
      match int_of_json j with
      | IntOk h => Ok (if h >? 0 then Some h else None)
      | IntValueError => Ok None
      | IntOverflow => Err OverflowError
      end
  end.

Definition resolve_lot_size (broker : option BrokerCredentials) (symbol : string) (signal : StrategySignal)
    (paper : bool) : M B R Z :=
  hint ← from_result (lot_size_hint signal);
  match hint with
  | Some h => mret h
  | None =>
      match paper, broker, get_lot_size with
      | false, Some k, Some getter =>
          found ← on_broker (getter k symbol NFO);
          mret (match found with Some n => if n >? 0 then n else 1 | None => 1 end)
      | _, _, _ => mret 1
      end
  end.

(** ** The live order *)

Definition is_dead (s : OrderStatus) : bool := bool_decide (s = REJECTED) || bool_decide (s = CANCELLED).

(** Funds the gate asks for: lots at the floor price plus ten percent. *)
Definition required_funds (quantity lot_size : Z) : option dec :=
  let lots := if lot_size >? 0 then quantity / lot_size else quantity in
  dquantize half_even (dmul (dmul (dec_of_Z lots) (pre_trade_margin_per_lot_inr settings)) (Dec 110 (-2))) (-2).

Definition claim_signal (signal_id : option uuid) (action_kind : string) : M B R unit :=
  match signal_id with
  | None => mret tt
  | Some sid =>
      acquired ← check_and_set_signal_idempotent sid action_kind SIGNAL_IDEMPOTENCY_TTL_SECONDS;
      raise_when (negb acquired) (BrokerError DuplicateOrderSuppressedError)
  end.

(** Confirmation: a dead or empty fill raises, flagging a timeout first. *)
Definition confirm_entry (k : BrokerCredentials) (oid symbol : string) (side : OrderSide) (quantity : Z)
  : M B R OrderFill :=
  fill ← on_broker (confirm_fill k oid quantity);
  (if is_dead (f_order_status fill) || (f_filled_qty fill <=? 0) then
     (if f_timed_out fill then flag_ambiguous_fill oid symbol side quantity "entry" else mret tt) ;;
     raise (BrokerError BrokerOrderRejectedError)
   else mret tt) ;;
  mret fill.

Definition live_place_order (k : BrokerCredentials) (symbol : string) (side : OrderSide) (quantity lot_size : Z)
    (product_type : ProductType) (signal_id : option uuid) (action_kind : string) (order_type : OrderType)
    (limit_price : option dec) : M B R FillResponse :=
  ensure_session k ;;
  on_broker (validate_symbol k symbol NFO) ;;
  required ← from_result (match required_funds quantity lot_size with Some d => Ok d | None => Err InvalidOperation end);
  available ← on_broker (get_funds k);
  raise_when (dltb available required) (BrokerError BrokerInsufficientFundsError) ;;
  let order := {| o_symbol := str_strip symbol; o_exchange := NFO; o_side := side; o_quantity := quantity;
                  o_order_type := order_type; o_product_type := product_type; o_price := limit_price;
                  o_trigger_price := None; o_tag := Some "strategy-engine"%string |} in
  raise_when (negb (order_request_ok order)) ValidationError ;;
  claim_signal signal_id action_kind ;;
  response ← send_order k order;
  raise_when (is_dead (r_status response)) (BrokerError BrokerOrderRejectedError) ;;
  fill ← confirm_entry k (r_broker_order_id response) symbol side quantity;
  mret {| fr_order_id := r_broker_order_id response; fr_status := f_order_status fill;
          fr_avg_price := match f_avg_price fill with Some d => PStr d | None => PNone end;
          fr_filled_qty := f_filled_qty fill |}.

(** The paper fill at the payload price. *)
Definition simulate_fill (signal : StrategySignal) (quantity : Z) : M B R FillResponse :=
  price ← from_result (paper_price signal);
  oid ← fresh;
  mret {| fr_order_id := String.append "PAPER-" (z_str oid); fr_status := COMPLETE; fr_avg_price := PDec price;
          fr_filled_qty := quantity |}.

(** ** The entry *)

(** One execution row per filled lot, [legs] of them from [leg] on. *)
Fixpoint record_legs (legs : nat) (leg : Z) (signal : StrategySignal) (cred_id : uuid) (side : OrderSide)
    (lot_size : Z) (resp : FillResponse) (paper : bool) : M B R (list uuid) :=
  match legs with
  | O => mret []
  | S legs' =>
      xid ← fresh;
      now ← gets w_now;
      add_execution {| x_id := xid; x_signal_id := g_id signal; x_subscription_id := None; x_broker_credential_id := cred_id;
                       x_leg_number := leg; x_leg_role := "entry"; x_symbol := g_symbol signal;
                       x_side := side_value side; x_quantity := lot_size; x_order_type := MARKET;
                       x_price := column_of (fr_avg_price resp); x_broker_order_id := fr_order_id resp;
                       x_broker_status := if paper then Some COMPLETE else None; x_placed_at := now;
                       x_completed_at := if paper then Some now else None |} ;;
      ids ← record_legs legs' (leg + 1) signal cred_id side lot_size resp paper;
      mret (xid :: ids)
  end.

(** The order (or its simulation) for a resolved quantity. *)
Definition fill_entry (paper : bool) (broker : option BrokerCredentials) (signal : StrategySignal)
    (side : OrderSide) (quantity lot_size : Z) : M B R FillResponse :=
  match paper, broker with
  | false, Some k =>
      product_type ← from_result (resolve_product_type signal NFO);
      live_place_order k (g_symbol signal) side quantity lot_size product_type (Some (g_id signal)) "entry" MARKET None
  | _, _ => simulate_fill signal quantity
  end.

(** Sum into the open row, or open one. *)
Definition track_entry (signal : StrategySignal) (strategy : Strategy) (cred_id : uuid) (side : OrderSide)
    (quantity : Z) (resp : FillResponse) : M B R (uuid * string) :=
  existing ← find_existing_open_position (s_id strategy) (g_symbol signal) side None;
  now ← gets w_now;
  let filled := fr_filled_qty resp in
  match existing with
  | Some p =>
      save_position (record_entry_action
                       (p <| total_quantity := total_quantity p + filled |>
                          <| remaining_quantity := remaining_quantity p + filled |>)
                       quantity side (g_id signal) now) ;;
      mret (p_id p, " (summed)"%string)
  | None =>
      '(target, stop, trail) ← from_result (compute_levels (fr_avg_price resp) side strategy);
      pid ← fresh;
      let price := column_of (fr_avg_price resp) in
      add_position (record_entry_action
        {| p_id := pid; p_user_id := g_user_id signal; p_strategy_id := s_id strategy;
           p_broker_credential_id := cred_id; p_signal_id := Some (g_id signal); p_subscription_id := None;
           p_symbol := g_symbol signal; p_side := side_value side; total_quantity := filled;
           remaining_quantity := filled; avg_entry_price := price; target_price := target;
           stop_loss_price := stop; trail_offset := trail; highest_price_seen := price; best_price := None;
           current_atr := None; circuit_breaker_triggered := false; exit_reason := None; status := st_open;
           last_action := None; last_action_at := None; action_history := []; opened_at := now;
           closed_at := None; final_pnl := None |} quantity side (g_id signal) now) ;;
      mret (pid, ""%string)
  end.

Definition place_strategy_orders (signal : StrategySignal) (strategy : Strategy) (recommended_lots : option Z)
  : M B R ExecutionResult :=
  let paper := resolve_paper_mode settings (Some strategy) in
  match s_broker_credential_id strategy with
  | None => raise (StrategyExecutorError "no broker_credential_id")
  | Some credential_id =>
      side ← from_result (resolve_side (g_action signal) (jget (raw_payload signal) "side"));
      cred_row ← load_credential credential_id (g_user_id signal);
      broker ← from_result (if paper then Ok None
                            else k ← build_broker_credentials cred_row (g_user_id signal); Ok (Some k));
      lot_size ← resolve_lot_size broker (g_symbol signal) signal paper;
      quantity ← from_result (resolve_quantity signal strategy recommended_lots lot_size);
      from_result (validate_quantity quantity lot_size strategy) ;;
      resp ← fill_entry paper broker signal side quantity lot_size;
      ids ← record_legs (Z.to_nat (fr_filled_qty resp / lot_size)) 1 signal (c_id cred_row) side lot_size resp paper;
      '(pid, note) ← track_entry signal strategy (c_id cred_row) side quantity resp;
      mret {| success := true; position_id := pid; execution_ids := ids; broker_order_id := fr_order_id resp;
              paper_mode := paper;
              message := String.append (if paper then "paper fill" else "broker order placed") note;
              broker_status := fr_status resp |}
  end.
End Executor.

(** ** Quantities *)

(** The exact domain of [validate_quantity]. *)
Lemma validate_quantity_iff q lot strategy :
  validate_quantity q lot strategy = Ok tt <->
  0 < q <= QUANTITY_CEILING_CONTRACTS /\ 0 < lot /\ (lot | q)
  /\ (partial_profit_lots strategy <> 0 -> Z.Even (q / lot)).
Proof.
  unfold validate_quantity.
  destruct (_ || _) eqn:E1.
  { split; [done|]. intros (Hq & _). bool_to_prop. unfold QUANTITY_CEILING_CONTRACTS in *.
    rewrite Z.gtb_ltb, Z.leb_le, Z.ltb_lt in E1. lia. }
  apply orb_false_elim in E1 as [E1 E2]. rewrite Z.gtb_ltb in E2. bool_to_prop.
  destruct (Z.leb_spec lot 0); [split; [done | lia]|].
  destruct (Z.eqb_spec (q mod lot) 0) as [Em|Em]; simpl.
  2:{ split; [done|]. intros (_ & _ & Hd & _). apply Z.mod_divide in Hd; lia. }
  apply Z.mod_divide in Em; [|lia].
  rewrite <- Z.even_spec. rewrite Zmod_even.
  destruct (Z.eqb_spec (partial_profit_lots strategy) 0), (Z.even (q / lot)); simpl; split; intros;
    try done; try (repeat split; try lia; done); naive_solver.
Qed.

Lemma resolve_quantity_ceiling signal strategy rec lot q :
  0 <= lot -> resolve_quantity signal strategy rec lot = Ok q -> q <= ceiling_lots strategy * lot.
Proof.
  intros Hlot. unfold resolve_quantity. destruct (opt_is _ rec); [done|].
  assert (Hcap : forall r, Z.min r (ceiling_lots strategy) * lot <= ceiling_lots strategy * lot) by nia.
  assert (Htail : match signal_contracts signal lot with
                  | Some q => if q >? ceiling_lots strategy * lot
                              then Err (StrategyExecutorError "exceeds strategy ceiling") else Ok q
                  | None => match rec with
                            | Some r => Ok (Z.min r (ceiling_lots strategy) * lot)
                            | None => Ok (ceiling_lots strategy * lot)
                            end
                  end = Ok q -> q <= ceiling_lots strategy * lot).
  { destruct (signal_contracts signal lot) as [c|].
    - destruct (c >? _) eqn:E; [done|]. intros [= <-]. rewrite Z.gtb_ltb in E. bool_to_prop. lia.
    - destruct rec as [r|]; intros [= <-]; [apply Hcap | lia]. }
  destruct (ai_validation_enabled strategy); [|done]. destruct rec as [r|]; [|done]. intros [= <-]. apply Hcap.
Qed.

(** ** The live order, case by case *)

Section LiveOrder.
Context {B R : Type} `{BrokerInterface B} `{RedisLaws R} `{Decryptor}.
Context (settings : Settings).
Implicit Types (w : world B R).

Definition entry_order (symbol : string) (side : OrderSide) (quantity : Z) (pt : ProductType) (ot : OrderType)
    (lp : option dec) : OrderRequest :=
  {| o_symbol := str_strip symbol; o_exchange := NFO; o_side := side; o_quantity := quantity;
     o_order_type := ot; o_product_type := pt; o_price := lp; o_trigger_price := None;
     o_tag := Some "strategy-engine"%string |}.

(** The tables and the clock are as before; Redis, orders and the broker may differ. *)
Record same_tables (w w' : world B R) : Prop := {
  tb_positions : w_positions w' = w_positions w;
  tb_executions : w_executions w' = w_executions w;
  tb_credentials : w_credentials w' = w_credentials w;
  tb_strategies : w_strategies w' = w_strategies w;
  tb_platform : w_platform w' = w_platform w;
  tb_now : w_now w' = w_now w;
  tb_next : w_next_id w <= w_next_id w'
}.

#[export] Instance same_tables_preorder : PreOrder same_tables.
Proof. split; [by split|]. intros u v w [] []. split; try (etransitivity; eauto; done). Qed.

Lemma quiet_same_tables w w' : quiet w w' -> same_tables w w'.
Proof. intros []. by split. Qed.

(** The order of the call left for the broker. *)
Record order_sent (k : BrokerCredentials) (o : OrderRequest) (lot_size : Z) (signal_id : option uuid)
    (kind : string) (w w' : world B R) (r : result exn FillResponse) : Prop := {
  os_orders : w_orders w' = w_orders w ++ [(k, o)];
  os_valid : order_request_ok o = true;
  os_funds : exists need have b b', required_funds settings (o_quantity o) lot_size = Some need
    /\ get_funds k b = (Ok have, b') /\ dleb need have = true;
  os_slot : forall sid, signal_id = Some sid ->
    redis_get (signal_idempotency_key sid kind) (w_now w) (w_redis w) = None
    /\ held (signal_idempotency_key sid kind) (w_now w) (w_now w + SIGNAL_IDEMPOTENCY_TTL_SECONDS) (w_redis w');
  os_tables : same_tables w w';
  os_result : (exists e, r = Err e)
    \/ exists oid fill b b', confirm_fill k oid (o_quantity o) b = (Ok fill, b')
       /\ is_dead (f_order_status fill) = false /\ 0 < f_filled_qty fill
       /\ r = Ok {| fr_order_id := oid; fr_status := f_order_status fill;
                    fr_avg_price := match f_avg_price fill with Some d => PStr d | None => PNone end;
                    fr_filled_qty := f_filled_qty fill |}
}.

(** Claiming the slot: free and now held, or refused with nothing changed. *)
Lemma claim_signal_spec signal_id kind w r w' :
  claim_signal signal_id kind w = (r, w') ->
  (exists e, r = Err e /\ quiet w w')
  \/ (r = Ok tt /\ same_tables w w' /\ w_orders w' = w_orders w
      /\ forall sid, signal_id = Some sid ->
           redis_get (signal_idempotency_key sid kind) (w_now w) (w_redis w) = None
           /\ held (signal_idempotency_key sid kind) (w_now w) (w_now w + SIGNAL_IDEMPOTENCY_TTL_SECONDS) (w_redis w')).
Proof.
  unfold claim_signal. destruct signal_id as [sid|]; [|intros [= <- <-]; right; by split].
  unfold mbind, M_bind, check_and_set_signal_idempotent, redis_set_nx. simpl.
  destruct (redis_get _ (w_now w) (w_redis w)) eqn:E; intros [= <- <-].
  - left. eexists. split; [done|]. by split; simpl_rec.
  - right. split; [done|]. simpl_rec. split; [by split|]. split; [done|]. intros ? [= <-].
    split; [done|]. intros t Ht. rewrite redis_get_put, decide_True by done.
    rewrite (proj2 (Z.ltb_lt t _)) by lia. eauto.
Qed.

(** A flag never touches a signal slot. *)
Lemma flag_frame oid symbol side q ctx w r w' :
  flag_ambiguous_fill oid symbol side q ctx w = (r, w') ->
  r = Ok tt /\ same_tables w w' /\ w_orders w' = w_orders w
  /\ forall id kind t, redis_get (signal_idempotency_key id kind) t (w_redis w')
                       = redis_get (signal_idempotency_key id kind) t (w_redis w).
Proof.
  unfold flag_ambiguous_fill, send_alert, modify, mbind, M_bind. intros [= <- <-]. simpl_rec.
  split; [done|]. split; [by split|]. split; [done|]. intros id kind t.
  rewrite redis_get_put, decide_False; [done|]. intros E. by destruct (keys_disjoint id kind symbol).
Qed.

Lemma confirm_entry_spec k oid symbol side q w r w' :
  confirm_entry k oid symbol side q w = (r, w') ->
  same_tables w w' /\ w_orders w' = w_orders w
  /\ (forall id kind t, redis_get (signal_idempotency_key id kind) t (w_redis w')
                       = redis_get (signal_idempotency_key id kind) t (w_redis w))
  /\ ((exists e, r = Err e)
      \/ exists fill b b', confirm_fill k oid q b = (Ok fill, b') /\ is_dead (f_order_status fill) = false
         /\ 0 < f_filled_qty fill /\ r = Ok fill).
Proof.
  unfold confirm_entry, on_broker. cbv [mbind M_bind].
  destruct (confirm_fill k oid q (w_broker w)) as [[fill|e] b'] eqn:E.
  2:{ intros [= <- <-]. simpl_rec. split; [by split|]. split; [done|]. split; [done|]. eauto. }
  destruct (_ || _) eqn:Ed.
  - destruct (f_timed_out fill).
    + destruct (flag_ambiguous_fill _ _ _ _ _ _) as [r1 w1] eqn:Ef. apply flag_frame in Ef as (-> & Ht & Ho & Hr).
      intros [= <- <-]. split; [etransitivity; [|exact Ht]; by split|]. split; [by rewrite Ho|].
      split; [|eauto]. intros. by rewrite Hr.
    + intros [= <- <-]. simpl_rec. split; [by split|]. split; [done|]. split; [done|]. eauto.
  - intros [= <- <-]. simpl_rec. split; [by split|]. split; [done|]. split; [done|].
    apply orb_false_elim in Ed as [Hd Hf]. bool_to_prop. right. by eexists fill, _, _.
Qed.

(** Everything before the claim: it raises, or the gates hold; nothing is sent. *)
Lemma pre_trade_spec k symbol q lot_size w (kont : M B R FillResponse) r w' :
  (ensure_session k ;;
   on_broker (validate_symbol k symbol NFO) ;;
   required ← from_result (match required_funds settings q lot_size with Some d => Ok d | None => Err InvalidOperation end);
   available ← on_broker (get_funds k);
   raise_when (dltb available required) (BrokerError BrokerInsufficientFundsError) ;;
   kont) w = (r, w') ->
  (exists e, r = Err e /\ quiet w w')
  \/ exists w1, quiet w w1 /\ kont w1 = (r, w')
     /\ exists need have b b', required_funds settings q lot_size = Some need
        /\ get_funds k b = (Ok have, b') /\ dleb need have = true.
Proof.
  intros E. apply bind_cases in E as [([] & w1 & E1 & E) | (e & -> & E1)];
    apply ensure_session_quiet in E1; [|left; eauto].
  apply bind_cases in E as [([] & w2 & E2 & E) | (e & -> & E2)];
    apply on_broker_quiet in E2; [|left; exists e; split; [done | by transitivity w1]].
  assert (Hq2 : quiet w w2) by (by transitivity w1). clear E1 E2 w1.
  destruct (required_funds settings q lot_size) as [need|] eqn:En.
  2:{ left. exists InvalidOperation. injection E as <- <-. done. }
  apply bind_cases in E as [(need' & w3 & E3 & E) | (e & -> & E3)]; [|done]. injection E3 as <- <-.
  apply bind_cases in E as [(have & w3 & E3 & E) | (e & -> & E3)].
  2:{ apply on_broker_quiet in E3. left. exists e. split; [done | by transitivity w2]. }
  assert (Hq3 : quiet w w3) by (transitivity w2; [done | by eapply on_broker_quiet]).
  unfold on_broker in E3. destruct (get_funds k (w_broker w2)) as [rf b'] eqn:Ef. injection E3 as -> _.
  destruct (dltb have need) eqn:El; simpl in E.
  - left. injection E as <- <-. eauto.
  - right. exists w3. split; [done|]. split; [exact E|]. exists need, have, (w_broker w2), b'.
    rewrite dltb_negb_dleb in El. by apply negb_false_iff in El.
Qed.

Lemma send_order_spec k o w r w' :
  send_order k o w = (r, w') ->
  same_tables w w' /\ w_orders w' = w_orders w ++ [(k, o)] /\ w_redis w' = w_redis w.
Proof.
  unfold send_order, modify, on_broker, mbind, M_bind. simpl_rec. destruct (place_order k o (w_broker w)).
  intros [= <- <-]. simpl_rec. by split.
Qed.

(** Once the slot is claimed: one order goes out, whatever happens next. *)
Lemma send_and_confirm_spec k o symbol side q w r w' :
  (response ← send_order k o;
   raise_when (is_dead (r_status response)) (BrokerError BrokerOrderRejectedError) ;;
   fill ← confirm_entry k (r_broker_order_id response) symbol side q;
   mret {| fr_order_id := r_broker_order_id response; fr_status := f_order_status fill;
           fr_avg_price := match f_avg_price fill with Some d => PStr d | None => PNone end;
           fr_filled_qty := f_filled_qty fill |}) w = (r, w') ->
  same_tables w w' /\ w_orders w' = w_orders w ++ [(k, o)]
  /\ (forall id kind t, redis_get (signal_idempotency_key id kind) t (w_redis w')
                        = redis_get (signal_idempotency_key id kind) t (w_redis w))
  /\ ((exists e, r = Err e)
      \/ exists oid fill b b', confirm_fill k oid q b = (Ok fill, b')
         /\ is_dead (f_order_status fill) = false /\ 0 < f_filled_qty fill
         /\ r = Ok {| fr_order_id := oid; fr_status := f_order_status fill;
                      fr_avg_price := match f_avg_price fill with Some d => PStr d | None => PNone end;
                      fr_filled_qty := f_filled_qty fill |}).
Proof.
  intros E. apply bind_cases in E as [(resp & w3 & E3 & E) | (e & -> & E3)];
    apply send_order_spec in E3 as (Ht3 & Ho3 & Hr3).
  2:{ split; [done|]. split; [done|]. split; [by rewrite Hr3 | eauto]. }
  destruct (is_dead (r_status resp)); simpl in E.
  { injection E as <- <-. split; [done|]. split; [done|]. split; [by rewrite Hr3 | eauto]. }
  apply bind_cases in E as [([] & w4 & [= <-] & E) | (e & -> & E4)]; [|done].
  apply bind_cases in E as [(fill & w4 & E4 & E) | (e & -> & E4)];
    apply confirm_entry_spec in E4 as (Ht4 & Ho4 & Hr4 & Hres).
  - injection E as <- <-. split; [by transitivity w3|]. split; [congruence|].
    split; [intros; by rewrite Hr4, Hr3|]. right.
    destruct Hres as [(e & [=]) | (fill' & b & b' & E5 & Hd & Hf & [= <-])]. by exists (r_broker_order_id resp), fill, b, b'.
  - split; [by transitivity w3|]. split; [congruence|]. split; [intros; by rewrite Hr4, Hr3 | eauto].
Qed.

(** A live call raises before sending, leaving slot and orders alone, or sends
    exactly one order. *)
Lemma live_place_order_cases k symbol side q lot_size pt signal_id kind ot lp w r w' :
  live_place_order settings k symbol side q lot_size pt signal_id kind ot lp w = (r, w') ->
  (exists e, r = Err e /\ quiet w w')
  \/ order_sent k (entry_order symbol side q pt ot lp) lot_size signal_id kind w w' r.
Proof.
  unfold live_place_order. fold (entry_order symbol side q pt ot lp). set (o := entry_order symbol side q pt ot lp).
  intros E. apply pre_trade_spec in E as [? | (w1 & Hq1 & E & Hfunds)]; [by left|].
  destruct (order_request_ok o) eqn:Eok; simpl in E.
  2:{ left. injection E as <- <-. eauto. }
  apply bind_cases in E as [([] & w2 & [= <-] & E) | (e & -> & E2)]; [|done].
  apply bind_cases in E as [([] & w2 & E2 & E) | (e & -> & E2)]; apply claim_signal_spec in E2.
  2:{ destruct E2 as [(e' & [= <-] & Hq2) | ([=] & _)]. left. exists e. split; [done | by transitivity w1]. }
  destruct E2 as [(e & [=] & _) | (_ & Ht2 & Ho2 & Hslot)].
  apply send_and_confirm_spec in E as (Ht3 & Ho3 & Hr3 & Hres). right. split; auto.
  - by rewrite Ho3, Ho2, (qt_orders _ _ Hq1).
  - intros sid Es. destruct (Hslot sid Es) as [Hfree Hheld].
    rewrite (qt_now _ _ Hq1), (qt_redis _ _ Hq1) in *. split; [done|].
    intros t Ht. rewrite Hr3. by apply Hheld.
  - transitivity w2; [transitivity w1; [by apply quiet_same_tables | done] | done].
Qed.
End LiveOrder.

(** ** The entry, case by case *)

Section Entry.
Context {B R : Type} `{BrokerInterface B} `{RedisLaws R} `{Decryptor}.
Context (settings : Settings).
Implicit Types (w : world B R).

Lemma load_credential_spec cid uid w r w' :
  load_credential cid uid w = (r, w') ->
  w' = w /\ ((exists e, r = Err e)
             \/ exists c, r = Ok c /\ In c (w_credentials w) /\ c_user_id c = uid /\ c_is_active c = true).
Proof.
  unfold load_credential, gets, raise, mret, M_ret. cbv [mbind M_bind].
  destruct (find _ (w_credentials w)) as [c|] eqn:E1.
  { simpl. intros [= <- <-]. apply find_some in E1 as [Hin Hc]. bool_to_prop. eauto 10. }
  clear E1. destruct (find _ (w_credentials w)) as [pointed|]; simpl; [|intros [= <- <-]; eauto].
  destruct (latest_by _ _) as [c|] eqn:E2; simpl; intros [= <- <-]; [|eauto].
  apply latest_by_in, filter_In in E2 as [Hin Hc]. bool_to_prop. eauto 10.
Qed.

Lemma resolve_lot_size_quiet broker symbol signal paper :
  preserves (@quiet B R) (resolve_lot_size broker symbol signal paper).
Proof.
  apply preserves_bind; [apply _ | apply preserves_from_result, _|]. intros [h|]; [apply preserves_ret, _|].
  destruct paper; [apply preserves_ret, _|]. destruct broker; [|apply preserves_ret, _].
  destruct get_lot_size; [|apply preserves_ret, _].
  apply preserves_bind; [apply _ | apply on_broker_quiet | intros; apply preserves_ret, _].
Qed.

Lemma simulate_fill_spec signal q w r w' :
  simulate_fill signal q w = (r, w') ->
  quiet w w' /\ ((exists e, r = Err e)
    \/ exists oid d, r = Ok {| fr_order_id := oid; fr_status := COMPLETE; fr_avg_price := PDec d; fr_filled_qty := q |}).
Proof.
  unfold simulate_fill, from_result, fresh, mret, M_ret. cbv [mbind M_bind].
  destruct (paper_price signal) as [d|e]; intros [= <- <-]; [|split; [done | eauto]].
  split; [split; simpl_rec; lia || done | eauto].
Qed.

(** What an accepted signal resolved to before any order. *)
Record resolved (signal : StrategySignal) (strategy : Strategy) (rec : option Z) (w : world B R)
    (side : OrderSide) (cred : BrokerCredential) (broker : option BrokerCredentials) (lot q : Z) : Prop := {
  rs_side : resolve_side (g_action signal) (jget (raw_payload signal) "side") = Ok side;
  rs_cred : In cred (w_credentials w) /\ c_user_id cred = g_user_id signal /\ c_is_active cred = true;
  rs_broker : match broker with
              | None => resolve_paper_mode settings (Some strategy) = true
              | Some k => resolve_paper_mode settings (Some strategy) = false
                          /\ build_broker_credentials cred (g_user_id signal) = Ok k
              end;
  rs_quantity : resolve_quantity signal strategy rec lot = Ok q;
  rs_valid : validate_quantity q lot strategy = Ok tt
}.

(** Resolution raises without a trace, or yields the resolved entry. *)
Lemma resolve_entry_spec signal strategy rec (kont : _ -> _ -> _ -> _ -> _ -> M B R ExecutionResult) w r w' :
  let paper := resolve_paper_mode settings (Some strategy) in
  match s_broker_credential_id strategy with
  | None => raise (StrategyExecutorError "no broker_credential_id")
  | Some credential_id =>
      side ← from_result (resolve_side (g_action signal) (jget (raw_payload signal) "side"));
      cred_row ← load_credential credential_id (g_user_id signal);
      broker ← from_result (if paper then Ok None
                            else k ← build_broker_credentials cred_row (g_user_id signal); Ok (Some k));
      lot_size ← resolve_lot_size broker (g_symbol signal) signal paper;
      quantity ← from_result (resolve_quantity signal strategy rec lot_size);
      from_result (validate_quantity quantity lot_size strategy) ;;
      kont side cred_row broker lot_size quantity
  end w = (r, w') ->
  (exists e, r = Err e /\ quiet w w')
  \/ exists side cred broker lot q w1, resolved signal strategy rec w side cred broker lot q
     /\ quiet w w1 /\ kont side cred broker lot q w1 = (r, w').
Proof.
  intros paper E. destruct (s_broker_credential_id strategy) as [cid|]; [|left; injection E as <- <-; eauto].
  destruct (resolve_side _ _) as [side|e] eqn:Es; [|left; injection E as <- <-; eauto].
  apply bind_cases in E as [(side' & w1 & [= <- <-] & E) | (e & -> & [=])].
  apply bind_cases in E as [(cred & w1 & E1 & E) | (e & -> & E1)];
    apply load_credential_spec in E1 as [-> [(e1 & Ee) | (c & Ec & Hc)]]; try done; [|by left; eauto].
  injection Ec as <-.
  destruct (if paper then Ok None else _) as [broker|e] eqn:Eb; [|left; injection E as <- <-; eauto].
  apply bind_cases in E as [(broker' & w1 & [= <- <-] & E) | (e & -> & [=])].
  apply bind_cases in E as [(lot & w1 & E1 & E) | (e & -> & E1)]; apply resolve_lot_size_quiet in E1; [|by left; eauto].
  destruct (resolve_quantity _ _ _ _) as [q|e] eqn:Eq; [|left; injection E as <- <-; eauto].
  apply bind_cases in E as [(q' & w2 & [= <- <-] & E) | (e & -> & [=])].
  destruct (validate_quantity _ _ _) as [[]|e] eqn:Ev; [|left; injection E as <- <-; eauto].
  apply bind_cases in E as [(u & w2 & [= <- <-] & E) | (e & -> & [=])].
  right. exists side, cred, broker, lot, q, w1. split; [|done]. split; auto.
  unfold paper in Eb. destruct (resolve_paper_mode _ _); [by injection Eb as <-|].
  destruct (build_broker_credentials _ _) as [k|]; [|done]. by injection Eb as <-.
Qed.

(** The fill of a resolved entry. *)
Inductive filled_by (signal : StrategySignal) (side : OrderSide) (lot q : Z) (w : world B R)
  : option BrokerCredentials -> result exn FillResponse -> world B R -> Prop :=
| fill_raised broker e w' : quiet w w' -> filled_by signal side lot q w broker (Err e) w'
| fill_paper oid d w' :
    quiet w w' ->
    filled_by signal side lot q w None
      (Ok {| fr_order_id := oid; fr_status := COMPLETE; fr_avg_price := PDec d; fr_filled_qty := q |}) w'
| fill_live k r w' :
    resolve_product_type signal NFO = Ok MARGIN ->
    order_sent settings k (entry_order (g_symbol signal) side q MARGIN MARKET None) lot (Some (g_id signal)) "entry" w w' r ->
    filled_by signal side lot q w (Some k) r w'.

Lemma resolve_product_type_nfo signal pt : resolve_product_type signal NFO = Ok pt -> pt = MARGIN.
Proof. unfold resolve_product_type. simpl. destruct (bool_decide _); congruence. Qed.

Lemma fill_entry_cases paper broker signal side q lot w r w' :
  match broker with None => paper = true | Some _ => paper = false end ->
  fill_entry settings paper broker signal side q lot w = (r, w') -> filled_by signal side lot q w broker r w'.
Proof.
  destruct broker as [k|]; intros ->; simpl.
  - destruct (resolve_product_type signal NFO) as [pt|e] eqn:Ep.
    2:{ intros [= <- <-]. by apply fill_raised. }
    pose proof (resolve_product_type_nfo _ _ Ep) as ->. intros E.
    apply bind_cases in E as [(pt & w1 & [= <- <-] & E) | (e & -> & [=])].
    apply live_place_order_cases in E as [(e & -> & Hq) | Hs]; [by apply fill_raised | by apply fill_live].
  - intros E. apply simulate_fill_spec in E as [Hq [(e & ->) | (oid & d & ->)]]; by constructor.
Qed.

(** The execution rows of the legs. *)
Definition leg_row (signal : StrategySignal) (side : OrderSide) (lot : Z) (x : StrategyExecution) : Prop :=
  x_signal_id x = g_id signal /\ x_leg_role x = "entry"%string /\ x_symbol x = g_symbol signal
  /\ x_side x = side_value side /\ x_quantity x = lot.

Lemma record_legs_spec legs leg signal cid side lot resp paper w r w' :
  record_legs legs leg signal cid side lot resp paper w = (r, w') ->
  exists ids xs, r = Ok ids /\ w_executions w' = w_executions w ++ xs /\ length xs = legs
    /\ Forall (leg_row signal side lot) xs /\ same_env w w' /\ w_positions w' = w_positions w.
Proof.
  revert leg w r w'. induction legs as [|legs IH]; intros leg w r w'; simpl.
  { intros [= <- <-]. exists [], []. by rewrite app_nil_r. }
  unfold fresh, gets, add_execution, modify. cbv [mbind M_bind].
  destruct (record_legs _ _ _ _ _ _ _ _ _) as [r1 w1] eqn:E1.
  apply IH in E1 as (ids & xs & -> & Hx & Hl & Hall & He & Hp). simpl_rec.
  intros [= <- <-]. eexists (_ :: ids), (_ :: xs). split; [done|].
  split; [rewrite Hx, <- app_assoc; reflexivity|]. split; [simpl; lia|].
  split; [by constructor|]. split; [|by rewrite Hp].
  transitivity (w <| w_next_id := w_next_id w + 1 |>); [split; simpl_rec; lia || done|].
  destruct He. by split.
Qed.

(** A re-entry: the open row grows, its levels and status stay. *)
Record summed (p p' : StrategyPosition) (filled : Z) : Prop := {
  sm_row : same_row p p';
  sm_total : total_quantity p' = total_quantity p + filled;
  sm_remaining : remaining_quantity p' = remaining_quantity p + filled;
  sm_status : status p' = status p;
  sm_levels : target_price p' = target_price p /\ stop_loss_price p' = stop_loss_price p
              /\ trail_offset p' = trail_offset p /\ avg_entry_price p' = avg_entry_price p
}.

(** A first entry. *)
Record opened (signal : StrategySignal) (strategy : Strategy) (cid : uuid) (side : OrderSide)
    (resp : FillResponse) (p' : StrategyPosition) : Prop := {
  op_strategy : p_strategy_id p' = s_id strategy;
  op_owner : p_user_id p' = g_user_id signal /\ p_subscription_id p' = None;
  op_credential : p_broker_credential_id p' = cid;
  op_signal : p_signal_id p' = Some (g_id signal);
  op_symbol : p_symbol p' = g_symbol signal;
  op_side : p_side p' = side_value side;
  op_quantity : total_quantity p' = fr_filled_qty resp /\ remaining_quantity p' = fr_filled_qty resp;
  op_status : status p' = st_open;
  op_price : avg_entry_price p' = column_of (fr_avg_price resp);
  op_levels : compute_levels (fr_avg_price resp) side strategy
              = Ok (target_price p', stop_loss_price p', trail_offset p')
}.

(** What the entry did to the positions table. *)
Inductive tracked (signal : StrategySignal) (strategy : Strategy) (cid : uuid) (side : OrderSide)
    (resp : FillResponse) (w w' : world B R) : uuid -> Prop :=
| tracked_sum p p' :
    In p (w_positions w) -> matches_entry (s_id strategy) (g_symbol signal) side None p = true ->
    summed p p' (fr_filled_qty resp) -> w_positions w' = put_row p' (w_positions w) ->
    tracked signal strategy cid side resp w w' (p_id p')
| tracked_new p' :
    (forall p, In p (w_positions w) -> matches_entry (s_id strategy) (g_symbol signal) side None p = false) ->
    opened signal strategy cid side resp p' -> w_next_id w <= p_id p' < w_next_id w' ->
    w_positions w' = w_positions w ++ [p'] ->
    tracked signal strategy cid side resp w w' (p_id p').

Lemma track_entry_spec signal strategy cid side q resp w r w' :
  track_entry signal strategy cid side q resp w = (r, w') ->
  same_env w w' /\ w_executions w' = w_executions w
  /\ ((exists e, r = Err e /\ w_positions w' = w_positions w /\ compute_levels (fr_avg_price resp) side strategy = Err e)
      \/ exists pid note, r = Ok (pid, note) /\ tracked signal strategy cid side resp w w' pid).
Proof.
  unfold track_entry, find_existing_open_position, gets. cbv [mbind M_bind].
  destruct (latest_by opened_at _) as [p|] eqn:El.
  - apply latest_by_in, filter_In in El as [Hin Hm].
    unfold save_position, modify. intros [= <- <-]. simpl_rec. split; [by split|]. split; [done|]. right.
    eexists _, _. split; [done|].
    match goal with |- context [put_row ?x _] => apply (tracked_sum _ _ _ _ _ _ _ p x) end; auto; by split.
  - apply latest_by_none in El.
    assert (Hnone : forall p, In p (w_positions w) -> matches_entry (s_id strategy) (g_symbol signal) side None p = false).
    { intros p Hp. apply not_true_is_false. intros Hm.
      assert (Hf : In p (List.filter (matches_entry (s_id strategy) (g_symbol signal) side None) (w_positions w)))
        by (by apply filter_In).
      by rewrite El in Hf. }
    unfold from_result. destruct (compute_levels _ _ _) as [[[t sl] tr]|e] eqn:Ec.
    2:{ intros [= <- <-]. split; [by split|]. split; [done|]. left. eauto. }
    unfold fresh, add_position, modify. intros [= <- <-]. simpl_rec.
    split; [split; simpl; lia || done|]. split; [done|]. right. eexists _, _. split; [done|].
    match goal with |- context [w_positions w ++ [?x]] => apply (tracked_new _ _ _ _ _ _ _ x) end; auto;
      [by split | simpl; lia].
Qed.

(** Every outcome of an entry. *)
Inductive entry_outcome (signal : StrategySignal) (strategy : Strategy) (rec : option Z) (w : world B R)
  : result exn ExecutionResult -> world B R -> Prop :=
| entry_refused e w' :
    quiet w w' -> entry_outcome signal strategy rec w (Err e) w'
| entry_unfilled side cred k lot q w1 e w' :
    resolved signal strategy rec w side cred (Some k) lot q -> quiet w w1 ->
    filled_by signal side lot q w1 (Some k) (Err e) w' ->
    entry_outcome signal strategy rec w (Err e) w'
| entry_filled side cred broker lot q w1 resp w2 xs w3 r w' :
    resolved signal strategy rec w side cred broker lot q -> quiet w w1 ->
    filled_by signal side lot q w1 broker (Ok resp) w2 ->
    same_env w2 w3 -> w_positions w3 = w_positions w2 ->
    w_executions w3 = w_executions w2 ++ xs -> length xs = Z.to_nat (fr_filled_qty resp / lot) ->
    Forall (leg_row signal side lot) xs ->
    same_env w3 w' -> w_executions w' = w_executions w3 ->
    ((exists e, r = Err e /\ w_positions w' = w_positions w3
                /\ compute_levels (fr_avg_price resp) side strategy = Err e)
     \/ exists res, r = Ok res /\ tracked signal strategy (c_id cred) side resp w3 w' (position_id res)) ->
    entry_outcome signal strategy rec w r w'.

Lemma place_strategy_orders_cases signal strategy rec w r w' :
  place_strategy_orders settings signal strategy rec w = (r, w') -> entry_outcome signal strategy rec w r w'.
Proof.
  unfold place_strategy_orders. intros E. apply resolve_entry_spec in E
    as [(e & -> & Hq) | (side & cred & broker & lot & q & w1 & Hres & Hq1 & E)]; [by constructor|].
  apply bind_cases in E as [(resp & w2 & E2 & E) | (e & -> & E2)]; apply fill_entry_cases in E2;
    try (destruct Hres as [_ _ Hb _ _]; destruct broker; tauto).
  2:{ destruct broker as [k|]; [by eapply entry_unfilled|].
      inversion E2; subst. apply entry_refused. by transitivity w1. }
  apply bind_cases in E as [(ids & w3 & E3 & E) | (e & -> & E3)];
    apply record_legs_spec in E3 as (ids' & xs & Eids & Hx & Hl & Hall & He & Hp); [|done].
  apply bind_cases in E as [([pid note] & w4 & E4 & E) | (e & -> & E4)];
    apply track_entry_spec in E4 as (He4 & Hx4 & Ht4).
  - injection E as <- <-. eapply entry_filled; eauto. right.
    destruct Ht4 as [(e & [=] & _) | (pid' & note' & [= <- <-] & Ht)]. eauto.
  - eapply entry_filled; eauto. left.
    destruct Ht4 as [(e' & [= <-] & Hpos & Hc) | (? & ? & [=] & _)]. eauto.
Qed.
End Entry.

(** ** Theorems *)

Section Theorems.
Context {B R : Type} `{BrokerInterface B} `{RedisLaws R} `{Decryptor}.
Context (settings : Settings).
Implicit Types (w : world B R).

Lemma filled_by_orders signal side lot q broker r w w' :
  filled_by settings signal side lot q w broker r w' ->
  quiet w w' /\ (broker <> None -> exists e, r = Err e)
  \/ exists k, broker = Some k
     /\ order_sent settings k (entry_order (g_symbol signal) side q MARGIN MARKET None) lot (Some (g_id signal)) "entry" w w' r.
Proof. destruct 1; [left; eauto | left; by split | right; eauto]. Qed.

Lemma filled_by_tables signal side lot q broker r w w' :
  filled_by settings signal side lot q w broker r w' -> same_tables w w'.
Proof. intros [[Hq _] | (k & _ & Hs)]%filled_by_orders; [by apply quiet_same_tables | apply Hs]. Qed.

(** What an entry may send. *)
Record entry_order_ok (signal : StrategySignal) (strategy : Strategy) (w : world B R)
    (ko : BrokerCredentials * OrderRequest) : Prop := {
  eo_live : resolve_paper_mode settings (Some strategy) = false;
  eo_account : exists c, In c (w_credentials w) /\ c_is_active c = true /\ c_user_id c = g_user_id signal
               /\ build_broker_credentials c (g_user_id signal) = Ok (fst ko);
  eo_shape : o_exchange (snd ko) = NFO /\ o_product_type (snd ko) = MARGIN /\ o_order_type (snd ko) = MARKET
             /\ o_price (snd ko) = None /\ order_request_ok (snd ko) = true;
  eo_side : resolve_side (g_action signal) (jget (raw_payload signal) "side") = Ok (o_side (snd ko));
  eo_quantity : exists lot, 0 < lot /\ (lot | o_quantity (snd ko))
                /\ 0 < o_quantity (snd ko) <= QUANTITY_CEILING_CONTRACTS
                /\ o_quantity (snd ko) <= ceiling_lots strategy * lot
}.

Lemma resolved_order_ok signal strategy rec w side cred k lot q w1 w2 r :
  resolved settings signal strategy rec w side cred (Some k) lot q ->
  order_sent settings k (entry_order (g_symbol signal) side q MARGIN MARKET None) lot (Some (g_id signal)) "entry" w1 w2 r ->
  entry_order_ok signal strategy w (k, entry_order (g_symbol signal) side q MARGIN MARKET None).
Proof.
  intros [Hside (Hin & Hu & Ha) [Hp Hb] Hq Hv] Hs. split; simpl; auto.
  - by exists cred.
  - do 4 (split; [done|]). apply Hs.
  - apply validate_quantity_iff in Hv as (Hr1 & Hr2 & Hr3 & _). exists lot. split; [done|]. split; [done|].
    split; [done|]. eapply resolve_quantity_ceiling; [lia | exact Hq].
Qed.

(** Nothing went out and the slot is as it was, or one order did and holds it. *)
Definition sent_at_most_one (signal : StrategySignal) (strategy : Strategy) (w w' : world B R) : Prop :=
  let slot := signal_idempotency_key (g_id signal) "entry" in
  (w_orders w' = w_orders w /\ w_redis w' = w_redis w)
  \/ exists ko, w_orders w' = w_orders w ++ [ko] /\ entry_order_ok signal strategy w ko
     /\ redis_get slot (w_now w) (w_redis w) = None
     /\ held slot (w_now w) (w_now w + SIGNAL_IDEMPOTENCY_TTL_SECONDS) (w_redis w').

Lemma fill_sends signal strategy rec w side cred broker lot q w1 r1 w2 (wf : world B R) :
  resolved settings signal strategy rec w side cred broker lot q -> quiet w w1 ->
  filled_by settings signal side lot q w1 broker r1 w2 -> w_orders wf = w_orders w2 -> w_redis wf = w_redis w2 ->
  sent_at_most_one signal strategy w wf.
Proof.
  intros Hres Hq1 Hf Ho Hr. unfold sent_at_most_one. rewrite Ho, Hr.
  destruct (filled_by_orders _ _ _ _ _ _ _ _ Hf) as [[Hq2 _] | (k & -> & Hs)].
  - left. split; [rewrite (qt_orders _ _ Hq2); apply Hq1 | rewrite (qt_redis _ _ Hq2); apply Hq1].
  - right. eexists. rewrite <- (qt_orders _ _ Hq1). split; [apply Hs|].
    split; [by eapply resolved_order_ok|]. rewrite <- (qt_now _ _ Hq1), <- (qt_redis _ _ Hq1). by apply Hs.
Qed.

Lemma entry_sends signal strategy rec w r w' :
  entry_outcome settings signal strategy rec w r w' -> sent_at_most_one signal strategy w w'.
Proof.
  destruct 1 as [e w' Hq | side cred k lot q w1 e w' Hres Hq1 Hf
                | side cred broker lot q w1 resp w2 xs w3 r w' Hres Hq1 Hf He3 _ _ _ _ He' _ _].
  - left. split; apply Hq.
  - by eapply fill_sends.
  - eapply fill_sends; eauto; etransitivity; (apply He' || apply He3).
Qed.

(** Entry order discipline.  Whatever happens, an entry appends at most one
    broker order; it is sent only for a live strategy, on an active credential of
    the signal's own user, as a valid NFO MARKET order with product type MARGIN
    (never INTRADAY or MIS), on the signal's side, for a positive whole number of
    lots within both the global and the strategy's ceiling. *)
Theorem entry_order_discipline signal strategy rec w r w' :
  place_strategy_orders settings signal strategy rec w = (r, w') ->
  exists l, w_orders w' = w_orders w ++ l /\ (length l <= 1)%nat /\ Forall (entry_order_ok signal strategy w) l.
Proof.
  intros E. apply place_strategy_orders_cases, entry_sends in E as [[Ho _] | (ko & Ho & Hok & _)].
  - exists []. rewrite Ho, app_nil_r. simpl. auto.
  - exists [ko]. simpl. auto.
Qed.

(** C4: a retried signal never sends twice.  If an entry of the signal sent an
    order, then a second entry of the same signal within the suppression window
    sends none, provided nobody released the slot in between; and a call that
    sent nothing has not consumed the slot. *)
Theorem entry_at_most_once signal strategy strategy2 rec rec2 w r1 w1 w2 r2 w3 :
  place_strategy_orders settings signal strategy rec w = (r1, w1) ->
  w_now w <= w_now w2 < w_now w + SIGNAL_IDEMPOTENCY_TTL_SECONDS ->
  redis_get (signal_idempotency_key (g_id signal) "entry") (w_now w2) (w_redis w2)
  = redis_get (signal_idempotency_key (g_id signal) "entry") (w_now w2) (w_redis w1) ->
  place_strategy_orders settings signal strategy2 rec2 w2 = (r2, w3) ->
  (w_orders w1 <> w_orders w -> w_orders w3 = w_orders w2)
  /\ (w_orders w1 = w_orders w -> w_redis w1 = w_redis w).
Proof.
  intros E1 Ht Hslot E2.
  apply place_strategy_orders_cases, entry_sends in E1, E2.
  split.
  - intros Hsent. destruct E1 as [[Ho _] | (ko & _ & _ & _ & Hheld)]; [done|].
    destruct E2 as [[Ho2 _] | (ko2 & _ & _ & Hfree & _)]; [done|].
    destruct (Hheld (w_now w2) Ht) as [v Hv]. congruence.
  - intros Hnone. destruct E1 as [[_ Hr] | (ko & Ho & _)]; [done|].
    rewrite Hnone in Ho. apply (f_equal length) in Ho. rewrite length_app in Ho. simpl in Ho. lia.
Qed.

(** What no entry touches. *)
Lemma entry_frame signal strategy rec w r w' :
  entry_outcome settings signal strategy rec w r w' ->
  w_platform w' = w_platform w /\ w_credentials w' = w_credentials w /\ w_strategies w' = w_strategies w
  /\ w_now w' = w_now w /\ w_next_id w <= w_next_id w'.
Proof.
  destruct 1 as [e w' Hq | side cred k lot q w1 e w' _ Hq1 Hf | side cred broker lot q w1 resp w2 xs w3 r w' _ Hq1 Hf He3 _ _ _ _ He' _ _].
  - by destruct Hq.
  - apply filled_by_tables in Hf. destruct Hf, Hq1. split_and!; congruence || lia.
  - apply filled_by_tables in Hf. destruct Hf, Hq1, He3, He'. split_and!; congruence || lia.
Qed.

(** Where the filled quantity comes from: the broker's confirmation of the order
    that was sent, or the whole requested quantity on paper. *)
Definition fill_source (signal : StrategySignal) (strategy : Strategy) (q : Z) (resp : FillResponse)
    (w w' : world B R) : Prop :=
  (resolve_paper_mode settings (Some strategy) = true /\ fr_filled_qty resp = q /\ w_orders w' = w_orders w
   /\ exists d, fr_avg_price resp = PDec d)
  \/ (resolve_paper_mode settings (Some strategy) = false
      /\ exists k o fill b b', w_orders w' = w_orders w ++ [(k, o)] /\ o_quantity o = q
         /\ confirm_fill k (fr_order_id resp) q b = (Ok fill, b')
         /\ fr_filled_qty resp = f_filled_qty fill /\ column_of (fr_avg_price resp) = f_avg_price fill
         /\ (forall d, fr_avg_price resp <> PDec d)).

(** A successful entry, end to end. *)
Record entered (signal : StrategySignal) (strategy : Strategy) (rec : option Z) (w : world B R)
    (res : ExecutionResult) (w' : world B R) (side : OrderSide) (cred : BrokerCredential) (lot q : Z)
    (resp : FillResponse) (xs : list StrategyExecution) (w3 : world B R) : Prop := {
  en_broker : exists broker, resolved settings signal strategy rec w side cred broker lot q;
  en_source : fill_source signal strategy q resp w w';
  en_filled : 0 < fr_filled_qty resp;
  en_legs : w_executions w' = w_executions w ++ xs /\ length xs = Z.to_nat (fr_filled_qty resp / lot)
            /\ Forall (leg_row signal side lot) xs;
  en_before : w_positions w3 = w_positions w /\ w_next_id w <= w_next_id w3;
  en_tracked : tracked signal strategy (c_id cred) side resp w3 w' (position_id res);
  en_next : w_next_id w3 <= w_next_id w'
}.

Lemma fill_ok_source signal strategy rec w side cred broker lot q w1 resp w2 (wf : world B R) :
  resolved settings signal strategy rec w side cred broker lot q -> quiet w w1 ->
  filled_by settings signal side lot q w1 broker (Ok resp) w2 -> w_orders wf = w_orders w2 ->
  fill_source signal strategy q resp w wf /\ 0 < fr_filled_qty resp.
Proof.
  intros [_ _ Hb _ Hv] Hq1 Hf Ho. apply validate_quantity_iff in Hv as (Hq & _).
  unfold fill_source. rewrite Ho, <- (qt_orders _ _ Hq1).
  inversion Hf as [|oid d w' Hq2|k r w' Hpt Hs]; subst.
  - split; [left | simpl; lia]. split; [done|]. split; [done|]. split; [apply Hq2 | eauto].
  - destruct (os_result _ _ _ _ _ _ _ _ _ Hs) as [(e & [=]) | (oid & fill & b & b' & Hc & Hd & Hp & [= ->])].
    split; [right | done]. split; [apply Hb|].
    exists k, (entry_order (g_symbol signal) side q MARGIN MARKET None), fill, b, b'.
    split; [apply Hs|]. simpl. do 3 (split; [done|]). by destruct (f_avg_price fill).
Qed.

(** Levels of a Decimal price never raise. *)
Lemma compute_levels_dec d side strategy e : compute_levels (PDec d) side strategy <> Err e.
Proof.
  unfold compute_levels, levels_of. destruct (is_dzero d); [done|].
  destruct (partial_profit_target_pct strategy), (hard_sl_pct strategy), (trail_offset_pct strategy); done.
Qed.

(** The two ways an entry ends: it raises and the positions are untouched, or it
    is entered. *)
Lemma entry_tables signal strategy rec w r w' :
  entry_outcome settings signal strategy rec w r w' ->
  (exists e, r = Err e /\ w_positions w' = w_positions w /\ w_next_id w <= w_next_id w'
             /\ (w_orders w' = w_orders w -> w_executions w' = w_executions w))
  \/ exists res side cred lot q resp xs w3,
       r = Ok res /\ entered signal strategy rec w res w' side cred lot q resp xs w3.
Proof.
  destruct 1 as [e w' Hq | side cred k lot q w1 e w' Hres Hq1 Hf
                | side cred broker lot q w1 resp w2 xs w3 r w' Hres Hq1 Hf He3 Hp3 Hx3 Hl Hall He' Hx' Hr].
  - left. exists e. by destruct Hq.
  - left. exists e. pose proof (filled_by_tables _ _ _ _ _ _ _ _ Hf) as Ht. destruct Ht, Hq1. repeat split; congruence || lia.
  - pose proof (filled_by_tables _ _ _ _ _ _ _ _ Hf) as Ht.
    assert (Ho : w_orders w' = w_orders w2) by (etransitivity; [apply He' | apply He3]).
    destruct (fill_ok_source _ _ _ _ _ _ _ _ _ _ _ _ w' Hres Hq1 Hf Ho) as [Hsrc Hpos].
    assert (Hpos3 : w_positions w3 = w_positions w) by (destruct Ht, Hq1; congruence).
    assert (Hexe : w_executions w' = w_executions w ++ xs) by (destruct Ht, Hq1; congruence).
    assert (Hnext : w_next_id w <= w_next_id w3) by (destruct Ht, Hq1, He3; lia).
    destruct Hr as [(e & -> & Hpw & Hc) | (res & -> & Htr)].
    + left. exists e. split; [done|]. split; [congruence|]. split; [destruct He'; lia|]. intros Hsame.
      destruct Hsrc as [(_ & _ & _ & d & Hd) | (_ & k & o & fill & b & b' & Hsent & _)].
      2:{ rewrite Hsame in Hsent. apply (f_equal length) in Hsent. rewrite length_app in Hsent. simpl in Hsent. lia. }
      rewrite Hd in Hc. by apply compute_levels_dec in Hc.
    + right. exists res, side, cred, lot, q, resp, xs, w3. split; [done|]. split; eauto. apply He'.
Qed.

(** C6: an entry that raises leaves no half state.  The positions table is
    exactly as it was, and if no order went out then the execution rows and the
    idempotency slot are untouched too, so that a retry starts clean. *)
Theorem entry_error_leaves_positions signal strategy rec w e w' :
  place_strategy_orders settings signal strategy rec w = (Err e, w') ->
  w_positions w' = w_positions w
  /\ (w_orders w' = w_orders w -> w_executions w' = w_executions w /\ w_redis w' = w_redis w).
Proof.
  intros E. apply place_strategy_orders_cases in E. pose proof (entry_sends _ _ _ _ _ _ E) as Hs.
  destruct (entry_tables _ _ _ _ _ _ E) as [(e' & _ & Hp & _ & Hx) | (res & ? & ? & ? & ? & ? & ? & ? & [=] & _)].
  split; [done|]. intros Ho. split; [auto|]. destruct Hs as [[_ Hr] | (ko & Ho' & _)]; [done|].
  rewrite Ho in Ho'. apply (f_equal length) in Ho'. rewrite length_app in Ho'. simpl in Ho'. lia.
Qed.

Lemma legs_sum signal side lot xs :
  Forall (leg_row signal side lot) xs -> sum_by x_quantity xs = lot * Z.of_nat (length xs).
Proof.
  induction 1 as [|x xs (_ & _ & _ & _ & Hq) _ IH]; simpl; [lia|]. rewrite Hq, IH. lia.
Qed.

Lemma tracked_sum_remaining signal strategy cid side resp w w' pid :
  NoDup (map p_id (w_positions w)) -> tracked signal strategy cid side resp w w' pid ->
  sum_by remaining_quantity (w_positions w') = sum_by remaining_quantity (w_positions w) + fr_filled_qty resp
  /\ exists p', In p' (w_positions w') /\ p_id p' = pid.
Proof.
  intros Hnd [p p' Hin _ Hs -> | p' _ Ho _ ->].
  - assert (Hid := same_id _ _ (sm_row _ _ _ Hs)).
    rewrite (sum_put_row _ p) by auto. rewrite (sm_remaining _ _ _ Hs). split; [lia|].
    exists p'. split; [|done]. by apply (put_row_self p' _ p).
  - rewrite sum_by_app. destruct (op_quantity _ _ _ _ _ _ Ho) as [_ Hq]. simpl. rewrite Hq. split; [lia|].
    exists p'. split; [|done]. apply in_app_iff. simpl. auto.
Qed.


Lemma tracked_keeps_book signal strategy cid side resp w w' pid :
  book_inv w -> one_open (w_positions w) -> str_upper (g_symbol signal) = g_symbol signal ->
  0 < fr_filled_qty resp -> w_next_id w <= w_next_id w' ->
  tracked signal strategy cid side resp w w' pid -> book_inv w' /\ one_open (w_positions w').
Proof.
  intros Hbook Hone Hup Hpos Hn [p p' Hin Hm Hs Hput | p' Hnone Ho Hid Happ].
  - pose proof (book_rows _ Hbook) as Hrows. pose proof (book_fresh _ Hbook) as Hfr.
    rewrite List.Forall_forall in Hrows, Hfr. specialize (Hrows p Hin). specialize (Hfr p Hin).
    assert (Hopen : is_open p = true) by (unfold matches_entry in Hm; by bool_to_prop).
    pose proof (proj1 (is_open_inv p Hrows) Hopen). destruct Hs as [Hrow Ht Hr Hst _].
    assert (Hid := same_id _ _ Hrow). assert (pos_inv p').
    { destruct Hrows as [Hb Hc Hu Hsd]. split; [lia | | rewrite Hst; intros E; specialize (Hu E); lia |].
      - rewrite Hst, Hc. lia.
      - revert Hsd. unfold side_ok. by rewrite (same_side _ _ Hrow). }
    split; [apply (book_inv_update w w' p'); auto; simpl in *; lia|].
    rewrite Hput. by apply (one_open_put p).
  - destruct Ho as [Hst [Hu Hsub] Hcr Hsg Hsy Hsd [Ht Hr] Hopen Hpr Hlv]. split.
    + apply (book_inv_snoc w w' p'); auto. split; [lia | rewrite Hopen; split; [done | lia] | lia |].
      unfold side_ok. rewrite Hsd. by destruct side.
    + rewrite Happ. apply one_open_snoc; [done|]. intros p Hp Hop (R1 & R2 & R3 & R4).
      specialize (Hnone p Hp). unfold matches_entry in Hnone.
      rewrite R1, R2, R3, R4, Hst, Hsy, Hsd, Hsub, Hup, Z.eqb_refl, !String.eqb_refl, Hop in Hnone.
      rewrite bool_decide_true in Hnone by done. done.
Qed.

(** An entry keeps the book well formed, and keeps at most one open row per
    strategy, symbol and side, when the signal's symbol is in upper case (as the
    stored-row lookup assumes). *)
Theorem entry_keeps_book signal strategy rec w r w' :
  book_inv w -> one_open (w_positions w) -> str_upper (g_symbol signal) = g_symbol signal ->
  place_strategy_orders settings signal strategy rec w = (r, w') ->
  book_inv w' /\ one_open (w_positions w').
Proof.
  intros Hbook Hone Hup E. apply place_strategy_orders_cases in E.
  destruct (entry_tables _ _ _ _ _ _ E)
    as [(e & _ & Hp & Hn & _) | (res & side & cred & lot & q & resp & xs & w3 & _ & Hen)].
  { rewrite Hp. split; [by apply (book_inv_ext w) | done]. }
  destruct Hen as [_ _ Hpos _ (Hp3 & Hn3) Htr Hn'].
  assert (Hbook3 : book_inv w3) by (by apply (book_inv_ext w)). rewrite <- Hp3 in Hone.
  eapply tracked_keeps_book; eauto.
Qed.

(** A timed-out or dead order is never taken for a fill, and an unresolved
    one is never forgotten.  For a confirmation the broker answered, the entry is
    accepted exactly when the order is alive with a positive filled quantity;
    otherwise it raises, and then the symbol carries the ambiguous-fill marker
    with this order's id if the order timed out, and Redis is unchanged if it
    did not. *)
Theorem confirmation_decides k oid symbol side q fill b' w :
  confirm_fill k oid q (w_broker w) = (Ok fill, b') ->
  let '(r, w') := confirm_entry k oid symbol side q w in
  (is_dead (f_order_status fill) = false /\ 0 < f_filled_qty fill -> r = Ok fill /\ w_redis w' = w_redis w)
  /\ (is_dead (f_order_status fill) = true \/ f_filled_qty fill <= 0 ->
      r = Err (BrokerError BrokerOrderRejectedError)
      /\ (if f_timed_out fill
          then fst (is_flagged symbol w') = Ok (Some oid) else w_redis w' = w_redis w)).
Proof.
  intros Hc. unfold confirm_entry, on_broker. cbv [mbind M_bind]. rewrite Hc.
  destruct (is_dead (f_order_status fill) || (f_filled_qty fill <=? 0)) eqn:Eg.
  - destruct (f_timed_out fill); (split; [intros [Hd Hf]; rewrite Hd in Eg; bool_to_prop; simpl in Eg; bool_to_prop; lia|]).
    + intros _. split; [done|]. simpl_rec. rewrite redis_get_put, decide_True by done.
      by rewrite (proj2 (Z.ltb_lt _ _)) by (unfold AMBIGUOUS_TTL_S; lia).
    + by intros _.
  - apply orb_false_elim in Eg as [Hd Hf]. bool_to_prop. split; [done|]. intros [Hd' | Hf']; [congruence | lia].
Qed.

(** A live entry of a strategy with any exit level configured never opens a
    priced position: the broker's average price reaches the level computation as
    text, and multiplying it by a percentage raises.  So when no open row is
    summed into, either the entry raises (after the order was sent and filled),
    or the row it opens has no entry price. *)
Theorem live_entry_with_levels_unpriced signal strategy rec w r w' :
  resolve_paper_mode settings (Some strategy) = false ->
  is_Some (partial_profit_target_pct strategy) \/ is_Some (hard_sl_pct strategy) \/ is_Some (trail_offset_pct strategy) ->
  (forall p, In p (w_positions w) ->
     forall side, matches_entry (s_id strategy) (g_symbol signal) side None p = false) ->
  place_strategy_orders settings signal strategy rec w = (r, w') ->
  (exists e, r = Err e)
  \/ exists p', w_positions w' = w_positions w ++ [p'] /\ avg_entry_price p' = None.
Proof.
  intros Hlive Hpct Hnone E. apply place_strategy_orders_cases in E.
  destruct (entry_tables _ _ _ _ _ _ E)
    as [(e & -> & _) | (res & side & cred & lot & q & resp & xs & w3 & -> & Hen)]; [left; eauto | right].
  destruct Hen as [_ Hsrc _ _ (Hp3 & _) Htr _].
  destruct Hsrc as [(Hp & _) | (_ & k & o & fill & b & b' & _ & _ & _ & _ & _ & Hnd)]; [congruence|].
  destruct Htr as [p p' Hin Hm _ _ | p' _ Ho _ Happ].
  { rewrite Hp3 in Hin. by rewrite (Hnone p Hin side) in Hm. }
  exists p'. rewrite Happ, Hp3. split; [done|]. rewrite (op_price _ _ _ _ _ _ Ho).
  pose proof (op_levels _ _ _ _ _ _ Ho) as Hlv. destruct (fr_avg_price resp) as [|d|d] eqn:Ea; [done|by destruct (Hnd d)|].
  unfold compute_levels, levels_of, percent_of in Hlv.
  destruct (partial_profit_target_pct strategy), (hard_sl_pct strategy), (trail_offset_pct strategy);
    simpl in Hlv; try done. destruct Hpct as [[? [=]] | [[? [=]] | [? [=]]]].
Qed.
End Theorems.

(** ** Levels *)

(** [l] is the level at [value delta], [delta] the percentage [pct] of the price
    [d], in units of 1e-9; both are configured or neither is. *)
Definition level_at (d : dec) (pct l : option dec) (value : Z -> Z) : Prop :=
  match pct, l with
  | Some p, Some x => -9 <= expo x /\ at_scale (-9) x = value (at_scale (-4) d * at_scale (-3) p)
  | None, None => True
  | _, _ => False
  end.

Lemma price_at_9 d : -4 <= expo d -> at_scale (-9) d = 10 ^ 5 * at_scale (-4) d.
Proof. intros H. rewrite (at_scale_shift (-9) (-4)) by lia. change (10 ^ (-4 - -9)) with (10 ^ 5). lia. Qed.

Lemma level_add d pct :
  numeric_18_4 d -> percent_6_3 pct ->
  let delta := ddiv (dmul d pct) (dec_of_Z 100) in
  level_at d (Some pct) (Some (dadd d delta)) (fun x => at_scale (-9) d + x)
  /\ level_at d (Some pct) (Some (dsub d delta)) (fun x => at_scale (-9) d - x)
  /\ level_at d (Some pct) (Some delta) (fun x => x).
Proof.
  intros Hd Hp delta. destruct (percent_exact d pct Hd Hp) as [He Hv]. fold delta in He, Hv.
  destruct Hd as [Hed Hvd], Hp as [Hep Hvp]. pose proof (price_at_9 d Hed) as H9. simpl. rewrite <- Hv.
  assert (Hb1 : Z.abs (at_scale (-9) d) < 10 ^ 23) by (rewrite H9; lia).
  assert (Hb2 : Z.abs (at_scale (-9) delta) < 10 ^ 24) by (rewrite Hv, Z.abs_mul; nia).
  destruct (dadd_exact (-9) d delta) as [Ha1 Ha2]; [lia | done | unfold prec; lia |].
  destruct (dsub_exact (-9) d delta) as [Hs1 Hs2]; [lia | done | unfold prec; lia |].
  rewrite Ha2, Hs2. auto.
Qed.

Lemma level_order d pct x (value : Z -> Z) :
  numeric_18_4 d -> level_at d (Some pct) (Some x) value ->
  dltb d x = (at_scale (-9) d <? value (at_scale (-4) d * at_scale (-3) pct))
  /\ dltb x d = (value (at_scale (-4) d * at_scale (-3) pct) <? at_scale (-9) d).
Proof. intros [Hd _] [Hx <-]. rewrite !(dltb_scale (-9)) by lia. done. Qed.

(** Exit levels are exact and on the right side of the entry.  For a paper
    price and percentages as their columns hold them, target, stop and trail are
    the exact percentages of the entry price (no rounding), present exactly when
    configured; with positive percentages a long target lies strictly above the
    entry and its stop strictly below, and a short one's the other way round. *)
Theorem levels_exact_and_ordered d side strategy t s tr :
  numeric_18_4 d -> 0 < at_scale (-4) d ->
  (forall p, partial_profit_target_pct strategy = Some p \/ hard_sl_pct strategy = Some p
             \/ trail_offset_pct strategy = Some p -> percent_6_3 p /\ 0 < at_scale (-3) p) ->
  compute_levels (PDec d) side strategy = Ok (t, s, tr) ->
  let sign := match side with BUY => 1 | SELL => -1 end in
  level_at d (partial_profit_target_pct strategy) t (fun x => at_scale (-9) d + sign * x)
  /\ level_at d (hard_sl_pct strategy) s (fun x => at_scale (-9) d - sign * x)
  /\ level_at d (trail_offset_pct strategy) tr (fun x => x)
  /\ (forall x, t = Some x -> match side with BUY => dltb d x | SELL => dltb x d end = true)
  /\ (forall x, s = Some x -> match side with BUY => dltb x d | SELL => dltb d x end = true).
Proof.
  intros Hd Hpos Hpct. unfold compute_levels, levels_of, percent_of.
  assert (is_dzero d = false) as ->.
  { apply Z.eqb_neq. intros E. unfold at_scale in Hpos. rewrite E in Hpos. lia. }
  intros E. apply res_bind_ok in E as (t' & Et & E). apply res_bind_ok in E as (s' & Es & E).
  apply res_bind_ok in E as (tr' & Etr & [= -> -> ->]). simpl.
  assert (Ht : level_at d (partial_profit_target_pct strategy) t
                 (fun x => at_scale (-9) d + match side with BUY => 1 | SELL => -1 end * x)).
  { destruct (partial_profit_target_pct strategy) as [p|]; [|by injection Et as <-].
    destruct (Hpct p ltac:(auto)) as [Hp _]. injection Et as <-.
    destruct (level_add d p Hd Hp) as (Ha & Hs & _).
    destruct side; simpl in *; [destruct Ha as [? ->] | destruct Hs as [? ->]]; split; auto; lia. }
  assert (Hs : level_at d (hard_sl_pct strategy) s
                 (fun x => at_scale (-9) d - match side with BUY => 1 | SELL => -1 end * x)).
  { destruct (hard_sl_pct strategy) as [p|]; [|by injection Es as <-].
    destruct (Hpct p ltac:(auto)) as [Hp _]. injection Es as <-.
    destruct (level_add d p Hd Hp) as (Ha & Hs & _).
    destruct side; simpl in *; [destruct Hs as [? ->] | destruct Ha as [? ->]]; split; auto; lia. }
  split; [done|]. split; [done|]. split; [|split].
  - destruct (trail_offset_pct strategy) as [p|]; [|by injection Etr as <-].
    destruct (Hpct p ltac:(auto)) as [Hp _]. injection Etr as <-. apply (level_add d p Hd Hp).
  - intros x ->. destruct (partial_profit_target_pct strategy) as [p|]; [|done].
    destruct (level_order _ _ _ _ Hd Ht) as [-> ->], (Hpct p ltac:(auto)) as [_ Hp].
    destruct side; apply Z.ltb_lt; nia.
  - intros x ->. destruct (hard_sl_pct strategy) as [p|]; [|done].
    destruct (level_order _ _ _ _ Hd Hs) as [-> ->], (Hpct p ltac:(auto)) as [_ Hp].
    destruct side; apply Z.ltb_lt; nia.
Qed.

(** ** Instances *)

Lemma sample_entry_book : book_inv sample_world.
Proof.
  split; [by repeat constructor; rewrite ?list_elem_of_In; simpl; tauto | by repeat constructor|].
  constructor; [by apply pos_invb_sound | constructor].
Qed.

Lemma entry_order_discipline_witness :
  exists r w', place_strategy_orders sample_settings sample_signal sample_strategy None sample_world = (r, w') /\
  exists l, w_orders w' = w_orders sample_world ++ l /\ (length l <= 1)%nat
    /\ Forall (entry_order_ok sample_settings sample_signal sample_strategy sample_world) l.
Proof.
  do 2 eexists. split; [vm_compute; reflexivity|].
  eapply (entry_order_discipline sample_settings sample_signal sample_strategy None sample_world).
  vm_compute; reflexivity.
Defined.

(** The retry a minute later is suppressed. *)
Lemma entry_at_most_once_witness :
  exists r1 w1 r2 w3,
    place_strategy_orders sample_settings sample_signal sample_strategy None sample_world = (r1, w1)
    /\ place_strategy_orders sample_settings sample_signal sample_strategy None (w1 <| w_now := 160 |>) = (r2, w3)
    /\ (w_orders w1 <> w_orders sample_world -> w_orders w3 = w_orders (w1 <| w_now := 160 |>))
    /\ (w_orders w1 = w_orders sample_world -> w_redis w1 = w_redis sample_world).
Proof.
  do 4 eexists. split; [vm_compute; reflexivity|]. split; [vm_compute; reflexivity|].
  eapply (entry_at_most_once sample_settings sample_signal sample_strategy sample_strategy None None sample_world);
    [vm_compute; reflexivity | vm_compute; split; congruence | reflexivity | vm_compute; reflexivity].
Defined.

(** A rejected confirmation. *)
Definition rejecting_world : world ScriptedBroker store :=
  sample_world <| w_broker := sample_broker <| sb_fill_status := REJECTED |> <| sb_filled := 0 |> |>.

Lemma entry_error_leaves_positions_witness :
  exists e w', place_strategy_orders sample_settings sample_signal sample_strategy None rejecting_world = (Err e, w') /\
  w_positions w' = w_positions rejecting_world
  /\ (w_orders w' = w_orders rejecting_world ->
      w_executions w' = w_executions rejecting_world /\ w_redis w' = w_redis rejecting_world).
Proof.
  do 2 eexists. split; [vm_compute; reflexivity|].
  eapply (entry_error_leaves_positions sample_settings sample_signal sample_strategy None rejecting_world).
  vm_compute; reflexivity.
Defined.

(** A partial fill: 375 of the 750 requested. *)
Definition half_filled_world : world ScriptedBroker store :=
  empty_world <| w_broker := sample_broker <| sb_filled := 375 |> |>.


Lemma entry_keeps_book_witness :
  exists r w', place_strategy_orders sample_settings sample_signal sample_strategy None sample_world = (r, w')
    /\ book_inv w' /\ one_open (w_positions w').
Proof.
  do 2 eexists. split; [vm_compute; reflexivity|].
  eapply (entry_keeps_book sample_settings sample_signal sample_strategy None sample_world);
    [exact sample_entry_book | | reflexivity | vm_compute; reflexivity].
  intros p q [<- | []] [<- | []]. done.
Defined.

Definition sample_account : BrokerCredentials :=
  {| k_broker := DHAN; k_user_id := 1; k_client_id := "c"; k_api_key := "k"; k_api_secret := "s";
     k_access_token := Some "t"%string; k_refresh_token := None |}.

Definition rejected_fill : OrderFill :=
  {| f_broker_order_id := "11"; f_order_status := REJECTED; f_raw_status := "TRADED"; f_filled_qty := 0;
     f_avg_price := Some (Dec 24155 (-1)); f_reason := None; f_timed_out := false |}.

Lemma confirmation_decides_witness :
  let '(r, w') := confirm_entry sample_account "11" "BSE-AUG2026-FUT" BUY 750 rejecting_world in
  (is_dead (f_order_status rejected_fill) = false /\ 0 < f_filled_qty rejected_fill ->
   r = Ok rejected_fill /\ w_redis w' = w_redis rejecting_world)
  /\ (is_dead (f_order_status rejected_fill) = true \/ f_filled_qty rejected_fill <= 0 ->
      r = Err (BrokerError BrokerOrderRejectedError)
      /\ (if f_timed_out rejected_fill
          then fst (is_flagged "BSE-AUG2026-FUT" w') = Ok (Some "11"%string)
          else w_redis w' = w_redis rejecting_world)).
Proof.
  exact (confirmation_decides sample_account "11" "BSE-AUG2026-FUT" BUY 750 rejected_fill
           (w_broker rejecting_world) rejecting_world eq_refl).
Defined.

(** With a two percent stop configured the filled entry raises TypeError: one
    order is out, no position row exists. *)
Definition stop_strategy : Strategy :=
  {| s_id := 2; s_user_id := 1; s_broker_credential_id := Some 5; entry_lots := 4; partial_profit_lots := 1;
     partial_profit_target_pct := None; trail_offset_pct := None; hard_sl_pct := Some (Dec 2000 (-3));
     ai_validation_enabled := false; exit_strategy_type := "internal"; strategy_json := None; is_paper := Some false; s_is_active := true; s_webhook_token_id := None; allowed_symbols := [] |}.

Lemma live_entry_with_levels_unpriced_witness :
  exists w', place_strategy_orders sample_settings sample_signal stop_strategy None empty_world = (Err TypeError, w')
    /\ length (w_orders w') = 1%nat /\ w_positions w' = [] /\
  ((exists e, Err TypeError = Err (A := ExecutionResult) e)
   \/ exists p', w_positions w' = w_positions empty_world ++ [p'] /\ avg_entry_price p' = None).
Proof.
  eexists. split; [vm_compute; reflexivity|]. split; [reflexivity|]. split; [reflexivity|].
  eapply (live_entry_with_levels_unpriced sample_settings sample_signal stop_strategy None empty_world);
    [reflexivity | right; left; eauto | done | vm_compute; reflexivity].
Defined.

Lemma levels_exact_and_ordered_witness :
  exists t s tr, compute_levels (PDec (Dec 2400 0)) BUY stop_strategy = Ok (t, s, tr) /\ s = Some (Dec 2352000 (-3)) /\
  level_at (Dec 2400 0) None t (fun x => at_scale (-9) (Dec 2400 0) + 1 * x)
  /\ level_at (Dec 2400 0) (Some (Dec 2000 (-3))) s (fun x => at_scale (-9) (Dec 2400 0) - 1 * x)
  /\ level_at (Dec 2400 0) None tr (fun x => x)
  /\ (forall x, t = Some x -> dltb (Dec 2400 0) x = true)
  /\ (forall x, s = Some x -> dltb x (Dec 2400 0) = true).
Proof.
  do 3 eexists. split; [vm_compute; reflexivity|]. split; [reflexivity|].
  apply (levels_exact_and_ordered (Dec 2400 0) BUY stop_strategy);
    [by split | done | intros p [[=] | [[= <-] | [=]]]; by split | reflexivity].
Defined.
