(* ===== verification/DirectExit.v ===== *)
(** * Direct exits (backend/app/services/direct_exit.py)

    The Pine-driven PARTIAL, EXIT and SL_HIT actions on an existing position:
    lookup of the owner's open row, size of a partial close in whole lots
    (computed in doubles, as the code does), the close order (paper or live with
    the idempotency claim and fill confirmation), and the bookkeeping by the
    confirmed quantity.  The mirroring of an exit to marketplace subscribers, which
    follows the booked exit in a session of its own, is in [MirroredExit.v]. *)

From Stdlib Require Import ZArith Lia List Bool String SpecFloat.
From stdpp Require Import base list strings gmap.
From S2P Require Import Prelude PyText PyFloat PyDecimal PyNum Records Enums Models Safeguards Book Samples StrategyExecutor.

(** ** Pure helpers *)

Definition opposite_side (position_side : string) : result exn OrderSide :=
  let side_lc := str_lower (str_strip position_side) in
  if String.eqb side_lc "buy" || String.eqb side_lc "long" then Ok SELL
  else if String.eqb side_lc "sell" || String.eqb side_lc "short" then Ok BUY
  else Err (StrategyExecutorError "unknown position side").

(** [floor(open * pct / 100)] in doubles, floored to whole lots; [None] where
    [math.floor] raises. *)
Definition qty_from_open_pct (open_qty : Z) (close_pct : float64) (lot_size : Z) : option Z :=
  if (open_qty <=? 0) || f_leb close_pct f_zero || (lot_size <=? 0) then Some 0
  else
    match f_floor (f_div (f_mul (f_of_Z open_qty) close_pct) (f_of_Z 100)) with
    | Some raw => Some (raw / lot_size * lot_size)
    | None => None
    end.

(** All exits go MARKET. *)
Definition exit_order_pricing (strategy : Strategy) (signal : StrategySignal) (exit_side : OrderSide)
  : OrderType * option dec := (MARKET, None).

(** [_coerce_float]: [Ok None] for a missing or unparsable value. *)
Definition coerce_float (value : json) : result exn (option float64) :=
  match value with
  | JNull => Ok None
  | JStr "" => Ok None
  | _ =>
      match float_of_json value with
      | FloatOk x => Ok (Some x)
      | FloatValueError => Ok None
      | FloatOverflow => Err OverflowError
      end
  end.

Definition payload_side (signal : StrategySignal) : string :=
  str_lower (str_or_empty (jget (raw_payload signal) "side")).

Definition is_direction (side_raw : string) : bool := String.eqb side_raw "long" || String.eqb side_raw "short".

Definition close_pct_of (signal : StrategySignal) : result exn (option float64) :=
  coerce_float (j_or (jget (raw_payload signal) "closePct") (jget (raw_payload signal) "close_pct")).

(** [0 < close_pct <= 99]. *)
Definition pct_in_range (pct : float64) : bool := f_ltb f_zero pct && f_leb pct (f_of_Z 99).

(** The row stores the side as "buy" or "sell". *)
Definition stored_side (side : string) : string :=
  let lc := str_lower side in if String.eqb lc "long" || String.eqb lc "buy" then "buy"%string else "sell"%string.

Definition matches_exit (strategy_id : uuid) (symbol side : string) (p : StrategyPosition) : bool :=
  (p_strategy_id p =? strategy_id) && String.eqb (p_symbol p) (str_upper symbol)
  && String.eqb (p_side p) (stored_side side) && is_open p && owner_row p.

Definition record_action (p : StrategyPosition) (action : string) (qty : Z) (side : string) (signal_id : uuid)
    (leg_role : string) (now : datetime) : StrategyPosition :=
  p <| last_action := Some action |> <| last_action_at := Some now |>
    <| action_history ::= fun h => h ++ [SignalEvent {| ev_action := action; ev_qty := qty; ev_side := side; ev_ts := now;
                                            ev_signal_id := signal_id; ev_leg_role := leg_role |}] |>.

(** The row with [close_qty] taken out: closed when nothing is left. *)
Definition decremented (p : StrategyPosition) (close_qty : Z) (full_reason : string) (now : datetime) : StrategyPosition :=
  let left := remaining_quantity p - close_qty in
  let p := p <| remaining_quantity := left |> in
  if 0 <? left then p <| status := st_partial |>
  else p <| status := st_closed |> <| closed_at := Some now |> <| exit_reason := Some full_reason |>.

(** The result dict of a handler. *)
Inductive exit_result : Type :=
| Ignored (reason : string) (order_id : option string)
| Executed (close_qty remaining : Z) (order_id : string) (position_status : pos_status).

(** What the close order came back with. *)
Record CloseResponse : Type := {
  cr_fill_price : option dec;
  cr_order_id : string;
  cr_filled_qty : Z;
  cr_timed_out : bool
}.

Section Exits.
Context {B R : Type} `{BrokerInterface B} `{RedisStore R} `{Decryptor}.
Context (settings : Settings).

Definition get_open_position (strategy_id : uuid) (symbol side : string) : M B R (option StrategyPosition) :=
  gets (fun w => latest_by opened_at (List.filter (matches_exit strategy_id symbol side) (w_positions w))).

(** The payload price of a paper close; an unparsable one raises. *)
Definition paper_close_price (signal : StrategySignal) : result exn (option dec) :=
  match jget (raw_payload signal) "price" with
  | JNull => Ok None
  | j => match decimal_of_json j with Some d => Ok (Some d) | None => Err InvalidOperation end
  end.

Definition close_order (symbol : string) (side : OrderSide) (quantity : Z) (product_type : ProductType)
    (order_type : OrderType) (limit_price : option dec) : OrderRequest :=
  {| o_symbol := str_strip symbol; o_exchange := NFO; o_side := side; o_quantity := quantity;
     o_order_type := order_type; o_product_type := product_type; o_price := limit_price;
     o_trigger_price := None; o_tag := Some "strategy-engine-direct-exit"%string |}.

Definition place_close_order (broker : option BrokerCredentials) (paper : bool) (symbol : string) (side : OrderSide)
    (quantity : Z) (product_type : ProductType) (signal : StrategySignal) (order_type : OrderType)
    (limit_price : option dec) : M B R CloseResponse :=
  match paper, broker with
  | false, Some k =>
      ensure_session k ;;
      on_broker (validate_symbol k symbol NFO) ;;
      claim_signal (Some (g_id signal)) "exit" ;;
      let order := close_order symbol side quantity product_type order_type limit_price in
      raise_when (negb (order_request_ok order)) ValidationError ;;
      response ← send_order k order;
      fill ← on_broker (confirm_fill k (r_broker_order_id response) quantity);
      mret {| cr_fill_price := f_avg_price fill; cr_order_id := r_broker_order_id response;
              cr_filled_qty := f_filled_qty fill; cr_timed_out := f_timed_out fill |}
  | _, _ =>
      price ← from_result (paper_close_price signal);
      oid ← fresh;
      mret {| cr_fill_price := price; cr_order_id := String.append "PAPER-EXIT-" (z_str oid);
              cr_filled_qty := quantity; cr_timed_out := false |}
  end.

(** Take the confirmed quantity out of the row, log and alert.  [full_reason] is
    the exit reason of a row this closes. *)
Definition settle_close (signal : StrategySignal) (position : StrategyPosition) (paper : bool) (side_raw : string)
    (exit_side : OrderSide) (leg_role action full_reason : string) (level : AlertLevel) (resp : CloseResponse)
  : M B R (Z * StrategyPosition) :=
  now ← gets w_now;
  let close_qty := Z.min (cr_filled_qty resp) (remaining_quantity position) in
  let p := record_action (decremented position close_qty full_reason now) action close_qty side_raw (g_id signal)
             leg_role now in
  save_position p ;;
  xid ← fresh;
  add_execution {| x_id := xid; x_signal_id := g_id signal; x_subscription_id := None; x_broker_credential_id := p_broker_credential_id p;
                   x_leg_number := 0; x_leg_role := leg_role; x_symbol := g_symbol signal;
                   x_side := side_value exit_side; x_quantity := close_qty; x_order_type := MARKET;
                   x_price := cr_fill_price resp; x_broker_order_id := cr_order_id resp;
                   x_broker_status := if paper then Some COMPLETE else None; x_placed_at := now;
                   x_completed_at := if paper then Some now else None |} ;;
  send_alert {| a_level := level; a_event := leg_role; a_symbol := p_symbol p; a_qty := close_qty;
                a_remaining := remaining_quantity p; a_price := cr_fill_price resp; a_pnl := None; a_legs := [] |} ;;
  mret (close_qty, p).

(** An unfilled close: flag a timeout, leave the row. *)
Definition not_filled (signal : StrategySignal) (exit_side : OrderSide) (close_qty : Z) (context : string)
    (resp : CloseResponse) : M B R exit_result :=
  (if cr_timed_out resp
   then flag_ambiguous_fill (cr_order_id resp) (g_symbol signal) exit_side close_qty context else mret tt) ;;
  mret (Ignored "close_not_filled" (Some (cr_order_id resp))).

(** The credential of the position's row, decrypted unless on paper. *)
Definition exit_broker (position : StrategyPosition) (signal : StrategySignal) (paper : bool)
  : M B R (option BrokerCredentials) :=
  cred_row ← load_credential (p_broker_credential_id position) (g_user_id signal);
  from_result (if paper then Ok None else k ← build_broker_credentials cred_row (g_user_id signal); Ok (Some k)).

(** From the decided quantity to the booked exit: order, confirmation, and the
    row decremented by the confirmed quantity.  The two handlers run these same
    lines; [report] builds their result. *)
Definition close_with (signal : StrategySignal) (strategy : Strategy) (position : StrategyPosition) (paper : bool)
    (broker : option BrokerCredentials) (side_raw : string) (close_qty : Z)
    (context leg_role action full_reason : string) (level : AlertLevel)
    (report : Z -> StrategyPosition -> string -> exit_result) : M B R exit_result :=
  exit_side ← from_result (opposite_side (p_side position));
  product_type ← from_result (resolve_product_type signal NFO);
  let '(order_type, limit_price) := exit_order_pricing strategy signal exit_side in
  resp ← place_close_order broker paper (g_symbol signal) exit_side close_qty product_type signal
           order_type limit_price;
  if cr_filled_qty resp <=? 0 then not_filled signal exit_side close_qty context resp
  else
    '(closed, p) ← settle_close signal position paper side_raw exit_side leg_role action full_reason level resp;
    mret (report closed p (cr_order_id resp)).

Definition execute_partial (signal : StrategySignal) (strategy : Strategy) : M B R exit_result :=
  let side_raw := payload_side signal in
  close_pct ← from_result (close_pct_of signal);
  raise_when (negb (is_direction side_raw)) (StrategyExecutorError "PARTIAL missing side") ;;
  match close_pct with
  | None => raise (StrategyExecutorError "invalid closePct")
  | Some pct =>
      raise_when (negb (pct_in_range pct)) (StrategyExecutorError "invalid closePct") ;;
      found ← get_open_position (s_id strategy) (g_symbol signal) side_raw;
      match found with
      | None => mret (Ignored "no_open_position" None)
      | Some position =>
          if remaining_quantity position <=? 0 then mret (Ignored "no_open_position" None)
          else
            let paper := resolve_paper_mode settings (Some strategy) in
            broker ← exit_broker position signal paper;
            lot_size ← resolve_lot_size broker (g_symbol signal) signal paper;
            close_qty ← from_result (match qty_from_open_pct (remaining_quantity position) pct lot_size with
                                     | Some q => Ok q | None => Err OverflowError end);
            if close_qty <=? 0 then mret (Ignored "close_qty_below_lot" None)
            else
              close_with signal strategy position paper broker side_raw close_qty "exit-partial" "direct_partial"
                "partial" "direct_partial_full" SUCCESS
                (fun closed p oid => Executed closed (remaining_quantity p) oid (status p))
      end
  end.

Definition execute_exit (signal : StrategySignal) (strategy : Strategy) (leg_role : string) : M B R exit_result :=
  let side_raw := payload_side signal in
  raise_when (negb (is_direction side_raw)) (StrategyExecutorError "missing side") ;;
  found ← get_open_position (s_id strategy) (g_symbol signal) side_raw;
  match found with
  | None => mret (Ignored "no_open_position" None)
  | Some position =>
      if remaining_quantity position <=? 0 then mret (Ignored "no_open_position" None)
      else
        let paper := resolve_paper_mode settings (Some strategy) in
        broker ← exit_broker position signal paper;
        close_with signal strategy position paper broker side_raw (remaining_quantity position)
          (String.append "exit-" leg_role) leg_role
          (if String.eqb leg_role "direct_exit" then "exit" else "sl_hit") leg_role
          (if String.eqb leg_role "direct_sl" then WARNING else INFO)
          (fun closed _ oid => Executed closed 0 oid st_closed)
  end.

(** The worker's dispatch (backend/app/tasks/signal_execution.py). *)
Definition dispatch_direct_exit (action_kind : string) (signal : StrategySignal) (strategy : Strategy)
  : M B R exit_result :=
  if String.eqb action_kind "partial" then execute_partial signal strategy
  else if String.eqb action_kind "exit" then execute_exit signal strategy "direct_exit"
  else if String.eqb action_kind "sl_hit" then execute_exit signal strategy "direct_sl"
  else raise (StrategyExecutorError "unknown direct-exit action_kind").
End Exits.

(** ** Close orders, case by case *)

Section CloseOrder.
Context {B R : Type} `{BrokerInterface B} `{RedisLaws R} `{Decryptor}.
Implicit Types (w : world B R).

(** The close order left for the broker. *)
Record close_sent (k : BrokerCredentials) (o : OrderRequest) (signal_id : uuid) (w w' : world B R)
    (r : result exn CloseResponse) : Prop := {
  cs_orders : w_orders w' = w_orders w ++ [(k, o)];
  cs_valid : order_request_ok o = true;
  cs_free : redis_get (signal_idempotency_key signal_id "exit") (w_now w) (w_redis w) = None;
  cs_held : held (signal_idempotency_key signal_id "exit") (w_now w)
                 (w_now w + SIGNAL_IDEMPOTENCY_TTL_SECONDS) (w_redis w');
  cs_tables : same_tables w w';
  cs_result : (exists e, r = Err e)
    \/ exists oid fill b b', confirm_fill k oid (o_quantity o) b = (Ok fill, b')
       /\ r = Ok {| cr_fill_price := f_avg_price fill; cr_order_id := oid; cr_filled_qty := f_filled_qty fill;
                    cr_timed_out := f_timed_out fill |}
}.

(** Every outcome of a close order. *)
Inductive close_placed (signal : StrategySignal) (o : OrderRequest) (w : world B R)
  : option BrokerCredentials -> result exn CloseResponse -> world B R -> Prop :=
| close_raised broker e w' :
    same_tables w w' -> w_orders w' = w_orders w ->
    (w_redis w' = w_redis w \/ e = ValidationError) -> close_placed signal o w broker (Err e) w'
| close_paper price oid w' :
    quiet w w' ->
    close_placed signal o w None
      (Ok {| cr_fill_price := price; cr_order_id := oid; cr_filled_qty := o_quantity o; cr_timed_out := false |}) w'
| close_live k r w' : close_sent k o (g_id signal) w w' r -> close_placed signal o w (Some k) r w'.

Lemma quiet_raised signal o w broker e w' : quiet w w' -> close_placed signal o w broker (Err e) w'.
Proof. intros Hq. apply close_raised; [by apply quiet_same_tables | apply Hq | left; apply Hq]. Qed.

Lemma send_close_spec k o w r w' :
  (response ← send_order k o;
   fill ← on_broker (confirm_fill k (r_broker_order_id response) (o_quantity o));
   mret {| cr_fill_price := f_avg_price fill; cr_order_id := r_broker_order_id response;
           cr_filled_qty := f_filled_qty fill; cr_timed_out := f_timed_out fill |}) w = (r, w') ->
  same_tables w w' /\ w_orders w' = w_orders w ++ [(k, o)] /\ w_redis w' = w_redis w
  /\ ((exists e, r = Err e)
      \/ exists oid fill b b', confirm_fill k oid (o_quantity o) b = (Ok fill, b')
         /\ r = Ok {| cr_fill_price := f_avg_price fill; cr_order_id := oid; cr_filled_qty := f_filled_qty fill;
                      cr_timed_out := f_timed_out fill |}).
Proof.
  intros E. apply bind_cases in E as [(resp & w1 & E1 & E) | (e & -> & E1)];
    apply send_order_spec in E1 as (Ht & Ho & Hr); [|do 3 (split; [done|]); eauto].
  unfold on_broker in E. cbv [mbind M_bind] in E.
  destruct (confirm_fill k (r_broker_order_id resp) (o_quantity o) (w_broker w1)) as [[fill|e] b'] eqn:Ec;
    injection E as <- <-; simpl_rec; (split; [etransitivity; [exact Ht | by split]|]); (split; [done|]);
    (split; [done|]); [|eauto].
  right. by exists (r_broker_order_id resp), fill, (w_broker w1), b'.
Qed.

Lemma place_close_order_cases broker paper symbol side q pt signal ot lp w r w' :
  match broker with None => paper = true | Some _ => paper = false end ->
  place_close_order broker paper symbol side q pt signal ot lp w = (r, w') ->
  close_placed signal (close_order symbol side q pt ot lp) w broker r w'.
Proof.
  destruct broker as [k|]; intros ->; unfold place_close_order; intros E.
  2:{ apply bind_cases in E as [(price & w1 & E1 & E) | (e & -> & E1)];
        unfold from_result in E1; injection E1 as E1 <-; [|by apply quiet_raised].
      injection E as <- <-. apply (close_paper _ (close_order symbol side q pt ot lp)).
      by eapply fresh_quiet. }
  apply bind_cases in E as [([] & w1 & E1 & E) | (e & -> & E1)]; apply ensure_session_quiet in E1;
    [|by apply quiet_raised].
  apply bind_cases in E as [([] & w2 & E2 & E) | (e & -> & E2)]; apply on_broker_quiet in E2;
    [|apply quiet_raised; by transitivity w1].
  assert (Hq2 : quiet w w2) by (by transitivity w1). clear E1 E2 w1.
  apply bind_cases in E as [([] & w3 & E3 & E) | (e & -> & E3)]; apply claim_signal_spec in E3
    as [(e3 & Ee & Hq3) | (Er & Ht3 & Ho3 & Hslot)]; try done; [|apply quiet_raised; by transitivity w2].
  destruct (Hslot (g_id signal) eq_refl) as [Hfree Hheld]. rewrite (qt_now _ _ Hq2), (qt_redis _ _ Hq2) in *.
  assert (Ht : same_tables w w3) by (transitivity w2; [by apply quiet_same_tables | done]).
  assert (Ho : w_orders w3 = w_orders w) by (rewrite Ho3; apply Hq2).
  fold (close_order symbol side q pt ot lp) in E. set (o := close_order symbol side q pt ot lp) in *.
  destruct (order_request_ok o) eqn:Eok; simpl in E.
  2:{ injection E as <- <-. apply close_raised; auto. }
  apply bind_cases in E as [([] & w4 & [= <-] & E) | (e & -> & [=])].
  apply (send_close_spec k o) in E as (Ht4 & Ho4 & Hr4 & Hres).
  apply close_live. split; auto; [by rewrite Ho4, Ho | by rewrite Hr4 | by transitivity w3].
Qed.
End CloseOrder.

(** ** The handlers, case by case *)

Section Handlers.
Context {B R : Type} `{BrokerInterface B} `{RedisLaws R} `{Decryptor}.
Context (settings : Settings).
Implicit Types (w : world B R).

(** Taking [cr_filled_qty] (at most what is left) out of an open row. *)
Record settled (signal : StrategySignal) (p : StrategyPosition) (exit_side : OrderSide) (leg_role : string)
    (resp : CloseResponse) (q : Z) (p' : StrategyPosition) (w w' : world B R) : Prop := {
  st_qty : q = Z.min (cr_filled_qty resp) (remaining_quantity p);
  st_after : after_exit p p' q;
  st_rows : w_positions w' = put_row p' (w_positions w);
  st_booked : exists x, w_executions w' = w_executions w ++ [x] /\ x_quantity x = q /\ x_leg_role x = leg_role
              /\ x_side x = side_value exit_side /\ x_signal_id x = g_id signal /\ x_price x = cr_fill_price resp;
  st_env : same_env w w'
}.

Lemma decremented_after p q full_reason now action side_raw sid leg_role :
  after_exit p (record_action (decremented p q full_reason now) action q side_raw sid leg_role now) q.
Proof.
  unfold decremented, after_exit. destruct (0 <? remaining_quantity p - q) eqn:El;
    (split; [split; reflexivity|]); (split; [reflexivity|]); (split; [reflexivity|]);
    change (remaining_quantity (record_action _ _ _ _ _ _ _)) with (remaining_quantity p - q); rewrite El; reflexivity.
Qed.

Lemma settle_close_spec signal p paper side_raw exit_side leg_role action full_reason level resp w :
  exists q p' w', settle_close signal p paper side_raw exit_side leg_role action full_reason level resp w
                  = (Ok (q, p'), w')
    /\ settled signal p exit_side leg_role resp q p' w w'.
Proof.
  unfold settle_close. set (q := Z.min (cr_filled_qty resp) (remaining_quantity p)).
  pose proof (decremented_after p q full_reason (w_now w) action side_raw (g_id signal) leg_role) as Ha.
  set (p' := record_action _ _ _ _ _ _ _) in Ha. exists q, p'.
  eexists. split; [reflexivity|]. split; [done | done | done | |].
  - eexists. split; [reflexivity|]. by repeat split.
  - split; simpl; lia || done.
Qed.

(** What a close may send, for the owner's open row [p] and quantity [q]. *)
Record close_order_ok (signal : StrategySignal) (strategy : Strategy) (w : world B R) (p : StrategyPosition) (q : Z)
    (ko : BrokerCredentials * OrderRequest) : Prop := {
  co_live : resolve_paper_mode settings (Some strategy) = false;
  co_account : exists c, In c (w_credentials w) /\ c_is_active c = true /\ c_user_id c = g_user_id signal
               /\ build_broker_credentials c (g_user_id signal) = Ok (fst ko);
  co_shape : o_exchange (snd ko) = NFO /\ o_product_type (snd ko) = MARGIN /\ o_order_type (snd ko) = MARKET
             /\ o_price (snd ko) = None /\ order_request_ok (snd ko) = true;
  co_side : opposite_side (p_side p) = Ok (o_side (snd ko));
  co_quantity : o_quantity (snd ko) = q
}.

(** No order, or one, which holds the slot from then on. *)
Definition closes_at_most_one (signal : StrategySignal) (strategy : Strategy) (p : StrategyPosition) (q : Z)
    (w w' : world B R) : Prop :=
  let slot := signal_idempotency_key (g_id signal) "exit" in
  w_orders w' = w_orders w
  \/ exists ko, w_orders w' = w_orders w ++ [ko] /\ close_order_ok signal strategy w p q ko
     /\ redis_get slot (w_now w) (w_redis w) = None
     /\ held slot (w_now w) (w_now w + SIGNAL_IDEMPOTENCY_TTL_SECONDS) (w_redis w').

(** Where the closed quantity comes from. *)
Definition close_source (strategy : Strategy) (q : Z) (resp : CloseResponse) (w w' : world B R) : Prop :=
  (resolve_paper_mode settings (Some strategy) = true /\ cr_filled_qty resp = q /\ w_orders w' = w_orders w)
  \/ (resolve_paper_mode settings (Some strategy) = false
      /\ exists k o fill b b', w_orders w' = w_orders w ++ [(k, o)]
         /\ confirm_fill k (cr_order_id resp) q b = (Ok fill, b')
         /\ cr_filled_qty resp = f_filled_qty fill /\ cr_timed_out resp = f_timed_out fill).

(** Every outcome of closing [q] units of [p]. *)
Inductive closed_by (signal : StrategySignal) (strategy : Strategy) (leg_role : string) (p : StrategyPosition) (q : Z)
    (report : Z -> StrategyPosition -> string -> exit_result) (w : world B R)
  : result exn exit_result -> world B R -> Prop :=
| by_error e w' :
    same_tables w w' -> closes_at_most_one signal strategy p q w w' ->
    closed_by signal strategy leg_role p q report w (Err e) w'
| by_no_fill resp w' :
    same_tables w w' -> closes_at_most_one signal strategy p q w w' -> close_source strategy q resp w w' ->
    cr_filled_qty resp <= 0 ->
    (cr_timed_out resp = true ->
     redis_get (ambiguous_key (g_symbol signal)) (w_now w) (w_redis w') = Some (cr_order_id resp)) ->
    closed_by signal strategy leg_role p q report w
      (Ok (Ignored "close_not_filled" (Some (cr_order_id resp)))) w'
| by_fill exit_side resp n p' w1 w' :
    opposite_side (p_side p) = Ok exit_side ->
    same_tables w w1 -> closes_at_most_one signal strategy p q w w' -> close_source strategy q resp w w' ->
    0 < cr_filled_qty resp -> settled signal p exit_side leg_role resp n p' w1 w' ->
    closed_by signal strategy leg_role p q report w (Ok (report n p' (cr_order_id resp))) w'.

(** The broker handle a handler built for itself. *)
Definition broker_for (signal : StrategySignal) (strategy : Strategy) (w : world B R)
    (broker : option BrokerCredentials) : Prop :=
  match broker with
  | None => resolve_paper_mode settings (Some strategy) = true
  | Some k => resolve_paper_mode settings (Some strategy) = false
              /\ exists c, In c (w_credentials w) /\ c_is_active c = true /\ c_user_id c = g_user_id signal
                 /\ build_broker_credentials c (g_user_id signal) = Ok k
  end.

Lemma exit_broker_spec p signal strategy w r w' :
  exit_broker p signal (resolve_paper_mode settings (Some strategy)) w = (r, w') ->
  w' = w /\ ((exists e, r = Err e) \/ exists broker, r = Ok broker /\ broker_for signal strategy w broker).
Proof.
  unfold exit_broker, from_result. intros E.
  apply bind_cases in E as [(c & w1 & E1 & E) | (e & -> & E1)];
    apply load_credential_spec in E1 as [-> [(e1 & Ee) | (c' & Ec & Hin & Hu & Ha)]]; try done; [|by eauto].
  injection Ec as <-. destruct (resolve_paper_mode settings (Some strategy)) eqn:Ep.
  - injection E as <- <-. split; [done|]. right. by exists None.
  - destruct (build_broker_credentials c (g_user_id signal)) as [k|e] eqn:Eb; injection E as <- <-;
      (split; [done|]); [right | left; eauto].
    exists (Some k). split; [done|]. split; [done|]. eauto.
Qed.

(** What the placed close tells about orders and source. *)
Lemma close_placed_facts signal strategy p q o broker r w w' :
  broker_for signal strategy w broker -> opposite_side (p_side p) = Ok (o_side o) ->
  o_exchange o = NFO -> o_product_type o = MARGIN -> o_order_type o = MARKET -> o_price o = None -> o_quantity o = q ->
  close_placed signal o w broker r w' ->
  same_tables w w' /\ closes_at_most_one signal strategy p q w w'
  /\ (forall resp, r = Ok resp -> close_source strategy q resp w w').
Proof.
  intros Hb Hside Hex Hpt Hot Hpr Hq Hc. destruct Hc as [broker e w' Ht Ho _ | price oid w' Hq' | k r w' Hs].
  - split; [done|]. split; [by left | done].
  - split; [by apply quiet_same_tables|]. split; [left; apply Hq'|]. intros resp [= <-].
    left. split; [done|]. split; [done | apply Hq'].
  - destruct Hb as [Hlive Hacc]. split; [apply Hs|]. split.
    + right. exists (k, o). split; [apply Hs|]. split; [|split; apply Hs].
      split; auto. simpl. do 4 (split; [done|]). apply Hs.
    + intros resp ->. destruct (cs_result _ _ _ _ _ _ Hs) as [(e & [=]) | (oid & fill & b & b' & Hf & [= ->])].
      right. split; [done|]. exists k, o, fill, b, b'. rewrite <- Hq. split; [apply Hs | done].
Qed.

(** Later Redis and table changes keep what is known of the orders. *)
Lemma closes_mono signal strategy p q w w1 w2 :
  w_orders w2 = w_orders w1 ->
  (forall id kind t, redis_get (signal_idempotency_key id kind) t (w_redis w2)
                     = redis_get (signal_idempotency_key id kind) t (w_redis w1)) ->
  closes_at_most_one signal strategy p q w w1 -> closes_at_most_one signal strategy p q w w2.
Proof.
  intros Ho Hr [E | (ko & E & Hok & Hfree & Hheld)]; [left; congruence | right].
  exists ko. split; [congruence|]. split; [done|]. split; [done|]. intros t Ht. rewrite Hr. by apply Hheld.
Qed.

Lemma close_source_mono strategy q resp w w1 w2 :
  w_orders w2 = w_orders w1 -> close_source strategy q resp w w1 -> close_source strategy q resp w w2.
Proof. unfold close_source. by intros ->. Qed.

Lemma not_filled_spec signal exit_side q context resp w r w' :
  not_filled signal exit_side q context resp w = (r, w') ->
  r = Ok (Ignored "close_not_filled" (Some (cr_order_id resp)))
  /\ same_tables w w' /\ w_orders w' = w_orders w
  /\ (forall id kind t, redis_get (signal_idempotency_key id kind) t (w_redis w')
                        = redis_get (signal_idempotency_key id kind) t (w_redis w))
  /\ (cr_timed_out resp = true ->
      redis_get (ambiguous_key (g_symbol signal)) (w_now w) (w_redis w') = Some (cr_order_id resp)).
Proof.
  unfold not_filled. destruct (cr_timed_out resp).
  2:{ intros [= <- <-]. by do 4 (split; [done|]). }
  intros E. apply bind_cases in E as [([] & w1 & E1 & E) | (e & -> & E1)];
    pose proof (flag_frame _ _ _ _ _ _ _ _ E1) as (Er & Ht & Ho & Hr); [|done].
  injection E as <- <-. do 4 (split; [done|]). intros _.
  unfold flag_ambiguous_fill, modify, send_alert in E1. injection E1 as <-. simpl_rec.
  rewrite redis_get_put, decide_True by done.
  by rewrite (proj2 (Z.ltb_lt _ _)) by (unfold AMBIGUOUS_TTL_S; lia).
Qed.

Lemma close_with_cases signal strategy p broker side_raw q context leg_role action full_reason level report w r w' :
  broker_for signal strategy w broker ->
  close_with signal strategy p (resolve_paper_mode settings (Some strategy)) broker side_raw q context leg_role action
    full_reason level report w = (r, w') ->
  closed_by signal strategy leg_role p q report w r w'.
Proof.
  intros Hb. unfold close_with. intros E.
  apply bind_cases in E as [(exit_side & w1 & E1 & E) | (e & -> & E1)]; unfold from_result in E1;
    injection E1 as Eside <-; [|apply by_error; [done | by left]].
  apply bind_cases in E as [(pt & w1 & E1 & E) | (e & -> & E1)]; unfold from_result in E1;
    injection E1 as Ept <-; [|apply by_error; [done | by left]].
  pose proof (resolve_product_type_nfo _ _ Ept) as ->. unfold exit_order_pricing in E; cbv beta iota in E.
  set (o := close_order (g_symbol signal) exit_side q MARGIN MARKET None).
  assert (Hplace : forall rp wp, place_close_order broker (resolve_paper_mode settings (Some strategy))
              (g_symbol signal) exit_side q MARGIN signal MARKET None w = (rp, wp) ->
            same_tables w wp /\ closes_at_most_one signal strategy p q w wp
            /\ (forall resp, rp = Ok resp -> close_source strategy q resp w wp)).
  { intros rp wp Ep. apply place_close_order_cases in Ep; [|destruct broker; [exact (proj1 Hb) | exact Hb]].
    by eapply (close_placed_facts signal strategy p q o broker). }
  apply bind_cases in E as [(resp & w1 & E1 & E) | (e & -> & E1)]; apply Hplace in E1 as (Ht & Hone & Hsrc);
    [|by apply by_error].
  specialize (Hsrc resp eq_refl). destruct (Z.leb_spec (cr_filled_qty resp) 0) as [Hf|Hf].
  - apply not_filled_spec in E as (-> & Ht2 & Ho2 & Hr2 & Hflag). apply by_no_fill.
    + by transitivity w1.
    + by eapply closes_mono.
    + by eapply close_source_mono.
    + done.
    + by rewrite <- (tb_now _ _ Ht).
  - destruct (settle_close_spec signal p (resolve_paper_mode settings (Some strategy)) side_raw exit_side leg_role
                action full_reason level resp w1) as (n & p' & w2 & Es & Hs).
    unfold mbind, M_bind in E. rewrite Es in E. injection E as <- <-.
    pose proof (st_env _ _ _ _ _ _ _ _ _ Hs) as He. eapply by_fill; eauto.
    + eapply closes_mono; [apply He | by rewrite (env_redis _ _ He) | done].
    + eapply close_source_mono; [apply He | done].
Qed.

(** Changes before the order that touch only the broker's state do not matter. *)
Lemma closed_by_quiet signal strategy leg_role p q report w w1 r w' :
  quiet w w1 -> closed_by signal strategy leg_role p q report w1 r w' ->
  closed_by signal strategy leg_role p q report w r w'.
Proof.
  intros Hq. assert (Hone : forall wf, closes_at_most_one signal strategy p q w1 wf ->
                                       closes_at_most_one signal strategy p q w wf).
  { unfold closes_at_most_one. rewrite (qt_orders _ _ Hq), (qt_now _ _ Hq), (qt_redis _ _ Hq).
    intros wf [Ho | (ko & Ho & [Hl Ha Hs Hsd Hqt] & Hrest)]; [by left | right]. exists ko.
    rewrite (qt_credentials _ _ Hq) in Ha. split; [done|]. split; [by split | done]. }
  assert (Hsrc : forall resp wf, close_source strategy q resp w1 wf -> close_source strategy q resp w wf).
  { unfold close_source. by rewrite (qt_orders _ _ Hq). }
  pose proof (quiet_same_tables _ _ Hq) as Ht.
  destruct 1 as [e w' | resp w' Ht' Ho Hs Hf Hfl | exit_side resp n p' w2 w' Hsd Ht' Ho Hs Hf Hst].
  - apply by_error; auto. by transitivity w1.
  - apply by_no_fill; auto; [by transitivity w1|]. by rewrite <- (qt_now _ _ Hq).
  - apply (by_fill _ _ _ _ _ _ _ exit_side resp n p' w2 w'); auto. by transitivity w1.
Qed.

(** A handler's run: nothing to do, or a close of an owner's open row. *)
Inductive handled (signal : StrategySignal) (strategy : Strategy) (leg_role : string) (w : world B R)
  : result exn exit_result -> world B R -> Prop :=
| handled_idle r w' :
    quiet w w' -> (forall c n oid st, r <> Ok (Executed c n oid st)) ->
    handled signal strategy leg_role w r w'
| handled_close p q report r w' :
    In p (w_positions w) -> matches_exit (s_id strategy) (g_symbol signal) (payload_side signal) p = true ->
    is_direction (payload_side signal) = true -> 0 < remaining_quantity p -> 0 < q ->
    (leg_role <> "direct_partial"%string -> q = remaining_quantity p
       /\ forall n p' oid, report n p' oid = Executed n 0 oid st_closed) ->
    (leg_role = "direct_partial"%string ->
       (exists lot, (lot | q)) /\ forall n p' oid, report n p' oid = Executed n (remaining_quantity p') oid (status p')) ->
    closed_by signal strategy leg_role p q report w r w' ->
    handled signal strategy leg_role w r w'.

Lemma get_open_position_spec sid symbol side w r w' :
  get_open_position sid symbol side w = (r, w') ->
  w' = w /\ exists found, r = Ok found
    /\ forall p, found = Some p -> In p (w_positions w) /\ matches_exit sid symbol side p = true.
Proof.
  unfold get_open_position, gets. intros [= <- <-]. split; [done|]. eexists. split; [done|].
  intros p Hp. by apply latest_by_in, filter_In in Hp.
Qed.

Lemma execute_exit_cases signal strategy leg_role w r w' :
  leg_role <> "direct_partial"%string ->
  execute_exit settings signal strategy leg_role w = (r, w') -> handled signal strategy leg_role w r w'.
Proof.
  intros Hrole. unfold execute_exit. intros E.
  apply bind_cases in E as [([] & w1 & E1 & E) | (e & -> & E1)]; apply raise_when_spec in E1 as [-> Er];
    destruct (is_direction (payload_side signal)) eqn:Edir; try done; [|by apply handled_idle]. clear Er.
  apply bind_cases in E as [(found & w1 & E1 & E) | (e & -> & E1)];
    apply get_open_position_spec in E1 as (-> & found' & Ef & Hfound); [|done]. injection Ef as <-.
  destruct found as [p|]; [|injection E as <- <-; by apply handled_idle].
  destruct (Hfound p eq_refl) as [Hin Hm].
  destruct (Z.leb_spec (remaining_quantity p) 0); [injection E as <- <-; by apply handled_idle|].
  apply bind_cases in E as [(broker & w1 & E1 & E) | (e & -> & E1)];
    apply exit_broker_spec in E1 as [-> [(e' & Ee) | (b & Eb & Hb)]]; try done; [|by apply handled_idle].
  injection Eb as <-.
  apply (handled_close _ _ _ _ p (remaining_quantity p) (fun closed _ oid => Executed closed 0 oid st_closed)); auto.
  - done.
  - eapply close_with_cases; eauto.
Qed.

Lemma qty_from_open_pct_lots open_qty pct lot q : qty_from_open_pct open_qty pct lot = Some q -> (lot | q).
Proof.
  unfold qty_from_open_pct. destruct (_ || _); [intros [= <-]; apply Z.divide_0_r|].
  destruct (f_floor _) as [raw|]; [|done]. intros [= <-]. by exists (raw / lot).
Qed.

Lemma execute_partial_cases signal strategy w r w' :
  execute_partial settings signal strategy w = (r, w') -> handled signal strategy "direct_partial" w r w'.
Proof.
  unfold execute_partial. intros E.
  apply bind_cases in E as [(pct & w1 & E1 & E) | (e & -> & E1)]; apply from_result_spec in E1 as [-> _];
    [|by apply handled_idle].
  apply bind_cases in E as [([] & w1 & E1 & E) | (e & -> & E1)]; apply raise_when_spec in E1 as [-> Er];
    destruct (is_direction (payload_side signal)) eqn:Edir; try done; [|by apply handled_idle]. clear Er.
  destruct pct as [pct|]; [|injection E as <- <-; by apply handled_idle].
  apply bind_cases in E as [([] & w1 & E1 & E) | (e & -> & E1)]; apply raise_when_spec in E1 as [-> Er];
    destruct (pct_in_range pct); try done; [|by apply handled_idle]. clear Er.
  apply bind_cases in E as [(found & w1 & E1 & E) | (e & -> & E1)];
    apply get_open_position_spec in E1 as (-> & found' & Ef & Hfound); [|done]. injection Ef as <-.
  destruct found as [p|]; [|injection E as <- <-; by apply handled_idle].
  destruct (Hfound p eq_refl) as [Hin Hm].
  destruct (Z.leb_spec (remaining_quantity p) 0); [injection E as <- <-; by apply handled_idle|].
  apply bind_cases in E as [(broker & w1 & E1 & E) | (e & -> & E1)];
    apply exit_broker_spec in E1 as [-> [(e' & Ee) | (b & Eb & Hb)]]; try done; [|by apply handled_idle].
  injection Eb as <-.
  apply bind_cases in E as [(lot & w1 & E1 & E) | (e & -> & E1)]; apply resolve_lot_size_quiet in E1;
    [|by apply handled_idle].
  destruct (qty_from_open_pct (remaining_quantity p) pct lot) as [q|] eqn:Eq;
    apply bind_cases in E as [(q' & w2 & E2 & E) | (e & -> & E2)]; apply from_result_spec in E2 as [-> E2];
    try done; [|by apply handled_idle].
  injection E2 as ->. destruct (Z.leb_spec q 0); [injection E as <- <-; by apply handled_idle|].
  apply (handled_close _ _ _ _ p q (fun closed p oid => Executed closed (remaining_quantity p) oid (status p))); auto.
  - done.
  - intros _. split; [|done]. exists lot. by eapply qty_from_open_pct_lots.
  - eapply closed_by_quiet; [exact E1|]. eapply close_with_cases; [|exact E].
    destruct broker as [k|]; [|done]. destruct Hb as [Hl (c & Hc)]. split; [done|]. exists c.
    by rewrite (qt_credentials _ _ E1).
Qed.

Definition role_of (action_kind : string) : string :=
  if String.eqb action_kind "partial" then "direct_partial"
  else if String.eqb action_kind "exit" then "direct_exit" else "direct_sl".

Lemma dispatch_cases action_kind signal strategy w r w' :
  dispatch_direct_exit settings action_kind signal strategy w = (r, w') ->
  handled signal strategy (role_of action_kind) w r w'.
Proof.
  unfold dispatch_direct_exit, role_of. destruct (String.eqb action_kind "partial"); [apply execute_partial_cases|].
  destruct (String.eqb action_kind "exit"); [by apply execute_exit_cases|].
  destruct (String.eqb action_kind "sl_hit"); [by apply execute_exit_cases|].
  intros [= <- <-]. by apply handled_idle.
Qed.
End Handlers.

(** ** Theorems *)

Section Theorems.
Context {B R : Type} `{BrokerInterface B} `{RedisLaws R} `{Decryptor}.
Context (settings : Settings).
Implicit Types (w : world B R).

(** The row a handler may touch: open, of the strategy, of its owner. *)
Lemma matches_exit_owner sid symbol side p :
  matches_exit sid symbol side p = true -> p_strategy_id p = sid /\ is_open p = true /\ p_subscription_id p = None.
Proof.
  unfold matches_exit, owner_row, absent. intros Hm. bool_to_prop. split; [done|]. split; [done|].
  by destruct (p_subscription_id p).
Qed.

(** A run leaves the tables alone, or takes [q] out of one row. *)
Definition took_out (strategy : Strategy) (w w' : world B R) (p p' : StrategyPosition) (q : Z)
    (x : StrategyExecution) : Prop :=
  In p (w_positions w) /\ p_strategy_id p = s_id strategy /\ is_open p = true /\ p_subscription_id p = None
  /\ 0 < q <= remaining_quantity p /\ after_exit p p' q
  /\ w_positions w' = put_row p' (w_positions w) /\ w_executions w' = w_executions w ++ [x]
  /\ x_quantity x = q /\ opposite_side (p_side p) = opposite_side (p_side p')
  /\ (exists side, opposite_side (p_side p) = Ok side /\ x_side x = side_value side).

Lemma closed_by_tables signal strategy leg_role p q report w r w' :
  In p (w_positions w) -> matches_exit (s_id strategy) (g_symbol signal) (payload_side signal) p = true ->
  0 < remaining_quantity p -> closed_by settings signal strategy leg_role p q report w r w' ->
  w_next_id w <= w_next_id w' /\
  ((w_positions w' = w_positions w /\ w_executions w' = w_executions w)
   \/ exists p' n x, took_out strategy w w' p p' n x).
Proof.
  intros Hin Hm Hr Hc. apply matches_exit_owner in Hm as (Hs & Ho & Hsub).
  destruct Hc as [e w' Ht _ | resp w' Ht _ _ _ _ | exit_side resp n p' w1 w' Hsd Ht _ _ Hf [Hq Ha Hrows (x & Hx & Hxq & _ & Hxs & _) He]].
  - split; [apply Ht | left; split; apply Ht].
  - split; [apply Ht | left; split; apply Ht].
  - split; [etransitivity; [apply Ht | apply He]|]. right. exists p', n, x.
    do 4 (split; [done|]). split; [lia|]. split; [done|]. split; [by rewrite Hrows, (tb_positions _ _ Ht)|].
    split; [by rewrite Hx, (tb_executions _ _ Ht)|]. split; [done|].
    destruct Ha as ([] & _). rewrite same_side. split; [done|]. rewrite <- same_side. eauto.
Qed.

Lemma handled_tables signal strategy leg_role w r w' :
  handled settings signal strategy leg_role w r w' ->
  w_next_id w <= w_next_id w' /\
  ((w_positions w' = w_positions w /\ w_executions w' = w_executions w)
   \/ exists p p' n x, took_out strategy w w' p p' n x).
Proof.
  destruct 1 as [r w' Hq _ | p q report r w' Hin Hm _ Hr Hqp _ _ Hc].
  - split; [apply Hq | left; split; apply Hq].
  - destruct (closed_by_tables _ _ _ _ _ _ _ _ _ Hin Hm Hr Hc) as [Hn [Hsame | (p' & n & x & Ht)]]; eauto 10.
Qed.

Lemma direct_exit_book action_kind signal strategy w r w' :
  book_inv w -> dispatch_direct_exit settings action_kind signal strategy w = (r, w') -> book_inv w'.
Proof.
  intros Hbook E. apply dispatch_cases, handled_tables in E as [Hn Htab].
  destruct Htab as [[Hp _] | (p & p' & n & x & Hin & _ & Ho & _ & Hq & Ha & Hrows & _)]; [by apply (book_inv_ext w)|].
  pose proof (book_rows _ Hbook) as Hall. pose proof (book_fresh _ Hbook) as Hfr.
  rewrite List.Forall_forall in Hall, Hfr. specialize (Hfr p Hin).
  assert (Hid := same_id _ _ (proj1 Ha)). simpl in Hfr.
  apply (book_inv_update w w' p'); auto; [|lia]. eapply after_exit_inv; eauto.
Qed.

(** A direct exit only ever takes quantity out of the owner's open row.
    Whatever the action and however it ends, the tables are as before, or exactly
    one open row of this strategy, not a marketplace subscriber's, lost a
    positive quantity it had, became partial or (when nothing is left) closed,
    and one execution of that quantity on the closing side was recorded.  The
    book stays well formed, with at most one open row per key. *)
Theorem direct_exit_keeps_book action_kind signal strategy w r w' :
  book_inv w -> one_open (w_positions w) ->
  dispatch_direct_exit settings action_kind signal strategy w = (r, w') ->
  book_inv w' /\ one_open (w_positions w')
  /\ ((w_positions w' = w_positions w /\ w_executions w' = w_executions w)
      \/ exists p p' n x, took_out strategy w w' p p' n x).
Proof.
  intros Hbook Hone E. split; [by eapply direct_exit_book|]. apply dispatch_cases, handled_tables in E as [Hn Htab].
  split; [|done]; destruct Htab as [[Hp _] | (p & p' & n & x & Hin & _ & Ho & _ & Hq & Ha & Hrows & _)].
  - by rewrite Hp.
  - rewrite Hrows. apply (one_open_put p); auto. apply Ha.
Qed.

(** C7: the book follows confirmed fills, never requests.  When a handler
    reports an execution, the quantity it closed is the smaller of the confirmed
    fill (live: what [confirm_fill] reported for the one order sent; paper: the
    requested quantity) and what the row had, and the open quantity of the book
    fell by exactly that; when it reports an unfilled close, nothing in the
    tables moved, and a timed-out order has left the ambiguous-fill marker. *)
Theorem direct_exit_follows_fill action_kind signal strategy w res w' :
  NoDup (map p_id (w_positions w)) ->
  dispatch_direct_exit settings action_kind signal strategy w = (Ok res, w') ->
  match res with
  | Executed c _ oid _ =>
      exists p q resp, In p (w_positions w) /\ close_source settings strategy q resp w w' /\ cr_order_id resp = oid
        /\ c = Z.min (cr_filled_qty resp) (remaining_quantity p) /\ 0 < c
        /\ sum_by remaining_quantity (w_positions w') + c = sum_by remaining_quantity (w_positions w)
  | Ignored reason _ =>
      w_positions w' = w_positions w /\ w_executions w' = w_executions w
      /\ (w_orders w' <> w_orders w ->
          exists q resp, close_source settings strategy q resp w w' /\ cr_filled_qty resp <= 0
            /\ (cr_timed_out resp = true ->
                redis_get (ambiguous_key (g_symbol signal)) (w_now w) (w_redis w') = Some (cr_order_id resp)))
  end.
Proof.
  intros Hnd E. apply dispatch_cases in E.
  inversion E as [r1 w1 Hq Hne | p q report r1 w1 Hin Hm Hdir Hr Hqp Hrep1 Hrep2 Hc]; subst.
  { destruct res as [reason oid | c n oid st]; [|by destruct (Hne c n oid st)].
    split; [apply Hq|]. split; [apply Hq|]. intros Hno. destruct Hno. apply Hq. }
  inversion Hc as [| resp w2 Ht Hone Hsrc Hf Hfl | exit_side resp n p' w2 w3 Hsd Ht Hone Hsrc Hf Hset]; subst.
  { split; [apply Ht|]. split; [apply Ht|]. intros _. eauto. }
  destruct Hset as [Hn Ha Hrows Hx He].
  assert (Hreport : exists rem st, report n p' (cr_order_id resp) = Executed n rem (cr_order_id resp) st).
  { destruct (decide (role_of action_kind = "direct_partial"%string)) as [Er|Er].
    - destruct (Hrep2 Er) as [_ ->]. eauto.
    - destruct (Hrep1 Er) as [_ ->]. eauto. }
  destruct Hreport as (rem & st & ->). exists p, q, resp. do 4 (split; [done|]). split; [lia|].
  rewrite Hrows, (tb_positions _ _ Ht), (sum_put_row _ p); [| by apply Hnd | done | by rewrite (same_id _ _ (proj1 Ha))].
  destruct Ha as (_ & _ & Hrem & _). lia.
Qed.

(** Close order discipline.  A direct exit sends at most one order; it is a
    valid NFO MARKET order with product type MARGIN on an active credential of
    the signal's own user, on the side opposite to an open owner row of this
    strategy, and an EXIT or SL_HIT asks for exactly what that row has left. *)
Theorem direct_exit_order_discipline action_kind signal strategy w r w' :
  dispatch_direct_exit settings action_kind signal strategy w = (r, w') ->
  w_orders w' = w_orders w
  \/ exists p q ko, w_orders w' = w_orders w ++ [ko] /\ In p (w_positions w)
     /\ matches_exit (s_id strategy) (g_symbol signal) (payload_side signal) p = true /\ 0 < q
     /\ close_order_ok settings signal strategy w p q ko
     /\ (action_kind <> "partial"%string -> q = remaining_quantity p).
Proof.
  intros E. apply dispatch_cases in E.
  destruct E as [r w' Hq _ | p q report r w' Hin Hm Hdir Hr Hqp Hrep _ Hc]; [left; apply Hq|].
  assert (Hone : closes_at_most_one settings signal strategy p q w w') by (by destruct Hc).
  destruct Hone as [Ho | (ko & Ho & Hok & _)]; [by left | right]. exists p, q, ko.
  do 5 (split; [done|]). intros Hne. apply Hrep. unfold role_of.
  destruct (String.eqb_spec action_kind "partial"); [done|]. by destruct (String.eqb action_kind "exit").
Qed.

(** A retried close never sends twice.  If a direct exit for the signal sent
    an order, no other direct exit of the same signal, of whatever action kind,
    sends one within the suppression window unless the slot was released. *)
Theorem direct_exit_at_most_once kind1 kind2 signal strategy strategy2 w r1 w1 w2 r2 w3 :
  dispatch_direct_exit settings kind1 signal strategy w = (r1, w1) ->
  w_orders w1 <> w_orders w ->
  w_now w <= w_now w2 < w_now w + SIGNAL_IDEMPOTENCY_TTL_SECONDS ->
  redis_get (signal_idempotency_key (g_id signal) "exit") (w_now w2) (w_redis w2)
  = redis_get (signal_idempotency_key (g_id signal) "exit") (w_now w2) (w_redis w1) ->
  dispatch_direct_exit settings kind2 signal strategy2 w2 = (r2, w3) ->
  w_orders w3 = w_orders w2.
Proof.
  intros E1 Hsent Ht Hslot E2. apply dispatch_cases in E1, E2.
  destruct E1 as [r w' Hq _ | p q report r w' _ _ _ _ _ _ _ Hc1]; [destruct Hsent; apply Hq|].
  destruct E2 as [r' w'' Hq _ | p2 q2 report2 r' w'' _ _ _ _ _ _ _ Hc2]; [apply Hq|].
  assert (Ho1 : closes_at_most_one settings signal strategy p q w w') by (by destruct Hc1).
  assert (Ho2 : closes_at_most_one settings signal strategy2 p2 q2 w2 w'') by (by destruct Hc2).
  destruct Ho1 as [Ho1 | (ko & _ & _ & _ & Hheld)]; [done|].
  destruct Ho2 as [Ho2 | (ko2 & _ & _ & Hfree & _)]; [done|].
  destruct (Hheld (w_now w2) Ht) as [v Hv]. congruence.
Qed.

(** An EXIT or SL_HIT that executes always reports "closed, 0 remaining",
    also when a partial fill left the stored row open: the row then keeps its
    remaining quantity minus the fill and has status partial. *)
Theorem exit_reports_closed_on_partial_fill signal strategy leg_role w c n oid st w' :
  leg_role = "direct_exit"%string \/ leg_role = "direct_sl"%string ->
  execute_exit settings signal strategy leg_role w = (Ok (Executed c n oid st), w') ->
  n = 0 /\ st = st_closed
  /\ exists p p', In p (w_positions w) /\ In p' (w_positions w') /\ same_row p p'
     /\ remaining_quantity p' = remaining_quantity p - c
     /\ (c < remaining_quantity p -> status p' = st_partial).
Proof.
  intros Hrole E. apply execute_exit_cases in E; [|by destruct Hrole as [-> | ->]].
  inversion E as [r1 w1 Hq Hne | p q report r1 w1 Hin Hm Hdir Hr Hqp Hrep1 _ Hc]; subst;
    [by destruct (Hne c n oid st)|].
  destruct Hrep1 as [_ Hrep]; [by destruct Hrole as [-> | ->]|].
  inversion Hc as [| | exit_side resp m p' w2 w3 Hsd Ht _ _ Hf Hset Hres]; subst.
  rewrite Hrep in Hres. injection Hres as <- <- <- <-. split; [done|]. split; [done|].
  destruct Hset as [Hn (Hrow & Htot & Hrem & Hst) Hrows _ _]. exists p, p'. split; [done|].
  split; [rewrite Hrows, (tb_positions _ _ Ht); apply (put_row_self p' _ p); auto with bridge|].
  split; [done|]. split; [done|]. intros Hlt. rewrite Hst, (proj2 (Z.ltb_lt _ _)) by lia. done.
Qed.
End Theorems.

(** ** Instances *)

Definition exit_signal : StrategySignal :=
  {| g_id := 41; g_user_id := 1; g_strategy_id := 2;
     raw_payload := <["side"%string := JStr "long"]> (<["closePct"%string := JInt 50]> ∅);
     g_symbol := "BSE-AUG2026-FUT"; g_action := "EXIT"; g_quantity := None; g_order_type := "market"; g_ai_decision := None;
     g_status := sg_received; g_received_at := 0 |}.

(** Half of a 750-contract row of lots of 375, in doubles. *)
Example half_of_two_lots : qty_from_open_pct 750 (f_of_Z 50) 375 = Some 375.
Proof. vm_compute. reflexivity. Qed.

(** The close is filled for one lot of two. *)
Definition half_close_world : world ScriptedBroker store :=
  sample_world <| w_broker := sample_broker <| sb_filled := 375 |> |>.

Lemma sample_exit_book : book_inv half_close_world.
Proof.
  split; [by repeat constructor; rewrite ?list_elem_of_In; simpl; tauto | by repeat constructor|].
  constructor; [by apply pos_invb_sound | constructor].
Qed.

Lemma direct_exit_keeps_book_witness :
  exists r w', dispatch_direct_exit sample_settings "partial" exit_signal sample_strategy half_close_world = (r, w')
    /\ map remaining_quantity (w_positions w') = [375]
    /\ book_inv w' /\ one_open (w_positions w')
    /\ ((w_positions w' = w_positions half_close_world /\ w_executions w' = w_executions half_close_world)
        \/ exists p p' n x, took_out sample_strategy half_close_world w' p p' n x).
Proof.
  do 2 eexists. split; [vm_compute; reflexivity|]. split; [reflexivity|].
  eapply (direct_exit_keeps_book sample_settings "partial" exit_signal sample_strategy half_close_world);
    [exact sample_exit_book | by intros p q [<- | []] [<- | []] | vm_compute; reflexivity].
Defined.

Lemma direct_exit_follows_fill_witness :
  exists c n oid st w',
    dispatch_direct_exit sample_settings "exit" exit_signal sample_strategy half_close_world
    = (Ok (Executed c n oid st), w') /\
    exists p q resp, In p (w_positions half_close_world)
      /\ close_source sample_settings sample_strategy q resp half_close_world w' /\ cr_order_id resp = oid
      /\ c = Z.min (cr_filled_qty resp) (remaining_quantity p) /\ 0 < c
      /\ sum_by remaining_quantity (w_positions w') + c = sum_by remaining_quantity (w_positions half_close_world).
Proof.
  do 5 eexists. split; [vm_compute; reflexivity|].
  eapply (direct_exit_follows_fill sample_settings "exit" exit_signal sample_strategy half_close_world (Executed _ _ _ _));
    [by repeat constructor; rewrite ?list_elem_of_In; simpl; tauto | vm_compute; reflexivity].
Defined.

Lemma direct_exit_order_discipline_witness :
  exists r w', dispatch_direct_exit sample_settings "sl_hit" exit_signal sample_strategy half_close_world = (r, w')
    /\ length (w_orders w') = 1%nat /\
  (w_orders w' = w_orders half_close_world
   \/ exists p q ko, w_orders w' = w_orders half_close_world ++ [ko] /\ In p (w_positions half_close_world)
      /\ matches_exit 2 "BSE-AUG2026-FUT" (payload_side exit_signal) p = true /\ 0 < q
      /\ close_order_ok sample_settings exit_signal sample_strategy half_close_world p q ko
      /\ ("sl_hit"%string <> "partial"%string -> q = remaining_quantity p)).
Proof.
  do 2 eexists. split; [vm_compute; reflexivity|]. split; [reflexivity|].
  eapply (direct_exit_order_discipline sample_settings "sl_hit" exit_signal sample_strategy half_close_world).
  vm_compute; reflexivity.
Defined.

Lemma direct_exit_at_most_once_witness :
  exists r1 w1 r2 w3,
    dispatch_direct_exit sample_settings "exit" exit_signal sample_strategy half_close_world = (r1, w1)
    /\ dispatch_direct_exit sample_settings "exit" exit_signal sample_strategy (w1 <| w_now := 160 |>) = (r2, w3)
    /\ w_orders w3 = w_orders (w1 <| w_now := 160 |>).
Proof.
  do 4 eexists. split; [vm_compute; reflexivity|]. split; [vm_compute; reflexivity|].
  eapply (direct_exit_at_most_once sample_settings "exit" "exit" exit_signal sample_strategy sample_strategy
            half_close_world);
    [vm_compute; reflexivity | discriminate | vm_compute; split; congruence | reflexivity | vm_compute; reflexivity].
Defined.

(** 375 of 750 closed, reported as flat. *)
Lemma exit_reports_closed_on_partial_fill_witness :
  exists oid w',
    execute_exit sample_settings exit_signal sample_strategy "direct_exit" half_close_world
    = (Ok (Executed 375 0 oid st_closed), w')
    /\ map remaining_quantity (w_positions w') = [375] /\
  0 = 0 /\ st_closed = st_closed
  /\ exists p p', In p (w_positions half_close_world) /\ In p' (w_positions w') /\ same_row p p'
     /\ remaining_quantity p' = remaining_quantity p - 375
     /\ (375 < remaining_quantity p -> status p' = st_partial).
Proof.
  do 2 eexists. split; [vm_compute; reflexivity|]. split; [reflexivity|].
  eapply (exit_reports_closed_on_partial_fill sample_settings exit_signal sample_strategy "direct_exit" half_close_world);
    [by left | vm_compute; reflexivity].
Defined.
