(* ===== verification/DayState.v ===== *)
(** * Day state: the Redis counters and the daily P&L the loss brake judges

    - backend/app/core/redis_client.py: the JSON cache helpers, the kill-switch
      flag, the day's realised P&L, idempotency slots, the window limiter;
    - backend/app/services/pnl_service.py: realised P&L with its database
      fallback, unrealised P&L from the cached positions;
    - the daily-trades counter of backend/app/services/kill_switch_service.py.

    Times are seconds since the epoch.  A user id is rendered by [z_str], so keys
    of different users and namespaces differ. *)

From Stdlib Require Import ZArith Lia List Bool String.
From stdpp Require Import base list strings gmap.
From S2P Require Import Prelude PyText PyFloat PyDecimal PyNum Records Enums Models Safeguards Book.

(** ** Keys *)

Definition kill_key (user_id : uuid) : string := String.append "kill:" (z_str user_id).
Definition pnl_key (user_id : uuid) : string := String.append "pnl:" (z_str user_id).
Definition pos_key (user_id : uuid) : string := String.append "pos:" (z_str user_id).
Definition trades_key (user_id : uuid) : string := String.append "daily_trades:" (z_str user_id).
Definition trip_meta_key (user_id : uuid) : string := String.append "kill_meta:" (z_str user_id).
Definition reset_token_key (user_id : uuid) : string := String.append "kill_reset_token:" (z_str user_id).
Definition idem_key (signal_hash : string) : string := String.append "idem:" signal_hash.
Definition rate_key (key : string) : string := String.append "rate:" key.
Definition config_cache_key (user_id : uuid) : string := String.append "kill_config:" (z_str user_id).

Definition DAILY_PNL_TTL : Z := 86400.
Definition DAILY_TRADES_TTL : Z := 86400.
Definition POSITIONS_CACHE_TTL : Z := 300.

Inductive KillSwitchState : Type := ACTIVE | TRIPPED.

#[export] Instance KillSwitchState_eq_dec : EqDecision KillSwitchState.
Proof. solve_decision. Defined.

Definition state_value (s : KillSwitchState) : string := match s with ACTIVE => "ACTIVE" | TRIPPED => "TRIPPED" end.

(** [raw if raw in (ACTIVE, TRIPPED) else ACTIVE]. *)
Definition state_of_raw (raw : option string) : KillSwitchState :=
  match raw with
  | Some s => if String.eqb s (state_value TRIPPED) then TRIPPED else ACTIVE
  | None => ACTIVE
  end.

(** [Decimal(raw)], zero when missing or corrupt. *)
Definition pnl_of_raw (raw : option string) : dec :=
  match raw with
  | Some s => default dzero (decimal_of_json (JStr s))
  | None => dzero
  end.

(** [int(raw) if raw else 0]; [None] stands for ValueError. *)
Definition count_of_raw (raw : option string) : option Z :=
  match raw with
  | Some s => if String.eqb s "" then Some 0
              else match int_of_json (JStr s) with IntOk z => Some z | _ => None end
  | None => Some 0
  end.

(** What INCR starts from; [None] stands for the error on a value that is not an
    integer. *)
Definition counter_of_raw (raw : option string) : option Z :=
  match raw with
  | Some s => match int_of_json (JStr s) with IntOk z => Some z | _ => None end
  | None => Some 0
  end.

(** ** The trading day *)

Definition IST_OFFSET : Z := 19800.
Definition DAY : Z := 86400.

(** Midnight IST of the day of [now], in UTC seconds. *)
Definition ist_day_start (now : datetime) : datetime := (now + IST_OFFSET) / DAY * DAY - IST_OFFSET.

(** SUM over a Numeric column: exact. *)
Definition exact_add (a b : dec) : dec :=
  let e := Z.min (expo a) (expo b) in Dec (at_scale e a + at_scale e b) e.

Definition sql_sum (l : list dec) : dec := fold_right exact_add dzero l.

(** The WHERE clause of the realised-P&L query: closed today (IST) with a
    reconciled P&L, an owner row of a strategy that is not paper. *)
Definition counts_today (user_id : uuid) (now : datetime) (strategies : list Strategy) (p : StrategyPosition) : bool :=
  let start := ist_day_start now in
  (p_user_id p =? user_id) && bool_decide (status p = st_closed)
  && negb (absent (final_pnl p))
  && opt_is (fun t => (start <=? t) && (t <? start + DAY)) (closed_at p)
  && existsb (fun s => (s_id s =? p_strategy_id p) && bool_decide (is_paper s = Some false)) strategies
  && owner_row p.

(** Sum of [unrealized_pnl] over the cached snapshot; a missing or corrupt entry
    is skipped. *)
Definition unrealized_sum (entries : list payload) : dec :=
  fold_left (fun total e => match decimal_of_json (jget e "unrealized_pnl") with
                            | Some d => dadd total d
                            | None => total
                            end) entries dzero.

Section DayState.
Context {B R : Type} `{RedisStore R}.

Definition on_platform (f : platform -> platform) : M B R unit :=
  modify (fun w => w <| w_platform ::= f |>).

(** ** Redis helpers *)

Definition cache_get_json (key : string) : M B R (option cached) :=
  gets (fun w => store_get key (w_now w) (pf_cache (w_platform w))).

Definition cache_set_json (key : string) (v : cached) (ttl_seconds : Z) : M B R unit :=
  raise_when (ttl_seconds <=? 0) ValueError ;;
  now ← gets w_now;
  on_platform (fun f => f <| pf_cache ::= fun c => (key, (v, Some (now + ttl_seconds))) :: c |>).

Definition cache_delete (key : string) : M B R unit := on_platform (fun f => f <| pf_cache ::= store_delete key |>).

Definition get_kill_switch_status (user_id : uuid) : M B R KillSwitchState :=
  gets (fun w => state_of_raw (redis_get (kill_key user_id) (w_now w) (w_redis w))).

Definition set_kill_switch_status (user_id : uuid) (s : KillSwitchState) : M B R unit :=
  modify (fun w => w <| w_redis ::= redis_set (kill_key user_id) (state_value s) |>).

Definition clear_kill_switch (user_id : uuid) : M B R unit :=
  modify (fun w => w <| w_redis ::= redis_delete (kill_key user_id) |>).

Definition get_daily_pnl (user_id : uuid) : M B R dec :=
  gets (fun w => pnl_of_raw (redis_get (pnl_key user_id) (w_now w) (w_redis w))).

Definition set_daily_pnl (user_id : uuid) (value : dec) : M B R unit :=
  modify (fun w => w <| w_redis ::= redis_put (pnl_key user_id) (dec_str value) (w_now w + DAILY_PNL_TTL) |>).

Definition increment_daily_pnl (user_id : uuid) (delta : dec) : M B R dec :=
  current ← get_daily_pnl user_id;
  let new_total := dadd current delta in
  set_daily_pnl user_id new_total ;;
  mret new_total.

Definition set_positions_cache (user_id : uuid) (positions : list payload) : M B R unit :=
  now ← gets w_now;
  on_platform (fun f => f <| pf_position_cache ::=
                               fun c => (pos_key user_id, (positions, Some (now + POSITIONS_CACHE_TTL))) :: c |>).

Definition get_positions_cache (user_id : uuid) : M B R (list payload) :=
  gets (fun w => default [] (store_get (pos_key user_id) (w_now w) (pf_position_cache (w_platform w)))).

(** The idempotency slots of the webhooks and of the fan-out. *)
Definition get_idempotency_key (signal_hash : string) : M B R bool :=
  gets (fun w => negb (absent (redis_get (idem_key signal_hash) (w_now w) (w_redis w)))).

Definition set_idempotency_key (signal_hash : string) (ttl_seconds : Z) : M B R bool := fun w =>
  if ttl_seconds <=? 0 then (Err ValueError, w)
  else
    let '(acquired, r) := redis_set_nx (idem_key signal_hash) "1" ttl_seconds (w_now w) (w_redis w) in
    (Ok acquired, w <| w_redis := r |>).

(** The window limiter: INCR and EXPIRE in one round trip, on every call. *)
Definition rate_limit_check (key : string) (max_requests window_seconds : Z) : M B R bool :=
  raise_when (max_requests <=? 0) ValueError ;;
  raise_when (window_seconds <=? 0) ValueError ;;
  raw ← gets (fun w => redis_get (rate_key key) (w_now w) (w_redis w));
  match counter_of_raw raw with
  | None => raise ValueError
  | Some n =>
      modify (fun w => w <| w_redis ::= redis_put (rate_key key) (z_str (n + 1)) (w_now w + window_seconds) |>) ;;
      mret (n + 1 <=? max_requests)
  end.

Definition rate_limit_reset (key : string) : M B R unit :=
  modify (fun w => w <| w_redis ::= redis_delete (rate_key key) |>).

(** ** P&L service *)

Definition calculate_unrealized_pnl (user_id : uuid) : M B R dec :=
  cached ← get_positions_cache user_id;
  mret (unrealized_sum cached).

Definition realized_pnl_today_from_db (user_id : uuid) : M B R dec :=
  gets (fun w => sql_sum (omap final_pnl
                            (List.filter (counts_today user_id (w_now w) (w_strategies w)) (w_positions w)))).

Definition calculate_daily_pnl (user_id : uuid) : M B R dec :=
  redis_total ← get_daily_pnl user_id;
  realized ← (if deqb redis_total dzero then realized_pnl_today_from_db user_id else mret redis_total);
  unrealized ← calculate_unrealized_pnl user_id;
  mret (dadd realized unrealized).

(** ** Daily trades *)

Definition get_daily_trades (user_id : uuid) : M B R Z :=
  raw ← gets (fun w => redis_get (trades_key user_id) (w_now w) (w_redis w));
  match count_of_raw raw with Some n => mret n | None => raise ValueError end.

(** INCR and EXPIRE in one round trip. *)
Definition increment_daily_trades (user_id : uuid) : M B R Z :=
  n ← get_daily_trades user_id;
  modify (fun w => w <| w_redis ::= redis_put (trades_key user_id) (z_str (n + 1)) (w_now w + DAILY_TRADES_TTL) |>) ;;
  mret (n + 1).
End DayState.
