(* ===== verification/ScripMaster.v ===== *)
(** * The Dhan scrip master (class [_ScripMaster] of backend/app/brokers/dhan.py)

    The parsed contract list: symbol and segment to security id, real expiry and
    lot units, and the metadata of each row.  A row is what the csv reader yields,
    its cells by column name; dicts keep insertion order, as the resolver iterates
    them.  The download and the 24 hour refresh are not modelled. *)

From Stdlib Require Import ZArith Lia List Bool Ascii String.
From stdpp Require Import base list strings.
From S2P Require Import Prelude PyText PyFloat PyDecimal PyNum Records Enums Models Calendar.

(** ** Python dicts *)

Section Dict.
Context {K V : Type} `{EqDecision K}.

Definition dict_get (k : K) (d : list (K * V)) : option V :=
  snd <$> List.find (fun e => bool_decide (fst e = k)) d.

(** Assignment keeps the place of a key that is already there. *)
Fixpoint dict_set (k : K) (v : V) (d : list (K * V)) : list (K * V) :=
  match d with
  | [] => [(k, v)]
  | (k', v') :: d' => if bool_decide (k' = k) then (k, v) :: d' else (k', v') :: dict_set k v d'
  end.

Lemma dict_get_set k v d k' : dict_get k' (dict_set k v d) = if decide (k' = k) then Some v else dict_get k' d.
Proof.
  unfold dict_get. induction d as [|[a b] d IH]; simpl; [repeat case_bool_decide; case_decide; simplify_eq; done|].
  destruct (bool_decide (a = k)) eqn:E; simpl; repeat case_bool_decide; case_decide; simplify_eq; try done; by rewrite IH, ?decide_True, ?decide_False.
Qed.

Lemma dict_get_in k v d : dict_get k d = Some v -> In (k, v) d.
Proof.
  unfold dict_get. destruct (List.find _ d) as [[a b]|] eqn:E; simpl; [|done]. intros [= ->].
  apply find_some in E as [Hin Hk]. simpl in Hk. by apply bool_decide_eq_true in Hk as ->.
Qed.
End Dict.

(** ** Expiry dates *)

Definition two_digits : regex := Rep is_digit 1 (Some 2%nat) true.
Definition year_digits : regex := Rep is_digit 4 (Some 4%nat) true.
Definition day_digits : regex := Alt two_digits (Cat (Lit (L " ")) (Rep is_digit 1 (Some 1%nat) true)).
Definition is_letter (c : ascii) : bool := is_upper c || is_lower c.

(** [%Y-%m-%d], [%Y-%m-%d %H:%M:%S], [%d-%b-%Y] and [%d/%m/%Y]; groups 1, 2, 3
    are year, month and day. *)
Definition ISO_DATE : regex :=
  Cat (Grp 1 year_digits) (Cat (Lit (L "-")) (Cat (Grp 2 two_digits) (Cat (Lit (L "-")) (Grp 3 day_digits)))).
Definition FORMAT_ISO : regex := Cat ISO_DATE Eos.
Definition FORMAT_TIME : regex :=
  Cat ISO_DATE (Cat (Rep is_space 1 None true) (Cat (Grp 4 two_digits) (Cat (Lit (L ":"))
    (Cat (Grp 5 two_digits) (Cat (Lit (L ":")) (Cat (Grp 6 two_digits) Eos)))))).
Definition FORMAT_ABBR : regex :=
  Cat (Grp 3 day_digits) (Cat (Lit (L "-")) (Cat (Grp 2 (Rep is_letter 3 (Some 3%nat) true))
    (Cat (Lit (L "-")) (Cat (Grp 1 year_digits) Eos)))).
Definition FORMAT_SLASH : regex :=
  Cat (Grp 3 day_digits) (Cat (Lit (L "/")) (Cat (Grp 2 two_digits) (Cat (Lit (L "/")) (Cat (Grp 1 year_digits) Eos)))).

Fixpoint index_from (n : Z) (x : text) (l : list text) : option Z :=
  match l with
  | [] => None
  | y :: l' => if bool_decide (y = x) then Some n else index_from (n + 1) x l'
  end.

(** The number of a month name, as [_MONTHS] and [%b] read it. *)
Definition month_number (name : text) : option Z := index_from 1 name MONTH_NAMES.

Definition date_of (m : caps) (month : option Z) : option date :=
  match month with Some mo => ymd_ord (int_of (group 1 m)) mo (int_of (strip (group 3 m))) | None => None end.

(** One [datetime.strptime(raw, fmt).date()]; [None] for ValueError. *)
Definition strptime_iso (raw : text) : option date :=
  m ← re_match FORMAT_ISO raw; date_of m (Some (int_of (group 2 m))).
Definition strptime_time (raw : text) : option date :=
  m ← re_match FORMAT_TIME raw;
  if (int_of (group 4 m) <=? 23) && (int_of (group 5 m) <=? 59) && (int_of (group 6 m) <=? 61)
  then date_of m (Some (int_of (group 2 m))) else None.
Definition strptime_abbr (raw : text) : option date :=
  m ← re_match FORMAT_ABBR raw; date_of m (month_number (upper (group 2 m))).
Definition strptime_slash (raw : text) : option date :=
  m ← re_match FORMAT_SLASH raw; date_of m (Some (int_of (group 2 m))).

(** [_parse_expiry]: the first format that matches. *)
Definition parse_expiry (raw : string) : option date :=
  let raw := strip (L raw) in
  match raw with
  | [] => None
  | _ => union (strptime_iso raw) (union (strptime_time raw) (union (strptime_abbr raw) (strptime_slash raw)))
  end.

(** ** The master *)

Record ScripMeta : Type := {
  mt_security_id : string;
  mt_symbol : string;
  mt_segment : string;
  mt_instrument : string;
  mt_lot_size : option Z;
  mt_option_type : option string;
  mt_strike_price : option dec;
  mt_expiry_date : option date
}.

Record scrip_master : Type := {
  by_symbol : list ((string * string) * string);
  by_id : list (string * (string * string));
  lot_sizes : list (string * Z);
  metas : list (string * ScripMeta);
  expiry_by_symbol : list ((string * string) * date);
  excluded : list string
}.

#[export] Instance scrip_master_eta : Eta scrip_master := fun m =>
  {| by_symbol := by_symbol m; by_id := by_id m; lot_sizes := lot_sizes m; metas := metas m; expiry_by_symbol := expiry_by_symbol m;
     excluded := excluded m |}.

Definition empty_master : scrip_master :=
  {| by_symbol := []; by_id := []; lot_sizes := []; metas := []; expiry_by_symbol := []; excluded := [] |}.

Definition SEGMENT_FOR : list ((string * string) * string) :=
  [(("NSE", "E"), "NSE_EQ"); (("NSE", "D"), "NSE_FNO"); (("NSE", "I"), "IDX_I"); (("NSE", "C"), "NSE_CURRENCY");
   (("BSE", "E"), "BSE_EQ"); (("BSE", "D"), "BSE_FNO"); (("BSE", "I"), "IDX_I"); (("BSE", "C"), "BSE_CURRENCY");
   (("MCX", "M"), "MCX_COMM")]%string.

Definition canonical_segment (raw : string) : string :=
  let raw := str_upper (str_strip raw) in
  default raw (dict_get raw [("NSE", "NSE_EQ"); ("BSE", "BSE_EQ"); ("NFO", "NSE_FNO"); ("BFO", "BSE_FNO");
                             ("MCX", "MCX_COMM"); ("CDS", "NSE_CURRENCY")]%string).

Abbreviation csv_row := (list (string * string)).

(** The row by stripped upper-case column names; the last of two equal names wins. *)
Definition normalised (row : csv_row) : csv_row :=
  fold_left (fun d e => dict_set (str_upper (str_strip (fst e))) (str_strip (snd e)) d) row [].

Definition cell (row : csv_row) (name : string) : string := default ""%string (dict_get name row).

(** [a or b]. *)
Definition or_str (a b : string) : string := if String.eqb a "" then b else a.

Definition row_security_id (row : csv_row) : string := or_str (cell row "SEM_SMST_SECURITY_ID") (cell row "SECURITY_ID").
Definition row_trading_symbol (row : csv_row) : string :=
  or_str (cell row "SEM_TRADING_SYMBOL") (or_str (cell row "TRADING_SYMBOL") (cell row "SM_SYMBOL_NAME")).
Definition row_instrument (row : csv_row) : string := str_upper (cell row "SEM_INSTRUMENT_NAME").

Definition row_segment (row : csv_row) : string :=
  let exchange_code := str_upper (or_str (cell row "SEM_EXM_EXCH_ID") (or_str (cell row "EXCH_ID") (cell row "EXM_EXCH_ID"))) in
  match dict_get (exchange_code, str_upper (cell row "SEM_SEGMENT")) SEGMENT_FOR with
  | Some segment => segment
  | None => canonical_segment (or_str exchange_code "NSE_EQ")
  end.

(** [int(float(lot_str))]; [None] when it is not a number, an error when it is an
    infinity. *)
Definition row_lot_size (row : csv_row) : result exn (option Z) :=
  let lot_str := cell row "SEM_LOT_UNITS" in
  if String.eqb lot_str "" then Ok None
  else
    match float_of_string (L lot_str) with
    | None => Ok None
    | Some x => match int_of_json (JFloat x) with IntOk z => Ok (Some z) | IntValueError => Ok None | IntOverflow => Err OverflowError end
    end.

(** [_parse_strike]: a strike that is missing, zero or no finite number is none. *)
Definition parse_strike (raw : string) : option dec := d ← dec_of_text (L raw); if dpos d then Some d else None.

Definition OPTION_TYPES : list string := ["CE"; "PE"]%string.

Definition row_meta (row : csv_row) (lot : option Z) : ScripMeta :=
  let raw_option_type := str_upper (cell row "SEM_OPTION_TYPE") in
  let option_type := if one_of raw_option_type OPTION_TYPES then Some raw_option_type else None in
  {| mt_security_id := row_security_id row; mt_symbol := str_upper (row_trading_symbol row); mt_segment := row_segment row;
     mt_instrument := row_instrument row; mt_lot_size := lot; mt_option_type := option_type;
     mt_strike_price := _ ← option_type; parse_strike (cell row "SEM_STRIKE_PRICE");
     mt_expiry_date := _ ← option_type; parse_expiry (cell row "SEM_EXPIRY_DATE") |}.

(** Rows that never enter the master. *)
Definition skipped (exclude : list string) (row : csv_row) : bool :=
  String.eqb (row_security_id row) "" || String.eqb (row_trading_symbol row) ""
  || String.eqb (row_instrument row) "INDEX" || bool_decide (row_instrument row ∈ exclude).

Definition ingest (exclude : list string) (m : scrip_master) (raw : csv_row) : result exn scrip_master :=
  let row := normalised raw in
  if skipped exclude row then Ok m
  else
    let sec_id := row_security_id row in
    let k := (str_upper (row_trading_symbol row), row_segment row) in
    lot ← row_lot_size row;
    Ok (m <| by_symbol ::= dict_set k sec_id |>
          <| by_id ::= dict_set sec_id k |>
          <| metas ::= dict_set sec_id (row_meta row lot) |>
          <| expiry_by_symbol ::= fun d => match parse_expiry (cell row "SEM_EXPIRY_DATE") with Some e => dict_set k e d | None => d end |>
          <| lot_sizes ::= fun d => match lot with Some z => dict_set sec_id z d | None => d end |>).

Fixpoint ingest_all (exclude : list string) (m : scrip_master) (rows : list csv_row) : result exn scrip_master :=
  match rows with
  | [] => Ok m
  | r :: rows' => m' ← ingest exclude m r; ingest_all exclude m' rows'
  end.

(** [_parse]. *)
Definition parse_master (exclude : list string) (rows : list csv_row) : result exn scrip_master :=
  m ← ingest_all exclude empty_master rows; Ok (m <| excluded := exclude |>).

Definition EXCLUDED_INSTRUMENTS : list string := ["OPTSTK"; "OPTIDX"; "OPTFUT"; "OPTCUR"]%string.

(** [\d(?:\.\d+)?[-_]?(?:CE|PE)$] somewhere in the symbol. *)
Definition OPTION_SYMBOL : regex :=
  Cat (Rep is_digit 1 (Some 1%nat) true) (Cat (Alt (Cat (Lit (L ".")) (Rep is_digit 1 None true)) (Lit []))
    (Cat (Alt (Lit (L "-")) (Alt (Lit (L "_")) (Lit []))) (Cat (Alt (Lit (L "CE")) (Lit (L "PE"))) Eos))).

Fixpoint re_search (r : regex) (s : text) : bool :=
  match re_match r s with
  | Some _ => true
  | None => match s with [] => false | _ :: s' => re_search r s' end
  end.

(** ScripMasterFilteredError is a BrokerInvalidSymbolError. *)
Definition lookup_scrip (m : scrip_master) (symbol segment : string) : result exn (option string) :=
  let upper := str_upper symbol in
  match dict_get (upper, segment) (by_symbol m) with
  | Some hit => Ok (Some hit)
  | None => match excluded m with
            | [] => Ok None
            | _ => if re_search OPTION_SYMBOL (L upper) then Err (BrokerError BrokerInvalidSymbolError) else Ok None
            end
  end.

Definition expiry_for (m : scrip_master) (symbol segment : string) : option date :=
  dict_get (str_upper symbol, segment) (expiry_by_symbol m).

Definition reverse_scrip (m : scrip_master) (security_id : string) : option (string * string) := dict_get security_id (by_id m).

Definition meta_of (m : scrip_master) (security_id : string) : option ScripMeta := dict_get security_id (metas m).

Definition is_option_symbol (m : scrip_master) (security_id : string) : bool :=
  opt_is (fun s => opt_is (fun t => one_of t OPTION_TYPES) (mt_option_type s)) (meta_of m security_id).

Definition is_future_symbol (m : scrip_master) (security_id : string) : bool :=
  opt_is (fun s => String.prefix "FUT" (mt_instrument s)) (meta_of m security_id).

Definition lot_size_of (m : scrip_master) (security_id : string) : option Z := dict_get security_id (lot_sizes m).
