(* ===== verification/FuturesResolver.v ===== *)
(** * Continuous futures to contracts (backend/app/services/futures_resolver.py)

    Which month-stamped contract a TradingView ticker stands for on a new entry:
    the earliest listed contract that is more than five calendar days from its
    expiry.  A month token of year 0 counts as malformed (for DEC0000 the source
    raises OverflowError).  [scrip_load now] is the scrip master as the loader leaves it at [now],
    [None] when the download failed.  The per-day cache is [pf_resolutions]. *)

From Stdlib Require Import ZArith Lia List Bool Ascii String Sorted.
From stdpp Require Import base list strings gmap.
From S2P Require Import Prelude PyText PyFloat PyDecimal PyNum Records Enums Models Calendar ScripMaster DayState.

(** ** Constants *)

Definition EXPIRY_CLOSE : Z := clock 14 30.
Definition ENTRY_ROLL_DAYS : Z := 5.
Definition MAX_DAYS_OUT : Z := 60.

Definition TV_ROOT_TO_DHAN_ROOT : list (string * string) :=
  [("NSE:BSE", "BSE"); ("BSE:NSE", "BSE"); ("BSE", "BSE"); ("BSE1!", "BSE");
   ("NSE:CDSL", "CDSL"); ("CDSL:NSE", "CDSL"); ("CDSL", "CDSL"); ("CDSL1!", "CDSL");
   ("NSE:ANGELONE", "ANGELONE"); ("ANGELONE:NSE", "ANGELONE"); ("ANGELONE", "ANGELONE"); ("ANGELONE1!", "ANGELONE")]%string.

(** A root, a dash, a month and a year, and -FUT; group 1 is the root. *)
Definition CANONICAL_FUT_RE : regex :=
  Cat (Grp 1 (Cat (Rep is_upper 1 (Some 1%nat) true) (Rep is_upnum 0 None true)))
    (Cat (Lit (L "-")) (Cat (Rep is_upper 3 (Some 3%nat) true) (Cat (Rep is_digit 4 (Some 4%nat) true)
      (Cat (Lit (L "-FUT")) Eos)))).

(** ** Contracts *)

(** [date(y, m, 1)] of the month after. *)
Definition first_of_next (y m : Z) : option date := if m =? 12 then ymd_ord (y + 1) 1 1 else ymd_ord y (m + 1) 1.

(** The last Thursday of a month token such as MAY2026; [None] where the source
    raises ValueError. *)
Definition last_thursday_of_month (yyyymm : text) : option date :=
  let month_str := upper (firstn 3 yyyymm) in
  let year_str := skipn 3 yyyymm in
  match month_number month_str with
  | Some m =>
      if forallb is_digit year_str && negb (bool_decide (year_str = [])) && (1 <=? int_of year_str) then
        next ← first_of_next (int_of year_str) m;
        let last_day := next - 1 in
        Some (last_day - (weekday last_day - 3) mod 7)
      else None
  | None => None
  end.

(** [sym.startswith(prefix) and sym.endswith(suffix)], and what is between. *)
Definition contract_token (root : string) (sym : string) : option text :=
  rest ← strip_prefix (L root ++ L "-") (L sym);
  if ends_with (L "-FUT") (L sym) then Some (take (length (L sym) - length (L root ++ L "-") - 4) rest) else None.

Definition contract_of (m : scrip_master) (root : string) (key : string * string) : option (string * date) :=
  let '(sym, seg) := key in
  if negb (String.eqb seg "NSE_FNO") then None
  else
    token ← contract_token root sym;
    match expiry_for m sym seg with
    | Some e => Some (sym, e)
    | None => (fun e => (sym, e)) <$> last_thursday_of_month token
    end.

Definition contracts_for_root (m : scrip_master) (root : string) : list (string * date) :=
  omap (contract_of m root) (map fst (by_symbol m)).

(** [sorted(contracts, key=expiry)]: a stable insertion sort. *)
Fixpoint insert_contract (c : string * date) (l : list (string * date)) : list (string * date) :=
  match l with
  | [] => [c]
  | d :: l' => if snd c <=? snd d then c :: l else d :: insert_contract c l'
  end.

Definition sorted_contracts (l : list (string * date)) : list (string * date) := foldr insert_contract [] l.

Definition entry_vehicle_policy (contracts : list (string * date)) (now : datetime) : option (string * date) :=
  List.find (fun c => ENTRY_ROLL_DAYS <? snd c - ist_date now) (sorted_contracts contracts).

Definition past_settlement (expiry : date) (now : datetime) : bool :=
  (expiry <? ist_date now) || ((expiry =? ist_date now) && (EXPIRY_CLOSE <=? ist_time now)).

(** ** Resolution *)

Section Resolver.
Context {B R : Type}.
Context (scrip_load : datetime -> option scrip_master).

(** The root of an explicit contract that has already expired. *)
Definition expired_canonical_root (symbol_upper : string) (now : datetime) : option string :=
  m ← re_match CANONICAL_FUT_RE (L symbol_upper);
  master ← scrip_load now;
  own_expiry ← expiry_for master symbol_upper "NSE_FNO";
  if past_settlement own_expiry now then Some (string_of_list_ascii (group 1 m)) else None.

Definition resolution_root (symbol : string) (now : datetime) : option string :=
  let upper := str_upper (str_strip symbol) in
  match dict_get upper TV_ROOT_TO_DHAN_ROOT with
  | Some root => Some root
  | None => expired_canonical_root upper now
  end.

(** The contract to enter, from a loaded master. *)
Definition pick_contract (root : string) (now : datetime) : option string :=
  master ← scrip_load now;
  '(resolved, expiry) ← entry_vehicle_policy (contracts_for_root master root) now;
  if past_settlement expiry now then None
  else if MAX_DAYS_OUT <? expiry - ist_date now then None
  else Some resolved.

Definition cached_resolution (root : string) (day : date) (cache : list (string * Z * string)) : option string :=
  c ← dict_get (root, day) cache; if String.eqb c "" then None else Some c.

Definition resolve_or_passthrough (symbol : string) : M B R string :=
  if String.eqb (str_strip symbol) "" then mret symbol
  else
    now ← gets w_now;
    match resolution_root symbol now with
    | None => mret symbol
    | Some root =>
        cached ← gets (fun w => cached_resolution root (ist_date now) (pf_resolutions (w_platform w)));
        match cached with
        | Some c => mret c
        | None =>
            match pick_contract root now with
            | None => mret symbol
            | Some resolved =>
                on_platform (fun f => f <| pf_resolutions ::= dict_set (root, ist_date now) resolved |>) ;;
                mret resolved
            end
        end
    end.
End Resolver.

(** ** The selection rule *)

Lemma insert_contract_perm c l : insert_contract c l ≡ₚ c :: l.
Proof. induction l as [|d l IH]; simpl; [done|]. case_match; [done|]. rewrite IH. apply Permutation_swap. Qed.

Lemma sorted_contracts_perm l : sorted_contracts l ≡ₚ l.
Proof. induction l as [|c l IH]; simpl; [done|]. by rewrite insert_contract_perm, IH. Qed.

Definition by_expiry (c d : string * date) : Prop := snd c <= snd d.

Lemma insert_contract_sorted c l : StronglySorted by_expiry l -> StronglySorted by_expiry (insert_contract c l).
Proof.
  induction 1 as [|d l Hl IH Hd]; simpl; [by repeat constructor|]. destruct (Z.leb_spec (snd c) (snd d)) as [Hle|Hlt].
  - constructor; [by constructor|]. constructor; [done|]. eapply Forall_impl; [exact Hd|]. intros e He. unfold by_expiry in *. lia.
  - constructor; [done|]. rewrite (insert_contract_perm c l). constructor; [unfold by_expiry; lia | done].
Qed.

Lemma sorted_contracts_sorted l : StronglySorted by_expiry (sorted_contracts l).
Proof. induction l as [|c l IH]; simpl; [constructor | by apply insert_contract_sorted]. Qed.

Lemma find_least {A : Type} (R : relation A) (p : A -> bool) l x :
  StronglySorted R l -> List.find p l = Some x -> forall y, In y l -> p y = true -> y = x \/ R x y.
Proof.
  induction 1 as [|a l Hl IH Ha]; simpl; [done|]. destruct (p a) eqn:Ep.
  - intros [= <-] y [<-|Hin] _; [by left|]. right. rewrite List.Forall_forall in Ha. by apply Ha.
  - intros Hf y [<-|Hin] Hy; [congruence | by apply IH].
Qed.

(** The contract a new entry takes on [day] out of [cs]. *)
Definition entry_vehicle (cs : list (string * date)) (day : date) (c : string * date) : Prop :=
  In c cs /\ ENTRY_ROLL_DAYS < snd c - day
  /\ forall c', In c' cs -> ENTRY_ROLL_DAYS < snd c' - day -> snd c <= snd c'.

Lemma policy_spec cs now :
  match entry_vehicle_policy cs now with
  | Some c => entry_vehicle cs (ist_date now) c
  | None => forall c, In c cs -> snd c - ist_date now <= ENTRY_ROLL_DAYS
  end.
Proof.
  unfold entry_vehicle_policy. destruct (List.find _ _) as [c|] eqn:E.
  - pose proof E as Ef. apply find_some in E as [Hin Hc]. apply Z.ltb_lt in Hc. split; [by rewrite <- (sorted_contracts_perm cs)|].
    split; [done|]. intros c' Hin' Hc'. rewrite <- (sorted_contracts_perm cs) in Hin'.
    destruct (find_least by_expiry _ _ c (sorted_contracts_sorted cs) Ef c' Hin' ltac:(by apply Z.ltb_lt)) as [->|Hle]; [done | exact Hle].
  - intros c Hin. rewrite <- (sorted_contracts_perm cs) in Hin. by apply (find_none _ _ E) in Hin as ?%Z.ltb_ge.
Qed.

(** The settlement guard never fires on what the policy picks. *)
Lemma vehicle_not_settled cs now c : entry_vehicle cs (ist_date now) c -> past_settlement (snd c) now = false.
Proof.
  intros (_ & Hd & _). unfold ENTRY_ROLL_DAYS in Hd. unfold past_settlement.
  rewrite (proj2 (Z.ltb_ge _ _)), (proj2 (Z.eqb_neq _ _)) by lia. done.
Qed.

Section Rule.
Context {B R : Type} (scrip_load : datetime -> option scrip_master).
Implicit Types (w : world B R).

(** [s] was the contract to enter at some moment of [day], at most sixty days
    from its expiry. *)
Definition picked (root : string) (day : date) (s : string) : Prop :=
  exists t master e, ist_date t = day /\ scrip_load t = Some master
    /\ entry_vehicle (contracts_for_root master root) day (s, e) /\ e - day <= MAX_DAYS_OUT.

Definition cache_ok (cache : list (string * Z * string)) : Prop := Forall (fun e => picked e.1.1 e.1.2 e.2) cache.

Lemma pick_contract_picked root now s : pick_contract scrip_load root now = Some s -> picked root (ist_date now) s.
Proof.
  unfold pick_contract. destruct (scrip_load now) as [master|] eqn:El; [|done]. simpl.
  pose proof (policy_spec (contracts_for_root master root) now) as Hp.
  destruct (entry_vehicle_policy _ _) as [[s' e]|]; [|done]. simpl.
  destruct (past_settlement _ _); [done|]. destruct (Z.ltb_spec MAX_DAYS_OUT (e - ist_date now)); [done|].
  intros [= <-]. exists now, master, e. auto.
Qed.

Lemma contract_nonempty m root sym e : In (sym, e) (contracts_for_root m root) -> sym <> ""%string.
Proof.
  unfold contracts_for_root. rewrite <- list_elem_of_In, list_elem_of_omap. intros ((k & seg) & _ & Hc) ->. simpl in Hc.
  destruct (negb _); [done|]. unfold contract_token in Hc.
  destruct (strip_prefix _ (L k)) eqn:Es; [|done]. apply strip_prefix_spec in Es. simpl in Hc. revert Hc.
  destruct (ends_with _ _); [|done]. simpl.
  assert (Hk : k <> ""%string) by (intros ->; destruct (L root); simpl in Es; discriminate).
  destruct (expiry_for _ _ _); [intros [= ? _]; congruence|]. destruct (last_thursday_of_month _); simpl; [intros [= ? _]; congruence | done].
Qed.

Lemma picked_nonempty root day s : picked root day s -> s <> ""%string.
Proof. intros (t & m & e & _ & _ & (Hin & _) & _). by eapply contract_nonempty. Qed.

Lemma cache_ok_set cache root day s : cache_ok cache -> picked root day s -> cache_ok (dict_set (root, day) s cache).
Proof.
  intros Hc Hs. induction Hc as [|[k v] cache Hk Hc IH]; simpl; [by constructor|].
  case_bool_decide; constructor; simplify_eq; done.
Qed.

(** A day's resolution of [root] is in the cache. *)
Definition settled_on (root : string) (day : date) (s : string) w : Prop :=
  cached_resolution root day (pf_resolutions (w_platform w)) = Some s.

Lemma settled_resolves root s symbol w :
  str_strip symbol <> ""%string -> resolution_root scrip_load symbol (w_now w) = Some root ->
  settled_on root (ist_date (w_now w)) s w -> resolve_or_passthrough scrip_load symbol w = (Ok s, w).
Proof.
  intros Hs Hr Hc. unfold resolve_or_passthrough. rewrite (proj2 (String.eqb_neq _ _) Hs).
  unfold mbind at 1, M_bind at 1, gets at 1. rewrite Hr. unfold mbind, M_bind, gets. by rewrite Hc.
Qed.

Lemma resolve_spec symbol w r w' :
  cache_ok (pf_resolutions (w_platform w)) -> resolve_or_passthrough scrip_load symbol w = (r, w') ->
  cache_ok (pf_resolutions (w_platform w'))
  /\ w' = w <| w_platform ::= fun f => f <| pf_resolutions := pf_resolutions (w_platform w') |> |>
  /\ exists s, r = Ok s
     /\ (s = symbol
         \/ exists root, resolution_root scrip_load symbol (w_now w) = Some root /\ str_strip symbol <> ""%string
              /\ picked root (ist_date (w_now w)) s /\ settled_on root (ist_date (w_now w)) s w').
Proof.
  intros Hc E. unfold resolve_or_passthrough in E.
  assert (Hid : w = w <| w_platform ::= fun f => f <| pf_resolutions := pf_resolutions (w_platform w) |> |>) by (destruct w as [? ? ? ? [] ? ? ? ? ? ?]; done).
  match goal with |- ?G => assert (Hsame : (Ok symbol, w) = (r, w') -> G) end.
  { intros [= <- <-]. split_and!; [exact Hc | exact Hid |]. exists symbol. split; [done | by left]. }
  destruct (String.eqb_spec (str_strip symbol) "") as [|Hne]; [by apply Hsame|].
  unfold mbind at 1, M_bind at 1, gets at 1 in E. destruct (resolution_root _ _ _) as [root|] eqn:Er; [|by apply Hsame].
  unfold mbind at 1, M_bind at 1, gets at 1 in E. destruct (cached_resolution _ _ _) as [c|] eqn:Ec.
  - injection E as <- <-. split_and!; [done | done |]. exists c. split; [done|]. right. exists root. split_and!; try done.
    unfold cached_resolution in Ec. destruct (dict_get _ _) as [c'|] eqn:Eg; [|done]. simpl in Ec.
    destruct (String.eqb c' ""); [done|]. injection Ec as ->. apply dict_get_in in Eg.
    unfold cache_ok in Hc. rewrite List.Forall_forall in Hc. exact (Hc _ Eg).
  - destruct (pick_contract _ _ _) as [s|] eqn:Ep; [|by apply Hsame]. pose proof (pick_contract_picked _ _ _ Ep) as Hp.
    injection E as <- <-. split_and!; [by apply cache_ok_set | done |]. exists s. split; [done|]. right. exists root.
    split_and!; try done. unfold settled_on, cached_resolution, set. simpl. rewrite dict_get_set, decide_True by done. simpl.
    by rewrite (proj2 (String.eqb_neq _ _) (picked_nonempty _ _ _ Hp)).
Qed.

(** Resolving always returns, and writes at most the cache of the day. *)
Lemma resolve_writes symbol w r w' :
  resolve_or_passthrough scrip_load symbol w = (r, w') ->
  (exists s, r = Ok s) /\ exists res, w' = w <| w_platform ::= fun f => f <| pf_resolutions := res |> |>.
Proof.
  intros E. unfold resolve_or_passthrough in E.
  assert (Hid : exists res, w = w <| w_platform ::= fun f => f <| pf_resolutions := res |> |>)
    by (exists (pf_resolutions (w_platform w)); destruct w as [? ? ? ? [] ? ? ? ? ? ?]; done).
  destruct (String.eqb (str_strip symbol) ""); [injection E as <- <-; eauto|].
  unfold mbind at 1, M_bind at 1, gets at 1 in E. destruct (resolution_root _ _ _) as [root|]; [|injection E as <- <-; eauto].
  unfold mbind at 1, M_bind at 1, gets at 1 in E. destruct (cached_resolution _ _ _); [injection E as <- <-; eauto|].
  destruct (pick_contract _ _ _); injection E as <- <-; eauto.
Qed.

End Rule.

(** ** The fallback calendar *)

Lemma year_length y : days_before_year (y + 1) = days_before_year y + 365 + (if is_leap y then 1 else 0).
Proof.
  unfold days_before_year, is_leap. replace (y + 1 - 1) with y by lia.
  destruct (Z.eqb_spec (y mod 4) 0), (Z.eqb_spec (y mod 100) 0), (Z.eqb_spec (y mod 400) 0); simpl;
    Z.to_euclidean_division_equations; lia.
Qed.

Lemma december_end y : days_before_year (y + 1) = days_before_year y + days_before_month y 11 + month_days y 12.
Proof. rewrite year_length. simpl. destruct (is_leap y); lia. Qed.

Lemma ymd_first y m : 1 <= y <= 9999 -> 1 <= m <= 12 ->
  ymd_ord y m 1 = Some (days_before_year y + days_before_month y (Z.to_nat (m - 1)) + 1).
Proof.
  intros Hy Hm. unfold ymd_ord. assert (1 <= month_days y m) by (unfold month_days; repeat case_match; lia).
  by rewrite !(proj2 (Z.leb_le _ _)) by lia.
Qed.

Lemma ymd_ord_year y m d n : ymd_ord y m d = Some n -> 1 <= y <= 9999 /\ 1 <= m <= 12.
Proof. unfold ymd_ord. case_match eqn:E; [|done]. bool_to_prop. lia. Qed.

Lemma next_month y m next : 1 <= y -> 1 <= m <= 12 -> first_of_next y m = Some next ->
  exists first, ymd_ord y m 1 = Some first /\ next = first + month_days y m.
Proof.
  intros Hy Hm. unfold first_of_next. destruct (Z.eqb_spec m 12) as [->|Hne]; intros E; destruct (ymd_ord_year _ _ _ _ E) as [Hy' Hm'];
    rewrite ymd_first in E by lia; injection E as <-; (eexists; split; [apply ymd_first; lia|]).
  - rewrite december_end. change (days_before_month (y + 1) (Z.to_nat (1 - 1))) with 0. change (Z.to_nat (12 - 1)) with 11%nat. lia.
  - replace (Z.to_nat (m + 1 - 1)) with (S (Z.to_nat (m - 1))) by lia. cbn [days_before_month].
    replace (Z.of_nat (S (Z.to_nat (m - 1)))) with m by lia. lia.
Qed.

Lemma month_number_range name m : month_number name = Some m -> 1 <= m <= 12.
Proof.
  unfold month_number, MONTH_NAMES. simpl. repeat case_bool_decide; intros E; try injection E as <-; try lia. done.
Qed.

(** The computed expiry is a Thursday of the month its token names, and no later
    day of that month is one. *)
Theorem last_thursday_is_last token d :
  last_thursday_of_month token = Some d ->
  exists m first, month_number (upper (firstn 3 token)) = Some m /\ ymd_ord (int_of (skipn 3 token)) m 1 = Some first
    /\ weekday d = 3 /\ first <= d < first + month_days (int_of (skipn 3 token)) m /\ first + month_days (int_of (skipn 3 token)) m <= d + 7.
Proof.
  unfold last_thursday_of_month. destruct (month_number _) as [m|] eqn:Em; [|done]. set (y := int_of (skipn 3 token)).
  destruct (_ && _ && _) eqn:Eg; [|done]. bool_to_prop. destruct (first_of_next y m) as [next|] eqn:En; [|done]. simpl. intros [= <-].
  pose proof (month_number_range _ _ Em) as Hm. destruct (next_month y m next) as (first & Ef & ->); [done..|].
  exists m, first. split_and!; try done.
  - unfold weekday. Z.to_euclidean_division_equations. lia.
  - assert (28 <= month_days y m) by (unfold month_days; repeat case_match; lia).
    pose proof (Z.mod_pos_bound (weekday (first + month_days y m - 1) - 3) 7 ltac:(lia)). lia.
  - pose proof (Z.mod_pos_bound (weekday (first + month_days y m - 1) - 3) 7 ltac:(lia)). lia.
  - pose proof (Z.mod_pos_bound (weekday (first + month_days y m - 1) - 3) 7 ltac:(lia)). lia.
Qed.

(** ** A concrete master: August 2026 expires on Tuesday the 25th *)

Definition future_row (sym expiry : string) : csv_row :=
  [("SEM_SMST_SECURITY_ID", sym); ("SEM_TRADING_SYMBOL", sym); ("SEM_INSTRUMENT_NAME", "FUTSTK"); ("SEM_EXM_EXCH_ID", "NSE");
   ("SEM_SEGMENT", "D"); ("SEM_EXPIRY_DATE", expiry); ("SEM_LOT_UNITS", "375.0")]%string.

Definition sample_rows : list csv_row :=
  [future_row "BSE-Sep2026-FUT" "2026-09-29 14:30:00"; future_row "BSE-Aug2026-FUT" "2026-08-25"; future_row "BSE-Oct2026-FUT" "27/10/2026"].

Definition sample_master : option scrip_master :=
  match parse_master EXCLUDED_INSTRUMENTS sample_rows with Ok m => Some m | Err _ => None end.

Definition sample_load (now : datetime) : option scrip_master := sample_master.

(** 10:00 on 19 and on 20 August 2026, in India. *)
Definition aug19 : datetime := 1787113800.
Definition aug20 : datetime := 1787200200.

Definition roll_world (now : datetime) : world unit store :=
  {| w_positions := []; w_executions := []; w_credentials := []; w_strategies := []; w_platform := empty_platform;
     w_redis := []; w_alerts := []; w_broker := tt; w_orders := []; w_now := now; w_next_id := 1 |}.

Example rolls_five_days_early :
  fst (resolve_or_passthrough sample_load "NSE:BSE" (roll_world aug19)) = Ok "BSE-AUG2026-FUT"%string
  /\ fst (resolve_or_passthrough sample_load "bse1!" (roll_world aug20)) = Ok "BSE-SEP2026-FUT"%string
  /\ fst (resolve_or_passthrough sample_load "BSE-AUG2026-FUT" (roll_world aug20)) = Ok "BSE-AUG2026-FUT"%string.
Proof. vm_compute. auto. Qed.

