(* ===== verification/AiValidator.v ===== *)
(** * Signal scoring (backend/app/services/ai_validator.py)

    The weighted indicator score, the regime multiplier, the score tiers and the
    volatility rule that decide whether an entry is taken and with how many lots.
    Floats are binary64 as in the source.  The environment toggle of the regime
    detection is [use_regime_detection]; the reasoning text and the confidence
    (the clamped score for display) are not kept. *)

From Stdlib Require Import ZArith Lia List Bool Ascii String SpecFloat.
From stdpp Require Import base list strings gmap.
From S2P Require Import Prelude PyText PyFloat PyDecimal PyNum Records Enums Models Samples.

(** The double of a decimal literal. *)
Definition num (c e : Z) : float64 := float_of_decimal c e.

(** ** Constants *)

Definition LONG_THRESHOLD : float64 := num 51 0.
Definition LONG_THRESHOLD_4LOT : float64 := num 85 0.
Definition SHORT_THRESHOLD : float64 := num 51 0.
Definition QTY_LONG_2LOT : Z := 2.
Definition QTY_LONG_4LOT : Z := 4.
Definition QTY_SHORT_2LOT : Z := 2.
Definition ENTRY_QTY_MAX : Z := 10.
Definition VIX_THRESH_LOW : float64 := num 115 (-1).
Definition VIX_THRESH_HIGH : float64 := num 20 0.
Definition VIX_HALF_MULT : float64 := num 5 (-1).
Definition DEFAULT_VIX : float64 := num 15 0.
Definition REGIME_VIX_HIGH : float64 := num 22 0.
Definition REGIME_ADX_TREND : float64 := num 25 0.
Definition REGIME_ADX_RANGE : float64 := num 15 0.
Definition REGIME_SCORE_VOLATILE_MULT : float64 := num 11 (-1).
Definition REGIME_SCORE_TREND_MULT : float64 := num 1 0.
Definition REGIME_SCORE_RANGE_MULT : float64 := num 115 (-2).

Definition LONG_W : list (string * float64) :=
  [("PriceSpd", num 135 (-1)); ("ATR", num 11 (0)); ("LongMA", num 8 (0)); ("GaussL", num 77 (-1));
   ("SlowMA", num 76 (-1)); ("GaussS", num 76 (-1)); ("FastMA", num 76 (-1)); ("VWAPDist", num 57 (-1));
   ("BullGap", num 46 (-1)); ("Squeeze", num 36 (-1)); ("BodyPct", num 32 (-1)); ("Vol", num 16 (-1));
   ("DeltaPwr", num 14 (-1)); ("BearGap", num 12 (-1)); ("RVOL", num 8 (-1)); ("OFInten", num 5 (-1));
   ("RSI", num 2 (-1)); ("ADX", num 55 (-1)); ("MFI", num 35 (-1)); ("STDir", num 3 (0)); ("OIBuild", num 35 (-1));
   ("MACDH", num 2 (0))]%string.

Definition SHORT_W : list (string * float64) :=
  [("PriceSpd", num 93 (-1)); ("ATR", num 87 (-1)); ("GaussL", num 78 (-1)); ("LongMA", num 78 (-1));
   ("SlowMA", num 78 (-1)); ("GaussS", num 78 (-1)); ("FastMA", num 78 (-1)); ("BearGap", num 46 (-1));
   ("Vol", num 39 (-1)); ("Squeeze", num 39 (-1)); ("VWAPDist", num 38 (-1)); ("RSI", num 3 (0));
   ("BullGap", num 28 (-1)); ("RVOL", num 24 (-1)); ("OFInten", num 2 (0)); ("DeltaPwr", num 11 (-1));
   ("BodyPct", num 8 (-1)); ("ADX", num 55 (-1)); ("MFI", num 35 (-1)); ("STDir", num 3 (0));
   ("OIBuild", num 35 (-1)); ("MACDH", num 2 (0))]%string.

Definition AVG_VALUES : list (string * float64) :=
  [("PriceSpd", num 472 (-2)); ("ATR", num 5 (0)); ("LongMA", num 73649 (-2)); ("GaussL", num 74317 (-2));
   ("SlowMA", num 74379 (-2)); ("GaussS", num 74382 (-2)); ("FastMA", num 74445 (-2)); ("VWAPDist", num 77 (-2));
   ("BullGap", num 179 (0)); ("Squeeze", num 55 (-1)); ("BodyPct", num 642 (-1)); ("Vol", num 33266968 (-2));
   ("DeltaPwr", num 3361 (-2)); ("BearGap", num 10605 (-2)); ("RVOL", num 166 (-2)); ("OFInten", num 16 (-1));
   ("RSI", num 5482 (-2)); ("ADX", num 22 (0)); ("MFI", num 50 (0)); ("STDir", num 0 (0)); ("OIBuild", num 0 (0));
   ("MACDH", num 0 (0))]%string.

Definition assoc_get {V : Type} (k : string) (l : list (string * V)) : option V :=
  snd <$> List.find (fun e => String.eqb (fst e) k) l.

Inductive trade_side : Type := LONG | SHORT.

#[export] Instance trade_side_eq_dec : EqDecision trade_side.
Proof. solve_decision. Defined.

(** ** Scoring *)

Definition long_passed (name : string) (val target : float64) : bool :=
  if String.eqb name "DeltaPwr" then f_ltb (num 3 0) val
  else if String.eqb name "ADX" then f_leb (num 20 0) val
  else if String.eqb name "MFI" then f_leb (num 40 0) val && f_leb val (num 80 0)
  else if String.eqb name "STDir" then f_ltb f_zero val
  else if String.eqb name "OIBuild" then f_leb (num 1 0) val
  else if String.eqb name "MACDH" then f_ltb f_zero val
  else if one_of name ["PriceSpd"; "ATR"; "RVOL"; "BodyPct"; "Squeeze"; "VWAPDist"; "RSI"]%string
  then f_leb (f_mul target (num 8 (-1))) val
  else f_leb (f_mul target (num 85 (-2))) (f_abs val).

Definition short_passed (name : string) (val target : float64) : bool :=
  if String.eqb name "DeltaPwr" then f_ltb val (f_neg (num 3 0))
  else if String.eqb name "ADX" then f_leb (num 20 0) val
  else if String.eqb name "MFI" then f_leb (num 20 0) val && f_leb val (num 60 0)
  else if String.eqb name "STDir" then f_ltb val f_zero
  else if String.eqb name "OIBuild" then f_leb val (f_neg (num 1 0))
  else if String.eqb name "MACDH" then f_ltb val f_zero
  else if String.eqb name "RSI" then f_leb val (f_mul target (num 8 (-1)))
  else if one_of name ["PriceSpd"; "ATR"; "RVOL"; "BodyPct"; "Squeeze"; "VWAPDist"]%string
  then f_leb (f_mul target (num 8 (-1))) (f_abs val)
  else f_leb (f_mul target (num 85 (-2))) (f_abs val).

(** [float(x)] with TypeError and ValueError caught; OverflowError is not. *)
Definition float_or (dflt : float64) (j : json) : result exn float64 :=
  match float_of_json j with
  | FloatOk x => Ok x
  | FloatValueError => Ok dflt
  | FloatOverflow => Err OverflowError
  end.

Definition earned (passed : bool) (weight : float64) : float64 := if passed then weight else f_mul weight (num 3 (-1)).

Fixpoint score_loop (pass_fn : string -> float64 -> float64 -> bool) (indicators : payload) (weights : list (string * float64))
    (total : float64) : result exn float64 :=
  match weights with
  | [] => Ok total
  | (name, weight) :: rest =>
      val ← float_or f_zero (jget indicators name);
      let target := default f_zero (assoc_get name AVG_VALUES) in
      score_loop pass_fn indicators rest (f_add total (earned (pass_fn name val target) weight))
  end.

Definition compute_score (indicators : payload) (side : trade_side) : result exn float64 :=
  let weights := match side with LONG => LONG_W | SHORT => SHORT_W end in
  let pass_fn := match side with LONG => long_passed | SHORT => short_passed end in
  total ← score_loop pass_fn indicators weights f_zero;
  Ok (f_round 2 total).

(** ** Regime, tiers and volatility *)

Definition detect_regime (settings : Settings) (indicators : payload) : result exn float64 :=
  if negb (use_regime_detection settings) then Ok (num 1 0)
  else
    adx ← float_or f_zero (j_or (jget indicators "ADX") (JInt 0));
    vix ← float_or f_zero (j_or (jget indicators "IndiaVIX") (JInt 0));
    Ok (if f_ltb REGIME_VIX_HIGH vix then REGIME_SCORE_VOLATILE_MULT
        else if f_leb REGIME_ADX_TREND adx then REGIME_SCORE_TREND_MULT
        else if f_leb adx REGIME_ADX_RANGE then REGIME_SCORE_RANGE_MULT
        else num 1 0).

(** Approved, and the base quantity. *)
Definition resolve_tier (score : float64) (side : trade_side) (regime_mult : float64) : bool * Z :=
  match side with
  | LONG =>
      if f_leb (f_mul LONG_THRESHOLD_4LOT regime_mult) score then (true, QTY_LONG_4LOT)
      else if f_leb (f_mul LONG_THRESHOLD regime_mult) score then (true, QTY_LONG_2LOT)
      else (false, 0)
  | SHORT => if f_leb (f_mul SHORT_THRESHOLD regime_mult) score then (true, QTY_SHORT_2LOT) else (false, 0)
  end.

(** [int(round(qty * 0.5))]; the product of an integer and a float is finite here. *)
Definition halved (qty : Z) : Z := default 0 (f_round_int (f_mul (f_of_Z qty) VIX_HALF_MULT)).

Definition vix_adjust_qty (qty : Z) (vix : float64) : Z :=
  if qty <=? 0 then 0
  else if f_ltb vix VIX_THRESH_LOW || f_ltb VIX_THRESH_HIGH vix then Z.max 1 (halved qty)
  else Z.max 1 qty.

(** ** The decision *)

Record AIDecision : Type := { ai_status : AIDecisionStatus; recommended_lots : Z }.

(** [_signal_side]. *)
Definition signal_side (signal : StrategySignal) : option trade_side :=
  let action := str_upper (g_action signal) in
  if String.eqb action "BUY" then Some LONG
  else if String.eqb action "SELL" then Some SHORT
  else if String.eqb action "ENTRY" then
    let side_raw := str_lower (str_or_empty (jget (raw_payload signal) "side")) in
    if String.eqb side_raw "long" then Some LONG else if String.eqb side_raw "short" then Some SHORT else None
  else None.

Definition extract_indicators (p : payload) : payload :=
  match jget p "indicators" with JDict entries => fields entries | _ => ∅ end.

(** The payload's own score, when it is a number from 0 to 100. *)
Definition extract_payload_score (p : payload) : result exn (option float64) :=
  match jget p "score" with
  | JNull | JBool _ => Ok None
  | raw =>
      match float_of_json raw with
      | FloatOk value => Ok (if f_leb f_zero value && f_leb value (num 100 0) then Some value else None)
      | FloatValueError => Ok None
      | FloatOverflow => Err OverflowError
      end
  end.

Definition vix_from_indicators (indicators : payload) : result exn float64 :=
  match jget indicators "IndiaVIX" with
  | JNull => Ok DEFAULT_VIX
  | raw => v ← float_or DEFAULT_VIX raw; Ok (if f_ltb f_zero v then v else DEFAULT_VIX)
  end.

(** [validate_signal] with its optional arguments left out, as its caller does. *)
Definition validate_signal (settings : Settings) (signal : StrategySignal) (strategy : Strategy) : result exn AIDecision :=
  if negb (ai_validation_enabled strategy) then
    Ok {| ai_status := AI_APPROVED; recommended_lots := Z.max 0 (Z.min (entry_lots strategy) ENTRY_QTY_MAX) |}
  else
    match signal_side signal with
    | None => Ok {| ai_status := AI_REJECTED; recommended_lots := 0 |}
    | Some side =>
        let indicators := extract_indicators (raw_payload signal) in
        payload_score ← extract_payload_score (raw_payload signal);
        score ← (match payload_score with Some s => Ok s | None => compute_score indicators side end);
        regime_mult ← detect_regime settings indicators;
        let '(approved, base_qty) := resolve_tier score side regime_mult in
        if negb approved then Ok {| ai_status := AI_REJECTED; recommended_lots := 0 |}
        else
          vix ← vix_from_indicators indicators;
          Ok {| ai_status := AI_APPROVED; recommended_lots := Z.min (vix_adjust_qty base_qty vix) ENTRY_QTY_MAX |}
    end.

(** ** What a decision can be *)

(** No field of a payload is an integer too large for a double. *)
Definition representable (p : payload) : Prop := forall k, float_of_json (jget p k) <> FloatOverflow.

Lemma float_or_ok dflt j : float_of_json j <> FloatOverflow -> exists x, float_or dflt j = Ok x.
Proof. unfold float_or. destruct (float_of_json j); eauto. done. Qed.

Lemma score_loop_ok pass_fn indicators weights total :
  representable indicators -> exists x, score_loop pass_fn indicators weights total = Ok x.
Proof.
  intros Hr. revert total. induction weights as [|[name weight] rest IH]; intros total; simpl; [eauto|].
  destruct (float_or_ok f_zero (jget indicators name) (Hr name)) as [v ->]. apply IH.
Qed.

Lemma compute_score_ok indicators side : representable indicators -> exists s, compute_score indicators side = Ok s.
Proof.
  intros Hr. unfold compute_score. edestruct score_loop_ok as [x Hx]; [exact Hr|]. rewrite Hx. eauto.
Qed.

Lemma j_or_representable p k : representable p -> float_of_json (j_or (jget p k) (JInt 0)) <> FloatOverflow.
Proof. intros Hr. unfold j_or. destruct (truthy _); [apply Hr | done]. Qed.

Lemma detect_regime_ok settings indicators : representable indicators -> exists m, detect_regime settings indicators = Ok m.
Proof.
  intros Hr. unfold detect_regime. destruct (negb _); [eauto|].
  destruct (float_or_ok f_zero _ (j_or_representable _ "ADX" Hr)) as [a ->].
  destruct (float_or_ok f_zero _ (j_or_representable _ "IndiaVIX" Hr)) as [v ->]. simpl. eauto.
Qed.

Lemma vix_ok indicators : representable indicators -> exists v, vix_from_indicators indicators = Ok v.
Proof.
  intros Hr. unfold vix_from_indicators. pose proof (Hr "IndiaVIX"%string) as Hk.
  destruct (jget indicators "IndiaVIX"); eauto; destruct (float_or_ok DEFAULT_VIX _ Hk) as [v ->]; simpl; eauto.
Qed.

Lemma payload_score_ok p : representable p -> exists s, extract_payload_score p = Ok s.
Proof.
  intros Hr. unfold extract_payload_score. pose proof (Hr "score"%string) as Hk.
  destruct (jget p "score"); eauto; destruct (float_of_json _); eauto; done.
Qed.

(** The score a decision is taken on. *)
Definition signal_score (signal : StrategySignal) (side : trade_side) : result exn float64 :=
  payload_score ← extract_payload_score (raw_payload signal);
  match payload_score with Some s => Ok s | None => compute_score (extract_indicators (raw_payload signal)) side end.

Definition in_band (vix : float64) : bool := negb (f_ltb vix VIX_THRESH_LOW || f_ltb VIX_THRESH_HIGH vix).

(** The lots of the tier a score reaches, halved outside the volatility band. *)
Definition tier_lots (score : float64) (side : trade_side) (mult vix : float64) : Z :=
  let full := if f_leb (f_mul LONG_THRESHOLD_4LOT mult) score && bool_decide (side = LONG) then 4 else 2 in
  if in_band vix then full else full / 2.

Definition scored (settings : Settings) (signal : StrategySignal) (side : trade_side) (score mult : float64) : Prop :=
  signal_side signal = Some side /\ signal_score signal side = Ok score
  /\ detect_regime settings (extract_indicators (raw_payload signal)) = Ok mult.

Lemma tier_cases score side mult :
  resolve_tier score side mult
  = if f_leb (f_mul LONG_THRESHOLD_4LOT mult) score && bool_decide (side = LONG) then (true, 4)
    else if f_leb (f_mul LONG_THRESHOLD mult) score then (true, 2) else (false, 0).
Proof. unfold resolve_tier. destruct side; [rewrite andb_true_r | rewrite andb_false_r]; done. Qed.

Lemma vix_lots (heavy : bool) vix :
  Z.min (vix_adjust_qty (if heavy then 4 else 2) vix) ENTRY_QTY_MAX = (if in_band vix then (if heavy then 4 else 2) else (if heavy then 4 else 2) / 2).
Proof. unfold vix_adjust_qty, in_band. destruct heavy, (f_ltb vix _ || _); reflexivity. Qed.

(** How many lots an entry gets.  With numbers a double can hold, the
    validator always decides.  Without AI validation the entry is approved with the
    strategy's lots, between 0 and 10.  With it, an entry is rejected with no lots, or
    approved with exactly the lots of its tier: four for a long whose score reaches
    85, two for any other score of 51 (both times the regime multiplier), halved when
    the volatility index is outside 11.5 to 20; so one, two or four lots. *)
Theorem entry_lots_by_tier settings signal strategy :
  representable (raw_payload signal) -> representable (extract_indicators (raw_payload signal)) ->
  exists d, validate_signal settings signal strategy = Ok d
    /\ (ai_validation_enabled strategy = false ->
          ai_status d = AI_APPROVED /\ recommended_lots d = Z.max 0 (Z.min (entry_lots strategy) 10))
    /\ (ai_validation_enabled strategy = true ->
          (ai_status d = AI_REJECTED /\ recommended_lots d = 0
           /\ (signal_side signal = None
               \/ exists side score mult, scored settings signal side score mult /\ resolve_tier score side mult = (false, 0)))
          \/ exists side score mult vix, scored settings signal side score mult /\ fst (resolve_tier score side mult) = true
               /\ vix_from_indicators (extract_indicators (raw_payload signal)) = Ok vix
               /\ ai_status d = AI_APPROVED /\ recommended_lots d = tier_lots score side mult vix /\ recommended_lots d ∈ [1; 2; 4]).
Proof.
  intros Hr Hi. unfold validate_signal, scored. destruct (ai_validation_enabled strategy); cbn [negb].
  2: { eexists. split; [done|]. split; [auto | done]. }
  destruct (signal_side signal) as [side|].
  2: { eexists. split; [done|]. split; [done|]. auto. }
  unfold signal_score. destruct (payload_score_ok _ Hr) as [ps Eps]. rewrite Eps. cbn [mbind result_bind].
  assert (exists score, match ps with Some s => Ok s | None => compute_score (extract_indicators (raw_payload signal)) side end = Ok score)
    as [score Escore] by (destruct ps; [eauto | by apply compute_score_ok]).
  destruct (detect_regime_ok settings _ Hi) as [mult Emult]. destruct (vix_ok _ Hi) as [vix Evix].
  unfold mbind, result_bind. rewrite Escore, Emult, Evix.
  destruct (resolve_tier score side mult) as [[] q] eqn:Et; cbn [negb].
  - rewrite tier_cases in Et. eexists. split; [done|]. split; [done|]. intros _. right. exists side, score, mult, vix.
    cbn [ai_status recommended_lots]. split_and!; try done.
    all: rewrite ?tier_cases; unfold tier_lots; destruct (_ && _); [injection Et as <-|destruct (f_leb _ score); [injection Et as <-|done]].
    all: try done; try apply (vix_lots true); try apply (vix_lots false).
    all: [> rewrite (vix_lots true) | rewrite (vix_lots false)]; destruct (in_band vix); vm_compute; repeat constructor.
  - assert (q = 0) as -> by (rewrite tier_cases in Et; destruct (_ && _), (f_leb (f_mul LONG_THRESHOLD mult) score); by injection Et).
    eexists. split; [done|]. split; [done|]. intros _. left. cbn [ai_status recommended_lots]. split_and!; try done. right. eauto 10.
Qed.

(** ** Concrete signals *)

Definition all_strong : payload :=
  fields (map (fun e => (fst e, if String.eqb (fst e) "MFI" then JInt 50 else JInt 1000000)) LONG_W).

(** The documented range of the score is 0 to 100: a payload that passes every
    long test scores 103.3. *)
Example score_above_hundred : compute_score all_strong LONG = Ok (num 1033 (-1)).
Proof. vm_compute. reflexivity. Qed.

(** A missing indicator is documented to fail its test: on the short side a missing
    RSI passes it. *)
Example missing_rsi_passes : short_passed "RSI" f_zero (num 5482 (-2)) = true.
Proof. vm_compute. reflexivity. Qed.

Definition scored_signal : StrategySignal :=
  {| g_id := 50; g_user_id := 1; g_strategy_id := 2;
     raw_payload := <["side"%string := JStr "short"]> (<["score"%string := JInt 52]> ∅);
     g_symbol := "BSE-AUG2026-FUT"; g_action := "ENTRY"; g_quantity := Some 4; g_order_type := "market";
     g_ai_decision := None; g_status := sg_received; g_received_at := 0 |}.

Definition ai_strategy : Strategy :=
  {| s_id := 2; s_user_id := 1; s_broker_credential_id := Some 5; entry_lots := 4; partial_profit_lots := 1;
     partial_profit_target_pct := None; trail_offset_pct := None; hard_sl_pct := None;
     ai_validation_enabled := true; exit_strategy_type := "internal"; strategy_json := None; is_paper := Some false;
     s_is_active := true; s_webhook_token_id := None; allowed_symbols := [] |}.

(** A short with score 52 is taken although the documented threshold is 55. *)
Example short_below_documented_threshold :
  validate_signal sample_settings scored_signal ai_strategy = Ok {| ai_status := AI_APPROVED; recommended_lots := 2 |}.
Proof. vm_compute. reflexivity. Qed.

Lemma scored_signal_representable : representable (raw_payload scored_signal) /\ representable (extract_indicators (raw_payload scored_signal)).
Proof.
  split; intros k; [|done]. unfold jget, scored_signal. cbn [raw_payload].
  destruct (decide (k = "side"%string)) as [->|H1]; [by rewrite lookup_insert_eq|]. rewrite lookup_insert_ne by done.
  destruct (decide (k = "score"%string)) as [->|H2]; [by rewrite lookup_insert_eq|]. by rewrite lookup_insert_ne by done.
Qed.

Lemma entry_lots_by_tier_witness :
  exists d, validate_signal sample_settings scored_signal ai_strategy = Ok d
    /\ (ai_validation_enabled ai_strategy = false ->
          ai_status d = AI_APPROVED /\ recommended_lots d = Z.max 0 (Z.min (entry_lots ai_strategy) 10))
    /\ (ai_validation_enabled ai_strategy = true ->
          (ai_status d = AI_REJECTED /\ recommended_lots d = 0
           /\ (signal_side scored_signal = None
               \/ exists side score mult, scored sample_settings scored_signal side score mult /\ resolve_tier score side mult = (false, 0)))
          \/ exists side score mult vix, scored sample_settings scored_signal side score mult /\ fst (resolve_tier score side mult) = true
               /\ vix_from_indicators (extract_indicators (raw_payload scored_signal)) = Ok vix
               /\ ai_status d = AI_APPROVED /\ recommended_lots d = tier_lots score side mult vix /\ recommended_lots d ∈ [1; 2; 4]).
Proof.
  exact (entry_lots_by_tier sample_settings scored_signal ai_strategy (proj1 scored_signal_representable) (proj2 scored_signal_representable)).
Defined.
