(* ===== verification/PineMapper.v ===== *)
(** * Pine alerts to native payloads (backend/app/services/pine_mapper.py)

    The translation of a Pine Script alert into the native payload of the strategy
    webhook: action and side, score, quantity in lots, symbol, price, timestamp and
    the lot size hint of the in-process scrip master.  A payload is the decoded
    JSON object; the options order builder of the same file is not modelled. *)

From Stdlib Require Import ZArith Lia List Bool Ascii String SpecFloat.
From stdpp Require Import base list strings gmap.
From S2P Require Import Prelude PyText PyFloat PyDecimal PyNum Records Enums Models Samples Calendar ScripMaster AiValidator.

Definition PINE_TO_NATIVE : list ((string * string) * (string * string)) :=
  [(("ENTRY", "LONG_ENTRY"), ("ENTRY", "long")); (("ENTRY", "SHORT_ENTRY"), ("ENTRY", "short"));
   (("PARTIAL", "LONG_PARTIAL"), ("PARTIAL", "long")); (("PARTIAL", "SHORT_PARTIAL"), ("PARTIAL", "short"));
   (("EXIT", "LONG_EXIT"), ("EXIT", "long")); (("EXIT", "SHORT_EXIT"), ("EXIT", "short"));
   (("EXIT", "LONG_SL"), ("SL_HIT", "long")); (("EXIT", "SHORT_SL"), ("SL_HIT", "short"))]%string.

Definition starts_with (pre : string) (s : string) : bool :=
  match strip_prefix (L pre) (L s) with Some _ => true | None => false end.

Definition is_pine_payload (p : payload) : bool :=
  match jget p "type" with
  | JStr t => starts_with "LONG_" (str_upper t) || starts_with "SHORT_" (str_upper t)
  | _ => false
  end.

(** [str(v).strip().upper()]; for a value that is not a string the text is none
    of the words of the table. *)
Definition word_of (j : json) : string := str_upper (str_strip (str_or_empty j)).

Definition is_blank (j : json) : bool := match j with JNull => true | JStr s => String.eqb s "" | _ => false end.

Definition coerce_int (j : json) : result exn (option Z) :=
  if is_blank j then Ok None
  else match int_of_json j with IntOk z => Ok (Some z) | IntValueError => Ok None | IntOverflow => Err OverflowError end.

Definition coerce_float (j : json) : result exn (option float64) :=
  if is_blank j then Ok None
  else match float_of_json j with FloatOk x => Ok (Some x) | FloatValueError => Ok None | FloatOverflow => Err OverflowError end.

(** A string that is not blank, stripped. *)
Definition stripped_text (j : json) : option string :=
  match j with JStr s => if String.eqb (str_strip s) "" then None else Some (str_strip s) | _ => None end.

Definition resolve_symbol (p : payload) (strategy : option Strategy) : string :=
  match stripped_text (jget p "symbol") with
  | Some s => s
  | None =>
      match strategy with
      | Some st => match allowed_symbols st with first :: _ => default ""%string (stripped_text first) | [] => ""%string end
      | None => ""%string
      end
  end.

Definition resolve_price (p indicators : payload) : result exn (option float64) :=
  price ← coerce_float (jget p "price");
  match price with
  | Some x => Ok (Some x)
  | None =>
      long_ma ← coerce_float (jget indicators "LongMA");
      match long_ma with
      | Some x => Ok (Some x)
      | None => coerce_float (jget indicators "SlowMA")
      end
  end.

(** Any exception of the lookup counts as no hint. *)
Definition try_lookup_lot_size (scrip : scrip_master) (symbol : string) : option Z :=
  match lookup_scrip scrip (str_upper symbol) "NSE_FNO" with
  | Ok (Some sec_id) => lot_size_of scrip sec_id
  | _ => None
  end.

Definition resolve_timestamp (p : payload) (now : datetime) : string := default (iso_utc now) (stripped_text (jget p "timestamp")).

(** [raw.get("closePct", raw.get("close_pct"))]. *)
Definition close_pct_field (p : payload) : json :=
  match p !! "closePct"%string with Some v => v | None => jget p "close_pct" end.

Definition j_opt {A : Type} (f : A -> json) (o : option A) : json := match o with Some a => f a | None => JNull end.

Definition score_side (side_tag : string) : trade_side := if String.eqb side_tag "short" then SHORT else LONG.

Definition map_to_tradetri_payload (scrip : scrip_master) (now : datetime) (raw : payload) (strategy : option Strategy)
  : result exn payload :=
  if negb (is_pine_payload raw) then Err PineMappingError
  else
    let pine_action := word_of (jget raw "action") in
    let pine_type := word_of (jget raw "type") in
    match dict_get (pine_action, pine_type) PINE_TO_NATIVE with
    | None => Err PineMappingError
    | Some (native_action, side_tag) =>
        let entries := match jget raw "indicators" with JDict es => es | _ => [] end in
        let indicators := fields entries in
        inbound_score ← extract_payload_score raw;
        score ← (match inbound_score with Some s => Ok s | None => compute_score indicators (score_side side_tag) end);
        let score_source := match inbound_score with Some _ => "pine" | None => "computed" end%string in
        quantity ← coerce_int (jget raw "qty");
        let symbol := resolve_symbol raw strategy in
        price ← resolve_price raw indicators;
        close_pct ← coerce_float (close_pct_field raw);
        lot_size_hint ← (match try_lookup_lot_size scrip symbol with
                         | Some z => Ok (Some z)
                         | None => coerce_int (jget raw "lot_size_hint")
                         end);
        Ok (list_to_map
              [("symbol", JStr symbol); ("action", JStr native_action); ("side", JStr side_tag);
               ("quantity", if String.eqb native_action "ENTRY" then j_opt JInt quantity else JNull);
               ("quantity_unit", JStr "lots"); ("lot_size_hint", j_opt JInt lot_size_hint);
               ("closePct", j_opt JFloat close_pct); ("score", JFloat score); ("score_source", JStr score_source);
               ("price", j_opt JFloat price); ("order_type", JStr (str_or_empty (j_or (jget raw "order_type") (JStr "market"))));
               ("timestamp", JStr (resolve_timestamp raw now)); ("indicators", JDict entries);
               ("use_dhan", JBool (truthy (jget raw "useDhan"))); ("pine_type", JStr pine_type);
               ("pine_action_raw", JStr pine_action); ("_source", JStr "pine_v4.8.1")]%string)
    end.
