(* ===== verification/RateLimit.v ===== *)
(** * The window limiter (backend/app/core/redis_client.py, [rate_limit_check])

    The limiter counts with INCR and renews the key's expiry on every call.  What
    it computes is a burst counter: the count falls back to one only after a gap
    of a whole window.  The simulation by that counter gives both directions: no
    window of the configured length ever admits more than the maximum, and a
    caller that never pauses for a window is refused for good once the maximum
    is reached. *)

From Stdlib Require Import ZArith Lia List Bool String Ascii.
From stdpp Require Import base list strings gmap.
From S2P Require Import Prelude PyText PyFloat PyDecimal PyNum Records Enums Models Safeguards Book Samples DayState.

(** ** A printed counter reads back *)

Lemma digit_plain c : is_digit c = true -> is_space c = false /\ Ascii.eqb "-" c = false /\ Ascii.eqb "+" c = false.
Proof.
  intros Hc. apply (f_equal negb) in Hc.
  assert (Hall : negb (is_digit c) || (negb (is_space c) && negb (Ascii.eqb "-" c) && negb (Ascii.eqb "+" c)) = true).
  { clear Hc. revert c. apply (forall_ascii (fun c => _)). by vm_compute. }
  rewrite Hc in Hall. simpl in Hall. bool_to_prop. naive_solver.
Qed.

Lemma lstrip_digits d : forallb is_digit d = true -> lstrip d = d.
Proof.
  destruct d as [|c d]; [reflexivity|]. intros Hd. apply andb_prop in Hd as [Hc _].
  apply lstrip_fix, digit_plain, Hc.
Qed.

Lemma strip_digits d : forallb is_digit d = true -> strip d = d.
Proof.
  intros Hd. unfold strip. rewrite (lstrip_digits d) by done. rewrite lstrip_digits; [apply rev_involutive|].
  rewrite forallb_forall in *. intros x Hx%in_rev. auto.
Qed.

Lemma int_of_digits c d :
  forallb is_digit (c :: d) = true -> int_of_json (JStr (string_of_list_ascii (c :: d))) = IntOk (int_of (c :: d)).
Proof.
  intros Hd. unfold int_of_json. rewrite L_of_text, strip_digits by done.
  assert (Hm : re_match INT_LITERAL (c :: d) = Some [(2%nat, c :: d); (1%nat, [])]).
  { unfold re_match, INT_LITERAL, sign_re, digits1. pose proof (digit_plain c) as Hc.
    destruct Hc as (_ & Hminus & Hplus); [simpl in Hd; by apply andb_prop in Hd as [? _]|].
    cbn [run L list_ascii_of_string strip_prefix]. rewrite Hminus, Hplus.
    rewrite <- (app_nil_r (c :: d)). erewrite run_rep_greedy; [reflexivity | done | simpl; lia | done|].
    cbn [run at_end]. do 3 f_equal.
    - f_equal. rewrite (consumed_app (c :: d) []). by rewrite app_nil_r.
    - f_equal. unfold consumed. rewrite app_nil_r, Nat.sub_diag. done. }
  by rewrite Hm.
Qed.

Lemma digits_fuel_nonempty fuel n acc : digits_fuel (S fuel) n acc <> [].
Proof. revert n acc. induction fuel as [|fuel IH]; intros n acc; simpl; destruct (n <? 10); try done. apply IH. Qed.

(** INCR reads back what it wrote. *)
Lemma counter_reads n : 0 <= n -> counter_of_raw (Some (z_str n)) = Some n.
Proof.
  intros Hn. unfold counter_of_raw. destruct (str_of_nonneg_spec n Hn) as [Hi Hd].
  assert (E : z_str n = string_of_list_ascii (str_of_nonneg n)) by (apply L_inj; by rewrite z_str_digits, L_of_text).
  rewrite E. destruct (str_of_nonneg n) as [|c d] eqn:Es; [by apply digits_fuel_nonempty in Es|].
  by rewrite int_of_digits, Hi.
Qed.

(** ** The burst counter *)

Section Burst.
Context (limit window : Z).

(** The state: the count and the time it expires. *)
Definition next_count (s : option (Z * datetime)) (t : datetime) : Z :=
  match s with
  | Some (n, exp) => if t <? exp then n + 1 else 1
  | None => 1
  end.

Fixpoint burst (s : option (Z * datetime)) (ts : list datetime) : list (datetime * Z) :=
  match ts with
  | [] => []
  | t :: ts' => (t, next_count s t) :: burst (Some (next_count s t, t + window)) ts'
  end.

Definition admits (e : datetime * Z) : datetime * bool := (e.1, e.2 <=? limit).

(** Calls at non-decreasing times, none before [t0]. *)
Fixpoint not_before (t0 : datetime) (ts : list datetime) : Prop :=
  match ts with
  | [] => True
  | t :: ts' => t0 <= t /\ not_before t ts'
  end.

Lemma not_before_mono t0 t1 ts : t0 <= t1 -> not_before t1 ts -> not_before t0 ts.
Proof. destruct ts; simpl; [done|]. intros ? [??]. split; [lia | done]. Qed.

Definition admitted_in (a : datetime) (tr : list (datetime * bool)) : Z :=
  Z.of_nat (length (List.filter (fun e => e.2 && (a <=? e.1) && (e.1 <? a + window)) tr)).

Lemma admitted_cons a t b tr :
  admitted_in a ((t, b) :: tr) = (if b && (a <=? t) && (t <? a + window) then 1 else 0) + admitted_in a tr.
Proof. unfold admitted_in. simpl. destruct (_ && _ && _); simpl length; lia. Qed.

Lemma admitted_late a s ts : not_before (a + window) ts -> admitted_in a (map admits (burst s ts)) = 0.
Proof.
  revert s. induction ts as [|t ts IH]; intros s; [done|]. intros [Ht Hts]. cbn [burst map]. unfold admits at 1. simpl.
  rewrite admitted_cons, (IH (Some (next_count s t, t + window))) by (by apply (not_before_mono _ t)).
  rewrite (proj2 (Z.ltb_ge t (a + window))), andb_false_r by lia. lia.
Qed.

(** What the state leaves of the window that starts at [a]. *)
Definition left_over (a : datetime) (s : option (Z * datetime)) : Z :=
  match s with
  | Some (n, exp) => if a <=? exp - window then Z.max 0 (limit - n) else limit
  | None => limit
  end.

Definition started (s : option (Z * datetime)) (t0 : datetime) : Prop :=
  match s with Some (n, exp) => 0 <= n /\ exp <= t0 + window | None => True end.

Lemma next_count_pos s t0 t : started s t0 -> 1 <= next_count s t.
Proof. destruct s as [[n exp]|]; simpl; [|lia]. intros [? _]. destruct (t <? exp); lia. Qed.

Lemma admitted_bound a s t0 ts :
  0 < limit -> 0 < window -> started s t0 -> not_before t0 ts -> admitted_in a (map admits (burst s ts)) <= left_over a s.
Proof.
  intros Hl Hw. revert s t0. induction ts as [|t ts IH]; intros s t0 Hs Hts.
  { unfold admitted_in. simpl. destruct s as [[n exp]|]; simpl; [destruct (a <=? _); lia | lia]. }
  destruct Hts as [Ht Hts]. pose proof (next_count_pos s t0 t Hs) as Hc.
  assert (Hs' : started (Some (next_count s t, t + window)) t) by (simpl; lia).
  specialize (IH _ _ Hs' Hts). cbn [burst map]. unfold admits at 1. cbn [fst snd]. rewrite admitted_cons.
  destruct (Z.ltb_spec t (a + window)) as [Hin|Hout].
  - destruct (Z.leb_spec a t) as [Hat|Hat].
    + simpl in IH. rewrite (proj2 (Z.leb_le a (t + window - window))) in IH by lia.
      destruct s as [[n exp]|]; simpl in *.
      * destruct (Z.leb_spec a (exp - window)).
        -- rewrite (proj2 (Z.ltb_lt t exp)) in * by lia. destruct (Z.leb_spec (n + 1) limit); simpl; lia.
        -- destruct (t <? exp), (Z.leb_spec (n + 1) limit), (Z.leb_spec 1 limit); simpl in *; lia.
      * destruct (Z.leb_spec 1 limit); simpl; lia.
    + simpl in IH. rewrite (proj2 (Z.leb_gt a (t + window - window))) in IH by lia. rewrite andb_false_r. simpl.
      destruct s as [[n exp]|]; simpl in *; [|lia]. rewrite (proj2 (Z.leb_gt a (exp - window))) by lia. lia.
  - rewrite andb_false_r, admitted_late by (by apply (not_before_mono _ t)).
    destruct s as [[n exp]|]; simpl; [destruct (a <=? _); lia | lia].
Qed.

(** A caller that never pauses for a whole window. *)
Fixpoint steady (t0 : datetime) (ts : list datetime) : Prop :=
  match ts with
  | [] => True
  | t :: ts' => t0 <= t < t0 + window /\ steady t ts'
  end.

Lemma steady_counts n t0 ts i t :
  steady t0 ts -> ts !! i = Some t -> burst (Some (n, t0 + window)) ts !! i = Some (t, n + 1 + Z.of_nat i).
Proof.
  revert n t0 i. induction ts as [|u ts IH]; intros n t0 i Hs; [done|]. destruct Hs as [Hu Hs]. cbn [burst].
  assert (E : next_count (Some (n, t0 + window)) u = n + 1) by (simpl; by rewrite (proj2 (Z.ltb_lt _ _)) by lia).
  rewrite E. destruct i as [|i]; simpl; [intros [= ->]; do 2 f_equal; lia|].
  intros Hi. rewrite (IH (n + 1) u i Hs Hi). do 2 f_equal. lia.
Qed.
End Burst.

(** ** The simulation *)

Section Limiter.
Context {B R : Type} `{RedisLaws R}.
Context (key : string) (limit window : Z).

(** Redis holds the count [s] under the limiter's key. *)
Definition tracks (s : option (Z * datetime)) (w : world B R) : Prop :=
  started window s (w_now w)
  /\ forall t, redis_get (rate_key key) t (w_redis w)
             = match s with Some (n, exp) => if t <? exp then Some (z_str n) else None | None => None end.

(** Calls of the limiter at the times and with the answers of the trace.  In
    between others may do anything that leaves this key alone, and time passes. *)
Inductive limited : world B R -> list (datetime * bool) -> world B R -> Prop :=
| limited_nil w : limited w [] w
| limited_call w w0 b w1 tr w2 :
    w_now w <= w_now w0 ->
    (forall t, redis_get (rate_key key) t (w_redis w0) = redis_get (rate_key key) t (w_redis w)) ->
    rate_limit_check key limit window w0 = (Ok b, w1) ->
    limited w1 tr w2 ->
    limited w ((w_now w0, b) :: tr) w2.

Lemma tracks_later s w w0 :
  w_now w <= w_now w0 ->
  (forall t, redis_get (rate_key key) t (w_redis w0) = redis_get (rate_key key) t (w_redis w)) ->
  tracks s w -> tracks s w0.
Proof.
  intros Hn Hr [Hs Hk]. split; [|intros t; by rewrite Hr]. destruct s as [[n exp]|]; simpl in *; [lia | done].
Qed.

Lemma check_counts s w b w' :
  tracks s w -> rate_limit_check key limit window w = (Ok b, w') ->
  0 < limit /\ 0 < window /\ b = (next_count s (w_now w) <=? limit) /\ w_now w' = w_now w
  /\ tracks (Some (next_count s (w_now w), w_now w + window)) w'.
Proof.
  intros [Hs Hk] E. unfold rate_limit_check in E. unfold raise_when in E.
  destruct (Z.leb_spec limit 0); [done|]. destruct (Z.leb_spec window 0); [done|].
  unfold mbind, M_bind, mret, M_ret, gets in E. rewrite Hk in E.
  assert (Hc : counter_of_raw (match s with Some (n, exp) => if w_now w <? exp then Some (z_str n) else None | None => None end)
               = Some (next_count s (w_now w) - 1)).
  { destruct s as [[n exp]|]; simpl in Hs |- *; [|done]. destruct (w_now w <? exp); [|done].
    rewrite counter_reads by lia. f_equal. lia. }
  rewrite Hc in E. replace (next_count s (w_now w) - 1 + 1) with (next_count s (w_now w)) in E by lia.
  injection E as <- <-. split_and!; try done. split.
  - pose proof (next_count_pos window s _ (w_now w) Hs). simpl. lia.
  - intros t. cbn [w_redis set w_now]. unfold set. simpl. rewrite redis_get_put. by rewrite decide_True.
Qed.

Lemma limited_bursts s w tr w' :
  limited w tr w' -> tracks s w ->
  tr = map (admits limit) (burst window s (map fst tr)) /\ not_before (w_now w) (map fst tr)
  /\ (tr <> [] -> 0 < limit /\ 0 < window).
Proof.
  intros Hrun. revert s. induction Hrun as [w | w w0 b w1 tr w2 Hn Hr E _ IH]; intros s Hs; [done|].
  apply (tracks_later s w w0 Hn Hr) in Hs. destruct (check_counts s w0 b w1 Hs E) as (Hl & Hw & -> & Hn1 & Hs1).
  destruct (IH _ Hs1) as (Etr & Hts & _). cbn [map burst fst]. split; [|split; [|done]].
  - unfold admits at 1. simpl. by rewrite <- Etr.
  - split; [done|]. by rewrite Hn1 in Hts.
Qed.

(** Calls at given times, with nothing else in between. *)
Fixpoint call_at (ts : list datetime) (w : world B R) : list (datetime * bool) * world B R :=
  match ts with
  | [] => ([], w)
  | t :: ts' =>
      match rate_limit_check key limit window (w <| w_now := t |>) with
      | (Ok b, w1) => let '(tr, w2) := call_at ts' w1 in ((t, b) :: tr, w2)
      | (Err _, _) => ([], w)
      end
  end.

Lemma call_at_limited s ts w :
  tracks s w -> not_before (w_now w) ts -> limited w (call_at ts w).1 (call_at ts w).2.
Proof.
  revert s w. induction ts as [|t ts IH]; intros s w Hs Hts; simpl; [constructor|]. destruct Hts as [Ht Hts].
  destruct (rate_limit_check key limit window (w <| w_now := t |>)) as [[b|x] w1] eqn:E; [|constructor].
  assert (Hs0 : tracks s (w <| w_now := t |>)) by (by apply (tracks_later s w)).
  destruct (check_counts s _ b w1 Hs0 E) as (_ & _ & _ & Hn & Hs1).
  specialize (IH _ w1 Hs1). rewrite Hn in IH. specialize (IH Hts). destruct (call_at ts w1) as [tr w2].
  change (limited w ((w_now (w <| w_now := t |>), b) :: tr) w2). by eapply limited_call.
Qed.

(** The limiter's bound.  Over any calls for one key, whatever others do to
    other keys in between: the answers are those of the burst counter, and no
    window of the configured length, wherever it starts, admits more calls than
    the maximum. *)
Theorem rate_limit_bound s w tr w' :
  limited w tr w' -> tracks s w ->
  tr = map (admits limit) (burst window s (map fst tr))
  /\ forall a, admitted_in window a tr <= Z.max 0 limit.
Proof.
  intros Hrun Hs. destruct (limited_bursts s w tr w' Hrun Hs) as (Etr & Hts & Hpos). split; [done|]. intros a.
  destruct tr as [|e tr]; [unfold admitted_in; simpl; lia|]. destruct (Hpos ltac:(done)) as [Hl Hw].
  rewrite Etr. etransitivity; [apply (admitted_bound limit window a s (w_now w) _ Hl Hw); [apply Hs | done]|].
  destruct s as [[n exp]|]; simpl; [|lia]. destruct Hs as [[? _] _]. destruct (a <=? _); lia.
Qed.

(** The other side of renewing the expiry on every call: a caller whose calls are
    less than a window apart is refused from the maximum on, however slow it is. *)
Theorem steady_caller_refused w tr w' i t b :
  limited w tr w' -> tracks None w -> (forall u rest, map fst tr = u :: rest -> steady window u rest) ->
  tr !! i = Some (t, b) -> limit <= Z.of_nat i -> b = false.
Proof.
  intros Hrun Hs Hsteady Hi Hlate. destruct (limited_bursts None w tr w' Hrun Hs) as (Etr & _ & Hpos).
  destruct tr as [|[u b0] tr]; [done|]. destruct (Hpos ltac:(done)) as [Hl Hw].
  specialize (Hsteady _ _ eq_refl). destruct i as [|i]; [lia|]. simpl in Hi.
  injection Etr as Hb0 Etr. assert (Hti : map fst tr !! i = Some t) by (by rewrite list_lookup_fmap, Hi).
  pose proof (steady_counts window 1 u (map fst tr) i t Hsteady Hti) as Hc.
  assert (Hb : map (admits limit) (burst window (Some (1, u + window)) (map fst tr)) !! i = Some (t, b)) by (by rewrite <- Etr).
  apply list_lookup_fmap_Some in Hb as (e & E & Hb). rewrite Hc in Hb. injection Hb as <-. injection E as ->.
  apply Z.leb_gt. lia.
Qed.
End Limiter.

(** ** A slow caller *)

(** Two calls a minute allowed, one call every 59 seconds. *)
Definition slow_calls : list datetime := [100; 159; 218; 277].

Definition slow_trace : list (datetime * bool) := (call_at "webhook:1" 2 60 slow_calls sample_world).1.

Lemma slow_tracks : tracks "webhook:1" 60 None sample_world.
Proof. split; [exact I|]. reflexivity. Qed.

Lemma slow_limited : limited "webhook:1" 2 60 sample_world slow_trace (call_at "webhook:1" 2 60 slow_calls sample_world).2.
Proof. apply (call_at_limited "webhook:1" 2 60 None); [apply slow_tracks | by vm_compute]. Qed.

Lemma rate_limit_bound_witness :
  tracks "webhook:1" 60 None sample_world
  /\ slow_trace = [(100, true); (159, true); (218, false); (277, false)]
  /\ admitted_in 60 100 slow_trace <= 2.
Proof.
  split; [apply slow_tracks|]. split; [vm_compute; reflexivity|].
  apply (proj2 (rate_limit_bound "webhook:1" 2 60 None _ _ _ slow_limited slow_tracks)).
Defined.

(** One alert every 59 seconds is well below two a minute, and is refused from
    the third on. *)
Example slow_caller_starves : slow_trace !! 2%nat = Some (218, false) /\ slow_trace !! 3%nat = Some (277, false).
Proof. vm_compute. split; reflexivity. Qed.
