(* ===== verification/CircuitBreaker.v ===== *)
(** * Circuit breaker (backend/app/services/circuit_breaker_service.py)

    Per-instrument levels in the Redis JSON cache, raised by a price move or by
    an operator, expiring by themselves; the fat-finger check and the conversion
    of market orders while an instrument is paused.

    Times are whole seconds.  The stored dictionaries are kept decoded
    ([CachedBreaker], [CachedPrice]); the reason strings of a decision are kept as
    data. *)

From Stdlib Require Import ZArith Lia List Bool String Ascii.
From stdpp Require Import base list strings gmap.
From S2P Require Import Prelude PyText PyDecimal PyNum Records Enums Models Safeguards Book DayState.

(** ** Constants *)

Definition PAUSE_SHORT_SECONDS : Z := 30.
Definition PAUSE_LONG_SECONDS : Z := 300.

Record VolatilityThreshold : Type := {
  vt_move_pct : dec;
  vt_max_window_seconds : Z;
  vt_level : CircuitBreakerLevel
}.

Definition THRESHOLDS : list VolatilityThreshold :=
  [ {| vt_move_pct := Dec 10 0; vt_max_window_seconds := 300; vt_level := HALT |};
    {| vt_move_pct := Dec 5 0; vt_max_window_seconds := 60; vt_level := PAUSE_LONG |};
    {| vt_move_pct := Dec 2 0; vt_max_window_seconds := 5; vt_level := PAUSE_SHORT |} ].

Definition DEFAULT_QTY_MULTIPLIER_CAP : dec := Dec 10 0.
Definition DEFAULT_PRICE_BAND_PCT : dec := Dec 5 0.
Definition PAUSE_LIMIT_BUFFER_PCT : dec := Dec 5 (-1).

(** ** Keys *)

Definition instrument_key (namespace symbol : string) (exchange : Exchange) : string :=
  String.append namespace (String.append (exchange_value exchange) (String.append ":" symbol)).

Definition state_key (symbol : string) (exchange : Exchange) : string := instrument_key "cb_state:" symbol exchange.
Definition last_price_key (symbol : string) (exchange : Exchange) : string := instrument_key "cb_last:" symbol exchange.

(** ** Decisions *)

Inductive volatility_reason : Type :=
| InvalidPrice
| HaltInEffect
| FirstSample
| StaleBaseline
| WithinTolerance
| Moved (window_seconds : Z).

Record VolatilityDecision : Type := {
  vd_level : CircuitBreakerLevel;
  vd_move_pct : dec;
  vd_until : option datetime;
  vd_reason : volatility_reason
}.

Definition decide_level (level : CircuitBreakerLevel) (move_pct : dec) (until : option datetime)
    (reason : volatility_reason) : VolatilityDecision :=
  {| vd_level := level; vd_move_pct := move_pct; vd_until := until; vd_reason := reason |}.

(** The first threshold met: they are listed from the most severe. *)
Fixpoint first_breach (thresholds : list VolatilityThreshold) (move_pct : dec) (window_seconds : Z)
  : option CircuitBreakerLevel :=
  match thresholds with
  | [] => None
  | t :: rest =>
      if dleb (vt_move_pct t) move_pct && (window_seconds <=? vt_max_window_seconds t) then Some (vt_level t)
      else first_breach rest move_pct window_seconds
  end.

Definition match_threshold (move_pct : dec) (window_seconds : Z) : option CircuitBreakerLevel :=
  first_breach THRESHOLDS move_pct window_seconds.

Definition compute_expiry (now : datetime) (level : CircuitBreakerLevel) : option datetime :=
  match level with
  | PAUSE_SHORT => Some (now + PAUSE_SHORT_SECONDS)
  | PAUSE_LONG => Some (now + PAUSE_LONG_SECONDS)
  | HALT | ALLOW => None
  end.

Definition state_ttl (until : option datetime) (now : datetime) : Z :=
  match until with
  | None => 24 * 3600
  | Some u => Z.max (u - now + 5) 10
  end.

(** [abs(d)] rounds to the context like any operation. *)
Definition dabs (d : dec) : dec := dfix (Dec (Z.abs (coef d)) (expo d)).

(** [abs(a - b) / b * 100]. *)
Definition move_percent (a b : dec) : dec := dmul (ddiv (dabs (dsub a b)) b) (Dec 100 0).

(** ** Order sanity *)

Inductive sanity_reason : Type :=
| QuantityCap (quantity : Z)
| DailyBudget (value budget : dec).

Record SanityDecision : Type := {
  sd_allow : bool;
  sd_warnings : list dec;
  sd_reasons : list sanity_reason
}.

Definition check_order_sanity (order : OrderRequest) (user_avg_order_size user_daily_budget ltp : option dec)
  : SanityDecision :=
  let quantity := dec_of_Z (o_quantity order) in
  let over_average :=
    match user_avg_order_size with
    | Some avg => if dltb dzero avg && dltb (dmul avg DEFAULT_QTY_MULTIPLIER_CAP) quantity
                  then [QuantityCap (o_quantity order)] else []
    | None => []
    end in
  let over_budget :=
    match user_daily_budget, o_price order with
    | Some budget, Some price => let value := dmul price quantity in
                                 if dltb budget value then [DailyBudget value budget] else []
    | _, _ => []
    end in
  let off_band :=
    match ltp, o_price order with
    | Some l, Some price => if dltb dzero l then
                              let band := move_percent price l in if dltb DEFAULT_PRICE_BAND_PCT band then [band] else []
                            else []
    | _, _ => []
    end in
  let reasons := over_average ++ over_budget in
  {| sd_allow := match reasons with [] => true | _ => false end; sd_warnings := off_band; sd_reasons := reasons |}.

(** [order.model_copy(update=...)] does not validate the copy. *)
Definition with_limit (order : OrderRequest) (price : dec) : OrderRequest :=
  {| o_symbol := o_symbol order; o_exchange := o_exchange order; o_side := o_side order; o_quantity := o_quantity order;
     o_order_type := LIMIT; o_product_type := o_product_type order; o_price := Some price;
     o_trigger_price := o_trigger_price order; o_tag := o_tag order |}.

Definition convert_order_in_volatile_market (order : OrderRequest) (level : CircuitBreakerLevel) (ltp : option dec)
  : result exn (option OrderRequest) :=
  match level with
  | HALT => Ok None
  | ALLOW => Ok (Some order)
  | PAUSE_SHORT | PAUSE_LONG =>
      match o_order_type order, ltp with
      | MARKET, Some l =>
          if dleb l dzero then Ok None
          else
            let buffer := ddiv (dmul l PAUSE_LIMIT_BUFFER_PCT) (Dec 100 0) in
            let limit_price := match o_side order with BUY => dadd l buffer | SELL => dsub l buffer end in
            match dquantize half_even limit_price (-2) with
            | Some price => Ok (Some (with_limit order price))
            | None => Err InvalidOperation
            end
      | MARKET, None => Ok None
      | _, _ => Ok (Some order)
      end
  end.

(** ** The service *)

Section CircuitBreaker.
Context {B R : Type}.

Definition clear_state (symbol : string) (exchange : Exchange) : M B R unit := cache_delete (state_key symbol exchange).

Definition persist_state (symbol : string) (exchange : Exchange) (level : CircuitBreakerLevel) (until : option datetime)
    (now : datetime) : M B R unit :=
  cache_set_json (state_key symbol exchange) (CachedBreaker level until) (state_ttl until now).

(** A dictionary of another shape has neither "until" nor "level". *)
Definition get_state (symbol : string) (exchange : Exchange) : M B R CircuitBreakerLevel :=
  stored ← cache_get_json (state_key symbol exchange);
  now ← gets w_now;
  match stored with
  | Some (CachedBreaker level (Some until)) =>
      if until <=? now then clear_state symbol exchange ;; mret ALLOW else mret level
  | Some (CachedBreaker level None) => mret level
  | _ => mret ALLOW
  end.

(** The verdict on a new price against the cached one. *)
Definition judge_move (symbol : string) (exchange : Exchange) (current_price : dec) (now : datetime)
    (existing_state : CircuitBreakerLevel) (prev : option cached) : M B R VolatilityDecision :=
  match prev with
  | None => mret (decide_level existing_state dzero None FirstSample)
  | Some (CachedPrice prev_price prev_ts) =>
      if dleb prev_price dzero then mret (decide_level existing_state dzero None StaleBaseline)
      else
        let window_seconds := Z.max (now - prev_ts) 0 in
        let move_pct := move_percent current_price prev_price in
        match match_threshold move_pct window_seconds with
        | None => mret (decide_level existing_state move_pct None WithinTolerance)
        | Some breach =>
            let until := compute_expiry now breach in
            persist_state symbol exchange breach until now ;;
            mret (decide_level breach move_pct until (Moved window_seconds))
        end
  | Some _ => mret (decide_level existing_state dzero None StaleBaseline)
  end.

(** [clock] is the injectable [now]. *)
Definition check_volatility (symbol : string) (exchange : Exchange) (current_price : dec) (clock : option datetime)
  : M B R VolatilityDecision :=
  if dleb current_price dzero then mret (decide_level ALLOW dzero None InvalidPrice)
  else
    wall ← gets w_now;
    let now := default wall clock in
    existing_state ← get_state symbol exchange;
    if bool_decide (existing_state = HALT) then mret (decide_level HALT dzero None HaltInEffect)
    else
      prev ← cache_get_json (last_price_key symbol exchange);
      cache_set_json (last_price_key symbol exchange) (CachedPrice current_price now) 3600 ;;
      judge_move symbol exchange current_price now existing_state prev.

Definition admin_override (symbol : string) (exchange : Exchange) (action : CircuitBreakerLevel) : M B R unit :=
  match action with
  | ALLOW => clear_state symbol exchange
  | HALT => now ← gets w_now; persist_state symbol exchange HALT None now
  | PAUSE_SHORT | PAUSE_LONG => raise ValueError
  end.
End CircuitBreaker.
