(* ===== verification/BreakerSafety.v ===== *)
(** * Circuit breaker: the guarantees

    Over [CircuitBreaker.v]: a halt holds against everything but an operator's
    ALLOW on that very instrument, for the day its key lives; a pause lasts
    exactly as long as its level says. *)

From Stdlib Require Import ZArith Lia List Bool String Ascii.
From stdpp Require Import base list strings gmap.
From S2P Require Import Prelude PyText PyDecimal PyNum Records Enums Models Safeguards Book DayState CircuitBreaker Samples.

(** ** Keys *)

Lemma exchange_value_no_colon e : ~ In ":"%char (L (exchange_value e)).
Proof. destruct e; cbv; intuition discriminate. Qed.

Lemma exchange_value_inj e f : exchange_value e = exchange_value f -> e = f.
Proof. by destruct e, f. Qed.

Lemma instrument_key_inj ns s e s' e' : instrument_key ns s e = instrument_key ns s' e' -> s = s' /\ e = e'.
Proof.
  unfold instrument_key. intros E. apply (f_equal L) in E. rewrite !L_append in E. apply app_inv_head in E.
  apply colon_split_inj in E as [E1 E2]; auto using exchange_value_no_colon.
  split; [by apply L_inj | by apply exchange_value_inj, L_inj].
Qed.

Lemma last_price_is_not_state s e s' e' : last_price_key s e <> state_key s' e'.
Proof. discriminate. Qed.

(** ** The cache *)

Lemma store_get_cons {V : Type} k k' t (v : V) exp r :
  store_get k' t ((k, (v, Some exp)) :: r) = if decide (k = k') then (if t <? exp then Some v else None) else store_get k' t r.
Proof. simpl. destruct (String.eqb_spec k k'); by case_decide. Qed.

Section Breaker.
Context {B R : Type}.
Implicit Types w : world B R.

Definition cache_at (w : world B R) (key : string) (t : datetime) : option cached := store_get key t (pf_cache (w_platform w)).

(** A write of [key] that lives until [exp]. *)
Lemma cache_set_spec key v ttl w :
  0 < ttl ->
  exists w', cache_set_json key v ttl w = (Ok tt, w') /\ w_now w' = w_now w
    /\ forall k t, cache_at w' k t = if decide (key = k) then (if t <? w_now w + ttl then Some v else None) else cache_at w k t.
Proof.
  intros Ht. unfold cache_set_json. rewrite (proj2 (Z.leb_gt ttl 0)) by done. eexists. split; [reflexivity|].
  split; [done|]. intros k t. apply store_get_cons.
Qed.

Lemma cache_delete_at key w :
  exists w', cache_delete key w = (Ok tt, w') /\ w_now w' = w_now w
    /\ forall k t, cache_at w' k t = if decide (k = key) then None else cache_at w k t.
Proof.
  eexists. split; [reflexivity|]. split; [done|]. intros k t. unfold cache_at, store_delete. simpl.
  rewrite store_get_drop. destruct (String.eqb_spec k key); by case_decide.
Qed.

(** What [get_state] does: it answers from the cache and may drop an expired
    entry of its own instrument. *)
Lemma get_state_spec s e w :
  exists level w', get_state s e w = (Ok level, w') /\ w_now w' = w_now w
    /\ (forall k t, k <> state_key s e -> cache_at w' k t = cache_at w k t)
    /\ (cache_at w (state_key s e) (w_now w) = Some (CachedBreaker HALT None) -> level = HALT /\ w' = w)
    /\ (level = HALT -> w' = w).
Proof.
  unfold get_state, mbind, M_bind, cache_get_json, gets. fold (cache_at w (state_key s e) (w_now w)).
  destruct (cache_at w (state_key s e) (w_now w)) as [[| | |level [until|]| | | | | | |]|];
    try (exists ALLOW, w; split_and!; done).
  - destruct (until <=? w_now w); [|by exists level, w].
    destruct (cache_delete_at (state_key s e) w) as (w' & E & Hn & Hk). unfold clear_state. rewrite E.
    exists ALLOW, w'. split_and!; try done. intros k t Hne. rewrite Hk. by case_decide.
  - exists level, w. split_and!; try done. by intros [= ->].
Qed.

(** ** Halts *)

Section Halt.
Context (symbol : string) (exchange : Exchange).

(** The instrument is halted until at least [E]. *)
Definition halted_until (E : datetime) (w : world B R) : Prop :=
  exists exp, E <= exp /\ forall t, cache_at w (state_key symbol exchange) t
                                  = if t <? exp then Some (CachedBreaker HALT None) else None.

Lemma halted_same E w w' :
  (forall t, cache_at w' (state_key symbol exchange) t = cache_at w (state_key symbol exchange) t) ->
  halted_until E w -> halted_until E w'.
Proof. intros Hk (exp & HE & Hat). exists exp. split; [done|]. intros t. by rewrite Hk. Qed.

Lemma halted_now E w :
  w_now w < E -> halted_until E w -> cache_at w (state_key symbol exchange) (w_now w) = Some (CachedBreaker HALT None).
Proof. intros Ht (exp & HE & Hat). rewrite Hat. by rewrite (proj2 (Z.ltb_lt _ _)) by lia. Qed.

(** Raising the level to [HALT] holds the key for a day. *)
Lemma persist_halt now w :
  exists w', persist_state symbol exchange HALT None now w = (Ok tt, w') /\ w_now w' = w_now w
    /\ halted_until (w_now w + 86400) w'.
Proof.
  destruct (cache_set_spec (state_key symbol exchange) (CachedBreaker HALT None) (24 * 3600) w) as (w' & E & Hn & Hk); [done|].
  exists w'. split; [exact E|]. split; [done|]. exists (w_now w + 86400). split; [lia|]. intros t. rewrite Hk. by case_decide.
Qed.

(** A computation that keeps the clock and, while it is before [E], the halt. *)
Definition holds (E : datetime) (w w' : world B R) : Prop :=
  w_now w' = w_now w /\ (w_now w < E -> halted_until E w -> halted_until E w').

Lemma holds_trans E w1 w2 w3 : holds E w1 w2 -> holds E w2 w3 -> holds E w1 w3.
Proof. intros [Hn1 H1] [Hn2 H2]. split; [by rewrite Hn2|]. intros Ht Hh. apply H2; [by rewrite Hn1 | by apply H1]. Qed.

Lemma holds_write E key v ttl w :
  0 < ttl -> key <> state_key symbol exchange -> exists w', cache_set_json key v ttl w = (Ok tt, w') /\ holds E w w'.
Proof.
  intros Ht Hne. destruct (cache_set_spec key v ttl w Ht) as (w' & Ew & Hn & Hk). exists w'. split; [done|].
  split; [done|]. intros _. apply halted_same. intros t. rewrite Hk. by case_decide.
Qed.

Lemma holds_delete E key w :
  key <> state_key symbol exchange -> exists w', cache_delete key w = (Ok tt, w') /\ holds E w w'.
Proof.
  intros Hne. destruct (cache_delete_at key w) as (w' & Ew & Hn & Hk). exists w'. split; [done|].
  split; [done|]. intros _. apply halted_same. intros t. rewrite Hk. by case_decide.
Qed.

Lemma holds_get E s e w :
  exists level w', get_state s e w = (Ok level, w') /\ holds E w w'
    /\ ((s, e) = (symbol, exchange) -> w_now w < E -> halted_until E w -> level = HALT)
    /\ (level = HALT -> w' = w).
Proof.
  destruct (get_state_spec s e w) as (level & w' & Ew & Hn & Hk & Hh & Hsame). exists level, w'. split; [done|].
  split; [|split; [|done]].
  - split; [done|]. intros Ht Hw. destruct (decide ((s, e) = (symbol, exchange))) as [[= -> ->]|Hne].
    + destruct Hh as [_ ->]; [by eapply halted_now | done].
    + revert Hw. apply halted_same. intros t. apply Hk. intros Ek. apply Hne.
      by apply instrument_key_inj in Ek as [-> ->].
  - intros [= -> ->] Ht Hw. by apply Hh, (halted_now E).
Qed.

Lemma state_ttl_pos until now : 0 < state_ttl until now.
Proof. destruct until; simpl; lia. Qed.

(** A level set on an instrument: another one, or [HALT] on this one. *)
Lemma holds_persist E s e level until now w :
  (s, e) <> (symbol, exchange) -> exists w', persist_state s e level until now w = (Ok tt, w') /\ holds E w w'.
Proof.
  intros Hne. apply holds_write; [apply state_ttl_pos|].
  intros Ek. apply Hne. by apply instrument_key_inj in Ek as [-> ->].
Qed.

Lemma judge_move_holds E s e c now st prev w :
  exists d w', judge_move s e c now st prev w = (Ok d, w') /\ w_now w' = w_now w
    /\ ((s, e) <> (symbol, exchange) -> holds E w w').
Proof.
  unfold judge_move. destruct prev as [[| | | |p ts| | | | | |]|]; try (by eexists _, w).
  destruct (dleb p dzero); [by eexists _, w|].
  cbv zeta. destruct (match_threshold _ _) as [breach|]; [|by eexists _, w]. unfold mbind, M_bind.
  destruct (cache_set_spec (state_key s e) (CachedBreaker breach (compute_expiry now breach))
              (state_ttl (compute_expiry now breach) now) w (state_ttl_pos _ _)) as (w' & Ew & Hn & _).
  unfold persist_state. rewrite Ew. eexists _, w'. split; [done|]. split; [done|]. intros Hne.
  destruct (holds_persist E s e breach (compute_expiry now breach) now w Hne) as (w2 & Ep & Hh).
  unfold persist_state in Ep. rewrite Ew in Ep. by injection Ep as <-.
Qed.

Lemma check_volatility_holds E s e c clock w :
  exists d w', check_volatility s e c clock w = (Ok d, w') /\ holds E w w'
    /\ ((s, e) = (symbol, exchange) -> w_now w < E -> halted_until E w -> dleb c dzero = false ->
        d = decide_level HALT dzero None HaltInEffect /\ w' = w).
Proof.
  unfold check_volatility. destruct (dleb c dzero); [by eexists _, w|].
  unfold mbind at 1, M_bind at 1, gets at 1. unfold mbind at 1, M_bind at 1.
  destruct (holds_get E s e w) as (level & w1 & -> & H1 & Hlevel & Hsame). case_bool_decide as Hl.
  { rewrite (Hsame Hl). by eexists _, w. }
  unfold mbind at 1, M_bind at 1, cache_get_json, gets at 1. unfold mbind at 1, M_bind at 1.
  destruct (holds_write E (last_price_key s e) (CachedPrice c (default (w_now w) clock)) 3600 w1) as (w2 & -> & H2);
    [lia | apply last_price_is_not_state|].
  destruct (judge_move_holds E s e c (default (w_now w) clock) level
    (store_get (last_price_key s e) (w_now w1) (pf_cache (w_platform w1))) w2) as (d & w3 & -> & Hn3 & H3).
  exists d, w3. split; [done|]. destruct (decide ((s, e) = (symbol, exchange))) as [Heq|Hne].
  - assert (Hno : ~ (w_now w < E /\ halted_until E w)) by (intros [? ?]; by apply Hl, Hlevel).
    split; [|tauto]. split; [destruct H1, H2; congruence | tauto].
  - split; [|done]. eauto using holds_trans.
Qed.

(** ** Interleavings *)

(** One thing that happens: a call of the service on any instrument, a cache
    write or delete by another service, the passing of time. *)
Inductive breaker_op : Type :=
| OpGetState (s : string) (e : Exchange)
| OpCheckVolatility (s : string) (e : Exchange) (price : dec) (clock : option datetime)
| OpOverride (s : string) (e : Exchange) (action : CircuitBreakerLevel)
| OpCacheSet (key : string) (v : cached) (ttl : Z)
| OpCacheDelete (key : string)
| OpWait (seconds : Z).

Definition run_breaker_op (op : breaker_op) (w : world B R) : world B R :=
  match op with
  | OpGetState s e => (get_state s e w).2
  | OpCheckVolatility s e price clock => (check_volatility s e price clock w).2
  | OpOverride s e action => (admin_override s e action w).2
  | OpCacheSet key v ttl => (cache_set_json key v ttl w).2
  | OpCacheDelete key => (cache_delete key w).2
  | OpWait n => w <| w_now := w_now w + Z.max 0 n |>
  end.

(** The operations that may end a halt: the operator's ALLOW on this instrument,
    and a foreign hand on its very key. *)
Definition lifts (op : breaker_op) : Prop :=
  match op with
  | OpOverride s e ALLOW => s = symbol /\ e = exchange
  | OpCacheSet key _ _ | OpCacheDelete key => key = state_key symbol exchange
  | _ => False
  end.

Lemma run_op_clock op w : w_now w <= w_now (run_breaker_op op w).
Proof.
  destruct op as [s e|s e price clock|s e action|key v ttl|key|n]; cbn [run_breaker_op].
  - destruct (holds_get 0 s e w) as (? & ? & -> & [Hn _] & _). simpl. lia.
  - destruct (check_volatility_holds 0 s e price clock w) as (? & ? & -> & [Hn _] & _). simpl. lia.
  - destruct action; simpl; lia.
  - unfold cache_set_json. destruct (ttl <=? 0); simpl; lia.
  - simpl. lia.
  - simpl. lia.
Qed.

Lemma run_op_holds E op w :
  ~ lifts op -> E <= w_now w + 86400 -> w_now (run_breaker_op op w) < E -> halted_until E w ->
  halted_until E (run_breaker_op op w).
Proof.
  intros Hop HE Ht Hh. assert (Hw : w_now w < E) by (pose proof (run_op_clock op w); lia). clear Ht.
  destruct op as [s e|s e price clock|s e action|key v ttl|key|n]; cbn [run_breaker_op].
  - destruct (holds_get E s e w) as (? & ? & -> & [_ H'] & _). auto.
  - destruct (check_volatility_holds E s e price clock w) as (? & ? & -> & [_ H'] & _). auto.
  - destruct action; cbn [admin_override]; try done.
    + unfold clear_state. destruct (holds_delete E (state_key s e) w) as (w' & -> & [_ H']); [|by apply H'].
      intros Ek. by apply instrument_key_inj in Ek.
    + unfold mbind, M_bind, gets. destruct (decide ((s, e) = (symbol, exchange))) as [[= -> ->]|Hne].
      * destruct (persist_halt (w_now w) w) as (w' & -> & Hn & (exp & ? & Hat)). exists exp. split; [lia | done].
      * destruct (holds_persist E s e HALT None (w_now w) w Hne) as (w' & -> & [_ H']). auto.
  - destruct (Z.leb_spec ttl 0).
    + unfold cache_set_json. by rewrite (proj2 (Z.leb_le _ _)).
    + destruct (holds_write E key v ttl w) as (w' & -> & [_ H']); auto.
  - destruct (holds_delete E key w) as (w' & -> & [_ H']); auto.
  - exact Hh.
Qed.

Definition run_breaker_ops (ops : list breaker_op) (w : world B R) : world B R :=
  fold_left (fun w op => run_breaker_op op w) ops w.

Lemma run_ops_clock ops w : w_now w <= w_now (run_breaker_ops ops w).
Proof.
  revert w. induction ops as [|op ops IH]; intros w; simpl; [lia|].
  pose proof (run_op_clock op w). specialize (IH (run_breaker_op op w)). lia.
Qed.

Lemma run_ops_hold E ops w :
  (forall op, In op ops -> ~ lifts op) -> E <= w_now w + 86400 -> w_now (run_breaker_ops ops w) < E ->
  halted_until E w -> halted_until E (run_breaker_ops ops w).
Proof.
  revert w. induction ops as [|op ops IH]; intros w Hops HE Ht Hh; [done|]. simpl in *.
  pose proof (run_op_clock op w). pose proof (run_ops_clock ops (run_breaker_op op w)).
  apply IH; [auto | lia | done|]. apply run_op_holds; auto. lia.
Qed.

(** A call that put the instrument on [HALT]: the operator's, or a price move. *)
Definition raised_halt (w w1 : world B R) : Prop :=
  admin_override symbol exchange HALT w = (Ok tt, w1)
  \/ exists price clock d window, check_volatility symbol exchange price clock w = (Ok d, w1)
       /\ vd_level d = HALT /\ vd_reason d = Moved window.

Lemma judge_move_halts c now st prev w d w1 window :
  judge_move symbol exchange c now st prev w = (Ok d, w1) -> vd_level d = HALT -> vd_reason d = Moved window ->
  w_now w1 = w_now w /\ halted_until (w_now w + 86400) w1.
Proof.
  unfold judge_move. destruct prev as [[| | | |p ts| | | | | |]|]. 1-4, 6-12: by intros [= <- <-].
  destruct (dleb p dzero); [by intros [= <- <-]|]. cbv zeta.
  destruct (match_threshold _ _) as [breach|]; [|by intros [= <- <-]]. unfold mbind, M_bind.
  destruct (persist_state _ _ breach _ now w) as [[[]|x] w'] eqn:E; [|done]. intros [= <- <-] Hl _. simpl in Hl. subst breach.
  destruct (persist_halt now w) as (w2 & E2 & Hn & Hh). simpl in E. rewrite E2 in E. by injection E as <-.
Qed.

Lemma raised_halt_halts w w1 : raised_halt w w1 -> w_now w1 = w_now w /\ halted_until (w_now w + 86400) w1.
Proof.
  intros [E | (price & clock & d & window & E & Hl & Hr)].
  - unfold admin_override, mbind, M_bind, gets in E. destruct (persist_halt (w_now w) w) as (w2 & E2 & Hn & Hh).
    rewrite E2 in E. by injection E as <-.
  - unfold check_volatility in E. destruct (dleb price dzero); [by injection E as <- <-|].
    unfold mbind at 1, M_bind at 1, gets at 1 in E. unfold mbind at 1, M_bind at 1 in E.
    destruct (holds_get 0 symbol exchange w) as (level & w2 & E2 & [Hn2 _] & _). rewrite E2 in E.
    case_bool_decide; [by injection E as <- <-|].
    unfold mbind at 1, M_bind at 1, cache_get_json, gets at 1 in E. unfold mbind at 1, M_bind at 1 in E.
    destruct (cache_set_spec (last_price_key symbol exchange) (CachedPrice price (default (w_now w) clock)) 3600 w2)
      as (w3 & E3 & Hn3 & _); [lia|]. rewrite E3 in E.
    apply judge_move_halts with (window := window) in E; try done. by rewrite Hn3, Hn2 in E.
Qed.

(** A halt holds.  Once an instrument is halted, by the operator or by a
    price move, then for a day it stays halted through any calls of the service
    on any instrument, other services' cache writes and the passing of time,
    unless the operator sets that very instrument to ALLOW: its level reads HALT,
    and every further valid price is answered with HALT and changes nothing. *)
Theorem halt_holds ops w w1 :
  raised_halt w w1 -> (forall op, In op ops -> ~ lifts op) ->
  let w2 := run_breaker_ops ops w1 in
  w_now w2 < w_now w + 86400 ->
  get_state symbol exchange w2 = (Ok HALT, w2)
  /\ forall price clock, dleb price dzero = false ->
       check_volatility symbol exchange price clock w2 = (Ok (decide_level HALT dzero None HaltInEffect), w2).
Proof.
  intros Hraise Hops w2 Ht. apply raised_halt_halts in Hraise as [Hn Hh].
  assert (Hw2 : halted_until (w_now w + 86400) w2) by (apply run_ops_hold; [done | lia | done | done]).
  split.
  - destruct (holds_get (w_now w + 86400) symbol exchange w2) as (level & w3 & E & _ & Hlevel & Hsame).
    rewrite E. rewrite Hsame; [|by apply Hlevel]. by rewrite Hlevel.
  - intros price clock Hp. destruct (check_volatility_holds (w_now w + 86400) symbol exchange price clock w2)
      as (d & w3 & E & _ & Hd). destruct Hd as [-> ->]; try done.
Qed.
End Halt.

(** ** Pauses *)

(** A breach sets the most severe level whose move and window it meets, for that
    level's time: the level reads back until then, and ALLOW from then on. *)
Theorem breach_lasts s e c now st p ts w d w1 window t :
  now = w_now w -> judge_move s e c now st (Some (CachedPrice p ts)) w = (Ok d, w1) -> vd_reason d = Moved window ->
  0 <= t -> (vd_level d = HALT -> t < 86400) ->
  match_threshold (move_percent c p) (Z.max (now - ts) 0) = Some (vd_level d)
  /\ (get_state s e (w1 <| w_now := now + t |>)).1
     = Ok (match vd_level d with
           | PAUSE_SHORT => if t <? 30 then PAUSE_SHORT else ALLOW
           | PAUSE_LONG => if t <? 300 then PAUSE_LONG else ALLOW
           | level => level
           end).
Proof.
  intros -> E Hr Ht Hday. unfold judge_move in E. destruct (dleb p dzero); [by injection E as <- <-|]. cbv zeta in E.
  destruct (match_threshold _ _) as [breach|]; [|by injection E as <- <-]. unfold mbind, M_bind, persist_state in E.
  destruct (cache_set_spec (state_key s e) (CachedBreaker breach (compute_expiry (w_now w) breach))
              (state_ttl (compute_expiry (w_now w) breach) (w_now w)) w (state_ttl_pos _ _)) as (w' & Ew & Hn & Hk).
  rewrite Ew in E. injection E as <- <-. split; [done|]. clear Hr Ew. cbn [vd_level decide_level] in *.
  unfold get_state, mbind, M_bind, cache_get_json, gets.
  assert (Hat : store_get (state_key s e) (w_now (w' <| w_now := w_now w + t |>)) (pf_cache (w_platform (w' <| w_now := w_now w + t |>)))
                = cache_at w' (state_key s e) (w_now w + t)) by done.
  rewrite Hat, Hk, decide_True by done. change (w_now (w' <| w_now := w_now w + t |>)) with (w_now w + t).
  destruct breach; cbn [compute_expiry state_ttl]; unfold PAUSE_SHORT_SECONDS, PAUSE_LONG_SECONDS.
  all: repeat first
    [ match goal with |- context [?a <? ?b] => destruct (Z.ltb_spec a b) end
    | match goal with |- context [?a <=? ?b] => destruct (Z.leb_spec a b) end ]; try done; try specialize (Hday eq_refl); lia.
Qed.
End Breaker.

(** ** Examples *)

Abbreviation bworld := (world ScriptedBroker store).

(** RELIANCE drops from 2500 to 2200 (12%) in 20 seconds. *)
Definition crash : list breaker_op :=
  [OpCheckVolatility "RELIANCE" NSE (Dec 2500 0) None; OpWait 20].

Definition crash_world : bworld := run_breaker_ops crash sample_world.

(** What happens next: a recovery, operators resuming other instruments, most of
    a day. *)
Definition aftermath : list breaker_op :=
  [OpCheckVolatility "RELIANCE" NSE (Dec 2500 0) None; OpOverride "TCS" NSE ALLOW; OpOverride "RELIANCE" BSE ALLOW;
   OpWait 80000].

Lemma halt_holds_witness :
  exists w1 : bworld, raised_halt "RELIANCE" NSE crash_world w1
    /\ (get_state "RELIANCE" NSE (run_breaker_ops aftermath w1)).1 = Ok HALT.
Proof.
  exists (check_volatility "RELIANCE" NSE (Dec 2200 0) None crash_world).2.
  assert (Hraise : raised_halt "RELIANCE" NSE crash_world (check_volatility "RELIANCE" NSE (Dec 2200 0) None crash_world).2).
  { right. exists (Dec 2200 0), None, (decide_level HALT (Dec 1200 (-2)) None (Moved 20)), 20. split; [|done].
    rewrite (surjective_pairing (check_volatility _ _ _ _ _)) at 1. f_equal. }
  split; [exact Hraise|].
  assert (Hops : forall op, In op aftermath -> ~ lifts "RELIANCE" NSE op).
  { intros op Hop. repeat destruct Hop as [<- | Hop]; first [destruct Hop | by intros [??] | by intros []]. }
  rewrite (proj1 (halt_holds "RELIANCE" NSE aftermath _ _ Hraise Hops ltac:(vm_compute; reflexivity))). reflexivity.
Defined.

(** The header calls HALT permanent until an operator resumes trading; the key
    lives for a day, after which the level reads ALLOW by itself. *)
Example halt_expires_by_itself :
  (get_state "RELIANCE" NSE (run_breaker_ops [OpOverride "RELIANCE" NSE HALT; OpWait 86400] sample_world)).1 = Ok ALLOW.
Proof. vm_compute. reflexivity. Qed.

(** A five-minute pause is cut to thirty seconds by a later, smaller move. *)
Example pause_long_downgraded :
  (get_state "RELIANCE" NSE
     (run_breaker_ops [OpCheckVolatility "RELIANCE" NSE (Dec 2500 0) None; OpWait 20;
                       OpCheckVolatility "RELIANCE" NSE (Dec 2370 0) None; OpWait 1;
                       OpCheckVolatility "RELIANCE" NSE (Dec 2430 0) None; OpWait 31] sample_world)).1 = Ok ALLOW
  /\ (get_state "RELIANCE" NSE
     (run_breaker_ops [OpCheckVolatility "RELIANCE" NSE (Dec 2500 0) None; OpWait 20;
                       OpCheckVolatility "RELIANCE" NSE (Dec 2370 0) None; OpWait 32] sample_world)).1 = Ok PAUSE_LONG.
Proof. vm_compute. split; reflexivity. Qed.

(** The level of an instrument is kept by its exact spelling. *)
Example halt_is_case_sensitive :
  (get_state "reliance" NSE (run_breaker_ops [OpOverride "RELIANCE" NSE HALT] sample_world)).1 = Ok ALLOW.
Proof. vm_compute. reflexivity. Qed.

(** The conversion copies the order without validating it: below one paisa the
    limit price is zero, which the order schema forbids. *)
Example converted_order_invalid :
  let order := {| o_symbol := "PENNY"; o_exchange := NSE; o_side := BUY; o_quantity := 10; o_order_type := MARKET;
                  o_product_type := INTRADAY; o_price := None; o_trigger_price := None; o_tag := None |} in
  order_request_ok order = true
  /\ match convert_order_in_volatile_market order PAUSE_SHORT (Some (Dec 4 (-3))) with
     | Ok (Some o) => order_request_ok o = false
     | _ => False
     end.
Proof. vm_compute. split; reflexivity. Qed.
