(* ===== verification/MarketShield.v ===== *)
(** * Market strength shield (backend/app/services/market_shield_service.py)

    Holds a Pine EXIT back for up to thirty minutes while the index breadth is
    strong, and releases it on a later webhook arrival.  The hold record lives in
    the JSON cache; the informational score of an index and the texts of the
    decisions are not kept. *)

From Stdlib Require Import ZArith Lia List Bool Ascii String SpecFloat.
From stdpp Require Import base list strings gmap.
From S2P Require Import Prelude PyText PyFloat PyDecimal PyNum Records Enums Models Samples Book StrategyExecutor DirectExit DayState CircuitBreaker BreakerSafety AiValidator.

Definition INDEX_KEYS : list string := ["NIFTY50"; "BANKNIFTY"; "SENSEX"; "BSE_MIDCAP"]%string.
Definition INDEX_BULLISH_MIN_CHECKS : Z := 3.
Definition BREADTH_MIN_BULLISH : Z := 3.
Definition RANGE_UPPER_THRESHOLD : float64 := num 4 (-1).
Definition ATR_OVERRIDE_THRESHOLD : float64 := num 1 0.
Definition HOLD_MAX_SECONDS : Z := 1800.
Definition HOLD_TTL_SECONDS : Z := 1860.

Definition idx_key (index_key : string) : string := String.append "mshield:idx:" index_key.
Definition hold_key (strategy_id : uuid) : string := String.append "mshield:held:" (z_str strategy_id).

(** [_coerce_float]. *)
Definition shield_float (j : json) : result exn float64 := float_or f_zero j.

(** [float(d)] of a Decimal column, 0.0 when it is null. *)
Definition float_of_dec (d : dec) : float64 :=
  let x := float_of_decimal (Z.abs (coef d)) (expo d) in if coef d <? 0 then f_neg x else x.
Definition column_float (d : option dec) : float64 := match d with Some d => float_of_dec d | None => f_zero end.

Definition positive (x : float64) : bool := f_ltb f_zero x.

Definition compute_vwap_proxy (h l c : float64) : float64 :=
  if positive h && positive l && positive c then f_div (f_add (f_add h l) c) (num 3 0) else f_zero.

Definition count_true (l : list bool) : Z := sum_by (fun b => if b : bool then 1 else 0) l.

(** [_evaluate_index(...).is_bullish]. *)
Definition evaluate_index (ohlc : payload) : result exn bool :=
  ltp ← shield_float (jget ohlc "ltp");
  open_p ← shield_float (jget ohlc "open");
  high ← shield_float (jget ohlc "high");
  low ← shield_float (jget ohlc "low");
  prev_close ← shield_float (jget ohlc "prev_close");
  if f_leb ltp f_zero || f_leb open_p f_zero then Ok false
  else
    let vwap := compute_vwap_proxy high low ltp in
    let rng := f_sub high low in
    let checks_passed := count_true
      [positive vwap && f_ltb vwap ltp; f_ltb open_p ltp; positive prev_close && f_ltb prev_close ltp;
       positive rng && f_leb RANGE_UPPER_THRESHOLD (f_div (f_sub ltp low) rng)] in
    Ok (INDEX_BULLISH_MIN_CHECKS <=? checks_passed).

(** The loss from entry in multiples of the average true range; a favourable move
    counts as no loss. *)
Definition loss_in_atr (long : bool) (entry_price current_price atr : float64) : float64 :=
  if long then if f_ltb current_price entry_price then f_div (f_sub entry_price current_price) atr else f_zero
  else if f_ltb entry_price current_price then f_div (f_sub current_price entry_price) atr else f_zero.

Inductive hold_decision : Type := NotHeld (reason : string) | Held (release_at : datetime).

Section Shield.
Context {B R : Type}.
Context (settings : Settings).

Definition shield_enabled : bool := market_shield_enabled settings.

(** The snapshot of an index, when the cache holds a non-empty object. *)
Definition index_snapshot (key : string) : M B R (option payload) :=
  hit ← cache_get_json (idx_key key);
  mret (match hit with Some (CachedJson (JDict (e :: es))) => Some (fields (e :: es)) | _ => None end).

Fixpoint evaluate_indices (keys : list string) : M B R (Z * list bool) :=
  match keys with
  | [] => mret (0, [])
  | key :: rest =>
      ohlc ← index_snapshot key;
      bullish ← from_result (match ohlc with Some o => evaluate_index o | None => Ok false end);
      '(available, checks) ← evaluate_indices rest;
      mret ((match ohlc with Some _ => 1 | None => 0 end) + available, bullish :: checks)
  end.

(** [evaluate_breadth]: cold start, and the number of bullish indices. *)
Definition evaluate_breadth : M B R (bool * Z) :=
  '(available, checks) ← evaluate_indices INDEX_KEYS;
  mret (available <? Z.of_nat (length INDEX_KEYS), count_true checks).

Definition has_active_hold (strategy_id : uuid) : M B R bool :=
  if negb shield_enabled then mret false
  else rec ← cache_get_json (hold_key strategy_id); mret (match rec with Some (CachedJson j) => truthy j | Some _ => true | None => false end).

(** The average true range: the payload's, else the one of the position row. *)
Definition atr_of (p : payload) (position : StrategyPosition) : result exn float64 :=
  indicators ← (match j_or (jget p "indicators") (JDict []) with
                | JDict entries => Ok (fields entries)
                | _ => Err AttributeError
                end);
  let atr := j_or (jget indicators "ATR") (jget indicators "atr") in
  if truthy atr then shield_float atr else Ok (column_float (current_atr position)).

Definition maybe_hold_exit (strategy_id : uuid) (signal : StrategySignal) : M B R hold_decision :=
  if negb shield_enabled then mret (NotHeld "disabled")
  else
    let p := raw_payload signal in
    let side := str_lower (str_or_empty (jget p "side")) in
    if negb (one_of side ["long"; "short"]%string) then mret (NotHeld "missing_side")
    else
      position ← get_open_position strategy_id (g_symbol signal) side;
      match position with
      | None => mret (NotHeld "no_open_position")
      | Some position =>
          if remaining_quantity position <=? 0 then mret (NotHeld "no_open_position")
          else
            let entry_price := column_float (avg_entry_price position) in
            atr ← from_result (atr_of p position);
            current_price ← from_result (shield_float (jget p "price"));
            if f_leb entry_price f_zero || f_leb atr f_zero || f_leb current_price f_zero
            then mret (NotHeld "insufficient_data_at_hold")
            else
              '(cold_start, bullish_count) ← evaluate_breadth;
              if cold_start : bool then mret (NotHeld "cold_start_index_data")
              else if negb (BREADTH_MIN_BULLISH <=? bullish_count) then mret (NotHeld "breadth_weak")
              else
                let loss_atr := loss_in_atr (String.eqb side "long") entry_price current_price atr in
                if f_leb ATR_OVERRIDE_THRESHOLD loss_atr then mret (NotHeld "atr_override_at_hold")
                else
                  held_at ← gets w_now;
                  let release_at := held_at + HOLD_MAX_SECONDS in
                  cache_set_json (hold_key strategy_id) (CachedHold (g_id signal) side entry_price atr release_at) HOLD_TTL_SECONDS ;;
                  mret (Held release_at)
      end.

Definition consume_hold (strategy_id : uuid) : M B R unit := cache_delete (hold_key strategy_id).

(** A price that can trigger the override. *)
Definition overrides (side : string) (entry_price atr_at_hold : float64) (current_price : option float64) : bool :=
  match current_price with
  | Some price =>
      positive price && positive entry_price && positive atr_at_hold
      && f_leb ATR_OVERRIDE_THRESHOLD (loss_in_atr (String.eqb side "long") entry_price price atr_at_hold)
  | None => false
  end.

(** The released signal and whether it was the override. *)
Definition try_release (strategy_id : uuid) (current_price : option float64) : M B R (option (uuid * bool)) :=
  if negb shield_enabled then mret None
  else
    record ← cache_get_json (hold_key strategy_id);
    match record with
    | Some (CachedHold signal_id side entry_price atr_at_hold release_at) =>
        now ← gets w_now;
        if release_at <=? now then consume_hold strategy_id ;; mret (Some (signal_id, false))
        else if overrides side entry_price atr_at_hold current_price then consume_hold strategy_id ;; mret (Some (signal_id, true))
        else mret None
    | Some (CachedJson (JDict (_ :: _))) => consume_hold strategy_id ;; mret None
    | _ => mret None
    end.
End Shield.

(** ** The fate of a held exit *)

Section Fate.
Context {B R : Type} (settings : Settings).
Implicit Types (w : world B R).

Lemma evaluate_indices_reads keys w r w' : evaluate_indices keys w = (r, w') -> w' = w.
Proof.
  revert w r w'. induction keys as [|key rest IH]; intros w r w' E; [by injection E|]. cbn [evaluate_indices] in E.
  apply bind_cases in E as [(o & w1 & E1 & E) | (e & -> & E1)]; injection E1 as E1 <-; [|done].
  apply bind_cases in E as [(b & w1 & E2 & E) | (e & -> & E2)]; injection E2 as E2 <-; [|done].
  apply bind_cases in E as [([a c] & w1 & E3 & E) | (e & -> & E3)]; apply IH in E3 as ->; [by injection E | done].
Qed.

Lemma evaluate_breadth_reads w r w' : evaluate_breadth w = (r, w') -> w' = w.
Proof.
  unfold evaluate_breadth. intros E. apply bind_cases in E as [([a c] & w1 & E1 & E) | (e & -> & E1)];
    apply evaluate_indices_reads in E1 as ->; [by injection E | done].
Qed.

(** A held exit: what was written, and that the strategy had an open row of that
    side on the signal's symbol. *)
Record hold_written (sid : uuid) (signal : StrategySignal) w (r : result exn hold_decision) w' : Prop := {
  hw_enabled : market_shield_enabled settings = true;
  hw_result : r = Ok (Held (w_now w + HOLD_MAX_SECONDS));
  hw_record : exists side entry atr, one_of side ["long"; "short"]%string = true
    /\ cache_set_json (hold_key sid) (CachedHold (g_id signal) side entry atr (w_now w + HOLD_MAX_SECONDS)) HOLD_TTL_SECONDS w = (Ok tt, w')
    /\ exists p, In p (w_positions w) /\ matches_exit sid (g_symbol signal) side p = true /\ 0 < remaining_quantity p
}.

Lemma maybe_hold_spec sid signal w r w' :
  maybe_hold_exit settings sid signal w = (r, w') ->
  (w' = w /\ forall ra, r <> Ok (Held ra)) \/ hold_written sid signal w r w'.
Proof.
  unfold maybe_hold_exit, shield_enabled. intros E. destruct (market_shield_enabled settings) eqn:Hen; cbn [negb] in E.
  2: { injection E as <- <-. left. by split. }
  cbv zeta in E. set (side := str_lower _) in E. destruct (one_of side _) eqn:Hside; cbn [negb] in E.
  2: { injection E as <- <-. left. by split. }
  unfold mbind at 1, M_bind at 1, get_open_position, gets at 1 in E.
  destruct (latest_by opened_at _) as [position|] eqn:El; [|injection E as <- <-; left; by split].
  destruct (Z.leb_spec (remaining_quantity position) 0) as [|Hrem]; [injection E as <- <-; left; by split|].
  apply bind_cases in E as [(atr & w1 & E1 & E) | (e & -> & E1)]; injection E1 as E1 <-; [|left; by split].
  apply bind_cases in E as [(price & w1 & E2 & E) | (e & -> & E2)]; injection E2 as E2 <-; [|left; by split].
  destruct (_ || _ || _); [injection E as <- <-; left; by split|].
  apply bind_cases in E as [([cold n] & w1 & E3 & E) | (e & -> & E3)]; apply evaluate_breadth_reads in E3 as ->; [|left; by split].
  destruct cold; [injection E as <- <-; left; by split|]. destruct (negb _); [injection E as <- <-; left; by split|].
  destruct (f_leb _ _); [injection E as <- <-; left; by split|].
  unfold mbind at 1, M_bind at 1, gets at 1 in E. right.
  apply bind_cases in E as [([] & w1 & E4 & E) | (e & -> & E4)].
  2: { destruct (cache_set_spec (hold_key sid) (CachedHold (g_id signal) side (column_float (avg_entry_price position)) atr (w_now w + HOLD_MAX_SECONDS)) HOLD_TTL_SECONDS w ltac:(done)) as (w0 & E0 & _).
       rewrite E0 in E4. done. }
  injection E as <- <-. split; [done..|]. exists side, (column_float (avg_entry_price position)), atr. split; [done|]. split; [done|].
  apply latest_by_in, filter_In in El as [Hin Hm]. by exists position.
Qed.

(** The hold of [sid] is gone. *)
Definition no_hold (sid : uuid) w : Prop := forall t, cache_at w (hold_key sid) t = None.

Lemma no_hold_release sid price w : no_hold sid w -> try_release settings sid price w = (Ok None, w).
Proof.
  intros Hn. unfold try_release. destruct (negb _); [done|]. unfold mbind, M_bind, cache_get_json, gets.
  change (store_get (hold_key sid) (w_now w) (pf_cache (w_platform w))) with (cache_at w (hold_key sid) (w_now w)). by rewrite Hn.
Qed.

(** The release pass on an intact hold record. *)
Lemma release_cases sid price id side entry atr ra w :
  market_shield_enabled settings = true -> cache_at w (hold_key sid) (w_now w) = Some (CachedHold id side entry atr ra) ->
  exists w', no_hold sid w' /\ w_positions w' = w_positions w /\ w_now w' = w_now w
    /\ try_release settings sid price w
       = if ra <=? w_now w then (Ok (Some (id, false)), w')
         else if overrides side entry atr price then (Ok (Some (id, true)), w') else (Ok None, w).
Proof.
  intros Hen Hc. destruct (cache_delete_at (hold_key sid) w) as (w' & Ed & Hn & Hk). exists w'. split_and!; [| |done|].
  - intros t. by rewrite Hk, decide_True.
  - by injection Ed as <-.
  - unfold try_release, shield_enabled. rewrite Hen. cbn [negb]. unfold mbind at 1, M_bind at 1, cache_get_json, gets at 1.
    fold (cache_at w (hold_key sid) (w_now w)). rewrite Hc. unfold mbind at 1, M_bind at 1, gets at 1.
    destruct (ra <=? w_now w), (overrides side entry atr price); unfold consume_hold, mbind, M_bind; by rewrite ?Ed.
Qed.

(** The fate of a held exit.  When an EXIT was held, its record names the
    signal, and as long as nobody else touches the record: an arrival before thirty
    minutes releases it exactly when the price has moved against the position by one
    ATR, an arrival from minute thirty to thirty-one always releases it; a release
    happens once (the record is gone, later arrivals release nothing); an arrival
    after minute thirty-one releases nothing, whatever the price. *)
Theorem held_exit_fate sid signal w ra w1 w2 price :
  maybe_hold_exit settings sid signal w = (Ok (Held ra), w1) ->
  (forall t, cache_at w2 (hold_key sid) t = cache_at w1 (hold_key sid) t) -> w_now w <= w_now w2 ->
  ra = w_now w + 1800
  /\ ((w_now w2 < ra /\ exists side entry atr w3,
         try_release settings sid price w2
         = (if overrides side entry atr price then (Ok (Some (g_id signal, true)), w3) else (Ok None, w2))
         /\ no_hold sid w3)
      \/ (ra <= w_now w2 < ra + 60 /\ exists w3, try_release settings sid price w2 = (Ok (Some (g_id signal, false)), w3) /\ no_hold sid w3
            /\ forall price' w4, (forall t, cache_at w4 (hold_key sid) t = cache_at w3 (hold_key sid) t) ->
                 try_release settings sid price' w4 = (Ok None, w4))
      \/ (ra + 60 <= w_now w2 /\ try_release settings sid price w2 = (Ok None, w2))).
Proof.
  intros Eh Hsame Hle. apply maybe_hold_spec in Eh as [[_ Hno] | [Hen Hra (side & entry & atr & Hs & Ec & _)]]; [by destruct (Hno ra)|].
  injection Hra as ->. unfold HOLD_MAX_SECONDS in *. split; [done|].
  destruct (cache_set_spec (hold_key sid) (CachedHold (g_id signal) side entry atr (w_now w + 1800)) HOLD_TTL_SECONDS w ltac:(done)) as (w0 & E0 & _ & Hk).
  rewrite E0 in Ec. injection Ec as <-. unfold HOLD_TTL_SECONDS in Hk.
  pose proof (Hsame (w_now w2)) as Hc. rewrite Hk, decide_True in Hc by done.
  destruct (Z.ltb_spec (w_now w2) (w_now w + 1860)) as [Hlt|Hge].
  - destruct (release_cases sid price (g_id signal) side entry atr (w_now w + 1800) w2 Hen Hc) as (w3 & Hn & _ & _ & Er). rewrite Er.
    destruct (Z.leb_spec (w_now w + 1800) (w_now w2)).
    + right. left. split; [lia|]. exists w3. split; [done|]. split; [done|]. intros price' w4 H4. apply no_hold_release. intros t. by rewrite H4.
    + left. split; [done|]. exists side, entry, atr, w3. by split.
  - right. right. split; [lia|]. unfold try_release. destruct (negb _); [done|]. unfold mbind, M_bind, cache_get_json, gets.
    fold (cache_at w2 (hold_key sid) (w_now w2)). by rewrite Hc.
Qed.
End Fate.

(** ** A concrete hold *)

Definition shield_settings : Settings :=
  sample_settings <| marketplace_fanout_enabled := false |> <| subscriber_drift_enabled := false |> <| market_shield_enabled := true |>.

(** An index above its open, its previous close and the typical price. *)
Definition strong_index : json :=
  JDict [("ltp", JInt 24900); ("open", JInt 24500); ("high", JInt 24950); ("low", JInt 24400); ("prev_close", JInt 24450)]%string.

Definition strong_world : world ScriptedBroker store :=
  sample_world <| w_platform ::= fun f => f <| pf_cache := map (fun k => (idx_key k, (CachedJson strong_index, Some 100000))) INDEX_KEYS |> |>.

Definition held_signal : StrategySignal :=
  {| g_id := 60; g_user_id := 1; g_strategy_id := 2;
     raw_payload := <["side"%string := JStr "long"]> (<["price"%string := JInt 2410]>
                      (<["indicators"%string := JDict [("ATR"%string, JInt 20)]]> ∅));
     g_symbol := "BSE-AUG2026-FUT"; g_action := "EXIT"; g_quantity := None; g_order_type := "market";
     g_ai_decision := None; g_status := sg_received; g_received_at := 100 |}.

Definition after_hold : world ScriptedBroker store := snd (maybe_hold_exit shield_settings 2 held_signal strong_world).

Lemma sample_held : maybe_hold_exit shield_settings 2 held_signal strong_world = (Ok (Held 1900), after_hold).
Proof.
  assert (E : fst (maybe_hold_exit shield_settings 2 held_signal strong_world) = Ok (Held 1900)) by (vm_compute; reflexivity).
  unfold after_hold. by destruct (maybe_hold_exit _ _ _ _) as [r w'] eqn:Er; cbn [fst snd] in *; subst r.
Qed.

Definition at_time (t : datetime) (w : world ScriptedBroker store) : world ScriptedBroker store := w <| w_now := t |>.

Lemma held_exit_fate_witness :
  let w2 := at_time 1930 after_hold in
  1900 = w_now strong_world + 1800
  /\ ((w_now w2 < 1900 /\ exists side entry atr w3,
         try_release shield_settings 2 None w2
         = (if overrides side entry atr None then (Ok (Some (g_id held_signal, true)), w3) else (Ok None, w2))
         /\ no_hold 2 w3)
      \/ (1900 <= w_now w2 < 1900 + 60 /\ exists w3, try_release shield_settings 2 None w2 = (Ok (Some (g_id held_signal, false)), w3)
            /\ no_hold 2 w3
            /\ forall price' (w4 : world ScriptedBroker store), (forall t, cache_at w4 (hold_key 2) t = cache_at w3 (hold_key 2) t) ->
                 try_release shield_settings 2 price' w4 = (Ok None, w4))
      \/ (1900 + 60 <= w_now w2 /\ try_release shield_settings 2 None w2 = (Ok None, w2))).
Proof.
  intros w2. apply (held_exit_fate shield_settings 2 held_signal strong_world 1900 after_hold w2 None);
    [exact sample_held | reflexivity | vm_compute; discriminate].
Defined.

(** The next alert of the strategy arrives forty minutes after the hold: the exit
    is lost, and the position stays open. *)
Example held_exit_lost :
  fst (try_release shield_settings 2 None (at_time 2500 after_hold)) = Ok None
  /\ fst (has_active_hold shield_settings 2 (at_time 2500 after_hold)) = Ok false.
Proof. vm_compute. auto. Qed.
