(* ===== verification/OrderService.v ===== *)
(** * Order service (backend/app/services/order_service.py, backend/app/schemas/webhook.py)

    One TradingView alert executed end to end: the credential scoped to its owner,
    the session, the broker's spelling of the symbol, BUY and SELL as an order,
    EXIT as a square-off of that symbol, one replay after an expired session, and
    the trade row.

    The request schema is [WebhookPayload] with its field constraints
    ([payload_ok]); latencies, the raw JSON copies and the free-text message are
    not kept. *)

From Stdlib Require Import ZArith Lia List Bool String.
From stdpp Require Import base list strings gmap.
From S2P Require Import Prelude PyText PyDecimal PyNum SymbolMatch Records Enums Models Safeguards Book.

(** ** The alert *)

Inductive WebhookAction : Type := A_BUY | A_SELL | A_EXIT.

Record WebhookPayload : Type := {
  wp_action : WebhookAction;
  wp_symbol : string;
  wp_exchange : Exchange;
  wp_order_type : OrderType;
  wp_product_type : ProductType;
  wp_quantity : Z;
  wp_price : option dec;
  wp_trigger_price : option dec;
  wp_stoploss : option dec;
  wp_target : option dec;
  wp_strategy_name : option string;
  wp_message : option string;
  wp_signal_id : option string
}.

(** [str_strip_whitespace]. *)
Definition strip_payload (p : WebhookPayload) : WebhookPayload :=
  {| wp_action := wp_action p; wp_symbol := str_strip (wp_symbol p); wp_exchange := wp_exchange p;
     wp_order_type := wp_order_type p; wp_product_type := wp_product_type p; wp_quantity := wp_quantity p;
     wp_price := wp_price p; wp_trigger_price := wp_trigger_price p; wp_stoploss := wp_stoploss p;
     wp_target := wp_target p; wp_strategy_name := str_strip <$> wp_strategy_name p;
     wp_message := str_strip <$> wp_message p; wp_signal_id := str_strip <$> wp_signal_id p |}.

(** [_validate_price_shape]. *)
Definition price_shape_ok (p : WebhookPayload) : bool :=
  match wp_order_type p with
  | MARKET => absent (wp_price p) && absent (wp_trigger_price p)
  | LIMIT => opt_is dpos (wp_price p)
  | SL => opt_is dpos (wp_price p) && opt_is dpos (wp_trigger_price p)
  | SL_M => opt_is dpos (wp_trigger_price p) && absent (wp_price p)
  end.

Definition at_most (n : nat) (s : string) : bool := (str_len s <=? n)%nat.

Definition payload_ok (p : WebhookPayload) : bool :=
  (1 <=? str_len (wp_symbol p))%nat && at_most 64 (wp_symbol p) && (0 <? wp_quantity p)
  && opt_ok dnonneg (wp_price p) && opt_ok dnonneg (wp_trigger_price p)
  && opt_ok dnonneg (wp_stoploss p) && opt_ok dnonneg (wp_target p)
  && opt_ok (at_most 64) (wp_strategy_name p) && opt_ok (at_most 512) (wp_message p)
  && opt_ok (at_most 128) (wp_signal_id p) && price_shape_ok p.

(** ** Orders *)

(** [OrderRequest(...)]: strings are stripped, a broken constraint raises. *)
Definition checked_order (o : OrderRequest) : result exn OrderRequest :=
  let o := {| o_symbol := str_strip (o_symbol o); o_exchange := o_exchange o; o_side := o_side o;
              o_quantity := o_quantity o; o_order_type := o_order_type o; o_product_type := o_product_type o;
              o_price := o_price o; o_trigger_price := o_trigger_price o; o_tag := str_strip <$> o_tag o |} in
  if order_request_ok o then Ok o else Err ValidationError.

Definition build_order_request (payload : WebhookPayload) (native_symbol : string) (side : OrderSide)
  : result exn OrderRequest :=
  checked_order {| o_symbol := native_symbol; o_exchange := wp_exchange payload; o_side := side;
                   o_quantity := wp_quantity payload; o_order_type := wp_order_type payload;
                   o_product_type := wp_product_type payload; o_price := wp_price payload;
                   o_trigger_price := wp_trigger_price payload; o_tag := wp_strategy_name payload |}.

(** [p.quantity != 0]. *)
Definition nonzero_quantity (q : quantity_field) : bool :=
  match q with QInt z => negb (z =? 0) | QNone | QBad => true end.

(** The first open leg on this symbol and exchange; a row without the attributes
    raises when the search reaches it. *)
Fixpoint find_target (native_symbol : string) (exchange : Exchange) (rows : list (option broker_row))
  : result exn (option broker_row) :=
  match rows with
  | [] => Ok None
  | None :: _ => Err AttributeError
  | Some p :: rows' =>
      if bool_decide (row_symbol p = Some (L native_symbol)) && bool_decide (row_exchange p = exchange)
         && nonzero_quantity (row_quantity p)
      then Ok (Some p) else find_target native_symbol exchange rows'
  end.

Definition closing_order (native_symbol : string) (exchange : Exchange) (target : broker_row) : result exn OrderRequest :=
  match row_quantity target with
  | QInt q =>
      checked_order {| o_symbol := native_symbol; o_exchange := exchange; o_side := if 0 <? q then SELL else BUY;
                       o_quantity := Z.abs q; o_order_type := MARKET; o_product_type := row_product_type target;
                       o_price := None; o_trigger_price := None; o_tag := None |}
  | QNone | QBad => Err TypeError
  end.

Definition no_position_response : OrderResponse :=
  {| r_broker_order_id := ""; r_status := COMPLETE; r_message := "no open position to exit" |}.

(** ** The trade row *)

Definition map_order_status (s : OrderStatus) : TradeStatus :=
  match s with
  | PENDING => T_PENDING | OPEN => T_OPEN | COMPLETE => T_COMPLETE
  | CANCELLED => T_CANCELLED | REJECTED => T_REJECTED | PARTIAL => T_PARTIAL
  end.

(** EXIT is recorded as a sell. *)
Definition resolve_trade_side (payload : WebhookPayload) : OrderSide :=
  match wp_action payload with A_BUY => BUY | A_SELL | A_EXIT => SELL end.

Definition nonempty (s : string) : option string := if String.eqb s "" then None else Some s.

Record OrderResult : Type := {
  or_success : bool;
  or_trade_id : uuid;
  or_broker_order_id : string;
  or_status : OrderStatus;
  or_message : string;
  or_native_symbol : string
}.

Section OrderService.
Context {B R : Type} `{BrokerInterface B} `{Decryptor}.

(** [on_platform] of the trades table. *)
Definition add_trade (t : Trade) : M B R unit :=
  modify (fun w => w <| w_platform ::= fun f => f <| pf_trades ::= fun l => l ++ [t] |> |>).

(** The credential row, scoped to its owner. *)
Definition load_user_credential (credential_id user_id : uuid) : M B R BrokerCredential :=
  row ← gets (fun w => List.find (fun c => (c_id c =? credential_id) && (c_user_id c =? user_id) && c_is_active c)
                                 (w_credentials w));
  match row with Some c => mret c | None => raise (BrokerError BrokerAuthError) end.

Definition square_off_symbol (k : BrokerCredentials) (native_symbol : string) (exchange : Exchange) : M B R OrderResponse :=
  positions ← on_broker (get_positions k);
  rows ← from_result (match positions with Some rows => Ok rows | None => Err TypeError end);
  target ← from_result (find_target native_symbol exchange rows);
  match target with
  | None => mret no_position_response
  | Some t => order ← from_result (closing_order native_symbol exchange t); send_order k order
  end.

Definition dispatch_action (k : BrokerCredentials) (payload : WebhookPayload) (native_symbol : string) : M B R OrderResponse :=
  match wp_action payload with
  | A_BUY => order ← from_result (build_order_request payload native_symbol BUY); send_order k order
  | A_SELL => order ← from_result (build_order_request payload native_symbol SELL); send_order k order
  | A_EXIT => square_off_symbol k native_symbol (wp_exchange payload)
  end.

(** One replay after a forced login when the session had expired. *)
Definition dispatch_with_relogin (k : BrokerCredentials) (payload : WebhookPayload) (native_symbol : string)
  : M B R OrderResponse :=
  first ← attempt (dispatch_action k payload native_symbol);
  match first with
  | Ok response => mret response
  | Err (BrokerError BrokerSessionExpiredError) => on_broker (login k) ;; dispatch_action k payload native_symbol
  | Err e => raise e
  end.

Definition record_trade (user_id broker_credential_id : uuid) (strategy_id : option uuid) (payload : WebhookPayload)
    (native_symbol : string) (broker_response : OrderResponse) : M B R Trade :=
  tid ← fresh;
  let trade := {| t_id := tid; t_user_id := user_id; t_broker_credential_id := broker_credential_id;
                  t_strategy_id := strategy_id; t_broker_order_id := nonempty (r_broker_order_id broker_response);
                  t_signal_id := wp_signal_id payload; t_symbol := native_symbol; t_exchange := wp_exchange payload;
                  t_side := resolve_trade_side payload; t_order_type := wp_order_type payload;
                  t_product_type := wp_product_type payload; t_quantity := wp_quantity payload;
                  t_price := wp_price payload; t_status := map_order_status (r_status broker_response) |} in
  add_trade trade ;;
  mret trade.

Definition process_webhook_signal (user_id broker_credential_id : uuid) (payload : WebhookPayload)
    (strategy_id : option uuid) : M B R OrderResult :=
  credential_row ← load_user_credential broker_credential_id user_id;
  k ← from_result (build_broker_credentials credential_row user_id);
  ensure_session k ;;
  native_symbol ← from_result (broker_normalize_symbol k (wp_symbol payload) (wp_exchange payload));
  broker_response ← dispatch_with_relogin k payload native_symbol;
  trade ← record_trade user_id broker_credential_id strategy_id payload native_symbol broker_response;
  mret {| or_success := negb (bool_decide (r_status broker_response = REJECTED)); or_trade_id := t_id trade;
          or_broker_order_id := r_broker_order_id broker_response; or_status := r_status broker_response;
          or_message := default "order placed"%string (nonempty (r_message broker_response));
          or_native_symbol := native_symbol |}.
End OrderService.
