(* ===== verification/KillSwitch.v ===== *)
(** * Kill switch (backend/app/services/kill_switch_service.py)

    The safety pylon: threshold evaluation, the per-user trip with its emergency
    square-off, the three marketplace tiers (one subscriber, one strategy with
    its subscribers, the whole platform, with the halt flag of
    backend/app/services/master_emergency.py), the token-guarded manual reset
    and the scheduled jobs.

    Errors of single closes are collected as data ([close_error]) where the code
    collects formatted strings.  The credentials of a live square-off are served
    one after the other, in the order the code creates their tasks; the tasks
    act on disjoint rows.  The reset token's random draw and the order in which
    a Python set of strategy ids is visited are not fixed by the code: the first
    is an argument, the second is the order of first appearance. *)

From Stdlib Require Import ZArith Lia List Bool String.
From stdpp Require Import base list strings gmap relations.
From S2P Require Import Prelude PyText PyFloat PyDecimal PyNum Records Enums Models Safeguards Book Ledger Samples DayState.
From S2P Require Import StrategyExecutor DirectExit.

Definition CONFIG_CACHE_TTL : Z := 300.
Definition RESET_TOKEN_TTL : Z := 300.
Definition TRIP_META_TTL : Z := 86400.

(** ** Thresholds *)

Definition evaluate_breach (daily_pnl max_loss : dec) (trades_today max_trades : Z) : option TripReason :=
  if dltb dzero max_loss && dltb daily_pnl (dfix (dneg max_loss)) then Some DAILY_LOSS_BREACHED
  else if (0 <? max_trades) && (max_trades <? trades_today) then Some MAX_TRADES_BREACHED
  else None.

Record KillSwitchConfigCreate : Type := {
  cc_max_daily_loss_inr : dec;
  cc_max_daily_trades : Z;
  cc_enabled : bool;
  cc_auto_square_off : bool
}.

(** The field constraints of the request schema. *)
Definition config_create_ok (c : KillSwitchConfigCreate) : bool :=
  dltb dzero (cc_max_daily_loss_inr c) && dltb (cc_max_daily_loss_inr c) (Dec 10000000 0)
  && (0 <? cc_max_daily_trades c) && (cc_max_daily_trades c <? 1000).

(** ** Results *)

Record KillSwitchResult : Type := {
  kr_triggered : bool;
  kr_reason : option TripReason;
  kr_daily_pnl : dec;
  kr_event_id : option uuid;
  kr_actions : list KillSwitchActionLog;
  kr_errors : list (list close_error)
}.

Record KillSwitchStatus : Type := {
  ks_state : KillSwitchState;
  ks_daily_pnl : dec;
  ks_max_daily_loss_inr : dec;
  ks_remaining_loss_budget : dec;
  ks_trades_today : Z;
  ks_max_daily_trades : Z;
  ks_remaining_trades : Z;
  ks_enabled : bool;
  ks_tripped_at : option datetime;
  ks_trip_reason : option TripReason
}.

Record KillSwitchTestResult : Type := {
  kt_would_trigger : bool;
  kt_reason : option TripReason;
  kt_daily_pnl : dec;
  kt_max_daily_loss_inr : dec
}.

Inductive kill_status : Type := ks_dormant | ks_not_found | ks_already_flat | ks_killed | ks_partial | ks_failed.

Record SubscriberKill : Type := {
  sk_status : kill_status;
  sk_subscription_id : uuid;
  sk_closed : Z;
  sk_resolved_credential_id : option uuid;
  sk_errors : list close_error
}.

Record StrategyKill : Type := {
  tk_status : kill_status;
  tk_owner_closed : Z;
  tk_owner_errors : list close_error;
  tk_subscribers : list SubscriberKill
}.

(** ** Rows and buckets *)

(** The open rows a kill looks at ([status IN (open, partial) AND remaining > 0]). *)
Definition killable (p : StrategyPosition) : bool := is_open p && (0 <? remaining_quantity p).

Definition of_user (user_id : uuid) (p : StrategyPosition) : bool := (p_user_id p =? user_id) && killable p.

Definition of_subscription (subscription_id : uuid) (p : StrategyPosition) : bool :=
  bool_decide (p_subscription_id p = Some subscription_id) && killable p.

Definition of_strategy_owner (strategy_id : uuid) (p : StrategyPosition) : bool :=
  (p_strategy_id p =? strategy_id) && owner_row p && killable p.

Definition find_strategy (rows : list Strategy) (id : uuid) : option Strategy := List.find (fun s => s_id s =? id) rows.
Definition find_credential (rows : list BrokerCredential) (id : uuid) : option BrokerCredential :=
  List.find (fun c => c_id c =? id) rows.

(** [by_cred.setdefault(p.broker_credential_id, []).append(p)] over the rows. *)
Fixpoint bucket_add (p : StrategyPosition) (buckets : list (uuid * list StrategyPosition))
  : list (uuid * list StrategyPosition) :=
  match buckets with
  | [] => [(p_broker_credential_id p, [p])]
  | (cid, group) :: rest =>
      if cid =? p_broker_credential_id p then (cid, group ++ [p]) :: rest else (cid, group) :: bucket_add p rest
  end.

Definition by_credential (rows : list StrategyPosition) : list (uuid * list StrategyPosition) :=
  fold_left (fun acc p => bucket_add p acc) rows [].

(** The row after a kill-switch close. *)
Definition killed_row (p : StrategyPosition) (now : datetime) (exit_side : OrderSide) (order_id : string)
    (st : OrderStatus) (paper : bool) : StrategyPosition :=
  p <| remaining_quantity := 0 |> <| status := st_closed |> <| closed_at := Some now |>
    <| exit_reason := Some "kill_switch"%string |> <| last_action := Some "kill_switch"%string |>
    <| last_action_at := Some now |>
    <| action_history ::= fun h =>
         h ++ [KillEvent {| ke_qty := remaining_quantity p; ke_side := side_value exit_side; ke_ts := now;
                            ke_broker_order_id := order_id; ke_broker_status := st; ke_paper := paper |}] |>.

Definition kill_order (p : StrategyPosition) (exit_side : OrderSide) : OrderRequest :=
  {| o_symbol := str_strip (p_symbol p); o_exchange := NFO; o_side := exit_side;
     o_quantity := remaining_quantity p; o_order_type := MARKET; o_product_type := MARGIN; o_price := None;
     o_trigger_price := None; o_tag := Some "kill-switch"%string |}.

Section KillSwitch.
Context {B R : Type} `{BrokerInterface B} `{RedisStore R} `{Decryptor}.
Context (settings : Settings).

(** ** Closing one row *)

Definition close_position_in_paper (position : StrategyPosition) : M B R unit :=
  now ← gets w_now;
  exit_side ← from_result (opposite_side (p_side position));
  oid ← fresh;
  save_position (killed_row position now exit_side (String.append "PAPER-KILL-SWITCH-" (z_str oid)) COMPLETE true).

Definition close_position_via_broker (k : BrokerCredentials) (position : StrategyPosition) : M B R unit :=
  exit_side ← from_result (opposite_side (p_side position));
  let order := kill_order position exit_side in
  raise_when (negb (order_request_ok order)) ValidationError ;;
  response ← send_order k order;
  now ← gets w_now;
  save_position (killed_row position now exit_side (r_broker_order_id response) (r_status response) false).

(** Every row of a paper group; the count of closes. *)
Fixpoint close_all_in_paper (group : list StrategyPosition) : M B R Z :=
  match group with
  | [] => mret 0
  | p :: group' =>
      close_position_in_paper p ;;
      n ← close_all_in_paper group';
      mret (1 + n)
  end.

(** Every row of a live group; a failed close is recorded and skipped. *)
Fixpoint close_all_via_broker (k : BrokerCredentials) (group : list StrategyPosition)
  : M B R (Z * list close_error) :=
  match group with
  | [] => mret (0, [])
  | p :: group' =>
      outcome ← attempt (close_position_via_broker k p);
      '(n, errs) ← close_all_via_broker k group';
      match outcome with
      | Ok _ => mret (1 + n, errs)
      | Err e => mret (n, CloseFailed (p_symbol p) e :: errs)
      end
  end.

(** A broker object with a valid session. *)
Definition open_session (row : BrokerCredential) (user_id : uuid) : M B R BrokerCredentials :=
  k ← from_result (build_broker_credentials row user_id);
  ensure_session k ;;
  mret k.

(** One credential of a live square-off. *)
Definition run_one (user_id : uuid) (bucket : uuid * list StrategyPosition) : M B R KillSwitchActionLog :=
  let '(cred_id, group) := bucket in
  creds ← gets w_credentials;
  match find_credential creds cred_id with
  | None => mret {| al_broker_credential_id := cred_id; al_broker_name := None; positions_squared_off := 0;
                    al_errors := [CredentialMissing cred_id] |}
  | Some row =>
      session ← attempt (open_session row user_id);
      match session with
      | Err e => mret {| al_broker_credential_id := cred_id; al_broker_name := Some (c_broker_name row);
                         positions_squared_off := 0; al_errors := [SessionFailed cred_id e] |}
      | Ok k =>
          '(closed, errs) ← close_all_via_broker k group;
          mret {| al_broker_credential_id := cred_id; al_broker_name := Some (c_broker_name row);
                  positions_squared_off := closed; al_errors := errs |}
      end
  end.

Fixpoint run_live (user_id : uuid) (buckets : list (uuid * list StrategyPosition)) : M B R (list KillSwitchActionLog) :=
  match buckets with
  | [] => mret []
  | b :: rest =>
      log ← run_one user_id b;
      logs ← run_live user_id rest;
      mret (log :: logs)
  end.

Fixpoint run_paper (buckets : list (uuid * list StrategyPosition)) : M B R (list KillSwitchActionLog) :=
  match buckets with
  | [] => mret []
  | (cred_id, group) :: rest =>
      creds ← gets w_credentials;
      n ← close_all_in_paper group;
      logs ← run_paper rest;
      mret ({| al_broker_credential_id := cred_id;
               al_broker_name := option_map c_broker_name (find_credential creds cred_id);
               positions_squared_off := n; al_errors := [] |} :: logs)
  end.

Definition has_errors (log : KillSwitchActionLog) : bool := match al_errors log with [] => false | _ => true end.

Definition execute_emergency_square_off (user_id : uuid)
  : M B R (list KillSwitchActionLog * list (list close_error)) :=
  positions ← gets (fun w => List.filter (of_user user_id) (w_positions w));
  strategies ← gets w_strategies;
  let paper p := resolve_paper_mode settings (find_strategy strategies (p_strategy_id p)) in
  paper_results ← run_paper (by_credential (List.filter paper positions));
  results ← run_live user_id (by_credential (List.filter (fun p => negb (paper p)) positions));
  mret (paper_results ++ results, map al_errors (List.filter has_errors results)).

(** ** Configuration and read paths *)

(** Redis first, then the database; the JSON round trip gives the row back. *)
Definition get_config (user_id : uuid) : M B R (option KillSwitchConfig) :=
  hit ← cache_get_json (config_cache_key user_id);
  match hit with
  | Some (CachedConfig c) => mret (Some c)
  | Some _ => raise KeyError
  | None =>
      row ← gets (fun w => List.find (fun c => kc_user_id c =? user_id) (pf_configs (w_platform w)));
      match row with
      | None => mret None
      | Some c => cache_set_json (config_cache_key user_id) (CachedConfig c) CONFIG_CACHE_TTL ;; mret (Some c)
      end
  end.

Definition audit (user_id : option uuid) (actor : ActorType) (action : string) : M B R unit :=
  on_platform (fun f => f <| pf_audit ::= fun l =>
                               l ++ [{| au_user_id := user_id; au_actor := actor; au_action := action;
                                        au_resource_type := Some "kill_switch"%string;
                                        au_resource_id := option_map z_str user_id |}] |>).

Definition put_config (c : KillSwitchConfig) (rows : list KillSwitchConfig) : list KillSwitchConfig :=
  if existsb (fun r => kc_user_id r =? kc_user_id c) rows
  then map (fun r => if kc_user_id r =? kc_user_id c then c else r) rows
  else rows ++ [c].

Definition update_config (user_id : uuid) (config : KillSwitchConfigCreate) : M B R KillSwitchConfig :=
  now ← gets w_now;
  let row := {| kc_user_id := user_id; max_daily_loss_inr := cc_max_daily_loss_inr config;
                max_daily_trades := cc_max_daily_trades config; enabled := cc_enabled config;
                auto_square_off := cc_auto_square_off config; kc_updated_at := now |} in
  on_platform (fun f => f <| pf_configs ::= put_config row |>) ;;
  cache_delete (config_cache_key user_id) ;;
  audit (Some user_id) ActorSystem "kill_switch.config_updated" ;;
  mret row.

Definition max_loss_of (config : option KillSwitchConfig) : dec := from_option max_daily_loss_inr dzero config.
Definition max_trades_of (config : option KillSwitchConfig) : Z := from_option max_daily_trades 0 config.
Definition enabled_of (config : option KillSwitchConfig) : bool := from_option enabled false config.

(** [max(d, Decimal("0"))]: the first argument unless the second is larger. *)
Definition dmax0 (d : dec) : dec := if dltb d dzero then dzero else d.

Definition get_status (user_id : uuid) : M B R KillSwitchStatus :=
  config ← get_config user_id;
  daily_pnl ← calculate_daily_pnl user_id;
  trades_today ← get_daily_trades user_id;
  state ← get_kill_switch_status user_id;
  meta ← cache_get_json (trip_meta_key user_id);
  let trip := match meta with Some (CachedTrip at_ reason _) => Some (at_, reason) | _ => None end in
  mret {| ks_state := state; ks_daily_pnl := daily_pnl; ks_max_daily_loss_inr := max_loss_of config;
          ks_remaining_loss_budget := dmax0 (dadd (max_loss_of config) daily_pnl); ks_trades_today := trades_today;
          ks_max_daily_trades := max_trades_of config;
          ks_remaining_trades := Z.max (max_trades_of config - trades_today) 0; ks_enabled := enabled_of config;
          ks_tripped_at := option_map fst trip; ks_trip_reason := option_map snd trip |}.

Record KillSwitchDailySummary : Type := {
  kd_trades_today : Z;
  kd_daily_pnl : dec;
  kd_realized_pnl : dec;
  kd_unrealized_pnl : dec;
  kd_remaining_loss_budget : dec;
  kd_remaining_trades : Z
}.

Definition get_daily_summary (user_id : uuid) : M B R KillSwitchDailySummary :=
  config ← get_config user_id;
  realized ← get_daily_pnl user_id;
  unrealized ← calculate_unrealized_pnl user_id;
  let total := dadd realized unrealized in
  trades ← get_daily_trades user_id;
  mret {| kd_trades_today := trades; kd_daily_pnl := total; kd_realized_pnl := realized;
          kd_unrealized_pnl := unrealized;
          kd_remaining_loss_budget := dmax0 (dadd (max_loss_of config) total);
          kd_remaining_trades := Z.max (max_trades_of config - trades) 0 |}.

(** (within the cap, trades today, the cap). *)
Definition check_max_daily_trades (user_id : uuid) : M B R (bool * Z * Z) :=
  config ← get_config user_id;
  match config with
  | Some c =>
      if enabled c then
        trades ← get_daily_trades user_id;
        mret (trades <? max_daily_trades c, trades, max_daily_trades c)
      else mret (true, 0, 0)
  | None => mret (true, 0, 0)
  end.

Definition test_trip (user_id : uuid) : M B R KillSwitchTestResult :=
  config ← get_config user_id;
  daily_pnl ← calculate_daily_pnl user_id;
  trades ← get_daily_trades user_id;
  let reason := evaluate_breach daily_pnl (max_loss_of config) trades (max_trades_of config) in
  mret {| kt_would_trigger := negb (absent reason) && enabled_of config; kt_reason := reason;
          kt_daily_pnl := daily_pnl; kt_max_daily_loss_inr := max_loss_of config |}.

(** ** Check and trigger *)

(** The reason to fire, if any: the caller's, or a breach of an enabled config. *)
Definition trip_reason (user_id : uuid) (force_reason : option TripReason) (config : option KillSwitchConfig)
    (daily_pnl : dec) : M B R (option TripReason) :=
  match force_reason, config with
  | Some r, _ => mret (Some r)
  | None, Some c =>
      if enabled c then
        trades ← get_daily_trades user_id;
        mret (evaluate_breach daily_pnl (max_daily_loss_inr c) trades (max_daily_trades c))
      else mret None
  | None, None => mret None
  end.

(** The bookkeeping of a trip: the event, its metadata, the audit row, the alert. *)
Definition record_trip (user_id : uuid) (daily_pnl : dec) (reason : TripReason) (actions : list KillSwitchActionLog)
    (errors : list (list close_error)) : M B R KillSwitchResult :=
  eid ← fresh;
  now ← gets w_now;
  on_platform (fun f => f <| pf_events ::= fun l =>
    l ++ [{| e_id := eid; e_user_id := user_id; triggered_at := now; e_reason := reason;
             daily_pnl_at_trigger := daily_pnl; e_actions := actions; reset_at := None; reset_by := None |}] |>) ;;
  cache_set_json (trip_meta_key user_id) (CachedTrip now reason eid) TRIP_META_TTL ;;
  audit (Some user_id) ActorSystem "kill_switch.triggered" ;;
  send_alert {| a_level := CRITICAL; a_event := "kill_switch"; a_symbol := ""; a_qty := Z.of_nat (length actions);
                a_remaining := Z.of_nat (length errors); a_price := None; a_pnl := Some daily_pnl; a_legs := [] |} ;;
  mret {| kr_triggered := true; kr_reason := Some reason; kr_daily_pnl := daily_pnl; kr_event_id := Some eid;
          kr_actions := actions; kr_errors := errors |}.

Definition check_and_trigger (user_id : uuid) (force_reason : option TripReason) : M B R KillSwitchResult :=
  config ← get_config user_id;
  daily_pnl ← calculate_daily_pnl user_id;
  reason ← trip_reason user_id force_reason config daily_pnl;
  match reason with
  | None => mret {| kr_triggered := false; kr_reason := None; kr_daily_pnl := daily_pnl; kr_event_id := None;
                    kr_actions := []; kr_errors := [] |}
  | Some r =>
      set_kill_switch_status user_id TRIPPED ;;
      '(actions, errors) ← (if opt_is (fun c => negb (auto_square_off c)) config then mret ([], [])
                            else execute_emergency_square_off user_id);
      record_trip user_id daily_pnl r actions errors
  end.

(** ** Manual reset *)

Definition create_reset_token (user_id : uuid) (token : string) : M B R string :=
  modify (fun w => w <| w_redis ::= redis_put (reset_token_key user_id) token (w_now w + RESET_TOKEN_TTL) |>) ;;
  mret token.

Definition delete_key (key : string) : M B R unit := modify (fun w => w <| w_redis ::= redis_delete key |>).

Definition open_event (user_id : uuid) (e : KillSwitchEvent) : bool := (e_user_id e =? user_id) && absent (reset_at e).

Definition put_event (e : KillSwitchEvent) (rows : list KillSwitchEvent) : list KillSwitchEvent :=
  map (fun q => if e_id q =? e_id e then e else q) rows.

(** Spend the token, lower the flag, zero the day's counters, drop the trip
    metadata. *)
Definition clear_day_state (user_id : uuid) : M B R unit :=
  delete_key (reset_token_key user_id) ;;
  clear_kill_switch user_id ;;
  set_daily_pnl user_id dzero ;;
  delete_key (trades_key user_id) ;;
  cache_delete (z_str user_id) ;;
  delete_key (trip_meta_key user_id).

(** Stamp the latest event of the user that is not reset yet. *)
Definition stamp_reset (user_id reset_by_user : uuid) : M B R (option KillSwitchEvent) :=
  row ← gets (fun w => latest_by triggered_at (List.filter (open_event user_id) (pf_events (w_platform w))));
  now ← gets w_now;
  match row with
  | Some e =>
      let e := e <| reset_at := Some now |> <| reset_by := Some reset_by_user |> in
      on_platform (fun f => f <| pf_events ::= put_event e |>) ;;
      mret (Some e)
  | None => mret None
  end.

Definition manual_reset (user_id reset_by_user : uuid) (confirmation_token : string)
  : M B R (option KillSwitchEvent) :=
  expected ← gets (fun w => redis_get (reset_token_key user_id) (w_now w) (w_redis w));
  raise_when (negb (opt_is (fun t => negb (String.eqb t "")) expected)) PermissionError ;;
  raise_when (negb (bool_decide (expected = Some confirmation_token))) PermissionError ;;
  clear_day_state user_id ;;
  row ← stamp_reset user_id reset_by_user;
  audit (Some user_id) (if reset_by_user =? user_id then ActorUser else ActorAdmin) "kill_switch.reset" ;;
  mret row.

(** ** Scheduled jobs *)

Definition daily_reset_all : M B R unit :=
  modify (fun w => w <| w_redis ::= fun r =>
    redis_scan_delete "kill_meta:" (redis_scan_delete "kill:"
      (redis_scan_delete "daily_trades:" (redis_scan_delete "pnl:" r))) |>) ;;
  audit None ActorSystem "kill_switch.daily_reset".

Fixpoint square_off_users (users : list uuid) : M B R (list uuid) :=
  match users with
  | [] => mret []
  | u :: users' =>
      outcome ← attempt (check_and_trigger u (Some AUTO_SQUARE_OFF));
      touched ← square_off_users users';
      mret (match outcome with Ok _ => u :: touched | Err _ => touched end)
  end.

Definition auto_square_off_intraday : M B R (list uuid) :=
  rows ← gets (fun w => List.filter (fun c => auto_square_off c && enabled c) (pf_configs (w_platform w)));
  square_off_users (map kc_user_id rows).

(** ** Tier 1: one subscriber *)

Definition own_active (user_id : uuid) (c : BrokerCredential) : bool := (c_user_id c =? user_id) && c_is_active c.

Definition resolve_subscriber_credential_id (subscriber_id : uuid) (explicit : option uuid) : M B R (option uuid) :=
  creds ← gets w_credentials;
  let chosen := cid ← explicit; row ← find_credential creds cid;
                if own_active subscriber_id row then Some cid else None in
  let fallback := latest_by c_created_at (List.filter (own_active subscriber_id) creds) in
  mret (match chosen with Some cid => Some cid | None => option_map c_id fallback end).

Definition live_kill_status (closed total : Z) : kill_status :=
  if closed =? total then ks_killed else if closed =? 0 then ks_failed else ks_partial.

(** The live rows of a subscription, on the resolved credential. *)
Definition close_for_subscriber (subscriber_id : uuid) (positions : list StrategyPosition) (resolved : option uuid)
  : M B R (Z * list close_error) :=
  match resolved with
  | None => mret (0, [NoCredential])
  | Some cid =>
      creds ← gets w_credentials;
      session ← attempt (match find_credential creds cid with
                         | Some row => open_session row subscriber_id
                         | None => raise AttributeError
                         end);
      match session with
      | Err e => mret (0, [SessionFailed cid e])
      | Ok k => close_all_via_broker k positions
      end
  end.

Definition kill_subscriber_live (sub : MarketplaceSubscription) (positions : list StrategyPosition)
    (resolved : option uuid) : M B R SubscriberKill :=
  '(closed, errs) ← close_for_subscriber (m_subscriber_id sub) positions resolved;
  mret {| sk_status := live_kill_status closed (Z.of_nat (length positions)); sk_subscription_id := m_id sub;
          sk_closed := closed; sk_resolved_credential_id := resolved; sk_errors := errs |}.

Definition sub_result (st : kill_status) (id : uuid) (closed : Z) (resolved : option uuid) : SubscriberKill :=
  {| sk_status := st; sk_subscription_id := id; sk_closed := closed; sk_resolved_credential_id := resolved;
     sk_errors := [] |}.

Definition kill_subscriber (subscription_id : uuid) : M B R SubscriberKill :=
  if negb (marketplace_fanout_enabled settings) then mret (sub_result ks_dormant subscription_id 0 None)
  else
    sub_row ← gets (fun w => List.find (fun m => m_id m =? subscription_id) (pf_subscriptions (w_platform w)));
    match sub_row with
    | None => mret (sub_result ks_not_found subscription_id 0 None)
    | Some sub =>
        positions ← gets (fun w => List.filter (of_subscription subscription_id) (w_positions w));
        match positions with
        | [] => mret (sub_result ks_already_flat subscription_id 0 None)
        | _ =>
            resolved ← resolve_subscriber_credential_id (m_subscriber_id sub) (m_broker_credential_id sub);
            if m_is_paper sub then
              closed ← close_all_in_paper positions;
              mret (sub_result ks_killed subscription_id closed resolved)
            else kill_subscriber_live sub positions resolved
        end
    end.

(** ** Tier 2: one strategy *)

Definition failed_kill (id : uuid) (e : exn) : SubscriberKill :=
  {| sk_status := ks_failed; sk_subscription_id := id; sk_closed := 0; sk_resolved_credential_id := None;
     sk_errors := [CloseFailed "" e] |}.

Fixpoint cascade (sub_ids : list uuid) : M B R (list SubscriberKill) :=
  match sub_ids with
  | [] => mret []
  | id :: rest =>
      outcome ← attempt (kill_subscriber id);
      results ← cascade rest;
      mret (match outcome with Ok r => r | Err e => failed_kill id e end :: results)
  end.

(** The owner's rows of the strategy, in paper or through the broker. *)
Definition close_owner (strategy : Strategy) (positions : list StrategyPosition) : M B R (Z * list close_error) :=
  if resolve_paper_mode settings (Some strategy) then
    n ← close_all_in_paper positions;
    mret (n, [])
  else
    logs ← run_live (s_user_id strategy) (by_credential positions);
    mret (sum_by positions_squared_off logs, concat (map al_errors logs)).

(** Active subscriptions to a listing of the strategy (a join: one row per
    matching listing). *)
Definition active_subscriptions (strategy_id : uuid) (f : platform) : list uuid :=
  concat (map (fun m =>
    map (fun _ => m_id m)
      (List.filter (fun l => (li_id l =? m_listing_id m) && (li_strategy_id l =? strategy_id)) (pf_listings f)))
    (List.filter (fun m => bool_decide (m_status m = sub_active)) (pf_subscriptions f))).

Definition kill_strategy (strategy_id : uuid) : M B R StrategyKill :=
  let none st := {| tk_status := st; tk_owner_closed := 0; tk_owner_errors := []; tk_subscribers := [] |} in
  if negb (marketplace_fanout_enabled settings) then mret (none ks_dormant)
  else
    strat ← gets (fun w => find_strategy (w_strategies w) strategy_id);
    match strat with
    | None => mret (none ks_not_found)
    | Some strategy =>
        owner_positions ← gets (fun w => List.filter (of_strategy_owner strategy_id) (w_positions w));
        '(owner_closed, owner_errors) ← close_owner strategy owner_positions;
        sub_ids ← gets (fun w => active_subscriptions strategy_id (w_platform w));
        results ← cascade sub_ids;
        mret {| tk_status := ks_killed; tk_owner_closed := owner_closed; tk_owner_errors := owner_errors;
                tk_subscribers := results |}
    end.

(** ** Tier 3: the platform *)

(** What [master_emergency_halt] plans: the rows to close (id, owner row or not,
    quantity), and per subscriber the [subscription_id] attribute, which a
    subscription row does not have, with the mode it leaves. *)
Record HaltPlan : Type := {
  hp_positions_to_close : list (uuid * bool * Z);
  hp_forced_manual : list (string * string)
}.

Definition master_emergency_halt (positions : list StrategyPosition) (subscribers : list MarketplaceSubscription)
  : M B R HaltPlan :=
  on_platform (fun f => f <| pf_halted := true |>) ;;
  mret {| hp_positions_to_close := map (fun p => (p_id p, owner_row p, remaining_quantity p))
                                     (List.filter is_open positions);
          hp_forced_manual := map (fun m => (""%string, if String.eqb (m_execution_mode m) "" then "auto"%string
                                                  else m_execution_mode m)) subscribers |}.

Fixpoint distinct (ids : list uuid) : list uuid :=
  match ids with
  | [] => []
  | i :: ids' => i :: List.filter (fun j => negb (j =? i)) (distinct ids')
  end.

Fixpoint kill_strategies (ids : list uuid) : M B R Z :=
  match ids with
  | [] => mret 0
  | id :: rest =>
      r ← kill_strategy id;
      n ← kill_strategies rest;
      mret (tk_owner_closed r + sum_by sk_closed (tk_subscribers r) + n)
  end.

Inductive MasterResult : Type :=
| MasterDormant (halted : bool)
| MasterHalted (closed forced_manual : Z) (plan : HaltPlan).

Definition is_active_sub (m : MarketplaceSubscription) : bool := bool_decide (m_status m = sub_active).

Definition execute_master_emergency : M B R MasterResult :=
  if negb (marketplace_fanout_enabled settings) then
    halted ← gets (fun w => pf_halted (w_platform w));
    mret (MasterDormant halted)
  else
    positions ← gets (fun w => List.filter killable (w_positions w));
    active_subs ← gets (fun w => List.filter is_active_sub (pf_subscriptions (w_platform w)));
    plan ← master_emergency_halt positions active_subs;
    closed ← kill_strategies (distinct (map p_strategy_id positions));
    forced ← gets (fun w => Z.of_nat (length (List.filter is_active_sub (pf_subscriptions (w_platform w)))));
    on_platform (fun f => f <| pf_subscriptions ::= map (fun m =>
      if is_active_sub m then m <| m_execution_mode := "offline"%string |> else m) |>) ;;
    mret (MasterHalted closed forced plan).
End KillSwitch.
