(* ===== verification/KillSafety.v ===== *)
(** * What the kill switch guarantees

    Theorems about the operations of [KillSwitch.v]: which rows and which broker
    accounts a square-off can touch, that it closes or reports every row it is
    responsible for, that the trip flag is set before anything is sent and holds
    until a reset, that a reset needs a fresh token and spends it, and that
    every kill keeps the book invariant and refines the ledger. *)

From Stdlib Require Import ZArith Lia List Bool String.
From stdpp Require Import base list strings gmap relations sorting.
From S2P Require Import Prelude PyText PyFloat PyDecimal PyNum Records Enums Models Safeguards Book Ledger Samples DayState.
From S2P Require Import StrategyExecutor DirectExit KillSwitch.

(** ** Closed rows *)

(** The row was emptied by the kill switch. *)
Definition flattened (p p' : StrategyPosition) : Prop :=
  after_exit p p' (remaining_quantity p) /\ exit_reason p' = Some "kill_switch"%string /\ closed_at p' <> None.

(** One row of the table before and after: emptied if it is among [closed], else
    untouched. *)
Definition swept (closed : list StrategyPosition) (p p' : StrategyPosition) : Prop :=
  (In p closed /\ flattened p p') \/ (~ In p closed /\ p' = p).

Lemma killed_row_flattened p now side oid st paper : flattened p (killed_row p now side oid st paper).
Proof.
  split; [|done]. split; [by destruct p|]. split; [by destruct p|]. destruct p; simpl_rec. split; [lia | done].
Qed.

Lemma flattened_not_killable p p' : flattened p p' -> killable p' = false.
Proof.
  intros [(_ & _ & Hr & _) _]. unfold killable. replace (remaining_quantity p') with 0 by lia. apply andb_false_r.
Qed.

Lemma killable_remaining p : killable p = true -> 0 < remaining_quantity p /\ is_open p = true.
Proof. unfold killable. intros. by bool_to_prop. Qed.

Lemma side_ok_opposite p : pos_inv p -> exists s, opposite_side (p_side p) = Ok s.
Proof.
  intros Hp. pose proof (inv_side _ Hp) as Hs. unfold side_ok, OrderSide_of in Hs.
  destruct (String.eqb_spec (p_side p) "buy") as [->|]; [by exists SELL|].
  destruct (String.eqb_spec (p_side p) "sell") as [->|]; [by exists BUY | done].
Qed.

(** The order a live close of the row sends. *)
Definition exit_side_of (p : StrategyPosition) : OrderSide :=
  match opposite_side (p_side p) with Ok s => s | Err _ => BUY end.

Definition sent_order (kp : BrokerCredentials * StrategyPosition) : BrokerCredentials * OrderRequest :=
  (kp.1, kill_order kp.2 (exit_side_of kp.2)).

Lemma submseteq_In {A : Type} (l k : list A) x : l ⊆+ k -> In x l -> In x k.
Proof. rewrite <- !list_elem_of_In. intros Hs Hx. by eapply elem_of_submseteq. Qed.

Lemma submseteq_NoDup_ids (l k : list StrategyPosition) : l ⊆+ k -> NoDup (map p_id k) -> NoDup (map p_id l).
Proof.
  intros [m Hp]%submseteq_Permutation Hnd. apply (fmap_Permutation p_id) in Hp.
  change (map p_id k ≡ₚ map p_id (l ++ m)) in Hp. rewrite Hp, map_app in Hnd. by apply NoDup_app in Hnd as [? _].
Qed.

Lemma Forall2_In_l {A C : Type} (P : A -> C -> Prop) l k x :
  Forall2 P l k -> In x l -> exists y, In y k /\ P x y.
Proof.
  induction 1 as [|a c l k Hp _ IH]; simpl; [done|]. intros [<- | Hin]; [by eauto|].
  destruct (IH Hin) as (y & ? & ?). eauto.
Qed.

Lemma Forall2_In_r {A C : Type} (P : A -> C -> Prop) l k y :
  Forall2 P l k -> In y k -> exists x, In x l /\ P x y.
Proof.
  induction 1 as [|a c l k Hp _ IH]; simpl; [done|]. intros [<- | Hin]; [by eauto|].
  destruct (IH Hin) as (x & ? & ?). eauto.
Qed.

Section Sweeps.
Context {B R : Type}.
Implicit Types (w : world B R) (g : list StrategyPosition).

(** Everything a sweep leaves alone. *)
Record kframe w w' : Prop := {
  kf_executions : w_executions w' = w_executions w;
  kf_credentials : w_credentials w' = w_credentials w;
  kf_strategies : w_strategies w' = w_strategies w;
  kf_platform : w_platform w' = w_platform w;
  kf_redis : w_redis w' = w_redis w;
  kf_now : w_now w' = w_now w;
  kf_next : w_next_id w <= w_next_id w'
}.

#[global] Instance kframe_preorder : PreOrder kframe.
Proof. split; [by split|]. intros u v w [] []. split; try (etransitivity; eauto; done). Qed.

Lemma quiet_kframe w w' : quiet w w' -> kframe w w'.
Proof. by intros []. Qed.

(** A run over the rows [g]: orders went out for [sent], the rows [closed] were
    emptied, nothing else changed. *)
Record sweep g w w' (sent : list (BrokerCredentials * StrategyPosition)) (closed : list StrategyPosition) : Prop := {
  sw_sent : map snd sent ⊆+ g;
  sw_closed : closed ⊆+ g;
  sw_rows : Forall2 (swept closed) (w_positions w) (w_positions w');
  sw_orders : w_orders w' = w_orders w ++ map sent_order sent;
  sw_frame : kframe w w';
  sw_ledger : rtc ledger_step (exposure (w_positions w)) (exposure (w_positions w'))
}.

(** The rows of [g] are rows of the table the kill is responsible for. *)
Definition targets w g : Prop :=
  Forall (fun p => In p (w_positions w) /\ killable p = true) g /\ NoDup (map p_id g).

(** Orders may have gone out, no row changed. *)
Lemma sweep_idle g w w' sent :
  map snd sent ⊆+ g -> w_positions w' = w_positions w ->
  w_orders w' = w_orders w ++ map sent_order sent -> kframe w w' -> sweep g w w' sent [].
Proof.
  intros Hsub Hpos Hord Hfr. split; auto; try apply submseteq_nil_l; rewrite Hpos; [|done].
  apply Forall_Forall2_diag, List.Forall_forall. intros p _. right. by split; [intros []|].
Qed.

Lemma sweep_none g w w' : quiet w w' -> sweep g w w' [] [].
Proof.
  intros Hq. apply sweep_idle; [apply submseteq_nil_l | apply Hq | by rewrite (qt_orders _ _ Hq), app_nil_r|].
  by apply quiet_kframe.
Qed.

(** Replacing one row, seen row by row. *)
Lemma put_row_swept p p' rows :
  NoDup (map p_id rows) -> In p rows -> p_id p' = p_id p -> flattened p p' ->
  Forall2 (swept [p]) rows (put_row p' rows).
Proof.
  intros Hnd Hin Hid Hf. unfold put_row. apply Forall2_fmap_r, Forall_Forall2_diag, List.Forall_forall.
  intros q Hq. simpl. rewrite Hid. destruct (Z.eqb_spec (p_id q) (p_id p)) as [E|E].
  - rewrite (in_ids_inj rows q p Hnd Hq Hin E). left. split; [by left | done].
  - right. split; [|done]. intros [<- | []]. done.
Qed.

Lemma sweep_one w w' p p' sent :
  book_inv w -> In p (w_positions w) -> flattened p p' -> map snd sent ⊆+ [p] ->
  w_positions w' = put_row p' (w_positions w) -> w_orders w' = w_orders w ++ map sent_order sent -> kframe w w' ->
  sweep [p] w w' sent [p].
Proof.
  intros Hb Hin Hf Hsub Hpos Hord Hfr. assert (Hid : p_id p' = p_id p) by (symmetry; apply Hf).
  pose proof (book_rows _ Hb) as Hall. rewrite List.Forall_forall in Hall.
  split; auto; rewrite Hpos.
  - apply put_row_swept; auto. apply Hb.
  - apply (exposure_leave _ p); auto; [apply Hb|]. destruct Hf as [(_ & _ & -> & _) _].
    pose proof (inv_bounds _ (Hall p Hin)). lia.
Qed.

Lemma swept_same_ids closed rows rows' : Forall2 (swept closed) rows rows' -> map p_id rows' = map p_id rows.
Proof.
  induction 1 as [|p p' rows rows' Hs _ IH]; simpl; [done|]. rewrite IH. f_equal.
  destruct Hs as [(_ & Hf) | (_ & ->)]; [|done]. symmetry. apply Hf.
Qed.

(** A sweep keeps the table well formed. *)
Lemma sweep_book g w w' sent closed :
  book_inv w -> targets w g -> sweep g w w' sent closed -> book_inv w'.
Proof.
  intros Hb [Hg _] Hsw. pose proof (sw_rows _ _ _ _ _ Hsw) as Hrows. pose proof (kf_next _ _ (sw_frame _ _ _ _ _ Hsw)).
  assert (Hids := swept_same_ids _ _ _ Hrows). destruct Hb as [Hnd Hfr Hinv]. split.
  - by rewrite Hids.
  - rewrite List.Forall_forall in *. intros p' Hp'. destruct (Forall2_In_r _ _ _ _ Hrows Hp') as (p & Hp & Hs).
    specialize (Hfr p Hp). simpl in *. destruct Hs as [(_ & Hf) | (_ & ->)]; [|lia].
    rewrite <- (same_id _ _ (proj1 (proj1 Hf))). lia.
  - rewrite List.Forall_forall in *. intros p' Hp'. destruct (Forall2_In_r _ _ _ _ Hrows Hp') as (p & Hp & Hs).
    destruct Hs as [(Hc & Hf) | (_ & ->)]; [|auto]. apply (after_exit_inv p p' (remaining_quantity p)); [auto | | apply Hf].
    destruct (Hg p) as [_ Hk]; [eapply submseteq_In; [apply (sw_closed _ _ _ _ _ Hsw) | done]|]. apply killable_remaining in Hk. lia.
Qed.

Lemma sweep_one_open g w w' sent closed :
  one_open (w_positions w) -> sweep g w w' sent closed -> one_open (w_positions w').
Proof.
  intros Hone Hsw. pose proof (sw_rows _ _ _ _ _ Hsw) as Hrows.
  assert (Hback : forall q, In q (w_positions w') -> is_open q = true -> In q (w_positions w)).
  { intros q Hq Ho. destruct (Forall2_In_r _ _ _ _ Hrows Hq) as (p & Hp & [(_ & Hf) | (_ & ->)]); [|done].
    destruct Hf as [(_ & _ & Hr & Hst) _]. unfold is_open in Ho. rewrite Hst in Ho.
    by replace (remaining_quantity q) with 0 in Ho by lia. }
  intros a b Ha Hbb Hoa Hob Hr. apply Hone; auto.
Qed.

Lemma swept_trans c1 c2 x y z :
  Forall (fun p => killable p = true) c2 -> swept c1 x y -> swept c2 y z -> swept (c1 ++ c2) x z.
Proof.
  intros Hk Hxy Hyz. rewrite List.Forall_forall in Hk. unfold swept. rewrite in_app_iff.
  destruct Hxy as [(Hx & Hf) | (Hx & ->)], Hyz as [(Hy & Hg) | (Hy & ->)]; auto.
  - specialize (Hk y Hy). by rewrite (flattened_not_killable _ _ Hf) in Hk.
  - right. by split; [intros [|]|].
Qed.

Lemma targets_app w g1 g2 :
  targets w (g1 ++ g2) -> targets w g1 /\ targets w g2 /\ forall p, In p g1 -> ~ In p g2.
Proof.
  intros [Hall Hnd]. apply Forall_app in Hall as [H1 H2]. rewrite map_app in Hnd.
  apply NoDup_app in Hnd as (Hn1 & Hn & Hn2). split; [by split|]. split; [by split|].
  intros p Hp Hq. apply (Hn (p_id p)); apply list_elem_of_In; by apply in_map.
Qed.

(** Rows a sweep did not close are still there for the next one. *)
Lemma targets_after g1 g2 w w1 sent closed :
  targets w (g1 ++ g2) -> sweep g1 w w1 sent closed -> targets w1 g2.
Proof.
  intros Ht Hsw. destruct (targets_app _ _ _ Ht) as (_ & [Hall Hnd] & Hdis). split; [|done].
  rewrite List.Forall_forall in *. intros p Hp. destruct (Hall p Hp) as [Hin Hk]. split; [|done].
  destruct (Forall2_In_l _ _ _ _ (sw_rows _ _ _ _ _ Hsw) Hin) as (p' & Hin' & [(Hc & _) | (_ & ->)]); [|done].
  destruct (Hdis p); [|done]. eapply submseteq_In; [apply (sw_closed _ _ _ _ _ Hsw) | done].
Qed.

Lemma sweep_app g1 g2 w w1 w2 s1 c1 s2 c2 :
  targets w (g1 ++ g2) -> sweep g1 w w1 s1 c1 -> sweep g2 w1 w2 s2 c2 ->
  sweep (g1 ++ g2) w w2 (s1 ++ s2) (c1 ++ c2).
Proof.
  intros Ht Hs1 Hs2. destruct (targets_app _ _ _ Ht) as (_ & [Hg2 _] & _). split.
  - rewrite map_app. apply submseteq_app; [apply Hs1 | apply Hs2].
  - apply submseteq_app; [apply Hs1 | apply Hs2].
  - eapply Forall2_trans; [|apply Hs1 | apply Hs2]. intros x y z. apply swept_trans.
    rewrite List.Forall_forall in *. intros p Hp. apply Hg2. eapply submseteq_In; [apply (sw_closed _ _ _ _ _ Hs2) | done].
  - by rewrite (sw_orders _ _ _ _ _ Hs2), (sw_orders _ _ _ _ _ Hs1), map_app, app_assoc.
  - etransitivity; [apply Hs1 | apply Hs2].
  - etransitivity; [apply Hs1 | apply Hs2].
Qed.

(** ** Closing a list of rows: each is closed or has an error that excuses it *)

Definition closing (ok : BrokerCredentials -> StrategyPosition -> Prop) (excuse : close_error -> StrategyPosition -> Prop)
    g w w' (n : Z) (errs : list close_error) : Prop :=
  exists sent closed,
    sweep g w w' sent closed /\ n = Z.of_nat (length closed)
    /\ Forall (fun kp => ok kp.1 kp.2) sent
    /\ forall p, In p g -> In p closed \/ exists e, In e errs /\ excuse e p.

Lemma closing_app ok excuse g1 g2 w w1 w2 n1 n2 e1 e2 :
  targets w (g1 ++ g2) -> closing ok excuse g1 w w1 n1 e1 -> closing ok excuse g2 w1 w2 n2 e2 ->
  closing ok excuse (g1 ++ g2) w w2 (n1 + n2) (e1 ++ e2).
Proof.
  intros Ht (s1 & c1 & Hs1 & -> & Ho1 & Hx1) (s2 & c2 & Hs2 & -> & Ho2 & Hx2).
  exists (s1 ++ s2), (c1 ++ c2). split; [by apply (sweep_app _ _ _ w1)|]. split; [rewrite length_app; lia|].
  split; [by apply Forall_app|]. intros p. rewrite !in_app_iff. setoid_rewrite in_app_iff.
  intros [Hp | Hp]; [destruct (Hx1 p Hp) as [|(e & ? & ?)] | destruct (Hx2 p Hp) as [|(e & ? & ?)]]; eauto 6.
Qed.

Lemma closing_nil ok excuse w w' : quiet w w' -> closing ok excuse [] w w' 0 [].
Proof. intros Hq. exists [], []. split; [by apply sweep_none|]. by repeat split. Qed.

(** Nothing was closed, and one error excuses all rows. *)
Lemma closing_failed ok excuse g w w' e :
  quiet w w' -> (forall p, In p g -> excuse e p) -> closing ok excuse g w w' 0 [e].
Proof.
  intros Hq He. exists [], []. split; [by apply sweep_none|]. split; [done|]. split; [done|].
  intros p Hp. right. exists e. split; [by left | auto].
Qed.

Lemma closing_weaken (ok ok' : BrokerCredentials -> StrategyPosition -> Prop)
    (excuse excuse' : close_error -> StrategyPosition -> Prop) g w w' n errs :
  (forall k p, In p g -> ok k p -> ok' k p) -> (forall e p, In p g -> excuse e p -> excuse' e p) ->
  closing ok excuse g w w' n errs -> closing ok' excuse' g w w' n errs.
Proof.
  intros Hok Hex (sent & closed & Hsw & -> & Ho & Hx). exists sent, closed. split; [done|]. split; [done|]. split.
  - rewrite List.Forall_forall in *. intros [k p] Hin. apply Hok; [|by apply (Ho (k, p))].
    eapply submseteq_In; [apply (sw_sent _ _ _ _ _ Hsw)|]. by apply (in_map snd _ (k, p)).
  - intros p Hp. destruct (Hx p Hp) as [|(e & ? & ?)]; eauto.
Qed.

Lemma closing_perm ok excuse g g' w w' n errs :
  g ≡ₚ g' -> closing ok excuse g w w' n errs -> closing ok excuse g' w w' n errs.
Proof.
  intros Hp (sent & closed & [? ? ? ? ? ?] & ? & ? & Hx). exists sent, closed.
  split; [split; auto; by rewrite <- Hp|]. split; [done|]. split; [done|].
  intros p Hin. apply Hx. by rewrite <- list_elem_of_In, Hp, list_elem_of_In.
Qed.

Lemma closing_book ok excuse g w w' n errs :
  book_inv w -> targets w g -> closing ok excuse g w w' n errs -> book_inv w'.
Proof. intros Hb Ht (sent & closed & Hsw & _). by eapply sweep_book. Qed.

Lemma closing_targets ok excuse g1 g2 w w1 n errs :
  targets w (g1 ++ g2) -> closing ok excuse g1 w w1 n errs -> targets w1 g2.
Proof. intros Ht (sent & closed & Hsw & _). by eapply targets_after. Qed.

Lemma closing_credentials ok excuse g w w' n errs :
  closing ok excuse g w w' n errs -> w_credentials w' = w_credentials w.
Proof. intros (sent & closed & Hsw & _). apply (sw_frame _ _ _ _ _ Hsw). Qed.
End Sweeps.

(** ** The operations *)

Section Operations.
Context {B R : Type} `{BrokerInterface B} `{RedisStore R} `{Decryptor}.
Context (settings : Settings).
Implicit Types (w : world B R).

Lemma close_in_paper_sweep p w r w' :
  book_inv w -> In p (w_positions w) -> close_position_in_paper p w = (r, w') ->
  r = Ok tt /\ sweep [p] w w' [] [p].
Proof.
  intros Hb Hin E. pose proof (book_rows _ Hb) as Hall. rewrite List.Forall_forall in Hall.
  destruct (side_ok_opposite p (Hall p Hin)) as (s & Hs).
  unfold close_position_in_paper, from_result, gets, fresh, save_position, modify, mbind, M_bind in E.
  rewrite Hs in E. injection E as <- <-. split; [done|].
  eapply sweep_one; [done | done | apply killed_row_flattened | apply submseteq_nil_l | | |]; simpl_rec.
  - reflexivity.
  - by rewrite app_nil_r.
  - split; simpl_rec; done || lia.
Qed.

Lemma send_order_step k o w r w' :
  send_order k o w = (r, w') -> exists b, w' = w <| w_orders := w_orders w ++ [(k, o)] |> <| w_broker := b |>.
Proof.
  unfold send_order, modify, on_broker, mbind, M_bind. destruct (place_order k o _) as [pr b].
  intros [= _ <-]. by exists b.
Qed.

(** A live close empties the row after its order, or fails and leaves the row. *)
Lemma close_via_broker_cases k p w r w' :
  book_inv w -> In p (w_positions w) -> close_position_via_broker k p w = (r, w') ->
  (r = Ok tt /\ sweep [p] w w' [(k, p)] [p])
  \/ (exists e sent, r = Err e /\ sweep [p] w w' sent [] /\ Forall (fun kp => kp.1 = k) sent).
Proof.
  intros Hb Hin E. pose proof (book_rows _ Hb) as Hall. rewrite List.Forall_forall in Hall.
  destruct (side_ok_opposite p (Hall p Hin)) as (s & Hs).
  unfold close_position_via_broker, from_result in E. rewrite Hs in E.
  apply bind_cases in E as [(s' & w0 & [= <- <-] & E) | (e & -> & [=])].
  assert (Hord : map sent_order [(k, p)] = [(k, kill_order p s)]).
  { unfold sent_order, exit_side_of. cbn [map fst snd]. by rewrite Hs. }
  apply bind_cases in E as [([] & w1 & E1 & E) | (e & -> & E1)]; apply raise_when_spec in E1 as [-> Er]; clear Er.
  2:{ right. exists e, []. split; [done|]. split; [by apply sweep_none | done]. }
  apply bind_cases in E as [(resp & w2 & E2 & E) | (e & -> & E2)];
    apply send_order_step in E2 as (b & ->).
  - left. injection E as <- <-. split; [done|].
    eapply sweep_one; [done | done | apply killed_row_flattened | done | reflexivity | | by split].
    by rewrite Hord.
  - right. exists e, [(k, p)]. split; [done|]. split; [|by constructor].
    apply sweep_idle; [done | done | by rewrite Hord | by split].
Qed.

Definition nobody (k : BrokerCredentials) (p : StrategyPosition) : Prop := False.
Definition close_failed (e : close_error) (p : StrategyPosition) : Prop := exists x, e = CloseFailed (p_symbol p) x.
Definition no_excuse (e : close_error) (p : StrategyPosition) : Prop := False.

Lemma targets_cons w p g :
  targets w (p :: g) -> In p (w_positions w) /\ targets w [p].
Proof. intros Ht. destruct (targets_app _ [p] g Ht) as (Hp & _). split; [|done]. destruct Hp as [Hp _]. by inversion Hp as [|? ? []]. Qed.

(** Paper: every row is closed, no order goes out. *)
Lemma close_all_in_paper_closing g w r w' :
  book_inv w -> targets w g -> close_all_in_paper g w = (r, w') ->
  r = Ok (Z.of_nat (length g)) /\ closing nobody no_excuse g w w' (Z.of_nat (length g)) [].
Proof.
  revert w r w'. induction g as [|p g IH]; intros w r w' Hb Ht E.
  - injection E as <- <-. split; [done|]. by apply closing_nil.
  - destruct (targets_cons _ _ _ Ht) as [Hin Hp]. simpl in E.
    apply bind_cases in E as [([] & w1 & E1 & E) | (e & -> & E1)];
      apply close_in_paper_sweep in E1 as [Hr Hsw]; try done.
    assert (Hc : closing nobody no_excuse [p] w w1 1 []).
    { exists [], [p]. split; [done|]. split; [done|]. split; [done|]. by left. }
    assert (Hb1 : book_inv w1) by (by eapply closing_book).
    assert (Ht1 : targets w1 g) by (by eapply (closing_targets _ _ [p])).
    apply bind_cases in E as [(n & w2 & E2 & E) | (e & -> & E2)]; apply IH in E2 as [Hn Hc2]; try done.
    injection Hn as ->. injection E as <- <-. split; [f_equal; simpl length; lia|].
    replace (Z.of_nat (length (p :: g))) with (1 + Z.of_nat (length g)) by (simpl length; lia).
    by apply (closing_app _ _ [p] g _ w1 _ _ _ [] []).
Qed.

(** Live: every row is closed on the account of [k], or its failure recorded. *)
Lemma close_all_via_broker_closing k g w r w' :
  book_inv w -> targets w g -> close_all_via_broker k g w = (r, w') ->
  exists n errs, r = Ok (n, errs) /\ closing (fun k' _ => k' = k) close_failed g w w' n errs.
Proof.
  revert w r w'. induction g as [|p g IH]; intros w r w' Hb Ht E.
  - injection E as <- <-. exists 0, []. split; [done|]. by apply closing_nil.
  - destruct (targets_cons _ _ _ Ht) as [Hin Hp]. simpl in E.
    apply bind_cases in E as [(out & w1 & E1 & E) | (e & -> & E1)]; unfold attempt in E1;
      destruct (close_position_via_broker k p w) as [out' w1'] eqn:Ec; [|done]. injection E1 as -> ->.
    assert (Hc : exists n errs, (match out with Ok _ => n = 1 /\ errs = []
                                 | Err e => n = 0 /\ errs = [CloseFailed (p_symbol p) e] end)
                   /\ closing (fun k' _ => k' = k) close_failed [p] w w1 n errs).
    { apply close_via_broker_cases in Ec as [(-> & Hsw) | (e & sent & -> & Hsw & Hk)]; [..|done|done].
      - exists 1, []. split; [done|]. exists [(k, p)], [p]. split; [done|]. split; [done|].
        split; [by constructor | by left].
      - exists 0, [CloseFailed (p_symbol p) e]. split; [done|]. exists sent, []. split; [done|]. split; [done|].
        split; [done|]. intros q [<- | []]. right. eexists. split; [by left | by exists e]. }
    destruct Hc as (n1 & e1 & Hout & Hc).
    assert (Hb1 : book_inv w1) by (by eapply closing_book).
    assert (Ht1 : targets w1 g) by (by eapply (closing_targets _ _ [p])).
    apply bind_cases in E as [([n2 e2] & w2 & E2 & E) | (e & -> & E2)];
      apply IH in E2 as (n & errs & Hr & Hc2); try done. injection Hr as <- <-.
    pose proof (closing_app _ _ [p] g _ _ _ _ _ _ _ Ht Hc Hc2) as Happ.
    destruct out as [[]|e]; destruct Hout as [-> ->]; injection E as <- <-; eauto.
Qed.

(** ** One credential, all credentials *)

(** The order went to the account of the row's own credential. *)
Definition on_account (user_id : uuid) w (k : BrokerCredentials) (p : StrategyPosition) : Prop :=
  exists row, find_credential (w_credentials w) (p_broker_credential_id p) = Some row
              /\ build_broker_credentials row user_id = Ok k.

(** The error is about the row: its credential, its session or its close. *)
Definition blames (e : close_error) (p : StrategyPosition) : Prop :=
  match e with
  | CredentialMissing cid | SessionFailed cid _ => cid = p_broker_credential_id p
  | CloseFailed symbol _ => symbol = p_symbol p
  | NoCredential => False
  end.

Lemma attempt_cases {A : Type} (m : M B R A) w r w' :
  attempt m w = (r, w') -> exists x, r = Ok x /\ m w = (x, w').
Proof. unfold attempt. destruct (m w) as [x w1]. intros [= <- <-]. eauto. Qed.

Lemma open_session_spec row u w r w' :
  open_session row u w = (r, w') ->
  quiet w w' /\ (forall k, r = Ok k -> build_broker_credentials row u = Ok k).
Proof.
  intros E. apply bind_cases in E as [(k & w1 & E1 & E) | (e & -> & E1)]; apply from_result_spec in E1 as [-> Hk];
    [|by split].
  apply bind_cases in E as [([] & w2 & E2 & E) | (e & -> & E2)]; apply ensure_session_quiet in E2; [|by split].
  injection E as <- <-. split; [done|]. intros k' [= ->]. by symmetry.
Qed.

Lemma run_one_closing u cid g w r w' :
  book_inv w -> targets w g -> Forall (fun p => p_broker_credential_id p = cid) g ->
  run_one u (cid, g) w = (r, w') ->
  exists log, r = Ok log /\ closing (on_account u w) blames g w w' (positions_squared_off log) (al_errors log).
Proof.
  intros Hb Ht Hcid E. rewrite List.Forall_forall in Hcid.
  apply bind_cases in E as [(creds & w0 & [= <- <-] & E) | (e & -> & [=])].
  destruct (find_credential (w_credentials w) cid) as [row|] eqn:Ef.
  2:{ injection E as <- <-. eexists. split; [done|]. apply closing_failed; [done|]. intros p Hp. symmetry. auto. }
  apply bind_cases in E as [(session & w1 & E1 & E) | (e & -> & E1)];
    apply attempt_cases in E1 as (x & [= ->] & E1). apply open_session_spec in E1 as [Hq Hk].
  destruct x as [k|e].
  2:{ injection E as <- <-. eexists. split; [done|]. apply closing_failed; [done|]. intros p Hp. symmetry. auto. }
  assert (Hc0 : closing (on_account u w) blames [] w w1 0 []) by (by apply closing_nil).
  assert (Hb1 : book_inv w1) by (apply (closing_book _ _ [] _ _ _ _ Hb) in Hc0; [done | by split; constructor]).
  assert (Ht1 : targets w1 g) by (by apply (closing_targets _ _ [] g _ _ _ _ Ht Hc0)).
  apply bind_cases in E as [([n errs] & w2 & E2 & E) | (e & -> & E2)];
    apply close_all_via_broker_closing in E2 as (n' & errs' & Hr & Hc); try done.
  injection Hr as <- <-. injection E as <- <-. eexists. split; [done|]. cbn [positions_squared_off al_errors].
  apply (closing_app _ _ [] g _ w1 _ 0 n [] errs Ht Hc0).
  eapply closing_weaken; [| |exact Hc].
  - intros k' p Hp ->. exists row. rewrite (Hcid p Hp). auto.
  - intros e p _ (x & ->). done.
Qed.

Definition bucket_ok (b : uuid * list StrategyPosition) : Prop := Forall (fun p => p_broker_credential_id p = b.1) b.2.
Definition bucket_rows (bs : list (uuid * list StrategyPosition)) : list StrategyPosition := concat (map snd bs).

Lemma run_live_closing u bs w r w' :
  book_inv w -> targets w (bucket_rows bs) -> Forall bucket_ok bs -> run_live u bs w = (r, w') ->
  exists logs, r = Ok logs
    /\ closing (on_account u w) blames (bucket_rows bs) w w' (sum_by positions_squared_off logs)
         (concat (map al_errors logs)).
Proof.
  revert w r w'. induction bs as [|[cid g] bs IH]; intros w r w' Hb Ht Hok E.
  - injection E as <- <-. exists []. split; [done|]. by apply closing_nil.
  - apply Forall_cons in Hok as [Hg Hok]. unfold bucket_rows in Ht. simpl in Ht.
    destruct (targets_app _ _ _ Ht) as (Ht1 & _ & _). cbn [run_live] in E.
    apply bind_cases in E as [(log & w1 & E1 & E) | (e & -> & E1)];
      apply run_one_closing in E1 as (log' & Hr & Hc); try done. injection Hr as <-.
    assert (Hb1 : book_inv w1) by (by eapply closing_book).
    assert (Ht2 : targets w1 (bucket_rows bs)) by (by eapply closing_targets).
    apply bind_cases in E as [(logs & w2 & E2 & E) | (e & -> & E2)];
      apply IH in E2 as (logs' & Hr & Hc2); try done. injection Hr as <-. injection E as <- <-.
    exists (log :: logs). split; [done|]. rewrite sum_by_cons.
    refine (closing_app _ _ _ _ _ _ _ _ _ _ _ Ht Hc _).
    eapply closing_weaken; [|done|exact Hc2]. intros k p _ (row & Hf & Hbd). exists row.
    by rewrite <- (closing_credentials _ _ _ _ _ _ _ Hc).
Qed.

Lemma run_paper_closing bs w r w' :
  book_inv w -> targets w (bucket_rows bs) -> run_paper bs w = (r, w') ->
  exists logs, r = Ok logs /\ Forall (fun l => al_errors l = []) logs
    /\ closing nobody no_excuse (bucket_rows bs) w w' (sum_by positions_squared_off logs) [].
Proof.
  revert w r w'. induction bs as [|[cid g] bs IH]; intros w r w' Hb Ht E.
  - injection E as <- <-. exists []. split; [done|]. split; [done|]. by apply closing_nil.
  - unfold bucket_rows in Ht. simpl in Ht. destruct (targets_app _ _ _ Ht) as (Ht1 & _ & _). cbn [run_paper] in E.
    apply bind_cases in E as [(creds & w0 & [= <- <-] & E) | (e & -> & [=])].
    apply bind_cases in E as [(n & w1 & E1 & E) | (e & -> & E1)];
      apply close_all_in_paper_closing in E1 as [Hr Hc]; try done. injection Hr as ->.
    assert (Hb1 : book_inv w1) by (by eapply closing_book).
    assert (Ht2 : targets w1 (bucket_rows bs)) by (by eapply closing_targets).
    apply bind_cases in E as [(logs & w2 & E2 & E) | (e & -> & E2)];
      apply IH in E2 as (logs' & Hr & Hall & Hc2); try done. injection Hr as <-. injection E as <- <-.
    eexists (_ :: logs). split; [done|]. split; [by constructor|]. rewrite sum_by_cons.
    exact (closing_app _ _ _ _ _ _ _ _ _ [] [] Ht Hc Hc2).
Qed.
End Operations.

(** ** Buckets *)

Lemma bucket_add_rows p bs : bucket_rows (bucket_add p bs) ≡ₚ p :: bucket_rows bs.
Proof.
  induction bs as [|[cid g] bs IH]; simpl; [done|]. destruct (cid =? _); unfold bucket_rows in *; simpl.
  - rewrite <- app_assoc. symmetry. apply (Permutation_middle g (concat (map snd bs)) p).
  - rewrite IH. symmetry. apply Permutation_middle.
Qed.

Lemma bucket_add_ok p bs : Forall bucket_ok bs -> Forall bucket_ok (bucket_add p bs).
Proof.
  induction 1 as [|[cid g] bs Hg Hbs IH]; simpl.
  - constructor; [|constructor]. by constructor.
  - destruct (Z.eqb_spec cid (p_broker_credential_id p)) as [->|]; constructor; auto.
    apply Forall_app. split; [done | by constructor].
Qed.

(** The buckets hold exactly the rows, each under its own credential. *)
Lemma by_credential_spec rows : bucket_rows (by_credential rows) ≡ₚ rows /\ Forall bucket_ok (by_credential rows).
Proof.
  unfold by_credential. assert (Hgen : forall bs, Forall bucket_ok bs ->
    bucket_rows (fold_left (fun acc p => bucket_add p acc) rows bs) ≡ₚ bucket_rows bs ++ rows
    /\ Forall bucket_ok (fold_left (fun acc p => bucket_add p acc) rows bs)).
  { induction rows as [|p rows IH]; intros bs Hbs; simpl; [by rewrite app_nil_r|].
    destruct (IH (bucket_add p bs)) as [Hp Hok]; [by apply bucket_add_ok|]. split; [|done].
    rewrite Hp, bucket_add_rows. simpl. apply Permutation_middle. }
  apply (Hgen []). constructor.
Qed.

Lemma filter_partition {A : Type} (f : A -> bool) l :
  List.filter f l ++ List.filter (fun x => negb (f x)) l ≡ₚ l.
Proof.
  induction l as [|x l IH]; simpl; [done|]. destruct (f x); simpl; [by rewrite IH|].
  rewrite <- Permutation_middle. by rewrite IH.
Qed.

Lemma targets_perm {B R : Type} (w : world B R) g g' : g ≡ₚ g' -> targets w g -> targets w g'.
Proof.
  intros Hp [Hall Hnd]. split; [by rewrite <- Hp|].
  eapply NoDup_Permutation_proper; [|exact Hnd]. symmetry. by apply fmap_Permutation.
Qed.

(** The rows a query selects are targets when it selects killable rows only. *)
Lemma targets_filter {B R : Type} (w : world B R) f :
  book_inv w -> (forall p, f p = true -> killable p = true) -> targets w (List.filter f (w_positions w)).
Proof.
  intros Hb Hf. split; [|apply NoDup_map_filter_ids, Hb]. apply List.Forall_forall. intros p Hp.
  apply filter_In in Hp as [Hin Hp]. auto.
Qed.

Lemma of_user_killable u p : of_user u p = true -> killable p = true.
Proof. unfold of_user. intros. by bool_to_prop. Qed.

Lemma has_errors_concat logs : concat (map al_errors (List.filter has_errors logs)) = concat (map al_errors logs).
Proof.
  induction logs as [|l logs IH]; simpl; [done|]. unfold has_errors at 1.
  destruct (al_errors l) eqn:E; simpl; rewrite ?E, IH; done.
Qed.

Section SquareOff.
Context {B R : Type} `{BrokerInterface B} `{RedisStore R} `{Decryptor}.
Context (settings : Settings).
Implicit Types (w : world B R).

Definition paper_row w (p : StrategyPosition) : bool :=
  resolve_paper_mode settings (find_strategy (w_strategies w) (p_strategy_id p)).

Lemma square_off_spec u w r w' :
  book_inv w -> execute_emergency_square_off settings u w = (r, w') ->
  exists actions errors,
    r = Ok (actions, errors)
    /\ closing (fun k p => on_account u w k p /\ paper_row w p = false)
         (fun e p => blames e p /\ paper_row w p = false) (List.filter (of_user u) (w_positions w)) w w'
         (sum_by positions_squared_off actions) (concat errors).
Proof.
  intros Hb E. unfold execute_emergency_square_off in E.
  apply bind_cases in E as [(pos & w0 & [= <- <-] & E) | (e & -> & [=])].
  apply bind_cases in E as [(sts & w0 & [= <- <-] & E) | (e & -> & [=])]. cbv zeta in E.
  set (pos := List.filter (of_user u) (w_positions w)) in *. fold (paper_row w) in E.
  destruct (by_credential_spec (List.filter (paper_row w) pos)) as [Hpp _].
  destruct (by_credential_spec (List.filter (fun p => negb (paper_row w p)) pos)) as [Hpl Hok].
  set (gp := bucket_rows (by_credential (List.filter (paper_row w) pos))) in *.
  set (gl := bucket_rows (by_credential (List.filter (fun p => negb (paper_row w p)) pos))) in *.
  assert (Hg : gp ++ gl ≡ₚ pos) by (rewrite Hpp, Hpl; apply filter_partition).
  assert (Ht : targets w (gp ++ gl)).
  { apply (targets_perm w pos); [by symmetry|]. apply targets_filter; [done | apply of_user_killable]. }
  destruct (targets_app _ _ _ Ht) as (Htp & _ & _).
  apply bind_cases in E as [(plogs & w1 & E1 & E) | (e & -> & E1)];
    apply run_paper_closing in E1 as (plogs' & Hr & Hpe & Hcp); try done. injection Hr as <-.
  assert (Hb1 : book_inv w1) by (by eapply closing_book).
  assert (Htl : targets w1 gl) by (by eapply closing_targets).
  apply bind_cases in E as [(llogs & w2 & E2 & E) | (e & -> & E2)];
    apply run_live_closing in E2 as (llogs' & Hr & Hcl); try done. injection Hr as <-. injection E as <- <-.
  eexists _, _. split; [done|]. apply (closing_perm _ _ _ _ _ _ _ _ Hg). rewrite sum_by_app, has_errors_concat.
  assert (Hlive : forall p, In p gl -> paper_row w p = false).
  { intros p Hp. rewrite <- list_elem_of_In, Hpl, list_elem_of_In, filter_In in Hp. by destruct Hp as [_ ?%negb_true_iff]. }
  refine (closing_app _ _ _ _ _ _ _ _ _ [] _ Ht _ _).
  - eapply closing_weaken; [| |exact Hcp]; by intros.
  - eapply closing_weaken; [| |exact Hcl].
    + intros k p Hp (row & Hf & Hbd). split; [|auto]. exists row.
      by rewrite <- (closing_credentials _ _ _ _ _ _ _ Hcp).
    + intros e p Hp He. auto.
Qed.

(** ** Containment: what a kill of any tier can touch *)

(** Only killable rows of [scope] were emptied, orders went out for such rows on
    an account that [ok] admits, the rest of the world stayed, and the book is
    still well formed. *)
Record contained (scope : StrategyPosition -> Prop) (ok : BrokerCredentials -> StrategyPosition -> Prop) w w' : Prop := {
  ct_rows : Forall2 (fun p p' => p' = p \/ (scope p /\ killable p = true /\ flattened p p')) (w_positions w) (w_positions w');
  ct_orders : exists sent, w_orders w' = w_orders w ++ map sent_order sent
    /\ Forall (fun kp => In kp.2 (w_positions w) /\ killable kp.2 = true /\ scope kp.2 /\ ok kp.1 kp.2) sent;
  ct_frame : kframe w w';
  ct_book : book_inv w';
  ct_one : one_open (w_positions w) -> one_open (w_positions w');
  ct_ledger : rtc ledger_step (exposure (w_positions w)) (exposure (w_positions w'))
}.

Lemma contained_quiet scope ok w w' : book_inv w -> quiet w w' -> contained scope ok w w'.
Proof.
  intros Hb []. rename select (w_positions w' = w_positions w) into Hp. split.
  - rewrite Hp. apply Forall_Forall2_diag, List.Forall_forall. auto.
  - exists []. by rewrite app_nil_r.
  - by split.
  - by apply (book_inv_ext w).
  - by rewrite Hp.
  - by rewrite Hp.
Qed.

Lemma closing_contained (scope : StrategyPosition -> Prop) ok excuse g w w' n errs :
  book_inv w -> targets w g -> (forall p, In p g -> scope p) -> closing ok excuse g w w' n errs ->
  contained scope ok w w'.
Proof.
  intros Hb Ht Hscope (sent & closed & Hsw & _ & Hok & _). pose proof (proj1 Ht) as Hg.
  rewrite List.Forall_forall in Hg, Hok. split.
  - eapply Forall2_impl; [apply Hsw|]. intros p p' [(Hc & Hf) | (_ & ->)]; [|auto]. right.
    assert (Hpg : In p g) by (eapply submseteq_In; [apply (sw_closed _ _ _ _ _ Hsw) | done]).
    split; [auto|]. split; [by apply Hg | done].
  - exists sent. split; [apply Hsw|]. apply List.Forall_forall. intros [k p] Hin. simpl.
    assert (Hpg : In p g).
    { eapply submseteq_In; [apply (sw_sent _ _ _ _ _ Hsw)|]. by apply (in_map snd _ (k, p)). }
    destruct (Hg p Hpg). split; [done|]. split; [done|]. split; [auto | by apply (Hok (k, p))].
  - apply Hsw.
  - by eapply sweep_book.
  - intros Hone. by eapply sweep_one_open.
  - apply Hsw.
Qed.

Lemma contained_back scope ok w w' p :
  contained scope ok w w' -> In p (w_positions w') -> killable p = true -> In p (w_positions w).
Proof.
  intros Hc Hin Hk. destruct (Forall2_In_r _ _ _ p (ct_rows _ _ _ _ Hc) Hin) as (q & Hq & [-> | (_ & _ & Hf)]); [done|].
  by rewrite (flattened_not_killable _ _ Hf) in Hk.
Qed.

Lemma contained_trans scope ok w w1 w2 :
  contained scope ok w w1 -> contained scope ok w1 w2 -> contained scope ok w w2.
Proof.
  intros Hc1 Hc2. split.
  - eapply Forall2_trans; [|apply Hc1 | apply Hc2]. simpl.
    intros x y z [-> | (? & ? & Hf)] [-> | (? & Hk & ?)]; auto.
    by rewrite (flattened_not_killable _ _ Hf) in Hk.
  - destruct (ct_orders _ _ _ _ Hc1) as (s1 & E1 & Ho1), (ct_orders _ _ _ _ Hc2) as (s2 & E2 & Ho2).
    exists (s1 ++ s2). split; [by rewrite E2, E1, map_app, app_assoc|]. apply Forall_app. split; [done|].
    eapply Forall_impl; [exact Ho2|]. intros kp (Hin & Hk & ?). split; [by eapply contained_back | done].
  - etransitivity; [apply Hc1 | apply Hc2].
  - apply Hc2.
  - intros. by apply Hc2, Hc1.
  - etransitivity; [apply Hc1 | apply Hc2].
Qed.

Lemma contained_mono (scope scope' : StrategyPosition -> Prop) (ok ok' : BrokerCredentials -> StrategyPosition -> Prop) w w' :
  (forall p, scope p -> scope' p) -> (forall k p, scope p -> ok k p -> ok' k p) ->
  contained scope ok w w' -> contained scope' ok' w w'.
Proof.
  intros Hs Ho [Hr (sent & E & Hsent) Hf Hb Hone Hl]. split; auto.
  - eapply Forall2_impl; [exact Hr|]. intros p p' [-> | (? & ? & ?)]; auto.
  - exists sent. split; [done|]. eapply Forall_impl; [exact Hsent|]. intros kp (? & ? & ? & ?). auto.
Qed.
End SquareOff.

(** ** The marketplace tiers *)

Section Tiers.
Context {B R : Type} `{BrokerInterface B} `{RedisStore R} `{Decryptor}.
Context (settings : Settings).
Implicit Types (w : world B R).

(** Credential ids are a primary key. *)
Definition credential_keys w : Prop := NoDup (map c_id (w_credentials w)).

(** The order went to an active credential of the subscriber whose live
    subscription the row mirrors. *)
Definition on_subscriber_account w (k : BrokerCredentials) (p : StrategyPosition) : Prop :=
  exists sub row, In sub (pf_subscriptions (w_platform w)) /\ p_subscription_id p = Some (m_id sub)
    /\ m_is_paper sub = false /\ In row (w_credentials w) /\ own_active (m_subscriber_id sub) row = true
    /\ build_broker_credentials row (m_subscriber_id sub) = Ok k.

Lemma find_credential_key w row :
  credential_keys w -> In row (w_credentials w) -> find_credential (w_credentials w) (c_id row) = Some row.
Proof.
  unfold credential_keys, find_credential. induction (w_credentials w) as [|c rows IH]; simpl; [done|].
  intros Hkeys [-> | Hin]; [by rewrite Z.eqb_refl|]. apply NoDup_cons in Hkeys as [Hc Hnd].
  rewrite (proj2 (Z.eqb_neq _ _)); [auto|]. intros E. apply Hc. rewrite E, list_elem_of_In. by apply in_map.
Qed.

Lemma resolve_subscriber_spec sid explicit w r w' :
  credential_keys w -> resolve_subscriber_credential_id sid explicit w = (r, w') ->
  w' = w /\ exists cid, r = Ok cid /\ forall c, cid = Some c ->
    exists row, find_credential (w_credentials w) c = Some row /\ In row (w_credentials w) /\ own_active sid row = true.
Proof.
  intros Hkeys E. unfold resolve_subscriber_credential_id in E.
  apply bind_cases in E as [(creds & w0 & [= <- <-] & E) | (e & -> & [=])]. injection E as <- <-.
  split; [done|]. eexists. split; [done|]. intros c.
  destruct (explicit ≫= _) as [c'|] eqn:Ee.
  - intros [= ->]. apply bind_Some in Ee as (c0 & _ & Ee). apply bind_Some in Ee as (row & Hf & Ee).
    destruct (own_active sid row) eqn:Ho; [|done]. injection Ee as ->. exists row. split; [done|].
    split; [|done]. by apply find_some in Hf as [? _].
  - destruct (latest_by c_created_at _) as [row|] eqn:El; [|done]. intros [= <-].
    apply latest_by_in, filter_In in El as [Hin Ho]. exists row. split; [by apply find_credential_key | done].
Qed.

(** A broker object in session, then every row on it. *)
Lemma session_then_close row u g k w w1 r w2 :
  book_inv w -> targets w g -> open_session row u w = (Ok k, w1) -> close_all_via_broker k g w1 = (r, w2) ->
  exists n errs, r = Ok (n, errs)
    /\ closing (fun k' _ => build_broker_credentials row u = Ok k') close_failed g w w2 n errs.
Proof.
  intros Hb Ht E1 E2. apply open_session_spec in E1 as [Hq Hk].
  assert (Hc0 : closing (fun k' _ => build_broker_credentials row u = Ok k') close_failed [] w w1 0 [])
    by (by apply closing_nil).
  apply close_all_via_broker_closing in E2 as (n & errs & -> & Hc).
  - exists n, errs. split; [done|]. apply (closing_app _ _ [] g _ w1 _ 0 n [] errs Ht Hc0).
    eapply closing_weaken; [|done|exact Hc]. intros k' p _ ->. auto.
  - apply (book_inv_ext w); [done | apply Hq..].
  - by apply (closing_targets _ _ [] g _ _ _ _ Ht Hc0).
Qed.

(** The rows of the subscription are all closed, or an error says why not. *)
Lemma close_for_subscriber_closing sub g resolved w r w' :
  book_inv w -> targets w g -> In sub (pf_subscriptions (w_platform w)) -> m_is_paper sub = false ->
  (forall p, In p g -> p_subscription_id p = Some (m_id sub)) ->
  (forall c, resolved = Some c -> exists row, find_credential (w_credentials w) c = Some row
     /\ In row (w_credentials w) /\ own_active (m_subscriber_id sub) row = true) ->
  close_for_subscriber (m_subscriber_id sub) g resolved w = (r, w') ->
  exists n errs, r = Ok (n, errs) /\ closing (on_subscriber_account w) (fun _ _ => True) g w w' n errs.
Proof.
  intros Hb Ht Hsub Hlive Hrows Hres E. unfold close_for_subscriber in E. destruct resolved as [cid|].
  2:{ injection E as <- <-. eexists _, _. split; [done|]. by apply closing_failed. }
  destruct (Hres cid eq_refl) as (row & Hf & Hin & Hown).
  apply bind_cases in E as [(creds & w0 & [= <- <-] & E) | (e & -> & [=])]. rewrite Hf in E.
  apply bind_cases in E as [(session & w1 & E1 & E) | (e & -> & E1)];
    apply attempt_cases in E1 as (x & Hx & E1); [|done]. injection Hx as ->.
  destruct x as [k|e].
  - destruct (session_then_close _ _ _ _ _ _ _ _ Hb Ht E1 E) as (n & errs & -> & Hc).
    exists n, errs. split; [done|]. eapply closing_weaken; [| |exact Hc]; [|done].
    intros k' p Hp Hk. exists sub, row. eauto 8.
  - apply open_session_spec in E1 as [Hq _]. injection E as <- <-. eexists _, _. split; [done|].
    by apply closing_failed.
Qed.


Lemma of_subscription_killable id p : of_subscription id p = true -> killable p = true.
Proof. unfold of_subscription. intros. by bool_to_prop. Qed.

Lemma of_strategy_owner_killable id p : of_strategy_owner id p = true -> killable p = true.
Proof. unfold of_strategy_owner. intros. by bool_to_prop. Qed.

(** Nothing the query selects is left. *)
Definition cleared (f : StrategyPosition -> bool) w : Prop := forall p, In p (w_positions w) -> f p = false.

Lemma closing_all_cleared ok excuse f w w' n errs :
  (forall p, f p = true -> killable p = true) -> book_inv w ->
  closing ok excuse (List.filter f (w_positions w)) w w' n errs ->
  n = Z.of_nat (length (List.filter f (w_positions w))) -> cleared f w'.
Proof.
  intros Hf Hb (sent & closed & Hsw & -> & _) Hn p' Hp'. apply Nat2Z.inj in Hn.
  destruct (f p') eqn:Hfp; [exfalso | done].
  assert (Hall : closed ≡ₚ List.filter f (w_positions w)).
  { apply submseteq_length_Permutation; [apply (sw_closed _ _ _ _ _ Hsw) | lia]. }
  destruct (Forall2_In_r _ _ _ _ (sw_rows _ _ _ _ _ Hsw) Hp') as (p & Hp & [(_ & Hfl) | (Hnc & ->)]).
  - apply Hf in Hfp. by rewrite (flattened_not_killable _ _ Hfl) in Hfp.
  - apply Hnc. rewrite <- list_elem_of_In, Hall, list_elem_of_In. by apply filter_In.
Qed.

(** Tier 1 never raises; it touches rows of the subscription only, on the
    subscriber's own active credential, and "killed" means none is left. *)
Lemma kill_subscriber_spec id w r w' :
  book_inv w -> credential_keys w -> kill_subscriber settings id w = (r, w') ->
  exists res, r = Ok res /\ sk_subscription_id res = id
    /\ contained (fun p => of_subscription id p = true) (on_subscriber_account w) w w'
    /\ (sk_status res = ks_killed \/ sk_status res = ks_already_flat -> cleared (of_subscription id) w').
Proof.
  intros Hb Hkeys E. unfold kill_subscriber in E.
  assert (Hidle : forall res, sk_subscription_id res = id ->
    sk_status res <> ks_killed -> (sk_status res = ks_already_flat -> cleared (of_subscription id) w) ->
    (Ok res, w) = (r, w') ->
    exists res, r = Ok res /\ sk_subscription_id res = id
      /\ contained (fun p => of_subscription id p = true) (on_subscriber_account w) w w'
      /\ (sk_status res = ks_killed \/ sk_status res = ks_already_flat -> cleared (of_subscription id) w')).
  { intros res Hid Hk Hfl [= <- <-]. exists res. split; [done|]. split; [done|].
    split; [by apply contained_quiet|]. intros [|]; auto. done. }
  destruct (marketplace_fanout_enabled settings); cbn [negb] in E; [|by apply (Hidle (sub_result ks_dormant id 0 None))].
  apply bind_cases in E as [(sub_row & w0 & [= <- <-] & E) | (e & -> & [=])].
  destruct (List.find _ _) as [sub|] eqn:Ef; [|by apply (Hidle (sub_result ks_not_found id 0 None))].
  apply find_some in Ef as [Hsub Hid]. apply Z.eqb_eq in Hid.
  apply bind_cases in E as [(pos & w0 & [= <- <-] & E) | (e & -> & [=])].
  assert (Ht : targets w (List.filter (of_subscription id) (w_positions w))).
  { apply targets_filter; [done | apply of_subscription_killable]. }
  destruct (List.filter (of_subscription id) (w_positions w)) as [|p0 g0] eqn:Eg.
  { apply (Hidle (sub_result ks_already_flat id 0 None)); [done | done | | done]. intros _ p Hp.
    destruct (of_subscription id p) eqn:Ho; [|done].
    assert (In p []) as [] by (rewrite <- Eg; by apply filter_In). }
  set (g := p0 :: g0) in *. rewrite <- Eg in Ht.
  apply bind_cases in E as [(resolved & w1 & E1 & E) | (e & -> & E1)];
    apply resolve_subscriber_spec in E1 as (-> & cid & Hr & Hres); try done. injection Hr as ->.
  assert (Hin : forall p, In p g -> of_subscription id p = true).
  { intros p Hp. rewrite <- Eg, filter_In in Hp. apply Hp. }
  rewrite Eg in Ht. fold g in Ht. destruct (m_is_paper sub) eqn:Epap.
  - apply bind_cases in E as [(n & w1 & E1 & E) | (e & -> & E1)];
      apply close_all_in_paper_closing in E1 as [Hr Hc]; try done. injection Hr as ->. injection E as <- <-.
    eexists. split; [done|]. split; [done|]. split.
    + eapply contained_mono; [| |eapply (closing_contained _ _ _ g _ _ _ _ Hb Ht Hin Hc)]; done.
    + intros _. eapply closing_all_cleared; [apply of_subscription_killable | exact Hb | |reflexivity]. rewrite Eg. exact Hc.
  - apply bind_cases in E as [([n errs] & w1 & E1 & E) | (e & -> & E1)];
      apply close_for_subscriber_closing in E1 as (n' & errs' & Hr & Hc); try done;
      try (intros p Hp; specialize (Hin p Hp); unfold of_subscription in Hin; bool_to_prop; by rewrite Hid).
    injection Hr as <- <-. injection E as <- <-. eexists. split; [done|]. split; [done|]. split.
    + by apply (closing_contained _ _ _ g _ _ _ _ Hb Ht Hin Hc).
    + cbn [sk_status]. unfold live_kill_status. change (S (length g0)) with (length g).
      destruct (Z.eqb_spec n (Z.of_nat (length g))) as [En|]; [|destruct (n =? 0); intros [Hx|Hx]; discriminate Hx].
      intros _. eapply closing_all_cleared; [apply of_subscription_killable | exact Hb | |]; rewrite Eg; [exact Hc | exact En].
Qed.

Lemma contained_cleared scope ok f w w' :
  (forall p, f p = true -> killable p = true) -> contained scope ok w w' -> cleared f w -> cleared f w'.
Proof.
  intros Hf Hc Hcl p Hp. destruct (f p) eqn:E; [|done].
  rewrite <- E. apply Hcl. eapply contained_back; [exact Hc | done | auto].
Qed.

Lemma on_subscriber_account_frame w w1 k p :
  kframe w w1 -> on_subscriber_account w1 k p -> on_subscriber_account w k p.
Proof. intros [] (sub & row & ?). exists sub, row. congruence. Qed.

(** A finished kill of a subscription left none of its rows open. *)
Definition settled w (res : SubscriberKill) : Prop :=
  sk_status res = ks_killed \/ sk_status res = ks_already_flat -> cleared (of_subscription (sk_subscription_id res)) w.

Lemma cascade_spec ids w r w' :
  book_inv w -> credential_keys w -> cascade settings ids w = (r, w') ->
  exists results, r = Ok results /\ map sk_subscription_id results = ids /\ Forall (settled w') results
    /\ contained (fun p => exists id, In id ids /\ of_subscription id p = true) (on_subscriber_account w) w w'.
Proof.
  revert w r w'. induction ids as [|id ids IH]; intros w r w' Hb Hkeys E; cbn [cascade] in E.
  - injection E as <- <-. exists []. split; [done|]. split; [done|]. split; [done|]. by apply contained_quiet.
  - apply bind_cases in E as [(out & w1 & E1 & E) | (e & -> & E1)];
      apply attempt_cases in E1 as (x & Hx & E1); [|done]. injection Hx as ->.
    apply kill_subscriber_spec in E1 as (res & -> & Hid & Hc & Hcl); [|done|done].
    pose proof (ct_frame _ _ _ _ Hc) as Hfr.
    apply bind_cases in E as [(results & w2 & E2 & E) | (e & -> & E2)];
      apply IH in E2 as (results' & Hr & Hids & Hset & Hc2); try done; try apply Hc;
      try (unfold credential_keys; by rewrite (kf_credentials _ _ Hfr)).
    injection Hr as <-. injection E as <- <-. exists (res :: results). split; [done|].
    split; [simpl; by rewrite Hid, Hids|]. split.
    + constructor; [|done]. rewrite <- Hid in Hcl. intros Hst.
      eapply contained_cleared; [apply of_subscription_killable | exact Hc2 | auto].
    + eapply contained_trans; [eapply contained_mono; [| |exact Hc] | eapply contained_mono; [| |exact Hc2]].
      * intros p Hp. exists id. split; [by left | done].
      * done.
      * intros p (id' & Hin & Hp). exists id'. split; [by right | done].
      * intros k p _. by apply on_subscriber_account_frame.
Qed.

(** The accounts of tier 2: the strategy owner's, for the owner's rows. *)
Definition strategy_account w (k : BrokerCredentials) (p : StrategyPosition) : Prop :=
  on_subscriber_account w k p
  \/ (owner_row p = true /\ exists strategy, find_strategy (w_strategies w) (p_strategy_id p) = Some strategy
        /\ on_account (s_user_id strategy) w k p).

(** The rows of tier 2: the owner's rows of the strategy, and rows mirrored by an
    active subscription to it. *)
Definition strategy_scope w (strategy_id : uuid) (p : StrategyPosition) : Prop :=
  of_strategy_owner strategy_id p = true
  \/ exists id, In id (active_subscriptions strategy_id (w_platform w)) /\ of_subscription id p = true.

Lemma close_owner_closing strategy g w r w' :
  book_inv w -> targets w g -> close_owner settings strategy g w = (r, w') ->
  exists n errs, r = Ok (n, errs) /\ closing (on_account (s_user_id strategy) w) blames g w w' n errs.
Proof.
  intros Hb Ht E. unfold close_owner in E. destruct (resolve_paper_mode settings (Some strategy)).
  - apply bind_cases in E as [(n & w1 & E1 & E) | (e & -> & E1)];
      apply close_all_in_paper_closing in E1 as [Hr Hc]; try done. injection Hr as ->. injection E as <- <-.
    eexists _, []. split; [done|]. eapply closing_weaken; [| |exact Hc]; by intros.
  - destruct (by_credential_spec g) as [Hp Hok].
    assert (Htb : targets w (bucket_rows (by_credential g))) by (apply (targets_perm w g); [by symmetry | done]).
    apply bind_cases in E as [(logs & w1 & E1 & E) | (e & -> & E1)];
      apply run_live_closing in E1 as (logs' & Hr & Hc); try done. injection Hr as <-. injection E as <- <-.
    eexists _, _. split; [done|]. apply (closing_perm _ _ _ g _ _ _ _ Hp Hc).
Qed.

Lemma strategy_account_frame w w1 k p : kframe w w1 -> strategy_account w1 k p -> strategy_account w k p.
Proof.
  intros Hfr [Hs | (Ho & strategy & Hf & row & Hc & Hb)].
  - left. by eapply on_subscriber_account_frame.
  - right. split; [done|]. exists strategy. destruct Hfr as [? Hcr Hst ? ? ? ?]. rewrite <- Hst. split; [done|].
    exists row. by rewrite <- Hcr.
Qed.

Lemma closing_no_errors ok excuse f w w' n :
  (forall p, f p = true -> killable p = true) ->
  closing ok excuse (List.filter f (w_positions w)) w w' n [] -> cleared f w'.
Proof.
  intros Hf (sent & closed & Hsw & _ & _ & Hx) p' Hp'. destruct (f p') eqn:Hfp; [exfalso | done].
  destruct (Forall2_In_r _ _ _ _ (sw_rows _ _ _ _ _ Hsw) Hp') as (p & Hp & [(_ & Hfl) | (Hnc & ->)]).
  - apply Hf in Hfp. by rewrite (flattened_not_killable _ _ Hfl) in Hfp.
  - destruct (Hx p) as [|(e & [] & _)]; [by apply filter_In | done].
Qed.

(** What a finished kill of a strategy reports about the rows it left. *)
Definition strategy_settled w (strategy_id : uuid) (res : StrategyKill) : Prop :=
  (tk_status res = ks_killed -> tk_owner_errors res = [] -> cleared (of_strategy_owner strategy_id) w)
  /\ Forall (settled w) (tk_subscribers res).

(** Tier 2 never raises and stays inside its scope and accounts. *)
Lemma kill_strategy_spec sid w r w' :
  book_inv w -> credential_keys w -> kill_strategy settings sid w = (r, w') ->
  exists res, r = Ok res /\ strategy_settled w' sid res
    /\ contained (strategy_scope w sid) (strategy_account w) w w'.
Proof.
  intros Hb Hkeys E. unfold kill_strategy in E. cbv zeta in E.
  assert (Hidle : forall res, tk_status res <> ks_killed -> tk_subscribers res = [] -> (Ok res, w) = (r, w') ->
    exists res, r = Ok res /\ strategy_settled w' sid res
      /\ contained (strategy_scope w sid) (strategy_account w) w w').
  { intros res Hk Hs [= <- <-]. exists res. split; [done|]. split; [|by apply contained_quiet].
    split; [done|]. by rewrite Hs. }
  destruct (marketplace_fanout_enabled settings); cbn [negb] in E; [|eapply Hidle; [..|exact E]; done].
  apply bind_cases in E as [(found & w0 & [= <- <-] & E) | (e & -> & [=])].
  destruct (find_strategy _ sid) as [strategy|] eqn:Ef; [|eapply Hidle; [..|exact E]; done].
  apply bind_cases in E as [(pos & w0 & [= <- <-] & E) | (e & -> & [=])].
  assert (Ht : targets w (List.filter (of_strategy_owner sid) (w_positions w))).
  { apply targets_filter; [done | apply of_strategy_owner_killable]. }
  apply bind_cases in E as [([n errs] & w1 & E1 & E) | (e & -> & E1)];
    apply close_owner_closing in E1 as (n' & errs' & Hr & Hc); try done. injection Hr as <- <-.
  assert (Hct : contained (strategy_scope w sid) (strategy_account w) w w1).
  { eapply closing_contained; [done | exact Ht | | eapply closing_weaken; [| |exact Hc]; [|done]].
    - intros p [_ Hp]%filter_In. by left.
    - intros k p [_ Hp]%filter_In Hk. unfold of_strategy_owner in Hp. bool_to_prop. right. split; [done|].
      exists strategy. split; [congruence | done]. }
  pose proof (ct_frame _ _ _ _ Hct) as Hfr.
  apply bind_cases in E as [(ids & w2 & [= <- <-] & E) | (e & -> & [=])].
  apply bind_cases in E as [(results & w2 & E2 & E) | (e & -> & E2)];
    apply cascade_spec in E2 as (results' & Hr & Hids & Hset & Hc2); try done; try apply Hct;
    try (unfold credential_keys; by rewrite (kf_credentials _ _ Hfr)).
  injection Hr as <-. injection E as <- <-. eexists. split; [done|]. split; [split; [|done]|].
  - simpl. intros _ ->. eapply contained_cleared; [apply of_strategy_owner_killable | exact Hc2|].
    eapply closing_no_errors; [apply of_strategy_owner_killable | exact Hc].
  - eapply contained_trans; [exact Hct|]. eapply contained_mono; [| |exact Hc2].
    + intros p Hp. right. by rewrite <- (kf_platform _ _ Hfr).
    + intros k p _ Hk. left. by eapply on_subscriber_account_frame.
Qed.

Lemma kill_strategies_spec ids w r w' :
  book_inv w -> credential_keys w -> kill_strategies settings ids w = (r, w') ->
  exists n, r = Ok n
    /\ contained (fun p => exists sid, In sid ids /\ strategy_scope w sid p) (strategy_account w) w w'.
Proof.
  revert w r w'. induction ids as [|sid ids IH]; intros w r w' Hb Hkeys E; cbn [kill_strategies] in E.
  - injection E as <- <-. exists 0. split; [done|]. by apply contained_quiet.
  - apply bind_cases in E as [(res & w1 & E1 & E) | (e & -> & E1)];
      apply kill_strategy_spec in E1 as (res' & Hr & _ & Hc); try done. injection Hr as <-.
    pose proof (ct_frame _ _ _ _ Hc) as Hfr.
    apply bind_cases in E as [(n & w2 & E2 & E) | (e & -> & E2)];
      apply IH in E2 as (n' & Hr & Hc2); try done; try apply Hc;
      try (unfold credential_keys; by rewrite (kf_credentials _ _ Hfr)).
    injection Hr as <-. injection E as <- <-. eexists. split; [done|].
    eapply contained_trans; [eapply contained_mono; [| |exact Hc] | eapply contained_mono; [| |exact Hc2]].
    + intros p Hp. exists sid. split; [by left | done].
    + done.
    + intros p (sid' & Hin & Hp). exists sid'. split; [by right|]. unfold strategy_scope in *.
      by rewrite <- (kf_platform _ _ Hfr).
    + intros k p _. by apply strategy_account_frame.
Qed.
End Tiers.

(** ** Guarantees *)

Section Guarantees.
Context {B R : Type} `{BrokerInterface B} `{RedisStore R} `{Decryptor}.
Context (settings : Settings).
Implicit Types (w : world B R).

(** An emergency square-off of a user never raises and touches nothing but
    the user's own open rows: every other row, table and store is as before.
    Orders go out only for the user's live rows, on the account of the row's own
    credential, opposite to the row and for what is left of it, at most one per
    row; the book stays well formed and the change refines the ledger. *)
Theorem square_off_scope u w r w' :
  book_inv w -> execute_emergency_square_off settings u w = (r, w') ->
  (exists actions errors, r = Ok (actions, errors))
  /\ contained (fun p => of_user u p = true) (fun k p => on_account u w k p /\ paper_row settings w p = false) w w'
  /\ exists sent, w_orders w' = w_orders w ++ map sent_order sent /\ NoDup (map (fun kp => p_id kp.2) sent).
Proof.
  intros Hb E. apply square_off_spec in E as (actions & errors & -> & Hc); [|done].
  assert (Ht : targets w (List.filter (of_user u) (w_positions w))) by (by apply targets_filter, of_user_killable).
  split; [by eauto|]. split.
  - eapply closing_contained; [done | exact Ht | | exact Hc]. by intros p [_ Hp]%filter_In.
  - destruct Hc as (sent & closed & Hsw & _). exists sent. split; [apply Hsw|].
    rewrite <- (map_map snd p_id). eapply submseteq_NoDup_ids; [apply (sw_sent _ _ _ _ _ Hsw) | apply Ht].
Qed.

(** C23: the square-off closes or reports: a row of the user that is still open
    afterwards is untouched, live, and an error of the result is about it (its
    credential is missing, its session or its close failed); the counts of the
    action logs add up to the rows emptied. *)
Theorem square_off_closes_or_reports u w actions errors w' :
  book_inv w -> execute_emergency_square_off settings u w = (Ok (actions, errors), w') ->
  (forall p, In p (w_positions w') -> of_user u p = true ->
     In p (w_positions w) /\ paper_row settings w p = false /\ exists e, In e (concat errors) /\ blames e p)
  /\ exists closed, Forall2 (swept closed) (w_positions w) (w_positions w') /\ NoDup (map p_id closed)
     /\ Forall (fun p => In p (w_positions w) /\ of_user u p = true) closed
     /\ sum_by positions_squared_off actions = Z.of_nat (length closed).
Proof.
  intros Hb E. apply square_off_spec in E as (actions' & errors' & [= <- <-] & Hc); [|done].
  destruct Hc as (sent & closed & Hsw & Hn & _ & Hx). split.
  - intros p Hp Ho. destruct (Forall2_In_r _ _ _ _ (sw_rows _ _ _ _ _ Hsw) Hp) as (q & Hq & [(_ & Hf) | (Hnc & ->)]).
    + apply of_user_killable in Ho. by rewrite (flattened_not_killable _ _ Hf) in Ho.
    + split; [done|]. destruct (Hx q) as [|(e & He & Hbl & Hlive)]; [by apply filter_In | done|]. eauto.
  - exists closed. split; [apply Hsw|]. split; [|split; [|done]].
    + eapply submseteq_NoDup_ids; [apply (sw_closed _ _ _ _ _ Hsw)|]. apply NoDup_map_filter_ids, Hb.
    + apply List.Forall_forall. intros p Hp. apply filter_In. by eapply submseteq_In; [apply (sw_closed _ _ _ _ _ Hsw)|].
Qed.

(** Killing one subscriber never raises; it touches only open rows mirrored
    by that subscription, orders go out only on an active credential of the
    subscriber (never the owner's), and the statuses killed and already_flat
    mean that none of its rows is left open. *)
Theorem kill_subscriber_contained id w r w' :
  book_inv w -> credential_keys w -> kill_subscriber settings id w = (r, w') ->
  exists res, r = Ok res
    /\ contained (fun p => of_subscription id p = true) (on_subscriber_account w) w w'
    /\ (sk_status res = ks_killed \/ sk_status res = ks_already_flat -> cleared (of_subscription id) w').
Proof.
  intros Hb Hk E. apply kill_subscriber_spec in E as (res & -> & _ & Hc & Hcl); [|done|done]. eauto.
Qed.

(** Killing a strategy never raises; it touches only the owner's open rows of
    that strategy and open rows mirrored by its active subscriptions (the owner's
    other strategies are untouched), each on its own account; without owner
    errors none of the owner's rows is left open, and each subscriber reported
    killed or flat has none left. *)
Theorem kill_strategy_contained sid w r w' :
  book_inv w -> credential_keys w -> kill_strategy settings sid w = (r, w') ->
  exists res, r = Ok res /\ contained (strategy_scope w sid) (strategy_account w) w w'
    /\ (tk_status res = ks_killed -> tk_owner_errors res = [] -> cleared (of_strategy_owner sid) w')
    /\ Forall (settled w') (tk_subscribers res).
Proof.
  intros Hb Hk E. apply kill_strategy_spec in E as (res & -> & [Ho Hs] & Hc); [|done|done]. eauto 6.
Qed.
End Guarantees.

(** ** A concrete platform: an owner with a live and a paper strategy, and one live subscriber *)

Definition paper_strategy : Strategy :=
  {| s_id := 3; s_user_id := 1; s_broker_credential_id := Some 5; entry_lots := 4; partial_profit_lots := 0;
     partial_profit_target_pct := None; trail_offset_pct := None; hard_sl_pct := None;
     ai_validation_enabled := false; exit_strategy_type := "internal"; strategy_json := None; is_paper := Some true; s_is_active := true; s_webhook_token_id := None; allowed_symbols := [] |}.

Definition kill_world : world ScriptedBroker store :=
  sample_world
    <| w_positions := [sample_position;
                       sample_position <| p_id := 21 |> <| p_strategy_id := 3 |>;
                       sample_position <| p_id := 22 |> <| p_user_id := 7 |> <| p_subscription_id := Some 50 |>] |>
    <| w_credentials := [sample_credential;
                         {| c_id := 6; c_user_id := 7; c_broker_name := DHAN; c_client_id_enc := "c7";
                            c_api_key_enc := "k7"; c_api_secret_enc := "s7"; c_access_token_enc := None;
                            c_refresh_token_enc := None; c_is_active := true; c_created_at := 11 |}] |>
    <| w_strategies := [sample_strategy; paper_strategy] |>
    <| w_platform := empty_platform
         <| pf_subscriptions := [{| m_id := 50; m_listing_id := 60; m_subscriber_id := 7; m_status := sub_active;
                                    m_execution_mode := "auto"; m_is_paper := false; m_direction_filter := "all"; m_lots_override := None;
                                    m_subscribed_at := 1; m_access_until := None;
                                    m_broker_credential_id := None |}] |>
         <| pf_listings := [{| li_id := 60; li_strategy_id := 2 |}] |> |>.

Lemma kill_world_book : book_inv kill_world.
Proof.
  split; cbn.
  - apply (bool_decide_eq_true_1 _). vm_compute. reflexivity.
  - by repeat constructor.
  - repeat (apply List.Forall_cons; [apply pos_invb_sound; vm_compute; reflexivity|]). constructor.
Qed.

Lemma kill_world_keys : credential_keys kill_world.
Proof. apply (bool_decide_eq_true_1 _). vm_compute. reflexivity. Qed.

Lemma square_off_scope_witness :
  let out := execute_emergency_square_off sample_settings 1 kill_world in
  (exists actions errors, fst out = Ok (actions, errors))
  /\ contained (fun p => of_user 1 p = true)
       (fun k p => on_account 1 kill_world k p /\ paper_row sample_settings kill_world p = false) kill_world (snd out)
  /\ exists sent, w_orders (snd out) = w_orders kill_world ++ map sent_order sent
       /\ NoDup (map (fun kp => p_id kp.2) sent).
Proof.
  intros out. apply (square_off_scope sample_settings 1 kill_world (fst out) (snd out) kill_world_book).
  apply surjective_pairing.
Defined.

(** Two of the three rows are closed (one live, one in paper), without errors. *)
Lemma square_off_closes_or_reports_witness :
  exists actions w', execute_emergency_square_off sample_settings 1 kill_world = (Ok (actions, []), w')
    /\ map positions_squared_off actions = [1; 1] /\ length (w_orders w') = 1%nat
    /\ exists closed, Forall2 (swept closed) (w_positions kill_world) (w_positions w') /\ NoDup (map p_id closed)
         /\ Forall (fun p => In p (w_positions kill_world) /\ of_user 1 p = true) closed
         /\ sum_by positions_squared_off actions = Z.of_nat (length closed).
Proof.
  eexists _, _. split; [vm_compute; reflexivity|]. split; [reflexivity|]. split; [reflexivity|].
  apply (square_off_closes_or_reports sample_settings 1 kill_world _ [] _ kill_world_book). vm_compute. reflexivity.
Defined.

Lemma kill_subscriber_contained_witness :
  let out := kill_subscriber sample_settings 50 kill_world in
  exists res, fst out = Ok res
    /\ contained (fun p => of_subscription 50 p = true) (on_subscriber_account kill_world) kill_world (snd out)
    /\ (sk_status res = ks_killed \/ sk_status res = ks_already_flat -> cleared (of_subscription 50) (snd out)).
Proof.
  intros out. apply (kill_subscriber_contained sample_settings 50 kill_world (fst out) (snd out) kill_world_book kill_world_keys).
  apply surjective_pairing.
Defined.

Lemma kill_strategy_contained_witness :
  let out := kill_strategy sample_settings 2 kill_world in
  exists res, fst out = Ok res
    /\ contained (strategy_scope kill_world 2) (strategy_account kill_world) kill_world (snd out)
    /\ (tk_status res = ks_killed -> tk_owner_errors res = [] -> cleared (of_strategy_owner 2) (snd out))
    /\ Forall (settled (snd out)) (tk_subscribers res).
Proof.
  intros out. apply (kill_strategy_contained sample_settings 2 kill_world (fst out) (snd out) kill_world_book kill_world_keys).
  apply surjective_pairing.
Defined.

(** Killing the live strategy closes the owner's row and the subscriber's mirror,
    on their two accounts, and leaves the owner's paper strategy alone. *)
Example kill_strategy_run :
  let '(r, w') := kill_strategy sample_settings 2 kill_world in
  r = Ok {| tk_status := ks_killed; tk_owner_closed := 1; tk_owner_errors := [];
            tk_subscribers := [{| sk_status := ks_killed; sk_subscription_id := 50; sk_closed := 1;
                                  sk_resolved_credential_id := Some 6; sk_errors := [] |}] |}
  /\ map (fun ko => (k_user_id (fst ko), o_quantity (snd ko), o_side (snd ko))) (w_orders w') = [(1, 750, SELL); (7, 750, SELL)]
  /\ map remaining_quantity (w_positions w') = [0; 750; 0].
Proof. vm_compute. auto. Qed.
