(* ===== verification/KillGate.v ===== *)
(** * The kill-switch gate: trip, hold, reset

    When the switch fires, that the flag is up before anything else changes and
    holds until a reset of that user (or the daily reset), that a reset needs a
    live token and spends it, and what the platform-wide emergency reaches. *)

From Stdlib Require Import ZArith Lia List Bool String Ascii.
From stdpp Require Import base list strings gmap relations.
From S2P Require Import Prelude PyText PyFloat PyDecimal PyNum Records Enums Models Safeguards Book Ledger Samples DayState.
From S2P Require Import StrategyExecutor DirectExit KillSwitch KillSafety.

(** ** Keys of different users and purposes *)

Lemma append_inj p s t : String.append p s = String.append p t -> s = t.
Proof. induction p as [|c p IH]; simpl; [done|]. intros [= E]. auto. Qed.

Lemma kill_key_inj u v : kill_key u = kill_key v -> u = v.
Proof. intros E. by apply z_str_inj, (append_inj "kill:"). Qed.

(** ** The gate *)

Section Gate.
Context {B R : Type} `{BrokerInterface B} `{RedisLaws R} `{Decryptor}.
Context (settings : Settings).
Implicit Types (w : world B R).

Definition gate_at (u : uuid) (t : datetime) w : KillSwitchState := state_of_raw (redis_get (kill_key u) t (w_redis w)).

(** New orders of the user are refused, now and at any later time. *)
Definition gated (u : uuid) w : Prop := forall t, gate_at u t w = TRIPPED.

Definition keeps_gate (u : uuid) : relation (world B R) := fun w w' => gated u w -> gated u w'.

#[local] Instance keeps_gate_preorder u : PreOrder (keeps_gate u).
Proof. split; [intros w Hg; exact Hg|]. intros a b c Hab Hbc Ha. auto. Qed.

Definition same_redis : relation (world B R) := fun w w' => w_redis w' = w_redis w.

#[local] Instance same_redis_preorder : PreOrder same_redis.
Proof. split; [by intros w|]. intros a b c. unfold same_redis. congruence. Qed.

Lemma same_redis_keeps u {A : Type} (m : M B R A) : preserves same_redis m -> preserves (keeps_gate u) m.
Proof. intros Hm w r w' E Hg t. unfold gate_at. rewrite (Hm _ _ _ E). apply Hg. Qed.

(** Setting another key, or the flag itself, keeps the gate. *)
Lemma modify_keeps u f :
  (forall w t, gate_at u t w = TRIPPED -> state_of_raw (redis_get (kill_key u) t (w_redis (f w))) = TRIPPED) ->
  preserves (keeps_gate u) (modify f).
Proof. intros Hf w r w' [= <- <-] Hg t. apply Hf, Hg. Qed.

Lemma preserves_attempt (P : relation (world B R)) {A : Type} (m : M B R A) : preserves P m -> preserves P (attempt m).
Proof. intros Hm w r w' E. apply attempt_cases in E as (x & -> & E). by eapply Hm. Qed.

Lemma preserves_on_platform f : preserves same_redis (on_platform f).
Proof. by intros w r w' [= <- <-]. Qed.

Lemma preserves_save p : preserves same_redis (save_position p).
Proof. by intros w r w' [= <- <-]. Qed.

Lemma preserves_send_alert a : preserves same_redis (send_alert a).
Proof. by intros w r w' [= <- <-]. Qed.

Lemma preserves_quiet {A : Type} (m : M B R A) : preserves quiet m -> preserves same_redis m.
Proof. intros Hm w r w' E. apply (Hm _ _ _ E). Qed.

Lemma preserves_send_order k o : preserves same_redis (send_order k o).
Proof. intros w r w' E. by apply send_order_step in E as (b & ->). Qed.
End Gate.

(** Frame proofs by the shape of the program. *)
Ltac frame_step :=
  first
    [ apply preserves_ret, _ | apply preserves_raise, _ | apply preserves_gets, _ | apply preserves_from_result, _
    | apply preserves_raise_when, _ | apply preserves_attempt
    | apply preserves_on_platform | apply preserves_save | apply preserves_send_alert | apply preserves_send_order
    | apply preserves_quiet, on_broker_quiet | apply preserves_quiet, fresh_quiet
    | apply preserves_quiet, ensure_session_quiet
    | match goal with |- preserves _ (match ?x with _ => _ end) => destruct x end
    | match goal with |- preserves _ (if ?x then _ else _) => destruct x end
    | apply preserves_bind; [apply _ | | intros ?] ].
Ltac frame := cbv beta zeta; repeat (frame_step; cbv beta zeta; auto).

Section Trip.
Context {B R : Type} `{BrokerInterface B} `{RedisLaws R} `{Decryptor}.
Context (settings : Settings).
Implicit Types (w : world B R).

#[local] Existing Instance keeps_gate_preorder.
#[local] Existing Instance same_redis_preorder.

Lemma close_all_in_paper_redis g : preserves (@same_redis B R) (close_all_in_paper g).
Proof. induction g as [|p g IH]; simpl; unfold close_position_in_paper; frame. Qed.

Lemma close_all_via_broker_redis k g : preserves (@same_redis B R) (close_all_via_broker k g).
Proof. induction g as [|p g IH]; simpl; unfold close_position_via_broker; frame. Qed.

Lemma open_session_redis row u : preserves (@same_redis B R) (open_session row u).
Proof. unfold open_session. frame. Qed.

Lemma run_live_redis u bs : preserves (@same_redis B R) (run_live u bs).
Proof.
  induction bs as [|[cid g] bs IH]; simpl; frame; auto using open_session_redis, close_all_via_broker_redis.
Qed.

Lemma run_paper_redis bs : preserves (@same_redis B R) (run_paper bs).
Proof. induction bs as [|[cid g] bs IH]; simpl; frame; auto using close_all_in_paper_redis. Qed.

Lemma kill_subscriber_redis id : preserves (@same_redis B R) (kill_subscriber settings id).
Proof.
  unfold kill_subscriber, resolve_subscriber_credential_id, kill_subscriber_live, close_for_subscriber.
  frame; auto using close_all_in_paper_redis, open_session_redis, close_all_via_broker_redis.
Qed.

Lemma cascade_redis ids : preserves (@same_redis B R) (cascade settings ids).
Proof. induction ids as [|id ids IH]; simpl; frame; apply kill_subscriber_redis. Qed.

Lemma kill_strategy_redis id : preserves (@same_redis B R) (kill_strategy settings id).
Proof.
  unfold kill_strategy, close_owner. frame; auto using close_all_in_paper_redis, run_live_redis, cascade_redis.
Qed.

Lemma kill_strategies_redis ids : preserves (@same_redis B R) (kill_strategies settings ids).
Proof. induction ids as [|id ids IH]; simpl; frame; apply kill_strategy_redis. Qed.

(** ** Which operations keep the gate up *)

Lemma set_flag_keeps u v : preserves (keeps_gate u) (@set_kill_switch_status B R _ v TRIPPED).
Proof.
  apply modify_keeps. intros w t Hg. unfold gate_at in Hg. simpl_rec. rewrite redis_get_set. by case_decide.
Qed.

Lemma put_keeps u (key value : string) (f : world B R -> datetime) :
  key <> kill_key u -> preserves (keeps_gate u) (modify (fun w => w <| w_redis ::= redis_put key value (f w) |>)).
Proof.
  intros Hk. apply modify_keeps. intros w t Hg. unfold gate_at in Hg. simpl_rec. rewrite redis_get_put.
  by rewrite decide_False.
Qed.

Lemma delete_keeps u (key : string) :
  key <> kill_key u -> preserves (keeps_gate u) (modify (fun w : world B R => w <| w_redis ::= redis_delete key |>)).
Proof.
  intros Hk. apply modify_keeps. intros w t Hg. unfold gate_at in Hg. simpl_rec. rewrite redis_get_delete.
  by rewrite decide_False.
Qed.

(** The operations of the service, as one type. *)
Inductive kill_op : Type :=
| OpTrip (user : uuid) (force : option TripReason)
| OpConfig (user : uuid) (config : KillSwitchConfigCreate)
| OpToken (user : uuid) (token : string)
| OpReset (user by_user : uuid) (token : string)
| OpTrade (user : uuid)
| OpPnl (user : uuid) (delta : dec)
| OpAutoSquareOff
| OpDailyReset
| OpKillSubscriber (id : uuid)
| OpKillStrategy (id : uuid)
| OpMaster
| OpStatus (user : uuid).

Definition run_kill_op (op : kill_op) : M B R unit :=
  match op with
  | OpTrip u f => _ ← check_and_trigger settings u f; mret tt
  | OpConfig u c => _ ← update_config u c; mret tt
  | OpToken u t => _ ← create_reset_token u t; mret tt
  | OpReset u b t => _ ← manual_reset u b t; mret tt
  | OpTrade u => _ ← increment_daily_trades u; mret tt
  | OpPnl u d => _ ← increment_daily_pnl u d; mret tt
  | OpAutoSquareOff => _ ← auto_square_off_intraday settings; mret tt
  | OpDailyReset => daily_reset_all
  | OpKillSubscriber id => _ ← kill_subscriber settings id; mret tt
  | OpKillStrategy id => _ ← kill_strategy settings id; mret tt
  | OpMaster => _ ← execute_master_emergency settings; mret tt
  | OpStatus u => _ ← get_status u; mret tt
  end.

(** Operations meant to lower the gate of [u]. *)
Definition lowers (u : uuid) (op : kill_op) : Prop :=
  match op with OpReset v _ _ => v = u | OpDailyReset => True | _ => False end.

(** A sequence of operations at the times they happen, whatever they return. *)
Fixpoint run_kill_ops (ops : list (datetime * kill_op)) w : world B R :=
  match ops with
  | [] => w
  | (t, op) :: ops' => run_kill_ops ops' (snd (run_kill_op op (w <| w_now := t |>)))
  end.

Lemma get_config_redis u : preserves (@same_redis B R) (get_config u).
Proof. unfold get_config, cache_get_json, cache_set_json. frame. Qed.

Lemma daily_pnl_redis u : preserves (@same_redis B R) (calculate_daily_pnl u).
Proof. unfold calculate_daily_pnl, get_daily_pnl, realized_pnl_today_from_db, calculate_unrealized_pnl, get_positions_cache. frame. Qed.

Lemma daily_trades_redis u : preserves (@same_redis B R) (get_daily_trades u).
Proof. unfold get_daily_trades. frame. Qed.

Lemma trip_reason_redis u f c d : preserves (@same_redis B R) (trip_reason u f c d).
Proof. unfold trip_reason. frame; auto using daily_trades_redis. Qed.

Lemma check_and_trigger_keeps u v f : preserves (keeps_gate u) (check_and_trigger settings v f).
Proof.
  unfold check_and_trigger.
  apply preserves_bind; [apply _ | apply same_redis_keeps, get_config_redis | intros config].
  apply preserves_bind; [apply _ | apply same_redis_keeps, daily_pnl_redis | intros pnl].
  apply preserves_bind; [apply _ | apply same_redis_keeps, trip_reason_redis | intros [r|]]; [|apply preserves_ret, _].
  apply preserves_bind; [apply _ | apply set_flag_keeps | intros []].
  apply same_redis_keeps. unfold cache_set_json, audit. frame; auto using run_paper_redis, run_live_redis.
Qed.

Lemma square_off_users_keeps u users : preserves (keeps_gate u) (square_off_users settings users).
Proof.
  induction users as [|v users IH]; simpl; [apply preserves_ret, _|].
  apply preserves_bind; [apply _ | apply preserves_attempt, check_and_trigger_keeps | intros out].
  apply preserves_bind; [apply _ | done | intros ?; apply preserves_ret, _].
Qed.

Lemma manual_reset_keeps u v b tok : v <> u -> preserves (keeps_gate u) (@manual_reset B R _ v b tok).
Proof.
  intros Hne. unfold manual_reset.
  assert (Hkill : kill_key v <> kill_key u) by (intros E; by apply kill_key_inj in E).
  unfold clear_day_state, stamp_reset.
  repeat (first [ apply delete_keeps; discriminate || exact Hkill
                | apply put_keeps; discriminate
                | apply preserves_bind; [apply _ | | intros ?; cbv beta zeta]
                | apply preserves_gets, _ | apply preserves_raise_when, _ | apply preserves_ret, _
                | apply same_redis_keeps; unfold cache_delete, audit; solve [frame]
                | match goal with |- preserves _ (match ?x with _ => _ end) => destruct x end ]).
Qed.

Lemma kill_op_keeps u op : ~ lowers u op -> preserves (keeps_gate u) (run_kill_op op).
Proof.
  assert (Hthen : forall A (m : M B R A), preserves (keeps_gate u) m -> preserves (keeps_gate u) (_ ← m; mret tt)).
  { intros A m Hm. apply preserves_bind; [apply _ | done | intros ?; apply preserves_ret, _]. }
  intros Hl. destruct op; simpl in *; try apply Hthen.
  - apply check_and_trigger_keeps.
  - apply same_redis_keeps. unfold update_config, cache_delete, audit. frame.
  - apply preserves_bind; [apply _ | by apply put_keeps | intros ?; apply preserves_ret, _].
  - by apply manual_reset_keeps.
  - apply preserves_bind; [apply _ | apply same_redis_keeps, daily_trades_redis | intros n].
    apply preserves_bind; [apply _ | by apply put_keeps | intros ?; apply preserves_ret, _].
  - apply preserves_bind; [apply _ | apply preserves_gets, _ | intros n; cbv zeta].
    apply preserves_bind; [apply _ | by apply put_keeps | intros ?; apply preserves_ret, _].
  - apply preserves_bind; [apply _ | apply preserves_gets, _ | intros ?; apply square_off_users_keeps].
  - by destruct Hl.
  - apply same_redis_keeps, kill_subscriber_redis.
  - apply same_redis_keeps, kill_strategy_redis.
  - apply same_redis_keeps. unfold execute_master_emergency, master_emergency_halt. frame.
    apply kill_strategies_redis.
  - apply same_redis_keeps. unfold get_status, get_kill_switch_status, cache_get_json.
    frame; auto using get_config_redis, daily_pnl_redis, daily_trades_redis.
Qed.

(** Once the switch of a user is tripped it stays tripped, through any
    sequence of operations of the service at any times (further trips, resets of
    other users, issued tokens, config changes, counters, kills of any tier),
    until that user's own reset or the daily reset. *)
Theorem trip_holds_until_reset u ops w :
  gated u w -> Forall (fun op => ~ lowers u op.2) ops -> gated u (run_kill_ops ops w).
Proof.
  intros Hg Hops. revert w Hg. induction Hops as [|[t op] ops Hop _ IH]; intros w Hg; [done|]. simpl.
  apply IH. destruct (run_kill_op op (w <| w_now := t |>)) as [r w'] eqn:E. simpl.
  eapply kill_op_keeps; [exact Hop | exact E|]. intros t'. apply Hg.
Qed.
End Trip.

(** ** Check and trigger *)

Section Trigger.
Context {B R : Type} `{BrokerInterface B} `{RedisLaws R} `{Decryptor}.
Context (settings : Settings).
Implicit Types (w : world B R).

(** The tables of positions and orders, and what the close paths read. *)
Record same_book w w' : Prop := {
  sb_positions : w_positions w' = w_positions w;
  sb_orders : w_orders w' = w_orders w;
  sb_credentials : w_credentials w' = w_credentials w;
  sb_strategies : w_strategies w' = w_strategies w;
  sb_executions : w_executions w' = w_executions w;
  sb_now : w_now w' = w_now w;
  sb_next : w_next_id w <= w_next_id w'
}.

#[local] Instance same_book_preorder : PreOrder same_book.
Proof. split; [by split|]. intros u v w [] []. split; try (etransitivity; eauto; done). Qed.

(** Containment without the parts of the world a trip itself writes. *)
Record touched (scope : StrategyPosition -> Prop) (ok : BrokerCredentials -> StrategyPosition -> Prop) w w' : Prop := {
  tc_rows : Forall2 (fun p p' => p' = p \/ (scope p /\ killable p = true /\ flattened p p')) (w_positions w) (w_positions w');
  tc_orders : exists sent, w_orders w' = w_orders w ++ map sent_order sent
    /\ Forall (fun kp => In kp.2 (w_positions w) /\ killable kp.2 = true /\ scope kp.2 /\ ok kp.1 kp.2) sent;
  tc_book : book_inv w';
  tc_one : one_open (w_positions w) -> one_open (w_positions w');
  tc_ledger : rtc ledger_step (exposure (w_positions w)) (exposure (w_positions w'))
}.

Lemma contained_touched scope ok w w0 w1 w' :
  same_book w w0 -> contained scope ok w0 w1 -> same_book w1 w' -> touched scope ok w w'.
Proof.
  intros [Hp0 Ho0 _ _ _ _ _] [Hr Ho Hf Hb Hone Hl] [Hp1 Ho1 _ _ _ _ Hn].
  split; rewrite ?Hp1, ?Ho1, <- ?Hp0, <- ?Ho0; auto. by apply (book_inv_ext w1).
Qed.

Lemma preserves_book_platform f : preserves same_book (@on_platform B R f).
Proof. intros w r w' [= <- <-]. by split. Qed.

Lemma preserves_book_redis (f : world B R -> R -> R) : preserves same_book (modify (fun w => w <| w_redis ::= f w |>)).
Proof. intros w r w' [= <- <-]. by split. Qed.

(** The rows of the webhooks and the worker. *)
Definition desk w : list Trade * list StrategySignal * list (uuid * string) :=
  (pf_trades (w_platform w), pf_signals (w_platform w), pf_queue (w_platform w)).

(** The reads before the decision change nothing but the config cache. *)
Definition reads_only w w' : Prop :=
  same_book w w' /\ w_redis w' = w_redis w /\ pf_events (w_platform w') = pf_events (w_platform w) /\ desk w' = desk w.

#[local] Instance reads_only_preorder : PreOrder reads_only.
Proof.
  split; [by intros w|]. intros a b c (Hs1 & Hr1 & He1 & Ht1) (Hs2 & Hr2 & He2 & Ht2).
  split; [by transitivity b|]. split_and!; congruence.
Qed.

Lemma get_config_reads u : preserves reads_only (@get_config B R u).
Proof.
  unfold get_config, cache_get_json, cache_set_json.
  repeat (first [ apply preserves_ret, _ | apply preserves_raise, _ | apply preserves_gets, _ | apply preserves_raise_when, _
                | match goal with |- preserves _ (match ?x with _ => _ end) => destruct x end
                | apply preserves_bind; [apply _ | | intros ?]
                | intros w r w' [= <- <-]; by repeat split ]).
Qed.

Lemma daily_pnl_reads u w r w' : calculate_daily_pnl u w = (r, w') -> w' = w /\ exists d, r = Ok d.
Proof.
  unfold calculate_daily_pnl, get_daily_pnl, realized_pnl_today_from_db, calculate_unrealized_pnl, get_positions_cache, gets.
  unfold mbind, M_bind, mret, M_ret. destruct (deqb _ _); intros [= <- <-]; eauto.
Qed.

(** The number of trades the decision sees. *)
Definition trades_seen (u : uuid) w : option Z := count_of_raw (redis_get (trades_key u) (w_now w) (w_redis w)).

Lemma trip_reason_reads u f c d w r w' :
  trip_reason u f c d w = (r, w') ->
  w' = w /\ ((exists e, r = Err e)
    \/ r = Ok (match f, c with
               | Some x, _ => Some x
               | None, Some c => if enabled c then trades ← trades_seen u w; evaluate_breach d (max_daily_loss_inr c) trades (max_daily_trades c)
                                 else None
               | None, None => None
               end)).
Proof.
  unfold trip_reason. destruct f as [x|]; [intros [= <- <-]; auto|]. destruct c as [c|]; [|intros [= <- <-]; auto].
  destruct (enabled c); [|intros [= <- <-]; auto].
  unfold get_daily_trades, trades_seen, gets, raise, mbind, M_bind, mret, M_ret.
  destruct (count_of_raw _); intros [= <- <-]; split; eauto.
Qed.

(** What a trip leaves behind. *)
Record tripped (u : uuid) (reason : TripReason) w w' (res : KillSwitchResult) : Prop := {
  tr_result : kr_triggered res = true /\ kr_reason res = Some reason;
  tr_gate : gated u w';
  tr_now : w_now w' = w_now w;
  tr_desk : desk w' = desk w;
  tr_flag_only : forall key t, key <> kill_key u -> redis_get key t (w_redis w') = redis_get key t (w_redis w);
  tr_event : exists e, pf_events (w_platform w') = pf_events (w_platform w) ++ [e]
    /\ e_user_id e = u /\ e_reason e = reason /\ reset_at e = None /\ kr_event_id res = Some (e_id e);
  tr_rows : touched (fun p => of_user u p = true) (fun k p => on_account u w k p /\ paper_row settings w p = false) w w'
}.

Lemma record_trip_spec u pnl reason actions errors w r w' :
  record_trip u pnl reason actions errors w = (r, w') ->
  exists res e, r = Ok res /\ kr_triggered res = true /\ kr_reason res = Some reason /\ kr_daily_pnl res = pnl
    /\ same_book w w' /\ w_redis w' = w_redis w /\ desk w' = desk w
    /\ pf_events (w_platform w') = pf_events (w_platform w) ++ [e]
    /\ e_user_id e = u /\ e_reason e = reason /\ reset_at e = None /\ kr_event_id res = Some (e_id e).
Proof.
  intros E. injection E as <- <-. eexists _, _. do 4 (split; [reflexivity|]). split; [|by repeat split].
  split; try reflexivity. simpl. lia.
Qed.

Lemma flag_spec u w r w' :
  set_kill_switch_status u TRIPPED w = (r, w') ->
  r = Ok tt /\ same_book w w' /\ w_platform w' = w_platform w
  /\ forall key t, redis_get key t (w_redis w')
                   = if decide (kill_key u = key) then Some (state_value TRIPPED) else redis_get key t (w_redis w).
Proof.
  intros E. injection E as <- <-. split; [done|]. split; [by split|]. split; [done|].
  intros key t. apply redis_get_set.
Qed.

(** The closes of a trip, unless the user opted out of them. *)
Lemma trip_closes u config w r w' :
  book_inv w ->
  (if opt_is (fun c => negb (auto_square_off c)) config then mret ([], [])
   else execute_emergency_square_off settings u) w = (r, w') ->
  (exists actions errors, r = Ok (actions, errors))
  /\ contained (fun p => of_user u p = true) (fun k p => on_account u w k p /\ paper_row settings w p = false) w w'
  /\ (opt_is (fun c => negb (auto_square_off c)) config = true -> w' = w).
Proof.
  intros Hb E. destruct (opt_is _ config).
  - injection E as <- <-. split; [eauto|]. split; [by apply contained_quiet | done].
  - apply square_off_spec in E as (actions & errors & -> & Hc); [|done]. split; [eauto|]. split; [|done].
    eapply closing_contained; [done | apply targets_filter; [done | apply of_user_killable] | | exact Hc].
    by intros p [_ Hp]%filter_In.
Qed.

(** The part of a trip after the decision. *)
Lemma fire_spec u config pnl reason w r w' :
  book_inv w ->
  (set_kill_switch_status u TRIPPED ;;
   '(actions, errors) ← (if opt_is (fun c => negb (auto_square_off c)) config then mret ([], [])
                         else execute_emergency_square_off settings u);
   record_trip u pnl reason actions errors) w = (r, w') ->
  exists res, r = Ok res /\ tripped u reason w w' res /\ kr_daily_pnl res = pnl
    /\ (opt_is (fun c => negb (auto_square_off c)) config = true -> w_positions w' = w_positions w /\ w_orders w' = w_orders w).
Proof.
  intros Hb E. apply bind_cases in E as [([] & w1 & E1 & E) | (e & -> & E1)];
    apply flag_spec in E1 as (Hr & Hsb & Hpl & Hget); [|done]. clear Hr.
  assert (Hb1 : book_inv w1) by (apply (book_inv_ext w); [done | apply Hsb..]).
  apply bind_cases in E as [([actions errors] & w2 & E2 & E) | (e & -> & E2)];
    apply trip_closes in E2 as ((? & ? & Hr) & Hct & Hskip); try done. clear Hr.
  pose proof (ct_frame _ _ _ _ Hct) as Hfr. apply record_trip_spec in E as (res & e & -> & Ht & Hrs & Hpnl & Hsb2 & Hre & Htrd & Hev & Hevs).
  exists res. split; [done|]. split; [|split; [done|]].
  - split; [done | | by rewrite (sb_now _ _ Hsb2), (kf_now _ _ Hfr), (sb_now _ _ Hsb)
           | unfold desk in *; by rewrite Htrd, (kf_platform _ _ Hfr), Hpl | | |].
    + intros t. unfold gate_at. by rewrite Hre, (kf_redis _ _ Hfr), Hget, decide_True.
    + intros key t Hk. by rewrite Hre, (kf_redis _ _ Hfr), Hget, decide_False.
    + exists e. by rewrite Hev, (kf_platform _ _ Hfr), Hpl.
    + eapply contained_touched; [exact Hsb | | exact Hsb2]. eapply contained_mono; [| |exact Hct]; [done|].
      unfold on_account, paper_row. intros k p _. by rewrite (sb_credentials _ _ Hsb), (sb_strategies _ _ Hsb).
  - intros Hs. rewrite (sb_positions _ _ Hsb2), (sb_orders _ _ Hsb2), (Hskip Hs). split; apply Hsb.
Qed.

(** A check either decides not to fire (or cannot read its inputs) and leaves the
    book, the orders, Redis and the events alone, or trips. *)
Lemma trigger_cases u f w r w' :
  book_inv w -> check_and_trigger settings u f w = (r, w') ->
  (reads_only w w' /\ ((exists e, r = Err e) \/ exists res, r = Ok res /\ kr_triggered res = false))
  \/ (exists res reason, r = Ok res /\ tripped u reason w w' res).
Proof.
  intros Hb E. unfold check_and_trigger in E.
  apply bind_cases in E as [(config & w1 & E1 & E) | (e & -> & E1)]; apply get_config_reads in E1 as Hrd; [|by eauto].
  apply bind_cases in E as [(pnl & w2 & E2 & E) | (e & -> & E2)]; apply daily_pnl_reads in E2 as [-> _]; [|by eauto].
  apply bind_cases in E as [(reason & w2 & E2 & E) | (e & -> & E2)]; apply trip_reason_reads in E2 as [-> _]; [|by eauto].
  destruct reason as [reason|]; [|injection E as <- <-; left; eauto].
  assert (Hb1 : book_inv w1) by (apply (book_inv_ext w); [done | apply Hrd..]).
  apply fire_spec in E as (res & -> & Htr & _); [|done]. right. exists res, reason. split; [done|].
  destruct Hrd as (Hsb & Hre & Hev & Htrd). destruct Htr as [? ? Hnow Htrd' Hfl Hevt Hrows]. split; auto.
  - by rewrite Hnow, (sb_now _ _ Hsb).
  - congruence.
  - intros key t Hk. rewrite <- Hre. auto.
  - by rewrite <- Hev.
  - destruct Hrows as [Hr (sent & Ho & Hs) Hb' Hone Hl]. destruct Hsb as [Hp Hor Hcr Hst _ _ _].
    split; rewrite <- ?Hp, <- ?Hor; auto. exists sent. split; [done|]. eapply Forall_impl; [exact Hs|].
    unfold on_account, paper_row. intros kp. by rewrite Hp, Hcr, Hst.
Qed.


(** Exact comparison with the cap: strictly more than the cap is lost. *)
Lemma evaluate_breach_spec pnl cap trades max_trades s :
  s <= expo pnl -> s <= expo cap -> s <= 0 -> Z.abs (coef cap) < 10 ^ prec ->
  evaluate_breach pnl cap trades max_trades
  = if (0 <? at_scale s cap) && (at_scale s pnl + at_scale s cap <? 0) then Some DAILY_LOSS_BREACHED
    else if (0 <? max_trades) && (max_trades <? trades) then Some MAX_TRADES_BREACHED else None.
Proof.
  intros Hp Hc H0' Hfit. unfold evaluate_breach. rewrite dfix_exact by (simpl; lia).
  rewrite (dltb_scale s) by done. rewrite (dltb_scale s pnl) by done. rewrite at_scale_neg.
  replace (at_scale s dzero) with 0 by reflexivity.
  replace (at_scale s pnl <? - at_scale s cap) with (at_scale s pnl + at_scale s cap <? 0); [done|].
  apply eq_true_iff_eq. rewrite !Z.ltb_lt. lia.
Qed.

(** A threshold check fires exactly when an enabled limit is exceeded: the
    day's P&L (kept to paise or finer scale) plus the positive loss cap is
    negative, or the day's trades are above a positive trade cap; a loss equal
    to the cap does not fire, and the loss limit is reported first. *)
Theorem trip_exactly_when_exceeded u w res w' c n s :
  book_inv w -> check_and_trigger settings u None w = (Ok res, w') ->
  fst (get_config u w) = Ok (Some c) -> enabled c = true -> trades_seen u w = Some n ->
  s <= expo (kr_daily_pnl res) -> s <= expo (max_daily_loss_inr c) -> s <= 0 ->
  Z.abs (coef (max_daily_loss_inr c)) < 10 ^ prec ->
  kr_reason res
  = (if (0 <? at_scale s (max_daily_loss_inr c))
        && (at_scale s (kr_daily_pnl res) + at_scale s (max_daily_loss_inr c) <? 0) then Some DAILY_LOSS_BREACHED
     else if (0 <? max_daily_trades c) && (max_daily_trades c <? n) then Some MAX_TRADES_BREACHED else None)
  /\ kr_triggered res = negb (absent (kr_reason res)).
Proof.
  intros Hb E Hcfg Hen Hn Hs1 Hs2 Hs0 Hfit. unfold check_and_trigger in E.
  apply bind_cases in E as [(config & w1 & E1 & E) | (e & [=] & _)].
  rewrite E1 in Hcfg. injection Hcfg as ->. apply get_config_reads in E1 as Hrd.
  apply bind_cases in E as [(pnl & w2 & E2 & E) | (e & [=] & _)]; apply daily_pnl_reads in E2 as [-> _].
  apply bind_cases in E as [(reason & w2 & E2 & E) | (e & [=] & _)]; apply trip_reason_reads in E2 as [-> Hr].
  destruct Hr as [(e & [=]) | [= Hr]]. rewrite Hen in Hr. destruct Hrd as (Hsb & Hre & _).
  unfold trades_seen in *. rewrite (sb_now _ _ Hsb), Hre, Hn in Hr. simpl in Hr.
  assert (Hres : kr_reason res = reason /\ kr_daily_pnl res = pnl /\ kr_triggered res = negb (absent reason)).
  { destruct reason as [reason|]; [|by injection E as <- <-].
    apply fire_spec in E as (res' & [= <-] & Htr & Hp & _); [|apply (book_inv_ext w); [done | apply Hsb..]].
    by destruct Htr as [[Ht Hrs] _ _ _ _]. }
  destruct Hres as (Hreason & Hpnl & Htrig). rewrite Hreason, Htrig. split; [|done].
  rewrite Hr, Hpnl. rewrite Hpnl in Hs1. by apply evaluate_breach_spec.
Qed.
End Trigger.

(** ** Reset *)

Section Reset.
Context {B R : Type} `{BrokerInterface B} `{RedisLaws R} `{Decryptor}.
Context (settings : Settings).
Implicit Types (w : world B R).

#[local] Existing Instance same_book_preorder.

(** One write to Redis: the reads afterwards, nothing else changes. *)
Lemma redis_write_spec (f : world B R -> R -> R) (get' : world B R -> string -> datetime -> option string) w r w' :
  (forall w key t, redis_get key t (f w (w_redis w)) = get' w key t) ->
  modify (fun w => w <| w_redis ::= f w |>) w = (r, w') ->
  r = Ok tt /\ same_book w w' /\ w_platform w' = w_platform w /\ forall key t, redis_get key t (w_redis w') = get' w key t.
Proof. intros Hf E. injection E as <- <-. split; [done|]. split; [by split|]. split; [done|]. apply Hf. Qed.

Lemma delete_key_spec k w r w' :
  delete_key k w = (r, w') ->
  r = Ok tt /\ same_book w w' /\ w_platform w' = w_platform w
  /\ forall key t, redis_get key t (w_redis w') = if decide (k = key) then None else redis_get key t (w_redis w).
Proof.
  apply (redis_write_spec (fun _ => redis_delete k)
           (fun w key t => if decide (k = key) then None else redis_get key t (w_redis w))).
  intros. apply redis_get_delete.
Qed.

Lemma set_daily_pnl_spec u v w r w' :
  set_daily_pnl u v w = (r, w') ->
  r = Ok tt /\ same_book w w' /\ w_platform w' = w_platform w
  /\ forall key t, redis_get key t (w_redis w')
       = if decide (pnl_key u = key) then (if t <? w_now w + DAILY_PNL_TTL then Some (dec_str v) else None)
         else redis_get key t (w_redis w).
Proof.
  apply (redis_write_spec (fun w => redis_put (pnl_key u) (dec_str v) (w_now w + DAILY_PNL_TTL))
    (fun w key t => if decide (pnl_key u = key) then (if t <? w_now w + DAILY_PNL_TTL then Some (dec_str v) else None)
                    else redis_get key t (w_redis w))).
  intros. apply redis_get_put.
Qed.

Lemma cache_delete_spec k w r w' :
  cache_delete k w = (r, w') ->
  r = Ok tt /\ same_book w w' /\ w_redis w' = w_redis w
  /\ w_platform w' = w_platform w <| pf_cache ::= store_delete k |>.
Proof. intros E. injection E as <- <-. by repeat split. Qed.

(** Redis after the day state of [u] is cleared. *)
Lemma clear_day_state_spec u w r w' :
  clear_day_state u w = (r, w') ->
  r = Ok tt /\ same_book w w' /\ w_now w' = w_now w
  /\ (forall key t, key <> pnl_key u ->
       redis_get key t (w_redis w')
       = if bool_decide (key ∈ [reset_token_key u; kill_key u; trades_key u; trip_meta_key u]) then None
         else redis_get key t (w_redis w))
  /\ (forall t, redis_get (pnl_key u) t (w_redis w')
               = if t <? w_now w + DAILY_PNL_TTL then Some "0"%string else None)
  /\ w_platform w' = w_platform w <| pf_cache ::= store_delete (z_str u) |>.
Proof.
  intros E. unfold clear_day_state in E.
  apply bind_cases in E as [([] & w1 & E1 & E) | (e & -> & E1)]; apply delete_key_spec in E1 as (Hr1 & Hs1 & Hp1 & Hg1); [|done].
  apply bind_cases in E as [([] & w2 & E2 & E) | (e & -> & E2)];
    apply (delete_key_spec (kill_key u)) in E2 as (Hr2 & Hs2 & Hp2 & Hg2); [|done].
  apply bind_cases in E as [([] & w3 & E3 & E) | (e & -> & E3)]; apply set_daily_pnl_spec in E3 as (Hr3 & Hs3 & Hp3 & Hg3); [|done].
  apply bind_cases in E as [([] & w4 & E4 & E) | (e & -> & E4)]; apply delete_key_spec in E4 as (Hr4 & Hs4 & Hp4 & Hg4); [|done].
  apply bind_cases in E as [([] & w5 & E5 & E) | (e & -> & E5)]; apply cache_delete_spec in E5 as (Hr5 & Hs5 & Hg5 & Hp5); [|done].
  apply delete_key_spec in E as (-> & Hs6 & Hp6 & Hg6).
  assert (Hs12 : same_book w w2) by (by transitivity w1).
  assert (Hs : same_book w w').
  { transitivity w2; [done|]. transitivity w3; [done|]. transitivity w4; [done|]. by transitivity w5. }
  split; [done|]. split; [done|]. split; [apply Hs|]. split; [|split].
  - intros key t Hk. rewrite Hg6, Hg5, Hg4, Hg3, Hg2, Hg1, (decide_False (P := pnl_key u = key)) by congruence.
    case_bool_decide as Hin; rewrite !elem_of_cons in Hin; repeat case_decide; subst; try done; exfalso;
      try (apply Hin; tauto). destruct Hin as [|[|[|[|Hn]]]]; try congruence. by apply elem_of_nil in Hn.
  - intros t. rewrite Hg6, Hg5, Hg4, Hg3, !decide_False, decide_True by done.
    by rewrite (sb_now _ _ Hs12).
  - by rewrite Hp6, Hp5, Hp4, Hp3, Hp2, Hp1.
Qed.

Lemma stamp_reset_spec u b w r w' :
  stamp_reset u b w = (r, w') ->
  (exists row, r = Ok row) /\ same_book w w' /\ w_redis w' = w_redis w
  /\ pf_cache (w_platform w') = pf_cache (w_platform w)
  /\ pf_position_cache (w_platform w') = pf_position_cache (w_platform w).
Proof.
  unfold stamp_reset, gets, mbind, M_bind. destruct (latest_by _ _) as [e|]; intros [= <- <-]; by repeat split; eauto.
Qed.

(** A reset is refused and changes nothing, or it holds a live token. *)
Lemma manual_reset_cases u b tok w r w' :
  manual_reset u b tok w = (r, w') ->
  (r = Err PermissionError /\ w' = w)
  \/ (exists row w1, r = Ok row /\ clear_day_state u w = (Ok tt, w1) /\ same_book w w'
      /\ redis_get (reset_token_key u) (w_now w) (w_redis w) = Some tok /\ tok <> ""%string
      /\ w_redis w' = w_redis w1 /\ pf_cache (w_platform w') = pf_cache (w_platform w1)
      /\ pf_position_cache (w_platform w') = pf_position_cache (w_platform w1)).
Proof.
  intros E. unfold manual_reset in E.
  apply bind_cases in E as [(expected & w0 & [= <- <-] & E) | (e & -> & [=])].
  apply bind_cases in E as [([] & w0 & E1 & E) | (e & -> & E1)]; apply raise_when_spec in E1 as [-> Hr];
    destruct (opt_is _ _) eqn:Ho; try discriminate; [|by injection Hr as ->; left].
  apply bind_cases in E as [([] & w0 & E1 & E) | (e & -> & E1)]; apply raise_when_spec in E1 as [-> Hr2];
    destruct (bool_decide _) eqn:Hd; try discriminate; [|by injection Hr2 as ->; left].
  apply bool_decide_eq_true in Hd. rewrite Hd in Ho. simpl in Ho. apply negb_true_iff, String.eqb_neq in Ho.
  right. apply bind_cases in E as [([] & w1 & E1 & E) | (e & -> & E1)];
    apply clear_day_state_spec in E1 as Hc; destruct Hc as (Hok & Hsb & _); [|done].
  apply bind_cases in E as [(row & w2 & E2 & E) | (e & -> & E2)]; apply stamp_reset_spec in E2 as ((? & Hr3) & Hsb2 & Hre & Hca & Hpc); [|done].
  apply bind_cases in E as [([] & w3 & [= <-] & E) | (e & -> & [=])]. injection E as <- <-.
  exists row, w1. split; [done|]. split; [done|]. split; [|done].
  transitivity w1; [done|]. transitivity w2; [done|]. by split.
Qed.

(** A manual reset without the live token changes nothing; with it the
    user's gate goes down, the day's trade counter restarts, no position row or
    order changes, and the token is spent: no second reset succeeds before a new
    token is issued. *)
Theorem reset_needs_fresh_token u b tok w r w' :
  manual_reset u b tok w = (r, w') ->
  (r = Err PermissionError /\ w' = w)
  \/ (redis_get (reset_token_key u) (w_now w) (w_redis w) = Some tok /\ same_book w w'
      /\ (forall t, gate_at u t w' = ACTIVE) /\ trades_seen u w' = Some 0
      /\ forall b' tok', manual_reset u b' tok' w' = (Err PermissionError, w')).
Proof.
  intros E. apply manual_reset_cases in E as [Hno | (row & w1 & -> & Hc & Hsb & Htok & _ & Hre & _)]; [by left|].
  right. apply clear_day_state_spec in Hc as (_ & _ & _ & Hget & _ & _). split; [done|]. split; [done|].
  assert (Hgone : forall key t, key ∈ [reset_token_key u; kill_key u; trades_key u; trip_meta_key u] ->
            redis_get key t (w_redis w') = None).
  { intros key t Hk. rewrite Hre, Hget; [by rewrite bool_decide_true|].
    intros ->. rewrite !elem_of_cons in Hk. destruct Hk as [|[|[|[|Hn]]]]; try done. by apply elem_of_nil in Hn. }
  split; [intros t; unfold gate_at; rewrite Hgone by set_solver; done|].
  split; [unfold trades_seen; rewrite Hgone by set_solver; done|].
  intros b' tok'. unfold manual_reset, gets, mbind, M_bind. rewrite Hgone by set_solver. done.
Qed.

(** The P&L the brake judges after a reset is the database's figure: the reset
    zeroes the Redis counter, and a zero counter falls back to the database. *)
Theorem reset_keeps_database_loss u b tok w row w' :
  manual_reset u b tok w = (Ok row, w') ->
  calculate_daily_pnl u w'
  = (Ok (dadd (sql_sum (omap final_pnl (List.filter (counts_today u (w_now w) (w_strategies w)) (w_positions w))))
              (unrealized_sum (default [] (store_get (pos_key u) (w_now w) (pf_position_cache (w_platform w)))))), w').
Proof.
  intros E. apply manual_reset_cases in E as [[[=] _] | (row' & w1 & [= <-] & Hc & Hsb & _ & _ & Hre & _ & Hpc)].
  apply clear_day_state_spec in Hc as (_ & _ & _ & _ & Hpnl & Hpf). destruct Hsb as [Hp _ _ Hst _ Hnow _].
  unfold calculate_daily_pnl, get_daily_pnl, realized_pnl_today_from_db, calculate_unrealized_pnl, get_positions_cache, gets, mbind, M_bind.
  rewrite Hre, Hpnl, Hnow. rewrite (proj2 (Z.ltb_lt _ _)) by (unfold DAILY_PNL_TTL; lia).
  replace (deqb (pnl_of_raw (Some "0"%string)) dzero) with true by reflexivity.
  rewrite Hp, Hst, Hpc, Hpf, !Hnow. reflexivity.
Qed.

(** A reset leaves the trip metadata in the cache: it deletes "kill_meta:<user>"
    and "cache:<user>", the metadata is under "cache:kill_meta:<user>". *)
Theorem reset_keeps_trip_metadata u b tok w row w' t :
  0 <= u -> manual_reset u b tok w = (Ok row, w') ->
  store_get (trip_meta_key u) t (pf_cache (w_platform w')) = store_get (trip_meta_key u) t (pf_cache (w_platform w)).
Proof.
  intros Hu E. apply manual_reset_cases in E as [[[=] _] | (row' & w1 & [= <-] & Hc & _ & _ & _ & _ & Hca & _)].
  apply clear_day_state_spec in Hc as (_ & _ & _ & _ & _ & Hpf). rewrite Hca, Hpf. simpl_rec.
  unfold store_delete. rewrite store_get_drop.
  destruct (String.eqb_spec (trip_meta_key u) (z_str u)) as [Ek|]; [exfalso | done].
  apply (f_equal L) in Ek. rewrite (z_str_digits u Hu) in Ek. destruct (str_of_nonneg_spec u Hu) as [_ Hd].
  rewrite <- Ek in Hd. done.
Qed.
End Reset.

(** ** The platform-wide emergency *)

Section Master.
Context {B R : Type} `{BrokerInterface B} `{RedisLaws R} `{Decryptor}.
Context (settings : Settings).
Implicit Types (w : world B R).

(** The rows the emergency reaches: tier 2 of every strategy with an open row. *)
Definition emergency_scope w (p : StrategyPosition) : Prop :=
  exists sid, In sid (map p_strategy_id (List.filter killable (w_positions w))) /\ strategy_scope w sid p.

Lemma distinct_In ids i : In i (distinct ids) -> In i ids.
Proof.
  induction ids as [|j ids IH]; simpl; [done|]. intros [-> | Hin]; [by left|].
  apply filter_In in Hin as [Hin _]. auto.
Qed.

Definition forced_offline (m : MarketplaceSubscription) : MarketplaceSubscription :=
  if is_active_sub m then m <| m_execution_mode := "offline"%string |> else m.

(** The emergency, step by step. *)
Lemma emergency_spec w r w' :
  book_inv w -> credential_keys w -> marketplace_fanout_enabled settings = true ->
  execute_master_emergency settings w = (r, w') ->
  (exists closed forced plan, r = Ok (MasterHalted closed forced plan))
  /\ pf_halted (w_platform w') = true
  /\ pf_subscriptions (w_platform w') = map forced_offline (pf_subscriptions (w_platform w))
  /\ touched (emergency_scope w) (strategy_account w) w w'.
Proof.
  intros Hb Hkeys Hen E. unfold execute_master_emergency in E. rewrite Hen in E. cbn [negb] in E.
  apply bind_cases in E as [(pos & w0 & [= <- <-] & E) | (e & -> & [=])].
  apply bind_cases in E as [(subs & w0 & [= <- <-] & E) | (e & -> & [=])].
  apply bind_cases in E as [(plan & w1 & E1 & E) | (e & -> & [=])].
  assert (Hhalt : same_book w w1 /\ w_platform w1 = w_platform w <| pf_halted := true |>).
  { injection E1 as _ <-. by repeat split. }
  clear E1. destruct Hhalt as [Hsb Hpf].
  assert (Hb1 : book_inv w1) by (apply (book_inv_ext w); [done | apply Hsb..]).
  apply bind_cases in E as [(n & w2 & E2 & E) | (e & -> & E2)];
    apply kill_strategies_spec in E2 as (n' & Hr & Hct); try done;
    try (unfold credential_keys; by rewrite (sb_credentials _ _ Hsb)).
  apply bind_cases in E as [(forced & w3 & [= <- <-] & E) | (e & -> & [=])].
  apply bind_cases in E as [([] & w3 & E3 & E) | (e & -> & [=])]. injection E as <- <-.
  assert (Hoff : same_book w2 w3 /\ pf_halted (w_platform w3) = pf_halted (w_platform w2)
               /\ pf_subscriptions (w_platform w3) = map forced_offline (pf_subscriptions (w_platform w2))).
  { injection E3 as <-. by repeat split. }
  clear E3. destruct Hoff as (Hsb3 & Hh3 & Hs3). pose proof (kf_platform _ _ (ct_frame _ _ _ _ Hct)) as Hp2.
  assert (Hto : touched (emergency_scope w) (strategy_account w) w w3).
  { eapply contained_touched; [exact Hsb | eapply contained_mono; [| |exact Hct] | exact Hsb3].
    - intros p (sid & Hin & Hsc). exists sid. split; [by apply distinct_In|]. unfold strategy_scope in *. by rewrite Hpf in Hsc.
    - unfold strategy_account, on_subscriber_account, on_account. intros k p _.
      by rewrite (sb_credentials _ _ Hsb), (sb_strategies _ _ Hsb), Hpf. }
  split; [eauto|]. split; [by rewrite Hh3, Hp2, Hpf|]. split; [by rewrite Hs3, Hp2, Hpf|]. done.
Qed.

(** With the marketplace enabled the platform emergency always completes: the
    halt flag is set, every active subscription goes offline, and only rows in
    the reach of some strategy kill are emptied, so a row mirrored by a
    subscription that is not active any more stays as it is. *)
Theorem master_emergency_reach w r w' :
  book_inv w -> credential_keys w -> marketplace_fanout_enabled settings = true ->
  execute_master_emergency settings w = (r, w') ->
  (exists closed forced plan, r = Ok (MasterHalted closed forced plan))
  /\ pf_halted (w_platform w') = true
  /\ pf_subscriptions (w_platform w') = map forced_offline (pf_subscriptions (w_platform w))
  /\ touched (emergency_scope w) (strategy_account w) w w'
  /\ (forall p id, In p (w_positions w) -> p_subscription_id p = Some id ->
       (forall m, In m (pf_subscriptions (w_platform w)) -> m_id m = id -> m_status m <> sub_active) ->
       In p (w_positions w')).
Proof.
  intros Hb Hkeys Hen E. destruct (emergency_spec w r w' Hb Hkeys Hen E) as (Hok & Hh & Hs & Hto).
  do 3 (split; [done|]). split; [done|].
  intros p id Hin Hid Hinactive.
  destruct (Forall2_In_l _ _ _ p (tc_rows _ _ _ _ Hto) Hin) as (p' & Hin' & [-> | (Hsc & _)]); [done | exfalso].
  destruct Hsc as (sid & _ & [Ho | (id' & Hact & Hsub)]).
  - unfold of_strategy_owner, owner_row in Ho. rewrite Hid in Ho. by rewrite andb_false_r in Ho.
  - unfold of_subscription in Hsub. bool_to_prop. assert (id' = id) as -> by congruence.
    unfold active_subscriptions in Hact. apply in_concat in Hact as (l & Hl & Hid').
    apply in_map_iff in Hl as (m & <- & Hm). apply filter_In in Hm as [Hm Ha]. apply bool_decide_eq_true in Ha.
    apply in_map_iff in Hid' as (li & Hmid & _). by eapply Hinactive.
Qed.
End Master.

(** ** Concrete runs *)

(** The owner lost 3000.50 today on a closed position; the cap is 3000. *)
Definition loss_world : world ScriptedBroker store :=
  kill_world
    <| w_positions ::= app [sample_position <| p_id := 19 |> <| remaining_quantity := 0 |> <| status := st_closed |>
                              <| closed_at := Some 50 |> <| final_pnl := Some (Dec (-300050) (-2)) |>] |>
    <| w_platform ::= fun f => f
         <| pf_configs := [{| kc_user_id := 1; max_daily_loss_inr := Dec 300000 (-2); max_daily_trades := 50;
                              enabled := true; auto_square_off := true; kc_updated_at := 5 |}] |> |>.

Lemma loss_world_book : book_inv loss_world.
Proof.
  split; cbn.
  - apply (bool_decide_eq_true_1 _). vm_compute. reflexivity.
  - by repeat constructor.
  - repeat (apply List.Forall_cons; [apply pos_invb_sound; vm_compute; reflexivity|]). constructor.
Qed.

Definition after_trip : world ScriptedBroker store := snd (check_and_trigger sample_settings 1 None loss_world).


Lemma trip_exactly_when_exceeded_witness :
  exists res w', check_and_trigger sample_settings 1 None loss_world = (Ok res, w')
    /\ kr_reason res = Some DAILY_LOSS_BREACHED /\ kr_triggered res = true.
Proof.
  destruct (check_and_trigger sample_settings 1 None loss_world) as [[res|e] w'] eqn:E; [|exfalso; vm_compute in E; discriminate].
  exists res, w'. split; [done|].
  assert (Hp : kr_daily_pnl res = Dec (-300050) (-2)) by (vm_compute in E; injection E as <- _; reflexivity).
  destruct (trip_exactly_when_exceeded sample_settings 1 loss_world res w'
              {| kc_user_id := 1; max_daily_loss_inr := Dec 300000 (-2); max_daily_trades := 50; enabled := true;
                 auto_square_off := true; kc_updated_at := 5 |} 0 (-2) loss_world_book E) as [Hr Ht];
    [vm_compute; reflexivity | reflexivity | vm_compute; reflexivity | rewrite Hp; reflexivity || (simpl; lia) | simpl; lia | lia | reflexivity |].
  rewrite Hp in Hr. split; [exact Hr|]. rewrite Ht, Hr. reflexivity.
Defined.

Lemma after_trip_gated : gated 1 after_trip.
Proof.
  intros t. unfold gate_at. replace (redis_get (kill_key 1) t (w_redis after_trip)) with (Some "TRIPPED"%string);
    [reflexivity | vm_compute; reflexivity].
Qed.

Lemma trip_holds_until_reset_witness :
  gated 1 (run_kill_ops sample_settings
             [(200, OpToken 1 "secret-token"); (210, OpReset 7 7 "x"); (220, OpTrip 1 (Some MANUAL)); (90000, OpStatus 1)]
             after_trip).
Proof.
  apply (trip_holds_until_reset sample_settings); [exact after_trip_gated|]. repeat constructor; simpl; lia.
Defined.

(** Token, reset, and the same check again: the loss is still in the database, so
    the switch trips at once; the metadata of the first trip is still cached. *)
Definition token_world : world ScriptedBroker store :=
  snd (create_reset_token 1 "secret-token" after_trip).

Lemma reset_needs_fresh_token_witness :
  let out := manual_reset 1 1 "secret-token" token_world in
  (fst out = Err PermissionError /\ snd out = token_world)
  \/ (redis_get (reset_token_key 1) (w_now token_world) (w_redis token_world) = Some "secret-token"%string
      /\ same_book token_world (snd out) /\ (forall t, gate_at 1 t (snd out) = ACTIVE)
      /\ trades_seen 1 (snd out) = Some 0
      /\ forall b' tok', manual_reset 1 b' tok' (snd out) = (Err PermissionError, snd out)).
Proof.
  intros out. apply (reset_needs_fresh_token 1 1 "secret-token" token_world (fst out) (snd out)).
  apply surjective_pairing.
Defined.

Example reset_then_trips_again :
  let '(r, w1) := manual_reset 1 1 "secret-token" token_world in
  is_ok r = true
  /\ (st ← fst (get_status 1 w1); Ok (ks_state st, ks_trip_reason st)) = Ok (ACTIVE, Some DAILY_LOSS_BREACHED)
  /\ (res ← fst (check_and_trigger sample_settings 1 None w1); Ok (kr_reason res)) = Ok (Some DAILY_LOSS_BREACHED).
Proof. vm_compute. auto. Qed.

(** A rejected acknowledgement is taken for a close: the row is closed, the log
    counts it, and no error is reported. *)
Example square_off_trusts_rejected_ack :
  let '(r, w1) := execute_emergency_square_off sample_settings 1 (kill_world <| w_broker ::= fun b => b <| sb_ack := REJECTED |> |>) in
  (out ← r; Ok (map positions_squared_off (fst out), snd out)) = Ok ([1; 1], [])
  /\ map status (w_positions w1) = [st_closed; st_closed; st_open].
Proof. vm_compute. auto. Qed.

(** The subscription was cancelled while its mirrored row is open: the platform
    emergency reports success and leaves the row. *)
Definition cancelled_world : world ScriptedBroker store :=
  kill_world <| w_platform ::= fun f => f <| pf_subscriptions ::= map (fun m => m <| m_status := sub_cancelled |>) |> |>.

Lemma master_emergency_reach_witness :
  let out := execute_master_emergency sample_settings cancelled_world in
  (exists closed forced plan, fst out = Ok (MasterHalted closed forced plan))
  /\ pf_halted (w_platform (snd out)) = true
  /\ pf_subscriptions (w_platform (snd out)) = map forced_offline (pf_subscriptions (w_platform cancelled_world))
  /\ touched (emergency_scope cancelled_world) (strategy_account cancelled_world) cancelled_world (snd out)
  /\ (forall p id, In p (w_positions cancelled_world) -> p_subscription_id p = Some id ->
       (forall m, In m (pf_subscriptions (w_platform cancelled_world)) -> m_id m = id -> m_status m <> sub_active) ->
       In p (w_positions (snd out))).
Proof.
  intros out. apply (master_emergency_reach sample_settings cancelled_world (fst out) (snd out));
    [by apply (book_inv_ext kill_world); [exact kill_world_book|..] | exact kill_world_keys | reflexivity
    | apply surjective_pairing].
Defined.
