(* ===== verification/Webhook.v ===== *)
(** * The TradingView webhook (backend/app/api/webhook.py)

    One alert: token, rate limit, signature, payload, idempotency claim, kill
    switch, user, daily cap, circuit breaker, binding, dispatch to the order
    service, daily counter and the loss brake, with the audit event handed to the
    response's background tasks ([pf_webhook_audit]; whether the framework runs
    them is not modelled).  HTTP errors are [HTTPException] with their status.
    [sanitize_input] is the one of backend/app/core/security_ext.py.

    The digest, the HMAC and the JSON decoder are arguments: the theorems hold for
    any of them.  Source address, latencies, the payload copy of the audit event and
    the broker's own words for a rejection are not kept; a user id is the integer of
    its UUID. *)

From Stdlib Require Import ZArith Lia List Bool String Ascii.
From stdpp Require Import base list strings gmap.
From S2P Require Import Prelude PyText PyDecimal PyNum SymbolMatch Records Enums Models Safeguards Book DayState.
From S2P Require Import CircuitBreaker KillSwitch OrderService.

(** ** [sanitize_input] *)

(** [re.sub(pattern, "", s)] for a pattern that never matches the empty string:
    [mlen prev s] is the length of its match at the start of [s], zero for none,
    [prev] the character before. *)
Fixpoint sub_all (mlen : option ascii -> text -> nat) (prev : option ascii) (skip : nat) (s : text) : text :=
  match s with
  | [] => []
  | c :: s' =>
      match skip with
      | S skip' => sub_all mlen (Some c) skip' s'
      | O => match mlen prev s with
             | O => c :: sub_all mlen (Some c) O s'
             | S skip' => sub_all mlen (Some c) skip' s'
             end
      end
  end.

Fixpoint index_of (c : ascii) (s : text) : option nat :=
  match s with
  | [] => None
  | d :: s' => if Ascii.eqb c d then Some O else S <$> index_of c s'
  end.

(** [<[^>]+>]. *)
Definition html_tag (prev : option ascii) (s : text) : nat :=
  match s with
  | "<"%char :: s' => match index_of ">" s' with Some (S n) => S (S (S n)) | _ => O end
  | _ => O
  end.

Definition ctrl_char (prev : option ascii) (s : text) : nat :=
  match s with
  | c :: _ => if between "000" "008" c || between "011" "012" c || between "014" "031" c || Ascii.eqb c "127" then 1 else 0
  | [] => 0
  end.

Definition sql_comment (prev : option ascii) (s : text) : nat :=
  match s with
  | "-"%char :: "-"%char :: _ => 2
  | "#"%char :: _ => 1
  | "/"%char :: "*"%char :: _ => 2
  | "*"%char :: "/"%char :: _ => 2
  | _ => 0
  end.

Definition SQL_KEYWORDS : list text :=
  map L ["drop"; "union"; "select"; "insert"; "update"; "delete"; "truncate"; "exec"; "alter"]%string.

(** [\w] on ASCII. *)
Definition is_word (c : ascii) : bool := is_upper c || is_lower c || is_digit c || Ascii.eqb c "_".

Definition word_before (prev : option ascii) : bool := match prev with Some c => is_word c | None => false end.
Definition word_after (s : text) : bool := match s with c :: _ => is_word c | [] => false end.

Fixpoint first_keyword (keywords : list text) (s : text) : nat :=
  match keywords with
  | [] => O
  | kw :: rest =>
      match strip_prefix kw (lower s) with
      | Some tail => if word_after tail then first_keyword rest s else length kw
      | None => first_keyword rest s
      end
  end.

Definition sql_keyword (prev : option ascii) (s : text) : nat :=
  if word_before prev then O else first_keyword SQL_KEYWORDS s.

Definition sanitize_input (s : string) : string :=
  string_of_list_ascii
    (strip (sub_all sql_keyword None O (sub_all sql_comment None O (sub_all ctrl_char None O (sub_all html_tag None O (L s)))))).

(** ** Requests and responses *)

Record webhook_request : Type := {
  rq_token : string;
  rq_body : string;
  rq_signature : string
}.

Record token_info : Type := {
  ti_user_id : uuid;
  ti_token_id : uuid;
  ti_hmac_secret : string
}.

Inductive WebhookResponseStatus : Type := W_SUCCESS | W_REJECTED | W_DUPLICATE | W_ERROR.

Record WebhookResponse : Type := {
  wr_status : WebhookResponseStatus;
  wr_order_id : option string;
  wr_trade_id : option uuid;
  wr_message : string;
  wr_native_symbol : option string;
  wr_trip_reason : option (option TripReason)
}.

Definition WEBHOOK_RATE_LIMIT_REQUESTS : Z := 60.
Definition WEBHOOK_RATE_LIMIT_WINDOW_SECONDS : Z := 60.
Definition TOKEN_CACHE_TTL_SECONDS : Z := 60.
Definition IDEMPOTENCY_TTL_SECONDS : Z := 60.

Definition webhook_rate_key (user_id : uuid) : string := String.append "webhook:" (z_str user_id).
Definition token_cache_key (token_hash : string) : string := String.append "webhook_token:" token_hash.

Definition duplicate_response : WebhookResponse :=
  {| wr_status := W_DUPLICATE; wr_order_id := None; wr_trade_id := None; wr_message := "duplicate signal suppressed";
     wr_native_symbol := None; wr_trip_reason := None |}.

Definition executed_response (result : OrderResult) : WebhookResponse :=
  {| wr_status := if or_success result then W_SUCCESS else W_REJECTED;
     wr_order_id := nonempty (or_broker_order_id result); wr_trade_id := Some (or_trade_id result);
     wr_message := or_message result; wr_native_symbol := Some (or_native_symbol result); wr_trip_reason := None |}.

Definition tripped_response (result : OrderResult) (reason : option TripReason) : WebhookResponse :=
  {| wr_status := W_SUCCESS; wr_order_id := nonempty (or_broker_order_id result);
     wr_trade_id := Some (or_trade_id result); wr_message := "order placed; kill-switch tripped";
     wr_native_symbol := Some (or_native_symbol result); wr_trip_reason := Some reason |}.

(** [TripReason.value]. *)
Definition reason_value (r : TripReason) : string :=
  match r with
  | DAILY_LOSS_BREACHED => "daily_loss_breached" | MAX_TRADES_BREACHED => "max_trades_breached"
  | CIRCUIT_BREAKER_HALT => "circuit_breaker_halt" | MANUAL => "manual"
  | SUSPICIOUS_ACTIVITY => "suspicious_activity" | AUTO_SQUARE_OFF => "auto_square_off"
  end.

Definition tripped_error (reason : option TripReason) : string :=
  match reason with
  | Some r => String.append "kill_switch_triggered:" (reason_value r)
  | None => "kill_switch_triggered"
  end.

Definition cap_error (trades_today trades_limit : Z) : string :=
  String.append "max_daily_trades:" (String.append (z_str trades_today) (String.append "/" (z_str trades_limit))).

Section Webhook.
Context {B R : Type} `{BrokerInterface B} `{RedisStore R} `{Decryptor}.
Context (settings : Settings) (sha256_hex : string -> string) (hmac_hex : string -> string -> string)
        (decode : string -> option WebhookPayload).

(** ** Helpers *)

Definition queue_audit (user_id : uuid) (signature_valid : bool) (status_ : ProcessingStatus) (error : option string)
  : M B R unit :=
  on_platform (fun f => f <| pf_webhook_audit ::= fun l =>
    l ++ [{| we_user_id := user_id; we_signature_valid := signature_valid; we_status := status_; we_error := error |}] |>).

Definition verify_hmac_signature (payload signature secret : string) : bool := String.eqb (hmac_hex secret payload) signature.

(** Redis first, then the database; an undecryptable secret counts as unknown. *)
Definition resolve_webhook_token (token : string) : M B R (option token_info) :=
  let token_hash := sha256_hex token in
  hit ← cache_get_json (token_cache_key token_hash);
  match hit with
  | Some (CachedToken u t s) => mret (Some {| ti_user_id := u; ti_token_id := t; ti_hmac_secret := s |})
  | _ =>
      row ← gets (fun w => List.find (fun t => String.eqb (wt_token_hash t) token_hash && wt_is_active t)
                                     (pf_webhook_tokens (w_platform w)));
      match row with
      | None => mret None
      | Some row =>
          match decrypt_credential (wt_hmac_secret_enc row) with
          | None => mret None
          | Some hmac_secret =>
              cache_set_json (token_cache_key token_hash) (CachedToken (wt_user_id row) (wt_id row) hmac_secret)
                             TOKEN_CACHE_TTL_SECONDS ;;
              mret (Some {| ti_user_id := wt_user_id row; ti_token_id := wt_id row; ti_hmac_secret := hmac_secret |})
          end
      end
  end.

Definition parse_payload (raw : string) : result exn WebhookPayload :=
  match decode raw with
  | Some p => let p := strip_payload p in if payload_ok p then Ok p else Err (HTTPException 422)
  | None => Err (HTTPException 422)
  end.

Definition compute_signal_hash (user_id : uuid) (payload : WebhookPayload) (raw_body : string) : string :=
  let own := wp_signal_id payload ≫= nonempty in
  String.append (z_str user_id) (String.append ":" (default (sha256_hex raw_body) own)).

Definition load_user_context (user_id : uuid) : M B R (option User) :=
  gets (fun w => List.find (fun u => u_id u =? user_id) (pf_users (w_platform w))).

Definition bound_strategy (user_id webhook_token_id : uuid) (s : Strategy) : bool :=
  (s_user_id s =? user_id) && bool_decide (s_webhook_token_id s = Some webhook_token_id) && s_is_active s.

(** The user's only active credential when no strategy binds one. *)
Definition resolve_binding (user_id webhook_token_id : uuid) : M B R (option (option uuid * uuid)) :=
  strategy ← gets (fun w => List.find (bound_strategy user_id webhook_token_id) (w_strategies w));
  match strategy ≫= (fun s => (fun cid => (Some (s_id s), cid)) <$> s_broker_credential_id s) with
  | Some binding => mret (Some binding)
  | None =>
      creds ← gets (fun w => List.filter (own_active user_id) (w_credentials w));
      mret (match creds with [c] => Some (None, c_id c) | _ => None end)
  end.

(** ** The pipeline *)

Definition is_broker_error (e : exn) : bool := match e with BrokerError _ => true | _ => false end.

Definition broker_error_text (e : exn) : string :=
  match e with BrokerError BrokerOrderRejectedError => "rejected" | _ => "broker_error" end.

(** Refuse with an audit event. *)
Definition refuse {A : Type} (user_id : uuid) (error : string) (status_code : Z) : M B R A :=
  queue_audit user_id true P_SKIPPED (Some error) ;; raise (HTTPException status_code).

(** Dispatch, then the daily counter and the loss brake. *)
Definition execute_signal (user_id : uuid) (payload : WebhookPayload) (strategy_id : option uuid) (broker_credential_id : uuid)
  : M B R WebhookResponse :=
  outcome ← attempt (process_webhook_signal user_id broker_credential_id payload strategy_id);
  match outcome with
  | Err e => (if is_broker_error e then queue_audit user_id true P_FAILED (Some (broker_error_text e)) else mret tt) ;; raise e
  | Ok result =>
      _ ← increment_daily_trades user_id;
      trip_result ← check_and_trigger settings user_id None;
      if kr_triggered trip_result then
        queue_audit user_id true P_EXECUTED (Some (tripped_error (kr_reason trip_result))) ;;
        mret (tripped_response result (kr_reason trip_result))
      else
        queue_audit user_id true P_EXECUTED None ;;
        mret (executed_response result)
  end.

(** The gates after the idempotency claim. *)
Definition gated_signal (info : token_info) (payload : WebhookPayload) : M B R WebhookResponse :=
  let user_id := ti_user_id info in
  kill_status ← get_kill_switch_status user_id;
  if bool_decide (kill_status = TRIPPED) then refuse user_id "kill_switch_tripped" 403
  else
    user_ctx ← load_user_context user_id;
    if negb (opt_is u_is_active user_ctx) then refuse user_id "user_inactive" 403
    else
      '(within_cap, trades_today, trades_limit) ← check_max_daily_trades user_id;
      if negb within_cap then refuse user_id (cap_error trades_today trades_limit) 403
      else
        cb_level ← get_state (sanitize_input (wp_symbol payload)) (wp_exchange payload);
        if bool_decide (cb_level = HALT) then refuse user_id "circuit_breaker_halt" 403
        else
          binding ← resolve_binding user_id (ti_token_id info);
          match binding with
          | None => raise (HTTPException 422)
          | Some (strategy_id, broker_credential_id) => execute_signal user_id payload strategy_id broker_credential_id
          end.

(** Sections 1 to 4: token, rate limit, signature, payload. *)
Definition authenticate (request : webhook_request) : M B R (token_info * WebhookPayload) :=
  token ← resolve_webhook_token (rq_token request);
  match token with
  | None => raise (HTTPException 404)
  | Some info =>
      let user_id := ti_user_id info in
      allowed ← rate_limit_check (webhook_rate_key user_id) WEBHOOK_RATE_LIMIT_REQUESTS WEBHOOK_RATE_LIMIT_WINDOW_SECONDS;
      raise_when (negb allowed) (HTTPException 429) ;;
      if negb (verify_hmac_signature (rq_body request) (rq_signature request) (ti_hmac_secret info)) then
        queue_audit user_id false P_FAILED (Some "invalid_signature"%string) ;; raise (HTTPException 401)
      else
        payload ← from_result (parse_payload (rq_body request));
        mret (info, payload)
  end.

Definition receive_webhook (request : webhook_request) : M B R WebhookResponse :=
  raise_when (negb ((16 <=? str_len (rq_token request)) && (str_len (rq_token request) <=? 128))%nat) (HTTPException 422) ;;
  raise_when (strategy_paper_mode settings) (HTTPException 503) ;;
  '(info, payload) ← authenticate request;
  claimed ← set_idempotency_key (compute_signal_hash (ti_user_id info) payload (rq_body request)) IDEMPOTENCY_TTL_SECONDS;
  if claimed : bool then gated_signal info payload
  else queue_audit (ti_user_id info) true P_SKIPPED (Some "duplicate"%string) ;; mret duplicate_response.
End Webhook.
