(* ===== verification/WebhookSafety.v ===== *)
(** * The TradingView webhook: what an alert can do

    Over [OrderService.v] and [Webhook.v]: an order leaves only through every
    gate, on an account of the alert's own user; an alert is executed once; an
    executed alert is recorded and counted once. *)

From Stdlib Require Import ZArith Lia List Bool String.
From stdpp Require Import base list strings gmap.
From S2P Require Import Prelude PyText PyDecimal PyNum SymbolMatch Records Enums Models Safeguards Book Ledger Samples DayState.
From S2P Require Import RateLimit CircuitBreaker BreakerSafety StrategyExecutor DirectExit KillSwitch KillSafety KillGate OrderService Webhook.

(** ** The order service *)

Section Orders.
Context {B R : Type} `{BrokerInterface B} `{Decryptor}.
Implicit Types (w : world B R).

(** Orders [own] went out; nothing else of the world changed but the broker, the
    alerts and the supply of ids. *)
Record forwarded (own : list (BrokerCredentials * OrderRequest)) w w' : Prop := {
  fw_orders : w_orders w' = w_orders w ++ own;
  fw_positions : w_positions w' = w_positions w;
  fw_executions : w_executions w' = w_executions w;
  fw_credentials : w_credentials w' = w_credentials w;
  fw_strategies : w_strategies w' = w_strategies w;
  fw_platform : w_platform w' = w_platform w;
  fw_redis : w_redis w' = w_redis w;
  fw_now : w_now w' = w_now w;
  fw_next : w_next_id w <= w_next_id w'
}.

Lemma quiet_forwarded w w' : quiet w w' -> forwarded [] w w'.
Proof. intros []. split; rewrite ?app_nil_r; done. Qed.

Lemma forwarded_trans own1 own2 w w1 w2 :
  forwarded own1 w w1 -> forwarded own2 w1 w2 -> forwarded (own1 ++ own2) w w2.
Proof.
  intros [E1 ? ? ? ? ? ? ? ?] [E2 ? ? ? ? ? ? ? ?].
  split; [by rewrite E2, E1, List.app_assoc | congruence.. | lia].
Qed.

Lemma send_forwarded k o w r w' : send_order k o w = (r, w') -> forwarded [(k, o)] w w'.
Proof. intros E. apply send_order_step in E as (b & ->). by split. Qed.

(** The order an alert stands for: the alert's own, or the close of an open leg
    the account reports. *)
Definition alert_order (k : BrokerCredentials) (payload : WebhookPayload) (native : string) (o : OrderRequest) : Prop :=
  match wp_action payload with
  | A_BUY => build_order_request payload native BUY = Ok o
  | A_SELL => build_order_request payload native SELL = Ok o
  | A_EXIT => exists b b' rows t, get_positions k b = (Ok (Some rows), b')
                /\ find_target native (wp_exchange payload) rows = Ok (Some t)
                /\ closing_order native (wp_exchange payload) t = Ok o
  end.

Definition alert_orders k payload native own : Prop := Forall (fun ko => ko.1 = k /\ alert_order k payload native ko.2) own.

Lemma order_sent k payload native (x : result exn OrderRequest) w r w' :
  (forall o, x = Ok o -> alert_order k payload native o) ->
  (order ← from_result x; send_order k order) w = (r, w') ->
  exists own, forwarded own w w' /\ (length own <= 1)%nat /\ alert_orders k payload native own
    /\ (forall resp, r = Ok resp -> length own = 1%nat).
Proof.
  intros Hx E. apply bind_cases in E as [(o & w1 & E1 & E) | (e & -> & E1)]; injection E1 as -> <-.
  - exists [(k, o)]. split; [by eapply send_forwarded|]. split; [done|]. split; [|done].
    constructor; [|constructor]. split; [done | by apply Hx].
  - exists []. split; [by apply quiet_forwarded|]. split; [simpl; lia|]. split; [constructor | done].
Qed.

Lemma dispatch_spec k payload native w r w' :
  dispatch_action k payload native w = (r, w') ->
  exists own, forwarded own w w' /\ (length own <= 1)%nat /\ alert_orders k payload native own
    /\ (forall resp, r = Ok resp -> own = [] -> wp_action payload = A_EXIT /\ resp = no_position_response).
Proof.
  unfold dispatch_action, alert_orders. intros E.
  destruct (wp_action payload) eqn:Ea; [..|unfold square_off_symbol in E].
  1,2: apply (order_sent k payload native) in E as (own & Hf & Hl & Ha & Hr); [|intros o Eo; unfold alert_order; by rewrite Ea];
    exists own; split_and!; try done; intros resp Er ->; by specialize (Hr resp Er).
  apply bind_cases in E as [(positions & w1 & E1 & E) | (e & -> & E1)]; pose proof (on_broker_quiet _ _ _ _ E1) as Hq.
  2: { exists []. split; [by apply quiet_forwarded|]. split; [simpl; lia|]. split; [constructor | done]. }
  destruct positions as [rows|]; cbn [mbind M_bind from_result] in E.
  2: { unfold mbind, M_bind, from_result in E. injection E as <- <-. exists []. split; [by apply quiet_forwarded|].
       split; [simpl; lia|]. split; [constructor | done]. }
  unfold mbind at 1, M_bind at 1, from_result at 1 in E.
  apply bind_cases in E as [(target & w2 & E2 & E) | (e & -> & E2)]; injection E2 as E2 <-.
  2: { exists []. split; [by apply quiet_forwarded|]. split; [simpl; lia|]. split; [constructor | done]. }
  destruct target as [t|].
  - apply (order_sent k payload native) in E as (own & Hf & Hl & Ha & Hr).
    + exists own. split; [apply (forwarded_trans [] own w w1 w'); [by apply quiet_forwarded | done]|].
      split_and!; try done. intros resp Er ->. by specialize (Hr resp Er).
    + intros o Eo. unfold alert_order. rewrite Ea. unfold on_broker in E1.
      destruct (get_positions k (w_broker w)) as [pr b'] eqn:Eg. injection E1 as -> <-. eauto 10.
  - injection E as <- <-. exists []. split; [by apply quiet_forwarded|]. split; [simpl; lia|]. split; [constructor|].
    by intros resp [= <-].
Qed.

Lemma relogin_spec k payload native w r w' :
  dispatch_with_relogin k payload native w = (r, w') ->
  exists own, forwarded own w w' /\ (length own <= 2)%nat /\ alert_orders k payload native own.
Proof.
  unfold dispatch_with_relogin. intros E.
  apply bind_cases in E as [(first & w1 & E1 & E) | (e & -> & E1)]; apply attempt_cases in E1 as (x & Hx & E1); [|done].
  injection Hx as <-. apply dispatch_spec in E1 as (own & Hf & Hl & Ha & _).
  assert (Hdone : forall r0, (r0, w1) = (r, w') -> exists own, forwarded own w w' /\ (length own <= 2)%nat /\ alert_orders k payload native own).
  { intros r0 [= <- <-]. exists own. split_and!; auto. }
  destruct first as [resp|e]; [by apply (Hdone (Ok resp))|].
  assert (Hraise : (Err e, w1) = (r, w') -> exists own, forwarded own w w' /\ (length own <= 2)%nat /\ alert_orders k payload native own)
    by (apply Hdone).
  destruct e as [?| |be| | | | | | | | | | | | | | | |]; try (by apply Hraise).
  destruct be; try (by apply Hraise).
  apply bind_cases in E as [([] & w2 & E2 & E) | (e & -> & E2)]; pose proof (on_broker_quiet _ _ _ _ E2) as Hq%quiet_forwarded.
  - apply dispatch_spec in E as (own2 & Hf2 & Hl2 & Ha2 & _). exists (own ++ own2).
    split; [|split; [rewrite length_app; lia | by apply Forall_app]].
    eapply forwarded_trans; [exact Hf|]. by apply (forwarded_trans [] own2 w1 w2).
  - exists own. split; [|auto]. rewrite <- (app_nil_r own). by eapply forwarded_trans.
Qed.

(** The account the alert is executed on: an active credential of the user. *)
Definition user_account w (u cid : uuid) (k : BrokerCredentials) : Prop :=
  exists cred, In cred (w_credentials w) /\ c_id cred = cid /\ c_user_id cred = u /\ c_is_active cred = true
               /\ build_broker_credentials cred u = Ok k.

(** The alert's orders: on the user's own account, at most the order and one
    replay of it. *)
Definition executed_for w (u cid : uuid) (payload : WebhookPayload) own : Prop :=
  (length own <= 2)%nat
  /\ (own <> [] -> exists k native, user_account w u cid k
        /\ broker_normalize_symbol k (wp_symbol payload) (wp_exchange payload) = Ok native /\ alert_orders k payload native own).

(** The trade row of the alert was added. *)
Record recorded (u cid : uuid) (sid : option uuid) (payload : WebhookPayload) (res : OrderResult) (trade : Trade) w w' : Prop := {
  rc_book : same_book w w';
  rc_redis : w_redis w' = w_redis w;
  rc_platform : w_platform w' = w_platform w <| pf_trades ::= fun l => l ++ [trade] |>;
  rc_id : or_trade_id res = t_id trade;
  rc_owner : t_user_id trade = u /\ t_broker_credential_id trade = cid /\ t_strategy_id trade = sid;
  rc_what : t_symbol trade = or_native_symbol res /\ t_side trade = resolve_trade_side payload
            /\ t_quantity trade = wp_quantity payload;
  rc_status : t_status trade = map_order_status (or_status res)
              /\ or_success res = negb (bool_decide (or_status res = REJECTED))
}.

Lemma load_user_credential_spec cid u w r w' :
  load_user_credential cid u w = (r, w') ->
  w' = w /\ (r = Err (BrokerError BrokerAuthError)
             \/ exists cred, r = Ok cred /\ In cred (w_credentials w) /\ c_id cred = cid /\ c_user_id cred = u /\ c_is_active cred = true).
Proof.
  unfold load_user_credential, mbind, M_bind, gets. destruct (List.find _ _) as [cred|] eqn:Ef; intros [= <- <-]; split; auto.
  apply find_some in Ef as [Hin Ef]. bool_to_prop. eauto 10.
Qed.

Lemma process_spec u cid payload sid w r w' :
  process_webhook_signal u cid payload sid w = (r, w') ->
  exists own w1, forwarded own w w1 /\ executed_for w u cid payload own
    /\ match r with
       | Ok res => exists trade, recorded u cid sid payload res trade w1 w'
       | Err _ => w' = w1
       end.
Proof.
  intros E. assert (Hnone : executed_for w u cid payload []) by (split; [simpl; lia | done]).
  unfold process_webhook_signal in E.
  apply bind_cases in E as [(cred & w0 & E0 & E) | (e & -> & E0)]; apply load_user_credential_spec in E0 as [-> Hr].
  2: { exists [], w. split; [by apply quiet_forwarded | done]. }
  destruct Hr as [[=] | (cred' & [= <-] & Hin & Hid & Hu & Hact)].
  apply bind_cases in E as [(k & w0 & E0 & E) | (e & -> & E0)]; injection E0 as Ek <-.
  2: { exists [], w. split; [by apply quiet_forwarded | done]. }
  apply bind_cases in E as [([] & w0 & E0 & E) | (e & -> & E0)]; pose proof (ensure_session_quiet _ _ _ _ E0) as Hq%quiet_forwarded.
  2: { exists [], w'. by split. }
  apply bind_cases in E as [(native & w1 & E1 & E) | (e & -> & E1)]; injection E1 as En <-.
  2: { exists [], w0. by split. }
  assert (Hacc : user_account w u cid k) by (by exists cred).
  apply bind_cases in E as [(resp & w1 & E1 & E) | (e & -> & E1)]; apply relogin_spec in E1 as (own & Hf & Hl & Ha);
    pose proof (forwarded_trans _ _ _ _ _ Hq Hf) as Hf'; simpl app in Hf';
    (assert (He : executed_for w u cid payload own) by (split; [done|]; intros _; exists k, native; auto)).
  2: { exists own, w'. by split. }
  exists own, w1. split; [done|]. split; [done|]. injection E as <- <-. eexists. split; try done.
  split; try done. simpl. lia.
Qed.
End Orders.

(** ** What the gates read and write *)

Section Gates.
Context {B R : Type} `{BrokerInterface B} `{RedisLaws R} `{Decryptor}.
Context (settings : Settings) (sha256_hex : string -> string) (hmac_hex : string -> string -> string)
        (decode : string -> option WebhookPayload).
Implicit Types (w : world B R).

#[local] Existing Instance same_book_preorder.

(** Only Redis keys of [rk], cache keys of [ck] and the audit queue changed. *)
Record side_writes (rk ck : string -> Prop) w w' : Prop := {
  sw_book : same_book w w';
  sw_users : pf_users (w_platform w') = pf_users (w_platform w);
  sw_configs : pf_configs (w_platform w') = pf_configs (w_platform w);
  sw_trades : pf_trades (w_platform w') = pf_trades (w_platform w);
  sw_signals : pf_signals (w_platform w') = pf_signals (w_platform w);
  sw_queue : pf_queue (w_platform w') = pf_queue (w_platform w);
  sw_redis : forall key t, ~ rk key -> redis_get key t (w_redis w') = redis_get key t (w_redis w);
  sw_cache : forall key t, ~ ck key -> cache_at w' key t = cache_at w key t
}.

#[local] Instance side_writes_preorder rk ck : PreOrder (side_writes rk ck).
Proof.
  split; [by intros w; split|]. intros a b c [Hb1 ? ? ? ? ? Hr1 Hc1] [Hb2 ? ? ? ? ? Hr2 Hc2].
  split; [by transitivity b | congruence.. | |]; intros key t Hk; [by rewrite Hr2, Hr1 | by rewrite Hc2, Hc1].
Qed.

Lemma side_writes_mono (rk rk' ck ck' : string -> Prop) w w' :
  (forall k, rk k -> rk' k) -> (forall k, ck k -> ck' k) -> side_writes rk ck w w' -> side_writes rk' ck' w w'.
Proof. intros Hr Hc []. split; auto. Qed.

Definition nothing (key : string) : Prop := False.

(** The configuration, the cap and the level as they would be read now. *)
Definition config_seen w (u : uuid) : result exn (option KillSwitchConfig) :=
  match cache_at w (config_cache_key u) (w_now w) with
  | Some (CachedConfig c) => Ok (Some c)
  | Some _ => Err KeyError
  | None => Ok (List.find (fun c => kc_user_id c =? u) (pf_configs (w_platform w)))
  end.

(** The daily cap is open: no enabled configuration, or fewer trades than its
    maximum. *)
Definition under_cap w (u : uuid) : Prop :=
  exists config, config_seen w u = Ok config
    /\ forall c, config = Some c -> enabled c = true -> exists n, trades_seen u w = Some n /\ n < max_daily_trades c.

Definition level_seen w (s : string) (e : Exchange) : CircuitBreakerLevel :=
  match cache_at w (state_key s e) (w_now w) with
  | Some (CachedBreaker level (Some until)) => if until <=? w_now w then ALLOW else level
  | Some (CachedBreaker level None) => level
  | _ => ALLOW
  end.

(** The token as it would be resolved now. *)
Definition token_seen w (token : string) : option token_info :=
  match cache_at w (token_cache_key (sha256_hex token)) (w_now w) with
  | Some (CachedToken u t s) => Some {| ti_user_id := u; ti_token_id := t; ti_hmac_secret := s |}
  | _ =>
      row ← List.find (fun t => String.eqb (wt_token_hash t) (sha256_hex token) && wt_is_active t) (pf_webhook_tokens (w_platform w));
      hmac_secret ← decrypt_credential (wt_hmac_secret_enc row);
      Some {| ti_user_id := wt_user_id row; ti_token_id := wt_id row; ti_hmac_secret := hmac_secret |}
  end.

Definition kill_status_seen w (u : uuid) : KillSwitchState := state_of_raw (redis_get (kill_key u) (w_now w) (w_redis w)).

Definition user_seen w (u : uuid) : option User := List.find (fun x => u_id x =? u) (pf_users (w_platform w)).

Lemma cache_set_writes key v ttl w r w' :
  0 < ttl -> cache_set_json key v ttl w = (r, w') -> r = Ok tt /\ side_writes nothing (eq key) w w'.
Proof.
  intros Ht E. destruct (cache_set_spec key v ttl w Ht) as (w0 & E0 & Hn & Hk). rewrite E0 in E. injection E as <- <-.
  split; [done|]. unfold cache_set_json in E0. rewrite (proj2 (Z.leb_gt ttl 0)) in E0 by done. injection E0 as <-.
  split; try done. intros k t Hne. rewrite Hk. by rewrite decide_False.
Qed.

Lemma cache_delete_writes key w r w' :
  cache_delete key w = (r, w') -> r = Ok tt /\ side_writes nothing (eq key) w w'.
Proof.
  intros E. destruct (cache_delete_at key w) as (w0 & E0 & Hn & Hk). rewrite E0 in E. injection E as <- <-.
  split; [done|]. injection E0 as <-. split; try done. intros k t Hne. rewrite Hk. by rewrite decide_False by congruence.
Qed.

Lemma queue_audit_writes u b st e w r w' : queue_audit u b st e w = (r, w') -> r = Ok tt /\ side_writes nothing nothing w w'.
Proof. intros E. injection E as <- <-. by split. Qed.

Lemma resolve_token_spec token w r w' :
  resolve_webhook_token sha256_hex token w = (r, w') ->
  r = Ok (token_seen w token) /\ side_writes nothing (eq (token_cache_key (sha256_hex token))) w w'.
Proof.
  unfold resolve_webhook_token, token_seen, cache_get_json. intros E.
  unfold mbind at 1, M_bind at 1, gets at 1 in E. fold (cache_at w (token_cache_key (sha256_hex token)) (w_now w)) in E.
  destruct (cache_at w _ _) as [[| | | | |u t s| | | | |]|]; try (by injection E as <- <-).
  all: unfold mbind at 1, M_bind at 1, gets at 1 in E;
    destruct (List.find _ _) as [row|]; [|by injection E as <- <-];
    cbn [mbind option_bind]; destruct (decrypt_credential _) as [secret|]; [|by injection E as <- <-];
    apply bind_cases in E as [([] & w1 & E1 & E) | (e & -> & E1)];
    apply cache_set_writes in E1 as [[=] Hw]; try done; by injection E as <- <-.
Qed.

Lemma get_config_seen u w r w' :
  get_config u w = (r, w') -> r = config_seen w u /\ side_writes nothing (eq (config_cache_key u)) w w'.
Proof.
  unfold get_config, config_seen, cache_get_json. intros E.
  unfold mbind at 1, M_bind at 1, gets at 1 in E. fold (cache_at w (config_cache_key u) (w_now w)) in E.
  destruct (cache_at w _ _) as [[| | | | | | | | | |]|]; try (by injection E as <- <-).
  unfold mbind at 1, M_bind at 1, gets at 1 in E. destruct (List.find _ _) as [c|]; [|by injection E as <- <-].
  apply bind_cases in E as [([] & w1 & E1 & E) | (e & -> & E1)]; apply cache_set_writes in E1 as [[=] Hw]; try done.
  by injection E as <- <-.
Qed.

Lemma check_cap_seen u w r w' :
  check_max_daily_trades u w = (r, w') ->
  side_writes nothing (eq (config_cache_key u)) w w' /\ (forall n m, r = Ok (true, n, m) -> under_cap w u).
Proof.
  unfold check_max_daily_trades, under_cap. intros E.
  apply bind_cases in E as [(config & w1 & E1 & E) | (e & -> & E1)]; apply get_config_seen in E1 as [Hc Hw]; [|done].
  destruct config as [c|]; [|injection E as <- <-; split; [done|]; intros n m _; by exists None].
  destruct (enabled c) eqn:En; [|injection E as <- <-; split; [done|]; intros n m _; exists (Some c); split; [done|]; intros c' [= <-]; by rewrite En].
  assert (Ht : trades_seen u w1 = trades_seen u w).
  { unfold trades_seen. rewrite (sw_redis _ _ _ _ Hw) by (by intros []). by rewrite (sb_now _ _ (sw_book _ _ _ _ Hw)). }
  apply bind_cases in E as [(n & w2 & E2 & E) | (e & -> & E2)].
  - unfold get_daily_trades, mbind, M_bind, gets in E2. fold (trades_seen u w1) in E2. rewrite Ht in E2.
    destruct (trades_seen u w) as [n'|] eqn:Es; [|done]. injection E2 as <- <-. injection E as <- <-. split; [done|].
    intros n m [= Hlt _ _]. apply Z.ltb_lt in Hlt. exists (Some c). split; [done|]. intros c' [= <-] _. eauto.
  - unfold get_daily_trades, mbind, M_bind, gets in E2. destruct (count_of_raw _); [done|]. by injection E2 as <- <-.
Qed.

Lemma get_state_seen s e w r w' :
  get_state s e w = (r, w') -> r = Ok (level_seen w s e) /\ side_writes nothing (eq (state_key s e)) w w'.
Proof.
  unfold get_state, level_seen, cache_get_json. intros E. unfold mbind at 1 2, M_bind at 1 2, gets at 1 2 in E.
  fold (cache_at w (state_key s e) (w_now w)) in E.
  destruct (cache_at w _ _) as [[| | |level [until|]| | | | | | |]|]; try (by injection E as <- <-).
  destruct (until <=? w_now w); [|by injection E as <- <-].
  apply bind_cases in E as [([] & w1 & E1 & E) | (x & -> & E1)]; apply cache_delete_writes in E1 as [[=] Hw].
  by injection E as <- <-.
Qed.

(** ** Execution *)

(** Close orders of the user's own open live rows. *)
Definition own_closes w (u : uuid) (closes : list (BrokerCredentials * StrategyPosition)) : Prop :=
  Forall (fun kp => In kp.2 (w_positions w) /\ killable kp.2 = true /\ of_user u kp.2 = true /\ on_account u w kp.1 kp.2) closes.

(** The effect of an executed alert of [u]: its own orders, then the close orders
    of the loss brake when it tripped. *)
Record executed (u cid : uuid) (sid : option uuid) (payload : WebhookPayload) w (r : result exn WebhookResponse) w' : Prop := {
  ex_path : exists own w1 ok, executed_for w u cid payload own /\ w_orders w1 = w_orders w ++ own
    /\ w_positions w1 = w_positions w /\ touched (fun p => of_user u p = true) ok w1 w'
    /\ (forall k p, ok k p -> on_account u w k p) /\ (w_orders w' <> w_orders w1 -> gated u w');
  ex_redis : forall key t, key <> kill_key u -> key <> trades_key u -> redis_get key t (w_redis w') = redis_get key t (w_redis w);
  ex_trade : match r with
             | Ok resp => exists res trade n, pf_trades (w_platform w') = pf_trades (w_platform w) ++ [trade]
                 /\ wr_trade_id resp = Some (t_id trade) /\ t_user_id trade = u /\ t_broker_credential_id trade = cid
                 /\ t_strategy_id trade = sid /\ t_status trade = map_order_status (or_status res)
                 /\ (wr_trip_reason resp = None -> (wr_status resp = W_SUCCESS <-> t_status trade <> T_REJECTED))
                 /\ trades_seen u w = Some n /\ (0 <= n -> trades_seen u w' = Some (n + 1))
             | Err _ => exists added, pf_trades (w_platform w') = pf_trades (w_platform w) ++ added /\ (length added <= 1)%nat
             end
}.

Lemma trades_key_not_kill u v : trades_key u <> kill_key v.
Proof. discriminate. Qed.

Lemma count_reads n : 0 <= n -> count_of_raw (Some (z_str n)) = Some n.
Proof.
  intros Hn. pose proof (counter_reads n Hn) as Hc. unfold counter_of_raw in Hc. unfold count_of_raw.
  destruct (String.eqb_spec (z_str n) "") as [E|_]; [|done]. by rewrite E in Hc.
Qed.

Lemma increment_spec u w r w' :
  increment_daily_trades u w = (r, w') ->
  match r with
  | Ok m => exists n, trades_seen u w = Some n /\ m = n + 1 /\ same_book w w' /\ w_platform w' = w_platform w
      /\ (forall key t, key <> trades_key u -> redis_get key t (w_redis w') = redis_get key t (w_redis w))
      /\ (0 <= n -> trades_seen u w' = Some (n + 1))
  | Err _ => w' = w
  end.
Proof.
  unfold increment_daily_trades, get_daily_trades. unfold mbind, M_bind, gets, mret, M_ret. fold (trades_seen u w).
  destruct (trades_seen u w) as [n|]; intros [= <- <-]; [|done]. exists n. split_and!; try done.
  - intros key t Hk. cbn [w_redis set]. unfold set. simpl. rewrite redis_get_put. by rewrite decide_False.
  - intros Hn. unfold trades_seen. unfold set. simpl. rewrite redis_get_put, decide_True by done.
    rewrite (proj2 (Z.ltb_lt _ _)) by (unfold DAILY_TRADES_TTL; lia). apply count_reads. lia.
Qed.

(** After the dispatch: the counter and the loss brake. *)
Lemma brake_spec u w r w' :
  book_inv w -> check_and_trigger settings u None w = (r, w') ->
  (exists ok, touched (fun p => of_user u p = true) ok w w' /\ (forall k p, ok k p -> on_account u w k p)
    /\ (w_orders w' <> w_orders w -> gated u w'))
  /\ desk w' = desk w
  /\ (forall key t, key <> kill_key u -> redis_get key t (w_redis w') = redis_get key t (w_redis w))
  /\ w_now w' = w_now w.
Proof.
  intros Hb E. apply trigger_cases in E as [((Hsb & Hre & Hev & Htr) & _) | (res & reason & -> & Htr)]; [| |done].
  - split; [|split; [done|]; split; [by intros key t _; rewrite Hre | apply Hsb]].
    exists (fun _ _ => False). split; [|split; [done|]; intros Hn; destruct Hn; apply Hsb].
    apply (contained_touched _ _ w w w w'); [done | by apply contained_quiet | done].
  - destruct Htr as [_ Hg Hnow Htrd Hfl _ Hrows]. split_and!; try done.
    eexists. split; [exact Hrows|]. split; [by intros k p [? _] | done].
Qed.

Lemma same_book_touched scope ok w w' : book_inv w -> same_book w w' -> touched scope ok w w'.
Proof. intros Hb Hs. apply (contained_touched _ _ w w w w'); [done | by apply contained_quiet | done]. Qed.

(** A dispatched alert, whatever came of it. *)
Lemma dispatched_rows own w w1 w2 :
  book_inv w -> forwarded own w w1 -> same_book w1 w2 -> book_inv w2 /\ w_positions w2 = w_positions w
  /\ w_orders w2 = w_orders w ++ own /\ w_credentials w2 = w_credentials w.
Proof.
  intros Hb [E ? ? ? ? ? ? ? ?] [? ? ? ? ? ? ?].
  assert (w_positions w2 = w_positions w) by congruence. split_and!; try congruence.
  apply (book_inv_ext w); [done | done | lia].
Qed.

Lemma map_order_status_rejected st : map_order_status st = T_REJECTED <-> st = REJECTED.
Proof. by destruct st. Qed.

Lemma executed_failed u cid sid payload own w w1 w' e :
  book_inv w -> forwarded own w w1 -> executed_for w u cid payload own -> side_writes nothing nothing w1 w' ->
  executed u cid sid payload w (Err e) w'.
Proof.
  intros Hb Hf He Hw. destruct (dispatched_rows own w w1 w' Hb Hf (sw_book _ _ _ _ Hw)) as (Hb' & Hp & Ho & Hc). split.
  - exists own, w', (fun _ _ => False). split_and!; try done. by apply same_book_touched.
  - intros key t _ _. by rewrite (sw_redis _ _ _ _ Hw), (fw_redis _ _ _ Hf) by (by intros []).
  - exists []. rewrite (sw_trades _ _ _ _ Hw), (fw_platform _ _ _ Hf), app_nil_r. by split; [|simpl; lia].
Qed.

Lemma execute_signal_spec u payload sid cid w r w' :
  book_inv w -> execute_signal settings u payload sid cid w = (r, w') -> executed u cid sid payload w r w'.
Proof.
  intros Hb E. unfold execute_signal in E.
  apply bind_cases in E as [(outcome & w2 & E2 & E) | (x & -> & E2)]; apply attempt_cases in E2 as (r2 & Hr2 & E2); [|done].
  injection Hr2 as <-. apply process_spec in E2 as (own & w1 & Hf & He & Ht). destruct outcome as [res|e].
  2: { subst w2. apply bind_cases in E as [([] & w3 & E3 & E) | (x & -> & E3)].
       - injection E as <- <-. apply (executed_failed _ _ _ _ own w w1); try done.
         destruct (is_broker_error e); [by apply queue_audit_writes in E3 as [_ ?] | by injection E3 as <-].
       - by destruct (is_broker_error e). }
  destruct Ht as (trade & [Hrb Hrr Hrp Hid (Hu & Hc & Hsi) _ (Hst & Hsuc)]).
  destruct (dispatched_rows own w w1 w2 Hb Hf Hrb) as (Hb2 & Hp2 & Ho2 & Hc2).
  assert (Hr2 : forall key t, redis_get key t (w_redis w2) = redis_get key t (w_redis w)).
  { intros key t. by rewrite Hrr, (fw_redis _ _ _ Hf). }
  assert (Htr2 : pf_trades (w_platform w2) = pf_trades (w_platform w) ++ [trade]) by (by rewrite Hrp, (fw_platform _ _ _ Hf)).
  assert (Hn2 : w_now w2 = w_now w) by (by rewrite (sb_now _ _ Hrb), (fw_now _ _ _ Hf)).
  assert (Hseen : trades_seen u w2 = trades_seen u w) by (unfold trades_seen; by rewrite Hr2, Hn2).
  apply bind_cases in E as [(m & w3 & E3 & E) | (x & -> & E3)]; apply increment_spec in E3.
  2: { subst w'. split.
       - exists own, w2, (fun _ _ => False). split_and!; try done. by apply same_book_touched.
       - intros key t _ _. apply Hr2.
       - exists [trade]. by split. }
  destruct E3 as (n & Hn & -> & Hsb3 & Hpl3 & Hr3 & Hcount). rewrite Hseen in Hn.
  assert (Hb3 : book_inv w3) by (apply (book_inv_ext w2); [done | apply Hsb3..]).
  assert (Hacc : forall k p, on_account u w3 k p -> on_account u w k p).
  { intros k p. unfold on_account. by rewrite (sb_credentials _ _ Hsb3), Hc2. }
  assert (Hw3 : w_orders w3 = w_orders w ++ own /\ w_positions w3 = w_positions w).
  { by rewrite (sb_orders _ _ Hsb3), (sb_positions _ _ Hsb3). }
  apply bind_cases in E as [(trip & w4 & E4 & E) | (x & -> & E4)]; apply brake_spec in E4 as ((ok & Htc & Hok & Hg) & Htr4 & Hr4 & Hn4); try done;
    injection Htr4 as Htr4 _ _.
  2: { split.
       - exists own, w3, ok. destruct Hw3. split_and!; auto.
       - intros key t Hk1 Hk2. by rewrite Hr4, Hr3, Hr2.
       - exists [trade]. by rewrite Htr4, Hpl3. }
  assert (Hq : forall st e resp, (queue_audit u true st e ;; mret resp) w4 = (r, w') ->
    r = Ok resp /\ side_writes nothing nothing w4 w').
  { intros st e0 resp E'. apply bind_cases in E' as [([] & w5 & E5 & E') | (x & -> & E5)]; apply queue_audit_writes in E5 as [[=] Hw5].
    by injection E' as <- <-. }
  assert (Hresp : exists resp, r = Ok resp /\ side_writes nothing nothing w4 w' /\ wr_trade_id resp = Some (or_trade_id res)
    /\ (wr_trip_reason resp = None -> wr_status resp = if or_success res then W_SUCCESS else W_REJECTED)).
  { destruct (kr_triggered trip); apply Hq in E as [-> Hw]; eexists; by split_and!. }
  destruct Hresp as (resp & -> & Hw & Htid & Hstatus). split.
  - exists own, w3, ok. destruct Hw3. split_and!; auto.
    + destruct Htc as [Htr (sent & Hso & Hs) Hbk Hone Hl]. pose proof (sw_book _ _ _ _ Hw) as Hsb.
      split; rewrite ?(sb_positions _ _ Hsb), ?(sb_orders _ _ Hsb); eauto. apply (book_inv_ext w4); [done | apply Hsb..].
    + rewrite (sb_orders _ _ (sw_book _ _ _ _ Hw)). intros Hne t. unfold gate_at.
      rewrite (sw_redis _ _ _ _ Hw) by (by intros []). by apply Hg.
  - intros key t Hk1 Hk2. rewrite (sw_redis _ _ _ _ Hw) by (by intros []). by rewrite Hr4, Hr3, Hr2.
  - exists res, trade, n. rewrite (sw_trades _ _ _ _ Hw), Htr4, Hpl3, Htid, Hid. split_and!; try done.
    + intros Hnone. rewrite (Hstatus Hnone), Hsuc, Hst. rewrite map_order_status_rejected.
      case_bool_decide; simpl; naive_solver.
    + intros Hn0. specialize (Hcount Hn0). unfold trades_seen in *. rewrite (sb_now _ _ (sw_book _ _ _ _ Hw)), Hn4.
      rewrite (sw_redis _ _ _ _ Hw) by (by intros []). by rewrite Hr4 by apply trades_key_not_kill.
Qed.

(** ** The pipeline *)

Definition binding_seen w (u token_id : uuid) : option (option uuid * uuid) :=
  match List.find (bound_strategy u token_id) (w_strategies w) ≫= (fun s => (fun cid => (Some (s_id s), cid)) <$> s_broker_credential_id s) with
  | Some binding => Some binding
  | None => match List.filter (own_active u) (w_credentials w) with [c] => Some (None, c_id c) | _ => None end
  end.

Lemma resolve_binding_seen u tid w : resolve_binding u tid w = (Ok (binding_seen w u tid), w).
Proof.
  unfold resolve_binding, binding_seen. unfold mbind at 1, M_bind at 1, gets at 1.
  by destruct (List.find _ _ ≫= _) as [binding|].
Qed.

(** The gates are open for the alert, as read in [w]. *)
Record open_gates (info : token_info) (payload : WebhookPayload) (sid : option uuid) (cid : uuid) w : Prop := {
  og_kill : kill_status_seen w (ti_user_id info) = ACTIVE;
  og_user : exists usr, user_seen w (ti_user_id info) = Some usr /\ u_is_active usr = true;
  og_cap : under_cap w (ti_user_id info);
  og_level : level_seen w (sanitize_input (wp_symbol payload)) (wp_exchange payload) <> HALT;
  og_binding : binding_seen w (ti_user_id info) (ti_token_id info) = Some (sid, cid)
}.

(** Cache keys the gates may write. *)
Definition gate_keys (info : token_info) (payload : WebhookPayload) (key : string) : Prop :=
  key = config_cache_key (ti_user_id info) \/ key = state_key (sanitize_input (wp_symbol payload)) (wp_exchange payload).

Lemma refuse_writes {A : Type} u error code w (r : result exn A) w' :
  refuse u error code w = (r, w') -> (exists e, r = Err e) /\ side_writes nothing nothing w w'.
Proof.
  intros E. apply bind_cases in E as [([] & w1 & E1 & E) | (e & -> & E1)]; apply queue_audit_writes in E1 as [_ Hw]; [|eauto].
  injection E as <- <-. eauto.
Qed.

Lemma level_seen_cached s e u w w1 :
  side_writes nothing (eq (config_cache_key u)) w w1 -> level_seen w1 s e = level_seen w s e.
Proof.
  intros Hw. unfold level_seen. rewrite (sw_cache _ _ _ _ Hw) by discriminate. by rewrite (sb_now _ _ (sw_book _ _ _ _ Hw)).
Qed.

Lemma binding_seen_book u tid w w1 : same_book w w1 -> binding_seen w1 u tid = binding_seen w u tid.
Proof. intros [? ? Hc Hs ? ? ?]. unfold binding_seen. by rewrite Hc, Hs. Qed.

Lemma gated_cases info payload w r w' :
  gated_signal settings info payload w = (r, w') ->
  (side_writes nothing (gate_keys info payload) w w' /\ exists e, r = Err e)
  \/ exists sid cid w1, side_writes nothing (gate_keys info payload) w w1 /\ open_gates info payload sid cid w
       /\ execute_signal settings (ti_user_id info) payload sid cid w1 = (r, w').
Proof.
  unfold gated_signal. intros E.
  assert (Hrefuse : forall error code w0, side_writes nothing (gate_keys info payload) w w0 ->
    @refuse B R WebhookResponse (ti_user_id info) error code w0 = (r, w') ->
    side_writes nothing (gate_keys info payload) w w' /\ exists e, r = Err e).
  { intros error code w0 Hw0 Er. apply refuse_writes in Er as [He Hw]. split; [|done]. transitivity w0; [done|].
    revert Hw. apply side_writes_mono; [done | by intros k []]. }
  unfold mbind at 1, M_bind at 1, get_kill_switch_status, gets at 1 in E. fold (kill_status_seen w (ti_user_id info)) in E.
  case_bool_decide as Hk; [left; by eapply Hrefuse|].
  unfold mbind at 1, M_bind at 1, load_user_context, gets at 1 in E. fold (user_seen w (ti_user_id info)) in E.
  destruct (opt_is u_is_active (user_seen w (ti_user_id info))) eqn:Hu; cbn [negb] in E; [|left; by apply (Hrefuse _ _ w (reflexivity _) E)].
  apply bind_cases in E as [([[within n] m] & w1 & E1 & E) | (e & -> & E1)]; apply check_cap_seen in E1 as [Hw1 Hcap].
  2: { left. split; [|eauto]. revert Hw1. apply side_writes_mono; [done|]. intros k <-. by left. }
  assert (Hg1 : side_writes nothing (gate_keys info payload) w w1).
  { revert Hw1. apply side_writes_mono; [done|]. intros k <-. by left. }
  destruct within; cbn [negb] in E; [|left; by apply (Hrefuse _ _ w1 Hg1 E)].
  apply bind_cases in E as [(level & w2 & E2 & E) | (e & -> & E2)]; apply get_state_seen in E2 as [[=] Hw2]. subst level.
  rewrite (level_seen_cached _ _ _ _ _ Hw1) in E.
  assert (Hg2 : side_writes nothing (gate_keys info payload) w w2).
  { transitivity w1; [done|]. revert Hw2. apply side_writes_mono; [done|]. intros k <-. by right. }
  case_bool_decide as Hlevel; [left; by eapply Hrefuse|].
  unfold mbind at 1, M_bind at 1 in E. rewrite resolve_binding_seen, (binding_seen_book _ _ w) in E by apply Hg2.
  destruct (binding_seen w _ _) as [[sid cid]|] eqn:Hb; [|injection E as <- <-; left; eauto].
  right. exists sid, cid, w2. split; [done|]. split; [|done]. split; try done.
  - by destruct (kill_status_seen w (ti_user_id info)).
  - destruct (user_seen w (ti_user_id info)) as [usr|]; [by exists usr | done].
  - by eapply Hcap.
Qed.

(** The alert passed everything up to its claim. *)
Record authentic (req : webhook_request) (info : token_info) (payload : WebhookPayload) w : Prop := {
  au_live : strategy_paper_mode settings = false;
  au_token : token_seen w (rq_token req) = Some info;
  au_signed : hmac_hex (ti_hmac_secret info) (rq_body req) = rq_signature req;
  au_payload : parse_payload decode (rq_body req) = Ok payload
}.

Definition alert_key (info : token_info) (payload : WebhookPayload) (req : webhook_request) : string :=
  idem_key (compute_signal_hash sha256_hex (ti_user_id info) payload (rq_body req)).

(** Nothing of the book or the trades changed; at most the slot and counters. *)
Definition idle w w' : Prop := exists rk ck, side_writes rk ck w w'.

Lemma rate_limit_writes key limit window w r w' :
  rate_limit_check key limit window w = (r, w') -> side_writes (eq (rate_key key)) nothing w w'.
Proof.
  unfold rate_limit_check, raise_when. destruct (limit <=? 0); [by intros [= <- <-]|]. destruct (window <=? 0); [by intros [= <- <-]|].
  unfold mbind, M_bind, mret, M_ret, gets. destruct (counter_of_raw _); intros [= <- <-]; [|done].
  split; try done. intros k t Hk. unfold set. simpl. rewrite redis_get_put. by rewrite decide_False.
Qed.

Lemma claim_spec h w r w' :
  set_idempotency_key h IDEMPOTENCY_TTL_SECONDS w = (r, w') ->
  (r = Ok false /\ w' = w /\ redis_get (idem_key h) (w_now w) (w_redis w) <> None)
  \/ (r = Ok true /\ redis_get (idem_key h) (w_now w) (w_redis w) = None /\ side_writes (eq (idem_key h)) nothing w w'
      /\ forall t, redis_get (idem_key h) t (w_redis w') = if t <? w_now w + 60 then Some "1"%string else None).
Proof.
  unfold set_idempotency_key, redis_set_nx. simpl. destruct (redis_get (idem_key h) (w_now w) (w_redis w)) eqn:Eg;
    intros [= <- <-]; [left; split_and!; [done | by destruct w | done] | right].
  split_and!; try done.
  - split; try done. intros k t Hk. unfold set. simpl. rewrite redis_get_put. by rewrite decide_False.
  - intros t. unfold set. simpl. by rewrite redis_get_put, decide_True.
Qed.

(** Rate counters, and the cached token. *)
Definition is_rate (key : string) : Prop := exists k, key = rate_key k.
Definition is_token (key : string) : Prop := exists h, key = token_cache_key h.

Lemma authenticate_spec req w r w' :
  authenticate sha256_hex hmac_hex decode req w = (r, w') ->
  side_writes is_rate is_token w w'
  /\ forall info payload, r = Ok (info, payload) ->
       token_seen w (rq_token req) = Some info /\ hmac_hex (ti_hmac_secret info) (rq_body req) = rq_signature req
       /\ parse_payload decode (rq_body req) = Ok payload.
Proof.
  unfold authenticate. intros E.
  apply bind_cases in E as [(token & w1 & E1 & E) | (e & -> & E1)]; apply resolve_token_spec in E1 as [[= ->] Hw].
  apply (side_writes_mono _ is_rate _ is_token) in Hw; [|by intros k [] | intros k <-; by eexists].
  destruct (token_seen w (rq_token req)) as [info|]; [|by injection E as <- <-].
  apply bind_cases in E as [(allowed & w2 & E2 & E) | (e & -> & E2)]; apply rate_limit_writes in E2;
    apply (side_writes_mono _ is_rate _ is_token) in E2; try (by intros k []); try (intros k <-; by eexists);
    pose proof (transitivity Hw E2) as Hw2; [|done].
  apply bind_cases in E as [([] & w3 & E3 & E) | (e & -> & E3)]; apply raise_when_spec in E3 as [-> _]; [|done].
  unfold verify_hmac_signature in E.
  destruct (String.eqb_spec (hmac_hex (ti_hmac_secret info) (rq_body req)) (rq_signature req)) as [Hsig|_]; cbn [negb] in E.
  - apply bind_cases in E as [(payload & w4 & E4 & E) | (e & -> & E4)]; injection E4 as Hpay <-; [|done].
    injection E as <- <-. split; [done|]. by intros i p [= <- <-].
  - apply bind_cases in E as [([] & w4 & E4 & E) | (e & -> & E4)]; apply queue_audit_writes in E4 as [_ Hw4];
      apply (side_writes_mono _ is_rate _ is_token) in Hw4; try (by intros k []); [injection E as <- <-|];
      (split; [by transitivity w2 | done]).
Qed.

(** An alert is turned away, or suppressed as a duplicate, or claims its slot and
    goes on to the gates. *)
Lemma alert_claim_cases req w r w' :
  receive_webhook settings sha256_hex hmac_hex decode req w = (r, w') ->
  (side_writes is_rate is_token w w' /\ ((exists e, r = Err e) \/ r = Ok duplicate_response))
  \/ exists info payload w1, authentic req info payload w
       /\ side_writes (fun k => is_rate k \/ k = alert_key info payload req) is_token w w1
       /\ redis_get (alert_key info payload req) (w_now w) (w_redis w) = None
       /\ (forall t, redis_get (alert_key info payload req) t (w_redis w1) = if t <? w_now w + 60 then Some "1"%string else None)
       /\ gated_signal settings info payload w1 = (r, w').
Proof.
  unfold receive_webhook. intros E.
  apply bind_cases in E as [([] & w0 & E0 & E) | (e & -> & E0)]; apply raise_when_spec in E0 as [-> _]; [|left; split; [reflexivity | eauto]].
  apply bind_cases in E as [([] & w0 & E0 & E) | (e & -> & E0)]; apply raise_when_spec in E0 as [-> Hlive]; [|left; split; [reflexivity | eauto]].
  apply bind_cases in E as [([info payload] & w1 & E1 & E) | (e & -> & E1)]; apply authenticate_spec in E1 as [Hw1 Hauth]; [|left; eauto].
  destruct (Hauth _ _ eq_refl) as (Htok & Hsig & Hpay). clear Hauth.
  assert (Hkey : forall t, redis_get (alert_key info payload req) t (w_redis w1) = redis_get (alert_key info payload req) t (w_redis w)).
  { intros t. apply (sw_redis _ _ _ _ Hw1). by intros [k [=]]. }
  assert (Hnow : w_now w1 = w_now w) by apply Hw1.
  apply bind_cases in E as [(claimed & w2 & E2 & E) | (e & -> & E2)];
    apply claim_spec in E2 as [([= ->] & -> & _) | ([= ->] & Hfree & Hw2 & Hslot)].
  - left. apply bind_cases in E as [([] & w3 & E3 & E) | (e & -> & E3)]; apply queue_audit_writes in E3 as [_ Hw3];
      apply (side_writes_mono _ is_rate _ is_token) in Hw3; try (by intros k []); [injection E as <- <-|];
      (split; [by transitivity w1 | eauto]).
  - right. exists info, payload, w2. fold (alert_key info payload req) in Hfree, Hw2, Hslot. rewrite Hnow in Hfree, Hslot.
    split; [split; [by destruct (strategy_paper_mode settings) | done..]|]. split; [|by rewrite <- Hkey].
    transitivity w1; [revert Hw1 | revert Hw2]; apply side_writes_mono; try done.
    + by left.
    + intros k <-. by right.
Qed.

(** The whole handler: an alert is turned away or suppressed and changes neither
    book nor trades, or it is executed with every gate open. *)
Lemma receive_cases req w r w' :
  book_inv w -> receive_webhook settings sha256_hex hmac_hex decode req w = (r, w') ->
  (idle w w' /\ ((exists e, r = Err e) \/ r = Ok duplicate_response))
  \/ exists info payload sid cid w1, authentic req info payload w /\ open_gates info payload sid cid w
       /\ idle w w1 /\ (forall t, t < w_now w + 60 -> redis_get (alert_key info payload req) t (w_redis w1) <> None)
       /\ redis_get (alert_key info payload req) (w_now w) (w_redis w) = None
       /\ trades_seen (ti_user_id info) w1 = trades_seen (ti_user_id info) w
       /\ executed (ti_user_id info) cid sid payload w1 r w'.
Proof.
  intros Hb E. apply alert_claim_cases in E as [[Hw Hr] | (info & payload & w1 & Hauth & Hw1 & Hfree & Hslot & E)].
  { left. split; [by exists is_rate, is_token | done]. }
  assert (Hi : forall w2, side_writes nothing (gate_keys info payload) w1 w2 -> idle w w2).
  { intros w2 Hw2. exists (fun k => is_rate k \/ k = alert_key info payload req), (fun k => is_token k \/ gate_keys info payload k).
    transitivity w1; [revert Hw1 | revert Hw2]; apply side_writes_mono; auto; by intros k []. }
  apply gated_cases in E as [[Hw2 Hr] | (sid & cid & w2 & Hw2 & Hopen & E)]; [left; eauto|].
  right. exists info, payload, sid, cid, w2. split; [done|]. split; [|split; [by apply Hi|]; split; [|split; [done|]; split]].
  - destruct Hopen as [Hk Hu Hcap Hl Hbd]. pose proof (sw_book _ _ _ _ Hw1) as Hsb. split.
    + rewrite <- Hk. unfold kill_status_seen. rewrite (sb_now _ _ Hsb), (sw_redis _ _ _ _ Hw1); [done|]. by intros [[k [=]] | [=]].
    + unfold user_seen in *. by rewrite <- (sw_users _ _ _ _ Hw1).
    + destruct Hcap as (config & Hc & Hcap). exists config. unfold config_seen, trades_seen in *.
      rewrite (sb_now _ _ Hsb), (sw_cache _ _ _ _ Hw1), (sw_configs _ _ _ _ Hw1) in Hc by (by intros [h [=]]).
      split; [done|]. intros c Ec En. destruct (Hcap c Ec En) as (n & Hn & Hlt). exists n. split; [|done].
      rewrite <- Hn, (sb_now _ _ Hsb), (sw_redis _ _ _ _ Hw1); [done|]. by intros [[k [=]] | [=]].
    + intros Hh. apply Hl. rewrite <- Hh. unfold level_seen.
      by rewrite (sb_now _ _ Hsb), (sw_cache _ _ _ _ Hw1) by (by intros [h [=]]).
    + rewrite <- Hbd. symmetry. by apply binding_seen_book.
  - intros t Ht. rewrite (sw_redis _ _ _ _ Hw2) by (by intros []). by rewrite Hslot, (proj2 (Z.ltb_lt _ _) Ht).
  - unfold trades_seen. rewrite (sw_redis _ _ _ _ Hw2) by (by intros []). rewrite (sb_now _ _ (sw_book _ _ _ _ Hw2)).
    rewrite (sb_now _ _ (sw_book _ _ _ _ Hw1)), (sw_redis _ _ _ _ Hw1); [done|]. by intros [[k [=]] | [=]].
  - apply execute_signal_spec in E; [done|]. apply (book_inv_ext w); [done| |].
    + by rewrite (sb_positions _ _ (sw_book _ _ _ _ Hw2)), (sb_positions _ _ (sw_book _ _ _ _ Hw1)).
    + pose proof (sb_next _ _ (sw_book _ _ _ _ Hw2)). pose proof (sb_next _ _ (sw_book _ _ _ _ Hw1)). lia.
Qed.
End Gates.
