(* ===== verification/WebhookGate.v ===== *)
(** * The TradingView webhook: the guarantees

    The theorems about [receive_webhook], on the case analysis of
    [WebhookSafety.v], and concrete alerts. *)

From Stdlib Require Import ZArith Lia List Bool String.
From stdpp Require Import base list strings gmap.
From S2P Require Import Prelude PyText PyDecimal PyNum SymbolMatch Records Enums Models Safeguards Book Ledger Samples DayState.
From S2P Require Import RateLimit CircuitBreaker BreakerSafety PositionManager StrategyExecutor DirectExit KillSwitch KillSafety KillGate OrderService Webhook WebhookSafety.

Section Claims.
Context {B R : Type} `{BrokerInterface B} `{RedisLaws R} `{Decryptor}.
Context (settings : Settings) (sha256_hex : string -> string) (hmac_hex : string -> string -> string)
        (decode : string -> option WebhookPayload).
Implicit Types (w : world B R).

Abbreviation receive := (receive_webhook settings sha256_hex hmac_hex decode).
Abbreviation genuine := (authentic settings sha256_hex hmac_hex decode).
Abbreviation slot := (alert_key sha256_hex).

Lemma executed_for_ext u cid payload own w w1 :
  w_credentials w1 = w_credentials w -> executed_for w1 u cid payload own -> executed_for w u cid payload own.
Proof. intros Hc [Hl Ho]. split; [done|]. unfold user_account in *. by rewrite <- Hc. Qed.

(** The orders of an executed alert. *)
Lemma executed_orders u cid sid payload w r w' :
  executed u cid sid payload w r w' ->
  exists own closes, w_orders w' = w_orders w ++ own ++ map sent_order closes
    /\ executed_for w u cid payload own /\ own_closes w u closes /\ (closes <> [] -> gated u w').
Proof.
  intros [(own & w1 & ok & He & Ho & Hp & Htc & Hok & Hg) _ _]. destruct (tc_orders _ _ _ _ Htc) as (sent & Es & Hs).
  exists own, sent. rewrite Es, Ho, List.app_assoc. split; [done|]. split; [done|]. split.
  - eapply Forall_impl; [exact Hs|]. intros kp (Hin & Hk & Hu & Ha). rewrite Hp in Hin. auto.
  - intros Hne. apply Hg. rewrite Es. intros E. apply Hne. apply (f_equal length) in E. rewrite length_app, length_map in E.
    destruct sent; [done | simpl in E; lia].
Qed.

(** C12: an order needs every gate.  If handling an alert sent any order at all,
    then on arrival the deployment was live, the token known, the body signed with
    the token's secret and a valid payload, the alert not seen in the last minute,
    the user's kill switch not tripped, the user active and under the daily cap,
    the instrument not halted, and an account bound; the orders are the alert's own
    order (at most once more after a forced login) on an active account of that
    user, followed only by closes of that user's open rows, which imply that the
    kill switch is now tripped. *)
Theorem webhook_orders_gated req w r w' :
  book_inv w -> receive req w = (r, w') -> w_orders w' <> w_orders w ->
  exists info payload sid cid own closes,
    genuine req info payload w /\ open_gates info payload sid cid w
    /\ redis_get (slot info payload req) (w_now w) (w_redis w) = None
    /\ w_orders w' = w_orders w ++ own ++ map sent_order closes
    /\ executed_for w (ti_user_id info) cid payload own
    /\ own_closes w (ti_user_id info) closes /\ (closes <> [] -> gated (ti_user_id info) w').
Proof.
  intros Hb E Hne. apply receive_cases in E as [[(rk & ck & Hw) _] | (info & payload & sid & cid & w1 & Ha & Ho & Hi & _ & Hf & _ & Hex)]; [| |done].
  { destruct Hne. apply Hw. }
  destruct Hi as (rk & ck & Hw). pose proof (sw_book _ _ _ _ Hw) as Hsb.
  apply executed_orders in Hex as (own & closes & Eo & He & Hc & Hg). exists info, payload, sid, cid, own, closes.
  split_and!; try done.
  - by rewrite Eo, (sb_orders _ _ Hsb).
  - eapply executed_for_ext; [|done]. apply Hsb.
  - eapply Forall_impl; [exact Hc|]. unfold on_account. by rewrite (sb_positions _ _ Hsb), (sb_credentials _ _ Hsb).
Qed.

(** An alert is executed once.  When an alert sent an order, then within the
    minute that follows any delivery with the same key (the same signal id, or
    else the same body, of the same user), in whatever state the rest of the
    system is, sends no order, changes no position and adds no trade: it is
    suppressed as a duplicate or fails before. *)
Theorem webhook_signal_once req info payload w r w' req2 info2 payload2 w2 r2 w2' :
  book_inv w -> receive req w = (r, w') -> w_orders w' <> w_orders w -> genuine req info payload w ->
  book_inv w2 -> genuine req2 info2 payload2 w2 -> slot info2 payload2 req2 = slot info payload req ->
  w_now w2 < w_now w + 60 ->
  (forall t, redis_get (slot info payload req) t (w_redis w2) = redis_get (slot info payload req) t (w_redis w')) ->
  receive req2 w2 = (r2, w2') ->
  w_orders w2' = w_orders w2 /\ w_positions w2' = w_positions w2
  /\ pf_trades (w_platform w2') = pf_trades (w_platform w2)
  /\ ((exists e, r2 = Err e) \/ r2 = Ok duplicate_response).
Proof.
  intros Hb E Hne Hg1 Hb2 Hg2 Hkey Ht Hsame E2.
  apply receive_cases in E2 as [[(rk & ck & Hw) Hr] | (i2 & p2 & sid2 & cid2 & w3 & Ha2 & _ & _ & _ & Hfree & _)]; [| |done].
  { split_and!; try done; apply Hw. }
  exfalso. assert (i2 = info2 /\ p2 = payload2) as [-> ->].
  { destruct Ha2 as [_ T1 _ P1], Hg2 as [_ T2 _ P2]. split; congruence. }
  apply receive_cases in E as [[(rk & ck & Hw) _] | (i1 & p1 & sid & cid & w1 & Ha & _ & _ & Hheld & _ & _ & Hex)]; [| |done].
  { destruct Hne. apply Hw. }
  assert (i1 = info /\ p1 = payload) as [-> ->].
  { destruct Ha as [_ T1 _ P1], Hg1 as [_ T2 _ P2]. split; congruence. }
  rewrite Hkey, Hsame, (ex_redis _ _ _ _ _ _ _ Hex) in Hfree by discriminate. by apply (Hheld (w_now w2)).
Qed.

(** One response, one trade.  A handled alert is a suppressed duplicate, which
    adds no trade, or has added exactly one trade row, owned by the token's user on
    the bound account and named in the response; the row is rejected exactly when
    the response says so (unless the response reports a trip), and the user's
    counter of the day has gone up by one. *)
Theorem webhook_one_trade req w resp w' :
  book_inv w -> receive req w = (Ok resp, w') ->
  (resp = duplicate_response /\ pf_trades (w_platform w') = pf_trades (w_platform w))
  \/ exists info payload sid cid trade n, genuine req info payload w /\ open_gates info payload sid cid w
       /\ pf_trades (w_platform w') = pf_trades (w_platform w) ++ [trade]
       /\ wr_trade_id resp = Some (t_id trade) /\ t_user_id trade = ti_user_id info
       /\ t_broker_credential_id trade = cid /\ t_strategy_id trade = sid
       /\ (wr_trip_reason resp = None -> (wr_status resp = W_SUCCESS <-> t_status trade <> T_REJECTED))
       /\ trades_seen (ti_user_id info) w = Some n /\ (0 <= n -> trades_seen (ti_user_id info) w' = Some (n + 1)).
Proof.
  intros Hb E. apply receive_cases in E as [[(rk & ck & Hw) Hr] | (info & payload & sid & cid & w1 & Ha & Ho & Hi & _ & _ & Hseen & Hex)]; [| |done].
  - destruct Hr as [(e & [=]) | [= ->]]. left. split; [done | apply Hw].
  - right. destruct Hi as (rk & ck & Hw). destruct (ex_trade _ _ _ _ _ _ _ Hex) as (res & trade & n & Htr & Hid & Hu & Hc & Hs & _ & Hst & Hn & Hn').
    exists info, payload, sid, cid, trade, n. rewrite Htr, (sw_trades _ _ _ _ Hw). rewrite Hseen in Hn. by split_and!.
Qed.

(** The rows after an alert. *)
Lemma receive_rows req w r w' :
  book_inv w -> receive req w = (r, w') ->
  (w_positions w' = w_positions w /\ w_next_id w <= w_next_id w')
  \/ exists w1 scope ok, w_positions w1 = w_positions w /\ touched scope ok w1 w'.
Proof.
  intros Hb E. apply receive_cases in E as [[(rk & ck & Hw) _] | (info & payload & sid & cid & w1 & _ & _ & (rk & ck & Hw) & _ & _ & _ & Hex)]; [| |done].
  - left. split; apply Hw.
  - right. destruct (ex_path _ _ _ _ _ _ _ Hex) as (own & w2 & ok & _ & _ & Hp & Htc & _). exists w2, (fun p => of_user (ti_user_id info) p = true), ok.
    split; [|done]. by rewrite Hp, (sb_positions _ _ (sw_book _ _ _ _ Hw)).
Qed.
End Claims.

(** ** The alert schema and the order schema *)

Lemma lstrip_split s : exists pre, s = pre ++ lstrip s /\ forallb is_space pre = true.
Proof.
  induction s as [|c s (pre & IH & Hp)]; simpl; [by exists []|]. destruct (is_space c) eqn:E; [|by exists []].
  exists (c :: pre). simpl. rewrite E. split; [by f_equal | done].
Qed.

Lemma lstrip_head s c t : lstrip s = c :: t -> is_space c = false.
Proof. induction s as [|d s IH]; simpl; [done|]. destruct (is_space d) eqn:E; [done|]. by intros [= <- _]. Qed.

Lemma strip_idem s : strip (strip s) = strip s.
Proof.
  unfold strip. set (a := lstrip s). destruct (lstrip_split (rev a)) as (pre & Ea & _). set (b := lstrip (rev a)) in *.
  assert (Hb : lstrip (rev b) = rev b).
  { destruct (rev b) as [|c t] eqn:Er; [done|]. apply lstrip_fix.
    assert (Ha : a = rev b ++ rev pre) by (by rewrite <- rev_app_distr, <- Ea, rev_involutive).
    rewrite Er in Ha. by apply (lstrip_head s c (t ++ rev pre)). }
  rewrite Hb, rev_involutive. f_equal. apply lstrip_idem.
Qed.

Lemma str_strip_idem s : str_strip (str_strip s) = str_strip s.
Proof. unfold str_strip. by rewrite L_of_text, strip_idem. Qed.

(** The price rules of the order schema, given those of the alert schema: only a
    LIMIT alert with a trigger price falls short. *)
Lemma price_rules payload o :
  price_shape_ok payload = true -> o_order_type o = wp_order_type payload -> o_price o = wp_price payload ->
  o_trigger_price o = wp_trigger_price payload ->
  (price_and_trigger_ok o = true <-> (wp_order_type payload = LIMIT -> wp_trigger_price payload = None)).
Proof.
  unfold price_shape_ok, price_and_trigger_ok. intros Hs -> -> ->. destruct (wp_order_type payload) eqn:Et; rewrite ?Hs; try (by split).
  simpl. destruct (wp_trigger_price payload); simpl; split; try done. intros Hn. by specialize (Hn eq_refl).
Qed.

(** The constraints of the order schema on the order of an accepted alert. *)
Lemma payload_order_ok payload native side :
  payload_ok payload = true -> (str_strip <$> wp_strategy_name payload) = wp_strategy_name payload ->
  ((exists o, build_order_request payload native side = Ok o) <->
   (1 <= str_len (str_strip native) <= 64)%nat
   /\ (wp_order_type payload = LIMIT -> wp_trigger_price payload = None)
   /\ (forall name, wp_strategy_name payload = Some name -> (str_len name <= 32)%nat)).
Proof.
  intros Hok Hname. unfold payload_ok in Hok. bool_to_prop. unfold build_order_request, checked_order.
  cbn [o_symbol o_exchange o_side o_quantity o_order_type o_product_type o_price o_trigger_price o_tag].
  match goal with |- context [order_request_ok ?x] => set (o := x) end.
  transitivity (order_request_ok o = true).
  { destruct (order_request_ok o); split; try done; [eauto | by intros (? & [=])]. }
  rewrite <- (price_rules payload o) by done. unfold order_request_ok. subst o.
  cbn [o_symbol o_quantity o_price o_trigger_price o_tag]. rewrite str_strip_idem, Hname.
  rewrite !andb_true_iff, !Nat.leb_le, !Z.ltb_lt.
  assert (Htag : opt_ok (fun t => (str_len (str_strip t) <=? 32)%nat) (wp_strategy_name payload) = true <->
                 forall name, wp_strategy_name payload = Some name -> (str_len name <= 32)%nat).
  { destruct (wp_strategy_name payload) as [n|]; [|by split]. injection Hname as Hn. simpl. rewrite Hn, Nat.leb_le.
    split; [by intros ? ? [= <-] | intros Hl; by apply Hl]. }
  rewrite Htag. tauto.
Qed.

(** Which accepted alerts are orders.  A payload that passes the alert schema
    becomes a BUY or SELL order exactly when the broker's symbol has 1 to 64
    characters, a LIMIT alert carries no trigger price and the strategy name has at
    most 32 characters; everything else the order schema asks for is already
    guaranteed, and the order is the alert's in quantity, type, prices and product. *)
Theorem accepted_payload_order decode raw payload native side :
  parse_payload decode raw = Ok payload ->
  (forall o, build_order_request payload native side = Ok o ->
     order_request_ok o = true /\ o_side o = side /\ 0 < o_quantity o /\ o_quantity o = wp_quantity payload
     /\ o_order_type o = wp_order_type payload /\ o_price o = wp_price payload /\ o_trigger_price o = wp_trigger_price payload
     /\ o_exchange o = wp_exchange payload /\ o_product_type o = wp_product_type payload)
  /\ ((exists o, build_order_request payload native side = Ok o) <->
      (1 <= str_len (str_strip native) <= 64)%nat
      /\ (wp_order_type payload = LIMIT -> wp_trigger_price payload = None)
      /\ (forall name, wp_strategy_name payload = Some name -> (str_len name <= 32)%nat)).
Proof.
  intros Hp. unfold parse_payload in Hp. destruct (decode raw) as [p|]; [|done].
  destruct (payload_ok (strip_payload p)) eqn:Hok; [|done]. injection Hp as <-. split.
  - intros o. unfold build_order_request, checked_order. destruct (order_request_ok _) eqn:Eo; [|done]. intros [= <-].
    unfold payload_ok in Hok. bool_to_prop. by split_and!.
  - apply payload_order_ok; [done|]. simpl. destruct (wp_strategy_name p); [|done]. simpl. by rewrite str_strip_idem.
Qed.

(** ** Concrete alerts *)

Definition alert_payload (act : WebhookAction) (q : Z) (sig : option string) : WebhookPayload :=
  {| wp_action := act; wp_symbol := "BSE-AUG2026-FUT"; wp_exchange := NFO; wp_order_type := MARKET;
     wp_product_type := MARGIN; wp_quantity := q; wp_price := None; wp_trigger_price := None; wp_stoploss := None;
     wp_target := None; wp_strategy_name := Some "breakout"; wp_message := None; wp_signal_id := sig |}.

(** Two bodies: a BUY and an EXIT. *)
Definition alert_decode (body : string) : option WebhookPayload :=
  if String.eqb body "buy" then Some (alert_payload A_BUY 375 (Some "s1"%string))
  else if String.eqb body "exit" then Some (alert_payload A_EXIT 1 None) else None.

(** The digest and the HMAC of the samples. *)
Definition plain_digest (s : string) : string := s.
Definition keyed_digest (secret body : string) : string := String.append secret body.

Definition alert_request (body : string) : webhook_request :=
  {| rq_token := "token-0123456789"; rq_body := body; rq_signature := String.append "secret-" body |}.

Definition alert_world : world ScriptedBroker store :=
  sample_world <| w_platform ::= fun f =>
    f <| pf_users := [{| u_id := 1; u_is_active := true |}] |>
      <| pf_webhook_tokens := [{| wt_id := 7; wt_user_id := 1; wt_token_hash := "token-0123456789";
                                  wt_hmac_secret_enc := "secret-"; wt_is_active := true |}] |> |>.

Definition alert_info : token_info := {| ti_user_id := 1; ti_token_id := 7; ti_hmac_secret := "secret-" |}.

Abbreviation deliver body := (receive_webhook sample_settings plain_digest keyed_digest alert_decode (alert_request body)).

Lemma alert_world_book : book_inv alert_world.
Proof. by apply (book_inv_ext sample_world); [exact sample_book|..]. Qed.

Lemma buy_sends : w_orders (snd (deliver "buy" alert_world)) <> w_orders alert_world.
Proof.
  assert (E : length (w_orders (snd (deliver "buy" alert_world))) = 1%nat) by (vm_compute; reflexivity).
  intros Eq. by rewrite Eq in E.
Qed.

Lemma buy_genuine : authentic sample_settings plain_digest keyed_digest alert_decode (alert_request "buy") alert_info
                              (alert_payload A_BUY 375 (Some "s1"%string)) alert_world.
Proof. by split. Qed.

Lemma webhook_orders_gated_witness :
  exists info payload sid cid own closes,
    authentic sample_settings plain_digest keyed_digest alert_decode (alert_request "buy") info payload alert_world
    /\ open_gates info payload sid cid alert_world
    /\ redis_get (alert_key plain_digest info payload (alert_request "buy")) (w_now alert_world) (w_redis alert_world) = None
    /\ w_orders (snd (deliver "buy" alert_world)) = w_orders alert_world ++ own ++ map sent_order closes
    /\ executed_for alert_world (ti_user_id info) cid payload own
    /\ own_closes alert_world (ti_user_id info) closes
    /\ (closes <> [] -> gated (ti_user_id info) (snd (deliver "buy" alert_world))).
Proof.
  exact (webhook_orders_gated sample_settings plain_digest keyed_digest alert_decode (alert_request "buy") alert_world
           (fst (deliver "buy" alert_world)) (snd (deliver "buy" alert_world))
           alert_world_book (surjective_pairing (deliver "buy" alert_world)) buy_sends).
Defined.

(** The same alert again, half a minute later. *)
Definition later_world : world ScriptedBroker store := snd (deliver "buy" alert_world) <| w_now := 130 |>.

Lemma later_book : book_inv later_world.
Proof.
  assert (Hp : w_positions later_world = [sample_position]) by (vm_compute; reflexivity).
  apply (book_inv_ext sample_world); [exact sample_book | exact Hp | vm_compute; discriminate].
Qed.

Lemma later_genuine : authentic sample_settings plain_digest keyed_digest alert_decode (alert_request "buy") alert_info
                                (alert_payload A_BUY 375 (Some "s1"%string)) later_world.
Proof. split; [done | vm_compute; reflexivity | done | done]. Qed.

Lemma later_in_minute : w_now later_world < w_now alert_world + 60.
Proof. reflexivity. Qed.

Lemma later_slot t :
  redis_get (alert_key plain_digest alert_info (alert_payload A_BUY 375 (Some "s1"%string)) (alert_request "buy")) t (w_redis later_world)
  = redis_get (alert_key plain_digest alert_info (alert_payload A_BUY 375 (Some "s1"%string)) (alert_request "buy")) t
              (w_redis (snd (deliver "buy" alert_world))).
Proof. unfold later_world. by destruct (deliver "buy" alert_world). Qed.

Lemma webhook_signal_once_witness :
  w_orders (snd (deliver "buy" later_world)) = w_orders later_world
  /\ w_positions (snd (deliver "buy" later_world)) = w_positions later_world
  /\ pf_trades (w_platform (snd (deliver "buy" later_world))) = pf_trades (w_platform later_world)
  /\ ((exists e, fst (deliver "buy" later_world) = Err e) \/ fst (deliver "buy" later_world) = Ok duplicate_response).
Proof.
  exact (webhook_signal_once sample_settings plain_digest keyed_digest alert_decode (alert_request "buy") alert_info
           (alert_payload A_BUY 375 (Some "s1"%string)) alert_world (fst (deliver "buy" alert_world)) (snd (deliver "buy" alert_world))
           (alert_request "buy") alert_info (alert_payload A_BUY 375 (Some "s1"%string)) later_world
           (fst (deliver "buy" later_world)) (snd (deliver "buy" later_world))
           alert_world_book (surjective_pairing (deliver "buy" alert_world)) buy_sends buy_genuine later_book
           later_genuine eq_refl later_in_minute later_slot (surjective_pairing (deliver "buy" later_world))).
Defined.

Definition response_of (out : result exn WebhookResponse * world ScriptedBroker store) : WebhookResponse :=
  match out.1 with Ok resp => resp | Err _ => duplicate_response end.

Lemma deliver_answered body w : is_ok (deliver body w).1 = true -> deliver body w = (Ok (response_of (deliver body w)), (deliver body w).2).
Proof. unfold response_of. destruct (deliver body w) as [[resp|e] w']; simpl; [done | discriminate]. Qed.

Lemma webhook_one_trade_witness :
  let resp := response_of (deliver "exit" alert_world) in
  let w' := snd (deliver "exit" alert_world) in
  (resp = duplicate_response /\ pf_trades (w_platform w') = pf_trades (w_platform alert_world))
  \/ exists info payload sid cid trade n,
       authentic sample_settings plain_digest keyed_digest alert_decode (alert_request "exit") info payload alert_world
       /\ open_gates info payload sid cid alert_world
       /\ pf_trades (w_platform w') = pf_trades (w_platform alert_world) ++ [trade]
       /\ wr_trade_id resp = Some (t_id trade) /\ t_user_id trade = ti_user_id info
       /\ t_broker_credential_id trade = cid /\ t_strategy_id trade = sid
       /\ (wr_trip_reason resp = None -> (wr_status resp = W_SUCCESS <-> t_status trade <> T_REJECTED))
       /\ trades_seen (ti_user_id info) alert_world = Some n /\ (0 <= n -> trades_seen (ti_user_id info) w' = Some (n + 1)).
Proof.
  intros resp w'. apply (webhook_one_trade sample_settings plain_digest keyed_digest alert_decode (alert_request "exit") alert_world resp w').
  - exact alert_world_book.
  - apply deliver_answered. vm_compute. reflexivity.
Defined.

(** An alert refused by the kill switch has used up its slot: sent again after the
    reset, within the minute, it is reported as a duplicate and never executed. *)
Example refusal_burns_slot :
  let tripped := alert_world <| w_redis ::= redis_set (kill_key 1) (state_value TRIPPED) |> in
  let '(r1, w1) := deliver "buy" tripped in
  let '(r2, w2) := deliver "buy" (w1 <| w_redis ::= redis_delete (kill_key 1) |>) in
  (r1, (resp ← r2; Ok (wr_status resp)), length (w_orders w2)) = (Err (HTTPException 403), Ok W_DUPLICATE, O).
Proof. vm_compute. reflexivity. Qed.

(** An EXIT alert closes the whole leg of 750 and records a trade of quantity 1. *)
Example exit_trade_quantity :
  let leg := {| row_symbol := Some (L "BSE-AUG2026-FUT"); row_quantity := QInt 750; row_exchange := NFO; row_product_type := MARGIN |} in
  let '(r, w1) := deliver "exit" (alert_world <| w_broker ::= fun b => b <| Samples.sb_positions := [leg] |> |>) in
  (map (fun ko => o_quantity (snd ko)) (w_orders w1), map t_quantity (pf_trades (w_platform w1))) = ([750], [1]).
Proof. vm_compute. reflexivity. Qed.

(** An EXIT with nothing to close sends no order, yet records a completed trade and
    uses up one of the user's trades of the day. *)
Example exit_without_position_counts :
  let '(r, w1) := deliver "exit" alert_world in
  (length (w_orders w1), map t_status (pf_trades (w_platform w1)), trades_seen 1 w1) = (O, [T_COMPLETE], Some 1).
Proof. vm_compute. reflexivity. Qed.

Definition limit_payload : WebhookPayload :=
  {| wp_action := A_BUY; wp_symbol := "RELIANCE"; wp_exchange := NSE; wp_order_type := LIMIT; wp_product_type := INTRADAY;
     wp_quantity := 10; wp_price := Some (Dec 2400 0); wp_trigger_price := Some (Dec 2390 0); wp_stoploss := None;
     wp_target := None; wp_strategy_name := None; wp_message := None; wp_signal_id := None |}.

Lemma accepted_payload_order_witness :
  parse_payload (fun _ => Some limit_payload) "limit" = Ok limit_payload
  /\ ((exists o, build_order_request limit_payload "RELIANCE" BUY = Ok o) <->
      (1 <= str_len (str_strip "RELIANCE") <= 64)%nat
      /\ (wp_order_type limit_payload = LIMIT -> wp_trigger_price limit_payload = None)
      /\ (forall name, wp_strategy_name limit_payload = Some name -> (str_len name <= 32)%nat)).
Proof.
  split; [vm_compute; reflexivity|].
  apply (accepted_payload_order (fun _ => Some limit_payload) "limit" limit_payload "RELIANCE" BUY). vm_compute. reflexivity.
Defined.

(** The alert schema accepts a LIMIT alert with a trigger price; the order does not. *)
Example limit_with_trigger_dies :
  payload_ok limit_payload = true /\ build_order_request limit_payload "RELIANCE" BUY = Err ValidationError.
Proof. vm_compute. auto. Qed.
