(* ===== verification/BrokerBatch.v ===== *)
(** * Bounded, budgeted broker batches (backend/app/services/broker_position_batch.py)

    [gather_broker_positions] asks every subscriber's broker at once: at most
    [concurrency] calls are in flight, a call is cut off after
    [per_call_timeout], and the batch is cut off after [total_budget].  The model
    is timed: the environment says how long each call takes and how it ends
    ([fetch_outcome]); the semaphore serves waiting calls first come, first
    served, so a call starts when the earliest slot is free; scheduling itself
    takes no time.  Times are milliseconds from the start of the batch. *)

From Stdlib Require Import ZArith Lia List Bool Sorted.
From stdpp Require Import base list gmap.
From S2P Require Import Prelude.

(** How one call would end if nothing cut it off. *)
Inductive fetch_outcome (V : Type) : Type :=
| Answers (took : Z) (v : V)
| Raises (took : Z)
| Hangs.

Arguments Answers {V} took v.
Arguments Raises {V} took.
Arguments Hangs {V}.

(** A definite answer of the broker, or the sentinel [POSITION_UNKNOWN]. *)
Inductive evidence (V : Type) : Type :=
| POSITION_UNKNOWN
| Definite (v : V).

Arguments POSITION_UNKNOWN {V}.
Arguments Definite {V} v.

Definition PER_CALL_TIMEOUT : Z := 2000.
Definition MAX_CONCURRENCY : Z := 16.
Definition TOTAL_BUDGET : Z := 6000.

(** One call's stretch of time and what it brought. *)
Record span (K V : Type) : Type := {
  sp_key : K;
  sp_start : Z;
  sp_end : Z;
  sp_value : option V
}.

Arguments sp_key {K V} _.
Arguments sp_start {K V} _.
Arguments sp_end {K V} _.
Arguments sp_value {K V} _.

Section Batch.
Context {K V : Type} `{Countable K}.
Context (fetch : K -> fetch_outcome V) (per_call_timeout total_budget : Z).

(** [asyncio.wait_for(fetch(key), timeout)]: how long the slot is held and the
    answer, if one came in time. *)
Definition wait_for (o : fetch_outcome V) : Z * option V :=
  match o with
  | Answers took v => if Z.max 0 took <? per_call_timeout then (Z.max 0 took, Some v) else (Z.max 0 per_call_timeout, None)
  | Raises took => if Z.max 0 took <? per_call_timeout then (Z.max 0 took, None) else (Z.max 0 per_call_timeout, None)
  | Hangs => (Z.max 0 per_call_timeout, None)
  end.

(** The slots of the semaphore by the time they are next free, earliest first. *)
Fixpoint occupy (t : Z) (slots : list Z) : list Z :=
  match slots with
  | [] => [t]
  | s :: slots' => if t <=? s then t :: slots else s :: occupy t slots'
  end.

Fixpoint schedule (slots : list Z) (keys : list K) : list (span K V) :=
  match keys, slots with
  | key :: keys', s :: slots' =>
      let '(d, v) := wait_for (fetch key) in
      {| sp_key := key; sp_start := s; sp_end := s + d; sp_value := v |} :: schedule (occupy (s + d) slots') keys'
  | _, _ => []
  end.

(** [out[key] = ...] when the call ends with an answer before the budget; a call
    cut off by the budget leaves the key as it is. *)
Definition settle (out : gmap K (evidence V)) (sp : span K V) : gmap K (evidence V) :=
  match sp_value sp with
  | Some v => if sp_end sp <? total_budget then <[sp_key sp := Definite v]> out else out
  | None => out
  end.

Definition free_slots (concurrency : Z) : list Z := repeat 0 (Z.to_nat (Z.max 1 concurrency)).

Definition gather_broker_positions (keys : list K) (concurrency : Z) : gmap K (evidence V) :=
  let out := list_to_map (map (fun k => (k, POSITION_UNKNOWN)) keys) in
  foldl settle out (schedule (free_slots concurrency) keys).

(** The calls in flight at time [t]. *)
Definition in_flight (t : Z) (sps : list (span K V)) : list (span K V) :=
  List.filter (fun sp => (sp_start sp <=? t) && (t <? sp_end sp)) sps.

(** ** The schedule *)

Lemma wait_for_spec o :
  let '(d, v) := wait_for o in
  0 <= d <= Z.max 0 per_call_timeout
  /\ forall x, v = Some x <-> exists took, o = Answers took x /\ Z.max 0 took < per_call_timeout /\ d = Z.max 0 took.
Proof.
  destruct o as [took v|took|]; simpl; [destruct (Z.ltb_spec (Z.max 0 took) per_call_timeout)..|];
    (split; [lia|]); intros x; split; try discriminate; try (intros (? & E & ? & ?); simplify_eq; lia).
  - intros [= <-]. eauto.
  - intros (? & E & ? & ?). by simplify_eq.
Qed.

Lemma occupy_length t slots : length (occupy t slots) = S (length slots).
Proof. induction slots as [|s slots IH]; simpl; [done|]. destruct (t <=? s); simpl; by rewrite ?IH. Qed.

Lemma occupy_perm t slots : occupy t slots ≡ₚ t :: slots.
Proof.
  induction slots as [|s slots IH]; simpl; [done|]. destruct (t <=? s); [done|].
  rewrite IH. constructor.
Qed.

(** How many slots are free by time [t]. *)
Definition free_by (t : Z) (slots : list Z) : nat := length (List.filter (fun s => s <=? t) slots).

Lemma free_by_le t slots : (free_by t slots <= length slots)%nat.
Proof. apply filter_length_le. Qed.

Lemma free_by_all t slots : Forall (fun s => s <= t) slots -> free_by t slots = length slots.
Proof.
  unfold free_by. induction 1 as [|s slots Hs _ IH]; simpl; [done|].
  rewrite (proj2 (Z.leb_le s t)) by done. simpl. by rewrite IH.
Qed.

Lemma free_by_perm t l1 l2 : l1 ≡ₚ l2 -> free_by t l1 = free_by t l2.
Proof.
  unfold free_by. induction 1 as [|x l1 l2 _ IH|x y l|l1 l2 l3 _ IH1 _ IH2]; simpl; [done|..|congruence].
  - destruct (x <=? t); simpl; congruence.
  - by destruct (x <=? t), (y <=? t).
Qed.

Lemma in_flight_bound t slots keys : (length (in_flight t (schedule slots keys)) <= free_by t slots)%nat.
Proof.
  revert slots. induction keys as [|key keys IH]; intros [|s slots]; simpl; try lia.
  pose proof (wait_for_spec (fetch key)) as Hw. destruct (wait_for (fetch key)) as [d v]. destruct Hw as [Hd _].
  specialize (IH (occupy (s + d) slots)). rewrite (free_by_perm t _ _ (occupy_perm (s + d) slots)) in IH.
  unfold in_flight, free_by in *. simpl in *.
  destruct (Z.leb_spec s t), (Z.ltb_spec t (s + d)), (Z.leb_spec (s + d) t); simpl in *; lia.
Qed.

(** After a head start of [q] rounds with [r] calls of the next one placed,
    every slot is free by round [q + 1] and all but [r] by round [q]. *)
Definition on_pace (T : Z) (q : Z) (r : nat) (slots : list Z) : Prop :=
  Sorted Z.le slots /\ Forall (fun s => s <= (q + 1) * T) slots /\ (length slots - r <= free_by (q * T) slots)%nat.

Lemma occupy_sorted t slots : Sorted Z.le slots -> Sorted Z.le (occupy t slots).
Proof.
  induction slots as [|s slots IH]; intros Hs; simpl; [by repeat constructor|].
  destruct (Z.leb_spec t s); [by constructor; [|constructor]|].
  apply Sorted_inv in Hs as [Hs Hd]. constructor; [by apply IH|].
  destruct slots as [|s' slots]; simpl; [constructor; lia|].
  inversion Hd; subst. destruct (t <=? s'); constructor; lia.
Qed.

Lemma on_pace_round T q slots : 0 <= T -> on_pace T q (length slots) slots -> on_pace T (q + 1) 0 slots.
Proof.
  intros HT (Hs & Hb & _). split; [done|]. split.
  - eapply Forall_impl; [exact Hb|]. simpl. intros. nia.
  - rewrite free_by_all by done. lia.
Qed.

Lemma free_by_some t s slots : Sorted Z.le (s :: slots) -> (0 < free_by t (s :: slots))%nat -> s <= t.
Proof.
  intros Hs Hf. apply Sorted_StronglySorted in Hs; [|intros x y z; lia].
  apply StronglySorted_inv in Hs as [_ Hall]. destruct (Z.le_gt_cases s t) as [|Hgt]; [done|].
  unfold free_by in Hf. simpl in Hf. rewrite (proj2 (Z.leb_gt s t)) in Hf by done.
  enough (E : List.filter (fun x => x <=? t) slots = []) by (rewrite E in Hf; simpl in Hf; lia).
  clear - Hall Hgt. induction Hall as [|x l Hx _ IH]; simpl; [done|].
  by rewrite (proj2 (Z.leb_gt x t)) by lia.
Qed.

Lemma on_pace_step T q r s d slots :
  0 <= d <= T -> (r < length (s :: slots))%nat -> on_pace T q r (s :: slots) ->
  s <= q * T /\ on_pace T q (S r) (occupy (s + d) slots).
Proof.
  intros Hd Hr (Hs & Hb & Hf). simpl length in *.
  assert (Hsq : s <= q * T) by (eapply free_by_some; [exact Hs | lia]).
  split; [done|]. apply Sorted_inv in Hs as [Hs _]. apply Forall_cons in Hb as [_ Hb].
  split; [by apply occupy_sorted|]. split.
  - eapply Permutation_Forall; [symmetry; apply occupy_perm|]. constructor; [lia | done].
  - rewrite occupy_length, (free_by_perm _ _ _ (occupy_perm (s + d) slots)).
    unfold free_by in *. simpl in *. rewrite (proj2 (Z.leb_le s (q * T))) in Hf by done. simpl in Hf.
    destruct (s + d <=? q * T); simpl; lia.
Qed.

(** The [i]-th call starts by the end of the rounds before it. *)
Lemma schedule_start T slots q r keys i sp :
  per_call_timeout = T -> 0 <= T -> (r < length slots)%nat -> on_pace T q r slots ->
  schedule slots keys !! i = Some sp ->
  sp_start sp <= (q + Z.of_nat ((r + i) / length slots)) * T.
Proof.
  intros <- HT. revert slots q r i. induction keys as [|key keys IH]; intros slots q r i Hr Hp Hi;
    [by destruct slots|].
  destruct slots as [|s slots]; [simpl in Hr; lia|]. cbn [schedule] in Hi.
  pose proof (wait_for_spec (fetch key)) as Hw. destruct (wait_for (fetch key)) as [d v]. destruct Hw as [Hd _].
  destruct (on_pace_step per_call_timeout q r s d slots) as [Hsq Hp']; [lia | done | done |].
  destruct i as [|i]; cbn in Hi.
  - injection Hi as <-. cbn [sp_start]. rewrite Nat.add_0_r. rewrite Nat.div_small by done. lia.
  - assert (Hlen : length (occupy (s + d) slots) = length (s :: slots)) by (by rewrite occupy_length).
    destruct (decide (S r = length (s :: slots))) as [E|E].
    + rewrite E, <- Hlen in Hp'. apply on_pace_round in Hp'; [|done].
      apply (IH _ (q + 1) 0%nat) in Hi; [| rewrite Hlen; simpl; lia | done].
      rewrite Hlen in Hi. replace (r + S i)%nat with (length (s :: slots) + i)%nat by lia.
      replace (length (s :: slots) + i)%nat with (1 * length (s :: slots) + i)%nat by lia.
      rewrite Nat.div_add_l by done. rewrite Nat.add_0_l in Hi. lia.
    + apply (IH _ q (S r)) in Hi; [| rewrite Hlen; lia | done].
      rewrite Hlen in Hi. by replace (r + S i)%nat with (S r + i)%nat by lia.
Qed.

Lemma schedule_lookup slots keys i key :
  slots <> [] -> keys !! i = Some key ->
  exists sp, schedule slots keys !! i = Some sp /\ sp_key sp = key
    /\ let '(d, v) := wait_for (fetch key) in sp_end sp = sp_start sp + d /\ sp_value sp = v.
Proof.
  revert slots i. induction keys as [|k keys IH]; intros [|s slots] i Hne Hi; try done.
  cbn [schedule]. destruct (wait_for (fetch k)) as [d v] eqn:E. destruct i as [|i]; simpl in Hi.
  - injection Hi as ->. eexists. split; [reflexivity|]. simpl. by rewrite E.
  - apply IH; [|done]. intros E'. apply (f_equal length) in E'. rewrite occupy_length in E'. discriminate.
Qed.

Lemma schedule_keys slots keys sp : In sp (schedule slots keys) ->
  In (sp_key sp) keys /\ let '(d, v) := wait_for (fetch (sp_key sp)) in sp_end sp = sp_start sp + d /\ sp_value sp = v.
Proof.
  revert slots. induction keys as [|k keys IH]; intros [|s slots]; simpl; try done.
  destruct (wait_for (fetch k)) as [d v] eqn:E. intros [<- | Hin]; simpl; [by rewrite E; auto|].
  apply IH in Hin as [? ?]. auto.
Qed.

(** ** The batch *)

Lemma settle_lookup out sp k x :
  settle out sp !! k = Some x ->
  out !! k = Some x
  \/ exists v, x = Definite v /\ sp_key sp = k /\ sp_value sp = Some v /\ sp_end sp < total_budget.
Proof.
  unfold settle. destruct (sp_value sp) as [v|] eqn:Ev; [|auto].
  destruct (Z.ltb_spec (sp_end sp) total_budget); [|auto].
  rewrite lookup_insert. case_decide as E; [|auto]. intros [= <-]. right. eauto.
Qed.

Lemma settle_all_sound sps out k x :
  foldl settle out sps !! k = Some x ->
  out !! k = Some x
  \/ exists v sp, x = Definite v /\ In sp sps /\ sp_key sp = k /\ sp_value sp = Some v /\ sp_end sp < total_budget.
Proof.
  revert out. induction sps as [|sp sps IH]; intros out E; simpl in *; [auto|].
  apply IH in E as [E | (v & sp' & ? & ? & ?)]; [|right; eauto 8].
  apply settle_lookup in E as [E | (v & ? & ? & ? & ?)]; [auto|]. right. exists v, sp. auto 8.
Qed.

(** The answers of a key agree, since the environment answers a key one way. *)
Lemma settle_all_complete sps out k v :
  Forall (fun sp => sp_key sp = k -> forall v', sp_value sp = Some v' -> v' = v) sps ->
  (out !! k = Some (Definite v)
   \/ exists sp, In sp sps /\ sp_key sp = k /\ sp_value sp = Some v /\ sp_end sp < total_budget) ->
  foldl settle out sps !! k = Some (Definite v).
Proof.
  revert out. induction sps as [|sp sps IH]; intros out Hall Hk; simpl.
  - destruct Hk as [|(? & [] & _)]; done.
  - apply Forall_cons in Hall as [Hsp Hall]. apply IH; [done|].
    unfold settle. destruct Hk as [Hk | (sp' & [-> | Hin] & Hkey & Hv & Hend)].
    + left. destruct (sp_value sp) as [v'|] eqn:E; [|done]. destruct (sp_end sp <? total_budget); [|done].
      rewrite lookup_insert. case_decide as Ek; [|done]. f_equal. f_equal. by apply Hsp.
    + left. rewrite Hv, (proj2 (Z.ltb_lt _ _) Hend), Hkey. by rewrite lookup_insert_eq.
    + right. eauto.
Qed.

Lemma seed_lookup (keys : list K) k x :
  (list_to_map (map (fun k => (k, POSITION_UNKNOWN)) keys) : gmap K (evidence V)) !! k = Some x ->
  x = POSITION_UNKNOWN /\ In k keys.
Proof.
  induction keys as [|k' keys IH]; simpl; [by rewrite lookup_empty|].
  rewrite lookup_insert. case_decide; [intros [= <-]; auto | intros E; apply IH in E as [? ?]; auto].
Qed.

Lemma settle_all_dom sps out k : is_Some (out !! k) -> is_Some (foldl settle out sps !! k).
Proof.
  revert out. induction sps as [|sp sps IH]; intros out Hk; simpl; [done|]. apply IH.
  unfold settle. destruct (sp_value sp) as [v|]; [|done]. destruct (sp_end sp <? total_budget); [|done].
  rewrite lookup_insert. by case_decide.
Qed.

(** A definite answer is the broker's own, given in time. *)
Lemma gather_sound keys concurrency k v :
  gather_broker_positions keys concurrency !! k = Some (Definite v) ->
  exists took, fetch k = Answers took v /\ Z.max 0 took < per_call_timeout.
Proof.
  intros E. apply settle_all_sound in E as [E | (v' & sp & [= <-] & Hin & <- & Hv & _)].
  - by apply seed_lookup in E as [? _].
  - apply schedule_keys in Hin as [_ Hsp]. pose proof (wait_for_spec (fetch (sp_key sp))) as Hw.
    destruct (wait_for (fetch (sp_key sp))) as [d v']. destruct Hsp as [_ E], Hw as [_ Hw].
    rewrite E in Hv. apply Hw in Hv as (took & ? & ? & _). eauto.
Qed.
End Batch.

(** A batch of broker checks is fail-safe.  Every key asked for is in the
    answer; a key is definite only with what its broker answered, within the
    per-call timeout; a call that raised, hung or was too slow, and a key that was
    not asked for, is never definite; and no more than [max 1 concurrency] calls
    are in flight at any time. *)
Theorem gather_fail_safe {K V : Type} `{Countable K} (fetch : K -> fetch_outcome V) timeout budget keys concurrency :
  let out := gather_broker_positions fetch timeout budget keys concurrency in
  (forall k, is_Some (out !! k) <-> In k keys)
  /\ (forall k v, out !! k = Some (Definite v) ->
        exists took, fetch k = Answers took v /\ Z.max 0 took < timeout)
  /\ (forall t, Z.of_nat (length (in_flight t (schedule fetch timeout (free_slots concurrency) keys)))
                <= Z.max 1 concurrency).
Proof.
  intros out. split; [|split].
  - intros k. split.
    + intros [x E]. apply settle_all_sound in E as [E | (v & sp & _ & Hin & <- & _)].
      * by apply (seed_lookup keys k x).
      * by apply (schedule_keys _ _ _ _ _ Hin).
    + intros Hin. apply settle_all_dom. apply list_elem_of_In in Hin.
      clear - Hin. induction keys as [|k' keys IH]; [by apply elem_of_nil in Hin|].
      simpl. rewrite lookup_insert. case_decide as E; [by eexists|].
      apply elem_of_cons in Hin as [->|Hin]; [done | by apply IH].
  - intros k v. apply gather_sound.
  - intros t. pose proof (in_flight_bound fetch timeout t (free_slots concurrency) keys) as Hb.
    pose proof (free_by_le t (free_slots concurrency)) as Hle.
    unfold free_slots in Hle at 2. rewrite repeat_length in Hle. lia.
Qed.

(** C27: the batch keeps up with its budget.  If the [i]-th key's broker answers
    within the per-call timeout and the budget holds the rounds of calls up to its
    own, [(i / concurrency + 1) * timeout <= budget], then its answer is in the
    result, however slow the other brokers are. *)
Theorem gather_keeps_up {K V : Type} `{Countable K} (fetch : K -> fetch_outcome V) timeout budget keys concurrency
    i k took v :
  keys !! i = Some k -> fetch k = Answers took v -> 0 <= took < timeout ->
  (Z.of_nat i / Z.max 1 concurrency + 1) * timeout <= budget ->
  gather_broker_positions fetch timeout budget keys concurrency !! k = Some (Definite v).
Proof.
  intros Hk Hf Ht Hb. set (slots := free_slots concurrency).
  assert (Hlen : Z.of_nat (length slots) = Z.max 1 concurrency)
    by (unfold slots, free_slots; rewrite repeat_length; lia).
  assert (Hpace : on_pace timeout 0 0 slots).
  { unfold slots, free_slots. set (n := Z.to_nat (Z.max 1 concurrency)). split; [|split].
    - clear. induction n as [|n IH]; simpl; constructor; [done|]. destruct n; simpl; constructor; lia.
    - apply List.Forall_forall. intros s Hin. apply repeat_spec in Hin. lia.
    - rewrite free_by_all; [lia|]. apply List.Forall_forall. intros s Hin. apply repeat_spec in Hin. lia. }
  destruct (schedule_lookup fetch timeout slots keys i k) as (sp & Hi & Hkey & Hsp); [|done|].
  { intros E. rewrite E in Hlen. simpl in Hlen. lia. }
  pose proof (schedule_start fetch timeout timeout slots 0 0 keys i sp eq_refl ltac:(lia) ltac:(lia) Hpace Hi) as Hst.
  rewrite Nat.add_0_l, Nat2Z.inj_div, Hlen in Hst.
  pose proof (wait_for_spec timeout (fetch k)) as Hw. rewrite Hf in Hsp, Hw.
  cbn [wait_for] in Hsp. rewrite (proj2 (Z.ltb_lt _ _)) in Hsp by lia. destruct Hsp as [Hend Hval].
  apply settle_all_complete.
  - apply List.Forall_forall. intros sp' Hin Ek v' Hv'. apply schedule_keys in Hin as [_ Hin].
    rewrite Ek, Hf in Hin. cbn [wait_for] in Hin. rewrite (proj2 (Z.ltb_lt _ _)) in Hin by lia.
    destruct Hin as [_ Hin]. congruence.
  - right. exists sp. split; [|by repeat split; auto; lia || nia]. apply list_elem_of_In. by eapply list_elem_of_lookup_2.
Qed.

(** Forty-eight subscribers, the documented capacity of the default batch: the
    slowest broker that is still in time at the back of the queue, the other
    brokers hanging. *)
Definition last_answers (k : Z) : fetch_outcome Z := if k =? 47 then Answers 1999 800 else Hangs.

Lemma gather_keeps_up_witness :
  gather_broker_positions last_answers PER_CALL_TIMEOUT TOTAL_BUDGET (map Z.of_nat (seq 0 48)) MAX_CONCURRENCY
    !! 47 = Some (Definite 800).
Proof.
  apply (gather_keeps_up last_answers PER_CALL_TIMEOUT TOTAL_BUDGET (map Z.of_nat (seq 0 48)) MAX_CONCURRENCY
           47 47 1999 800); [reflexivity | reflexivity | vm_compute; split; [discriminate | reflexivity] | vm_compute; discriminate].
Defined.

(** One subscriber more than the budget holds goes unanswered. *)
Definition crowd : list Z := map Z.of_nat (seq 0 49).

Example over_capacity_is_unknown :
  gather_broker_positions (fun k => if k =? 48 then Answers 1999 800 else Hangs) PER_CALL_TIMEOUT TOTAL_BUDGET crowd
    MAX_CONCURRENCY !! 48 = Some POSITION_UNKNOWN.
Proof. vm_compute. reflexivity. Qed.
