(* ===== verification/Fanout.v ===== *)
(** * Marketplace fan-out (backend/app/services/marketplace_fanout.py)

    One signal of a strategy's owner, many subscribers.  Entries are mirrored by
    [dispatch_subscriber_executions], exits by [fan_out_exit]; both simulate
    fills (no broker is built or called), work through the subscribers one by
    one, isolate each one's failure, and write rows tagged with the
    subscription.  Where a subscriber's current position is read from is an
    interface ([SubscriberPositionProvider], a Protocol in the source) with the
    two implementations of the source: the stored rows, and the stored rows
    checked against a batch of broker answers.  Also here: the instrument
    classifier (backend/app/strategy_engine/instrument_router.py) that gates the
    fan-out and the owner/subscriber drift report.

    The scrip master and the margin check are arguments, as in the source.  The
    rows of one subscriber are written in a savepoint, which rolls back when a
    write is refused.  Result messages are kept as data. *)

From Stdlib Require Import ZArith Lia List Bool String.
From stdpp Require Import base list strings gmap.
From S2P Require Import Prelude PyText SymbolMatch PyFloat PyDecimal PyNum Records Enums Models Safeguards Book.
From S2P Require Import StrategyExecutor DayState KillSwitch BrokerBatch.

(** ** Instrument type *)

Inductive instrument : Type := FUTURES | OPTIONS | CASH.

#[export] Instance instrument_eq_dec : EqDecision instrument.
Proof. solve_decision. Defined.

Definition classify_marker (marker : json) : option instrument :=
  match marker with
  | JStr s =>
      let normalised := str_lower (str_strip s) in
      if String.eqb normalised "futures" then Some FUTURES
      else if String.eqb normalised "options" then Some OPTIONS
      else if String.eqb normalised "cash" then Some CASH
      else None
  | _ => None
  end.

(** A strategy row has no [instrument_type] attribute of its own. *)
Definition resolve_instrument_type (strategy : option Strategy) : instrument :=
  match strategy with
  | None => FUTURES
  | Some s =>
      match strategy_json s with
      | None => FUTURES
      | Some sj =>
          match classify_marker (jget sj "instrument_type") with
          | Some marker => marker
          | None => match jget sj "options" with JDict _ => OPTIONS | _ => FUTURES end
          end
      end
  end.

(** ** Data *)

Record SubscriberRef : Type := {
  sr_subscription_id : uuid;
  sr_subscriber_id : uuid;
  sr_listing_id : uuid;
  sr_status : subscription_status;
  sr_subscribed_at : datetime;
  sr_access_until : option datetime;
  sr_lots_override : option Z;
  sr_execution_mode : string;
  sr_is_paper : bool;
  sr_direction_filter : string;
  sr_broker_credential_id : option uuid
}.

Inductive fan_status : Type :=
| fs_filled
| fs_duplicate
| fs_skipped_direction_filter
| fs_skipped_already_in_position
| fs_skipped_no_position
| fs_skipped_broker_unknown
| fs_skipped
| fs_refused_size
| fs_failed_insufficient_funds
| fs_notify_only
| fs_failed.

#[export] Instance fan_status_eq_dec : EqDecision fan_status.
Proof. solve_decision. Defined.

(** The text for the subscriber, as data. *)
Inductive notice : Type :=
| ManualEntry (side : OrderSide) (symbol : string) (quantity : Z)
| ManualExit (quantity : Z) (symbol action_kind : string)
| NotVerified (symbol what : string).

Inductive fan_error : Type :=
| FanRaised (e : exn)
| FanMargin (message : string).

Record PaperExecutionResult : Type := {
  pe_subscription_id : uuid;
  pe_subscriber_id : uuid;
  pe_symbol : string;
  pe_action : string;
  pe_side : option string;
  pe_quantity : Z;
  pe_broker_order_id : option string;
  pe_avg_price : option dec;
  pe_status : fan_status;
  pe_position_id : option uuid;
  pe_resolved_credential_id : option uuid;
  pe_credential_source : option string;
  pe_error : option fan_error;
  pe_notify_message : option notice
}.

#[export] Instance PaperExecutionResult_eta : Eta PaperExecutionResult := fun r =>
  {| pe_subscription_id := pe_subscription_id r; pe_subscriber_id := pe_subscriber_id r; pe_symbol := pe_symbol r;
     pe_action := pe_action r; pe_side := pe_side r; pe_quantity := pe_quantity r;
     pe_broker_order_id := pe_broker_order_id r; pe_avg_price := pe_avg_price r; pe_status := pe_status r;
     pe_position_id := pe_position_id r; pe_resolved_credential_id := pe_resolved_credential_id r;
     pe_credential_source := pe_credential_source r; pe_error := pe_error r;
     pe_notify_message := pe_notify_message r |}.

Record SubscriberCredentialResolution : Type := {
  cr_credential_id : option uuid;
  cr_source : string;
  cr_usable : bool
}.

(** ** Where a subscriber's position is read from *)

Inductive found : Type :=
| Flat
| Unverified
| Stored (p : StrategyPosition)
| BrokerHolds (row : broker_row).

Class SubscriberPositionProvider (P : Type) : Type := {
  prefetch : P -> list uuid -> P;
  find_open : P -> list StrategyPosition -> uuid -> uuid -> option string -> found
}.

Definition mirrors (strategy_id subscription_id : uuid) (p : StrategyPosition) : bool :=
  (p_strategy_id p =? strategy_id) && bool_decide (p_subscription_id p = Some subscription_id) && is_open p.

(** The subscriber's own open rows, newest first. *)
Definition stored_open (rows : list StrategyPosition) (strategy_id subscription_id : uuid) : option StrategyPosition :=
  latest_by opened_at (List.filter (mirrors strategy_id subscription_id) rows).

(** What the fan-out relies on: a stored row that is reported is the newest open
    row of that subscription, and the answer depends on no other rows. *)
Class ProviderLaws (P : Type) `{SubscriberPositionProvider P} : Prop := {
  find_open_stored (prov : P) rows strategy_id subscription_id symbol p :
    find_open prov rows strategy_id subscription_id symbol = Stored p ->
    stored_open rows strategy_id subscription_id = Some p;
  find_open_own (prov : P) rows rows' strategy_id subscription_id symbol :
    stored_open rows strategy_id subscription_id = stored_open rows' strategy_id subscription_id ->
    find_open prov rows strategy_id subscription_id symbol = find_open prov rows' strategy_id subscription_id symbol
}.

Variant PaperPositionProvider : Type := paper_provider.

#[export] Instance paper_positions : SubscriberPositionProvider PaperPositionProvider := {
  prefetch p _ := p;
  find_open _ rows strategy_id subscription_id _ :=
    match stored_open rows strategy_id subscription_id with Some p => Stored p | None => Flat end
}.

(** The broker's answers are those of one batch; [bp_fetch] says how the brokers
    answer (see [BrokerBatch.v]). *)
Record BrokerBackedPositionProvider : Type := {
  bp_fetch : uuid -> fetch_outcome (list broker_row);
  bp_per_call_timeout : option Z;
  bp_concurrency : option Z;
  bp_total_budget : option Z;
  bp_cache : gmap uuid (evidence (list broker_row));
  bp_prefetched : bool
}.

Definition BrokerBackedPositionProvider_prefetch (prov : BrokerBackedPositionProvider) (subscription_ids : list uuid)
  : BrokerBackedPositionProvider :=
  {| bp_fetch := bp_fetch prov; bp_per_call_timeout := bp_per_call_timeout prov; bp_concurrency := bp_concurrency prov;
     bp_total_budget := bp_total_budget prov;
     bp_cache := gather_broker_positions (bp_fetch prov) (default PER_CALL_TIMEOUT (bp_per_call_timeout prov))
                   (default TOTAL_BUDGET (bp_total_budget prov)) subscription_ids
                   (default MAX_CONCURRENCY (bp_concurrency prov));
     bp_prefetched := true |}.

(** [symbol or getattr(stored, "symbol", None)]. *)
Definition verify_symbol (symbol : option string) (stored : option StrategyPosition) : option string :=
  match symbol with
  | Some s => if String.eqb s "" then option_map p_symbol stored else Some s
  | None => option_map p_symbol stored
  end.

Definition found_stored (stored : option StrategyPosition) : found :=
  match stored with Some p => Stored p | None => Flat end.

Definition BrokerBackedPositionProvider_find_open (prov : BrokerBackedPositionProvider) (rows : list StrategyPosition)
    (strategy_id subscription_id : uuid) (symbol : option string) : found :=
  let stored := stored_open rows strategy_id subscription_id in
  if negb (bp_prefetched prov) then Unverified
  else
    match bp_cache prov !! subscription_id with
    | None | Some POSITION_UNKNOWN => Unverified
    | Some (Definite raw) =>
        match verify_symbol symbol stored with
        | None => found_stored stored
        | Some s =>
            match find_matching_position (Some (L s)) raw with
            | (_, false) => Unverified
            | (None, true) => Flat
            | (Some row, true) =>
                match stored with
                | Some p => Stored p
                | None => match symbol with Some _ => BrokerHolds row | None => Flat end
                end
            end
        end
    end.

#[export] Instance broker_positions : SubscriberPositionProvider BrokerBackedPositionProvider := {
  prefetch := BrokerBackedPositionProvider_prefetch;
  find_open := BrokerBackedPositionProvider_find_open
}.

(** ** Sizes *)

(** The read-only lookups of the scrip master; both may raise. *)
Record ScripMaster : Type := {
  sm_lookup : string -> string -> result exn (option string);
  sm_lot_size : string -> result exn (option Z)
}.

Definition MIN_SIZE : Z := 2.

Definition is_cash_strategy (strategy : Strategy) : bool :=
  let sj := default ∅ (strategy_json strategy) in
  String.eqb (str_lower (str_strip (str_or_empty (jget sj "instrument_type")))) "cash".

(** At least two and even; refused, never rounded. *)
Definition validated_even (value : json) : result exn Z :=
  match int_of_json value with
  | IntValueError => Err ValueError
  | IntOverflow => Err OverflowError
  | IntOk n =>
      if n <? MIN_SIZE then Err ValueError
      else if negb (n mod 2 =? 0) then Err ValueError
      else Ok n
  end.

(** The lot size of the contract; 1 when it cannot be resolved. *)
Definition real_lot_size (symbol : string) (master : ScripMaster) : Z :=
  match sm_lookup master (str_upper symbol) "NSE_FNO" with
  | Ok (Some sid) =>
      if String.eqb sid "" then 1
      else match sm_lot_size master sid with
           | Ok (Some ls) => if 0 <? ls then ls else 1
           | _ => 1
           end
  | _ => 1
  end.

Definition resolve_subscriber_size (strategy : Strategy) (sub : SubscriberRef) (symbol : string) (master : ScripMaster)
  : result exn Z :=
  if is_cash_strategy strategy then
    let sj := default ∅ (strategy_json strategy) in
    validated_even (match sr_lots_override sub with
                    | Some n => JInt n
                    | None => default (JInt MIN_SIZE) (sj !! "entry_shares"%string)
                    end)
  else
    lots ← match sr_lots_override sub with
           | Some n => validated_even (JInt n)
           | None => Ok (if entry_lots strategy =? 0 then 1 else entry_lots strategy)
           end;
    Ok (lots * real_lot_size symbol master).

(** Does the subscriber's filter permit an entry on this side?  An unknown
    filter permits. *)
Definition direction_allows (direction_filter : string) (side : OrderSide) : bool :=
  let raw := str_lower (str_strip (if String.eqb direction_filter "" then "all"%string else direction_filter)) in
  if String.eqb raw "all" then true
  else if String.eqb raw "long" then bool_decide (side = BUY)
  else if String.eqb raw "short" then bool_decide (side = SELL)
  else true.

(** [str(v) if v is not None else None]. *)
Definition hint_side (side_hint : json) : option string :=
  match side_hint with
  | JNull => None
  | JStr s => Some s
  | JInt z => Some (z_str z)
  | JBool b => Some (if b then "True" else "False")%string
  | JFloat _ => Some "<float>"%string
  | JDict _ | JList _ => Some "<object>"%string
  end.

Definition takes_auto (mode : string) : bool := String.eqb (str_lower (str_strip mode)) "auto".

Definition SUBSCRIBER_IDEMPOTENCY_TTL_SECONDS : Z := 60.

Definition subscriber_idempotency_key (subscription_id : uuid) (signal_token : string) : string :=
  String.append (z_str subscription_id) (String.append ":" signal_token).

(** [signal_hash or str(signal.id)]. *)
Definition signal_token (signal_hash : option string) (signal : StrategySignal) : string :=
  match signal_hash with
  | Some h => if String.eqb h "" then z_str (g_id signal) else h
  | None => z_str (g_id signal)
  end.

Definition paper_margin_provider (sub : SubscriberRef) (quantity : Z) (symbol : string) : result exn (bool * string) :=
  Ok (true, "paper — margin not checked"%string).

(** ** Exit sizes *)

(** [int(d)]: truncation. *)
Definition dec_trunc (d : dec) : Z :=
  if 0 <=? expo d then coef d * 10 ^ expo d else Z.quot (coef d) (10 ^ (- expo d)).

(** [closePct or 50] percent of what is left, at least one, at most all. *)
Definition partial_close_qty (remaining : Z) (pct : dec) : Z :=
  let raw := dec_trunc (ddiv (dmul (dec_of_Z remaining) pct) (dec_of_Z 100)) in
  Z.max 1 (Z.min raw remaining).

Definition decimal_or (j : json) (fallback : json) : result exn dec :=
  match decimal_of_json (j_or j fallback) with Some d => Ok d | None => Err InvalidOperation end.

Definition exit_close_qty (action_kind : string) (payload : payload) (remaining : Z) : result exn Z :=
  if String.eqb action_kind "partial" then
    pct ← decimal_or (jget payload "closePct") (JInt 50);
    Ok (partial_close_qty remaining pct)
  else Ok remaining.

(** [Decimal(str(v or 0))] of a nullable column. *)
Definition column_or_zero (d : option dec) : dec :=
  match d with Some x => if is_dzero x then dzero else x | None => dzero end.

Definition long_side (side : string) : bool :=
  let lc := str_lower side in String.eqb lc "buy" || String.eqb lc "long".

(** The subscriber's row with [close_qty] taken out at [exit_price]. *)
Definition mirrored_row (p : StrategyPosition) (close_qty : Z) (exit_price : dec) (now : datetime) : StrategyPosition :=
  let left := remaining_quantity p - close_qty in
  let direction := if long_side (p_side p) then 1 else -1 in
  let leg_pnl := dmul (dmul (dsub exit_price (column_or_zero (avg_entry_price p))) (dec_of_Z close_qty))
                   (dec_of_Z direction) in
  let p := p <| remaining_quantity := left |> <| final_pnl := Some (dadd (column_or_zero (final_pnl p)) leg_pnl) |> in
  if left <=? 0 then p <| status := st_closed |> <| closed_at := Some now |> else p <| status := st_partial |>.

(** ** The two mirrors *)

Section Fanout.
Context {B R : Type} `{RedisStore R}.
Implicit Types (sub : SubscriberRef) (signal : StrategySignal) (strategy : Strategy).

Definition ref_of (m : MarketplaceSubscription) : SubscriberRef :=
  {| sr_subscription_id := m_id m; sr_subscriber_id := m_subscriber_id m; sr_listing_id := m_listing_id m;
     sr_status := m_status m; sr_subscribed_at := m_subscribed_at m; sr_access_until := m_access_until m;
     sr_lots_override := m_lots_override m; sr_execution_mode := m_execution_mode m; sr_is_paper := m_is_paper m;
     sr_direction_filter := m_direction_filter m; sr_broker_credential_id := m_broker_credential_id m |}.

(** Active subscriptions joined with the listings of the strategy. *)
Definition resolve_active_subscriptions (strategy_id : uuid) : M B R (list SubscriberRef) :=
  gets (fun w =>
    let f := w_platform w in
    concat (map (fun m =>
      map (fun _ => ref_of m)
        (List.filter (fun l => (li_id l =? m_listing_id m) && (li_strategy_id l =? strategy_id)) (pf_listings f)))
      (List.filter is_active_sub (pf_subscriptions f)))).

Definition resolve_subscriber_credential (sub : SubscriberRef) : M B R SubscriberCredentialResolution :=
  creds ← gets w_credentials;
  let explicit := cid ← sr_broker_credential_id sub; row ← find_credential creds cid;
                  if own_active (sr_subscriber_id sub) row then Some cid else None in
  let fallback := latest_by c_created_at (List.filter (own_active (sr_subscriber_id sub)) creds) in
  mret (match explicit, fallback with
        | Some cid, _ => {| cr_credential_id := Some cid; cr_source := "explicit"; cr_usable := true |}
        | None, Some row => {| cr_credential_id := Some (c_id row); cr_source := "fallback"; cr_usable := true |}
        | None, None => {| cr_credential_id := None; cr_source := "none"; cr_usable := false |}
        end).

Definition claim_subscriber_idempotency (key : string) : M B R bool :=
  outcome ← attempt (set_idempotency_key key SUBSCRIBER_IDEMPOTENCY_TTL_SECONDS);
  mret (match outcome with Ok acquired => acquired | Err _ => true end).

Definition alert_subscriber_failure (signal : StrategySignal) (sub : SubscriberRef) : M B R unit :=
  send_alert {| a_level := WARNING; a_event := "fanout_subscriber_failed"; a_symbol := g_symbol signal; a_qty := 0;
                a_remaining := 0; a_price := None; a_pnl := None; a_legs := [] |}.

(** The fields every result shares; nothing done yet. *)
Definition blank_result (signal : StrategySignal) (sub : SubscriberRef) (st : fan_status) : PaperExecutionResult :=
  {| pe_subscription_id := sr_subscription_id sub; pe_subscriber_id := sr_subscriber_id sub;
     pe_symbol := g_symbol signal; pe_action := g_action signal; pe_side := None; pe_quantity := 0;
     pe_broker_order_id := None; pe_avg_price := None; pe_status := st; pe_position_id := None;
     pe_resolved_credential_id := None; pe_credential_source := None; pe_error := None; pe_notify_message := None |}.

Definition with_credential (cred : SubscriberCredentialResolution) (r : PaperExecutionResult) : PaperExecutionResult :=
  r <| pe_resolved_credential_id := cr_credential_id cred |> <| pe_credential_source := Some (cr_source cred) |>.

Definition unknown_result (signal : StrategySignal) (sub : SubscriberRef) (side : option string)
    (cred : SubscriberCredentialResolution) (what : string) : PaperExecutionResult :=
  with_credential cred (blank_result signal sub fs_skipped_broker_unknown)
    <| pe_side := side |> <| pe_notify_message := Some (NotVerified (g_symbol signal) what) |>.

Section Dispatch.
Context {P : Type} `{SubscriberPositionProvider P}.
Context (signal : StrategySignal) (strategy : Strategy) (signal_hash : option string) (master : ScripMaster)
        (check_margin : SubscriberRef -> Z -> string -> result exn (bool * string)).

Let side_hint : json := jget (raw_payload signal) "side".

(** The subscriber's new row and its execution leg. *)
Definition entry_row (sub : SubscriberRef) (cred_id : uuid) (side : OrderSide) (qty : Z) (fill : FillResponse)
    (pid : uuid) (now : datetime) : StrategyPosition :=
  {| p_id := pid; p_user_id := sr_subscriber_id sub; p_strategy_id := s_id strategy;
     p_broker_credential_id := cred_id; p_signal_id := Some (g_id signal);
     p_subscription_id := Some (sr_subscription_id sub); p_symbol := g_symbol signal;
     p_side := side_value side; total_quantity := qty; remaining_quantity := qty;
     avg_entry_price := column_of (fr_avg_price fill); target_price := None; stop_loss_price := None;
     trail_offset := None; highest_price_seen := None; best_price := None; current_atr := None;
     circuit_breaker_triggered := false; exit_reason := None; status := st_open; last_action := None;
     last_action_at := None; action_history := []; opened_at := now; closed_at := None; final_pnl := None |}.

Definition entry_leg (sub : SubscriberRef) (cred_id : uuid) (side : OrderSide) (qty : Z) (fill : FillResponse)
    (xid : uuid) (now : datetime) : StrategyExecution :=
  {| x_id := xid; x_signal_id := g_id signal; x_subscription_id := Some (sr_subscription_id sub);
     x_broker_credential_id := cred_id; x_leg_number := 1; x_leg_role := "entry"; x_symbol := g_symbol signal;
     x_side := side_value side; x_quantity := qty; x_order_type := MARKET;
     x_price := column_of (fr_avg_price fill); x_broker_order_id := fr_order_id fill;
     x_broker_status := Some COMPLETE; x_placed_at := now; x_completed_at := Some now |}.

Definition persist_entry (sub : SubscriberRef) (cred_id : uuid) (side : OrderSide) (qty : Z) (fill : FillResponse)
  : M B R uuid :=
  now ← gets w_now;
  pid ← fresh;
  add_position (entry_row sub cred_id side qty fill pid now) ;;
  xid ← fresh;
  add_execution (entry_leg sub cred_id side qty fill xid now) ;;
  mret pid.

Definition filled_result (sub : SubscriberRef) (cred : SubscriberCredentialResolution) (side : option string) (qty : Z)
    (fill : FillResponse) (position_id : option uuid) : PaperExecutionResult :=
  with_credential cred (blank_result signal sub fs_filled)
    <| pe_side := side |> <| pe_quantity := qty |> <| pe_broker_order_id := Some (fr_order_id fill) |>
    <| pe_avg_price := column_of (fr_avg_price fill) |> <| pe_position_id := position_id |>.

(** From the position check on, for an AUTO subscriber that holds the slot. *)
Definition enter_when_flat (prov : P) (sub : SubscriberRef) (cred : SubscriberCredentialResolution) (cred_id : uuid)
    (side : OrderSide) (qty : Z) (fill : FillResponse) : M B R PaperExecutionResult :=
  let res st := with_credential cred (blank_result signal sub st) <| pe_side := Some (side_value side) |> in
  existing ← gets (fun w => find_open prov (w_positions w) (s_id strategy) (sr_subscription_id sub)
                              (Some (g_symbol signal)));
  match existing with
  | Unverified => mret (unknown_result signal sub (Some (side_value side)) cred "did not open a position")
  | BrokerHolds _ => raise AttributeError
  | Stored p => mret (res fs_skipped_already_in_position <| pe_position_id := Some (p_id p) |>)
  | Flat =>
      '(ok, message) ← from_result (check_margin sub qty (g_symbol signal));
      if negb ok then
        alert_subscriber_failure signal sub ;;
        mret (res fs_failed_insufficient_funds <| pe_quantity := qty |> <| pe_error := Some (FanMargin message) |>)
      else
        pid ← persist_entry sub cred_id side qty fill;
        mret (filled_result sub cred (Some (side_value side)) qty fill (Some pid))
  end.

(** An entry after sizing and the simulated fill. *)
Definition enter_subscriber (prov : P) (sub : SubscriberRef) (cred : SubscriberCredentialResolution) (side : OrderSide)
    (qty : Z) (fill : FillResponse) : M B R PaperExecutionResult :=
  let res st := with_credential cred (blank_result signal sub st) <| pe_side := Some (side_value side) |>
                  <| pe_quantity := qty |> in
  match s_broker_credential_id strategy with
  | None => raise (StrategyExecutorError "strategy has no broker_credential_id for the paper placeholder")
  | Some cred_id =>
      first ← claim_subscriber_idempotency
                (subscriber_idempotency_key (sr_subscription_id sub) (signal_token signal_hash signal));
      if negb first then mret (res fs_duplicate)
      else if negb (takes_auto (sr_execution_mode sub)) then
        mret (res fs_notify_only <| pe_notify_message := Some (ManualEntry side (g_symbol signal) qty) |>)
      else enter_when_flat prov sub cred cred_id side qty fill
  end.

(** The body of the loop's [try]. *)
Definition try_subscriber (prov : P) (entry_side : option OrderSide) (sub : SubscriberRef)
  : M B R PaperExecutionResult :=
  cred ← resolve_subscriber_credential sub;
  match resolve_subscriber_size strategy sub (g_symbol signal) master with
  | Err ValueError =>
      mret (with_credential cred (blank_result signal sub fs_refused_size)
              <| pe_side := hint_side side_hint |> <| pe_error := Some (FanRaised ValueError) |>)
  | Err e => raise e
  | Ok qty =>
      fill ← simulate_fill signal qty;
      match entry_side with
      | Some side => enter_subscriber prov sub cred side qty fill
      | None => mret (filled_result sub cred (hint_side side_hint) qty fill None)
      end
  end.

(** The loop's [except Exception]: a failed subscriber is reported, alerted and
    left behind. *)
Definition isolate (prov : P) (entry_side : option OrderSide) (sub : SubscriberRef) : M B R PaperExecutionResult :=
  outcome ← attempt (try_subscriber prov entry_side sub);
  match outcome with
  | Ok r => mret r
  | Err e =>
      alert_subscriber_failure signal sub ;;
      mret (blank_result signal sub fs_failed
              <| pe_side := hint_side side_hint |>
              <| pe_quantity := match resolve_subscriber_size strategy sub (g_symbol signal) master with
                                | Ok qty => qty | Err _ => 0 end |>
              <| pe_error := Some (FanRaised e) |>)
  end.

(** One turn of the loop: the direction filter, then the guarded body. *)
Definition dispatch_one (prov : P) (entry_side : option OrderSide) (sub : SubscriberRef)
  : M B R PaperExecutionResult :=
  match entry_side with
  | Some side =>
      if negb (direction_allows (sr_direction_filter sub) side)
      then mret (blank_result signal sub fs_skipped_direction_filter <| pe_side := Some (side_value side) |>)
      else isolate prov entry_side sub
  | None => isolate prov entry_side sub
  end.
(** Exits have no entry side; any other failure of [_resolve_side] propagates. *)
Definition entry_side_of : result exn (option OrderSide) :=
  match resolve_side (g_action signal) side_hint with
  | Ok side => Ok (Some side)
  | Err (StrategyExecutorError _) => Ok None
  | Err e => Err e
  end.

Definition dispatch_subscriber_executions (prov : P) (subscribers : list SubscriberRef)
  : M B R (list PaperExecutionResult) :=
  if bool_decide (resolve_instrument_type (Some strategy) = OPTIONS) then mret []
  else
    let prov := prefetch prov (map sr_subscription_id subscribers) in
    entry_side ← from_result entry_side_of;
    mapM (dispatch_one prov entry_side) subscribers.
End Dispatch.

Section Exit.
Context {P : Type} `{SubscriberPositionProvider P}.
Context (signal : StrategySignal) (strategy : Strategy) (action_kind : string) (signal_hash : option string).

Definition exit_leg (sub : SubscriberRef) (cred_id : uuid) (exit_price : dec) (p : StrategyPosition) (close_qty : Z)
    (fill : FillResponse) (xid : uuid) (now : datetime) : StrategyExecution :=
  {| x_id := xid; x_signal_id := g_id signal; x_subscription_id := Some (sr_subscription_id sub);
     x_broker_credential_id := cred_id; x_leg_number := 1; x_leg_role := action_kind; x_symbol := p_symbol p;
     x_side := if long_side (p_side p) then "sell"%string else "buy"%string; x_quantity := close_qty;
     x_order_type := MARKET; x_price := Some exit_price; x_broker_order_id := fr_order_id fill;
     x_broker_status := Some COMPLETE; x_placed_at := now; x_completed_at := Some now |}.

(** The mirrored close of an AUTO subscriber.  The leg carries the strategy's
    credential, a NOT NULL column: without one the savepoint is rolled back. *)
Definition close_mirror (sub : SubscriberRef) (cred : SubscriberCredentialResolution) (exit_price : dec)
    (p : StrategyPosition) (close_qty : Z) : M B R PaperExecutionResult :=
  fill ← simulate_fill signal close_qty;
  cred_id ← from_result (match s_broker_credential_id strategy with Some c => Ok c | None => Err IntegrityError end);
  now ← gets w_now;
  save_position (mirrored_row p close_qty exit_price now) ;;
  xid ← fresh;
  add_execution (exit_leg sub cred_id exit_price p close_qty fill xid now) ;;
  mret (with_credential cred (blank_result signal sub fs_filled)
          <| pe_symbol := p_symbol p |> <| pe_side := Some (p_side p) |> <| pe_quantity := close_qty |>
          <| pe_broker_order_id := Some (fr_order_id fill) |> <| pe_avg_price := Some exit_price |>
          <| pe_position_id := Some (p_id p) |>).

(** An exit of a subscriber whose stored row is [p]. *)
Definition exit_mirror (sub : SubscriberRef) (cred : SubscriberCredentialResolution) (exit_price : dec)
    (p : StrategyPosition) : M B R PaperExecutionResult :=
  let res st := with_credential cred (blank_result signal sub st) <| pe_symbol := p_symbol p |>
                  <| pe_side := Some (p_side p) |> <| pe_position_id := Some (p_id p) |> in
  if remaining_quantity p <=? 0 then mret (res fs_skipped)
  else
    close_qty ← from_result (exit_close_qty action_kind (raw_payload signal) (remaining_quantity p));
    if negb (takes_auto (sr_execution_mode sub)) then
      mret (res fs_notify_only <| pe_quantity := close_qty |>
              <| pe_notify_message := Some (ManualExit close_qty (p_symbol p) action_kind) |>)
    else close_mirror sub cred exit_price p close_qty.

Definition try_exit (prov : P) (exit_price : dec) (sub : SubscriberRef) : M B R PaperExecutionResult :=
  cred ← resolve_subscriber_credential sub;
  first ← claim_subscriber_idempotency
            (subscriber_idempotency_key (sr_subscription_id sub) (signal_token signal_hash signal));
  if negb first then mret (with_credential cred (blank_result signal sub fs_duplicate))
  else
    position ← gets (fun w => find_open prov (w_positions w) (s_id strategy) (sr_subscription_id sub) None);
    match position with
    | Unverified => mret (unknown_result signal sub None cred "did not close anything")
    | Flat => mret (with_credential cred (blank_result signal sub fs_skipped_no_position))
    | BrokerHolds _ => raise AttributeError
    | Stored p => exit_mirror sub cred exit_price p
    end.

Definition exit_one (prov : P) (exit_price : dec) (sub : SubscriberRef) : M B R PaperExecutionResult :=
  outcome ← attempt (try_exit prov exit_price sub);
  match outcome with
  | Ok r => mret r
  | Err e =>
      alert_subscriber_failure signal sub ;;
      mret (blank_result signal sub fs_failed <| pe_error := Some (FanRaised e) |>)
  end.

Definition fan_out_exit (prov : P) (subscribers : list SubscriberRef) : M B R (list PaperExecutionResult) :=
  exit_price ← from_result (decimal_or (jget (raw_payload signal) "price") (JInt 0));
  let prov := prefetch prov (map sr_subscription_id subscribers) in
  mapM (exit_one prov exit_price) subscribers.
End Exit.
End Fanout.

(** ** Owner and subscriber drift *)

Inductive mismatch_kind : Type := Orphan | Gap.

Record ReconcileMismatch : Type := {
  mm_kind : mismatch_kind;
  mm_strategy_id : uuid;
  mm_subscription_id : option uuid;
  mm_symbol : option string
}.

Record ReconcileReport : Type := {
  rp_orphans : list ReconcileMismatch;
  rp_gaps : list ReconcileMismatch;
  rp_matched : Z;
  rp_clean : bool
}.

(** The owner's first open row of the strategy ([setdefault]). *)
Definition owner_open (owner_positions : list StrategyPosition) (strategy_id : uuid) : option StrategyPosition :=
  List.find (fun p => is_open p && (p_strategy_id p =? strategy_id)) owner_positions.

(** An active subscription of a strategy the owner holds, without an open row. *)
Definition gap_of (owner_positions : list StrategyPosition) (sub_open_ids : list (option uuid))
    (active : uuid * uuid) : option ReconcileMismatch :=
  match owner_open owner_positions (snd active) with
  | Some p => if bool_decide (Some (fst active) ∈ sub_open_ids) then None
              else Some {| mm_kind := Gap; mm_strategy_id := snd active;
                           mm_subscription_id := Some (fst active); mm_symbol := Some (p_symbol p) |}
  | None => None
  end.

Definition covered (owner_positions : list StrategyPosition) (p : StrategyPosition) : bool :=
  negb (absent (owner_open owner_positions (p_strategy_id p))).

(** [active_subscriptions]: pairs of subscription and strategy. *)
Definition reconcile_owner_and_subscribers (owner_positions subscriber_positions : list StrategyPosition)
    (active_subscriptions : list (uuid * uuid)) : ReconcileReport :=
  let open_subs := List.filter is_open subscriber_positions in
  let orphans := map (fun p => {| mm_kind := Orphan; mm_strategy_id := p_strategy_id p;
                                  mm_subscription_id := p_subscription_id p; mm_symbol := Some (p_symbol p) |})
                   (List.filter (fun p => negb (covered owner_positions p)) open_subs) in
  let gaps := omap (gap_of owner_positions (map p_subscription_id open_subs)) active_subscriptions in
  {| rp_orphans := orphans; rp_gaps := gaps;
     rp_matched := Z.of_nat (length (List.filter (covered owner_positions) open_subs));
     rp_clean := bool_decide (orphans = []) && bool_decide (gaps = []) |}.
