(* ===== verification/StrategyWebhook.v ===== *)
(** * The strategy webhook (backend/app/api/strategy_webhook.py)

    One alert of a strategy, up to the queue of the signal worker: platform halt,
    token, rate limit, JSON body, signature, idempotency claim, kill switch, user,
    daily cap, bound strategy, market hours, Pine mapping, contract resolution or
    pinning to the held position, validation, the signal row, the market shield's
    release and hold passes, dispatch, and the marketplace fan-out.  The schema is
    schemas/strategy_webhook.py, the position lookup services/position_lookup.py.

    The JSON reader and writer, the digests, the numeric coercions of the
    validation library and the text of floats and containers ([Coercion]) are
    parameters; so are the in-process scrip master before and after loading.  The
    client address comes parsed.  Response texts are not kept. *)

From Stdlib Require Import ZArith Lia List Bool Ascii String SpecFloat.
From stdpp Require Import base list strings gmap.
From S2P Require Import Prelude PyText PyFloat PyDecimal PyNum SymbolMatch Records Enums Models Safeguards Book DayState Calendar.
From S2P Require Import ScripMaster FuturesResolver AiValidator PineMapper DirectExit KillSwitch OrderService Webhook MarketShield Fanout.

(** ** The schema *)

Inductive StrategyAction : Type := SA_ENTRY | SA_PARTIAL | SA_EXIT | SA_SL_HIT | SA_BUY | SA_SELL.

#[export] Instance StrategyAction_eq_dec : EqDecision StrategyAction.
Proof. solve_decision. Defined.

Definition action_value (a : StrategyAction) : string :=
  match a with
  | SA_ENTRY => "ENTRY" | SA_PARTIAL => "PARTIAL" | SA_EXIT => "EXIT" | SA_SL_HIT => "SL_HIT" | SA_BUY => "BUY" | SA_SELL => "SELL"
  end.

Inductive PositionSide : Type := PS_LONG | PS_SHORT.

Definition position_side_value (s : PositionSide) : string := match s with PS_LONG => "long" | PS_SHORT => "short" end.

Record StrategyWebhookPayload : Type := {
  sv_action : StrategyAction;
  sv_symbol : string;
  sv_side : option PositionSide;
  sv_quantity : option Z;
  sv_close_pct : option float64;
  sv_order_type : option string
}.

(** What the validation library makes of a JSON value for a numeric field; [None]
    is a validation error. *)
Class Coercion : Type := {
  to_int : json -> option Z;
  to_float : json -> option float64;
  to_decimal : json -> option dec;
  to_bool : json -> option bool;
  (** [str] of a float, a list or a dictionary. *)
  object_str : json -> string
}.

Section Schema.
Context `{Coercion}.

Definition action_of (j : json) : option StrategyAction :=
  match j with
  | JStr s => List.find (fun a => String.eqb (action_value a) s) [SA_ENTRY; SA_PARTIAL; SA_EXIT; SA_SL_HIT; SA_BUY; SA_SELL]
  | _ => None
  end.

Definition side_of (j : json) : option PositionSide :=
  match j with JStr s => List.find (fun d => String.eqb (position_side_value d) s) [PS_LONG; PS_SHORT] | _ => None end.

(** A field that may be null: [None] is an error. *)
Definition nullable {A : Type} (f : json -> option A) (j : json) : option (option A) :=
  match j with JNull => Some None | _ => Some <$> f j end.

(** A stripped string of at most [n] characters. *)
Definition short_text (n : nat) (j : json) : option string :=
  match j with JStr s => if (str_len (str_strip s) <=? n)%nat then Some (str_strip s) else None | _ => None end.

Definition checked {A : Type} (ok : A -> bool) (o : option A) : option A := a ← o; if ok a then Some a else None.

Definition any_text (j : json) : option string := match j with JStr s => Some (str_strip s) | _ => None end.
Definition is_dict (j : json) : option unit := match j with JDict _ => Some tt | _ => None end.

Definition unit_of (j : json) : option string :=
  match j with JStr s => if one_of s ["contracts"; "lots"]%string then Some s else None | _ => None end.

(** [close_pct] may also come by its own name. *)
Definition close_pct_json (p : payload) : json :=
  match p !! "closePct"%string with Some v => v | None => jget p "close_pct" end.

Definition is_entry_action (a : StrategyAction) : bool := match a with SA_ENTRY | SA_BUY | SA_SELL => true | _ => false end.

(** [_per_action_required_fields]. *)
Definition required_fields (v : StrategyWebhookPayload) : bool :=
  match sv_action v with
  | SA_BUY | SA_SELL => opt_is (fun q => 0 <? q) (sv_quantity v)
  | SA_ENTRY => opt_is (fun q => 0 <? q) (sv_quantity v) && negb (absent (sv_side v))
  | SA_PARTIAL => negb (absent (sv_close_pct v)) && negb (absent (sv_side v))
  | SA_EXIT | SA_SL_HIT => negb (absent (sv_side v))
  end.

(** [StrategyWebhookPayload.model_validate]; a missing order type is "market". *)
Definition model_validate (p : payload) : option StrategyWebhookPayload :=
  action ← action_of (jget p "action");
  symbol ← short_text 64 (jget p "symbol");
  _ ← (if (1 <=? str_len symbol)%nat then Some tt else None);
  side ← nullable side_of (jget p "side");
  quantity ← nullable (fun j => checked (fun q => (0 <? q) && (q <=? 100000)) (to_int j)) (jget p "quantity");
  _ ← nullable unit_of (jget p "quantity_unit");
  close_pct ← nullable (fun j => checked (fun x => f_ltb f_zero x && f_leb x (num 99 0)) (to_float j)) (close_pct_json p);
  _ ← nullable (short_text 32) (jget p "instrument_type");
  _ ← nullable (short_text 16) (jget p "product_type");
  order_type ← nullable (short_text 16) (default (JStr "market") (p !! "order_type"%string));
  _ ← nullable (fun j => checked dnonneg (to_decimal j)) (jget p "price");
  _ ← nullable (short_text 128) (jget p "signal_id");
  _ ← nullable (fun j => checked (fun z => 0 <? z) (to_int j)) (jget p "lot_size_hint");
  _ ← nullable is_dict (jget p "indicators");
  _ ← nullable to_float (jget p "score");
  _ ← nullable any_text (jget p "pine_type");
  _ ← nullable any_text (jget p "pine_action_raw");
  let v := {| sv_action := action; sv_symbol := str_upper symbol; sv_side := side; sv_quantity := quantity;
              sv_close_pct := close_pct; sv_order_type := order_type |} in
  if required_fields v then Some v else None.
End Schema.

(** ** Requests *)

Record strategy_request : Type := {
  sr_token : string;
  sr_body : string;
  sr_signature : string;
  sr_client_ip : option ip_address
}.

Inductive strategy_response : Type :=
| Duplicate
| Accepted (signal_id strategy_id : uuid) (queued : bool).

Definition QUANTITY_CEILING_CONTRACTS : Z := 10000.
Definition MARKET_OPEN : Z := clock 9 15.
Definition MARKET_CLOSE : Z := clock 15 25.
Definition DIRECT_EXIT_ACTIONS : list string := ["PARTIAL"; "EXIT"; "SL_HIT"]%string.

(** [addr in net]. *)
Definition in_network (addr : ip_address) (net : ip_network) : bool :=
  match addr, net_address net with
  | IPv4 a, IPv4 n => Z.shiftr a (32 - net_prefixlen net) =? Z.shiftr n (32 - net_prefixlen net)
  | IPv6 a, IPv6 n => Z.shiftr a (128 - net_prefixlen net) =? Z.shiftr n (128 - net_prefixlen net)
  | _, _ => false
  end.

Definition is_trusted_tradingview_ip (settings : Settings) (ip : option ip_address) : bool :=
  match ip with Some a => existsb (in_network a) (tradingview_trusted_ips settings) | None => false end.

Section Hash.
Context `{Coercion}.

(** [str(v)]. *)
Definition py_str (j : json) : string :=
  match j with
  | JNull => "None"
  | JBool b => if b then "True" else "False"
  | JInt z => z_str z
  | JStr s => s
  | JFloat _ | JDict _ | JList _ => object_str j
  end.

Definition strategy_signal_hash (sha256_hex : string -> string) (user_id : uuid) (p : payload) (raw_body : string) : string :=
  let sid := jget p "signal_id" in
  String.append (z_str user_id) (String.append ":" (if truthy sid then py_str sid else sha256_hex raw_body)).
End Hash.

(** [_normalize_side]; a truthy value that is not a string has no [strip]. *)
Definition normalize_side (j : json) : result exn (option string) :=
  if negb (truthy j) then Ok None
  else
    match j with
    | JStr s =>
        let s := str_lower (str_strip s) in
        Ok (if one_of s ["long"; "buy"]%string then Some "buy"%string
            else if one_of s ["short"; "sell"]%string then Some "sell"%string else None)
    | _ => Err AttributeError
    end.

Definition held_by (strategy_id : uuid) (side : option string) (p : StrategyPosition) : bool :=
  (p_strategy_id p =? strategy_id) && is_open p && owner_row p
  && match side with Some s => String.eqb (p_side p) s | None => true end.

(** The action and the payload that are persisted: BUY and SELL become ENTRY with
    a side. *)
Definition canonical (v : StrategyWebhookPayload) (p : payload) : StrategyAction * payload :=
  match sv_action v with
  | SA_BUY => (SA_ENTRY, <["side"%string := JStr "long"]> p)
  | SA_SELL => (SA_ENTRY, <["side"%string := JStr "short"]> p)
  | a => (a, p)
  end.

(** The worker's tag of an action. *)
Definition action_kind_of (a : StrategyAction) : string :=
  match a with SA_PARTIAL => "partial" | SA_EXIT => "exit" | SA_SL_HIT => "sl_hit" | _ => "entry" end.

(** The fan-out reads the in-process scrip master. *)
Definition fanout_master (m : scrip_master) : ScripMaster :=
  {| sm_lookup := lookup_scrip m; sm_lot_size := fun sid => Ok (lot_size_of m sid) |}.

Section StrategyWebhook.
Context {B R : Type} `{BrokerInterface B} `{RedisStore R} `{Decryptor} `{Coercion}.
Context (settings : Settings) (sha256_hex : string -> string) (hmac_hex : string -> string -> string)
        (json_loads : string -> option json) (json_dumps : payload -> string)
        (scrip_cache : datetime -> scrip_master) (scrip_load : datetime -> option scrip_master)
        (check_margin : SubscriberRef -> Z -> string -> result exn (bool * string)).

(** ** Helpers *)

Definition find_open_position_by_strategy (strategy_id : uuid) (side : json) : M B R (option StrategyPosition) :=
  side_lc ← from_result (normalize_side side);
  gets (fun w => latest_by opened_at (List.filter (held_by strategy_id side_lc) (w_positions w))).

(** The bound strategy; two of them raise. *)
Definition resolve_strategy (user_id webhook_token_id : uuid) : M B R (option Strategy) :=
  rows ← gets (fun w => List.filter (bound_strategy user_id webhook_token_id) (w_strategies w));
  from_result (match rows with [] => Ok None | [s] => Ok (Some s) | _ => Err MultipleResultsFound end).

(** [dispatch_signal] with one of the four kinds. *)
Definition dispatch_signal (signal_id : uuid) (action_kind : string) : M B R unit :=
  on_platform (fun f => f <| pf_queue ::= fun q => q ++ [(signal_id, action_kind)] |>).

Definition plain_alert (level : AlertLevel) (event symbol : string) : M B R unit :=
  send_alert {| a_level := level; a_event := event; a_symbol := symbol; a_qty := 0; a_remaining := 0; a_price := None;
                a_pnl := None; a_legs := [] |}.

(** ** Sections 1 to 4: token, rate limit, body, signature *)

Definition check_signature (request : strategy_request) (hmac_secret : string) (p : payload) : result exn payload :=
  let stripped := delete "signature"%string p in
  if negb (webhook_require_hmac settings) then Ok stripped
  else if is_trusted_tradingview_ip settings (sr_client_ip request) then Ok stripped
  else
    let body_signature := match p !! "signature"%string with Some j => py_str j | None => ""%string end in
    if negb (String.eqb (sr_signature request) "") then
      if verify_hmac_signature hmac_hex (sr_body request) (sr_signature request) hmac_secret then Ok stripped
      else Err (HTTPException 401)
    else if negb (String.eqb body_signature "") then
      if verify_hmac_signature hmac_hex (json_dumps stripped) body_signature hmac_secret then Ok stripped
      else Err (HTTPException 401)
    else Err (HTTPException 401).

Definition parse_body (raw_body : string) : result exn payload :=
  match json_loads (if String.eqb raw_body "" then "{}"%string else raw_body) with
  | Some (JDict entries) => Ok (fields entries)
  | _ => Err (HTTPException 400)
  end.

Definition strategy_authenticate (request : strategy_request) : M B R (token_info * payload) :=
  token ← resolve_webhook_token sha256_hex (sr_token request);
  match token with
  | None => raise (HTTPException 404)
  | Some info =>
      allowed ← rate_limit_check (webhook_rate_key (ti_user_id info)) WEBHOOK_RATE_LIMIT_REQUESTS WEBHOOK_RATE_LIMIT_WINDOW_SECONDS;
      raise_when (negb allowed) (HTTPException 429) ;;
      p ← from_result (parse_body (sr_body request));
      p ← from_result (check_signature request (ti_hmac_secret info) p);
      mret (info, p)
  end.

(** ** Sections 6 to 10: the gates *)

Definition signal_gates (info : token_info) : M B R Strategy :=
  let user_id := ti_user_id info in
  kill_status ← get_kill_switch_status user_id;
  raise_when (bool_decide (kill_status = TRIPPED)) (HTTPException 403) ;;
  user_row ← load_user_context user_id;
  raise_when (negb (opt_is u_is_active user_row)) (HTTPException 403) ;;
  '(within_cap, _, _) ← check_max_daily_trades user_id;
  raise_when (negb within_cap) (HTTPException 403) ;;
  strategy ← resolve_strategy user_id (ti_token_id info);
  match strategy with
  | None => raise (HTTPException 400)
  | Some strategy =>
      now ← gets w_now;
      let open := (MARKET_OPEN <=? ist_time now) && (ist_time now <=? MARKET_CLOSE) in
      raise_when (negb (resolve_paper_mode settings (Some strategy)) && negb open) (HTTPException 403) ;;
      mret strategy
  end.

(** ** Sections 11 and 12: the payload *)

Definition map_pine (strategy : Strategy) (p : payload) : M B R payload :=
  if is_pine_payload p then
    now ← gets w_now;
    from_result (match map_to_tradetri_payload (scrip_cache now) now p (Some strategy) with
                 | Err PineMappingError => Err (HTTPException 400)
                 | r => r
                 end)
  else mret p.

(** An exit keeps the symbol of the held position, an entry resolves its own. *)
Definition settle_symbol (strategy : Strategy) (p : payload) : M B R payload :=
  let raw_action := str_upper (str_strip (str_or_empty (jget p "action"))) in
  if one_of raw_action DIRECT_EXIT_ACTIONS then
    open_position ← find_open_position_by_strategy (s_id strategy) (jget p "side");
    mret (match open_position with Some q => <["symbol"%string := JStr (p_symbol q)]> p | None => p end)
  else
    match jget p "symbol" with
    | JStr raw_symbol => normalized ← resolve_or_passthrough scrip_load raw_symbol;
                         mret (<["symbol"%string := JStr normalized]> p)
    | _ => mret p
    end.

Definition validate_payload (p : payload) : result exn StrategyWebhookPayload :=
  match model_validate p with
  | None => Err (HTTPException 400)
  | Some v =>
      if is_entry_action (sv_action v) && opt_is (fun q => QUANTITY_CEILING_CONTRACTS <? q) (sv_quantity v)
      then Err (HTTPException 400) else Ok v
  end.

(** ** Section 13: the row *)

Definition signal_row (sid user_id : uuid) (strategy : Strategy) (v : StrategyWebhookPayload) (p : payload) (now : datetime)
  : StrategySignal :=
  let '(action, persisted) := canonical v p in
  {| g_id := sid; g_user_id := user_id; g_strategy_id := s_id strategy; raw_payload := persisted; g_symbol := sv_symbol v;
     g_action := action_value action; g_quantity := if is_entry_action (sv_action v) then sv_quantity v else None;
     g_order_type := or_str (default ""%string (sv_order_type v)) "market"; g_ai_decision := None; g_status := sg_received;
     g_received_at := now |}.

Definition persist_signal (user_id : uuid) (strategy : Strategy) (v : StrategyWebhookPayload) (p : payload) : M B R StrategySignal :=
  sid ← fresh;
  now ← gets w_now;
  let signal := signal_row sid user_id strategy v p now in
  on_platform (fun f => f <| pf_signals ::= fun l => l ++ [signal] |>) ;;
  mret signal.

Definition set_signal (sid : uuid) (f : StrategySignal -> StrategySignal) : M B R unit :=
  on_platform (fun pf => pf <| pf_signals ::= map (fun g => if g_id g =? sid then f g else g) |>).

(** ** The market shield *)

(** [float(payload.get("price") or 0) or None]. *)
Definition release_price (p : payload) : result exn (option float64) :=
  match float_of_json (j_or (jget p "price") (JInt 0)) with
  | FloatOk x => Ok (match x with S754_zero _ => None | _ => Some x end)
  | FloatValueError => Ok None
  | FloatOverflow => Err OverflowError
  end.

Definition shield_release (strategy_id : uuid) (persisted : payload) : M B R unit :=
  if negb (market_shield_enabled settings) then mret tt
  else
    _ ← attempt (price ← from_result (release_price persisted);
                 out ← try_release settings strategy_id price;
                 match out with
                 | Some (held, override) =>
                     dispatch_signal held "exit" ;;
                     (if override : bool then plain_alert WARNING "market_shield_atr_override" "" else plain_alert INFO "market_shield_timeout" "")
                 | None => mret tt
                 end);
    mret tt.

(** Whether the EXIT goes on to the worker. *)
Definition shield_hold (strategy_id : uuid) (signal : StrategySignal) : M B R bool :=
  if negb (String.eqb (g_action signal) "EXIT" && market_shield_enabled settings) then mret true
  else
    out ← attempt (active ← has_active_hold settings strategy_id;
                   if active : bool then set_signal (g_id signal) (fun g => g <| g_status := sg_ignored |>) ;; mret false
                   else
                     decision ← maybe_hold_exit settings strategy_id signal;
                     match decision with
                     | Held _ =>
                         set_signal (g_id signal) (fun g => g <| g_status := sg_held |>) ;;
                         plain_alert INFO "market_shield_held" (g_symbol signal) ;;
                         mret false
                     | NotHeld _ => mret true
                     end);
    mret (match out with Ok goes => goes | Err _ => true end).

(** ** Section 15: the fan-out *)

Definition fan_out_signal (signal : StrategySignal) (strategy : Strategy) (signal_hash : string) : M B R unit :=
  if negb (marketplace_fanout_enabled settings) then mret tt
  else
    _ ← attempt (subscribers ← resolve_active_subscriptions (s_id strategy);
                 now ← gets w_now;
                 _ ← dispatch_subscriber_executions signal strategy (Some signal_hash) (fanout_master (scrip_cache now)) check_margin
                       paper_provider subscribers;
                 mret tt);
    mret tt.

(** ** The handler *)

(** From the validated payload on. *)
Definition accept_signal (info : token_info) (strategy : Strategy) (signal_hash : string) (v : StrategyWebhookPayload) (p : payload)
  : M B R strategy_response :=
  signal ← persist_signal (ti_user_id info) strategy v p;
  shield_release (s_id strategy) (raw_payload signal) ;;
  goes ← shield_hold (s_id strategy) signal;
  (if goes : bool then dispatch_signal (g_id signal) (action_kind_of (fst (canonical v p))) else mret tt) ;;
  fan_out_signal signal strategy signal_hash ;;
  mret (Accepted (g_id signal) (s_id strategy) goes).

Definition receive_strategy_signal (request : strategy_request) : M B R strategy_response :=
  raise_when (negb ((16 <=? str_len (sr_token request)) && (str_len (sr_token request) <=? 128))%nat) (HTTPException 422) ;;
  halted ← gets (fun w => pf_halted (w_platform w));
  raise_when halted (HTTPException 503) ;;
  '(info, p) ← strategy_authenticate request;
  let signal_hash := strategy_signal_hash sha256_hex (ti_user_id info) p (sr_body request) in
  claimed ← set_idempotency_key signal_hash IDEMPOTENCY_TTL_SECONDS;
  if negb claimed then mret Duplicate
  else
    strategy ← signal_gates info;
    p ← map_pine strategy p;
    p ← settle_symbol strategy p;
    v ← from_result (validate_payload p);
    accept_signal info strategy signal_hash v p.
End StrategyWebhook.
