(* ===== verification/FanoutSafety.v ===== *)
(** * The fan-out is isolated, idempotent and never over-closes

    Case analyses of one subscriber's turn in [dispatch_subscriber_executions]
    and [fan_out_exit], and the theorems about whole runs: the owner's rows, the
    broker and every other subscription are left alone; a re-delivered signal is
    not mirrored twice; an unverified position authorises nothing; a mirrored
    exit takes at least one unit and at most what the row has. *)

From Stdlib Require Import ZArith Lia List Bool String.
From stdpp Require Import base list strings gmap.
From S2P Require Import Prelude PyText SymbolMatch PyFloat PyDecimal PyNum Records Enums Models Safeguards Book Ledger Samples.
From S2P Require Import StrategyExecutor DayState KillSwitch BrokerBatch Fanout.

#[export] Instance paper_laws : ProviderLaws PaperPositionProvider.
Proof.
  split; simpl.
  - intros _ rows sid sub _ p. destruct (stored_open rows sid sub); congruence.
  - by intros _ rows rows' sid sub _ ->.
Qed.

#[export] Instance broker_laws : ProviderLaws BrokerBackedPositionProvider.
Proof.
  split; simpl.
  - intros prov rows sid sub symbol p. unfold BrokerBackedPositionProvider_find_open, found_stored.
    destruct (stored_open rows sid sub) as [q|]; repeat split_match; congruence.
  - intros prov rows rows' sid sub symbol E. unfold BrokerBackedPositionProvider_find_open. by rewrite E.
Qed.

(** ** What one turn may touch *)

Section Turn.
Context {B R : Type} `{RedisLaws R}.
Implicit Types (w : world B R).

(** Everything but the position and execution tables, the alerts, the supply of
    ids and free idempotency slots is as it was; slots that are held stay so. *)
Record fan_env (w w' : world B R) : Prop := {
  fe_credentials : w_credentials w' = w_credentials w;
  fe_strategies : w_strategies w' = w_strategies w;
  fe_platform : w_platform w' = w_platform w;
  fe_broker : w_broker w' = w_broker w;
  fe_orders : w_orders w' = w_orders w;
  fe_now : w_now w' = w_now w;
  fe_next : w_next_id w <= w_next_id w';
  fe_redis : forall k t, (forall s, k <> idem_key s) -> redis_get k t (w_redis w') = redis_get k t (w_redis w);
  fe_held : forall k lo hi, lo <= w_now w < hi -> held k lo hi (w_redis w) -> held k lo hi (w_redis w')
}.

#[global] Instance fan_env_preorder : PreOrder fan_env.
Proof.
  split; [by split|]. intros u v w [] []. split; try (etransitivity; eauto; fail).
  - intros k t Hk. rewrite fe_redis1 by done. by apply fe_redis0.
  - intros k lo hi Ht Hh. apply fe_held1; [by rewrite fe_now0 | by apply fe_held0].
Qed.

(** The tables too. *)
Definition no_rows (w w' : world B R) : Prop :=
  fan_env w w' /\ w_positions w' = w_positions w /\ w_executions w' = w_executions w.

#[global] Instance no_rows_preorder : PreOrder no_rows.
Proof.
  split; [by split|]. intros u v w (H1 & Hp & Hx) (H2 & Hp' & Hx').
  split; [by transitivity v|]. split; congruence.
Qed.

Lemma no_rows_redis (w : world B R) r :
  (forall k t, (forall s, k <> idem_key s) -> redis_get k t r = redis_get k t (w_redis w)) ->
  (forall k lo hi, lo <= w_now w < hi -> held k lo hi (w_redis w) -> held k lo hi r) ->
  no_rows w (w <| w_redis := r |>).
Proof. intros Hr Hh. split; [split; simpl; auto; lia | done]. Qed.

Lemma fresh_no_rows : preserves no_rows (@fresh B R).
Proof. intros w r w' [= <- <-]. split; [split; simpl; auto; lia | done]. Qed.

Lemma alert_no_rows signal sub : preserves no_rows (@alert_subscriber_failure B R signal sub).
Proof. intros w r w' [= <- <-]. split; [split; simpl; auto; lia | done]. Qed.

Lemma simulate_no_rows signal q : preserves no_rows (@simulate_fill B R signal q).
Proof.
  apply preserves_bind; [apply _ | apply preserves_from_result, _ | intros price].
  apply preserves_bind; [apply _ | apply fresh_no_rows | intros oid; apply preserves_ret, _].
Qed.

Lemma credential_no_rows sub : preserves no_rows (@resolve_subscriber_credential B R sub).
Proof. by intros w r w' [= <- <-]. Qed.

(** The slot of (subscription, token). *)
Definition slot (sub : SubscriberRef) (token : string) : string :=
  idem_key (subscriber_idempotency_key (sr_subscription_id sub) token).

Lemma claim_cases key w r w' :
  claim_subscriber_idempotency key w = (r, w') ->
  (r = Ok false /\ w' = w /\ is_Some (redis_get (idem_key key) (w_now w) (w_redis w)))
  \/ (r = Ok true /\ no_rows w w' /\ redis_get (idem_key key) (w_now w) (w_redis w) = None
      /\ held (idem_key key) (w_now w) (w_now w + SUBSCRIBER_IDEMPOTENCY_TTL_SECONDS) (w_redis w')
      /\ (forall k t, k <> idem_key key -> redis_get k t (w_redis w') = redis_get k t (w_redis w))).
Proof.
  unfold claim_subscriber_idempotency, set_idempotency_key, attempt, redis_set_nx. cbv [mbind M_bind mret M_ret].
  change (SUBSCRIBER_IDEMPOTENCY_TTL_SECONDS <=? 0) with false. cbv iota.
  destruct (redis_get (idem_key key) (w_now w) (w_redis w)) as [v|] eqn:E; intros Eq; injection Eq as <- <-.
  - left. split; [done|]. split; [|eauto]. by destruct w.
  - right. split; [done|].
    assert (Hother : forall k t, k <> idem_key key ->
      redis_get k t (redis_put (idem_key key) "1" (w_now w + 60) (w_redis w)) = redis_get k t (w_redis w)).
    { intros k t Hk. rewrite redis_get_put, decide_False by congruence. done. }
    split; [|split; [done|]; split].
    + apply no_rows_redis.
      * intros k t Hk. apply Hother, Hk.
      * intros k lo hi Ht Hh u Hu. destruct (decide (k = idem_key key)) as [->|Hk].
        -- destruct (Hh (w_now w) Ht) as [x Ex]. congruence.
        -- rewrite Hother by done. by apply Hh.
    + intros u Hu. simpl. rewrite redis_get_put, decide_True by done.
      rewrite (proj2 (Z.ltb_lt u _)) by (unfold SUBSCRIBER_IDEMPOTENCY_TTL_SECONDS in *; lia). eauto.
    + intros k t Hk. by apply Hother.
Qed.

Lemma claim_no_rows key : preserves no_rows (@claim_subscriber_idempotency B R _ key).
Proof. intros w r w' E. apply claim_cases in E as [(_ & -> & _) | (_ & ? & _)]; done. Qed.
End Turn.

#[export] Hint Resolve fresh_no_rows alert_no_rows simulate_no_rows credential_no_rows claim_no_rows : bridge.

(** ** One subscriber's entry *)

Section Entry.
Context {B R P : Type} `{RedisLaws R} `{ProviderLaws P}.
Context (signal : StrategySignal) (strategy : Strategy) (signal_hash : option string) (master : ScripMaster)
        (check_margin : SubscriberRef -> Z -> string -> result exn (bool * string)).
Implicit Types (w : world B R) (sub : SubscriberRef) (prov : P).

(** The row of a mirrored entry. *)
Record mirror_row (sub : SubscriberRef) (side : OrderSide) (qty : Z) (now : datetime) (p : StrategyPosition) : Prop := {
  mr_user : p_user_id p = sr_subscriber_id sub;
  mr_strategy : p_strategy_id p = s_id strategy;
  mr_subscription : p_subscription_id p = Some (sr_subscription_id sub);
  mr_symbol : p_symbol p = g_symbol signal;
  mr_side : p_side p = side_value side;
  mr_quantity : total_quantity p = qty /\ remaining_quantity p = qty;
  mr_price : exists d, paper_price signal = Ok d /\ avg_entry_price p = Some d;
  mr_open : status p = st_open;
  mr_opened : opened_at p = now
}.

(** A mirrored entry that was filled. *)
Record entered (prov : P) (sub : SubscriberRef) (side : OrderSide) (w w' : world B R) (res : PaperExecutionResult)
  : Prop := {
  en_env : fan_env w w';
  en_status : pe_status res = fs_filled;
  en_sub : pe_subscription_id res = sr_subscription_id sub;
  en_credential : is_Some (s_broker_credential_id strategy);
  en_auto : takes_auto (sr_execution_mode sub) = true;
  en_size : resolve_subscriber_size strategy sub (g_symbol signal) master = Ok (pe_quantity res);
  en_flat : find_open prov (w_positions w) (s_id strategy) (sr_subscription_id sub) (Some (g_symbol signal)) = Flat;
  en_free : redis_get (slot sub (signal_token signal_hash signal)) (w_now w) (w_redis w) = None;
  en_slot : held (slot sub (signal_token signal_hash signal)) (w_now w)
              (w_now w + SUBSCRIBER_IDEMPOTENCY_TTL_SECONDS) (w_redis w');
  en_rows : exists p x, w_positions w' = w_positions w ++ [p] /\ w_executions w' = w_executions w ++ [x]
              /\ mirror_row sub side (pe_quantity res) (w_now w) p /\ w_next_id w <= p_id p < w_next_id w'
              /\ pe_position_id res = Some (p_id p)
              /\ x_subscription_id x = Some (sr_subscription_id sub) /\ x_signal_id x = g_id signal
              /\ x_quantity x = pe_quantity res /\ x_leg_role x = "entry"%string
}.

(** The outcome of one turn: nothing written and nothing filled, or a mirrored entry. *)
Definition unfilled (sub : SubscriberRef) (w w' : world B R) (res : PaperExecutionResult) : Prop :=
  no_rows w w' /\ pe_subscription_id res = sr_subscription_id sub /\ pe_status res <> fs_filled.

Lemma persist_entry_spec sub cred_id side qty fill w r w' :
  persist_entry signal strategy sub cred_id side qty fill w = (r, w') ->
  exists p x, r = Ok (p_id p) /\ fan_env w w' /\ w_redis w' = w_redis w
    /\ w_positions w' = w_positions w ++ [p] /\ w_executions w' = w_executions w ++ [x]
    /\ (forall d, fr_avg_price fill = PDec d -> paper_price signal = Ok d -> mirror_row sub side qty (w_now w) p)
    /\ w_next_id w <= p_id p < w_next_id w'
    /\ x_subscription_id x = Some (sr_subscription_id sub) /\ x_signal_id x = g_id signal
    /\ x_quantity x = qty /\ x_leg_role x = "entry"%string.
Proof.
  unfold persist_entry, add_position, add_execution, modify, gets, fresh. cbv [mbind M_bind mret M_ret].
  intros E. injection E as <- <-. exists (entry_row signal strategy sub cred_id side qty fill (w_next_id w) (w_now w)),
    (entry_leg signal sub cred_id side qty fill (w_next_id w + 1) (w_now w)).
  split; [reflexivity|]. split; [split; simpl; auto; lia|]. split; [done|]. split; [done|]. split; [done|].
  split; [|split; [simpl; lia | done]].
  intros d Hf Hp. split; simpl; try done. exists d. by rewrite Hf.
Qed.

Lemma simulate_fill_price q w fill w' :
  simulate_fill signal q w = (Ok fill, w') -> exists d, paper_price signal = Ok d /\ fr_avg_price fill = PDec d.
Proof.
  unfold simulate_fill. intros E. apply bind_ok in E as (d & w1 & E1 & E).
  apply from_result_spec in E1 as [-> E1]. apply bind_ok in E as (oid & w2 & _ & E). injection E as <- _. eauto.
Qed.

Lemma enter_when_flat_cases prov sub cred cred_id side qty fill w r w' d :
  fr_avg_price fill = PDec d -> paper_price signal = Ok d ->
  enter_when_flat signal strategy check_margin prov sub cred cred_id side qty fill w = (r, w') ->
  (no_rows w w' /\ match r with Ok res => unfilled sub w w' res | Err _ => True end)
  \/ exists res p x, r = Ok res /\ pe_status res = fs_filled /\ pe_subscription_id res = sr_subscription_id sub
       /\ pe_quantity res = qty /\ fan_env w w'
       /\ w_redis w' = w_redis w
       /\ find_open prov (w_positions w) (s_id strategy) (sr_subscription_id sub) (Some (g_symbol signal)) = Flat
       /\ w_positions w' = w_positions w ++ [p] /\ w_executions w' = w_executions w ++ [x]
       /\ mirror_row sub side qty (w_now w) p /\ w_next_id w <= p_id p < w_next_id w'
       /\ pe_position_id res = Some (p_id p)
       /\ x_subscription_id x = Some (sr_subscription_id sub) /\ x_signal_id x = g_id signal
       /\ x_quantity x = qty /\ x_leg_role x = "entry"%string.
Proof.
  intros Hf Hp. unfold enter_when_flat. cbv [mbind M_bind gets].
  destruct (find_open prov _ _ _ _) eqn:Eo; try (intros E; injection E as <- <-; left; split; [done|]; by split).
  unfold from_result. destruct (check_margin sub qty (g_symbol signal)) as [[ok msg]|e];
    [|intros E; injection E as <- <-; by left].
  destruct ok; cbn [negb].
  - destruct (persist_entry signal strategy sub cred_id side qty fill w) as [r1 w1] eqn:E1.
    apply persist_entry_spec in E1 as (p & x & -> & He & Hr & Hpos & Hx & Hmr & Hid & Hxs).
    intros E. injection E as <- <-. right. eexists _, p, x. split; [reflexivity|].
    do 3 (split; [reflexivity|]). do 5 (split; [done|]). split; [by apply (Hmr d)|]. by split.
  - intros E. injection E as <- <-. left.
    assert (Hn : no_rows w (w <| w_alerts := w_alerts w ++ [{| a_level := WARNING; a_event := "fanout_subscriber_failed";
       a_symbol := g_symbol signal; a_qty := 0; a_remaining := 0; a_price := None; a_pnl := None; a_legs := [] |}] |>)).
    { split; [split; simpl; auto; lia | done]. }
    split; [exact Hn|]. by split.
Qed.

Lemma enter_subscriber_cases prov sub cred side qty fill w r w' d :
  fr_avg_price fill = PDec d -> paper_price signal = Ok d ->
  resolve_subscriber_size strategy sub (g_symbol signal) master = Ok qty ->
  enter_subscriber signal strategy signal_hash check_margin prov sub cred side qty fill w = (r, w') ->
  (no_rows w w' /\ match r with Ok res => unfilled sub w w' res | Err _ => True end)
  \/ exists res, r = Ok res /\ entered prov sub side w w' res.
Proof.
  intros Hf Hp Hsz. unfold enter_subscriber. destruct (s_broker_credential_id strategy) as [cred_id|] eqn:Ecred;
    [|intros E; injection E as <- <-; by left].
  intros E. apply bind_cases in E as [(first & w1 & E1 & E) | (e & -> & E1)].
  2:{ left. split; [|done]. by eapply claim_no_rows. }
  apply claim_cases in E1 as [(E1 & -> & _) | (E1 & Hn & Hfree & Hheld & Hoth)]; injection E1 as ->; simpl in E.
  { injection E as <- <-. left. split; [done|]. by split. }
  destruct (takes_auto (sr_execution_mode sub)) eqn:Ea; simpl in E.
  2:{ injection E as <- <-. left. split; [done|]. by split. }
  destruct Hn as (He & Hps & Hxs).
  apply (enter_when_flat_cases _ _ _ _ _ _ _ _ _ _ d) in E
    as [(Hn & Hr) | (res & p & x & -> & Hst & Hsid & Hq & He2 & Hrd & Hfl & Hpos & Hx & Hmr & Hid & Hpid & Hxf)]; [..|done|done].
  - left. assert (Hn' : no_rows w w') by (transitivity w1; [by split | done]). split; [done|].
    destruct r as [res|]; [|done]. by destruct Hr as (_ & Hr).
  - right. exists res. split; [done|]. rewrite Hps in Hfl, Hpos. rewrite Hxs in Hx. rewrite (fe_now _ _ He) in Hmr.
    pose proof (fe_next _ _ He) as Hnx. rewrite <- Hq in Hsz, Hmr, Hxf. split; try done.
    + by transitivity w1.
    + intros u Hu. rewrite Hrd. by apply Hheld.
    + exists p, x. split; [done|]. split; [done|]. split; [done|]. split; [lia|]. done.
Qed.

Lemma try_subscriber_cases prov sub entry_side w r w' :
  try_subscriber signal strategy signal_hash master check_margin prov entry_side sub w = (r, w') ->
  match entry_side with
  | None => no_rows w w' /\ match r with Ok res => pe_subscription_id res = sr_subscription_id sub | Err _ => True end
  | Some side =>
      (no_rows w w' /\ match r with Ok res => unfilled sub w w' res | Err _ => True end)
      \/ exists res, r = Ok res /\ entered prov sub side w w' res
  end.
Proof.
  unfold try_subscriber. intros E. apply bind_cases in E as [(cred & w1 & E1 & E) | (e & -> & E1)].
  2:{ by injection E1. }
  injection E1 as _ <-. destruct (resolve_subscriber_size _ _ _ _) as [qty|e] eqn:Esz.
  2:{ destruct e; injection E as <- <-; destruct entry_side; try (left; split; [done|]; by split); by split. }
  apply bind_cases in E as [(fill & w1 & E1 & E) | (e & -> & E1)].
  2:{ apply simulate_no_rows in E1. destruct entry_side; [left|]; done. }
  pose proof (simulate_no_rows _ _ _ _ _ E1) as Hn. destruct (simulate_fill_spec _ _ _ _ _ E1) as [Hq _].
  apply simulate_fill_price in E1 as (d & Hd & Hf).
  destruct entry_side as [side|]; [|injection E as <- <-; done].
  apply (enter_subscriber_cases _ _ _ _ _ _ _ _ _ d) in E; [|done..].
  destruct Hn as (He & Hps & Hxs). destruct E as [(Hn & Hr) | (res & -> & Hen)].
  - left. assert (Hn' : no_rows w w') by (transitivity w1; [by split | done]). split; [done|].
    destruct r as [res|]; [|done]. by destruct Hr as (_ & Hr).
  - right. exists res. split; [done|]. destruct Hen as [He2 Hst Hsid Hcr Ha Hs Hfl Hfree Hheld (p & x & Hpos & Hx & Hmr & Hid & Hrest)].
    rewrite Hps in Hfl, Hpos. rewrite Hxs in Hx. rewrite (fe_now _ _ He) in Hmr, Hheld, Hfree.
    rewrite (qt_redis _ _ Hq) in Hfree. pose proof (fe_next _ _ He).
    split; try done; [by transitivity w1|].
    exists p, x. split; [done|]. split; [done|]. split; [done|]. split; [lia | done].
Qed.

(** One turn never raises. *)
Inductive dispatched (prov : P) (entry_side : option OrderSide) (sub : SubscriberRef) (w : world B R)
  : PaperExecutionResult -> world B R -> Prop :=
| turn_unfilled res w' : unfilled sub w w' res -> dispatched prov entry_side sub w res w'
| turn_simulated res w' :
    entry_side = None -> no_rows w w' -> pe_subscription_id res = sr_subscription_id sub ->
    dispatched prov entry_side sub w res w'
| turn_entered side res w' :
    entry_side = Some side -> direction_allows (sr_direction_filter sub) side = true ->
    entered prov sub side w w' res ->
    dispatched prov entry_side sub w res w'.

Lemma isolate_cases prov entry_side sub w r w' :
  match entry_side with Some side => direction_allows (sr_direction_filter sub) side = true | None => True end ->
  isolate signal strategy signal_hash master check_margin prov entry_side sub w = (r, w') ->
  exists res, r = Ok res /\ dispatched prov entry_side sub w res w'.
Proof.
  intros Hdir. unfold isolate, attempt. cbv [mbind M_bind].
  destruct (try_subscriber _ _ _ _ _ _ _ _ w) as [[res|e] w1] eqn:E1; pose proof E1 as Hid;
    apply try_subscriber_cases in E1.
  - intros E. injection E as <- <-. exists res. split; [done|]. destruct entry_side as [side|].
    + destruct E1 as [(_ & Hu) | (res' & Hr & Hen)]; [by apply turn_unfilled|]. injection Hr as <-.
      eapply turn_entered; [reflexivity | done | exact Hen].
    + destruct E1. by apply turn_simulated.
  - assert (Hn : no_rows w w1) by (destruct entry_side; [destruct E1 as [(? & _) | (? & [=] & _)] | destruct E1]; done).
    destruct (alert_subscriber_failure signal sub w1) as [r2 w2] eqn:E2.
    assert (Hr2 : r2 = Ok tt) by (by injection E2). subst r2. apply alert_no_rows in E2.
    intros E. injection E as <- <-. eexists. split; [reflexivity|]. apply turn_unfilled.
    split; [by transitivity w1|]. done.
Qed.

Lemma dispatch_one_cases prov entry_side sub w r w' :
  dispatch_one signal strategy signal_hash master check_margin prov entry_side sub w = (r, w') ->
  exists res, r = Ok res /\ dispatched prov entry_side sub w res w'.
Proof.
  unfold dispatch_one. destruct entry_side as [side|]; [|by apply isolate_cases].
  destruct (direction_allows _ _) eqn:Ed; cbn [negb]; [by apply isolate_cases|].
  intros E. injection E as <- <-. eexists. split; [reflexivity|]. by apply turn_unfilled.
Qed.
End Entry.

(** ** One subscriber's exit *)

Section ExitTurn.
Context {B R P : Type} `{RedisLaws R} `{ProviderLaws P}.
Context (signal : StrategySignal) (strategy : Strategy) (action_kind : string) (signal_hash : option string).
Implicit Types (w : world B R) (sub : SubscriberRef) (prov : P).

(** A mirrored exit that was filled. *)
Record mirrored (sub : SubscriberRef) (exit_price : dec) (w w' : world B R) (res : PaperExecutionResult)
    (p : StrategyPosition) : Prop := {
  mi_env : fan_env w w';
  mi_status : pe_status res = fs_filled;
  mi_sub : pe_subscription_id res = sr_subscription_id sub;
  mi_auto : takes_auto (sr_execution_mode sub) = true;
  mi_stored : stored_open (w_positions w) (s_id strategy) (sr_subscription_id sub) = Some p;
  mi_left : 0 < remaining_quantity p;
  mi_size : exit_close_qty action_kind (raw_payload signal) (remaining_quantity p) = Ok (pe_quantity res);
  mi_rows : w_positions w' = put_row (mirrored_row p (pe_quantity res) exit_price (w_now w)) (w_positions w);
  mi_legs : exists x, w_executions w' = w_executions w ++ [x] /\ x_subscription_id x = Some (sr_subscription_id sub)
              /\ x_quantity x = pe_quantity res /\ x_symbol x = p_symbol p;
  mi_position : pe_position_id res = Some (p_id p);
  mi_free : redis_get (slot sub (signal_token signal_hash signal)) (w_now w) (w_redis w) = None;
  mi_slot : held (slot sub (signal_token signal_hash signal)) (w_now w)
              (w_now w + SUBSCRIBER_IDEMPOTENCY_TTL_SECONDS) (w_redis w')
}.

Lemma close_mirror_spec sub cred exit_price p close_qty w r w' :
  close_mirror signal strategy action_kind sub cred exit_price p close_qty w = (r, w') ->
  (no_rows w w' /\ exists e, r = Err e)
  \/ exists res x, r = Ok res /\ fan_env w w' /\ w_redis w' = w_redis w /\ pe_status res = fs_filled
       /\ pe_subscription_id res = sr_subscription_id sub /\ pe_quantity res = close_qty
       /\ pe_position_id res = Some (p_id p)
       /\ w_positions w' = put_row (mirrored_row p close_qty exit_price (w_now w)) (w_positions w)
       /\ w_executions w' = w_executions w ++ [x] /\ x_subscription_id x = Some (sr_subscription_id sub)
       /\ x_quantity x = close_qty /\ x_symbol x = p_symbol p.
Proof.
  unfold close_mirror. intros E. apply bind_cases in E as [(fill & w1 & E1 & E) | (e & -> & E1)];
    pose proof (simulate_no_rows _ _ _ _ _ E1) as Hn; [|left; by eauto].
  pose proof Hn as (He & Hps & Hxs).
  destruct (simulate_fill_spec _ _ _ _ _ E1) as [Hq _]. clear E1.
  destruct (s_broker_credential_id strategy) as [cred_id|]; cbv [mbind M_bind from_result gets] in E;
    [|injection E as <- <-; left; by eauto].
  unfold save_position, add_execution, modify, fresh in E. cbv [mbind M_bind mret M_ret] in E.
  injection E as <- <-. right.
  eexists _, (exit_leg signal action_kind sub cred_id exit_price p close_qty fill (w_next_id w1) (w_now w1)).
  split; [reflexivity|].
  split; [etransitivity; [exact He | split; simpl; auto; lia]|].
  split; [exact (qt_redis _ _ Hq)|]. do 4 (split; [reflexivity|]). simpl.
  rewrite Hps, Hxs, (fe_now _ _ He). done.
Qed.

Lemma try_exit_cases prov exit_price sub w r w' :
  try_exit signal strategy action_kind signal_hash prov exit_price sub w = (r, w') ->
  (no_rows w w' /\ match r with Ok res => unfilled sub w w' res | Err _ => True end)
  \/ exists res p, r = Ok res /\ mirrored sub exit_price w w' res p
       /\ find_open prov (w_positions w) (s_id strategy) (sr_subscription_id sub) None = Stored p.
Proof.
  unfold try_exit. intros E. apply bind_cases in E as [(cred & w1 & E1 & E) | (e & -> & [=])].
  injection E1 as _ <-. apply bind_cases in E as [(first & w1 & E1 & E) | (e & -> & E1)].
  2:{ left. split; [|done]. by eapply claim_no_rows. }
  apply claim_cases in E1 as [(E1 & -> & _) | (E1 & Hn & Hfree & Hheld & _)]; injection E1 as ->; cbn [negb] in E.
  { injection E as <- <-. left. split; [done|]. by split. }
  cbv [mbind M_bind gets] in E. pose proof Hn as (He & Hps & Hxs). rewrite Hps in E.
  destruct (find_open prov (w_positions w) _ _ _) as [| |p|row] eqn:Ef;
    try (injection E as <- <-; left; split; [done|]; by split).
  unfold exit_mirror in E. destruct (Z.leb_spec (remaining_quantity p) 0) as [|Hl];
    [injection E as <- <-; left; split; [done|]; by split|].
  cbv [mbind M_bind from_result] in E.
  destruct (exit_close_qty _ _ _) as [n|e] eqn:Eq; [|injection E as <- <-; by left].
  destruct (takes_auto (sr_execution_mode sub)) eqn:Ea; cbn [negb] in E;
    [|injection E as <- <-; left; split; [done|]; by split].
  apply close_mirror_spec in E as [(Hn2 & e & ->) | (res & x & -> & He2 & Hr2 & Hst & Hsid & Hq & Hpid & Hpos & Hx & Hxf)].
  { left. split; [by transitivity w1 | done]. }
  right. exists res, p. split; [done|]. split; [|done]. rewrite Hps, (fe_now _ _ He) in Hpos. rewrite Hxs in Hx.
  rewrite <- Hq in *. split; try done.
  - by transitivity w1.
  - by eapply find_open_stored.
  - exists x. by split.
  - intros u Hu. rewrite Hr2. by apply Hheld.
Qed.

Inductive exit_turn (prov : P) (exit_price : dec) (sub : SubscriberRef) (w : world B R)
  : PaperExecutionResult -> world B R -> Prop :=
| exit_unfilled res w' : unfilled sub w w' res -> exit_turn prov exit_price sub w res w'
| exit_filled res p w' :
    mirrored sub exit_price w w' res p ->
    find_open prov (w_positions w) (s_id strategy) (sr_subscription_id sub) None = Stored p ->
    exit_turn prov exit_price sub w res w'.

Lemma exit_one_cases prov exit_price sub w r w' :
  exit_one signal strategy action_kind signal_hash prov exit_price sub w = (r, w') ->
  exists res, r = Ok res /\ exit_turn prov exit_price sub w res w'.
Proof.
  unfold exit_one, attempt. cbv [mbind M_bind].
  destruct (try_exit _ _ _ _ _ _ _ w) as [[res|e] w1] eqn:E1; apply try_exit_cases in E1.
  - intros E. injection E as <- <-. exists res. split; [done|].
    destruct E1 as [(_ & Hu) | (res' & p & Hr & Hm & Hf)]; [by apply exit_unfilled|]. injection Hr as <-.
    by eapply exit_filled.
  - destruct E1 as [(Hn & _) | (? & ? & [=] & _)].
    destruct (alert_subscriber_failure signal sub w1) as [r2 w2] eqn:E2.
    assert (Hr2 : r2 = Ok tt) by (by injection E2). subst r2. apply alert_no_rows in E2.
    intros E. injection E as <- <-. eexists. split; [reflexivity|]. apply exit_unfilled.
    split; [by transitivity w1|]. done.
Qed.
End ExitTurn.

(** ** Whole runs *)

(** The turns one after the other. *)
Inductive fan_run {B R : Type} (turn : SubscriberRef -> world B R -> PaperExecutionResult -> world B R -> Prop)
  : list SubscriberRef -> world B R -> list PaperExecutionResult -> world B R -> Prop :=
| fan_nil w : fan_run turn [] w [] w
| fan_cons sub subs w res w1 rs w' :
    turn sub w res w1 -> fan_run turn subs w1 rs w' -> fan_run turn (sub :: subs) w (res :: rs) w'.

Lemma mapM_fan_run {B R : Type} (f : SubscriberRef -> M B R PaperExecutionResult) turn subs w r w' :
  (forall sub w r w', f sub w = (r, w') -> exists res, r = Ok res /\ turn sub w res w') ->
  mapM f subs w = (r, w') -> exists rs, r = Ok rs /\ fan_run turn subs w rs w'.
Proof.
  intros Hf. revert w r w'. induction subs as [|sub subs IH]; intros w r w' E; simpl in E.
  - injection E as <- <-. eexists. split; [done | constructor].
  - cbv [mbind M_bind] in E. destruct (f sub w) as [r1 w1] eqn:E1. apply Hf in E1 as (res & -> & Ht).
    destruct (mapM f subs w1) as [r2 w2] eqn:E2. apply IH in E2 as (rs & -> & Hrun).
    injection E as <- <-. eexists. split; [done|]. by econstructor.
Qed.

(** A run around its [i]-th turn. *)
Lemma fan_run_at {B R : Type} turn subs (w w' : world B R) rs i sub res :
  fan_run turn subs w rs w' -> subs !! i = Some sub -> rs !! i = Some res ->
  exists u u', fan_run turn (take i subs) w (take i rs) u /\ turn sub u res u'
               /\ fan_run turn (drop (S i) subs) u' (drop (S i) rs) w'.
Proof.
  intros Hrun. revert i. induction Hrun as [w | s0 subs w r0 w1 rs w' Ht Hrun IH]; intros [|i] Hs Hr; try done; simpl in *.
  - injection Hs as ->. injection Hr as ->. exists w, w1. repeat split; [constructor | done | done].
  - destruct (IH i Hs Hr) as (u & u' & ? & ? & ?). exists u, u'. split; [by econstructor | done].
Qed.

Lemma fan_run_length {B R : Type} turn subs (w w' : world B R) rs :
  fan_run turn subs w rs w' -> length rs = length subs.
Proof. induction 1; simpl; congruence. Qed.

(** Rows of the owners and of subscriptions not in [ids]. *)
Definition outside (ids : list uuid) (p : StrategyPosition) : bool :=
  match p_subscription_id p with Some i => negb (bool_decide (i ∈ ids)) | None => true end.

(** A run that served the subscriptions [ids]: every other row, the broker, the
    orders and the rest of the world are as before; the new execution legs are
    theirs; the table is well formed and its quantities moved by ledger steps. *)
Record served {B R : Type} `{RedisStore R} (ids : list uuid) (w w' : world B R) : Prop := {
  sv_env : fan_env w w';
  sv_rows : List.filter (outside ids) (w_positions w') = List.filter (outside ids) (w_positions w);
  sv_legs : exists xs, w_executions w' = w_executions w ++ xs
              /\ Forall (fun x => exists i, In i ids /\ x_subscription_id x = Some i) xs;
  sv_book : book_inv w';
  sv_ledger : rtc ledger_step (exposure (w_positions w)) (exposure (w_positions w'))
}.

Lemma served_trans {B R : Type} `{RedisLaws R} ids (u v w : world B R) :
  served ids u v -> served ids v w -> served ids u w.
Proof.
  intros [He Hr (xs & Hx & Hxs) _ Hl] [He' Hr' (ys & Hy & Hys) Hb' Hl'].
  split; [by transitivity v | congruence | | done | by transitivity (exposure (w_positions v))].
  exists (xs ++ ys). split; [by rewrite Hy, Hx, app_assoc | by apply Forall_app].
Qed.

Lemma no_rows_served {B R : Type} `{RedisLaws R} ids (w w' : world B R) :
  book_inv w -> no_rows w w' -> served ids w w'.
Proof.
  intros Hb (He & Hp & Hx). split; [done | by rewrite Hp | | | by rewrite Hp].
  - exists []. by rewrite Hx, app_nil_r.
  - apply (book_inv_ext w); [done | done | apply He].
Qed.

Lemma stored_open_spec rows strategy_id subscription_id p :
  stored_open rows strategy_id subscription_id = Some p ->
  In p rows /\ p_strategy_id p = strategy_id /\ p_subscription_id p = Some subscription_id /\ is_open p = true.
Proof.
  intros E%latest_by_in. apply filter_In in E as [Hin Hm]. unfold mirrors in Hm. by bool_to_prop.
Qed.

Lemma stored_open_none rows strategy_id subscription_id :
  stored_open rows strategy_id subscription_id = None ->
  forall p, In p rows -> p_strategy_id p = strategy_id -> p_subscription_id p = Some subscription_id -> is_open p = false.
Proof.
  unfold stored_open. rewrite latest_by_none. intros E p Hin Hs Hsub. destruct (is_open p) eqn:Ho; [|done].
  assert (Hf : In p (List.filter (mirrors strategy_id subscription_id) rows)).
  { apply filter_In. split; [done|]. unfold mirrors. rewrite Ho, bool_decide_eq_true_2 by done.
    by rewrite (proj2 (Z.eqb_eq _ _) Hs). }
  by rewrite E in Hf.
Qed.

Lemma mirrored_row_after p n price now : after_exit p (mirrored_row p n price now) n.
Proof.
  unfold after_exit, mirrored_row.
  destruct (Z.leb_spec (remaining_quantity p - n) 0) as [Hle|Hgt];
    (split; [by split|]); (split; [reflexivity|]); (split; [reflexivity|]); cbn [set status remaining_quantity].
  - by rewrite (proj2 (Z.ltb_ge 0 (remaining_quantity p - n)) Hle).
  - by rewrite (proj2 (Z.ltb_lt 0 (remaining_quantity p - n)) Hgt).
Qed.

Lemma exit_close_qty_bounds action_kind payload remaining n :
  0 < remaining -> exit_close_qty action_kind payload remaining = Ok n -> 1 <= n <= remaining.
Proof.
  intros Hr. unfold exit_close_qty. destruct (String.eqb action_kind "partial"); [|intros [= <-]; lia].
  intros E. apply res_bind_ok in E as (pct & _ & [= <-]). unfold partial_close_qty. lia.
Qed.

(** Where the context does not round, a partial exit takes the truncated
    percentage, kept between one and everything. *)
Lemma dec_trunc_div_100 m : 0 <= coef m < 10 ^ 24 -> expo m <= 0 ->
  dec_trunc (ddiv m (dec_of_Z 100)) = coef m / 10 ^ (2 - expo m).
Proof.
  intros Hm He. destruct (ddiv_100 m) as [Hx Hv]; [lia|]. set (d := ddiv m (dec_of_Z 100)) in *.
  unfold at_scale in Hv. set (k := expo d - (expo m - 2)) in *.
  assert (Hk : 0 < 10 ^ k) by (apply Z.pow_pos_nonneg; lia).
  assert (Hcd : 0 <= coef d) by nia. unfold dec_trunc. rewrite <- Hv. destruct (Z.leb_spec 0 (expo d)) as [Hd|Hd].
  - replace k with (expo d + (2 - expo m)) by lia. rewrite Z.pow_add_r, Z.mul_assoc, Z.div_mul by lia. done.
  - rewrite Z.quot_div_nonneg by lia. replace (2 - expo m) with (k + - expo d) by lia.
    rewrite Z.pow_add_r, (Z.mul_comm (coef d)), Z.div_mul_cancel_l by lia. done.
Qed.

Lemma partial_close_qty_exact remaining pct :
  0 <= remaining -> 0 <= coef pct -> expo pct <= 0 -> remaining * coef pct < 10 ^ 24 ->
  partial_close_qty remaining pct
  = Z.max 1 (Z.min (remaining * coef pct / 10 ^ (2 - expo pct)) remaining).
Proof.
  intros Hr Hc He Hb. unfold partial_close_qty. do 2 f_equal.
  assert (Hm : dmul (dec_of_Z remaining) pct = Dec (remaining * coef pct) (expo pct)).
  { unfold dmul. rewrite dfix_exact; simpl; [done | unfold prec; nia]. }
  rewrite Hm, dec_trunc_div_100; simpl; [done | nia | done].
Qed.

Lemma validated_even_spec j n : validated_even j = Ok n -> 2 <= n /\ n mod 2 = 0.
Proof.
  unfold validated_even. destruct (int_of_json j) as [z| |]; try done.
  destruct (Z.ltb_spec z MIN_SIZE); [done|]. destruct (Z.eqb_spec (z mod 2) 0); [|done].
  intros [= <-]. by split.
Qed.

Lemma real_lot_size_pos symbol master : 1 <= real_lot_size symbol master.
Proof. unfold real_lot_size. repeat split_match; bool_to_prop; lia. Qed.

Lemma resolve_subscriber_size_pos strategy sub symbol master q :
  0 <= entry_lots strategy -> resolve_subscriber_size strategy sub symbol master = Ok q -> 0 < q.
Proof.
  intros Hl. unfold resolve_subscriber_size. pose proof (real_lot_size_pos symbol master) as Hlot.
  destruct (is_cash_strategy strategy); [intros [? _]%validated_even_spec; lia|].
  intros E. apply res_bind_ok in E as (lots & E & [= <-]).
  enough (1 <= lots) by nia. destruct (sr_lots_override sub) as [n|].
  - apply validated_even_spec in E as [? _]. lia.
  - injection E as <-. destruct (Z.eqb_spec (entry_lots strategy) 0); lia.
Qed.

Lemma filter_outside_put ids (p p' : StrategyPosition) rows i :
  NoDup (map p_id rows) -> In p rows -> p_id p' = p_id p -> p_subscription_id p = Some i ->
  p_subscription_id p' = Some i -> In i ids ->
  List.filter (outside ids) (put_row p' rows) = List.filter (outside ids) rows.
Proof.
  intros Hnd Hin Hid Hp Hp' Hi. apply list_elem_of_In in Hi.
  assert (Hout : forall q, p_subscription_id q = Some i -> outside ids q = false).
  { intros q Hq. unfold outside. rewrite Hq. by rewrite bool_decide_eq_true_2. }
  assert (Hall : forall q, In q rows -> p_id q = p_id p' -> q = p).
  { intros q Hq E. apply (in_ids_inj rows); auto. congruence. }
  clear Hnd Hin. induction rows as [|q rows IH]; [done|]. simpl.
  rewrite IH by (intros; apply Hall; simpl; auto).
  destruct (Z.eqb_spec (p_id q) (p_id p')) as [E|E]; [|done].
  rewrite (Hall q (or_introl eq_refl) E). by rewrite !Hout.
Qed.

Section Served.
Context {B R P : Type} `{RedisLaws R} `{ProviderLaws P}.
Context (signal : StrategySignal) (strategy : Strategy) (signal_hash : option string).
Implicit Types (w : world B R) (ids : list uuid).

Lemma entered_served master prov sub side w w' res ids :
  0 <= entry_lots strategy -> book_inv w -> In (sr_subscription_id sub) ids ->
  entered signal strategy signal_hash master prov sub side w w' res -> served ids w w'.
Proof.
  intros Hl Hb Hi [He _ _ _ _ Hsz _ _ _ (p & x & Hp & Hx & Hmr & Hid & _ & Hxs & _)].
  apply resolve_subscriber_size_pos in Hsz; [|done]. destruct Hmr as [_ _ Hsub _ Hsd [Ht Hr] _ Ho _].
  assert (Hinv : pos_inv p).
  { split; [lia | rewrite Ho, Hr; split; [done | lia] | lia|]. unfold side_ok. rewrite Hsd. by destruct side. }
  apply list_elem_of_In in Hi as Hi'. split; [done | | | |].
  - rewrite Hp, List.filter_app. simpl. unfold outside at 2. rewrite Hsub, bool_decide_eq_true_2 by done.
    apply app_nil_r.
  - exists [x]. split; [done|]. repeat constructor. eauto.
  - by apply (book_inv_snoc w w' p).
  - assert (Hfresh : ~ In (p_id p) (map p_id (w_positions w))).
    { intros Hin. apply in_map_iff in Hin as (q & Eq & Hq). pose proof (book_fresh _ Hb) as Hfr.
      rewrite List.Forall_forall in Hfr. specialize (Hfr q Hq). simpl in Hfr. lia. }
    rewrite Hp, exposure_snoc, Hr by done. apply rtc_once, ledger_open; [by apply exposure_absent | done].
Qed.

Lemma mirrored_served action_kind sub exit_price w w' res p ids :
  book_inv w -> In (sr_subscription_id sub) ids ->
  mirrored signal strategy action_kind signal_hash sub exit_price w w' res p -> served ids w w'.
Proof.
  intros Hb Hi [He _ _ _ Hso Hl Hsz Hp (x & Hx & Hxs & _) _ _ _].
  apply stored_open_spec in Hso as (Hin & _ & Hsub & _). apply exit_close_qty_bounds in Hsz; [|done].
  set (p' := mirrored_row p (pe_quantity res) exit_price (w_now w)) in *.
  pose proof (mirrored_row_after p (pe_quantity res) exit_price (w_now w)) as Ha. fold p' in Ha.
  pose proof (book_rows _ Hb) as Hall. pose proof (book_fresh _ Hb) as Hfr. rewrite List.Forall_forall in Hall, Hfr.
  assert (Hinv : pos_inv p') by (apply (after_exit_inv p p' (pe_quantity res)); auto; lia).
  destruct Ha as (Hrow & _ & Hrem & _). specialize (Hfr p Hin). simpl in Hfr. pose proof (fe_next _ _ He).
  pose proof (same_id _ _ Hrow) as Hid. split; [done | | | |].
  - rewrite Hp. apply (filter_outside_put ids p p' _ (sr_subscription_id sub)); auto; [apply Hb|].
    by rewrite <- (same_subscription _ _ Hrow).
  - exists [x]. split; [done|]. repeat constructor. eauto.
  - apply (book_inv_update w w' p'); auto. lia.
  - rewrite Hp. apply (exposure_leave _ p); auto; [apply Hb | lia].
Qed.

Lemma dispatch_run_served master (turn := dispatched (B := B) (R := R) (P := P) signal strategy signal_hash master)
    prov entry_side subs w rs w' ids :
  0 <= entry_lots strategy -> book_inv w -> Forall (fun s => In (sr_subscription_id s) ids) subs ->
  fan_run (turn prov entry_side) subs w rs w' ->
  served ids w w' /\ map pe_subscription_id rs = map sr_subscription_id subs.
Proof.
  intros Hl Hb Hsubs Hrun. induction Hrun as [w | sub subs w res w1 rs w' Ht _ IH].
  { split; [|done]. by apply no_rows_served. }
  apply Forall_cons in Hsubs as [Hs Hsubs].
  assert (Hone : served ids w w1 /\ pe_subscription_id res = sr_subscription_id sub).
  { destruct Ht as [res w1 (Hn & Hid & _) | res w1 _ Hn Hid | side res w1 _ _ Hen].
    - split; [by apply no_rows_served | done].
    - split; [by apply no_rows_served | done].
    - split; [by eapply entered_served | apply Hen]. }
  destruct Hone as [Hone Hid]. destruct (IH (sv_book _ _ _ Hone) Hsubs) as [Hrest Hids].
  split; [by eapply served_trans | simpl; congruence].
Qed.

Lemma exit_run_served action_kind prov exit_price subs w rs w' ids :
  book_inv w -> Forall (fun s => In (sr_subscription_id s) ids) subs ->
  fan_run (exit_turn (B := B) (R := R) (P := P) signal strategy action_kind signal_hash prov exit_price) subs w rs w' ->
  served ids w w' /\ map pe_subscription_id rs = map sr_subscription_id subs.
Proof.
  intros Hb Hsubs Hrun. induction Hrun as [w | sub subs w res w1 rs w' Ht _ IH].
  { split; [|done]. by apply no_rows_served. }
  apply Forall_cons in Hsubs as [Hs Hsubs].
  assert (Hone : served ids w w1 /\ pe_subscription_id res = sr_subscription_id sub).
  { destruct Ht as [res w1 (Hn & Hid & _) | res p w1 Hm _].
    - split; [by apply no_rows_served | done].
    - split; [by eapply mirrored_served | apply Hm]. }
  destruct Hone as [Hone Hid]. destruct (IH (sv_book _ _ _ Hone) Hsubs) as [Hrest Hids].
  split; [by eapply served_trans | simpl; congruence].
Qed.

(** With the stored rows as the provider a copy is never entered twice: at most
    one open row per key. *)
Lemma dispatch_run_one_open master entry_side subs w rs w' :
  one_open (w_positions w) ->
  fan_run (dispatched (B := B) (R := R) signal strategy signal_hash master paper_provider entry_side) subs w rs w' ->
  one_open (w_positions w').
Proof.
  intros Hone Hrun. induction Hrun as [w | sub subs w res w1 rs w' Ht _ IH]; [done|]. apply IH.
  destruct Ht as [res w1 ((_ & -> & _) & _) | res w1 _ (_ & -> & _) _ | side res w1 _ _ Hen]; [done..|].
  destruct (en_rows _ _ _ _ _ _ _ _ _ _ Hen) as (p & x & -> & _ & Hmr & _). apply one_open_snoc; [done|].
  intros q Hq Hqo (Hs & _ & _ & Hsub). pose proof (en_flat _ _ _ _ _ _ _ _ _ _ Hen) as Hfl. simpl in Hfl.
  destruct (stored_open (w_positions w) (s_id strategy) (sr_subscription_id sub)) eqn:Eo; [done|].
  rewrite (mr_strategy _ _ _ _ _ _ _ Hmr) in Hs. rewrite (mr_subscription _ _ _ _ _ _ _ Hmr) in Hsub.
  rewrite (stored_open_none _ _ _ Eo q Hq Hs Hsub) in Hqo. done.
Qed.

Lemma exit_run_one_open action_kind prov exit_price subs w rs w' :
  one_open (w_positions w) ->
  fan_run (exit_turn (B := B) (R := R) (P := P) signal strategy action_kind signal_hash prov exit_price) subs w rs w' ->
  one_open (w_positions w').
Proof.
  intros Hone Hrun. induction Hrun as [w | sub subs w res w1 rs w' Ht _ IH]; [done|]. apply IH.
  destruct Ht as [res w1 ((_ & -> & _) & _) | res p w1 Hm _]; [done|]. rewrite (mi_rows _ _ _ _ _ _ _ _ _ _ Hm).
  pose proof (stored_open_spec _ _ _ _ (mi_stored _ _ _ _ _ _ _ _ _ _ Hm)) as (Hin & _ & _ & Ho).
  apply (one_open_put p); auto. apply mirrored_row_after.
Qed.
End Served.
