(* ===== verification/Mirroring.v ===== *)
(** * Mirroring a strategy to its subscribers: the guarantees

    The theorems about [dispatch_subscriber_executions], [fan_out_exit] and the
    drift report of [Fanout.v], and the composition with the owner's direct exit
    (backend/app/services/direct_exit.py, [_maybe_fan_out_exit]). *)

From Stdlib Require Import ZArith Lia List Bool String.
From stdpp Require Import base list strings gmap.
From S2P Require Import Prelude PyText SymbolMatch PyFloat PyDecimal PyNum Records Enums Models Safeguards Book Ledger Samples.
From S2P Require Import PositionManager StrategyExecutor DirectExit DayState KillSwitch BrokerBatch Fanout FanoutSafety.

Section Runs.
Context {B R P : Type} `{RedisLaws R} `{ProviderLaws P}.
Context (signal : StrategySignal) (strategy : Strategy) (signal_hash : option string).
Implicit Types (w : world B R) (prov : P).

(** The three ways a dispatch ends. *)
Lemma dispatch_runs master margin prov subs w r w' :
  dispatch_subscriber_executions signal strategy signal_hash master margin prov subs w = (r, w') ->
  (r = Ok [] /\ w' = w /\ resolve_instrument_type (Some strategy) = OPTIONS)
  \/ (exists e, r = Err e /\ w' = w /\ entry_side_of signal = Err e)
  \/ exists entry_side rs, r = Ok rs /\ entry_side_of signal = Ok entry_side
       /\ resolve_instrument_type (Some strategy) <> OPTIONS
       /\ fan_run (dispatched signal strategy signal_hash master (prefetch prov (map sr_subscription_id subs)) entry_side)
            subs w rs w'.
Proof.
  unfold dispatch_subscriber_executions. case_bool_decide as Eo; [intros [= <- <-]; auto|].
  intros E. right. apply bind_cases in E as [(es & w1 & E1 & E) | (e & -> & E1)];
    apply from_result_spec in E1 as [-> E1]; [|left; by exists e].
  right. eapply mapM_fan_run in E as (rs & -> & Hrun); [by exists es, rs|].
  intros sub u r' u'. by apply dispatch_one_cases.
Qed.

Lemma exit_runs action_kind prov subs w r w' :
  fan_out_exit signal strategy action_kind signal_hash prov subs w = (r, w') ->
  (r = Err InvalidOperation /\ w' = w)
  \/ exists price rs, r = Ok rs /\ decimal_or (jget (raw_payload signal) "price") (JInt 0) = Ok price
       /\ fan_run (exit_turn signal strategy action_kind signal_hash (prefetch prov (map sr_subscription_id subs)) price)
            subs w rs w'.
Proof.
  unfold fan_out_exit. intros E. apply bind_cases in E as [(price & w1 & E1 & E) | (e & -> & E1)];
    apply from_result_spec in E1 as [-> E1].
  - right. eapply mapM_fan_run in E as (rs & -> & Hrun); [by exists price, rs|].
    intros sub u r' u'. by apply exit_one_cases.
  - left. split; [|done]. unfold decimal_or in E1. destruct (decimal_of_json _); by simplify_eq.
Qed.

Lemma all_served (subs : list SubscriberRef) :
  Forall (fun s => In (sr_subscription_id s) (map sr_subscription_id subs)) subs.
Proof. apply List.Forall_forall. intros s Hs. by apply in_map. Qed.

Lemma dispatch_served master margin prov subs w r w' :
  0 <= entry_lots strategy -> book_inv w ->
  dispatch_subscriber_executions signal strategy signal_hash master margin prov subs w = (r, w') ->
  served (map sr_subscription_id subs) w w'
  /\ match r with
     | Ok rs => map pe_subscription_id rs = map sr_subscription_id subs
                \/ (rs = [] /\ resolve_instrument_type (Some strategy) = OPTIONS)
     | Err _ => w' = w
     end.
Proof.
  intros Hl Hb E. apply dispatch_runs in E as [(-> & -> & Ho) | [(e & -> & -> & _) | (es & rs & -> & _ & _ & Hrun)]].
  - split; [by apply no_rows_served | by right].
  - split; [by apply no_rows_served | done].
  - apply (dispatch_run_served _ _ _ _ _ _ _ _ _ _ (map sr_subscription_id subs)) in Hrun as [? ?]; auto using all_served.
Qed.

Lemma exit_served action_kind prov subs w r w' :
  book_inv w -> fan_out_exit signal strategy action_kind signal_hash prov subs w = (r, w') ->
  served (map sr_subscription_id subs) w w'
  /\ match r with
     | Ok rs => map pe_subscription_id rs = map sr_subscription_id subs
     | Err _ => w' = w
     end.
Proof.
  intros Hb E. apply exit_runs in E as [(-> & ->) | (price & rs & -> & _ & Hrun)].
  - split; [by apply no_rows_served | done].
  - apply (exit_run_served _ _ _ _ _ _ _ _ _ _ (map sr_subscription_id subs)) in Hrun; auto using all_served.
Qed.

(** Mirroring is isolated.  Whatever subscribers, whatever their settings, with
    any position provider and margin check: mirroring an entry or an exit reaches
    no broker, sends no order, changes no row of the owner or of a subscription
    that is not served, no strategy, credential, subscription or Redis key other
    than its own idempotency slots, and writes execution legs only under served
    subscriptions.  It returns one result per subscriber, in order (none for an
    options strategy), or raises before it did anything; the table stays well
    formed and its quantities move only by ledger steps. *)
Theorem mirroring_isolated master margin prov action_kind subs w :
  0 <= entry_lots strategy -> book_inv w ->
  (forall r w', dispatch_subscriber_executions signal strategy signal_hash master margin prov subs w = (r, w') ->
     served (map sr_subscription_id subs) w w'
     /\ match r with
        | Ok rs => map pe_subscription_id rs = map sr_subscription_id subs
                   \/ (rs = [] /\ resolve_instrument_type (Some strategy) = OPTIONS)
        | Err _ => w' = w
        end)
  /\ (forall r w', fan_out_exit signal strategy action_kind signal_hash prov subs w = (r, w') ->
     served (map sr_subscription_id subs) w w'
     /\ match r with
        | Ok rs => map pe_subscription_id rs = map sr_subscription_id subs
        | Err _ => w' = w
        end).
Proof.
  intros Hl Hb. split; intros r w' E; [by eapply dispatch_served | by eapply exit_served].
Qed.

(** ** What the turns before a subscriber's own leave to it *)

(** A run of entries only adds rows, of the subscribers it served. *)
Lemma entries_append master prov entry_side subs w rs w' :
  fan_run (dispatched signal strategy signal_hash master prov entry_side) subs w rs w' ->
  fan_env w w'
  /\ exists ps, w_positions w' = w_positions w ++ ps
       /\ Forall (fun p => exists s, In s subs /\ p_subscription_id p = Some (sr_subscription_id s)) ps.
Proof.
  induction 1 as [w | sub subs w res w1 rs w' Ht _ [He (ps & Hp & Hps)]].
  { split; [done|]. exists []. by rewrite app_nil_r. }
  assert (Hone : fan_env w w1 /\ exists qs, w_positions w1 = w_positions w ++ qs
                   /\ Forall (fun p => p_subscription_id p = Some (sr_subscription_id sub)) qs).
  { destruct Ht as [res w1 ((? & Hq & _) & _) | res w1 _ (? & Hq & _) _ | side res w1 _ _ Hen].
    - split; [done|]. exists []. by rewrite Hq, app_nil_r.
    - split; [done|]. exists []. by rewrite Hq, app_nil_r.
    - split; [apply Hen|]. destruct (en_rows _ _ _ _ _ _ _ _ _ _ Hen) as (p & x & Hq & _ & Hmr & _).
      exists [p]. split; [done|]. repeat constructor. apply Hmr. }
  destruct Hone as (He1 & qs & Hq & Hqs). split; [by transitivity w1|]. exists (qs ++ ps).
  split; [by rewrite Hp, Hq, app_assoc|]. apply Forall_app. split.
  - eapply Forall_impl; [exact Hqs|]. simpl. eauto.
  - eapply Forall_impl; [exact Hps|]. simpl. intros p (s & ? & ?). eauto.
Qed.

Lemma stored_open_other (rows ps : list StrategyPosition) strategy_id subscription_id :
  Forall (fun p => p_subscription_id p <> Some subscription_id) ps ->
  stored_open (rows ++ ps) strategy_id subscription_id = stored_open rows strategy_id subscription_id.
Proof.
  intros Hps. unfold stored_open. rewrite List.filter_app.
  replace (List.filter (mirrors strategy_id subscription_id) ps) with (@nil StrategyPosition); [by rewrite app_nil_r|].
  induction Hps as [|p ps Hp _ IH]; [done|]. simpl. unfold mirrors at 1.
  by rewrite (bool_decide_eq_false_2 (p_subscription_id p = _)), andb_false_r by done.
Qed.

(** A slot found free was free before. *)
Lemma free_before k (w w' : world B R) :
  fan_env w w' -> redis_get k (w_now w') (w_redis w') = None -> redis_get k (w_now w) (w_redis w) = None.
Proof.
  intros He Hn. destruct (redis_get k (w_now w) (w_redis w)) as [v|] eqn:E; [|done].
  assert (Hh : held k (w_now w) (w_now w + 1) (w_redis w)).
  { intros t Ht. assert (t = w_now w) as -> by lia. by rewrite E. }
  apply (fe_held _ _ He) in Hh; [|lia]. rewrite (fe_now _ _ He) in Hn.
  destruct (Hh (w_now w)) as [v' E']; [lia | congruence].
Qed.

Lemma distinct_before (subs : list SubscriberRef) i sub s :
  NoDup (map sr_subscription_id subs) -> subs !! i = Some sub -> In s (take i subs) ->
  sr_subscription_id s <> sr_subscription_id sub.
Proof.
  intros Hnd Hi Hs E. rewrite <- (take_drop_middle subs i sub Hi), map_app in Hnd.
  apply NoDup_app in Hnd as (_ & Hd & _). apply (Hd (sr_subscription_id s)).
  - apply list_elem_of_In. by apply in_map.
  - rewrite E. simpl. by left.
Qed.

(** What a mirrored entry is.  A subscriber's copy of an entry is filled only
    when it is on AUTO, its direction filter permits the side, its slot for the
    signal was free and the provider says it is flat; the copy is then one new
    open row of the subscriber for exactly the resolved size, at the payload's
    price, and the slot is held for a minute. *)
Theorem mirrored_entry_discipline master margin prov subs w rs w' i sub res side :
  0 <= entry_lots strategy -> NoDup (map sr_subscription_id subs) ->
  dispatch_subscriber_executions signal strategy signal_hash master margin prov subs w = (Ok rs, w') ->
  entry_side_of signal = Ok (Some side) ->
  subs !! i = Some sub -> rs !! i = Some res -> pe_status res = fs_filled ->
  takes_auto (sr_execution_mode sub) = true
  /\ direction_allows (sr_direction_filter sub) side = true
  /\ find_open (prefetch prov (map sr_subscription_id subs)) (w_positions w) (s_id strategy) (sr_subscription_id sub)
       (Some (g_symbol signal)) = Flat
  /\ resolve_subscriber_size strategy sub (g_symbol signal) master = Ok (pe_quantity res) /\ 0 < pe_quantity res
  /\ redis_get (slot sub (signal_token signal_hash signal)) (w_now w) (w_redis w) = None
  /\ held (slot sub (signal_token signal_hash signal)) (w_now w)
       (w_now w + SUBSCRIBER_IDEMPOTENCY_TTL_SECONDS) (w_redis w')
  /\ exists p, In p (w_positions w') /\ w_next_id w <= p_id p /\ pe_position_id res = Some (p_id p)
       /\ mirror_row signal strategy sub side (pe_quantity res) (w_now w) p.
Proof.
  intros Hl Hnd E Hes Hsub Hres Hst.
  apply dispatch_runs in E as [([= ->] & _) | [(e & [=] & _) | (es & rs' & [= <-] & E & _ & Hrun)]]; [done|].
  rewrite Hes in E. injection E as <-.
  destruct (fan_run_at _ _ _ _ _ _ _ _ Hrun Hsub Hres) as (u & u' & Hpre & Ht & Hpost).
  destruct Ht as [res u' (_ & _ & Hne) | res u' [=] _ _ | side' res u' [= <-] Hdir Hen]; [done|].
  apply entries_append in Hpre as (He & ps & Hps & Hown). apply entries_append in Hpost as (He' & qs & Hqs & _).
  pose proof (fe_now _ _ He) as Hnow. pose proof (fe_next _ _ He) as Hnext.
  assert (Hso : stored_open (w_positions u) (s_id strategy) (sr_subscription_id sub)
                = stored_open (w_positions w) (s_id strategy) (sr_subscription_id sub)).
  { rewrite Hps. apply stored_open_other. eapply Forall_impl; [exact Hown|]. simpl.
    intros p (s & Hs & ->) [= Eq]. by eapply distinct_before. }
  destruct Hen as [Heu _ _ _ Ha Hsz Hfl Hfree Hheld (p & x & Hp & _ & Hmr & Hid & Hpid & _)].
  rewrite (find_open_own _ _ _ _ _ _ Hso) in Hfl. rewrite Hnow in Hheld, Hmr.
  do 4 (split; [done|]). split; [by eapply resolve_subscriber_size_pos|].
  split; [by apply (free_before _ w u)|].
  split; [apply (fe_held _ _ He'); [rewrite (fe_now _ _ Heu), Hnow; unfold SUBSCRIBER_IDEMPOTENCY_TTL_SECONDS; lia | done]|].
  exists p. split; [rewrite Hqs, Hp, !in_app_iff; simpl; auto|]. split; [lia | done].
Qed.

(** A subscriber whose slot is taken gets nothing but "duplicate". *)
Lemma slot_taken_duplicate master margin prov side sub w q d :
  direction_allows (sr_direction_filter sub) side = true ->
  resolve_subscriber_size strategy sub (g_symbol signal) master = Ok q -> paper_price signal = Ok d ->
  is_Some (s_broker_credential_id strategy) ->
  is_Some (redis_get (slot sub (signal_token signal_hash signal)) (w_now w) (w_redis w)) ->
  exists res w', dispatch_one signal strategy signal_hash master margin prov (Some side) sub w = (Ok res, w')
                 /\ pe_status res = fs_duplicate.
Proof.
  intros Hdir Hsz Hd [c Hc] [v Hv]. unfold dispatch_one. rewrite Hdir. cbn [negb].
  unfold isolate, attempt, try_subscriber, resolve_subscriber_credential. cbv [mbind M_bind gets mret M_ret].
  rewrite Hsz. unfold simulate_fill, from_result, fresh. cbv [mbind M_bind mret M_ret]. rewrite Hd.
  unfold enter_subscriber. rewrite Hc.
  unfold claim_subscriber_idempotency, set_idempotency_key, attempt, redis_set_nx. cbv [mbind M_bind mret M_ret].
  change (SUBSCRIBER_IDEMPOTENCY_TTL_SECONDS <=? 0) with false. cbv iota. simpl.
  unfold slot in Hv. rewrite Hv. simpl. eauto.
Qed.

Lemma entered_price master prov sub side w w' res :
  entered signal strategy signal_hash master (B := B) (P := P) prov sub side w w' res ->
  exists d, paper_price signal = Ok d.
Proof.
  intros Hen. destruct (en_rows _ _ _ _ _ _ _ _ _ _ Hen) as (p & x & _ & _ & Hmr & _).
  destruct (mr_price _ _ _ _ _ _ _ Hmr) as (d & Hd & _). eauto.
Qed.

(** The same run, turn by turn as the code computes it. *)
Lemma dispatch_turns master margin prov subs w rs w' side :
  dispatch_subscriber_executions signal strategy signal_hash master margin prov subs w = (Ok rs, w') ->
  entry_side_of signal = Ok (Some side) -> resolve_instrument_type (Some strategy) <> OPTIONS ->
  fan_run (fun sub u res u' =>
      dispatch_one signal strategy signal_hash master margin (prefetch prov (map sr_subscription_id subs)) (Some side) sub u
        = (Ok res, u')
      /\ dispatched signal strategy signal_hash master (prefetch prov (map sr_subscription_id subs)) (Some side) sub u res u')
    subs w rs w'.
Proof.
  unfold dispatch_subscriber_executions. intros E Hes Ho. rewrite bool_decide_eq_false_2, Hes in E by done.
  unfold from_result in E. cbn [mbind M_bind] in E. eapply mapM_fan_run in E as (rs' & [= <-] & Hrun); [exact Hrun|].
  intros sub u r u' Eq. destruct (dispatch_one_cases _ _ _ _ _ _ _ _ _ _ _ Eq) as (res & -> & Hd). eauto.
Qed.

Lemma fan_run_impl (turn turn' : SubscriberRef -> world B R -> PaperExecutionResult -> world B R -> Prop) subs w rs w' :
  (forall s u r u', turn s u r u' -> turn' s u r u') -> fan_run turn subs w rs w' -> fan_run turn' subs w rs w'.
Proof. intros Himp. induction 1; [constructor | econstructor; eauto]. Qed.

(** While a subscription's slot is held, a run adds no row of it. *)
Lemma held_slot_blocks master prov side sub lo hi subs (u u' : world B R) rs :
  lo <= w_now u < hi -> held (slot sub (signal_token signal_hash signal)) lo hi (w_redis u) ->
  fan_run (dispatched signal strategy signal_hash master prov (Some side)) subs u rs u' ->
  exists ps, w_positions u' = w_positions u ++ ps
    /\ Forall (fun p => p_subscription_id p <> Some (sr_subscription_id sub)) ps.
Proof.
  intros Hnow Hheld Hrun. induction Hrun as [u | s subs u r u1 rs u' Ht Hrun IH]; [exists []; by rewrite app_nil_r|].
  assert (Hone : fan_env u u1 /\ exists qs, w_positions u1 = w_positions u ++ qs
                   /\ Forall (fun p => p_subscription_id p <> Some (sr_subscription_id sub)) qs).
  { destruct Ht as [r u1 ((? & Hq & _) & _) | r u1 _ (? & Hq & _) _ | side' r u1 _ _ Hen].
    - split; [done|]. exists []. by rewrite Hq, app_nil_r.
    - split; [done|]. exists []. by rewrite Hq, app_nil_r.
    - split; [apply Hen|]. destruct (en_rows _ _ _ _ _ _ _ _ _ _ Hen) as (p & x & Hq & _ & Hmr & _).
      exists [p]. split; [done|]. repeat constructor. rewrite (mr_subscription _ _ _ _ _ _ _ Hmr). intros [= Eq].
      pose proof (en_free _ _ _ _ _ _ _ _ _ _ Hen) as Hfree. unfold slot in Hfree. rewrite Eq in Hfree.
      destruct (Hheld (w_now u)) as [v Hv]; [lia|]. unfold slot in Hv. congruence. }
  destruct Hone as (He & qs & Hq & Hqs). destruct IH as (ps & Hp & Hps).
  - by rewrite (fe_now _ _ He).
  - by apply (fe_held _ _ He).
  - exists (qs ++ ps). split; [by rewrite Hp, Hq, app_assoc | by apply Forall_app].
Qed.

(** A re-delivered signal is mirrored once.  After a dispatch filled a
    subscriber's entry, a second dispatch of the same signal within a minute,
    whatever happened to the tables in between and with whatever provider and
    margin check, reports "duplicate" for that subscriber, and no row of that
    subscription is added by it. *)
Theorem mirrored_entry_once master margin margin' prov prov' subs w rs w1 (u : world B R) rs' u' side i sub res :
  dispatch_subscriber_executions signal strategy signal_hash master margin prov subs w = (Ok rs, w1) ->
  entry_side_of signal = Ok (Some side) ->
  subs !! i = Some sub -> rs !! i = Some res -> pe_status res = fs_filled ->
  w_redis u = w_redis w1 -> w_now w <= w_now u < w_now w + SUBSCRIBER_IDEMPOTENCY_TTL_SECONDS ->
  dispatch_subscriber_executions signal strategy signal_hash master margin' prov' subs u = (Ok rs', u') ->
  (exists res', rs' !! i = Some res' /\ pe_status res' = fs_duplicate)
  /\ exists ps, w_positions u' = w_positions u ++ ps
       /\ Forall (fun p => p_subscription_id p <> Some (sr_subscription_id sub)) ps.
Proof.
  intros E Hes Hsub Hres Hst Hred Hnow E'.
  apply dispatch_runs in E as [([= ->] & _) | [(e & [=] & _) | (es & rs0 & [= <-] & E & Hno & Hrun)]]; [done|].
  rewrite Hes in E. injection E as <-.
  destruct (fan_run_at _ _ _ _ _ _ _ _ Hrun Hsub Hres) as (v & v' & Hpre & Ht & Hpost).
  destruct Ht as [res v' (_ & _ & Hne) | res v' [=] _ _ | side' res v' [= <-] Hdir Hen]; [done|].
  apply entries_append in Hpre as (He & _). apply entries_append in Hpost as (He' & _).
  set (k := slot sub (signal_token signal_hash signal)) in *.
  assert (Hheld : held k (w_now w) (w_now w + SUBSCRIBER_IDEMPOTENCY_TTL_SECONDS) (w_redis w1)).
  { pose proof (en_slot _ _ _ _ _ _ _ _ _ _ Hen) as Hh. rewrite (fe_now _ _ He) in Hh.
    apply (fe_held _ _ He'); [|done].
    rewrite (fe_now _ _ (en_env _ _ _ _ _ _ _ _ _ _ Hen)), (fe_now _ _ He).
    unfold SUBSCRIBER_IDEMPOTENCY_TTL_SECONDS. lia. }
  rewrite <- Hred in Hheld. eapply dispatch_turns in E'; [|done..].
  assert (Hlen : (i < length rs')%nat) by (rewrite (fan_run_length _ _ _ _ _ E'); by eapply lookup_lt_Some).
  apply lookup_lt_is_Some in Hlen as [res' Hres'].
  destruct (fan_run_at _ _ _ _ _ _ _ _ E' Hsub Hres') as (v2 & v2' & Hpre2 & (Ht2 & _) & _).
  eapply fan_run_impl, entries_append in Hpre2 as (He2 & _); [|by intros s x r x' [_ Hd]].
  split.
  - exists res'. split; [done|]. destruct (entered_price _ _ _ _ _ _ _ Hen) as [d Hd].
    destruct (slot_taken_duplicate master margin' (prefetch prov' (map sr_subscription_id subs)) side sub v2
                (pe_quantity res) d Hdir (en_size _ _ _ _ _ _ _ _ _ _ Hen) Hd (en_credential _ _ _ _ _ _ _ _ _ _ Hen))
      as (r2 & w2 & Eq & Hdup).
    + apply (fe_held _ _ He2 k _ _ Hnow Hheld). by rewrite (fe_now _ _ He2).
    + rewrite Eq in Ht2. by injection Ht2 as <- <-.
  - eapply held_slot_blocks; [exact Hnow | exact Hheld|].
    eapply fan_run_impl; [|exact E']. by intros s x r x' [_ Hd].
Qed.
(** ** Exits *)

(** Rows of a subscription that was not served are all still there. *)
Lemma served_others ids w w' p i :
  served ids w w' -> p_subscription_id p = Some i -> ~ In i ids -> In p (w_positions w) <-> In p (w_positions w').
Proof.
  intros Hsv Hp Hi.
  assert (Ho : outside ids p = true).
  { unfold outside. rewrite Hp, bool_decide_eq_false_2; [done|]. by rewrite list_elem_of_In. }
  assert (Hf : forall rows, In p rows <-> In p (List.filter (outside ids) rows)).
  { intros rows. rewrite filter_In. tauto. }
  rewrite (Hf (w_positions w)), (Hf (w_positions w')), (sv_rows _ _ _ Hsv). done.
Qed.

Lemma mirrors_outside ids strategy_id i rows :
  ~ In i ids ->
  List.filter (mirrors strategy_id i) (List.filter (outside ids) rows) = List.filter (mirrors strategy_id i) rows.
Proof.
  intros Hi. induction rows as [|p rows IH]; [done|]. simpl.
  destruct (outside ids p) eqn:Eo; simpl; rewrite IH; [done|].
  unfold mirrors at 2. case_bool_decide as Ep; [|by rewrite andb_false_r].
  unfold outside in Eo. rewrite Ep in Eo. bool_to_prop. by rewrite list_elem_of_In in Eo.
Qed.

Lemma served_stored_open ids w w' strategy_id i :
  served ids w w' -> ~ In i ids -> stored_open (w_positions w') strategy_id i = stored_open (w_positions w) strategy_id i.
Proof.
  intros Hsv Hi. unfold stored_open.
  by rewrite <- (mirrors_outside ids _ _ (w_positions w')), (sv_rows _ _ _ Hsv), (mirrors_outside ids).
Qed.

Lemma split_ids (subs : list SubscriberRef) i sub :
  NoDup (map sr_subscription_id subs) -> subs !! i = Some sub ->
  ~ In (sr_subscription_id sub) (map sr_subscription_id (take i subs))
  /\ ~ In (sr_subscription_id sub) (map sr_subscription_id (drop (S i) subs)).
Proof.
  intros Hnd Hi. rewrite <- (take_drop_middle subs i sub Hi), map_app in Hnd. simpl in Hnd.
  apply NoDup_app in Hnd as (_ & Hd & Hnd). apply NoDup_cons in Hnd as [Hn _].
  rewrite <- !list_elem_of_In. split; [|done]. intros Hin. apply (Hd _ Hin). by left.
Qed.

(** A mirrored exit never over-closes.  A filled exit took at least one unit
    and at most what the subscriber's newest open row had: everything for an exit
    or stop, the truncated percentage of the payload (50 without one) for a
    partial; the row lost exactly that, is closed exactly when nothing is left,
    and no short position can come out of it. *)
Theorem mirrored_exit_bounds action_kind prov subs w rs w' i sub res :
  book_inv w -> NoDup (map sr_subscription_id subs) ->
  fan_out_exit signal strategy action_kind signal_hash prov subs w = (Ok rs, w') ->
  subs !! i = Some sub -> rs !! i = Some res -> pe_status res = fs_filled ->
  exists p p', stored_open (w_positions w) (s_id strategy) (sr_subscription_id sub) = Some p
    /\ In p' (w_positions w') /\ after_exit p p' (pe_quantity res) /\ pos_inv p'
    /\ 1 <= pe_quantity res <= remaining_quantity p
    /\ (action_kind <> "partial"%string -> pe_quantity res = remaining_quantity p)
    /\ (action_kind = "partial"%string -> exists pct,
          decimal_or (jget (raw_payload signal) "closePct") (JInt 50) = Ok pct
          /\ (0 <= coef pct -> expo pct <= 0 -> remaining_quantity p * coef pct < 10 ^ 24 ->
              pe_quantity res = Z.max 1 (Z.min (remaining_quantity p * coef pct / 10 ^ (2 - expo pct))
                                           (remaining_quantity p)))).
Proof.
  intros Hb Hnd E Hsub Hres Hst. apply exit_runs in E as [([=] & _) | (price & rs0 & [= <-] & _ & Hrun)].
  destruct (fan_run_at _ _ _ _ _ _ _ _ Hrun Hsub Hres) as (u & u' & Hpre & Ht & Hpost).
  destruct Ht as [res u' (_ & _ & Hne) | res p u' Hm _]; [done|].
  destruct (split_ids subs i sub Hnd Hsub) as [Hn1 Hn2].
  eapply (exit_run_served _ _ _ _ _ _ _ _ _ _ (map sr_subscription_id (take i subs))) in Hpre as [Hpre _];
    [|done | apply all_served].
  pose proof (mirrored_served _ _ _ _ _ _ _ _ _ _ [sr_subscription_id sub] (sv_book _ _ _ Hpre) (or_introl eq_refl) Hm)
    as Hmid.
  eapply (exit_run_served _ _ _ _ _ _ _ _ _ _ (map sr_subscription_id (drop (S i) subs))) in Hpost as [Hpost _];
    [|apply Hmid | apply all_served].
  destruct Hm as [_ _ _ _ Hso Hl Hsz Hrows _ _ _ _]. set (p' := mirrored_row p (pe_quantity res) price (w_now u)) in *.
  pose proof (stored_open_spec _ _ _ _ Hso) as (Hin & _ & Hps & _).
  pose proof (mirrored_row_after p (pe_quantity res) price (w_now u)) as Ha. fold p' in Ha.
  pose proof (exit_close_qty_bounds _ _ _ _ Hl Hsz) as Hq.
  pose proof (book_rows _ (sv_book _ _ _ Hpre)) as Hinv. rewrite List.Forall_forall in Hinv.
  rewrite (served_stored_open _ _ _ _ _ Hpre Hn1) in Hso. exists p, p'. split; [done|]. split.
  { apply (served_others _ u' w' p' (sr_subscription_id sub) Hpost); [|done|].
    - by rewrite <- (same_subscription _ _ (proj1 Ha)).
    - rewrite Hrows. eapply put_row_self; [exact Hin | apply Ha]. }
  split; [done|]. split; [eapply after_exit_inv; [by apply Hinv | | exact Ha]; lia|]. split; [lia|].
  unfold exit_close_qty in Hsz. split; intros Hk.
  - rewrite (proj2 (String.eqb_neq _ _) Hk) in Hsz. by injection Hsz.
  - rewrite (proj2 (String.eqb_eq _ _) Hk) in Hsz. apply res_bind_ok in Hsz as (pct & Hpct & [= Hqq]).
    exists pct. split; [done|]. intros Hc He Hbd. rewrite <- Hqq. apply partial_close_qty_exact; auto; lia.
Qed.
End Runs.

(** ** The verdict of each subscriber, as a specification

    What becomes of a subscriber's copy of an entry, as a function of the
    subscriber, of whether its slot is taken and of where the provider says it
    stands: the abstract dispatch. *)
Definition entry_verdict (signal : StrategySignal) (strategy : Strategy) (master : ScripMaster)
    (check_margin : SubscriberRef -> Z -> string -> result exn (bool * string)) (side : OrderSide)
    (slot_taken : bool) (stands : found) (sub : SubscriberRef) : fan_status * Z :=
  if negb (direction_allows (sr_direction_filter sub) side) then (fs_skipped_direction_filter, 0)
  else
    match resolve_subscriber_size strategy sub (g_symbol signal) master with
    | Err ValueError => (fs_refused_size, 0)
    | Err _ => (fs_failed, 0)
    | Ok q =>
        match paper_price signal, s_broker_credential_id strategy with
        | Ok _, Some _ =>
            if slot_taken then (fs_duplicate, q)
            else if negb (takes_auto (sr_execution_mode sub)) then (fs_notify_only, q)
            else
              match stands with
              | Unverified => (fs_skipped_broker_unknown, 0)
              | Stored _ => (fs_skipped_already_in_position, 0)
              | BrokerHolds _ => (fs_failed, q)
              | Flat =>
                  match check_margin sub q (g_symbol signal) with
                  | Ok (true, _) => (fs_filled, q)
                  | Ok (false, _) => (fs_failed_insufficient_funds, q)
                  | Err _ => (fs_failed, q)
                  end
              end
        | _, _ => (fs_failed, q)
        end
    end.

Section Verdicts.
Context {B R P : Type} `{RedisLaws R} `{ProviderLaws P}.
Context (signal : StrategySignal) (strategy : Strategy) (signal_hash : option string) (master : ScripMaster)
        (check_margin : SubscriberRef -> Z -> string -> result exn (bool * string)) (side : OrderSide).
Implicit Types (w : world B R) (prov : P).

Definition slot_taken (w : world B R) (sub : SubscriberRef) : bool :=
  negb (absent (redis_get (slot sub (signal_token signal_hash signal)) (w_now w) (w_redis w))).

Definition stands (prov : P) (w : world B R) (sub : SubscriberRef) : found :=
  find_open prov (w_positions w) (s_id strategy) (sr_subscription_id sub) (Some (g_symbol signal)).

Lemma enter_when_flat_verdict prov sub cred cred_id q fill w r w' :
  enter_when_flat signal strategy check_margin prov sub cred cred_id side q fill w = (r, w') ->
  match stands prov w sub with
  | Unverified => exists res, r = Ok res /\ (pe_status res, pe_quantity res) = (fs_skipped_broker_unknown, 0)
  | Stored _ => exists res, r = Ok res /\ (pe_status res, pe_quantity res) = (fs_skipped_already_in_position, 0)
  | BrokerHolds _ => exists e, r = Err e
  | Flat =>
      match check_margin sub q (g_symbol signal) with
      | Ok (true, _) => exists res, r = Ok res /\ (pe_status res, pe_quantity res) = (fs_filled, q)
      | Ok (false, _) => exists res, r = Ok res /\ (pe_status res, pe_quantity res) = (fs_failed_insufficient_funds, q)
      | Err _ => exists e, r = Err e
      end
  end.
Proof.
  unfold enter_when_flat, stands. cbv [mbind M_bind gets from_result].
  destruct (find_open prov _ _ _ _); try (intros E; injection E as <- <-; eauto; fail).
  destruct (check_margin sub q (g_symbol signal)) as [[[|] msg]|e]; cbn [negb];
    [| intros E; injection E as <- <-; eauto..].
  destruct (persist_entry signal strategy sub cred_id side q fill w) as [r1 w1] eqn:E1.
  apply persist_entry_spec in E1 as (p & x & -> & _). intros E. injection E as <- <-. eauto.
Qed.

Lemma enter_subscriber_verdict prov sub cred q fill w r w' :
  enter_subscriber signal strategy signal_hash check_margin prov sub cred side q fill w = (r, w') ->
  match s_broker_credential_id strategy with
  | None => exists e, r = Err e
  | Some _ =>
      if slot_taken w sub then exists res, r = Ok res /\ (pe_status res, pe_quantity res) = (fs_duplicate, q)
      else if negb (takes_auto (sr_execution_mode sub))
      then exists res, r = Ok res /\ (pe_status res, pe_quantity res) = (fs_notify_only, q)
      else exists w1 cred_id, w_positions w1 = w_positions w
             /\ enter_when_flat signal strategy check_margin prov sub cred cred_id side q fill w1 = (r, w')
  end.
Proof.
  unfold enter_subscriber. destruct (s_broker_credential_id strategy) as [cred_id|];
    [|intros E; injection E as <- <-; eauto].
  intros E. apply bind_cases in E as [(first & w1 & E1 & E) | (e & -> & E1)].
  2:{ by apply claim_cases in E1 as [(E1 & _) | (E1 & _)]. }
  unfold slot_taken, slot.
  apply claim_cases in E1 as [(E1 & -> & [v Hv]) | (E1 & (_ & Hps & _) & Hfree & _)]; injection E1 as ->;
    cbn [negb] in E; [rewrite Hv | rewrite Hfree]; simpl.
  - injection E as <- <-. eauto.
  - destruct (takes_auto (sr_execution_mode sub)); cbn [negb] in *; [eauto | injection E as <- <-; eauto].
Qed.

Lemma dispatch_one_verdict prov sub w res w' :
  dispatch_one signal strategy signal_hash master check_margin prov (Some side) sub w = (Ok res, w') ->
  (pe_status res, pe_quantity res)
  = entry_verdict signal strategy master check_margin side (slot_taken w sub) (stands prov w sub) sub.
Proof.
  unfold dispatch_one, entry_verdict. destruct (direction_allows _ _); cbn [negb]; [|intros E; by injection E as <- <-].
  unfold isolate, attempt, try_subscriber. cbv [mbind M_bind].
  destruct (resolve_subscriber_credential sub w) as [rc wc] eqn:Ec. injection Ec as <- <-.
  destruct (resolve_subscriber_size strategy sub (g_symbol signal) master) as [q|e].
  2:{ destruct e; intros E; by injection E as <- <-. }
  destruct (simulate_fill signal q w) as [rf wf] eqn:Ef. pose proof Ef as Hf. unfold simulate_fill in Hf.
  apply simulate_fill_spec in Ef as [Hq _]. cbv [mbind M_bind from_result fresh mret M_ret] in Hf.
  destruct (paper_price signal) as [d|e]; injection Hf as <- Hwf; [|clear Hwf; intros E; by injection E as <- <-].
  clear Hwf. match goal with |- context [enter_subscriber _ _ _ _ _ _ _ _ _ ?f wf] => set (fill := f) end.
  destruct (enter_subscriber _ _ _ _ _ _ _ _ _ fill wf) as [re we] eqn:Ee.
  apply enter_subscriber_verdict in Ee.
  assert (Hslot : slot_taken wf sub = slot_taken w sub).
  { unfold slot_taken. by rewrite (qt_now _ _ Hq), (qt_redis _ _ Hq). }
  rewrite Hslot in Ee.
  destruct (s_broker_credential_id strategy); [|destruct Ee as [e ->]; intros E; by injection E as <- <-].
  destruct (slot_taken w sub); [destruct Ee as (r & -> & Hr); intros E; by injection E as <- <-|].
  destruct (negb (takes_auto (sr_execution_mode sub))); [destruct Ee as (r & -> & Hr); intros E; by injection E as <- <-|].
  destruct Ee as (w1 & cred_id & Hps & Ee). apply enter_when_flat_verdict in Ee.
  assert (Hst : stands prov w1 sub = stands prov w sub) by (unfold stands; by rewrite Hps, (qt_positions _ _ Hq)).
  rewrite Hst in Ee. destruct (stands prov w sub);
    [destruct (check_margin sub q (g_symbol signal)) as [[[|] msg]|e]|..];
    (destruct Ee as (r & -> & Hr) || destruct Ee as (e' & ->)); intros E; by injection E as <- <-.
Qed.

(** ** Turns touch no slot but their own *)

Definition same_slot (k : string) (w w' : world B R) : Prop :=
  w_now w' = w_now w /\ redis_get k (w_now w) (w_redis w') = redis_get k (w_now w) (w_redis w).

#[local] Instance same_slot_preorder k : PreOrder (same_slot k).
Proof. split; [done|]. intros u v w [Hn E] [Hn' E']. split; [congruence|]. rewrite Hn in E'. congruence. Qed.

Lemma persist_same_slot k sub cred_id q fill :
  preserves (same_slot k) (@persist_entry B R signal strategy sub cred_id side q fill).
Proof. intros w r w' E. apply persist_entry_spec in E as (p & x & _ & He & Hr & _). split; [apply He | by rewrite Hr]. Qed.

Lemma simulate_same_slot k q : preserves (same_slot k) (@simulate_fill B R signal q).
Proof. intros w r w' E. apply simulate_fill_spec in E as [Hq _]. split; [apply Hq | by rewrite (qt_redis _ _ Hq)]. Qed.

Lemma claim_same_slot k key : k <> idem_key key -> preserves (same_slot k) (@claim_subscriber_idempotency B R _ key).
Proof.
  intros Hk w r w' E. apply claim_cases in E as [(_ & -> & _) | (_ & (He & _) & _ & _ & Ho)]; [done|].
  split; [apply He | by apply Ho].
Qed.

Lemma alert_same_slot k sub : preserves (same_slot k) (@alert_subscriber_failure B R signal sub).
Proof. by intros w r w' [= <- <-]. Qed.

Lemma dispatch_one_same_slot k prov sub :
  k <> slot sub (signal_token signal_hash signal) ->
  preserves (same_slot k) (dispatch_one (B := B) signal strategy signal_hash master check_margin prov (Some side) sub).
Proof.
  intros Hk. unfold dispatch_one. destruct (negb _); [apply preserves_ret, _|].
  apply preserves_bind; [apply _ | | intros [r|e]].
  - assert (Ht : preserves (same_slot k)
      (try_subscriber (B := B) signal strategy signal_hash master check_margin prov (Some side) sub)).
    { apply preserves_bind; [apply _ | by intros w r w' [= <- <-] | intros cred].
      destruct (resolve_subscriber_size _ _ _ _) as [q|e]; [|destruct e; apply preserves_ret, _ || apply preserves_raise, _].
      apply preserves_bind; [apply _ | apply simulate_same_slot | intros fill].
      unfold enter_subscriber. destruct (s_broker_credential_id strategy) as [c|]; [|apply preserves_raise, _].
      apply preserves_bind; [apply _ | by apply claim_same_slot | intros first].
      destruct (negb first); [apply preserves_ret, _|]. destruct (negb _); [apply preserves_ret, _|].
      apply preserves_bind; [apply _ | apply preserves_gets, _ | intros f].
      destruct f; [|apply preserves_ret, _ || apply preserves_raise, _..].
      apply preserves_bind; [apply _ | apply preserves_from_result, _ | intros [ok msg]].
      destruct ok; cbn [negb]; (apply preserves_bind; [apply _ | | intros; apply preserves_ret, _]);
        [apply persist_same_slot | apply alert_same_slot]. }
    intros w r w'. unfold attempt. destruct (try_subscriber _ _ _ _ _ _ _ _ w) as [r1 w1] eqn:E.
    intros [= <- <-]. by eapply Ht.
  - apply preserves_ret, _.
  - apply preserves_bind; [apply _ | apply alert_same_slot | intros; apply preserves_ret, _].
Qed.

Lemma slot_inj sub sub' token :
  slot sub token = slot sub' token -> sr_subscription_id sub = sr_subscription_id sub'.
Proof.
  intros E. apply (f_equal L) in E. unfold slot, idem_key, subscriber_idempotency_key in E. rewrite !L_append in E.
  apply app_inv_head in E. rewrite !app_assoc in E. apply app_inv_tail in E.
  apply app_inv_tail in E. by apply z_str_inj, L_inj.
Qed.

(** C25: the dispatch refines the abstract verdicts.  For a list of distinct
    subscriptions, every subscriber's status and quantity is its own verdict on
    the state before the dispatch: whether another subscriber was filled,
    refused, out of funds or failed with an exception makes no difference, and
    neither does the order of the list. *)
Theorem dispatch_refines_verdicts prov subs w rs w' :
  NoDup (map sr_subscription_id subs) -> resolve_instrument_type (Some strategy) <> OPTIONS ->
  entry_side_of signal = Ok (Some side) ->
  dispatch_subscriber_executions signal strategy signal_hash master check_margin prov subs w = (Ok rs, w') ->
  map (fun r => (pe_status r, pe_quantity r)) rs
  = map (fun sub => entry_verdict signal strategy master check_margin side (slot_taken w sub)
                      (stands (prefetch prov (map sr_subscription_id subs)) w sub) sub) subs.
Proof.
  intros Hnd Ho Hes E. eapply dispatch_turns in E; [|done..].
  generalize dependent (prefetch prov (map sr_subscription_id subs)). clear prov. intros prov Hrun.
  induction Hrun as [w | sub subs w res w1 rs w' [Ht Hd] Hrun IH]; [done|]. simpl in Hnd |- *.
  apply NoDup_cons in Hnd as [Hn Hnd]. f_equal; [by eapply dispatch_one_verdict|].
  rewrite IH by done. apply map_ext_in. intros s Hs.
  assert (Hne : sr_subscription_id s <> sr_subscription_id sub).
  { intros Eq. apply Hn. rewrite <- Eq, list_elem_of_In. by apply in_map. }
  assert (Hslot : slot_taken w1 s = slot_taken w s).
  { unfold slot_taken. apply (dispatch_one_same_slot (slot s (signal_token signal_hash signal))) in Ht as [Hnow Heq].
    - by rewrite Hnow, Heq.
    - by intros Eq%slot_inj. }
  assert (Hst : stands prov w1 s = stands prov w s).
  { unfold stands. apply find_open_own.
    assert (Hone : fan_run (dispatched signal strategy signal_hash master prov (Some side)) [sub] w [res] w1)
      by (econstructor; [exact Hd | constructor]).
    apply entries_append in Hone as (_ & ps & -> & Hps). apply stored_open_other.
    eapply Forall_impl; [exact Hps|]. simpl. intros p (s' & [<- | []] & ->) [=]. congruence. }
  by rewrite Hslot, Hst.
Qed.
End Verdicts.

(** ** Broker evidence *)

Section Evidence.
Context {B R : Type} `{RedisLaws R}.
Context (signal : StrategySignal) (strategy : Strategy) (signal_hash : option string).
Implicit Types (w : world B R) (prov : BrokerBackedPositionProvider).

(** The broker of subscription [id] answered in time with [rows]. *)
Definition answered (prov : BrokerBackedPositionProvider) (id : uuid) (rows : list broker_row) : Prop :=
  exists took, bp_fetch prov id = Answers took rows
               /\ Z.max 0 took < default PER_CALL_TIMEOUT (bp_per_call_timeout prov).

Lemma cached_answer prov ids id rows :
  bp_cache (prefetch prov ids) !! id = Some (Definite rows) -> answered prov id rows.
Proof. intros E. by apply gather_sound in E. Qed.

Lemma found_evidence prov ids rows strategy_id id symbol :
  match find_open (prefetch prov ids) rows strategy_id id symbol with
  | Unverified => True
  | _ => exists raw, answered prov id raw
           /\ forall s, verify_symbol symbol (stored_open rows strategy_id id) = Some s ->
              match find_open (prefetch prov ids) rows strategy_id id symbol with
              | Flat => find_matching_position (Some (L s)) raw = (None, true)
                        \/ (symbol = None /\ exists row, find_matching_position (Some (L s)) raw = (Some row, true))
              | _ => exists row, find_matching_position (Some (L s)) raw = (Some row, true)
              end
  end.
Proof.
  simpl. unfold BrokerBackedPositionProvider_find_open. cbn [bp_prefetched BrokerBackedPositionProvider_prefetch negb].
  destruct (bp_cache _ !! id) as [[|raw]|] eqn:Ec; try done. apply cached_answer in Ec.
  destruct (verify_symbol symbol (stored_open rows strategy_id id)) as [s|] eqn:Ev.
  - destruct (find_matching_position (Some (L s)) raw) as [[row|] [|]] eqn:Em; try done.
    + destruct (stored_open rows strategy_id id) as [p|]; [|destruct symbol]; exists raw; (split; [done|]);
        intros s' [= <-]; eauto.
    + exists raw. split; [done|]. intros s' [= <-]. auto.
  - destruct (found_stored _); eauto; exists raw; by split.
Qed.

(** No mirror without evidence.  With positions read from the brokers, a
    subscriber's entry is filled only if its own broker answered in time and every
    row of the answer is confidently another contract; an exit is filled only if
    its broker answered in time and confidently holds the stored row's contract.
    A broker that is slow, unreachable or past the budget, and an ambiguous
    symbol, authorise nothing. *)
Theorem mirrors_only_on_evidence master margin action_kind prov subs w i sub res :
  NoDup (map sr_subscription_id subs) -> 0 <= entry_lots strategy -> book_inv w -> g_symbol signal <> ""%string ->
  subs !! i = Some sub -> pe_status res = fs_filled ->
  (forall rs w' side,
     dispatch_subscriber_executions signal strategy signal_hash master margin prov subs w = (Ok rs, w') ->
     entry_side_of signal = Ok (Some side) -> rs !! i = Some res ->
     exists rows, answered prov (sr_subscription_id sub) rows
       /\ find_matching_position (Some (L (g_symbol signal))) rows = (None, true))
  /\ (forall rs w',
     fan_out_exit signal strategy action_kind signal_hash prov subs w = (Ok rs, w') -> rs !! i = Some res ->
     exists rows p row, answered prov (sr_subscription_id sub) rows
       /\ stored_open (w_positions w) (s_id strategy) (sr_subscription_id sub) = Some p
       /\ find_matching_position (Some (L (p_symbol p))) rows = (Some row, true)).
Proof.
  intros Hnd Hl Hb Hsym Hsub Hst. split.
  - intros rs w' side E Hes Hres.
    apply dispatch_runs in E as [([= ->] & _) | [(e & [=] & _) | (es & rs' & [= <-] & E & _ & Hrun)]]; [done|].
    rewrite Hes in E. injection E as <-.
    destruct (fan_run_at _ _ _ _ _ _ _ _ Hrun Hsub Hres) as (u & u' & _ & Ht & _).
    destruct Ht as [res u' (_ & _ & Hne) | res u' [=] _ _ | side' res u' [= <-] _ Hen]; [done|].
    pose proof (en_flat _ _ _ _ _ _ _ _ _ _ Hen) as Hfl.
    pose proof (found_evidence prov (map sr_subscription_id subs) (w_positions u) (s_id strategy)
                  (sr_subscription_id sub) (Some (g_symbol signal))) as Hev. rewrite Hfl in Hev.
    destruct Hev as (raw & Ha & Hs). destruct (Hs (g_symbol signal)) as [Hm | [[=] _]]; [|eauto].
    simpl. by rewrite (proj2 (String.eqb_neq _ _) Hsym).
  - intros rs w' E Hres. apply exit_runs in E as [([=] & _) | (price & rs' & [= <-] & _ & Hrun)].
    destruct (fan_run_at _ _ _ _ _ _ _ _ Hrun Hsub Hres) as (u & u' & Hpre & Ht & _).
    destruct Ht as [res u' (_ & _ & Hne) | res p u' Hm Hf]; [done|].
    destruct (split_ids subs i sub Hnd Hsub) as [Hn1 _].
    eapply (exit_run_served _ _ _ _ _ _ _ _ _ _ (map sr_subscription_id (take i subs))) in Hpre as [Hpre _];
      [|done | apply all_served].
    pose proof (found_evidence prov (map sr_subscription_id subs) (w_positions u) (s_id strategy)
                  (sr_subscription_id sub) None) as Hev. rewrite Hf in Hev. destruct Hev as (raw & Ha & Hs).
    pose proof (mi_stored _ _ _ _ _ _ _ _ _ _ Hm) as Hso.
    destruct (Hs (p_symbol p)) as (row & Hrow); [simpl; by rewrite Hso|].
    rewrite (served_stored_open _ _ _ _ _ Hpre Hn1) in Hso. eauto 6.
Qed.
End Evidence.

(** ** The drift report *)

Lemma filter_split_length {A : Type} (f : A -> bool) l :
  (length (List.filter f l) + length (List.filter (fun x => negb (f x)) l) = length l)%nat.
Proof. induction l as [|x l IH]; simpl; [done|]. destruct (f x); simpl; lia. Qed.

Lemma filter_nil_iff {A : Type} (f : A -> bool) l : List.filter f l = [] <-> forall x, In x l -> f x = false.
Proof.
  induction l as [|x l IH]; simpl; [done|]. destruct (f x) eqn:E; split.
  - done.
  - intros Hall. specialize (Hall x (or_introl eq_refl)). congruence.
  - rewrite IH. intros Hall y [<- | Hy]; auto.
  - intros Hall. apply IH. auto.
Qed.

Lemma omap_nil_iff {A C : Type} (f : A -> option C) (l : list A) :
  omap f l = [] <-> forall x, In x l -> f x = None.
Proof.
  induction l as [|x l IH]; simpl; [done|]. destruct (f x) eqn:E; split.
  - done.
  - intros Hall. specialize (Hall x (or_introl eq_refl)). congruence.
  - rewrite IH. intros Hall y [<- | Hy]; auto.
  - intros Hall. apply IH. auto.
Qed.

Lemma covered_spec owners p : covered owners p = true <-> owner_open owners (p_strategy_id p) <> None.
Proof. unfold covered. destruct (owner_open owners (p_strategy_id p)); simpl; split; done. Qed.

Lemma gap_of_none owners subs sid st :
  gap_of owners (map p_subscription_id (List.filter is_open subs)) (sid, st) = None
  <-> (owner_open owners st <> None ->
       exists p, In p subs /\ is_open p = true /\ p_subscription_id p = Some sid).
Proof.
  unfold gap_of. simpl. destruct (owner_open owners st) as [q|]; [|by split].
  case_bool_decide as Hs; rewrite list_elem_of_In, in_map_iff in Hs; setoid_rewrite filter_In in Hs.
  - split; [|done]. intros _ _. destruct Hs as (p & Hp & Hin & Ho). eauto.
  - split; [done|]. intros Hex. destruct (Hex ltac:(done)) as (p & Hin & Ho & Hp). destruct Hs. eauto.
Qed.

(** The owner/subscriber drift report is exact.  It is clean exactly when every
    open subscriber row has an open owner row of its strategy and every active
    subscription of a strategy the owner holds has an open row; every open
    subscriber row is counted once, as matched or as an orphan; an orphan is an
    open row whose strategy the owner does not hold. *)
Theorem reconcile_report_exact owners subs active :
  let rep := reconcile_owner_and_subscribers owners subs active in
  (rp_clean rep = true
   <-> (forall p, In p subs -> is_open p = true -> owner_open owners (p_strategy_id p) <> None)
       /\ (forall subscription_id strategy_id, In (subscription_id, strategy_id) active ->
             owner_open owners strategy_id <> None ->
             exists p, In p subs /\ is_open p = true /\ p_subscription_id p = Some subscription_id))
  /\ rp_matched rep + Z.of_nat (length (rp_orphans rep)) = Z.of_nat (length (List.filter is_open subs))
  /\ (forall m, In m (rp_orphans rep) -> exists p, In p subs /\ is_open p = true
        /\ p_subscription_id p = mm_subscription_id m /\ owner_open owners (p_strategy_id p) = None).
Proof.
  unfold reconcile_owner_and_subscribers. cbn [rp_clean rp_matched rp_orphans]. split; [|split].
  - rewrite andb_true_iff, !bool_decide_eq_true, omap_nil_iff.
    assert (Ho : forall f : StrategyPosition -> ReconcileMismatch, forall l, map f l = [] <-> l = [])
      by (intros f l; split; [apply map_eq_nil | by intros ->]).
    rewrite Ho, filter_nil_iff. setoid_rewrite filter_In. setoid_rewrite negb_false_iff. setoid_rewrite covered_spec.
    split; intros [H1 H2]; split; auto.
    + intros sid st Hin. apply gap_of_none. by apply H2.
    + intros p [Hin Hop]. auto.
    + intros [sid st] Hin. apply gap_of_none. by apply H2.
  - rewrite length_map. pose proof (filter_split_length (covered owners) (List.filter is_open subs)). lia.
  - intros m Hm. apply in_map_iff in Hm as (p & <- & Hp). rewrite !filter_In in Hp. destruct Hp as [[Hin Hop] Hc].
    exists p. do 3 (split; [done|]). unfold covered in Hc. by destruct (owner_open owners (p_strategy_id p)).
Qed.

(** ** A concrete strategy with three subscribers *)

Definition lot_master : ScripMaster := {| sm_lookup _ _ := Ok (Some "1"%string); sm_lot_size _ := Ok (Some 375) |}.

Definition sample_sub (id : uuid) (lots : option Z) (mode filter : string) : SubscriberRef :=
  {| sr_subscription_id := id; sr_subscriber_id := id + 100; sr_listing_id := 50; sr_status := sub_active;
     sr_subscribed_at := 1; sr_access_until := None; sr_lots_override := lots; sr_execution_mode := mode;
     sr_is_paper := true; sr_direction_filter := filter; sr_broker_credential_id := None |}.

(** On AUTO with two lots; on manual; on AUTO with an odd override; shorts only. *)
Definition sample_subs : list SubscriberRef :=
  [sample_sub 61 (Some 2) "auto" "all"; sample_sub 62 None "offline" "all"; sample_sub 63 (Some 3) "auto" "all";
   sample_sub 64 None "AUTO" "short"].

Definition run_entry (w : world ScriptedBroker store) :=
  dispatch_subscriber_executions sample_signal sample_strategy None lot_master paper_margin_provider paper_provider
    sample_subs w.

Definition entry_results : list PaperExecutionResult :=
  match fst (run_entry sample_world) with Ok rs => rs | Err _ => [] end.

Definition mirrored_world : world ScriptedBroker store := snd (run_entry sample_world).

Lemma run_entry_ok : run_entry sample_world = (Ok entry_results, mirrored_world).
Proof. vm_compute. reflexivity. Qed.

Example entry_statuses :
  map pe_status entry_results = [fs_filled; fs_notify_only; fs_refused_size; fs_skipped_direction_filter].
Proof. vm_compute. reflexivity. Qed.

Definition partial_signal : StrategySignal :=
  {| g_id := 41; g_user_id := 1; g_strategy_id := 2;
     raw_payload := <["closePct"%string := JInt 50]> (<["price"%string := JInt 2450]> ∅);
     g_symbol := "BSE-AUG2026-FUT"; g_action := "PARTIAL"; g_quantity := None; g_order_type := "market"; g_ai_decision := None;
     g_status := sg_received; g_received_at := 0 |}.

Definition run_partial (w : world ScriptedBroker store) :=
  fan_out_exit partial_signal sample_strategy "partial" None paper_provider sample_subs w.

Lemma mirroring_isolated_witness :
  served (map sr_subscription_id sample_subs) sample_world mirrored_world
  /\ map pe_subscription_id entry_results = map sr_subscription_id sample_subs.
Proof.
  destruct (mirroring_isolated sample_signal sample_strategy None lot_master paper_margin_provider paper_provider
              "partial" sample_subs sample_world ltac:(vm_compute; discriminate) sample_book) as [Hd _].
  destruct (Hd _ _ run_entry_ok) as [Hs [Hr | [Hr _]]]; [by split | by vm_compute in Hr].
Defined.

Lemma sample_subs_distinct : NoDup (map sr_subscription_id sample_subs).
Proof. apply (bool_decide_eq_true_1 _). vm_compute. reflexivity. Qed.

Lemma mirrored_entry_discipline_witness :
  exists p, In p (w_positions mirrored_world)
    /\ mirror_row sample_signal sample_strategy (sample_sub 61 (Some 2) "auto" "all") BUY 750 100 p.
Proof.
  destruct (mirrored_entry_discipline sample_signal sample_strategy None lot_master paper_margin_provider
              paper_provider sample_subs sample_world entry_results mirrored_world 0 (sample_sub 61 (Some 2) "auto" "all")
              (List.hd (blank_result sample_signal (sample_sub 61 None "" "") fs_failed) entry_results) BUY)
    as (_ & _ & _ & _ & _ & _ & _ & p & Hin & _ & _ & Hmr).
  - vm_compute. discriminate.
  - exact sample_subs_distinct.
  - exact run_entry_ok.
  - vm_compute. reflexivity.
  - reflexivity.
  - vm_compute. reflexivity.
  - vm_compute. reflexivity.
  - exists p. split; [done|]. exact Hmr.
Defined.

(** Half a minute later the webhook is delivered again. *)
Definition redelivered : world ScriptedBroker store := mirrored_world <| w_now := 130 |>.

Definition second_results : list PaperExecutionResult :=
  match fst (run_entry redelivered) with Ok rs => rs | Err _ => [] end.

Lemma mirrored_entry_once_witness :
  exists res', second_results !! 0%nat = Some res' /\ pe_status res' = fs_duplicate.
Proof.
  apply (mirrored_entry_once sample_signal sample_strategy None lot_master paper_margin_provider paper_margin_provider
           paper_provider paper_provider sample_subs sample_world entry_results mirrored_world redelivered second_results
           (snd (run_entry redelivered)) BUY 0 (sample_sub 61 (Some 2) "auto" "all")
           (List.hd (blank_result sample_signal (sample_sub 61 None "" "") fs_failed) entry_results)).
  - exact run_entry_ok.
  - vm_compute. reflexivity.
  - vm_compute. reflexivity.
  - vm_compute. reflexivity.
  - vm_compute. reflexivity.
  - vm_compute. reflexivity.
  - vm_compute. split; [discriminate | reflexivity].
  - vm_compute. reflexivity.
Defined.

Lemma mirrored_book : book_inv mirrored_world.
Proof.
  pose proof run_entry_ok as E. unfold run_entry in E. eapply dispatch_served in E as [Hs _]; [apply Hs| |exact sample_book].
  vm_compute. discriminate.
Qed.

Definition partial_results : list PaperExecutionResult :=
  match fst (run_partial mirrored_world) with Ok rs => rs | Err _ => [] end.

Lemma mirrored_exit_bounds_witness :
  exists p p', In p' (w_positions (snd (run_partial mirrored_world))) /\ after_exit p p' 375 /\ pos_inv p'.
Proof.
  destruct (mirrored_exit_bounds partial_signal sample_strategy None "partial" paper_provider sample_subs mirrored_world
              partial_results (snd (run_partial mirrored_world)) 0 (sample_sub 61 (Some 2) "auto" "all")
              (List.hd (blank_result sample_signal (sample_sub 61 None "" "") fs_failed) partial_results))
    as (p & p' & _ & Hin & Ha & Hinv & _).
  - exact mirrored_book.
  - exact sample_subs_distinct.
  - vm_compute. reflexivity.
  - reflexivity.
  - vm_compute. reflexivity.
  - vm_compute. reflexivity.
  - exists p, p'. split; [done|]. split; [exact Ha | done].
Defined.

Lemma dispatch_refines_verdicts_witness :
  map (fun r => (pe_status r, pe_quantity r)) entry_results
  = map (fun sub => entry_verdict sample_signal sample_strategy lot_master paper_margin_provider BUY
                      (slot_taken sample_signal None sample_world sub)
                      (stands sample_signal sample_strategy
                         (prefetch paper_provider (map sr_subscription_id sample_subs)) sample_world sub) sub) sample_subs.
Proof.
  apply (dispatch_refines_verdicts sample_signal sample_strategy None lot_master paper_margin_provider BUY paper_provider
           sample_subs sample_world entry_results mirrored_world).
  - exact sample_subs_distinct.
  - vm_compute. discriminate.
  - vm_compute. reflexivity.
  - exact run_entry_ok.
Defined.

(** The broker of subscription 61 answers: another contract is held there. *)
Definition other_contract : broker_row := {| row_symbol := Some (L "CDSL-AUG2026-FUT"); row_quantity := QInt 475; row_exchange := NFO; row_product_type := MARGIN |}.

Definition broker_truth : BrokerBackedPositionProvider :=
  {| bp_fetch id := if id =? 61 then Answers 300 [other_contract] else Hangs; bp_per_call_timeout := None;
     bp_concurrency := None; bp_total_budget := None; bp_cache := ∅; bp_prefetched := false |}.

Definition run_checked (w : world ScriptedBroker store) :=
  dispatch_subscriber_executions sample_signal sample_strategy None lot_master paper_margin_provider broker_truth
    sample_subs w.

Lemma mirrors_only_on_evidence_witness :
  exists rows, answered broker_truth 61 rows
    /\ find_matching_position (Some (L "BSE-AUG2026-FUT")) rows = (None, true).
Proof.
  set (rs := match fst (run_checked sample_world) with Ok rs => rs | Err _ => [] end).
  destruct (mirrors_only_on_evidence sample_signal sample_strategy None lot_master paper_margin_provider "exit" broker_truth
              sample_subs sample_world 0 (sample_sub 61 (Some 2) "auto" "all")
              (List.hd (blank_result sample_signal (sample_sub 61 None "" "") fs_failed) rs)) as [Hd _].
  - exact sample_subs_distinct.
  - vm_compute. discriminate.
  - exact sample_book.
  - discriminate.
  - reflexivity.
  - vm_compute. reflexivity.
  - apply (Hd rs (snd (run_checked sample_world)) BUY); vm_compute; reflexivity.
Defined.
