(* ===== verification/MirroredExit.v ===== *)
(** * The owner's exit and its mirror (backend/app/services/direct_exit.py, [_maybe_fan_out_exit])

    A direct exit that was executed is mirrored to the strategy's active
    subscribers before the handler returns.  The mirror runs in a session of its
    own with the stored positions as its provider, and anything it raises is
    swallowed.  The handlers of [DirectExit.v] end exactly where the mirror
    starts, so the whole handler is their composition with it. *)

From Stdlib Require Import ZArith Lia List Bool String.
From stdpp Require Import base list strings gmap.
From S2P Require Import Prelude PyText SymbolMatch PyFloat PyDecimal PyNum Records Enums Models Safeguards Book Ledger Samples.
From S2P Require Import PositionManager StrategyExecutor DirectExit DayState KillSwitch BrokerBatch Fanout FanoutSafety Mirroring.

Section MirroredExit.
Context {B R : Type} `{BrokerInterface B} `{RedisStore R} `{Decryptor}.
Context (settings : Settings).

Definition maybe_fan_out_exit (signal : StrategySignal) (strategy : Strategy) (action_kind : string) : M B R unit :=
  _ ← attempt (if negb (marketplace_fanout_enabled settings) then mret tt
               else
                 subscribers ← resolve_active_subscriptions (s_id strategy);
                 match subscribers with
                 | [] => mret tt
                 | _ => _ ← fan_out_exit signal strategy action_kind None paper_provider subscribers; mret tt
                 end);
  mret tt.

(** The whole of [execute_partial] and [execute_exit], by the worker's action. *)
Definition direct_exit_and_mirror (action_kind : string) (signal : StrategySignal) (strategy : Strategy)
  : M B R exit_result :=
  r ← dispatch_direct_exit settings action_kind signal strategy;
  match r with
  | Executed _ _ _ _ => maybe_fan_out_exit signal strategy action_kind ;; mret r
  | Ignored _ _ => mret r
  end.
End MirroredExit.

Section Undisturbed.
Context {B R : Type} `{BrokerInterface B} `{RedisLaws R} `{Decryptor}.
Context (settings : Settings).
Implicit Types (w : world B R).

Lemma maybe_fan_out_spec signal strategy action_kind w r w' :
  book_inv w -> maybe_fan_out_exit settings signal strategy action_kind w = (r, w') ->
  r = Ok tt
  /\ (marketplace_fanout_enabled settings = false -> w' = w)
  /\ exists subs, fst (resolve_active_subscriptions (s_id strategy) w) = Ok subs
       /\ served (map sr_subscription_id subs) w w'.
Proof.
  intros Hb. unfold maybe_fan_out_exit, attempt. cbv [mbind M_bind mret M_ret].
  destruct (marketplace_fanout_enabled settings); cbn [negb].
  - unfold resolve_active_subscriptions, gets.
    destruct (concat _) as [|s subs]; [intros E; injection E as <- <-|].
    { split; [done|]. split; [done|]. exists []. split; [done | by apply no_rows_served]. }
    destruct (fan_out_exit signal strategy action_kind None paper_provider (s :: subs) w) as [r1 w1] eqn:E1.
    apply exit_served in E1 as [Hs _]; [|done].
    destruct r1; intros E; injection E as <- <-; (split; [done|]); (split; [done|]); eauto.
  - intros E. injection E as <- <-. split; [done|]. split; [done|]. eexists. split; [reflexivity|].
    by apply no_rows_served.
Qed.

Lemma served_owner_rows ids w w' :
  served ids w w' -> List.filter owner_row (w_positions w') = List.filter owner_row (w_positions w).
Proof.
  intros Hs. assert (Hf : forall rows, List.filter owner_row rows = List.filter owner_row (List.filter (outside ids) rows)).
  { induction rows as [|p rows IH]; [done|]. simpl. destruct (owner_row p) eqn:Eo.
    - assert (Ei : outside ids p = true).
      { unfold owner_row in Eo. unfold outside. by destruct (p_subscription_id p). }
      rewrite Ei. simpl. by rewrite Eo, IH.
    - destruct (outside ids p); simpl; [by rewrite Eo|]. done. }
  by rewrite (Hf (w_positions w')), (sv_rows _ _ _ Hs), <- Hf.
Qed.

(** C26: mirroring never disturbs the owner's exit.  The handler with the mirror
    returns or raises exactly what the owner's exit alone does, from the same
    state; the mirror that follows an executed exit leaves the owner's rows, the
    orders sent, the broker, the credentials and the subscriptions as that exit
    left them, changes nothing at all while the marketplace flag is off or the
    exit was ignored, and otherwise touches only rows of the strategy's active
    subscriptions. *)
Theorem mirror_never_disturbs_owner_exit action_kind signal strategy w r w' :
  book_inv w -> direct_exit_and_mirror settings action_kind signal strategy w = (r, w') ->
  exists w1, dispatch_direct_exit settings action_kind signal strategy w = (r, w1)
    /\ List.filter owner_row (w_positions w') = List.filter owner_row (w_positions w1)
    /\ fan_env w1 w'
    /\ (marketplace_fanout_enabled settings = false -> w' = w1)
    /\ match r with Ok (Executed _ _ _ _) => True | _ => w' = w1 end
    /\ exists subs, fst (resolve_active_subscriptions (s_id strategy) w1) = Ok subs
         /\ served (map sr_subscription_id subs) w1 w'.
Proof.
  intros Hb E. unfold direct_exit_and_mirror in E.
  assert (Hsame : forall w1, book_inv w1 -> exists subs, fst (resolve_active_subscriptions (s_id strategy) w1) = Ok subs
            /\ served (map sr_subscription_id subs) w1 w1).
  { intros w1 Hb1. eexists. split; [reflexivity | by apply no_rows_served]. }
  apply bind_cases in E as [(x & w1 & E1 & E) | (e & -> & E1)]; pose proof (direct_exit_book _ _ _ _ _ _ _ Hb E1) as Hb1.
  2:{ exists w'. repeat (split; [done|]). auto. }
  destruct x as [reason oid | q left oid st].
  { injection E as <- <-. exists w1. repeat (split; [done|]). auto. }
  apply bind_cases in E as [([] & w2 & E2 & E) | (e & -> & E2)];
    apply maybe_fan_out_spec in E2 as (Hr & Hoff & subs & Hsubs & Hsv); try done.
  injection E as <- <-. exists w1. split; [done|]. split; [by eapply served_owner_rows|].
  split; [apply Hsv|]. split; [done|]. split; [done|]. eauto.
Qed.
End Undisturbed.

(** ** The sample strategy on the marketplace *)

Definition subscription_of (s : SubscriberRef) : MarketplaceSubscription :=
  {| m_id := sr_subscription_id s; m_listing_id := sr_listing_id s; m_subscriber_id := sr_subscriber_id s;
     m_subscribed_at := sr_subscribed_at s; m_access_until := sr_access_until s; m_status := sr_status s;
     m_lots_override := sr_lots_override s; m_execution_mode := sr_execution_mode s; m_is_paper := sr_is_paper s;
     m_direction_filter := sr_direction_filter s; m_broker_credential_id := sr_broker_credential_id s |}.

(** The owner holds two lots, subscription 61 its mirrored copy. *)
Definition market_world : world ScriptedBroker store :=
  mirrored_world <| w_platform := empty_platform <| pf_subscriptions := map subscription_of sample_subs |>
                                                 <| pf_listings := [{| li_id := 50; li_strategy_id := 2 |}] |> |>.

Lemma market_book : book_inv market_world.
Proof. apply (book_inv_ext mirrored_world); [exact mirrored_book | done | done]. Qed.

Definition run_mirrored_exit (w : world ScriptedBroker store) :=
  direct_exit_and_mirror sample_settings "exit" exit_signal sample_strategy w.

Lemma mirror_never_disturbs_owner_exit_witness :
  exists w1, dispatch_direct_exit sample_settings "exit" exit_signal sample_strategy market_world
             = (fst (run_mirrored_exit market_world), w1)
    /\ List.filter owner_row (w_positions (snd (run_mirrored_exit market_world)))
       = List.filter owner_row (w_positions w1).
Proof.
  destruct (mirror_never_disturbs_owner_exit sample_settings "exit" exit_signal sample_strategy market_world
              (fst (run_mirrored_exit market_world)) (snd (run_mirrored_exit market_world)) market_book)
    as (w1 & Hd & Ho & _); [apply surjective_pairing | eauto].
Defined.

(** Both rows are closed by the owner's exit. *)
Example exit_closes_both :
  map (fun p => (p_id p, status p)) (w_positions (snd (run_mirrored_exit market_world)))
  = [(20, st_closed); (1001, st_closed)].
Proof. vm_compute. reflexivity. Qed.

(** ** What the mirror does not look at *)

(** The owner exits another contract of the strategy: the subscriber's copy of
    this one is closed, at the other contract's price. *)
Definition other_exit : StrategySignal :=
  {| g_id := 43; g_user_id := 1; g_strategy_id := 2; raw_payload := <["price"%string := JInt 1500]> ∅;
     g_symbol := "CDSL-AUG2026-FUT"; g_action := "EXIT"; g_quantity := None; g_order_type := "market"; g_ai_decision := None;
     g_status := sg_received; g_received_at := 0 |}.

Example mirror_exit_ignores_symbol :
  let '(r, w') := fan_out_exit other_exit sample_strategy "exit" None paper_provider sample_subs market_world in
  map (fun p => (p_symbol p, status p, final_pnl p)) (List.filter (fun p => negb (owner_row p)) (w_positions w'))
  = [("BSE-AUG2026-FUT"%string, st_closed, Some (Dec (-675000) 0))].
Proof. vm_compute. reflexivity. Qed.

(** Once the strategy has lost its credential, a mirrored exit fails and the
    copy stays open (the owner's exit uses the credential of its row). *)
Definition unlinked : Strategy :=
  {| s_id := 2; s_user_id := 1; s_broker_credential_id := None; entry_lots := 4; partial_profit_lots := 1;
     partial_profit_target_pct := None; trail_offset_pct := None; hard_sl_pct := None;
     ai_validation_enabled := false; exit_strategy_type := "internal"; strategy_json := None; is_paper := Some false; s_is_active := true; s_webhook_token_id := None; allowed_symbols := [] |}.

Example mirror_exit_needs_strategy_credential :
  let '(r, w') := fan_out_exit exit_signal unlinked "exit" None paper_provider
                    [sample_sub 61 (Some 2) "auto" "all"] market_world in
  match r with Ok rs => map pe_status rs | Err _ => [] end = [fs_failed] /\ w_positions w' = w_positions market_world.
Proof. vm_compute. split; reflexivity. Qed.

(** With broker truth: a contract the broker holds and the table does not is
    reported as a failure, not as "already in position". *)
Definition same_contract : broker_row := {| row_symbol := Some (L "BSE-AUG2026-FUT"); row_quantity := QInt 750; row_exchange := NFO; row_product_type := MARGIN |}.

Definition truth (rows : list broker_row) : BrokerBackedPositionProvider :=
  {| bp_fetch _ := Answers 100 rows; bp_per_call_timeout := None; bp_concurrency := None; bp_total_budget := None;
     bp_cache := ∅; bp_prefetched := false |}.

Definition auto_sub : list SubscriberRef := [sample_sub 61 (Some 2) "auto" "all"].

Example broker_holding_reported_failed :
  match fst (dispatch_subscriber_executions sample_signal sample_strategy None lot_master paper_margin_provider
               (truth [same_contract]) auto_sub sample_world) with
  | Ok rs => map (fun r => (pe_status r, pe_error r)) rs = [(fs_failed, Some (FanRaised AttributeError))]
  | Err _ => False
  end.
Proof. vm_compute. reflexivity. Qed.

(** With broker truth: a copy the subscriber closed at the broker is entered
    again, beside the stored row that is still open. *)
Definition next_signal : StrategySignal :=
  {| g_id := 44; g_user_id := 1; g_strategy_id := 2;
     raw_payload := <["side"%string := JStr "long"]> (<["price"%string := JInt 2400]> ∅);
     g_symbol := "BSE-AUG2026-FUT"; g_action := "ENTRY"; g_quantity := Some 750; g_order_type := "market"; g_ai_decision := None;
     g_status := sg_received; g_received_at := 0 |}.

Example stale_row_entered_again :
  let '(_, w') := dispatch_subscriber_executions next_signal sample_strategy None lot_master paper_margin_provider
                    (truth []) auto_sub market_world in
  map (fun p => (p_id p, status p)) (List.filter (mirrors 2 61) (w_positions w'))
  = [(1001, st_open); (1005, st_open)].
Proof. vm_compute. reflexivity. Qed.

(** The owner's partial-profit size is read from the first entry leg of the
    signal; a subscriber's leg of the same signal, mirrored before the owner's
    order was placed, makes it the subscriber's whole quantity instead of a lot. *)
Definition mirrored_first : world ScriptedBroker store :=
  snd (place_strategy_orders sample_settings sample_signal sample_strategy None (snd (run_entry empty_world))).

Example owner_partial_sized_by_subscriber_leg :
  map (fun p => fst (strategy_partial_contracts p mirrored_first))
    (List.filter owner_row (w_positions mirrored_first)) = [Ok 750].
Proof. vm_compute. reflexivity. Qed.
