(* ===== verification/StrategyGate.v ===== *)
(** * The strategy webhook: what an alert leaves behind

    Over [StrategyWebhook.v]: an alert is turned away without a trace in the book,
    or becomes one canonical signal row and its place in the worker's queue; it
    does so once a minute at most; an exit is pinned to the position the strategy
    holds. *)

From Stdlib Require Import ZArith Lia List Bool String SpecFloat.
From stdpp Require Import base list strings gmap.
From S2P Require Import Prelude PyText PyFloat PyDecimal PyNum SymbolMatch Records Enums Models Safeguards Book Ledger Samples DayState Calendar.
From S2P Require Import ScripMaster FuturesResolver AiValidator PineMapper PositionManager StrategyExecutor DirectExit CircuitBreaker BreakerSafety.
From S2P Require Import MarketShield KillSwitch KillSafety KillGate OrderService Webhook WebhookSafety BrokerBatch Fanout FanoutSafety Mirroring StrategyWebhook.

Section Gate.
Context {B R : Type} `{BrokerInterface B} `{RedisLaws R} `{Decryptor} `{Coercion}.
Context (settings : Settings) (sha256_hex : string -> string) (hmac_hex : string -> string -> string)
        (json_loads : string -> option json) (json_dumps : payload -> string)
        (scrip_cache : datetime -> scrip_master) (scrip_load : datetime -> option scrip_master)
        (check_margin : SubscriberRef -> Z -> string -> result exn (bool * string)).
Implicit Types (w : world B R).

#[local] Existing Instance same_book_preorder.
#[local] Existing Instance side_writes_preorder.

(** ** Token, rate limit, body and signature *)

(** The payload of an authentic request, without its signature field. *)
Definition strategy_authentic (req : strategy_request) (info : token_info) (p : payload) w : Prop :=
  token_seen sha256_hex w (sr_token req) = Some info
  /\ exists p0, parse_body json_loads (sr_body req) = Ok p0
       /\ check_signature settings hmac_hex json_dumps req (ti_hmac_secret info) p0 = Ok p.

Lemma strategy_authenticate_spec req w r w' :
  strategy_authenticate settings sha256_hex hmac_hex json_loads json_dumps req w = (r, w') ->
  side_writes is_rate is_token w w' /\ forall info p, r = Ok (info, p) -> strategy_authentic req info p w.
Proof.
  unfold strategy_authenticate, strategy_authentic. intros E.
  apply bind_cases in E as [(token & w1 & E1 & E) | (e & -> & E1)]; apply resolve_token_spec in E1 as [[= ->] Hw].
  apply (side_writes_mono _ is_rate _ is_token) in Hw; [|by intros k [] | intros k <-; by eexists].
  destruct (token_seen sha256_hex w (sr_token req)) as [info|]; [|by injection E as <- <-].
  apply bind_cases in E as [(allowed & w2 & E2 & E) | (e & -> & E2)]; apply rate_limit_writes in E2;
    apply (side_writes_mono _ is_rate _ is_token) in E2; try (by intros k []); try (intros k <-; by eexists);
    pose proof (transitivity Hw E2) as Hw2; [|done].
  apply bind_cases in E as [([] & w3 & E3 & E) | (e & -> & E3)]; apply raise_when_spec in E3 as [-> _]; [|done].
  apply bind_cases in E as [(p0 & w3 & E3 & E) | (e & -> & E3)]; injection E3 as Hp <-; [|done].
  apply bind_cases in E as [(p & w3 & E3 & E) | (e & -> & E3)]; injection E3 as Hsig <-; [|done].
  injection E as <- <-. split; [done|]. intros i q [= <- <-]. eauto.
Qed.

(** ** The gates *)

Record gates_open (info : token_info) (strategy : Strategy) w : Prop := {
  go_kill : kill_status_seen w (ti_user_id info) = ACTIVE;
  go_user : exists usr, user_seen w (ti_user_id info) = Some usr /\ u_is_active usr = true;
  go_cap : under_cap w (ti_user_id info);
  go_strategy : List.filter (bound_strategy (ti_user_id info) (ti_token_id info)) (w_strategies w) = [strategy];
  go_hours : resolve_paper_mode settings (Some strategy) = true
             \/ MARKET_OPEN <= ist_time (w_now w) <= MARKET_CLOSE
}.

Lemma signal_gates_spec info w r w' :
  signal_gates settings info w = (r, w') ->
  side_writes nothing (eq (config_cache_key (ti_user_id info))) w w' /\ forall s, r = Ok s -> gates_open info s w.
Proof.
  unfold signal_gates. intros E.
  unfold mbind at 1, M_bind at 1, get_kill_switch_status, gets at 1 in E. fold (kill_status_seen w (ti_user_id info)) in E.
  apply bind_cases in E as [([] & w1 & E1 & E) | (e & -> & E1)]; apply raise_when_spec in E1 as [-> Ek]; [|by split].
  case_bool_decide as Hk; [done|]. clear Ek.
  unfold mbind at 1, M_bind at 1, load_user_context, gets at 1 in E. fold (user_seen w (ti_user_id info)) in E.
  apply bind_cases in E as [([] & w1 & E1 & E) | (e & -> & E1)]; apply raise_when_spec in E1 as [-> Eu]; [|by split].
  destruct (opt_is u_is_active (user_seen w (ti_user_id info))) eqn:Hu; [clear Eu|done].
  apply bind_cases in E as [([[within n] m] & w1 & E1 & E) | (e & -> & E1)]; apply check_cap_seen in E1 as [Hw1 Hcap]; [|by split].
  apply bind_cases in E as [([] & w2 & E2 & E) | (e & -> & E2)]; apply raise_when_spec in E2 as [-> Ew]; [|by split].
  destruct within; [clear Ew|done]. unfold resolve_strategy in E.
  assert (Hs : w_strategies w1 = w_strategies w) by apply Hw1. assert (Hn : w_now w1 = w_now w) by apply Hw1.
  apply bind_cases in E as [(strategy & w2 & E2 & E) | (e & -> & E2)].
  all: unfold mbind at 1, M_bind at 1, gets, from_result in E2; rewrite Hs in E2; injection E2 as E2 <-.
  2: { by split. }
  destruct (List.filter _ (w_strategies w)) as [|s [|s' ss]] eqn:Ef; try done; injection E2 as <-; [by injection E as <- <-|].
  unfold mbind at 1, M_bind at 1, gets at 1 in E. rewrite Hn in E. cbv zeta in E.
  apply bind_cases in E as [([] & w2 & E2 & E) | (e & -> & E2)]; apply raise_when_spec in E2 as [-> Eh]; [|by split].
  injection E as <- <-. split; [done|]. intros ? [= <-]. split; try done.
  - by destruct (kill_status_seen w (ti_user_id info)).
  - destruct (user_seen w (ti_user_id info)) as [usr|]; [by exists usr | done].
  - by eapply Hcap.
  - destruct (resolve_paper_mode settings (Some s)); [by left|]. right. cbn [negb andb] in Eh.
    destruct (_ && _) eqn:Eo; [|done]. bool_to_prop. lia.
Qed.

(** ** The payload *)

Lemma map_pine_reads strategy p w r w' : map_pine scrip_cache strategy p w = (r, w') -> w' = w.
Proof. unfold map_pine. destruct (is_pine_payload p); [|by intros [= _ <-]]. by intros [= _ <-]. Qed.

(** What an exit looks for among the held positions, and the payload that goes on
    to validation. *)
Definition raw_action (p : payload) : string := str_upper (str_strip (str_or_empty (jget p "action"))).

Definition settled (strategy : Strategy) (p p' : payload) w : Prop :=
  (one_of (raw_action p) DIRECT_EXIT_ACTIONS = true
   /\ exists side, normalize_side (jget p "side") = Ok side
        /\ p' = match latest_by opened_at (List.filter (held_by (s_id strategy) side) (w_positions w)) with
                | Some q => <["symbol"%string := JStr (p_symbol q)]> p
                | None => p
                end)
  \/ (one_of (raw_action p) DIRECT_EXIT_ACTIONS = false /\ (p' = p \/ exists symbol, p' = <["symbol"%string := JStr symbol]> p)).

Lemma settle_symbol_spec strategy p w r w' :
  settle_symbol scrip_load strategy p w = (r, w') ->
  side_writes nothing nothing w w' /\ forall p', r = Ok p' -> settled strategy p p' w.
Proof.
  unfold settle_symbol, settled. cbv zeta. fold (raw_action p). destruct (one_of (raw_action p) DIRECT_EXIT_ACTIONS).
  - intros E. unfold find_open_position_by_strategy in E.
    apply bind_cases in E as [(q & w1 & E1 & E) | (e & -> & E1)];
      (apply bind_cases in E1 as [(s & w2 & E2 & E1) | (e' & Er & E2)]; injection E2 as E2 <-; try (injection E1 as <- <-)); try done.
    injection E as <- <-. split; [done|]. intros p' [= <-]. left. split; [done|]. by exists s.
  - destruct (jget p "symbol"); try (intros [= <- <-]; split; [done | intros p' [= <-]; auto]). intros E.
    apply bind_cases in E as [(s' & w1 & E1 & E) | (e & -> & E1)]; apply resolve_writes in E1 as [_ (res & ->)];
      [injection E as <- <-|]; (split; [by split|]); [|done]. intros p' [= <-]. eauto.
Qed.

(** ** The row, the shield and the queue *)

(** What a handled alert may have changed besides its own row: the cache, the
    queue and the alerts; the signals as [f] says. *)
Record handled (sigs : list StrategySignal) (queued : list (uuid * string)) w w' : Prop := {
  hd_book : same_book w w';
  hd_users : pf_users (w_platform w') = pf_users (w_platform w);
  hd_redis : w_redis w' = w_redis w;
  hd_signals : pf_signals (w_platform w') = sigs;
  hd_queue : pf_queue (w_platform w') = pf_queue (w_platform w) ++ queued
}.

Lemma handled_refl w : handled (pf_signals (w_platform w)) [] w w.
Proof. split; try done. by rewrite app_nil_r. Qed.

Lemma handled_trans s1 q1 s2 q2 w w1 w2 : handled s1 q1 w w1 -> handled s2 q2 w1 w2 -> handled s2 (q1 ++ q2) w w2.
Proof.
  intros [Hb1 ? ? ? Hq1] [Hb2 ? ? ? Hq2]. split; [by transitivity w1 | congruence.. |]. by rewrite Hq2, Hq1, List.app_assoc.
Qed.

Lemma cache_set_handled key v ttl w r w' :
  0 < ttl -> cache_set_json key v ttl w = (r, w') -> r = Ok tt /\ handled (pf_signals (w_platform w)) [] w w'.
Proof.
  intros Ht E. unfold cache_set_json in E. rewrite (proj2 (Z.leb_gt ttl 0)) in E by done. injection E as <- <-.
  split; [done|]. split; try done. by rewrite app_nil_r.
Qed.

Lemma alert_handled level event symbol w r w' :
  plain_alert level event symbol w = (r, w') -> r = Ok tt /\ handled (pf_signals (w_platform w)) [] w w'.
Proof. intros E. injection E as <- <-. split; [done|]. split; try done. by rewrite app_nil_r. Qed.

Lemma try_release_handled sid price w r w' :
  try_release settings sid price w = (r, w') -> handled (pf_signals (w_platform w)) [] w w'.
Proof.
  assert (Hdel : forall w1, consume_hold sid w = (Ok tt, w1) -> handled (pf_signals (w_platform w)) [] w w1).
  { intros w1 E. injection E as <-. split; try done. by rewrite app_nil_r. }
  unfold try_release. destruct (negb _); [intros [= _ <-]; apply handled_refl|].
  unfold mbind at 1, M_bind at 1, cache_get_json, gets at 1. destruct (store_get _ _ _) as [c|]; [|intros [= _ <-]; apply handled_refl].
  destruct c as [| | | | | |id side entry atr ra| | |j|]; try (intros [= _ <-]; apply handled_refl).
  - unfold mbind at 1, M_bind at 1, gets at 1. destruct (ra <=? w_now w); [intros [= _ <-]; by apply Hdel|].
    destruct (overrides _ _ _ _); intros [= _ <-]; [by apply Hdel | apply handled_refl].
  - destruct j as [| | | | |[|]|]; try (intros [= _ <-]; apply handled_refl). intros [= _ <-]; by apply Hdel.
Qed.

Lemma shield_release_spec sid p w r w' :
  shield_release settings sid p w = (r, w') ->
  r = Ok tt /\ exists released, handled (pf_signals (w_platform w)) released w w'
    /\ Forall (fun e => e.2 = "exit"%string) released /\ (length released <= 1)%nat /\ (market_shield_enabled settings = false -> released = []).
Proof.
  unfold shield_release. destruct (market_shield_enabled settings) eqn:Hen; cbn [negb].
  2: { intros [= <- <-]. split; [done|]. exists []. split_and!; [apply handled_refl | constructor | simpl; lia | done]. }
  intros E. apply bind_cases in E as [(out & w1 & E1 & E) | (e & -> & E1)]; apply attempt_cases in E1 as (x & Hx & E1); [|done].
  injection E as <- <-. split; [done|].
  assert (Hnone : forall w2, handled (pf_signals (w_platform w)) [] w w2 -> exists released, handled (pf_signals (w_platform w)) released w w2
    /\ Forall (fun e => e.2 = "exit"%string) released /\ (length released <= 1)%nat /\ (true = false -> released = [])).
  { intros w2 Hh. exists []. split_and!; [done | constructor | simpl; lia | done]. }
  apply bind_cases in E1 as [(price & w2 & E2 & E1) | (e & -> & E2)]; injection E2 as E2 <-; [|apply Hnone, handled_refl].
  apply bind_cases in E1 as [(o & w2 & E3 & E1) | (e & -> & E3)]; apply try_release_handled in E3; [|by apply Hnone].
  destruct o as [[held ov]|]; [|injection E1 as <- <-; by apply Hnone].
  apply bind_cases in E1 as [([] & w3 & E4 & E1) | (e & -> & E4)]; injection E4; [intros <-|done].
  exists [(held, "exit"%string)]. split_and!; [| by repeat constructor | simpl; lia | done].
  pose proof (hd_signals _ _ _ _ E3) as Hs.
  assert (Hd : handled (pf_signals (w_platform w)) [(held, "exit"%string)] w2
                 (w2 <| w_platform ::= fun f => f <| pf_queue ::= fun q => q ++ [(held, "exit"%string)] |> |>)) by (by split).
  assert (Ha : handled (pf_signals (w_platform w)) []
                 (w2 <| w_platform ::= fun f => f <| pf_queue ::= fun q => q ++ [(held, "exit"%string)] |> |>) w1).
  { destruct ov; apply alert_handled in E1 as [_ Ha]; rewrite <- Hs; exact Ha. }
  pose proof (handled_trans _ _ _ _ _ _ _ (handled_trans _ _ _ _ _ _ _ E3 Hd) Ha) as Hh. simpl in Hh. exact Hh.
Qed.

(** The status of one row set. *)
Definition restatus (id : uuid) (st : signal_status) (l : list StrategySignal) : list StrategySignal :=
  map (fun g => if g_id g =? id then g <| g_status := st |> else g) l.

Lemma set_status_handled id st w r w' :
  set_signal id (fun g => g <| g_status := st |>) w = (r, w') -> r = Ok tt /\ handled (restatus id st (pf_signals (w_platform w))) [] w w'.
Proof. intros E. injection E as <- <-. split; [done|]. split; try done. by rewrite app_nil_r. Qed.

Lemma maybe_hold_handled sid signal w r w' :
  maybe_hold_exit settings sid signal w = (r, w') -> handled (pf_signals (w_platform w)) [] w w'.
Proof.
  intros E. apply maybe_hold_spec in E as [[-> _] | [_ _ (side & entry & atr & _ & Ec & _)]]; [apply handled_refl|].
  by apply cache_set_handled in Ec as [_ Hh].
Qed.

(** An exit is held or skipped, and its row says so, or it goes on unchanged. *)
Lemma shield_hold_spec sid signal w r w' :
  shield_hold settings sid signal w = (r, w') ->
  (r = Ok true /\ handled (pf_signals (w_platform w)) [] w w')
  \/ exists st, r = Ok false /\ st ∈ [sg_held; sg_ignored] /\ handled (restatus (g_id signal) st (pf_signals (w_platform w))) [] w w'
       /\ g_action signal = "EXIT"%string /\ market_shield_enabled settings = true.
Proof.
  unfold shield_hold. destruct (_ && _) eqn:Eg; cbn [negb]; [|intros [= <- <-]; left; split; [done | apply handled_refl]].
  apply andb_true_iff in Eg as [Ea%String.eqb_eq Hen]. intros E.
  apply bind_cases in E as [(out & w1 & E1 & E) | (e & -> & E1)]; apply attempt_cases in E1 as (x & Hx & E1); [|done].
  injection Hx as <-. injection E as <- <-.
  assert (Hskip : forall st w0 w2 w3, st ∈ [sg_held; sg_ignored] -> handled (pf_signals (w_platform w)) [] w w0 ->
    handled (restatus (g_id signal) st (pf_signals (w_platform w0))) [] w0 w2 ->
    handled (pf_signals (w_platform w2)) [] w2 w3 ->
    exists st, Ok false = Ok (E := exn) false /\ st ∈ [sg_held; sg_ignored]
      /\ handled (restatus (g_id signal) st (pf_signals (w_platform w))) [] w w3
      /\ g_action signal = "EXIT"%string /\ market_shield_enabled settings = true).
  { intros st w0 w2 w3 Hst Hh0 Hh Hh'. exists st. split_and!; try done.
    rewrite (hd_signals _ _ _ _ Hh0) in Hh. rewrite (hd_signals _ _ _ _ Hh) in Hh'.
    exact (handled_trans _ _ _ _ _ _ _ (handled_trans _ _ _ _ _ _ _ Hh0 Hh) Hh'). }
  unfold has_active_hold, shield_enabled in E1. rewrite Hen in E1. cbn [negb] in E1.
  apply bind_cases in E1 as [(active & w2 & E2 & E1) | (e & -> & E2)]; injection E2 as E2 <-; [|done].
  destruct active.
  { right. apply bind_cases in E1 as [([] & w3 & E3 & E1) | (e & -> & E3)]; apply set_status_handled in E3 as [Hr Hh]; [|done].
    injection E1 as <- <-. eapply (Hskip sg_ignored); [by right; left | apply handled_refl | exact Hh | apply handled_refl]. }
  apply bind_cases in E1 as [(d & w3 & E3 & E1) | (e & -> & E3)]; apply maybe_hold_handled in E3; [|by left].
  destruct d as [reason|ra]; [injection E1 as <- <-; by left|]. right.
  apply bind_cases in E1 as [([] & w4 & E4 & E1) | (e & -> & E4)]; apply set_status_handled in E4 as [Hr Hh]; [|done].
  apply bind_cases in E1 as [([] & w5 & E5 & E1) | (e & -> & E5)]; apply alert_handled in E5 as [Hr5 Hh5]; [|done].
  injection E1 as <- <-. eapply (Hskip sg_held); [by left | exact E3 | exact Hh | exact Hh5].
Qed.

(** The fan-out: nothing but subscriber rows, their legs and their slots. *)
Lemma fan_out_spec signal strategy h w r w' :
  book_inv w -> 0 <= entry_lots strategy -> fan_out_signal settings scrip_cache check_margin signal strategy h w = (r, w') ->
  r = Ok tt /\ (exists ids, served ids w w') /\ (one_open (w_positions w) -> one_open (w_positions w')).
Proof.
  intros Hb Hl. unfold fan_out_signal. destruct (negb _).
  { intros [= <- <-]. split_and!; [done | | done]. exists []. by apply no_rows_served. }
  intros E. apply bind_cases in E as [(out & w1 & E1 & E) | (e & -> & E1)]; apply attempt_cases in E1 as (x & Hx & E1); [|done].
  injection E as <- <-. split; [done|]. unfold mbind at 1, M_bind at 1, resolve_active_subscriptions, gets at 1 in E1.
  unfold mbind at 1, M_bind at 1, gets at 1 in E1. set (subs := concat _) in E1.
  assert (Hw : exists r0, dispatch_subscriber_executions signal strategy (Some h) (fanout_master (scrip_cache (w_now w))) check_margin
                 paper_provider subs w = (r0, w1)).
  { apply bind_cases in E1 as [(o & w2 & E2 & E1) | (e & -> & E2)]; [injection E1 as <- <-|]; eauto. }
  destruct Hw as [r0 E0]. split.
  - destruct (dispatch_served _ _ _ _ _ _ _ _ _ _ Hl Hb E0) as [Hs _]. eauto.
  - intros Hone. apply dispatch_runs in E0 as [(_ & -> & _) | [(e & _ & -> & _) | (es & rs & _ & _ & _ & Hrun)]]; [done..|].
    by eapply dispatch_run_one_open.
Qed.

(** ** An accepted alert *)

Record accepted (info : token_info) (strategy : Strategy) (v : StrategyWebhookPayload) (p : payload)
    (sid : uuid) (goes : bool) w w' : Prop := {
  ac_id : sid = w_next_id w;
  ac_signal : Forall (fun g => g_id g < w_next_id w) (pf_signals (w_platform w)) ->
    exists st, (st = sg_received \/ (goes = false /\ st ∈ [sg_held; sg_ignored] /\ sv_action v = SA_EXIT))
    /\ pf_signals (w_platform w') = pf_signals (w_platform w) ++ [signal_row sid (ti_user_id info) strategy v p (w_now w) <| g_status := st |>];
  ac_goes : goes = false -> sv_action v = SA_EXIT /\ market_shield_enabled settings = true;
  ac_queue : exists released, Forall (fun e => e.2 = "exit"%string) released /\ (length released <= 1)%nat
    /\ (market_shield_enabled settings = false -> released = [])
    /\ pf_queue (w_platform w') = pf_queue (w_platform w) ++ released
         ++ (if goes then [(sid, action_kind_of (fst (canonical v p)))] else []);
  ac_orders : w_orders w' = w_orders w;
  ac_served : exists ids w1, same_book w w1 /\ w_redis w1 = w_redis w /\ served ids w1 w';
  ac_one : one_open (w_positions w) -> one_open (w_positions w')
}.

Lemma exit_action_value v p : fst (canonical v p) = SA_EXIT <-> sv_action v = SA_EXIT.
Proof. unfold canonical. by destruct (sv_action v). Qed.

Lemma restatus_fresh id st l g :
  Forall (fun g => g_id g < id) l -> g_id g = id -> restatus id st (l ++ [g]) = l ++ [g <| g_status := st |>].
Proof.
  intros Hl Hg. unfold restatus. rewrite map_app. simpl. rewrite Hg, Z.eqb_refl. f_equal.
  induction Hl as [|x l Hx Hl IH]; simpl; [done|]. rewrite (proj2 (Z.eqb_neq _ _)) by lia. by rewrite IH.
Qed.

Lemma accept_spec info strategy h v p w r w' :
  book_inv w -> 0 <= entry_lots strategy ->
  accept_signal settings scrip_cache check_margin info strategy h v p w = (r, w') ->
  exists sid goes, r = Ok (Accepted sid (s_id strategy) goes) /\ accepted info strategy v p sid goes w w'.
Proof.
  intros Hb Hl E. unfold accept_signal in E.
  set (sid := w_next_id w). set (row := signal_row sid (ti_user_id info) strategy v p (w_now w)).
  apply bind_cases in E as [(signal & w1 & E1 & E) | (e & -> & E1)]; [|done].
  injection E1 as <- Ew1. fold sid in E. fold row in E.
  assert (Hid : g_id row = sid) by (unfold row, signal_row; by destruct (canonical v p)).
  assert (Hact : g_action row = action_value (fst (canonical v p))) by (unfold row, signal_row; by destruct (canonical v p)).
  assert (Hw1 : handled (pf_signals (w_platform w) ++ [row]) [] w w1).
  { rewrite <- Ew1. split; try done; [split; simpl; try done; lia | by rewrite app_nil_r]. }
  clear Ew1. pose proof (hd_signals _ _ _ _ Hw1) as Hs1.
  apply bind_cases in E as [([] & w2 & E2 & E) | (e & -> & E2)]; apply shield_release_spec in E2 as (Hr2 & released & Hh2 & Hrel & Hlen & Hoff); [|done].
  rewrite Hs1 in Hh2. pose proof (handled_trans _ _ _ _ _ _ _ Hw1 Hh2) as Hw2. simpl app in Hw2. pose proof (hd_signals _ _ _ _ Hw2) as Hs2.
  apply bind_cases in E as [(goes & w3 & E3 & E) | (e & -> & E3)]; [|by apply shield_hold_spec in E3 as [[[=] _] | (st & [=] & _)]].
  assert (Hst : exists sigs, (Forall (fun g => g_id g < sid) (pf_signals (w_platform w)) ->
              exists st, (st = sg_received \/ (goes = false /\ st ∈ [sg_held; sg_ignored] /\ sv_action v = SA_EXIT))
                /\ sigs = pf_signals (w_platform w) ++ [row <| g_status := st |>])
            /\ (goes = false -> sv_action v = SA_EXIT /\ market_shield_enabled settings = true)
            /\ handled sigs [] w2 w3).
  { apply shield_hold_spec in E3 as [[[= ->] Hh] | (st & [= ->] & Hst & Hh & Ha & Hen)].
    - eexists. split; [|split; [done | exact Hh]]. intros _. exists sg_received. split; [by left|]. rewrite Hs2.
      assert (row <| g_status := sg_received |> = row) as -> by (unfold row, signal_row; by destruct (canonical v p)). done.
    - assert (Hx : sv_action v = SA_EXIT).
      { apply (exit_action_value v p). rewrite Hact in Ha. by destruct (fst (canonical v p)). }
      eexists. split; [|split; [done | exact Hh]]. intros Hfresh. exists st. split; [by right|].
      by rewrite Hs2, Hid, restatus_fresh. }
  destruct Hst as (sigs & Hst & Hgoes & Hh3). pose proof (handled_trans _ _ _ _ _ _ _ Hw2 Hh3) as Hw3. rewrite app_nil_r in Hw3.
  set (tail := if goes then [(sid, action_kind_of (fst (canonical v p)))] else []).
  apply bind_cases in E as [([] & w4 & E4 & E) | (e & -> & E4)].
  2: { destruct goes; by injection E4. }
  assert (Hw4 : handled sigs (released ++ tail) w w4).
  { assert (Ht : handled sigs tail w3 w4).
    { unfold tail. pose proof (hd_signals _ _ _ _ Hh3) as Hs3. rewrite <- Hs3. destruct goes; injection E4 as <-; [|apply handled_refl].
      rewrite Hid. by split. }
    by eapply handled_trans. }
  apply bind_cases in E as [([] & w5 & E5 & E) | (e & -> & E5)]; apply fan_out_spec in E5 as (Hr5 & (ids & Hsv) & Hone); try done.
  2,3: apply (book_inv_ext w); [done | apply (hd_book _ _ _ _ Hw4)..].
  injection E as <- <-. exists sid, goes. rewrite Hid. split; [done|].
  pose proof (sv_env _ _ _ Hsv) as He. pose proof (hd_book _ _ _ _ Hw4) as Hb4. split; try done.
  - intros Hfresh. destruct (Hst Hfresh) as (st & Hs & ->). exists st. split; [done|]. rewrite (fe_platform _ _ He). apply Hw4.
  - exists released. split_and!; try done. rewrite (fe_platform _ _ He). apply Hw4.
  - rewrite (fe_orders _ _ He). apply Hb4.
  - exists ids, w4. split; [done|]. split; [apply Hw4 | done].
  - intros Ho. apply Hone. by rewrite (sb_positions _ _ Hb4).
Qed.
(** ** The whole handler *)

Definition strategy_key (info : token_info) (p : payload) (req : strategy_request) : string :=
  idem_key (strategy_signal_hash sha256_hex (ti_user_id info) p (sr_body req)).

(** Everything that let an alert through: [p] is the signed payload, [p1] the one
    that was persisted. *)
Record admitted_alert (req : strategy_request) (info : token_info) (strategy : Strategy) (p p1 : payload) (v : StrategyWebhookPayload) w
  : Prop := {
  aa_live : pf_halted (w_platform w) = false;
  aa_authentic : strategy_authentic req info p w;
  aa_slot : redis_get (strategy_key info p req) (w_now w) (w_redis w) = None;
  aa_gates : gates_open info strategy w;
  aa_settled : exists p0, settled strategy p0 p1 w;
  aa_valid : validate_payload p1 = Ok v
}.

Lemma signal_gates_before info s w w1 (rk : string -> Prop) :
  side_writes rk is_token w w1 -> (forall k, rk k -> k <> kill_key (ti_user_id info) /\ k <> trades_key (ti_user_id info)) ->
  gates_open info s w1 -> gates_open info s w.
Proof.
  intros Hw Hrk [Hk Hu Hcap Hs Hh]. pose proof (sw_book _ _ _ _ Hw) as Hsb.
  assert (Hkill : ~ rk (kill_key (ti_user_id info))) by (intros Hr; by apply Hrk in Hr as [? _]).
  assert (Htr : ~ rk (trades_key (ti_user_id info))) by (intros Hr; by apply Hrk in Hr as [_ ?]).
  split.
  - rewrite <- Hk. unfold kill_status_seen. by rewrite (sb_now _ _ Hsb), (sw_redis _ _ _ _ Hw).
  - unfold user_seen in *. by rewrite <- (sw_users _ _ _ _ Hw).
  - destruct Hcap as (config & Hc & Hcap). exists config. unfold config_seen, trades_seen in *.
    rewrite (sb_now _ _ Hsb), (sw_cache _ _ _ _ Hw), (sw_configs _ _ _ _ Hw) in Hc by (by intros [h [=]]).
    split; [done|]. intros c Ec En. destruct (Hcap c Ec En) as (n & Hn & Hlt). exists n. split; [|done].
    by rewrite <- Hn, (sb_now _ _ Hsb), (sw_redis _ _ _ _ Hw).
  - by rewrite <- (sb_strategies _ _ Hsb).
  - by rewrite <- (sb_now _ _ Hsb).
Qed.

(** An alert is turned away and changes neither book nor signals nor queue, or it
    is admitted, holds its slot for a minute and is accepted. *)
Lemma receive_strategy_cases req w r w' :
  book_inv w -> Forall (fun s => 0 <= entry_lots s) (w_strategies w) ->
  receive_strategy_signal settings sha256_hex hmac_hex json_loads json_dumps scrip_cache scrip_load check_margin req w = (r, w') ->
  (idle w w' /\ ((exists e, r = Err e) \/ r = Ok Duplicate))
  \/ exists info strategy p p1 v w1 sid goes, admitted_alert req info strategy p p1 v w
       /\ idle w w1 /\ (forall t, t < w_now w + 60 -> redis_get (strategy_key info p req) t (w_redis w1) <> None)
       /\ r = Ok (Accepted sid (s_id strategy) goes) /\ accepted info strategy v p1 sid goes w1 w'.
Proof.
  intros Hb Hlots E. unfold receive_strategy_signal in E.
  apply bind_cases in E as [([] & w0 & E0 & E) | (e & -> & E0)]; apply raise_when_spec in E0 as [-> _];
    [|left; split; [by exists nothing, nothing | eauto]].
  unfold mbind at 1, M_bind at 1, gets at 1 in E.
  apply bind_cases in E as [([] & w0 & E0 & E) | (e & -> & E0)]; apply raise_when_spec in E0 as [-> Hlive];
    [|left; split; [by exists nothing, nothing | eauto]].
  apply bind_cases in E as [([info p] & w1 & E1 & E) | (e & -> & E1)]; apply strategy_authenticate_spec in E1 as [Hw1 Hauth];
    [|left; split; [by exists is_rate, is_token | eauto]].
  specialize (Hauth _ _ eq_refl).
  assert (Hkey : forall t, redis_get (strategy_key info p req) t (w_redis w1) = redis_get (strategy_key info p req) t (w_redis w)).
  { intros t. apply (sw_redis _ _ _ _ Hw1). by intros [k [=]]. }
  assert (Hnow : w_now w1 = w_now w) by apply Hw1.
  apply bind_cases in E as [(claimed & w2 & E2 & E) | (e & -> & E2)];
    apply claim_spec in E2 as [([= ->] & -> & _) | ([= ->] & Hfree & Hw2 & Hslot)].
  { injection E as <- <-. left. split; [by exists is_rate, is_token | auto]. }
  fold (strategy_key info p req) in Hfree, Hw2, Hslot. rewrite Hnow in Hfree, Hslot. rewrite Hkey in Hfree. cbn [negb] in E.
  set (rk := fun k => is_rate k \/ k = strategy_key info p req).
  assert (Hw : side_writes rk is_token w w2).
  { transitivity w1; [revert Hw1 | revert Hw2]; apply side_writes_mono; try done; [by left | intros k <-; by right]. }
  set (ck := fun k => is_token k \/ k = config_cache_key (ti_user_id info)).
  assert (Hup : forall w3 w4 ks, (forall k, ks k -> ck k) -> side_writes rk ck w w3 -> side_writes nothing ks w3 w4 -> side_writes rk ck w w4).
  { intros w3 w4 ks Hks Ha3 Ha4. transitivity w3; [done|]. revert Ha4. apply side_writes_mono; [by intros k [] | done]. }
  pose proof (side_writes_mono _ rk _ ck _ _ (fun k Hk => Hk) (fun k Hk => or_introl Hk) Hw) as Hw'.
  apply bind_cases in E as [(strategy & w3 & E3 & E) | (e & -> & E3)]; apply signal_gates_spec in E3 as [Hw3 Hgates].
  all: pose proof (Hup _ _ _ (fun k Hk => or_intror (eq_sym Hk)) Hw' Hw3) as Hw03.
  2: { left. split; [by exists rk, ck | eauto]. }
  assert (Hopen : gates_open info strategy w).
  { apply (signal_gates_before _ _ _ _ _ Hw); [|by apply Hgates]. intros k [[key ->] | ->]; split; discriminate. }
  assert (Hpos : w_positions w3 = w_positions w) by apply Hw03.
  apply bind_cases in E as [(p0 & w4 & E4 & E) | (e & -> & E4)]; apply map_pine_reads in E4 as ->.
  2: { left. split; [by exists rk, ck | eauto]. }
  apply bind_cases in E as [(p1 & w5 & E5 & E) | (e & -> & E5)]; apply settle_symbol_spec in E5 as [Hq5 Hset];
    pose proof (Hup _ _ nothing (fun k Hk => match Hk with end) Hw03 Hq5) as Hw5.
  2: { left. split; [by exists rk, ck | eauto]. }
  apply bind_cases in E as [(v & w6 & E6 & E) | (e & -> & E6)]; injection E6 as Hval <-.
  2: { left. split; [by exists rk, ck | eauto]. }
  apply accept_spec in E as (sid & goes & -> & Hacc).
  - right. exists info, strategy, p, p1, v, w5, sid, goes. split; [|split; [by exists rk, ck|]; split; [|done]].
    + split; try done; [by destruct (pf_halted (w_platform w))|]. exists p0. specialize (Hset p1 eq_refl). unfold settled in *.
      by rewrite Hpos in Hset.
    + intros t Ht. rewrite (sw_redis _ _ _ _ Hq5), (sw_redis _ _ _ _ Hw3) by (by intros []).
      by rewrite Hslot, (proj2 (Z.ltb_lt _ _) Ht).
  - apply (book_inv_ext w); [done | apply Hw5..].
  - assert (Hin : In strategy (w_strategies w)).
    { apply (filter_In (bound_strategy (ti_user_id info) (ti_token_id info))). rewrite (go_strategy _ _ _ Hopen). by left. }
    rewrite List.Forall_forall in Hlots. by apply Hlots.
Qed.
End Gate.

(** ** What validation guarantees *)

Lemma str_len_upper s : str_len (str_upper s) = str_len s.
Proof.
  unfold str_len, str_upper, upper. rewrite <- (string_of_list_ascii_of_string s) at 2. unfold L.
  induction (list_ascii_of_string s) as [|c l IH]; simpl; [done | by f_equal].
Qed.

Lemma str_upper_idem s : str_upper (str_upper s) = str_upper s.
Proof. unfold str_upper. by rewrite L_of_text, upper_idem. Qed.

Record valid_payload (p : payload) (v : StrategyWebhookPayload) : Prop := {
  vp_action : jget p "action" = JStr (action_value (sv_action v));
  vp_symbol : exists s, jget p "symbol" = JStr s /\ sv_symbol v = str_upper (str_strip s) /\ (1 <= str_len (str_strip s) <= 64)%nat;
  vp_side : jget p "side" = match sv_side v with Some d => JStr (position_side_value d) | None => JNull end;
  vp_required : required_fields v = true;
  vp_quantity : is_entry_action (sv_action v) = true -> exists q, sv_quantity v = Some q /\ 0 < q <= QUANTITY_CEILING_CONTRACTS
}.

Lemma find_value {A : Type} (value : A -> string) l s a : List.find (fun x => String.eqb (value x) s) l = Some a -> s = value a.
Proof. intros E. apply find_some in E as [_ E]. by apply String.eqb_eq in E. Qed.

Lemma validate_spec `{Coercion} p v : validate_payload p = Ok v -> valid_payload p v.
Proof.
  unfold validate_payload. destruct (model_validate p) as [v'|] eqn:Em; [|done].
  destruct (_ && _) eqn:Ec; [done|]. intros [= ->]. unfold model_validate in Em.
  repeat match type of Em with
         | (_ ≫= _) = Some _ => apply bind_Some in Em as (? & ? & Em)
         | (if required_fields ?x then _ else _) = _ => destruct (required_fields x) eqn:Hreq; [injection Em as <- | discriminate]
         end.
  rename select (action_of _ = _) into Ha. rename select (short_text 64 _ = _) into Hs. rename select (nullable side_of _ = _) into Hd.
  rename select ((if (1 <=? _)%nat then _ else _) = _) into Hlen. cbn [sv_action sv_symbol sv_side sv_quantity] in *.
  split; cbn [sv_action sv_symbol sv_side sv_quantity]; try done.
  - unfold action_of in Ha. destruct (jget p "action") as [| | | |s| |]; try done. by apply find_value in Ha as <-.
  - unfold short_text in Hs. destruct (jget p "symbol") as [| | | |s| |]; try done.
    destruct (Nat.leb_spec (str_len (str_strip s)) 64); [|done]. injection Hs as <-.
    destruct (Nat.leb_spec 1 (str_len (str_strip s))); [|done]. by exists s.
  - unfold nullable, side_of in Hd. destruct (jget p "side") as [| | | |s| |]; try done; [by injection Hd as <-|].
    apply fmap_Some in Hd as (d & Hd & ->). by apply find_value in Hd as <-.
  - intros Hen. rewrite Hen in Ec. cbn [andb] in Ec. unfold required_fields in Hreq. cbn [sv_action sv_quantity sv_side] in Hreq.
    destruct x3 as [q|]; [|by destruct x]. exists q. split; [done|]. simpl in Ec. apply Z.ltb_ge in Ec.
    destruct x; try done; simpl in Hreq; bool_to_prop; lia.
Qed.

(** The rows the worker and the exit handlers expect. *)
Record canonical_signal (g : StrategySignal) : Prop := {
  cs_action : g_action g ∈ ["ENTRY"; "PARTIAL"; "EXIT"; "SL_HIT"]%string;
  cs_symbol : str_upper (g_symbol g) = g_symbol g /\ (1 <= str_len (g_symbol g) <= 64)%nat;
  cs_side : is_direction (payload_side g) = true;
  cs_quantity : match g_quantity g with
                | Some q => g_action g = "ENTRY"%string /\ 0 < q <= QUANTITY_CEILING_CONTRACTS
                | None => g_action g <> "ENTRY"%string
                end
}.

Lemma signal_row_canonical `{Coercion} sid u strategy v p now st :
  validate_payload p = Ok v -> canonical_signal (signal_row sid u strategy v p now <| g_status := st |>).
Proof.
  intros Hv. apply validate_spec in Hv as [Ha (s & _ & Hs & Hlen) Hd Hreq Hq].
  assert (Hside : forall d : PositionSide, is_direction (str_lower (str_or_empty (JStr (position_side_value d)))) = true)
    by (by intros []).
  unfold signal_row, canonical. unfold required_fields in Hreq. split.
  - destruct (sv_action v); cbn; set_solver.
  - assert (Hsym : str_upper (sv_symbol v) = sv_symbol v /\ (1 <= str_len (sv_symbol v) <= 64)%nat)
      by (by rewrite Hs, str_upper_idem, str_len_upper).
    by destruct (sv_action v).
  - unfold payload_side. destruct (sv_action v); cbn; unfold jget in *;
      rewrite ?lookup_insert_eq; try done; rewrite Hd; destruct (sv_side v); simpl in *; bool_to_prop; try done; apply Hside.
  - destruct (sv_action v); cbn in *; try done; destruct Hq as (q & -> & Hq); done.
Qed.

Lemma latest_by_filter {A : Type} (key : A -> Z) (P : A -> bool) l x :
  latest_by key l = Some x -> P x = true -> latest_by key (List.filter P l) = Some x.
Proof.
  revert x. induction l as [|y l IH]; intros x; simpl; [done|]. destruct (latest_by key l) as [z|] eqn:El.
  - destruct (Z.ltb_spec (key y) (key z)).
    + intros [= ->] Hx. specialize (IH x eq_refl Hx). destruct (P y); [|done]. simpl. rewrite IH.
      by rewrite (proj2 (Z.ltb_lt _ _)).
    + intros [= ->] Hx. rewrite Hx. simpl. destruct (latest_by key (List.filter P l)) as [u|] eqn:Eu; [|done].
      apply latest_by_in, filter_In in Eu as [Hin _]. pose proof (latest_by_max _ _ _ _ El Hin).
      by rewrite (proj2 (Z.ltb_ge _ _)) by lia.
  - apply latest_by_none in El as ->. intros [= ->] Hx. by rewrite Hx.
Qed.

Lemma filter_filter {A : Type} (P Q : A -> bool) l : List.filter P (List.filter Q l) = List.filter (fun x => Q x && P x) l.
Proof. induction l as [|x l IH]; simpl; [done|]. destruct (Q x); simpl; [destruct (P x)|]; by rewrite ?IH. Qed.

(** ** The guarantees *)

Section Claims.
Context {B R : Type} `{BrokerInterface B} `{RedisLaws R} `{Decryptor} `{Coercion}.
Context (settings : Settings) (sha256_hex : string -> string) (hmac_hex : string -> string -> string)
        (json_loads : string -> option json) (json_dumps : payload -> string)
        (scrip_cache : datetime -> scrip_master) (scrip_load : datetime -> option scrip_master)
        (check_margin : SubscriberRef -> Z -> string -> result exn (bool * string)).
Implicit Types (w : world B R).

Abbreviation receive :=
  (receive_strategy_signal settings sha256_hex hmac_hex json_loads json_dumps scrip_cache scrip_load check_margin).
Abbreviation admitted := (admitted_alert settings sha256_hex hmac_hex json_loads json_dumps).
Abbreviation genuine := (strategy_authentic settings sha256_hex hmac_hex json_loads json_dumps).
Abbreviation slot := (strategy_key sha256_hex).

(** The state the handler starts from. *)
Record ready w : Prop := {
  rd_book : book_inv w;
  rd_lots : Forall (fun s => 0 <= entry_lots s) (w_strategies w);
  rd_signals : Forall (fun g => g_id g < w_next_id w) (pf_signals (w_platform w))
}.

Lemma ready_idle w w1 : ready w -> idle w w1 -> ready w1.
Proof.
  intros [Hb Hl Hs] (rk & ck & Hw). pose proof (sw_book _ _ _ _ Hw) as Hsb. split.
  - apply (book_inv_ext w); [done | apply Hsb..].
  - by rewrite (sb_strategies _ _ Hsb).
  - rewrite (sw_signals _ _ _ _ Hw). eapply Forall_impl; [exact Hs|]. intros g Hg. simpl in *. pose proof (sb_next _ _ Hsb). lia.
Qed.

(** C13: an alert becomes one canonical signal or nothing.  Handling an alert sends
    no order, and either it is refused or suppressed as a duplicate, leaving the
    book, the signals and the worker's queue as they were; or the deployment was
    live, the alert authentic, its slot free and every gate open (kill switch not
    tripped, user active and under the daily cap, exactly one bound strategy, market
    open unless on paper), and there is exactly one new signal: its action is ENTRY,
    PARTIAL, EXIT or SL_HIT, its symbol upper case of 1 to 64 characters, its side
    long or short, its quantity positive and at most 10,000 for an entry and absent
    otherwise.  That signal is queued for the worker unless the market shield keeps
    an EXIT back; besides it only the exit the shield releases can be queued. *)
Theorem strategy_signal_canonical req w r w' :
  ready w -> receive req w = (r, w') ->
  w_orders w' = w_orders w /\
  ((w_positions w' = w_positions w /\ w_executions w' = w_executions w
    /\ pf_signals (w_platform w') = pf_signals (w_platform w) /\ pf_queue (w_platform w') = pf_queue (w_platform w)
    /\ ((exists e, r = Err e) \/ r = Ok Duplicate))
   \/ exists info strategy p p1 v g goes released,
        admitted req info strategy p p1 v w
        /\ r = Ok (Accepted (g_id g) (s_id strategy) goes)
        /\ pf_signals (w_platform w') = pf_signals (w_platform w) ++ [g]
        /\ canonical_signal g /\ g_strategy_id g = s_id strategy /\ g_user_id g = ti_user_id info
        /\ (goes = false -> g_action g = "EXIT"%string /\ market_shield_enabled settings = true)
        /\ pf_queue (w_platform w') = pf_queue (w_platform w) ++ released
             ++ (if goes then [(g_id g, action_kind_of (fst (canonical v p1)))] else [])
        /\ Forall (fun e => e.2 = "exit"%string) released /\ (length released <= 1)%nat
        /\ (market_shield_enabled settings = false -> released = [])).
Proof.
  intros Hrd E. pose proof Hrd as [Hb Hl _].
  apply receive_strategy_cases in E as [[(rk & ck & Hw) Hr] | (info & strategy & p & p1 & v & w1 & sid & goes & Haa & Hi & _ & -> & Hacc)];
    [| |done..].
  { split; [apply Hw|]. left. split_and!; try apply Hw. done. }
  pose proof (rd_signals _ (ready_idle _ _ Hrd Hi)) as Hfresh. destruct Hi as (rk & ck & Hw). pose proof (sw_book _ _ _ _ Hw) as Hsb.
  destruct Hacc as [Hid Hsig Hgoes (released & Hrel & Hlen & Hoff & Hq) Ho _ _]. destruct (Hsig Hfresh) as (st & _ & Hs).
  split; [by rewrite Ho, (sb_orders _ _ Hsb)|]. right.
  exists info, strategy, p, p1, v, (signal_row sid (ti_user_id info) strategy v p1 (w_now w1) <| g_status := st |>), goes, released.
  rewrite (sw_signals _ _ _ _ Hw) in Hs. rewrite (sw_queue _ _ _ _ Hw) in Hq.
  assert (Hrow : let g := signal_row sid (ti_user_id info) strategy v p1 (w_now w1) <| g_status := st |> in
    g_id g = sid /\ g_strategy_id g = s_id strategy /\ g_user_id g = ti_user_id info /\ (sv_action v = SA_EXIT -> g_action g = "EXIT"%string)).
  { unfold signal_row, canonical. by destruct (sv_action v). }
  cbv zeta in Hrow. destruct Hrow as (Eid & Hsid & Hu & Hact). rewrite Eid. split_and!; try done.
  - apply signal_row_canonical, Haa.
  - intros Hg. destruct (Hgoes Hg) as [Hx Hm]. split; [by apply Hact | done].
Qed.

(** A strategy alert is taken once.  When an alert was accepted, then within the
    minute that follows any authentic delivery with the same key (the same signal
    id, or else the same body, of the same user), in whatever state the rest of the
    system is, adds no signal, queues nothing, and changes no position, leg or order. *)
Theorem strategy_signal_once req info p w sid strategy_id goes w' req2 info2 p2 w2 r2 w2' :
  ready w -> receive req w = (Ok (Accepted sid strategy_id goes), w') -> genuine req info p w ->
  ready w2 -> genuine req2 info2 p2 w2 -> slot info2 p2 req2 = slot info p req -> w_now w <= w_now w2 < w_now w + 60 ->
  (forall t, redis_get (slot info p req) t (w_redis w2) = redis_get (slot info p req) t (w_redis w')) ->
  receive req2 w2 = (r2, w2') ->
  pf_signals (w_platform w2') = pf_signals (w_platform w2) /\ pf_queue (w_platform w2') = pf_queue (w_platform w2)
  /\ w_positions w2' = w_positions w2 /\ w_executions w2' = w_executions w2 /\ w_orders w2' = w_orders w2
  /\ ((exists e, r2 = Err e) \/ r2 = Ok Duplicate).
Proof.
  intros Hrd E Hg1 Hrd2 Hg2 Hkey Ht Hsame E2.
  apply receive_strategy_cases in E2 as [[(rk & ck & Hw) Hr] | (i2 & s2 & q2 & q2' & v2 & w3 & ? & ? & Haa2 & _)];
    [| |apply Hrd2..].
  { split_and!; try apply Hw. done. }
  exfalso. assert (i2 = info2 /\ q2 = p2) as [-> ->].
  { destruct (aa_authentic _ _ _ _ _ _ _ _ _ _ _ _ Haa2) as [T1 (? & P1 & S1)], Hg2 as [T2 (? & P2 & S2)]. split; congruence. }
  apply receive_strategy_cases in E as [[_ [(e & [=]) | [=]]] | (i1 & s1 & q1 & q1' & v1 & w1 & ? & ? & Haa & (rk & ck & Hw) & Hheld & _ & Hacc)];
    [|apply Hrd..].
  assert (i1 = info /\ q1 = p) as [-> ->].
  { destruct (aa_authentic _ _ _ _ _ _ _ _ _ _ _ _ Haa) as [T1 (? & P1 & S1)], Hg1 as [T2 (? & P2 & S2)]. split; congruence. }
  destruct (ac_served _ _ _ _ _ _ _ _ _ Hacc) as (ids & wx & Hbx & Hrx & Hsv).
  assert (Hnow : w_now wx = w_now w) by (rewrite (sb_now _ _ Hbx); apply Hw).
  pose proof (aa_slot _ _ _ _ _ _ _ _ _ _ _ _ Haa2) as Hfree. rewrite Hkey, Hsame in Hfree. revert Hfree.
  assert (Hs : held (slot info p req) (w_now w) (w_now w + 60) (w_redis w')).
  { apply (fe_held _ _ (sv_env _ _ _ Hsv)); [lia|]. intros t Htt. rewrite Hrx. specialize (Hheld t ltac:(lia)).
    destruct (redis_get _ _ _); [by eexists | done]. }
  destruct (Hs (w_now w2) ltac:(lia)) as [? ->]. done.
Qed.

Lemma matches_exit_kept ids sid symbol side w w' :
  served ids w w' ->
  List.filter (matches_exit sid symbol side) (w_positions w') = List.filter (matches_exit sid symbol side) (w_positions w).
Proof.
  intros Hsv. assert (Hf : forall rows, List.filter (matches_exit sid symbol side) rows
                                      = List.filter (matches_exit sid symbol side) (List.filter (outside ids) rows)).
  { intros rows. rewrite filter_filter. apply filter_ext. intros q. destruct (matches_exit sid symbol side q) eqn:Em; [|by rewrite andb_false_r].
    unfold matches_exit, owner_row in Em. unfold outside. destruct (p_subscription_id q); [|done]. by rewrite andb_false_r in Em. }
  by rewrite Hf, (sv_rows _ _ _ Hsv), <- Hf.
Qed.

(** The exit's own search finds what the webhook pinned it to. *)
Lemma pinned_found sid d side symbol w :
  side = position_side_value d ->
  (forall q, latest_by opened_at (List.filter (held_by sid (Some (stored_side side))) (w_positions w)) = Some q -> p_symbol q = str_upper symbol) ->
  latest_by opened_at (List.filter (matches_exit sid symbol side) (w_positions w))
  = latest_by opened_at (List.filter (held_by sid (Some (stored_side side))) (w_positions w)).
Proof.
  intros -> Hq. set (rows := List.filter (held_by _ _) _) in *.
  assert (Hf : List.filter (matches_exit sid symbol (position_side_value d)) (w_positions w)
               = List.filter (fun q => String.eqb (p_symbol q) (str_upper symbol)) rows).
  { unfold rows. rewrite filter_filter. apply filter_ext. intros q. unfold matches_exit, held_by.
    destruct (p_strategy_id q =? sid), (String.eqb (p_symbol q) _), (String.eqb (p_side q) _), (is_open q), (owner_row q); done. }
  rewrite Hf. destruct (latest_by opened_at rows) as [q|] eqn:El.
  - apply latest_by_filter; [done|]. apply String.eqb_eq. by apply Hq.
  - apply latest_by_none in El. by rewrite El.
Qed.

Lemma exit_settled strategy p0 p1 v w :
  settled strategy p0 p1 w -> valid_payload p1 v -> is_entry_action (sv_action v) = false ->
  exists d, jget p1 "side" = JStr (position_side_value d)
    /\ forall q, latest_by opened_at (List.filter (held_by (s_id strategy) (Some (stored_side (position_side_value d)))) (w_positions w)) = Some q ->
         sv_symbol v = str_upper (str_strip (p_symbol q)).
Proof.
  intros Hset [Ha (s & Hs & Hv & _) Hd Hreq _] Hx.
  assert (Hd' : exists d, sv_side v = Some d).
  { unfold required_fields in Hreq. destruct (sv_action v), (sv_side v); try done; eauto. by rewrite andb_false_r in Hreq. }
  destruct Hd' as [d Ed]. rewrite Ed in Hd. exists d. split; [done|]. intros q Hq.
  assert (Hsame : forall k, k <> "symbol"%string -> jget p1 k = jget p0 k).
  { intros k Hk. unfold jget. destruct Hset as [(_ & side & _ & ->) | (_ & [-> | (symbol & ->)])]; try done;
      [destruct (latest_by _ _); [|done]|]; by rewrite lookup_insert_ne. }
  rewrite Hsame in Ha, Hd by done. destruct Hset as [(_ & side & Hn & ->) | (Hact & _)].
  - rewrite Hd in Hn. assert (side = Some (stored_side (position_side_value d))) as -> by (by destruct d; vm_compute in Hn; injection Hn as <-).
    rewrite Hq in Hs. unfold jget in Hs. rewrite lookup_insert_eq in Hs. simpl in Hs. injection Hs as <-. done.
  - unfold raw_action in Hact. rewrite Ha in Hact. by destruct (sv_action v).
Qed.

(** C14: an exit is aimed at the position that is held.  When an alert is accepted
    as a PARTIAL, EXIT or SL_HIT, then whatever symbol it named, the search of the
    exit handler for its signal finds in the resulting book the most recent open row
    the strategy itself holds on that side, and nothing when it holds none (provided
    the rows' symbols are upper case without outer blanks, as entries write them). *)
Theorem exit_pinned_to_position req w sid strategy_id goes w' g :
  ready w -> receive req w = (Ok (Accepted sid strategy_id goes), w') ->
  In g (pf_signals (w_platform w')) -> g_id g = sid -> g_action g <> "ENTRY"%string ->
  (forall q, In q (w_positions w) -> str_upper (str_strip (p_symbol q)) = p_symbol q) ->
  get_open_position strategy_id (g_symbol g) (payload_side g) w'
  = (Ok (latest_by opened_at (List.filter (held_by strategy_id (Some (stored_side (payload_side g)))) (w_positions w))), w').
Proof.
  intros Hrd E Hin Hid Hact Htidy.
  apply receive_strategy_cases in E as [[_ [(e & [=]) | [=]]] | (info & strategy & p & p1 & v & w1 & sid' & goes' & Haa & Hi & _ & Hr & Hacc)];
    [|apply Hrd..].
  injection Hr as -> -> ->. pose proof (rd_signals _ (ready_idle _ _ Hrd Hi)) as Hfresh. destruct Hi as (rk & ck & Hw).
  destruct Hacc as [Esid Hsig _ _ _ (ids & wx & Hbx & _ & Hsv) _]. destruct (Hsig Hfresh) as (st & _ & Hs).
  rewrite Hs in Hin. apply in_app_or in Hin as [Hin | [<- | []]].
  { rewrite List.Forall_forall in Hfresh. specialize (Hfresh g Hin). simpl in Hfresh. lia. }
  assert (Hx : is_entry_action (sv_action v) = false).
  { revert Hact. unfold signal_row, canonical. by destruct (sv_action v). }
  destruct (aa_settled _ _ _ _ _ _ _ _ _ _ _ _ Haa) as [p0 Hset].
  destruct (exit_settled _ _ _ _ _ Hset (validate_spec _ _ (aa_valid _ _ _ _ _ _ _ _ _ _ _ _ Haa)) Hx) as (d & Hd & Hsym).
  set (g := signal_row _ _ _ _ _ _ <| g_status := st |>).
  assert (Hg : g_symbol g = sv_symbol v /\ payload_side g = position_side_value d).
  { unfold g, signal_row, canonical, payload_side. destruct (sv_action v); try done; cbn; rewrite Hd; by destruct d. }
  destruct Hg as [-> ->]. unfold get_open_position, gets. f_equal. f_equal.
  rewrite (matches_exit_kept _ _ _ _ _ _ Hsv), (sb_positions _ _ Hbx), (sb_positions _ _ (sw_book _ _ _ _ Hw)).
  apply (pinned_found _ d); [done|]. intros q Hq. rewrite (Hsym q Hq), str_upper_idem. symmetry. apply Htidy.
  by apply latest_by_in, filter_In in Hq as [Hq _].
Qed.

(** The rows after an alert. *)
Lemma receive_strategy_rows req w r w' :
  book_inv w -> Forall (fun s => 0 <= entry_lots s) (w_strategies w) -> receive req w = (r, w') ->
  exists ids w1, w_positions w1 = w_positions w /\ w_next_id w <= w_next_id w1
    /\ (w_positions w' = w_positions w /\ w_next_id w <= w_next_id w'
        \/ served ids w1 w' /\ (one_open (w_positions w) -> one_open (w_positions w'))).
Proof.
  intros Hb Hl E.
  apply receive_strategy_cases in E as [[(rk & ck & Hw) _] | (info & strategy & p & p1 & v & w1 & sid' & goes' & _ & (rk & ck & Hw) & _ & _ & Hacc)];
    [| |done..]; pose proof (sw_book _ _ _ _ Hw) as Hsb.
  - exists [], w. split_and!; try done. left. split; apply Hsb.
  - destruct Hacc as [_ _ _ _ _ (ids & wx & Hbx & _ & Hsv) Hone]. exists ids, wx.
    pose proof (sb_next _ _ Hsb). pose proof (sb_next _ _ Hbx). rewrite (sb_positions _ _ Hbx), (sb_positions _ _ Hsb).
    split_and!; [done | lia|]. right. split; [done|]. by rewrite <- (sb_positions _ _ Hsb).
Qed.
End Claims.

(** ** Concrete alerts *)

#[local] Instance plain_coercion : Coercion := {
  to_int := fun j => match j with JInt z => Some z | _ => None end;
  to_float := fun j => match float_of_json j with FloatOk x => Some x | _ => None end;
  to_decimal := decimal_of_json;
  to_bool := fun j => match j with JBool b => Some b | _ => None end;
  object_str := fun _ => "?"%string
}.

(** Two bodies: an entry, and an exit that names another contract. *)
Definition strategy_loads (body : string) : option json :=
  if String.eqb body "entry" then
    Some (JDict [("action", JStr "BUY"); ("symbol", JStr " bse-aug2026-fut "); ("quantity", JInt 375); ("signal_id", JStr "s1")]%string)
  else if String.eqb body "exit" then
    Some (JDict [("action", JStr "EXIT"); ("symbol", JStr "BSE1!"); ("side", JStr "long")]%string)
  else None.

Definition strategy_alert (body : string) : strategy_request :=
  {| sr_token := "token-0123456789"; sr_body := body; sr_signature := ""; sr_client_ip := None |}.

Definition bound_sample : Strategy :=
  {| s_id := 2; s_user_id := 1; s_broker_credential_id := Some 5; entry_lots := 4; partial_profit_lots := 1;
     partial_profit_target_pct := None; trail_offset_pct := None; hard_sl_pct := None; ai_validation_enabled := false;
     exit_strategy_type := "internal"; strategy_json := None; is_paper := Some false; s_is_active := true;
     s_webhook_token_id := Some 7; allowed_symbols := [] |}.

(** Ten o'clock in India, the strategy bound to the token. *)
Definition strategy_world : world ScriptedBroker store :=
  sample_world <| w_now := 16200 |>
    <| w_strategies := [bound_sample] |>
    <| w_platform ::= fun f =>
         f <| pf_users := [{| u_id := 1; u_is_active := true |}] |>
           <| pf_webhook_tokens := [{| wt_id := 7; wt_user_id := 1; wt_token_hash := "token-0123456789";
                                       wt_hmac_secret_enc := "secret-"; wt_is_active := true |}] |> |>.

Definition no_digest (s : string) : string := s.
Definition no_keyed (k s : string) : string := String.append k s.
Definition no_dumps (p : payload) : string := ""%string.
Definition ample_margin (s : SubscriberRef) (n : Z) (symbol : string) : result exn (bool * string) := Ok (true, "ok"%string).

Abbreviation handle body :=
  (receive_strategy_signal sample_settings no_digest no_keyed strategy_loads no_dumps (fun _ => empty_master) (fun _ => None)
     ample_margin (strategy_alert body)).

Lemma strategy_world_ready : ready strategy_world.
Proof.
  split; [by apply (book_inv_ext sample_world); [exact sample_book|..] | | constructor].
  constructor; [vm_compute; discriminate | constructor].
Qed.

Lemma strategy_signal_canonical_witness :
  let w := strategy_world in
  let r := fst (handle "entry" strategy_world) in
  let w' := snd (handle "entry" strategy_world) in
  w_orders w' = w_orders w /\
  ((w_positions w' = w_positions w /\ w_executions w' = w_executions w
    /\ pf_signals (w_platform w') = pf_signals (w_platform w) /\ pf_queue (w_platform w') = pf_queue (w_platform w)
    /\ ((exists e, r = Err e) \/ r = Ok Duplicate))
   \/ exists info strategy p p1 v g goes released,
        admitted_alert sample_settings no_digest no_keyed strategy_loads no_dumps (strategy_alert "entry") info strategy p p1 v w
        /\ r = Ok (Accepted (g_id g) (s_id strategy) goes)
        /\ pf_signals (w_platform w') = pf_signals (w_platform w) ++ [g]
        /\ canonical_signal g /\ g_strategy_id g = s_id strategy /\ g_user_id g = ti_user_id info
        /\ (goes = false -> g_action g = "EXIT"%string /\ market_shield_enabled sample_settings = true)
        /\ pf_queue (w_platform w') = pf_queue (w_platform w) ++ released
             ++ (if goes then [(g_id g, action_kind_of (fst (canonical v p1)))] else [])
        /\ Forall (fun e => e.2 = "exit"%string) released /\ (length released <= 1)%nat
        /\ (market_shield_enabled sample_settings = false -> released = [])).
Proof.
  exact (strategy_signal_canonical sample_settings no_digest no_keyed strategy_loads no_dumps (fun _ => empty_master) (fun _ => None)
           ample_margin (strategy_alert "entry") strategy_world (fst (handle "entry" strategy_world)) (snd (handle "entry" strategy_world))
           strategy_world_ready (surjective_pairing (handle "entry" strategy_world))).
Defined.

Lemma handle_accepted body : fst (handle body strategy_world) = Ok (Accepted 1000 2 true) ->
  handle body strategy_world = (Ok (Accepted 1000 2 true), snd (handle body strategy_world)).
Proof. intros <-. apply surjective_pairing. Qed.

Lemma entry_accepted : fst (handle "entry" strategy_world) = Ok (Accepted 1000 2 true).
Proof. vm_compute. reflexivity. Qed.

Lemma exit_accepted : fst (handle "exit" strategy_world) = Ok (Accepted 1000 2 true).
Proof. vm_compute. reflexivity. Qed.

Definition strategy_info : token_info := {| ti_user_id := 1; ti_token_id := 7; ti_hmac_secret := "secret-" |}.
Definition entry_fields : payload :=
  fields [("action", JStr "BUY"); ("symbol", JStr " bse-aug2026-fut "); ("quantity", JInt 375); ("signal_id", JStr "s1")]%string.

Lemma entry_genuine (w : world ScriptedBroker store) :
  token_seen no_digest w "token-0123456789" = Some strategy_info ->
  strategy_authentic sample_settings no_digest no_keyed strategy_loads no_dumps (strategy_alert "entry") strategy_info
    (delete "signature"%string entry_fields) w.
Proof. intros Ht. split; [done|]. by exists entry_fields. Qed.

(** The same alert half a minute later. *)
Definition repeat_world : world ScriptedBroker store := snd (handle "entry" strategy_world) <| w_now := 16230 |>.

Lemma repeat_world_ready : ready repeat_world.
Proof.
  split.
  - apply (book_inv_ext sample_world); [exact sample_book | vm_compute; reflexivity | vm_compute; discriminate].
  - assert (Hs : w_strategies repeat_world = [bound_sample]) by (vm_compute; reflexivity). rewrite Hs.
    constructor; [vm_compute; discriminate | constructor].
  - assert (Hs : map g_id (pf_signals (w_platform repeat_world)) = [1000]) by (vm_compute; reflexivity).
    assert (Hn : w_next_id repeat_world = 1001) by (vm_compute; reflexivity). rewrite Hn.
    apply List.Forall_forall. intros g Hg. apply (in_map g_id) in Hg. rewrite Hs in Hg. destruct Hg as [<- | []]. lia.
Qed.

Lemma repeat_token : token_seen no_digest repeat_world "token-0123456789" = Some strategy_info.
Proof. vm_compute. reflexivity. Qed.

Lemma repeat_slot t :
  redis_get (strategy_key no_digest strategy_info (delete "signature"%string entry_fields) (strategy_alert "entry")) t (w_redis repeat_world)
  = redis_get (strategy_key no_digest strategy_info (delete "signature"%string entry_fields) (strategy_alert "entry")) t
      (w_redis (snd (handle "entry" strategy_world))).
Proof. unfold repeat_world. by destruct (handle "entry" strategy_world). Qed.

Lemma strategy_signal_once_witness :
  let w2 := repeat_world in
  let r2 := fst (handle "entry" repeat_world) in
  let w2' := snd (handle "entry" repeat_world) in
  pf_signals (w_platform w2') = pf_signals (w_platform w2) /\ pf_queue (w_platform w2') = pf_queue (w_platform w2)
  /\ w_positions w2' = w_positions w2 /\ w_executions w2' = w_executions w2 /\ w_orders w2' = w_orders w2
  /\ ((exists e, r2 = Err e) \/ r2 = Ok Duplicate).
Proof.
  assert (Ht : w_now strategy_world <= w_now repeat_world < w_now strategy_world + 60) by (vm_compute; split; [discriminate | reflexivity]).
  exact (strategy_signal_once sample_settings no_digest no_keyed strategy_loads no_dumps (fun _ => empty_master) (fun _ => None)
           ample_margin (strategy_alert "entry") strategy_info (delete "signature"%string entry_fields) strategy_world 1000 2 true
           (snd (handle "entry" strategy_world)) (strategy_alert "entry") strategy_info (delete "signature"%string entry_fields)
           repeat_world (fst (handle "entry" repeat_world)) (snd (handle "entry" repeat_world))
           strategy_world_ready (handle_accepted "entry" entry_accepted) (entry_genuine strategy_world eq_refl)
           repeat_world_ready (entry_genuine repeat_world repeat_token) eq_refl Ht repeat_slot
           (surjective_pairing (handle "entry" repeat_world))).
Defined.

Abbreviation exit_row := (nth 0 (pf_signals (w_platform (snd (handle "exit" strategy_world)))) held_signal).

(** The alert names BSE1!; the strategy holds the August future. *)
Lemma exit_pinned_to_position_witness :
  In exit_row (pf_signals (w_platform (snd (handle "exit" strategy_world)))) /\
  get_open_position 2 (g_symbol exit_row) (payload_side exit_row) (snd (handle "exit" strategy_world))
  = (Ok (latest_by opened_at (List.filter (held_by 2 (Some (stored_side (payload_side exit_row)))) (w_positions strategy_world))),
     snd (handle "exit" strategy_world)).
Proof.
  assert (Hin : In exit_row (pf_signals (w_platform (snd (handle "exit" strategy_world))))).
  { apply nth_In. assert (Hl : length (pf_signals (w_platform (snd (handle "exit" strategy_world)))) = 1%nat) by (vm_compute; reflexivity).
    rewrite Hl. apply Nat.lt_0_1. }
  split; [exact Hin|].
  assert (Hid : g_id exit_row = 1000) by (vm_compute; reflexivity).
  assert (Hact : g_action exit_row <> "ENTRY"%string) by (vm_compute; discriminate).
  assert (Htidy : forall q, In q (w_positions strategy_world) -> str_upper (str_strip (p_symbol q)) = p_symbol q)
    by (intros q [<- | []]; vm_compute; reflexivity).
  exact (exit_pinned_to_position sample_settings no_digest no_keyed strategy_loads no_dumps (fun _ => empty_master) (fun _ => None)
           ample_margin (strategy_alert "exit") strategy_world 1000 2 true (snd (handle "exit" strategy_world)) exit_row
           strategy_world_ready (handle_accepted "exit" exit_accepted) Hin Hid Hact Htidy).
Defined.

(** The exit named BSE1! and is stored under the held contract. *)
Example exit_symbol_pinned : g_symbol exit_row = "BSE-AUG2026-FUT"%string /\ payload_side exit_row = "long"%string.
Proof. vm_compute. auto. Qed.

(** Two active strategies on one token: every alert fails, and its slot is used up. *)
Example two_bound_strategies_fail :
  let two := strategy_world <| w_strategies ::= fun l => l ++ l |> in
  let '(r1, w1) := handle "entry" two in
  let '(r2, w2) := handle "entry" w1 in
  (r1, r2, length (pf_signals (w_platform w2))) = (Err MultipleResultsFound, Ok Duplicate, O).
Proof. vm_compute. reflexivity. Qed.

(** After the close of trading a live alert is refused. *)
Example refused_after_hours : fst (handle "entry" (strategy_world <| w_now := 36000 |>)) = Err (HTTPException 403).
Proof. vm_compute. reflexivity. Qed.
