(* ===== verification/AnomalyShield.v ===== *)
(** * The anomaly shield (backend/app/services/anomaly_shield_service.py)

    Blocks new entries while a bar's indicators are far from their rolling
    distribution: a window of at most 200 indicator vectors per strategy, z-scores
    per indicator, a composite score, a cooldown flag and a marker that makes the
    first entry after the cooldown announce the release.  The vector is that of
    services/_dna_vector.py.  The window's cache entry is what the shield itself
    wrote; sums are left to right (Python 3.11), squares are correctly rounded, and the
    raw value kept beside each extreme z-score is left out. *)

From Stdlib Require Import ZArith Lia List Bool String SpecFloat.
From stdpp Require Import base list strings gmap.
From S2P Require Import Prelude PyText PyFloat PyDecimal PyNum Records Enums Models Safeguards Book Samples DayState AiValidator CircuitBreaker BreakerSafety KillSwitch KillSafety KillGate.

Definition DNA_KEYS : list string :=
  ["PriceSpd"; "RSI"; "ATR"; "RVOL"; "DeltaPwr"; "OFInten"; "VWAPDist"; "FastMA"; "SlowMA"; "LongMA"; "GaussL"; "GaussS";
   "BodyPct"; "Squeeze"; "BearGap"; "BullGap"; "Vol"; "ADX"; "MFI"; "STDir"; "OIBuild"; "MACDH"]%string.

Definition MIN_BARS_REQUIRED : nat := 50.
Definition MAX_BARS_KEPT : nat := 200.
Definition BAR_SECONDS : Z := 900.
Definition BAR_HISTORY_TTL_SECONDS : Z := 604800.
Definition RELEASE_PENDING_TTL_SECONDS : Z := 86400.

Definition bar_key (strategy_id : uuid) : string := String.append "anom:bar:" (z_str strategy_id).
Definition block_key (strategy_id : uuid) : string := String.append "anom:block:" (z_str strategy_id).
Definition release_pending_key (strategy_id : uuid) : string := String.append "anom:release_pending:" (z_str strategy_id).

(** ** The score of one bar *)

(** [coerce_float]; an integer too large for a double raises. *)
Definition dna_float (j : json) : result exn float64 :=
  match float_of_json j with FloatOk x => Ok x | FloatValueError => Ok f_zero | FloatOverflow => Err OverflowError end.

Fixpoint dna_vector (indicators : payload) (keys : list string) : result exn (list float64) :=
  match keys with
  | [] => Ok []
  | k :: keys' => x ← dna_float (jget indicators k); xs ← dna_vector indicators keys'; Ok (x :: xs)
  end.

(** [indicators.get(k)]: only a dictionary has [get]. *)
Definition indicators_to_vector (indicators : json) : result exn (list float64) :=
  match indicators with JDict entries => dna_vector (fields entries) DNA_KEYS | _ => Err AttributeError end.

Definition f_sum (xs : list float64) : float64 := fold_left f_add xs f_zero.
Definition f_len {A : Type} (l : list A) : float64 := f_of_Z (Z.of_nat (length l)).

Definition is_finite (x : float64) : bool := match x with S754_infinity _ | S754_nan => false | _ => true end.

(** [x ** 2]: overflow raises. *)
Definition squared (x : float64) : result exn float64 :=
  let y := f_mul x x in if is_finite x && negb (is_finite y) then Err OverflowError else Ok y.

Fixpoint squares (m : float64) (col : list float64) : result exn (list float64) :=
  match col with
  | [] => Ok []
  | x :: col' => y ← squared (f_sub x m); ys ← squares m col'; Ok (y :: ys)
  end.

(** Mean and population standard deviation of one column. *)
Definition column_stats (col : list float64) : result exn (float64 * float64) :=
  match col with
  | [] => Ok (f_zero, f_zero)
  | _ =>
      let m := f_div (f_sum col) (f_len col) in
      sq ← squares m col;
      Ok (m, f_sqrt (f_div (f_sum sq) (f_len col)))
  end.

Definition column (i : nat) (history : list (list float64)) : list float64 := omap (fun row => row !! i) history.

(** One extreme indicator: its name and rounded z-score. *)
Definition extreme_of (z_threshold : float64) (key : string) (current mean std : float64) : option (string * float64) :=
  if f_leb std f_zero then None
  else
    let z := f_div (f_abs (f_sub current mean)) std in
    if f_ltb z_threshold z then Some (key, f_round 2 z) else None.

(** The statistics of every column, before the current bar is read. *)
Fixpoint all_stats (history : list (list float64)) (i : nat) (keys : list string) : result exn (list (float64 * float64)) :=
  match keys with
  | [] => Ok []
  | _ :: keys' => st ← column_stats (column i history); rest ← all_stats history (S i) keys'; Ok (st :: rest)
  end.

Fixpoint extremes (z_threshold : float64) (keys : list string) (stats : list (float64 * float64)) (current : list float64)
  : list (string * float64) :=
  match keys, stats, current with
  | k :: keys', (m, s) :: stats', x :: current' =>
      let rest := extremes z_threshold keys' stats' current' in
      match extreme_of z_threshold k x m s with Some e => e :: rest | None => rest end
  | _, _, _ => []
  end.

(** [sort(key=z, reverse=True)], stable. *)
Fixpoint insert_extreme (e : string * float64) (l : list (string * float64)) : list (string * float64) :=
  match l with
  | [] => [e]
  | e' :: l' => if f_ltb (snd e) (snd e') then e' :: insert_extreme e l' else e :: l
  end.

Definition sorted_extremes (l : list (string * float64)) : list (string * float64) := fold_right insert_extreme [] l.

(** [min(100.0, (n / 22) * 50.0 + (avg_z / 5.0) * 50.0)]. *)
Definition composite_of (extreme : list (string * float64)) : float64 :=
  match extreme with
  | [] => f_zero
  | _ =>
      let avg_z := f_div (f_sum (map snd extreme)) (f_len extreme) in
      let raw := f_add (f_mul (f_div (f_len extreme) (f_len DNA_KEYS)) (num 50 0)) (f_mul (f_div avg_z (num 5 0)) (num 50 0)) in
      if f_ltb raw (num 100 0) then raw else num 100 0
  end.

Record AnomalyResult : Type := {
  an_tripped : bool;
  an_composite_score : float64;
  an_reason : string;
  an_bars_collected : nat;
  an_extreme : list (string * float64)
}.

Definition quiet_result (reason : string) (n : nat) : AnomalyResult :=
  {| an_tripped := false; an_composite_score := f_zero; an_reason := reason; an_bars_collected := n; an_extreme := [] |}.

Definition history_of (c : option cached) : list (list float64) := match c with Some (CachedBars h) => h | _ => [] end.

(** The last [n] bars. *)
Definition last_bars (n : nat) (history : list (list float64)) : list (list float64) := drop (length history - n) history.

Section Shield.
Context {B R : Type} `{RedisStore R}.
Context (settings : Settings).

Definition anomaly_enabled : bool := black_swan_shield_enabled settings.

(** Recording never fails the signal. *)
Definition record_indicator_bar (strategy_id : uuid) (indicators : json) : M B R unit :=
  if negb anomaly_enabled then mret tt
  else
    _ ← attempt (hit ← cache_get_json (bar_key strategy_id);
                 let history := history_of hit in
                 vec ← from_result (indicators_to_vector indicators);
                 cache_set_json (bar_key strategy_id) (CachedBars (last_bars MAX_BARS_KEPT (history ++ [vec]))) BAR_HISTORY_TTL_SECONDS);
    mret tt.

Definition is_block_active (strategy_id : uuid) : M B R bool :=
  if negb anomaly_enabled then mret false
  else v ← cache_get_json (block_key strategy_id); mret (negb (absent v)).

Definition evaluate (strategy_id : uuid) (indicators : json) : M B R AnomalyResult :=
  if negb anomaly_enabled then mret (quiet_result "disabled" 0)
  else
    hit ← cache_get_json (bar_key strategy_id);
    let history := history_of hit in
    let n := length history in
    if (n <? MIN_BARS_REQUIRED)%nat then mret (quiet_result "warming_up" n)
    else
      '(composite, extreme) ← from_result (
         stats ← all_stats history 0 DNA_KEYS;
         current ← indicators_to_vector indicators;
         let extreme := sorted_extremes (extremes (anomaly_z_threshold settings) DNA_KEYS stats current) in
         Ok (composite_of extreme, extreme));
      let tripped := f_ltb (anomaly_composite_threshold settings) composite in
      mret {| an_tripped := tripped; an_composite_score := f_round 2 composite; an_reason := if tripped then "tripped" else "normal";
              an_bars_collected := n; an_extreme := extreme |}.

Definition cooldown_seconds : Z := Z.max 1 (anomaly_block_bars settings) * BAR_SECONDS.

Definition activate_block (strategy_id : uuid) : M B R Z :=
  _ ← attempt (now ← gets w_now;
               cache_set_json (block_key strategy_id) (CachedText (z_str now)) cooldown_seconds ;;
               cache_set_json (release_pending_key strategy_id) (CachedText "1") RELEASE_PENDING_TTL_SECONDS);
  mret cooldown_seconds.

(** A marker that is an empty text counts as absent. *)
Definition pending_marker (c : option cached) : bool :=
  match c with Some (CachedText s) => negb (String.eqb s "") | Some _ => true | None => false end.

Definition check_and_consume_release (strategy_id : uuid) : M B R bool :=
  if negb anomaly_enabled then mret false
  else
    pending ← cache_get_json (release_pending_key strategy_id);
    if negb (pending_marker pending) then mret false
    else
      blocked ← is_block_active strategy_id;
      if blocked : bool then mret false
      else cache_delete (release_pending_key strategy_id) ;; mret true.
End Shield.

(** ** The cooldown *)

Section Cooldown.
Context {B R : Type} `{RedisStore R} (settings : Settings).
Implicit Types (w : world B R).

Lemma later_cache w now key t : cache_at (w <| w_now := now |>) key t = cache_at w key t.
Proof. done. Qed.

Lemma block_seen sid w :
  black_swan_shield_enabled settings = true ->
  is_block_active settings sid w = (Ok (negb (absent (cache_at w (block_key sid) (w_now w)))), w).
Proof. intros Hen. unfold is_block_active, anomaly_enabled. by rewrite Hen. Qed.

Lemma release_seen sid w :
  black_swan_shield_enabled settings = true ->
  check_and_consume_release settings sid w
  = if pending_marker (cache_at w (release_pending_key sid) (w_now w)) && absent (cache_at w (block_key sid) (w_now w))
    then (Ok true, snd (cache_delete (release_pending_key sid) w)) else (Ok false, w).
Proof.
  intros Hen. unfold check_and_consume_release, anomaly_enabled. rewrite Hen. cbn [negb].
  unfold mbind at 1, M_bind at 1, cache_get_json, gets at 1. fold (cache_at w (release_pending_key sid) (w_now w)).
  destruct (pending_marker _); [|done]. cbn [negb andb]. unfold mbind at 1, M_bind at 1. rewrite block_seen by done.
  by destruct (cache_at w (block_key sid) (w_now w)).
Qed.

(** Both entries a trip writes. *)
Lemma activate_seen sid w r w' :
  activate_block settings sid w = (r, w') ->
  r = Ok (cooldown_seconds settings) /\ w_now w' = w_now w
  /\ (forall t, cache_at w' (block_key sid) t = if t <? w_now w + cooldown_seconds settings then Some (CachedText (z_str (w_now w))) else None)
  /\ (forall t, cache_at w' (release_pending_key sid) t = if t <? w_now w + RELEASE_PENDING_TTL_SECONDS then Some (CachedText "1") else None).
Proof.
  assert (Hcd : 0 < cooldown_seconds settings) by (unfold cooldown_seconds, BAR_SECONDS; lia).
  unfold activate_block. intros E. apply bind_cases in E as [(out & w1 & E1 & E) | (e & -> & E1)]; apply attempt_cases in E1 as (x & Hx & E1); [|done].
  injection E as <- <-. split; [done|]. unfold mbind at 1, M_bind at 1, gets at 1 in E1.
  destruct (cache_set_spec (block_key sid) (CachedText (z_str (w_now w))) (cooldown_seconds settings) w Hcd) as (w2 & E2 & Hn2 & Hk2).
  destruct (cache_set_spec (release_pending_key sid) (CachedText "1") RELEASE_PENDING_TTL_SECONDS w2 ltac:(done)) as (w3 & E3 & Hn3 & Hk3).
  unfold mbind, M_bind in E1. rewrite E2, E3 in E1. injection E1 as <- <-. split; [congruence|]. split; intros t; rewrite Hk3.
  - rewrite decide_False by discriminate. by rewrite Hk2, decide_True.
  - by rewrite decide_True, Hn2.
Qed.

(** The cooldown of a trip.  Once the shield has tripped, and as long as nobody
    else touches its two entries: for the whole cooldown (the configured bars of
    fifteen minutes, at least one) every check finds the strategy blocked and nothing
    is released; from its end on the strategy is free, and the first check of the
    day reports the release exactly once. *)
Theorem anomaly_cooldown_cycle sid w r w1 w2 :
  black_swan_shield_enabled settings = true -> activate_block settings sid w = (r, w1) ->
  (forall t, cache_at w2 (block_key sid) t = cache_at w1 (block_key sid) t) ->
  (forall t, cache_at w2 (release_pending_key sid) t = cache_at w1 (release_pending_key sid) t) ->
  exists cooldown, r = Ok cooldown /\ cooldown = Z.max 1 (anomaly_block_bars settings) * 900
  /\ (w_now w2 < w_now w + cooldown ->
        is_block_active settings sid w2 = (Ok true, w2) /\ check_and_consume_release settings sid w2 = (Ok false, w2))
  /\ (w_now w + cooldown <= w_now w2 ->
        is_block_active settings sid w2 = (Ok false, w2)
        /\ (w_now w2 < w_now w + 86400 -> exists w3, check_and_consume_release settings sid w2 = (Ok true, w3)
             /\ forall w4, (forall t, cache_at w4 (release_pending_key sid) t = cache_at w3 (release_pending_key sid) t) ->
                  check_and_consume_release settings sid w4 = (Ok false, w4))).
Proof.
  intros Hen E Hb Hp. apply activate_seen in E as (-> & Hn & Hbk & Hpk). exists (cooldown_seconds settings).
  split; [done|]. split; [done|]. rewrite block_seen, release_seen by done. rewrite Hb, Hp, Hbk, Hpk.
  unfold RELEASE_PENDING_TTL_SECONDS. split; intros Ht.
  - rewrite (proj2 (Z.ltb_lt _ _) Ht). cbn [absent negb]. by rewrite andb_false_r.
  - rewrite (proj2 (Z.ltb_ge _ _) Ht). split; [done|]. intros Hd. rewrite (proj2 (Z.ltb_lt _ _) Hd). eexists. split; [reflexivity|].
    intros w4 H4. rewrite release_seen by done. rewrite H4.
    destruct (cache_delete_at (release_pending_key sid) w2) as (w3 & E3 & _ & Hk). rewrite E3. cbn [snd]. by rewrite Hk, decide_True.
Qed.

(** The rolling window never holds more than 200 bars, and the bar just recorded is
    its last. *)
Lemma last_bars_bound n history : (length (last_bars n history) <= n)%nat.
Proof. unfold last_bars. rewrite length_skipn. lia. Qed.

Lemma window_bounded sid indicators vec w r w' :
  black_swan_shield_enabled settings = true -> indicators_to_vector indicators = Ok vec ->
  record_indicator_bar settings sid indicators w = (r, w') ->
  exists older, history_of (cache_at w' (bar_key sid) (w_now w')) = older ++ [vec] /\ (length older < 200)%nat.
Proof.
  intros Hen Hv. unfold record_indicator_bar, anomaly_enabled. rewrite Hen. cbn [negb]. intros E.
  apply bind_cases in E as [(out & w1 & E1 & E) | (e & -> & E1)]; apply attempt_cases in E1 as (x & Hx & E1); [|done].
  injection E as <- <-. unfold mbind at 1, M_bind at 1, cache_get_json, gets at 1 in E1. cbv zeta in E1.
  unfold mbind at 1, M_bind at 1, from_result in E1. rewrite Hv in E1. set (h := history_of _) in E1.
  destruct (cache_set_spec (bar_key sid) (CachedBars (last_bars MAX_BARS_KEPT (h ++ [vec]))) BAR_HISTORY_TTL_SECONDS w ltac:(done)) as (w2 & E2 & Hn & Hk).
  rewrite E2 in E1. injection E1 as <- <-. rewrite Hk, decide_True, Hn, (proj2 (Z.ltb_lt _ _)) by (done || (unfold BAR_HISTORY_TTL_SECONDS; lia)).
  pose proof (last_bars_bound MAX_BARS_KEPT (h ++ [vec])) as Hlen. cbn [history_of]. revert Hlen. unfold last_bars, MAX_BARS_KEPT.
  rewrite length_app. cbn [length]. set (k := (length h + 1 - 200)%nat). assert (Hk' : (k <= length h)%nat) by (unfold k; lia).
  rewrite skipn_app, (proj2 (Nat.sub_0_le _ _) Hk'). cbn [drop]. rewrite length_app. cbn [length]. intros Hlen.
  exists (drop k h). split; [done | lia].
Qed.
End Cooldown.

(** ** A concrete trip *)

Definition shielded : Settings := sample_settings <| black_swan_shield_enabled := true |>.

Abbreviation tripped_world := (snd (activate_block shielded 2 sample_world)).

(** Half an hour and two hours after the trip. *)
Lemma anomaly_cooldown_cycle_witness :
  is_block_active shielded 2 (tripped_world <| w_now := 1900 |>) = (Ok true, tripped_world <| w_now := 1900 |>)
  /\ is_block_active shielded 2 (tripped_world <| w_now := 7300 |>) = (Ok false, tripped_world <| w_now := 7300 |>).
Proof.
  assert (Hr : fst (activate_block shielded 2 sample_world) = Ok 3600) by reflexivity. split.
  - destruct (anomaly_cooldown_cycle shielded 2 sample_world (fst (activate_block shielded 2 sample_world)) tripped_world
                (tripped_world <| w_now := 1900 |>) eq_refl (surjective_pairing _) (later_cache _ _ _) (later_cache _ _ _))
      as (cd & E & _ & Hin & _). rewrite Hr in E. injection E as <-. by apply Hin.
  - destruct (anomaly_cooldown_cycle shielded 2 sample_world (fst (activate_block shielded 2 sample_world)) tripped_world
                (tripped_world <| w_now := 7300 |>) eq_refl (surjective_pairing _) (later_cache _ _ _) (later_cache _ _ _))
      as (cd & E & _ & _ & Hout). rewrite Hr in E. injection E as <-. by apply Hout.
Defined.
