(* ===== verification/TradeDna.v ===== *)
(** * Advisory scores of an entry (backend/app/services/trade_dna_service.py and
      probability_engine.py)

    The trade DNA service scores a bar's indicator vector against the closed
    positions of the strategy and side (a weighted vote of the most similar bars), and
    the probability engine folds that score and the anomaly score into a probability,
    a confidence band and a recommendation.  Both only annotate the signal.  The
    cached pool is what the service itself wrote; the text after "ERROR:" is left out;
    similarities are sorted as numbers (the order Python leaves NaNs in is not
    modelled). *)

From Stdlib Require Import ZArith Lia List Bool String SpecFloat.
From stdpp Require Import base list strings gmap.
From S2P Require Import Prelude PyText PyFloat PyDecimal PyNum Records Enums Models Safeguards Book Samples DayState AiValidator CircuitBreaker BreakerSafety.
From S2P Require Import MarketShield KillSwitch KillSafety KillGate AnomalyShield.

Definition MAX_POOL_SIZE : nat := 200.

Definition history_cache_key (strategy_id : uuid) (side : string) : string :=
  String.append "dna:history:" (String.append (z_str strategy_id) (String.append ":" (str_lower side))).

Record DNAMatch : Type := { dm_similarity : float64; dm_is_winner : bool; dm_pnl : float64 }.

Inductive dna_note : Type := DNA_disabled | DNA_insufficient (n wanted : Z) | DNA_error | DNA_ok.

Record DNAResult : Type := {
  dna_enabled : bool;
  dna_score : option float64;
  dna_win_prob : option float64;
  dna_confidence : option float64;
  dna_winners : Z;
  dna_losers : Z;
  dna_sample_size : Z;
  dna_note_of : dna_note;
  dna_top_matches : list DNAMatch
}.

Definition no_score (enabled : bool) (n : Z) (note : dna_note) : DNAResult :=
  {| dna_enabled := enabled; dna_score := None; dna_win_prob := None; dna_confidence := None; dna_winners := 0; dna_losers := 0;
     dna_sample_size := n; dna_note_of := note; dna_top_matches := [] |}.

Definition note_text (n : dna_note) : string :=
  match n with
  | DNA_disabled => "DISABLED"
  | DNA_insufficient n wanted => String.append "INSUFFICIENT_HISTORY:" (String.append (z_str n) (String.append "/" (z_str wanted)))
  | DNA_error => "ERROR:"
  | DNA_ok => "OK"
  end.

Definition json_float (x : option float64) : json := match x with Some f => JFloat f | None => JNull end.

(** [to_payload_dict]. *)
Definition dna_payload (r : DNAResult) : json :=
  JDict [("enabled", JBool (dna_enabled r)); ("score", json_float (dna_score r)); ("win_prob", json_float (dna_win_prob r));
         ("confidence", json_float (dna_confidence r)); ("winners", JInt (dna_winners r)); ("losers", JInt (dna_losers r));
         ("sample_size", JInt (dna_sample_size r)); ("note", JStr (note_text (dna_note_of r)));
         ("top_matches", JList (map (fun m => JDict [("similarity", JFloat (dm_similarity m)); ("is_winner", JBool (dm_is_winner m));
                                                      ("pnl", JFloat (dm_pnl m))]) (dna_top_matches r)))]%string.

(** ** Vectors *)

(** [zip(a, b, strict=True)]. *)
Definition zip_strict {A C : Type} (a : list A) (b : list C) : result exn (list (A * C)) :=
  if (length a =? length b)%nat then Ok (zip a b) else Err ValueError.

Definition normalize (vec means stds : list float64) : result exn (list float64) :=
  ms ← zip_strict means stds;
  zs ← zip_strict vec ms;
  Ok (map (fun '(v, (m, s)) => if f_ltb f_zero s then f_div (f_sub v m) s else f_zero) zs).

Definition magnitude (a : list float64) : float64 := f_sqrt (f_sum (map (fun x => f_mul x x) a)).

(** The product of two positive magnitudes may still round to zero. *)
Definition cosine (a b : list float64) : result exn float64 :=
  ps ← zip_strict a b;
  let dot := f_sum (map (fun '(x, y) => f_mul x y) ps) in
  let mag_a := magnitude a in
  let mag_b := magnitude b in
  if SFeqb mag_a f_zero || SFeqb mag_b f_zero then Ok f_zero
  else if SFeqb (f_mul mag_a mag_b) f_zero then Err ZeroDivisionError
  else Ok (f_div dot (f_mul mag_a mag_b)).

Fixpoint squared_gaps (ps : list (float64 * float64)) : result exn (list float64) :=
  match ps with
  | [] => Ok []
  | (x, y) :: ps' => s ← squared (f_sub x y); ss ← squared_gaps ps'; Ok (s :: ss)
  end.

Definition euclidean (a b : list float64) : result exn float64 :=
  ps ← zip_strict a b; ss ← squared_gaps ps; Ok (f_sqrt (f_sum ss)).

(** [cos * 0.6 + (1.0 / (1.0 + euc)) * 0.4]. *)
Definition similarity (a b : list float64) : result exn float64 :=
  cos ← cosine a b;
  euc ← euclidean a b;
  Ok (f_add (f_mul cos (num 6 (-1))) (f_mul (f_div (num 1 0) (f_add (num 1 0) euc)) (num 4 (-1)))).

Fixpoint matches_of (current : list float64) (pool : list (list float64 * (bool * float64))) : result exn (list DNAMatch) :=
  match pool with
  | [] => Ok []
  | (h, (won, pnl)) :: pool' =>
      s ← similarity current h;
      rest ← matches_of current pool';
      Ok ({| dm_similarity := s; dm_is_winner := won; dm_pnl := pnl |} :: rest)
  end.

(** A stable insertion sort: [before x y] when [y] must come first. *)
Section Sort.
Context {A : Type} (before : A -> A -> bool).

Fixpoint insert_sorted (x : A) (l : list A) : list A :=
  match l with
  | [] => [x]
  | y :: l' => if before x y then y :: insert_sorted x l' else x :: l
  end.

Definition sort_stable (l : list A) : list A := fold_right insert_sorted [] l.
End Sort.

(** ** The vote *)

(** [max(0.0, x)]. *)
Definition clamp0 (x : float64) : float64 := if f_ltb f_zero x then x else f_zero.
(** [min(100.0, x)]. *)
Definition cap100 (x : float64) : float64 := if f_ltb x (num 100 0) then x else num 100 0.

Definition count_f {A : Type} (l : list A) : float64 := f_of_Z (Z.of_nat (length l)).

Definition win_probability_of (top_k : list DNAMatch) : float64 :=
  let weight m := clamp0 (dm_similarity m) in
  let total_weight := f_sum (map weight top_k) in
  if f_ltb f_zero total_weight
  then f_mul (f_div (f_sum (map weight (List.filter dm_is_winner top_k))) total_weight) (num 100 0)
  else match top_k with
       | [] => num 50 0
       | _ => f_mul (f_div (count_f (List.filter dm_is_winner top_k)) (count_f top_k)) (num 100 0)
       end.

(** The double nearest to [n / d], for [n >= 0] and [d > 0]. *)
Definition f_ratio (n d : Z) : float64 :=
  match n with
  | Zpos _ => let '(mz, ez, lz) := SFdiv_core_binary fprec femax n 0 d 0 in binary_round_aux fprec femax false mz ez lz
  | _ => f_zero
  end.

(** The exact sum of non-negative doubles, as a fraction; [None] with an infinity. *)
Fixpoint exact_sum (l : list float64) : option (Z * Z) :=
  match l with
  | [] => Some (0, 1)
  | S754_zero _ :: l' => exact_sum l'
  | S754_finite _ m e :: l' => '(p, q) ← exact_sum l'; let '(a, b) := frac_of m e in Some (a * q + p * b, b * q)
  | _ :: _ => None
  end.

(** [statistics.mean] of non-negative doubles: the exact mean, rounded once. *)
Definition mean (l : list float64) : float64 :=
  match exact_sum l with
  | Some (p, q) => f_ratio p (q * Z.of_nat (length l))
  | None => S754_infinity false
  end.

Definition confidence_of (top_k : list DNAMatch) : float64 :=
  let avg_sim := match top_k with [] => f_zero | _ => mean (map (fun m => clamp0 (dm_similarity m)) top_k) end in
  let won := Z.of_nat (length (List.filter dm_is_winner top_k)) in
  let lost := Z.of_nat (length top_k) - won in
  let consistency := f_div (f_of_Z (Z.abs (won - lost))) (f_of_Z (Z.max 1 (Z.of_nat (length top_k)))) in
  cap100 (f_add (f_mul avg_sim (num 20 0)) (f_mul consistency (num 80 0))).

Definition rounded_match (m : DNAMatch) : DNAMatch :=
  {| dm_similarity := f_round 4 (dm_similarity m); dm_is_winner := dm_is_winner m; dm_pnl := f_round 2 (dm_pnl m) |}.

Definition vote (n : Z) (top_k : list DNAMatch) : DNAResult :=
  let win_prob := win_probability_of top_k in
  let winners := List.filter dm_is_winner top_k in
  {| dna_enabled := true; dna_score := Some (f_round 1 (f_mul (f_sub win_prob (num 50 0)) (num 2 0)));
     dna_win_prob := Some (f_round 1 win_prob); dna_confidence := Some (f_round 1 (confidence_of top_k));
     dna_winners := Z.of_nat (length winners); dna_losers := Z.of_nat (length top_k) - Z.of_nat (length winners);
     dna_sample_size := n; dna_note_of := DNA_ok; dna_top_matches := map rounded_match (take 5 top_k) |}.

(** The scan of a pool that is large enough. *)
Definition scan_pool (top_k : Z) (pool : dna_pool) (indicators : json) : result exn DNAResult :=
  current ← indicators_to_vector indicators;
  current_norm ← normalize current (dp_means pool) (dp_stds pool);
  wp ← zip_strict (dp_winners pool) (dp_pnls pool);
  rows ← zip_strict (dp_vectors pool) wp;
  found ← matches_of current_norm rows;
  let sorted := sort_stable (fun x y => f_ltb (dm_similarity x) (dm_similarity y)) found in
  Ok (vote (Z.of_nat (length (dp_vectors pool))) (take (Z.to_nat (Z.max 1 top_k)) sorted)).

(** ** The training pool *)

Definition trained_on (strategy_id : uuid) (side : string) (cutoff : datetime) (p : StrategyPosition) : bool :=
  (p_strategy_id p =? strategy_id) && String.eqb (p_side p) side
  && opt_is (fun c => cutoff <=? c) (closed_at p) && negb (absent (final_pnl p)).

(** The newest 200 closed rows with their signals. *)
Definition pool_rows (positions : list StrategyPosition) (signals : list StrategySignal) (strategy_id : uuid) (side : string)
    (cutoff : datetime) : list (payload * dec) :=
  let closed := sort_stable (fun p q => default 0 (closed_at p) <? default 0 (closed_at q))
                  (List.filter (trained_on strategy_id side cutoff) positions) in
  take MAX_POOL_SIZE
    (omap (fun p => sid ← p_signal_id p; g ← List.find (fun g => g_id g =? sid) signals; pnl ← final_pnl p; Some (raw_payload g, pnl)) closed).

(** Rows whose indicators are not an object are dropped. *)
Fixpoint pool_vectors (rows : list (payload * dec)) : result exn (list (list float64 * float64)) :=
  match rows with
  | [] => Ok []
  | (p, pnl) :: rows' =>
      match j_or (jget p "indicators") (JDict []) with
      | JDict d => v ← indicators_to_vector (JDict d); rest ← pool_vectors rows'; Ok ((v, float_of_dec pnl) :: rest)
      | _ => pool_vectors rows'
      end
  end.

Definition zeros : list float64 := map (fun _ => f_zero) DNA_KEYS.

Fixpoint normalize_all (vecs : list (list float64)) (means stds : list float64) : result exn (list (list float64)) :=
  match vecs with
  | [] => Ok []
  | v :: vecs' => n ← normalize v means stds; rest ← normalize_all vecs' means stds; Ok (n :: rest)
  end.

Definition build_pool (threshold : float64) (rows : list (payload * dec)) : result exn dna_pool :=
  raw ← pool_vectors rows;
  let vecs := map fst raw in
  let pnls := map snd raw in
  match raw with
  | [] => Ok {| dp_means := zeros; dp_stds := zeros; dp_vectors := []; dp_winners := []; dp_pnls := [] |}
  | _ =>
      stats ← all_stats vecs 0 DNA_KEYS;
      normalized ← normalize_all vecs (map fst stats) (map snd stats);
      Ok {| dp_means := map fst stats; dp_stds := map snd stats; dp_vectors := normalized;
            dp_winners := map (fun pnl => f_ltb threshold pnl) pnls; dp_pnls := pnls |}
  end.

Section Service.
Context {B R : Type}.
Context (settings : Settings).

(** A failed cache write is tolerated only for a pool with rows. *)
Definition load_history_pool (strategy_id : uuid) (side : string) : M B R dna_pool :=
  hit ← cache_get_json (history_cache_key strategy_id side);
  match hit with
  | Some (CachedPool pool) => mret pool
  | _ =>
      rows ← gets (fun w => pool_rows (w_positions w) (pf_signals (w_platform w)) strategy_id side
                              (w_now w - trade_dna_lookback_days settings * 86400));
      pool ← from_result (build_pool (trade_dna_winner_threshold_inr settings) rows);
      let store := cache_set_json (history_cache_key strategy_id side) (CachedPool pool) (trade_dna_cache_ttl_secs settings) in
      match dp_vectors pool with
      | [] => store ;; mret pool
      | _ => _ ← attempt store; mret pool
      end
  end.

Definition dna_evaluate (strategy_id : uuid) (side : string) (indicators : json) : M B R DNAResult :=
  if negb (trade_dna_enabled settings) then mret (no_score false 0 DNA_disabled)
  else
    loaded ← attempt (load_history_pool strategy_id side);
    match loaded with
    | Err _ => mret (no_score true 0 DNA_error)
    | Ok pool =>
        let n := Z.of_nat (length (dp_vectors pool)) in
        if n <? trade_dna_min_history settings then mret (no_score true n (DNA_insufficient n (trade_dna_min_history settings)))
        else from_result (scan_pool (trade_dna_top_k settings) pool indicators)
    end.
End Service.

(** ** The probability engine *)

Inductive confidence_band : Type := BAND_very_high | BAND_high | BAND_medium | BAND_low | BAND_na.
Inductive recommendation : Type := RECO_strong_entry | RECO_entry | RECO_cautious | RECO_skip | RECO_na.
Inductive prob_note : Type := PROB_disabled | PROB_insufficient (dna : option dna_note) | PROB_error | PROB_ok.

Record ProbabilityResult : Type := {
  pr_enabled : bool;
  pr_win_probability : option float64;
  pr_confidence_pct : option float64;
  pr_confidence_band : confidence_band;
  pr_expected_rr : option float64;
  pr_recommendation : recommendation;
  pr_note : prob_note;
  pr_factors : list (string * json)
}.

Definition band_text (b : confidence_band) : string :=
  match b with BAND_very_high => "very_high" | BAND_high => "high" | BAND_medium => "medium" | BAND_low => "low" | BAND_na => "n/a" end.

Definition recommendation_text (r : recommendation) : string :=
  match r with
  | RECO_strong_entry => "strong_entry" | RECO_entry => "entry" | RECO_cautious => "cautious" | RECO_skip => "skip" | RECO_na => "n/a"
  end.

Definition prob_note_text (n : prob_note) : string :=
  match n with
  | PROB_disabled => "DISABLED"
  | PROB_insufficient None => "INSUFFICIENT_INPUTS"
  | PROB_insufficient (Some d) => String.append "INSUFFICIENT_INPUTS (dna_note=" (String.append (note_text d) ")")
  | PROB_error => "ERROR:"
  | PROB_ok => "OK"
  end.

Definition prob_payload (r : ProbabilityResult) : json :=
  JDict [("enabled", JBool (pr_enabled r)); ("win_probability", json_float (pr_win_probability r));
         ("confidence_pct", json_float (pr_confidence_pct r)); ("confidence_band", JStr (band_text (pr_confidence_band r)));
         ("expected_rr", json_float (pr_expected_rr r)); ("recommendation", JStr (recommendation_text (pr_recommendation r)));
         ("note", JStr (prob_note_text (pr_note r))); ("factors", JDict (pr_factors r))]%string.

Definition no_op_result (enabled : bool) (note : prob_note) : ProbabilityResult :=
  {| pr_enabled := enabled; pr_win_probability := None; pr_confidence_pct := None; pr_confidence_band := BAND_na; pr_expected_rr := None;
     pr_recommendation := RECO_na; pr_note := note; pr_factors := [] |}.

Section Engine.
Context (settings : Settings).

(** [max(clamp_min, min(clamp_max, x))]. *)
Definition clamp_prob (x : float64) : float64 :=
  let y := if f_ltb x (probability_clamp_max settings) then x else probability_clamp_max settings in
  if f_ltb (probability_clamp_min settings) y then y else probability_clamp_min settings.

Definition anomaly_score_of (anomaly : option AnomalyResult) : float64 :=
  match anomaly with
  | Some a => if f_ltb f_zero (an_composite_score a) then an_composite_score a else f_zero
  | None => f_zero
  end.

(** The cascade and mode slots are the neutral 50 of the source. *)
Definition final_prob_of (dna_prob anomaly_score : float64) : float64 :=
  let base := f_add (f_add (f_add (f_mul dna_prob (probability_dna_weight settings)) (f_mul (num 50 0) (probability_cascade_weight settings)))
                       (f_mul (num 50 0) (num 15 (-2)))) (f_mul (num 50 0) (num 15 (-2))) in
  clamp_prob (f_add (f_sub base (f_mul anomaly_score (probability_anomaly_penalty_factor settings))) f_zero).

Definition confidence_pct_of (dna_confidence anomaly_score : float64) : float64 :=
  let cascade := f_mul (f_div (num 50 0) (num 100 0)) (num 100 0) in
  cap100 (f_add (f_add (f_mul dna_confidence (num 5 (-1))) (f_mul cascade (num 3 (-1))))
            (f_mul (clamp0 (f_sub (num 100 0) anomaly_score)) (num 2 (-1)))).

Definition band_of (c : float64) : confidence_band :=
  if f_leb (num 75 0) c then BAND_very_high else if f_leb (num 65 0) c then BAND_high
  else if f_leb (num 55 0) c then BAND_medium else BAND_low.

Definition expected_rr_of (p : float64) : float64 :=
  if f_ltb (num 60 0) p then f_add (num 1 0) (f_div (f_sub p (num 50 0)) (num 30 0))
  else let r := f_div p (num 50 0) in if f_ltb (num 3 (-1)) r then r else num 3 (-1).

Definition recommend (final c : float64) : recommendation :=
  if f_leb (num 75 0) final && f_leb (num 65 0) c then RECO_strong_entry
  else if f_leb (num 65 0) final && f_leb (num 55 0) c then RECO_entry
  else if f_leb (num 55 0) final then RECO_cautious else RECO_skip.

Definition factors_of (dna_prob dna_confidence anomaly_score : float64) : list (string * json) :=
  [("dna", JDict [("prob", JFloat (f_round 1 dna_prob)); ("confidence", JFloat (f_round 1 dna_confidence));
                  ("weight", JFloat (probability_dna_weight settings))]);
   ("cascade", JDict [("prob", JFloat (num 50 0)); ("weight", JFloat (probability_cascade_weight settings)); ("stub", JBool true);
                      ("stub_reason", JStr "feature #14 not ported")]);
   ("anomaly", JDict [("composite", JFloat (f_round 2 anomaly_score));
                      ("penalty", JFloat (f_round 2 (f_mul anomaly_score (probability_anomaly_penalty_factor settings))));
                      ("factor", JFloat (probability_anomaly_penalty_factor settings))]);
   ("mode", JDict [("adjustment", JFloat f_zero); ("stub", JBool true); ("stub_reason", JStr "feature #16 not ported")])]%string.

Definition compute_inner (dna_prob dna_confidence anomaly_score : float64) : ProbabilityResult :=
  let final := final_prob_of dna_prob anomaly_score in
  let c := confidence_pct_of dna_confidence anomaly_score in
  {| pr_enabled := true; pr_win_probability := Some (f_round 1 final); pr_confidence_pct := Some (f_round 1 c);
     pr_confidence_band := band_of c; pr_expected_rr := Some (f_round 2 (expected_rr_of dna_prob));
     pr_recommendation := recommend final c; pr_note := PROB_ok; pr_factors := factors_of dna_prob dna_confidence anomaly_score |}.

Definition is_ok (n : dna_note) : bool := match n with DNA_ok => true | _ => false end.

(** A missing probability fails the assertion, which the caller reports. *)
Definition compute (dna : option DNAResult) (anomaly : option AnomalyResult) : ProbabilityResult :=
  if negb (probability_engine_enabled settings) then no_op_result false PROB_disabled
  else
    match dna with
    | Some d =>
        if dna_enabled d && is_ok (dna_note_of d) then
          match dna_win_prob d with
          | Some p => compute_inner p (default f_zero (dna_confidence d)) (anomaly_score_of anomaly)
          | None => no_op_result true PROB_error
          end
        else no_op_result true (PROB_insufficient (Some (dna_note_of d)))
    | None => no_op_result true (PROB_insufficient None)
    end.
End Engine.

(** ** Properties *)

Section Scores.
Context {B R : Type} (settings : Settings).
Implicit Types (w : world B R).

(** A history kept under a side name that no position row carries stays empty. *)
Lemma no_rows_to_train positions signals sid side cutoff :
  Forall (fun p => side_ok p = true) positions -> OrderSide_of side = None -> pool_rows positions signals sid side cutoff = [].
Proof.
  intros Hok Hside. unfold pool_rows. rewrite (filter_ext_in _ (fun _ => false)); [by rewrite List.filter_false|].
  intros p Hp. rewrite List.Forall_forall in Hok. specialize (Hok p Hp). unfold trained_on.
  destruct (String.eqb_spec (p_side p) side) as [E|]; [|by rewrite andb_false_r].
  unfold side_ok in Hok. rewrite E, Hside in Hok. done.
Qed.

(** The DNA service asks for the rows of side long or short, and position rows carry
    buy or sell: however many trades have closed, the pool stays empty and no bar is
    ever scored. *)
Theorem dna_never_warms_up sid side indicators w :
  book_inv w -> side = "long"%string \/ side = "short"%string ->
  trade_dna_enabled settings = true -> 1 <= trade_dna_min_history settings -> 0 < trade_dna_cache_ttl_secs settings ->
  (forall t pool, cache_at w (history_cache_key sid side) t = Some (CachedPool pool) -> dp_vectors pool = []) ->
  exists w', dna_evaluate settings sid side indicators w
             = (Ok (no_score true 0 (DNA_insufficient 0 (trade_dna_min_history settings))), w')
    /\ forall t pool, cache_at w' (history_cache_key sid side) t = Some (CachedPool pool) -> dp_vectors pool = [].
Proof.
  intros Hb Hside Hen Hmin Httl Hcache. unfold dna_evaluate. rewrite Hen. cbn [negb].
  assert (Hok : Forall (fun p => side_ok p = true) (w_positions w)).
  { eapply List.Forall_impl; [|exact (book_rows _ Hb)]. intros p Hp. apply Hp. }
  assert (Hload : exists pool w', load_history_pool settings sid side w = (Ok pool, w') /\ dp_vectors pool = []
            /\ forall t pool, cache_at w' (history_cache_key sid side) t = Some (CachedPool pool) -> dp_vectors pool = []).
  { unfold load_history_pool. unfold mbind at 1, M_bind at 1, cache_get_json, gets at 1.
    fold (cache_at w (history_cache_key sid side) (w_now w)).
    set (empty := {| dp_means := zeros; dp_stds := zeros; dp_vectors := []; dp_winners := []; dp_pnls := [] |}).
    destruct (cache_set_spec (history_cache_key sid side) (CachedPool empty) (trade_dna_cache_ttl_secs settings) w Httl) as (w1 & E1 & _ & Hk).
    assert (Hw1 : forall t pool, cache_at w1 (history_cache_key sid side) t = Some (CachedPool pool) -> dp_vectors pool = []).
    { intros t pool. rewrite Hk, decide_True by done. case_match; [|done]. by intros [= <-]. }
    destruct (cache_at w (history_cache_key sid side) (w_now w)) as [c|] eqn:Ec; [destruct c|].
    9: by exists pool, w; split_and!; [done | eapply Hcache; exact Ec | done].
    all: exists empty, w1; split; [|done]; unfold mbind at 1, M_bind at 1, gets at 1;
      rewrite no_rows_to_train by (done || by destruct Hside as [-> | ->]);
      unfold mbind, M_bind, from_result;
      change (build_pool (trade_dna_winner_threshold_inr settings) []) with (@Ok exn dna_pool empty); cbn [dp_vectors empty]; by rewrite E1. }
  destruct Hload as (pool & w' & E & Hv & Hc). exists w'. split; [|done].
  unfold mbind, M_bind, attempt. rewrite E, Hv. cbn [length Z.of_nat]. by rewrite (proj2 (Z.ltb_lt _ _)) by lia.
Qed.

Lemma f_ltb_leb x y : f_ltb x y = true -> f_leb x y = true.
Proof. unfold f_ltb, f_leb, SFltb, SFleb. by destruct (SFcompare x y) as [[]|]. Qed.

Lemma f_leb_refl x y : f_leb x y = true \/ f_leb y x = true -> f_leb x x = true.
Proof.
  unfold f_leb, SFleb. destruct x as [sx|sx| |sx mx ex]; cbn; try done; try (by destruct sx).
  - intros [E|E]; [done|]. by destruct y as [[]|[]| |[]].
  - intros _. destruct sx; cbn; rewrite Z.compare_refl, Pos.compare_refl; done.
Qed.

(** The published probability is a value within the configured band, rounded to one
    decimal, and a bar without a usable DNA score gets none. *)
Theorem probability_within_band dna anomaly :
  f_leb (probability_clamp_min settings) (probability_clamp_max settings) = true ->
  match pr_win_probability (compute settings dna anomaly) with
  | Some p => exists final, p = f_round 1 final
      /\ f_leb (probability_clamp_min settings) final = true /\ f_leb final (probability_clamp_max settings) = true
  | None => pr_recommendation (compute settings dna anomaly) = RECO_na
  end.
Proof.
  intros Hc. unfold compute. destruct (probability_engine_enabled settings); [|done]. cbn [negb].
  destruct dna as [d|]; [|done]. destruct (dna_enabled d && is_ok (dna_note_of d)); [|done].
  destruct (dna_win_prob d) as [p|]; [|done]. cbn [pr_win_probability compute_inner]. eexists. split; [reflexivity|].
  unfold final_prob_of, clamp_prob. set (x := f_add _ _). clearbody x.
  destruct (f_ltb x _) eqn:Ex; destruct (f_ltb (probability_clamp_min settings) _) eqn:Ey; split; auto using f_ltb_leb.
  all: eapply f_leb_refl; eauto using f_ltb_leb.
Qed.
End Scores.

(** Three winners and a loser: 75% by votes of equal weight, at full similarity. *)
Example vote_of_four :
  let m won := {| dm_similarity := num 1 0; dm_is_winner := won; dm_pnl := num 600 0 |} in
  let r := vote 20 [m true; m true; m false; m true] in
  dna_win_prob r = Some (num 75 0) /\ dna_score r = Some (num 50 0) /\ dna_confidence r = Some (num 60 0)
  /\ dna_winners r = 3 /\ dna_losers r = 1.
Proof. vm_compute. by split_and!. Qed.

(** With the default weights that is 60% and a cautious entry. *)
Example probability_of_four :
  let r := compute (sample_settings <| probability_engine_enabled := true |>)
             (Some {| dna_enabled := true; dna_score := Some (num 50 0); dna_win_prob := Some (num 75 0);
                      dna_confidence := Some (num 60 0); dna_winners := 3; dna_losers := 1; dna_sample_size := 20;
                      dna_note_of := DNA_ok; dna_top_matches := [] |}) None in
  pr_win_probability r = Some (num 60 0) /\ pr_confidence_pct r = Some (num 65 0) /\ pr_recommendation r = RECO_cautious
  /\ pr_confidence_band r = BAND_high.
Proof. vm_compute. by split_and!. Qed.
