(* ===== verification/OptionOrder.v ===== *)
(** * The options order builder (backend/app/services/pine_mapper.py, schemas/pine_webhook.py)

    From a Pine alert and a strategy's options configuration to one option order:
    call or put, strike from the spot price, the contract picked from the listed
    expiries of the scrip master, whole lots.  Coercions of the validation library
    are those of [Coercion]; the order's tag (the strategy's name) is left out, and a
    price Decimal reads as NaN or Infinity counts as unusable. *)

From Stdlib Require Import ZArith Lia List Bool Ascii String Sorted.
From stdpp Require Import base list strings gmap.
From S2P Require Import Prelude PyText PyFloat PyDecimal PyNum SymbolMatch Records Enums Models Samples Calendar TradingCalendar ScripMaster DayState.
From S2P Require Import FuturesResolver AiValidator PineMapper Fanout StrategyWebhook StrategyGate.

(** ** The options block of a strategy *)

Inductive option_mode : Type := OT_auto | OT_CE_only | OT_PE_only.
Inductive strike_method : Type := SM_ATM | SM_OTM_OFFSET | SM_ITM_OFFSET.
Inductive expiry_choice : Type := EX_current_week | EX_next_week | EX_current_month.

Record OptionsConfig : Type := {
  oc_option_type : option_mode;
  oc_method : strike_method;
  oc_offset : Z;
  oc_expiry : expiry_choice;
  oc_premium_budget : option dec;
  oc_product_type : string;
  oc_carry_forward : bool;
  oc_expiry_day_force_close : bool;
  oc_no_intraday_squareoff : bool;
  oc_strike_step : option dec
}.

Definition NRML_ALIASES : list string := ["NRML"; "MARGIN"]%string.

(** One of the spellings of a [Literal]. *)
Definition literal {A : Type} (table : list (string * A)) (j : json) : option A :=
  match j with JStr s => dict_get s table | _ => None end.

(** A field that may be missing: its default, else the validated value. *)
Definition field_or {A : Type} (dflt : A) (parse : json -> option A) (p : payload) (key : string) : option A :=
  match p !! key with None => Some dflt | Some j => parse j end.

Section Config.
Context `{Coercion}.

Definition offset_of (j : json) : option Z := z ← to_int j; if (0 <=? z) && (z <=? 50) then Some z else None.

Definition positive_decimal (j : json) : option (option dec) :=
  match j with JNull => Some None | _ => d ← to_decimal j; if dpos d then Some (Some d) else None end.

(** No other key is allowed. *)
Definition strike_selection_of (j : json) : option (strike_method * Z) :=
  match j with
  | JDict entries =>
      if forallb (fun e => one_of (fst e) ["method"; "offset"]%string) entries then
        method ← field_or SM_ATM (literal [("ATM", SM_ATM); ("OTM_OFFSET", SM_OTM_OFFSET); ("ITM_OFFSET", SM_ITM_OFFSET)]%string)
                   (fields entries) "method";
        offset ← field_or 0 offset_of (fields entries) "offset";
        Some (method, offset)
      else None
  | _ => None
  end.

(** Only carry-forward products. *)
Definition product_of (j : json) : option string :=
  match j with JStr s => if one_of (str_upper (str_strip s)) NRML_ALIASES then Some "NRML"%string else None | _ => None end.

Definition carry_of (j : json) : option bool := b ← to_bool j; if b : bool then Some b else None.

(** [OptionsConfig.model_validate]. *)
Definition validate_options (p : payload) : option OptionsConfig :=
  mode ← field_or OT_auto (literal [("auto", OT_auto); ("CE_only", OT_CE_only); ("PE_only", OT_PE_only)]%string) p "option_type";
  '(method, offset) ← field_or (SM_ATM, 0) strike_selection_of p "strike_selection";
  expiry ← field_or EX_current_week
             (literal [("current_week", EX_current_week); ("next_week", EX_next_week); ("current_month", EX_current_month)]%string) p "expiry";
  budget ← field_or None positive_decimal p "premium_budget_per_lot";
  product ← field_or "NRML"%string product_of p "product_type";
  carry ← field_or true carry_of p "carry_forward";
  force ← field_or true to_bool p "expiry_day_force_close";
  nosq ← field_or true to_bool p "no_intraday_squareoff";
  step ← field_or None positive_decimal p "strike_step";
  Some {| oc_option_type := mode; oc_method := method; oc_offset := offset; oc_expiry := expiry; oc_premium_budget := budget;
          oc_product_type := product; oc_carry_forward := carry; oc_expiry_day_force_close := force; oc_no_intraday_squareoff := nosq;
          oc_strike_step := step |}.

Definition MARKER_KEYS : list string := ["option_type"; "strike_selection"; "expiry"; "product_type"; "carry_forward"]%string.

Definition parse_options_config (strategy : Strategy) : result exn OptionsConfig :=
  match strategy_json strategy with
  | None => Err PineMappingError
  | Some sj =>
      let block := match jget sj "options" with
                   | JNull => if existsb (fun k => negb (absent (sj !! k))) MARKER_KEYS then Some sj else None
                   | JDict entries => Some (fields entries)
                   | _ => None
                   end in
      match block ≫= validate_options with Some c => Ok c | None => Err PineMappingError end
  end.

(** A strategy row has no [instrument_type] attribute of its own; no value that is
    not a string reads as options. *)
Definition is_options_strategy (strategy : Strategy) : bool :=
  match strategy_json strategy with
  | None => false
  | Some sj =>
      match jget sj "instrument_type" with JStr s => String.eqb (str_lower (str_strip s)) "options" | _ => false end
      || match jget sj "options" with JDict _ => true | _ => false end
  end.

Definition enforce_nrml (c : OptionsConfig) : result exn unit :=
  if one_of (str_upper (str_strip (oc_product_type c))) NRML_ALIASES && oc_carry_forward c then Ok tt else Err PineMappingError.
End Config.

(** ** Direction, strike and underlying *)

(** [sub in s]. *)
Fixpoint contains (sub s : text) : bool :=
  match strip_prefix sub s with
  | Some _ => true
  | None => match s with [] => false | _ :: s' => contains sub s' end
  end.

Inductive direction : Type := DIR_long | DIR_short | DIR_exit.

Definition direction_to_side (dir : string) : result exn direction :=
  let d := L (str_upper (str_strip dir)) in
  if existsb (fun m => contains (L m) d) ["EXIT"; "PARTIAL"; "SL"]%string then Ok DIR_exit
  else if contains (L "LONG") d then Ok DIR_long
  else if contains (L "SHORT") d then Ok DIR_short
  else Err PineMappingError.

Definition resolve_option_type (dir : string) (c : OptionsConfig) : result exn string :=
  match oc_option_type c with
  | OT_CE_only => Ok "CE"%string
  | OT_PE_only => Ok "PE"%string
  | OT_auto =>
      side ← direction_to_side dir;
      match side with DIR_long => Ok "CE"%string | DIR_short => Ok "PE"%string | DIR_exit => Err PineMappingError end
  end.

Definition DEFAULT_STRIKE_STEP : dec := Dec 100 0.
Definition OPTIONS_ROLL_MIN_TRADING_DAYS : Z := 2.
Definition OPTIONS_SEGMENT : string := "NSE_FNO".

(** [d.to_integral_value(rounding=ROUND_HALF_UP)]. *)
Definition to_integral (d : dec) : dec := if 0 <=? expo d then d else Dec (signed half_up (coef d) (10 ^ (- expo d))) 0.

Definition resolve_atm_strike (spot step : dec) : result exn dec :=
  if dleb step dzero then Err PineMappingError else Ok (dmul (to_integral (ddiv spot step)) step).

Definition resolve_strike (spot : dec) (option_type : string) (method : strike_method) (offset : Z) (step : dec) : result exn dec :=
  atm ← resolve_atm_strike spot step;
  let ce := String.eqb (str_upper (str_strip option_type)) "CE" in
  let shifted (direction : Z) := Ok (dadd atm (dmul (dec_of_Z (direction * offset)) step)) in
  if offset =? 0 then Ok atm
  else
    match method with
    | SM_ATM => Ok atm
    | SM_OTM_OFFSET => shifted (if ce then 1 else -1)
    | SM_ITM_OFFSET => shifted (if ce then -1 else 1)
    end.

(** The first usable price of the alert. *)
Definition usable_price (j : json) : option dec :=
  if is_blank j then None else d ← decimal_of_json j; if dpos d then Some d else None.

Definition resolve_spot (p : payload) : result exn dec :=
  match union (usable_price (jget p "spot_price")) (usable_price (jget p "price")) with
  | Some d => Ok d
  | None => Err PineMappingError
  end.

Section Builder.
Context `{Coercion}.

Definition signal_direction (p : payload) : string :=
  match stripped_text (jget p "signal_direction") with
  | Some s => str_upper s
  | None => str_upper (str_strip (py_str (default (JStr "") (p !! "type"%string))))
  end.

(** Trailing ones and exclamation marks are dropped. *)
Fixpoint lstrip_chars (drop : ascii -> bool) (s : text) : text :=
  match s with c :: s' => if drop c then lstrip_chars drop s' else s | [] => [] end.

Definition rstrip_tv (s : text) : text :=
  rev (lstrip_chars (fun c => Ascii.eqb c "1" || Ascii.eqb c "!") (rev s)).

Definition underlying_root (p : payload) (strategy : Strategy) : string :=
  let candidate := match stripped_text (jget p "symbol"), jget p "symbol" with
                   | Some _, j => j
                   | None, _ => match allowed_symbols strategy with first :: _ => first | [] => JStr "" end
                   end in
  let token := L (str_upper (str_strip (py_str candidate))) in
  let token := default [] (last (split_on ":"%char token)) in
  let token := default [] (head (split_on "-"%char token)) in
  str_strip (string_of_list_ascii (rstrip_tv token)).

(** ** The contract *)

Definition is_candidate (option_type : string) (strike : dec) (underlying : string) (m : ScripMeta) : bool :=
  String.eqb (mt_segment m) OPTIONS_SEGMENT && bool_decide (mt_option_type m = Some option_type)
  && opt_is (fun k => deqb k strike) (mt_strike_price m) && negb (absent (mt_expiry_date m))
  && (String.eqb underlying "" || starts_with (String.append (str_upper underlying) "-") (str_upper (mt_symbol m))).

Definition expiry_of (m : ScripMeta) : date := default 0 (mt_expiry_date m).

(** [sorted(..., key=expiry)], stable. *)
Fixpoint insert_by_expiry (m : ScripMeta) (l : list ScripMeta) : list ScripMeta :=
  match l with
  | [] => [m]
  | n :: l' => if expiry_of m <=? expiry_of n then m :: l else n :: insert_by_expiry m l'
  end.

Definition eligible_contracts (master : scrip_master) (option_type : string) (strike : dec) (underlying : string) (ref : date)
  : list ScripMeta :=
  foldr insert_by_expiry []
    (List.filter (fun m => OPTIONS_ROLL_MIN_TRADING_DAYS <? trading_days_between ref (expiry_of m) [])
       (List.filter (is_candidate option_type strike underlying) (map snd (metas master)))).

Definition pick_index (e : expiry_choice) : nat := match e with EX_next_week => 1 | _ => 0 end.

Definition pick_option_contract (master : scrip_master) (option_type : string) (strike : dec) (underlying : string) (ref : date)
    (e : expiry_choice) : result exn ScripMeta :=
  match eligible_contracts master option_type strike underlying ref !! pick_index e with
  | Some m => Ok m
  | None => Err PineMappingError
  end.

(** ** The order *)

Definition positive_or_fail (z : option Z) : result exn Z :=
  match z with Some n => if 0 <? n then Ok n else Err PineMappingError | None => Err PineMappingError end.

Definition map_pine_to_option_order (master : scrip_master) (p : payload) (strategy : Strategy) (ref : date) : result exn OrderRequest :=
  if negb (is_options_strategy strategy) then Err PineMappingError
  else
    config ← parse_options_config strategy;
    _ ← enforce_nrml config;
    let dir := signal_direction p in
    side ← direction_to_side dir;
    match side with
    | DIR_exit => Err PineMappingError
    | _ =>
        option_type ← resolve_option_type dir config;
        spot ← resolve_spot p;
        strike ← resolve_strike spot option_type (oc_method config) (oc_offset config) (default DEFAULT_STRIKE_STEP (oc_strike_step config));
        scrip ← pick_option_contract master option_type strike (underlying_root p strategy) ref (oc_expiry config);
        lot_size ← positive_or_fail (union (mt_lot_size scrip) (lot_size_of master (mt_security_id scrip)));
        lots ← positive_or_fail (Some (entry_lots strategy));
        let order := {| o_symbol := str_strip (mt_symbol scrip); o_exchange := NFO; o_side := BUY; o_quantity := lots * lot_size;
                        o_order_type := MARKET; o_product_type := MARGIN; o_price := None; o_trigger_price := None; o_tag := None |} in
        if order_request_ok order then Ok order else Err ValidationError
    end.

(** What the options executor asks for: the configuration first, then the order of
    the day. *)
Definition option_order (master : scrip_master) (p : payload) (strategy : Strategy) (now : datetime) : result exn (string * Z) :=
  _ ← parse_options_config strategy;
  order ← map_pine_to_option_order master p strategy (ist_date now);
  Ok (o_symbol order, o_quantity order).
End Builder.

(** ** The pick *)

Lemma insert_by_expiry_perm m l : insert_by_expiry m l ≡ₚ m :: l.
Proof. induction l as [|n l IH]; simpl; [done|]. case_match; [done|]. rewrite IH. apply Permutation_swap. Qed.

Lemma by_expiry_perm l : foldr insert_by_expiry [] l ≡ₚ l.
Proof. induction l as [|m l IH]; simpl; [done|]. by rewrite insert_by_expiry_perm, IH. Qed.

Definition sooner (m n : ScripMeta) : Prop := expiry_of m <= expiry_of n.

Lemma insert_by_expiry_sorted m l : StronglySorted sooner l -> StronglySorted sooner (insert_by_expiry m l).
Proof.
  induction 1 as [|n l Hl IH Hn]; simpl; [by repeat constructor|]. destruct (Z.leb_spec (expiry_of m) (expiry_of n)) as [Hle|Hgt].
  - constructor; [by constructor|]. constructor; [done|]. eapply Forall_impl; [exact Hn|]. unfold sooner. intros; lia.
  - constructor; [done|]. rewrite (insert_by_expiry_perm m l). constructor; [unfold sooner; lia | done].
Qed.

Lemma by_expiry_sorted l : StronglySorted sooner (foldr insert_by_expiry [] l).
Proof. induction l as [|m l IH]; simpl; [constructor | by apply insert_by_expiry_sorted]. Qed.

(** A listed contract of the leg, far enough from its expiry. *)
Definition tradeable (master : scrip_master) (option_type : string) (strike : dec) (underlying : string) (ref : date) (m : ScripMeta) : Prop :=
  In m (map snd (metas master)) /\ is_candidate option_type strike underlying m = true
  /\ 2 < trading_days_between ref (expiry_of m) [].

Lemma eligible_in master ot strike u ref m : In m (eligible_contracts master ot strike u ref) <-> tradeable master ot strike u ref m.
Proof.
  unfold eligible_contracts. rewrite <- list_elem_of_In, by_expiry_perm, list_elem_of_In, !filter_In, Z.ltb_lt.
  unfold tradeable, OPTIONS_ROLL_MIN_TRADING_DAYS. tauto.
Qed.

Section Orders.
Context `{Coercion}.

(** The nearest eligible contract, except for next_week. *)
Lemma pick_first master ot strike u ref e m :
  pick_option_contract master ot strike u ref e = Ok m ->
  tradeable master ot strike u ref m
  /\ (e <> EX_next_week -> forall n, tradeable master ot strike u ref n -> expiry_of m <= expiry_of n).
Proof.
  unfold pick_option_contract. destruct (_ !! _) as [m'|] eqn:E; [|done]. intros [= ->]. split.
  - apply eligible_in. rewrite <- list_elem_of_In. by eapply list_elem_of_lookup_2.
  - intros He n Hn. assert (Hi : pick_index e = 0%nat) by (by destruct e). rewrite Hi in E. apply eligible_in in Hn.
    pose proof (by_expiry_sorted (List.filter (fun m => OPTIONS_ROLL_MIN_TRADING_DAYS <? trading_days_between ref (expiry_of m) [])
       (List.filter (is_candidate ot strike u) (map snd (metas master))))) as Hs.
    fold (eligible_contracts master ot strike u ref) in Hs. destruct (eligible_contracts master ot strike u ref) as [|c l]; [done|].
    injection E as ->. destruct Hn as [<- | Hn]; [lia|]. apply StronglySorted_inv in Hs as [_ Hs]. rewrite List.Forall_forall in Hs.
    by apply Hs.
Qed.

(** A configuration that passes validation is carry-forward. *)
Lemma validated_product p c : validate_options p = Some c -> oc_product_type c = "NRML"%string.
Proof.
  unfold validate_options. intros E. apply bind_Some in E as (mode & _ & E). apply bind_Some in E as ([method offset] & _ & E).
  apply bind_Some in E as (expiry & _ & E). apply bind_Some in E as (budget & _ & E). apply bind_Some in E as (product & Hp & E).
  repeat (apply bind_Some in E as (? & _ & E)). injection E as <-. cbn [oc_product_type].
  unfold field_or in Hp. destruct (p !! _) as [j|]; [|by injection Hp as <-].
  unfold product_of in Hp. destruct j; try done. case_match; [by injection Hp as <- | done].
Qed.

(** The order a bullish or a bearish alert builds. *)
Definition leg_of (mode : option_mode) (long : bool) : string :=
  match mode with OT_CE_only => "CE" | OT_PE_only => "PE" | OT_auto => if long then "CE" else "PE" end.

End Orders.

(** ** Orders that cannot be built *)

(** A contract no row offers cannot be picked. *)
Lemma no_candidate_no_pick master ot strike u ref e :
  (forall m, In m (map snd (metas master)) -> mt_option_type m = None) -> pick_option_contract master ot strike u ref e = Err PineMappingError.
Proof.
  intros Hnone. unfold pick_option_contract. destruct (_ !! _) as [m|] eqn:E; [|done].
  apply list_elem_of_lookup_2, list_elem_of_In, eligible_in in E as (Hin & Hc & _). unfold is_candidate in Hc. rewrite (Hnone _ Hin) in Hc.
  rewrite bool_decide_eq_false_2, !andb_false_r, ?andb_false_l in Hc by done. discriminate Hc.
Qed.

Lemma strike_err spot ot method offset step e : resolve_strike spot ot method offset step = Err e -> e = PineMappingError.
Proof.
  unfold resolve_strike, resolve_atm_strike. destruct (dleb _ _); cbn; [by intros [= <-]|].
  by destruct (offset =? 0), method.
Qed.

Lemma direction_err dir e : direction_to_side dir = Err e -> e = PineMappingError.
Proof. unfold direction_to_side. repeat case_match; by intros [= <-]. Qed.

Lemma option_type_err dir c e : resolve_option_type dir c = Err e -> e = PineMappingError.
Proof.
  unfold resolve_option_type. destruct (oc_option_type c); [|done..]. destruct (direction_to_side dir) as [[]|e'] eqn:Hd; cbn; try done.
  - by intros [= <-].
  - intros [= <-]. by apply direction_err in Hd.
Qed.

Section Dead.
Context `{Coercion}.

Lemma options_config_err strategy e : parse_options_config strategy = Err e -> e = PineMappingError.
Proof.
  unfold parse_options_config. destruct (strategy_json strategy) as [sj|]; [|by intros [= <-]]. destruct (_ ≫= _); [done | by intros [= <-]].
Qed.

(** Every step before the validation of the order fails with a mapping error, so a
    failing pick fails the whole builder that way. *)
Lemma failing_pick master p strategy ref :
  (forall ot strike u e, pick_option_contract master ot strike u ref e = Err PineMappingError) ->
  map_pine_to_option_order master p strategy ref = Err PineMappingError.
Proof.
  intros Hpick. unfold map_pine_to_option_order. destruct (is_options_strategy strategy); [cbn [negb]; cbv zeta|done].
  destruct (parse_options_config strategy) as [c|e] eqn:Hc; [|by rewrite (options_config_err _ _ Hc)]. cbn. unfold enforce_nrml.
  destruct (_ && _); [|done]. cbn [mbind result_bind].
  destruct (direction_to_side _) as [side|e] eqn:Hd; [|by rewrite (direction_err _ _ Hd)]. cbn [mbind result_bind].
  destruct side; [| |done].
  all: destruct (resolve_option_type _ _) as [ot|e] eqn:Ho; [|by rewrite (option_type_err _ _ _ Ho)]; cbn [mbind result_bind].
  all: unfold resolve_spot; destruct (union _ _); [cbn [mbind result_bind]|done].
  all: destruct (resolve_strike _ _ _ _ _) as [k|e] eqn:Ek; [by cbn [mbind result_bind]; rewrite Hpick | by rewrite (strike_err _ _ _ _ _ _ Ek)].
Qed.

(** An alert that went through the Pine mapper carries its direction under
    [pine_type], where the options builder does not look: the builder refuses every
    such alert, whatever the strategy and the contract list. *)
Theorem mapped_alert_builds_no_option scrip now raw owner p master strategy ref :
  map_to_tradetri_payload scrip now raw owner = Ok p -> map_pine_to_option_order master p strategy ref = Err PineMappingError.
Proof.
  intros E.
  assert (Hd : signal_direction p = ""%string).
  { unfold map_to_tradetri_payload in E. destruct (negb _); [done|]. cbv zeta in E. destruct (dict_get _ PINE_TO_NATIVE) as [[act tag]|]; [|done].
    repeat (apply res_bind_ok in E as (? & _ & E)). injection E as <-. unfold signal_direction, jget.
    rewrite !lookup_insert_ne, !lookup_empty by discriminate. done. }
  unfold map_pine_to_option_order. destruct (is_options_strategy strategy); [cbn [negb]; cbv zeta|done].
  destruct (parse_options_config strategy) as [c|e] eqn:Hc; [|by rewrite (options_config_err _ _ Hc)]. cbn. unfold enforce_nrml.
  destruct (_ && _); [|done]. cbn. by rewrite Hd.
Qed.

(** Rows of the contract list that are option legs but not filed under one of the
    four option instruments. *)
Definition filed_as_option (raw : csv_row) : Prop :=
  mt_option_type (row_meta (normalised raw) None) = None \/ In (row_instrument (normalised raw)) EXCLUDED_INSTRUMENTS.

Lemma ingested_rows_not_options rows m m' :
  Forall filed_as_option rows -> (forall x, In x (map snd (metas m)) -> mt_option_type x = None) ->
  ingest_all EXCLUDED_INSTRUMENTS m rows = Ok m' -> forall x, In x (map snd (metas m')) -> mt_option_type x = None.
Proof.
  intros Hf. revert m. induction Hf as [|raw rows Hraw _ IH]; intros m Hm; cbn [ingest_all]; [by intros [= <-]|].
  intros E. apply res_bind_ok in E as (m1 & E1 & E). apply (IH m1); [|done]. clear IH E. unfold ingest in E1. cbv zeta in E1.
  destruct (skipped _ _) eqn:Hs; [by injection E1 as <-|]. apply res_bind_ok in E1 as (lot & _ & E1). injection E1 as <-.
  assert (Hot : mt_option_type (row_meta (normalised raw) lot) = None).
  { destruct Hraw as [Ho|Hi]; [exact Ho|]. unfold skipped in Hs. rewrite bool_decide_eq_true_2, orb_true_r in Hs; [done | by apply list_elem_of_In]. }
  intros x Hx. apply in_map_iff in Hx as ([k y] & <- & Hx). cbn in Hx. revert Hx. generalize (row_security_id (normalised raw)). intros sid.
  revert Hm. generalize (metas m). intros l Hm. induction l as [|[a b] l IHl]; cbn.
  - intros [[= <- <-] | []]. exact Hot.
  - case_bool_decide; cbn.
    + intros [[= <- <-] | Hx]; [exact Hot|]. apply Hm. cbn. right. by apply (in_map snd) in Hx.
    + intros [[= <- <-] | Hx]; [apply Hm; by left|]. apply IHl; [|done]. intros z Hz. apply Hm. by right.
Qed.

(** The master the process downloads drops every option instrument before the rows
    are stored, so as long as option rows are filed under those instruments no
    option order can be built from it. *)
Theorem production_master_has_no_option rows master p strategy ref :
  Forall filed_as_option rows -> parse_master EXCLUDED_INSTRUMENTS rows = Ok master ->
  map_pine_to_option_order master p strategy ref = Err PineMappingError.
Proof.
  intros Hf E. apply res_bind_ok in E as (m & E & Em). injection Em as <-. apply failing_pick. intros. apply no_candidate_no_pick.
  apply (ingested_rows_not_options rows empty_master m Hf); [by intros x [] | exact E].
Qed.
End Dead.

(** ** A strategy on NIFTY calls *)

Definition chain_row (id : string) (expiry : string) (month : string) : csv_row :=
  [("SEM_SMST_SECURITY_ID", id); ("SEM_TRADING_SYMBOL", String.append "NIFTY-" (String.append month "-24500-CE"));
   ("SEM_INSTRUMENT_NAME", "OPTIDX"); ("SEM_EXM_EXCH_ID", "NSE"); ("SEM_SEGMENT", "D"); ("SEM_LOT_UNITS", "75.0");
   ("SEM_STRIKE_PRICE", "24500.00000"); ("SEM_OPTION_TYPE", "CE"); ("SEM_EXPIRY_DATE", expiry)]%string.

(** Three expiries, one of them too close on 20 August 2026. *)
Definition chain_rows : list csv_row :=
  [chain_row "41" "2026-09-29" "Sep2026"; chain_row "42" "2026-08-25 14:30:00" "Aug2026"; chain_row "40" "2026-08-21" "Aug2026"]%string.

Definition chain : scrip_master := match parse_master [] chain_rows with Ok m => m | Err _ => empty_master end.

Definition options_strategy (block : list (string * json)) : Strategy :=
  {| s_id := 2; s_user_id := 1; s_broker_credential_id := Some 5; entry_lots := 4; partial_profit_lots := 1;
     partial_profit_target_pct := None; trail_offset_pct := None; hard_sl_pct := None;
     ai_validation_enabled := false; exit_strategy_type := "internal"; strategy_json := Some {["options"%string := JDict block]};
     is_paper := Some true; s_is_active := true; s_webhook_token_id := None; allowed_symbols := [] |}.

Definition call_alert : payload :=
  list_to_map [("type", JStr "long_entry"); ("price", JInt 24450); ("symbol", JStr "NSE:NIFTY1!")]%string.

Definition alert_day : date := default 0 (ymd_ord 2026 8 20).

Definition build (block : list (string * json)) (p : payload) : result exn OrderRequest :=
  @map_pine_to_option_order plain_coercion chain p (options_strategy block) alert_day.

(** 24450 rounds half up to 24500; the contract of the 21st is passed over; the next
    week's contract, an out-of-the-money strike that is not listed, an exit. *)
Example call_orders :
  map (fun r => match r with Ok o => Some (o_symbol o, o_quantity o) | Err _ => None end)
    [build [] call_alert; build [("expiry", JStr "next_week")]%string call_alert;
     build [("strike_selection", JDict [("method", JStr "OTM_OFFSET"); ("offset", JInt 1)])]%string call_alert;
     build [] (<["type"%string := JStr "LONG_EXIT"]> call_alert); build [("product_type", JStr "MIS")]%string call_alert]
  = [Some ("NIFTY-AUG2026-24500-CE"%string, 300); Some ("NIFTY-SEP2026-24500-CE"%string, 300); None; None; None].
Proof. vm_compute. reflexivity. Qed.

(** With the production exclusion list the same rows leave nothing to trade. *)
Example excluded_chain :
  match parse_master EXCLUDED_INSTRUMENTS chain_rows with Ok m => metas m | Err _ => map (pair ""%string) (map snd (metas chain)) end = [].
Proof. vm_compute. reflexivity. Qed.

Definition call_order : OrderRequest :=
  {| o_symbol := "NIFTY-AUG2026-24500-CE"; o_exchange := NFO; o_side := BUY; o_quantity := 300; o_order_type := MARKET;
     o_product_type := MARGIN; o_price := None; o_trigger_price := None; o_tag := None |}.

