(* ===== verification/PaperExecutors.v ===== *)
(** * The paper executors for cash equity and options
      (backend/app/services/cash_executor.py, options_executor.py)

    Flag-gated, paper-only executions of the signal worker: an entry opens one row
    from a simulated fill, an exit takes quantity out of the newest open row.  No
    broker is involved.  The options entry asks the order builder of OptionOrder.v, over
    the scrip master of the moment. *)

From Stdlib Require Import ZArith Lia List Bool String.
From stdpp Require Import base list strings gmap.
From S2P Require Import Prelude PyText PyFloat PyDecimal PyNum SymbolMatch Records Enums Models Safeguards Book Ledger Samples AiValidator StrategyExecutor DirectExit.
From S2P Require Import PositionManager KillSwitch BrokerBatch ScripMaster Fanout StrategyWebhook FanoutSafety OptionOrder.

Inductive paper_status : Type :=
| PX_executed | PX_skipped_flag_off | PX_refused_not_paper | PX_refused_shares | PX_refused_short | PX_refused_product
| PX_no_open_position | PX_failed.

#[export] Instance paper_status_eq_dec : EqDecision paper_status.
Proof. solve_decision. Defined.

Record PaperResult : Type := {
  px_status : paper_status;
  px_position_id : option uuid;
  px_symbol : option string;
  px_quantity : Z
}.

Definition px_refused (s : paper_status) : PaperResult :=
  {| px_status := s; px_position_id := None; px_symbol := None; px_quantity := 0 |}.

(** The double lock: the flag, and a strategy explicitly on paper. *)
Definition paper_gate (enabled : bool) (strategy : Strategy) : option PaperResult :=
  if negb enabled then Some (px_refused PX_skipped_flag_off)
  else if negb (bool_decide (is_paper strategy = Some true)) then Some (px_refused PX_refused_not_paper)
  else None.

(** ** The rules of the cash module *)

Definition DEFAULT_ENTRY_SHARES : Z := 2.
Definition MIN_SHARES : Z := 2.

Definition config_field (strategy : Strategy) (key : string) : option json := strategy_json strategy ≫= fun sj => sj !! key.

(** [None]: refused. *)
Definition resolve_shares (strategy : Strategy) : result exn (option Z) :=
  match int_of_json (default (JInt DEFAULT_ENTRY_SHARES) (config_field strategy "entry_shares")) with
  | IntOk shares => Ok (if shares <? MIN_SHARES then None else if negb (shares mod 2 =? 0) then None else Some shares)
  | IntValueError => Ok None
  | IntOverflow => Err OverflowError
  end.

Definition text_field (p : payload) (key : string) : string := str_strip (str_or_empty (jget p key)).

Definition is_short (p : payload) : bool :=
  String.eqb (str_lower (text_field p "side")) "short"
  || existsb (fun key => String.prefix "SHORT_" (str_upper (text_field p key))) ["signal_direction"; "type"; "pine_type"]%string.

(** No value that is not a string reads as a delivery product. *)
Definition is_delivery (j : json) : bool :=
  match j with
  | JNull => true
  | JStr s => one_of (str_upper (str_strip s)) ["DELIVERY"; "CNC"]%string
  | _ => false
  end.

Definition product_violation (strategy : Strategy) (p : payload) : bool :=
  negb (is_delivery (default JNull (config_field strategy "product_type")) && is_delivery (jget p "product_type")).

(** ** Rows *)

Definition paper_row (pid : uuid) (signal : StrategySignal) (strategy : Strategy) (cred_id : uuid) (symbol side : string) (quantity : Z)
    (price : option dec) (now : datetime) : StrategyPosition :=
  {| p_id := pid; p_user_id := g_user_id signal; p_strategy_id := s_id strategy; p_broker_credential_id := cred_id;
     p_signal_id := Some (g_id signal); p_subscription_id := None; p_symbol := symbol; p_side := side;
     total_quantity := quantity; remaining_quantity := quantity; avg_entry_price := price; target_price := None;
     stop_loss_price := None; trail_offset := None; highest_price_seen := None; best_price := None; current_atr := None;
     circuit_breaker_triggered := false; exit_reason := None; status := st_open; last_action := None;
     last_action_at := None; action_history := []; opened_at := now; closed_at := None; final_pnl := None |}.

(** The row with [close_qty] taken out at [exit_price]; both modules hold long legs. *)
Definition paper_closed (p : StrategyPosition) (close_qty : Z) (exit_price : dec) (now : datetime) : StrategyPosition :=
  let left := remaining_quantity p - close_qty in
  let leg_pnl := dmul (dsub exit_price (column_or_zero (avg_entry_price p))) (dec_of_Z close_qty) in
  let p := p <| remaining_quantity := left |> <| final_pnl := Some (dadd (column_or_zero (final_pnl p)) leg_pnl) |> in
  if left <=? 0 then p <| status := st_closed |> <| closed_at := Some now |> else p <| status := st_partial |>.

(** The newest open row of the strategy, whoever it belongs to. *)
Definition open_cash_row (strategy_id : uuid) (p : StrategyPosition) : bool := (p_strategy_id p =? strategy_id) && is_open p.

(** The newest open owner row on an option leg. *)
Definition open_option_row (strategy_id : uuid) (p : StrategyPosition) : bool :=
  (p_strategy_id p =? strategy_id) && is_open p && owner_row p
  && (ends_with (L "-CE") (L (p_symbol p)) || ends_with (L "-PE") (L (p_symbol p))).

Section Executors.
Context {B R : Type}.
Context {CO : Coercion} (settings : Settings) (scrip_cache : datetime -> scrip_master).

(** A simulated fill, persisted as a new row. *)
Definition open_paper_row (signal : StrategySignal) (strategy : Strategy) (symbol side : string) (quantity : Z) : M B R PaperResult :=
  match s_broker_credential_id strategy with
  | None => mret (px_refused PX_failed)
  | Some cred_id =>
      sim ← simulate_fill signal quantity;
      pid ← fresh;
      now ← gets w_now;
      add_position (paper_row pid signal strategy cred_id symbol side quantity (column_of (fr_avg_price sim)) now) ;;
      mret {| px_status := PX_executed; px_position_id := Some pid; px_symbol := Some symbol; px_quantity := quantity |}
  end.

Definition close_paper_row (found : StrategyPosition -> bool) (signal : StrategySignal) (action_kind : string) : M B R PaperResult :=
  position ← gets (fun w => latest_by opened_at (List.filter found (w_positions w)));
  match position with
  | None => mret (px_refused PX_no_open_position)
  | Some p =>
      exit_price ← from_result (decimal_or (jget (raw_payload signal) "price") (JInt 0));
      close_qty ← from_result (exit_close_qty action_kind (raw_payload signal) (remaining_quantity p));
      now ← gets w_now;
      save_position (paper_closed p close_qty exit_price now) ;;
      mret {| px_status := PX_executed; px_position_id := Some (p_id p); px_symbol := Some (p_symbol p); px_quantity := close_qty |}
  end.

Definition execute_cash_entry (signal : StrategySignal) (strategy : Strategy) : M B R PaperResult :=
  match paper_gate (cash_execution_enabled settings) strategy with
  | Some refused => mret refused
  | None =>
      let p := raw_payload signal in
      if is_short p then mret (px_refused PX_refused_short)
      else if product_violation strategy p then mret (px_refused PX_refused_product)
      else
        shares ← from_result (resolve_shares strategy);
        match shares with
        | None => mret (px_refused PX_refused_shares)
        | Some n => open_paper_row signal strategy (g_symbol signal) "long" n
        end
  end.

Definition execute_cash_exit (signal : StrategySignal) (strategy : Strategy) (action_kind : string) : M B R PaperResult :=
  match paper_gate (cash_execution_enabled settings) strategy with
  | Some refused => mret refused
  | None => close_paper_row (open_cash_row (s_id strategy)) signal action_kind
  end.

(** A mapping error fails the entry, anything else is raised. *)
Definition execute_options_entry (signal : StrategySignal) (strategy : Strategy) : M B R PaperResult :=
  match paper_gate (options_execution_enabled settings) strategy with
  | Some refused => mret refused
  | None =>
      now ← gets w_now;
      match option_order (scrip_cache now) (raw_payload signal) strategy now with
      | Err PineMappingError => mret (px_refused PX_failed)
      | Err e => raise e
      | Ok (symbol, quantity) => open_paper_row signal strategy symbol "buy" quantity
      end
  end.

Definition execute_options_exit (signal : StrategySignal) (strategy : Strategy) (action_kind : string) : M B R PaperResult :=
  match paper_gate (options_execution_enabled settings) strategy with
  | Some refused => mret refused
  | None => close_paper_row (open_option_row (s_id strategy)) signal action_kind
  end.
End Executors.

(** ** What they can change *)

(** Everything but the positions and the id counter. *)
Record paper_env {B R : Type} (w w' : world B R) : Prop := {
  pv_executions : w_executions w' = w_executions w;
  pv_credentials : w_credentials w' = w_credentials w;
  pv_strategies : w_strategies w' = w_strategies w;
  pv_platform : w_platform w' = w_platform w;
  pv_redis : w_redis w' = w_redis w;
  pv_broker : w_broker w' = w_broker w;
  pv_orders : w_orders w' = w_orders w;
  pv_now : w_now w' = w_now w;
  pv_next : w_next_id w <= w_next_id w'
}.

Inductive paper_effect {B R : Type} (signal : StrategySignal) (strategy : Strategy) (found : StrategyPosition -> bool) (w : world B R)
  : world B R -> Prop :=
| px_nothing w' : w_positions w' = w_positions w -> paper_effect signal strategy found w w'
| px_opened w' pid cred_id symbol side n price :
    is_paper strategy = Some true -> s_broker_credential_id strategy = Some cred_id -> w_next_id w <= pid < w_next_id w' ->
    w_positions w' = w_positions w ++ [paper_row pid signal strategy cred_id symbol side n price (w_now w)] ->
    paper_effect signal strategy found w w'
| px_closed w' p n price :
    is_paper strategy = Some true -> latest_by opened_at (List.filter found (w_positions w)) = Some p ->
    (0 < remaining_quantity p -> 1 <= n <= remaining_quantity p) ->
    w_positions w' = put_row (paper_closed p n price (w_now w)) (w_positions w) ->
    paper_effect signal strategy found w w'.

Section Effects.
Context {B R : Type} `{BrokerInterface B} `{RedisLaws R} `{Decryptor}.
Context {CO : Coercion} (settings : Settings) (scrip_cache : datetime -> scrip_master).
Implicit Types (w : world B R).

Lemma paper_closed_after p n price now : after_exit p (paper_closed p n price now) n.
Proof.
  unfold after_exit, paper_closed.
  destruct (Z.leb_spec (remaining_quantity p - n) 0) as [Hle|Hgt];
    (split; [by split|]); (split; [reflexivity|]); (split; [reflexivity|]); cbn [set status remaining_quantity].
  - by rewrite (proj2 (Z.ltb_ge 0 (remaining_quantity p - n)) Hle).
  - by rewrite (proj2 (Z.ltb_lt 0 (remaining_quantity p - n)) Hgt).
Qed.

Lemma paper_env_refl w : paper_env w w.
Proof. by split. Qed.

Lemma paper_gate_open enabled strategy : paper_gate enabled strategy = None -> enabled = true /\ is_paper strategy = Some true.
Proof. unfold paper_gate. destruct enabled; [|done]. simpl. case_bool_decide as E; [done | done]. Qed.

Lemma open_paper_spec signal strategy found symbol side n w r w' :
  is_paper strategy = Some true -> open_paper_row signal strategy symbol side n w = (r, w') ->
  paper_env w w' /\ paper_effect signal strategy found w w'.
Proof.
  intros Hp. unfold open_paper_row. destruct (s_broker_credential_id strategy) as [cid|] eqn:Ec.
  2: { intros [= <- <-]. split; [apply paper_env_refl | by apply px_nothing]. }
  unfold simulate_fill. intros E. apply bind_cases in E as [(sim & w1 & E1 & E) | (e & -> & E1)];
    (apply bind_cases in E1 as [(price & w2 & E2 & E1) | (e' & Er & E2)]; injection E2 as Ep <-; [first [done | injection E1 as <- <-]|]); try done.
  2: { split; [apply paper_env_refl | by apply px_nothing]. }
  injection E as <- <-. split; [split; simpl; try done; lia|].
  eapply (px_opened signal strategy found w _ (w_next_id w + 1) cid symbol side n); try done. simpl. lia.
Qed.

Lemma close_paper_spec signal strategy found kind w r w' :
  is_paper strategy = Some true -> close_paper_row found signal kind w = (r, w') ->
  paper_env w w' /\ paper_effect signal strategy found w w'.
Proof.
  intros Hp. unfold close_paper_row. unfold mbind at 1, M_bind at 1, gets at 1.
  destruct (latest_by opened_at _) as [p|] eqn:El.
  2: { intros [= <- <-]. split; [apply paper_env_refl | by apply px_nothing]. }
  intros E. apply bind_cases in E as [(price & w1 & E1 & E) | (e & -> & E1)]; injection E1 as E1 <-.
  2: { split; [apply paper_env_refl | by apply px_nothing]. }
  apply bind_cases in E as [(n & w1 & E2 & E) | (e & -> & E2)]; injection E2 as E2 <-.
  2: { split; [apply paper_env_refl | by apply px_nothing]. }
  injection E as <- <-. split; [by split|]. eapply (px_closed signal strategy found w _ p n price); try done.
  intros Hrem. by eapply exit_close_qty_bounds.
Qed.

(** An entry that was not executed changed nothing. *)
Lemma open_paper_result signal strategy symbol side n w r w' :
  open_paper_row signal strategy symbol side n w = (r, w') -> w' = w \/ exists res, r = Ok res /\ px_status res = PX_executed.
Proof.
  unfold open_paper_row. destruct (s_broker_credential_id strategy) as [cid|]; [|intros [= <- <-]; by left].
  unfold simulate_fill. intros E. apply bind_cases in E as [(sim & w1 & E1 & E) | (e & -> & E1)];
    (apply bind_cases in E1 as [(price & w2 & E2 & E1) | (e' & Er & E2)]; injection E2 as Ep <-); try done; try (by left).
  injection E as <- <-. right. by eexists.
Qed.

Lemma paper_entry_result signal strategy w r w' :
  execute_cash_entry settings signal strategy w = (r, w') \/ execute_options_entry settings scrip_cache signal strategy w = (r, w') ->
  w' = w \/ exists res, r = Ok res /\ px_status res = PX_executed.
Proof.
  intros [E|E].
  - unfold execute_cash_entry in E. destruct (paper_gate _ _); [left; by injection E|].
    destruct (is_short _); [left; by injection E|]. destruct (product_violation _ _); [left; by injection E|].
    apply bind_cases in E as [([n|] & w1 & E1 & E) | (e & -> & E1)]; injection E1 as E1 <-; [by eapply open_paper_result | left; by injection E | by left].
  - unfold execute_options_entry in E. destruct (paper_gate _ _); [left; by injection E|].
    unfold mbind at 1, M_bind at 1, gets at 1 in E. destruct (option_order _ _ _ _) as [[symbol n]|e]; [by eapply open_paper_result|].
    left. by destruct e; injection E.
Qed.

(** The paper executors are contained: an execution changes nothing but positions;
    it changes a position only for a strategy that is explicitly on paper and with
    the module's flag on, by one new row of that strategy, or by taking between one
    and everything that is left out of the newest row its search finds. *)
Theorem paper_executors_contained signal strategy kind w r w' found :
  (execute_cash_entry settings signal strategy w = (r, w') \/ execute_options_entry settings scrip_cache signal strategy w = (r, w')
   \/ (execute_cash_exit settings signal strategy kind w = (r, w') /\ found = open_cash_row (s_id strategy))
   \/ (execute_options_exit settings signal strategy kind w = (r, w') /\ found = open_option_row (s_id strategy))) ->
  paper_env w w' /\ paper_effect signal strategy found w w'
  /\ (w_positions w' <> w_positions w -> cash_execution_enabled settings = true \/ options_execution_enabled settings = true).
Proof.
  assert (Hnone : forall enabled refused, paper_gate enabled strategy = Some refused -> (mret refused : M B R PaperResult) w = (r, w') ->
    paper_env w w' /\ paper_effect signal strategy found w w'
    /\ (w_positions w' <> w_positions w -> cash_execution_enabled settings = true \/ options_execution_enabled settings = true)).
  { intros ? ? _ [= <- <-]. split_and!; [apply paper_env_refl | by apply px_nothing | done]. }
  assert (Hsame : w' = w -> paper_env w w' /\ paper_effect signal strategy found w w').
  { intros ->. split; [apply paper_env_refl | by apply px_nothing]. }
  intros [E | [E | [[E ->] | [E ->]]]].
  - unfold execute_cash_entry in E. destruct (paper_gate _ _) as [refused|] eqn:Eg; [by eapply Hnone|].
    apply paper_gate_open in Eg as [Hen Hp]. apply and_assoc. split; [|by left].
    destruct (is_short _); [apply Hsame; by injection E|]. destruct (product_violation _ _); [apply Hsame; by injection E|].
    apply bind_cases in E as [([n|] & w1 & E1 & E) | (e & -> & E1)]; injection E1 as E1 <-; [| apply Hsame; by injection E | by apply Hsame].
    by eapply open_paper_spec.
  - unfold execute_options_entry in E. destruct (paper_gate _ _) as [refused|] eqn:Eg; [by eapply Hnone|].
    apply paper_gate_open in Eg as [Hen Hp]. apply and_assoc. split; [|by right].
    unfold mbind at 1, M_bind at 1, gets at 1 in E. destruct (option_order _ _ _ _) as [[symbol n]|e]; [by eapply open_paper_spec|].
    apply Hsame. by destruct e; injection E.
  - unfold execute_cash_exit in E. destruct (paper_gate _ _) as [refused|] eqn:Eg; [by eapply Hnone|].
    apply paper_gate_open in Eg as [Hen Hp]. apply and_assoc. split; [|by left]. by eapply close_paper_spec.
  - unfold execute_options_exit in E. destruct (paper_gate _ _) as [refused|] eqn:Eg; [by eapply Hnone|].
    apply paper_gate_open in Eg as [Hen Hp]. apply and_assoc. split; [|by right]. by eapply close_paper_spec.
Qed.

(** A cash entry that is executed is long, for delivery, and of the configured
    shares: two or more and even. *)
Theorem cash_entry_rules signal strategy w res w' :
  execute_cash_entry settings signal strategy w = (Ok res, w') -> px_status res = PX_executed ->
  cash_execution_enabled settings = true /\ is_paper strategy = Some true /\ is_short (raw_payload signal) = false
  /\ product_violation strategy (raw_payload signal) = false
  /\ resolve_shares strategy = Ok (Some (px_quantity res)) /\ 2 <= px_quantity res /\ Z.Even (px_quantity res)
  /\ px_symbol res = Some (g_symbol signal).
Proof.
  unfold execute_cash_entry. destruct (paper_gate _ _) as [refused|] eqn:Eg.
  { unfold paper_gate in Eg. destruct (negb _); [|destruct (negb _)]; try done; injection Eg as <-; by intros [= <- _]. }
  apply paper_gate_open in Eg as [Hen Hp]. destruct (is_short _); [by intros [= <- _]|]. destruct (product_violation _ _); [by intros [= <- _]|].
  intros E Hx. apply bind_ok in E as ([n|] & w1 & E1 & E); injection E1 as E1 <-; [|by injection E as <- _].
  assert (Hq : px_quantity res = n /\ px_symbol res = Some (g_symbol signal)).
  { unfold open_paper_row in E. destruct (s_broker_credential_id strategy); [|by injection E as <- _].
    apply bind_ok in E as (sim & w2 & _ & E). by injection E as <- _. }
  destruct Hq as [-> ->]. split_and!; try done.
  - unfold resolve_shares in E1. destruct (int_of_json _) as [z| |]; try done. destruct (Z.ltb_spec z MIN_SHARES); [done|].
    destruct (negb _); [done|]. injection E1 as <-. unfold MIN_SHARES in *. lia.
  - unfold resolve_shares in E1. destruct (int_of_json _) as [z| |]; try done. destruct (z <? MIN_SHARES); [done|].
    destruct (Z.eqb_spec (z mod 2) 0) as [Hm|]; [|done]. injection E1 as <-. by apply Zeven_equiv, Zeven_bool_iff; rewrite Zeven_mod, Hm.
Qed.
End Effects.
