(* ===== verification/ExpirySweeps.v ===== *)
(** * The expiry sweeps (backend/app/services/futures_expiry_backstop.py,
      options_expiry_sweep.py)

    Two flag-gated passes over the open rows: the backstop closes a futures row that
    has at most two trading sessions left, the options sweep closes a paper option row
    past 15:30 on its expiry day.  Both only rewrite rows.  [master] is the scrip
    master handed in, [daily_bars] the open times of the stored daily candles; a month
    token of year 0 counts as malformed, as in [FuturesResolver.v]. *)

From Stdlib Require Import ZArith Lia List Bool Ascii String.
From stdpp Require Import base list strings gmap relations.
From S2P Require Import Prelude PyText PyFloat PyDecimal PyNum SymbolMatch Records Enums Models Safeguards Book Ledger Samples Calendar TradingCalendar ScripMaster DayState.
From S2P Require Import FuturesResolver PositionManager StrategyExecutor KillSwitch KillSafety StrategyWebhook PaperExecutors.

(** ** Sessions left (futures_expiry_backstop.py) *)

Definition BACKSTOP_SESSIONS : Z := 2.
Definition BACKSTOP_EXIT_REASON : string := "T_2_BACKSTOP".

(** The weekdays among [n] days from [day] that satisfy [keep]. *)
Fixpoint weekdays_where (keep : date -> bool) (n : nat) (day : date) : list date :=
  match n with
  | O => []
  | S n' => let rest := weekdays_where keep n' (day + 1) in
            if (weekday day <? 5) && keep day then day :: rest else rest
  end.

(** [symbol.split("-")[1]]. *)
Definition month_token (symbol : string) : option text :=
  match split_on "-"%char (L symbol) with _ :: token :: _ => Some token | _ => None end.

Definition nominal_expiry (symbol : string) : option date := token ← month_token symbol; last_thursday_of_month token.

Definition derive_holidays_from_expiry (symbol : string) (real_expiry : date) : list date :=
  match nominal_expiry symbol with
  | None => []
  | Some nominal =>
      if nominal <=? real_expiry then []
      else weekdays_where (fun _ => true) (Z.to_nat (nominal - real_expiry)) (real_expiry + 1)
  end.

Definition utc_date (ts : datetime) : date := EPOCH_ORD + ts / DAY_SECONDS.
Definition utc_midnight (d : date) : datetime := (d - EPOCH_ORD) * DAY_SECONDS.

(** [None]: no daily bar in the window, the calendar is unknown. *)
Definition derive_holidays_from_candles (daily_bars : list datetime) (start end_ : date) : option (list date) :=
  match List.filter (fun ts => (utc_midnight start <=? ts) && (ts <? utc_midnight (end_ + 1))) daily_bars with
  | [] => None
  | rows =>
      let traded := map utc_date rows in
      Some (weekdays_where (fun d => negb (existsb (Z.eqb d) traded)) (Z.to_nat (end_ - start)) (start + 1))
  end.

Definition sessions_to_expiry (today expiry : date) (symbol : option string) (holidays : option (list date)) : Z :=
  let holidays := match holidays with
                  | Some h => h
                  | None => match symbol with
                            | Some s => if String.eqb s "" then [] else derive_holidays_from_expiry s expiry
                            | None => []
                            end
                  end in
  trading_days_between today expiry holidays.

Definition backstop_due (today expiry : date) (symbol : option string) (holidays : option (list date)) : bool :=
  if expiry <? today then true else sessions_to_expiry today expiry symbol holidays <=? BACKSTOP_SESSIONS.

(** [_expiry_for]: the listed expiry first, else the last Thursday of the month. *)
Definition futures_expiry (master : option scrip_master) (symbol : string) : option date :=
  match master ≫= fun m => expiry_for m symbol "NSE_FNO" with
  | Some e => Some e
  | None => nominal_expiry symbol
  end.

(** ** Expiry of an option leg (options_expiry_sweep.py) *)

Definition EXPIRY_SQUAREOFF_IST : Z := clock 15 30.

(** One or two digits, three capitals, four digits. *)
Definition DATE_TOKEN : regex :=
  Cat (Grp 1 (Rep is_digit 1 (Some 2%nat) true)) (Cat (Grp 2 (Rep is_upper 3 (Some 3%nat) true)) (Grp 3 (Rep is_digit 4 (Some 4%nat) true))).

(** [pattern.search(s)]: the leftmost match. *)
Fixpoint re_find (r : regex) (s : text) : option caps :=
  match re_match r s with
  | Some cs => Some cs
  | None => match s with [] => None | _ :: s' => re_find r s' end
  end.

Definition derive_option_expiry (master : option scrip_master) (symbol : string) : option date :=
  match master ≫= fun m => expiry_for m symbol "NSE_FNO" with
  | Some e => Some e
  | None =>
      cs ← re_find DATE_TOKEN (L (str_upper symbol));
      month ← month_number (group 2 cs);
      ymd_ord (int_of (group 3 cs)) month (int_of (group 1 cs))
  end.

Definition past_squareoff_cutoff (expiry : date) (now : datetime) : bool :=
  (expiry <? ist_date now) || ((ist_date now =? expiry) && (EXPIRY_SQUAREOFF_IST <=? ist_time now)).

(** ** Closing a row *)

Definition swept_row (p : StrategyPosition) (now : datetime) (reason action order_id : string) (sessions : option Z) : StrategyPosition :=
  p <| remaining_quantity := 0 |> <| status := st_closed |> <| closed_at := Some now |>
    <| exit_reason := Some reason |> <| last_action := Some action |> <| last_action_at := Some now |>
    <| action_history ::= fun h =>
         h ++ [SweepEvent {| se_action := action; se_qty := remaining_quantity p; se_ts := now; se_sessions := sessions;
                             se_broker_order_id := order_id |}] |>.

Definition open_futures_row (p : StrategyPosition) : bool := is_open p && ends_with (L "-FUT") (L (p_symbol p)).

Definition open_leg_row (p : StrategyPosition) : bool :=
  is_open p && (ends_with (L "-CE") (L (p_symbol p)) || ends_with (L "-PE") (L (p_symbol p))).

Record BackstopResult : Type := {
  bs_swept : bool;
  bs_checked : Z;
  bs_fired : Z;
  bs_not_due : Z;
  bs_no_expiry : Z;
  bs_source : option string
}.

Record OptionSweepResult : Type := {
  os_swept : bool;
  os_checked : Z;
  os_closed : Z;
  os_not_expired : Z;
  os_unparseable : Z;
  os_live : Z
}.

#[export] Instance BackstopResult_eta : Eta BackstopResult := fun r =>
  {| bs_swept := bs_swept r; bs_checked := bs_checked r; bs_fired := bs_fired r; bs_not_due := bs_not_due r;
     bs_no_expiry := bs_no_expiry r; bs_source := bs_source r |}.

#[export] Instance OptionSweepResult_eta : Eta OptionSweepResult := fun r =>
  {| os_swept := os_swept r; os_checked := os_checked r; os_closed := os_closed r; os_not_expired := os_not_expired r;
     os_unparseable := os_unparseable r; os_live := os_live r |}.

Section Sweeps.
Context {B R : Type}.
Context (settings : Settings) (master : option scrip_master) (daily_bars : list datetime).

(** [for pos in rows], the counters threaded through. *)
Fixpoint for_rows {A : Type} (body : StrategyPosition -> A -> M B R A) (rows : list StrategyPosition) (acc : A) : M B R A :=
  match rows with
  | [] => mret acc
  | p :: rows' => acc ← body p acc; for_rows body rows' acc
  end.

(** The calendar of one row's window: the given set, else the stored bars. *)
Definition session_window (holidays : option (list date)) (today expiry : date) : option (list date) :=
  match holidays with
  | Some h => Some h
  | None => if today <? expiry then derive_holidays_from_candles daily_bars today expiry else None
  end.

Definition force_exit (p : StrategyPosition) (sessions : Z) : M B R unit :=
  now ← gets w_now;
  oid ← fresh;
  save_position (swept_row p now BACKSTOP_EXIT_REASON "expiry_backstop" (String.append "PAPER-BACKSTOP-" (z_str oid)) (Some sessions)).

Definition backstop_row (holidays : option (list date)) (p : StrategyPosition) (res : BackstopResult) : M B R BackstopResult :=
  now ← gets w_now;
  let today := ist_date now in
  match futures_expiry master (p_symbol p) with
  | None => mret (res <| bs_no_expiry ::= Z.add 1 |>)
  | Some expiry =>
      let window := session_window holidays today expiry in
      let res := res <| bs_source := match window with
                                     | None => Some "weekends-only (no daily coverage)"%string
                                     | Some _ => Some (default "derived"%string (bs_source res))
                                     end |> in
      let known := Some (default [] window) in
      if negb (backstop_due today expiry (Some (p_symbol p)) known) then mret (res <| bs_not_due ::= Z.add 1 |>)
      else
        force_exit p (sessions_to_expiry today expiry (Some (p_symbol p)) known) ;;
        plain_alert CRITICAL "expiry_backstop_fired" (p_symbol p) ;;
        mret (res <| bs_fired ::= Z.add 1 |>)
  end.

Definition sweep_expiry_backstop (holidays : option (list date)) : M B R BackstopResult :=
  let dormant := {| bs_swept := false; bs_checked := 0; bs_fired := 0; bs_not_due := 0; bs_no_expiry := 0; bs_source := None |} in
  if negb (futures_expiry_backstop_enabled settings) then mret dormant
  else
    rows ← gets (fun w => List.filter open_futures_row (w_positions w));
    for_rows (backstop_row holidays) rows (dormant <| bs_swept := true |> <| bs_checked := Z.of_nat (length rows) |>).

Definition close_expired (p : StrategyPosition) : M B R unit :=
  now ← gets w_now;
  oid ← fresh;
  save_position (swept_row p now "expired" "expiry_sweep" (String.append "PAPER-EXPIRY-" (z_str oid)) None).

(** A row is swept only when its strategy is explicitly on paper. *)
Definition option_row (p : StrategyPosition) (res : OptionSweepResult) : M B R OptionSweepResult :=
  now ← gets w_now;
  match derive_option_expiry master (p_symbol p) with
  | None => mret (res <| os_unparseable ::= Z.add 1 |>)
  | Some expiry =>
      if negb (past_squareoff_cutoff expiry now) then mret (res <| os_not_expired ::= Z.add 1 |>)
      else
        strat ← gets (fun w => find_strategy (w_strategies w) (p_strategy_id p));
        if bool_decide ((strat ≫= is_paper) = Some true) then
          close_expired p ;; mret (res <| os_closed ::= Z.add 1 |>)
        else mret (res <| os_live ::= Z.add 1 |>)
  end.

Definition sweep_expired_options : M B R OptionSweepResult :=
  let dormant := {| os_swept := false; os_checked := 0; os_closed := 0; os_not_expired := 0; os_unparseable := 0; os_live := 0 |} in
  if negb (options_execution_enabled settings) then mret dormant
  else
    rows ← gets (fun w => List.filter open_leg_row (w_positions w));
    for_rows option_row rows (dormant <| os_swept := true |> <| os_checked := Z.of_nat (length rows) |>).
End Sweeps.

(** ** The calendar *)

(** C19: a fresh entry is clear of the backstop.  The contract the entry policy picks
    has at least four weekday sessions left, one less for each known holiday, so on
    its entry day the two-session backstop is not due unless the calendar knows of at
    least two holidays. *)
Theorem entry_clear_of_backstop contracts now symbol expiry holidays :
  entry_vehicle_policy contracts now = Some (symbol, expiry) ->
  4 <= sessions_to_expiry (ist_date now) expiry (Some symbol) (Some holidays) + Z.of_nat (length holidays)
  /\ ((length holidays < 2)%nat -> backstop_due (ist_date now) expiry (Some symbol) (Some holidays) = false).
Proof.
  unfold entry_vehicle_policy. intros E%List.find_some. destruct E as [_ Hroll%Z.ltb_lt]. cbn [snd] in Hroll. unfold ENTRY_ROLL_DAYS in Hroll.
  assert (Hs : 4 <= sessions_to_expiry (ist_date now) expiry (Some symbol) (Some holidays) + Z.of_nat (length holidays)).
  { unfold sessions_to_expiry. pose proof (between_holidays holidays (ist_date now) expiry). pose proof (long_window (ist_date now) expiry). lia. }
  split; [done|]. intros Hh. unfold backstop_due. rewrite (proj2 (Z.ltb_ge _ _)) by lia. unfold BACKSTOP_SESSIONS. apply Z.leb_gt. lia.
Qed.

Lemma weekdays_where_in keep n d x :
  In x (weekdays_where keep n d) <-> In x (days_from n d) /\ weekday x < 5 /\ keep x = true.
Proof.
  revert d. induction n as [|n IH]; intros d; [simpl; tauto|]. rewrite days_from_S. cbn [weekdays_where In].
  destruct ((weekday d <? 5) && keep d) eqn:E; cbn [In]; rewrite IH.
  - apply andb_true_iff in E as [E1%Z.ltb_lt E2]. split; [intros [<- | ?]; tauto | intros [[<- | ?] ?]; tauto].
  - split; [tauto|]. intros [[<- | ?] [H5 Hk]]; [|tauto]. apply andb_false_iff in E as [E%Z.ltb_ge | E]; [lia | congruence].
Qed.

(** The expiry the exchange publishes never changes the count: the weekdays that
    a shifted expiry proves to be holidays all lie after it. *)
Theorem published_shift_never_counts today expiry symbol :
  sessions_to_expiry today expiry symbol None = sessions_to_expiry today expiry None None.
Proof.
  unfold sessions_to_expiry. destruct symbol as [s|]; [|done]. destruct (String.eqb s ""); [done|].
  rewrite !between_length. f_equal. f_equal. apply filter_ext_in. intros d Hd%days_from_in. unfold is_trading_day.
  destruct (on_weekend d); [done|]. f_equal. cbn [existsb]. apply not_true_iff_false. intros (x & Hx & <-%Z.eqb_eq)%existsb_exists.
  unfold derive_holidays_from_expiry in Hx. destruct (nominal_expiry s) as [nominal|]; [|done]. destruct (nominal <=? expiry); [done|].
  apply weekdays_where_in in Hx as [Hx%days_from_in _]. lia.
Qed.

(** The stored bars can never show a session to come.  Daily candles are stored
    for closed sessions only, so none is later than today; then the calendar derived
    for a position's window is either unknown or has no session left, and with a bar
    of today the backstop is due for every contract, however far its expiry. *)
Theorem stored_bars_show_no_future_session daily_bars today expiry :
  Forall (fun ts => utc_date ts <= today) daily_bars -> today < expiry ->
  (session_window daily_bars None today expiry = None
   \/ exists holidays, session_window daily_bars None today expiry = Some holidays /\ trading_days_between today expiry holidays = 0)
  /\ (existsb (fun ts => utc_date ts =? today) daily_bars = true ->
      exists holidays, session_window daily_bars None today expiry = Some holidays
        /\ forall symbol, backstop_due today expiry symbol (Some holidays) = true).
Proof.
  intros Hpast Ht. unfold session_window. rewrite (proj2 (Z.ltb_lt _ _) Ht). unfold derive_holidays_from_candles.
  set (rows := List.filter _ daily_bars).
  assert (Hzero : trading_days_between today expiry
    (weekdays_where (fun d => negb (existsb (Z.eqb d) (map utc_date rows))) (Z.to_nat (expiry - today)) (today + 1)) = 0).
  { rewrite between_length. rewrite (filter_ext_in _ (fun _ => false)); [by rewrite List.filter_false|]. intros d Hd. unfold is_trading_day, on_weekend.
    destruct (Z.leb_spec 5 (weekday d)) as [|H5]; [done|]. apply negb_false_iff, existsb_exists. exists d. split; [|apply Z.eqb_refl].
    apply weekdays_where_in. split_and!; [done..|]. apply negb_true_iff, not_true_iff_false. intros (x & Hx & ->%Z.eqb_eq)%existsb_exists.
    apply in_map_iff in Hx as (ts & <- & [Hin _]%filter_In). rewrite List.Forall_forall in Hpast. apply Hpast in Hin.
    apply days_from_in in Hd. lia. }
  split.
  - destruct rows eqn:Er; [by left|]. right. eexists. split; [reflexivity | exact Hzero].
  - intros (ts & Hin & Hts%Z.eqb_eq)%existsb_exists. assert (Hrow : In ts rows).
    { apply filter_In. split; [done|]. unfold utc_date, utc_midnight in *. pose proof (Z.mod_pos_bound ts DAY_SECONDS ltac:(done)).
      pose proof (Z.div_mod ts DAY_SECONDS ltac:(done)). unfold DAY_SECONDS in *. apply andb_true_iff. rewrite Z.leb_le, Z.ltb_lt. nia. }
    destruct rows eqn:Er; [done|]. eexists. split; [reflexivity|]. intros symbol. unfold backstop_due, sessions_to_expiry.
    rewrite Hzero. by destruct (expiry <? today).
Qed.

(** ** A pass over the rows *)

(** The row is emptied and closed, for [reason]; its P&L is left alone. *)
Definition swept_out (reason : string) (p p' : StrategyPosition) : Prop :=
  after_exit p p' (remaining_quantity p) /\ exit_reason p' = Some reason /\ closed_at p' <> None /\ final_pnl p' = final_pnl p.

Lemma swept_row_out p now reason action oid sessions : swept_out reason p (swept_row p now reason action oid sessions).
Proof.
  split; [|done]. split; [by destruct p|]. split; [by destruct p|]. destruct p; simpl_rec. split; [lia | done].
Qed.

Section Pass.
Context {B R : Type}.
Implicit Types (w : world B R).

Lemma paper_env_trans w w1 w2 : paper_env w w1 -> paper_env w1 w2 -> paper_env w w2.
Proof. intros [] []. split; congruence || lia. Qed.

(** Of [rows], exactly those that are [due] were emptied, everything else is as it
    was, and each closed row was announced by its [notes]. *)
Record pass_of (due : StrategyPosition -> bool) (reason : string) (notes : StrategyPosition -> list alert)
    (rows : list StrategyPosition) w w' : Prop := {
  po_rows : Forall2 (fun p p' => (In p rows /\ due p = true /\ swept_out reason p p')
                                 \/ (~ (In p rows /\ due p = true) /\ p' = p)) (w_positions w) (w_positions w');
  po_env : paper_env w w';
  po_alerts : w_alerts w' = w_alerts w ++ concat (map notes (List.filter due rows));
  po_book : book_inv w';
  po_one : one_open (w_positions w) -> one_open (w_positions w');
  po_ledger : rtc ledger_step (exposure (w_positions w)) (exposure (w_positions w'))
}.

(** One row. *)
Lemma close_one reason p p' w w' :
  book_inv w -> In p (w_positions w) -> is_open p = true -> swept_out reason p p' ->
  w_positions w' = put_row p' (w_positions w) -> w_next_id w <= w_next_id w' ->
  book_inv w' /\ (one_open (w_positions w) -> one_open (w_positions w'))
  /\ rtc ledger_step (exposure (w_positions w)) (exposure (w_positions w')).
Proof.
  intros Hb Hin Hop [Ha _] Hrows Hn. pose proof (book_rows _ Hb) as Hall. pose proof (book_fresh _ Hb) as Hfr.
  rewrite List.Forall_forall in Hall, Hfr. specialize (Hfr p Hin). cbn beta in Hfr. specialize (Hall p Hin).
  assert (Hpos : 0 < remaining_quantity p) by (by apply is_open_inv). assert (Hid := same_id _ _ (proj1 Ha)).
  assert (Hq : 0 < remaining_quantity p <= remaining_quantity p) by lia. pose proof (after_exit_inv _ _ _ Hall Hq Ha) as Hinv. destruct Ha as (Hrow & _ & Hrem & _). split_and!.
  - apply (book_inv_update w w' p'); auto. lia.
  - intros Hone. rewrite Hrows. apply (one_open_put p); auto.
  - rewrite Hrows. apply (exposure_leave _ p); auto; [apply Hb | lia].
Qed.

Context {A : Type} (body : StrategyPosition -> A -> M B R A) (due : StrategyPosition -> bool) (reason : string)
        (notes : StrategyPosition -> list alert) (count : A -> Z) (w0 : world B R).
Hypothesis body_spec : forall p acc w, paper_env w0 w -> exists acc' w',
  body p acc w = (Ok acc', w') /\ paper_env w w' /\ count acc' = count acc + (if due p then 1 else 0)
  /\ w_alerts w' = w_alerts w ++ (if due p then notes p else [])
  /\ (if due p then exists p', swept_out reason p p' /\ w_positions w' = put_row p' (w_positions w)
      else w_positions w' = w_positions w).

Lemma for_rows_pass rows acc w :
  paper_env w0 w -> book_inv w -> NoDup (map p_id rows) -> incl rows (w_positions w) -> Forall (fun p => is_open p = true) rows ->
  exists acc' w', for_rows body rows acc w = (Ok acc', w') /\ pass_of due reason notes rows w w'
    /\ count acc' = count acc + Z.of_nat (length (List.filter due rows)).
Proof.
  revert acc w. induction rows as [|p rows IH]; intros acc w Henv Hb Hnd Hin Hop.
  { exists acc, w. split; [done|]. split; [|simpl; lia]. split; try done; [|by rewrite app_nil_r].
    apply Forall_Forall2_diag, Forall_true. intros p. right. by split; [intros [[] _]|]. }
  cbn [map] in Hnd. apply NoDup_cons in Hnd as [Hp Hnd]. rewrite list_elem_of_In in Hp. apply List.Forall_cons_iff in Hop as [Hop Hopen].
  destruct (body_spec p acc w Henv) as (acc1 & w1 & E1 & Henv1 & Hc1 & Ha1 & Hrow).
  pose proof (Hin p (or_introl eq_refl)) as Hinp.
  assert (Hstep : book_inv w1 /\ (one_open (w_positions w) -> one_open (w_positions w1))
            /\ rtc ledger_step (exposure (w_positions w)) (exposure (w_positions w1)) /\ incl rows (w_positions w1)).
  { destruct (due p).
    - destruct Hrow as (p' & Hsw & Hrow). destruct (close_one _ _ _ w w1 Hb Hinp Hop Hsw Hrow (pv_next _ _ Henv1)) as (? & ? & ?).
      split_and!; try done. intros q Hq. rewrite Hrow. apply put_row_other; [by apply Hin; right|].
      intros Heq. apply Hp. rewrite <- (same_id _ _ (proj1 (proj1 Hsw))) in Heq. rewrite <- Heq. by apply in_map.
    - rewrite Hrow. split_and!; try done; [|intros q Hq; apply Hin; by right]. apply (book_inv_ext w); [done | done | apply Henv1]. }
  destruct Hstep as (Hb1 & Ho1 & Hl1 & Hin1).
  destruct (IH acc1 w1 (paper_env_trans _ _ _ Henv Henv1) Hb1 Hnd Hin1 Hopen) as (acc2 & w2 & E2 & Hps & Hc2).
  exists acc2, w2. split_and!.
  - cbn [for_rows]. unfold mbind, M_bind. by rewrite E1.
  - destruct Hps as [Hr2 He2 Ha2 Hb2 Ho2 Hl2]. split; [|by eapply paper_env_trans| |done|auto|by etransitivity].
    + assert (Hfirst : Forall2 (fun q q' => (q = p /\ due p = true /\ swept_out reason q q' /\ p_id q' = p_id p)
                                 \/ (~ (q = p /\ due p = true) /\ q' = q)) (w_positions w) (w_positions w1)).
      { destruct (due p); [|rewrite Hrow; apply Forall_Forall2_diag, Forall_true; intros q; right; by split; [intros [_ ?]|]].
        destruct Hrow as (p' & Hsw & ->). apply Forall2_fmap_r, Forall_Forall2_diag, List.Forall_forall. intros q Hq. simpl. pose proof (same_id _ _ (proj1 (proj1 Hsw))) as Hid.
        destruct (Z.eqb_spec (p_id q) (p_id p')) as [Heq|Hne]; simpl; [left | right].
        - assert (q = p) as ->; [|done]. rewrite <- Hid in Heq. by apply (in_ids_inj (w_positions w)); [apply Hb|..].
        - split; [|done]. intros [-> _]. congruence. }
      eapply Forall2_trans; [|exact Hfirst | exact Hr2]. cbn beta. intros q q1 q2 Hq [(Hi & Hd & Hs) | [Hn ->]].
      * destruct Hq as [(-> & _ & _ & Hid) | [_ ->]]; [|left; split_and!; [by right | done | done]].
        exfalso. apply Hp. rewrite <- Hid. by apply in_map.
      * destruct Hq as [(-> & Hd & Hs & _) | [Hnp ->]]; [left; split_and!; [by left | done | done]|]. right. split; [|done].
        intros [[<- | Hi] Hd]; [by apply Hnp | by apply Hn].
    + rewrite Ha2, Ha1. cbn [List.filter]. destruct (due p); cbn [map concat]; by rewrite <- List.app_assoc.
  - rewrite Hc2, Hc1. cbn [List.filter]. destruct (due p); cbn [length]; lia.
Qed.
End Pass.

(** ** What the sweeps close *)

Section Exact.
Context {B R : Type}.
Context (settings : Settings) (master : option scrip_master) (daily_bars : list datetime).
Implicit Types (w : world B R).

(** The rows the backstop is due for at [now]. *)
Definition backstop_closes (holidays : option (list date)) (now : datetime) (p : StrategyPosition) : bool :=
  match futures_expiry master (p_symbol p) with
  | Some expiry =>
      backstop_due (ist_date now) expiry (Some (p_symbol p)) (Some (default [] (session_window daily_bars holidays (ist_date now) expiry)))
  | None => false
  end.

Definition backstop_alert (p : StrategyPosition) : alert :=
  {| a_level := CRITICAL; a_event := "expiry_backstop_fired"; a_symbol := p_symbol p; a_qty := 0; a_remaining := 0; a_price := None;
     a_pnl := None; a_legs := [] |}.

Lemma backstop_row_spec holidays w0 p acc w :
  paper_env w0 w -> exists acc' w', backstop_row master daily_bars holidays p acc w = (Ok acc', w') /\ paper_env w w'
    /\ bs_fired acc' = bs_fired acc + (if backstop_closes holidays (w_now w0) p then 1 else 0)
    /\ w_alerts w' = w_alerts w ++ (if backstop_closes holidays (w_now w0) p then [backstop_alert p] else [])
    /\ (if backstop_closes holidays (w_now w0) p
        then exists p', swept_out BACKSTOP_EXIT_REASON p p' /\ w_positions w' = put_row p' (w_positions w)
        else w_positions w' = w_positions w).
Proof.
  intros Henv. unfold backstop_row, backstop_closes, mbind, M_bind, gets. rewrite <- (pv_now _ _ Henv).
  destruct (futures_expiry master (p_symbol p)) as [expiry|].
  2: { do 2 eexists. split; [reflexivity|]. split_and!; [apply paper_env_refl | simpl; lia | by rewrite app_nil_r | done]. }
  destruct (backstop_due _ _ _ _); cbn [negb].
  - do 2 eexists. split; [reflexivity|]. split_and!; [split; try done; simpl; lia | simpl; lia | done |]. eexists. split; [apply swept_row_out | done].
  - do 2 eexists. split; [reflexivity|]. split_and!; [apply paper_env_refl | simpl; lia | by rewrite app_nil_r | done].
Qed.

Lemma filtered_rows (f : StrategyPosition -> bool) w :
  book_inv w -> NoDup (map p_id (List.filter f (w_positions w))) /\ incl (List.filter f (w_positions w)) (w_positions w).
Proof. intros Hb. split; [apply NoDup_map_filter_ids, Hb | intros p [? _]%filter_In; done]. Qed.

Lemma sweep_backstop_pass holidays w :
  book_inv w -> futures_expiry_backstop_enabled settings = true ->
  let rows := List.filter open_futures_row (w_positions w) in
  exists res w', sweep_expiry_backstop settings master daily_bars holidays w = (Ok res, w')
    /\ pass_of (backstop_closes holidays (w_now w)) BACKSTOP_EXIT_REASON (fun p => [backstop_alert p]) rows w w'
    /\ bs_fired res = Z.of_nat (length (List.filter (backstop_closes holidays (w_now w)) rows)).
Proof.
  intros Hb Hen rows. unfold sweep_expiry_backstop. rewrite Hen. cbn [negb]. unfold mbind, M_bind at 1, gets. fold rows.
  destruct (filtered_rows open_futures_row w Hb) as [Hnd Hin]. fold rows in Hnd, Hin.
  assert (Hop : Forall (fun p => is_open p = true) rows).
  { apply List.Forall_forall. intros p [_ Hp]%filter_In. unfold open_futures_row in Hp. by bool_to_prop. }
  match goal with |- context [for_rows _ _ ?a w] => set (acc := a) end.
  destruct (for_rows_pass (backstop_row master daily_bars holidays) _ _ _ bs_fired w (backstop_row_spec holidays w) rows acc w
              (paper_env_refl w) Hb Hnd Hin Hop) as (res & w' & E & Hps & Hc). exists res, w'. split; [exact E|]. split; [exact Hps | exact Hc].
Qed.

(** The rows the options sweep closes. *)
Definition option_closes (strategies : list Strategy) (now : datetime) (p : StrategyPosition) : bool :=
  match derive_option_expiry master (p_symbol p) with
  | Some expiry =>
      past_squareoff_cutoff expiry now && bool_decide ((find_strategy strategies (p_strategy_id p) ≫= is_paper) = Some true)
  | None => false
  end.

Lemma option_row_spec w0 p acc w :
  paper_env w0 w -> exists acc' w', option_row master p acc w = (Ok acc', w') /\ paper_env w w'
    /\ os_closed acc' = os_closed acc + (if option_closes (w_strategies w0) (w_now w0) p then 1 else 0)
    /\ w_alerts w' = w_alerts w ++ (if option_closes (w_strategies w0) (w_now w0) p then [] else [])
    /\ (if option_closes (w_strategies w0) (w_now w0) p
        then exists p', swept_out "expired" p p' /\ w_positions w' = put_row p' (w_positions w)
        else w_positions w' = w_positions w).
Proof.
  intros Henv. unfold option_row, option_closes, mbind, M_bind, gets. rewrite <- (pv_now _ _ Henv), <- (pv_strategies _ _ Henv).
  destruct (derive_option_expiry master (p_symbol p)) as [expiry|].
  2: { do 2 eexists. split; [reflexivity|]. split_and!; [apply paper_env_refl | simpl; lia | by rewrite app_nil_r | done]. }
  destruct (past_squareoff_cutoff _ _); cbn [negb andb].
  2: { do 2 eexists. split; [reflexivity|]. split_and!; [apply paper_env_refl | simpl; lia | by rewrite app_nil_r | done]. }
  destruct (bool_decide _).
  - do 2 eexists. split; [reflexivity|]. split_and!; [split; try done; simpl; lia | simpl; lia | by rewrite app_nil_r|]. eexists. split; [apply swept_row_out | done].
  - do 2 eexists. split; [reflexivity|]. split_and!; [apply paper_env_refl | simpl; lia | by rewrite app_nil_r | done].
Qed.

Lemma sweep_options_pass w :
  book_inv w -> options_execution_enabled settings = true ->
  let rows := List.filter open_leg_row (w_positions w) in
  exists res w', sweep_expired_options settings master w = (Ok res, w')
    /\ pass_of (option_closes (w_strategies w) (w_now w)) "expired" (fun _ => []) rows w w'
    /\ os_closed res = Z.of_nat (length (List.filter (option_closes (w_strategies w) (w_now w)) rows)).
Proof.
  intros Hb Hen rows. unfold sweep_expired_options. rewrite Hen. cbn [negb]. unfold mbind, M_bind at 1, gets. fold rows.
  destruct (filtered_rows open_leg_row w Hb) as [Hnd Hin]. fold rows in Hnd, Hin.
  assert (Hop : Forall (fun p => is_open p = true) rows).
  { apply List.Forall_forall. intros p [_ Hp]%filter_In. unfold open_leg_row in Hp. by bool_to_prop. }
  match goal with |- context [for_rows _ _ ?a w] => set (acc := a) end.
  destruct (for_rows_pass (option_row master) _ _ (fun _ => []) os_closed w (option_row_spec w) rows acc w
              (paper_env_refl w) Hb Hnd Hin Hop) as (res & w' & E & Hps & Hc). exists res, w'. split; [exact E|]. split; [exact Hps | exact Hc].
Qed.

(** A pass over the rows that satisfy [sel], row by row. *)
Lemma pass_rowwise due reason notes sel w w' :
  pass_of due reason notes (List.filter sel (w_positions w)) w w' ->
  Forall2 (fun p p' => if sel p && due p then swept_out reason p p' else p' = p) (w_positions w) (w_positions w').
Proof.
  intros Hps. pose proof (Forall2_length _ _ _ (po_rows _ _ _ _ _ _ Hps)) as Hlen.
  apply Forall2_same_length_lookup_2; [done|]. intros i p p' Hp Hp'.
  pose proof (Forall2_lookup_lr _ _ _ _ _ _ (po_rows _ _ _ _ _ _ Hps) Hp Hp') as [(Hi & Hd & Hs) | [Hn ->]].
  - apply filter_In in Hi as [_ ->]. by rewrite Hd.
  - destruct (sel p) eqn:Es, (due p) eqn:Ed; simpl; try done. exfalso. apply Hn. split; [|done]. apply filter_In. split; [|done].
    by eapply list_elem_of_In, list_elem_of_lookup_2.
Qed.


(** The options sweep closes exactly the expired paper legs.  With the flag on a
    sweep always completes: every open option row past 15:30 on its expiry day whose
    strategy is explicitly on paper is closed as expired, every other row, in
    particular every live one, is as it was, and nothing is sent or booked. *)
Theorem options_sweep_exact w :
  book_inv w -> options_execution_enabled settings = true ->
  exists res w', sweep_expired_options settings master w = (Ok res, w')
    /\ Forall2 (fun p p' => if open_leg_row p && option_closes (w_strategies w) (w_now w) p
                            then swept_out "expired" p p' else p' = p) (w_positions w) (w_positions w')
    /\ os_closed res = Z.of_nat (length (List.filter (fun p => open_leg_row p && option_closes (w_strategies w) (w_now w) p) (w_positions w)))
    /\ w_orders w' = w_orders w /\ w_executions w' = w_executions w.
Proof.
  intros Hb Hen. destruct (sweep_options_pass w Hb Hen) as (res & w' & E & Hps & Hc). exists res, w'. split; [done|].
  split; [by eapply pass_rowwise|]. split; [|split; apply Hps]. rewrite Hc. f_equal. f_equal.
  clear. induction (w_positions w) as [|p l IH]; [done|]. simpl. destruct (open_leg_row p); simpl; [|done]. case_match; simpl; congruence.
Qed.
End Exact.

(** ** Concrete sweeps *)

Definition sweeping : Settings := sample_settings <| futures_expiry_backstop_enabled := true |> <| options_execution_enabled := true |>.

(** Midnight UTC of a day. *)
Abbreviation on_day d := (sample_world <| w_now := utc_midnight d |>).

Lemma on_day_book d : book_inv (on_day d).
Proof. apply (book_inv_ext sample_world); [exact sample_book | done | done]. Qed.

Lemma entry_clear_of_backstop_witness :
  4 <= sessions_to_expiry (ist_date 1786953600) 739855 (Some "BSE-AUG2026-FUT"%string) (Some [739848]) + 1
  /\ backstop_due (ist_date 1786953600) 739855 (Some "BSE-AUG2026-FUT"%string) (Some [739848]) = false.
Proof.
  destruct (entry_clear_of_backstop [("BSE-AUG2026-FUT"%string, 739855)] 1786953600 "BSE-AUG2026-FUT" 739855 [739848]) as [Hs Hd];
    [vm_compute; reflexivity|]. split; [exact Hs | apply Hd; simpl; lia].
Defined.

(** A bar of 3 August 2026: the contract of 27 August is due that day. *)
Lemma stored_bars_show_no_future_session_witness :
  exists holidays, session_window [utc_midnight 739831] None 739831 739855 = Some holidays
    /\ forall symbol, backstop_due 739831 739855 symbol (Some holidays) = true.
Proof.
  refine (proj2 (stored_bars_show_no_future_session [utc_midnight 739831] 739831 739855 _ _) _);
    [repeat constructor; vm_compute; discriminate | lia | vm_compute; reflexivity].
Defined.


(** A live futures row, a live option row and a paper option row, on the evening after
    the option's expiry. *)
Definition leg_row (id strategy : uuid) : StrategyPosition :=
  sample_position <| p_id := id |> <| p_strategy_id := strategy |> <| p_symbol := "BSE-16JUL2026-2400-CE" |>.

Definition leg_world : world ScriptedBroker store :=
  sample_world <| w_positions := [sample_position; leg_row 21 (s_id sample_strategy); leg_row 22 (s_id paper_strategy)] |>
    <| w_strategies := [sample_strategy; paper_strategy] |> <| w_now := utc_midnight 739814 |>.

Lemma leg_world_book : book_inv leg_world.
Proof.
  split; [by repeat constructor; rewrite ?list_elem_of_In; simpl; intros Hx; destruct_or? Hx | by repeat constructor|].
  repeat constructor; by apply pos_invb_sound.
Qed.

Lemma options_sweep_exact_witness :
  exists res w', sweep_expired_options sweeping None leg_world = (Ok res, w')
    /\ Forall2 (fun p p' => if open_leg_row p && option_closes None (w_strategies leg_world) (w_now leg_world) p
                            then swept_out "expired" p p' else p' = p) (w_positions leg_world) (w_positions w')
    /\ os_closed res = 1 /\ w_orders w' = [] /\ w_executions w' = w_executions sample_world.
Proof.
  destruct (options_sweep_exact sweeping None leg_world leg_world_book eq_refl) as (res & w' & E & Hr & Hc & Ho & Hx).
  exists res, w'. split; [exact E|]. split; [exact Hr|]. split; [|split; [exact Ho | exact Hx]].
  rewrite Hc. vm_compute. reflexivity.
Defined.

(** A live row is closed in the table only: no order reaches the broker, and the
    position stays open there. *)
Example backstop_sends_nothing :
  let w' := snd (sweep_expiry_backstop sweeping None [] None (on_day 739853)) in
  is_paper sample_strategy <> Some true /\ map remaining_quantity (w_positions (on_day 739853)) = [750]
  /\ map remaining_quantity (w_positions w') = [0] /\ w_orders w' = [].
Proof. vm_compute. by split_and!. Qed.

(** Eighteen sessions before its expiry, with today's bar stored, the row is closed. *)
Example stored_bar_closes_distant_contract :
  trading_days_between 739831 739855 [] = 18
  /\ map status (w_positions (snd (sweep_expiry_backstop sweeping None [utc_midnight 739831] None (on_day 739831)))) = [st_closed]
  /\ map status (w_positions (snd (sweep_expiry_backstop sweeping None [] None (on_day 739831)))) = [st_open].
Proof. vm_compute. by split_and!. Qed.

(** A leg's own date, and one that is no date. *)
Example leg_expiries :
  derive_option_expiry None "BSE-16JUL2026-2400-CE" = Some 739813
  /\ derive_option_expiry None "BSE-31FEB2026-2400-CE" = None /\ derive_option_expiry None "BSE-JUL2026-FUT" = None.
Proof. vm_compute. by split_and!. Qed.
