(* ===== verification/SignalTask.v ===== *)
(** * The signal worker (backend/app/tasks/signal_execution.py)

    What the queue runs for a persisted signal: the entry pipeline (same-fire
    duplicates, anomaly shield, advisory annotations, AI validation, instrument
    routing, executor, post-trade hooks) and the direct-exit pipeline, with the
    signal row's status at every commit, and the task around them that decides
    between success, a permanent error and a retry.

    A commit writes the whole row ([commit]); what was assigned since the last
    commit is lost when an exception leaves the session.  Notes, timestamps, reasons
    and confidence are left out.  The scrip master of the moment is an argument. *)

From Stdlib Require Import ZArith Lia List Bool String SpecFloat.
From stdpp Require Import base list strings gmap.
From S2P Require Import Prelude PyText PyFloat PyDecimal PyNum SymbolMatch Records Enums Models Safeguards Book DayState Calendar.
From S2P Require Import ScripMaster FuturesResolver AiValidator PineMapper StrategyExecutor DirectExit KillSwitch OrderService Webhook MarketShield.
From S2P Require Import Fanout MirroredExit StrategyWebhook AnomalyShield TradeDna OptionOrder PaperExecutors.

Definition VALID_ACTION_KINDS : list string := ["entry"; "partial"; "exit"; "sl_hit"]%string.
Definition DUP_ENTRY_LOOKBACK_SECONDS : Z := 86400.

(** "In flight or completed". *)
Definition dup_blocking (s : signal_status) : bool :=
  match s with sg_validating | sg_executing | sg_executed => true | _ => false end.

(** Python's [==] of an integer and a float, and on JSON values. *)
Definition int_float_eq (z : Z) (x : float64) : bool :=
  match x with
  | S754_zero _ => z =? 0
  | S754_finite s m e => let '(p, q) := frac_of m e in (if s then - p else p) =? z * q
  | _ => false
  end.

Definition as_int (j : json) : option Z := match j with JBool b => Some (if b then 1 else 0) | JInt z => Some z | _ => None end.

Definition scalar_eq (a b : json) : bool :=
  match a, b with
  | JNull, JNull => true
  | JStr s, JStr t => String.eqb s t
  | JFloat x, JFloat y => SFeqb x y
  | JFloat x, _ => match as_int b with Some z => int_float_eq z x | None => false end
  | _, JFloat y => match as_int a with Some z => int_float_eq z y | None => false end
  | _, _ => match as_int a, as_int b with Some x, Some y => x =? y | _, _ => false end
  end.

Fixpoint py_eq (a b : json) : bool :=
  match a, b with
  | JList l, JList m =>
      (fix all (l m : list json) : bool :=
         match l, m with [], [] => true | x :: l', y :: m' => py_eq x y && all l' m' | _, _ => false end) l m
  | JDict d, JDict e =>
      (length d =? length e)%nat
      && (fix all (d : list (string * json)) : bool :=
            match d with
            | [] => true
            | (k, x) :: d' => match List.find (fun kv => String.eqb (fst kv) k) e with Some (_, y) => py_eq x y | None => false end && all d'
            end) d
  | _, _ => scalar_eq a b
  end.

(** A prior entry of the same Pine fire. *)
Definition same_fire (strategy_id exclude_id : uuid) (fire_ts : json) (since : datetime) (g : StrategySignal) : bool :=
  (g_strategy_id g =? strategy_id) && negb (g_id g =? exclude_id) && String.eqb (g_action g) "ENTRY" && dup_blocking (g_status g)
  && (since <=? g_received_at g) && py_eq (j_or (jget (raw_payload g) "timestamp") JNull) fire_ts.

Inductive task_outcome : Type := TaskOk | TaskError | TaskRetry (e : exn).

(** [isinstance(exc, (ValueError, TypeError, KeyError))]. *)
Definition permanent (e : exn) : bool :=
  match e with ValueError | ValidationError | PineMappingError | TypeError | KeyError => true | _ => false end.

(** The signal status for a paper executor's result. *)
Definition entry_status (s : paper_status) : signal_status :=
  match s with PX_executed => sg_executed | PX_failed => sg_failed | _ => sg_skipped end.
Definition exit_status (s : paper_status) : signal_status :=
  match s with PX_executed => sg_executed | PX_no_open_position => sg_ignored | PX_failed => sg_failed | _ => sg_skipped end.

Section Worker.
Context {B R : Type} `{BrokerInterface B} `{RedisStore R} `{Decryptor}.
Context {CO : Coercion} (settings : Settings) (scrip_cache : datetime -> scrip_master).

Definition load_signal (sid : uuid) : M B R (option StrategySignal) :=
  gets (fun w => List.find (fun g => g_id g =? sid) (pf_signals (w_platform w))).

(** The strategy of a signal, when it exists and is active. *)
Definition load_active_strategy (strategy_id : uuid) : M B R (option Strategy) :=
  gets (fun w => List.find (fun s => s_id s =? strategy_id) (w_strategies w) ≫= fun s => if s_is_active s then Some s else None).

Definition commit (sig : StrategySignal) : M B R unit := set_signal (g_id sig) (fun _ => sig).

Definition with_status (sig : StrategySignal) (st : signal_status) : StrategySignal := sig <| g_status := st |>.

(** The newest matching row; absent when the signal carries no fire time. *)
Definition find_duplicate_entry (strategy : Strategy) (sig : StrategySignal) : M B R (option StrategySignal) :=
  let fire_ts := jget (raw_payload sig) "timestamp" in
  if negb (truthy fire_ts) then mret None
  else gets (fun w => latest_by g_received_at
                        (List.filter (same_fire (s_id strategy) (g_id sig) fire_ts (w_now w - DUP_ENTRY_LOOKBACK_SECONDS))
                           (pf_signals (w_platform w)))).

(** ** The anomaly shield's pass: [None] when the entry stops, else the bar's result *)

Definition rejected (sig : StrategySignal) : StrategySignal := with_status sig sg_rejected <| g_ai_decision := Some AI_REJECTED |>.

Definition shield_indicators (sig : StrategySignal) : json := j_or (jget (raw_payload sig) "indicators") (JDict []).

Definition anomaly_gate (strategy : Strategy) (sig : StrategySignal) : M B R (option (option AnomalyResult)) :=
  if negb (anomaly_enabled settings) then mret (Some None)
  else
    record_indicator_bar settings (s_id strategy) (shield_indicators sig) ;;
    released ← check_and_consume_release settings (s_id strategy);
    (if released : bool then plain_alert INFO "anomaly_shield_released" "" else mret tt) ;;
    blocked ← is_block_active settings (s_id strategy);
    if blocked : bool then commit (rejected sig) ;; mret None
    else
      res ← evaluate settings (s_id strategy) (shield_indicators sig);
      if an_tripped res then
        _ ← activate_block settings (s_id strategy);
        commit (rejected sig) ;;
        plain_alert WARNING "anomaly_shield_tripped" "" ;;
        mret None
      else mret (Some (Some res)).

(** ** The advisory fields of the payload; not committed by themselves *)

Definition note_payload (sig : StrategySignal) (key : string) (v : json) : StrategySignal := sig <| raw_payload ::= <[key := v]> |>.

(** A failed evaluation leaves no score. *)
Definition annotate_dna (strategy : Strategy) (sig : StrategySignal) : M B R (StrategySignal * option DNAResult) :=
  let side := str_lower (str_or_empty (jget (raw_payload sig) "side")) in
  if trade_dna_enabled settings && String.eqb (g_action sig) "ENTRY" && one_of side ["long"; "short"]%string then
    out ← attempt (dna_evaluate settings (s_id strategy) side (shield_indicators sig));
    mret (match out with
          | Ok res => (note_payload sig "_dna" (dna_payload res), Some res)
          | Err _ => (sig, None)
          end)
  else mret (sig, None).

Definition annotate (strategy : Strategy) (sig : StrategySignal) (shield : option AnomalyResult) : M B R StrategySignal :=
  '(sig, dna) ← annotate_dna strategy sig;
  mret (if probability_engine_enabled settings && String.eqb (g_action sig) "ENTRY"
        then note_payload sig "_probability" (prob_payload (compute settings dna shield)) else sig).

(** ** The futures entry *)

Definition fill_alert (sig : StrategySignal) (res : ExecutionResult) : M B R unit :=
  if paper_mode res then plain_alert INFO "paper_order_simulated" (g_symbol sig)
  else
    match broker_status res with
    | COMPLETE => plain_alert SUCCESS "order_filled" (g_symbol sig)
    | PENDING | OPEN => plain_alert INFO "order_awaiting_fill" (g_symbol sig)
    | _ => plain_alert WARNING "order_status_unclear" (g_symbol sig)
    end.

Definition failed_with (sig : StrategySignal) (level : AlertLevel) (event : string) : M B R unit :=
  commit (with_status sig sg_failed) ;; plain_alert level event (g_symbol sig).

(** Failures of the hooks never undo the order. *)
Definition post_trade_hooks (user_id : uuid) : M B R unit :=
  _ ← attempt (_ ← increment_daily_trades user_id; check_and_trigger settings user_id None);
  mret tt.

Definition futures_entry (sig : StrategySignal) (strategy : Strategy) (lots : Z) : M B R unit :=
  out ← attempt (place_strategy_orders settings sig strategy (Some lots));
  match out with
  | Ok res =>
      commit (with_status sig sg_executed) ;;
      fill_alert sig res ;;
      post_trade_hooks (g_user_id sig)
  | Err (BrokerError DuplicateOrderSuppressedError) => commit sig
  | Err (StrategyExecutorError _) | Err InvalidProductTypeError => failed_with sig WARNING "order_rejected"
  | Err (BrokerError BrokerOrderRejectedError) => failed_with sig CRITICAL "broker_rejected"
  | Err (BrokerError _) => failed_with sig CRITICAL "broker_error"
  | Err _ => failed_with sig CRITICAL "executor_error"
  end.

(** The instrument router. *)
Definition route_entry (sig : StrategySignal) (strategy : Strategy) (lots : Z) : M B R unit :=
  match resolve_instrument_type (Some strategy) with
  | OPTIONS =>
      if options_execution_enabled settings then
        opt ← execute_options_entry settings scrip_cache sig strategy; commit (with_status sig (entry_status (px_status opt)))
      else commit (with_status sig sg_skipped)
  | CASH =>
      if cash_execution_enabled settings then
        cash ← execute_cash_entry settings sig strategy; commit (with_status sig (entry_status (px_status cash)))
      else commit (with_status sig sg_skipped)
  | FUTURES => futures_entry sig strategy lots
  end.

Definition validated_entry (sig : StrategySignal) (strategy : Strategy) (shield : option AnomalyResult) : M B R unit :=
  sig ← annotate strategy sig shield;
  decision ← from_result (validate_signal settings sig strategy);
  let sig := sig <| g_ai_decision := Some (ai_status decision) |> in
  if bool_decide (ai_status decision = AI_REJECTED) then commit (with_status sig sg_rejected)
  else
    let sig := with_status sig sg_executing in
    commit sig ;;
    route_entry sig strategy (recommended_lots decision).

Definition entry_body (sid : uuid) : M B R unit :=
  found ← load_signal sid;
  match found with
  | None => mret tt
  | Some sig =>
      active ← load_active_strategy (g_strategy_id sig);
      match active with
      | None => commit (with_status sig sg_failed)
      | Some strategy =>
          prior ← find_duplicate_entry strategy sig;
          match prior with
          | Some _ => commit (with_status sig sg_duplicate) ;; plain_alert WARNING "duplicate_entry_suppressed" ""
          | None =>
              let sig := with_status sig sg_validating in
              commit sig ;;
              go ← anomaly_gate strategy sig;
              match go with Some shield => validated_entry sig strategy shield | None => mret tt end
          end
      end
  end.

Definition process_entry (sid : uuid) : M B R unit :=
  out ← attempt (entry_body sid);
  match out with
  | Ok _ => mret tt
  | Err e => plain_alert CRITICAL "worker_error" "" ;; raise e
  end.

(** ** Exits *)

Definition futures_exit (sig : StrategySignal) (strategy : Strategy) (action_kind : string) : M B R unit :=
  out ← attempt (direct_exit_and_mirror settings action_kind sig strategy);
  match out with
  | Ok (Ignored _ _) => commit (with_status sig sg_ignored)
  | Ok (Executed _ _ _ _) => commit (with_status sig sg_executed)
  | Err (BrokerError DuplicateOrderSuppressedError) => commit sig
  | Err (StrategyExecutorError _) | Err InvalidProductTypeError => failed_with sig WARNING "direct_exit_rejected"
  | Err _ => failed_with sig CRITICAL "direct_exit_error"
  end.

Definition route_exit (sig : StrategySignal) (strategy : Strategy) (action_kind : string) : M B R unit :=
  match resolve_instrument_type (Some strategy) with
  | OPTIONS =>
      if options_execution_enabled settings then
        opt ← execute_options_exit settings sig strategy action_kind; commit (with_status sig (exit_status (px_status opt)))
      else commit (with_status sig sg_skipped)
  | CASH =>
      if cash_execution_enabled settings then
        cash ← execute_cash_exit settings sig strategy action_kind; commit (with_status sig (exit_status (px_status cash)))
      else commit (with_status sig sg_skipped)
  | FUTURES => futures_exit sig strategy action_kind
  end.

Definition process_direct_exit (sid : uuid) (action_kind : string) : M B R unit :=
  found ← load_signal sid;
  match found with
  | None => mret tt
  | Some sig =>
      active ← load_active_strategy (g_strategy_id sig);
      match active with
      | None => commit (with_status sig sg_failed)
      | Some strategy =>
          let sig := with_status sig sg_executing in
          commit sig ;;
          route_exit sig strategy action_kind
      end
  end.

(** ** The task *)

Definition execute_signal_async (sid : uuid) (action_kind : string) : M B R task_outcome :=
  if negb (one_of action_kind VALID_ACTION_KINDS) then mret TaskError
  else
    out ← attempt (if String.eqb action_kind "entry" then process_entry sid else process_direct_exit sid action_kind);
    mret (match out with
          | Ok _ => TaskOk
          | Err e => if permanent e then TaskError else TaskRetry e
          end).
End Worker.
