(* ===== verification/SignalSafety.v ===== *)
(** * The signal worker: what a run of a task does

    Over [SignalTask.v]: the case analysis of a run, and its guarantees: a task
    never sends twice, a second delivery of a Pine fire never trades, an entry trades
    only through every gate, and the row's status never hides a position. *)

From Stdlib Require Import ZArith Lia List Bool String SpecFloat.
From stdpp Require Import base list strings gmap.
From S2P Require Import Prelude PyText PyFloat PyDecimal PyNum SymbolMatch Records Enums Models Safeguards Book Ledger Samples DayState Calendar.
From S2P Require Import ScripMaster FuturesResolver AiValidator PineMapper PositionManager StrategyExecutor DirectExit CircuitBreaker BreakerSafety.
From S2P Require Import MarketShield KillSwitch KillSafety KillGate OrderService Webhook WebhookSafety BrokerBatch Fanout FanoutSafety Mirroring MirroredExit.
From S2P Require Import StrategyWebhook StrategyGate AnomalyShield TradeDna OptionOrder PaperExecutors SignalTask.

Section Runs.
Context {B R : Type} `{BrokerInterface B} `{RedisLaws R} `{Decryptor}.
Context {CO : Coercion} (settings : Settings) (scrip_cache : datetime -> scrip_master).
Implicit Types (w : world B R).

#[local] Existing Instance same_book_preorder.

(** ** Steps that only keep notes *)

(** Nothing but the cache, the alerts and the signal rows changed; [sigs] are the
    rows. *)
Record noted (sigs : list StrategySignal) w w' : Prop := {
  nt_book : same_book w w';
  nt_redis : w_redis w' = w_redis w;
  nt_broker : w_broker w' = w_broker w;
  nt_trades : pf_trades (w_platform w') = pf_trades (w_platform w);
  nt_queue : pf_queue (w_platform w') = pf_queue (w_platform w);
  nt_signals : pf_signals (w_platform w') = sigs
}.

Lemma noted_refl w : noted (pf_signals (w_platform w)) w w.
Proof. by split. Qed.

Lemma noted_trans s1 s2 w w1 w2 : noted s1 w w1 -> noted s2 w1 w2 -> noted s2 w w2.
Proof. intros [] []. split; try congruence. by transitivity w1. Qed.

(** The rows after a commit of [sig]. *)
Definition stored (sig : StrategySignal) (l : list StrategySignal) : list StrategySignal :=
  map (fun g => if g_id g =? g_id sig then sig else g) l.

Lemma commit_noted sig w r w' : commit sig w = (r, w') -> r = Ok tt /\ noted (stored sig (pf_signals (w_platform w))) w w'.
Proof. intros E. injection E as <- <-. split; [done|]. by split. Qed.

Lemma alert_noted level event symbol w r w' :
  plain_alert level event symbol w = (r, w') -> r = Ok tt /\ noted (pf_signals (w_platform w)) w w'.
Proof. intros E. injection E as <- <-. by split. Qed.

Lemma cache_set_noted key v ttl w r w' :
  cache_set_json key v ttl w = (r, w') ->
  noted (pf_signals (w_platform w)) w w' /\ forall key' t, key' <> key -> cache_at w' key' t = cache_at w key' t.
Proof.
  intros E. split.
  - unfold cache_set_json in E. apply bind_cases in E as [([] & w1 & E1 & E) | (e & -> & E1)]; apply raise_when_spec in E1 as [-> _];
      [|apply noted_refl]. injection E as <- <-. by split.
  - intros key' t Hk. destruct (Z.ltb_spec 0 ttl) as [Ht|Ht].
    + destruct (cache_set_spec key v ttl w Ht) as (w1 & E1 & _ & Hc). rewrite E1 in E. injection E as <- <-. by rewrite Hc, decide_False.
    + unfold cache_set_json in E. rewrite (proj2 (Z.leb_le _ _) Ht) in E. by injection E as <- <-.
Qed.

Lemma stored_stored sig1 sig2 l : g_id sig1 = g_id sig2 -> stored sig2 (stored sig1 l) = stored sig2 l.
Proof.
  intros Hid. unfold stored. rewrite map_map. apply map_ext. intros g. destruct (Z.eqb_spec (g_id g) (g_id sig1)) as [->|Hne].
  - by rewrite Hid, Z.eqb_refl.
  - done.
Qed.

Lemma find_stored sig l : List.find (fun g => g_id g =? g_id sig) l <> None ->
  List.find (fun g => g_id g =? g_id sig) (stored sig l) = Some sig.
Proof.
  induction l as [|g l IH]; simpl; [done|]. destruct (Z.eqb_spec (g_id g) (g_id sig)) as [E|Hne].
  - by rewrite Z.eqb_refl.
  - by rewrite (proj2 (Z.eqb_neq _ _) Hne).
Qed.

(** ** The anomaly shield *)

Lemma record_bar_noted sid ind w r w' :
  record_indicator_bar settings sid ind w = (r, w') ->
  r = Ok tt /\ noted (pf_signals (w_platform w)) w w' /\ forall t, cache_at w' (block_key sid) t = cache_at w (block_key sid) t.
Proof.
  unfold record_indicator_bar. destruct (negb _); [intros [= <- <-]; split_and!; [done | apply noted_refl | done]|]. intros E.
  apply bind_cases in E as [(out & w1 & E1 & E) | (e & -> & E1)]; apply attempt_cases in E1 as (x & Hx & E1); [|done].
  injection E as <- <-. split; [done|]. unfold mbind at 1, M_bind at 1, cache_get_json, gets at 1 in E1.
  apply bind_cases in E1 as [(v & w2 & E2 & E1) | (e & -> & E2)]; injection E2 as _ <-; [|split; [apply noted_refl | done]].
  apply cache_set_noted in E1 as [Hn Hc]. split; [done|]. intros t. by apply Hc.
Qed.

Lemma block_reads sid w r w' : is_block_active settings sid w = (r, w') -> w' = w /\ exists b, r = Ok b.
Proof. unfold is_block_active. destruct (negb _); intros [= <- <-]; eauto. Qed.

Lemma release_noted sid w r w' :
  check_and_consume_release settings sid w = (r, w') -> (exists b, r = Ok b) /\ noted (pf_signals (w_platform w)) w w' /\ forall t, cache_at w' (block_key sid) t = cache_at w (block_key sid) t.
Proof.
  unfold check_and_consume_release. destruct (negb _); [intros [= <- <-]; split_and!; [eauto | apply noted_refl | done]|].
  unfold mbind at 1, M_bind at 1, cache_get_json, gets at 1. destruct (negb _); [intros [= <- <-]; split_and!; [eauto | apply noted_refl | done]|].
  intros E. apply bind_cases in E as [(b & w1 & E1 & E) | (e & -> & E1)]; apply block_reads in E1 as [-> (b' & Hb)]; [|done].
  destruct b; [injection E as <- <-; split_and!; [eauto | apply noted_refl | done]|].
  apply bind_cases in E as [([] & w2 & E2 & E) | (e & -> & E2)]; [|done]. injection E as <- <-. split; [eauto|].
  pose proof (cache_delete_writes _ _ _ _ E2) as [_ Hw]. split.
  - injection E2 as <-. by split.
  - intros t. apply (sw_cache _ _ _ _ Hw). discriminate.
Qed.

Lemma evaluate_reads sid ind w r w' : evaluate settings sid ind w = (r, w') -> w' = w.
Proof.
  unfold evaluate. destruct (negb _); [by intros [= _ <-]|]. unfold mbind at 1, M_bind at 1, cache_get_json, gets at 1. cbv zeta.
  destruct (_ <? _)%nat; [by intros [= _ <-]|]. intros E.
  apply bind_cases in E as [([c x] & w1 & E1 & E) | (e & -> & E1)]; apply from_result_spec in E1 as [-> _]; [by injection E | done].
Qed.

Lemma activate_noted sid w r w' :
  activate_block settings sid w = (r, w') -> (exists n, r = Ok n) /\ noted (pf_signals (w_platform w)) w w'.
Proof.
  unfold activate_block. intros E.
  apply bind_cases in E as [(out & w1 & E1 & E) | (e & -> & E1)]; apply attempt_cases in E1 as (x & Hx & E1); [|done].
  injection E as <- <-. split; [eauto|]. unfold mbind at 1, M_bind at 1, gets at 1 in E1.
  apply bind_cases in E1 as [([] & w2 & E2 & E1) | (e & -> & E2)]; apply cache_set_noted in E2 as [E2 _]; [|done].
  apply cache_set_noted in E1 as [E1 _]. rewrite (nt_signals _ _ _ E2) in E1. by eapply noted_trans.
Qed.

(** The entry goes on with the rows unchanged and no cooldown running, or it was
    rejected on its row, or an exception left the rows alone. *)
Lemma anomaly_gate_spec strategy sig w r w' :
  anomaly_gate settings strategy sig w = (r, w') ->
  ((exists shield, r = Ok (Some shield)) /\ noted (pf_signals (w_platform w)) w w'
     /\ (anomaly_enabled settings = true -> cache_at w (block_key (s_id strategy)) (w_now w) = None))
  \/ (r = Ok None /\ noted (stored (rejected sig) (pf_signals (w_platform w))) w w')
  \/ (exists e, r = Err e /\ noted (pf_signals (w_platform w)) w w').
Proof.
  unfold anomaly_gate. destruct (anomaly_enabled settings) eqn:Hen; cbn [negb].
  2: { intros [= <- <-]. left. split_and!; [eauto | apply noted_refl | done]. }
  intros E. apply bind_cases in E as [([] & w1 & E1 & E) | (e & -> & E1)]; apply record_bar_noted in E1 as (Hr1 & Hn1 & Hc1); [|done].
  apply bind_cases in E as [(rel & w2 & E2 & E) | (e & -> & E2)]; apply release_noted in E2 as ([b2 Hr2] & Hn2 & Hc2); [|done].
  rewrite (nt_signals _ _ _ Hn1) in Hn2. pose proof (noted_trans _ _ _ _ _ Hn1 Hn2) as Hn02.
  apply bind_cases in E as [([] & w3 & E3 & E) | (e & -> & E3)].
  2: { destruct rel; [by apply alert_noted in E3 as [? _] | done]. }
  assert (Hn3 : noted (pf_signals (w_platform w2)) w2 w3).
  { destruct rel; [by apply alert_noted in E3 as [_ ?] | injection E3 as <-; apply noted_refl]. }
  rewrite (nt_signals _ _ _ Hn02) in Hn3. pose proof (noted_trans _ _ _ _ _ Hn02 Hn3) as Hn03. pose proof (nt_signals _ _ _ Hn03) as Hs3.
  apply bind_cases in E as [(blocked & w4 & E4 & E) | (e & -> & E4)]; pose proof E4 as Eb; apply block_reads in E4 as [-> (b4 & Hr4)]; [|done].
  destruct blocked.
  { apply bind_cases in E as [([] & w5 & E5 & E) | (e & -> & E5)]; apply commit_noted in E5 as [Hr5 Hn5]; [|done].
    injection E as <- <-. right. left. split; [done|]. rewrite Hs3 in Hn5. by eapply noted_trans. }
  assert (Hc3 : forall t, cache_at w3 (block_key (s_id strategy)) t = cache_at w2 (block_key (s_id strategy)) t).
  { intros t. by destruct rel; injection E3 as <-. }
  assert (Hfree : cache_at w (block_key (s_id strategy)) (w_now w) = None).
  { rewrite <- Hc1, <- Hc2, <- Hc3, <- (sb_now _ _ (nt_book _ _ _ Hn03)). unfold is_block_active in Eb. rewrite Hen in Eb. cbn [negb] in Eb. unfold cache_get_json in Eb.
    unfold cache_at. injection Eb as Eb. by destruct (store_get _ _ _). }
  apply bind_cases in E as [(res & w4 & E5 & E) | (e & -> & E5)]; apply evaluate_reads in E5 as ->.
  2: { right. right. eauto. }
  destruct (an_tripped res); [|injection E as <- <-; left; split_and!; eauto].
  apply bind_cases in E as [(n & w5 & E6 & E) | (e & -> & E6)]; apply activate_noted in E6 as [[n6 Hr6] Hn6]; [|done].
  rewrite Hs3 in Hn6. pose proof (noted_trans _ _ _ _ _ Hn03 Hn6) as Hn06.
  apply bind_cases in E as [([] & w6 & E7 & E) | (e & -> & E7)]; apply commit_noted in E7 as [Hr7 Hn7]; [|done].
  rewrite (nt_signals _ _ _ Hn06) in Hn7. pose proof (noted_trans _ _ _ _ _ Hn06 Hn7) as Hn07.
  apply bind_cases in E as [([] & w7 & E8 & E) | (e & -> & E8)]; apply alert_noted in E8 as [Hr8 Hn8]; [|done].
  injection E as <- <-. right. left. split; [done|]. rewrite (nt_signals _ _ _ Hn07) in Hn8. by eapply noted_trans.
Qed.

(** ** The entry pipeline *)

(** A row as its alert wrote it, apart from status, decision and advisory fields. *)
Record same_signal (g g' : StrategySignal) : Prop := {
  ss_id : g_id g' = g_id g;
  ss_user : g_user_id g' = g_user_id g;
  ss_strategy : g_strategy_id g' = g_strategy_id g;
  ss_symbol : g_symbol g' = g_symbol g;
  ss_action : g_action g' = g_action g;
  ss_quantity : g_quantity g' = g_quantity g;
  ss_payload : forall k, k <> "_dna"%string -> k <> "_probability"%string -> jget (raw_payload g') k = jget (raw_payload g) k
}.

(** A signal that passed every check and goes to its executor as [sig']. *)
Record entry_pass (sid : uuid) (sig : StrategySignal) (strategy : Strategy) (d : AIDecision) (sig' : StrategySignal) w w1 : Prop := {
  ep_signal : List.find (fun g => g_id g =? sid) (pf_signals (w_platform w)) = Some sig;
  ep_strategy : List.find (fun s => s_id s =? g_strategy_id sig) (w_strategies w) = Some strategy /\ s_is_active strategy = true;
  ep_fire : truthy (jget (raw_payload sig) "timestamp") = true ->
    Forall (fun g => same_fire (s_id strategy) (g_id sig) (jget (raw_payload sig) "timestamp")
                       (w_now w - DUP_ENTRY_LOOKBACK_SECONDS) g = false) (pf_signals (w_platform w));
  ep_cooldown : anomaly_enabled settings = true -> cache_at w (block_key (s_id strategy)) (w_now w) = None;
  ep_decision : exists sig1, same_signal sig sig1
    /\ validate_signal settings sig1 strategy = Ok d /\ ai_status d <> AI_REJECTED
    /\ sig' = with_status (sig1 <| g_ai_decision := Some (ai_status d) |>) sg_executing;
  ep_noted : noted (stored sig' (pf_signals (w_platform w))) w w1
}.

Lemma note_same sig sig1 key v :
  key = "_dna"%string \/ key = "_probability"%string -> same_signal sig sig1 -> same_signal sig (note_payload sig1 key v).
Proof.
  intros Hkey [? ? ? ? ? ? Hp]. split; try done. intros k Hk1 Hk2. rewrite <- (Hp k Hk1 Hk2). unfold jget. simpl.
  rewrite lookup_insert_ne; [done|]. by destruct Hkey as [-> | ->].
Qed.

Lemma dna_noted sid side ind w r w' :
  dna_evaluate settings sid side ind w = (r, w') -> noted (pf_signals (w_platform w)) w w'.
Proof.
  unfold dna_evaluate. destruct (negb _); [intros [= _ <-]; apply noted_refl|]. intros E.
  apply bind_cases in E as [(out & w1 & E1 & E) | (e & -> & E1)]; apply attempt_cases in E1 as (x & Hx & E1); [|done].
  assert (Hn : noted (pf_signals (w_platform w)) w w1).
  { clear E Hx. unfold load_history_pool in E1. unfold mbind at 1, M_bind at 1, cache_get_json, gets at 1 in E1.
    set (miss := (rows ← _; _) : M B R dna_pool) in E1. assert (Em : miss w = (x, w1) -> noted (pf_signals (w_platform w)) w w1).
    { unfold miss. intros E. unfold mbind at 1, M_bind at 1, gets at 1 in E.
      apply bind_cases in E as [(pool & w2 & E2 & E) | (e & -> & E2)]; apply from_result_spec in E2 as [-> _]; [|apply noted_refl].
      cbv zeta in E. destruct (dp_vectors pool).
      - apply bind_cases in E as [([] & w3 & E3 & E) | (e & -> & E3)]; apply cache_set_noted in E3 as [E3 _]; [by injection E as _ <- | done].
      - apply bind_cases in E as [(o & w3 & E3 & E) | (e & -> & E3)]; apply attempt_cases in E3 as (y & Hy & E3); [|done].
        apply cache_set_noted in E3 as [E3 _]. by injection E as _ <-. }
    destruct (store_get _ _ _) as [c|]; [destruct c; try (by apply Em); injection E1 as _ <-; apply noted_refl | by apply Em]. }
  destruct out as [pool|e]; [|by injection E as _ <-]. cbv zeta in E. destruct (_ <? _); [by injection E as _ <-|].
  by apply from_result_spec in E as [-> _].
Qed.

Lemma annotate_spec strategy sig shield w r w' :
  annotate settings strategy sig shield w = (r, w') ->
  exists sig1, r = Ok sig1 /\ same_signal sig sig1 /\ noted (pf_signals (w_platform w)) w w'.
Proof.
  unfold annotate. intros E.
  assert (Hdna : exists sig0 dna, annotate_dna settings strategy sig w = (Ok (sig0, dna), snd (annotate_dna settings strategy sig w))
            /\ same_signal sig sig0 /\ noted (pf_signals (w_platform w)) w (snd (annotate_dna settings strategy sig w))).
  { destruct (annotate_dna settings strategy sig w) as [x w1] eqn:Ed. cbn [snd]. unfold annotate_dna in Ed. cbv zeta in Ed.
    destruct (_ && _); [|injection Ed as <- <-; do 2 eexists; split; [reflexivity|]; split; [done | apply noted_refl]].
    apply bind_cases in Ed as [(out & w2 & E2 & Ed) | (e & -> & E2)]; apply attempt_cases in E2 as (y & Hy & E2); [|done].
    apply dna_noted in E2. injection Ed as <- <-. destruct out; do 2 eexists; (split; [reflexivity|]); split; try done. by apply note_same; [left|]. }
  destruct Hdna as (sig0 & dna & Ed & Hs & Hn). unfold mbind, M_bind in E. rewrite Ed in E. injection E as <- <-.
  eexists. split; [reflexivity|]. split; [|done]. case_match; [by apply note_same; [right|] | done].
Qed.

Lemma entry_pass_same sid sig strategy d sig' w w1 : entry_pass sid sig strategy d sig' w w1 -> same_signal sig sig' /\ g_id sig' = sid.
Proof.
  intros [Hf _ _ _ (sig1 & Ha & _ & _ & ->) _]. apply find_some in Hf as [_ Hid%Z.eqb_eq].
  split; [|rewrite <- Hid; apply Ha]. by destruct Ha.
Qed.

(** The row of [sid] in [sigs] is not executed. *)
Definition unexecuted (sid : uuid) (sigs : list StrategySignal) : Prop :=
  forall g, List.find (fun g => g_id g =? sid) sigs = Some g -> g_status g <> sg_executed.

Lemma stored_unexecuted sig l :
  List.find (fun g => g_id g =? g_id sig) l <> None -> g_status sig <> sg_executed -> unexecuted (g_id sig) (stored sig l).
Proof. intros Hf Hs g Hg. rewrite find_stored in Hg by done. by injection Hg as <-. Qed.

Lemma entry_body_cases sid w r w' :
  entry_body settings scrip_cache sid w = (r, w') ->
  (exists sigs, noted sigs w w' /\ (r = Ok tt -> unexecuted sid sigs))
  \/ exists sig strategy d sig' w1, entry_pass sid sig strategy d sig' w w1
       /\ route_entry settings scrip_cache sig' strategy (recommended_lots d) w1 = (r, w').
Proof.
  unfold entry_body. intros E. unfold mbind at 1, M_bind at 1, load_signal, gets at 1 in E.
  destruct (List.find _ (pf_signals (w_platform w))) as [sig|] eqn:Ef.
  2: { injection E as <- <-. left. eexists. split; [apply noted_refl|]. intros _ g Hg. congruence. }
  assert (Hid : g_id sig = sid) by (by apply find_some in Ef as [_ ?%Z.eqb_eq]).
  assert (Hun : forall sig2 sigs, g_id sig2 = sid -> sigs = stored sig2 (pf_signals (w_platform w)) -> g_status sig2 <> sg_executed -> unexecuted sid sigs).
  { intros sig2 sigs <- -> Hs. apply stored_unexecuted; [by rewrite Ef | done]. }
  unfold mbind at 1, M_bind at 1, load_active_strategy, gets at 1 in E.
  destruct (List.find _ (w_strategies w)) as [strategy|] eqn:Es; simpl in E.
  2: { left. apply commit_noted in E as [_ Hn]. eexists. split; [exact Hn|]. intros _. by eapply (Hun (with_status sig sg_failed)). }
  destruct (s_is_active strategy) eqn:Hact.
  2: { left. apply commit_noted in E as [_ Hn]. eexists. split; [exact Hn|]. intros _. by eapply (Hun (with_status sig sg_failed)). }
  apply bind_cases in E as [(prior & w1 & E1 & E) | (e & -> & E1)].
  2: { unfold find_duplicate_entry in E1. cbv zeta in E1. by destruct (negb _). }
  assert (Hprior : w1 = w /\ (prior = None -> truthy (jget (raw_payload sig) "timestamp") = true ->
    Forall (fun g => same_fire (s_id strategy) (g_id sig) (jget (raw_payload sig) "timestamp")
                       (w_now w - DUP_ENTRY_LOOKBACK_SECONDS) g = false) (pf_signals (w_platform w)))).
  { unfold find_duplicate_entry in E1. cbv zeta in E1. destruct (truthy _); cbn [negb] in E1; injection E1 as <- <-; [|by split].
    split; [done|]. intros Hnone%latest_by_none _. apply List.Forall_forall. intros g Hg.
    destruct (same_fire _ _ _ _ g) eqn:Em; [|done]. assert (Hin : In g (List.filter (same_fire (s_id strategy) (g_id sig)
      (jget (raw_payload sig) "timestamp") (w_now w - DUP_ENTRY_LOOKBACK_SECONDS)) (pf_signals (w_platform w)))) by (by apply filter_In).
    by rewrite Hnone in Hin. }
  destruct Hprior as [-> Hprior]. destruct prior as [prior|].
  { left. apply bind_cases in E as [([] & w2 & E2 & E) | (e & -> & E2)]; apply commit_noted in E2 as [Hr Hn]; [|done].
    apply alert_noted in E as [_ Hn2]. rewrite (nt_signals _ _ _ Hn) in Hn2. eexists. split; [by eapply noted_trans|].
    intros _. by eapply (Hun (with_status sig sg_duplicate)). }
  specialize (Hprior eq_refl). set (sig0 := with_status sig sg_validating) in *.
  apply bind_cases in E as [([] & w2 & E2 & E) | (e & -> & E2)]; pose proof E2 as Ec2; apply commit_noted in E2 as [Hr Hn2]; [|done].
  apply bind_cases in E as [(go & w3 & E3 & E) | (e & -> & E3)]; apply anomaly_gate_spec in E3.
  2: { left. destruct E3 as [([? [=]] & _) | [([=] & _) | (e' & _ & Hn3)]]. rewrite (nt_signals _ _ _ Hn2) in Hn3.
       eexists. split; [by eapply noted_trans | done]. }
  assert (Hbk : cache_at w2 (block_key (s_id strategy)) (w_now w2) = cache_at w (block_key (s_id strategy)) (w_now w)).
  { by injection Ec2 as <-. }
  pose proof (nt_signals _ _ _ Hn2) as Hs2. rewrite Hbk, Hs2 in E3.
  destruct E3 as [([shield [= ->]] & Hn3 & Hcd) | [([= ->] & Hn3) | (e & [=] & _)]].
  2: { left. injection E as <- <-. eexists. split; [by eapply noted_trans|]. intros _. eapply (Hun (rejected sig0)); [done | | done].
       by rewrite stored_stored. }
  pose proof (noted_trans _ _ _ _ _ Hn2 Hn3) as Hn03'. unfold validated_entry in E.
  apply bind_cases in E as [(sig1 & w3' & E4 & E) | (e & -> & E4)]; apply annotate_spec in E4 as (sig1' & Hr1 & Ha & Hna); [|done].
  injection Hr1 as <-. rewrite (nt_signals _ _ _ Hn03') in Hna. pose proof (noted_trans _ _ _ _ _ Hn03' Hna) as Hn03.
  apply bind_cases in E as [(d & w4 & E5 & E) | (e & -> & E5)]; apply from_result_spec in E5 as [-> Hd].
  2: { left. eexists. by split. }
  pose proof (ss_id _ _ Ha) as Hid1. change (g_id sig0) with (g_id sig) in Hid1. cbv zeta in E. case_bool_decide as Hrej.
  { left. apply commit_noted in E as [_ Hn4]. rewrite (nt_signals _ _ _ Hn03) in Hn4. eexists. split; [by eapply noted_trans|].
    intros _. eapply (Hun (with_status (sig1 <| g_ai_decision := Some (ai_status d) |>) sg_rejected)); [by rewrite <- Hid | | done].
    by rewrite stored_stored. }
  apply bind_cases in E as [([] & w4 & E6 & E) | (e & -> & E6)]; apply commit_noted in E6 as [Hr4 Hn4]; [|done].
  rewrite (nt_signals _ _ _ Hn03), stored_stored in Hn4 by done.
  right. exists sig, strategy, d, (with_status (sig1 <| g_ai_decision := Some (ai_status d) |>) sg_executing), w4. split; [|exact E].
  split; try done; [|by eapply noted_trans]. exists sig1. split_and!; try done. by destruct Ha.
Qed.

(** ** The executors *)

Lemma hooks_spec u w r w' :
  book_inv w -> post_trade_hooks settings u w = (r, w') ->
  r = Ok tt
  /\ (exists ok, touched (fun p => of_user u p = true) ok w w' /\ (forall k p, ok k p -> on_account u w k p)
       /\ (w_orders w' <> w_orders w -> gated u w'))
  /\ desk w' = desk w
  /\ (forall key t, key <> kill_key u -> key <> trades_key u -> redis_get key t (w_redis w') = redis_get key t (w_redis w))
  /\ w_now w' = w_now w.
Proof.
  intros Hb E. unfold post_trade_hooks in E.
  apply bind_cases in E as [(out & w1 & E1 & E) | (e & -> & E1)]; apply attempt_cases in E1 as (x & Hx & E1); [|done].
  injection E as <- <-. split; [done|].
  assert (Hsame : exists ok, touched (fun p => of_user u p = true) ok w w /\ (forall k p, ok k p -> on_account u w k p)
       /\ (w_orders w <> w_orders w -> gated u w)).
  { exists (fun _ _ => False). split; [by apply same_book_touched | by split]. }
  apply bind_cases in E1 as [(n & w2 & E2 & E1) | (e & -> & E2)]; apply increment_spec in E2; [|by subst].
  destruct E2 as (m & _ & _ & Hsb & Hpl & Hre & _).
  assert (Hb2 : book_inv w2) by (apply (book_inv_ext w); [done | apply Hsb..]).
  apply brake_spec in E1 as ((ok & Htc & Hok & Hg) & Hd & Hr & Hn); [|done]. split_and!.
  - exists ok. split; [|split].
    + destruct Htc as [? ? ? ? ?]. split; rewrite <- ?(sb_positions _ _ Hsb), <- ?(sb_orders _ _ Hsb); auto.
    + intros k p Hk. apply Hok in Hk. unfold on_account in *. by rewrite <- (sb_credentials _ _ Hsb).
    + by rewrite <- (sb_orders _ _ Hsb).
  - rewrite Hd. unfold desk. by rewrite Hpl.
  - intros key t Hk1 Hk2. by rewrite Hr, Hre.
  - rewrite Hn. apply Hsb.
Qed.

(** What happened after the checks. *)
Inductive routed (sig : StrategySignal) (strategy : Strategy) (lots : Z) w : result exn unit -> world B R -> Prop :=
| routed_nothing w' sig2 :
    g_id sig2 = g_id sig -> g_status sig2 <> sg_executed -> noted (stored sig2 (pf_signals (w_platform w))) w w' ->
    routed sig strategy lots w (Ok tt) w'
| routed_raised e : routed sig strategy lots w (Err e) w
| routed_paper w2 w' found :
    resolve_instrument_type (Some strategy) <> FUTURES -> paper_env w w2 -> paper_effect sig strategy found w w2 ->
    cash_execution_enabled settings = true \/ options_execution_enabled settings = true ->
    noted (stored (with_status sig sg_executed) (pf_signals (w_platform w))) w2 w' -> routed sig strategy lots w (Ok tt) w'
| routed_failed e w2 w' sig2 :
    resolve_instrument_type (Some strategy) = FUTURES -> place_strategy_orders settings sig strategy (Some lots) w = (Err e, w2) ->
    g_id sig2 = g_id sig -> g_status sig2 <> sg_executed -> noted (stored sig2 (pf_signals (w_platform w))) w2 w' ->
    routed sig strategy lots w (Ok tt) w'
| routed_entered res w2 w3 w' :
    resolve_instrument_type (Some strategy) = FUTURES -> place_strategy_orders settings sig strategy (Some lots) w = (Ok res, w2) ->
    noted (stored (with_status sig sg_executed) (pf_signals (w_platform w))) w2 w3 ->
    post_trade_hooks settings (g_user_id sig) w3 = (Ok tt, w') -> routed sig strategy lots w (Ok tt) w'.

Lemma failed_noted sig level event w r w' :
  failed_with sig level event w = (r, w') -> r = Ok tt /\ noted (stored (with_status sig sg_failed) (pf_signals (w_platform w))) w w'.
Proof.
  unfold failed_with. intros E. apply bind_cases in E as [([] & w1 & E1 & E) | (e & -> & E1)]; apply commit_noted in E1 as [Hr Hn]; [|done].
  apply alert_noted in E as [-> Hn2]. rewrite (nt_signals _ _ _ Hn) in Hn2. split; [done|]. by eapply noted_trans.
Qed.

Lemma fill_alert_noted sig res w r w' : fill_alert sig res w = (r, w') -> r = Ok tt /\ noted (pf_signals (w_platform w)) w w'.
Proof. unfold fill_alert. destruct (paper_mode res); [|destruct (broker_status res)]; apply alert_noted. Qed.

Lemma futures_entry_routed sig strategy lots w r w' :
  resolve_instrument_type (Some strategy) = FUTURES -> g_status sig <> sg_executed ->
  futures_entry settings sig strategy lots w = (r, w') -> routed sig strategy lots w r w'.
Proof.
  intros Hfut Hst E. unfold futures_entry in E.
  apply bind_cases in E as [(out & w2 & E1 & E) | (e & -> & E1)]; apply attempt_cases in E1 as (x & Hx & E1); [|done].
  injection Hx as <-. pose proof (entry_frame _ _ _ _ _ _ _ (place_strategy_orders_cases _ _ _ _ _ _ _ E1)) as (Hpl & _).
  assert (Hfail : forall e, out = Err e -> (exists sig2, g_id sig2 = g_id sig /\ g_status sig2 <> sg_executed
            /\ r = Ok tt /\ noted (stored sig2 (pf_signals (w_platform w2))) w2 w') -> routed sig strategy lots w r w').
  { intros e -> (sig2 & Hid & Hs & -> & Hn). rewrite Hpl in Hn. by eapply routed_failed. }
  destruct out as [res|e].
  - apply bind_cases in E as [([] & w3 & E3 & E) | (e & -> & E3)]; apply commit_noted in E3 as [Hr3 Hn3]; [|done].
    apply bind_cases in E as [([] & w4 & E4 & E) | (e & -> & E4)]; apply fill_alert_noted in E4 as [Hr4 Hn4]; [|done].
    rewrite (nt_signals _ _ _ Hn3), Hpl in Hn4. pose proof (noted_trans _ _ _ _ _ Hn3 Hn4) as Hn.
    assert (Hw : r = Ok tt) by (unfold post_trade_hooks in E; apply bind_cases in E as [(? & ? & _ & E) | (? & -> & E)];
      [by injection E | by apply attempt_cases in E as (? & [=] & _)]). subst r.
    by eapply routed_entered.
  - apply (Hfail e eq_refl). assert (Hf : forall level event, failed_with sig level event w2 = (r, w') -> exists sig2,
      g_id sig2 = g_id sig /\ g_status sig2 <> sg_executed /\ r = Ok tt /\ noted (stored sig2 (pf_signals (w_platform w2))) w2 w').
    { intros level event Ef. apply failed_noted in Ef as [-> Hn]. by exists (with_status sig sg_failed). }
    destruct e as [| |b| | | | | | | | | | | | | | | |]; try (by eapply Hf).
    destruct b; try (by eapply Hf). apply commit_noted in E as [-> Hn]. by exists sig.
Qed.

Lemma route_entry_routed sig strategy lots w r w' :
  g_status sig <> sg_executed ->
  route_entry settings scrip_cache sig strategy lots w = (r, w') -> routed sig strategy lots w r w'.
Proof.
  intros Hst E. unfold route_entry in E.
  assert (Hskip : commit (with_status sig sg_skipped) w = (r, w') -> routed sig strategy lots w r w').
  { intros Es. apply commit_noted in Es as [-> Hn]. by eapply (routed_nothing sig strategy lots w w' (with_status sig sg_skipped)). }
  assert (Hpx : forall m flag, resolve_instrument_type (Some strategy) <> FUTURES ->
    (flag = true -> cash_execution_enabled settings = true \/ options_execution_enabled settings = true) ->
    (forall r0 w0, m w = (r0, w0) -> execute_cash_entry settings sig strategy w = (r0, w0)
       \/ execute_options_entry settings scrip_cache sig strategy w = (r0, w0)) -> flag = true ->
    (res ← m; commit (with_status sig (entry_status (px_status res)))) w = (r, w') -> routed sig strategy lots w r w').
  { intros m flag Hins Hfl Hm Hflag Em. apply bind_cases in Em as [(res & w1 & E1 & Em) | (e & -> & E1)]; apply Hm in E1.
    - pose proof (paper_entry_result _ _ _ _ _ _ _ E1) as [-> | (res' & [= <-] & Hx)].
      + apply commit_noted in Em as [-> Hn]. destruct (px_status res) eqn:Ex.
        { eapply (routed_paper sig strategy lots w w w' (fun _ => true)); [done | apply paper_env_refl | by apply px_nothing | auto | exact Hn]. }
        all: by eapply (routed_nothing sig strategy lots w w' (with_status sig _)); [..|exact Hn].
      + destruct (paper_executors_contained settings scrip_cache sig strategy ""%string w (Ok res) w1 (fun _ => true)) as (Hv & He & _); [tauto|].
        rewrite Hx in Em. apply commit_noted in Em as [-> Hn]. rewrite (pv_platform _ _ Hv) in Hn.
        eapply (routed_paper sig strategy lots w w1 w'); eauto.
    - pose proof (paper_entry_result _ _ _ _ _ _ _ E1) as [-> | (res' & [=] & _)]. apply routed_raised. }
  destruct (resolve_instrument_type (Some strategy)) eqn:Hins.
  - by eapply futures_entry_routed.
  - destruct (options_execution_enabled settings) eqn:Hen; [|by apply Hskip]. eapply (Hpx _ true); [done | auto | by right | done | exact E].
  - destruct (cash_execution_enabled settings) eqn:Hen; [|by apply Hskip]. eapply (Hpx _ true); [done | auto | by left | done | exact E].
Qed.

(** ** The tasks *)

(** A run of an entry task trades nothing, or sends the signal, checked, to its
    executor and completes. *)
Lemma entry_task_cases sid w r w' :
  execute_signal_async settings scrip_cache sid "entry" w = (r, w') ->
  exists o, r = Ok o /\
    ((exists sigs, noted sigs w w' /\ (o = TaskOk -> unexecuted sid sigs))
     \/ exists sig strategy d sig' w1, o = TaskOk /\ entry_pass sid sig strategy d sig' w w1
          /\ routed sig' strategy (recommended_lots d) w1 (Ok tt) w').
Proof.
  unfold execute_signal_async. cbn [negb]. intros E.
  apply bind_cases in E as [(out & w1 & E1 & E) | (e & -> & E1)]; apply attempt_cases in E1 as (x & Hx & E1); [|done].
  injection Hx as <-. injection E as <- <-. eexists. split; [reflexivity|].
  cbn [String.eqb Ascii.eqb Bool.eqb] in E1. unfold process_entry in E1.
  apply bind_cases in E1 as [(body & w2 & E2 & E1) | (e & -> & E2)]; apply attempt_cases in E2 as (y & Hy & E2); [|done].
  injection Hy as <-.
  assert (Herr : forall e sigs, body = Err e -> noted sigs w w2 -> exists sigs', noted sigs' w w1
            /\ (match out with Ok _ => TaskOk | Err e => if permanent e then TaskError else TaskRetry e end = TaskOk -> unexecuted sid sigs')).
  { intros e sigs -> Hn. apply bind_cases in E1 as [([] & w3 & E3 & E1) | (e' & -> & E3)]; apply alert_noted in E3 as [Hr3 Hn3]; [|done].
    injection E1 as <- <-. rewrite (nt_signals _ _ _ Hn) in Hn3. exists sigs. split; [by eapply noted_trans | by destruct (permanent e)]. }
  apply entry_body_cases in E2 as [(sigs & Hn & Hun) | (sig & strategy & d & sig' & w3 & Hep & E2)].
  - left. destruct body as [[]|e]; [|by eapply Herr]. injection E1 as <- <-. exists sigs. by split; [|intros _; apply Hun].
  - apply route_entry_routed in E2; [|by destruct Hep as [_ _ _ _ (? & _ & _ & _ & ->) _]].
    destruct body as [[]|e].
    + right. injection E1 as <- <-. by exists sig, strategy, d, sig', w3.
    + left. eapply Herr; [reflexivity|]. inversion E2; subst. by destruct Hep.
Qed.

(** A run of an exit task. *)
Inductive exit_run (sid : uuid) (kind : string) w : world B R -> Prop :=
| exit_noted sigs w' : noted sigs w w' -> exit_run sid kind w w'
| exit_paper sig strategy w1 w2 found sigs w' :
    List.find (fun g => g_id g =? sid) (pf_signals (w_platform w)) = Some sig ->
    List.find (fun s => s_id s =? g_strategy_id sig) (w_strategies w) = Some strategy ->
    noted (stored (with_status sig sg_executing) (pf_signals (w_platform w))) w w1 ->
    paper_env w1 w2 -> paper_effect (with_status sig sg_executing) strategy found w1 w2 ->
    cash_execution_enabled settings = true \/ options_execution_enabled settings = true ->
    noted sigs w2 w' -> exit_run sid kind w w'
| exit_direct sig strategy w1 out w2 sigs w' :
    List.find (fun g => g_id g =? sid) (pf_signals (w_platform w)) = Some sig ->
    List.find (fun s => s_id s =? g_strategy_id sig) (w_strategies w) = Some strategy -> s_is_active strategy = true ->
    resolve_instrument_type (Some strategy) = FUTURES ->
    noted (stored (with_status sig sg_executing) (pf_signals (w_platform w))) w w1 ->
    direct_exit_and_mirror settings kind (with_status sig sg_executing) strategy w1 = (out, w2) ->
    noted sigs w2 w' -> exit_run sid kind w w'.

Lemma futures_exit_noted sig strategy kind w r w' :
  futures_exit settings sig strategy kind w = (r, w') ->
  exists out w2 sigs, direct_exit_and_mirror settings kind sig strategy w = (out, w2) /\ noted sigs w2 w'.
Proof.
  intros E. unfold futures_exit in E.
  apply bind_cases in E as [(out & w2 & E1 & E) | (e & -> & E1)]; apply attempt_cases in E1 as (x & Hx & E1); [|done].
  injection Hx as <-. exists out, w2.
  assert (Hf : forall level event, failed_with sig level event w2 = (r, w') -> exists sigs,
    direct_exit_and_mirror settings kind sig strategy w = (out, w2) /\ noted sigs w2 w').
  { intros level event Ef. apply failed_noted in Ef as [_ Hn]. eauto. }
  assert (Hc : forall g, commit g w2 = (r, w') -> exists sigs,
    direct_exit_and_mirror settings kind sig strategy w = (out, w2) /\ noted sigs w2 w').
  { intros g Ec. apply commit_noted in Ec as [_ Hn]. eauto. }
  destruct out as [[reason oid | c n oid st]|e]; [by eapply Hc | by eapply Hc|].
  destruct e as [| |b| | | | | | | | | | | | | | | |]; try (by eapply Hf). destruct b; first [by eapply Hf | by eapply Hc].
Qed.

Lemma exit_task_cases sid kind w r w' :
  kind <> "entry"%string -> execute_signal_async settings scrip_cache sid kind w = (r, w') ->
  (exists o, r = Ok o) /\ exit_run sid kind w w'.
Proof.
  intros Hk. unfold execute_signal_async. destruct (negb _); [intros [= <- <-]; split; [eauto | by eapply exit_noted, noted_refl]|]. intros E.
  apply bind_cases in E as [(out & w1 & E1 & E) | (e & -> & E1)]; apply attempt_cases in E1 as (x & Hx & E1); [|done].
  injection Hx as <-. injection E as <- <-. split; [eauto|]. rewrite (proj2 (String.eqb_neq _ _) Hk) in E1.
  unfold process_direct_exit in E1. unfold mbind at 1, M_bind at 1, load_signal, gets at 1 in E1.
  destruct (List.find _ (pf_signals (w_platform w))) as [sig|] eqn:Ef; [|injection E1 as <- <-; by eapply exit_noted, noted_refl].
  unfold mbind at 1, M_bind at 1, load_active_strategy, gets at 1 in E1.
  destruct (List.find _ (w_strategies w)) as [strategy|] eqn:Es; simpl in E1; [|apply commit_noted in E1 as [_ Hn]; by eapply exit_noted].
  destruct (s_is_active strategy) eqn:Hact; [|apply commit_noted in E1 as [_ Hn]; by eapply exit_noted].
  apply bind_cases in E1 as [([] & w2 & E2 & E1) | (e & -> & E2)]; apply commit_noted in E2 as [Hr2 Hn2]; [|done].
  set (sig' := with_status sig sg_executing) in *. unfold route_exit in E1.
  assert (Hc : forall g, commit g w2 = (out, w1) -> exit_run sid kind w w1).
  { intros g Ec. apply commit_noted in Ec as [_ Hn]. eapply exit_noted, noted_trans; [exact Hn2 | exact Hn]. }
  assert (Hpx : forall m found, (forall r0 w0, m w2 = (r0, w0) -> execute_cash_exit settings sig' strategy kind w2 = (r0, w0) /\ found = open_cash_row (s_id strategy)
       \/ execute_options_exit settings sig' strategy kind w2 = (r0, w0) /\ found = open_option_row (s_id strategy)) ->
    cash_execution_enabled settings = true \/ options_execution_enabled settings = true ->
    (res ← m; commit (with_status sig' (exit_status (px_status res)))) w2 = (out, w1) -> exit_run sid kind w w1).
  { intros m found Hm Hfl Em.
    assert (Hcont : forall r0 w0, m w2 = (r0, w0) -> paper_env w2 w0 /\ paper_effect sig' strategy found w2 w0).
    { intros r0 w0 E0. destruct (paper_executors_contained settings scrip_cache sig' strategy kind w2 r0 w0 found) as (Hv & He & _);
        [apply Hm in E0; tauto | done]. }
    apply bind_cases in Em as [(res & w3 & E3 & Em) | (e & -> & E3)]; apply Hcont in E3 as [Hv He].
    - apply commit_noted in Em as [_ Hn]. eapply (exit_paper sid kind w sig strategy w2 w3); eauto.
    - eapply (exit_paper sid kind w sig strategy w2 w1); eauto using noted_refl. }
  destruct (resolve_instrument_type (Some strategy)) eqn:Hins.
  - apply futures_exit_noted in E1 as (out' & w3 & sigs & E3 & Hn3). by eapply (exit_direct sid kind w sig strategy w2 out' w3 sigs).
  - destruct (options_execution_enabled settings) eqn:Hen; [|by eapply Hc].
    eapply (Hpx _ (open_option_row (s_id strategy))); [by right | auto | exact E1].
  - destruct (cash_execution_enabled settings) eqn:Hen; [|by eapply Hc].
    eapply (Hpx _ (open_cash_row (s_id strategy))); [by left | auto | exact E1].
Qed.
End Runs.
