(* ===== verification/SignalGuarantees.v ===== *)
(** * The signal worker: the guarantees

    The theorems about [execute_signal_async], on the case analysis of
    [SignalSafety.v], and concrete runs. *)

From Stdlib Require Import ZArith Lia List Bool String SpecFloat.
From stdpp Require Import base list strings gmap.
From S2P Require Import Prelude PyText PyFloat PyDecimal PyNum SymbolMatch Records Enums Models Safeguards Book Ledger Samples DayState Calendar.
From S2P Require Import ScripMaster FuturesResolver AiValidator PineMapper PositionManager StrategyExecutor DirectExit CircuitBreaker BreakerSafety.
From S2P Require Import MarketShield KillSwitch KillSafety KillGate OrderService Webhook WebhookSafety BrokerBatch Fanout FanoutSafety Mirroring MirroredExit.
From S2P Require Import StrategyWebhook StrategyGate AnomalyShield TradeDna OptionOrder PaperExecutors SignalTask SignalSafety.

Section Guarantees.
Context {B R : Type} `{BrokerInterface B} `{RedisLaws R} `{Decryptor}.
Context {CO : Coercion} (settings : Settings) (scrip_cache : datetime -> scrip_master).
Implicit Types (w : world B R).

Abbreviation run := (execute_signal_async settings scrip_cache).
Abbreviation find_signal sid w := (List.find (fun g => g_id g =? sid) (pf_signals (w_platform w))).

(** The slot of a task, and that its strategy trades live. *)
Definition task_slot (sid : uuid) (kind : string) : string :=
  signal_idempotency_key sid (if String.eqb kind "entry" then "entry" else "exit").

Definition live_task (sid : uuid) w : Prop :=
  forall sig strategy, find_signal sid w = Some sig ->
    List.find (fun s => s_id s =? g_strategy_id sig) (w_strategies w) = Some strategy ->
    resolve_paper_mode settings (Some strategy) = false.

(** The book is well formed and the signals are spelled the way the webhook writes
    them. *)
Record sound w : Prop := {
  so_book : book_inv w;
  so_one : one_open (w_positions w);
  so_upper : Forall (fun g => str_upper (g_symbol g) = g_symbol g) (pf_signals (w_platform w))
}.

(** ** Sending *)

(** A live entry either sends nothing and fails without a trace in the tables, or
    sends one order into a slot that was free and is then held. *)
Definition one_send (slot : string) w w' : Prop :=
  exists ko, w_orders w' = w_orders w ++ [ko] /\ redis_get slot (w_now w) (w_redis w) = None
    /\ held slot (w_now w) (w_now w + SIGNAL_IDEMPOTENCY_TTL_SECONDS) (w_redis w').

Lemma live_place sig strategy lots w r w' :
  resolve_paper_mode settings (Some strategy) = false -> place_strategy_orders settings sig strategy (Some lots) w = (r, w') ->
  ((exists e, r = Err e) /\ w_orders w' = w_orders w /\ w_redis w' = w_redis w /\ w_positions w' = w_positions w /\ w_executions w' = w_executions w)
  \/ one_send (signal_idempotency_key (g_id sig) "entry") w w'.
Proof.
  intros Hlive E. apply place_strategy_orders_cases in E. pose proof (entry_sends _ _ _ _ _ _ _ E) as Hs.
  destruct Hs as [[Ho Hr] | (ko & Ho & _ & Hf & Hh)]; [|right; by exists ko].
  left. destruct (entry_tables _ _ _ _ _ _ _ E) as [(e & -> & Hp & _ & Hx) | (res & ? & ? & ? & ? & ? & ? & ? & _ & Hen)].
  - split_and!; eauto.
  - destruct (en_source _ _ _ _ _ _ _ _ _ _ _ _ _ _ Hen) as [(Hp & _) | (_ & k & o & fill & b & b' & Hsent & _)]; [congruence|].
    rewrite Ho in Hsent. apply (f_equal length) in Hsent. rewrite length_app in Hsent. simpl in Hsent. lia.
Qed.

(** Notes before and after do not matter. *)
Lemma one_send_noted slot s0 s1 w w1 w2 w' :
  noted s0 w w1 -> one_send slot w1 w2 -> noted s1 w2 w' -> one_send slot w w'.
Proof.
  intros [Hb0 Hr0 _ _ _ _] (ko & Ho & Hf & Hh) [Hb1 Hr1 _ _ _ _]. exists ko.
  rewrite (sb_now _ _ Hb0), Hr0 in *. rewrite (sb_orders _ _ Hb1), Ho, (sb_orders _ _ Hb0), Hr1. done.
Qed.

(** The book after the executor. *)
Lemma entered_book sid sig strategy d sig' w w1 lots r w2 :
  sound w -> entry_pass settings sid sig strategy d sig' w w1 ->
  place_strategy_orders settings sig' strategy lots w1 = (r, w2) -> book_inv w2.
Proof.
  intros Hso Hep Hp. destruct (entry_pass_same _ _ _ _ _ _ _ _ Hep) as [Hsame _]. pose proof (ep_noted _ _ _ _ _ _ _ _ Hep) as Hn1.
  pose proof (nt_book _ _ _ Hn1) as Hb1. eapply (entry_keeps_book settings sig' strategy); [..|exact Hp].
  - apply (book_inv_ext w); [apply Hso | apply Hb1..].
  - rewrite (sb_positions _ _ Hb1). apply Hso.
  - rewrite (ss_symbol _ _ Hsame). pose proof (so_upper _ Hso) as Hu. rewrite List.Forall_forall in Hu. apply Hu.
    apply (find_some _ _ (ep_signal _ _ _ _ _ _ _ _ Hep)).
Qed.

(** A run of a live entry task: no trade at all, or one send (followed, if the
    entry succeeded, by closes of the kill switch). *)
Lemma live_entry_run sid w r w' :
  sound w -> live_task sid w -> run sid "entry" w = (r, w') ->
  (w_orders w' = w_orders w /\ w_positions w' = w_positions w /\ w_executions w' = w_executions w)
  \/ exists w1, one_send (task_slot sid "entry") w w1 /\ held (task_slot sid "entry") (w_now w) (w_now w + SIGNAL_IDEMPOTENCY_TTL_SECONDS) (w_redis w').
Proof.
  intros Hso Hlive E. apply entry_task_cases in E as (o & -> & [(sigs & Hn & _) | (sig & strategy & d & sig' & w1 & _ & Hep & Hr)]).
  { left. split_and!; apply (nt_book _ _ _ Hn). }
  destruct (entry_pass_same _ _ _ _ _ _ _ _ Hep) as [Hsame Hid]. pose proof (ep_signal _ _ _ _ _ _ _ _ Hep) as Hf. pose proof (ep_noted _ _ _ _ _ _ _ _ Hep) as Hn1.
  pose proof (Hlive _ _ (ep_signal _ _ _ _ _ _ _ _ Hep) (proj1 (ep_strategy _ _ _ _ _ _ _ _ Hep))) as Hl.
  pose proof (nt_book _ _ _ Hn1) as Hb1.
  assert (Hslot : task_slot sid "entry" = signal_idempotency_key (g_id sig') "entry") by (by rewrite Hid). rewrite Hslot.
  assert (Hback : w_orders w1 = w_orders w /\ w_positions w1 = w_positions w /\ w_executions w1 = w_executions w) by (split_and!; apply Hb1).
  destruct Hback as (<- & <- & <-).
  inversion Hr as [w0 sig2 _ _ Hn Hw0 | | w2 w0 found _ Hv He _ Hn Hw0 | e w2 w0 sig2 _ Hp _ _ Hn Hw0 | res w2 w3 w0 _ Hp Hn Hh Hw0]; subst w0.
  - left. split_and!; apply (nt_book _ _ _ Hn).
  - left. pose proof (nt_book _ _ _ Hn) as Hb2.
    rewrite (sb_orders _ _ Hb2), (sb_positions _ _ Hb2), (sb_executions _ _ Hb2), (pv_orders _ _ Hv), (pv_executions _ _ Hv).
    split_and!; [done | | done]. assert (Hnp : is_paper strategy <> Some true) by (intros Hp; unfold resolve_paper_mode in Hl; by rewrite Hp in Hl).
    by destruct He.
  - pose proof (nt_book _ _ _ Hn) as Hb2. apply live_place in Hp as [(_ & Ho & _ & Hpos & Hx) | Hs]; [| |done].
    + left. by rewrite (sb_orders _ _ Hb2), (sb_positions _ _ Hb2), (sb_executions _ _ Hb2), Ho, Hpos, Hx.
    + right. exists w'. pose proof (one_send_noted _ _ _ _ _ _ _ Hn1 Hs Hn) as Hone. split; [done|]. by destruct Hone as (ko & _ & _ & Hh).
  - pose proof (live_place _ _ _ _ _ _ Hl Hp) as [([e [=]] & _) | Hs]. right. exists w3.
    pose proof (one_send_noted _ _ _ _ _ _ _ Hn1 Hs Hn) as Hone. split; [done|]. destruct Hone as (ko & _ & _ & Hheld).
    assert (Hb3 : book_inv w3).
    { apply (book_inv_ext w2); [|apply (nt_book _ _ _ Hn)..]. by eapply entered_book. }
    apply hooks_spec in Hh as (_ & _ & _ & Hre & _); [|done]. intros t Ht. rewrite Hre by discriminate. by apply Hheld.
Qed.

Lemma mirrored_exit_run kind sig strategy w r w' :
  book_inv w -> direct_exit_and_mirror settings kind sig strategy w = (r, w') ->
  w_orders w' = w_orders w \/ one_send (signal_idempotency_key (g_id sig) "exit") w w'.
Proof.
  intros Hb E. unfold direct_exit_and_mirror in E.
  assert (Hd : exists r0 w1, dispatch_direct_exit settings kind sig strategy w = (r0, w1) /\ (w' = w1 \/ exists ids, served ids w1 w')).
  { apply bind_cases in E as [(x & w1 & E1 & E) | (e & -> & E1)]; [|eauto]. exists (Ok x), w1. split; [done|].
    destruct x; [left; by injection E|]. right.
    apply bind_cases in E as [([] & w2 & E2 & E) | (e & -> & E2)]; apply maybe_fan_out_spec in E2 as (_ & _ & subs & _ & Hsv);
      try (by eapply direct_exit_book); [injection E as _ <-|]; eauto. }
  destruct Hd as (r0 & w1 & Ed & Hfan). apply dispatch_cases in Ed.
  assert (Hs : w_orders w1 = w_orders w \/ one_send (signal_idempotency_key (g_id sig) "exit") w w1).
  { destruct Ed as [? ? Hq _ | p q report ? ? _ _ _ _ _ _ _ Hc]; [left; apply Hq|].
    assert (Hone : closes_at_most_one settings sig strategy p q w w'0) by (by destruct Hc).
    destruct Hone as [Ho | (ko & Ho & _ & Hf & Hh)]; [by left | right; by exists ko]. }
  assert (Hnow : w_now w1 = w_now w).
  { destruct Ed as [? ? Hq _ | p q report ? ? _ _ _ _ _ _ _ Hc]; [apply Hq|].
    destruct Hc as [? ? Ht _ | ? ? Ht _ _ _ _ | ? ? ? ? ? ? _ Ht _ _ _ Hset]; [apply Ht..|].
    etransitivity; [|apply Ht]. apply Hset. }
  destruct Hfan as [-> | (ids & Hsv)]; [done|]. pose proof (sv_env _ _ _ Hsv) as He. rewrite (fe_orders _ _ He).
  destruct Hs as [Hs | (ko & Ho & Hf & Hh)]; [by left | right]. exists ko. rewrite (fe_orders _ _ He). split_and!; [done..|].
  apply (fe_held _ _ He); [|done]. unfold SIGNAL_IDEMPOTENCY_TTL_SECONDS. lia.
Qed.

Lemma live_exit_run sid kind w r w' :
  kind <> "entry"%string -> book_inv w -> run sid kind w = (r, w') ->
  w_orders w' = w_orders w \/ one_send (signal_idempotency_key sid "exit") w w'.
Proof.
  intros Hk Hb E. apply exit_task_cases in E as [_ Hx]; [|done].
  destruct Hx as [sigs w' Hn | sig strategy w1 w2 found sigs w' _ _ Hn1 Hv _ _ Hn2 | sig strategy w1 out w2 sigs w' Hf _ _ _ Hn1 E Hn2].
  - left. apply (nt_book _ _ _ Hn).
  - left. by rewrite (sb_orders _ _ (nt_book _ _ _ Hn2)), (pv_orders _ _ Hv), (sb_orders _ _ (nt_book _ _ _ Hn1)).
  - assert (Hb1 : book_inv w1) by (apply (book_inv_ext w); [done | apply (nt_book _ _ _ Hn1)..]).
    assert (Hid : g_id (with_status sig sg_executing) = sid) by (by apply find_some in Hf as [_ ?%Z.eqb_eq]).
    apply mirrored_exit_run in E as [Ho | Hs]; [| |done].
    + left. by rewrite (sb_orders _ _ (nt_book _ _ _ Hn2)), Ho, (sb_orders _ _ (nt_book _ _ _ Hn1)).
    + right. rewrite <- Hid. by eapply one_send_noted.
Qed.

(** C15: a task never sends twice.  A task may be run any number of times (retries,
    redelivery after a crash of the worker): if a run of the task for a live strategy
    sent any order, then a later run of the same task within the suppression window,
    whatever else happened in between as long as nobody released the slot, sends no
    order at all; for an entry it changes no position and no leg either. *)
Theorem task_sends_once sid kind w r1 w1 w2 r2 w3 :
  sound w -> live_task sid w -> run sid kind w = (r1, w1) -> w_orders w1 <> w_orders w ->
  sound w2 -> live_task sid w2 -> w_now w <= w_now w2 < w_now w + SIGNAL_IDEMPOTENCY_TTL_SECONDS ->
  redis_get (task_slot sid kind) (w_now w2) (w_redis w2) = redis_get (task_slot sid kind) (w_now w2) (w_redis w1) ->
  run sid kind w2 = (r2, w3) ->
  w_orders w3 = w_orders w2
  /\ (kind = "entry"%string -> w_positions w3 = w_positions w2 /\ w_executions w3 = w_executions w2).
Proof.
  intros Hso Hl E1 Hsent Hso2 Hl2 Ht Hsame E2. destruct (String.eqb_spec kind "entry") as [-> | Hk].
  - apply live_entry_run in E1 as [(Ho & _) | (wx & _ & Hheld)]; [done| |done..].
    apply live_entry_run in E2 as [(Ho & Hp & Hx) | (wy & (ko & _ & Hfree & _) & _)]; [auto| |done..].
    destruct (Hheld _ Ht) as [v Hv]. congruence.
  - assert (Hslot : task_slot sid kind = signal_idempotency_key sid "exit").
    { unfold task_slot. by rewrite (proj2 (String.eqb_neq _ _) Hk). }
    rewrite Hslot in Hsame. split; [|done].
    apply live_exit_run in E1 as [Ho | (ko & _ & _ & Hheld)]; [done| |done | apply Hso].
    apply live_exit_run in E2 as [Ho | (ko2 & _ & Hfree & _)]; [done| |done | apply Hso2].
    destruct (Hheld _ Ht) as [v Hv]. congruence.
Qed.

(** A Pine fire enters once.  When the signal of an entry task carries a fire
    time and another entry of the same strategy with that fire time, received within
    the last day, is being validated, executing or executed, the run changes no
    position, leg, order or slot, completes, and marks the signal a duplicate. *)
Theorem same_fire_suppressed sid sig strategy prior w r w' :
  find_signal sid w = Some sig ->
  List.find (fun s => s_id s =? g_strategy_id sig) (w_strategies w) = Some strategy -> s_is_active strategy = true ->
  truthy (jget (raw_payload sig) "timestamp") = true ->
  In prior (pf_signals (w_platform w)) -> g_strategy_id prior = s_id strategy -> g_id prior <> sid -> g_action prior = "ENTRY"%string ->
  g_status prior ∈ [sg_validating; sg_executing; sg_executed] -> w_now w - 86400 <= g_received_at prior ->
  py_eq (jget (raw_payload prior) "timestamp") (jget (raw_payload sig) "timestamp") = true ->
  truthy (jget (raw_payload prior) "timestamp") = true ->
  run sid "entry" w = (r, w') ->
  r = Ok TaskOk /\ w_positions w' = w_positions w /\ w_executions w' = w_executions w /\ w_orders w' = w_orders w
  /\ w_redis w' = w_redis w /\ find_signal sid w' = Some (with_status sig sg_duplicate).
Proof.
  intros Hf Hs Hact Hts Hin Hps Hpid Hpa Hpst Hrec Heq Hpt E.
  assert (Hid : g_id sig = sid) by (by apply find_some in Hf as [_ ?%Z.eqb_eq]).
  assert (Hsf : same_fire (s_id strategy) (g_id sig) (jget (raw_payload sig) "timestamp") (w_now w - DUP_ENTRY_LOOKBACK_SECONDS) prior = true).
  { unfold same_fire, j_or. rewrite Hps, Z.eqb_refl, Hid, (proj2 (Z.eqb_neq _ _) Hpid), Hpa, Hpt, Heq. cbn [negb andb String.eqb Ascii.eqb Bool.eqb].
    assert (Hd : dup_blocking (g_status prior) = true) by (by repeat (apply elem_of_cons in Hpst as [-> | Hpst]; [done|]); apply not_elem_of_nil in Hpst).
    rewrite Hd, (proj2 (Z.leb_le _ _)); [done|]. unfold DUP_ENTRY_LOOKBACK_SECONDS. lia. }
  assert (Hdup : exists p, find_duplicate_entry strategy sig w = (Ok (Some p), w)).
  { unfold find_duplicate_entry. cbv zeta. rewrite Hts. cbn [negb]. unfold gets. destruct (latest_by g_received_at _) as [p|] eqn:El; [by exists p|].
    apply latest_by_none in El. assert (Hm : In prior []) by (rewrite <- El; by apply filter_In). done. }
  destruct Hdup as [p Hdup].
  assert (Hbody : exists w1, entry_body settings scrip_cache sid w = (Ok tt, w1)
            /\ noted (stored (with_status sig sg_duplicate) (pf_signals (w_platform w))) w w1).
  { unfold entry_body. unfold mbind at 1, M_bind at 1, load_signal, gets at 1. rewrite Hf.
    unfold mbind at 1, M_bind at 1, load_active_strategy, gets at 1. rewrite Hs. simpl. rewrite Hact.
    unfold mbind at 1, M_bind at 1. rewrite Hdup.
    destruct ((commit (with_status sig sg_duplicate) ;; plain_alert WARNING "duplicate_entry_suppressed" "") w) as [r1 w1] eqn:Ec.
    exists w1. apply bind_cases in Ec as [([] & w2 & E2 & Ec) | (e & -> & E2)]; apply commit_noted in E2 as [Hr2 Hn2]; [|done].
    apply alert_noted in Ec as [-> Hn]. rewrite (nt_signals _ _ _ Hn2) in Hn. split; [done|]. by eapply noted_trans. }
  destruct Hbody as (w1 & Eb & Hn). unfold execute_signal_async, process_entry, attempt in E.
  cbn [negb one_of existsb VALID_ACTION_KINDS String.eqb Ascii.eqb Bool.eqb orb] in E. unfold mbind, M_bind in E. rewrite Eb in E. injection E as <- <-.
  split; [done|]. pose proof (nt_book _ _ _ Hn) as Hb. split_and!; try apply Hb; [apply Hn|].
  rewrite (nt_signals _ _ _ Hn). assert (Hd : g_id (with_status sig sg_duplicate) = sid) by done. rewrite <- Hd. apply find_stored.
  rewrite Hd. by rewrite Hf.
Qed.

(** C16: an entry trades only through every gate.  If a run of an entry task changed
    a position, a leg or an order, then the signal exists, its strategy is active, no
    other entry of the same Pine fire is in flight or done, no anomaly cooldown was
    running, and the validator approved the entry; unless the paper executors of the
    cash or options module did it, the executor placed exactly that signal with the
    lots the validator recommended, and the orders of the run are at most one entry
    order of the signal, followed only, when the entry succeeded and the kill switch
    is tripped now, by closes of that user's rows. *)
Theorem entry_task_gated sid w r w' :
  sound w -> run sid "entry" w = (r, w') ->
  ~ (w_positions w' = w_positions w /\ w_executions w' = w_executions w /\ w_orders w' = w_orders w) ->
  exists sig strategy d sig' w1, entry_pass settings sid sig strategy d sig' w w1
    /\ same_signal sig sig'
    /\ ((resolve_instrument_type (Some strategy) <> FUTURES /\ is_paper strategy = Some true /\ w_orders w' = w_orders w
          /\ w_executions w' = w_executions w)
        \/ exists r2 w2 own closes,
             place_strategy_orders settings sig' strategy (Some (recommended_lots d)) w1 = (r2, w2)
             /\ resolve_instrument_type (Some strategy) = FUTURES
             /\ w_orders w' = w_orders w ++ own ++ map sent_order closes
             /\ (length own <= 1)%nat /\ Forall (entry_order_ok settings sig' strategy w1) own
             /\ Forall (fun kp => on_account (g_user_id sig) w kp.1 kp.2) closes
             /\ (closes <> [] -> gated (g_user_id sig) w' /\ exists res, r2 = Ok res)).
Proof.
  intros Hso E Hch. apply entry_task_cases in E as (o & -> & [(sigs & Hn & _) | (sig & strategy & d & sig' & w1 & _ & Hep & Hr)]).
  { destruct Hch. split_and!; apply (nt_book _ _ _ Hn). }
  destruct (entry_pass_same _ _ _ _ _ _ _ _ Hep) as [Hsame Hid]. pose proof (ep_noted _ _ _ _ _ _ _ _ Hep) as Hn1.
  pose proof (nt_book _ _ _ Hn1) as Hb1. exists sig, strategy, d, sig', w1. split; [done|]. split; [done|].
  assert (Hback : w_orders w1 = w_orders w /\ w_positions w1 = w_positions w /\ w_executions w1 = w_executions w) by (split_and!; apply Hb1).
  destruct Hback as (Ho1 & Hp1 & Hx1).
  assert (Hplace : forall r2 w2, place_strategy_orders settings sig' strategy (Some (recommended_lots d)) w1 = (r2, w2) ->
            exists own, w_orders w2 = w_orders w ++ own /\ (length own <= 1)%nat /\ Forall (entry_order_ok settings sig' strategy w1) own).
  { intros r2 w2 Ep. apply place_strategy_orders_cases, entry_sends in Ep as [[Ho _] | (ko & Ho & Hok & _)]; rewrite Ho, Ho1.
    - exists []. rewrite app_nil_r. simpl. auto.
    - exists [ko]. simpl. auto. }
  inversion Hr as [w0 sig2 _ _ Hn Hw0 | | w2 w0 found Hins Hv He _ Hn Hw0 | e w2 w0 sig2 Hins Hp _ _ Hn Hw0 | res w2 w3 w0 Hins Hp Hn Hh Hw0]; subst w0.
  - destruct Hch. rewrite <- Ho1, <- Hp1, <- Hx1. split_and!; apply (nt_book _ _ _ Hn).
  - left. pose proof (nt_book _ _ _ Hn) as Hb2. rewrite (sb_orders _ _ Hb2), (sb_executions _ _ Hb2), (pv_orders _ _ Hv), (pv_executions _ _ Hv).
    split_and!; try done. destruct He as [w2 Hpos | w2 ? ? ? ? ? ? Hp | w2 ? ? ? Hp]; [|done..]. destruct Hch.
    by rewrite (sb_orders _ _ Hb2), (sb_executions _ _ Hb2), (sb_positions _ _ Hb2), (pv_orders _ _ Hv), (pv_executions _ _ Hv), Hpos.
  - right. destruct (Hplace _ _ Hp) as (own & Ho & Hlen & Hok). exists (Err e), w2, own, []. simpl. rewrite app_nil_r.
    split_and!; try done. by rewrite (sb_orders _ _ (nt_book _ _ _ Hn)).
  - right. destruct (Hplace _ _ Hp) as (own & Ho & Hlen & Hok).
    assert (Hb3 : book_inv w3).
    { apply (book_inv_ext w2); [|apply (nt_book _ _ _ Hn)..]. by eapply entered_book. }
    apply hooks_spec in Hh as (_ & (ok & Htc & Hacc & Hg) & _); [|done]. destruct (tc_orders _ _ _ _ Htc) as (sent & Es & Hs).
    rewrite (ss_user _ _ Hsame) in *. exists (Ok res), w2, own, sent. split_and!; try done.
    + by rewrite Es, (sb_orders _ _ (nt_book _ _ _ Hn)), Ho, List.app_assoc.
    + eapply Forall_impl; [exact Hs|]. intros kp (_ & _ & _ & Hk). apply Hacc in Hk. unfold on_account in *.
      pose proof (entry_frame _ _ _ _ _ _ _ (place_strategy_orders_cases _ _ _ _ _ _ _ Hp)) as (_ & Hc & _).
      by rewrite <- (sb_credentials _ _ Hb1), <- Hc, <- (sb_credentials _ _ (nt_book _ _ _ Hn)).
    + intros Hne. split; [|eauto]. apply Hg. rewrite Es. intros Eq. apply Hne. apply (f_equal length) in Eq. rewrite length_app, length_map in Eq.
      destruct sent; [done | simpl in Eq; lia].
Qed.

(** The status never hides a position.  When a run of an entry task completes,
    the positions are as before unless the signal's row says executed; and when it
    says executed after a run that changed it, the executor succeeded (or a paper
    executor of the cash or options module ran). *)
Theorem entry_status_truth sid g w w' :
  sound w -> run sid "entry" w = (Ok TaskOk, w') -> find_signal sid w' = Some g ->
  (g_status g <> sg_executed -> w_positions w' = w_positions w)
  /\ (g_status g = sg_executed ->
      exists sig strategy d sig' w1, entry_pass settings sid sig strategy d sig' w w1
        /\ (resolve_instrument_type (Some strategy) <> FUTURES
            \/ exists res w2, place_strategy_orders settings sig' strategy (Some (recommended_lots d)) w1 = (Ok res, w2))).
Proof.
  intros Hso E Hg. apply entry_task_cases in E as (o & [= <-] & [(sigs & Hn & Hun) | (sig & strategy & d & sig' & w1 & _ & Hep & Hr)]).
  { rewrite (nt_signals _ _ _ Hn) in Hg. specialize (Hun eq_refl g Hg). split; [|done]. intros _. apply (nt_book _ _ _ Hn). }
  destruct (entry_pass_same _ _ _ _ _ _ _ _ Hep) as [Hsame Hid]. pose proof (ep_noted _ _ _ _ _ _ _ _ Hep) as Hn1.
  pose proof (nt_book _ _ _ Hn1) as Hb1.
  assert (Hfound : find_signal sid w1 <> None).
  { rewrite (nt_signals _ _ _ Hn1). rewrite <- Hid. rewrite find_stored; [done|]. by rewrite Hid, (ep_signal _ _ _ _ _ _ _ _ Hep). }
  assert (Hst : forall sig2 (wx : world B R), g_id sig2 = g_id sig' -> pf_signals (w_platform wx) = stored sig2 (pf_signals (w_platform w1)) ->
            find_signal sid wx = Some sig2).
  { intros sig2 wx Hi Hs. rewrite Hs. rewrite <- Hid, <- Hi in *. by apply find_stored. }
  inversion Hr as [w0 sig2 Hi Hs Hn Hw0 | | w2 w0 found Hins Hv He _ Hn Hw0 | e w2 w0 sig2 Hins Hp Hi Hs Hn Hw0 | res w2 w3 w0 Hins Hp Hn Hh Hw0]; subst w0.
  - rewrite (Hst sig2 w' Hi (nt_signals _ _ _ Hn)) in Hg. injection Hg as <-. split; [|done]. intros _.
    by rewrite (sb_positions _ _ (nt_book _ _ _ Hn)), (sb_positions _ _ Hb1).
  - rewrite (Hst (with_status sig' sg_executed) w' eq_refl (nt_signals _ _ _ Hn)) in Hg. injection Hg as <-. split; [done|]. intros _.
    exists sig, strategy, d, sig', w1. split; [done|]. by left.
  - rewrite (Hst sig2 w' Hi (nt_signals _ _ _ Hn)) in Hg. injection Hg as <-. split; [|done]. intros _.
    rewrite (sb_positions _ _ (nt_book _ _ _ Hn)). rewrite <- (sb_positions _ _ Hb1).
    by apply place_strategy_orders_cases, entry_tables in Hp as [(e' & _ & Hp & _) | (? & ? & ? & ? & ? & ? & ? & ? & [=] & _)].
  - assert (Hb3 : book_inv w3).
    { apply (book_inv_ext w2); [|apply (nt_book _ _ _ Hn)..]. by eapply entered_book. }
    apply hooks_spec in Hh as (_ & _ & Hd & _); [|done]. injection Hd as _ Hd _.
    rewrite (Hst (with_status sig' sg_executed) w' eq_refl) in Hg by (by rewrite Hd, (nt_signals _ _ _ Hn)). injection Hg as <-.
    split; [done|]. intros _. exists sig, strategy, d, sig', w1. split; [done|]. right. eauto.
Qed.
End Guarantees.

(** ** Concrete runs *)

Definition no_contracts (now : datetime) : scrip_master := empty_master.

#[local] Existing Instance plain_coercion.

Definition fired (id : uuid) (st : signal_status) (fire_ts : string) : StrategySignal :=
  {| g_id := id; g_user_id := 1; g_strategy_id := 2;
     raw_payload := <["timestamp"%string := JStr fire_ts]> (<["side"%string := JStr "long"]> (<["price"%string := JInt 2400]>
                      (<["lot_size_hint"%string := JInt 375]> ∅)));
     g_symbol := "BSE-AUG2026-FUT"; g_action := "ENTRY"; g_quantity := Some 750; g_order_type := "market"; g_ai_decision := None;
     g_status := st; g_received_at := 95 |}.

(** One queued entry; two of the same fire. *)
Definition task_world (signals : list StrategySignal) : world ScriptedBroker store :=
  sample_world <| w_platform ::= fun f => f <| pf_signals := signals |> |>.

Abbreviation deliver_to settings sid kind := (execute_signal_async settings no_contracts sid kind).
Abbreviation deliver sid kind := (deliver_to sample_settings sid kind).
Abbreviation one_entry := (task_world [fired 40 sg_received "09:30:00.000001"]).
Abbreviation after_entry := (snd (deliver 40 "entry" one_entry)).

Lemma task_world_sound signals :
  Forall (fun g => str_upper (g_symbol g) = g_symbol g) signals -> sound (task_world signals).
Proof.
  intros Hu. split; [by apply (book_inv_ext sample_world); [exact sample_book|..] | | exact Hu].
  by intros p q [<- | []] [<- | []].
Qed.

Lemma one_entry_sound : sound one_entry.
Proof. apply task_world_sound. by repeat constructor. Qed.

(** The same task again, a minute later. *)
Abbreviation minute_later := (after_entry <| w_now := 160 |>).

Lemma minute_later_sound : sound minute_later.
Proof.
  assert (Hp : map (fun p => (p_id p, p_strategy_id p, p_side p, p_symbol p, remaining_quantity p, total_quantity p, status p)) (w_positions minute_later)
               = [(20, 2, "buy"%string, "BSE-AUG2026-FUT"%string, 1500, 1500, st_open)]) by (vm_compute; reflexivity).
  assert (Hn : w_next_id minute_later = 1002) by (vm_compute; reflexivity).
  assert (Hs : map g_symbol (pf_signals (w_platform minute_later)) = ["BSE-AUG2026-FUT"%string]) by (vm_compute; reflexivity).
  destruct (w_positions minute_later) as [|p [|q ps]] eqn:Ew; try discriminate Hp. injection Hp as Hid Hsid Hside Hsym Hrem Htot Hst.
  split.
  - split; rewrite Ew.
    + simpl. constructor; [by intros Hx; apply elem_of_nil in Hx | constructor].
    + constructor; [rewrite Hn, Hid; lia | constructor].
    + constructor; [|constructor]. apply pos_invb_sound. unfold pos_invb, side_ok. by rewrite Hrem, Htot, Hst, Hside.
  - rewrite Ew. by intros x y [<- | []] [<- | []].
  - apply List.Forall_forall. intros g Hg. apply (in_map g_symbol) in Hg. rewrite Hs in Hg. destruct Hg as [<- | []]. reflexivity.
Qed.

Lemma live_world w : w_strategies w = [sample_strategy] -> live_task (B := ScriptedBroker) (R := store) sample_settings 40 w.
Proof. intros Hs sig strategy _ Hf. rewrite Hs in Hf. apply find_some in Hf as [[<- | []] _]. reflexivity. Qed.

Lemma later_redis {B R : Type} (w : world B R) t : w_redis (w <| w_now := t |>) = w_redis w.
Proof. by destruct w. Qed.

Lemma task_sends_once_witness :
  w_orders (snd (deliver 40 "entry" minute_later)) = w_orders minute_later
  /\ ("entry"%string = "entry"%string -> w_positions (snd (deliver 40 "entry" minute_later)) = w_positions minute_later
                                        /\ w_executions (snd (deliver 40 "entry" minute_later)) = w_executions minute_later).
Proof.
  assert (Hsent : w_orders after_entry <> w_orders one_entry).
  { assert (El : length (w_orders after_entry) = 1%nat) by (vm_compute; reflexivity). intros Eq.
    apply (f_equal (@length _)) in Eq. rewrite El in Eq. discriminate Eq. }
  assert (Ht : w_now one_entry <= w_now minute_later < w_now one_entry + SIGNAL_IDEMPOTENCY_TTL_SECONDS) by (vm_compute; split; [discriminate | reflexivity]).
  assert (Hl1 : live_task sample_settings 40 one_entry) by (by apply live_world).
  assert (Hl2 : live_task sample_settings 40 minute_later) by (apply live_world; vm_compute; reflexivity).
  assert (Hslot : redis_get (task_slot 40 "entry") (w_now minute_later) (w_redis minute_later)
                  = redis_get (task_slot 40 "entry") (w_now minute_later) (w_redis after_entry)) by (by rewrite later_redis).
  exact (task_sends_once sample_settings no_contracts 40 "entry" one_entry (fst (deliver 40 "entry" one_entry)) after_entry
           minute_later (fst (deliver 40 "entry" minute_later)) (snd (deliver 40 "entry" minute_later))
           one_entry_sound Hl1 (surjective_pairing (deliver 40 "entry" one_entry)) Hsent minute_later_sound Hl2 Ht Hslot
           (surjective_pairing (deliver 40 "entry" minute_later))).
Defined.

Abbreviation same_fire_world := (task_world [fired 39 sg_executed "09:30:00.000001"; fired 40 sg_received "09:30:00.000001"]).

Lemma same_fire_suppressed_witness :
  let w := same_fire_world in
  let r := fst (deliver 40 "entry" w) in
  let w' := snd (deliver 40 "entry" w) in
  r = Ok TaskOk /\ w_positions w' = w_positions w /\ w_executions w' = w_executions w /\ w_orders w' = w_orders w
  /\ w_redis w' = w_redis w
  /\ List.find (fun g => g_id g =? 40) (pf_signals (w_platform w')) = Some (with_status (fired 40 sg_received "09:30:00.000001") sg_duplicate).
Proof.
  assert (Hin : In (fired 39 sg_executed "09:30:00.000001") (pf_signals (w_platform same_fire_world))) by (by left).
  assert (Hne : g_id (fired 39 sg_executed "09:30:00.000001") <> 40) by (vm_compute; discriminate).
  assert (Hst : g_status (fired 39 sg_executed "09:30:00.000001") ∈ [sg_validating; sg_executing; sg_executed]) by set_solver.
  assert (Hrec : w_now same_fire_world - 86400 <= g_received_at (fired 39 sg_executed "09:30:00.000001")) by (vm_compute; discriminate).
  exact (same_fire_suppressed sample_settings no_contracts 40 (fired 40 sg_received "09:30:00.000001") sample_strategy
           (fired 39 sg_executed "09:30:00.000001") same_fire_world (fst (deliver 40 "entry" same_fire_world))
           (snd (deliver 40 "entry" same_fire_world)) eq_refl eq_refl eq_refl eq_refl Hin eq_refl Hne eq_refl Hst Hrec eq_refl eq_refl
           (surjective_pairing (deliver 40 "entry" same_fire_world))).
Defined.

Lemma entry_changes : ~ (w_positions after_entry = w_positions one_entry /\ w_executions after_entry = w_executions one_entry
                         /\ w_orders after_entry = w_orders one_entry).
Proof.
  intros (_ & _ & Ho). assert (El : length (w_orders after_entry) = 1%nat) by (vm_compute; reflexivity).
  apply (f_equal (@length _)) in Ho. rewrite El in Ho. discriminate Ho.
Qed.

Lemma entry_task_gated_witness :
  exists sig strategy d sig' w1, entry_pass sample_settings 40 sig strategy d sig' one_entry w1
    /\ same_signal sig sig'
    /\ ((resolve_instrument_type (Some strategy) <> FUTURES /\ is_paper strategy = Some true /\ w_orders after_entry = w_orders one_entry
          /\ w_executions after_entry = w_executions one_entry)
        \/ exists r2 w2 own closes,
             place_strategy_orders sample_settings sig' strategy (Some (recommended_lots d)) w1 = (r2, w2)
             /\ resolve_instrument_type (Some strategy) = FUTURES
             /\ w_orders after_entry = w_orders one_entry ++ own ++ map sent_order closes
             /\ (length own <= 1)%nat /\ Forall (entry_order_ok sample_settings sig' strategy w1) own
             /\ Forall (fun kp => on_account (g_user_id sig) one_entry kp.1 kp.2) closes
             /\ (closes <> [] -> gated (g_user_id sig) after_entry /\ exists res, r2 = Ok res)).
Proof.
  exact (entry_task_gated sample_settings no_contracts 40 one_entry (fst (deliver 40 "entry" one_entry)) after_entry
           one_entry_sound (surjective_pairing (deliver 40 "entry" one_entry)) entry_changes).
Defined.

Abbreviation entry_after := (nth 0 (pf_signals (w_platform after_entry)) sample_signal).

Lemma entry_status_truth_witness :
  (g_status entry_after <> sg_executed -> w_positions after_entry = w_positions one_entry)
  /\ (g_status entry_after = sg_executed ->
      exists sig strategy d sig' w1, entry_pass sample_settings 40 sig strategy d sig' one_entry w1
        /\ (resolve_instrument_type (Some strategy) <> FUTURES
            \/ exists res w2, place_strategy_orders sample_settings sig' strategy (Some (recommended_lots d)) w1 = (Ok res, w2))).
Proof.
  assert (Er : fst (deliver 40 "entry" one_entry) = Ok TaskOk) by (vm_compute; reflexivity).
  assert (Ew : deliver 40 "entry" one_entry = (Ok TaskOk, after_entry)) by (rewrite <- Er; apply surjective_pairing).
  assert (Hf : List.find (fun g => g_id g =? 40) (pf_signals (w_platform after_entry)) = Some entry_after).
  { assert (Hids : map g_id (pf_signals (w_platform after_entry)) = [40]) by (vm_compute; reflexivity).
    destruct (pf_signals (w_platform after_entry)) as [|g [|h l]]; try discriminate Hids. injection Hids as Hid. simpl. by rewrite Hid. }
  exact (entry_status_truth sample_settings no_contracts 40 entry_after one_entry after_entry one_entry_sound Ew Hf).
Defined.

(** The status of the signal after the run: executed. *)
Example entry_executed : g_status entry_after = sg_executed.
Proof. vm_compute. reflexivity. Qed.

(** A redelivered task of an executed entry is suppressed at the broker guard, but
    leaves the signal "executing" for good. *)
Example redelivery_loses_executed :
  let '(r, w) := deliver 40 "entry" minute_later in
  (r, map g_status (pf_signals (w_platform w)), length (w_orders w)) = (Ok TaskOk, [sg_executing], 1%nat).
Proof. vm_compute. reflexivity. Qed.

(** On paper nothing claims a slot: a redelivered entry is filled twice. *)
Example paper_redelivery_doubles :
  let paper := {| s_id := 2; s_user_id := 1; s_broker_credential_id := Some 5; entry_lots := 4; partial_profit_lots := 1;
                  partial_profit_target_pct := None; trail_offset_pct := None; hard_sl_pct := None; ai_validation_enabled := false;
                  exit_strategy_type := "internal"; strategy_json := None; is_paper := Some true; s_is_active := true;
                  s_webhook_token_id := None; allowed_symbols := [] |} in
  let w0 := one_entry <| w_strategies := [paper] |> <| w_positions := [] |> in
  let w1 := snd (deliver 40 "entry" w0) in
  let w2 := snd (deliver 40 "entry" w1) in
  (map remaining_quantity (w_positions w1), map remaining_quantity (w_positions w2)) = ([750], [1500]).
Proof. vm_compute. reflexivity. Qed.

(** An entry whose fill could not be confirmed is marked failed, and a failed entry
    does not block its fire: the replay sends a second order while the first may
    still fill. *)
Example unconfirmed_fire_resent :
  let w0 := task_world [fired 40 sg_received "09:30"; fired 41 sg_received "09:30"]
              <| w_broker ::= fun b => b <| sb_timed_out := true |> <| sb_filled := 0 |> <| sb_fill_status := PENDING |> |> in
  let w1 := snd (deliver 40 "entry" w0) in
  let w2 := snd (deliver 41 "entry" w1) in
  (map g_status (pf_signals (w_platform w1)), length (w_orders w1), length (w_orders w2)) = ([sg_failed; sg_received], 1%nat, 2%nat).
Proof. vm_compute. reflexivity. Qed.

(** A broker error is swallowed: the task reports success and is never retried. *)
Example broker_error_not_retried :
  let w0 := one_entry <| w_broker ::= fun b => b <| sb_funds := Dec 0 0 |> |> in
  let '(r, w) := deliver 40 "entry" w0 in
  (r, map g_status (pf_signals (w_platform w)), length (w_orders w)) = (Ok TaskOk, [sg_failed], O).
Proof. vm_compute. reflexivity. Qed.
