(* ===== verification/DhanBroker.v ===== *)
(** * The Dhan adapter (class DhanBroker of backend/app/brokers/dhan.py)

    The REST client behind [BrokerInterface] for Dhan accounts: requests with their
    retries, error mapping, order payloads, fill polling, portfolio reads and the
    scrip master with its 24 hour refresh.  Dhan itself is a parameter
    ([DhanServer]): it answers requests and tells the time.  [dn_sent] logs every
    request that leaves the adapter.

    Waiting between attempts, the HTTP pool, message texts and the time stamp of a
    quote are left out.  The session flag of a user lives under a Redis key of its
    own and is kept in the adapter's state.  Prices Decimal reads as NaN or Infinity
    count as invalid. *)

From Stdlib Require Import ZArith Lia List Bool Ascii String SpecFloat.
From stdpp Require Import base list strings gmap.
From S2P Require Import Prelude PyText PyFloat PyDecimal PyNum SymbolMatch Records Enums Models Calendar ScripMaster.
From S2P Require Import PositionManager FuturesResolver AiValidator PineMapper Fanout StrategyWebhook.

(** ** The wire *)

Record http_request : Type := {
  hq_token : string;
  hq_method : string;
  hq_path : string;
  hq_json : option (list (string * json))
}.

(** [HttpFailure]: a timeout, network failure or other httpx.HTTPError.  The body is
    [None] when it is not JSON. *)
Inductive http_outcome : Type :=
| HttpFailure
| HttpResponse (status_code : Z) (retry_after : option string) (body : option json).

(** [fetch_scrips] is the download of the contract list: its rows, or [None] for an
    HTTP error. *)
Class DhanServer (V : Type) : Type := {
  serve : http_request -> V -> http_outcome * V;
  fetch_scrips : V -> option (list csv_row) * V;
  server_time : V -> datetime
}.

Record dhan (V : Type) : Type := {
  dn_server : V;
  dn_session : list (uuid * (bool * datetime));
  dn_master : scrip_master;
  dn_loaded_at : option datetime;
  dn_sent : list http_request
}.

Arguments dn_server {V} _.
Arguments dn_session {V} _.
Arguments dn_master {V} _.
Arguments dn_loaded_at {V} _.
Arguments dn_sent {V} _.

#[export] Instance dhan_eta {V : Type} : Eta (dhan V) := fun d =>
  {| dn_server := dn_server d; dn_session := dn_session d; dn_master := dn_master d; dn_loaded_at := dn_loaded_at d;
     dn_sent := dn_sent d |}.

(** Calls on the adapter: a result and the state it leaves. *)
Definition D (V A : Type) : Type := dhan V -> result exn A * dhan V.

#[export] Instance D_ret {V : Type} : MRet (D V) := fun A a d => (Ok a, d).

#[export] Instance D_bind {V : Type} : MBind (D V) := fun A C k m d =>
  match m d with
  | (Ok a, d') => k a d'
  | (Err e, d') => (Err e, d')
  end.

Definition fail {V A : Type} (e : exn) : D V A := fun d => (Err e, d).
Definition lift {V A : Type} (r : result exn A) : D V A := fun d => (r, d).
Definition peek {V A : Type} (f : dhan V -> A) : D V A := fun d => (Ok (f d), d).
Definition tried {V A : Type} (m : D V A) : D V (result exn A) := fun d => let '(r, d') := m d in (Ok r, d').

(** ** Constants *)

Definition RETRY_ATTEMPTS : nat := 3.
Definition SESSION_VALID_TTL : Z := 3600.
Definition MASTER_TTL : Z := 86400.

(** [_TRANSIENT]. *)
Definition transient (e : exn) : bool :=
  match e with BrokerError BrokerConnectionError | BrokerError BrokerRateLimitError => true | _ => false end.

Definition side_to_dhan (s : OrderSide) : string := match s with BUY => "BUY" | SELL => "SELL" end.

Definition type_to_dhan (t : OrderType) : string :=
  match t with MARKET => "MARKET" | LIMIT => "LIMIT" | SL => "STOP_LOSS" | SL_M => "STOP_LOSS_MARKET" end.

Definition product_to_dhan (p : ProductType) : string :=
  match p with INTRADAY => "INTRADAY" | DELIVERY => "CNC" | MARGIN => "MARGIN" | BO => "BO" | CO => "CO" end.

Definition PRODUCT_FROM_DHAN : list (string * ProductType) :=
  [("INTRADAY", INTRADAY); ("CNC", DELIVERY); ("MARGIN", MARGIN); ("BO", BO); ("CO", CO)]%string.

Definition exchange_to_dhan_segment (e : Exchange) : option string :=
  match e with
  | NSE => Some "NSE_EQ" | BSE => Some "BSE_EQ" | NFO => Some "NSE_FNO" | BFO => Some "BSE_FNO"
  | MCX => Some "MCX_COMM" | CDS => Some "NSE_CURRENCY" | IDX => None
  end%string.

Definition DHAN_SEGMENT_TO_EXCHANGE : list (string * Exchange) :=
  [("NSE_EQ", NSE); ("BSE_EQ", BSE); ("NSE_FNO", NFO); ("BSE_FNO", BFO); ("MCX_COMM", MCX); ("NSE_CURRENCY", CDS)]%string.

Definition INDEX_SECURITY_IDS : list (string * string) := [("NIFTY", "13"); ("BANKNIFTY", "25")]%string.

Definition STATUS_FROM_DHAN : list (string * OrderStatus) :=
  [("PENDING", PENDING); ("TRANSIT", PENDING); ("OPEN", OPEN); ("TRADED", COMPLETE); ("EXECUTED", COMPLETE); ("COMPLETE", COMPLETE);
   ("CANCELLED", CANCELLED); ("EXPIRED", CANCELLED); ("REJECTED", REJECTED); ("PART_TRADED", PARTIAL);
   ("PARTIALLY_EXECUTED", PARTIAL)]%string.

(** [OtherBrokerError] stands for BrokerOrderError. *)
Definition DHAN_ERROR_MAP : list (string * broker_error) :=
  [("DH-901", BrokerAuthError); ("DH-902", BrokerSessionExpiredError); ("DH-903", BrokerInsufficientFundsError);
   ("DH-904", BrokerInvalidSymbolError); ("DH-905", BrokerOrderRejectedError); ("DH-906", BrokerRateLimitError)]%string.

(** ** Values of a body *)

(** [x.get], for an [x] that may not be a dict. *)
Definition dict_of (j : json) : result exn payload :=
  match j with JDict es => Ok (fields es) | _ => Err AttributeError end.

(** [_money]. *)
Definition money (j : json) : result exn dec :=
  match j with
  | JNull => Ok dzero
  | _ => match decimal_of_json j with Some d => Ok d | None => Err InvalidOperation end
  end.

Definition py_int (j : json) : result exn Z :=
  match j with
  | JNull | JDict _ | JList _ => Err TypeError
  | _ => match int_of_json j with IntOk z => Ok z | IntValueError => Err ValueError | IntOverflow => Err OverflowError end
  end.

(** [p.get(key, default)]. *)
Definition get_or (p : payload) (key : string) (dflt : json) : json := default dflt (p !! key).

(** The first truthy field, else the last default. *)
Fixpoint first_of (p : payload) (keys : list string) (dflt : json) : json :=
  match keys with
  | [] => dflt
  | key :: keys' => j_or (jget p key) (first_of p keys' dflt)
  end.

Section Bodies.
Context `{Coercion}.

Definition dhan_status (raw : string) : option OrderStatus := dict_get raw STATUS_FROM_DHAN.

(** [str(rec.get("orderStatus", dflt)).upper()]. *)
Definition raw_status (rec : payload) (dflt : string) : string := str_upper (py_str (get_or rec "orderStatus" (JStr dflt))).

Definition status_of (rec : payload) : OrderStatus := default PENDING (dhan_status (raw_status rec "PENDING")).

(** [_raise_for_error]. *)
Definition error_of (op : string) (body : json) : exn :=
  match body with
  | JDict es =>
      let code := py_str (first_of (fields es) ["errorCode"; "code"]%string (JStr "")) in
      match dict_get code DHAN_ERROR_MAP with
      | Some e => BrokerError e
      | None => if one_of op ["place_order"; "modify_order"; "cancel_order"]%string then BrokerError BrokerOrderRejectedError
                else BrokerError OtherBrokerError
      end
  | _ => BrokerError OtherBrokerError
  end.

(** What [_attempt] makes of an answer. *)
Definition answer_of (op : string) (out : http_outcome) : result exn json :=
  match out with
  | HttpFailure => Err (BrokerError BrokerConnectionError)
  | HttpResponse code retry_after body =>
      if code =? 401 then Err (BrokerError BrokerAuthError)
      else if code =? 429 then
        Err (match retry_after with
             | Some s => if String.eqb s "" then BrokerError BrokerRateLimitError
                         else match float_of_string (L s) with Some _ => BrokerError BrokerRateLimitError | None => ValueError end
             | None => BrokerError BrokerRateLimitError
             end)
      else if (500 <=? code) && (code <? 600) then Err (BrokerError BrokerConnectionError)
      else
        match body with
        | None => Err (BrokerError BrokerConnectionError)
        | Some b =>
            if (400 <=? code) && (code <? 500) then Err (error_of op b)
            else
              match b with
              | JDict es => if j_is_str (jget (fields es) "status") "failure" then Err (error_of op b) else Ok b
              | JList _ => Ok (JDict [("data"%string, b)])
              | _ => Ok b
              end
        end
  end.

(** [_orderbook_record]. *)
Definition orderbook_record (result : json) : json :=
  let data := match result with JDict es => jget (fields es) "data" | _ => result end in
  match data with
  | JList (first :: _) => first
  | JList [] => JDict []
  | JDict _ => data
  | _ => match result with JDict _ => result | _ => JDict [] end
  end.

(** The rows of a body that should be an array. *)
Definition rows_of (body : json) : list json :=
  let raw := match body with JDict es => get_or (fields es) "data" body | _ => body end in
  match raw with JList rows => rows | _ => [] end.
End Bodies.

(** ** Requests *)

Section Adapter.
Context {V : Type} `{DhanServer V} `{Coercion}.

Definition token (k : BrokerCredentials) : string := default ""%string (k_access_token k).

(** [_attempt]. *)
Definition attempt_call (k : BrokerCredentials) (op method path : string) (body : option (list (string * json))) : D V json := fun d =>
  let req := {| hq_token := token k; hq_method := method; hq_path := path; hq_json := body |} in
  let '(out, s) := serve req (dn_server d) in
  (answer_of op out, d <| dn_server := s |> <| dn_sent ::= fun l => l ++ [req] |>).

(** Up to [n] more attempts after a transient failure. *)
Fixpoint retrying {A : Type} (n : nat) (act : D V A) : D V A :=
  match n with
  | O => act
  | S n' =>
      out ← tried act;
      match out with
      | Ok a => mret a
      | Err e => if transient e then retrying n' act else fail e
      end
  end.

(** [_call]. *)
Definition call (k : BrokerCredentials) (op method path : string) (body : option (list (string * json))) : D V json :=
  retrying (pred RETRY_ATTEMPTS) (attempt_call k op method path body).

Definition call_list (k : BrokerCredentials) (op method path : string) : D V (list json) :=
  body ← call k op method path None; mret (rows_of body).

(** ** Sessions *)

(** The cached flag, while it lives. *)
Definition cached_session (user_id : uuid) (d : dhan V) : option bool :=
  match dict_get user_id (dn_session d) with
  | Some (valid, until) => if server_time (dn_server d) <? until then Some valid else None
  | None => None
  end.

Definition cache_session_valid (k : BrokerCredentials) (valid : bool) : D V unit := fun d =>
  (Ok tt, d <| dn_session ::= dict_set (k_user_id k) (valid, server_time (dn_server d) + SESSION_VALID_TTL) |>).

Definition dhan_login (k : BrokerCredentials) : D V unit :=
  if String.eqb (token k) "" then fail (BrokerError BrokerAuthError)
  else _ ← call k "login" "GET" "/fundlimit" None; cache_session_valid k true.

Definition dhan_session_valid (k : BrokerCredentials) : D V bool :=
  if String.eqb (token k) "" then mret false
  else
    cached ← peek (cached_session (k_user_id k));
    match cached with
    | Some valid => mret valid
    | None =>
        probe ← tried (call k "session_check" "GET" "/fundlimit" None);
        match probe with
        | Ok _ => cache_session_valid k true ;; mret true
        | Err (BrokerError BrokerAuthError) => cache_session_valid k false ;; mret false
        | Err (BrokerError _) => mret false
        | Err e => fail e
        end
    end.

(** ** Symbols *)

Definition is_loaded (d : dhan V) : bool :=
  match dn_loaded_at d with Some t => server_time (dn_server d) - t <? MASTER_TTL | None => false end.

(** [ensure_loaded]: one download per 24 hours. *)
Definition download_scrip_master : D V unit := fun d =>
  if is_loaded d then (Ok tt, d)
  else
    let '(rows, s) := fetch_scrips (dn_server d) in
    let d' := d <| dn_server := s |> in
    match rows with
    | None => (Err (BrokerError BrokerConnectionError), d')
    | Some rows =>
        match parse_master EXCLUDED_INSTRUMENTS rows with
        | Err e => (Err e, d')
        | Ok m => (Ok tt, d' <| dn_master := m |> <| dn_loaded_at := Some (server_time s) |>)
        end
    end.

Definition get_security_id (symbol : string) (exchange : Exchange) : D V string :=
  match exchange with
  | IDX => match dict_get (str_upper symbol) INDEX_SECURITY_IDS with
           | Some id => mret id
           | None => fail (BrokerError BrokerInvalidSymbolError)
           end
  | _ =>
      match exchange_to_dhan_segment exchange with
      | None => fail (BrokerError BrokerInvalidSymbolError)
      | Some segment =>
          download_scrip_master ;;
          master ← peek dn_master;
          hit ← lift (lookup_scrip master (str_upper symbol) segment);
          match hit with
          | Some id => if String.eqb id "" then fail (BrokerError BrokerInvalidSymbolError) else mret id
          | None => fail (BrokerError BrokerInvalidSymbolError)
          end
      end
  end.

Definition dhan_validate_symbol (symbol : string) (exchange : Exchange) : D V unit := get_security_id symbol exchange ;; mret tt.

Definition dhan_lot_size (symbol : string) (exchange : Exchange) : D V (option Z) :=
  id ← get_security_id symbol exchange; peek (fun d => lot_size_of (dn_master d) id).

Definition dhan_normalize_symbol (tradingview_symbol : string) : result exn string :=
  let sym := str_upper (str_strip tradingview_symbol) in
  if String.eqb sym "" then Err (BrokerError BrokerInvalidSymbolError) else Ok sym.

(** ** Orders *)

(** The schema has stripped the symbol and the tag. *)
Definition order_symbol (o : OrderRequest) : string := str_strip (o_symbol o).

Definition price_field (p : option dec) : json := JFloat (match p with Some d => float_of_dec d | None => f_zero end).

Definition DERIVATIVE_SEGMENTS : list string := ["NSE_FNO"; "BSE_FNO"; "NSE_CURRENCY"; "MCX_COMM"]%string.

Definition order_fields (k : BrokerCredentials) (o : OrderRequest) (segment security_id : string) : list (string * json) :=
  [("dhanClientId", JStr (k_client_id k)); ("transactionType", JStr (side_to_dhan (o_side o))); ("exchangeSegment", JStr segment);
   ("productType", JStr (product_to_dhan (o_product_type o))); ("orderType", JStr (type_to_dhan (o_order_type o)));
   ("validity", JStr "DAY"); ("securityId", JStr security_id); ("tradingSymbol", JStr (str_upper (order_symbol o)));
   ("quantity", JInt (o_quantity o)); ("disclosedQuantity", JInt 0); ("price", price_field (o_price o));
   ("triggerPrice", price_field (o_trigger_price o))]%string
  ++ match o_tag o with
     | Some t => if String.eqb (str_strip t) "" then [] else [("correlationId"%string, JStr (str_strip t))]
     | None => []
     end.

Definition build_order_payload (k : BrokerCredentials) (o : OrderRequest) : D V (list (string * json)) :=
  match exchange_to_dhan_segment (o_exchange o) with
  | None => fail (BrokerError BrokerInvalidSymbolError)
  | Some segment =>
      if one_of segment DERIVATIVE_SEGMENTS && bool_decide (o_product_type o = INTRADAY)
      then fail (BrokerError BrokerOrderRejectedError)
      else
        security_id ← get_security_id (order_symbol o) (o_exchange o);
        mret (order_fields k o segment security_id)
  end.

(** What [place_order] makes of the body. *)
Definition placed_of (body : json) : result exn OrderResponse :=
  result ← dict_of body;
  let order_id := first_of result ["orderId"; "order_id"; "dhanOrderId"]%string JNull in
  if negb (truthy order_id) then Err (BrokerError OtherBrokerError)
  else
    match status_of result with
    | REJECTED | CANCELLED => Err (BrokerError BrokerOrderRejectedError)
    | status => Ok {| r_broker_order_id := str_strip (py_str order_id); r_status := status;
                      r_message := str_strip (py_str (get_or result "message" (JStr ""))) |}
    end.

Definition dhan_place_order (k : BrokerCredentials) (o : OrderRequest) : D V OrderResponse :=
  payload ← build_order_payload k o;
  body ← call k "place_order" "POST" "/orders" (Some payload);
  lift (placed_of body).

Definition order_path (broker_order_id : string) : string := String.append "/orders/" broker_order_id.

Definition modify_order (k : BrokerCredentials) (broker_order_id : string) (o : OrderRequest) : D V OrderResponse :=
  let optional key (p : option dec) := match p with Some d => [(key, JFloat (float_of_dec d))] | None => [] end in
  body ← call k "modify_order" "PUT" (order_path broker_order_id)
           (Some ([("dhanClientId", JStr (k_client_id k)); ("orderId", JStr broker_order_id);
                   ("orderType", JStr (type_to_dhan (o_order_type o))); ("quantity", JInt (o_quantity o))]%string
                  ++ optional "price"%string (o_price o) ++ optional "triggerPrice"%string (o_trigger_price o)));
  result ← lift (dict_of body);
  mret {| r_broker_order_id := str_strip (py_str (get_or result "orderId" (JStr broker_order_id)));
          r_status := default OPEN (dhan_status (raw_status result "PENDING"));
          r_message := str_strip (py_str (get_or result "message" (JStr ""))) |}.

Definition cancel_order (k : BrokerCredentials) (broker_order_id : string) : D V bool :=
  body ← call k "cancel_order" "DELETE" (order_path broker_order_id) None;
  result ← lift (dict_of body);
  mret (one_of (raw_status result "") ["CANCELLED"; "CANCELED"]%string || truthy (jget result "orderId")).

Definition get_order_status (k : BrokerCredentials) (broker_order_id : string) : D V OrderStatus :=
  body ← call k "order_status" "GET" (order_path broker_order_id) None;
  result ← lift (dict_of body);
  mret (status_of result).

(** ** Fills *)

Definition terminal (s : OrderStatus) : bool := match s with COMPLETE | REJECTED | CANCELLED => true | _ => false end.

(** [max(1, int(10.0 / 0.5))], the defaults every caller uses. *)
Definition POLL_ATTEMPTS : nat := 20.

(** The last record read; [n] more polls are allowed after this one. *)
Fixpoint poll (n : nat) (k : BrokerCredentials) (broker_order_id : string) : D V payload :=
  body ← call k "confirm_fill" "GET" (order_path broker_order_id) None;
  rec ← lift (dict_of (orderbook_record body));
  if terminal (status_of rec) then mret rec
  else match n with O => mret rec | S n' => poll n' k broker_order_id end.

(** [avg_raw not in (None, "", 0, "0", 0.0, "0.0")]. *)
Definition traded_price (avg_raw : json) : result exn (option dec) :=
  if negb (truthy avg_raw) || j_is_str avg_raw "0" || j_is_str avg_raw "0.0" then Ok None
  else d ← money avg_raw; Ok (Some d).

Definition fill_of (broker_order_id : string) (rec : payload) : result exn OrderFill :=
  let raw := raw_status rec "PENDING" in
  let status := status_of rec in
  filled ← py_int (j_or (get_or rec "filledQty" (get_or rec "filled_qty" (JInt 0))) (JInt 0));
  avg_price ← traded_price (first_of rec ["averageTradedPrice"; "tradedPrice"]%string JNull);
  Ok {| f_broker_order_id := str_strip broker_order_id; f_order_status := status; f_raw_status := str_strip raw; f_filled_qty := filled;
        f_avg_price := avg_price;
        f_reason := match status with
                    | REJECTED | CANCELLED =>
                        Some (str_strip (py_str (first_of rec ["omsErrorDescription"; "errorMessage"; "reason"]%string
                                                   (JStr (String.append "orderStatus=" raw)))))
                    | COMPLETE => None
                    | _ => Some (String.append "order not terminal, last status=" raw)
                    end;
        f_timed_out := negb (terminal status) |}.

Definition dhan_confirm_fill (k : BrokerCredentials) (broker_order_id : string) : D V OrderFill :=
  rec ← poll (pred POLL_ATTEMPTS) k broker_order_id; lift (fill_of broker_order_id rec).

(** ** Portfolio *)

Record Position : Type := {
  pn_symbol : string;
  pn_exchange : Exchange;
  pn_quantity : Z;
  pn_avg_price : dec;
  pn_ltp : dec;
  pn_unrealized_pnl : dec;
  pn_product_type : ProductType
}.

Record Holding : Type := {
  hd_symbol : string;
  hd_exchange : Exchange;
  hd_quantity : Z;
  hd_avg_price : dec;
  hd_ltp : dec;
  hd_current_value : dec;
  hd_pnl : dec
}.

Definition net_qty (row : payload) : result exn Z := py_int (j_or (get_or row "netQty" (get_or row "netQuantity" (JInt 0))) (JInt 0)).

Definition exchange_of_row (j : json) : Exchange :=
  default NSE (dict_get (canonical_segment (py_str j)) DHAN_SEGMENT_TO_EXCHANGE).

(** One row of the answer; [None] when it is flat. *)
Definition position_of (j : json) : result exn (option Position) :=
  row ← dict_of j;
  qty ← net_qty row;
  if qty =? 0 then Ok None
  else
    avg ← money (j_or (jget row "buyAvg") (jget row "costPrice"));
    ltp ← money (j_or (jget row "ltp") (jget row "lastTradedPrice"));
    pnl ← money (first_of row ["unrealizedProfit"; "unrealizedPnL"]%string (JInt 0));
    if dnonneg avg && dnonneg ltp then
      Ok (Some {| pn_symbol := str_strip (py_str (first_of row ["tradingSymbol"; "securityId"]%string (JStr "")));
                  pn_exchange := exchange_of_row (get_or row "exchangeSegment" (JStr "NSE_EQ")); pn_quantity := qty;
                  pn_avg_price := avg; pn_ltp := ltp; pn_unrealized_pnl := pnl;
                  pn_product_type := default INTRADAY (dict_get (str_upper (py_str (get_or row "productType" (JStr "INTRADAY"))))
                                                         PRODUCT_FROM_DHAN) |})
    else Err ValidationError.

(** A loop that keeps what is present. *)
Fixpoint collect {A : Type} (parse : json -> result exn (option A)) (rows : list json) : result exn (list A) :=
  match rows with
  | [] => Ok []
  | j :: rows' => kept ← parse j; rest ← collect parse rows'; Ok (match kept with Some a => a :: rest | None => rest end)
  end.

Definition dhan_positions (k : BrokerCredentials) : D V (list Position) :=
  rows ← call_list k "positions" "GET" "/positions"; lift (collect position_of rows).

(** [net_position_qty], by security id or by symbol in any case. *)
Fixpoint net_of (want_sid want_sym : option string) (rows : list json) : result exn Z :=
  match rows with
  | [] => Ok 0
  | j :: rows' =>
      row ← dict_of j;
      let wanted (want : option string) (v : string) := opt_is (fun w => negb (String.eqb w "") && String.eqb v w) want in
      if wanted want_sid (py_str (j_or (jget row "securityId") (JStr "")))
         || wanted want_sym (str_upper (py_str (j_or (jget row "tradingSymbol") (JStr ""))))
      then net_qty row else net_of want_sid want_sym rows'
  end.

Definition net_position_qty (k : BrokerCredentials) (security_id symbol : option string) : D V Z :=
  rows ← call_list k "positions" "GET" "/positions";
  lift (net_of security_id (match symbol with Some s => Some (str_upper s) | None => None end) rows).

Definition holding_of (j : json) : result exn (option Holding) :=
  row ← dict_of j;
  qty ← py_int (j_or (get_or row "totalQty" (get_or row "quantity" (JInt 0))) (JInt 0));
  if qty <=? 0 then Ok None
  else
    avg ← money (get_or row "avgCostPrice" (jget row "costPrice"));
    ltp ← money (get_or row "lastTradedPrice" (jget row "ltp"));
    let current_value := dmul ltp (dec_of_Z qty) in
    if dnonneg avg && dnonneg ltp && dnonneg current_value then
      Ok (Some {| hd_symbol := str_strip (py_str (get_or row "tradingSymbol" (JStr "")));
                  hd_exchange := exchange_of_row (get_or row "exchange" (get_or row "exchangeSegment" (JStr "NSE_EQ")));
                  hd_quantity := qty; hd_avg_price := avg; hd_ltp := ltp; hd_current_value := current_value;
                  hd_pnl := dsub current_value (dmul avg (dec_of_Z qty)) |})
    else Err ValidationError.

Definition get_holdings (k : BrokerCredentials) : D V (list Holding) :=
  rows ← call_list k "holdings" "GET" "/holdings"; lift (collect holding_of rows).

Definition dhan_funds (k : BrokerCredentials) : D V dec :=
  body ← call k "funds" "GET" "/fundlimit" None;
  result ← lift (dict_of body);
  lift (money (first_of result ["availableBalance"; "availabelBalance"; "withdrawableBalance"]%string (JInt 0))).

(** ** Quotes *)

Record Quote : Type := { qt_ltp : dec; qt_bid : dec; qt_ask : dec; qt_volume : Z }.

Definition quote_of (segment security_id : string) (body : json) : result exn Quote :=
  data ← dict_of (match body with JDict es => get_or (fields es) "data" (JDict []) | _ => JDict [] end);
  seg_block ← dict_of (j_or (get_or data segment (JDict [])) (JDict []));
  let quote_raw := jget seg_block security_id in
  if negb (truthy quote_raw) then Err (BrokerError BrokerInvalidSymbolError)
  else
    q ← dict_of quote_raw;
    ltp ← money (j_or (jget q "last_price") (jget q "ltp"));
    bid ← money (j_or (jget q "bid_price") (jget q "bid"));
    ask ← money (j_or (jget q "ask_price") (jget q "ask"));
    volume ← py_int (j_or (get_or q "volume" (JInt 0)) (JInt 0));
    if dnonneg ltp && dnonneg bid && dnonneg ask && (0 <=? volume) then
      Ok {| qt_ltp := ltp; qt_bid := bid; qt_ask := ask; qt_volume := volume |}
    else Err ValidationError.

Definition get_quote (k : BrokerCredentials) (symbol : string) (exchange : Exchange) : D V Quote :=
  match exchange_to_dhan_segment exchange with
  | None => fail (BrokerError BrokerInvalidSymbolError)
  | Some segment =>
      security_id ← get_security_id symbol exchange;
      n ← lift (py_int (JStr security_id));
      body ← call k "quotes" "POST" "/marketfeed/ltp" (Some [(segment, JList [JInt n])]);
      lift (quote_of segment security_id body)
  end.

(** ** Kill switch *)

(** [asyncio.gather]: every call is made; the first failure, in the order of the
    calls, is raised. *)
Fixpoint gather {A C : Type} (f : A -> D V C) (l : list A) : D V (list C) :=
  match l with
  | [] => mret []
  | a :: l' => out ← tried (f a); rest ← tried (gather f l'); c ← lift out; cs ← lift rest; mret (c :: cs)
  end.

Definition close_order (p : Position) : OrderRequest :=
  {| o_symbol := pn_symbol p; o_exchange := pn_exchange p; o_side := if 0 <? pn_quantity p then SELL else BUY;
     o_quantity := Z.abs (pn_quantity p); o_order_type := MARKET; o_product_type := pn_product_type p; o_price := None;
     o_trigger_price := None; o_tag := Some "kill-switch"%string |}.

(** A broker error becomes a rejected response. *)
Definition close_position (k : BrokerCredentials) (p : Position) : D V OrderResponse :=
  if negb (order_request_ok (close_order p)) then fail ValidationError
  else
    out ← tried (dhan_place_order k (close_order p));
    match out with
    | Err (BrokerError _) => mret {| r_broker_order_id := ""; r_status := REJECTED; r_message := "square_off_failed" |}
    | _ => lift out
    end.

Definition square_off_all (k : BrokerCredentials) : D V (list OrderResponse) :=
  positions ← dhan_positions k; gather (close_position k) positions.

Definition pending_id (j : json) : result exn (option string) :=
  row ← dict_of j;
  let oid := first_of row ["orderId"; "dhanOrderId"]%string JNull in
  Ok (match default PENDING (dhan_status (raw_status row "")) with
      | PENDING | OPEN => if truthy oid then Some (py_str oid) else None
      | _ => None
      end).

Definition cancel_one (k : BrokerCredentials) (oid : string) : D V bool :=
  out ← tried (cancel_order k oid);
  match out with Err (BrokerError _) => mret false | _ => lift out end.

Definition cancel_all_pending (k : BrokerCredentials) : D V Z :=
  rows ← call_list k "orderbook" "GET" "/orders";
  ids ← lift (collect pending_id rows);
  done ← gather (cancel_one k) ids;
  mret (Z.of_nat (length (List.filter (fun b : bool => b) done))).

(** ** The contract *)

Definition as_row (p : Position) : broker_row :=
  {| row_symbol := Some (L (pn_symbol p)); row_quantity := QInt (pn_quantity p); row_exchange := pn_exchange p;
     row_product_type := pn_product_type p |}.

(** What the stop reader gets: the rows of the forever orders. *)
Definition forever_rows (body : json) : option (list (option payload)) :=
  match (match body with JDict es => get_or (fields es) "data" (JList []) | _ => body end) with
  | JList rows => Some (map (fun j => match j with JDict es => Some (fields es) | _ => None end) rows)
  | _ => None
  end.

#[export] Instance dhan_broker : BrokerInterface (dhan V) := {
  is_session_valid := dhan_session_valid;
  login := dhan_login;
  validate_symbol _ symbol exchange := dhan_validate_symbol symbol exchange;
  get_lot_size := Some (fun _ symbol exchange => dhan_lot_size symbol exchange);
  get_funds := dhan_funds;
  place_order := dhan_place_order;
  confirm_fill k oid _ := dhan_confirm_fill k oid;
  get_quote_ltp k symbol exchange := q ← get_quote k symbol exchange; mret (qt_ltp q);
  get_positions k := positions ← dhan_positions k; mret (Some (map (fun p => Some (as_row p)) positions));
  broker_normalize_symbol _ symbol _ := dhan_normalize_symbol symbol;
  resting_orders := Some (fun k => body ← call k "resting_stops" "GET" "/forever/orders" None; mret (forever_rows body))
}.
End Adapter.
