(* ===== verification/DhanSafety.v ===== *)
(** * The Dhan adapter: what goes over the wire

    Over [DhanBroker.v]: how often and with which content an order leaves the adapter,
    where a confirmed fill comes from, that a position is closed where it was read,
    sessions, and the signal worker run against the adapter on a small Dhan. *)

From Stdlib Require Import ZArith Lia List Bool Ascii String SpecFloat.
From stdpp Require Import base list strings gmap.
From S2P Require Import Prelude PyText PyFloat PyDecimal PyNum SymbolMatch Records Enums Models Samples Calendar ScripMaster PositionManager.
From S2P Require Import FuturesResolver AiValidator PineMapper Fanout StrategyWebhook StrategyGate SignalTask SignalGuarantees DhanBroker.

Create HintDb dhan.

Section Wire.
Context {V : Type} `{DhanServer V} `{Coercion}.
Implicit Types (d : dhan V).

(** Everything but Dhan and the log. *)
Definition same_caches d d' : Prop :=
  dn_session d' = dn_session d /\ dn_master d' = dn_master d /\ dn_loaded_at d' = dn_loaded_at d.

Lemma same_caches_trans d d1 d2 : same_caches d d1 -> same_caches d1 d2 -> same_caches d d2.
Proof. unfold same_caches. intuition congruence. Qed.

Lemma D_bind_cases {A C : Type} (m : D V A) (f : A -> D V C) d r d' :
  (m ≫= f) d = (r, d') -> (exists a d1, m d = (Ok a, d1) /\ f a d1 = (r, d')) \/ (exists e, r = Err e /\ m d = (Err e, d')).
Proof. unfold mbind, D_bind. destruct (m d) as [[a|e] d1]; [left; eauto|]. intros [= <- <-]. right. eauto. Qed.

Definition request_of (k : BrokerCredentials) (method path : string) (body : option (list (string * json))) : http_request :=
  {| hq_token := token k; hq_method := method; hq_path := path; hq_json := body |}.

(** [n] copies of [req] were sent, nothing else changed. *)
Definition sent_only (req : http_request) (n : nat) d d' : Prop :=
  dn_sent d' = dn_sent d ++ repeat req n /\ same_caches d d'.

Lemma sent_only_trans req n m d d1 d2 : sent_only req n d d1 -> sent_only req m d1 d2 -> sent_only req (n + m) d d2.
Proof.
  intros [E1 S1] [E2 S2]. split; [|by eapply same_caches_trans]. by rewrite E2, E1, <- List.app_assoc, repeat_app.
Qed.

Lemma attempt_sent k op method path body d r d' :
  attempt_call k op method path body d = (r, d') ->
  sent_only (request_of k method path body) 1 d d' /\ r = answer_of op (fst (serve (request_of k method path body) (dn_server d))).
Proof.
  unfold attempt_call. fold (request_of k method path body). destruct (serve _ _) as [out s]. intros [= <- <-]. by destruct d.
Qed.

Lemma retrying_sent k op method path body n d r d' :
  retrying n (attempt_call k op method path body) d = (r, d') ->
  exists m, sent_only (request_of k method path body) m d d' /\ (1 <= m <= Datatypes.S n)%nat
    /\ (m = 1%nat \/ exists e, answer_of op (fst (serve (request_of k method path body) (dn_server d))) = Err e /\ transient e = true).
Proof.
  revert d. induction n as [|n IH]; intros d; cbn [retrying].
  - intros E. apply attempt_sent in E as [E _]. exists 1%nat. split_and!; [done|lia..|by left].
  - intros E. apply D_bind_cases in E as [(out & d1 & E1 & E) | (e & -> & E1)]; unfold tried in E1;
      destruct (attempt_call k op method path body d) as [r1 d2] eqn:Ea; [|done]. injection E1 as <- <-.
    apply attempt_sent in Ea as [Hs Hr]. destruct r1 as [a|e].
    + injection E as <- <-. exists 1%nat. split_and!; [done|lia..|by left].
    + destruct (transient e) eqn:Et; [|injection E as <- <-; exists 1%nat; split_and!; [done|lia..|by left]].
      apply IH in E as (m & Hm & Hb & _). exists (1 + m)%nat. split_and!; [by eapply sent_only_trans|lia..|right; eauto].
Qed.

(** A call sends its request once, or again up to twice after a transient failure. *)
Lemma call_sent k op method path body d r d' :
  call k op method path body d = (r, d') ->
  exists m, sent_only (request_of k method path body) m d d' /\ (1 <= m <= 3)%nat
    /\ (m = 1%nat \/ exists e, answer_of op (fst (serve (request_of k method path body) (dn_server d))) = Err e /\ transient e = true).
Proof. apply retrying_sent. Qed.

(** ** Symbols *)

Lemma download_sent d r d' : download_scrip_master d = (r, d') -> dn_sent d' = dn_sent d.
Proof.
  unfold download_scrip_master. destruct (is_loaded d); [by intros [= <- <-]|]. destruct (fetch_scrips _) as [[rows|] s]; [|by intros [= <- <-]; destruct d].
  destruct (parse_master _ _); intros [= <- <-]; by destruct d.
Qed.

Lemma get_security_id_spec symbol exchange d r d' :
  get_security_id symbol exchange d = (r, d') ->
  dn_sent d' = dn_sent d
  /\ (forall id segment, r = Ok id -> exchange_to_dhan_segment exchange = Some segment ->
        id <> ""%string /\ lookup_scrip (dn_master d') (str_upper symbol) segment = Ok (Some id)).
Proof.
  unfold get_security_id. destruct exchange.
  7:{ destruct (dict_get _ _); intros [= <- <-]; by split. }
  all: cbn [exchange_to_dhan_segment]; intros E; apply D_bind_cases in E as [([] & d1 & E1 & E) | (e & -> & E1)];
    apply download_sent in E1; [|by split].
  all: apply D_bind_cases in E as [(master & d2 & E2 & E) | (e & -> & E2)]; [|done]; injection E2 as <- <-.
  all: apply D_bind_cases in E as [(hit & d2 & E2 & E) | (e & -> & E2)]; injection E2 as Eh <-; [|by split].
  all: destruct hit as [id|]; [|injection E as <- <-; by split].
  all: destruct (String.eqb_spec id ""); injection E as <- <-; (split; [done|]); [done|].
  all: intros ? ? [= <-] [= <-]; split; [done|]; by rewrite Eh.
Qed.

(** ** Orders *)

Lemma build_order_spec k o d r d' :
  build_order_payload k o d = (r, d') ->
  dn_sent d' = dn_sent d
  /\ (forall body, r = Ok body -> exists segment id,
        exchange_to_dhan_segment (o_exchange o) = Some segment
        /\ (one_of segment DERIVATIVE_SEGMENTS = true -> o_product_type o <> INTRADAY)
        /\ lookup_scrip (dn_master d') (str_upper (order_symbol o)) segment = Ok (Some id) /\ id <> ""%string
        /\ body = order_fields k o segment id).
Proof.
  unfold build_order_payload. destruct (exchange_to_dhan_segment _) as [segment|] eqn:Eseg; [|intros [= <- <-]; by split].
  destruct (one_of segment DERIVATIVE_SEGMENTS && bool_decide (o_product_type o = INTRADAY)) eqn:Eg; [intros [= <- <-]; by split|].
  intros E. apply D_bind_cases in E as [(id & d1 & E1 & E) | (e & -> & E1)]; apply get_security_id_spec in E1 as [Hs Hid]; [|by split].
  injection E as <- <-. split; [done|]. intros body [= <-]. destruct (Hid id segment eq_refl Eseg) as [Hne Hl].
  exists segment, id. split_and!; try done. intros Ed Hp. rewrite Ed, bool_decide_eq_true_2 in Eg by done. done.
Qed.

(** An acknowledgement is never a dead order. *)
Lemma placed_alive body resp : placed_of body = Ok resp -> r_status resp <> REJECTED /\ r_status resp <> CANCELLED.
Proof.
  unfold placed_of. intros E. apply res_bind_ok in E as (result & _ & E). destruct (negb _); [done|].
  destruct (status_of result); try discriminate E; by injection E as <-.
Qed.


(** ** Fills *)

Lemma poll_spec n k oid d r d' :
  poll n k oid d = (r, d') ->
  exists m, sent_only (request_of k "GET" (order_path oid) None) m d d' /\ (1 <= m <= 3 * Datatypes.S n)%nat
    /\ (forall rec, r = Ok rec -> terminal (status_of rec) = false -> (Datatypes.S n <= m)%nat).
Proof.
  revert d. induction n as [|n IH]; intros d; cbn [poll]; intros E.
  all: apply D_bind_cases in E as [(body & d1 & E1 & E) | (e & -> & E1)]; apply call_sent in E1 as (m & Hm & Hb & _);
    [|exists m; split_and!; [done|lia..|done]].
  all: apply D_bind_cases in E as [(rec & d2 & E2 & E) | (e & -> & E2)]; injection E2 as E2 <-; [|exists m; split_and!; [done|lia..|done]].
  - destruct (terminal _); injection E as <- <-; exists m; split_and!; try done; lia.
  - destruct (terminal (status_of rec)) eqn:Et; [injection E as <- <-; exists m; split_and!; [done|lia..|] |].
    { intros rec' [= <-]. congruence. }
    apply IH in E as (m2 & Hm2 & Hb2 & Hlast). exists (m + m2)%nat. split_and!; [by eapply sent_only_trans|lia..|].
    intros rec' Hr Ht. specialize (Hlast rec' Hr Ht). lia.
Qed.


(** ** The rest of the contract *)

Definition is_order (req : http_request) : bool := String.eqb (hq_method req) "POST" && String.eqb (hq_path req) "/orders".

Definition orders_sent d : nat := length (List.filter is_order (dn_sent d)).

(** The call leaves the count of sent orders alone. *)
Definition no_order {A : Type} (m : D V A) : Prop := forall d r d', m d = (r, d') -> orders_sent d' = orders_sent d.

Lemma no_order_bind {A C : Type} (m : D V A) (f : A -> D V C) : no_order m -> (forall a, no_order (f a)) -> no_order (m ≫= f).
Proof. intros Hm Hf d r d' E. apply D_bind_cases in E as [(a & d1 & E1 & E) | (e & -> & E1)]; [|by eapply Hm]. apply Hf in E as ->. by eapply Hm. Qed.

Lemma no_order_pure {A : Type} (f : dhan V -> result exn A) : no_order (fun d => (f d, d)).
Proof. by intros d r d' [= <- <-]. Qed.

Lemma no_order_tried {A : Type} (m : D V A) : no_order m -> no_order (tried m).
Proof. intros Hm d r d'. unfold tried. destruct (m d) as [r1 d1] eqn:E. intros [= <- <-]. by eapply Hm. Qed.

Lemma orders_repeat req n : length (List.filter is_order (repeat req n)) = if is_order req then n else 0%nat.
Proof. induction n as [|n IH]; cbn [repeat List.filter]; destruct (is_order req); cbn [length]; congruence. Qed.

Lemma no_order_call k op method path body : is_order (request_of k method path body) = false -> no_order (call k op method path body).
Proof.
  intros Hn d r d' E. apply call_sent in E as (m & [Es _] & _). unfold orders_sent.
  rewrite Es, List.filter_app, length_app, orders_repeat, Hn. lia.
Qed.

Lemma no_order_cache k valid : no_order (cache_session_valid k valid).
Proof. intros d r d' [= <- <-]. by destruct d. Qed.

Lemma no_order_security_id symbol exchange : no_order (get_security_id symbol exchange).
Proof. intros d r d' E. apply get_security_id_spec in E as [E _]. unfold orders_sent. by rewrite E. Qed.

Lemma no_order_poll n k oid : no_order (poll n k oid).
Proof.
  induction n as [|n IH]; cbn [poll]; (apply no_order_bind; [by apply no_order_call|]; intros body; apply no_order_bind; [apply no_order_pure|];
    intros rec; destruct (terminal _); [apply no_order_pure|]); [apply no_order_pure | exact IH].
Qed.

Lemma no_order_session k : no_order (dhan_session_valid k).
Proof.
  unfold dhan_session_valid. destruct (String.eqb _ _); [apply no_order_pure|]. apply no_order_bind; [apply no_order_pure|].
  intros [valid|]; [apply no_order_pure|]. apply no_order_bind; [by apply no_order_tried, no_order_call|].
  intros [body|[]]; try apply no_order_pure; [apply no_order_bind; [apply no_order_cache | intros; apply no_order_pure]|].
  destruct e; try apply no_order_pure. apply no_order_bind; [apply no_order_cache | intros; apply no_order_pure].
Qed.

#[local] Hint Resolve no_order_bind no_order_pure no_order_tried no_order_cache no_order_security_id no_order_poll no_order_session : dhan.
#[local] Hint Extern 1 (no_order (call _ _ _ _ _)) => (apply no_order_call; reflexivity) : dhan.


(** ** Closing what was read *)

Lemma segment_round_trip e segment : exchange_to_dhan_segment e = Some segment -> exchange_of_row (JStr segment) = e.
Proof. destruct e; intros [= <-]; vm_compute; reflexivity. Qed.

Lemma product_round_trip p : dict_get (str_upper (product_to_dhan p)) PRODUCT_FROM_DHAN = Some p.
Proof. by destruct p. Qed.

(** The fields of an order, by name. *)
Definition field_of (o : list (string * json)) (name : string) : json := jget (fields o) name.

(** A position is closed where it was read.  For a row of /positions that names
    one of the six tradeable segments and one of the five products, the order that
    squares the position off goes to the same segment with the same product and the
    same symbol, for the net quantity of the row and against its sign. *)
Theorem close_mirrors_row k row p segment e pt symbol security_id :
  position_of (JDict row) = Ok (Some p) ->
  fields row !! "exchangeSegment"%string = Some (JStr segment) -> exchange_to_dhan_segment e = Some segment ->
  fields row !! "productType"%string = Some (JStr (product_to_dhan pt)) ->
  jget (fields row) "tradingSymbol" = JStr symbol -> symbol <> ""%string ->
  exists net body, net_qty (fields row) = Ok net /\ net <> 0
    /\ exchange_to_dhan_segment (o_exchange (close_order p)) = Some segment
    /\ order_fields k (close_order p) segment security_id = body
    /\ field_of body "exchangeSegment" = JStr segment /\ field_of body "productType" = JStr (product_to_dhan pt)
    /\ field_of body "tradingSymbol" = JStr (str_upper (str_strip (str_strip symbol)))
    /\ field_of body "quantity" = JInt (Z.abs net)
    /\ field_of body "transactionType" = JStr (if 0 <? net then "SELL" else "BUY").
Proof.
  intros E Hseg He Hpt Hsym Hne. unfold position_of in E. cbn [dict_of] in E. apply res_bind_ok in E as (row' & [= <-] & E).
  apply res_bind_ok in E as (net & Hnet & E). destruct (Z.eqb_spec net 0) as [|Hz]; [done|].
  apply res_bind_ok in E as (avg & _ & E). apply res_bind_ok in E as (ltp & _ & E). apply res_bind_ok in E as (pnl & _ & E).
  destruct (dnonneg avg && dnonneg ltp); [|done]. injection E as <-. exists net, (order_fields k (close_order
    {| pn_symbol := str_strip (py_str (first_of (fields row) ["tradingSymbol"; "securityId"]%string (JStr "")));
       pn_exchange := exchange_of_row (get_or (fields row) "exchangeSegment" (JStr "NSE_EQ")); pn_quantity := net; pn_avg_price := avg;
       pn_ltp := ltp; pn_unrealized_pnl := pnl;
       pn_product_type := default INTRADAY (dict_get (str_upper (py_str (get_or (fields row) "productType" (JStr "INTRADAY")))) PRODUCT_FROM_DHAN) |})
    segment security_id).
  unfold get_or. rewrite Hseg, Hpt. cbn [default id]. rewrite (segment_round_trip _ _ He). cbn [py_str].
  rewrite product_round_trip. cbn [default id first_of]. rewrite Hsym. unfold j_or. cbn [truthy].
  rewrite (proj2 (String.eqb_neq _ _) Hne). cbn [negb py_str]. unfold order_fields, close_order, order_symbol. cbn [o_symbol o_exchange o_side
    o_quantity o_order_type o_product_type o_price o_trigger_price o_tag pn_symbol pn_exchange pn_quantity pn_product_type].
  split_and!; try done. unfold side_to_dhan. by destruct (0 <? net).
Qed.

(** An intraday position in derivatives cannot be squared off: the guard against
    intraday orders refuses the closing order too. *)
Theorem intraday_derivative_stays k p d :
  pn_exchange p = NFO -> pn_product_type p = INTRADAY -> order_request_ok (close_order p) = true ->
  close_position k p d = (Ok {| r_broker_order_id := ""; r_status := REJECTED; r_message := "square_off_failed" |}, d).
Proof.
  intros He Hp Hok. unfold close_position. rewrite Hok. cbn [negb]. unfold mbind, D_bind, tried, dhan_place_order, mbind, D_bind, build_order_payload.
  cbn [close_order o_exchange o_product_type]. by rewrite He, Hp.
Qed.

(** ** Sessions *)

(** A login is remembered.  After a successful login the session is reported
    valid without asking Dhan for the next hour, and a user whose credentials have no
    token is never reported valid. *)
Theorem login_remembered k d d' :
  dhan_login k d = (Ok tt, d') ->
  forall d2, dn_session d2 = dn_session d' -> server_time (dn_server d2) < server_time (dn_server d') + 3600 ->
    dhan_session_valid k d2 = (Ok true, d2).
Proof.
  unfold dhan_login. intros E d2 Hs Ht. unfold dhan_session_valid. destruct (String.eqb (token k) ""); [done|].
  apply D_bind_cases in E as [(body & d1 & E1 & E) | (e & He & E1)]; [|done]. injection E as <-.
  cbv [mbind D_bind peek]. unfold cached_session. rewrite Hs. destruct d1; simpl_rec.
  rewrite dict_get_set, decide_True by done. unfold SESSION_VALID_TTL. by rewrite (proj2 (Z.ltb_lt _ _) Ht).
Qed.

Lemma download_loaded d : is_loaded d = true -> download_scrip_master d = (Ok tt, d).
Proof. unfold download_scrip_master. by intros ->. Qed.

(** A validated symbol can be ordered while the master is fresh. *)
Lemma validated_symbol_orders k o d d' segment :
  dhan_validate_symbol (order_symbol o) (o_exchange o) d = (Ok tt, d') -> is_loaded d' = true ->
  exchange_to_dhan_segment (o_exchange o) = Some segment ->
  (one_of segment DERIVATIVE_SEGMENTS = true -> o_product_type o <> INTRADAY) ->
  exists id, build_order_payload k o d' = (Ok (order_fields k o segment id), d').
Proof.
  unfold dhan_validate_symbol. intros E Hl Hseg Hder. apply D_bind_cases in E as [(id & d1 & E1 & E) | (e & He & E1)]; [|done]. injection E as <-.
  apply get_security_id_spec in E1 as [_ Hid]. destruct (Hid id segment eq_refl Hseg) as [Hne Hlook]. exists id.
  unfold build_order_payload. rewrite Hseg.
  assert (Hg : one_of segment DERIVATIVE_SEGMENTS && bool_decide (o_product_type o = INTRADAY) = false).
  { destruct (one_of segment DERIVATIVE_SEGMENTS); [|done]. apply bool_decide_eq_false_2. auto. }
  rewrite Hg. unfold get_security_id. destruct (o_exchange o); try discriminate Hseg;
    (injection Hseg as <-; cbn [exchange_to_dhan_segment]; cbv [mbind D_bind peek lift]; rewrite (download_loaded _ Hl), Hlook, (proj2 (String.eqb_neq _ _) Hne); done).
Qed.
End Wire.

(** ** A small Dhan

    It accepts every order it receives; the answers to the first [dk_lost] of them get
    lost on the way.  An order asked about is traded in full at 2415.5. *)

Record Desk : Type := { dk_orders : list (list (string * json)); dk_lost : nat; dk_clock : datetime }.

#[export] Instance Desk_eta : Eta Desk := fun s => {| dk_orders := dk_orders s; dk_lost := dk_lost s; dk_clock := dk_clock s |}.

Definition future_row : csv_row :=
  [("SEM_SMST_SECURITY_ID", "51"); ("SEM_TRADING_SYMBOL", "BSE-Aug2026-FUT"); ("SEM_INSTRUMENT_NAME", "FUTSTK");
   ("SEM_EXM_EXCH_ID", "NSE"); ("SEM_SEGMENT", "D"); ("SEM_LOT_UNITS", "375.0"); ("SEM_EXPIRY_DATE", "2026-08-25")]%string.

Definition quantity_of (o : list (string * json)) : json := jget (fields o) "quantity".

Definition json_answer (es : list (string * json)) : http_outcome := HttpResponse 200 None (Some (JDict es)).

Definition desk_serve (req : http_request) (s : Desk) : http_outcome * Desk :=
  if String.eqb (hq_method req) "POST" && String.eqb (hq_path req) "/orders" then
    let s' := s <| dk_orders ::= fun l => l ++ [default [] (hq_json req)] |> <| dk_lost ::= pred |> in
    match dk_lost s with
    | O => (json_answer [("orderId", JStr (z_str (Z.of_nat (length (dk_orders s'))))); ("orderStatus", JStr "TRANSIT")]%string, s')
    | S _ => (HttpFailure, s')
    end
  else if String.eqb (hq_path req) "/fundlimit" then (json_answer [("availabelBalance"%string, JInt 900000)], s)
  else
    match last (dk_orders s) with
    | Some o => (json_answer [("data"%string, JList [JDict [("orderStatus", JStr "TRADED"); ("filledQty", quantity_of o);
                                                       ("averageTradedPrice", JStr "2415.5")]%string])], s)
    | None => (HttpResponse 404 None (Some (JDict [("errorCode"%string, JStr "DH-906")])), s)
    end.

#[export] Instance desk_server : DhanServer Desk := {
  serve := desk_serve;
  fetch_scrips s := (Some [future_row], s);
  server_time := dk_clock
}.

Definition opening (lost : nat) : dhan Desk :=
  {| dn_server := {| dk_orders := []; dk_lost := lost; dk_clock := 100 |}; dn_session := []; dn_master := empty_master;
     dn_loaded_at := None; dn_sent := [] |}.

#[local] Existing Instance plain_coercion.

Definition desk_user : BrokerCredentials :=
  {| k_broker := DHAN; k_user_id := 1; k_client_id := "c"; k_api_key := "k"; k_api_secret := "s"; k_access_token := Some "t"%string;
     k_refresh_token := None |}.

Definition desk_order : OrderRequest :=
  {| o_symbol := "BSE-AUG2026-FUT"; o_exchange := NFO; o_side := BUY; o_quantity := 750; o_order_type := MARKET;
     o_product_type := MARGIN; o_price := None; o_trigger_price := None; o_tag := None |}.

(** The retries resend an order whose answer was lost: one call, three orders at
    Dhan. *)
Example lost_answers_triple :
  map (fun lost => length (dk_orders (dn_server (snd (dhan_place_order desk_user desk_order (opening lost)))))) [0; 1; 2; 5]%nat
  = [1; 2; 3; 3]%nat.
Proof. vm_compute. reflexivity. Qed.

(** A Retry-After header may also be a date; reading it as a number raises, and
    neither the retries nor the callers expect that exception. *)
Example dated_retry_after : answer_of "funds" (HttpResponse 429 (Some "Wed, 21 Oct 2026 07:28:00 GMT"%string) None) = Err ValueError.
Proof. vm_compute. reflexivity. Qed.

(** The signal worker on that desk: the account of the sample strategy, no position,
    one queued entry. *)
Definition desk_world (lost : nat) : world (dhan Desk) store :=
  {| w_positions := []; w_executions := []; w_credentials := [sample_credential]; w_strategies := [sample_strategy];
     w_platform := empty_platform <| pf_signals := [fired 40 sg_received "09:30:00.000001"] |>; w_redis := []; w_alerts := [];
     w_broker := opening lost; w_orders := []; w_now := 100; w_next_id := 1000 |}.

(** One entry of 750 contracts: with both acknowledgements lost the account buys it
    three times, while the book has one row of 750 and the executor counts one
    order. *)
Example worker_orders_thrice :
  map (fun lost => let w := snd (execute_signal_async sample_settings no_contracts 40 "entry" (desk_world lost)) in
         (length (w_orders w), map total_quantity (w_positions w), map quantity_of (dk_orders (dn_server (w_broker w))))) [0; 2]%nat
  = [(1%nat, [750], [JInt 750]); (1%nat, [750], [JInt 750; JInt 750; JInt 750])].
Proof. vm_compute. reflexivity. Qed.

(** ** Witnesses *)


(** The desk after one accepted order. *)
Definition ordered : dhan Desk := snd (dhan_place_order desk_user desk_order (opening 0)).


Definition short_row : list (string * json) :=
  [("tradingSymbol", JStr "BSE-Aug2026-FUT"); ("exchangeSegment", JStr "NSE_FNO"); ("productType", JStr "MARGIN"); ("netQty", JInt (-750));
   ("buyAvg", JInt 0); ("costPrice", JStr "2410.25"); ("ltp", JFloat (float_of_decimal 24 2))]%string.

Definition short_position : Position :=
  {| pn_symbol := "BSE-Aug2026-FUT"; pn_exchange := NFO; pn_quantity := -750; pn_avg_price := Dec 241025 (-2); pn_ltp := Dec 24000 (-1);
     pn_unrealized_pnl := Dec 0 0; pn_product_type := MARGIN |}.

Lemma close_mirrors_row_witness :
  exists net body, net_qty (fields short_row) = Ok net /\ net <> 0
    /\ exchange_to_dhan_segment (o_exchange (close_order short_position)) = Some "NSE_FNO"%string
    /\ order_fields desk_user (close_order short_position) "NSE_FNO" "51" = body
    /\ field_of body "exchangeSegment" = JStr "NSE_FNO" /\ field_of body "productType" = JStr (product_to_dhan MARGIN)
    /\ field_of body "tradingSymbol" = JStr (str_upper (str_strip (str_strip "BSE-Aug2026-FUT")))
    /\ field_of body "quantity" = JInt (Z.abs net)
    /\ field_of body "transactionType" = JStr (if 0 <? net then "SELL" else "BUY").
Proof.
  assert (E : position_of (JDict short_row) = Ok (Some short_position)) by (vm_compute; reflexivity).
  assert (Hne : "BSE-Aug2026-FUT"%string <> ""%string) by discriminate.
  exact (close_mirrors_row desk_user short_row short_position "NSE_FNO" NFO MARGIN "BSE-Aug2026-FUT" "51" E eq_refl eq_refl eq_refl eq_refl Hne).
Defined.

Lemma login_remembered_witness :
  let d := snd (dhan_login desk_user (opening 0)) in dhan_session_valid desk_user d = (Ok true, d).
Proof.
  assert (E : dhan_login desk_user (opening 0) = (Ok tt, snd (dhan_login desk_user (opening 0)))) by (vm_compute; reflexivity).
  exact (login_remembered desk_user (opening 0) (snd (dhan_login desk_user (opening 0))) E (snd (dhan_login desk_user (opening 0))) eq_refl eq_refl).
Defined.
