(* ===== verification/TradeBook.v ===== *)
(** * The broker's trade book (backend/app/domains/pnl_reconciler/tradebook.py,
      order_tape.py)

    Saved rows of Dhan's trade book to [AccountFill]s: futures only, de-duplicated
    across pulls, sorted, with what Dhan billed; and the join with the order-update
    tape, which knows the platform an order came from.  Reading the files is left out:
    rows and frames are decoded objects. *)

From Stdlib Require Import ZArith Lia List Bool Ascii String.
From stdpp Require Import base list strings gmap.
From S2P Require Import Prelude PyText PyFloat PyDecimal PyNum Records Enums Models Attribution PineMapper StrategyWebhook StrategyGate OptionOrder DhanBroker.

(** ** Rows *)

Section Rows.
Context `{Coercion}.

(** [str(row.get(key) or "")]. *)
Definition text_of (row : payload) (key : string) : string := if truthy (jget row key) then py_str (jget row key) else ""%string.

Definition row_symbol_text (row : payload) : string := str_strip (py_str (first_of row ["tradingSymbol"; "customSymbol"]%string (JStr ""))).

Definition OPTION_SUFFIXES : list string := ["CE"; "PE"; "CALL"; "PUT"]%string.

(** The text after the last blank. *)
Fixpoint until_space (s : text) : text :=
  match s with c :: s' => if is_space c then [] else c :: until_space s' | [] => [] end.
Definition last_word (s : text) : text := rev (until_space (rev s)).

Definition is_futures_row (row : payload) : bool :=
  let sym := L (str_upper (row_symbol_text row)) in
  if negb (ends_with (L "FUT") sym) then false
  else if one_of (string_of_list_ascii (default [] (last (split_on "-"%char sym)))) OPTION_SUFFIXES
          || one_of (string_of_list_ascii (last_word sym)) OPTION_SUFFIXES then false
  else if one_of (str_upper (py_str (j_or (jget row "drvOptionType") (JStr "NA")))) ["CE"; "PE"; "CALL"; "PUT"]%string then false
  else
    let seg := text_of row "exchangeSegment" in
    contains (L "FNO") (L (str_upper seg)) || String.eqb seg "".

Definition CHARGE_FIELDS : list string :=
  ["brokerageCharges"; "stt"; "exchangeTransactionCharges"; "sebiTax"; "stampDuty"; "serviceTax"]%string.

Fixpoint sum_charges (row : payload) (names : list string) (total : dec) : option dec :=
  match names with
  | [] => Some total
  | f :: names' =>
      match jget row f with
      | JNull => sum_charges row names' total
      | raw => d ← decimal_of_json raw; sum_charges row names' (dadd total d)
      end
  end.

(** [None]: Dhan did not say. *)
Definition row_charges (row : payload) : option dec :=
  if existsb (fun f => negb (absent (row !! f))) CHARGE_FIELDS then sum_charges row CHARGE_FIELDS dzero else None.

(** [s.replace(" ", "T")]. *)
Definition iso_stamp (s : string) : string :=
  string_of_list_ascii (map (fun c => if Ascii.eqb c " " then "T"%char else c) (L s)).

(** [None]: not a priceable futures fill. *)
Definition account_fill_from_row (row : payload) : result exn (option AccountFill) :=
  if negb (is_futures_row row) then Ok None
  else
    match py_int (j_or (jget row "tradedQuantity") (JInt 0)) with
    | Err TypeError | Err ValueError => Ok None
    | Err e => Err e
    | Ok quantity =>
        let oid := str_strip (text_of row "orderId") in
        let stamp := iso_stamp (str_strip (text_of row "exchangeTime")) in
        let sd := str_upper (str_strip (text_of row "transactionType")) in
        let sid := jget row "securityId" in
        Ok (match decimal_of_json (jget row "tradedPrice") with
            | Some p =>
                if dpos p && (0 <? quantity) && negb (String.eqb oid "") && negb (String.eqb stamp "") && one_of sd ["BUY"; "SELL"]%string
                then Some {| contract := str_strip (if truthy sid then py_str sid else row_symbol_text row); order_id := oid; side := sd;
                             qty := quantity; price := p; ts := stamp; trade_id := text_of row "exchangeTradeId";
                             order_platform := None; charges := row_charges row |}
                else None
            | None => None
            end)
    end.

Definition is_real_trade_id (id : string) : bool := negb (one_of id [""; "0"; "None"]%string).

(** What makes two rows the same fill. *)
Definition fill_key (f : AccountFill) : list string :=
  if is_real_trade_id (trade_id f) then ["id"%string; order_id f; trade_id f]
  else ["row"%string; order_id f; ts f; side f; z_str (qty f); dec_str (price f)].

Fixpoint dedupe (seen : list (list string)) (fs : list AccountFill) : list AccountFill :=
  match fs with
  | [] => []
  | f :: fs' => if bool_decide (fill_key f ∈ seen) then dedupe seen fs' else f :: dedupe (fill_key f :: seen) fs'
  end.

Fixpoint fills_of_rows (rows : list payload) : result exn (list AccountFill) :=
  match rows with
  | [] => Ok []
  | row :: rows' =>
      f ← account_fill_from_row row;
      rest ← fills_of_rows rows';
      Ok (match f with Some a => a :: rest | None => rest end)
  end.

Definition account_fills_from_rows (rows : list payload) : result exn (list AccountFill) :=
  fs ← fills_of_rows rows; Ok (sorted_fills (dedupe [] fs)).

(** ** The order tape *)

Record OrderProvenance : Type := {
  tp_order_id : string;
  tp_platform : option string;
  tp_parent : option string;
  tp_correlation : option string
}.

(** [str(x).strip()], when there is one. *)
Definition stripped_opt (j : json) : option string := match j with JNull => None | _ => Some (str_strip (py_str j)) end.

Definition nonempty (s : string) : option string := if String.eqb s "" then None else Some s.

(** [x in (None, "", 0, "0")]. *)
Definition no_parent (j : json) : bool :=
  match j with JDict _ | JList _ => false | _ => negb (truthy j) || j_is_str j "0" end.

(** Later frames win; a frame without an order id is skipped. *)
Definition tape_frame (tape : gmap string OrderProvenance) (data : payload) : gmap string OrderProvenance :=
  let oid := str_strip (text_of data "orderNo") in
  if String.eqb oid "" then tape
  else
    let parent := jget data "algoOrdNo" in
    <[oid := {| tp_order_id := oid;
                tp_platform := s ← stripped_opt (jget data "orderPlatform"); nonempty (str_upper s);
                tp_parent := if no_parent parent then None else Some (py_str parent);
                tp_correlation := stripped_opt (jget data "correlationId") |}]> tape.

Definition load_tape (frames : list payload) : gmap string OrderProvenance := foldl tape_frame ∅ frames.

(** The fills the tape does not know, from a day on. *)
Definition coverage_gaps (fs : list AccountFill) (tape : gmap string OrderProvenance) (since : option string) : list AccountFill :=
  List.filter (fun f => negb (opt_is (fun s => String.ltb (substring 0 10 (ts f)) s) since)
                        && (String.eqb (order_id f) "" || absent (tape !! order_id f))) fs.

Definition with_platform (f : AccountFill) (platform : option string) : AccountFill :=
  {| contract := contract f; order_id := order_id f; side := side f; qty := qty f; price := price f; ts := ts f;
     trade_id := trade_id f; order_platform := platform; charges := charges f |}.

Definition apply_provenance (fs : list AccountFill) (tape : gmap string OrderProvenance) : list AccountFill :=
  map (fun f => match tape !! order_id f with Some known => with_platform f (tp_platform known) | None => f end) fs.
End Rows.

(** ** Properties *)

Section Book.
Context `{Coercion}.

Lemma dedupe_ext seen seen' fs : (forall k, k ∈ seen <-> k ∈ seen') -> dedupe seen fs = dedupe seen' fs.
Proof.
  revert seen seen'. induction fs as [|f fs IH]; intros seen seen' Hs; cbn [dedupe]; [done|].
  rewrite (bool_decide_ext _ _ (Hs (fill_key f))). case_bool_decide; [by apply IH|]. f_equal. apply IH. intros k. by rewrite !elem_of_cons, Hs.
Qed.

(** Fills whose keys were all seen add nothing. *)
Lemma dedupe_app seen fs again :
  Forall (fun f => fill_key f ∈ map fill_key fs ++ seen) again -> dedupe seen (fs ++ again) = dedupe seen fs.
Proof.
  revert seen. induction fs as [|f fs IH]; intros seen; cbn [dedupe List.app map].
  - induction 1 as [|g l Hg _ IHl]; cbn [dedupe]; [done|]. by rewrite bool_decide_eq_true_2.
  - intros Ha. case_bool_decide as Hf.
    + apply IH. eapply Forall_impl; [exact Ha|]. intros g. rewrite elem_of_cons, !elem_of_app. intros [-> | ?]; [by right | done].
    + f_equal. apply IH. eapply Forall_impl; [exact Ha|]. intros g. rewrite elem_of_cons, !elem_of_app, elem_of_cons. tauto.
Qed.

Lemma fills_of_rows_app rows again fs1 fs2 :
  fills_of_rows rows = Ok fs1 -> fills_of_rows again = Ok fs2 -> fills_of_rows (rows ++ again) = Ok (fs1 ++ fs2).
Proof.
  revert fs1. induction rows as [|row rows IH]; intros fs1; cbn [fills_of_rows List.app]; [by intros [= <-]|].
  intros E1 E2. apply res_bind_ok in E1 as (f & Ef & E1). apply res_bind_ok in E1 as (rest & Er & E1). injection E1 as <-.
  rewrite Ef. cbn. rewrite (IH rest Er E2). cbn. by destruct f.
Qed.

Lemma fills_of_rows_sub rows again fs :
  fills_of_rows rows = Ok fs -> Forall (fun row => In row rows) again ->
  exists fs2, fills_of_rows again = Ok fs2 /\ Forall (fun f => In f fs) fs2.
Proof.
  intros E Ha.
  assert (Hrow : forall row, In row rows -> exists f, account_fill_from_row row = Ok f /\ (forall a, f = Some a -> In a fs)).
  { clear Ha again. revert fs E. induction rows as [|r rows IH]; intros fs; cbn [fills_of_rows]; [done|].
    intros E. apply res_bind_ok in E as (f & Ef & E). apply res_bind_ok in E as (rest & Er & E). injection E as <-.
    intros row [<- | Hin].
    - exists f. split; [done|]. intros a ->. by left.
    - destruct (IH rest Er row Hin) as (g & Eg & Hg). exists g. split; [done|]. intros a Ha. specialize (Hg a Ha). destruct f; [by right | done]. }
  induction Ha as [|row again Hin _ (fs2 & E2 & Hf2)]; [exists []; split; [done | constructor]|]. cbn [fills_of_rows].
  destruct (Hrow row Hin) as (f & Ef & Hf). rewrite Ef. cbn. rewrite E2. cbn. eexists. split; [reflexivity|].
  destruct f as [a|]; [constructor; [by apply Hf | done] | done].
Qed.

(** Pulling a row again changes nothing.  Rows that repeat rows of the book, as
    overlapping pulls bring them, leave the parsed book exactly as it was: no fill is
    counted twice. *)
Theorem repulled_rows_harmless rows again book :
  account_fills_from_rows rows = Ok book -> Forall (fun row => In row rows) again ->
  account_fills_from_rows (rows ++ again) = Ok book.
Proof.
  unfold account_fills_from_rows. intros E Ha. apply res_bind_ok in E as (fs & Ef & E). injection E as <-.
  destruct (fills_of_rows_sub rows again fs Ef Ha) as (fs2 & E2 & Hf2).
  rewrite (fills_of_rows_app rows again fs fs2 Ef E2). cbn. f_equal. f_equal. apply dedupe_app.
  eapply Forall_impl; [exact Hf2|]. intros f Hf. apply elem_of_app. left. rewrite list_elem_of_In. by apply in_map.
Qed.

Lemma dedupe_sub seen fs f : In f (dedupe seen fs) -> In f fs.
Proof. revert seen. induction fs as [|g fs IH]; intros seen; cbn [dedupe]; [done|]. case_bool_decide; cbn; intuition eauto. Qed.

Lemma fills_positive rows fs :
  fills_of_rows rows = Ok fs -> Forall (fun f => 0 < qty f /\ dpos (price f) = true /\ order_id f <> ""%string) fs.
Proof.
  revert fs. induction rows as [|row rows IH]; intros fs; cbn [fills_of_rows]; [by intros [= <-]|].
  intros E. apply res_bind_ok in E as (f & Ef & E). apply res_bind_ok in E as (rest & Er & E). injection E as <-. apply IH in Er.
  destruct f as [a|]; [|done]. constructor; [|done]. unfold account_fill_from_row in Ef. destruct (negb _); [done|].
  destruct (py_int _) as [q|e]; [|by destruct e]. cbv zeta in Ef. destruct (decimal_of_json _) as [p|]; [|done].
  destruct (dpos p) eqn:Hp; cbn [andb] in Ef; [|done]. destruct (Z.ltb_spec 0 q) as [Hq|]; cbn [andb] in Ef; [|done].
  destruct (String.eqb_spec (str_strip (text_of row "orderId")) "") as [|Ho]; cbn [andb negb] in Ef; [done|].
  destruct (negb (String.eqb _ "")); cbn [andb] in Ef; [|done]. destruct (one_of _ _); [|done]. by injection Ef as <-.
Qed.

Lemma book_sound rows book : account_fills_from_rows rows = Ok book -> Forall (fun f => 0 < qty f /\ order_id f <> ""%string) book.
Proof.
  unfold account_fills_from_rows. intros E. apply res_bind_ok in E as (fs & Ef & E). injection E as <-.
  apply fills_positive in Ef. rewrite List.Forall_forall in Ef. apply List.Forall_forall. intros f Hf.
  assert (Hin : In f (dedupe [] fs)).
  { rewrite <- list_elem_of_In in *. by rewrite <- (sorted_fills_perm (dedupe [] fs)). }
  apply dedupe_sub in Hin. apply Ef in Hin as (Hq & _ & Ho). done.
Qed.

(** A parsed book has positive quantities, so attribution always reaches a verdict. *)
Lemma book_positive rows book : account_fills_from_rows rows = Ok book -> Forall (fun f => 0 <= qty f) book.
Proof. intros E%book_sound. eapply Forall_impl; [exact E|]. intros f [Hq _]. lia. Qed.

(** A fill the tape does not know, and that no ledger claims, is never manual. *)
Theorem unknown_never_manual fs tape bot_ids f :
  In f (apply_provenance fs tape) -> tape !! order_id f = None -> Forall (fun g => order_platform g = None) fs ->
  order_id f ∉ bot_ids -> provenance bot_ids f = Unknown.
Proof.
  unfold apply_provenance. rewrite in_map_iff. intros (g & Hg & Hin) Ht Hn Hb. rewrite List.Forall_forall in Hn. specialize (Hn g Hin).
  assert (Hf : order_platform f = None).
  { destruct (tape !! order_id g) eqn:E; [|by subst]. subst f. cbn in Ht. congruence. }
  unfold provenance, claimed. rewrite bool_decide_eq_false_2, Hf by done. reflexivity.
Qed.
End Book.

(** ** A saved page *)

#[local] Existing Instance plain_coercion.

(** A fill as history stamps it, and the same order's second fill of the day's page. *)
Definition history_row : payload := fields
  [("tradingSymbol", JStr "BSE-AUG2026-FUT"); ("exchangeSegment", JStr "NSE_FNO"); ("securityId", JStr "61093"); ("orderId", JStr "11");
   ("exchangeTradeId", JStr "0"); ("transactionType", JStr "BUY"); ("tradedQuantity", JInt 375); ("tradedPrice", JStr "2450.5");
   ("exchangeTime", JStr "2026-08-03 10:15:00"); ("brokerageCharges", JInt 20); ("stt", JNull)]%string.

Definition page_row : payload := <["exchangeTradeId"%string := JStr "9001"]> history_row.

Definition page_fill (id : string) : AccountFill :=
  {| contract := "61093"; order_id := "11"; side := "BUY"; qty := 375; price := Dec 24505 (-1); ts := "2026-08-03T10:15:00"; trade_id := id;
     order_platform := None; charges := Some (Dec 20 0) |}.

Lemma repulled_rows_harmless_witness :
  account_fills_from_rows ([history_row; page_row] ++ [history_row; history_row]) = Ok [page_fill "0"; page_fill "9001"].
Proof.
  apply (repulled_rows_harmless [history_row; page_row] [history_row; history_row] [page_fill "0"; page_fill "9001"]).
  - vm_compute. reflexivity.
  - repeat constructor.
Defined.

(** A history pull of a day whose page was saved counts the fill twice: one has a trade
    id, the other has none. *)
Example page_and_history_double :
  (fs ← account_fills_from_rows [history_row; page_row]; Ok (length fs)) = Ok 2%nat
  /\ (fs ← account_fills_from_rows [history_row; history_row]; Ok (length fs)) = Ok 1%nat.
Proof. split; vm_compute; reflexivity. Qed.
