(* ===== verification/PnlReconciler.v ===== *)
(** * The P&L reconciler (backend/app/domains/pnl_reconciler/service.py, costs.py)

    Realized P&L after the fact: the real fills of a closed position, found through the
    signal ids of its action history, give a strict round trip with estimated costs;
    for live trades the account's trade book decides through [attribute], and what the
    broker billed gives the net.  Write modes, archive protection, coverage check and
    the scheduled scan are those of the source.

    A row here carries the columns the reconciler reads, the JSON ones included; flags,
    reasons and coverage problems are kept as data instead of text.  [uuid.UUID] reads
    32 hexadecimal digits, with the decorations it removes; the signs, blanks and
    underscores its call of [int] would also take are left out.  An exception leaves the
    ledger as it was, since nothing is committed before the end.  Log lines and the
    printed report are left out. *)

From Stdlib Require Import ZArith Lia List Bool Ascii String.
From stdpp Require Import base list strings gmap.
From S2P Require Import Prelude PyText PyFloat PyDecimal PyNum Records Enums Models Calendar ScripMaster Attribution PineMapper StrategyWebhook TradeDna.
From S2P Require Import OptionOrder DhanBroker TradeBook.

(** ** Charges (costs.py) *)

Record CostRates : Type := {
  brokerage_per_order : dec;
  stt_sell : dec;
  exchange_txn_rate : dec;
  sebi_fee_rate : dec;
  stamp_buy : dec;
  gst_rate : dec
}.

Definition SEGMENT_RATES : list (string * CostRates) :=
  [("NFO", {| brokerage_per_order := Dec 20 0; stt_sell := Dec 5 (-4); exchange_txn_rate := Dec 183 (-7); sebi_fee_rate := Dec 1 (-6);
              stamp_buy := Dec 2 (-5); gst_rate := Dec 18 (-2) |});
   ("BFO", {| brokerage_per_order := Dec 20 0; stt_sell := Dec 5 (-4); exchange_txn_rate := Dec 0 0; sebi_fee_rate := Dec 1 (-6);
              stamp_buy := Dec 2 (-5); gst_rate := Dec 18 (-2) |});
   ("MCX", {| brokerage_per_order := Dec 20 0; stt_sell := Dec 1 (-4); exchange_txn_rate := Dec 260 (-7); sebi_fee_rate := Dec 1 (-6);
              stamp_buy := Dec 2 (-5); gst_rate := Dec 18 (-2) |});
   ("CDS", {| brokerage_per_order := Dec 20 0; stt_sell := Dec 0 0; exchange_txn_rate := Dec 9 (-7); sebi_fee_rate := Dec 1 (-6);
              stamp_buy := Dec 1 (-6); gst_rate := Dec 18 (-2) |})]%string.

Definition DEFAULT_SEGMENT : string := "NFO".

Record CostBreakdown : Type := {
  cb_segment : string;
  cb_orders : Z;
  cb_buy_turnover : dec;
  cb_sell_turnover : dec;
  cb_brokerage : dec;
  cb_stt : dec;
  cb_exchange_txn : dec;
  cb_sebi_fee : dec;
  cb_stamp_duty : dec;
  cb_gst : dec;
  cb_total : dec
}.

(** [_q]: paise, half up. *)
Definition paise (d : dec) : result exn dec := match dquantize half_up d (-2) with Some q => Ok q | None => Err InvalidOperation end.

Definition compute_costs (buy_turnover sell_turnover : dec) (orders : Z) (segment : string) : result exn CostBreakdown :=
  match dict_get segment SEGMENT_RATES with
  | None => Err KeyError
  | Some rate =>
      let total_turnover := dadd buy_turnover sell_turnover in
      brokerage ← paise (dmul (brokerage_per_order rate) (dec_of_Z orders));
      stt ← paise (dmul (stt_sell rate) sell_turnover);
      exchange_txn ← paise (dmul (exchange_txn_rate rate) total_turnover);
      sebi_fee ← paise (dmul (sebi_fee_rate rate) total_turnover);
      stamp_duty ← paise (dmul (stamp_buy rate) buy_turnover);
      gst ← paise (dmul (gst_rate rate) (dadd (dadd brokerage exchange_txn) sebi_fee));
      buy ← paise buy_turnover;
      sell ← paise sell_turnover;
      Ok {| cb_segment := segment; cb_orders := orders; cb_buy_turnover := buy; cb_sell_turnover := sell; cb_brokerage := brokerage;
            cb_stt := stt; cb_exchange_txn := exchange_txn; cb_sebi_fee := sebi_fee; cb_stamp_duty := stamp_duty; cb_gst := gst;
            cb_total := dadd (dadd (dadd (dadd (dadd brokerage stt) exchange_txn) sebi_fee) stamp_duty) gst |}
  end.

(** ** Rows *)

Inductive direction : Type := D_long | D_short | D_unknown.

#[export] Instance direction_eq_dec : EqDecision direction.
Proof. solve_decision. Defined.

Inductive trip_flag : Type :=
| UnknownSide (side : string)
| NoEntryLeg
| EntryWithoutFill (sid : option uuid)
| EntryNotFilled (sid : option uuid) (raw_status : option string)
| NoCloseLegs
| ExitMissing (role : string) (sid : option uuid)
| ExitNotFilled (role : string) (sid : option uuid) (raw_status : option string)
| CloseQtyMismatch (closed position : Z)
| AttributionRequired
| StrictDiscarded (t : attribution_tag).

#[export] Instance trip_flag_eq_dec : EqDecision trip_flag.
Proof. solve_decision. Defined.

#[export] Instance why_eq_dec : EqDecision why.
Proof. solve_decision. Defined.

(** What [pnl_attribution_detail] says; [Noted] is text of other origin. *)
Inductive detail : Type :=
| PaperTrip
| NoParsableFill (flags : list trip_flag)
| PaperNotRebuilt (flags : list trip_flag)
| RuleSays (w : why)
| Noted (note : string).

#[export] Instance detail_eq_dec : EqDecision detail.
Proof. solve_decision. Defined.

(** A row of strategy_positions. *)
Record ledger_row : Type := {
  lr_id : uuid;
  lr_strategy_id : uuid;
  lr_subscription_id : option uuid;
  lr_symbol : string;
  lr_side : string;
  lr_total_quantity : Z;
  lr_status : pos_status;
  lr_opened_at : datetime;
  lr_closed_at : option datetime;
  lr_history : list payload;
  lr_final_pnl : option dec;
  lr_attribution : option attribution_tag;
  lr_detail : option detail
}.

#[export] Instance ledger_row_eta : Eta ledger_row := fun r =>
  {| lr_id := lr_id r; lr_strategy_id := lr_strategy_id r; lr_subscription_id := lr_subscription_id r; lr_symbol := lr_symbol r;
     lr_side := lr_side r; lr_total_quantity := lr_total_quantity r; lr_status := lr_status r; lr_opened_at := lr_opened_at r;
     lr_closed_at := lr_closed_at r; lr_history := lr_history r; lr_final_pnl := lr_final_pnl r; lr_attribution := lr_attribution r;
     lr_detail := lr_detail r |}.

(** A row of strategy_executions. *)
Record ledger_execution : Type := {
  le_signal_id : uuid;
  le_subscription_id : option uuid;
  le_placed_at : datetime;
  le_broker_order_id : option string;
  le_broker_response : option payload
}.

(** Positions, executions, and the strategy of each signal. *)
Record ledger : Type := {
  lg_positions : list ledger_row;
  lg_executions : list ledger_execution;
  lg_signals : gmap uuid uuid
}.

(** ** Fills *)

Inductive fill_status : Type := FILLED | PENDING_FILL | OTHER_FILL.

#[export] Instance fill_status_eq_dec : EqDecision fill_status.
Proof. solve_decision. Defined.

Inductive fill_source : Type := src_dhan | src_paper_entry | src_paper_exit | src_unknown.

#[export] Instance fill_source_eq_dec : EqDecision fill_source.
Proof. solve_decision. Defined.

Record FillInfo : Type := {
  fi_status : fill_status;
  fi_raw_status : option string;
  fi_price : option dec;
  fi_qty : option Z;
  fi_source : fill_source;
  fi_order_id : option string;
  fi_correlation_id : option string
}.

Definition is_live (f : FillInfo) : bool := bool_decide (fi_source f = src_dhan).

Definition FILLED_STATUSES : list string := ["TRADED"; "COMPLETE"; "COMPLETED"; "FILLED"; "EXECUTED"]%string.
Definition PENDING_STATUSES : list string := ["TRANSIT"; "PENDING"; "OPEN"; "MODIFIED"]%string.

(** [None] for a bool and for anything that is no number. *)
Definition to_decimal_opt (j : json) : option dec := decimal_of_json j.

(** [int(d)]: towards zero. *)
Definition dec_trunc (d : dec) : Z := if expo d <? 0 then Z.quot (coef d) (10 ^ (- expo d)) else coef d * 10 ^ expo d.

Definition to_int_opt (j : json) : option Z :=
  match j with JInt z => Some z | _ => d ← to_decimal_opt j; Some (dec_trunc d) end.

(** [s.replace(sub, "")]; [skip] characters of a match are left. *)
Fixpoint remove_sub (sub : text) (skip : nat) (s : text) : text :=
  match s with
  | [] => []
  | c :: s' =>
      match skip with
      | S k => remove_sub sub k s'
      | O => if bool_decide (take (length sub) s = sub) then remove_sub sub (length sub - 1) s' else c :: remove_sub sub 0 s'
      end
  end.

Definition hex_val (c : ascii) : option Z :=
  let n := Z.of_N (N_of_ascii c) in
  if (48 <=? n) && (n <=? 57) then Some (n - 48)
  else if (97 <=? n) && (n <=? 102) then Some (n - 87)
  else if (65 <=? n) && (n <=? 70) then Some (n - 55)
  else None.

Fixpoint hex_int (acc : Z) (s : text) : option Z :=
  match s with [] => Some acc | c :: s' => d ← hex_val c; hex_int (16 * acc + d) s' end.

Definition brace (c : ascii) : bool := Ascii.eqb c "{" || Ascii.eqb c "}".

(** [uuid.UUID(s)]. *)
Definition uuid_of_text (s : text) : option uuid :=
  let s := remove_sub (L "uuid:") 0 (remove_sub (L "urn:") 0 s) in
  let s := rev (lstrip_chars brace (rev (lstrip_chars brace s))) in
  let s := remove_sub (L "-") 0 s in
  if (length s =? 32)%nat then hex_int 0 s else None.

Definition to_uuid (j : json) : option uuid := match j with JStr s => uuid_of_text (L s) | _ => None end.

Section Fills.
Context `{Coercion}.

Definition normalize_status (raw : json) : fill_status :=
  let t := str_upper (str_strip (if truthy raw then py_str raw else ""%string)) in
  if one_of t FILLED_STATUSES then FILLED else if one_of t PENDING_STATUSES then PENDING_FILL else OTHER_FILL.

Definition as_str (j : json) : option string := match j with JNull => None | _ => Some (py_str j) end.

(** Never the limit price. *)
Definition dhan_traded_price (raw : payload) : option dec :=
  atp ← to_decimal_opt (jget raw "averageTradedPrice"); if dpos atp then Some atp else None.

Definition paper_fill (r : payload) (price : option dec) (q : option Z) (source : fill_source) : FillInfo :=
  {| fi_status := normalize_status (jget r "status"); fi_raw_status := as_str (jget r "status"); fi_price := price; fi_qty := q;
     fi_source := source; fi_order_id := None; fi_correlation_id := None |}.

Definition shaped_fill (r : payload) : FillInfo :=
  if negb (absent (r !! "fill_price"%string)) then
    paper_fill r (to_decimal_opt (jget r "fill_price")) (to_int_opt (jget r "filled_qty")) src_paper_exit
  else if negb (absent (r !! "avg_price"%string)) then
    paper_fill r (to_decimal_opt (jget r "avg_price")) (to_int_opt (jget r "quantity")) src_paper_entry
  else paper_fill r None None src_unknown.

(** [None]: there is no response at all. *)
Definition parse_fill (broker_response : option payload) : option FillInfo :=
  r ← broker_response;
  if bool_decide (r = ∅) then None
  else
    Some (match jget r "raw" with
          | JDict entries =>
              let raw := fields entries in
              if negb (absent (raw !! "orderStatus"%string)) then
                {| fi_status := normalize_status (jget raw "orderStatus"); fi_raw_status := as_str (jget raw "orderStatus");
                   fi_price := dhan_traded_price raw; fi_qty := to_int_opt (jget raw "filledQty"); fi_source := src_dhan;
                   fi_order_id := as_str (jget raw "orderId"); fi_correlation_id := as_str (jget raw "correlationId") |}
              else shaped_fill r
          | _ => shaped_fill r
          end).

(** The first parseable row of a signal wins. *)
Definition index_row (index : gmap uuid FillInfo) (x : ledger_execution) : gmap uuid FillInfo :=
  if negb (absent (index !! le_signal_id x)) then index
  else match parse_fill (le_broker_response x) with Some f => <[le_signal_id x := f]> index | None => index end.

Definition build_fill_index (executions : list ledger_execution) : gmap uuid FillInfo := foldl index_row ∅ executions.
End Fills.

(** ** Round trips *)

Record ExitLeg : Type := {
  el_role : string;
  el_qty : Z;
  el_price : option dec;
  (** [None] is MISSING. *)
  el_status : option fill_status;
  el_signal_id : option uuid;
  el_pnl : option dec
}.

Record RoundTrip : Type := {
  rt_position_id : uuid;
  rt_symbol : string;
  rt_direction : direction;
  rt_position_qty : Z;
  rt_entry_legs : Z;
  rt_entry_price : option dec;
  rt_exits : list ExitLeg;
  rt_exit_qty_total : Z;
  rt_gross : option dec;
  rt_costs : option CostBreakdown;
  rt_net : option dec;
  rt_complete : bool;
  rt_flags : list trip_flag;
  rt_attribution : option Attribution;
  rt_tag : option attribution_tag;
  rt_detail : option detail;
  rt_live : bool;
  rt_billed : option dec;
  rt_balanced : option bool
}.

#[export] Instance RoundTrip_eta : Eta RoundTrip := fun t =>
  {| rt_position_id := rt_position_id t; rt_symbol := rt_symbol t; rt_direction := rt_direction t; rt_position_qty := rt_position_qty t;
     rt_entry_legs := rt_entry_legs t; rt_entry_price := rt_entry_price t; rt_exits := rt_exits t; rt_exit_qty_total := rt_exit_qty_total t;
     rt_gross := rt_gross t; rt_costs := rt_costs t; rt_net := rt_net t; rt_complete := rt_complete t; rt_flags := rt_flags t;
     rt_attribution := rt_attribution t; rt_tag := rt_tag t; rt_detail := rt_detail t; rt_live := rt_live t; rt_billed := rt_billed t;
     rt_balanced := rt_balanced t |}.

Definition writable (t : RoundTrip) : bool :=
  if negb (rt_complete t) || absent (rt_net t) then false
  else if bool_decide (rt_balanced t = Some false) then false
  else if rt_live t then opt_is priced (rt_attribution t)
  else true.

Inductive rec_error : Type :=
| Raised (e : exn)
| AttributionAssertion (e : attribute_error)
| AssertionFailed
| IndexError
| ArchiveProtectedError (rows : list uuid)
| CoversFromMissing
| BookRefused.

(** Distinct broker orders, and legs without an order id. *)
Record order_count : Type := { oc_keys : list string; oc_unkeyed : Z }.

Definition count_order (f : FillInfo) (c : order_count) : order_count :=
  match fi_order_id f with
  | Some (String _ _ as k) =>
      if bool_decide (k ∈ oc_keys c) then c else {| oc_keys := k :: oc_keys c; oc_unkeyed := oc_unkeyed c |}
  | _ => {| oc_keys := oc_keys c; oc_unkeyed := oc_unkeyed c + 1 |}
  end.

Definition order_total (c : order_count) : Z := Z.of_nat (length (oc_keys c)) + oc_unkeyed c.

Definition orZ (o : option Z) : Z := default 0 o.

Record entry_acc : Type := { ea_qty : Z; ea_legs : Z; ea_value : dec; ea_ok : bool; ea_orders : order_count; ea_flags : list trip_flag }.

Record exit_acc : Type := {
  xa_exits : list ExitLeg; xa_qty : Z; xa_realized : dec; xa_ok : bool; xa_orders : order_count; xa_flags : list trip_flag
}.

(** The fill of an event, by the signal it names. *)
Definition event_fill (fills : gmap uuid FillInfo) (event : payload) : option FillInfo :=
  sid ← to_uuid (jget event "signal_id"); fills !! sid.

(** Filled, with a price. *)
Definition filled_at (f : FillInfo) : option dec := if bool_decide (fi_status f = FILLED) then fi_price f else None.

Definition no_signal (event : payload) : bool := match jget event "signal_id" with JNull => true | j => j_is_str j "" end.

Definition signed_diff (d : direction) (exit entry : dec) : option dec :=
  match d with D_long => Some (dsub exit entry) | D_short => Some (dsub entry exit) | D_unknown => None end.

Definition direction_of (side : string) : direction :=
  let s := str_lower (str_strip side) in
  if String.eqb s "buy" then D_long else if String.eqb s "sell" then D_short else D_unknown.

Section Trips.
Context `{Coercion}.

Definition is_entry (event : payload) : bool :=
  String.eqb (str_lower (py_str (default (JStr "") (event !! "action"%string)))) "entry".

Definition leg_role_of (event : payload) : string := py_str (first_of event ["leg_role"; "action"]%string (JStr "")).

Fixpoint entry_loop (fills : gmap uuid FillInfo) (events : list payload) (a : entry_acc) : entry_acc :=
  match events with
  | [] => a
  | event :: events' =>
      let sid := to_uuid (jget event "signal_id") in
      let q := orZ (to_int_opt (jget event "qty")) in
      let refuse flag := {| ea_qty := ea_qty a; ea_legs := ea_legs a; ea_value := ea_value a; ea_ok := false; ea_orders := ea_orders a;
                            ea_flags := ea_flags a ++ [flag] |} in
      match event_fill fills event with
      | None => entry_loop fills events' (refuse (EntryWithoutFill sid))
      | Some f =>
          match filled_at f with
          | None => entry_loop fills events' (refuse (EntryNotFilled sid (fi_raw_status f)))
          | Some p =>
              entry_loop fills events'
                {| ea_qty := ea_qty a + q; ea_legs := ea_legs a + 1; ea_value := dadd (ea_value a) (dmul p (dec_of_Z q)); ea_ok := ea_ok a;
                   ea_orders := count_order f (ea_orders a); ea_flags := ea_flags a |}
          end
      end
  end.

Fixpoint exit_loop (d : direction) (entry_price : option dec) (fills : gmap uuid FillInfo) (events : list payload) (a : exit_acc) : exit_acc :=
  match events with
  | [] => a
  | event :: events' =>
      let sid := to_uuid (jget event "signal_id") in
      let q := orZ (to_int_opt (jget event "qty")) in
      let role := leg_role_of event in
      let refuse flag leg := {| xa_exits := xa_exits a ++ [leg]; xa_qty := xa_qty a; xa_realized := xa_realized a; xa_ok := false;
                                xa_orders := xa_orders a; xa_flags := xa_flags a ++ [flag] |} in
      match event_fill fills event with
      | None =>
          exit_loop d entry_price fills events'
            (refuse (ExitMissing role sid)
               {| el_role := role; el_qty := q; el_price := None; el_status := None; el_signal_id := sid; el_pnl := None |})
      | Some f =>
          match filled_at f with
          | None =>
              exit_loop d entry_price fills events'
                (refuse (ExitNotFilled role sid (fi_raw_status f))
                   {| el_role := role; el_qty := q; el_price := fi_price f; el_status := Some (fi_status f); el_signal_id := sid; el_pnl := None |})
          | Some p =>
              let leg_pnl := entry ← entry_price; diff ← signed_diff d p entry; Some (dmul diff (dec_of_Z q)) in
              exit_loop d entry_price fills events'
                {| xa_exits := xa_exits a ++ [{| el_role := role; el_qty := q; el_price := Some p; el_status := Some (fi_status f);
                                                 el_signal_id := sid; el_pnl := leg_pnl |}];
                   xa_qty := xa_qty a + q;
                   xa_realized := match leg_pnl with Some l => dadd (xa_realized a) l | None => xa_realized a end;
                   xa_ok := xa_ok a; xa_orders := count_order f (xa_orders a); xa_flags := xa_flags a |}
          end
      end
  end.

Definition leg_turnover (exits : list ExitLeg) : dec :=
  foldl (fun t leg => match el_price leg with Some p => dadd t (dmul p (dec_of_Z (el_qty leg))) | None => t end) dzero exits.

(** The round trip of the position's own legs. *)
Definition strict_trip (p : ledger_row) (fills : gmap uuid FillInfo) (segment : string) : result rec_error RoundTrip :=
  let d := direction_of (lr_side p) in
  let flags0 := if bool_decide (d = D_unknown) then [UnknownSide (lr_side p)] else [] in
  let history := List.filter (fun ev => negb (no_signal ev)) (lr_history p) in
  let entry_events := List.filter is_entry history in
  let exit_events := List.filter (fun ev => negb (is_entry ev)) history in
  let position_qty := lr_total_quantity p in
  let none {A} (l : list A) := match l with [] => true | _ => false end in
  let a := entry_loop fills entry_events
             {| ea_qty := 0; ea_legs := 0; ea_value := dzero; ea_ok := negb (none entry_events);
                ea_orders := {| oc_keys := []; oc_unkeyed := 0 |};
                ea_flags := flags0 ++ (if none entry_events then [NoEntryLeg] else []) |} in
  let entry_price := if 0 <? ea_qty a then Some (ddiv (ea_value a) (dec_of_Z (ea_qty a))) else None in
  let x := exit_loop d entry_price fills exit_events
             {| xa_exits := []; xa_qty := 0; xa_realized := dzero; xa_ok := negb (none exit_events); xa_orders := ea_orders a;
                xa_flags := ea_flags a ++ (if none exit_events then [NoCloseLegs] else []) |} in
  let qty_match := (0 <? position_qty) && (xa_qty x =? position_qty) in
  let complete := ea_ok a && xa_ok x && qty_match && negb (absent entry_price) && negb (bool_decide (d = D_unknown)) in
  costs ←
    (if complete then
       let out := leg_turnover (xa_exits x) in
       let '(buy, sell) := match d with D_long => (ea_value a, out) | _ => (out, ea_value a) end in
       match compute_costs buy sell (order_total (xa_orders x)) segment with Ok c => Ok (Some c) | Err e => Err (Raised e) end
     else Ok None);
  let gross := if complete then Some (xa_realized x) else None in
  Ok {| rt_position_id := lr_id p; rt_symbol := lr_symbol p; rt_direction := d; rt_position_qty := position_qty; rt_entry_legs := ea_legs a;
        rt_entry_price := entry_price; rt_exits := xa_exits x; rt_exit_qty_total := xa_qty x; rt_gross := gross; rt_costs := costs;
        rt_net := g ← gross; c ← costs; Some (dsub g (cb_total c)); rt_complete := complete;
        rt_flags := xa_flags x ++ (if negb (none exit_events) && negb qty_match then [CloseQtyMismatch (xa_qty x) position_qty] else []);
        rt_attribution := None; rt_tag := None; rt_detail := None; rt_live := false; rt_billed := None; rt_balanced := None |}.

Definition trip_fills (p : ledger_row) (fills : gmap uuid FillInfo) : list FillInfo := omap (event_fill fills) (lr_history p).

Definition BOT_CORRELATION_IDS : list string := ["strategy-engine"; "strategy-engine-direct-exit"]%string.

(** The order id of a fill with the bot's correlation id. *)
Definition bot_order (f : FillInfo) : option string :=
  k ← fi_order_id f; c ← fi_correlation_id f;
  if negb (String.eqb k "") && one_of c BOT_CORRELATION_IDS then Some k else None.

Definition entry_order_ids (p : ledger_row) (fills : gmap uuid FillInfo) : list string :=
  omap (fun ev => f ← event_fill fills ev; if bool_decide (fi_status f = FILLED) then bot_order f else None) (List.filter is_entry (lr_history p)).

Definition bot_order_ids (fills : gmap uuid FillInfo) (engine : option (list string)) : list string :=
  omap bot_order (map snd (map_to_list fills)) ++ List.filter (fun o => negb (String.eqb o "")) (default [] engine).

(** A trip the rule priced: numbers of the account's book replace the strict ones. *)
Definition account_priced (t : RoundTrip) (outcome : Attribution) (bot : list string) : result rec_error RoundTrip :=
  match entry_fills outcome, gross_pnl outcome with
  | [], _ => Err IndexError
  | _, None => Err AssertionFailed
  | e0 :: _, Some gross =>
      let d := if is_buy e0 then D_long else D_short in
      if entry_qty outcome =? 0
      then Err (Raised (if is_dzero (entry_turnover outcome) then InvalidOperation else ZeroDivisionError))
      else
        let entry_price := ddiv (entry_turnover outcome) (dec_of_Z (entry_qty outcome)) in
        let leg f := {| el_role := if bool_decide (order_id f ∈ bot) then "bot_exit"%string else "account_flat"%string; el_qty := qty f;
                        el_price := Some (price f); el_status := Some FILLED; el_signal_id := None;
                        el_pnl := diff ← signed_diff d (price f) entry_price; Some (dmul diff (dec_of_Z (qty f))) |} in
        let billed := billed_charges outcome in
        let exit_qty := total_qty (exit_fills outcome) in
        Ok {| rt_position_id := rt_position_id t; rt_symbol := rt_symbol t; rt_direction := d; rt_position_qty := rt_position_qty t;
              rt_entry_legs := Z.of_nat (length (entry_fills outcome)); rt_entry_price := Some entry_price;
              rt_exits := map leg (exit_fills outcome); rt_exit_qty_total := exit_qty; rt_gross := Some gross; rt_costs := None;
              rt_net := b ← billed; Some (dsub gross b); rt_complete := true; rt_flags := rt_flags t; rt_attribution := Some outcome;
              rt_tag := Some (tag outcome); rt_detail := Some (RuleSays (reason outcome)); rt_live := rt_live t; rt_billed := billed;
              rt_balanced := Some (exit_qty =? rt_position_qty t) |}
  end.

Definition classify_trip (t : RoundTrip) (p : ledger_row) (fills : gmap uuid FillInfo) (account_fills : option (list AccountFill))
    (engine : option (list string)) : result rec_error RoundTrip :=
  let fs := trip_fills p fills in
  let t := t <| rt_live := existsb is_live fs |> in
  match account_fills with
  | None =>
      Ok (if rt_live t then t <| rt_flags := rt_flags t ++ [AttributionRequired] |>
          else if rt_complete t then t <| rt_tag := Some TAG_PAPER_SIM |> <| rt_detail := Some PaperTrip |>
          else t <| rt_tag := Some TAG_UNPRICEABLE |>
                 <| rt_detail := Some (match fs with [] => NoParsableFill (rt_flags t) | _ => PaperNotRebuilt (rt_flags t) end) |>)
  | Some book =>
      let bot := bot_order_ids fills engine in
      match attribute (entry_order_ids p fills) book bot with
      | Err e => Err (AttributionAssertion e)
      | Ok outcome =>
          if priced outcome then account_priced t outcome bot
          else Ok (t <| rt_attribution := Some outcome |> <| rt_tag := Some (tag outcome) |> <| rt_detail := Some (RuleSays (reason outcome)) |>
                     <| rt_flags := rt_flags t ++ (if rt_complete t then [StrictDiscarded (tag outcome)] else []) |>
                     <| rt_complete := false |> <| rt_gross := None |> <| rt_costs := None |> <| rt_net := None |>)
      end
  end.

Definition reconcile_position (p : ledger_row) (fills : gmap uuid FillInfo) (segment : string) (account_fills : option (list AccountFill))
    (engine : option (list string)) : result rec_error RoundTrip :=
  t ← strict_trip p fills segment; classify_trip t p fills account_fills engine.
End Trips.

(** ** Coverage of the book *)

Inductive coverage_problem : Type :=
| BookEmpty
| NotAttested
| OrderMissing (oid : string) (row : uuid)
| OrderQuantity (oid : string) (book executed : Z)
| OpeningUnknown (contract first : string)
| EndsEarly (row : uuid) (book_end closed : string)
| NoBotOrder.

(** Per contract: first and last fill, number of fills, net at the end. *)
Record coverage_line : Type := { cl_contract : string; cl_first : AccountFill; cl_last : AccountFill; cl_fills : Z; cl_net : Z }.

Record BookCoverage : Type := { bc_problems : list coverage_problem; bc_lines : list coverage_line }.

Definition coverage_ok (c : BookCoverage) : bool := match bc_problems c with [] => true | _ => false end.

Definition iso_day (d : date) : string :=
  let '(y, m, dd) := ord_ymd d in string_of_list_ascii (pad 4 y ++ L "-" ++ pad 2 m ++ L "-" ++ pad 2 dd).

(** [strftime] of the IST clock. *)
Definition ist_text (at_ : datetime) : string :=
  let t := ist_time at_ in
  String.append (iso_day (ist_date at_))
    (string_of_list_ascii (L "T" ++ pad 2 (t / 3600) ++ L ":" ++ pad 2 (t mod 3600 / 60) ++ L ":" ++ pad 2 (t mod 60))).

Definition later_text (a b : string) : bool := String.ltb b a.

(** The rows of the book with an order id. *)
Definition book_rows (book : list AccountFill) (oid : string) : list AccountFill :=
  List.filter (fun f => String.eqb (order_id f) oid) book.

(** A filled order of the bot at Dhan. *)
Definition live_order (fills : gmap uuid FillInfo) (event : payload) : option (string * option Z) :=
  f ← event_fill fills event;
  k ← fi_order_id f;
  if is_live f && bool_decide (fi_status f = FILLED) && negb (String.eqb k "") then Some (k, fi_qty f) else None.

Definition live_orders (fills : gmap uuid FillInfo) (p : ledger_row) : list (string * option Z) := omap (live_order fills) (lr_history p).

Definition order_problems (book : list AccountFill) (p : ledger_row) (o : string * option Z) : list coverage_problem :=
  match book_rows book (fst o) with
  | [] => [OrderMissing (fst o) (lr_id p)]
  | rows =>
      match snd o with
      | Some executed => if total_qty rows =? executed then [] else [OrderQuantity (fst o) (total_qty rows) executed]
      | None => []
      end
  end.

(** The contracts a position traded, as far as the book has its orders. *)
Definition contracts_of (fills : gmap uuid FillInfo) (book : list AccountFill) (p : ledger_row) : list string :=
  mjoin (map (fun o => map contract (book_rows book (fst o))) (live_orders fills p)).

Definition traded_contracts (fills : gmap uuid FillInfo) (book : list AccountFill) (rows : list ledger_row) : list string :=
  remove_dups (sort_stable later_text (mjoin (map (contracts_of fills book) rows))).

Definition contract_fills (book : list AccountFill) (c : string) : list AccountFill :=
  sort_stable (fun f g => later_text (ts f) (ts g)) (List.filter (fun f => String.eqb (contract f) c) book).

Definition contract_line (book : list AccountFill) (c : string) : option coverage_line :=
  let cf := contract_fills book c in
  match head cf, last cf with
  | Some first, Some last_ =>
      Some {| cl_contract := c; cl_first := first; cl_last := last_; cl_fills := Z.of_nat (length cf); cl_net := sum_by signed_qty cf |}
  | _, _ => None
  end.

Definition opening_problem (covers_from : date) (line : coverage_line) : list coverage_problem :=
  if String.leb (substring 0 10 (ts (cl_first line))) (iso_day (covers_from + 1))
  then [OpeningUnknown (cl_contract line) (ts (cl_first line))] else [].

Definition text_max (a b : string) : string := if String.ltb a b then b else a.

Definition book_end (book : list AccountFill) : string := foldl (fun m f => text_max m (ts f)) "" book.

Definition end_problem (fills : gmap uuid FillInfo) (book : list AccountFill) (p : ledger_row) : list coverage_problem :=
  match contracts_of fills book p, lr_closed_at p with
  | _ :: _, Some closed =>
      if String.ltb (book_end book) (ist_text closed) then [EndsEarly (lr_id p) (book_end book) (ist_text closed)] else []
  | _, _ => []
  end.

Definition check_book_coverage (rows : list ledger_row) (fills : gmap uuid FillInfo) (book : list AccountFill) (covers_from : date) : BookCoverage :=
  match book with
  | [] => {| bc_problems := [BookEmpty]; bc_lines := [] |}
  | _ =>
      let contracts := traded_contracts fills book rows in
      let lines := omap (contract_line book) contracts in
      {| bc_problems :=
           mjoin (map (fun p => mjoin (map (order_problems book p) (live_orders fills p))) rows)
           ++ mjoin (map (opening_problem covers_from) lines)
           ++ mjoin (map (end_problem fills book) rows)
           ++ (match contracts with [] => [NoBotOrder] | _ => [] end);
         bc_lines := lines |}
  end.

(** ** Writing *)

Inductive change : Type := ch_pnl | ch_nulled | ch_tag.

(** [v != w] on a nullable amount. *)
Definition pnl_differs (v : option dec) (net : dec) : bool := match v with Some x => negb (deqb x net) | None => true end.

Definition write_pnl (p : ledger_row) (t : RoundTrip) (overwrite : bool) : ledger_row * option change :=
  match (if writable t then rt_net t else None) with
  | Some net =>
      if (absent (lr_final_pnl p) || overwrite) && pnl_differs (lr_final_pnl p) net
      then (p <| lr_final_pnl := Some net |>, Some ch_pnl) else (p, None)
  | None =>
      match lr_final_pnl p with
      | Some stored =>
          if overwrite && (bool_decide (rt_tag t = Some TAG_HUMAN_INTERFERED) || bool_decide (rt_tag t = Some TAG_UNPRICEABLE) && is_dzero stored)
          then (p <| lr_final_pnl := None |>, Some ch_nulled) else (p, None)
      | None => (p, None)
      end
  end.

Definition apply_write (p : ledger_row) (t : RoundTrip) (overwrite : bool) : ledger_row * option change :=
  let '(p1, changed) := write_pnl p t overwrite in
  if negb (absent (rt_tag t)) && (negb (bool_decide (lr_attribution p1 = rt_tag t)) || negb (bool_decide (lr_detail p1 = rt_detail t)))
  then (p1 <| lr_attribution := rt_tag t |> <| lr_detail := rt_detail t |>, match changed with None => Some ch_tag | c => c end)
  else (p1, changed).

Record ReconcileResult : Type := {
  rr_strategy_id : option uuid;
  rr_trips : list RoundTrip;
  rr_annotated : Z;
  rr_wrote : bool;
  rr_coverage : option BookCoverage
}.

Definition complete_trips (r : ReconcileResult) : list RoundTrip := List.filter rt_complete (rr_trips r).
Definition incomplete_trips (r : ReconcileResult) : list RoundTrip := List.filter (fun t => negb (rt_complete t)) (rr_trips r).
Definition gross_realized (r : ReconcileResult) : dec := dsum (omap rt_gross (rr_trips r)).
Definition net_realized (r : ReconcileResult) : dec := dsum (omap rt_net (rr_trips r)).
Definition total_costs (r : ReconcileResult) : dec := dsum (map cb_total (omap rt_costs (rr_trips r))).

(** [None]: a bill is missing. *)
Definition total_billed_charges (r : ReconcileResult) : option dec :=
  if existsb (fun t => absent (rt_billed t)) (complete_trips r) then None else Some (dsum (omap rt_billed (complete_trips r))).

(** ** Runs *)

Definition closed_row (p : ledger_row) : bool := bool_decide (lr_status p = st_closed).

(** The owner's closed rows of a strategy. *)
Definition own_closed (strategy_id : uuid) (p : ledger_row) : bool :=
  (lr_strategy_id p =? strategy_id) && closed_row p && absent (lr_subscription_id p).

Definition load_closed_positions (strategy_id : uuid) (lg : ledger) : list ledger_row :=
  sort_stable (fun p q => lr_opened_at q <? lr_opened_at p) (List.filter (own_closed strategy_id) (lg_positions lg)).

Definition load_executions (strategy_id : uuid) (lg : ledger) : list ledger_execution :=
  sort_stable (fun x y => le_placed_at y <? le_placed_at x)
    (List.filter (fun x => bool_decide (lg_signals lg !! le_signal_id x = Some strategy_id) && absent (le_subscription_id x)) (lg_executions lg)).

Definition is_archived (p : ledger_row) (archive_before : option datetime) : bool := opt_is (fun b => lr_opened_at p <? b) archive_before.

(** Rows saved by primary key. *)
Definition save_rows (rows updated : list ledger_row) : list ledger_row :=
  map (fun r => default r (find (fun u => lr_id u =? lr_id r) updated)) rows.

Definition commit (lg : ledger) (updated : list ledger_row) : ledger :=
  {| lg_positions := save_rows (lg_positions lg) updated; lg_executions := lg_executions lg; lg_signals := lg_signals lg |}.

Record run_options : Type := {
  ro_write : bool;
  ro_overwrite : bool;
  ro_allow_archive : bool;
  ro_archive_before : option datetime;
  ro_segment : string;
  ro_book : option (list AccountFill);
  ro_covers_from : option date;
  ro_engine_ids : option (list string)
}.

Definition changes {A B : Type} (l : list (A * B * option change)) : Z := Z.of_nat (length (List.filter (fun x => negb (absent (snd x))) l)).

Section Runs.
Context `{Coercion}.

(** One position: row, trip, what changed. *)
Definition row_step (o : run_options) (fills : gmap uuid FillInfo) (p : ledger_row) : result rec_error (ledger_row * RoundTrip * option change) :=
  t ← reconcile_position p fills (ro_segment o) (ro_book o) (ro_engine_ids o);
  if negb (ro_write o) then Ok (p, t, None)
  else if is_archived p (ro_archive_before o) && negb (ro_allow_archive o) then Ok (p, t, None)
  else let '(p', changed) := apply_write p t (ro_overwrite o) in Ok (p', t, changed).

Fixpoint process_rows (o : run_options) (fills : gmap uuid FillInfo) (rows : list ledger_row)
  : result rec_error (list (ledger_row * RoundTrip * option change)) :=
  match rows with
  | [] => Ok []
  | p :: rows' => x ← row_step o fills p; rest ← process_rows o fills rows'; Ok (x :: rest)
  end.

Definition book_check (o : run_options) (rows : list ledger_row) (fills : gmap uuid FillInfo) : result rec_error (option BookCoverage) :=
  match ro_book o with
  | None => Ok None
  | Some book =>
      coverage ←
        match ro_covers_from o with
        | None => if ro_write o then Err CoversFromMissing else Ok {| bc_problems := [NotAttested]; bc_lines := [] |}
        | Some covers_from => Ok (check_book_coverage rows fills book covers_from)
        end;
      if ro_write o && negb (coverage_ok coverage) then Err BookRefused else Ok (Some coverage)
  end.

Definition reconcile_strategy (strategy_id : uuid) (o : run_options) (lg : ledger) : result rec_error (ReconcileResult * ledger) :=
  let rows := load_closed_positions strategy_id lg in
  let archived := List.filter (fun p => is_archived p (ro_archive_before o)) rows in
  if ro_write o && ro_overwrite o && negb (ro_allow_archive o) && (match archived with [] => false | _ => true end)
  then Err (ArchiveProtectedError (map lr_id archived))
  else
    let fills := build_fill_index (load_executions strategy_id lg) in
    coverage ← book_check o rows fills;
    processed ← process_rows o fills rows;
    let annotated := changes processed in
    let wrote := ro_write o && (0 <? annotated) in
    Ok ({| rr_strategy_id := Some strategy_id; rr_trips := map (fun x => snd (fst x)) processed; rr_annotated := annotated; rr_wrote := wrote;
           rr_coverage := coverage |},
        if wrote then commit lg (map (fun x => fst (fst x)) processed) else lg).

(** ** The scheduled scan *)

Definition unrecorded (since : datetime) (p : ledger_row) : bool :=
  closed_row p && absent (lr_final_pnl p) && opt_is (fun c => since <=? c) (lr_closed_at p).

Definition load_unrecorded_closed_positions (since : datetime) (lg : ledger) : list ledger_row :=
  sort_stable (fun p q => default 0 (lr_closed_at q) <? default 0 (lr_closed_at p)) (List.filter (unrecorded since) (lg_positions lg)).

(** Each position against its own strategy's fills, without a trade book. *)
Fixpoint plan_reconciliation (index : uuid -> gmap uuid FillInfo) (segment : string) (rows : list ledger_row) : result rec_error (list RoundTrip) :=
  match rows with
  | [] => Ok []
  | p :: rows' =>
      t ← reconcile_position p (index (lr_strategy_id p)) segment None None;
      rest ← plan_reconciliation index segment rows';
      Ok (t :: rest)
  end.

Definition reconcile_unrecorded (since : datetime) (write : bool) (segment : string) (lg : ledger) : result rec_error (ReconcileResult * ledger) :=
  let rows := load_unrecorded_closed_positions since lg in
  trips ← plan_reconciliation (fun sid => build_fill_index (load_executions sid lg)) segment rows;
  let written := if write then map (fun pt => let '(p', c) := apply_write (fst pt) (snd pt) false in (p', snd pt, c)) (combine rows trips) else [] in
  let annotated := changes written in
  let wrote := write && (0 <? annotated) in
  Ok ({| rr_strategy_id := None; rr_trips := trips; rr_annotated := annotated; rr_wrote := wrote; rr_coverage := None |},
      if wrote then commit lg (map (fun x => fst (fst x)) written) else lg).
End Runs.
