(* ===== verification/PnlSafety.v ===== *)
(** * What the P&L reconciler may write

    A run over a strategy is a function of each row on its own
    ([reconcile_strategy_rowwise]); from it follow what a written amount is
    ([published_pnl_sound]), which rows a run leaves alone ([settled_rows_kept]), that a
    second run changes nothing ([reconcile_idempotent]), and that the scheduled scan,
    which has no trade book, never prices a live trade ([scan_never_prices_live]).  A
    book that passes the check holds every filled order of the bot ([coverage_sound]). *)

From Stdlib Require Import ZArith Lia List Bool Ascii String.
From stdpp Require Import base list strings gmap.
From S2P Require Import Prelude PyText PyFloat PyDecimal PyNum Records Enums Models Calendar Attribution StrategyWebhook StrategyGate TradeDna.
From S2P Require Import OptionOrder DhanBroker TradeBook PnlReconciler.

(** ** One write *)

Lemma ok_inj {X A : Type} (a b : A) : @Ok X A a = Ok b -> a = b.
Proof. by intros [= ->]. Qed.

(** The same trade: only what the reconciler writes may differ. *)
Definition same_trade (p q : ledger_row) : Prop :=
  q = p <| lr_final_pnl := lr_final_pnl q |> <| lr_attribution := lr_attribution q |> <| lr_detail := lr_detail q |>.

Lemma deqb_refl a : deqb a a = true.
Proof. unfold deqb. apply Z.eqb_refl. Qed.

Lemma same_trade_refl p : same_trade p p.
Proof. by destruct p. Qed.

Lemma write_pnl_same p t ow : same_trade p (fst (write_pnl p t ow)).
Proof.
  unfold write_pnl. destruct (if writable t then rt_net t else None).
  - destruct (_ && _); [by destruct p | apply same_trade_refl].
  - destruct (lr_final_pnl p); [|apply same_trade_refl]. destruct (_ && _); [by destruct p | apply same_trade_refl].
Qed.

Lemma apply_write_same p t ow : same_trade p (fst (apply_write p t ow)).
Proof.
  unfold apply_write. pose proof (write_pnl_same p t ow) as Hs. destruct (write_pnl p t ow) as [p1 c]. cbn [fst] in *.
  destruct (_ && _); [|done]. unfold same_trade in *. rewrite Hs. by destruct p.
Qed.

Lemma write_pnl_none p t ow p1 : write_pnl p t ow = (p1, None) -> p1 = p.
Proof. unfold write_pnl. repeat case_match; by intros [= <-]. Qed.

(** A write that reports no change changes nothing. *)
Lemma apply_write_none p t ow p' : apply_write p t ow = (p', None) -> p' = p.
Proof.
  unfold apply_write. destruct (write_pnl p t ow) as [p1 c] eqn:E. destruct (_ && _); [by destruct c|].
  intros [= <- ->]. by eapply write_pnl_none.
Qed.

(** The amount after a write. *)
Lemma apply_write_pnl p t ow : lr_final_pnl (fst (apply_write p t ow)) = lr_final_pnl (fst (write_pnl p t ow)).
Proof. unfold apply_write. destruct (write_pnl p t ow). by destruct (_ && _). Qed.

(** A new amount is the net of a writable trip, on an empty row or under overwrite. *)
Lemma write_pnl_new p t ow v :
  lr_final_pnl (fst (write_pnl p t ow)) = Some v -> lr_final_pnl p <> Some v ->
  writable t = true /\ rt_net t = Some v /\ (lr_final_pnl p = None \/ ow = true).
Proof.
  unfold write_pnl. destruct (writable t); [destruct (rt_net t) as [net|]|]; intros Hv Hn.
  - destruct (_ && _) eqn:E; cbn in Hv; [|done]. injection Hv as <-. split_and!; [done..|].
    destruct (lr_final_pnl p); cbn in E; [right | by left]. by destruct ow.
  - destruct (lr_final_pnl p) eqn:Ep; [destruct (_ && _)|]; cbn in Hv; congruence.
  - destruct (lr_final_pnl p) eqn:Ep; [destruct (_ && _)|]; cbn in Hv; congruence.
Qed.

(** Without overwrite a recorded amount stays. *)
Lemma write_pnl_keeps p t v : lr_final_pnl p = Some v -> fst (write_pnl p t false) = p.
Proof. intros Ev. unfold write_pnl. rewrite Ev. by destruct (if writable t then rt_net t else None). Qed.

Lemma write_pnl_idem p t ow : write_pnl (fst (write_pnl p t ow)) t ow = (fst (write_pnl p t ow), None).
Proof.
  unfold write_pnl at 2 3. destruct (if writable t then rt_net t else None) as [net|] eqn:En.
  - destruct (_ && _) eqn:E; cbn [fst]; unfold write_pnl; rewrite En; [cbn; by rewrite deqb_refl, andb_false_r | by rewrite E].
  - destruct (lr_final_pnl p) as [v|] eqn:Ep; cbn [fst]; unfold write_pnl.
    + destruct (_ && _) eqn:E; cbn [fst]; rewrite En; [done|]. by rewrite Ep, E.
    + by rewrite En, Ep.
Qed.

(** The second write of a trip changes nothing. *)
Lemma apply_write_idem p t ow : apply_write (fst (apply_write p t ow)) t ow = (fst (apply_write p t ow), None).
Proof.
  unfold apply_write at 2 3. pose proof (write_pnl_idem p t ow) as Hi. destruct (write_pnl p t ow) as [p1 c] eqn:Ew. cbn [fst] in Hi.
  destruct (_ && _) eqn:E; cbn [fst]; unfold apply_write.
  - assert (Hw : forall g d, write_pnl (p1 <| lr_attribution := g |> <| lr_detail := d |>) t ow = (p1 <| lr_attribution := g |> <| lr_detail := d |>, None)).
    { intros g d. unfold write_pnl in Hi |- *. cbn. destruct (if writable t then rt_net t else None).
      - destruct (_ && _); [|done]. injection Hi as Hi. done.
      - destruct (lr_final_pnl p1); [|done]. destruct (_ && _); [|done]. done. }
    rewrite Hw. cbn. by rewrite !bool_decide_eq_true_2, andb_false_r.
  - rewrite Hi, E. done.
Qed.

(** ** Lists of rows *)

Lemma sort_stable_map {A B : Type} (bf : A -> A -> bool) (bf' : B -> B -> bool) (u : A -> B) l :
  (forall x y, bf' (u x) (u y) = bf x y) -> sort_stable bf' (map u l) = map u (sort_stable bf l).
Proof.
  intros Hb. assert (Hi : forall x l, insert_sorted bf' (u x) (map u l) = map u (insert_sorted bf x l)).
  { intros x l'. induction l' as [|y l' IH]; cbn; [done|]. rewrite Hb. destruct (bf x y); cbn; [by rewrite IH | done]. }
  induction l as [|x l IH]; cbn; [done|]. unfold sort_stable in IH. by rewrite IH, Hi.
Qed.

Lemma insert_sorted_In {A : Type} (bf : A -> A -> bool) x l y : In y (insert_sorted bf x l) <-> y = x \/ In y l.
Proof. induction l as [|z l IH]; cbn; [intuition|]. destruct (bf x z); cbn; rewrite ?IH; intuition. Qed.

Lemma sort_stable_In {A : Type} (bf : A -> A -> bool) l y : In y (sort_stable bf l) <-> In y l.
Proof. induction l as [|x l IH]; cbn; [done|]. unfold sort_stable in IH. rewrite insert_sorted_In, IH. intuition. Qed.

Lemma filter_map_comm {A B : Type} (f : B -> bool) (g : A -> bool) (u : A -> B) l :
  (forall x, f (u x) = g x) -> List.filter f (map u l) = map u (List.filter g l).
Proof. intros Hf. induction l as [|x l IH]; cbn; [done|]. rewrite Hf. destruct (g x); cbn; by rewrite IH. Qed.

(** A primary key. *)
Definition keyed (rows : list ledger_row) : Prop := List.NoDup (map lr_id rows).

Lemma keyed_eq rows p q : keyed rows -> In p rows -> In q rows -> lr_id p = lr_id q -> p = q.
Proof.
  unfold keyed. induction rows as [|r rows IH]; cbn; [done|]. intros Hn. inversion Hn as [|? ? Hr Hk]; subst.
  intros [-> | Hp] [-> | Hq] He; [done | | |by apply IH].
  - exfalso. apply Hr. rewrite He. by apply in_map.
  - exfalso. apply Hr. rewrite <- He. by apply in_map.
Qed.

(** Saving rows computed by [u] from the rows that [sel] selects. *)
Lemma save_rows_map rows chosen (sel : ledger_row -> bool) (u : ledger_row -> ledger_row) :
  keyed rows -> (forall p, In p chosen <-> In p rows /\ sel p = true) -> (forall p, lr_id (u p) = lr_id p) ->
  save_rows rows (map u chosen) = map (fun p => if sel p then u p else p) rows.
Proof.
  intros Hk Hc Hu. unfold save_rows. apply map_ext_in. intros p Hp.
  destruct (find _ _) as [v|] eqn:Ef; cbn [default].
  - apply find_some in Ef as [Hin Hid]. apply Z.eqb_eq in Hid. apply in_map_iff in Hin as (q & <- & Hq).
    rewrite Hu in Hid. apply Hc in Hq as [Hq Hs]. rewrite (keyed_eq rows q p Hk Hq Hp Hid) in *. by rewrite Hs.
  - destruct (sel p) eqn:Hs; [|done]. exfalso. pose proof (find_none _ _ Ef (u p)) as Hn. cbn in Hn.
    rewrite Hu, Z.eqb_refl in Hn. discriminate Hn. apply in_map. by apply Hc.
Qed.

Section Run.
Context `{Coercion}.

(** ** A run is row by row *)

(** What a run makes of a row. *)
Definition row_after (strategy_id : uuid) (o : run_options) (fills : gmap uuid FillInfo) (p : ledger_row) : ledger_row :=
  if own_closed strategy_id p && ro_write o && negb (is_archived p (ro_archive_before o) && negb (ro_allow_archive o))
  then match reconcile_position p fills (ro_segment o) (ro_book o) (ro_engine_ids o) with
       | Ok t => fst (apply_write p t (ro_overwrite o))
       | Err _ => p
       end
  else p.

Definition strategy_fills (strategy_id : uuid) (lg : ledger) : gmap uuid FillInfo := build_fill_index (load_executions strategy_id lg).

Lemma row_after_same sid o fills p : same_trade p (row_after sid o fills p).
Proof. unfold row_after. repeat case_match; try apply same_trade_refl. apply apply_write_same. Qed.

Lemma row_step_spec sid o fills p p' t c :
  own_closed sid p = true -> row_step o fills p = Ok (p', t, c) ->
  reconcile_position p fills (ro_segment o) (ro_book o) (ro_engine_ids o) = Ok t
  /\ p' = row_after sid o fills p /\ (c = None -> p' = p) /\ (ro_write o = false -> p' = p).
Proof.
  intros Hs E. unfold row_step in E. apply res_bind_ok in E as (t' & Et & E). unfold row_after. rewrite Hs, Et. cbn [andb].
  destruct (ro_write o); cbn [negb andb] in *; [|by injection E as <- <- <-].
  destruct (_ && _); cbn [negb]; [by injection E as <- <- <-|].
  destruct (apply_write p t' (ro_overwrite o)) as [p1 c1] eqn:Ea. injection E as <- <- <-. split_and!; try done.
  intros ->. by eapply apply_write_none.
Qed.

Lemma process_rows_forall o fills rows out :
  process_rows o fills rows = Ok out -> Forall2 (fun p x => row_step o fills p = Ok x) rows out.
Proof.
  revert out. induction rows as [|p rows IH]; intros out; cbn [process_rows]; [intros [= <-]; constructor|].
  intros E. apply res_bind_ok in E as (x & Ex & E). apply res_bind_ok in E as (rest & Er & E). injection E as <-. constructor; auto.
Qed.

Lemma process_rows_ok o fills rows out :
  Forall2 (fun p x => row_step o fills p = Ok x) rows out -> process_rows o fills rows = Ok out.
Proof. induction 1 as [|p x rows out Ex _ IH]; cbn [process_rows]; [done|]. rewrite Ex. cbn. by rewrite IH. Qed.

Lemma load_closed_In sid lg p : In p (load_closed_positions sid lg) <-> In p (lg_positions lg) /\ own_closed sid p = true.
Proof. unfold load_closed_positions. by rewrite sort_stable_In, filter_In. Qed.

(** The rows the loop leaves behind, and that nothing changed when nothing counts. *)
Lemma process_rows_after sid o fills rows out :
  Forall (fun p => own_closed sid p = true) rows -> process_rows o fills rows = Ok out ->
  map (fun x => fst (fst x)) out = map (row_after sid o fills) rows
  /\ (changes out = 0 \/ ro_write o = false -> Forall (fun p => row_after sid o fills p = p) rows).
Proof.
  intros Hs E. apply process_rows_forall in E. induction E as [|p [[p' t] c] rows out Ex _ IH]; [done|].
  inversion Hs as [|? ? Hp Hr]; subst. destruct (IH Hr) as [IH1 IH2].
  destruct (row_step_spec sid o fills p p' t c Hp Ex) as (_ & Hp' & Hc & Hw). split.
  - cbn. by rewrite Hp', IH1.
  - intros Hz. assert (Hz' : (c = None \/ ro_write o = false) /\ (changes out = 0 \/ ro_write o = false)).
    { destruct Hz as [Hz | Hz]; [|by split; right]. unfold changes in Hz. cbn in Hz. destruct c; cbn in Hz; [lia|]. by split; left. }
    destruct Hz' as [[Hc' | Hw'] Ho]; (constructor; [rewrite <- Hp'; auto | by apply IH2]).
Qed.

Lemma rowwise sid o lg r lg' :
  keyed (lg_positions lg) -> reconcile_strategy sid o lg = Ok (r, lg') ->
  lg_positions lg' = map (row_after sid o (strategy_fills sid lg)) (lg_positions lg)
  /\ lg_executions lg' = lg_executions lg /\ lg_signals lg' = lg_signals lg.
Proof.
  intros Hk E. unfold reconcile_strategy in E. destruct (_ && _ && _ && _); [done|]. apply res_bind_ok in E as (cov & Ec & E).
  apply res_bind_ok in E as (out & Eo & E). cbv zeta in E. injection E as <- <-. change (build_fill_index _) with (strategy_fills sid lg) in Eo.
  destruct (process_rows_after sid o (strategy_fills sid lg) (load_closed_positions sid lg) out) as [Hm Hz]; [|done|].
  { apply List.Forall_forall. intros p Hp. apply load_closed_In in Hp. apply Hp. }
  assert (Hsel : forall p, own_closed sid p = false -> row_after sid o (strategy_fills sid lg) p = p) by (intros p Hp; unfold row_after; by rewrite Hp).
  destruct (ro_write o && _) eqn:Ew.
  - cbn. split_and!; [|done..]. rewrite Hm, (save_rows_map _ _ (own_closed sid)); [|done|apply load_closed_In|].
    + apply map_ext. intros p. destruct (own_closed sid p) eqn:Hp; [done | by rewrite Hsel].
    + intros p. by rewrite (row_after_same sid o (strategy_fills sid lg) p).
  - split_and!; [|done..]. rewrite <- (map_id (lg_positions lg)) at 1. apply map_ext_in. intros p Hp.
    destruct (own_closed sid p) eqn:Hs; [|by rewrite Hsel].
    assert (Hq : changes out = 0 \/ ro_write o = false).
    { destruct (ro_write o); [left | by right]. cbn in Ew. apply Z.ltb_ge in Ew. unfold changes in *. lia. }
    specialize (Hz Hq). rewrite List.Forall_forall in Hz. symmetry. apply Hz. by apply load_closed_In.
Qed.

(** C38: a run is row by row.  Whatever order the positions are loaded in and however the
    session writes them back, a run that ends without error leaves exactly the table in
    which every row was rewritten on its own: the owner's closed rows of the strategy,
    outside the protected archive and in write mode, by the trip reconstructed for that
    row, all others kept. *)
Theorem reconcile_strategy_rowwise sid o lg r lg' :
  keyed (lg_positions lg) -> reconcile_strategy sid o lg = Ok (r, lg') ->
  lg_positions lg' = map (row_after sid o (strategy_fills sid lg)) (lg_positions lg)
  /\ lg_executions lg' = lg_executions lg /\ lg_signals lg' = lg_signals lg.
Proof. apply rowwise. Qed.

(** ** What a trip may publish *)

Lemma apply_write_tag p t ow g : rt_tag t = Some g -> lr_attribution (fst (apply_write p t ow)) = Some g.
Proof.
  intros Hg. unfold apply_write. destruct (write_pnl p t ow) as [p1 c]. rewrite Hg. cbn [absent negb andb].
  case_bool_decide as Ha; cbn [negb orb]; [|done]. case_bool_decide; cbn; [by rewrite Ha | done].
Qed.

(** The strict part decides nothing about attribution. *)
Lemma strict_trip_blank p fills segment t :
  strict_trip p fills segment = Ok t ->
  rt_attribution t = None /\ rt_tag t = None /\ rt_position_qty t = lr_total_quantity p
  /\ (forall v, rt_net t = Some v -> exists gross costs, rt_gross t = Some gross /\ rt_costs t = Some costs /\ v = dsub gross (cb_total costs)).
Proof.
  unfold strict_trip. intros E. apply res_bind_ok in E as (costs & _ & E). apply ok_inj in E as <-. cbn. split_and!; try done.
  intros v. destruct (_ && _); [|done]. cbn. destruct costs as [c|]; [|done]. intros [= <-]. eauto.
Qed.

(** Without a book a live trip is left alone. *)
Lemma live_without_book p fills segment engine t :
  reconcile_position p fills segment None engine = Ok t -> existsb is_live (trip_fills p fills) = true ->
  forall ow, fst (apply_write p t ow) = p.
Proof.
  unfold reconcile_position. intros E Hl. apply res_bind_ok in E as (t0 & Es & E). apply strict_trip_blank in Es as (Ha & Hg & _ & _).
  unfold classify_trip in E. rewrite Hl in E. cbn in E. injection E as <-. intros ow. unfold apply_write, write_pnl.
  assert (Hw : writable (t0 <| rt_live := true |> <| rt_flags := rt_flags t0 ++ [AttributionRequired] |>) = false).
  { unfold writable. cbn. rewrite Ha. cbn. destruct (_ || _); [done|]. by case_bool_decide. }
  cbn in Hw |- *. rewrite Hw, Hg. cbn.
  destruct (lr_final_pnl p); [|done]. by rewrite andb_false_r.
Qed.

(** A paper trip: its own simulated fills, less the estimated charges. *)
Lemma paper_trip p fills segment engine t v :
  reconcile_position p fills segment None engine = Ok t -> writable t = true -> rt_net t = Some v ->
  existsb is_live (trip_fills p fills) = false /\ rt_tag t = Some TAG_PAPER_SIM
  /\ exists gross costs, rt_gross t = Some gross /\ rt_costs t = Some costs /\ v = dsub gross (cb_total costs).
Proof.
  unfold reconcile_position. intros E Hw Hv. apply res_bind_ok in E as (t0 & Es & E). apply strict_trip_blank in Es as (Ha & Hg & _ & Hn).
  unfold classify_trip in E. destruct (existsb is_live _) eqn:Hl.
  - exfalso. cbn in E. injection E as <-. unfold writable in Hw. cbn in Hw. rewrite Ha in Hw. destruct (_ || _); [done|]. by case_bool_decide.
  - cbn in E. destruct (rt_complete t0) eqn:Hc.
    + injection E as <-. split_and!; [done..|]. by apply Hn.
    + exfalso. injection E as <-. unfold writable in Hw. cbn in Hw. by rewrite Hc in Hw.
Qed.

(** A trip priced from the account's book: the bot's own round trip, what it earned less
    what the broker billed, for the quantity of the position. *)
Definition billed_trip (p : ledger_row) (fills : gmap uuid FillInfo) (engine : option (list string)) (book : list AccountFill) (v : dec) : Prop :=
  exists a gross billed,
    attribute (entry_order_ids p fills) book (bot_order_ids fills engine) = Ok a
    /\ round_trip (entry_order_ids p fills) (bot_order_ids fills engine) (sorted_fills book) a
    /\ gross_pnl a = Some gross /\ billed_charges a = Some billed /\ v = dsub gross billed
    /\ total_qty (exit_fills a) = lr_total_quantity p.

Lemma book_trip p fills segment engine book t v :
  Forall (fun f => 0 <= qty f) book -> reconcile_position p fills segment (Some book) engine = Ok t -> writable t = true -> rt_net t = Some v ->
  billed_trip p fills engine book v /\ rt_tag t = Some TAG_BOT_ONLY.
Proof.
  unfold reconcile_position. intros Hq E Hw Hv. apply res_bind_ok in E as (t0 & Es & E). apply strict_trip_blank in Es as (_ & _ & Hp & _).
  unfold classify_trip in E. cbn -[attribute] in E. destruct (attribute _ _ _) as [a|e] eqn:Ea; [|done].
  destruct (priced a) eqn:Hpr; cycle 1.
  { exfalso. injection E as <-. unfold writable in Hw. cbn in Hw. done. }
  destruct (attribute_tag_gross _ _ _ _ Ea) as (_ & Htag & _).
  assert (Hbot : tag a = TAG_BOT_ONLY).
  { unfold priced in Hpr. destruct Htag as [-> | [Ht | [Ht | Ht]]]; [done|..]; by rewrite Ht in Hpr. }
  unfold account_priced in E. destruct (entry_fills a) as [|e0 es] eqn:Ee; [done|]. destruct (gross_pnl a) as [gross|] eqn:Eg; [|done].
  destruct (entry_qty a =? 0); [done|]. injection E as <-. cbn in Hv, Hw. destruct (billed_charges a) as [billed|] eqn:Eb; [|done].
  injection Hv as <-. split; [|cbn; by rewrite Hbot]. exists a, gross, billed. split_and!; try done.
  - by apply bot_only_round_trip.
  - unfold writable in Hw. cbn in Hw. rewrite Hp in Hw. destruct (total_qty (exit_fills a) =? lr_total_quantity p) eqn:Et; [lia | done].
Qed.

Lemma row_after_new sid o fills p v :
  lr_final_pnl (row_after sid o fills p) = Some v -> lr_final_pnl p <> Some v ->
  own_closed sid p = true /\ ro_write o = true /\ (lr_final_pnl p = None \/ ro_overwrite o = true)
  /\ exists t, reconcile_position p fills (ro_segment o) (ro_book o) (ro_engine_ids o) = Ok t /\ writable t = true /\ rt_net t = Some v
     /\ forall g, rt_tag t = Some g -> lr_attribution (row_after sid o fills p) = Some g.
Proof.
  unfold row_after. destruct (own_closed sid p); cbn [andb]; [|done]. destruct (ro_write o); cbn [andb]; [|done].
  destruct (negb _); [|done]. destruct (reconcile_position _ _ _ _ _) as [t|]; [|done]. intros Hv Hn. rewrite apply_write_pnl in Hv.
  destruct (write_pnl_new _ _ _ _ Hv Hn) as (Hw & Hnet & Hr). split_and!; [done..|]. exists t. split_and!; [done..|]. intros g. apply apply_write_tag.
Qed.

(** The book was attested and passed the check. *)
Definition attested (sid : uuid) (o : run_options) (lg : ledger) (book : list AccountFill) : Prop :=
  exists day, ro_covers_from o = Some day
    /\ coverage_ok (check_book_coverage (load_closed_positions sid lg) (strategy_fills sid lg) book day) = true.

Lemma run_attested sid o lg r lg' book :
  reconcile_strategy sid o lg = Ok (r, lg') -> ro_write o = true -> ro_book o = Some book -> attested sid o lg book.
Proof.
  unfold reconcile_strategy. intros E Hw Hb. destruct (_ && _ && _ && _); [done|]. apply res_bind_ok in E as (cov & Ec & _).
  unfold book_check in Ec. rewrite Hb, Hw in Ec. destruct (ro_covers_from o) as [day|] eqn:Hd; [|done]. cbn in Ec.
  destruct (coverage_ok _) eqn:Ho; [|done]. by exists day.
Qed.

Lemma row_of_run sid o lg r lg' i p p' :
  keyed (lg_positions lg) -> reconcile_strategy sid o lg = Ok (r, lg') ->
  lg_positions lg !! i = Some p -> lg_positions lg' !! i = Some p' -> p' = row_after sid o (strategy_fills sid lg) p.
Proof.
  intros Hk E Hp Hp'. destruct (rowwise sid o lg r lg' Hk E) as [Hm _]. rewrite Hm in Hp'.
  rewrite list_lookup_fmap, Hp in Hp'. by injection Hp' as <-.
Qed.

Lemma published_sound sid o lg r lg' i p p' v :
  keyed (lg_positions lg) -> (forall book, ro_book o = Some book -> Forall (fun f => 0 <= qty f) book) ->
  reconcile_strategy sid o lg = Ok (r, lg') -> lg_positions lg !! i = Some p -> lg_positions lg' !! i = Some p' ->
  lr_final_pnl p' = Some v -> lr_final_pnl p <> Some v ->
  own_closed sid p = true /\ (lr_final_pnl p = None \/ ro_overwrite o = true)
  /\ match ro_book o with
     | Some book =>
         attested sid o lg book /\ billed_trip p (strategy_fills sid lg) (ro_engine_ids o) book v /\ lr_attribution p' = Some TAG_BOT_ONLY
     | None =>
         existsb is_live (trip_fills p (strategy_fills sid lg)) = false /\ lr_attribution p' = Some TAG_PAPER_SIM
         /\ exists t gross costs, reconcile_position p (strategy_fills sid lg) (ro_segment o) None (ro_engine_ids o) = Ok t
            /\ rt_gross t = Some gross /\ rt_costs t = Some costs /\ v = dsub gross (cb_total costs)
     end.
Proof.
  intros Hk Hq E Hp Hp' Hv Hn. pose proof (row_of_run _ _ _ _ _ _ _ _ Hk E Hp Hp') as ->.
  destruct (row_after_new _ _ _ _ _ Hv Hn) as (Ho & Hw & Hr & t & Et & Hwr & Hnet & Hg). split_and!; [done..|].
  destruct (ro_book o) as [book|] eqn:Hb.
  - destruct (book_trip _ _ _ _ _ _ _ (Hq book eq_refl) Et Hwr Hnet) as [Hbt Ht].
    split_and!; [by eapply run_attested | done | by apply Hg].
  - destruct (paper_trip _ _ _ _ _ _ Et Hwr Hnet) as (Hl & Ht & gross & costs & Hx). split_and!; [done | by apply Hg|]. by exists t, gross, costs.
Qed.

(** A published P&L is real money.  When a run puts an amount on a row that did not
    have it, the row is the owner's closed row of the strategy, empty before or under
    overwrite; and with a trade book, which then was attested and covers the run, the
    amount is the gross of the bot's own round trip in the account's book less what the
    broker billed for each of its fills, for exactly the position's quantity, and the row
    is tagged bot_only.  Without a book the row has no live fill, the amount is the gross
    of its simulated fills less the estimated charges, and the tag is paper_sim. *)
Theorem published_pnl_sound sid o lg r lg' i p p' v :
  keyed (lg_positions lg) -> (forall book, ro_book o = Some book -> Forall (fun f => 0 <= qty f) book) ->
  reconcile_strategy sid o lg = Ok (r, lg') -> lg_positions lg !! i = Some p -> lg_positions lg' !! i = Some p' ->
  lr_final_pnl p' = Some v -> lr_final_pnl p <> Some v ->
  own_closed sid p = true /\ (lr_final_pnl p = None \/ ro_overwrite o = true)
  /\ match ro_book o with
     | Some book =>
         attested sid o lg book /\ billed_trip p (strategy_fills sid lg) (ro_engine_ids o) book v /\ lr_attribution p' = Some TAG_BOT_ONLY
     | None =>
         existsb is_live (trip_fills p (strategy_fills sid lg)) = false /\ lr_attribution p' = Some TAG_PAPER_SIM
         /\ exists t gross costs, reconcile_position p (strategy_fills sid lg) (ro_segment o) None (ro_engine_ids o) = Ok t
            /\ rt_gross t = Some gross /\ rt_costs t = Some costs /\ v = dsub gross (cb_total costs)
     end.
Proof. apply published_sound. Qed.

Lemma kept_rows sid o lg r lg' i p p' :
  keyed (lg_positions lg) -> reconcile_strategy sid o lg = Ok (r, lg') -> lg_positions lg !! i = Some p -> lg_positions lg' !! i = Some p' ->
  same_trade p p'
  /\ (ro_write o = false \/ own_closed sid p = false
      \/ is_archived p (ro_archive_before o) = true /\ ro_allow_archive o = false
      \/ ro_book o = None /\ existsb is_live (trip_fills p (strategy_fills sid lg)) = true -> p' = p)
  /\ (forall v, ro_overwrite o = false -> lr_final_pnl p = Some v -> lr_final_pnl p' = Some v)
  /\ (ro_write o = true -> ro_overwrite o = true -> ro_allow_archive o = false -> own_closed sid p = true ->
      is_archived p (ro_archive_before o) = false).
Proof.
  intros Hk E Hp Hp'. pose proof (row_of_run _ _ _ _ _ _ _ _ Hk E Hp Hp') as ->. split_and!.
  - apply row_after_same.
  - unfold row_after. intros [-> | [-> | [[-> ->] | [Hb Hl]]]]; cbn; rewrite ?andb_false_r; [done..|].
    destruct (_ && _ && _); [|done]. destruct (reconcile_position _ _ _ _ _) as [t|] eqn:Et; [|done]. rewrite Hb in Et.
    by eapply live_without_book.
  - intros v Ho Hv. unfold row_after. destruct (_ && _ && _); [|done]. destruct (reconcile_position _ _ _ _ _) as [t|]; [|done].
    rewrite Ho, apply_write_pnl, (write_pnl_keeps p t v) by done. done.
  - intros Hw Hov Ha Hs. unfold reconcile_strategy in E. rewrite Hw, Hov, Ha in E. cbn [andb negb] in E.
    destruct (is_archived p (ro_archive_before o)) eqn:Hx; [|done]. exfalso.
    assert (Hin : In p (List.filter (fun p => is_archived p (ro_archive_before o)) (load_closed_positions sid lg))).
    { apply filter_In. split; [|done]. apply load_closed_In. split; [|done]. apply list_elem_of_In. by eapply list_elem_of_lookup_2. }
    destruct (List.filter _ _); [done|]. done.
Qed.

(** Settled rows are kept.  A run only ever writes the amount, the tag and its
    detail.  It leaves a row exactly as it was in a dry run, when the row is another
    strategy's, a subscriber's or still open, when it belongs to the archive and rewriting
    it was not allowed, and when it has live fills but there is no trade book; without
    overwrite a recorded amount stays; and overwrite refuses to start on a strategy with
    archived rows. *)
Theorem settled_rows_kept sid o lg r lg' i p p' :
  keyed (lg_positions lg) -> reconcile_strategy sid o lg = Ok (r, lg') -> lg_positions lg !! i = Some p -> lg_positions lg' !! i = Some p' ->
  same_trade p p'
  /\ (ro_write o = false \/ own_closed sid p = false
      \/ is_archived p (ro_archive_before o) = true /\ ro_allow_archive o = false
      \/ ro_book o = None /\ existsb is_live (trip_fills p (strategy_fills sid lg)) = true -> p' = p)
  /\ (forall v, ro_overwrite o = false -> lr_final_pnl p = Some v -> lr_final_pnl p' = Some v)
  /\ (ro_write o = true -> ro_overwrite o = true -> ro_allow_archive o = false -> own_closed sid p = true ->
      is_archived p (ro_archive_before o) = false).
Proof. apply kept_rows. Qed.

(** ** Running twice *)

(** What the reconciler reads of a row does not depend on what it writes. *)
Lemma same_trade_reads p q :
  same_trade p q ->
  (forall fills segment book engine, reconcile_position q fills segment book engine = reconcile_position p fills segment book engine)
  /\ (forall sid, own_closed sid q = own_closed sid p) /\ lr_opened_at q = lr_opened_at p /\ lr_id q = lr_id p
  /\ (forall fills, live_orders fills q = live_orders fills p) /\ lr_closed_at q = lr_closed_at p.
Proof. intros ->. by split_and!. Qed.

Lemma check_book_coverage_same rows fills book day (u : ledger_row -> ledger_row) :
  (forall p, same_trade p (u p)) -> check_book_coverage (map u rows) fills book day = check_book_coverage rows fills book day.
Proof.
  intros Hu.
  assert (Hc : forall p, contracts_of fills book (u p) = contracts_of fills book p).
  { intros p. destruct (same_trade_reads _ _ (Hu p)) as (_ & _ & _ & _ & Hl & _). unfold contracts_of. by rewrite Hl. }
  assert (Ht : traded_contracts fills book (map u rows) = traded_contracts fills book rows).
  { unfold traded_contracts. by rewrite map_map, (map_ext _ _ Hc). }
  assert (Ho : forall p, mjoin (map (order_problems book (u p)) (live_orders fills (u p))) = mjoin (map (order_problems book p) (live_orders fills p))).
  { intros p. destruct (same_trade_reads _ _ (Hu p)) as (_ & _ & _ & Hid & Hl & _). rewrite Hl. f_equal. apply map_ext.
    intros o. unfold order_problems. by rewrite Hid. }
  assert (He : forall p, end_problem fills book (u p) = end_problem fills book p).
  { intros p. destruct (same_trade_reads _ _ (Hu p)) as (_ & _ & _ & Hid & _ & Hcl). unfold end_problem. by rewrite Hc, Hcl, Hid. }
  unfold check_book_coverage. destruct book as [|f book]; [done|]. by rewrite Ht, !map_map, (map_ext _ _ Ho), (map_ext _ _ He).
Qed.

(** A row that was just written is not written again. *)
Lemma row_step_again sid o fills p x :
  own_closed sid p = true -> row_step o fills p = Ok x ->
  row_step o fills (row_after sid o fills p) = Ok (row_after sid o fills p, snd (fst x), None).
Proof.
  intros Hs E. destruct x as [[p' t] c]. destruct (row_step_spec sid o fills p p' t c Hs E) as (Et & _).
  pose proof (row_after_same sid o fills p) as Hsame. destruct (same_trade_reads _ _ Hsame) as (Hrec & _ & Hop & _).
  unfold row_step. rewrite Hrec, Et. unfold is_archived. rewrite Hop. cbn [mbind result_bind]. fold (is_archived p (ro_archive_before o)).
  destruct (ro_write o) eqn:Hw; cbn [negb]; [|done].
  destruct (is_archived p (ro_archive_before o) && negb (ro_allow_archive o)) eqn:Ha; [done|].
  unfold row_after. rewrite Hs, Hw, Ha, Et. cbn [andb negb]. by rewrite apply_write_idem.
Qed.

Definition quiet (x : ledger_row * RoundTrip * option change) : ledger_row * RoundTrip * option change := (fst x, None).

Lemma changes_quiet out : changes (map quiet out) = 0.
Proof. unfold changes. induction out as [|x out IH]; cbn; [done | exact IH]. Qed.

Lemma process_rows_again sid o fills rows out :
  Forall (fun p => own_closed sid p = true) rows -> process_rows o fills rows = Ok out ->
  process_rows o fills (map (row_after sid o fills) rows) = Ok (map quiet out).
Proof.
  intros Hs E. apply process_rows_ok. apply process_rows_forall in E.
  induction E as [|p x rows out Ex _ IH]; cbn [map]; [constructor|]. inversion Hs as [|? ? Hp Hr]; subst. constructor; [|by apply IH].
  destruct x as [[p' t] c]. rewrite (row_step_again sid o fills p _ Hp Ex).
  by destruct (row_step_spec sid o fills p p' t c Hp Ex) as (_ & -> & _).
Qed.

Lemma load_closed_after sid o lg fills :
  load_closed_positions sid {| lg_positions := map (row_after sid o fills) (lg_positions lg); lg_executions := lg_executions lg;
                               lg_signals := lg_signals lg |}
  = map (row_after sid o fills) (load_closed_positions sid lg).
Proof.
  unfold load_closed_positions. cbn. rewrite (filter_map_comm _ (own_closed sid)).
  - apply sort_stable_map. intros p q.
    destruct (same_trade_reads _ _ (row_after_same sid o fills p)) as (_ & _ & -> & _).
    by destruct (same_trade_reads _ _ (row_after_same sid o fills q)) as (_ & _ & -> & _).
  - intros p. by destruct (same_trade_reads _ _ (row_after_same sid o fills p)) as (_ & -> & _).
Qed.

(** Reconciling is idempotent.  A run on the ledger another run left, with the same
    options, ends without error, annotates nothing, commits nothing and reports the same
    trips and the same coverage: the figures a run publishes are stable under every later
    run over the same records. *)
Theorem reconcile_idempotent sid o lg r lg' :
  keyed (lg_positions lg) -> reconcile_strategy sid o lg = Ok (r, lg') ->
  reconcile_strategy sid o lg'
  = Ok ({| rr_strategy_id := rr_strategy_id r; rr_trips := rr_trips r; rr_annotated := 0; rr_wrote := false; rr_coverage := rr_coverage r |}, lg').
Proof.
  intros Hk E. destruct (rowwise sid o lg r lg' Hk E) as (Hm & Hx & Hs).
  assert (Hlg : lg' = {| lg_positions := map (row_after sid o (strategy_fills sid lg)) (lg_positions lg); lg_executions := lg_executions lg;
                         lg_signals := lg_signals lg |}) by (destruct lg'; cbn in *; by subst).
  assert (Hf : load_executions sid lg' = load_executions sid lg) by (unfold load_executions; by rewrite Hx, Hs).
  set (u := row_after sid o (strategy_fills sid lg)) in *. assert (Hu : forall p, same_trade p (u p)) by (intros p; apply row_after_same).
  unfold reconcile_strategy in E |- *. rewrite Hf.
  assert (Hld : load_closed_positions sid lg' = map u (load_closed_positions sid lg)) by (rewrite Hlg; apply load_closed_after).
  rewrite Hld. clear Hld Hlg. cbv zeta in E |- *.
  assert (Ha : List.filter (fun p => is_archived p (ro_archive_before o)) (map u (load_closed_positions sid lg))
               = map u (List.filter (fun p => is_archived p (ro_archive_before o)) (load_closed_positions sid lg))).
  { apply filter_map_comm. intros p. unfold is_archived. by destruct (same_trade_reads _ _ (Hu p)) as (_ & _ & -> & _). }
  assert (Hmt : forall l : list ledger_row, match map u l with [] => false | _ => true end = match l with [] => false | _ => true end) by (by intros []).
  rewrite Ha, Hmt. destruct (ro_write o && ro_overwrite o && _ && _); [done|].
  apply res_bind_ok in E as (cov & Ec & E). apply res_bind_ok in E as (out & Eo & E). cbv zeta in E. injection E as <- _.
  assert (Hc : book_check o (map u (load_closed_positions sid lg)) (build_fill_index (load_executions sid lg)) = Ok cov).
  { rewrite <- Ec. unfold book_check. destruct (ro_book o); [|done]. destruct (ro_covers_from o); [|done]. by rewrite check_book_coverage_same. }
  rewrite Hc. cbn [mbind result_bind].
  assert (Hown : Forall (fun p => own_closed sid p = true) (load_closed_positions sid lg)).
  { apply List.Forall_forall. intros p Hp. apply load_closed_In in Hp. apply Hp. }
  pose proof (process_rows_again sid o (strategy_fills sid lg) _ out Hown Eo) as Hpa.
  change (process_rows o (build_fill_index (load_executions sid lg)) (map u (load_closed_positions sid lg)) = Ok (map quiet out)) in Hpa.
  rewrite Hpa. cbn [mbind result_bind]. cbv zeta.
  rewrite changes_quiet, andb_false_r. cbn. by rewrite map_map.
Qed.

(** ** The scheduled scan *)

Definition scan_after (since : datetime) (write : bool) (segment : string) (lg : ledger) (p : ledger_row) : ledger_row :=
  if unrecorded since p && write
  then match reconcile_position p (strategy_fills (lr_strategy_id p) lg) segment None None with
       | Ok t => fst (apply_write p t false)
       | Err _ => p
       end
  else p.

Lemma plan_forall index segment rows trips :
  plan_reconciliation index segment rows = Ok trips ->
  Forall2 (fun p t => reconcile_position p (index (lr_strategy_id p)) segment None None = Ok t) rows trips.
Proof.
  revert trips. induction rows as [|p rows IH]; intros trips; cbn [plan_reconciliation]; [intros [= <-]; constructor|].
  intros E. apply res_bind_ok in E as (t & Et & E). apply res_bind_ok in E as (rest & Er & E). injection E as <-. constructor; auto.
Qed.

Definition scan_write (pt : ledger_row * RoundTrip) : ledger_row * RoundTrip * option change :=
  let '(p', c) := apply_write (fst pt) (snd pt) false in (p', snd pt, c).

Lemma scan_written since segment lg rows trips :
  Forall (fun p => unrecorded since p = true) rows ->
  Forall2 (fun p t => reconcile_position p (strategy_fills (lr_strategy_id p) lg) segment None None = Ok t) rows trips ->
  map (fun x => fst (fst x)) (map scan_write (combine rows trips)) = map (scan_after since true segment lg) rows
  /\ (changes (map scan_write (combine rows trips)) = 0 -> Forall (fun p => scan_after since true segment lg p = p) rows).
Proof.
  intros Hs E. induction E as [|p t rows trips Et _ IH]; [done|]. inversion Hs as [|? ? Hp Hr]; subst. destruct (IH Hr) as [IH1 IH2].
  assert (Hx : scan_after since true segment lg p = fst (apply_write p t false)) by (unfold scan_after; by rewrite Hp, Et).
  cbn [combine map]. unfold scan_write at 1 3. cbn [fst snd]. destruct (apply_write p t false) as [p' c] eqn:Ea. cbn [fst] in Hx. split.
  - cbn. by rewrite IH1, Hx.
  - unfold changes. cbn. destruct c; cbn; [lia|]. intros Hz. constructor; [|by apply IH2]. rewrite Hx. by eapply apply_write_none.
Qed.

Lemma scan_after_same since write segment lg p : same_trade p (scan_after since write segment lg p).
Proof. unfold scan_after. repeat case_match; try apply same_trade_refl. apply apply_write_same. Qed.

Lemma scan_rowwise since write segment lg r lg' :
  keyed (lg_positions lg) -> reconcile_unrecorded since write segment lg = Ok (r, lg') ->
  lg_positions lg' = map (scan_after since write segment lg) (lg_positions lg).
Proof.
  intros Hk E. unfold reconcile_unrecorded in E. apply res_bind_ok in E as (trips & Et & E). cbv zeta in E. injection E as <- <-.
  assert (Hin : forall p, In p (load_unrecorded_closed_positions since lg) <-> In p (lg_positions lg) /\ unrecorded since p = true).
  { intros p. unfold load_unrecorded_closed_positions. by rewrite sort_stable_In, filter_In. }
  assert (Hsel : forall p, unrecorded since p = false \/ write = false -> scan_after since write segment lg p = p).
  { intros p [Hp | Hw]; unfold scan_after; [by rewrite Hp | by rewrite Hw, andb_false_r]. }
  apply plan_forall in Et. destruct write; cycle 1.
  { cbn. rewrite <- (map_id (lg_positions lg)) at 1. apply map_ext. intros p. symmetry. apply Hsel. by right. }
  destruct (scan_written since segment lg (load_unrecorded_closed_positions since lg) trips) as [Hm Hz]; [|done|].
  { apply List.Forall_forall. intros p Hp. by apply Hin in Hp as [_ Hp]. }
  change (fun pt : ledger_row * RoundTrip => _) with scan_write. cbn [andb]. destruct (0 <? _) eqn:Ew.
  - cbn. rewrite Hm, (save_rows_map _ _ (unrecorded since)); [|done|done|].
    + apply map_ext. intros p. destruct (unrecorded since p) eqn:Hp; [done|]. symmetry. apply Hsel. by left.
    + intros p. by rewrite (scan_after_same since true segment lg p).
  - rewrite <- (map_id (lg_positions lg)) at 1. apply map_ext_in. intros p Hp. symmetry.
    destruct (unrecorded since p) eqn:Hu; [|apply Hsel; by left].
    assert (Hq : changes (map scan_write (combine (load_unrecorded_closed_positions since lg) trips)) = 0) by (unfold changes in *; lia).
    specialize (Hz Hq). rewrite List.Forall_forall in Hz. apply Hz. by apply Hin.
Qed.

(** The scheduled scan never prices real money.  It has no trade book; a position
    with a live fill, one that already has an amount, and one that closed before the
    window stay exactly as they were, and an amount it does write is the simulated gross
    of a paper trade less its estimated charges, tagged paper_sim. *)
Theorem scan_never_prices_live since write segment lg r lg' i p p' :
  keyed (lg_positions lg) -> reconcile_unrecorded since write segment lg = Ok (r, lg') ->
  lg_positions lg !! i = Some p -> lg_positions lg' !! i = Some p' ->
  same_trade p p'
  /\ (existsb is_live (trip_fills p (strategy_fills (lr_strategy_id p) lg)) = true \/ lr_final_pnl p <> None
      \/ opt_is (fun c => since <=? c) (lr_closed_at p) = false \/ write = false -> p' = p)
  /\ (forall v, lr_final_pnl p' = Some v -> lr_final_pnl p <> Some v ->
      lr_attribution p' = Some TAG_PAPER_SIM
      /\ exists t gross costs, reconcile_position p (strategy_fills (lr_strategy_id p) lg) segment None None = Ok t
         /\ rt_gross t = Some gross /\ rt_costs t = Some costs /\ v = dsub gross (cb_total costs)).
Proof.
  intros Hk E Hp Hp'. rewrite (scan_rowwise _ _ _ _ _ _ Hk E), list_lookup_fmap, Hp in Hp'. injection Hp' as <-. split_and!.
  - apply scan_after_same.
  - unfold scan_after, unrecorded. intros [Hl | [Hn | [-> | ->]]]; rewrite ?andb_false_r; [| |done..].
    + destruct (_ && _); [|done]. destruct (reconcile_position _ _ _ _ _) as [t|] eqn:Et; [|done]. by eapply live_without_book.
    + destruct (lr_final_pnl p); [|done]. cbn. by rewrite andb_false_r.
  - unfold scan_after. intros v Hv Hn. destruct (_ && _); [|done]. destruct (reconcile_position _ _ _ _ _) as [t|] eqn:Et; [|done].
    rewrite apply_write_pnl in Hv. destruct (write_pnl_new _ _ _ _ Hv Hn) as (Hw & Hnet & _).
    destruct (paper_trip _ _ _ _ _ _ Et Hw Hnet) as (_ & Ht & gross & costs & Hx). split; [by apply apply_write_tag|]. by exists t, gross, costs.
Qed.

(** ** Coverage *)

Lemma mjoin_map_nil {A B : Type} (f : A -> list B) l : mjoin (map f l) = [] -> forall x, In x l -> f x = [].
Proof.
  induction l as [|y l IH]; cbn; [done|]. intros E. apply app_eq_nil in E as [Ey El]. intros x [<- | Hx]; [done | by apply IH].
Qed.

(** A book that passes the check covers the run.  Every filled order of the bot at
    Dhan is in it, at exactly the quantity Dhan reported as filled; no contract those
    orders traded has its first fill within a day of the attested start; and the book
    does not end before a position it has orders of was closed. *)
Theorem coverage_sound rows fills book day p :
  coverage_ok (check_book_coverage rows fills book day) = true -> In p rows ->
  Forall (fun o => book_rows book (fst o) <> [] /\ (forall n, snd o = Some n -> total_qty (book_rows book (fst o)) = n)) (live_orders fills p)
  /\ (forall c first, In c (contracts_of fills book p) -> head (contract_fills book c) = Some first ->
      String.leb (substring 0 10 (ts first)) (iso_day (day + 1)) = false)
  /\ (forall closed, lr_closed_at p = Some closed -> contracts_of fills book p <> [] -> String.ltb (book_end book) (ist_text closed) = false).
Proof.
  unfold coverage_ok, check_book_coverage. intros Hok Hp. destruct book as [|f0 book0] eqn:Eb; [done|]. rewrite <- Eb in *. clear Eb f0 book0.
  cbn [bc_problems] in Hok. destruct (_ ++ _) eqn:E in Hok; [|done]. clear Hok.
  apply app_eq_nil in E as [E1 E]. apply app_eq_nil in E as [E2 E]. apply app_eq_nil in E as [E3 _]. split_and!.
  - apply List.Forall_forall. intros o Ho. pose proof (mjoin_map_nil _ _ (mjoin_map_nil _ _ E1 p Hp) o Ho) as Hn. unfold order_problems in Hn.
    destruct (book_rows book (fst o)) as [|b bs]; [done|]. split; [done|]. intros n Hs. rewrite Hs in Hn.
    destruct (total_qty (b :: bs) =? n) eqn:Et; [lia | done].
  - intros c first Hc Hf. destruct (last (contract_fills book c)) as [lst|] eqn:Hl.
    + assert (Hin : In c (traded_contracts fills book rows)).
      { unfold traded_contracts. apply list_elem_of_In, elem_of_remove_dups, list_elem_of_In, sort_stable_In. apply list_elem_of_In, list_elem_of_join.
        exists (contracts_of fills book p). rewrite !list_elem_of_In. split; [done | by apply in_map]. }
      assert (Hline : exists line, contract_line book c = Some line /\ cl_first line = first).
      { unfold contract_line. rewrite Hf, Hl. eexists. split; [reflexivity | done]. }
      destruct Hline as (line & Hcl & <-).
      pose proof (mjoin_map_nil _ _ E2 line) as Ho. unfold opening_problem in Ho. destruct (String.leb _ _); [|done]. exfalso.
      discriminate Ho. apply list_elem_of_In, list_elem_of_omap. exists c. by rewrite list_elem_of_In.
    + apply last_None in Hl. by rewrite Hl in Hf.
  - intros closed Hcl Hc. pose proof (mjoin_map_nil _ _ E3 p Hp) as Hn. unfold end_problem in Hn. rewrite Hcl in Hn.
    destruct (contracts_of fills book p); [done|]. by destruct (String.ltb _ _).
Qed.
End Run.

(** ** A ledger *)

#[local] Existing Instance plain_coercion.

(** Signal [n] as the history spells it, for two digits. *)
Definition event (n action : string) (q : Z) : payload := fields
  [("signal_id", JStr (String.append "00000000-0000-0000-0000-0000000000" n)); ("action", JStr action); ("qty", JInt q)]%string.

Definition dhan_fill (sid : uuid) (oid price : string) (q : Z) : ledger_execution :=
  {| le_signal_id := sid; le_subscription_id := None; le_placed_at := 1788500000 + sid; le_broker_order_id := Some oid;
     le_broker_response := Some (fields [("raw", JDict [("orderStatus", JStr "TRADED"); ("averageTradedPrice", JStr price); ("filledQty", JInt q);
                                                       ("orderId", JStr oid); ("correlationId", JStr "strategy-engine")])]%string) |}.

Definition sim_fill (sid : uuid) (key price : string) : ledger_execution :=
  {| le_signal_id := sid; le_subscription_id := None; le_placed_at := 1788500000 + sid; le_broker_order_id := None;
     le_broker_response := Some (fields [("status", JStr "complete"); (key, JStr price)]%string) |}.

(** The trade of [Attribution.Book]: 800 bought as E1, sold as X1 and X2, and closed at
    eleven. *)
Definition live_row (q : Z) (stored : option dec) : ledger_row :=
  {| lr_id := 1; lr_strategy_id := 7; lr_subscription_id := None; lr_symbol := "BSE-SEP2026-FUT"; lr_side := "buy"; lr_total_quantity := q;
     lr_status := st_closed; lr_opened_at := 1788493800; lr_closed_at := Some 1788499800;
     lr_history := [event "65" "entry" 800; event "66" "partial" 300; event "67" "exit" 500]; lr_final_pnl := stored; lr_attribution := None;
     lr_detail := None |}.

Definition sim_row (id : uuid) (subscription : option uuid) : ledger_row :=
  {| lr_id := id; lr_strategy_id := 8; lr_subscription_id := subscription; lr_symbol := "CDSL-SEP2026-FUT"; lr_side := "sell";
     lr_total_quantity := 475; lr_status := st_closed; lr_opened_at := 1788494000; lr_closed_at := Some 1788499000;
     lr_history := [event "c9" "entry" 475; event "ca" "exit" 475]; lr_final_pnl := None; lr_attribution := None; lr_detail := None |}.

Definition records (rows : list ledger_row) : ledger :=
  {| lg_positions := rows;
     lg_executions := [dhan_fill 101 "E1" "2400.08" 800; dhan_fill 102 "X1" "2410" 300; dhan_fill 103 "X2" "2412.5" 500;
                       sim_fill 201 "avg_price" "1210.5"; sim_fill 202 "fill_price" "1204.25"];
     lg_signals := list_to_map [(101, 7); (102, 7); (103, 7); (201, 8); (202, 8)] |}.

Definition run_of (overwrite : bool) : run_options :=
  {| ro_write := true; ro_overwrite := overwrite; ro_allow_archive := false; ro_archive_before := Some 1788000000; ro_segment := DEFAULT_SEGMENT;
     ro_book := Some Attribution.Book.fills; ro_covers_from := ymd_ord 2026 9 1; ro_engine_ids := None |}.

Definition blank_result : ReconcileResult := {| rr_strategy_id := None; rr_trips := []; rr_annotated := 0; rr_wrote := false; rr_coverage := None |}.

Definition outcome_of (x : result rec_error (ReconcileResult * ledger)) (lg : ledger) : ReconcileResult * ledger :=
  match x with Ok y => y | Err _ => (blank_result, lg) end.

Definition live_ledger : ledger := records [live_row 800 None; sim_row 2 None].
Definition live_after : ReconcileResult * ledger := outcome_of (reconcile_strategy 7 (run_of false) live_ledger) live_ledger.

Lemma live_ran : reconcile_strategy 7 (run_of false) live_ledger = Ok (fst live_after, snd live_after).
Proof. vm_compute. reflexivity. Qed.

Lemma live_keyed : keyed (lg_positions live_ledger).
Proof. unfold keyed. cbn. constructor; [by intros [|[]]|]. constructor; [by intros [] | constructor]. Qed.

Lemma reconcile_strategy_rowwise_witness :
  lg_positions (snd live_after) = map (row_after 7 (run_of false) (strategy_fills 7 live_ledger)) (lg_positions live_ledger)
  /\ lg_executions (snd live_after) = lg_executions live_ledger /\ lg_signals (snd live_after) = lg_signals live_ledger.
Proof. exact (reconcile_strategy_rowwise 7 (run_of false) live_ledger (fst live_after) (snd live_after) live_keyed live_ran). Defined.

(** 9190 earned, 1407.40 billed. *)
Definition live_net : dec := Dec 778260 (-2).

Lemma published_pnl_sound_witness :
  billed_trip (live_row 800 None) (strategy_fills 7 live_ledger) None Attribution.Book.fills live_net
  /\ attested 7 (run_of false) live_ledger Attribution.Book.fills.
Proof.
  destruct (published_pnl_sound 7 (run_of false) live_ledger (fst live_after) (snd live_after) 0 (live_row 800 None)
              (row_after 7 (run_of false) (strategy_fills 7 live_ledger) (live_row 800 None)) live_net live_keyed) as (_ & _ & Ha & Hb & _).
  - intros book [= <-]. exact Attribution.Book.fills_nonneg.
  - exact live_ran.
  - reflexivity.
  - vm_compute. reflexivity.
  - vm_compute. reflexivity.
  - discriminate.
  - split; [exact Hb | exact Ha].
Defined.

Lemma settled_rows_kept_witness : lg_positions (snd live_after) !! 1%nat = Some (sim_row 2 None).
Proof.
  destruct (settled_rows_kept 7 (run_of false) live_ledger (fst live_after) (snd live_after) 1 (sim_row 2 None)
              (row_after 7 (run_of false) (strategy_fills 7 live_ledger) (sim_row 2 None)) live_keyed live_ran) as (_ & He & _).
  - reflexivity.
  - vm_compute. reflexivity.
  - rewrite <- (He (or_intror (or_introl eq_refl))). vm_compute. reflexivity.
Defined.

Lemma reconcile_idempotent_witness :
  exists r, reconcile_strategy 7 (run_of false) (snd live_after) = Ok (r, snd live_after) /\ rr_annotated r = 0.
Proof. eexists. split; [exact (reconcile_idempotent 7 (run_of false) live_ledger (fst live_after) (snd live_after) live_keyed live_ran) | reflexivity]. Defined.

Definition scan_result : ReconcileResult * ledger := outcome_of (reconcile_unrecorded 1788400000 true DEFAULT_SEGMENT live_ledger) live_ledger.

Lemma scan_never_prices_live_witness :
  lg_positions (snd scan_result) !! 0%nat = Some (live_row 800 None)
  /\ exists p', lg_positions (snd scan_result) !! 1%nat = Some p' /\ lr_attribution p' = Some TAG_PAPER_SIM.
Proof.
  assert (Hr : reconcile_unrecorded 1788400000 true DEFAULT_SEGMENT live_ledger = Ok (fst scan_result, snd scan_result)) by (vm_compute; reflexivity).
  split.
  - destruct (scan_never_prices_live 1788400000 true DEFAULT_SEGMENT live_ledger (fst scan_result) (snd scan_result) 0 (live_row 800 None)
                (scan_after 1788400000 true DEFAULT_SEGMENT live_ledger (live_row 800 None)) live_keyed Hr) as (_ & He & _);
      [reflexivity | vm_compute; reflexivity|].
    rewrite <- He by (left; vm_compute; reflexivity). vm_compute. reflexivity.
  - exists (scan_after 1788400000 true DEFAULT_SEGMENT live_ledger (sim_row 2 None)). split; [vm_compute; reflexivity | vm_compute; reflexivity].
Defined.

Lemma coverage_sound_witness :
  Forall (fun o => book_rows Attribution.Book.fills (fst o) <> []) [("E1"%string, Some 800); ("X1"%string, Some 300); ("X2"%string, Some 500)].
Proof.
  destruct (coverage_sound [live_row 800 None] (strategy_fills 7 live_ledger) Attribution.Book.fills (default 0 (ymd_ord 2026 9 1)) (live_row 800 None))
    as (He & _).
  - vm_compute. reflexivity.
  - left. reflexivity.
  - exact (Forall_impl _ _ _ He (fun o Ho => proj1 Ho)).
Defined.

(** The scan also reads the rows of marketplace subscribers, and prices them from the
    owner's simulated fills. *)
Example scan_prices_subscriber :
  map (fun r => (lr_subscription_id r, lr_attribution r))
    (lg_positions (snd (outcome_of (reconcile_unrecorded 1788400000 true DEFAULT_SEGMENT (records [sim_row 3 (Some 44)])) (records []))))
  = [(Some 44, Some TAG_PAPER_SIM)].
Proof. vm_compute. reflexivity. Qed.

(** Overwriting a trip whose legs do not balance keeps the stored amount but gives it the
    tag of a priced trip. *)
Example stale_amount_tagged_priced :
  map (fun r => (lr_final_pnl r, lr_attribution r))
    (lg_positions (snd (outcome_of (reconcile_strategy 7 (run_of true) (records [live_row 900 (Some (Dec 5 0))])) (records []))))
  = [(Some (Dec 5 0), Some TAG_BOT_ONLY)].
Proof. vm_compute. reflexivity. Qed.
