(* ===== verification/TruthCheck.v ===== *)
(** * The truth check (backend/app/domains/pnl_reconciler/ingest.py, truth_check.py,
      truth_check_runner.py)

    Every fill's provenance is decided once and stored ([ingest_fills]); twice a day the
    record is compared with the broker: at 15:50 from the order tape and the day's
    quantities ([run_same_day]), the next morning from the settled trade book
    ([run_check]).  A verdict is stored and told once.

    What the broker and the files answer is an argument of the runs.  The text of the
    message and the log are left out: an alert is its level, its check and its day.  A
    time stamp of a fill is kept as text, a phantom position by its id. *)

From Stdlib Require Import ZArith Lia List Bool Ascii String.
From stdpp Require Import base list strings gmap.
From S2P Require Import Prelude PyText PyFloat PyDecimal PyNum Records Enums Models Calendar Attribution PineMapper StrategyWebhook StrategyGate TradeDna.
From S2P Require Import OptionOrder DhanBroker TradeBook PnlReconciler.

(** ** Ingest *)

Definition MANUAL_PLATFORM : string := "FAST".

(** A row of broker_fill_provenance. *)
Record prov_row : Type := {
  pv_security_id : string;
  pv_side : string;
  pv_quantity : Z;
  pv_price : dec;
  pv_filled_at : string;
  pv_platform : option string;
  pv_provenance : provenance_kind;
  pv_parent : option string;
  pv_correlation : option string;
  pv_charges : option dec
}.

Abbreviation prov_table := (gmap string prov_row).

Definition in_ids (ids : list string) (o : option string) : bool := opt_is (fun s => one_of s ids) o.

(** A claim beats the platform, a claimed parent claims its child, only FAST is manual. *)
Definition classify (oid : string) (prov : option OrderProvenance) (ledger_order_ids : list string) : provenance_kind :=
  if one_of oid ledger_order_ids then Bot
  else match prov with
       | Some r =>
           if in_ids ledger_order_ids (tp_parent r) then Bot
           else if String.eqb (str_upper (default "" (tp_platform r))) MANUAL_PLATFORM then Manual else Unknown
       | None => Unknown
       end.

Record IngestResult : Type := {
  ig_seen : Z;
  ig_written : Z;
  ig_already : Z;
  ig_bot : Z;
  ig_manual : Z;
  ig_unknown : Z;
  ig_unknown_ids : list string;
  ig_tape_empty : bool
}.

Definition ingest_clean (r : IngestResult) : bool := negb (ig_tape_empty r) && match ig_unknown_ids r with [] => true | _ => false end.

Definition bump (b : bool) (n : Z) : Z := if b then n + 1 else n.

Definition row_of_fill (tape : gmap string OrderProvenance) (ids : list string) (f : AccountFill) : prov_row :=
  let prov := tape !! order_id f in
  {| pv_security_id := contract f; pv_side := str_upper (side f); pv_quantity := qty f; pv_price := price f; pv_filled_at := ts f;
     pv_platform := p ← prov; tp_platform p; pv_provenance := classify (order_id f) prov ids; pv_parent := p ← prov; tp_parent p;
     pv_correlation := p ← prov; tp_correlation p; pv_charges := charges f |}.

(** One fill: counted, and inserted unless its order is known (ON CONFLICT DO NOTHING). *)
Definition ingest_fill (tape : gmap string OrderProvenance) (ids : list string) (acc : IngestResult * prov_table) (f : AccountFill)
  : IngestResult * prov_table :=
  let '(r, table) := acc in
  if String.eqb (order_id f) "" then acc
  else
    let row := row_of_fill tape ids f in
    let v := pv_provenance row in
    let known := negb (absent (table !! order_id f)) in
    ({| ig_seen := ig_seen r; ig_written := bump (negb known) (ig_written r); ig_already := bump known (ig_already r);
        ig_bot := bump (bool_decide (v = Bot)) (ig_bot r); ig_manual := bump (bool_decide (v = Manual)) (ig_manual r);
        ig_unknown := bump (bool_decide (v = Unknown)) (ig_unknown r);
        ig_unknown_ids := if bool_decide (v = Unknown) then ig_unknown_ids r ++ [order_id f] else ig_unknown_ids r; ig_tape_empty := false |},
     if known then table else <[order_id f := row]> table).

Definition ingest_start (seen : Z) (tape_empty : bool) : IngestResult :=
  {| ig_seen := seen; ig_written := 0; ig_already := 0; ig_bot := 0; ig_manual := 0; ig_unknown := 0; ig_unknown_ids := [];
     ig_tape_empty := tape_empty |}.

Definition ingest_fills (fs : list AccountFill) (tape : gmap string OrderProvenance) (ledger_order_ids platform_ids : list string) (table : prov_table)
  : IngestResult * prov_table :=
  let seen := Z.of_nat (length fs) in
  if negb (bool_decide (fs = [])) && bool_decide (tape = ∅) then (ingest_start seen true, table)
  else foldl (ingest_fill tape (ledger_order_ids ++ platform_ids)) (ingest_start seen false, table) fs.

(** The orders this platform placed for a strategy, subscribers' included. *)
Definition platform_order_ids (strategy_id : uuid) (lg : ledger) : list string :=
  omap (fun x => if bool_decide (lg_signals lg !! le_signal_id x = Some strategy_id) then k ← le_broker_order_id x; nonempty k else None) (lg_executions lg).

(** ** Verdicts *)

Inductive truth_verdict : Type := GREEN | RED | NO_DATA | ATTENTION.

#[export] Instance truth_verdict_eq_dec : EqDecision truth_verdict.
Proof. solve_decision. Defined.

Inductive truth_kind : Type := SAME_DAY | MORNING.

#[export] Instance truth_kind_eq_dec : EqDecision truth_kind.
Proof. solve_decision. Defined.

Inductive witness_seen : Type :=
| WitnessCount (label : string) (count : Z)
| PositionsUnreachable
| DayQuantity (moved : Z).

Record TruthCheckResult : Type := {
  tc_verdict : truth_verdict;
  tc_kind : truth_kind;
  tc_fills_checked : Z;
  tc_unrecorded : list string;
  tc_unidentified : list string;
  tc_manual : list string;
  tc_duplicate_exits : list string;
  tc_tape_gap : bool;
  tc_book_empty : bool;
  tc_witnesses_seen : list witness_seen;
  tc_phantoms : list uuid
}.

#[export] Instance TruthCheckResult_eta : Eta TruthCheckResult := fun r =>
  {| tc_verdict := tc_verdict r; tc_kind := tc_kind r; tc_fills_checked := tc_fills_checked r; tc_unrecorded := tc_unrecorded r;
     tc_unidentified := tc_unidentified r; tc_manual := tc_manual r; tc_duplicate_exits := tc_duplicate_exits r; tc_tape_gap := tc_tape_gap r;
     tc_book_empty := tc_book_empty r; tc_witnesses_seen := tc_witnesses_seen r; tc_phantoms := tc_phantoms r |}.

Definition truth_start (kind : truth_kind) (n : nat) (phantoms : list uuid) : TruthCheckResult :=
  {| tc_verdict := GREEN; tc_kind := kind; tc_fills_checked := Z.of_nat n; tc_unrecorded := []; tc_unidentified := []; tc_manual := [];
     tc_duplicate_exits := []; tc_tape_gap := false; tc_book_empty := false; tc_witnesses_seen := [];
     tc_phantoms := remove_dups (sort_stable (fun a b => b <? a) phantoms) |}.

Definition licenses_badge (r : TruthCheckResult) : bool := bool_decide (tc_verdict r = GREEN) && bool_decide (tc_kind r = MORNING).
Definition agrees_with_dhan (r : TruthCheckResult) : bool := bool_decide (tc_verdict r = GREEN) || bool_decide (tc_verdict r = ATTENTION).

(** [sorted(set(l))]. *)
Definition sorted_set (l : list string) : list string := remove_dups (sort_stable later_text l).

Definition WITNESS_LABELS : list (string * string) :=
  [("tape_frames", "WS tape frames"); ("day_qty_moved", "Dhan /positions day quantity");
   ("platform_executions", "our own strategy_executions rows")]%string.

Definition active_witnesses (witnesses : gmap string Z) : list witness_seen :=
  omap (fun kl => let n := default 0 (witnesses !! fst kl) in if 0 <? n then Some (WitnessCount (snd kl) n) else None) WITNESS_LABELS.

Definition some_left {A : Type} (l : list A) : bool := match l with [] => false | _ => true end.

(** The 15:50 check: no trade book. *)
Definition evaluate_same_day (tape_orders platform_orders : list string) (day_qty_moved : option Z) (phantoms : list uuid) (tape_loaded : bool)
  : TruthCheckResult :=
  let r := truth_start SAME_DAY (length tape_orders) phantoms in
  if negb tape_loaded then r <| tc_verdict := RED |> <| tc_tape_gap := true |>
  else
    let missing := sorted_set (List.filter (fun o => negb (one_of o platform_orders)) tape_orders) in
    match day_qty_moved with
    | None => r <| tc_unrecorded := missing |> <| tc_verdict := NO_DATA |> <| tc_witnesses_seen := [PositionsUnreachable] |>
    | Some moved =>
        let unrecorded :=
          if (0 <? moved) && negb (some_left platform_orders) && negb (some_left missing)
          then ["<no platform rows for a day that traded>"%string] else missing in
        r <| tc_unrecorded := unrecorded |> <| tc_witnesses_seen := [DayQuantity moved] |>
          <| tc_verdict := if some_left unrecorded || some_left (tc_phantoms r) then RED else GREEN |>
    end.

(** One fill against the stored rows. *)
Definition check_fill (stored : prov_table) (tape_covered : list string) (r : TruthCheckResult) (f : AccountFill) : TruthCheckResult :=
  let oid := order_id f in
  if String.eqb oid "" then r
  else
    match stored !! oid with
    | None => r <| tc_unrecorded := tc_unrecorded r ++ [oid] |>
    | Some row =>
        let v := pv_provenance row in
        let r := match v with
                 | Unknown => r <| tc_unidentified := tc_unidentified r ++ [oid] |>
                 | Manual => r <| tc_manual := tc_manual r ++ [oid] |>
                 | Bot => r
                 end in
        if negb (one_of oid tape_covered) && negb (bool_decide (v = Manual)) then r <| tc_tape_gap := true |> else r
    end.

Definition worst (r : TruthCheckResult) : truth_verdict :=
  if some_left (tc_unrecorded r) || some_left (tc_unidentified r) || some_left (tc_duplicate_exits r) || tc_tape_gap r || some_left (tc_phantoms r)
  then RED else if some_left (tc_manual r) then ATTENTION else GREEN.

(** The morning check: the settled book. *)
Definition evaluate (fs : list AccountFill) (stored : prov_table) (tape_covered duplicates : list string) (tape_loaded : bool)
    (witnesses : gmap string Z) (phantoms : list uuid) : TruthCheckResult :=
  let r := truth_start MORNING (length fs) phantoms in
  if some_left fs && negb tape_loaded then r <| tc_verdict := RED |> <| tc_tape_gap := true |>
  else if negb (some_left fs) then
    let seen := active_witnesses witnesses in
    r <| tc_book_empty := true |> <| tc_witnesses_seen := seen |>
      <| tc_verdict := if some_left seen || some_left (tc_phantoms r) then RED else NO_DATA |>
  else
    let r := foldl (check_fill stored tape_covered) r fs <| tc_duplicate_exits := sort_stable later_text duplicates |> in
    r <| tc_verdict := worst r |> <| tc_unrecorded := sorted_set (tc_unrecorded r) |> <| tc_unidentified := sorted_set (tc_unidentified r) |>
      <| tc_manual := sorted_set (tc_manual r) |>.

(** ** Runs *)

(** A day's session, IST. *)
Definition ist_window (day : date) : datetime * datetime :=
  let start := (day - EPOCH_ORD) * DAY_SECONDS - IST_SECONDS in (start, start + DAY_SECONDS - 1).

Definition in_window (day : date) (t : datetime) : bool := let '(a, b) := ist_window day in (a <=? t) && (t <=? b).

(** A row of truth_check_runs. *)
Record truth_run : Type := {
  tn_ran_at : datetime;
  tn_day : date;
  tn_result : TruthCheckResult
}.

Record truth_state : Type := {
  ts_provenance : prov_table;
  ts_runs : list truth_run;
  ts_alerts : list (AlertLevel * truth_kind * date)
}.

(** The verdict stored last for a window and a check. *)
Definition already_ran (day : date) (kind : truth_kind) (runs : list truth_run) : option truth_verdict :=
  run ← foldl (fun best r => match best with
                             | Some b => if tn_ran_at b <=? tn_ran_at r then Some r else Some b
                             | None => Some r
                             end) None
          (List.filter (fun r => (tn_day r =? day) && bool_decide (tc_kind (tn_result r) = kind)) runs);
  Some (tc_verdict (tn_result run)).

Definition alert_level_of (v : truth_verdict) : AlertLevel :=
  match v with RED => CRITICAL | ATTENTION | NO_DATA => WARNING | GREEN => SUCCESS end.

(** Store the verdict unless it is the one stored last, and tell it when asked to. *)
Definition finish (now : datetime) (day : date) (send : bool) (r : TruthCheckResult) (st : truth_state) : truth_state :=
  if bool_decide (already_ran day (tc_kind r) (ts_runs st) = Some (tc_verdict r)) then st
  else {| ts_provenance := ts_provenance st; ts_runs := ts_runs st ++ [{| tn_ran_at := now; tn_day := day; tn_result := r |}];
          ts_alerts := if send then ts_alerts st ++ [(alert_level_of (tc_verdict r), tc_kind r, day)] else ts_alerts st |}.

Section Runs.
Context `{Coercion}.

(** [int(v or 0)]; a text or an object that is no number counts nothing. *)
Definition soft_int (j : json) : result exn (option Z) :=
  match py_int (j_or j (JInt 0)) with Ok z => Ok (Some z) | Err TypeError | Err ValueError => Ok None | Err e => Err e end.

Definition add_abs (j : json) (n : Z) : result exn Z := z ← soft_int j; Ok (match z with Some q => n + Z.abs q | None => n end).

(** Net per security, and the day's quantity of the watched ones. *)
Fixpoint read_positions (rows : list payload) (security_ids : list string) (net : gmap string Z) (moved : Z) : result exn (gmap string Z * Z) :=
  match rows with
  | [] => Ok (net, moved)
  | row :: rows' =>
      let sec := text_of row "securityId" in
      n ← soft_int (jget row "netQty");
      moved' ← (if one_of sec security_ids
                then m ← add_abs (jget row "dayBuyQty") moved; add_abs (jget row "daySellQty") m
                else Ok moved);
      read_positions rows' security_ids (<[sec := default 0 n]> net) moved'
  end.

Definition all_flat (l : list (string * Z)) : bool := forallb (fun kv => snd kv =? 0) l.

(** Open here, flat at the broker. *)
Definition phantom_rows (net : gmap string Z) (security_ids : list string) (positions : list ledger_row) : list uuid :=
  let held := map_to_list net in
  let hit := List.filter (fun kv => one_of (fst kv) security_ids) held in
  if some_left held && (all_flat held || some_left hit && all_flat hit)
  then map lr_id (List.filter (fun p => negb (closed_row p)) positions) else [].

Record witness_report : Type := { wr_witnesses : gmap string Z; wr_phantoms : list uuid; wr_net : gmap string Z }.

(** [broker]: the rows of /positions, [None] when the call failed. *)
Definition gather_witnesses (day : date) (security_ids : list string) (tape_frames : option Z) (lg : ledger) (broker : option (list payload)) : result exn witness_report :=
  let w0 : gmap string Z := match tape_frames with Some n => {[ "tape_frames"%string := n ]} | None => ∅ end in
  let w1 := <["platform_executions"%string := Z.of_nat (length (List.filter (fun x => in_window day (le_placed_at x)) (lg_executions lg)))]> w0 in
  match broker with
  | None => Ok {| wr_witnesses := w1; wr_phantoms := []; wr_net := ∅ |}
  | Some rows =>
      nm ← read_positions rows security_ids ∅ 0;
      let '(net, moved) := nm in
      Ok {| wr_witnesses := <["day_qty_moved"%string := moved]> w1; wr_phantoms := phantom_rows net security_ids (lg_positions lg); wr_net := net |}
  end.

(** What a run reads besides its own tables. *)
Record truth_world : Type := {
  tw_ledger : ledger;
  tw_broker : option (list payload);
  tw_book : list payload;
  (** the frames of the tape file, [None] without one *)
  tw_tape : option (list payload)
}.

Definition run_same_day (now : datetime) (day : date) (security_ids : list string) (send : bool) (w : truth_world) (st : truth_state)
  : result exn (TruthCheckResult * truth_state) :=
  let tape := load_tape (default [] (tw_tape w)) in
  let platform_orders := remove_dups (omap (fun x => if in_window day (le_placed_at x) then k ← le_broker_order_id x; nonempty k else None)
                                        (lg_executions (tw_ledger w))) in
  g ← gather_witnesses day security_ids None (tw_ledger w) (tw_broker w);
  let tape_loaded := match tw_tape w with Some _ => negb (bool_decide (tape = ∅)) | None => true end in
  let r := evaluate_same_day (map fst (map_to_list tape)) platform_orders (wr_witnesses g !! "day_qty_moved"%string) (wr_phantoms g) tape_loaded in
  Ok (r, finish now day send r st).

(** The day's rows of the watched contracts. *)
Definition fetch_day (security_ids : list string) (rows : list payload) : list payload :=
  List.filter (fun row => one_of (py_str (jget row "securityId")) security_ids) rows.

Definition run_check (now : datetime) (day : date) (security_ids : list string) (send : bool) (tape_covered : option (list string)) (tape_loaded : bool)
    (duplicates : list string) (tape_frames : option Z) (w : truth_world) (st : truth_state) : result exn (TruthCheckResult * truth_state) :=
  fs ← account_fills_from_rows (fetch_day security_ids (tw_book w));
  let order_ids := List.filter (fun o => negb (String.eqb o "")) (map order_id fs) in
  g ← gather_witnesses day security_ids tape_frames (tw_ledger w) (tw_broker w);
  let r := evaluate fs (ts_provenance st) (default order_ids tape_covered) duplicates tape_loaded (wr_witnesses g) (wr_phantoms g) in
  Ok (r, finish now day send r st).

(** ** The day as steps *)

Inductive truth_step : truth_state -> truth_state -> Prop :=
| StepIngest fs tape ledger_ids platform_ids st :
    truth_step st {| ts_provenance := snd (ingest_fills fs tape ledger_ids platform_ids (ts_provenance st)); ts_runs := ts_runs st;
                     ts_alerts := ts_alerts st |}
| StepSameDay now day security_ids send w st r st' :
    Forall (fun run => tn_ran_at run <= now) (ts_runs st) ->
    run_same_day now day security_ids send w st = Ok (r, st') -> truth_step st st'
| StepMorning now day security_ids send covered loaded duplicates frames w st r st' :
    Forall (fun run => tn_ran_at run <= now) (ts_runs st) ->
    run_check now day security_ids send covered loaded duplicates frames w st = Ok (r, st') -> truth_step st st'.

Definition truth_empty : truth_state := {| ts_provenance := ∅; ts_runs := []; ts_alerts := [] |}.

Definition truth_reachable : truth_state -> Prop := rtc truth_step truth_empty.
End Runs.

(** ** Green *)

Lemma some_left_false {A : Type} (l : list A) : some_left l = false <-> l = [].
Proof. by destruct l. Qed.

Lemma insert_sorted_nonempty {A : Type} (bf : A -> A -> bool) x l : insert_sorted bf x l <> [].
Proof. destruct l; cbn; [done|]. by destruct (bf _ _). Qed.

Lemma sort_stable_nil {A : Type} (bf : A -> A -> bool) l : sort_stable bf l = [] <-> l = [].
Proof. destruct l as [|x l]; [done|]. split; [|done]. intros E. by apply insert_sorted_nonempty in E. Qed.

Lemma remove_dups_nil {A : Type} `{EqDecision A} (l : list A) : remove_dups l = [] <-> l = [].
Proof.
  destruct l as [|x l]; [done|]. split; [|done]. intros E. assert (Hx : x ∈ remove_dups (x :: l)) by (apply elem_of_remove_dups; left). by rewrite E in Hx; inversion Hx.
Qed.

(** A fill the record accounts for: the bot's, and on the tape. *)
Definition accounted (stored : prov_table) (covered : list string) (f : AccountFill) : Prop :=
  order_id f <> ""%string -> exists row, stored !! order_id f = Some row /\ pv_provenance row = Bot /\ In (order_id f) covered.

Definition spotless (r : TruthCheckResult) : Prop :=
  tc_unrecorded r = [] /\ tc_unidentified r = [] /\ tc_manual r = [] /\ tc_tape_gap r = false.

Lemma app_singleton_nil {A : Type} (l : list A) x : l ++ [x] <> [].
Proof. by destruct l. Qed.

Lemma check_fill_spotless stored covered r f : spotless (check_fill stored covered r f) <-> spotless r /\ accounted stored covered f.
Proof.
  unfold check_fill, accounted, spotless. destruct (String.eqb_spec (order_id f) "") as [E|E]; [naive_solver|].
  destruct (stored !! order_id f) as [row|] eqn:Er; cycle 1.
  { cbn. split; [intros (Hn & _); by apply app_singleton_nil in Hn|]. intros [_ Ha]. by destruct (Ha E) as (? & ? & _). }
  destruct (pv_provenance row) eqn:Ev; cbn.
  - destruct (one_of (order_id f) covered) eqn:Hc; cbn.
    + rewrite one_of_In in Hc. naive_solver.
    + split; [naive_solver|]. intros [_ Ha]. destruct (Ha E) as (_ & _ & _ & Hin). apply one_of_In in Hin. congruence.
  - rewrite andb_false_r. split; [intros (_ & _ & Hn & _); by apply app_singleton_nil in Hn|]. intros [_ Ha]. destruct (Ha E) as (row' & Hr & Hb & _). congruence.
  - split; [|intros [_ Ha]; destruct (Ha E) as (row' & Hr & Hb & _); congruence].
    destruct (_ && _); cbn; intros (_ & Hn & _); by apply app_singleton_nil in Hn.
Qed.

Lemma check_fills_spotless stored covered fs r :
  spotless (foldl (check_fill stored covered) r fs) <-> spotless r /\ Forall (accounted stored covered) fs.
Proof.
  revert r. induction fs as [|f fs IH]; intros r; cbn [foldl]; [naive_solver|]. rewrite IH, check_fill_spotless, Forall_cons. tauto.
Qed.

Lemma check_fills_phantoms stored covered fs r : tc_phantoms (foldl (check_fill stored covered) r fs) = tc_phantoms r.
Proof.
  revert r. induction fs as [|f fs IH]; intros r; cbn [foldl]; [done|]. rewrite IH. unfold check_fill. repeat case_match; done.
Qed.

Lemma worst_green r : worst r = GREEN <-> spotless r /\ tc_duplicate_exits r = [] /\ tc_phantoms r = [].
Proof.
  unfold worst, spotless. rewrite <- !some_left_false. destruct (_ || _) eqn:E.
  - split; [done|]. intros [(H1 & H2 & _ & H4) [H5 H6]]. by rewrite H1, H2, H4, H5, H6 in E.
  - rewrite !orb_false_iff in E. destruct E as [[[[H1 H2] H3] H4] H5]. destruct (some_left (tc_manual r)); [|done].
    split; [done|]. by intros [(_ & _ & Hm & _) _].
Qed.

Lemma phantoms_nil kind n ph : tc_phantoms (truth_start kind n ph) = [] <-> ph = [].
Proof. cbn. by rewrite remove_dups_nil, sort_stable_nil. Qed.

Lemma morning_green_lemma fs stored covered duplicates loaded witnesses phantoms :
  tc_verdict (evaluate fs stored covered duplicates loaded witnesses phantoms) = GREEN
  <-> fs <> [] /\ loaded = true /\ phantoms = [] /\ duplicates = [] /\ Forall (accounted stored covered) fs.
Proof.
  unfold evaluate. destruct fs as [|f fs]; [cbn; split; [by destruct (_ || _) | naive_solver]|]. cbn [some_left andb negb].
  remember (f :: fs) as l eqn:El. assert (Hl : l <> []) by (by subst). clear El f fs.
  destruct loaded; cbn [negb]; [|cbn; split; [done | naive_solver]]. cbv zeta. cbn [tc_verdict set]. rewrite worst_green. cbn.
  rewrite sort_stable_nil, check_fills_phantoms, phantoms_nil.
  pose proof (check_fills_spotless stored covered l (truth_start MORNING (length l) phantoms)) as Hs. unfold spotless in Hs |- *. cbn in Hs |- *.
  destruct Hs as [Hs1 Hs2]. split.
  - intros (Hsp & Hd & Hp). split_and!; try done. by apply Hs1.
  - intros (_ & _ & Hp & Hd & Hf). split; [|done]. apply Hs2. by split_and!.
Qed.

(** A green morning means the record matches the settled book.  The morning check is
    green exactly when the book has fills, the tape was read, every fill that has an
    order id was recorded as the bot's own and is on the tape, and there is no duplicate
    exit and no position open here and flat at the broker.  An empty book is never
    green. *)
Theorem morning_green_iff fs stored covered duplicates loaded witnesses phantoms :
  tc_verdict (evaluate fs stored covered duplicates loaded witnesses phantoms) = GREEN
  <-> fs <> [] /\ loaded = true /\ phantoms = [] /\ duplicates = [] /\ Forall (accounted stored covered) fs.
Proof. apply morning_green_lemma. Qed.

(** The 15:50 check is green exactly when the tape was read, the broker answered, no
    position is a phantom, every order on the tape has a row here, and a day that traded
    has rows at all. *)
Theorem same_day_green_iff tape_orders platform_orders moved phantoms loaded :
  tc_verdict (evaluate_same_day tape_orders platform_orders moved phantoms loaded) = GREEN
  <-> loaded = true /\ phantoms = [] /\ Forall (fun o => In o platform_orders) tape_orders
      /\ exists n, moved = Some n /\ (n <= 0 \/ platform_orders <> []).
Proof.
  unfold evaluate_same_day. destruct loaded; cbn [negb]; [|cbn; naive_solver]. cbv zeta.
  set (missing := List.filter (fun o => negb (one_of o platform_orders)) tape_orders).
  assert (Hm : missing = [] <-> Forall (fun o => In o platform_orders) tape_orders).
  { unfold missing. induction tape_orders as [|o l IH]; cbn; [split; [constructor | done]|]. rewrite Forall_cons, <- IH, <- one_of_In.
    destruct (one_of o platform_orders); cbn; naive_solver. }
  destruct moved as [n|]; cycle 1.
  { cbn. split; [done|]. by intros (_ & _ & _ & n & ? & _). }
  assert (Hs : sorted_set missing = [] <-> missing = []) by (unfold sorted_set; by rewrite remove_dups_nil, sort_stable_nil).
  pose proof (phantoms_nil SAME_DAY (length tape_orders) phantoms) as Hp. cbn in Hp |- *. set (ph := remove_dups _) in *.
  destruct (some_left ph) eqn:Ep.
  { rewrite orb_true_r. split; [done|]. intros (_ & Hn & _). apply Hp in Hn. by rewrite Hn in Ep. }
  apply some_left_false in Ep. rewrite orb_false_r. destruct (sorted_set missing) as [|o l] eqn:Em; cbn [some_left negb andb].
  - rewrite andb_true_r. destruct (Z.ltb_spec 0 n) as [Hn|Hn]; cbn [andb some_left].
    + destruct platform_orders as [|q qs]; cbn [some_left negb]; [|naive_solver].
      split; [done|]. intros (_ & _ & _ & k & [= <-] & [Hk|Hk]); [lia | done].
    + split; [|done]. intros _. split_and!; [done | by apply Hp | by apply Hm, Hs|]. exists n. split; [done | by left].
  - rewrite andb_false_r. cbn. split; [done|]. intros (_ & _ & Hf & _). apply Hm, Hs in Hf. done.
Qed.

(** ** Ingest *)

Section Ingest.
Context (tape : gmap string OrderProvenance) (ids : list string).

Definition verdict_on (oid : string) : provenance_kind := classify oid (tape !! oid) ids.

(** A recorded order stays as it was recorded; a new one gets the verdict on its id. *)
Lemma ingest_loop fs r table :
  (forall oid row, table !! oid = Some row -> snd (foldl (ingest_fill tape ids) (r, table) fs) !! oid = Some row)
  /\ (forall oid row, snd (foldl (ingest_fill tape ids) (r, table) fs) !! oid = Some row -> table !! oid = None -> pv_provenance row = verdict_on oid)
  /\ Forall (fun f => order_id f <> ""%string -> is_Some (snd (foldl (ingest_fill tape ids) (r, table) fs) !! order_id f)) fs.
Proof.
  revert r table. induction fs as [|f fs IH]; intros r table; [split_and!; [done | naive_solver | constructor]|]. cbn [foldl].
  unfold ingest_fill at 2 4 6. destruct (String.eqb_spec (order_id f) "") as [E|E].
  { destruct (IH r table) as (I1 & I2 & I3). split_and!; [done..|]. constructor; [done|]. exact I3. }
  destruct (absent (table !! order_id f)) eqn:Ea; cbn [negb].
  - match goal with |- context [foldl _ (?r1, ?t1) fs] => destruct (IH r1 t1) as (I1 & I2 & I3) end.
    assert (Hn : table !! order_id f = None) by (by destruct (table !! order_id f)). split_and!.
    + intros oid row Hr. apply I1. rewrite lookup_insert_ne; [done|]. intros <-. congruence.
    + intros oid row Hr Ht. destruct (decide (oid = order_id f)) as [->|Hne].
      * rewrite (I1 (order_id f) (row_of_fill tape ids f)) in Hr by (by rewrite lookup_insert_eq). by injection Hr as <-.
      * eapply I2; [exact Hr|]. by rewrite lookup_insert_ne.
    + constructor; [intros _; eexists; apply I1; by rewrite lookup_insert_eq | exact I3].
  - match goal with |- context [foldl _ (?r1, ?t1) fs] => destruct (IH r1 t1) as (I1 & I2 & I3) end. split_and!; [done..|].
    constructor; [|exact I3]. intros _. destruct (table !! order_id f) as [row|] eqn:Er; [|done]. eexists. by apply I1.
Qed.

(** Nothing new: nothing is written. *)
Lemma ingest_loop_known fs r table :
  Forall (fun f => order_id f <> ""%string -> is_Some (table !! order_id f)) fs ->
  snd (foldl (ingest_fill tape ids) (r, table) fs) = table /\ ig_written (fst (foldl (ingest_fill tape ids) (r, table) fs)) = ig_written r.
Proof.
  intros Hk. revert r. induction Hk as [|f fs Hf _ IH]; intros r; [done|]. cbn [foldl]. unfold ingest_fill at 2 4.
  destruct (String.eqb_spec (order_id f) "") as [E|E]; [apply IH|]. destruct (Hf E) as [row ->]. cbn [absent negb].
  match goal with |- context [foldl _ (?r1, ?t1) fs] => destruct (IH r1) as [I1 I2] end. split; [exact I1 | rewrite I2; done].
Qed.
End Ingest.

(** Provenance is decided once.  Ingesting never changes a row that is there; on a
    tape that was read every fill with an order id has a row afterwards, and a new row
    carries the verdict on that order: the bot's by claim or by a claimed parent, manual
    only on FAST, else unknown.  A second pass over the same fills writes nothing, and a
    tape that came empty decides nothing. *)
Theorem ingest_once fs tape ledger_ids platform_ids table :
  let after := snd (ingest_fills fs tape ledger_ids platform_ids table) in
  (forall oid row, table !! oid = Some row -> after !! oid = Some row)
  /\ (forall oid row, after !! oid = Some row -> table !! oid = None -> pv_provenance row = classify oid (tape !! oid) (ledger_ids ++ platform_ids))
  /\ (tape <> ∅ -> Forall (fun f => order_id f <> ""%string -> is_Some (after !! order_id f)) fs)
  /\ snd (ingest_fills fs tape ledger_ids platform_ids after) = after
  /\ ig_written (fst (ingest_fills fs tape ledger_ids platform_ids after)) = 0
  /\ (tape = ∅ -> after = table).
Proof.
  cbv zeta. unfold ingest_fills. destruct (negb (bool_decide (fs = [])) && bool_decide (tape = ∅)) eqn:E; cbn [fst snd].
  - apply andb_true_iff in E as [_ Et]. apply bool_decide_eq_true in Et. split_and!; try done; congruence.
  - destruct (ingest_loop tape (ledger_ids ++ platform_ids) fs (ingest_start (Z.of_nat (length fs)) false) table) as (I1 & I2 & I3).
    destruct (ingest_loop_known tape (ledger_ids ++ platform_ids) fs (ingest_start (Z.of_nat (length fs)) false) _ I3) as [K1 K2].
    split_and!; try done. intros ->.
    apply andb_false_iff in E as [E|E]; [apply negb_false_iff, bool_decide_eq_true in E; by subst | by apply bool_decide_eq_false in E].
Qed.

(** ** Ingest, then check *)

Section Compose.
Context `{Coercion}.

Lemma check_fills_recorded stored covered fs r :
  Forall (fun f => order_id f <> ""%string -> is_Some (stored !! order_id f) /\ In (order_id f) covered) fs ->
  tc_unrecorded (foldl (check_fill stored covered) r fs) = tc_unrecorded r /\ tc_tape_gap (foldl (check_fill stored covered) r fs) = tc_tape_gap r.
Proof.
  intros Hf. revert r. induction Hf as [|f fs Hf _ IH]; intros r; [done|]. cbn [foldl]. destruct (IH (check_fill stored covered r f)) as [-> ->].
  unfold check_fill. destruct (String.eqb_spec (order_id f) "") as [E|E]; [done|]. destruct (Hf E) as [[row ->] Hc]. apply one_of_In in Hc. rewrite Hc. cbn.
  by destruct (pv_provenance row).
Qed.

Lemma evaluate_phantoms fs stored covered duplicates loaded witnesses phantoms :
  tc_phantoms (evaluate fs stored covered duplicates loaded witnesses phantoms) = [] <-> phantoms = [].
Proof.
  assert (He : tc_phantoms (evaluate fs stored covered duplicates loaded witnesses phantoms) = tc_phantoms (truth_start MORNING (length fs) phantoms)).
  { unfold evaluate. destruct (some_left fs && _); [done|]. destruct (negb _); [done|]. exact (check_fills_phantoms stored covered fs _). }
  rewrite He. apply phantoms_nil.
Qed.

(** A day that was ingested is fully recorded.  After the ingest of a day's fills into
    an empty record, on a tape that was read, the morning check of the same book reports
    no unrecorded fill and no gap, and it is green exactly when the book has fills, there
    is no phantom position, and every fill is the bot's by the ledger, by its parent or by
    this platform's own orders. *)
Theorem ingest_then_check now day security_ids send frames w st st' r fs tape ledger_ids platform_ids :
  account_fills_from_rows (fetch_day security_ids (tw_book w)) = Ok fs -> tape <> ∅ ->
  ts_provenance st = snd (ingest_fills fs tape ledger_ids platform_ids ∅) ->
  run_check now day security_ids send None true [] frames w st = Ok (r, st') ->
  tc_unrecorded r = [] /\ tc_tape_gap r = false
  /\ (tc_verdict r = GREEN
      <-> fs <> [] /\ tc_phantoms r = [] /\ Forall (fun f => classify (order_id f) (tape !! order_id f) (ledger_ids ++ platform_ids) = Bot) fs).
Proof.
  intros Hb Ht Hp E. unfold run_check in E. rewrite Hb in E. cbn [mbind result_bind] in E. apply res_bind_ok in E as (g & _ & E). cbv zeta in E.
  injection E as <- _. cbn [default]. set (covered := List.filter _ _).
  pose proof (book_sound _ _ Hb) as Hnamed. rewrite List.Forall_forall in Hnamed.
  assert (Hcov : forall f, In f fs -> In (order_id f) covered).
  { intros f Hf. apply filter_In. split; [by apply in_map|]. destruct (Hnamed f Hf) as [_ Ho]. by destruct (String.eqb_spec (order_id f) ""). }
  destruct (ingest_loop tape (ledger_ids ++ platform_ids) fs (ingest_start (Z.of_nat (length fs)) false) ∅) as (_ & I2 & I3).
  assert (Hst : fs <> [] -> ts_provenance st = snd (foldl (ingest_fill tape (ledger_ids ++ platform_ids)) (ingest_start (Z.of_nat (length fs)) false, ∅) fs)).
  { intros _. rewrite Hp. unfold ingest_fills. by rewrite (bool_decide_eq_false_2 (tape = ∅)), andb_false_r. }
  assert (Hall : Forall (fun f => order_id f <> ""%string -> is_Some (ts_provenance st !! order_id f) /\ In (order_id f) covered) fs).
  { destruct fs as [|f0 fs0]; [constructor|]. rewrite Hst by done. rewrite List.Forall_forall in I3 |- *. intros f Hf Ho. split; [by apply I3 | by apply Hcov]. }
  split_and!.
  - unfold evaluate. destruct (some_left fs) eqn:Hs; cbn [andb negb]; [|done].
    destruct (check_fills_recorded _ _ _ (truth_start MORNING (length fs) (wr_phantoms g)) Hall) as [Hu _].
    change (sorted_set (tc_unrecorded (foldl (check_fill (ts_provenance st) covered) (truth_start MORNING (length fs) (wr_phantoms g)) fs)) = []).
    by rewrite Hu.
  - unfold evaluate. destruct (some_left fs) eqn:Hs; cbn [andb negb]; [|done].
    exact (proj2 (check_fills_recorded _ _ _ (truth_start MORNING (length fs) (wr_phantoms g)) Hall)).
  - rewrite morning_green_lemma, evaluate_phantoms. split.
    + intros (Hn & _ & Hph & _ & Ha). split_and!; [done..|]. rewrite List.Forall_forall in Ha |- *. intros f Hf. destruct (Hnamed f Hf) as [_ Ho].
      destruct (Ha f Hf Ho) as (row & Hr & Hv & _). rewrite Hst in Hr by done. rewrite <- Hv. symmetry. apply I2; [exact Hr | apply lookup_empty].
    + intros (Hn & Hph & Ha). split_and!; [done..|]. rewrite List.Forall_forall in Ha, Hall |- *. intros f Hf Ho. destruct (Hall f Hf Ho) as [[row Hr] Hc].
      exists row. split_and!; [done | | done]. rewrite <- (Ha f Hf). rewrite Hst in Hr by done. apply I2; [exact Hr | apply lookup_empty].
Qed.
End Compose.

(** ** Told once *)

Definition is_run (day : date) (kind : truth_kind) (r : truth_run) : bool := (tn_day r =? day) && bool_decide (tc_kind (tn_result r) = kind).

(** The verdicts stored for a window and a check, oldest first. *)
Definition told (day : date) (kind : truth_kind) (runs : list truth_run) : list truth_verdict :=
  map (fun r => tc_verdict (tn_result r)) (List.filter (is_run day kind) runs).

(** Runs as they are appended: never earlier than the last, never the verdict before. *)
Inductive news : list truth_run -> Prop :=
| news_nil : news []
| news_snoc l x :
    news l -> Forall (fun r => tn_ran_at r <= tn_ran_at x) l ->
    already_ran (tn_day x) (tc_kind (tn_result x)) l <> Some (tc_verdict (tn_result x)) -> news (l ++ [x]).

Definition pick (best : option truth_run) (r : truth_run) : option truth_run :=
  match best with Some b => if tn_ran_at b <=? tn_ran_at r then Some r else Some b | None => Some r end.

Lemma pick_In l b r : foldl pick b l = Some r -> b = Some r \/ In r l.
Proof.
  revert b. induction l as [|x l IH]; intros b; cbn [foldl]; [by left|]. intros E. apply IH in E as [E|E]; [|by right; right].
  unfold pick in E. destruct b as [b|]; [destruct (_ <=? _)|]; injection E as <-; [by right; left | by left | by right; left].
Qed.

Lemma already_ran_last day kind l : news l -> already_ran day kind l = last (told day kind l).
Proof.
  unfold already_ran, told. change (fun r => (tn_day r =? day) && bool_decide (tc_kind (tn_result r) = kind)) with (is_run day kind).
  change (foldl _ None) with (foldl pick None). induction 1 as [|l x _ IH Hx _]; [done|]. rewrite List.filter_app. cbn [List.filter].
  destruct (is_run day kind x); [|by rewrite app_nil_r]. rewrite foldl_app, map_app. cbn [map foldl]. rewrite last_snoc. cbn.
  destruct (foldl pick None (List.filter (is_run day kind) l)) as [b|] eqn:Eb; [|done]. cbn.
  apply pick_In in Eb as [|Hb]; [done|]. apply filter_In in Hb as [Hb _]. rewrite List.Forall_forall in Hx. specialize (Hx b Hb).
  by rewrite (proj2 (Z.leb_le _ _)).
Qed.

Lemma news_no_repeat day kind l i v : news l -> told day kind l !! i = Some v -> told day kind l !! S i <> Some v.
Proof.
  intros Hn. induction Hn as [|l x Hl IH _ Hr]; [by cbn|]. unfold told in *. rewrite List.filter_app, map_app. cbn [List.filter].
  destruct (is_run day kind x) eqn:Ex; [|by rewrite app_nil_r]. cbn [map]. set (t := map _ _) in *.
  intros Hi Hs. apply lookup_app_Some in Hs as [Hs | [Hlen Hs]].
  - rewrite lookup_app_l in Hi by (apply lookup_lt_Some in Hs; lia). by apply IH in Hi.
  - apply list_lookup_singleton_Some in Hs as [He <-]. rewrite lookup_app_l in Hi by lia.
    unfold is_run in Ex. apply andb_true_iff in Ex as [Ed Ek]. apply Z.eqb_eq in Ed. apply bool_decide_eq_true in Ek. subst day kind.
    apply Hr. rewrite already_ran_last by done. unfold told. fold t. rewrite last_lookup. by replace (Init.Nat.pred (length t)) with i by lia.
Qed.

Section Told.
Context `{Coercion}.

Lemma finish_news now day send r st :
  Forall (fun run => tn_ran_at run <= now) (ts_runs st) -> news (ts_runs st) -> (length (ts_alerts st) <= length (ts_runs st))%nat ->
  news (ts_runs (finish now day send r st)) /\ (length (ts_alerts (finish now day send r st)) <= length (ts_runs (finish now day send r st)))%nat.
Proof.
  intros Hnow Hn Ha. unfold finish. case_bool_decide as E; [done|]. cbn. split.
  - by constructor.
  - destruct send; rewrite ?length_app; cbn; lia.
Qed.

(** C39: the same verdict is never told twice in a row.  However ingests and checks follow
    each other, as long as the clock does not run back, two verdicts stored one after the
    other for the same day and the same check differ, and there are at most as many alerts
    as stored runs. *)
Theorem verdict_told_once st day kind i v :
  truth_reachable st -> told day kind (ts_runs st) !! i = Some v ->
  told day kind (ts_runs st) !! S i <> Some v /\ (length (ts_alerts st) <= length (ts_runs st))%nat.
Proof.
  intros Hr Hi.
  assert (Hinv : news (ts_runs st) /\ (length (ts_alerts st) <= length (ts_runs st))%nat).
  { apply (rtc_ind_r (R := truth_step) (fun s => news (ts_runs s) /\ (length (ts_alerts s) <= length (ts_runs s))%nat) truth_empty); [split; [constructor | done] | | exact Hr].
    intros s1 s2 _ Hs [IH1 IH2]. destruct Hs as [| now dy secs send w st0 r st1 Hnow E | now dy secs send cov ld dup fr w st0 r st1 Hnow E]; [done|..].
    - unfold run_same_day in E. apply res_bind_ok in E as (g & _ & E). injection E as _ <-. by apply finish_news.
    - unfold run_check in E. apply res_bind_ok in E as (fs & _ & E). apply res_bind_ok in E as (g & _ & E). injection E as _ <-. by apply finish_news. }
  destruct Hinv as [Hn Ha]. split; [by eapply news_no_repeat | done].
Qed.

(** The morning run as the command starts it, without the orders the tape covers, never
    sees a gap: the fills' own orders count as covered. *)
Theorem morning_gap_unseen now day security_ids send duplicates frames w st r st' :
  run_check now day security_ids send None true duplicates frames w st = Ok (r, st') -> tc_tape_gap r = false.
Proof.
  intros E. unfold run_check in E. apply res_bind_ok in E as (fs & Hb & E). apply res_bind_ok in E as (g & _ & E). injection E as <- _. cbn [default].
  set (covered := List.filter _ _).
  assert (Hcov : Forall (fun f => order_id f <> ""%string -> In (order_id f) covered) fs).
  { apply List.Forall_forall. intros f Hf Ho. apply filter_In. split; [by apply in_map|]. by destruct (String.eqb_spec (order_id f) ""). }
  assert (Hgap : forall stored l r0, Forall (fun f => order_id f <> ""%string -> In (order_id f) covered) l ->
                   tc_tape_gap (foldl (check_fill stored covered) r0 l) = tc_tape_gap r0).
  { intros stored l r0 Hl. revert r0. induction Hl as [|f l Hf _ IH]; intros r0; [done|]. cbn [foldl]. rewrite IH. unfold check_fill.
    destruct (String.eqb_spec (order_id f) "") as [|Ho]; [done|]. destruct (stored !! order_id f) as [row|]; [|done].
    apply one_of_In in Hf; [|done]. rewrite Hf. cbn. by destruct (pv_provenance row). }
  unfold evaluate. destruct (some_left fs); cbn [andb negb]; [|done]. exact (Hgap _ _ (truth_start MORNING (length fs) (wr_phantoms g)) Hcov).
Qed.
End Told.

(** ** A day *)

#[local] Existing Instance plain_coercion.

Definition session : date := default 0 (ymd_ord 2026 8 3).

Definition day_world : truth_world :=
  {| tw_ledger := {| lg_positions := []; lg_executions := []; lg_signals := ∅ |}; tw_broker := Some []; tw_book := [history_row]; tw_tape := Some [] |}.

Definition day_tape : gmap string OrderProvenance := load_tape [fields [("orderNo", JStr "11"); ("orderPlatform", JStr "fovr"); ("algoOrdNo", JStr "900")]%string].

(** A check before the ingest, the ingest, and two checks after it. *)
Definition after_check (now : datetime) (st : truth_state) : TruthCheckResult * truth_state :=
  match run_check now session ["61093"%string] true None true [] None day_world st with Ok x => x | Err _ => (truth_start MORNING 0 [], st) end.

Definition state1 : truth_state := snd (after_check 100 truth_empty).
Definition state2 : truth_state :=
  {| ts_provenance := snd (ingest_fills [page_fill "0"] day_tape ["900"%string] [] (ts_provenance state1)); ts_runs := ts_runs state1;
     ts_alerts := ts_alerts state1 |}.
Definition state3 : truth_state := snd (after_check 200 state2).

Lemma state3_reachable : truth_reachable state3.
Proof.
  apply rtc_l with state1; [|apply rtc_l with state2; [|apply rtc_once]].
  - apply (StepMorning 100 session ["61093"%string] true None true [] None day_world truth_empty (fst (after_check 100 truth_empty)) state1);
      [constructor | vm_compute; reflexivity].
  - apply StepIngest.
  - apply (StepMorning 200 session ["61093"%string] true None true [] None day_world state2 (fst (after_check 200 state2)) state3);
      [vm_compute; repeat constructor; discriminate | vm_compute; reflexivity].
Qed.

Lemma verdict_told_once_witness : told session MORNING (ts_runs state3) = [RED; GREEN] /\ (length (ts_alerts state3) <= 2)%nat.
Proof. split; [vm_compute; reflexivity | exact (proj2 (verdict_told_once state3 session MORNING 0 RED state3_reachable eq_refl))]. Defined.

Lemma ingest_then_check_witness : tc_unrecorded (fst (after_check 200 state2)) = [] /\ tc_verdict (fst (after_check 200 state2)) = GREEN.
Proof.
  destruct (ingest_then_check 200 session ["61093"%string] true None day_world state2 state3 (fst (after_check 200 state2)) [page_fill "0"] day_tape
              ["900"%string] []) as (Hu & _ & Hg).
  - vm_compute. reflexivity.
  - intros E. apply (f_equal (fun t => t !! "11"%string)) in E. vm_compute in E. discriminate E.
  - vm_compute. reflexivity.
  - vm_compute. reflexivity.
  - split; [exact Hu|]. apply Hg. split_and!; [discriminate | vm_compute; reflexivity | repeat constructor; vm_compute; reflexivity].
Defined.

(** A repeated check is silent. *)
Example third_check_silent : ts_runs (snd (after_check 300 state3)) = ts_runs state3 /\ ts_alerts (snd (after_check 300 state3)) = ts_alerts state3.
Proof. split; vm_compute; reflexivity. Qed.

(** An order filled in two parts is stored with the quantity and the charges of the first
    part only. *)
Example second_part_lost :
  (fun row => (pv_quantity row, pv_charges row)) <$> snd (ingest_fills [page_fill "1"; page_fill "2"] day_tape [] [] ∅) !! "11"%string
  = Some (375, Some (Dec 20 0)).
Proof. vm_compute. reflexivity. Qed.

(** A quiet day whose tape file does not exist is red when the file was named. *)
Example quiet_day_without_tape_red :
  (x ← run_same_day 100 session ["61093"%string] false day_world truth_empty; Ok (tc_verdict (fst x))) = Ok RED.
Proof. vm_compute. reflexivity. Qed.
