(* ===== verification/PnlCommand.v ===== *)
(** * The reconciler's command (backend/app/domains/pnl_reconciler/__main__.py)

    From the files the operator names to the ledger: the trade book is parsed, joined
    with the order tape, the fills' provenance is stored when asked for, and the strategy
    is reconciled.  The files are given as their decoded rows and frames, the dates as
    dates, the engine's orders as ids; what is printed is left out. *)

From Stdlib Require Import ZArith Lia List Bool Ascii String.
From stdpp Require Import base list strings gmap.
From S2P Require Import Prelude PyText PyFloat PyDecimal PyNum Records Enums Models Calendar Attribution StrategyWebhook StrategyGate TradeDna.
From S2P Require Import OptionOrder DhanBroker TradeBook PnlReconciler PnlSafety TruthCheck.

Record cli_args : Type := {
  ca_strategy : uuid;
  ca_write : bool;
  ca_overwrite : bool;
  ca_tradebook : option (list payload);
  ca_covers_from : option date;
  ca_engine_orders : option (list string);
  ca_order_tape : option (list payload);
  ca_archive_before : option date;
  ca_allow_archive : bool;
  ca_ingest : bool
}.

Inductive cli_outcome : Type :=
| Exit (code : Z)
| Crashed (e : rec_error)
| Reported (r : ReconcileResult).

(** The database: the ledger and the provenance of fills. *)
Record cli_state : Type := { cs_ledger : ledger; cs_provenance : prov_table }.

Section Command.
Context `{Coercion}.

(** The book as the run uses it, or the exit code of an empty tape. *)
Definition joined_book (a : cli_args) : result cli_outcome (option (list AccountFill) * gmap string OrderProvenance) :=
  match ca_tradebook a with
  | None => Ok (None, ∅)
  | Some rows =>
      match account_fills_from_rows rows with
      | Err e => Err (Crashed (Raised e))
      | Ok fs =>
          match ca_order_tape a with
          | None => Ok (Some fs, ∅)
          | Some frames =>
              let tape := load_tape frames in
              if bool_decide (tape = ∅) then Err (Exit 5) else Ok (Some (apply_provenance fs tape), tape)
          end
      end
  end.

(** Midnight IST. *)
Definition archive_boundary (a : cli_args) : option datetime := d ← ca_archive_before a; Some (fst (ist_window d)).

Definition refused (a : cli_args) (book : option (list AccountFill)) : option Z :=
  if ca_ingest a && (absent book || absent (ca_order_tape a)) then Some 5
  else if ca_write a && ca_overwrite a && absent (archive_boundary a) && negb (ca_allow_archive a) then Some 4
  else if ca_write a && negb (absent book) && absent (ca_covers_from a) then Some 3
  else None.

Definition options_of (a : cli_args) (book : option (list AccountFill)) : run_options :=
  {| ro_write := ca_write a; ro_overwrite := ca_overwrite a; ro_allow_archive := ca_allow_archive a; ro_archive_before := archive_boundary a;
     ro_segment := DEFAULT_SEGMENT; ro_book := book; ro_covers_from := ca_covers_from a;
     ro_engine_ids := ids ← ca_engine_orders a; Some (List.filter (fun o => negb (String.eqb o "")) ids) |}.

(** [except ValueError]. *)
Definition outcome_of_error (e : rec_error) : cli_outcome :=
  match e with CoversFromMissing | BookRefused | Raised ValueError => Exit 3 | _ => Crashed e end.

Definition run_command (a : cli_args) (o : run_options) (tape : gmap string OrderProvenance) (st : cli_state) : cli_outcome * cli_state :=
  let ingested :=
    match ro_book o with
    | Some book =>
        if ca_ingest a
        then let '(r, table) := ingest_fills book tape (default [] (ro_engine_ids o)) (platform_order_ids (ca_strategy a) (cs_ledger st)) (cs_provenance st) in
             if ig_tape_empty r then None else Some table
        else Some (cs_provenance st)
    | None => Some (cs_provenance st)
    end in
  match ingested with
  | None => (Exit 5, st)
  | Some table =>
      match reconcile_strategy (ca_strategy a) o (cs_ledger st) with
      | Err e => (outcome_of_error e, {| cs_ledger := cs_ledger st; cs_provenance := table |})
      | Ok (r, lg) => (Reported r, {| cs_ledger := lg; cs_provenance := table |})
      end
  end.

Definition command (a : cli_args) (st : cli_state) : cli_outcome * cli_state :=
  match joined_book a with
  | Err x => (x, st)
  | Ok (book, tape) => match refused a book with Some code => (Exit code, st) | None => run_command a (options_of a book) tape st end
  end.

(** ** What the command may do *)

Lemma joined_positive a book tape : joined_book a = Ok (Some book, tape) -> Forall (fun f => 0 <= qty f) book.
Proof.
  unfold joined_book. destruct (ca_tradebook a) as [rows|]; [|done]. destruct (account_fills_from_rows rows) as [fs|] eqn:E; [|done].
  apply book_positive in E. destruct (ca_order_tape a) as [frames|]; [|intros Ex%ok_inj; apply (f_equal fst) in Ex; cbn in Ex; by injection Ex as <-]. cbv zeta.
  destruct (bool_decide _); [done|]. intros Ex%ok_inj. apply (f_equal fst) in Ex. cbn in Ex. injection Ex as <-. unfold apply_provenance. apply List.Forall_forall. intros f Hf. apply in_map_iff in Hf as (g & <- & Hg).
  rewrite List.Forall_forall in E. specialize (E g Hg). by destruct (load_tape frames !! order_id g).
Qed.

(** A command either leaves the ledger alone, or it is one run over the joined book. *)
Lemma command_ledger a st out st' :
  command a st = (out, st') ->
  cs_ledger st' = cs_ledger st
  \/ exists book tape r, joined_book a = Ok (book, tape) /\ refused a book = None
       /\ reconcile_strategy (ca_strategy a) (options_of a book) (cs_ledger st) = Ok (r, cs_ledger st') /\ out = Reported r.
Proof.
  unfold command. destruct (joined_book a) as [[book tape]|x]; [|intros [= <- <-]; by left].
  destruct (refused a book) as [code|] eqn:Er; [intros [= <- <-]; by left|]. unfold run_command.
  cbv zeta. match goal with |- (match ?x with Some _ => _ | None => _ end = _) -> _ => destruct x as [table|] end; [|intros [= <- <-]; by left].
  destruct (reconcile_strategy _ _ _) as [[r lg]|e] eqn:E; [|intros [= <- <-]; by left]. intros [= <- <-]. right. by exists book, tape, r.
Qed.

(** C37: what the command publishes.  Whatever files and flags it is started with, it
    leaves every row's trade as it was; without --write, and whenever it does not end with
    a report, it writes no row; with --overwrite and without --allow-archive it ran with a
    boundary, and no row it could touch was opened before that day's midnight; and an
    amount that is new on a row comes from the bot's round trip in the parsed and joined
    book, billed by the broker, or, without a book, from a row without live fills. *)
Theorem command_publishes a st out st' i p p' :
  keyed (lg_positions (cs_ledger st)) -> command a st = (out, st') ->
  lg_positions (cs_ledger st) !! i = Some p -> lg_positions (cs_ledger st') !! i = Some p' ->
  same_trade p p'
  /\ (ca_write a = false \/ (forall r, out <> Reported r) -> p' = p)
  /\ (ca_overwrite a = true -> ca_allow_archive a = false -> p' <> p -> exists d, ca_archive_before a = Some d /\ fst (ist_window d) <= lr_opened_at p)
  /\ (forall v, lr_final_pnl p' = Some v -> lr_final_pnl p <> Some v ->
      exists book tape, joined_book a = Ok (book, tape)
        /\ let fills := strategy_fills (ca_strategy a) (cs_ledger st) in
           match book with
           | Some b => billed_trip p fills (ro_engine_ids (options_of a book)) b v /\ lr_attribution p' = Some TAG_BOT_ONLY
           | None => existsb is_live (trip_fills p fills) = false /\ lr_attribution p' = Some TAG_PAPER_SIM
           end).
Proof.
  intros Hk E Hp Hp'. destruct (command_ledger a st out st' E) as [He | (book & tape & r & Hj & Hr & Er & ->)].
  { rewrite He, Hp in Hp'. injection Hp' as <-. split_and!; [apply same_trade_refl | done | done | done]. }
  destruct (kept_rows _ _ _ _ _ _ _ _ Hk Er Hp Hp') as (Hsame & Hkeep & _ & Harch). split_and!; [done | | |].
  - intros [Hw | Ho]; [apply Hkeep; left; exact Hw | by destruct (Ho r)].
  - intros Hov Hal Hne. destruct (ca_write a) eqn:Hw; [|destruct Hne; apply Hkeep; left; exact Hw].
    unfold refused in Hr. rewrite Hw, Hov, Hal in Hr. cbn [andb negb] in Hr. destruct (_ && _); [done|].
    unfold archive_boundary in Hr. destruct (ca_archive_before a) as [d|] eqn:Hd; [|done]. exists d. split; [done|].
    destruct (own_closed (ca_strategy a) p) eqn:Ho; [|destruct Hne; apply Hkeep; by right; left].
    specialize (Harch Hw Hov Hal eq_refl). unfold is_archived, options_of, archive_boundary in Harch. cbn in Harch. rewrite Hd in Harch. cbn in Harch. apply Z.ltb_ge in Harch. exact Harch.
  - intros v Hv Hn. exists book, tape. split; [done|]. cbv zeta.
    destruct (published_sound (ca_strategy a) (options_of a book) _ _ _ _ _ _ _ Hk (fun b Hb => joined_positive a b tape ltac:(by rewrite Hj; cbn in Hb; rewrite Hb)) Er Hp Hp' Hv Hn)
      as (_ & _ & Hx). cbn in Hx. destruct book as [b|]; [by destruct Hx as (_ & ? & ?) | by destruct Hx as (? & ? & _)].
Qed.
End Command.

(** ** The trade of the sample ledger, from its files *)

#[local] Existing Instance plain_coercion.

Definition book_line (oid side_ : string) (q : Z) (price_ time_ : string) : payload := fields
  [("tradingSymbol", JStr "BSE-SEP2026-FUT"); ("exchangeSegment", JStr "NSE_FNO"); ("securityId", JStr "61093"); ("orderId", JStr oid);
   ("exchangeTradeId", JStr oid); ("transactionType", JStr side_); ("tradedQuantity", JInt q); ("tradedPrice", JStr price_);
   ("exchangeTime", JStr (String.append "2026-09-04 " time_)); ("brokerageCharges", JInt 20)]%string.

Definition sample_args (overwrite : bool) : cli_args :=
  {| ca_strategy := 7; ca_write := true; ca_overwrite := overwrite;
     ca_tradebook := Some [book_line "E1" "BUY" 800 "2400" "09:20:01"; book_line "X1" "SELL" 300 "2410" "10:00:00"; book_line "X2" "SELL" 500 "2412" "11:00:00"];
     ca_covers_from := ymd_ord 2026 9 1; ca_engine_orders := None;
     ca_order_tape := Some [fields [("orderNo", JStr "X2"); ("orderPlatform", JStr "API")]%string];
     ca_archive_before := None; ca_allow_archive := false; ca_ingest := true |}.

Definition sample_state : cli_state := {| cs_ledger := live_ledger; cs_provenance := ∅ |}.
Definition sample_after : cli_outcome * cli_state := command (sample_args false) sample_state.
Definition sample_row : ledger_row := default (live_row 800 None) (lg_positions (cs_ledger (snd sample_after)) !! 0%nat).

(** 9000 earned, 60 billed; three orders recorded as the bot's. *)
Lemma command_publishes_witness :
  exists book tape, joined_book (sample_args false) = Ok (book, tape)
    /\ let fills := strategy_fills 7 live_ledger in
       match book with
       | Some b => billed_trip (live_row 800 None) fills None b (Dec 8940 0) /\ lr_attribution sample_row = Some TAG_BOT_ONLY
       | None => existsb is_live (trip_fills (live_row 800 None) fills) = false /\ lr_attribution sample_row = Some TAG_PAPER_SIM
       end.
Proof.
  destruct (command_publishes (sample_args false) sample_state (fst sample_after) (snd sample_after) 0 (live_row 800 None) sample_row live_keyed)
    as (_ & _ & _ & Hv).
  - exact (surjective_pairing sample_after).
  - reflexivity.
  - vm_compute. reflexivity.
  - apply (Hv (Dec 8940 0)); [vm_compute; reflexivity | discriminate].
Defined.

Example sample_published :
  map (fun r => (lr_final_pnl r, lr_attribution r)) (lg_positions (cs_ledger (snd sample_after)))
  = [(Some (Dec 8940 0), Some TAG_BOT_ONLY); (None, None)].
Proof. vm_compute. reflexivity. Qed.

(** Overwriting without a boundary is refused before anything is read. *)
Example overwrite_needs_boundary : command (sample_args true) sample_state = (Exit 4, sample_state).
Proof. vm_compute. reflexivity. Qed.
