(* ===== verification/StrategyDsl.v ===== *)
(** * The strategy schema (backend/app/strategy_engine/schema/strategy.py)

    [validate_strategy] is [StrategyJSON.model_validate] on a stored payload and [dump]
    is [model_dump(mode="json")], with the aliases or with the field names.  What the
    validation library makes of a JSON number is the class [Coercion]; a model forbids
    extra keys and takes a field by its alias or else by its name.

    Two theorems: a payload that validates is a well-formed strategy, and a strategy
    that is stored under either spelling is read back as itself. *)

From Stdlib Require Import ZArith Lia List Bool Ascii String.
From stdpp Require Import base list strings gmap.
From S2P Require Import Prelude PyText PyFloat PyDecimal PyNum Enums Models ScripMaster AnomalyShield Fanout StrategyWebhook OptionOrder StrategyGate.

(** ** Vocabulary *)

Inductive StrategyMode : Type := BEGINNER | INTERMEDIATE | EXPERT.
Inductive ExecutionMode : Type := BACKTEST_MODE | PAPER_MODE | LIVE_MODE.
Inductive StrategyOrderType : Type := SO_MARKET | SO_LIMIT | SO_SL | SO_SL_M.
Inductive StrategyProductType : Type := SP_INTRADAY | SP_MARGIN | SP_DELIVERY | SP_BO | SP_CO.
Inductive IndicatorConditionOp : Type := IO_GT | IO_LT | IO_GTE | IO_LTE | IO_EQ | IO_NEQ | CROSSOVER | CROSSUNDER.
Inductive CandlePattern : Type := BULLISH | BEARISH | ENGULFING | DOJI | HAMMER | SHOOTING_STAR.
Inductive TimeConditionOp : Type := AFTER | BEFORE | BETWEEN | EXACT.
Inductive PriceConditionOp : Type := PO_GT | PO_LT | PO_GTE | PO_LTE | PREVIOUS_HIGH_BREAKOUT | PREVIOUS_LOW_BREAKDOWN.
Inductive rule_operator : Type := op_AND | op_OR.

(** The spellings of each enumeration; [Side] is [OrderSide]. *)
Definition side_values : list (string * OrderSide) := [("BUY", BUY); ("SELL", SELL)]%string.
Definition mode_values : list (string * StrategyMode) := [("beginner", BEGINNER); ("intermediate", INTERMEDIATE); ("expert", EXPERT)]%string.
Definition execution_values : list (string * ExecutionMode) := [("backtest", BACKTEST_MODE); ("paper", PAPER_MODE); ("live", LIVE_MODE)]%string.
Definition order_type_values : list (string * StrategyOrderType) :=
  [("MARKET", SO_MARKET); ("LIMIT", SO_LIMIT); ("SL", SO_SL); ("SL-M", SO_SL_M)]%string.
Definition product_values : list (string * StrategyProductType) :=
  [("INTRADAY", SP_INTRADAY); ("MARGIN", SP_MARGIN); ("DELIVERY", SP_DELIVERY); ("BO", SP_BO); ("CO", SP_CO)]%string.
Definition indicator_op_values : list (string * IndicatorConditionOp) :=
  [(">", IO_GT); ("<", IO_LT); (">=", IO_GTE); ("<=", IO_LTE); ("==", IO_EQ); ("!=", IO_NEQ); ("crossover", CROSSOVER);
   ("crossunder", CROSSUNDER)]%string.
Definition pattern_values : list (string * CandlePattern) :=
  [("bullish", BULLISH); ("bearish", BEARISH); ("engulfing", ENGULFING); ("doji", DOJI); ("hammer", HAMMER);
   ("shooting_star", SHOOTING_STAR)]%string.
Definition time_op_values : list (string * TimeConditionOp) :=
  [("after", AFTER); ("before", BEFORE); ("between", BETWEEN); ("exact", EXACT)]%string.
Definition price_op_values : list (string * PriceConditionOp) :=
  [(">", PO_GT); ("<", PO_LT); (">=", PO_GTE); ("<=", PO_LTE); ("previous_high_breakout", PREVIOUS_HIGH_BREAKOUT);
   ("previous_low_breakdown", PREVIOUS_LOW_BREAKDOWN)]%string.
Definition operator_values : list (string * rule_operator) := [("AND", op_AND); ("OR", op_OR)]%string.

#[export] Instance StrategyMode_eq_dec : EqDecision StrategyMode. Proof. solve_decision. Defined.
#[export] Instance ExecutionMode_eq_dec : EqDecision ExecutionMode. Proof. solve_decision. Defined.
#[export] Instance StrategyOrderType_eq_dec : EqDecision StrategyOrderType. Proof. solve_decision. Defined.
#[export] Instance StrategyProductType_eq_dec : EqDecision StrategyProductType. Proof. solve_decision. Defined.
#[export] Instance IndicatorConditionOp_eq_dec : EqDecision IndicatorConditionOp. Proof. solve_decision. Defined.
#[export] Instance CandlePattern_eq_dec : EqDecision CandlePattern. Proof. solve_decision. Defined.
#[export] Instance TimeConditionOp_eq_dec : EqDecision TimeConditionOp. Proof. solve_decision. Defined.
#[export] Instance PriceConditionOp_eq_dec : EqDecision PriceConditionOp. Proof. solve_decision. Defined.
#[export] Instance rule_operator_eq_dec : EqDecision rule_operator. Proof. solve_decision. Defined.

(** The value of a member. *)
Definition value_of {A : Type} `{EqDecision A} (table : list (string * A)) (a : A) : string :=
  match List.find (fun e => bool_decide (snd e = a)) table with Some e => fst e | None => ""%string end.

(** ** Data *)

Record IndicatorConfig : Type := { ic_id : string; ic_type : string; ic_params : list (string * json); ic_output : option string }.

Inductive Condition : Type :=
| IndicatorCondition (left_ : string) (op : IndicatorConditionOp) (right_ : option string) (value : option float64)
| CandleCondition (pattern : CandlePattern)
| TimeCondition (op : TimeConditionOp) (value : string) (end_ : option string)
| PriceCondition (op : PriceConditionOp) (value : option float64).

Record EntryRules : Type := { er_side : OrderSide; er_operator : rule_operator; er_conditions : list Condition }.

Record PartialExit : Type := { pe_qty_percent : float64; pe_target_percent : float64 }.

Record ExitRules : Type := {
  xr_target_percent : option float64;
  xr_stop_loss_percent : option float64;
  xr_trailing_stop_percent : option float64;
  xr_partial_exits : list PartialExit;
  xr_square_off_time : option string;
  xr_indicator_exits : list Condition;
  xr_reverse_signal_exit : bool
}.

Record RiskRules : Type := {
  rr_max_daily_loss_percent : option float64;
  rr_max_trades_per_day : option Z;
  rr_max_loss_streak : option Z;
  rr_max_capital_per_trade_percent : option float64
}.

Definition no_risk_rules : RiskRules :=
  {| rr_max_daily_loss_percent := None; rr_max_trades_per_day := None; rr_max_loss_streak := None; rr_max_capital_per_trade_percent := None |}.

Record ExecutionConfig : Type := { ec_mode : ExecutionMode; ec_order_type : StrategyOrderType; ec_product_type : StrategyProductType }.

Record StrategyJSON : Type := {
  sj_id : string;
  sj_name : string;
  sj_mode : StrategyMode;
  sj_version : Z;
  sj_indicators : list IndicatorConfig;
  sj_entry : EntryRules;
  sj_exit : ExitRules;
  sj_risk : RiskRules;
  sj_execution : ExecutionConfig
}.

(** ** Constraints *)

Definition nilb {A : Type} (l : list A) : bool := match l with [] => true | _ => false end.

Definition text_ok (lo hi : nat) (s : string) : bool := (lo <=? str_len s)%nat && (str_len s <=? hi)%nat.

(** [^\d{2}:\d{2}$]. *)
Definition hhmm (s : string) : bool :=
  match L s with
  | [h1; h2; colon; m1; m2] => is_digit h1 && is_digit h2 && Ascii.eqb colon ":" && is_digit m1 && is_digit m2
  | _ => false
  end.

Definition is_alnum (c : ascii) : bool := is_upper c || is_lower c || is_digit c.

(** [_lower_snake]. *)
Definition lower_snake (s : string) : bool :=
  let t := List.filter (fun c => negb (Ascii.eqb c "_")) (L s) in
  match t with [] => false | _ => forallb is_alnum t && String.eqb s (str_lower s) end.

Definition above_zero (x : float64) : bool := f_ltb f_zero x.
Definition percentage (x : float64) : bool := f_ltb f_zero x && f_leb x (f_of_Z 100).

Definition is_cross (op : IndicatorConditionOp) : bool := match op with CROSSOVER | CROSSUNDER => true | _ => false end.
Definition is_comparator (op : PriceConditionOp) : bool := match op with PO_GT | PO_LT | PO_GTE | PO_LTE => true | _ => false end.

(** [_xor_right_and_value]. *)
Definition xor_right_and_value (op : IndicatorConditionOp) (rhs : option string) (value : option float64) : bool :=
  negb (Bool.eqb (absent rhs) (absent value)) && negb (is_cross op && absent rhs).

(** [_between_requires_end]. *)
Definition between_requires_end (op : TimeConditionOp) (end_ : option string) : bool := Bool.eqb (bool_decide (op = BETWEEN)) (negb (absent end_)).

(** [_value_required_for_comparators]. *)
Definition value_required (op : PriceConditionOp) (value : option float64) : bool := Bool.eqb (is_comparator op) (negb (absent value)).

Definition indicator_ok (i : IndicatorConfig) : bool :=
  text_ok 1 64 (ic_id i) && lower_snake (ic_id i) && text_ok 1 64 (ic_type i) && lower_snake (ic_type i)
  && opt_ok (fun o => text_ok 1 64 o && lower_snake o) (ic_output i).

Definition condition_ok (c : Condition) : bool :=
  match c with
  | IndicatorCondition l op r value => text_ok 1 64 l && opt_ok (text_ok 1 64) r && xor_right_and_value op r value
  | CandleCondition _ => true
  | TimeCondition op value end_ => hhmm value && opt_ok hhmm end_ && between_requires_end op end_
  | PriceCondition op value => value_required op value
  end.

Definition entry_ok (e : EntryRules) : bool := negb (nilb (er_conditions e)) && forallb condition_ok (er_conditions e).

Definition partial_ok (p : PartialExit) : bool := percentage (pe_qty_percent p) && above_zero (pe_target_percent p).

(** [_at_least_one_exit]. *)
Definition at_least_one_exit (x : ExitRules) : bool :=
  negb (absent (xr_target_percent x)) || negb (absent (xr_stop_loss_percent x)) || negb (absent (xr_trailing_stop_percent x))
  || negb (nilb (xr_partial_exits x)) || negb (absent (xr_square_off_time x)) || negb (nilb (xr_indicator_exits x)) || xr_reverse_signal_exit x.

Definition exit_ok (x : ExitRules) : bool :=
  opt_ok above_zero (xr_target_percent x) && opt_ok above_zero (xr_stop_loss_percent x) && opt_ok above_zero (xr_trailing_stop_percent x)
  && forallb partial_ok (xr_partial_exits x) && opt_ok hhmm (xr_square_off_time x) && forallb condition_ok (xr_indicator_exits x)
  && at_least_one_exit x.

Definition risk_ok (r : RiskRules) : bool :=
  opt_ok above_zero (rr_max_daily_loss_percent r) && opt_ok (Z.ltb 0) (rr_max_trades_per_day r) && opt_ok (Z.ltb 0) (rr_max_loss_streak r)
  && opt_ok percentage (rr_max_capital_per_trade_percent r).

(** [_collect_referenced_ids]. *)
Definition condition_ids (c : Condition) : list string :=
  match c with IndicatorCondition l _ r _ => l :: (match r with Some x => [x] | None => [] end) | _ => [] end.

Definition collect_referenced_ids (entry : EntryRules) (exit_ : ExitRules) : list string :=
  flat_map condition_ids (er_conditions entry) ++ flat_map condition_ids (xr_indicator_exits exit_).

Fixpoint no_duplicates (l : list string) : bool := match l with [] => true | x :: l' => negb (one_of x l') && no_duplicates l' end.

(** [_indicator_ids_unique_and_referenced]. *)
Definition ids_unique_and_referenced (indicators : list IndicatorConfig) (entry : EntryRules) (exit_ : ExitRules) : bool :=
  let ids := map ic_id indicators in
  no_duplicates ids && forallb (fun i => one_of i ids) (collect_referenced_ids entry exit_).

Definition strategy_ok (v : StrategyJSON) : bool :=
  text_ok 1 128 (sj_id v) && text_ok 1 256 (sj_name v) && (1 <=? sj_version v) && forallb indicator_ok (sj_indicators v) && entry_ok (sj_entry v)
  && exit_ok (sj_exit v) && risk_ok (sj_risk v) && ids_unique_and_referenced (sj_indicators v) (sj_entry v) (sj_exit v).

(** ** Validation *)

(** A field is an alias and a name. *)
Abbreviation field_key := (string * string)%type.
Definition plain (k : string) : field_key := (k, k).

Definition given (p : payload) (k : field_key) : option json := match p !! fst k with Some j => Some j | None => p !! snd k end.
Definition used_key (p : payload) (k : field_key) : string := match p !! fst k with Some _ => fst k | None => snd k end.
Definition no_extra (keys : list field_key) (p : payload) : bool := forallb (fun e => one_of (fst e) (map (used_key p) keys)) (map_to_list p).

Definition required {A : Type} (parse : json -> option A) (p : payload) (k : field_key) : option A := j ← given p k; parse j.
Definition optional {A : Type} (dflt : A) (parse : json -> option A) (p : payload) (k : field_key) : option A :=
  match given p k with None => Some dflt | Some j => parse j end.

(** A model of these fields, no others. *)
Definition model_of {A : Type} (keys : list field_key) (parse : payload -> option A) (j : json) : option A :=
  match j with JDict entries => if no_extra keys (fields entries) then parse (fields entries) else None | _ => None end.

Definition list_of {A : Type} (parse : json -> option A) (j : json) : option (list A) := match j with JList items => mapM parse items | _ => None end.
Definition text_of (ok : string -> bool) (j : json) : option string := match j with JStr s => if ok s then Some s else None | _ => None end.
Definition dict_entries (j : json) : option (list (string * json)) := match j with JDict entries => Some entries | _ => None end.

Definition k_target : field_key := ("targetPercent", "target_percent")%string.
Definition k_stop : field_key := ("stopLossPercent", "stop_loss_percent")%string.
Definition k_trailing : field_key := ("trailingStopPercent", "trailing_stop_percent")%string.
Definition k_partials : field_key := ("partialExits", "partial_exits")%string.
Definition k_square_off : field_key := ("squareOffTime", "square_off_time")%string.
Definition k_indicator_exits : field_key := ("indicatorExits", "indicator_exits")%string.
Definition k_reverse : field_key := ("reverseSignalExit", "reverse_signal_exit")%string.
Definition k_qty : field_key := ("qtyPercent", "qty_percent")%string.
Definition k_daily_loss : field_key := ("maxDailyLossPercent", "max_daily_loss_percent")%string.
Definition k_trades : field_key := ("maxTradesPerDay", "max_trades_per_day")%string.
Definition k_streak : field_key := ("maxLossStreak", "max_loss_streak")%string.
Definition k_capital : field_key := ("maxCapitalPerTradePercent", "max_capital_per_trade_percent")%string.
Definition k_order_type : field_key := ("orderType", "order_type")%string.
Definition k_product_type : field_key := ("productType", "product_type")%string.

Definition indicator_keys : list field_key := map plain ["id"; "type"; "params"; "output"]%string.
Definition indicator_condition_keys : list field_key := map plain ["type"; "left"; "op"; "right"; "value"]%string.
Definition candle_condition_keys : list field_key := map plain ["type"; "pattern"]%string.
Definition time_condition_keys : list field_key := map plain ["type"; "op"; "value"; "end"]%string.
Definition price_condition_keys : list field_key := map plain ["type"; "op"; "value"]%string.
Definition entry_keys : list field_key := map plain ["side"; "operator"; "conditions"]%string.
Definition partial_keys : list field_key := [k_qty; k_target].
Definition exit_keys : list field_key := [k_target; k_stop; k_trailing; k_partials; k_square_off; k_indicator_exits; k_reverse].
Definition risk_keys : list field_key := [k_daily_loss; k_trades; k_streak; k_capital].
Definition execution_keys : list field_key := [plain "mode"; k_order_type; k_product_type].
Definition strategy_keys : list field_key :=
  map plain ["id"; "name"; "mode"; "version"; "indicators"; "entry"; "exit"; "risk"; "execution"]%string.

Section Validate.
Context `{Coercion}.

Definition number (ok : float64 -> bool) (j : json) : option float64 := checked ok (to_float j).
Definition whole (ok : Z -> bool) (j : json) : option Z := checked ok (to_int j).
Definition any_number : json -> option float64 := number (fun _ => true).

Definition parse_indicator (p : payload) : option IndicatorConfig :=
  id ← required (text_of (fun s => text_ok 1 64 s && lower_snake s)) p (plain "id");
  type ← required (text_of (fun s => text_ok 1 64 s && lower_snake s)) p (plain "type");
  params ← optional [] dict_entries p (plain "params");
  output ← optional None (nullable (text_of (fun s => text_ok 1 64 s && lower_snake s))) p (plain "output");
  Some {| ic_id := id; ic_type := type; ic_params := params; ic_output := output |}.

Definition parse_indicator_condition (p : payload) : option Condition :=
  l ← required (text_of (text_ok 1 64)) p (plain "left");
  op ← required (literal indicator_op_values) p (plain "op");
  r ← optional None (nullable (text_of (text_ok 1 64))) p (plain "right");
  value ← optional None (nullable any_number) p (plain "value");
  if xor_right_and_value op r value then Some (IndicatorCondition l op r value) else None.

Definition parse_candle_condition (p : payload) : option Condition := CandleCondition <$> required (literal pattern_values) p (plain "pattern").

Definition parse_time_condition (p : payload) : option Condition :=
  op ← required (literal time_op_values) p (plain "op");
  value ← required (text_of hhmm) p (plain "value");
  end_ ← optional None (nullable (text_of hhmm)) p (plain "end");
  if between_requires_end op end_ then Some (TimeCondition op value end_) else None.

Definition parse_price_condition (p : payload) : option Condition :=
  op ← required (literal price_op_values) p (plain "op");
  value ← optional None (nullable any_number) p (plain "value");
  if value_required op value then Some (PriceCondition op value) else None.

(** The union is told apart by [type]. *)
Definition parse_condition (j : json) : option Condition :=
  match j with
  | JDict entries =>
      match fields entries !! "type"%string with
      | Some (JStr tag) =>
          if String.eqb tag "indicator" then model_of indicator_condition_keys parse_indicator_condition j
          else if String.eqb tag "candle" then model_of candle_condition_keys parse_candle_condition j
          else if String.eqb tag "time" then model_of time_condition_keys parse_time_condition j
          else if String.eqb tag "price" then model_of price_condition_keys parse_price_condition j
          else None
      | _ => None
      end
  | _ => None
  end.

Definition parse_entry (p : payload) : option EntryRules :=
  side ← required (literal side_values) p (plain "side");
  operator ← optional op_AND (literal operator_values) p (plain "operator");
  conditions ← required (fun j => checked (fun l => negb (nilb l)) (list_of parse_condition j)) p (plain "conditions");
  Some {| er_side := side; er_operator := operator; er_conditions := conditions |}.

Definition parse_partial (p : payload) : option PartialExit :=
  qty ← required (number percentage) p k_qty;
  target ← required (number above_zero) p k_target;
  Some {| pe_qty_percent := qty; pe_target_percent := target |}.

Definition parse_exit (p : payload) : option ExitRules :=
  target ← optional None (nullable (number above_zero)) p k_target;
  stop ← optional None (nullable (number above_zero)) p k_stop;
  trailing ← optional None (nullable (number above_zero)) p k_trailing;
  partials ← optional [] (list_of (model_of partial_keys parse_partial)) p k_partials;
  square_off ← optional None (nullable (text_of hhmm)) p k_square_off;
  exits ← optional [] (list_of parse_condition) p k_indicator_exits;
  reverse ← optional false to_bool p k_reverse;
  checked at_least_one_exit
    (Some {| xr_target_percent := target; xr_stop_loss_percent := stop; xr_trailing_stop_percent := trailing; xr_partial_exits := partials;
             xr_square_off_time := square_off; xr_indicator_exits := exits; xr_reverse_signal_exit := reverse |}).

Definition parse_risk (p : payload) : option RiskRules :=
  loss ← optional None (nullable (number above_zero)) p k_daily_loss;
  trades ← optional None (nullable (whole (Z.ltb 0))) p k_trades;
  streak ← optional None (nullable (whole (Z.ltb 0))) p k_streak;
  capital ← optional None (nullable (number percentage)) p k_capital;
  Some {| rr_max_daily_loss_percent := loss; rr_max_trades_per_day := trades; rr_max_loss_streak := streak;
          rr_max_capital_per_trade_percent := capital |}.

Definition parse_execution (p : payload) : option ExecutionConfig :=
  mode ← required (literal execution_values) p (plain "mode");
  order_type ← required (literal order_type_values) p k_order_type;
  product ← required (literal product_values) p k_product_type;
  Some {| ec_mode := mode; ec_order_type := order_type; ec_product_type := product |}.

Definition parse_strategy (p : payload) : option StrategyJSON :=
  id ← required (text_of (text_ok 1 128)) p (plain "id");
  name ← required (text_of (text_ok 1 256)) p (plain "name");
  mode ← required (literal mode_values) p (plain "mode");
  version ← optional 1 (whole (Z.leb 1)) p (plain "version");
  indicators ← optional [] (list_of (model_of indicator_keys parse_indicator)) p (plain "indicators");
  entry ← required (model_of entry_keys parse_entry) p (plain "entry");
  exit_ ← required (model_of exit_keys parse_exit) p (plain "exit");
  risk ← optional no_risk_rules (model_of risk_keys parse_risk) p (plain "risk");
  execution ← required (model_of execution_keys parse_execution) p (plain "execution");
  if ids_unique_and_referenced indicators entry exit_
  then Some {| sj_id := id; sj_name := name; sj_mode := mode; sj_version := version; sj_indicators := indicators; sj_entry := entry;
               sj_exit := exit_; sj_risk := risk; sj_execution := execution |}
  else None.

(** [StrategyJSON.model_validate] of a stored payload. *)
Definition validate_strategy (p : payload) : option StrategyJSON := if no_extra strategy_keys p then parse_strategy p else None.
End Validate.

(** ** [model_dump] *)

Section Dump.
Variable by_alias : bool.

Definition entry_for (k : field_key) (j : json) : string * json := (if by_alias then fst k else snd k, j).

(** Infinity and NaN are written as null. *)
Definition dump_float (x : float64) : json := if is_finite x then JFloat x else JNull.
Definition dump_opt {A : Type} (f : A -> json) (o : option A) : json := match o with Some a => f a | None => JNull end.

Definition dump_indicator (i : IndicatorConfig) : json :=
  JDict [entry_for (plain "id") (JStr (ic_id i)); entry_for (plain "type") (JStr (ic_type i)); entry_for (plain "params") (JDict (ic_params i));
         entry_for (plain "output") (dump_opt JStr (ic_output i))].

Definition dump_condition (c : Condition) : json :=
  JDict match c with
  | IndicatorCondition l op r value =>
      [entry_for (plain "type") (JStr "indicator"); entry_for (plain "left") (JStr l);
       entry_for (plain "op") (JStr (value_of indicator_op_values op)); entry_for (plain "right") (dump_opt JStr r);
       entry_for (plain "value") (dump_opt dump_float value)]
  | CandleCondition pattern => [entry_for (plain "type") (JStr "candle"); entry_for (plain "pattern") (JStr (value_of pattern_values pattern))]
  | TimeCondition op value end_ =>
      [entry_for (plain "type") (JStr "time"); entry_for (plain "op") (JStr (value_of time_op_values op)); entry_for (plain "value") (JStr value);
       entry_for (plain "end") (dump_opt JStr end_)]
  | PriceCondition op value =>
      [entry_for (plain "type") (JStr "price"); entry_for (plain "op") (JStr (value_of price_op_values op));
       entry_for (plain "value") (dump_opt dump_float value)]
  end.

Definition dump_entry (e : EntryRules) : json :=
  JDict [entry_for (plain "side") (JStr (value_of side_values (er_side e))); entry_for (plain "operator") (JStr (value_of operator_values (er_operator e)));
         entry_for (plain "conditions") (JList (map dump_condition (er_conditions e)))].

Definition dump_partial (p : PartialExit) : json :=
  JDict [entry_for k_qty (dump_float (pe_qty_percent p)); entry_for k_target (dump_float (pe_target_percent p))].

Definition dump_exit (x : ExitRules) : json :=
  JDict [entry_for k_target (dump_opt dump_float (xr_target_percent x)); entry_for k_stop (dump_opt dump_float (xr_stop_loss_percent x));
         entry_for k_trailing (dump_opt dump_float (xr_trailing_stop_percent x)); entry_for k_partials (JList (map dump_partial (xr_partial_exits x)));
         entry_for k_square_off (dump_opt JStr (xr_square_off_time x));
         entry_for k_indicator_exits (JList (map dump_condition (xr_indicator_exits x))); entry_for k_reverse (JBool (xr_reverse_signal_exit x))].

Definition dump_risk (r : RiskRules) : json :=
  JDict [entry_for k_daily_loss (dump_opt dump_float (rr_max_daily_loss_percent r)); entry_for k_trades (dump_opt JInt (rr_max_trades_per_day r));
         entry_for k_streak (dump_opt JInt (rr_max_loss_streak r)); entry_for k_capital (dump_opt dump_float (rr_max_capital_per_trade_percent r))].

Definition dump_execution (e : ExecutionConfig) : json :=
  JDict [entry_for (plain "mode") (JStr (value_of execution_values (ec_mode e)));
         entry_for k_order_type (JStr (value_of order_type_values (ec_order_type e)));
         entry_for k_product_type (JStr (value_of product_values (ec_product_type e)))].

Definition dump_strategy (v : StrategyJSON) : list (string * json) :=
  [entry_for (plain "id") (JStr (sj_id v)); entry_for (plain "name") (JStr (sj_name v)); entry_for (plain "mode") (JStr (value_of mode_values (sj_mode v)));
   entry_for (plain "version") (JInt (sj_version v)); entry_for (plain "indicators") (JList (map dump_indicator (sj_indicators v)));
   entry_for (plain "entry") (dump_entry (sj_entry v)); entry_for (plain "exit") (dump_exit (sj_exit v)); entry_for (plain "risk") (dump_risk (sj_risk v));
   entry_for (plain "execution") (dump_execution (sj_execution v))].
End Dump.

(** The column of a stored strategy. *)
Definition stored (by_alias : bool) (v : StrategyJSON) : payload := fields (dump_strategy by_alias v).

(** ** What validates is well formed *)

Section Sound.
Context `{Coercion}.

Lemma text_of_ok ok j s : text_of ok j = Some s -> ok s = true.
Proof. unfold text_of. destruct j; try done. destruct (ok s0) eqn:E; [|done]. by intros [= <-]. Qed.

Lemma checked_ok {A : Type} (ok : A -> bool) o a : checked ok o = Some a -> o = Some a /\ ok a = true.
Proof. unfold checked. intros (b & -> & E)%bind_Some. destruct (ok b) eqn:Eb; [|done]. by injection E as <-. Qed.

Lemma number_ok ok j x : number ok j = Some x -> ok x = true.
Proof. intros E. by apply checked_ok in E as [_ ?]. Qed.

Lemma whole_ok ok j x : whole ok j = Some x -> ok x = true.
Proof. intros E. by apply checked_ok in E as [_ ?]. Qed.

Lemma nullable_ok {A : Type} (ok : A -> bool) (parse : json -> option A) j o :
  (forall j' a, parse j' = Some a -> ok a = true) -> nullable parse j = Some o -> opt_ok ok o = true.
Proof. intros Hp. destruct j; cbn; first [by intros [= <-] | intros (a & Ea & ->)%fmap_Some; by eapply Hp]. Qed.

Lemma required_ok {A : Type} (ok : A -> bool) (parse : json -> option A) p k a :
  (forall j a', parse j = Some a' -> ok a' = true) -> required parse p k = Some a -> ok a = true.
Proof. intros Hp (j & _ & E)%bind_Some. by eapply Hp. Qed.

Lemma optional_ok {A : Type} (ok : A -> bool) dflt (parse : json -> option A) p k a :
  ok dflt = true -> (forall j a', parse j = Some a' -> ok a' = true) -> optional dflt parse p k = Some a -> ok a = true.
Proof. intros Hd Hp. unfold optional. destruct (given p k); [apply Hp | by intros [= <-]]. Qed.

Lemma list_of_ok {A : Type} (ok : A -> bool) (parse : json -> option A) j l :
  (forall j' a, parse j' = Some a -> ok a = true) -> list_of parse j = Some l -> forallb ok l = true.
Proof.
  intros Hp. destruct j; try done. cbn [list_of]. intros E%mapM_Some. apply forallb_forall. induction E; [done|].
  intros a [<- | Hin]; [by eapply Hp | by apply IHE].
Qed.

Lemma model_of_ok {A : Type} (ok : A -> bool) keys (parse : payload -> option A) j a :
  (forall p a', parse p = Some a' -> ok a' = true) -> model_of keys parse j = Some a -> ok a = true.
Proof. intros Hp. destruct j; try done. cbn [model_of]. destruct (no_extra _ _); [apply Hp | done]. Qed.

Ltac invert_parse E := repeat (let x := fresh "v" in let Hx := fresh "Hv" in apply bind_Some in E as (x & Hx & E)).

Lemma parse_indicator_ok p i : parse_indicator p = Some i -> indicator_ok i = true.
Proof.
  unfold parse_indicator. intros E. invert_parse E. injection E as <-. unfold indicator_ok. cbn.
  apply required_ok with (ok := fun s => text_ok 1 64 s && lower_snake s) in Hv; [|intros j s; apply text_of_ok].
  apply required_ok with (ok := fun s => text_ok 1 64 s && lower_snake s) in Hv0; [|intros j s; apply text_of_ok].
  apply (optional_ok (opt_ok (fun s => text_ok 1 64 s && lower_snake s))) in Hv2; [|done|intros j s; apply nullable_ok, text_of_ok].
  rewrite Hv2. cbv beta in Hv, Hv0. apply andb_true_iff in Hv as [-> ->], Hv0 as [-> ->]. done.
Qed.

Lemma parse_condition_ok j c : parse_condition j = Some c -> condition_ok c = true.
Proof.
  unfold parse_condition. destruct j as [| | | | | entries |]; try done. destruct (_ !! _) as [[| | | | tag | |]|]; try done.
  destruct (String.eqb tag "indicator").
  { apply model_of_ok. intros p a E. unfold parse_indicator_condition in E. invert_parse E. destruct (xor_right_and_value _ _ _) eqn:Ex; [|done].
    injection E as <-. cbn. rewrite Ex, andb_true_r. apply required_ok with (ok := text_ok 1 64) in Hv; [|apply text_of_ok].
    apply (optional_ok (opt_ok (text_ok 1 64))) in Hv1; [|done|intros ? ?; apply nullable_ok, text_of_ok]. by rewrite Hv, Hv1. }
  destruct (String.eqb tag "candle").
  { apply model_of_ok. intros p a E. unfold parse_candle_condition in E. by apply fmap_Some in E as (x & _ & ->). }
  destruct (String.eqb tag "time").
  { apply model_of_ok. intros p a E. unfold parse_time_condition in E. invert_parse E. destruct (between_requires_end _ _) eqn:Eb; [|done].
    injection E as <-. cbn [condition_ok]. rewrite Eb, andb_true_r. apply required_ok with (ok := hhmm) in Hv0; [|apply text_of_ok].
    apply (optional_ok (opt_ok hhmm)) in Hv1; [|done|intros ? ?; apply nullable_ok, text_of_ok]. by rewrite Hv0, Hv1. }
  destruct (String.eqb tag "price"); [|done].
  apply model_of_ok. intros p a E. unfold parse_price_condition in E. invert_parse E. destruct (value_required _ _) eqn:Er; [|done].
  injection E as <-. exact Er.
Qed.

Lemma parse_entry_ok p e : parse_entry p = Some e -> entry_ok e = true.
Proof.
  unfold parse_entry. intros E. invert_parse E. injection E as <-. unfold entry_ok. cbn [er_conditions].
  apply (required_ok (fun l => negb (nilb l) && forallb condition_ok l)) in Hv1; [done|].
  intros j l Hl. apply checked_ok in Hl as [Hl ->]. apply (list_of_ok condition_ok) in Hl; [by rewrite Hl | apply parse_condition_ok].
Qed.

Lemma parse_partial_ok p x : parse_partial p = Some x -> partial_ok x = true.
Proof.
  unfold parse_partial. intros E. invert_parse E. injection E as <-. unfold partial_ok. cbn [pe_qty_percent pe_target_percent].
  apply (required_ok percentage) in Hv; [|apply number_ok]. apply (required_ok above_zero) in Hv0; [|apply number_ok]. by rewrite Hv, Hv0.
Qed.

(** A percentage that may be absent. *)
Lemma optional_number_ok ok p k o : optional None (nullable (number ok)) p k = Some o -> opt_ok ok o = true.
Proof. apply (optional_ok (opt_ok ok)); [done | intros ? ?; apply nullable_ok, number_ok]. Qed.

Lemma parse_exit_ok p x : parse_exit p = Some x -> exit_ok x = true.
Proof.
  unfold parse_exit. intros E. invert_parse E. apply checked_ok in E as [[= <-] Ha]. unfold exit_ok. rewrite Ha, andb_true_r.
  cbn [xr_target_percent xr_stop_loss_percent xr_trailing_stop_percent xr_partial_exits xr_square_off_time xr_indicator_exits].
  apply optional_number_ok in Hv as ->. apply optional_number_ok in Hv0 as ->. apply optional_number_ok in Hv1 as ->.
  apply (optional_ok (forallb partial_ok)) in Hv2 as ->; [|done|intros ? ?; apply list_of_ok; intros ? ?; apply model_of_ok, parse_partial_ok].
  apply (optional_ok (opt_ok hhmm)) in Hv3 as ->; [|done|intros ? ?; apply nullable_ok, text_of_ok].
  by apply (optional_ok (forallb condition_ok)) in Hv4 as ->; [|done|intros ? ?; apply list_of_ok, parse_condition_ok].
Qed.

Lemma parse_risk_ok p r : parse_risk p = Some r -> risk_ok r = true.
Proof.
  unfold parse_risk. intros E. invert_parse E. injection E as <-. unfold risk_ok. cbn.
  apply optional_number_ok in Hv as ->. apply optional_number_ok in Hv2 as ->.
  apply (optional_ok (opt_ok (Z.ltb 0))) in Hv0; [|done|intros ? ?; apply nullable_ok, whole_ok].
  apply (optional_ok (opt_ok (Z.ltb 0))) in Hv1; [|done|intros ? ?; apply nullable_ok, whole_ok].
  change (opt_ok (Z.ltb 0) v0 && opt_ok (Z.ltb 0) v1 && true = true). by rewrite Hv0, Hv1.
Qed.

Lemma validate_ok p v : validate_strategy p = Some v -> strategy_ok v = true.
Proof.
  unfold validate_strategy. destruct (no_extra _ _); [|done]. unfold parse_strategy. intros E. invert_parse E.
  destruct (ids_unique_and_referenced _ _ _) eqn:Ei; [|done]. injection E as <-. unfold strategy_ok.
  cbn [sj_id sj_name sj_version sj_indicators sj_entry sj_exit sj_risk]. rewrite Ei, andb_true_r.
  apply (required_ok (text_ok 1 128)) in Hv as ->; [|apply text_of_ok]. apply (required_ok (text_ok 1 256)) in Hv0 as ->; [|apply text_of_ok].
  apply (optional_ok (Z.leb 1)) in Hv2 as ->; [|done|apply whole_ok].
  apply (optional_ok (forallb indicator_ok)) in Hv3 as ->; [|done|intros ? ?; apply list_of_ok; intros ? ?; apply model_of_ok, parse_indicator_ok].
  apply (required_ok entry_ok) in Hv4 as ->; [|intros ? ?; apply model_of_ok, parse_entry_ok].
  apply (required_ok exit_ok) in Hv5 as ->; [|intros ? ?; apply model_of_ok, parse_exit_ok].
  by apply (optional_ok risk_ok) in Hv6 as ->; [|done|intros ? ?; apply model_of_ok, parse_risk_ok].
Qed.
End Sound.

(** ** What is stored is read back *)

(** A JSON number of the field's own type is taken as it is. *)
Class CoercionLaws `{Coercion} : Prop := {
  to_int_id z : to_int (JInt z) = Some z;
  to_float_id x : to_float (JFloat x) = Some x;
  to_bool_id b : to_bool (JBool b) = Some b
}.

Definition condition_finite (c : Condition) : bool :=
  match c with IndicatorCondition _ _ _ value | PriceCondition _ value => opt_ok is_finite value | _ => true end.

Definition exit_finite (x : ExitRules) : bool :=
  opt_ok is_finite (xr_target_percent x) && opt_ok is_finite (xr_stop_loss_percent x) && opt_ok is_finite (xr_trailing_stop_percent x)
  && forallb (fun p => is_finite (pe_qty_percent p) && is_finite (pe_target_percent p)) (xr_partial_exits x)
  && forallb condition_finite (xr_indicator_exits x).

Definition risk_finite (r : RiskRules) : bool :=
  opt_ok is_finite (rr_max_daily_loss_percent r) && opt_ok is_finite (rr_max_capital_per_trade_percent r).

(** No infinity, no NaN. *)
Definition strategy_finite (v : StrategyJSON) : bool :=
  forallb condition_finite (er_conditions (sj_entry v)) && exit_finite (sj_exit v) && risk_finite (sj_risk v).

Definition entry_get (k : string) (entries : list (string * json)) : option json := snd <$> List.find (fun e => String.eqb k (fst e)) entries.

Lemma lookup_fields entries k : fields entries !! k = entry_get k entries.
Proof.
  unfold fields, entry_get. induction entries as [|[k' j] entries IH]; [done|]. cbn [list_to_map foldr List.find fst].
  destruct (String.eqb_spec k k') as [->|Hne]; [by rewrite lookup_insert_eq | by rewrite lookup_insert_ne].
Qed.

Definition used_in (entries : list (string * json)) (k : field_key) : string :=
  match entry_get (fst k) entries with Some _ => fst k | None => snd k end.

Lemma no_extra_fields keys entries :
  forallb (fun e => one_of (fst e) (map (used_in entries) keys)) entries = true -> no_extra keys (fields entries) = true.
Proof.
  intros E. rewrite forallb_forall in E. apply forallb_forall. intros [k j] Hin. apply list_elem_of_In, elem_of_map_to_list in Hin.
  apply elem_of_list_to_map_2, list_elem_of_In, E in Hin. rewrite <- Hin. f_equal. apply map_ext. intros key. unfold used_key, used_in.
  by rewrite lookup_fields.
Qed.

Section RoundTrip.
Context `{CoercionLaws} (by_alias : bool).

Lemma model_back {A : Type} keys (parse : payload -> option A) entries :
  forallb (fun e => one_of (fst e) (map (used_in entries) keys)) entries = true -> model_of keys parse (JDict entries) = parse (fields entries).
Proof. intros E. cbn [model_of]. by rewrite (no_extra_fields _ _ E). Qed.

Definition entry_given (entries : list (string * json)) (k : field_key) : option json :=
  match entry_get (fst k) entries with Some j => Some j | None => entry_get (snd k) entries end.

Lemma given_fields entries k : given (fields entries) k = entry_given entries k.
Proof. unfold given, entry_given. by rewrite !lookup_fields. Qed.

Lemma required_back {A C : Type} (parse : json -> option A) entries k j a (K : A -> option C) c :
  entry_given entries k = Some j -> parse j = Some a -> K a = c -> (required parse (fields entries) k ≫= K) = c.
Proof. intros E Ea <-. unfold required. rewrite given_fields, E. cbn. by rewrite Ea. Qed.

Lemma optional_back {A C : Type} dflt (parse : json -> option A) entries k j a (K : A -> option C) c :
  entry_given entries k = Some j -> parse j = Some a -> K a = c -> (optional dflt parse (fields entries) k ≫= K) = c.
Proof. intros E Ea <-. unfold optional. rewrite given_fields, E, Ea. done. Qed.

Lemma text_back ok s : ok s = true -> text_of ok (JStr s) = Some s.
Proof. intros E. cbn. by rewrite E. Qed.

Lemma number_back ok x : is_finite x = true -> ok x = true -> number ok (dump_float x) = Some x.
Proof. intros Hf Ho. unfold dump_float. rewrite Hf. unfold number, checked. rewrite to_float_id. cbn. by rewrite Ho. Qed.

Lemma opt_number_back ok o : opt_ok is_finite o = true -> opt_ok ok o = true -> nullable (number ok) (dump_opt dump_float o) = Some o.
Proof.
  destruct o as [x|]; [|done]. cbn [opt_ok dump_opt]. intros Hf Ho. pose proof (number_back ok x Hf Ho) as E. unfold dump_float in *. rewrite Hf in *.
  cbn [nullable]. by rewrite E.
Qed.

Lemma opt_text_back ok o : opt_ok ok o = true -> nullable (text_of ok) (dump_opt JStr o) = Some o.
Proof. destruct o as [s|]; [|done]. cbn. by intros ->. Qed.

Lemma opt_whole_back ok o : opt_ok ok o = true -> nullable (whole ok) (dump_opt JInt o) = Some o.
Proof. destruct o as [z|]; [|done]. cbn. intros Ho. unfold whole, checked. rewrite to_int_id. cbn. by rewrite Ho. Qed.

Lemma list_back {A : Type} (ok : A -> bool) (parse : json -> option A) (dump : A -> json) l :
  (forall a, ok a = true -> parse (dump a) = Some a) -> forallb ok l = true -> list_of parse (JList (map dump l)) = Some l.
Proof.
  intros Hb. cbn [list_of]. induction l as [|a l IH]; [done|]. cbn [forallb map]. intros [Ha Hl]%andb_true_iff.
  change (mapM parse (dump a :: map dump l)) with (b ← parse (dump a); k ← mapM parse (map dump l); Some (b :: k)). by rewrite (Hb a Ha), (IH Hl).
Qed.

Lemma enum_back {A : Type} `{EqDecision A} (table : list (string * A)) a :
  dict_get (value_of table a) table = Some a -> literal table (JStr (value_of table a)) = Some a.
Proof. done. Qed.

Ltac read_field := first [eapply required_back | eapply optional_back]; [destruct by_alias; reflexivity | | cbv beta].

Lemma indicator_back i : indicator_ok i = true -> model_of indicator_keys parse_indicator (dump_indicator by_alias i) = Some i.
Proof.
  unfold indicator_ok. rewrite !andb_true_iff. intros ((((H1 & H2) & H3) & H4) & H5). unfold dump_indicator.
  rewrite model_back by (destruct by_alias; reflexivity). unfold parse_indicator.
  read_field; [apply text_back; by rewrite H1, H2|]. read_field; [apply text_back; by rewrite H3, H4|]. read_field; [reflexivity|].
  read_field; [by apply opt_text_back|]. by destruct i.
Qed.

Lemma condition_back c : condition_ok c && condition_finite c = true -> parse_condition (dump_condition by_alias c) = Some c.
Proof.
  intros [Ho Hf]%andb_true_iff. unfold dump_condition.
  destruct c as [l op r value | pattern | op value end_ | op value]; cbn [condition_ok condition_finite] in *; unfold parse_condition; rewrite lookup_fields.
  - rewrite !andb_true_iff in Ho. destruct Ho as [[Hl Hr] Hx].
    replace (entry_get "type" _) with (Some (JStr "indicator")) by (destruct by_alias; reflexivity). cbn [String.eqb Ascii.eqb Bool.eqb].
    rewrite model_back by (destruct by_alias; reflexivity). unfold parse_indicator_condition.
    read_field; [by apply text_back|]. read_field; [by apply enum_back; destruct op|]. read_field; [by apply opt_text_back|].
    read_field; [apply opt_number_back; [done | by destruct value]|]. by rewrite Hx.
  - replace (entry_get "type" _) with (Some (JStr "candle")) by (destruct by_alias; reflexivity). cbn [String.eqb Ascii.eqb Bool.eqb].
    rewrite model_back by (destruct by_alias; reflexivity). unfold parse_candle_condition, required. rewrite given_fields.
    by destruct by_alias, pattern.
  - rewrite !andb_true_iff in Ho. destruct Ho as [[Hv He] Hb].
    replace (entry_get "type" _) with (Some (JStr "time")) by (destruct by_alias; reflexivity). cbn [String.eqb Ascii.eqb Bool.eqb].
    rewrite model_back by (destruct by_alias; reflexivity). unfold parse_time_condition.
    read_field; [by apply enum_back; destruct op|]. read_field; [by apply text_back|]. read_field; [by apply opt_text_back|]. by rewrite Hb.
  - replace (entry_get "type" _) with (Some (JStr "price")) by (destruct by_alias; reflexivity). cbn [String.eqb Ascii.eqb Bool.eqb].
    rewrite model_back by (destruct by_alias; reflexivity). unfold parse_price_condition.
    read_field; [by apply enum_back; destruct op|]. read_field; [apply opt_number_back; [done | by destruct value]|]. by rewrite Ho.
Qed.

Lemma forallb_both {A : Type} (p q : A -> bool) l : forallb p l = true -> forallb q l = true -> forallb (fun a => p a && q a) l = true.
Proof. induction l as [|a l IH]; [done|]. cbn. intros [-> Hp]%andb_true_iff [-> Hq]%andb_true_iff. by apply IH. Qed.

Lemma entry_back e :
  entry_ok e = true -> forallb condition_finite (er_conditions e) = true -> model_of entry_keys parse_entry (dump_entry by_alias e) = Some e.
Proof.
  unfold entry_ok. intros [Hn Hc]%andb_true_iff Hf. unfold dump_entry. rewrite model_back by (destruct by_alias; reflexivity). unfold parse_entry.
  read_field; [by apply enum_back; destruct (er_side e)|]. read_field; [by apply enum_back; destruct (er_operator e)|].
  assert (Hl : checked (fun l => negb (nilb l)) (list_of parse_condition (JList (map (dump_condition by_alias) (er_conditions e)))) = Some (er_conditions e)).
  { rewrite (list_back _ _ _ _ condition_back (forallb_both _ _ _ Hc Hf)). cbn. by rewrite Hn. }
  read_field; [exact Hl|]. by destruct e.
Qed.

Lemma partial_back p :
  partial_ok p && (is_finite (pe_qty_percent p) && is_finite (pe_target_percent p)) = true ->
  model_of partial_keys parse_partial (dump_partial by_alias p) = Some p.
Proof.
  unfold partial_ok. rewrite !andb_true_iff. intros [[Hq Ht] [Fq Ft]]. unfold dump_partial. rewrite model_back by (destruct by_alias; reflexivity).
  unfold parse_partial. read_field; [by apply number_back|]. read_field; [by apply number_back|]. by destruct p.
Qed.

Lemma exit_back x : exit_ok x = true -> exit_finite x = true -> model_of exit_keys parse_exit (dump_exit by_alias x) = Some x.
Proof.
  unfold exit_ok, exit_finite. rewrite !andb_true_iff. intros ((((((Ht & Hs) & Hr) & Hp) & Hq) & Hi) & Ha) ((((Ft & Fs) & Fr) & Fp) & Fi).
  unfold dump_exit. rewrite model_back by (destruct by_alias; reflexivity). unfold parse_exit.
  read_field; [by apply opt_number_back|]. read_field; [by apply opt_number_back|]. read_field; [by apply opt_number_back|].
  read_field; [apply (list_back _ _ _ _ partial_back), (forallb_both _ _ _ Hp Fp)|]. read_field; [by apply opt_text_back|].
  read_field; [apply (list_back _ _ _ _ condition_back), (forallb_both _ _ _ Hi Fi)|]. read_field; [apply to_bool_id|].
  destruct x. unfold checked. cbn [mbind option_bind]. cbn in Ha |- *. by rewrite Ha.
Qed.

Lemma risk_back r : risk_ok r = true -> risk_finite r = true -> model_of risk_keys parse_risk (dump_risk by_alias r) = Some r.
Proof.
  unfold risk_ok, risk_finite. rewrite !andb_true_iff. intros (((Hl & Ht) & Hs) & Hc) [Fl Fc].
  unfold dump_risk. rewrite model_back by (destruct by_alias; reflexivity). unfold parse_risk.
  read_field; [by apply opt_number_back|]. read_field; [by apply opt_whole_back|]. read_field; [by apply opt_whole_back|].
  read_field; [by apply opt_number_back|]. by destruct r.
Qed.

Lemma execution_back e : model_of execution_keys parse_execution (dump_execution by_alias e) = Some e.
Proof.
  unfold dump_execution. rewrite model_back by (destruct by_alias; reflexivity). unfold parse_execution.
  read_field; [by apply enum_back; destruct (ec_mode e)|]. read_field; [by apply enum_back; destruct (ec_order_type e)|].
  read_field; [by apply enum_back; destruct (ec_product_type e)|]. by destruct e.
Qed.

Lemma stored_back v : strategy_ok v = true -> strategy_finite v = true -> validate_strategy (stored by_alias v) = Some v.
Proof.
  unfold strategy_ok, strategy_finite. rewrite !andb_true_iff. intros (((((((Hi & Hn) & Hv) & Hd) & He) & Hx) & Hr) & Hu) [[Fe Fx] Fr].
  unfold validate_strategy, stored. rewrite no_extra_fields by (destruct by_alias; reflexivity). unfold dump_strategy, parse_strategy.
  read_field; [by apply text_back|]. read_field; [by apply text_back|]. read_field; [by apply enum_back; destruct (sj_mode v)|].
  read_field; [unfold whole, checked; cbn; rewrite to_int_id; cbn; by rewrite Hv|].
  read_field; [apply (list_back _ _ _ _ indicator_back), Hd|]. read_field; [by apply entry_back|]. read_field; [by apply exit_back|].
  read_field; [by apply risk_back|]. read_field; [apply execution_back|]. rewrite Hu. by destruct v.
Qed.
End RoundTrip.

(** ** Properties *)

Lemma no_duplicates_NoDup l : no_duplicates l = true -> List.NoDup l.
Proof.
  induction l as [|x l IH]; [constructor|]. cbn. intros [Hx Hl]%andb_true_iff. constructor; [|by apply IH]. intros Hin.
  apply one_of_In in Hin. by rewrite Hin in Hx.
Qed.

(** What a validated strategy promises the engines. *)
Record well_formed (v : StrategyJSON) : Prop := {
  wf_ids : List.NoDup (map ic_id (sj_indicators v));
  wf_references : forall c i, In c (er_conditions (sj_entry v) ++ xr_indicator_exits (sj_exit v)) -> In i (condition_ids c) -> In i (map ic_id (sj_indicators v));
  wf_entry : er_conditions (sj_entry v) <> [];
  wf_conditions : forall c, In c (er_conditions (sj_entry v) ++ xr_indicator_exits (sj_exit v)) ->
    match c with
    | IndicatorCondition _ op r value => (is_cross op = true -> exists x, r = Some x) /\ ((exists x, r = Some x /\ value = None) \/ (exists y, r = None /\ value = Some y))
    | CandleCondition _ => True
    | TimeCondition op _ end_ => op = BETWEEN <-> end_ <> None
    | PriceCondition op value => is_comparator op = true <-> value <> None
    end;
  wf_exit : at_least_one_exit (sj_exit v) = true;
  wf_stop : opt_ok above_zero (xr_stop_loss_percent (sj_exit v)) = true /\ opt_ok above_zero (xr_trailing_stop_percent (sj_exit v)) = true;
  wf_partials : forall p, In p (xr_partial_exits (sj_exit v)) -> percentage (pe_qty_percent p) = true /\ above_zero (pe_target_percent p) = true;
  wf_caps : opt_ok (Z.ltb 0) (rr_max_trades_per_day (sj_risk v)) = true /\ opt_ok (Z.ltb 0) (rr_max_loss_streak (sj_risk v)) = true
}.

Lemma condition_ok_means c : condition_ok c = true ->
  match c with
  | IndicatorCondition _ op r value => (is_cross op = true -> exists x, r = Some x) /\ ((exists x, r = Some x /\ value = None) \/ (exists y, r = None /\ value = Some y))
  | CandleCondition _ => True
  | TimeCondition op _ end_ => op = BETWEEN <-> end_ <> None
  | PriceCondition op value => is_comparator op = true <-> value <> None
  end.
Proof.
  destruct c as [l op r value | | op value end_ | op value]; cbn [condition_ok]; rewrite ?andb_true_iff; [| done | |].
  - intros (_ & Hx). unfold xor_right_and_value in Hx. apply andb_true_iff in Hx as [Hx Hc].
    destruct r, value; cbn in Hx, Hc; try done; (split; [|eauto]); [eauto|]. intros Hop. by rewrite Hop in Hc.
  - intros (_ & Hb). unfold between_requires_end in Hb. destruct end_, op; first [discriminate Hb | split; intros; first [done | congruence]].
  - intros Hv. unfold value_required in Hv. destruct value, op; first [discriminate Hv | split; intros; first [done | congruence]].
Qed.

Lemma ok_well_formed v : strategy_ok v = true -> well_formed v.
Proof.
  unfold strategy_ok, entry_ok, exit_ok, risk_ok. rewrite !andb_true_iff.
  intros [[[[_ [Hn Hc]] Hx] Hr] Hu]. destruct Hx as ((((((_ & Hs) & Ht) & Hp) & _) & Hi) & Ha), Hr as (((_ & Hd) & Hl) & _).
  unfold ids_unique_and_referenced in Hu. cbv zeta in Hu. apply andb_true_iff in Hu as [Hnd Href]. rewrite forallb_forall in Href.
  assert (Hall : forall c, In c (er_conditions (sj_entry v) ++ xr_indicator_exits (sj_exit v)) -> condition_ok c = true).
  { intros c [Hin | Hin]%in_app_iff; [by apply (proj1 (forallb_forall _ _) Hc) | by apply (proj1 (forallb_forall _ _) Hi)]. }
  constructor; try done.
  - by apply no_duplicates_NoDup.
  - intros c i Hin Hid. apply one_of_In, Href. unfold collect_referenced_ids. rewrite in_app_iff, !in_flat_map.
    apply in_app_iff in Hin as [Hin | Hin]; [left | right]; by exists c.
  - by destruct (er_conditions (sj_entry v)).
  - intros c Hin. by apply condition_ok_means, Hall.
  - intros p Hin. rewrite forallb_forall in Hp. apply Hp in Hin. unfold partial_ok in Hin. by apply andb_true_iff in Hin.
Qed.

(** What the schema accepts, the engines can rely on.  A payload that validates is a
    strategy whose indicator ids are distinct, whose entry and exit conditions name only
    declared indicators, with at least one entry condition and one way out; crossings
    compare two indicators, comparisons have exactly one right side, windows have an
    end; every percentage and every cap is positive. *)
Theorem validated_well_formed `{Coercion} p v : validate_strategy p = Some v -> well_formed v.
Proof. intros E. by eapply ok_well_formed, validate_ok. Qed.

(** C34: a stored strategy is read back.  A strategy that was validated and has no
    infinite number is the one that validates from the column it is stored in, whether
    the column was written with the aliases (the strategy endpoints) or with the field
    names (the clone of a template). *)
Theorem strategy_roundtrip `{CoercionLaws} by_alias p v :
  validate_strategy p = Some v -> strategy_finite v = true -> validate_strategy (stored by_alias v) = Some v.
Proof. intros E Hf. apply stored_back; [by eapply validate_ok | done]. Qed.

(** A strategy whose column is a valid strategy trades futures: the options block and the
    instrument type that would say otherwise are keys the schema forbids. *)
Theorem valid_column_is_futures `{Coercion} strategy p v :
  strategy_json strategy = Some p -> validate_strategy p = Some v -> resolve_instrument_type (Some strategy) = FUTURES.
Proof.
  intros Ep. unfold validate_strategy. destruct (no_extra strategy_keys p) eqn:E; [|done]. intros _. unfold resolve_instrument_type. rewrite Ep.
  assert (Hu : map (used_key p) strategy_keys = ["id"; "name"; "mode"; "version"; "indicators"; "entry"; "exit"; "risk"; "execution"]%string).
  { unfold strategy_keys. rewrite map_map, (map_ext _ id), map_id; [done|]. intros k. unfold used_key, plain. cbn. by destruct (p !! k). }
  assert (Hk : forall k, one_of k (map (used_key p) strategy_keys) = false -> jget p k = JNull).
  { intros k Hk. unfold jget. destruct (p !! k) as [j|] eqn:Ej; [|done]. unfold no_extra in E. rewrite forallb_forall in E.
    apply elem_of_map_to_list, list_elem_of_In, E in Ej. cbn [fst] in Ej. by rewrite Hk in Ej. }
  by rewrite !Hk by (by rewrite Hu).
Qed.

(** ** A strategy: the fast average crosses the slow one *)

#[local] Existing Instance plain_coercion.

#[export] Instance plain_coercion_laws : CoercionLaws.
Proof. done. Qed.

Definition average_line (id : string) (length : Z) : json :=
  JDict [("id", JStr id); ("type", JStr "ema"); ("params", JDict [("length"%string, JInt length)])]%string.

Definition cross_entries (exit_ : list (string * json)) : list (string * json) :=
  [("id", JStr "s1"); ("name", JStr "EMA cross"); ("mode", JStr "expert");
   ("indicators", JList [average_line "ema_9" 9; average_line "ema_21" 21]);
   ("entry", JDict [("side", JStr "BUY");
                    ("conditions", JList [JDict [("type", JStr "indicator"); ("left", JStr "ema_9"); ("op", JStr "crossover"); ("right", JStr "ema_21")]])]);
   ("exit", JDict exit_); ("execution", JDict [("mode", JStr "live"); ("orderType", JStr "MARKET"); ("productType", JStr "INTRADAY")])]%string.

Definition cross_payload : payload := fields (cross_entries [("stopLossPercent", JInt 2); ("target_percent", JInt 5)]%string).

Definition cross_strategy : StrategyJSON :=
  {| sj_id := "s1"; sj_name := "EMA cross"; sj_mode := EXPERT; sj_version := 1;
     sj_indicators := [{| ic_id := "ema_9"; ic_type := "ema"; ic_params := [("length"%string, JInt 9)]; ic_output := None |};
                       {| ic_id := "ema_21"; ic_type := "ema"; ic_params := [("length"%string, JInt 21)]; ic_output := None |}];
     sj_entry := {| er_side := BUY; er_operator := op_AND; er_conditions := [IndicatorCondition "ema_9" CROSSOVER (Some "ema_21"%string) None] |};
     sj_exit := {| xr_target_percent := Some (f_of_Z 5); xr_stop_loss_percent := Some (f_of_Z 2); xr_trailing_stop_percent := None; xr_partial_exits := [];
                   xr_square_off_time := None; xr_indicator_exits := []; xr_reverse_signal_exit := false |};
     sj_risk := no_risk_rules; sj_execution := {| ec_mode := LIVE_MODE; ec_order_type := SO_MARKET; ec_product_type := SP_INTRADAY |} |}.

Lemma cross_validates : validate_strategy cross_payload = Some cross_strategy.
Proof. vm_compute. reflexivity. Qed.

Lemma validated_well_formed_witness : well_formed cross_strategy.
Proof. exact (validated_well_formed cross_payload cross_strategy cross_validates). Defined.

Lemma strategy_roundtrip_witness :
  validate_strategy (stored true cross_strategy) = Some cross_strategy /\ validate_strategy (stored false cross_strategy) = Some cross_strategy.
Proof.
  split; [exact (strategy_roundtrip true cross_payload cross_strategy cross_validates eq_refl)
         | exact (strategy_roundtrip false cross_payload cross_strategy cross_validates eq_refl)].
Defined.

(** An hour of 99 passes the schema. *)
Example square_off_99 : validate_strategy (fields (cross_entries [("squareOffTime", JStr "99:99")]%string)) <> None.
Proof. vm_compute. discriminate. Qed.

(** So do two partial exits of the same size, and partial exits of more than the position. *)
Example partials_unchecked :
  let partial q t := JDict [("qtyPercent", JInt q); ("targetPercent", JInt t)]%string in
  validate_strategy (fields (cross_entries [("partialExits", JList [partial 50 1; partial 50 2])]%string)) <> None
  /\ validate_strategy (fields (cross_entries [("partialExits", JList [partial 60 1; partial 70 2])]%string)) <> None.
Proof. vm_compute. split; discriminate. Qed.
