(* ===== verification/Engines.v ===== *)
(** * The engines of the strategy engine (backend/app/strategy_engine/engines/)

    Conditions, the entry decision, the exit events of a bar, the position of a run and
    the risk verdict, over validated strategies ([StrategyDsl]) and candles.  Floats are
    IEEE doubles and every comparison is the one the code makes.

    A label or a message is a function of the condition or the code it describes, so the
    condition or the code stands for it.  A mapping of indicator values leaves out the
    names whose value is [None], which every reader treats alike. *)

From Stdlib Require Import ZArith Lia List Bool Ascii String SpecFloat.
From stdpp Require Import base list strings gmap.
From S2P Require Import Prelude PyText PyFloat PyDecimal PyNum Records Enums Models AnomalyShield TradeDna StrategyDsl.

Inductive engine_error : Type := EValueError | EValidationError | EInvalidOperation | EIndexError | EAssertionError | EZeroDivisionError | ETypeError.

Definition f_eqb (x y : float64) : bool := SFeqb x y.

(** [max(a, b)] and [min(a, b)]: the first unless the second is strictly better. *)
Definition py_max (a b : float64) : float64 := if f_ltb a b then b else a.
Definition py_min (a b : float64) : float64 := if f_ltb b a then b else a.

Definition hundred : float64 := f_of_Z 100.
Definition f_one : float64 := f_of_Z 1.

(** ** Candles (schema/ohlcv.py) *)

(** A wall clock in microseconds and the offset of its zone. *)
Record moment : Type := { m_wall : Z; m_offset : option Z }.

Definition DAY_US : Z := 86400000000.
Definition MINUTE_US : Z := 60000000.
Definition date_of (t : moment) : Z := m_wall t / DAY_US.
Definition time_of (t : moment) : Z := m_wall t mod DAY_US.

Record Candle : Type := { cd_timestamp : moment; cd_open : float64; cd_high : float64; cd_low : float64; cd_close : float64; cd_volume : float64 }.

Definition not_negative (x : float64) : bool := f_leb f_zero x.

(** The fields and [_check_ohlc_invariant]. *)
Definition candle_ok (c : Candle) : bool :=
  not_negative (cd_open c) && not_negative (cd_high c) && not_negative (cd_low c) && not_negative (cd_close c) && not_negative (cd_volume c)
  && negb (f_ltb (cd_high c) (cd_low c))
  && negb (f_ltb (cd_open c) (cd_low c) || f_ltb (cd_high c) (cd_open c)) && negb (f_ltb (cd_close c) (cd_low c) || f_ltb (cd_high c) (cd_close c)).

(** ** Conditions *)

Abbreviation values := (gmap string float64).

(** *** candle_pattern.py *)

Definition DOJI_BODY_RATIO : float64 := float_of_decimal 10 (-2).
Definition HAMMER_BODY_RATIO : float64 := float_of_decimal 30 (-2).
Definition HAMMER_SHADOW_RATIO : float64 := float_of_decimal 60 (-2).
Definition half : float64 := float_of_decimal 5 (-1).

Definition is_doji (c : Candle) : bool :=
  let rng := f_sub (cd_high c) (cd_low c) in
  if f_leb rng f_zero then true else f_leb (f_abs (f_sub (cd_close c) (cd_open c))) (f_mul rng DOJI_BODY_RATIO).

Definition body_top (c : Candle) : float64 := py_max (cd_open c) (cd_close c).
Definition body_bottom (c : Candle) : float64 := py_min (cd_open c) (cd_close c).

Definition is_hammer (c : Candle) : bool :=
  let rng := f_sub (cd_high c) (cd_low c) in
  if f_leb rng f_zero then false
  else
    let upper_shadow := f_sub (cd_high c) (body_top c) in
    let lower_shadow := f_sub (body_bottom c) (cd_low c) in
    f_leb (f_sub (body_top c) (body_bottom c)) (f_mul rng HAMMER_BODY_RATIO) && f_leb (f_mul rng HAMMER_SHADOW_RATIO) lower_shadow
    && f_leb upper_shadow (f_mul lower_shadow half).

Definition is_shooting_star (c : Candle) : bool :=
  let rng := f_sub (cd_high c) (cd_low c) in
  if f_leb rng f_zero then false
  else
    let upper_shadow := f_sub (cd_high c) (body_top c) in
    let lower_shadow := f_sub (body_bottom c) (cd_low c) in
    f_leb (f_sub (body_top c) (body_bottom c)) (f_mul rng HAMMER_BODY_RATIO) && f_leb (f_mul rng HAMMER_SHADOW_RATIO) upper_shadow
    && f_leb lower_shadow (f_mul upper_shadow half).

Definition bar_direction (c : Candle) : Z :=
  if f_ltb (cd_open c) (cd_close c) then 1 else if f_ltb (cd_close c) (cd_open c) then -1 else 0.

Definition is_engulfing (current prior : Candle) : bool :=
  f_leb (body_bottom current) (body_bottom prior) && f_leb (body_top prior) (body_top current)
  && negb (bar_direction prior =? 0) && negb (bar_direction current =? 0) && negb (bar_direction prior =? bar_direction current).

Definition detect_candle_pattern (pattern : CandlePattern) (current : Candle) (prior : option Candle) : bool :=
  match pattern with
  | BULLISH => f_ltb (cd_open current) (cd_close current)
  | BEARISH => f_ltb (cd_close current) (cd_open current)
  | DOJI => is_doji current
  | HAMMER => is_hammer current
  | SHOOTING_STAR => is_shooting_star current
  | ENGULFING => match prior with Some p => is_engulfing current p | None => false end
  end.

(** *** price_condition.py *)

Definition evaluate_price_condition (op : PriceConditionOp) (value : option float64) (current : Candle) (prior : option Candle)
  : result engine_error bool :=
  match op with
  | PREVIOUS_HIGH_BREAKOUT => Ok (match prior with Some p => f_ltb (cd_high p) (cd_high current) | None => false end)
  | PREVIOUS_LOW_BREAKDOWN => Ok (match prior with Some p => f_ltb (cd_low current) (cd_low p) | None => false end)
  | _ =>
      match value with
      | None => Err EAssertionError
      | Some v =>
          let close := cd_close current in
          Ok match op with
             | PO_GT => f_ltb v close | PO_LT => f_ltb close v | PO_GTE => f_leb v close | _ => f_leb close v
             end
      end
  end.

(** *** time_condition.py *)

(** Minutes of the day; only an hour and a minute of the clock. *)
Definition parse_hhmm (s : string) : result engine_error Z :=
  match L s with
  | [h1; h2; _; m1; m2] =>
      let hour := 10 * digit_val h1 + digit_val h2 in
      let minute := 10 * digit_val m1 + digit_val m2 in
      if (hour <=? 23) && (minute <=? 59) then Ok (60 * hour + minute) else Err EValueError
  | _ => Err EValueError
  end.

Definition evaluate_time_condition (op : TimeConditionOp) (value : string) (end_ : option string) (at_ : moment) : result engine_error bool :=
  target ← parse_hhmm value;
  let bar := time_of at_ in
  match op with
  | EXACT => Ok (bar / MINUTE_US =? target)
  | AFTER => Ok (target * MINUTE_US <? bar)
  | BEFORE => Ok (bar <? target * MINUTE_US)
  | BETWEEN =>
      match end_ with
      | None => Err EValueError
      | Some e =>
          finish ← parse_hhmm e;
          if finish <? target then Err EValueError else Ok ((target * MINUTE_US <=? bar) && (bar <=? finish * MINUTE_US))
      end
  end.

(** *** indicator_eval.py *)

Definition compare (op : IndicatorConditionOp) (l r : float64) : result engine_error bool :=
  match op with
  | IO_GT => Ok (f_ltb r l) | IO_LT => Ok (f_ltb l r) | IO_GTE => Ok (f_leb r l) | IO_LTE => Ok (f_leb l r)
  | IO_EQ => Ok (f_eqb l r) | IO_NEQ => Ok (negb (f_eqb l r))
  | CROSSOVER | CROSSUNDER => Err EValueError
  end.

Definition evaluate_cross (op : IndicatorConditionOp) (l : string) (r : option string) (current : values) (prior : option values) : bool :=
  match prior, r with
  | Some before, Some right_ =>
      match before !! l, before !! right_, current !! l, current !! right_ with
      | Some left_prev, Some right_prev, Some left_now, Some right_now =>
          if bool_decide (op = CROSSOVER) then f_leb left_prev right_prev && f_ltb right_now left_now
          else f_leb right_prev left_prev && f_ltb left_now right_now
      | _, _, _, _ => false
      end
  | _, _ => false
  end.

Definition resolve_rhs (r : option string) (value : option float64) (current : values) : option float64 :=
  match r with Some name => current !! name | None => value end.

Definition evaluate_indicator_condition (l : string) (op : IndicatorConditionOp) (r : option string) (value : option float64)
    (current : values) (prior : option values) : result engine_error bool :=
  match current !! l with
  | None => Ok false
  | Some left_now =>
      if is_cross op then Ok (evaluate_cross op l r current prior)
      else match resolve_rhs r value current with None => Ok false | Some right_now => compare op left_now right_now end
  end.

(** ** Entry (entry.py) *)

Definition evaluate_condition (c : Condition) (current : Candle) (prior : option Candle) (now : values) (before : option values)
  : result engine_error bool :=
  match c with
  | IndicatorCondition l op r value => evaluate_indicator_condition l op r value now before
  | CandleCondition pattern => Ok (detect_candle_pattern pattern current prior)
  | TimeCondition op value end_ => evaluate_time_condition op value end_ (cd_timestamp current)
  | PriceCondition op value => evaluate_price_condition op value current prior
  end.

Record EntryDecision : Type := { ed_should_enter : bool; ed_side : option OrderSide; ed_reasons : list Condition; ed_failed : list Condition }.

Fixpoint sort_conditions (cs : list Condition) (eval : Condition -> result engine_error bool) : result engine_error (list Condition * list Condition) :=
  match cs with
  | [] => Ok ([], [])
  | c :: cs' =>
      passed ← eval c;
      '(matched, failed) ← sort_conditions cs' eval;
      Ok (if passed : bool then (c :: matched, failed) else (matched, c :: failed))
  end.

Definition evaluate_entry (strategy : StrategyJSON) (current : Candle) (prior : option Candle) (now : values) (before : option values)
  : result engine_error EntryDecision :=
  let rules := sj_entry strategy in
  '(matched, failed) ← sort_conditions (er_conditions rules) (fun c => evaluate_condition c current prior now before);
  let fired := match er_operator rules with op_AND => nilb failed | op_OR => negb (nilb matched) end in
  Ok {| ed_should_enter := fired; ed_side := if fired then Some (er_side rules) else None; ed_reasons := matched; ed_failed := failed |}.

(** ** Position (position.py) *)

Record PartialExitRecord : Type := { px_qty_percent : float64; px_price : float64; px_timestamp : moment }.

Record PositionState : Type := {
  ps_is_open : bool;
  ps_side : OrderSide;
  ps_entry_price : float64;
  ps_entry_time : moment;
  ps_quantity : float64;
  ps_remaining : float64;
  ps_highest : float64;
  ps_lowest : float64;
  ps_trail : option float64;
  ps_partials : list PartialExitRecord
}.

#[export] Instance PositionState_eta : Eta PositionState := fun p =>
  {| ps_is_open := ps_is_open p; ps_side := ps_side p; ps_entry_price := ps_entry_price p; ps_entry_time := ps_entry_time p;
     ps_quantity := ps_quantity p; ps_remaining := ps_remaining p; ps_highest := ps_highest p; ps_lowest := ps_lowest p;
     ps_trail := ps_trail p; ps_partials := ps_partials p |}.

Definition open_position (side : OrderSide) (entry_price quantity : float64) (entry_time : moment) : result engine_error PositionState :=
  if f_leb entry_price f_zero then Err EValueError
  else if f_leb quantity f_zero then Err EValueError
  else if above_zero entry_price && above_zero quantity
  then Ok {| ps_is_open := true; ps_side := side; ps_entry_price := entry_price; ps_entry_time := entry_time; ps_quantity := quantity;
             ps_remaining := quantity; ps_highest := entry_price; ps_lowest := entry_price; ps_trail := None; ps_partials := [] |}
  else Err EValidationError.

Definition ratchet_trail (side : OrderSide) (current_trail : option float64) (high low trailing_pct : float64) : option float64 :=
  let factor := f_div trailing_pct hundred in
  match side with
  | BUY =>
      let candidate := f_mul high (f_sub f_one factor) in
      match current_trail with
      | None => Some candidate
      | Some t => if f_ltb t candidate then Some candidate else Some t
      end
  | SELL =>
      let candidate := f_mul low (f_add f_one factor) in
      match current_trail with
      | None => Some candidate
      | Some t => if f_ltb candidate t then Some candidate else Some t
      end
  end.

Definition update_on_candle (position : PositionState) (candle : Candle) (trailing_stop_percent : option float64) : PositionState :=
  if negb (ps_is_open position) then position
  else
    let new_high := py_max (ps_highest position) (cd_high candle) in
    let new_low := py_min (ps_lowest position) (cd_low candle) in
    let new_trail :=
      match trailing_stop_percent with
      | Some pct => if above_zero pct then ratchet_trail (ps_side position) (ps_trail position) new_high new_low pct else ps_trail position
      | None => ps_trail position
      end in
    position <| ps_highest := new_high |> <| ps_lowest := new_low |> <| ps_trail := new_trail |>.

Definition over_exit : float64 := f_neg (float_of_decimal 1 (-9)).

Definition apply_partial_exit (position : PositionState) (qty_percent price : float64) (timestamp : moment) : result engine_error PositionState :=
  if negb (ps_is_open position) then Err EValueError
  else if f_leb qty_percent f_zero || f_ltb hundred qty_percent then Err EValueError
  else if f_leb price f_zero then Err EValueError
  else
    let qty_to_close := f_mul (ps_quantity position) (f_div qty_percent hundred) in
    let new_remaining := f_sub (ps_remaining position) qty_to_close in
    if f_ltb new_remaining over_exit then Err EValueError
    else
      let new_remaining := py_max f_zero new_remaining in
      if percentage qty_percent && above_zero price
      then Ok (position <| ps_remaining := new_remaining |>
                 <| ps_partials := ps_partials position ++ [{| px_qty_percent := qty_percent; px_price := price; px_timestamp := timestamp |}] |>
                 <| ps_is_open := f_ltb f_zero new_remaining |>)
      else Err EValidationError.

Definition close_position (position : PositionState) : PositionState :=
  if negb (ps_is_open position) then position else position <| ps_is_open := false |> <| ps_remaining := f_zero |>.

(** ** Exits (exit.py) *)

Inductive ExitType : Type := X_TARGET | X_STOP_LOSS | X_TRAILING_STOP | X_PARTIAL | X_INDICATOR | X_REVERSE_SIGNAL | X_TIME | X_SQUARE_OFF.

#[export] Instance ExitType_eq_dec : EqDecision ExitType.
Proof. solve_decision. Defined.

(** A partial's reason names its number and its two percentages. *)
Record ExitEvent : Type := { xe_type : ExitType; xe_qty_percent : float64; xe_price : float64; xe_partial : option (nat * PartialExit) }.

(** The event is a model: its price must be positive. *)
Definition exit_event (t : ExitType) (qty price : float64) (partial : option (nat * PartialExit)) : result engine_error (list ExitEvent) :=
  if percentage qty && above_zero price then Ok [{| xe_type := t; xe_qty_percent := qty; xe_price := price; xe_partial := partial |}]
  else Err EValidationError.

Definition level_above (position : PositionState) (percent : float64) : float64 :=
  let factor := f_div percent hundred in
  match ps_side position with
  | BUY => f_mul (ps_entry_price position) (f_add f_one factor)
  | SELL => f_mul (ps_entry_price position) (f_sub f_one factor)
  end.

Definition level_below (position : PositionState) (percent : float64) : float64 :=
  let factor := f_div percent hundred in
  match ps_side position with
  | BUY => f_mul (ps_entry_price position) (f_sub f_one factor)
  | SELL => f_mul (ps_entry_price position) (f_add f_one factor)
  end.

Definition bar_crossed_long (side : OrderSide) (c : Candle) (level : float64) : bool :=
  match side with BUY => f_leb level (cd_high c) | SELL => f_leb (cd_low c) level end.

Definition bar_crossed_short (side : OrderSide) (c : Candle) (level : float64) : bool :=
  match side with BUY => f_leb (cd_low c) level | SELL => f_leb level (cd_high c) end.

Fixpoint partial_events (position : PositionState) (c : Candle) (idx : nat) (partials : list PartialExit) : result engine_error (list ExitEvent) :=
  match partials with
  | [] => Ok []
  | p :: partials' =>
      let price := level_above position (pe_target_percent p) in
      e ← (if bar_crossed_long (ps_side position) c price then exit_event X_PARTIAL (pe_qty_percent p) price (Some (idx, p)) else Ok []);
      es ← partial_events position c (S idx) partials';
      Ok (e ++ es)
  end.

(** Conditions of another kind are passed over. *)
Fixpoint indicator_events (c : Candle) (now : values) (before : option values) (exits : list Condition) : result engine_error (list ExitEvent) :=
  match exits with
  | [] => Ok []
  | x :: exits' =>
      e ← (match x with
           | IndicatorCondition l op r value =>
               fired ← evaluate_indicator_condition l op r value now before;
               if fired : bool then exit_event X_INDICATOR hundred (cd_close c) None else Ok []
           | _ => Ok []
           end);
      es ← indicator_events c now before exits';
      Ok (e ++ es)
  end.

Definition square_off_events (c : Candle) (square_off : option string) : result engine_error (list ExitEvent) :=
  match square_off with
  | None => Ok []
  | Some s =>
      exact_ ← evaluate_time_condition EXACT s None (cd_timestamp c);
      due ← (if exact_ : bool then Ok true else evaluate_time_condition AFTER s None (cd_timestamp c));
      if due : bool then exit_event X_SQUARE_OFF hundred (cd_close c) None else Ok []
  end.

Definition evaluate_exit (position : PositionState) (c : Candle) (rules : ExitRules) (now : values) (before : option values) (reverse_signal_fired : bool)
  : result engine_error (list ExitEvent) :=
  if negb (ps_is_open position) then Ok []
  else
    let side := ps_side position in
    target ← (match xr_target_percent rules with
              | Some pct => if bar_crossed_long side c (level_above position pct) then exit_event X_TARGET hundred (level_above position pct) None else Ok []
              | None => Ok []
              end);
    stop ← (match xr_stop_loss_percent rules with
            | Some pct => if bar_crossed_short side c (level_below position pct) then exit_event X_STOP_LOSS hundred (level_below position pct) None else Ok []
            | None => Ok []
            end);
    trailing ← (match xr_trailing_stop_percent rules, ps_trail position with
                | Some _, Some trail => if bar_crossed_short side c trail then exit_event X_TRAILING_STOP hundred trail None else Ok []
                | _, _ => Ok []
                end);
    partials ← partial_events position c 1 (xr_partial_exits rules);
    indicators ← indicator_events c now before (xr_indicator_exits rules);
    reverse ← (if xr_reverse_signal_exit rules && reverse_signal_fired then exit_event X_REVERSE_SIGNAL hundred (cd_close c) None else Ok []);
    square_off ← square_off_events c (xr_square_off_time rules);
    Ok (target ++ stop ++ trailing ++ partials ++ indicators ++ reverse ++ square_off).

(** ** Risk (risk.py) *)

Inductive RiskSeverity : Type := RS_INFO | RS_WARNING | RS_ERROR | RS_BLOCK.

#[export] Instance RiskSeverity_eq_dec : EqDecision RiskSeverity.
Proof. solve_decision. Defined.

Definition severity_rank (s : RiskSeverity) : Z := match s with RS_INFO => 0 | RS_WARNING => 1 | RS_ERROR => 2 | RS_BLOCK => 3 end.

Inductive risk_code : Type :=
| missing_stop_loss | too_many_indicators | no_risk_caps | daily_loss_cap_hit | max_trades_per_day_hit | loss_streak_cap_hit.

Record RiskMessage : Type := { rm_severity : RiskSeverity; rm_code : risk_code }.

Record RiskRuntimeStats : Type := { rs_daily_pnl_percent : option float64; rs_trades_today : option Z; rs_loss_streak : option Z }.

Record RiskAssessment : Type := { ra_allowed : bool; ra_severity : RiskSeverity; ra_messages : list RiskMessage }.

Definition TOO_MANY_INDICATORS_THRESHOLD : nat := 8.

Definition has_stop (rules : ExitRules) : bool := negb (absent (xr_stop_loss_percent rules)) || negb (absent (xr_trailing_stop_percent rules)).

Definition note (b : bool) (s : RiskSeverity) (c : risk_code) : list RiskMessage := if b then [{| rm_severity := s; rm_code := c |}] else [].

Definition static_messages (strategy : StrategyJSON) : list RiskMessage :=
  let risk := sj_risk strategy in
  note (negb (has_stop (sj_exit strategy))) RS_WARNING missing_stop_loss
  ++ note (TOO_MANY_INDICATORS_THRESHOLD <? length (sj_indicators strategy))%nat RS_WARNING too_many_indicators
  ++ note (absent (rr_max_daily_loss_percent risk) && absent (rr_max_trades_per_day risk) && absent (rr_max_loss_streak risk)) RS_INFO no_risk_caps.

(** [-Decimal(str(pnl)) >= Decimal(str(cap))]: an order with NaN raises. *)
Definition loss_met (pnl cap : float64) : result engine_error bool :=
  match dec_of_float pnl, dec_of_float cap with
  | Some p, Some c => Ok (dleb c (dneg p))
  | _, _ => match pnl, cap with
            | S754_nan, _ | _, S754_nan => Err EInvalidOperation
            | _, _ => Ok (f_leb cap (f_neg pnl))
            end
  end.

Definition reached (count cap : option Z) : bool := match count, cap with Some n, Some c => c <=? n | _, _ => false end.

Definition runtime_messages (strategy : StrategyJSON) (stats : RiskRuntimeStats) : result engine_error (list RiskMessage) :=
  let risk := sj_risk strategy in
  lossy ← (match rr_max_daily_loss_percent risk, rs_daily_pnl_percent stats with Some cap, Some pnl => loss_met pnl cap | _, _ => Ok false end);
  Ok (note lossy RS_BLOCK daily_loss_cap_hit
      ++ note (reached (rs_trades_today stats) (rr_max_trades_per_day risk)) RS_BLOCK max_trades_per_day_hit
      ++ note (reached (rs_loss_streak stats) (rr_max_loss_streak risk)) RS_BLOCK loss_streak_cap_hit).

(** The first of the worst. *)
Fixpoint worst (messages : list RiskMessage) : option RiskMessage :=
  match messages with
  | [] => None
  | m :: messages' =>
      match worst messages' with
      | Some m' => if severity_rank (rm_severity m) <? severity_rank (rm_severity m') then Some m' else Some m
      | None => Some m
      end
  end.

Definition evaluate_risk (strategy : StrategyJSON) (stats : option RiskRuntimeStats) : result engine_error RiskAssessment :=
  runtime ← (match stats with Some s => runtime_messages strategy s | None => Ok [] end);
  let messages := static_messages strategy ++ runtime in
  Ok {| ra_allowed := negb (existsb (fun m => bool_decide (rm_severity m = RS_BLOCK)) messages);
        ra_severity := match worst messages with Some m => rm_severity m | None => RS_INFO end; ra_messages := messages |}.

(** ** The order of doubles *)

(** Sign and size, exponent, digits. *)
Definition f_key (x : float64) : option (Z * Z * Z) :=
  match x with
  | S754_nan => None
  | S754_infinity true => Some (-2, 0, 0)
  | S754_finite true m e => Some (-1, - e, - Z.pos m)
  | S754_zero _ => Some (0, 0, 0)
  | S754_finite false m e => Some (1, e, Z.pos m)
  | S754_infinity false => Some (2, 0, 0)
  end.

Definition key_lt (a b : Z * Z * Z) : Prop :=
  let '(s1, e1, m1) := a in let '(s2, e2, m2) := b in s1 < s2 \/ (s1 = s2 /\ (e1 < e2 \/ (e1 = e2 /\ m1 < m2))).

Lemma f_compare_key x y :
  match SFcompare x y with
  | None => f_key x = None \/ f_key y = None
  | Some c => exists a b, f_key x = Some a /\ f_key y = Some b /\ match c with Lt => key_lt a b | Eq => a = b | Gt => key_lt b a end
  end.
Proof.
  destruct x as [s|[]| |[] m e], y as [s'|[]| |[] m' e']; cbn; try (by auto); try (do 2 eexists; split; [done|]; split; [done|]; cbn; first [done | lia]).
  all: do 2 eexists; (split; [done|]); (split; [done|]); destruct (Z.compare_spec e e') as [->|?|?]; cbn; try lia.
  all: change (Pos.compare_cont Eq m m') with (Pos.compare m m'); destruct (Pos.compare_spec m m') as [->|?|?]; cbn; try done; lia.
Qed.

Lemma f_ltb_key x y : f_ltb x y = true <-> exists a b, f_key x = Some a /\ f_key y = Some b /\ key_lt a b.
Proof.
  unfold f_ltb, SFltb. pose proof (f_compare_key x y) as Hc. destruct (SFcompare x y) as [c|].
  - destruct Hc as (a & b & Ha & Hb & Hab). split.
    + destruct c; try done. intros _. by exists a, b.
    + intros (a' & b' & Ha' & Hb' & Hlt). rewrite Ha in Ha'. rewrite Hb in Hb'. injection Ha' as <-. injection Hb' as <-.
      destruct a as [[s1 e1] m1], b as [[s2 e2] m2]. destruct c; [|done|]; cbn in Hlt, Hab; [simplify_eq|]; lia.
  - split; [done|]. intros (a & b & Ha & Hb & _). destruct Hc; congruence.
Qed.

Lemma f_leb_key x y : f_leb x y = true <-> exists a b, f_key x = Some a /\ f_key y = Some b /\ ~ key_lt b a.
Proof.
  unfold f_leb, SFleb. pose proof (f_compare_key x y) as Hc. destruct (SFcompare x y) as [c|].
  - destruct Hc as (a & b & Ha & Hb & Hab). split.
    + intros E. exists a, b. split_and!; try done. destruct a as [[s1 e1] m1], b as [[s2 e2] m2]. destruct c; cbn in *; [simplify_eq| |done]; lia.
    + intros (a' & b' & Ha' & Hb' & Hlt). rewrite Ha in Ha'. rewrite Hb in Hb'. injection Ha' as <-. injection Hb' as <-. by destruct c.
  - split; [done|]. intros (a & b & Ha & Hb & _). destruct Hc; congruence.
Qed.

Lemma f_leb_trans x y z : f_leb x y = true -> f_leb y z = true -> f_leb x z = true.
Proof.
  rewrite !f_leb_key. intros (a & b & Ha & Hb & Hab) (b' & c & Hb' & Hc & Hbc). rewrite Hb in Hb'. injection Hb' as <-. exists a, c. split_and!; try done.
  destruct a as [[? ?] ?], b as [[? ?] ?], c as [[? ?] ?]. cbn in *. lia.
Qed.

Lemma f_lt_not_leb x y : f_ltb x y = true -> f_leb y x = false.
Proof.
  intros Hlt. apply not_true_iff_false. intros Hle. apply f_ltb_key in Hlt as (a & b & Ha & Hb & Hlt). apply f_leb_key in Hle as (b' & a' & Hb' & Ha' & Hle).
  rewrite Ha in Ha'. rewrite Hb in Hb'. injection Ha' as <-. injection Hb' as <-. done.
Qed.

(** Numbers that are comparable with themselves. *)
Definition is_number (x : float64) : bool := f_leb x x.

Lemma f_total x y : is_number x = true -> is_number y = true -> f_ltb x y = false -> f_leb y x = true.
Proof.
  unfold is_number. rewrite !f_leb_key. intros (a & _ & Ha & _) (b & _ & Hb & _) Hn. exists b, a. split_and!; try done. intros Hlt.
  enough (f_ltb x y = true) by congruence. apply f_ltb_key. by exists a, b.
Qed.

Lemma f_leb_number x y : f_leb x y = true -> is_number x = true /\ is_number y = true.
Proof. intros E. split; eapply f_leb_refl; [left | right]; exact E. Qed.

Lemma above_zero_number x : above_zero x = true -> is_number x = true.
Proof. intros E. by apply f_ltb_leb, f_leb_number in E as [_ ?]. Qed.

(** The larger of two numbers. *)
Lemma py_max_spec x y : is_number x = true -> is_number y = true ->
  f_leb x (py_max x y) = true /\ f_leb y (py_max x y) = true /\ is_number (py_max x y) = true.
Proof.
  intros Hx Hy. unfold py_max. destruct (f_ltb x y) eqn:E; [split_and!; [by apply f_ltb_leb | done | done]|]. split_and!; [done | by apply f_total | done].
Qed.

Lemma py_min_spec x y : is_number x = true -> is_number y = true ->
  f_leb (py_min x y) x = true /\ f_leb (py_min x y) y = true /\ is_number (py_min x y) = true.
Proof.
  intros Hx Hy. unfold py_min. destruct (f_ltb y x) eqn:E; [split_and!; [by apply f_ltb_leb | done | done]|]. split_and!; [done | by apply f_total | done].
Qed.

(** ** Positions *)

(** What [_check_invariants] asks of a position and no later copy checks again: ordered
    watermarks around the entry, and nothing left of a closed one. *)
Record position_ok (p : PositionState) : Prop := {
  po_entry : above_zero (ps_entry_price p) = true;
  po_quantity : above_zero (ps_quantity p) = true;
  po_high : f_leb (ps_entry_price p) (ps_highest p) = true;
  po_low : f_leb (ps_lowest p) (ps_entry_price p) = true;
  po_closed : ps_is_open p = false -> f_eqb (ps_remaining p) f_zero = true;
  po_left : ps_is_open p = true -> above_zero (ps_remaining p) = true
}.

Lemma position_watermarks p : position_ok p -> f_leb (ps_lowest p) (ps_highest p) = true.
Proof. intros Hp. eapply f_leb_trans; [apply Hp | apply Hp]. Qed.

Lemma open_position_ok side price quantity at_ p : open_position side price quantity at_ = Ok p -> position_ok p /\ ps_is_open p = true.
Proof.
  unfold open_position. destruct (f_leb price f_zero), (f_leb quantity f_zero); try done. destruct (above_zero price && above_zero quantity) eqn:E; [|done].
  apply andb_true_iff in E as [Ep Eq]. intros [= <-]. split; [|done]. split; try done; by apply above_zero_number.
Qed.

Lemma candle_numbers c : candle_ok c = true -> is_number (cd_high c) = true /\ is_number (cd_low c) = true.
Proof.
  unfold candle_ok, not_negative. rewrite !andb_true_iff. intros Hc. destruct Hc as (((((((_ & Hh) & Hl) & _) & _) & _) & _) & _).
  apply f_leb_number in Hh as [_ Hh], Hl as [_ Hl]. done.
Qed.

Lemma update_on_candle_ok p c pct : position_ok p -> candle_ok c = true -> position_ok (update_on_candle p c pct).
Proof.
  intros Hp Hc. unfold update_on_candle. destruct (ps_is_open p) eqn:Eo; [|done]. cbn [negb]. destruct (candle_numbers c Hc) as [Hh Hl].
  destruct Hp as [H1 H2 H3 H4 H5 H6]. pose proof (proj2 (f_leb_number _ _ H3)) as Nh. pose proof (proj1 (f_leb_number _ _ H4)) as Nl.
  destruct (py_max_spec _ _ Nh Hh) as (Ha & _ & _), (py_min_spec _ _ Nl Hl) as (Hb & _ & _). split; simpl_rec; try done.
  - eapply f_leb_trans; [exact H3 | exact Ha].
  - eapply f_leb_trans; [exact Hb | exact H4].
Qed.

Lemma apply_partial_exit_ok p qty price at_ p' : position_ok p -> apply_partial_exit p qty price at_ = Ok p' -> position_ok p'.
Proof.
  intros Hp. unfold apply_partial_exit. destruct (ps_is_open p); [|done]. cbn [negb].
  destruct (f_leb qty f_zero || f_ltb hundred qty); [done|]. destruct (f_leb price f_zero); [done|]. cbv zeta.
  set (rem := f_sub _ _). destruct (f_ltb rem over_exit); [done|]. destruct (percentage qty && above_zero price); [|done]. intros [= <-].
  destruct Hp. split; simpl_rec; try done. unfold py_max. destruct (f_ltb f_zero rem) eqn:E; [by rewrite E | done].
Qed.

Lemma close_position_ok p : position_ok p -> position_ok (close_position p) /\ ps_is_open (close_position p) = false.
Proof. intros Hp. unfold close_position. destruct (ps_is_open p) eqn:E; [|done]. destruct Hp. split; [split|]; simpl_rec; done. Qed.

(** Closer to the market: up for a long position, down for a short one. *)
Definition tighter (side : OrderSide) (old new : option float64) : Prop :=
  match old, new with
  | None, _ => True
  | Some t, Some t' => match side with BUY => f_leb t t' = true | SELL => f_leb t' t = true end
  | Some _, None => False
  end.

Lemma tighter_trans side a b c : tighter side a b -> tighter side b c -> tighter side a c.
Proof. destruct a, b, c, side; cbn; try done; eauto using f_leb_trans. Qed.

Lemma ratchet_tightens side t high low pct : opt_ok is_number t = true -> tighter side t (ratchet_trail side t high low pct).
Proof.
  destruct t as [t|]; [|by destruct side]. cbn [opt_ok]. intros Hn. unfold ratchet_trail. destruct side; case_match; cbn; try done; by apply f_ltb_leb.
Qed.

Lemma ratchet_number side t high low pct c :
  opt_ok is_number t = true -> t <> None -> ratchet_trail side t high low pct = Some c -> is_number c = true.
Proof.
  destruct t as [t|]; [|done]. cbn [opt_ok]. intros Hn _. unfold ratchet_trail.
  destruct side; case_match; intros [= <-]; try done; by apply f_ltb_leb, f_leb_number in H as [? ?].
Qed.

(** The position after some bars. *)
Definition carried (pct : option float64) (p : PositionState) (bars : list Candle) : PositionState :=
  fold_left (fun q c => update_on_candle q c pct) bars p.

Lemma update_trail p c pct :
  opt_ok is_number (ps_trail p) = true ->
  tighter (ps_side p) (ps_trail p) (ps_trail (update_on_candle p c pct)) /\ ps_side (update_on_candle p c pct) = ps_side p
  /\ (ps_trail p <> None -> opt_ok is_number (ps_trail (update_on_candle p c pct)) = true).
Proof.
  intros Hn. assert (Hrefl : tighter (ps_side p) (ps_trail p) (ps_trail p)). { by destruct (ps_trail p), (ps_side p). }
  unfold update_on_candle. destruct (ps_is_open p); cbn [negb]; [|done]. destruct pct as [x|]; [|done]. destruct (above_zero x); [|done].
  simpl_rec. split_and!; [by apply ratchet_tightens | done|]. intros Hs. destruct (ratchet_trail _ _ _ _ _) as [t'|] eqn:E; [|done].
  cbn [opt_ok]. by eapply ratchet_number.
Qed.

(** A trailing stop never gives ground, over any run of bars. *)
Lemma carried_tightens pct bars : forall p,
  opt_ok is_number (ps_trail p) = true -> ps_trail p <> None -> tighter (ps_side p) (ps_trail p) (ps_trail (carried pct p bars)).
Proof.
  induction bars as [|c bars IH]; intros p Hn Hs; cbn [carried fold_left].
  { destruct (ps_trail p); [by destruct (ps_side p) | done]. }
  destruct (update_trail p c pct Hn) as (Ht & Hside & Hn'). specialize (Hn' Hs).
  assert (Hs' : ps_trail (update_on_candle p c pct) <> None). { intros E. rewrite E in Ht. by destruct (ps_trail p). }
  eapply tighter_trans; [exact Ht|]. rewrite <- Hside. by apply IH.
Qed.

(** ** Entries *)

Definition answers (b : bool) (r : result engine_error bool) : bool := match r with Ok b' => Bool.eqb b b' | Err _ => false end.

Lemma answers_spec b r : answers b r = true <-> r = Ok b.
Proof. destruct r as [b'|]; cbn; [|done]. rewrite eqb_true_iff. naive_solver. Qed.

Lemma sort_conditions_spec cs eval matched failed :
  sort_conditions cs eval = Ok (matched, failed) ->
  matched = List.filter (fun c => answers true (eval c)) cs /\ failed = List.filter (fun c => answers false (eval c)) cs
  /\ Forall (fun c => eval c = Ok true \/ eval c = Ok false) cs.
Proof.
  revert matched failed. induction cs as [|c cs IH]; intros matched failed; cbn [sort_conditions].
  { intros [= <- <-]. done. }
  intros (b & Hb & E)%res_bind_ok. apply res_bind_ok in E as ([ms fs] & Hr & E). destruct (IH _ _ Hr) as (-> & -> & Hf). cbn [List.filter]. rewrite Hb.
  destruct b; injection E as <- <-; cbn; split_and!; try done; constructor; eauto.
Qed.

(** The conditions that hold on a bar. *)
Definition holds_on (current : Candle) (prior : option Candle) (now : values) (before : option values) (c : Condition) : Prop :=
  evaluate_condition c current prior now before = Ok true.

Lemma filter_all {A : Type} (f : A -> bool) l : List.filter f l = l <-> Forall (fun a => f a = true) l.
Proof.
  induction l as [|a l IH]; [done|]. cbn. destruct (f a) eqn:E.
  - rewrite Forall_cons, <- IH. split; [intros [= Hl]; done | by intros [_ ->]].
  - rewrite Forall_cons. split; [|by intros [? _]; congruence]. intros Hl. exfalso.
    assert (Hlen : (length (List.filter f l) <= length l)%nat) by apply List.filter_length_le. rewrite Hl in Hlen. cbn in Hlen. lia.
Qed.

Lemma filter_empty {A : Type} (f : A -> bool) l : List.filter f l = [] <-> Forall (fun a => f a = false) l.
Proof. induction l as [|a l IH]; [done|]. cbn. rewrite Forall_cons. destruct (f a); [naive_solver|]. rewrite IH. naive_solver. Qed.

(** The decision is the rule read literally. *)
Lemma entry_decision strategy current prior now before d :
  evaluate_entry strategy current prior now before = Ok d ->
  (ed_should_enter d = true <->
     match er_operator (sj_entry strategy) with
     | op_AND => Forall (holds_on current prior now before) (er_conditions (sj_entry strategy))
     | op_OR => Exists (holds_on current prior now before) (er_conditions (sj_entry strategy))
     end)
  /\ ed_side d = (if ed_should_enter d then Some (er_side (sj_entry strategy)) else None)
  /\ (forall c, In c (ed_reasons d) <-> In c (er_conditions (sj_entry strategy)) /\ holds_on current prior now before c).
Proof.
  unfold evaluate_entry. intros ([ms fs] & Hs & [= <-])%res_bind_ok. apply sort_conditions_spec in Hs as (-> & -> & Hf).
  cbn [ed_should_enter ed_side ed_reasons]. set (cs := er_conditions (sj_entry strategy)) in *. set (ev := fun c => evaluate_condition c current prior now before) in *. split_and!; [|done|].
  - destruct (er_operator (sj_entry strategy)).
    + transitivity (List.filter (fun c => answers false (ev c)) cs = []); [by destruct (List.filter _ cs)|]. rewrite filter_empty, !Forall_forall.
      rewrite Forall_forall in Hf. split; intros Hall c Hc; specialize (Hall c Hc); specialize (Hf c Hc).
      * change (ev c = Ok true \/ ev c = Ok false) in Hf. destruct Hf as [Hf | Hf]; [done|]. by rewrite Hf in Hall.
      * change (ev c = Ok true) in Hall. by rewrite Hall.
    + rewrite negb_true_iff, Exists_exists. transitivity (List.filter (fun c => answers true (ev c)) cs <> []); [by destruct (List.filter _ cs)|]. split.
      * intros Hne. destruct (List.filter _ cs) as [|c l] eqn:E; [done|]. assert (Hin : In c (List.filter (fun c => answers true (ev c)) cs)) by (rewrite E; by left).
        apply filter_In in Hin as [Hin Hh%answers_spec]. exists c. by rewrite list_elem_of_In.
      * intros (c & Hin%list_elem_of_In & Hh) E. assert (Hin' : In c (List.filter (fun c => answers true (ev c)) cs)).
        { apply filter_In. split; [done|]. by apply answers_spec. }
        by rewrite E in Hin'.
  - intros c. rewrite filter_In, answers_spec. done.
Qed.

(** One bar cannot cross both ways. *)
Lemma cross_one_way l r current prior :
  evaluate_cross CROSSOVER l r current prior = true -> evaluate_cross CROSSUNDER l r current prior = false.
Proof.
  unfold evaluate_cross. destruct prior as [before|], r as [x|]; try done. destruct (before !! l), (before !! x), (current !! l), (current !! x); try done.
  rewrite bool_decide_eq_true_2, bool_decide_eq_false_2 by done. intros [_ Hlt]%andb_true_iff. apply andb_false_iff. right.
  apply not_true_iff_false. intros Hgt. apply f_ltb_leb in Hgt. apply f_lt_not_leb in Hlt. congruence.
Qed.

(** ** Exits *)

Section Triggers.
Context (p : PositionState) (c : Candle) (rules : ExitRules) (now : values) (before : option values) (reverse : bool).

(** An exit that this bar triggers. *)
Inductive triggered : ExitEvent -> Prop :=
| tr_target pct :
    xr_target_percent rules = Some pct -> bar_crossed_long (ps_side p) c (level_above p pct) = true ->
    triggered {| xe_type := X_TARGET; xe_qty_percent := hundred; xe_price := level_above p pct; xe_partial := None |}
| tr_stop pct :
    xr_stop_loss_percent rules = Some pct -> bar_crossed_short (ps_side p) c (level_below p pct) = true ->
    triggered {| xe_type := X_STOP_LOSS; xe_qty_percent := hundred; xe_price := level_below p pct; xe_partial := None |}
| tr_trailing pct t :
    xr_trailing_stop_percent rules = Some pct -> ps_trail p = Some t -> bar_crossed_short (ps_side p) c t = true ->
    triggered {| xe_type := X_TRAILING_STOP; xe_qty_percent := hundred; xe_price := t; xe_partial := None |}
| tr_partial i x :
    nth_error (xr_partial_exits rules) i = Some x -> bar_crossed_long (ps_side p) c (level_above p (pe_target_percent x)) = true ->
    triggered {| xe_type := X_PARTIAL; xe_qty_percent := pe_qty_percent x; xe_price := level_above p (pe_target_percent x); xe_partial := Some (S i, x) |}
| tr_indicator l op r value :
    In (IndicatorCondition l op r value) (xr_indicator_exits rules) -> evaluate_indicator_condition l op r value now before = Ok true ->
    triggered {| xe_type := X_INDICATOR; xe_qty_percent := hundred; xe_price := cd_close c; xe_partial := None |}
| tr_reverse :
    xr_reverse_signal_exit rules = true -> reverse = true ->
    triggered {| xe_type := X_REVERSE_SIGNAL; xe_qty_percent := hundred; xe_price := cd_close c; xe_partial := None |}
| tr_square_off s t :
    xr_square_off_time rules = Some s -> parse_hhmm s = Ok t -> t <= time_of (cd_timestamp c) / MINUTE_US ->
    triggered {| xe_type := X_SQUARE_OFF; xe_qty_percent := hundred; xe_price := cd_close c; xe_partial := None |}.

Lemma exit_event_ok t qty price x es :
  exit_event t qty price x = Ok es -> es = [{| xe_type := t; xe_qty_percent := qty; xe_price := price; xe_partial := x |}] /\ above_zero price = true.
Proof. unfold exit_event. destruct (percentage qty && above_zero price) eqn:E; [|done]. intros [= <-]. by apply andb_true_iff in E as [_ ?]. Qed.

(** A guarded event. *)
Lemma guarded_event b t qty price x es e :
  (if b : bool then exit_event t qty price x else Ok []) = Ok es ->
  In e es <-> b = true /\ e = {| xe_type := t; xe_qty_percent := qty; xe_price := price; xe_partial := x |}.
Proof. destruct b; [intros [-> _]%exit_event_ok | intros [= <-]]; cbn; naive_solver. Qed.

Lemma partial_events_spec partials : forall idx es e,
  partial_events p c idx partials = Ok es ->
  In e es <-> exists i x, nth_error partials i = Some x /\ bar_crossed_long (ps_side p) c (level_above p (pe_target_percent x)) = true
    /\ e = {| xe_type := X_PARTIAL; xe_qty_percent := pe_qty_percent x; xe_price := level_above p (pe_target_percent x); xe_partial := Some (idx + i, x)%nat |}.
Proof.
  induction partials as [|x partials IH]; intros idx es e; cbn [partial_events].
  { intros [= <-]. split; [done|]. intros (i & x & Hn & _). by destruct i. }
  intros (es1 & H1 & E)%res_bind_ok. apply res_bind_ok in E as (es2 & H2 & [= <-]). rewrite in_app_iff, (guarded_event _ _ _ _ _ _ _ H1), (IH _ _ _ H2). split.
  - intros [[Hb ->] | (i & y & Hn & Hb & ->)]; [exists O, x | exists (S i), y]; split_and!; try done; do 3 f_equal; lia.
  - intros ([|i] & y & Hn & Hb & ->); cbn in Hn; [left | right; exists i, y].
    + injection Hn as ->. split; [done|]. do 3 f_equal. lia.
    + split_and!; try done. do 3 f_equal. lia.
Qed.

Lemma indicator_events_spec exits : forall es e,
  indicator_events c now before exits = Ok es ->
  In e es <-> (exists l op r value, In (IndicatorCondition l op r value) exits /\ evaluate_indicator_condition l op r value now before = Ok true)
    /\ e = {| xe_type := X_INDICATOR; xe_qty_percent := hundred; xe_price := cd_close c; xe_partial := None |}.
Proof.
  induction exits as [|x exits IH]; intros es e; cbn [indicator_events].
  { intros [= <-]. split; [done|]. by intros [(l & op & r & v & [] & _) _]. }
  intros (es1 & H1 & E)%res_bind_ok. apply res_bind_ok in E as (es2 & H2 & [= <-]). rewrite in_app_iff, (IH _ _ H2). destruct x as [l op r v | | |].
  - apply res_bind_ok in H1 as (b & Hb & H1). rewrite (guarded_event _ _ _ _ _ _ _ H1). split.
    + intros [[-> ->] | [(l' & op' & r' & v' & Hin & Hev) ->]]; (split; [|done]); do 4 eexists; (split; [|eassumption]); [by left | by right].
    + intros [(l' & op' & r' & v' & [[= -> -> -> ->] | Hin] & Hev) ->]; [left | right; eauto 10]. split; [congruence | done].
  - injection H1 as <-. cbn. naive_solver.
  - injection H1 as <-. cbn. naive_solver.
  - injection H1 as <-. cbn. naive_solver.
Qed.

Lemma square_off_events_spec s es e :
  square_off_events c (Some s) = Ok es ->
  In e es <-> (exists t, parse_hhmm s = Ok t /\ t <= time_of (cd_timestamp c) / MINUTE_US)
    /\ e = {| xe_type := X_SQUARE_OFF; xe_qty_percent := hundred; xe_price := cd_close c; xe_partial := None |}.
Proof.
  cbn [square_off_events]. intros (b & Hb & E)%res_bind_ok. apply res_bind_ok in E as (due & Hd & E). rewrite (guarded_event _ _ _ _ _ _ _ E).
  apply res_bind_ok in Hb as (t & Ht & [= Hb]). assert (Hdue : due = true <-> t <= time_of (cd_timestamp c) / MINUTE_US).
  { destruct b.
    - injection Hd as <-. split; [intros _ | done]. lia.
    - unfold evaluate_time_condition in Hd. rewrite Ht in Hd. cbn [mbind result_bind] in Hd. injection Hd as <-. rewrite Z.ltb_lt. apply Z.eqb_neq in Hb. unfold MINUTE_US in *.
      set (bar := time_of _) in *. pose proof (Z.div_mod bar 60000000 ltac:(lia)). pose proof (Z.mod_pos_bound bar 60000000 ltac:(lia)). lia. }
  rewrite Hdue, Ht. naive_solver.
Qed.
End Triggers.

Lemma exit_events_spec p c rules now before reverse es :
  ps_is_open p = true -> evaluate_exit p c rules now before reverse = Ok es -> forall e, In e es <-> triggered p c rules now before reverse e.
Proof.
  unfold evaluate_exit. intros ->. cbn [negb]. cbv zeta.
  intros (e1 & H1 & E)%res_bind_ok. apply res_bind_ok in E as (e2 & H2 & E). apply res_bind_ok in E as (e3 & H3 & E).
  apply res_bind_ok in E as (e4 & H4 & E). apply res_bind_ok in E as (e5 & H5 & E). apply res_bind_ok in E as (e6 & H6 & E).
  apply res_bind_ok in E as (e7 & H7 & [= <-]). intros e. rewrite !in_app_iff. split.
  - intros [Hi | [Hi | [Hi | [Hi | [Hi | [Hi | Hi]]]]]].
    + destruct (xr_target_percent rules) eqn:Ex; [|by injection H1 as <-]. apply (guarded_event _ _ _ _ _ _ _ H1) in Hi as [Hb ->]. by constructor.
    + destruct (xr_stop_loss_percent rules) eqn:Ex; [|by injection H2 as <-]. apply (guarded_event _ _ _ _ _ _ _ H2) in Hi as [Hb ->]. by constructor.
    + destruct (xr_trailing_stop_percent rules) eqn:Ex; [|by injection H3 as <-]. destruct (ps_trail p) eqn:Et; [|by injection H3 as <-].
      apply (guarded_event _ _ _ _ _ _ _ H3) in Hi as [Hb ->]. by econstructor.
    + apply (partial_events_spec _ _ _ _ _ _ H4) in Hi as (i & x & Hn & Hb & ->). by apply tr_partial.
    + apply (indicator_events_spec _ _ _ _ _ _ H5) in Hi as [(l & op & r & v & Hin & Hev) ->]. by eapply tr_indicator.
    + apply (guarded_event _ _ _ _ _ _ _ H6) in Hi as [[Ha Hb]%andb_true_iff ->]. by constructor.
    + destruct (xr_square_off_time rules) as [s|] eqn:Ex; [|by injection H7 as <-]. apply (square_off_events_spec _ _ _ _ H7) in Hi as [(t & Ht & Hle) ->]. by econstructor.
  - intros Ht. destruct Ht as [pct Hx Hb | pct Hx Hb | pct t Hx Ht Hb | i x Hn Hb | l op r v Hin Hev | Hx Hr | s t Hx Ht Hle].
    + left. rewrite Hx in H1. by apply (guarded_event _ _ _ _ _ _ _ H1).
    + right; left. rewrite Hx in H2. by apply (guarded_event _ _ _ _ _ _ _ H2).
    + do 2 right; left. rewrite Hx, Ht in H3. by apply (guarded_event _ _ _ _ _ _ _ H3).
    + do 3 right; left. apply (partial_events_spec _ _ _ _ _ _ H4). by exists i, x.
    + do 4 right; left. apply (indicator_events_spec _ _ _ _ _ _ H5). split; [|done]. by exists l, op, r, v.
    + do 5 right; left. rewrite Hx, Hr in H6. cbn [andb] in H6. apply exit_event_ok in H6 as [-> _]. by left.
    + do 6 right. rewrite Hx in H7. apply (square_off_events_spec _ _ _ _ H7). split; [|done]. by exists t.
Qed.

(** Every price of an event is positive. *)
Lemma exit_events_positive p c rules now before reverse es :
  evaluate_exit p c rules now before reverse = Ok es -> Forall (fun e => above_zero (xe_price e) = true) es.
Proof.
  unfold evaluate_exit. destruct (ps_is_open p); [|by intros [= <-]]. cbn [negb]. cbv zeta.
  assert (Hg : forall (b : bool) t q pr x l, (if b then exit_event t q pr x else Ok []) = Ok l -> Forall (fun e => above_zero (xe_price e) = true) l).
  { intros b t q pr x l. destruct b; [intros [-> Hp]%exit_event_ok; by repeat constructor | by intros [= <-]]. }
  intros (e1 & H1 & E)%res_bind_ok. apply res_bind_ok in E as (e2 & H2 & E). apply res_bind_ok in E as (e3 & H3 & E).
  apply res_bind_ok in E as (e4 & H4 & E). apply res_bind_ok in E as (e5 & H5 & E). apply res_bind_ok in E as (e6 & H6 & E).
  apply res_bind_ok in E as (e7 & H7 & [= <-]). rewrite !Forall_app. split_and!.
  - destruct (xr_target_percent rules); [by eapply Hg | by injection H1 as <-].
  - destruct (xr_stop_loss_percent rules); [by eapply Hg | by injection H2 as <-].
  - destruct (xr_trailing_stop_percent rules), (ps_trail p); first [by eapply Hg | by injection H3 as <-].
  - clear -H4 Hg. revert H4. generalize 1%nat as i. revert e4. induction (xr_partial_exits rules) as [|x l IH]; intros e4 i; cbn [partial_events]; [by intros [= <-]|].
    intros (a & Ha & E)%res_bind_ok. apply res_bind_ok in E as (b & Hb & [= <-]). apply Forall_app. split; [by eapply Hg | by eapply IH].
  - clear -H5 Hg. revert e5 H5. induction (xr_indicator_exits rules) as [|x l IH]; intros e5; cbn [indicator_events]; [by intros [= <-]|].
    intros (a & Ha & E)%res_bind_ok. apply res_bind_ok in E as (b & Hb & [= <-]). apply Forall_app. split; [|by apply IH].
    destruct x; [|by injection Ha as <-..]. apply res_bind_ok in Ha as (fired & _ & Ha). by eapply Hg.
  - by eapply Hg.
  - destruct (xr_square_off_time rules); [|by injection H7 as <-]. cbn [square_off_events] in H7. apply res_bind_ok in H7 as (b & _ & H7).
    apply res_bind_ok in H7 as (due & _ & H7). by eapply Hg.
Qed.

(** ** Risk *)

(** The caps a day has reached. *)
Definition cap_reached (strategy : StrategyJSON) (stats : RiskRuntimeStats) : Prop :=
  (exists cap pnl, rr_max_daily_loss_percent (sj_risk strategy) = Some cap /\ rs_daily_pnl_percent stats = Some pnl /\ loss_met pnl cap = Ok true)
  \/ reached (rs_trades_today stats) (rr_max_trades_per_day (sj_risk strategy)) = true
  \/ reached (rs_loss_streak stats) (rr_max_loss_streak (sj_risk strategy)) = true.

Definition blocking (m : RiskMessage) : bool := bool_decide (rm_severity m = RS_BLOCK).

Lemma worst_block messages :
  match worst messages with
  | Some m => (rm_severity m = RS_BLOCK <-> existsb blocking messages = true) /\ forall m', In m' messages -> severity_rank (rm_severity m') <= severity_rank (rm_severity m)
  | None => messages = []
  end.
Proof.
  induction messages as [|m messages IH]; [done|]. cbn [worst existsb].
  assert (Hb : forall x, blocking x = true <-> severity_rank (rm_severity x) = 3).
  { intros x. unfold blocking. rewrite bool_decide_eq_true. by destruct (rm_severity x). }
  assert (Hr : forall x, rm_severity x = RS_BLOCK <-> severity_rank (rm_severity x) = 3) by (intros x; by destruct (rm_severity x)).
  assert (Hm : forall x, severity_rank (rm_severity x) <= 3) by (intros x; destruct (rm_severity x); cbn; lia).
  destruct (worst messages) as [m'|].
  - destruct IH as [Hiff Hmax]. destruct (Z.ltb_spec (severity_rank (rm_severity m)) (severity_rank (rm_severity m'))) as [Hlt|Hle].
    + split; [|intros x [<- | Hin]; [lia | by apply Hmax]]. rewrite orb_true_iff, Hiff, Hb. specialize (Hm m'). naive_solver lia.
    + split; [|intros x [<- | Hin]; [lia | specialize (Hmax _ Hin); lia]]. rewrite orb_true_iff, <- Hiff, Hb, !Hr. specialize (Hm m). naive_solver lia.
  - subst messages. split; [|by intros x [<- | []]]. cbn. rewrite orb_false_r, Hb. apply Hr.
Qed.

Lemma existsb_note b s x : existsb blocking (note b s x) = b && bool_decide (s = RS_BLOCK).
Proof. destruct b; [|done]. cbn. by rewrite orb_false_r. Qed.

Lemma static_never_blocks strategy : existsb blocking (static_messages strategy) = false.
Proof. unfold static_messages. rewrite !existsb_app, !existsb_note. by rewrite !andb_false_r. Qed.

Lemma risk_verdict strategy stats a :
  evaluate_risk strategy (Some stats) = Ok a -> (ra_allowed a = false <-> cap_reached strategy stats) /\ (ra_severity a = RS_BLOCK <-> ra_allowed a = false).
Proof.
  unfold evaluate_risk. intros (runtime & Hr & [= <-])%res_bind_ok. cbn [ra_allowed ra_severity]. fold blocking.
  change (existsb (fun m => bool_decide (rm_severity m = RS_BLOCK))) with (existsb blocking).
  unfold runtime_messages in Hr. apply res_bind_ok in Hr as (lossy & Hl & [= <-]). set (messages := _ ++ _).
  assert (Hex : existsb blocking messages = true <-> cap_reached strategy stats).
  { unfold messages, cap_reached. rewrite !existsb_app, static_never_blocks, !existsb_note. cbn [orb]. rewrite !bool_decide_eq_true_2, !andb_true_r by done.
    rewrite !orb_true_iff. destruct (rr_max_daily_loss_percent (sj_risk strategy)) as [cap|], (rs_daily_pnl_percent stats) as [pnl|].
    2-4: injection Hl as <-; naive_solver.
    split; [intros [-> | Hrest]; [left; by exists cap, pnl | by right]|]. intros [(c & q & [= <-] & [= <-] & Hmet) | Hrest]; [left; congruence | by right]. }
  rewrite negb_false_iff. split; [exact Hex|]. pose proof (worst_block messages) as Hw. destruct (worst messages) as [m|]; [exact (proj1 Hw)|].
  rewrite Hw. done.
Qed.

(** ** Running to an answer *)

(** The times of a strategy are times of the clock and its windows are ordered. *)
Definition clock_ok (c : Condition) : bool :=
  match c with
  | TimeCondition BETWEEN value (Some e) => match parse_hhmm value, parse_hhmm e with Ok s, Ok f => s <=? f | _, _ => false end
  | TimeCondition _ value _ => Prelude.is_ok (parse_hhmm value)
  | _ => true
  end.

Lemma condition_answers c current prior now before :
  condition_ok c = true -> clock_ok c = true -> exists b, evaluate_condition c current prior now before = Ok b.
Proof.
  intros Hok Hc. apply condition_ok_means in Hok. destruct c as [l op r value | pattern | op value end_ | op value]; cbn [evaluate_condition clock_ok] in *.
  - unfold evaluate_indicator_condition. destruct (now !! l); [|eauto]. destruct (is_cross op) eqn:E; [eauto|]. destruct (resolve_rhs _ _ _); [|eauto].
    destruct op; try done; cbn; eauto.
  - eauto.
  - unfold evaluate_time_condition. destruct op; [| | |].
    3: { destruct end_ as [e|]; [|by destruct Hok as [Hn _]; destruct (Hn eq_refl)]. destruct (parse_hhmm value) as [s|], (parse_hhmm e) as [t|]; try done.
         cbn [mbind result_bind]. apply Z.leb_le in Hc. rewrite (proj2 (Z.ltb_ge t s)) by lia. eauto. }
    all: destruct end_, (parse_hhmm value); try done; cbn; eauto.
  - destruct op, value; cbn; eauto; destruct Hok as [Hv _]; by destruct (Hv eq_refl).
Qed.

Lemma sort_conditions_answers cs eval : Forall (fun c => exists b, eval c = Ok b) cs -> exists r, sort_conditions cs eval = Ok r.
Proof.
  induction 1 as [|c cs [b Hb] _ [[ms fs] IH]]; [by eexists|]. cbn [sort_conditions]. rewrite Hb. cbn [mbind result_bind]. rewrite IH. cbn. eauto.
Qed.

Lemma entry_answers strategy current prior now before :
  strategy_ok strategy = true -> Forall (fun c => clock_ok c = true) (er_conditions (sj_entry strategy)) ->
  exists d, evaluate_entry strategy current prior now before = Ok d.
Proof.
  intros Hok Hc. unfold strategy_ok, entry_ok in Hok. rewrite !andb_true_iff in Hok. destruct Hok as [[[[_ [_ He]] _] _] _]. rewrite forallb_forall in He.
  unfold evaluate_entry. destruct (sort_conditions_answers (er_conditions (sj_entry strategy)) (fun c => evaluate_condition c current prior now before)) as [[ms fs] E].
  - rewrite Forall_forall in Hc |- *. intros c Hin. apply condition_answers; [by apply He, list_elem_of_In | by apply Hc].
  - rewrite E. cbn. eauto.
Qed.

(** ** Properties *)

(** C33: the exit engine reports exactly what a bar triggers.  For an open position the
    events of a bar are the target, the stop, the trailing stop and the partial targets
    whose level the bar's range reaches, the indicator exits that hold, the reverse
    signal and the square-off from its minute on, each at its level or at the close; no
    other, none missing when several fall on one bar, and every price is positive. *)
Theorem exit_events_exact p c rules now before reverse es :
  ps_is_open p = true -> evaluate_exit p c rules now before reverse = Ok es ->
  (forall e, In e es <-> triggered p c rules now before reverse e) /\ Forall (fun e => above_zero (xe_price e) = true) es.
Proof. intros Ho E. split; [by apply exit_events_spec | by eapply exit_events_positive]. Qed.

(** A long position at 100 with a target and a stop of five percent, and a bar over both. *)
Definition held : PositionState :=
  {| ps_is_open := true; ps_side := BUY; ps_entry_price := hundred; ps_entry_time := {| m_wall := 0; m_offset := Some 0 |}; ps_quantity := f_one;
     ps_remaining := f_one; ps_highest := hundred; ps_lowest := hundred; ps_trail := None; ps_partials := [] |}.

Definition wide_bar : Candle :=
  {| cd_timestamp := {| m_wall := MINUTE_US; m_offset := Some 0 |}; cd_open := hundred; cd_high := f_of_Z 110; cd_low := f_of_Z 90; cd_close := f_of_Z 101;
     cd_volume := f_zero |}.

Lemma exit_events_exact_witness :
  exists es e, evaluate_exit held wide_bar (sj_exit cross_strategy) ∅ None false = Ok es /\ length es = 2%nat /\ In e es
    /\ triggered held wide_bar (sj_exit cross_strategy) ∅ None false e.
Proof.
  destruct (evaluate_exit held wide_bar (sj_exit cross_strategy) ∅ None false) as [es|] eqn:E; [|vm_compute in E; discriminate E].
  destruct (exit_events_exact held wide_bar (sj_exit cross_strategy) ∅ None false es eq_refl E) as [Hex _].
  destruct es as [|e es]; [vm_compute in E; discriminate E|]. exists (e :: es), e. split_and!; [reflexivity | | left; reflexivity | apply Hex; left; reflexivity].
  vm_compute in E. injection E as _ <-. reflexivity.
Defined.
