(* ===== verification/PaperTrading.v ===== *)
(** * Paper trading (backend/app/strategy_engine/paper_trading/)

    The streaming engine (engine.py) with its records, one bar at a time, the tables it
    is flushed to (store.py, persistence.py) and the readiness reports.  A bar that
    raises leaves the record as far as it got.  Reasons of a report are a list of gates;
    the ids of trade rows are left out, and the clock is an argument.

    The theorems: the record of a session is consistent, a session never opens a second
    position, the exit taken is the most adverse one, sessions are one a day, and a flush
    can be repeated. *)

From Stdlib Require Import ZArith Lia List Bool Ascii String SpecFloat.
From stdpp Require Import base list strings gmap.
From S2P Require Import Prelude PyText PyFloat PyDecimal PyNum Records Enums Models PositionManager AnomalyShield TradeDna StrategyDsl Engines.

(** ** Data *)

Definition MIN_COMPLETED_SESSIONS : Z := 7.
Definition MIN_WIN_RATE : float64 := float_of_decimal 40 (-2).
Definition MIN_RULE_ADHERENCE_PCT : float64 := f_of_Z 80.
Definition DEFAULT_PAPER_QUANTITY : float64 := f_one.

Record PaperSession : Type := {
  pn_id : uuid;
  pn_strategy_id : string;
  pn_user_id : uuid;
  pn_started_at : moment;
  pn_ended_at : option moment;
  pn_candles : Z
}.

#[export] Instance PaperSession_eta : Eta PaperSession := fun s =>
  {| pn_id := pn_id s; pn_strategy_id := pn_strategy_id s; pn_user_id := pn_user_id s; pn_started_at := pn_started_at s;
     pn_ended_at := pn_ended_at s; pn_candles := pn_candles s |}.

Record PaperTrade : Type := {
  pt_session_id : uuid;
  pt_entry_time : moment;
  pt_exit_time : moment;
  pt_side : OrderSide;
  pt_entry_price : float64;
  pt_exit_price : float64;
  pt_qty : float64;
  pt_pnl : float64;
  pt_exit_reason : ExitType;
  pt_entry_reasons : list Condition
}.

Record SessionRecord : Type := {
  sr_session : PaperSession;
  sr_strategy : StrategyJSON;
  sr_is_active : bool;
  sr_position : option PositionState;
  sr_pending_side : option OrderSide;
  sr_pending_reasons : list Condition;
  sr_last_candle : option Candle;
  sr_last_values : values;
  sr_closed_trades : list PaperTrade;
  sr_signals_fired : Z;
  sr_signals_executed : Z;
  sr_last_should_enter : bool
}.

#[export] Instance SessionRecord_eta : Eta SessionRecord := fun r =>
  {| sr_session := sr_session r; sr_strategy := sr_strategy r; sr_is_active := sr_is_active r; sr_position := sr_position r;
     sr_pending_side := sr_pending_side r; sr_pending_reasons := sr_pending_reasons r; sr_last_candle := sr_last_candle r;
     sr_last_values := sr_last_values r; sr_closed_trades := sr_closed_trades r; sr_signals_fired := sr_signals_fired r;
     sr_signals_executed := sr_signals_executed r; sr_last_should_enter := sr_last_should_enter r |}.

(** [_RECORDS]. *)
Abbreviation records := (gmap uuid SessionRecord).

(** ** The engine (engine.py) *)

(** [_EXIT_PRIORITY]. *)
Definition exit_priority (t : ExitType) : Z :=
  match t with
  | X_STOP_LOSS => 0 | X_TRAILING_STOP => 1 | X_SQUARE_OFF => 2 | X_TIME => 3 | X_REVERSE_SIGNAL => 4 | X_TARGET => 5 | X_PARTIAL => 6 | X_INDICATOR => 7
  end.

(** The first of the least priority. *)
Fixpoint pick_exit (events : list ExitEvent) : option ExitEvent :=
  match events with
  | [] => None
  | e :: events' =>
      match pick_exit events' with
      | Some e' => if exit_priority (xe_type e') <? exit_priority (xe_type e) then Some e' else Some e
      | None => Some e
      end
  end.

(** [a < b] of two datetimes; a naive and an aware one cannot be ordered. *)
Definition moment_ltb (a b : moment) : result engine_error bool :=
  match m_offset a, m_offset b with
  | Some x, Some y => Ok (m_wall a - x <? m_wall b - y)
  | None, None => Ok (m_wall a <? m_wall b)
  | _, _ => Err ETypeError
  end.

Definition side_pnl (side : OrderSide) (entry_price exit_price quantity : float64) : float64 :=
  match side with BUY => f_mul (f_sub exit_price entry_price) quantity | SELL => f_mul (f_sub entry_price exit_price) quantity end.

Definition tolerance : float64 := float_of_decimal 1 (-6).

(** [PaperTrade] and [_pnl_matches_prices]. *)
Definition paper_trade (t : PaperTrade) : result engine_error PaperTrade :=
  if negb (above_zero (pt_entry_price t) && above_zero (pt_exit_price t) && above_zero (pt_qty t)) then Err EValidationError
  else if f_ltb tolerance (f_abs (f_sub (side_pnl (pt_side t) (pt_entry_price t) (pt_exit_price t) (pt_qty t)) (pt_pnl t))) then Err EValidationError
  else
    early ← moment_ltb (pt_exit_time t) (pt_entry_time t);
    if early : bool then Err EValidationError else Ok t.

Definition close_to_trade (r : SessionRecord) (pos : PositionState) (e : ExitEvent) (exit_time : moment) : result engine_error PaperTrade :=
  paper_trade {| pt_session_id := pn_id (sr_session r); pt_entry_time := ps_entry_time pos; pt_exit_time := exit_time; pt_side := ps_side pos;
                 pt_entry_price := ps_entry_price pos; pt_exit_price := xe_price e; pt_qty := ps_quantity pos;
                 pt_pnl := side_pnl (ps_side pos) (ps_entry_price pos) (xe_price e) (ps_quantity pos); pt_exit_reason := xe_type e;
                 pt_entry_reasons := sr_pending_reasons r |}.

(** 1. The pending entry fills at the open; only where there is no position. *)
Definition fill_pending (r : SessionRecord) (candle : Candle) : result engine_error SessionRecord :=
  match sr_pending_side r, sr_position r with
  | Some side, None =>
      pos ← open_position side (cd_open candle) DEFAULT_PAPER_QUANTITY (cd_timestamp candle);
      Ok (r <| sr_position := Some pos |> <| sr_signals_executed ::= Z.add 1 |> <| sr_pending_side := None |>)
  | _, _ => Ok r
  end.

(** [last_indicator_values or None]. *)
Definition prior_values (r : SessionRecord) : option values := if bool_decide (sr_last_values r = ∅) then None else Some (sr_last_values r).

(** 2 and 3. Watermarks and trail, then the exits; the trades closed, and the record as
    far as it got. *)
Definition run_exits (r : SessionRecord) (candle : Candle) (now : values) : result engine_error (list PaperTrade) * SessionRecord :=
  match sr_position r with
  | Some pos0 =>
      if ps_is_open pos0 then
        let rules := sj_exit (sr_strategy r) in
        let pos := update_on_candle pos0 candle (xr_trailing_stop_percent rules) in
        let r1 := r <| sr_position := Some pos |> in
        match evaluate_exit pos candle rules now (prior_values r) false with
        | Err e => (Err e, r1)
        | Ok events =>
            match pick_exit events with
            | None => (Ok [], r1)
            | Some chosen =>
                match close_to_trade r1 pos chosen (cd_timestamp candle) with
                | Err e => (Err e, r1)
                | Ok trade => (Ok [trade], r1 <| sr_closed_trades ::= (fun l => l ++ [trade]) |> <| sr_position := Some (close_position pos) |>)
                end
            end
        end
      else (Ok [], r)
  | None => (Ok [], r)
  end.

Definition is_flat (o : option PositionState) : bool := match o with None => true | Some pos => negb (ps_is_open pos) end.

(** 4. The entry rule; a signal counts when it turns on. *)
Definition note_signal (r : SessionRecord) (d : EntryDecision) : SessionRecord :=
  let fresh := ed_should_enter d && negb (sr_last_should_enter r) in
  let r1 :=
    if fresh then
      let r' := r <| sr_signals_fired ::= Z.add 1 |> in
      match ed_side d with
      | Some side => if is_flat (sr_position r') then r' <| sr_pending_side := Some side |> <| sr_pending_reasons := ed_reasons d |> else r'
      | None => r'
      end
    else r in
  r1 <| sr_last_should_enter := ed_should_enter d |>.

(** One bar of a record. *)
Definition process_record (r : SessionRecord) (candle : Candle) (now : values) : result engine_error (list PaperTrade) * SessionRecord :=
  if negb (sr_is_active r) then (Err EValueError, r)
  else
    match fill_pending r candle with
    | Err e => (Err e, r)
    | Ok r1 =>
        match run_exits r1 candle now with
        | (Err e, r2) => (Err e, r2)
        | (Ok closed, r2) =>
            match evaluate_entry (sr_strategy r2) candle (sr_last_candle r2) now (prior_values r2) with
            | Err e => (Err e, r2)
            | Ok d =>
                (Ok closed, note_signal r2 d <| sr_last_candle := Some candle |> <| sr_last_values := now |> <| sr_session ::= (fun s => s <| pn_candles ::= Z.add 1 |>) |>)
            end
        end
    end.

Definition new_record (id : uuid) (strategy : StrategyJSON) (user_id : uuid) (now : moment) : SessionRecord :=
  {| sr_session := {| pn_id := id; pn_strategy_id := sj_id strategy; pn_user_id := user_id; pn_started_at := now; pn_ended_at := None; pn_candles := 0 |};
     sr_strategy := strategy; sr_is_active := true; sr_position := None; sr_pending_side := None; sr_pending_reasons := []; sr_last_candle := None;
     sr_last_values := ∅; sr_closed_trades := []; sr_signals_fired := 0; sr_signals_executed := 0; sr_last_should_enter := false |}.

Definition start_session (id : uuid) (strategy : StrategyJSON) (user_id : uuid) (now : moment) (rs : records) : PaperSession * records :=
  let r := new_record id strategy user_id now in (sr_session r, <[id := r]> rs).

Definition process_candle (session : PaperSession) (candle : Candle) (now : values) (rs : records) : result engine_error (list PaperTrade) * records :=
  match rs !! pn_id session with
  | None => (Err EValueError, rs)
  | Some r => let '(res, r') := process_record r candle now in (res, <[pn_id session := r']> rs)
  end.

Definition end_session (session : PaperSession) (now : moment) (rs : records) : result engine_error PaperSession * records :=
  match rs !! pn_id session with
  | None => (Err EValueError, rs)
  | Some r =>
      if negb (sr_is_active r) then (Ok (sr_session r), rs)
      else
        let r' := r <| sr_is_active := false |> <| sr_session ::= (fun s => s <| pn_ended_at := Some now |>) |> in
        (Ok (sr_session r'), <[pn_id session := r']> rs)
  end.

Definition get_session_trades (session : PaperSession) (rs : records) : result engine_error (list PaperTrade) :=
  match rs !! pn_id session with None => Err EValueError | Some r => Ok (sr_closed_trades r) end.

Definition clear_paper_state (_ : records) : records := ∅.

(** ** Readiness *)

Inductive readiness_gate : Type := gate_sessions | gate_pnl | gate_win_rate | gate_adherence | gate_stop_loss.

Record PaperReadinessReport : Type := {
  pr_completed_sessions : Z;
  pr_paper_pnl : float64;
  pr_paper_win_rate : float64;
  pr_rule_adherence : float64;
  pr_live_ready : bool;
  pr_blocked : list readiness_gate
}.

Definition gate (b : bool) (g : readiness_gate) : list readiness_gate := if b then [g] else [].

(** The share of the trades that won; 0 of none. *)
Definition share (wins total : Z) : float64 := if total =? 0 then f_zero else f_div (f_of_Z wins) (f_of_Z total).

Definition ready_records (sessions : list PaperSession) (rs : records) : list SessionRecord :=
  omap (fun s => rs !! pn_id s) (List.filter (fun s => negb (absent (pn_ended_at s))) sessions).

Definition compute_readiness (strategy : StrategyJSON) (sessions : list PaperSession) (rs : records) : PaperReadinessReport :=
  let completed := Z.of_nat (length (List.filter (fun s => negb (absent (pn_ended_at s))) sessions)) in
  let counted := ready_records sessions rs in
  let trades := flat_map sr_closed_trades counted in
  let fired := foldr Z.add 0 (map sr_signals_fired counted) in
  let executed := foldr Z.add 0 (map sr_signals_executed counted) in
  let paper_pnl := f_sum (map pt_pnl trades) in
  let n := Z.of_nat (length trades) in
  let win_rate := share (Z.of_nat (length (List.filter (fun t => above_zero (pt_pnl t)) trades))) n in
  let adherence := if fired =? 0 then hundred else f_div (f_mul hundred (f_of_Z executed)) (f_of_Z fired) in
  let blocked :=
    gate (completed <? MIN_COMPLETED_SESSIONS) gate_sessions ++ gate (f_leb paper_pnl f_zero) gate_pnl
    ++ gate (negb (n =? 0) && f_ltb win_rate MIN_WIN_RATE) gate_win_rate ++ gate (f_ltb adherence MIN_RULE_ADHERENCE_PCT) gate_adherence
    ++ gate (negb (has_stop (sj_exit strategy))) gate_stop_loss in
  {| pr_completed_sessions := completed; pr_paper_pnl := paper_pnl; pr_paper_win_rate := win_rate; pr_rule_adherence := adherence;
     pr_live_ready := nilb blocked; pr_blocked := blocked |}.

(** ** The tables (store.py) *)

Record PaperSessionRow : Type := {
  pw_id : uuid;
  pw_user_id : uuid;
  pw_strategy_id : uuid;
  pw_engine_strategy_id : string;
  pw_session_date : Z;
  pw_started_at : moment;
  pw_completed_at : option moment;
  pw_is_complete : bool;
  pw_total_trades : Z;
  pw_total_pnl : dec
}.

#[export] Instance PaperSessionRow_eta : Eta PaperSessionRow := fun r =>
  {| pw_id := pw_id r; pw_user_id := pw_user_id r; pw_strategy_id := pw_strategy_id r; pw_engine_strategy_id := pw_engine_strategy_id r;
     pw_session_date := pw_session_date r; pw_started_at := pw_started_at r; pw_completed_at := pw_completed_at r; pw_is_complete := pw_is_complete r;
     pw_total_trades := pw_total_trades r; pw_total_pnl := pw_total_pnl r |}.

Record PaperTradeRow : Type := {
  tw_session_id : uuid;
  tw_entry_at : moment;
  tw_exit_at : moment;
  tw_side : OrderSide;
  tw_quantity : Z;
  tw_entry_price : dec;
  tw_exit_price : dec;
  tw_pnl : dec;
  tw_exit_reason : ExitType
}.

Record paper_db : Type := { pb_sessions : list PaperSessionRow; pb_trades : list PaperTradeRow; pb_next_id : uuid }.

#[export] Instance paper_db_eta : Eta paper_db := fun d => {| pb_sessions := pb_sessions d; pb_trades := pb_trades d; pb_next_id := pb_next_id d |}.

Inductive store_error : Type := DuplicatePaperSessionError | PaperLookupError | PaperValueError | PaperInvalidOperation.

Definition same_day (user_id strategy_id : uuid) (day : Z) (r : PaperSessionRow) : bool :=
  (pw_user_id r =? user_id) && (pw_strategy_id r =? strategy_id) && (pw_session_date r =? day).

Definition get_session_by_date (user_id strategy_id : uuid) (day : Z) (d : paper_db) : option PaperSessionRow :=
  List.find (same_day user_id strategy_id day) (pb_sessions d).

Definition new_session_row (id user_id strategy_id : uuid) (engine_strategy_id : string) (day : Z) (started_at : moment) : PaperSessionRow :=
  {| pw_id := id; pw_user_id := user_id; pw_strategy_id := strategy_id; pw_engine_strategy_id := engine_strategy_id; pw_session_date := day;
     pw_started_at := started_at; pw_completed_at := None; pw_is_complete := false; pw_total_trades := 0; pw_total_pnl := Dec 0 0 |}.

(** The unique constraint refuses a second session of the day. *)
Definition create_session (user_id strategy_id : uuid) (engine_strategy_id : string) (day : Z) (started_at : moment) (d : paper_db)
  : result store_error PaperSessionRow * paper_db :=
  match get_session_by_date user_id strategy_id day d with
  | Some _ => (Err DuplicatePaperSessionError, d)
  | None =>
      let row := new_session_row (pb_next_id d) user_id strategy_id engine_strategy_id day started_at in
      (Ok row, {| pb_sessions := pb_sessions d ++ [row]; pb_trades := pb_trades d; pb_next_id := 1 + pb_next_id d |})
  end.

Definition completed_row (total_trades : Z) (total_pnl : dec) (at_ : moment) (r : PaperSessionRow) : PaperSessionRow :=
  let r := r <| pw_total_trades := total_trades |> <| pw_total_pnl := total_pnl |> in
  if pw_is_complete r then r else r <| pw_is_complete := true |> <| pw_completed_at := Some at_ |>.

Definition complete_session (session_id : uuid) (total_trades : Z) (total_pnl : dec) (at_ : moment) (d : paper_db)
  : result store_error unit * paper_db :=
  if existsb (fun r => pw_id r =? session_id) (pb_sessions d)
  then (Ok tt, {| pb_sessions := map (fun r => if pw_id r =? session_id then completed_row total_trades total_pnl at_ r else r) (pb_sessions d);
                  pb_trades := pb_trades d; pb_next_id := pb_next_id d |})
  else (Err PaperLookupError, d).

Definition get_completed_sessions_count (user_id strategy_id : uuid) (d : paper_db) : Z :=
  Z.of_nat (length (List.filter (fun r => (pw_user_id r =? user_id) && (pw_strategy_id r =? strategy_id) && pw_is_complete r) (pb_sessions d))).

Definition trades_of (session_id : uuid) (d : paper_db) : list PaperTradeRow := List.filter (fun t => tw_session_id t =? session_id) (pb_trades d).

(** ** Flushing a session (persistence.py) *)

(** The row of an engine trade; a number that is not finite is no stored decimal. *)
Definition trade_row (session_id : uuid) (t : PaperTrade) : result store_error PaperTradeRow :=
  match dec_of_float (pt_pnl t), dec_of_float (pt_entry_price t), dec_of_float (pt_exit_price t), f_trunc (pt_qty t) with
  | Some pnl, Some entry, Some exit_, Some qty =>
      Ok {| tw_session_id := session_id; tw_entry_at := pt_entry_time t; tw_exit_at := pt_exit_time t; tw_side := pt_side t; tw_quantity := qty;
            tw_entry_price := entry; tw_exit_price := exit_; tw_pnl := pnl; tw_exit_reason := pt_exit_reason t |}
  | _, _, _, _ => Err PaperInvalidOperation
  end.

Fixpoint trade_rows (session_id : uuid) (ts : list PaperTrade) : result store_error (list PaperTradeRow) :=
  match ts with
  | [] => Ok []
  | t :: ts' => row ← trade_row session_id t; rows ← trade_rows session_id ts'; Ok (row :: rows)
  end.

(** The row of the day, emptied of its trades, or a new one. *)
Definition find_or_create (session : PaperSession) (user_id strategy_id : uuid) (d : paper_db) : result store_error PaperSessionRow * paper_db :=
  let day := date_of (pn_started_at session) in
  match get_session_by_date user_id strategy_id day d with
  | Some row => (Ok row, {| pb_sessions := pb_sessions d; pb_trades := List.filter (fun t => negb (tw_session_id t =? pw_id row)) (pb_trades d);
                            pb_next_id := pb_next_id d |})
  | None => create_session user_id strategy_id (pn_strategy_id session) day (pn_started_at session) d
  end.

(** One transaction: an error leaves the tables as they were. *)
Definition flush_session_to_store (session : PaperSession) (user_id strategy_id : uuid) (rs : records) (d : paper_db) : result store_error uuid * paper_db :=
  match get_session_trades session rs with
  | Err _ => (Err PaperValueError, d)
  | Ok trades =>
      match find_or_create session user_id strategy_id d with
      | (Err e, _) => (Err e, d)
      | (Ok row, d1) =>
          match trade_rows (pw_id row) trades with
          | Err e => (Err e, d)
          | Ok rows =>
              let total := foldl (fun acc t => dadd acc (tw_pnl t)) (Dec 0 0) rows in
              let d2 := {| pb_sessions := pb_sessions d1; pb_trades := pb_trades d1 ++ rows; pb_next_id := pb_next_id d1 |} in
              match pn_ended_at session with
              | None => (Ok (pw_id row), d2)
              | Some at_ =>
                  match complete_session (pw_id row) (Z.of_nat (length trades)) total at_ d2 with
                  | (Ok _, d3) => (Ok (pw_id row), d3)
                  | (Err e, _) => (Err e, d)
                  end
              end
          end
      end
  end.

(** The report from the tables: adherence is always full there. *)
Definition compute_readiness_from_db (user_id strategy_id : uuid) (strategy : StrategyJSON) (d : paper_db) : PaperReadinessReport :=
  let completed := List.filter (fun r => (pw_user_id r =? user_id) && (pw_strategy_id r =? strategy_id) && pw_is_complete r) (pb_sessions d) in
  let pnls := map tw_pnl (flat_map (fun r => trades_of (pw_id r) d) completed) in
  let total := foldl dadd (Dec 0 0) pnls in
  let n := Z.of_nat (length pnls) in
  let win_rate := share (Z.of_nat (length (List.filter dpos pnls))) n in
  let blocked :=
    gate (Z.of_nat (length completed) <? MIN_COMPLETED_SESSIONS) gate_sessions ++ gate (negb (dpos total)) gate_pnl
    ++ gate (negb (n =? 0) && f_ltb win_rate MIN_WIN_RATE) gate_win_rate ++ gate (negb (has_stop (sj_exit strategy))) gate_stop_loss in
  {| pr_completed_sessions := Z.of_nat (length completed); pr_paper_pnl := float_of_dec total; pr_paper_win_rate := win_rate;
     pr_rule_adherence := hundred; pr_live_ready := nilb blocked; pr_blocked := blocked |}.

(** ** One position in the life of a session *)

(** A record has no position and no trade, or the one position it ever opens. *)
Record single (r : SessionRecord) : Prop := {
  sg_none : sr_position r = None -> sr_signals_executed r = 0 /\ sr_closed_trades r = [];
  sg_some pos : sr_position r = Some pos ->
    position_ok pos /\ sr_signals_executed r = 1 /\ (length (sr_closed_trades r) <= 1)%nat /\ (ps_is_open pos = true -> sr_closed_trades r = []);
  sg_fired : sr_signals_executed r <= sr_signals_fired r;
  sg_pending : sr_position r = None -> sr_pending_side r <> None -> 0 < sr_signals_fired r
}.

Lemma single_new id strategy user_id now : single (new_record id strategy user_id now).
Proof. by split. Qed.

Lemma fill_single r candle r' : single r -> fill_pending r candle = Ok r' -> single r'.
Proof.
  intros Hs. unfold fill_pending. destruct (sr_pending_side r) as [side|] eqn:Ep; [|by intros [= <-]]. destruct (sr_position r) as [pos|] eqn:Eo; [by intros [= <-]|].
  intros (pos & Hpos & [= <-])%res_bind_ok. destruct (sg_none r Hs Eo) as [Hx Hc]. pose proof (sg_pending r Hs Eo) as Hf. rewrite Ep in Hf. specialize (Hf ltac:(done)).
  destruct (open_position_ok _ _ _ _ _ Hpos) as [Hok _]. split; simpl_rec; try done.
  - intros p [= <-]. rewrite Hx, Hc. split_and!; [done | done | cbn; lia | done].
  - rewrite Hx. lia.
Qed.

Lemma exits_single r candle now res r' : candle_ok candle = true -> single r -> run_exits r candle now = (res, r') -> single r'.
Proof.
  intros Hc Hs. unfold run_exits. destruct (sr_position r) as [pos0|] eqn:Eo; [|by intros [= _ <-]]. destruct (ps_is_open pos0) eqn:Eopen; [|by intros [= _ <-]].
  destruct (sg_some r Hs pos0 Eo) as (Hok & Hx & _ & Hcl). specialize (Hcl Eopen). cbv zeta.
  set (pos := update_on_candle pos0 candle _). assert (Hpos : position_ok pos) by (by apply update_on_candle_ok).
  assert (H1 : single (r <| sr_position := Some pos |>)).
  { destruct Hs. split; simpl_rec; try done. intros p [= <-]. rewrite Hcl. split_and!; [done | done | cbn; lia | done]. }
  destruct (evaluate_exit _ _ _ _ _ _) as [events|e]; [|by intros [= _ <-]]. destruct (pick_exit events) as [chosen|]; [|by intros [= _ <-]].
  destruct (close_to_trade _ _ _ _) as [trade|e]; [|by intros [= _ <-]]. intros [= _ <-]. destruct (close_position_ok pos Hpos) as [Hcp Hno].
  destruct Hs. split; simpl_rec; try done. intros p [= <-]. rewrite Hcl. split_and!; [done | done | cbn; lia|]. by rewrite Hno.
Qed.

Lemma note_single r d : single r -> single (note_signal r d).
Proof.
  intros Hs. assert (H0 : 0 <= sr_signals_fired r).
  { destruct Hs as [Hn Hsm Hf _]. destruct (sr_position r) as [pos|]; [destruct (Hsm _ eq_refl) as (_ & Hx & _) | destruct (Hn eq_refl) as [Hx _]]; lia. }
  unfold note_signal. set (fresh := ed_should_enter d && _). destruct Hs as [Hn Hsm Hf Hp].
  destruct fresh; [destruct (ed_side d) as [side|]; [destruct (is_flat _)|]|]; split; simpl_rec; first [done | lia | intros; lia].
Qed.

Lemma process_single r candle now res r' : candle_ok candle = true -> single r -> process_record r candle now = (res, r') -> single r'.
Proof.
  intros Hc Hs. unfold process_record. destruct (sr_is_active r); [|by intros [= _ <-]]. cbn [negb].
  destruct (fill_pending r candle) as [r1|e] eqn:E1; [|by intros [= _ <-]]. pose proof (fill_single _ _ _ Hs E1) as H1.
  destruct (run_exits r1 candle now) as [res2 r2] eqn:E2. pose proof (exits_single _ _ _ _ _ Hc H1 E2) as H2.
  destruct res2 as [closed|e]; [|by intros [= _ <-]]. destruct (evaluate_entry _ _ _ _ _) as [d|e]; [|by intros [= _ <-]]. intros [= _ <-].
  destruct (note_single r2 d H2). split; simpl_rec; done.
Qed.

(** The records the module can come to hold. *)
Inductive reachable_records : records -> Prop :=
| rr_empty : reachable_records ∅
| rr_start id strategy user_id now rs : reachable_records rs -> reachable_records (snd (start_session id strategy user_id now rs))
| rr_candle session candle now rs : reachable_records rs -> candle_ok candle = true -> reachable_records (snd (process_candle session candle now rs))
| rr_end session now rs : reachable_records rs -> reachable_records (snd (end_session session now rs))
| rr_clear rs : reachable_records rs -> reachable_records (clear_paper_state rs).

Lemma reachable_single rs : reachable_records rs -> map_Forall (fun _ r => single r) rs.
Proof.
  induction 1 as [| id strategy user_id now rs _ IH | session candle now rs _ IH Hc | session now rs _ IH | rs _ IH]; [apply map_Forall_empty | | | | apply map_Forall_empty].
  - cbn. apply map_Forall_insert_2; [apply single_new | done].
  - unfold process_candle. destruct (rs !! pn_id session) as [r|] eqn:E; [|done]. destruct (process_record r candle now) as [res r'] eqn:Ep. cbn [snd].
    apply map_Forall_insert_2; [|done]. eapply process_single; [exact Hc | exact (IH _ _ E) | exact Ep].
  - unfold end_session. destruct (rs !! pn_id session) as [r|] eqn:E; [|done]. destruct (sr_is_active r); [|done]. cbn [negb snd].
    apply map_Forall_insert_2; [|done]. destruct (IH _ _ E). split; simpl_rec; done.
Qed.

(** ** The exit taken *)

Lemma pick_exit_spec events e : pick_exit events = Some e -> In e events /\ forall e', In e' events -> exit_priority (xe_type e) <= exit_priority (xe_type e').
Proof.
  revert e. induction events as [|x events IH]; intros e; [done|]. cbn [pick_exit]. destruct (pick_exit events) as [y|] eqn:E.
  - destruct (IH y eq_refl) as [Hin Hmin]. destruct (Z.ltb_spec (exit_priority (xe_type y)) (exit_priority (xe_type x))) as [Hlt|Hle]; intros [= <-].
    + split; [by right|]. intros e' [<- | He']; [lia | by apply Hmin].
    + split; [by left|]. intros e' [<- | He']; [lia|]. specialize (Hmin _ He'). lia.
  - intros [= <-]. split; [by left|]. intros e' [<- | He']; [lia|]. destruct events as [|z events]; [done|]. cbn [pick_exit] in E. by destruct (pick_exit events); [destruct (_ <? _)|].
Qed.

Lemma paper_trade_same t t' : paper_trade t = Ok t' -> t' = t.
Proof.
  unfold paper_trade. destruct (negb _); [done|]. destruct (f_ltb _ _); [done|]. intros (b & _ & E)%res_bind_ok. destruct b; [done|]. by injection E.
Qed.

(** What a bar closes is one triggered exit of the position, no other trigger being more adverse. *)
Lemma exits_most_adverse r candle now t ts r' :
  run_exits r candle now = (Ok (t :: ts), r') ->
  exists pos0 e, ts = [] /\ sr_position r = Some pos0 /\ ps_is_open pos0 = true
    /\ let pos := update_on_candle pos0 candle (xr_trailing_stop_percent (sj_exit (sr_strategy r))) in
       triggered pos candle (sj_exit (sr_strategy r)) now (prior_values r) false e
       /\ (forall e', triggered pos candle (sj_exit (sr_strategy r)) now (prior_values r) false e' -> exit_priority (xe_type e) <= exit_priority (xe_type e'))
       /\ pt_exit_reason t = xe_type e /\ pt_exit_price t = xe_price e /\ pt_entry_price t = ps_entry_price pos0 /\ pt_entry_time t = ps_entry_time pos0
       /\ pt_side t = ps_side pos0 /\ pt_pnl t = side_pnl (ps_side pos0) (ps_entry_price pos0) (xe_price e) (ps_quantity pos0).
Proof.
  unfold run_exits. destruct (sr_position r) as [pos0|]; [|done]. destruct (ps_is_open pos0) eqn:Eo; [|done]. cbv zeta.
  set (pos := update_on_candle pos0 candle _). assert (Hopen : ps_is_open pos = true) by (unfold pos, update_on_candle; by rewrite Eo).
  assert (Hsame : ps_entry_price pos = ps_entry_price pos0 /\ ps_entry_time pos = ps_entry_time pos0 /\ ps_side pos = ps_side pos0 /\ ps_quantity pos = ps_quantity pos0).
  { unfold pos, update_on_candle. rewrite Eo. done. }
  destruct Hsame as (Hp & Ht & Hs & Hq).
  destruct (evaluate_exit _ _ _ _ _ _) as [events|] eqn:Ee; [|done]. destruct (pick_exit events) as [e|] eqn:Epick; [|done].
  destruct (close_to_trade _ _ _ _) as [trade|] eqn:Et; [|done]. intros [= <- <- <-]. apply paper_trade_same in Et as ->. apply pick_exit_spec in Epick as [Hin Hmin].
  pose proof (exit_events_spec _ _ _ _ _ _ _ Hopen Ee) as Hex. exists pos0, e. split_and!; try done.
  - by apply Hex.
  - intros e' He'. by apply Hmin, Hex.
  - cbn. congruence.
Qed.

(** ** One session a day *)

Definition day_key (r : PaperSessionRow) : uuid * uuid * Z := (pw_user_id r, pw_strategy_id r, pw_session_date r).

Record tables_ok (d : paper_db) : Prop := {
  tb_days : NoDup (map day_key (pb_sessions d));
  tb_ids : NoDup (map pw_id (pb_sessions d));
  tb_below : forall r, In r (pb_sessions d) -> pw_id r < pb_next_id d;
  tb_trades : forall t, In t (pb_trades d) -> tw_session_id t < pb_next_id d
}.

Lemma NoDup_one_more {A : Type} (l : list A) x : NoDup l -> ~ In x l -> NoDup (l ++ [x]).
Proof. intros Hl Hx. apply NoDup_app. split_and!; [done | intros y Hy Hin; apply Hx | apply NoDup_singleton]. apply list_elem_of_singleton in Hin. subst. by apply list_elem_of_In. Qed.

Lemma same_day_spec user_id strategy_id day r : same_day user_id strategy_id day r = true <-> day_key r = (user_id, strategy_id, day).
Proof. unfold same_day, day_key. rewrite !andb_true_iff, !Z.eqb_eq. naive_solver. Qed.

Lemma create_session_ok user_id strategy_id eid day at_ d res d' :
  tables_ok d -> create_session user_id strategy_id eid day at_ d = (res, d') -> tables_ok d'.
Proof.
  intros Hd. unfold create_session, get_session_by_date. destruct (List.find _ _) as [r|] eqn:Ef; [by intros [= _ <-]|]. intros [= _ <-].
  pose proof (find_none _ _ Ef) as Hn. destruct Hd as [H1 H2 H3 H4]. split; simpl_rec.
  - rewrite map_app. apply NoDup_one_more; [done|]. intros (r & Hk & Hr)%in_map_iff. specialize (Hn r Hr). apply not_true_iff_false in Hn.
    by apply Hn, same_day_spec.
  - rewrite map_app. apply NoDup_one_more; [done|]. cbn. intros (r & Hk & Hr)%in_map_iff. specialize (H3 r Hr). lia.
  - intros r [Hr | [<- | []]]%in_app_iff; [specialize (H3 r Hr); lia | cbn; lia].
  - intros t Ht. specialize (H4 t Ht). lia.
Qed.

Lemma create_session_new user_id strategy_id eid day at_ d :
  get_session_by_date user_id strategy_id day d = None ->
  create_session user_id strategy_id eid day at_ d
  = (Ok (new_session_row (pb_next_id d) user_id strategy_id eid day at_),
     {| pb_sessions := pb_sessions d ++ [new_session_row (pb_next_id d) user_id strategy_id eid day at_]; pb_trades := pb_trades d; pb_next_id := 1 + pb_next_id d |}).
Proof. intros E. unfold create_session. rewrite E. by destruct d. Qed.

Lemma completed_row_same n p at_ r : day_key (completed_row n p at_ r) = day_key r /\ pw_id (completed_row n p at_ r) = pw_id r.
Proof. unfold completed_row. simpl_rec. by destruct (pw_is_complete r). Qed.

Lemma complete_session_ok id n p at_ d res d' : tables_ok d -> complete_session id n p at_ d = (res, d') -> tables_ok d'.
Proof.
  intros Hd. unfold complete_session. destruct (existsb _ _); intros [= _ <-]; [|done]. destruct Hd as [H1 H2 H3 H4].
  set (f := fun r => if pw_id r =? id then completed_row n p at_ r else r).
  assert (Hf : forall r, day_key (f r) = day_key r /\ pw_id (f r) = pw_id r). { intros r. unfold f. destruct (pw_id r =? id); [apply completed_row_same | done]. }
  split; simpl_rec; try done.
  - rewrite map_map. erewrite map_ext; [exact H1|]. intros r. apply Hf.
  - rewrite map_map. erewrite map_ext; [exact H2|]. intros r. apply Hf.
  - intros r (r0 & <- & Hr)%in_map_iff. fold (f r0). rewrite (proj2 (Hf r0)). by apply H3.
Qed.

Lemma trade_rows_session id ts rows : trade_rows id ts = Ok rows -> Forall (fun t => tw_session_id t = id) rows.
Proof.
  revert rows. induction ts as [|t ts IH]; intros rows; cbn [trade_rows]; [by intros [= <-]|].
  intros (row & Hr & E)%res_bind_ok. apply res_bind_ok in E as (rest & Hrest & [= <-]). constructor; [|by apply IH].
  unfold trade_row in Hr. destruct (dec_of_float _); [|done]. destruct (dec_of_float _); [|done]. destruct (dec_of_float _); [|done].
  destruct (f_trunc _); [|done]. by injection Hr as <-.
Qed.

Definition not_of (id : uuid) (t : PaperTradeRow) : bool := negb (tw_session_id t =? id).

Lemma filter_others id l : (forall t, In t l -> tw_session_id t <> id) -> List.filter (not_of id) l = l.
Proof.
  induction l as [|t l IH]; intros Hl; [done|]. cbn [List.filter]. unfold not_of at 1. rewrite (proj2 (Z.eqb_neq _ _)) by (apply Hl; by left). cbn [negb].
  f_equal. apply IH. intros t' Ht'. apply Hl. by right.
Qed.

Lemma filter_own id l : Forall (fun t => tw_session_id t = id) l -> List.filter (not_of id) l = [].
Proof. induction 1 as [|t l Ht _ IH]; [done|]. cbn [List.filter]. unfold not_of at 1. by rewrite Ht, Z.eqb_refl. Qed.

(** The totals of a session, marked complete when it has ended. *)
Definition settle (session : PaperSession) (id : uuid) (trades : list PaperTrade) (rows : list PaperTradeRow) (l : list PaperSessionRow) : list PaperSessionRow :=
  match pn_ended_at session with
  | None => l
  | Some at_ =>
      map (fun r => if pw_id r =? id then completed_row (Z.of_nat (length trades)) (foldl (fun acc t => dadd acc (tw_pnl t)) (Dec 0 0) rows) at_ r else r) l
  end.

Lemma find_or_create_spec session user_id strategy_id d :
  tables_ok d ->
  exists row base next,
    find_or_create session user_id strategy_id d
    = (Ok row, {| pb_sessions := base; pb_trades := List.filter (not_of (pw_id row)) (pb_trades d); pb_next_id := next |})
    /\ In row base /\ day_key row = (user_id, strategy_id, date_of (pn_started_at session))
    /\ tables_ok {| pb_sessions := base; pb_trades := pb_trades d; pb_next_id := next |}.
Proof.
  intros Hd. unfold find_or_create. cbv zeta. set (day := date_of _). destruct (get_session_by_date user_id strategy_id day d) as [row|] eqn:Eg.
  - apply find_some in Eg as [Hin Hday%same_day_spec]. exists row, (pb_sessions d), (pb_next_id d). split_and!; try done. by destruct d.
  - rewrite (create_session_new _ _ _ _ _ _ Eg). set (row := new_session_row _ _ _ _ _ _).
    pose proof (create_session_ok _ _ _ _ _ _ _ _ Hd (create_session_new _ _ (pn_strategy_id session) _ (pn_started_at session) _ Eg)) as Hd1. fold row in Hd1.
    exists row, (pb_sessions d ++ [row]), (1 + pb_next_id d). split_and!; [| apply in_app_iff; right; by left | done | exact Hd1].
    rewrite filter_others; [done|]. intros t Ht. pose proof (tb_trades d Hd t Ht). cbn. lia.
Qed.

Lemma flush_spec session user_id strategy_id rs d id d' :
  tables_ok d -> flush_session_to_store session user_id strategy_id rs d = (Ok id, d') ->
  exists row trades rows base,
    get_session_trades session rs = Ok trades /\ trade_rows id trades = Ok rows /\ pw_id row = id /\ In row base
    /\ day_key row = (user_id, strategy_id, date_of (pn_started_at session))
    /\ d' = {| pb_sessions := settle session id trades rows base; pb_trades := List.filter (not_of id) (pb_trades d) ++ rows; pb_next_id := pb_next_id d' |}
    /\ tables_ok {| pb_sessions := base; pb_trades := pb_trades d; pb_next_id := pb_next_id d' |}.
Proof.
  intros Hd. unfold flush_session_to_store. destruct (get_session_trades session rs) as [trades|]; [|done].
  destruct (find_or_create_spec session user_id strategy_id d Hd) as (row & base & next & -> & Hin & Hday & Hok).
  destruct (trade_rows (pw_id row) trades) as [rows|] eqn:Er; [|done]. cbv zeta. cbn [pb_sessions pb_trades pb_next_id]. unfold settle.
  destruct (pn_ended_at session) as [at_|].
  - unfold complete_session. cbn [pb_sessions pb_trades pb_next_id]. rewrite (proj2 (existsb_exists _ _)) by (exists row; by rewrite Z.eqb_refl).
    intros [= <- <-]. exists row, trades, rows, base. by split_and!.
  - intros [= <- <-]. exists row, trades, rows, base. by split_and!.
Qed.

Lemma settle_keys session id trades rows l :
  map day_key (settle session id trades rows l) = map day_key l /\ map pw_id (settle session id trades rows l) = map pw_id l.
Proof.
  unfold settle. destruct (pn_ended_at session) as [at_|]; [|done]. rewrite !map_map. split; apply map_ext; intros r; destruct (pw_id r =? id); try done; apply completed_row_same.
Qed.

Lemma completed_row_twice n p at_ r : completed_row n p at_ (completed_row n p at_ r) = completed_row n p at_ r.
Proof. destruct r as [? ? ? ? ? ? ? c ? ?]. by destruct c. Qed.

Lemma settle_twice session id trades rows l : settle session id trades rows (settle session id trades rows l) = settle session id trades rows l.
Proof.
  unfold settle. destruct (pn_ended_at session) as [at_|]; [|done]. rewrite map_map. apply map_ext. intros r. destruct (pw_id r =? id) eqn:E; [|by rewrite E].
  rewrite (proj2 (completed_row_same _ _ _ _)), E. apply completed_row_twice.
Qed.

Lemma flush_ok session user_id strategy_id rs d res d' :
  tables_ok d -> flush_session_to_store session user_id strategy_id rs d = (res, d') -> tables_ok d'.
Proof.
  intros Hd E. destruct res as [id|e].
  - destruct (flush_spec _ _ _ _ _ _ _ Hd E) as (row & trades & rows & base & _ & Hr & Hid & Hin & _ & -> & Hok). destruct (settle_keys session id trades rows base) as [Hk1 Hk2].
    destruct Hok as [H1 H2 H3 H4]. cbn [pb_sessions pb_trades pb_next_id] in *. split; cbn [pb_sessions pb_trades pb_next_id].
    + by rewrite Hk1.
    + by rewrite Hk2.
    + intros r Hrin. apply (in_map pw_id) in Hrin. rewrite Hk2 in Hrin. apply in_map_iff in Hrin as (r0 & <- & Hr0). by apply H3.
    + intros t [[Ht _]%filter_In | Ht]%in_app_iff; [by apply H4|]. apply trade_rows_session in Hr. rewrite Forall_forall in Hr.
      rewrite (Hr t) by (by apply list_elem_of_In). rewrite <- Hid. by apply H3.
  - enough (d' = d) as -> by done. revert E. unfold flush_session_to_store. destruct (get_session_trades _ _); [|by intros [= _ <-]].
    destruct (find_or_create _ _ _ _) as [[row|] d1]; [|by intros [= _ <-]]. destruct (trade_rows _ _); [|by intros [= _ <-]]. cbv zeta.
    destruct (pn_ended_at session); [|done]. destruct (complete_session _ _ _ _ _) as [[]]; [done | by intros [= _ <-]].
Qed.

Lemma NoDup_image_inj {A C : Type} (f : A -> C) l x y : NoDup (map f l) -> In x l -> In y l -> f x = f y -> x = y.
Proof.
  induction l as [|a l IH]; [done|]. cbn [map]. intros Hnd. apply NoDup_cons in Hnd as [Ha Hl]. rewrite list_elem_of_In in Ha. intros [<- | Hx] [<- | Hy] E; try done.
  - destruct Ha. rewrite E. by apply in_map.
  - destruct Ha. rewrite <- E. by apply in_map.
  - by apply IH.
Qed.

(** The second flush of a session finds its row and writes what is there. *)
Lemma flush_twice session user_id strategy_id rs d id d' :
  tables_ok d -> flush_session_to_store session user_id strategy_id rs d = (Ok id, d') ->
  flush_session_to_store session user_id strategy_id rs d' = (Ok id, d').
Proof.
  intros Hd E. pose proof (flush_ok _ _ _ _ _ _ _ Hd E) as Hd'. destruct (flush_spec _ _ _ _ _ _ _ Hd E) as (row & trades & rows & base & Ht & Hr & Hid & Hin & Hday & Heq & Hok).
  assert (Hrow : exists row', In row' (pb_sessions d') /\ day_key row' = (user_id, strategy_id, date_of (pn_started_at session)) /\ pw_id row' = id).
  { rewrite Heq. cbn [pb_sessions]. unfold settle. destruct (pn_ended_at session) as [at_|]; [|by exists row]. eexists. split; [by apply in_map, Hin|].
    rewrite Hid, Z.eqb_refl. by rewrite (proj1 (completed_row_same _ _ _ _)), (proj2 (completed_row_same _ _ _ _)). }
  destruct Hrow as (row' & Hin' & Hday' & Hid').
  assert (Hfind : get_session_by_date user_id strategy_id (date_of (pn_started_at session)) d' = Some row').
  { unfold get_session_by_date. destruct (List.find _ _) as [r|] eqn:Ef.
    - apply find_some in Ef as [Hrin Hrday%same_day_spec]. f_equal. eapply (NoDup_image_inj day_key); [apply Hd' | done | done | congruence].
    - pose proof (find_none _ _ Ef row' Hin') as Hn. apply not_true_iff_false in Hn. by destruct Hn; apply same_day_spec. }
  unfold flush_session_to_store, find_or_create. rewrite Ht. cbv zeta. rewrite Hfind, Hid', Hr. cbn [pb_sessions pb_trades pb_next_id].
  change (fun t => negb (tw_session_id t =? id)) with (not_of id).
  assert (Hf : List.filter (not_of id) (pb_trades d') ++ rows = pb_trades d').
  { rewrite Heq. cbn [pb_trades]. rewrite List.filter_app, (filter_own id rows) by (by eapply trade_rows_session). rewrite app_nil_r. f_equal. apply filter_others.
    intros t [_ Hn]%filter_In. unfold not_of in Hn. apply negb_true_iff, Z.eqb_neq in Hn. done. }
  rewrite Hf. pose proof (settle_twice session id trades rows base) as Hst. rewrite Heq in Hin' |- *. cbn [pb_sessions pb_trades pb_next_id] in Hin' |- *.
  destruct (pn_ended_at session) as [at_|] eqn:Ee; [|done]. unfold complete_session. cbn [pb_sessions pb_trades pb_next_id].
  rewrite (proj2 (existsb_exists _ _)) by (exists row'; split; [done | by apply Z.eqb_eq]). do 2 f_equal. unfold settle at 1 in Hst. rewrite Ee in Hst. exact Hst.
Qed.

(** Each completed session is of a day of its own. *)
Lemma completed_days d user_id strategy_id :
  tables_ok d -> exists days, NoDup days /\ Z.of_nat (length days) = get_completed_sessions_count user_id strategy_id d
    /\ forall day, In day days -> exists r, In r (pb_sessions d) /\ day_key r = (user_id, strategy_id, day) /\ pw_is_complete r = true.
Proof.
  intros Hd. unfold get_completed_sessions_count. set (f := fun r : PaperSessionRow => _ && _). exists (map pw_session_date (List.filter f (pb_sessions d))).
  rewrite length_map. split_and!; [|done|].
  - pose proof (tb_days d Hd) as Hnd. clear Hd. induction (pb_sessions d) as [|r l IH]; [constructor|]. cbn [map] in Hnd. apply NoDup_cons in Hnd as [Hr Hl].
    cbn [List.filter]. destruct (f r) eqn:Ef; [|by apply IH]. cbn [map]. apply NoDup_cons. split; [|by apply IH].
    intros (r' & Hday & [Hin Hf']%filter_In)%list_elem_of_In%in_map_iff. apply Hr, list_elem_of_In, in_map_iff. exists r'. split; [|done]. unfold f in Ef, Hf'. unfold day_key.
    rewrite !andb_true_iff, !Z.eqb_eq in Ef, Hf'. destruct Ef as [[-> ->] _], Hf' as [[-> ->] _]. by rewrite Hday.
  - intros day (r & <- & [Hin Hf]%filter_In)%in_map_iff. exists r. unfold f in Hf. rewrite !andb_true_iff, !Z.eqb_eq in Hf. destruct Hf as [[<- <-] Hc]. done.
Qed.

(** The tables that flushing engine sessions can lead to. *)
Inductive reachable_tables : paper_db -> Prop :=
| rt_empty : reachable_tables {| pb_sessions := []; pb_trades := []; pb_next_id := 0 |}
| rt_flush session user_id strategy_id rs d : reachable_tables d -> reachable_tables (snd (flush_session_to_store session user_id strategy_id rs d)).

Lemma reachable_tables_ok d : reachable_tables d -> tables_ok d.
Proof.
  induction 1 as [|session user_id strategy_id rs d _ IH]; [by split; try constructor|].
  destruct (flush_session_to_store session user_id strategy_id rs d) as [res d'] eqn:E. eapply flush_ok; [exact IH | exact E].
Qed.

(** ** Properties *)

(** C35: a paper session holds one position in its life.  In every state of the engine a
    session has executed at most one signal and closed at most one trade, and has not
    executed more signals than fired; an open position has no closed trade beside it,
    ordered watermarks around a positive entry price and something left to close.  A
    closed position is kept and never replaced, so no later signal of the session is
    ever executed. *)
Theorem paper_session_one_trade rs id r :
  reachable_records rs -> rs !! id = Some r ->
  sr_signals_executed r <= 1 /\ (length (sr_closed_trades r) <= 1)%nat /\ sr_signals_executed r <= sr_signals_fired r
  /\ (forall pos, sr_position r = Some pos -> position_ok pos /\ (ps_is_open pos = true -> sr_closed_trades r = [])).
Proof.
  intros Hr Hid. pose proof (reachable_single rs Hr id r Hid) as [Hn Hs Hf _]. destruct (sr_position r) as [pos|].
  - destruct (Hs pos eq_refl) as (Hok & Hx & Hl & Ho). split_and!; try done; [lia|]. by intros p [= <-].
  - destruct (Hn eq_refl) as [Hx Hc]. rewrite Hc in *. split_and!; try done; [lia | cbn; lia].
Qed.

(** The exit a paper session takes.  A bar that closes a trade closes the one open
    position at the price of an exit the bar triggered, and no exit the bar triggered is
    more adverse in the locked order: where the stop was touched, the trade is a stop. *)
Theorem paper_exit_most_adverse r candle now t ts r' :
  run_exits r candle now = (Ok (t :: ts), r') ->
  exists pos0 e, ts = [] /\ sr_position r = Some pos0 /\ ps_is_open pos0 = true
    /\ let pos := update_on_candle pos0 candle (xr_trailing_stop_percent (sj_exit (sr_strategy r))) in
       triggered pos candle (sj_exit (sr_strategy r)) now (prior_values r) false e
       /\ (forall e', triggered pos candle (sj_exit (sr_strategy r)) now (prior_values r) false e' -> exit_priority (xe_type e) <= exit_priority (xe_type e'))
       /\ pt_exit_reason t = xe_type e /\ pt_exit_price t = xe_price e /\ pt_entry_price t = ps_entry_price pos0 /\ pt_entry_time t = ps_entry_time pos0
       /\ pt_side t = ps_side pos0 /\ pt_pnl t = side_pnl (ps_side pos0) (ps_entry_price pos0) (xe_price e) (ps_quantity pos0).
Proof. apply exits_most_adverse. Qed.

(** C36: seven sessions are seven days, and a flush can be repeated.  In every state of the
    tables the count the live gate reads is the number of distinct days on which a
    session of that user and strategy was completed, and flushing the same session again
    changes nothing. *)
Theorem paper_days_distinct d user_id strategy_id :
  reachable_tables d ->
  (exists days, NoDup days /\ Z.of_nat (length days) = get_completed_sessions_count user_id strategy_id d
     /\ forall day, In day days -> exists r, In r (pb_sessions d) /\ day_key r = (user_id, strategy_id, day) /\ pw_is_complete r = true)
  /\ (forall session rs id d', flush_session_to_store session user_id strategy_id rs d = (Ok id, d') ->
        flush_session_to_store session user_id strategy_id rs d' = (Ok id, d')).
Proof.
  intros Hd%reachable_tables_ok. split; [by apply completed_days|]. intros session rs id d'. by apply flush_twice.
Qed.

(** ** A session *)

(** Buy above 100, stop at five percent. *)
Definition breakout : StrategyJSON :=
  {| sj_id := "b"; sj_name := "breakout"; sj_mode := BEGINNER; sj_version := 1; sj_indicators := [];
     sj_entry := {| er_side := BUY; er_operator := op_AND; er_conditions := [PriceCondition PO_GT (Some (f_of_Z 100))] |};
     sj_exit := {| xr_target_percent := None; xr_stop_loss_percent := Some (f_of_Z 5); xr_trailing_stop_percent := None; xr_partial_exits := [];
                   xr_square_off_time := None; xr_indicator_exits := []; xr_reverse_signal_exit := false |};
     sj_risk := no_risk_rules; sj_execution := {| ec_mode := PAPER_MODE; ec_order_type := SO_MARKET; ec_product_type := SP_INTRADAY |} |}.

(** Minute bars of one day, in India. *)
Definition bar_at (minute open high low close : Z) : Candle :=
  {| cd_timestamp := {| m_wall := 20000 * DAY_US + (555 + minute) * MINUTE_US; m_offset := Some 19800000000 |}; cd_open := f_of_Z open;
     cd_high := f_of_Z high; cd_low := f_of_Z low; cd_close := f_of_Z close; cd_volume := f_zero |}.

Definition started : moment := {| m_wall := 20000 * DAY_US + 13500000000; m_offset := Some 0 |}.

Definition feed (session : PaperSession) (bars : list Candle) (rs : records) : records :=
  fold_left (fun rs c => snd (process_candle session c ∅ rs)) bars rs.

Definition opened_session : PaperSession := fst (start_session 1 breakout 7 started ∅).

(** The signal, the fill and the stop; then a second signal and two bars to fill it. *)
Definition two_signals : list Candle := [bar_at 0 90 95 85 90; bar_at 1 95 102 94 101; bar_at 2 102 103 90 95; bar_at 3 96 106 95 105; bar_at 4 106 120 105 118; bar_at 5 118 130 117 129].

Definition after_two : records := feed opened_session two_signals (snd (start_session 1 breakout 7 started ∅)).

Lemma after_two_reachable : reachable_records after_two.
Proof.
  unfold after_two, feed, two_signals. cbn [fold_left]. do 6 (apply rr_candle; [|vm_compute; reflexivity]). apply rr_start, rr_empty.
Qed.

(** The second signal is fired, pending, and never executed. *)
Example second_signal_lost :
  match after_two !! (1 : uuid) with
  | Some r => sr_signals_fired r = 2 /\ sr_signals_executed r = 1 /\ length (sr_closed_trades r) = 1%nat /\ sr_pending_side r = Some BUY
  | None => False
  end.
Proof. vm_compute. by split_and!. Qed.

Lemma paper_session_one_trade_witness : exists r, after_two !! (1 : uuid) = Some r /\ sr_signals_executed r <= 1 /\ (length (sr_closed_trades r) <= 1)%nat.
Proof.
  destruct (after_two !! (1 : uuid)) as [r|] eqn:E; [|exfalso; pose proof second_signal_lost as H; rewrite E in H; exact H].
  exists r. destruct (paper_session_one_trade after_two 1 r after_two_reachable E) as (Hx & Hl & _). split_and!; [reflexivity | exact Hx | exact Hl].
Defined.

(** The record when the stop bar is run. *)
Definition holding : SessionRecord :=
  match feed opened_session (take 2 two_signals) (snd (start_session 1 breakout 7 started ∅)) !! (1 : uuid) with
  | Some r => match fill_pending r (bar_at 2 102 103 90 95) with Ok r' => r' | Err _ => r end
  | None => new_record 1 breakout 7 started
  end.

Definition stopped : PaperTrade :=
  match fst (run_exits holding (bar_at 2 102 103 90 95) ∅) with
  | Ok (t :: _) => t
  | _ => {| pt_session_id := 0; pt_entry_time := started; pt_exit_time := started; pt_side := SELL; pt_entry_price := f_zero; pt_exit_price := f_zero;
            pt_qty := f_zero; pt_pnl := f_zero; pt_exit_reason := X_TIME; pt_entry_reasons := [] |}
  end.

Lemma paper_exit_most_adverse_witness : exists e, pt_exit_reason stopped = xe_type e /\ pt_exit_price stopped = xe_price e.
Proof.
  assert (E : run_exits holding (bar_at 2 102 103 90 95) ∅ = (Ok [stopped], snd (run_exits holding (bar_at 2 102 103 90 95) ∅))) by (vm_compute; reflexivity).
  destruct (paper_exit_most_adverse holding (bar_at 2 102 103 90 95) ∅ stopped [] (snd (run_exits holding (bar_at 2 102 103 90 95) ∅)) E)
    as (pos0 & e & _ & _ & _ & _ & _ & Hr & Hp & _).
  exists e. split; [exact Hr | exact Hp].
Defined.

(** Ended and flushed. *)
Definition ended_session : PaperSession :=
  match fst (end_session opened_session {| m_wall := 20000 * DAY_US + 36000000000; m_offset := Some 0 |} after_two) with Ok s => s | Err _ => opened_session end.

Definition flushed : paper_db := snd (flush_session_to_store ended_session 7 2 after_two {| pb_sessions := []; pb_trades := []; pb_next_id := 0 |}).

Lemma paper_days_distinct_witness :
  exists days : list Z, NoDup days /\ Z.of_nat (length days) = 1 /\ flush_session_to_store ended_session 7 2 after_two flushed = (Ok 0, flushed).
Proof.
  assert (Hr : reachable_tables flushed) by (apply rt_flush, rt_empty).
  destruct (paper_days_distinct flushed 7 2 Hr) as [(days & Hnd & Hlen & _) Hagain]. exists days. split_and!; [exact Hnd | |].
  - rewrite Hlen. vm_compute. reflexivity.
  - apply Hagain. vm_compute. reflexivity.
Defined.

(** Three to a stop that trails: the trail is raised by the bar it is then tested on. *)
Definition trailing : StrategyJSON :=
  {| sj_id := "t"; sj_name := "trail"; sj_mode := BEGINNER; sj_version := 1; sj_indicators := []; sj_entry := sj_entry breakout;
     sj_exit := {| xr_target_percent := None; xr_stop_loss_percent := None; xr_trailing_stop_percent := Some (f_of_Z 5); xr_partial_exits := [];
                   xr_square_off_time := None; xr_indicator_exits := []; xr_reverse_signal_exit := false |};
     sj_risk := no_risk_rules; sj_execution := sj_execution breakout |}.

Example trail_of_the_same_bar :
  let session := fst (start_session 1 trailing 7 started ∅) in
  let rs := feed session [bar_at 0 95 102 94 101; bar_at 1 101 130 100 128] (snd (start_session 1 trailing 7 started ∅)) in
  match rs !! (1 : uuid) with
  | Some r => map pt_exit_reason (sr_closed_trades r) = [X_TRAILING_STOP] /\ map pt_exit_price (sr_closed_trades r) = [f_mul (f_of_Z 130) (f_sub f_one (f_div (f_of_Z 5) hundred))]
  | None => False
  end.
Proof. vm_compute. by split. Qed.
