(* ===== verification/LiveOrders.v ===== *)
(** * Live orders of the strategy engine (backend/app/strategy_engine/live_orders/)

    The second way to a real order: a request of the owner of a strategy passes the
    safety chain, the stop-loss guard and then one broker call with one relogin.

    [live_facts] are the rows and settings the chain reads besides the world of the
    services: the paper tables ([PaperTrading]), cached scores, the account switch and
    the two layers of the feature flag.  The guard validates the strategy's own column
    ([StrategyDsl]).  Messages and the details of a check are left out. *)

From Stdlib Require Import ZArith Lia List Bool Ascii String.
From stdpp Require Import base list strings gmap.
From S2P Require Import Prelude PyText PyFloat PyDecimal PyNum Records Enums Models Samples ScripMaster PositionManager.
From S2P Require Import DayState OrderService AiValidator PineMapper Fanout StrategyWebhook StrategyGate SignalTask SignalGuarantees.
From S2P Require Import DhanBroker DhanSafety StrategyDsl Engines PaperTrading.

(** ** What the chain reads *)

Record score_columns : Type := { last_trust_score : option dec; last_truth_score : option dec; last_scores_at : option datetime }.

Record live_facts : Type := {
  lf_paper : paper_db;
  lf_scores : gmap uuid score_columns;
  lf_users : gmap uuid bool;
  lf_flag_env : option string;
  lf_flag_runtime : option bool
}.

(** ** The feature flag *)

Definition TRUTHY_VALUES : list string := ["true"; "1"; "yes"]%string.
Definition FALSY_VALUES : list string := ["false"; "0"; "no"]%string.

Definition read_env_override (raw : option string) : option bool :=
  s ← raw;
  let n := str_lower (str_strip s) in
  if one_of n TRUTHY_VALUES then Some true else if one_of n FALSY_VALUES then Some false else None.

(** Environment, then runtime, then off. *)
Definition live_flag (f : live_facts) : bool := default (default false (lf_flag_runtime f)) (read_env_override (lf_flag_env f)).

Definition is_live_trading_enabled_for_user (f : live_facts) (user_id : uuid) : bool := live_flag f && default false (lf_users f !! user_id).

(** ** Scores *)

Definition SCORES_TTL : Z := 86400.
Definition MIN_TRUST_SCORE_FOR_LIVE : Z := 70.
Definition MIN_TRUTH_SCORE_FOR_LIVE : Z := 55.

Record StrategyScoresSnapshot : Type := { sn_trust_score : float64; sn_truth_score : float64; sn_computed_at : datetime }.

Inductive CachedScores : Type :=
| FRESH (snap : StrategyScoresSnapshot)
| MISSING
| STALE.

Definition inspect_cached_scores (f : live_facts) (strategy_id : uuid) (now : datetime) : CachedScores :=
  match lf_scores f !! strategy_id with
  | Some {| last_trust_score := Some trust; last_truth_score := Some truth; last_scores_at := Some at_ |} =>
      if SCORES_TTL <? now - at_ then STALE
      else FRESH {| sn_trust_score := float_of_dec trust; sn_truth_score := float_of_dec truth; sn_computed_at := at_ |}
  | _ => MISSING
  end.

(** ** Checks *)

Inductive check_name : Type :=
| ck_auto_kill_switch
| ck_paper_sessions
| ck_trust_score
| ck_truth_score
| ck_live_trading_enabled
| ck_broker_connection
| ck_risk_engine_precheck.

#[export] Instance check_name_eq_dec : EqDecision check_name.
Proof. solve_decision. Defined.

Record SafetyCheckResult : Type := { ck_name : check_name; ck_passed : bool }.

Record SafetyChainResult : Type := {
  sc_all_passed : bool;
  sc_checks : list SafetyCheckResult;
  sc_blocking_check : option SafetyCheckResult;
  sc_user_id : uuid;
  sc_strategy_id : uuid;
  sc_checked_at : datetime
}.

Definition verdict_of (n : check_name) (passed : bool) : SafetyCheckResult := {| ck_name := n; ck_passed := passed |}.

Definition score_ok (score : StrategyScoresSnapshot -> float64) (least : Z) (c : CachedScores) : bool :=
  match c with FRESH snap => negb (f_ltb (score snap) (f_of_Z least)) | MISSING | STALE => false end.

Definition FULLY_IMPLEMENTED_BROKERS : list BrokerName := [FYERS; DHAN].

Definition usable_credential (user_id : uuid) (c : BrokerCredential) : bool :=
  (c_user_id c =? user_id) && c_is_active c && bool_decide (c_broker_name c ∈ FULLY_IMPLEMENTED_BROKERS).

Section Chain.
Context {B R : Type} `{RedisStore R} (f : live_facts).

Definition check_auto_kill_switch (user_id : uuid) : M B R SafetyCheckResult :=
  s ← get_kill_switch_status user_id; mret (verdict_of ck_auto_kill_switch (negb (bool_decide (s = TRIPPED)))).

Definition check_paper_sessions (user_id strategy_id : uuid) : M B R SafetyCheckResult :=
  mret (verdict_of ck_paper_sessions (MIN_COMPLETED_SESSIONS <=? get_completed_sessions_count user_id strategy_id (lf_paper f))).

Definition check_trust_score (strategy_id : uuid) : M B R SafetyCheckResult :=
  gets (fun w => verdict_of ck_trust_score (score_ok sn_trust_score MIN_TRUST_SCORE_FOR_LIVE (inspect_cached_scores f strategy_id (w_now w)))).

Definition check_truth_score (strategy_id : uuid) : M B R SafetyCheckResult :=
  gets (fun w => verdict_of ck_truth_score (score_ok sn_truth_score MIN_TRUTH_SCORE_FOR_LIVE (inspect_cached_scores f strategy_id (w_now w)))).

Definition check_live_trading_enabled (user_id : uuid) : M B R SafetyCheckResult :=
  mret (verdict_of ck_live_trading_enabled (is_live_trading_enabled_for_user f user_id)).

Definition check_broker_connection (user_id : uuid) : M B R SafetyCheckResult :=
  gets (fun w => verdict_of ck_broker_connection (existsb (usable_credential user_id) (w_credentials w))).

(** There is no such module yet: passes. *)
Definition check_risk_engine_precheck : M B R SafetyCheckResult := mret (verdict_of ck_risk_engine_precheck true).

Definition chain_checks (user_id strategy_id : uuid) : list (M B R SafetyCheckResult) :=
  [check_auto_kill_switch user_id; check_paper_sessions user_id strategy_id; check_trust_score strategy_id; check_truth_score strategy_id;
   check_live_trading_enabled user_id; check_broker_connection user_id; check_risk_engine_precheck].

(** One after the other; the first that fails ends the chain. *)
Fixpoint run_checks (checks : list (M B R SafetyCheckResult)) (results : list SafetyCheckResult)
  : M B R (list SafetyCheckResult * option SafetyCheckResult) :=
  match checks with
  | [] => mret (results, None)
  | check :: checks' =>
      r ← check;
      if ck_passed r then run_checks checks' (results ++ [r]) else mret (results ++ [r], Some r)
  end.

Definition run_safety_chain (user_id strategy_id : uuid) : M B R SafetyChainResult :=
  now ← gets w_now;
  '(results, blocking) ← run_checks (chain_checks user_id strategy_id) [];
  mret {| sc_all_passed := absent blocking; sc_checks := results; sc_blocking_check := blocking; sc_user_id := user_id;
          sc_strategy_id := strategy_id; sc_checked_at := now |}.
End Chain.

(** ** The order *)

Record LiveOrderRequest : Type := {
  lq_strategy_id : uuid;
  lq_symbol : string;
  lq_side : OrderSide;
  lq_quantity : Z;
  lq_price : option float64;
  lq_dry_run : bool;
  lq_exchange : Exchange;
  lq_product_type : ProductType
}.

(** The defaults of the schema. *)
Definition default_request (strategy_id : uuid) (symbol : string) (side : OrderSide) (quantity : Z) : LiveOrderRequest :=
  {| lq_strategy_id := strategy_id; lq_symbol := symbol; lq_side := side; lq_quantity := quantity; lq_price := None; lq_dry_run := false;
     lq_exchange := NFO; lq_product_type := INTRADAY |}.

Inductive audit_event : Type :=
| live_order_attempted (strategy_id user_id : uuid)
| live_order_blocked (strategy_id user_id : uuid) (reason : string).

Inductive live_error : Type :=
| PaperModeActiveError
| LookupError
| StrategyMissingBrokerCredentialError
| BrokerOfflineError
| OtherError (e : exn).

Record LiveOrderResult : Type := {
  lo_success : bool;
  lo_order_id : option string;
  lo_chain : SafetyChainResult;
  lo_guard_passed : bool;
  lo_response : option OrderResponse;
  lo_is_dry_run : bool
}.

Definition check_stop_loss_present (dsl : StrategyJSON) : bool :=
  negb (absent (xr_stop_loss_percent (sj_exit dsl))) || negb (absent (xr_trailing_stop_percent (sj_exit dsl))).

(** No column, an empty one or an invalid one fails closed. *)
Definition evaluate_broker_guard_subset `{Coercion} (strategy : Strategy) : bool :=
  match strategy_json strategy with
  | None => false
  | Some column =>
      if bool_decide (column = ∅) then false
      else match validate_strategy column with None => false | Some dsl => check_stop_loss_present dsl end
  end.

Definition live_order_request (q : LiveOrderRequest) : result exn OrderRequest :=
  let order p := checked_order {| o_symbol := lq_symbol q; o_exchange := lq_exchange q; o_side := lq_side q; o_quantity := lq_quantity q;
                                  o_order_type := match lq_price q with Some _ => LIMIT | None => MARKET end;
                                  o_product_type := lq_product_type q; o_price := p; o_trigger_price := None;
                                  o_tag := Some "live-orders"%string |} in
  match lq_price q with
  | None => order None
  | Some x => match dec_of_float x with Some d => order (Some d) | None => Err ValidationError end
  end.

Definition name_text (n : check_name) : string :=
  match n with
  | ck_auto_kill_switch => "auto_kill_switch" | ck_paper_sessions => "paper_sessions" | ck_trust_score => "trust_score"
  | ck_truth_score => "truth_score" | ck_live_trading_enabled => "live_trading_enabled" | ck_broker_connection => "broker_connection"
  | ck_risk_engine_precheck => "risk_engine_precheck"
  end.

Definition owned (user_id strategy_id : uuid) (s : Strategy) : bool := (s_id s =? strategy_id) && (s_user_id s =? user_id).
Definition active_of (user_id credential_id : uuid) (c : BrokerCredential) : bool :=
  (c_id c =? credential_id) && (c_user_id c =? user_id) && c_is_active c.

Section Router.
Context {B R : Type} `{BrokerInterface B} `{RedisStore R} `{Decryptor} `{Coercion} (settings : Settings) (f : live_facts).

(** One replay after a login; [None]: the broker is offline. *)
Definition place_with_retry (k : BrokerCredentials) (o : OrderRequest) : M B R (option OrderResponse) :=
  first ← attempt (send_order k o);
  match first with
  | Ok r => mret (Some r)
  | Err (BrokerError BrokerSessionExpiredError) =>
      second ← attempt (on_broker (login k) ;; send_order k o);
      match second with
      | Ok r => mret (Some r)
      | Err (BrokerError _) => mret None
      | Err e => raise e
      end
  | Err e => raise e
  end.

(** Result and audit events. *)
Definition live_outcome : Type := result live_error LiveOrderResult * list audit_event.

Definition blocked (q : LiveOrderRequest) (user_id : uuid) (chain : SafetyChainResult) (reason : string) : live_outcome :=
  (Ok {| lo_success := false; lo_order_id := None; lo_chain := chain; lo_guard_passed := false; lo_response := None; lo_is_dry_run := lq_dry_run q |},
   [live_order_blocked (lq_strategy_id q) user_id reason]).

(** The credential of the strategy and the order, or why not. *)
Definition resolve_order (q : LiveOrderRequest) (user_id : uuid) (strategy : Strategy) (w : world B R)
  : result live_error (BrokerCredentials * OrderRequest) :=
  match s_broker_credential_id strategy with
  | None => Err StrategyMissingBrokerCredentialError
  | Some cid =>
      match List.find (active_of user_id cid) (w_credentials w) with
      | None => Err StrategyMissingBrokerCredentialError
      | Some row =>
          match (k ← build_broker_credentials row user_id; o ← live_order_request q; Ok (k, o)) with
          | Ok ko => Ok ko
          | Err e => Err (OtherError e)
          end
      end
  end.

Definition place_live_order (q : LiveOrderRequest) (user_id : uuid) (w : world B R) : live_outcome * world B R :=
  if strategy_paper_mode settings then ((Err PaperModeActiveError, []), w)
  else
    match List.find (owned user_id (lq_strategy_id q)) (w_strategies w) with
    | None => ((Err LookupError, []), w)
    | Some strategy =>
        match run_safety_chain f user_id (lq_strategy_id q) w with
        | (Err e, w1) => ((Err (OtherError e), []), w1)
        | (Ok chain, w1) =>
            if negb (sc_all_passed chain)
            then (blocked q user_id chain (match sc_blocking_check chain with Some c => name_text (ck_name c) | None => "unknown"%string end), w1)
            else if negb (evaluate_broker_guard_subset strategy) then (blocked q user_id chain "stop_loss_present", w1)
            else
              let pre := live_order_attempted (lq_strategy_id q) user_id in
              if lq_dry_run q then
                ((Ok {| lo_success := true; lo_order_id := Some "DRY_RUN_SIMULATED"%string; lo_chain := chain; lo_guard_passed := true;
                        lo_response := None; lo_is_dry_run := true |}, [pre]), w1)
              else
                match resolve_order q user_id strategy w1 with
                | Err e => ((Err e, [pre]), w1)
                | Ok (k, o) =>
                    match place_with_retry k o w1 with
                    | (Ok (Some r), w2) =>
                        ((Ok {| lo_success := true; lo_order_id := Some (r_broker_order_id r); lo_chain := chain; lo_guard_passed := true;
                                lo_response := Some r; lo_is_dry_run := false |}, [pre; pre]), w2)
                    | (Ok None, w2) => ((Err BrokerOfflineError, [pre; live_order_blocked (lq_strategy_id q) user_id "broker_offline"]), w2)
                    | (Err e, w2) => ((Err (OtherError e), [pre]), w2)
                    end
                end
        end
    end.

(** The HTTP status of the endpoint; 500 for what it does not catch. *)
Definition status_of_outcome (r : result live_error LiveOrderResult) : Z :=
  match r with
  | Ok x => if lo_success x then 200 else 403
  | Err PaperModeActiveError => 403
  | Err LookupError | Err (OtherError KeyError) => 404
  | Err StrategyMissingBrokerCredentialError => 422
  | Err BrokerOfflineError => 503
  | Err (OtherError (BrokerError e)) =>
      match e with BrokerInvalidSymbolError | BrokerInsufficientFundsError | BrokerOrderRejectedError => 422 | _ => 503 end
  | Err (OtherError _) => 500
  end.

Definition post_live_order (q : LiveOrderRequest) (user_id : uuid) (w : world B R) : (Z * list audit_event) * world B R :=
  let '((r, events), w') := place_live_order q user_id w in ((status_of_outcome r, events), w').

Definition get_live_preflight (user_id strategy_id : uuid) : M B R SafetyChainResult :=
  mine ← gets (fun w => List.find (owned user_id strategy_id) (w_strategies w));
  raise_when (absent mine) (HTTPException 404) ;;
  run_safety_chain f user_id strategy_id.
End Router.

(** ** The chain *)

Section Gates.
Context {B R : Type} `{RedisStore R} (f : live_facts).

(** The seven verdicts in the order of the chain. *)
Definition chain_verdicts (user_id strategy_id : uuid) (w : world B R) : list SafetyCheckResult :=
  let scores := inspect_cached_scores f strategy_id (w_now w) in
  [verdict_of ck_auto_kill_switch (negb (bool_decide (state_of_raw (redis_get (kill_key user_id) (w_now w) (w_redis w)) = TRIPPED)));
   verdict_of ck_paper_sessions (MIN_COMPLETED_SESSIONS <=? get_completed_sessions_count user_id strategy_id (lf_paper f));
   verdict_of ck_trust_score (score_ok sn_trust_score MIN_TRUST_SCORE_FOR_LIVE scores);
   verdict_of ck_truth_score (score_ok sn_truth_score MIN_TRUTH_SCORE_FOR_LIVE scores);
   verdict_of ck_live_trading_enabled (is_live_trading_enabled_for_user f user_id);
   verdict_of ck_broker_connection (existsb (usable_credential user_id) (w_credentials w));
   verdict_of ck_risk_engine_precheck true].

(** Up to and with the first that fails. *)
Fixpoint upto_failure (vs : list SafetyCheckResult) : list SafetyCheckResult :=
  match vs with [] => [] | v :: vs' => v :: (if ck_passed v then upto_failure vs' else []) end.

Definition first_failure (vs : list SafetyCheckResult) : option SafetyCheckResult := List.find (fun v => negb (ck_passed v)) vs.

Lemma run_checks_spec (checks : list (M B R SafetyCheckResult)) vs acc w :
  Forall2 (fun c v => c w = (Ok v, w)) checks vs -> run_checks checks acc w = (Ok (acc ++ upto_failure vs, first_failure vs), w).
Proof.
  intros Hc. revert acc. induction Hc as [|c v checks vs Hv _ IH]; intros acc; cbn [run_checks upto_failure]; [by rewrite app_nil_r|].
  unfold mbind, M_bind. rewrite Hv. unfold first_failure. cbn [List.find]. destruct (ck_passed v); cbn [negb].
  - rewrite IH. unfold first_failure. by rewrite <- List.app_assoc.
  - done.
Qed.

Lemma chain_runs user_id strategy_id w :
  run_safety_chain f user_id strategy_id w
  = (Ok {| sc_all_passed := absent (first_failure (chain_verdicts user_id strategy_id w)); sc_checks := upto_failure (chain_verdicts user_id strategy_id w);
           sc_blocking_check := first_failure (chain_verdicts user_id strategy_id w); sc_user_id := user_id; sc_strategy_id := strategy_id;
           sc_checked_at := w_now w |}, w).
Proof.
  unfold run_safety_chain, mbind at 1, M_bind at 1, gets at 1. unfold mbind at 1, M_bind at 1.
  rewrite (run_checks_spec _ (chain_verdicts user_id strategy_id w)); [done|]. unfold chain_checks, chain_verdicts. repeat constructor.
Qed.

(** What a passed chain means. *)
Record cleared (user_id strategy_id : uuid) (w : world B R) : Prop := {
  cl_kill : state_of_raw (redis_get (kill_key user_id) (w_now w) (w_redis w)) <> TRIPPED;
  cl_sessions : 7 <= get_completed_sessions_count user_id strategy_id (lf_paper f);
  cl_scores : exists snap, inspect_cached_scores f strategy_id (w_now w) = FRESH snap
    /\ f_ltb (sn_trust_score snap) (f_of_Z 70) = false /\ f_ltb (sn_truth_score snap) (f_of_Z 55) = false;
  cl_flag : live_flag f = true /\ lf_users f !! user_id = Some true;
  cl_broker : exists c, In c (w_credentials w) /\ c_user_id c = user_id /\ c_is_active c = true /\ (c_broker_name c = FYERS \/ c_broker_name c = DHAN)
}.

Lemma score_ok_fresh score least c : score_ok score least c = true -> exists snap, c = FRESH snap /\ f_ltb (score snap) (f_of_Z least) = false.
Proof. destruct c as [snap| |]; cbn; [|done..]. intros Hs%negb_true_iff. by exists snap. Qed.

Lemma first_failure_none vs : first_failure vs = None -> Forall (fun v => ck_passed v = true) vs.
Proof.
  intros E. apply List.Forall_forall. intros v Hv. pose proof (find_none _ _ E v Hv) as Hn. cbn in Hn. by apply negb_false_iff in Hn.
Qed.

Lemma upto_all vs : Forall (fun v => ck_passed v = true) vs -> upto_failure vs = vs.
Proof. induction 1 as [|v vs Hv _ IH]; [done|]. cbn [upto_failure]. by rewrite Hv, IH. Qed.

Lemma chain_cleared user_id strategy_id w : first_failure (chain_verdicts user_id strategy_id w) = None -> cleared user_id strategy_id w.
Proof.
  intros E. apply first_failure_none in E. unfold chain_verdicts in E. cbv zeta in E. rewrite !Forall_cons in E. cbn [ck_passed verdict_of] in E.
  destruct E as (Hk & Hs & Ht & Hu & Hl & Hb & _). split.
  - apply negb_true_iff, bool_decide_eq_false in Hk. exact Hk.
  - apply Z.leb_le in Hs. exact Hs.
  - apply score_ok_fresh in Ht as (snap & Es & Ht). apply score_ok_fresh in Hu as (snap' & Es' & Hu). rewrite Es in Es'. injection Es' as <-. by exists snap.
  - unfold is_live_trading_enabled_for_user in Hl. apply andb_true_iff in Hl as [Hf Hu']. split; [done|]. by destruct (lf_users f !! user_id) as [[]|].
  - apply existsb_exists in Hb as (c & Hin & Hc). unfold usable_credential in Hc. apply andb_true_iff in Hc as [Hc Hn]. apply andb_true_iff in Hc as [Hc Ha].
    apply Z.eqb_eq in Hc. apply bool_decide_eq_true in Hn. exists c. split_and!; try done. unfold FULLY_IMPLEMENTED_BROKERS in Hn.
    rewrite !elem_of_cons in Hn. destruct Hn as [Hn | [Hn | Hn]]; [by left | by right | by inversion Hn].
Qed.

(** The chain never raises, never changes anything, runs its checks in order up to the
    first that fails, and passes only a user and a strategy that are cleared. *)
Theorem chain_sound user_id strategy_id w :
  exists c, run_safety_chain f user_id strategy_id w = (Ok c, w)
    /\ sc_checks c = upto_failure (chain_verdicts user_id strategy_id w)
    /\ sc_blocking_check c = first_failure (chain_verdicts user_id strategy_id w)
    /\ (sc_all_passed c = true -> cleared user_id strategy_id w /\ sc_checks c = chain_verdicts user_id strategy_id w).
Proof.
  eexists. split; [apply chain_runs|]. split_and!; try done. cbn [sc_all_passed sc_checks]. intros Ha.
  destruct (first_failure (chain_verdicts user_id strategy_id w)) eqn:Ef; [done|]. split; [by apply chain_cleared|].
  by apply upto_all, first_failure_none.
Qed.
End Gates.

Section Placement.
Context {B R : Type} `{BrokerInterface B} `{RedisStore R} `{Decryptor} `{Coercion} (settings : Settings) (f : live_facts).

Lemma send_spec k o (w : world B R) r w' :
  send_order k o w = (r, w') ->
  w' = w <| w_orders := w_orders w ++ [(k, o)] |> <| w_broker := w_broker w' |> /\ r = fst (place_order k o (w_broker w)).
Proof.
  unfold send_order, modify, on_broker, mbind, M_bind. cbn. destruct (place_order k o (w_broker w)) as [pr b] eqn:E. intros [= <- <-]. by split.
Qed.

(** The order goes out once, and again only after an expired session. *)
Lemma retry_spec k o (w : world B R) r w' :
  place_with_retry k o w = (r, w') ->
  exists n, w' = w <| w_orders := w_orders w ++ repeat (k, o) n |> <| w_broker := w_broker w' |> /\ (1 <= n <= 2)%nat
    /\ (n = 1%nat \/ fst (place_order k o (w_broker w)) = Err (BrokerError BrokerSessionExpiredError)).
Proof.
  unfold place_with_retry. intros E. unfold mbind at 1, M_bind at 1, attempt at 1 in E. destruct (send_order k o w) as [r1 w1] eqn:E1.
  apply send_spec in E1 as [Hw1 Hr1].
  assert (Hd : r1 = Err (BrokerError BrokerSessionExpiredError) \/ r1 <> Err (BrokerError BrokerSessionExpiredError)).
  { destruct r1 as [a|[]]; try (by right). destruct e; first [by left | by right]. }
  destruct Hd as [He|He]; cycle 1.
  { exists 1%nat. assert (w' = w1) as ->; [|split_and!; [exact Hw1 | lia..| by left]].
    destruct r1 as [a|[]]; try (by injection E as _ <-). destruct e; try (by injection E as _ <-). by destruct He. }
  rewrite He in E, Hr1. clear He. cbv beta iota in E. unfold mbind at 1, M_bind at 1, attempt at 1 in E.
  unfold mbind at 1, M_bind at 1, on_broker at 1 in E.
  destruct (login k (w_broker w1)) as [[[]|e] b] eqn:El.
  - destruct (send_order k o (w1 <| w_broker := b |>)) as [r2 w2] eqn:E2. apply send_spec in E2 as [Hw2 _].
    assert (w' = w2) as ->. { destruct r2 as [a|[]]; unfold mret, M_ret, raise in E; congruence. }
    exists 2%nat. split_and!; [|lia..|by right]. rewrite Hw2, Hw1. destruct w. simpl_rec. by rewrite <- List.app_assoc.
  - assert (w' = w1 <| w_broker := b |>) as ->. { destruct e; unfold mret, M_ret, raise in E; congruence. }
    exists 1%nat. split_and!; [|lia..|by left]. rewrite Hw1. by destruct w.
Qed.

(** The order of a request. *)
Definition order_of_request (q : LiveOrderRequest) (o : OrderRequest) : Prop :=
  o_symbol o = str_strip (lq_symbol q) /\ o_side o = lq_side q /\ o_quantity o = lq_quantity q /\ 0 < o_quantity o
  /\ o_exchange o = lq_exchange q /\ o_product_type o = lq_product_type q /\ o_price o = (x ← lq_price q; dec_of_float x)
  /\ o_tag o = Some "live-orders"%string.

Lemma checked_order_ok x o : checked_order x = Ok o ->
  o = {| o_symbol := str_strip (o_symbol x); o_exchange := o_exchange x; o_side := o_side x; o_quantity := o_quantity x; o_order_type := o_order_type x;
         o_product_type := o_product_type x; o_price := o_price x; o_trigger_price := o_trigger_price x; o_tag := str_strip <$> o_tag x |}
  /\ 0 < o_quantity o.
Proof.
  unfold checked_order. cbv zeta. destruct (order_request_ok _) eqn:E; [|done]. intros [= <-]. split; [done|]. cbn.
  unfold order_request_ok in E. rewrite !andb_true_iff in E. cbn in E. destruct E as [[[[[_ Hq] _] _] _] _]. lia.
Qed.

Lemma live_order_request_ok q o : live_order_request q = Ok o -> order_of_request q o.
Proof.
  unfold live_order_request, order_of_request. cbv zeta.
  destruct (lq_price q) as [x|]; [destruct (dec_of_float x) as [d|] eqn:Ed; [|done]|]; intros E; apply checked_order_ok in E as [-> Hq]; cbn in Hq |- *;
    rewrite ?Ed; by split_and!.
Qed.

Lemma resolve_order_spec q user_id strategy (w : world B R) k o :
  resolve_order q user_id strategy w = Ok (k, o) ->
  order_of_request q o /\ exists cid row, s_broker_credential_id strategy = Some cid /\ In row (w_credentials w) /\ c_id row = cid
    /\ c_user_id row = user_id /\ c_is_active row = true /\ build_broker_credentials row user_id = Ok k.
Proof.
  unfold resolve_order. destruct (s_broker_credential_id strategy) as [cid|]; [|done]. destruct (List.find _ _) as [row|] eqn:Ef; [|done].
  destruct (_ ≫= _) as [[k' o']|] eqn:E; [|done]. intros [= -> ->]. apply res_bind_ok in E as (k1 & Ek & E). apply res_bind_ok in E as (o1 & Eo & E).
  injection E as -> ->. split; [by apply live_order_request_ok|]. apply find_some in Ef as [Hin Ha]. unfold active_of in Ha.
  apply andb_true_iff in Ha as [Ha Hact]. apply andb_true_iff in Ha as [Hid Hu]. apply Z.eqb_eq in Hid, Hu. exists cid, row. by split_and!.
Qed.

Lemma guard_passes strategy : evaluate_broker_guard_subset strategy = true ->
  exists column dsl, strategy_json strategy = Some column /\ validate_strategy column = Some dsl /\ check_stop_loss_present dsl = true.
Proof.
  unfold evaluate_broker_guard_subset. destruct (strategy_json strategy) as [column|]; [|done]. destruct (bool_decide _); [done|].
  destruct (validate_strategy column) as [dsl|] eqn:E; [|done]. intros Hs. by exists column, dsl.
Qed.

Lemma seven_days user_id strategy_id (w : world B R) : reachable_tables (lf_paper f) -> cleared f user_id strategy_id w ->
  exists days, NoDup days /\ (7 <= length days)%nat /\ forall day, In day days ->
    exists p, In p (pb_sessions (lf_paper f)) /\ day_key p = (user_id, strategy_id, day) /\ pw_is_complete p = true.
Proof.
  intros Hp Hc. destruct (completed_days (lf_paper f) user_id strategy_id (reachable_tables_ok _ Hp)) as (days & Hnd & Hlen & Hall).
  exists days. pose proof (cl_sessions _ _ _ _ Hc). split_and!; [done | lia | done].
Qed.

(** C8: a live order needs every gate.  When a request of the live-orders endpoint changed
    anything at all, paper mode is off, the strategy is the caller's, his kill switch is
    not tripped, paper sessions were completed on seven distinct days, both cached scores
    are fresh and high enough, live trading is switched on for the platform and for him,
    the strategy's column is a valid strategy with a stop (hence a futures strategy), and
    the request is no dry run; then the one order of the request went out with the
    caller's own active credential that the strategy names, once, or twice when the
    session had expired, after an audit event; and nothing but the broker changed. *)
Theorem live_order_gated q user_id w r events w' :
  reachable_tables (lf_paper f) -> place_live_order settings f q user_id w = ((r, events), w') -> w' <> w ->
  strategy_paper_mode settings = false /\ lq_dry_run q = false /\ cleared f user_id (lq_strategy_id q) w
  /\ (exists days, NoDup days /\ (7 <= length days)%nat /\ forall day, In day days ->
        exists p, In p (pb_sessions (lf_paper f)) /\ day_key p = (user_id, lq_strategy_id q, day) /\ pw_is_complete p = true)
  /\ exists strategy column dsl row k o n,
       In strategy (w_strategies w) /\ s_id strategy = lq_strategy_id q /\ s_user_id strategy = user_id
       /\ strategy_json strategy = Some column /\ validate_strategy column = Some dsl /\ check_stop_loss_present dsl = true
       /\ resolve_instrument_type (Some strategy) = FUTURES
       /\ s_broker_credential_id strategy = Some (c_id row) /\ In row (w_credentials w) /\ c_user_id row = user_id /\ c_is_active row = true
       /\ build_broker_credentials row user_id = Ok k /\ order_of_request q o
       /\ w' = w <| w_orders := w_orders w ++ repeat (k, o) n |> <| w_broker := w_broker w' |>
       /\ (1 <= n <= 2)%nat /\ (n = 1%nat \/ fst (place_order k o (w_broker w)) = Err (BrokerError BrokerSessionExpiredError))
       /\ hd_error events = Some (live_order_attempted (lq_strategy_id q) user_id).
Proof.
  intros Hpaper. unfold place_live_order. destruct (strategy_paper_mode settings); [by intros [= _ _ <-]|].
  destruct (List.find _ _) as [strategy|] eqn:Es; [|by intros [= _ _ <-]]. rewrite chain_runs. cbn [sc_all_passed].
  destruct (first_failure (chain_verdicts f user_id (lq_strategy_id q) w)) eqn:Ef; cbn [absent negb]; [by intros [= _ _ <-]|].
  destruct (evaluate_broker_guard_subset strategy) eqn:Eg; cbn [negb]; [|by intros [= _ _ <-]].
  destruct (lq_dry_run q); [by intros [= _ _ <-]|]. destruct (resolve_order q user_id strategy w) as [[k o]|] eqn:Er; [|by intros [= _ _ <-]].
  destruct (place_with_retry k o w) as [rr w2] eqn:Ep. intros E _.
  assert (Hev : w' = w2 /\ hd_error events = Some (live_order_attempted (lq_strategy_id q) user_id)).
  { destruct rr as [[resp|]|e]; injection E as _ <- <-; by split. }
  destruct Hev as [-> Hev]. apply retry_spec in Ep as (n & Hw & Hn & Hx). apply resolve_order_spec in Er as (Ho & cid & row & Hcid & Hin & Hid & Hu & Ha & Hk).
  apply find_some in Es as [Hs Hown]. unfold owned in Hown. apply andb_true_iff in Hown as [Hsid Huid]. apply Z.eqb_eq in Hsid, Huid.
  pose proof (chain_cleared _ _ _ _ Ef) as Hclear. apply guard_passes in Eg as (column & dsl & Hcol & Hval & Hstop).
  split_and!; try done; [by eapply seven_days|].
  exists strategy, column, dsl, row, k, o, n. subst cid. split_and!; first [done | lia | by eapply valid_column_is_futures].
Qed.

Lemma preflight_runs user_id strategy_id (w : world B R) :
  get_live_preflight f user_id strategy_id w
  = match List.find (owned user_id strategy_id) (w_strategies w) with
    | None => (Err (HTTPException 404), w)
    | Some _ => run_safety_chain f user_id strategy_id w
    end.
Proof. unfold get_live_preflight, mbind, M_bind, gets at 1. by destruct (List.find _ _). Qed.

(** The pre-flight panel shows the chain the order would run: where it passes, an order
    placed on the same state is not blocked by the chain, and where it does not, the order
    is blocked by the same check. *)
Theorem preflight_agrees q user_id w c r events w' w1 :
  strategy_paper_mode settings = false -> get_live_preflight f user_id (lq_strategy_id q) w = (Ok c, w1) ->
  place_live_order settings f q user_id w = ((r, events), w') ->
  w1 = w /\ (sc_all_passed c = false -> exists x, r = Ok x /\ lo_success x = false /\ lo_chain x = c /\ w' = w)
  /\ (forall x, r = Ok x -> lo_chain x = c).
Proof.
  intros Hp E Eo. rewrite preflight_runs in E. unfold place_live_order in Eo. rewrite Hp in Eo.
  destruct (List.find _ _) as [strategy|]; [|done]. destruct (chain_sound f user_id (lq_strategy_id q) w) as (c' & Ec & _).
  rewrite Ec in E, Eo. injection E as -> ->. split; [done|]. clear Ec Hp. destruct (sc_all_passed c); cbn [negb] in Eo; cycle 1.
  { injection Eo as <- <- <-. split; [|by intros x [= <-]]. intros _. eexists. by split_and!. }
  split; [done|]. intros x ->. destruct (negb (evaluate_broker_guard_subset _)); [by injection Eo as <- _ _|].
  destruct (lq_dry_run q); [by injection Eo as <- _ _|]. destruct (resolve_order _ _ _ _) as [[k o]|]; [|done].
  destruct (place_with_retry k o w1) as [[[resp|]|e] w2]; [by injection Eo as <- _ _ | done | done].
Qed.
End Placement.

(** ** At Dhan *)

Section AtDhan.
Context {V R : Type} `{DhanServer V} `{Coercion} `{RedisStore R} `{Decryptor} (settings : Settings) (f : live_facts).

(** The exchanges whose Dhan segment is a derivatives segment. *)
Definition derivative_exchange (e : Exchange) : bool := opt_is (fun s => one_of s DERIVATIVE_SEGMENTS) (exchange_to_dhan_segment e).

Lemma intraday_rejected k o (d : dhan V) :
  o_product_type o = INTRADAY -> derivative_exchange (o_exchange o) = true -> place_order k o d = (Err (BrokerError BrokerOrderRejectedError), d).
Proof.
  intros Hp Hex. change (dhan_place_order k o d = (Err (BrokerError BrokerOrderRejectedError), d)).
  unfold dhan_place_order, build_order_payload, mbind, D_bind. unfold derivative_exchange in Hex. rewrite Hp.
  destruct (exchange_to_dhan_segment (o_exchange o)) as [segment|]; [|done].
  unfold opt_is in Hex. by rewrite Hex, bool_decide_eq_true_2.
Qed.

(** A live order with the product the schema defaults to never reaches Dhan on a
    derivatives exchange, the default one included: no success but a dry run, and the
    adapter is left as it was. *)
Theorem default_product_refused q user_id (w : world (dhan V) R) r events w' :
  lq_product_type q = INTRADAY -> derivative_exchange (lq_exchange q) = true ->
  place_live_order settings f q user_id w = ((r, events), w') ->
  w_broker w' = w_broker w /\ (forall x, r = Ok x -> lo_success x = true -> lo_is_dry_run x = true).
Proof.
  intros Hprod Hex. unfold place_live_order. destruct (strategy_paper_mode settings); [by intros [= <- _ <-]|].
  destruct (List.find _ _) as [strategy|]; [|by intros [= <- _ <-]]. rewrite chain_runs. destruct (negb _); [intros [= <- _ <-]; by split; [|intros x [= <-]]|].
  destruct (negb _); [intros [= <- _ <-]; by split; [|intros x [= <-]]|]. destruct (lq_dry_run q); [intros [= <- _ <-]; by split; [|intros x [= <-]]|].
  destruct (resolve_order q user_id strategy w) as [[k o]|] eqn:Er; [|by intros [= <- _ <-]].
  apply resolve_order_spec in Er as [(_ & _ & _ & _ & Ho & Hp & _) _].
  assert (Hrej : place_order k o (w_broker w) = (Err (BrokerError BrokerOrderRejectedError), w_broker w)).
  { apply intraday_rejected; [by rewrite Hp | by rewrite Ho]. }
  unfold place_with_retry, mbind, M_bind, attempt, send_order, modify, on_broker. cbn -[place_order]. unfold mbind, M_bind. cbn -[place_order].
  rewrite Hrej. cbn. by intros [= <- _ <-].
Qed.
End AtDhan.

(** ** A live order *)

#[local] Existing Instance plain_coercion.

(** Seven empty sessions on seven days, ended and flushed. *)
Definition session_day (n : Z) : moment := {| m_wall := (20000 + n) * DAY_US; m_offset := Some 0 |}.

Definition seven_records : records :=
  foldr (fun n rs => let '(s, rs1) := start_session n cross_strategy 1 (session_day n) rs in snd (end_session s (session_day n) rs1)) ∅ [1; 2; 3; 4; 5; 6; 7].

Definition flush_nth (n : Z) (d : paper_db) : paper_db :=
  match seven_records !! n with Some r => snd (flush_session_to_store (sr_session r) 1 2 seven_records d) | None => d end.

Definition seven_flushed : paper_db := foldr flush_nth {| pb_sessions := []; pb_trades := []; pb_next_id := 0 |} [1; 2; 3; 4; 5; 6; 7].

Lemma seven_reachable : reachable_tables seven_flushed.
Proof.
  unfold seven_flushed. induction [1; 2; 3; 4; 5; 6; 7] as [|n l IH]; [constructor|]. cbn [foldr]. unfold flush_nth at 1.
  destruct (seven_records !! n); [by constructor | done].
Qed.

Definition live_sample : Strategy :=
  {| s_id := 2; s_user_id := 1; s_broker_credential_id := Some 5; entry_lots := 4; partial_profit_lots := 1; partial_profit_target_pct := None;
     trail_offset_pct := None; hard_sl_pct := None; ai_validation_enabled := false; exit_strategy_type := "internal"; strategy_json := Some cross_payload;
     is_paper := Some false; s_is_active := true; s_webhook_token_id := None; allowed_symbols := [] |}.

Definition live_world : world ScriptedBroker store := empty_world <| w_strategies := [live_sample] |>.

Definition cleared_facts : live_facts :=
  {| lf_paper := seven_flushed;
     lf_scores := {[2 := {| last_trust_score := Some (Dec 82 0); last_truth_score := Some (Dec 61 0); last_scores_at := Some 40 |}]};
     lf_users := {[1 := true]}; lf_flag_env := Some " True "%string; lf_flag_runtime := None |}.

Definition live_request : LiveOrderRequest := default_request 2 "BSE-AUG2026-FUT" BUY 375.

Definition live_run : live_outcome * world ScriptedBroker store := place_live_order sample_settings cleared_facts live_request 1 live_world.

Lemma live_order_gated_witness :
  lq_dry_run live_request = false /\ length (w_orders (snd live_run)) = 1%nat
  /\ exists days : list Z, NoDup days /\ (7 <= length days)%nat.
Proof.
  assert (E : place_live_order sample_settings cleared_facts live_request 1 live_world = ((fst (fst live_run), snd (fst live_run)), snd live_run))
    by (unfold live_run; destruct (place_live_order _ _ _ _ _) as [[? ?] ?]; reflexivity).
  assert (Hlen : length (w_orders (snd live_run)) = 1%nat) by (vm_compute; reflexivity).
  assert (Hne : snd live_run <> live_world) by (intros Hw; rewrite Hw in Hlen; discriminate Hlen).
  destruct (live_order_gated sample_settings cleared_facts live_request 1 live_world (fst (fst live_run)) (snd (fst live_run)) (snd live_run) seven_reachable E Hne)
    as (_ & Hdry & _ & (days & Hnd & Hdays & _) & _).
  split_and!; [exact Hdry | exact Hlen|]. exists days. split; [exact Hnd | exact Hdays].
Defined.
