(* ===== verification/Backtest.v ===== *)
(** * The backtest (backend/app/strategy_engine/backtest/)

    Costs, the candle-by-candle simulator, the metrics, the normaliser and the runner.
    The indicator series are an argument: the library that computes them is not
    modelled.  A reason of a trade is kept as data, warnings as flags. *)

From Stdlib Require Import ZArith Lia List Bool Ascii String SpecFloat.
From stdpp Require Import base list strings gmap.
From S2P Require Import Prelude PyText PyFloat PyDecimal PyNum Records Enums Models AnomalyShield TradeDna StrategyDsl Engines PaperTrading.

(** ** Costs (costs.py) *)

Record CostSettings : Type := { cs_fixed_cost : float64; cs_percent_cost : float64; cs_slippage_percent : float64; cs_spread_percent : float64 }.

Definition no_costs : CostSettings := {| cs_fixed_cost := f_zero; cs_percent_cost := f_zero; cs_slippage_percent := f_zero; cs_spread_percent := f_zero |}.

Definition leg_cost (price quantity : float64) (settings : CostSettings) : result engine_error float64 :=
  if f_ltb price f_zero || f_ltb quantity f_zero then Err EValueError
  else Ok (f_add (cs_fixed_cost settings) (f_mul (f_div (cs_percent_cost settings) hundred) (f_mul price quantity))).

Inductive trade_leg : Type := leg_entry | leg_exit.

Definition adjust_for_slippage (price : float64) (side : OrderSide) (leg : trade_leg) (settings : CostSettings) : float64 :=
  if f_eqb (cs_slippage_percent settings) f_zero then price
  else
    let slip := f_div (cs_slippage_percent settings) hundred in
    let sign := match side, leg with BUY, leg_entry | SELL, leg_exit => f_one | _, _ => f_neg f_one end in
    f_mul price (f_add f_one (f_mul sign slip)).

(** ** The trade log (trade_log.py) *)

Inductive trade_reason : Type :=
| closed_by (t : ExitType)
| closed_partly (idx : nat) (p : PartialExit)
| backtest_end.

Record Trade : Type := {
  td_entry_time : moment;
  td_exit_time : moment;
  td_side : OrderSide;
  td_entry_price : float64;
  td_exit_price : float64;
  td_quantity : float64;
  td_pnl : float64;
  td_exit_reason : trade_reason;
  td_entry_reasons : list Condition
}.

(** The model's own constraints. *)
Definition trade_row_of (t : Trade) : result engine_error Trade :=
  if above_zero (td_entry_price t) && above_zero (td_exit_price t) && above_zero (td_quantity t) then Ok t else Err EValidationError.

Record EquityPoint : Type := { eq_timestamp : moment; eq_equity : float64 }.

(** ** Exit events of a bar (simulator.py) *)

Inductive ambiguity : Type := CONSERVATIVE | OPTIMISTIC | ACCURATE_PLACEHOLDER.

Definition conservative_rank (t : ExitType) : Z :=
  match t with
  | X_STOP_LOSS => 0 | X_TRAILING_STOP => 1 | X_PARTIAL => 2 | X_TARGET => 3 | X_INDICATOR => 4 | X_REVERSE_SIGNAL => 5 | X_SQUARE_OFF => 6 | X_TIME => 7
  end.

Definition optimistic_rank (t : ExitType) : Z :=
  match t with
  | X_TARGET => 0 | X_PARTIAL => 1 | X_TRAILING_STOP => 2 | X_STOP_LOSS => 3 | X_INDICATOR => 4 | X_REVERSE_SIGNAL => 5 | X_SQUARE_OFF => 6 | X_TIME => 7
  end.

Definition rank_of (mode : ambiguity) : ExitType -> Z := match mode with OPTIMISTIC => optimistic_rank | _ => conservative_rank end.

Definition prioritise_events (events : list ExitEvent) (mode : ambiguity) : list ExitEvent := sort_stable (fun a b => rank_of mode (xe_type b) <? rank_of mode (xe_type a)) events.

(** [math.isclose(a, b, rel_tol=1e-9)]. *)
Definition rel_tol : float64 := float_of_decimal 1 (-9).

Definition is_infinite (x : float64) : bool := match x with S754_infinity _ => true | _ => false end.

Definition isclose (a b : float64) : bool :=
  if f_eqb a b then true
  else if is_infinite a || is_infinite b then false
  else
    let diff := f_abs (f_sub b a) in
    f_leb diff (f_abs (f_mul rel_tol b)) || f_leb diff (f_abs (f_mul rel_tol a)) || f_leb diff f_zero.

(** A partial of this size was booked before. *)
Definition partial_booked (event : ExitEvent) (position : PositionState) : bool :=
  existsb (fun rec => isclose (px_qty_percent rec) (xe_qty_percent event)) (ps_partials position).

Definition trade_of (pos : PositionState) (bar : Candle) (fill quantity pnl : float64) (why : trade_reason) (reasons : list Condition) : Trade :=
  {| td_entry_time := ps_entry_time pos; td_exit_time := cd_timestamp bar; td_side := ps_side pos; td_entry_price := ps_entry_price pos;
     td_exit_price := fill; td_quantity := quantity; td_pnl := pnl; td_exit_reason := why; td_entry_reasons := reasons |}.

Section Exits.
Context (bar : Candle) (reasons : list Condition) (costs : CostSettings) (quantity : float64).

(** One leg: what it earns after its cost. *)
Definition leg_pnl (pos : PositionState) (fill qty : float64) : result engine_error float64 :=
  cost ← leg_cost fill qty costs;
  Ok (f_sub (side_pnl (ps_side pos) (ps_entry_price pos) fill qty) cost).

Fixpoint apply_events (events : list ExitEvent) (pos : PositionState) (closed : list Trade) (realised : float64)
  : result engine_error (PositionState * list Trade * float64) :=
  match events with
  | [] => Ok (pos, closed, realised)
  | e :: events' =>
      if negb (ps_is_open pos) then Ok (pos, closed, realised)
      else
        let fill := adjust_for_slippage (xe_price e) (ps_side pos) leg_exit costs in
        if bool_decide (xe_type e = X_PARTIAL) then
          if partial_booked e pos then apply_events events' pos closed realised
          else
            let qty := f_mul quantity (f_div (xe_qty_percent e) hundred) in
            pnl ← leg_pnl pos fill qty;
            pos' ← apply_partial_exit pos (xe_qty_percent e) fill (cd_timestamp bar);
            t ← trade_row_of (trade_of pos' bar fill qty pnl (match xe_partial e with Some (i, p) => closed_partly i p | None => closed_by X_PARTIAL end) reasons);
            apply_events events' pos' (closed ++ [t]) (f_add realised pnl)
        else
          let qty := ps_remaining pos in
          pnl ← leg_pnl pos fill qty;
          t ← trade_row_of (trade_of pos bar fill qty pnl (closed_by (xe_type e)) reasons);
          apply_events events' (close_position pos) (closed ++ [t]) (f_add realised pnl)
  end.

(** [_apply_exit_events]: a position that is closed is none. *)
Definition apply_exit_events (pos : PositionState) (events : list ExitEvent) (mode : ambiguity)
  : result engine_error (option PositionState * list Trade * float64) :=
  '(pos', closed, realised) ← apply_events (prioritise_events events mode) pos [] f_zero;
  Ok (if ps_is_open pos' then Some pos' else None, closed, realised).
End Exits.

(** ** The simulator (simulator.py) *)

Abbreviation series := (gmap string (list (option float64))).

(** [values_at] (indicator_runner.py). *)
Definition values_at (s : series) (i : nat) : result engine_error values :=
  if forallb (fun e => (i <? length (snd e))%nat) (map_to_list s) then Ok (omap (fun l => l !! i ≫= id) s) else Err EIndexError.

Record DailyStats : Type := { dy_current_day : option Z; dy_trades_today : Z; dy_daily_pnl : float64 }.

#[export] Instance DailyStats_eta : Eta DailyStats := fun d =>
  {| dy_current_day := dy_current_day d; dy_trades_today := dy_trades_today d; dy_daily_pnl := dy_daily_pnl d |}.

Definition roll_daily_stats (d : DailyStats) (day : Z) : DailyStats :=
  match dy_current_day d with
  | None => d <| dy_current_day := Some day |>
  | Some today => if day =? today then d else {| dy_current_day := Some day; dy_trades_today := 0; dy_daily_pnl := f_zero |}
  end.

Record sim_state : Type := {
  sm_realised : float64;
  sm_streak : Z;
  sm_daily : DailyStats;
  sm_position : option PositionState;
  sm_pending : option EntryDecision;
  sm_reasons : list Condition;
  sm_trades : list Trade;
  sm_equity : list EquityPoint
}.

#[export] Instance sim_state_eta : Eta sim_state := fun s =>
  {| sm_realised := sm_realised s; sm_streak := sm_streak s; sm_daily := sm_daily s; sm_position := sm_position s; sm_pending := sm_pending s;
     sm_reasons := sm_reasons s; sm_trades := sm_trades s; sm_equity := sm_equity s |}.

Definition unrealised_pnl (pos : PositionState) (mark : float64) : float64 := side_pnl (ps_side pos) (ps_entry_price pos) mark (ps_remaining pos).

Section Simulate.
Context (strategy : StrategyJSON) (s : series) (initial_capital quantity : float64) (costs : CostSettings) (mode : ambiguity).

(** [_fill_pending_entry]. *)
Definition fill_pending_entry (pending : EntryDecision) (bar : Candle) : result engine_error PositionState :=
  match ed_side pending with
  | None => Err EValueError
  | Some side => open_position side (adjust_for_slippage (cd_open bar) side leg_entry costs) quantity (cd_timestamp bar)
  end.

(** 1. A queued entry fills at the open and pays its cost. *)
Definition fill_step (bar : Candle) (st : sim_state) : result engine_error sim_state :=
  match sm_pending st, sm_position st with
  | Some pending, None =>
      pos ← fill_pending_entry pending bar;
      cost ← leg_cost (ps_entry_price pos) (ps_quantity pos) costs;
      Ok (st <| sm_position := Some pos |> <| sm_reasons := ed_reasons pending |> <| sm_realised := f_sub (sm_realised st) cost |>
            <| sm_daily ::= (fun d => d <| dy_trades_today ::= Z.add 1 |>) |> <| sm_pending := None |>)
  | _, _ => Ok st
  end.

(** A closed trade in the day's accounts and the streak. *)
Definition book_trade (st : sim_state) (t : Trade) : sim_state :=
  st <| sm_trades ::= (fun l => l ++ [t]) |> <| sm_daily ::= (fun d => d <| dy_daily_pnl ::= (fun x => f_add x (td_pnl t)) |>) |>
     <| sm_streak ::= (fun n => if f_ltb (td_pnl t) f_zero then 1 + n else if f_ltb f_zero (td_pnl t) then 0 else n) |>.

(** 2. The exits of the bar. *)
Definition exit_step (i : nat) (bar : Candle) (st : sim_state) : result engine_error sim_state :=
  match sm_position st with
  | None => Ok st
  | Some pos =>
      now ← values_at s i;
      before ← values_at s (i - 1);
      events ← evaluate_exit pos bar (sj_exit strategy) now (Some before) false;
      match events with
      | [] => Ok st
      | _ =>
          '(pos', closed, realised) ← apply_exit_events bar (sm_reasons st) costs quantity pos events mode;
          let st1 := st <| sm_position := pos' |> <| sm_reasons ::= (fun r => match pos' with None => [] | Some _ => r end) |> in
          Ok (fold_left book_trade closed st1 <| sm_realised := f_add (sm_realised st) realised |>)
      end
  end.

(** 3. Watermarks and the trail, on the close. *)
Definition close_step (bar : Candle) (st : sim_state) : sim_state :=
  st <| sm_position ::= (fun o => (fun pos => update_on_candle pos bar (xr_trailing_stop_percent (sj_exit strategy))) <$> o) |>.

(** 4. The caps. *)
Definition stats_of (st : sim_state) : RiskRuntimeStats :=
  {| rs_daily_pnl_percent := if f_ltb f_zero initial_capital then Some (f_mul (f_div (dy_daily_pnl (sm_daily st)) initial_capital) hundred) else None;
     rs_trades_today := Some (dy_trades_today (sm_daily st)); rs_loss_streak := Some (sm_streak st) |}.

Definition risk_blocked (st : sim_state) : result engine_error bool :=
  risk ← evaluate_risk strategy (Some (stats_of st));
  Ok (bool_decide (ra_severity risk = RS_BLOCK) || negb (ra_allowed risk)).

(** 5. The entry, on the close, for the next open. *)
Definition entry_step (i : nat) (prior bar : Candle) (st : sim_state) : result engine_error sim_state :=
  match sm_position st with
  | Some _ => Ok st
  | None =>
      now ← values_at s i;
      before ← values_at s (i - 1);
      d ← evaluate_entry strategy bar (Some prior) now (Some before);
      Ok (if ed_should_enter d then st <| sm_pending := Some d |> else st)
  end.

(** 6. The mark to market. *)
Definition mark_step (bar : Candle) (st : sim_state) : sim_state :=
  let unrealised := match sm_position st with Some pos => unrealised_pnl pos (cd_close bar) | None => f_zero end in
  st <| sm_equity ::= (fun l => l ++ [{| eq_timestamp := cd_timestamp bar; eq_equity := f_add (f_add initial_capital (sm_realised st)) unrealised |}]) |>.

Definition bar_step (i : nat) (prior bar : Candle) (st : sim_state) : result engine_error sim_state :=
  st1 ← fill_step bar (st <| sm_daily ::= (fun d => roll_daily_stats d (date_of (cd_timestamp bar))) |>);
  st2 ← exit_step i bar st1;
  let st3 := close_step bar st2 in
  blocked ← risk_blocked st3;
  st4 ← (if blocked : bool then Ok st3 else entry_step i prior bar st3);
  Ok (mark_step bar st4).

Fixpoint run_bars (i : nat) (prior : Candle) (bars : list Candle) (st : sim_state) : result engine_error sim_state :=
  match bars with
  | [] => Ok st
  | bar :: bars' => st' ← bar_step i prior bar st; run_bars (S i) bar bars' st'
  end.

Definition seed (first : Candle) : sim_state :=
  {| sm_realised := f_zero; sm_streak := 0; sm_daily := {| dy_current_day := None; dy_trades_today := 0; dy_daily_pnl := f_zero |}; sm_position := None;
     sm_pending := None; sm_reasons := []; sm_trades := [];
     sm_equity := [{| eq_timestamp := cd_timestamp first; eq_equity := f_add initial_capital f_zero |}] |}.

(** What is open is closed at the last close, and the last point re-anchored. *)
Definition force_close (last_bar : Candle) (st : sim_state) : result engine_error sim_state :=
  match sm_position st with
  | None => Ok st
  | Some pos =>
      let fill := adjust_for_slippage (cd_close last_bar) (ps_side pos) leg_exit costs in
      pnl ← leg_pnl costs pos fill (ps_remaining pos);
      t ← trade_row_of (trade_of pos last_bar fill (ps_remaining pos) pnl backtest_end (sm_reasons st));
      let realised := f_add (sm_realised st) pnl in
      Ok (st <| sm_trades ::= (fun l => l ++ [t]) |> <| sm_realised := realised |> <| sm_position := None |>
            <| sm_equity ::= (fun l => removelast l ++ [{| eq_timestamp := cd_timestamp last_bar; eq_equity := f_add initial_capital realised |}]) |>)
  end.

(** [candles[0]] of nothing raises. *)
Definition simulate (candles : list Candle) : result engine_error sim_state :=
  match candles with
  | [] => Err EIndexError
  | first :: bars =>
      st ← run_bars 1 first bars (seed first);
      force_close (List.last bars first) st
  end.
End Simulate.

(** ** Metrics (metrics.py) *)

Definition is_win (x : float64) : bool := f_ltb f_zero x.
Definition is_loss (x : float64) : bool := f_ltb x f_zero.

Definition total_pnl (pnls : list float64) : float64 := f_sum pnls.
Definition count_of (p : float64 -> bool) (pnls : list float64) : Z := Z.of_nat (length (List.filter p pnls)).
Definition win_rate (pnls : list float64) : float64 := share (count_of is_win pnls) (Z.of_nat (length pnls)).
Definition loss_rate (pnls : list float64) : float64 := share (count_of is_loss pnls) (Z.of_nat (length pnls)).
Definition mean_of (l : list float64) : float64 := match l with [] => f_zero | _ => f_div (f_sum l) (f_len l) end.
Definition average_win (pnls : list float64) : float64 := mean_of (List.filter is_win pnls).
Definition average_loss (pnls : list float64) : float64 := mean_of (map f_neg (List.filter is_loss pnls)).
Definition largest_win (pnls : list float64) : float64 := match List.filter is_win pnls with [] => f_zero | x :: l => fold_left py_max l x end.
Definition largest_loss (pnls : list float64) : float64 := match List.filter is_loss pnls with [] => f_zero | x :: l => fold_left py_min l x end.

Definition profit_factor (pnls : list float64) : float64 :=
  match pnls with
  | [] => f_zero
  | _ =>
      let gross_win := f_sum (List.filter is_win pnls) in
      let gross_loss := f_neg (f_sum (List.filter is_loss pnls)) in
      if f_eqb gross_loss f_zero then (if f_ltb f_zero gross_win then S754_infinity false else f_zero) else f_div gross_win gross_loss
  end.

Definition expectancy (pnls : list float64) : float64 :=
  match pnls with
  | [] => f_zero
  | _ => f_sub (f_mul (average_win pnls) (win_rate pnls)) (f_mul (average_loss pnls) (f_sub f_one (win_rate pnls)))
  end.

Definition drawdown_step (acc : float64 * float64) (value : float64) : float64 * float64 :=
  let '(peak, worst) := acc in
  let peak := if f_ltb peak value then value else peak in
  if f_ltb f_zero peak then
    let dd := f_div (f_sub peak value) peak in
    (peak, if f_ltb worst dd then dd else worst)
  else (peak, worst).

Definition max_drawdown (curve : list float64) : float64 :=
  match curve with [] => f_zero | first :: _ => snd (fold_left drawdown_step curve (first, f_zero)) end.

Definition total_return_percent (initial_capital final_equity : float64) : float64 :=
  if f_eqb initial_capital f_zero then f_zero else f_mul (f_div (f_sub final_equity initial_capital) initial_capital) hundred.

(** ** Candles in order (normalizer.py) *)

Definition MIN_CANDLES_FOR_SIMULATION : nat := 2.

(** The instant of an aware datetime. *)
Definition instant (t : moment) : Z := m_wall t - default 0 (m_offset t).

Fixpoint no_repeats (l : list Candle) : bool :=
  match l with
  | c :: ((c' :: _) as l') => negb (instant (cd_timestamp c') =? instant (cd_timestamp c)) && no_repeats l'
  | _ => true
  end.

Definition normalize_candles (candles : list Candle) : result engine_error (list Candle) :=
  if (length candles <? MIN_CANDLES_FOR_SIMULATION)%nat then Err EValueError
  else if existsb (fun c => absent (m_offset (cd_timestamp c))) candles then Err EValueError
  else
    let sorted := sort_stable (fun a b => instant (cd_timestamp b) <? instant (cd_timestamp a)) candles in
    if no_repeats sorted then Ok sorted else Err EValueError.

(** ** The runner (runner.py) *)

Record BacktestResult : Type := {
  br_total_pnl : float64;
  br_total_return_percent : float64;
  br_win_rate : float64;
  br_loss_rate : float64;
  br_total_trades : Z;
  br_average_win : float64;
  br_average_loss : float64;
  br_largest_win : float64;
  br_largest_loss : float64;
  br_max_drawdown : float64;
  br_profit_factor : float64;
  br_expectancy : float64;
  br_equity_curve : list EquityPoint;
  br_trades : list Trade;
  br_spread_warning : bool
}.

(** [run_backtest] with the series that [precompute_indicators] made of the sorted candles. *)
Definition run_backtest (indicators : list Candle -> series) (candles : list Candle) (strategy : StrategyJSON) (initial_capital quantity : float64)
    (costs : CostSettings) (mode : ambiguity) : result engine_error BacktestResult :=
  sorted ← normalize_candles candles;
  st ← simulate strategy (indicators sorted) initial_capital quantity costs mode sorted;
  let pnls := map td_pnl (sm_trades st) in
  let equity := map eq_equity (sm_equity st) in
  let final_equity := List.last equity initial_capital in
  Ok {| br_total_pnl := total_pnl pnls; br_total_return_percent := total_return_percent initial_capital final_equity; br_win_rate := win_rate pnls;
        br_loss_rate := loss_rate pnls; br_total_trades := Z.of_nat (length (sm_trades st)); br_average_win := average_win pnls;
        br_average_loss := average_loss pnls; br_largest_win := largest_win pnls; br_largest_loss := largest_loss pnls; br_max_drawdown := max_drawdown equity;
        br_profit_factor := profit_factor pnls; br_expectancy := expectancy pnls; br_equity_curve := sm_equity st; br_trades := sm_trades st;
        br_spread_warning := f_ltb f_zero (cs_spread_percent costs) |}.
