(* ===== verification/BacktestSafety.v ===== *)
(** * What a backtest guarantees

    One point of equity per candle; every trade from a signal of the bar before its
    entry, filled at the open; no look-ahead; the caps of a day and of a losing streak;
    everything closed at the end. *)

From Stdlib Require Import ZArith Lia List Bool Ascii String SpecFloat Sorting.Sorted.
From stdpp Require Import base list strings gmap.
From S2P Require Import Prelude PyText PyFloat PyDecimal PyNum Records Enums Models AnomalyShield TradeDna StrategyDsl Engines PaperTrading Backtest.

Lemma last_of_cons {A : Type} (x : A) xs d : List.last (x :: xs) d = List.last xs x.
Proof. revert x d. induction xs as [|y xs IH]; intros x d; [done|]. change (List.last (x :: y :: xs) d) with (List.last (y :: xs) d). by rewrite !IH. Qed.

Section Simulation.
Context (strategy : StrategyJSON) (s : series) (initial_capital quantity : float64) (costs : CostSettings) (mode : ambiguity).

Abbreviation fill_step := (fill_step quantity costs).
Abbreviation exit_step := (exit_step strategy s quantity costs mode).
Abbreviation close_step := (close_step strategy).
Abbreviation entry_step := (entry_step strategy s).
Abbreviation bar_step := (bar_step strategy s initial_capital quantity costs mode).
Abbreviation run_bars := (run_bars strategy s initial_capital quantity costs mode).

(** ** One bar *)

Definition rolled (bar : Candle) (st : sim_state) : sim_state := st <| sm_daily ::= (fun d => roll_daily_stats d (date_of (cd_timestamp bar))) |>.

Lemma bar_step_inv i prior bar st st' :
  bar_step i prior bar st = Ok st' ->
  exists st1 st2 blocked st4, fill_step bar (rolled bar st) = Ok st1 /\ exit_step i bar st1 = Ok st2
    /\ risk_blocked strategy initial_capital (close_step bar st2) = Ok blocked
    /\ (if blocked : bool then Ok (close_step bar st2) else entry_step i prior bar (close_step bar st2)) = Ok st4
    /\ st' = mark_step initial_capital bar st4.
Proof.
  unfold Backtest.bar_step. intros (st1 & H1 & E)%res_bind_ok. apply res_bind_ok in E as (st2 & H2 & E). cbv zeta in E.
  apply res_bind_ok in E as (b & Hb & E). apply res_bind_ok in E as (st4 & H4 & [= <-]). exists st1, st2, b, st4. done.
Qed.

Lemma fill_step_inv bar st st1 :
  fill_step bar st = Ok st1 ->
  (st1 = st /\ (sm_pending st = None \/ sm_position st <> None))
  \/ exists d pos cost, sm_pending st = Some d /\ sm_position st = None /\ fill_pending_entry quantity costs d bar = Ok pos
       /\ sm_position st1 = Some pos /\ sm_pending st1 = None /\ sm_reasons st1 = ed_reasons d /\ sm_trades st1 = sm_trades st /\ sm_equity st1 = sm_equity st
       /\ sm_streak st1 = sm_streak st /\ sm_realised st1 = f_sub (sm_realised st) cost
       /\ sm_daily st1 = {| dy_current_day := dy_current_day (sm_daily st); dy_trades_today := 1 + dy_trades_today (sm_daily st); dy_daily_pnl := dy_daily_pnl (sm_daily st) |}.
Proof.
  unfold Backtest.fill_step. destruct (sm_pending st) as [d|] eqn:Ep; [|intros [= <-]; left; auto]. destruct (sm_position st) as [p|] eqn:Eo; [intros [= <-]; left; split; [done | by right]|].
  intros (pos & Hp & E)%res_bind_ok. apply res_bind_ok in E as (cost & Hc & [= <-]). right. exists d, pos, cost. by split_and!.
Qed.

(** The accounts of the trades a bar closes. *)
Lemma book_trades closed : forall st,
  sm_trades (fold_left book_trade closed st) = sm_trades st ++ closed /\ sm_position (fold_left book_trade closed st) = sm_position st
  /\ sm_pending (fold_left book_trade closed st) = sm_pending st /\ sm_reasons (fold_left book_trade closed st) = sm_reasons st
  /\ sm_equity (fold_left book_trade closed st) = sm_equity st
  /\ dy_trades_today (sm_daily (fold_left book_trade closed st)) = dy_trades_today (sm_daily st)
  /\ dy_current_day (sm_daily (fold_left book_trade closed st)) = dy_current_day (sm_daily st).
Proof.
  induction closed as [|t closed IH]; intros st; cbn [fold_left]; [by rewrite app_nil_r|].
  destruct (IH (book_trade st t)) as (-> & -> & -> & -> & -> & -> & ->). unfold book_trade. simpl_rec. by rewrite <- List.app_assoc.
Qed.

Lemma exit_step_inv i bar st st2 :
  exit_step i bar st = Ok st2 ->
  st2 = st
  \/ exists pos now before events pos' closed realised,
       sm_position st = Some pos /\ values_at s i = Ok now /\ values_at s (i - 1) = Ok before
       /\ evaluate_exit pos bar (sj_exit strategy) now (Some before) false = Ok events /\ events <> []
       /\ apply_exit_events bar (sm_reasons st) costs quantity pos events mode = Ok (pos', closed, realised)
       /\ sm_position st2 = pos' /\ sm_pending st2 = sm_pending st /\ sm_trades st2 = sm_trades st ++ closed /\ sm_equity st2 = sm_equity st
       /\ sm_reasons st2 = (match pos' with None => [] | Some _ => sm_reasons st end)
       /\ dy_trades_today (sm_daily st2) = dy_trades_today (sm_daily st) /\ dy_current_day (sm_daily st2) = dy_current_day (sm_daily st).
Proof.
  unfold Backtest.exit_step. destruct (sm_position st) as [pos|] eqn:Eo; [|intros [= <-]; by left].
  intros (now & Hn & E)%res_bind_ok. apply res_bind_ok in E as (before & Hb & E). apply res_bind_ok in E as (events & He & E).
  destruct events as [|e events]; [injection E as <-; by left|]. right. apply res_bind_ok in E as ([[pos' closed] realised] & Ha & E). cbv beta iota zeta in E.
  injection E as <-. exists pos, now, before, (e :: events), pos', closed, realised.
  destruct (book_trades closed (st <| sm_position := pos' |> <| sm_reasons ::= (fun r => match pos' with None => [] | Some _ => r end) |>))
    as (H1 & H2 & H3 & H4 & H5 & H6 & H7).
  split_and!; try done.
Qed.

Lemma close_step_same bar st :
  sm_trades (close_step bar st) = sm_trades st /\ sm_pending (close_step bar st) = sm_pending st /\ sm_reasons (close_step bar st) = sm_reasons st
  /\ sm_equity (close_step bar st) = sm_equity st /\ sm_daily (close_step bar st) = sm_daily st /\ sm_streak (close_step bar st) = sm_streak st
  /\ sm_position (close_step bar st) = (fun pos => update_on_candle pos bar (xr_trailing_stop_percent (sj_exit strategy))) <$> sm_position st.
Proof. done. Qed.

Lemma entry_step_inv i prior bar st st4 :
  entry_step i prior bar st = Ok st4 ->
  st4 = st
  \/ exists now before d, sm_position st = None /\ values_at s i = Ok now /\ values_at s (i - 1) = Ok before
       /\ evaluate_entry strategy bar (Some prior) now (Some before) = Ok d /\ ed_should_enter d = true /\ st4 = st <| sm_pending := Some d |>.
Proof.
  unfold Backtest.entry_step. destruct (sm_position st) as [pos|] eqn:Eo; [intros [= <-]; by left|].
  intros (now & Hn & E)%res_bind_ok. apply res_bind_ok in E as (before & Hb & E). apply res_bind_ok in E as (d & Hd & [= <-]).
  destruct (ed_should_enter d) eqn:Ee; [|by left]. right. by exists now, before, d.
Qed.

(** ** Curves and logs only grow *)

Definition grows (st st' : sim_state) (points : nat) : Prop :=
  (exists l, sm_trades st' = sm_trades st ++ l) /\ exists l, sm_equity st' = sm_equity st ++ l /\ length l = points.

Lemma bar_step_grows i prior bar st st' : bar_step i prior bar st = Ok st' -> grows st st' 1.
Proof.
  intros (st1 & st2 & b & st4 & H1 & H2 & _ & H4 & ->)%bar_step_inv.
  assert (Hf : sm_trades st1 = sm_trades st /\ sm_equity st1 = sm_equity st).
  { apply fill_step_inv in H1 as [[-> _] | (d & pos & c & _ & _ & _ & _ & _ & _ & Ht & He & _)]; [done|]. by rewrite Ht, He. }
  destruct Hf as [Ht1 He1].
  assert (Hx : (exists l, sm_trades st2 = sm_trades st1 ++ l) /\ sm_equity st2 = sm_equity st1).
  { apply exit_step_inv in H2 as [-> | (pos & now & before & ev & pos' & cl & re & _ & _ & _ & _ & _ & _ & _ & _ & Ht & He & _)]; [split; [by exists []; rewrite app_nil_r | done]|].
    split; [by exists cl | done]. }
  destruct Hx as [[l Ht2] He2].
  assert (Hn : sm_trades st4 = sm_trades st2 /\ sm_equity st4 = sm_equity st2).
  { destruct b; [by injection H4 as <-|]. by apply entry_step_inv in H4 as [-> | (now & before & d & _ & _ & _ & _ & _ & ->)]. }
  destruct Hn as [Ht4 He4]. split.
  - exists l. unfold mark_step. simpl_rec. by rewrite Ht4, Ht2, Ht1.
  - eexists. unfold mark_step. simpl_rec. by rewrite He4, He2, He1.
Qed.

Lemma run_bars_grows bars : forall i prior st st', run_bars i prior bars st = Ok st' -> grows st st' (length bars).
Proof.
  induction bars as [|bar bars IH]; intros i prior st st'; cbn [Backtest.run_bars].
  { intros [= <-]. split; exists []; by rewrite ?app_nil_r. }
  intros (st1 & H1 & H2)%res_bind_ok. apply bar_step_grows in H1 as [[l Hl] (m & Hm & Hlm)]. apply IH in H2 as [[l' Hl'] (m' & Hm' & Hlm')]. split.
  - exists (l ++ l'). by rewrite Hl', Hl, List.app_assoc.
  - exists (m ++ m'). rewrite Hm', Hm, List.app_assoc. split; [done|]. rewrite length_app, Hlm, Hlm'. done.
Qed.

Lemma run_bars_app xs ys : forall i prior st,
  run_bars i prior (xs ++ ys) st = (st1 ← run_bars i prior xs st; run_bars (i + length xs) (List.last xs prior) ys st1).
Proof.
  induction xs as [|x xs IH]; intros i prior st; [by rewrite Nat.add_0_r|]. cbn [app Backtest.run_bars length].
  destruct (bar_step i prior x st) as [st1|e]; [|done]. cbn [mbind result_bind]. rewrite IH. replace (S i + length xs)%nat with (i + S (length xs))%nat by lia.
  by rewrite last_of_cons.
Qed.

(** ** One point per candle, and nothing left open *)

Lemma force_close_spec last_bar st st' :
  force_close initial_capital costs last_bar st = Ok st' ->
  sm_position st' = None /\ (st' = st \/ exists pos t p, sm_position st = Some pos /\ sm_trades st' = sm_trades st ++ [t] /\ td_exit_reason t = backtest_end
    /\ td_quantity t = ps_remaining pos /\ td_entry_time t = ps_entry_time pos /\ td_exit_time t = cd_timestamp last_bar /\ td_side t = ps_side pos
    /\ td_entry_price t = ps_entry_price pos /\ td_entry_reasons t = sm_reasons st /\ sm_equity st' = removelast (sm_equity st) ++ [p]).
Proof.
  unfold force_close. destruct (sm_position st) as [pos|] eqn:Eo; [|intros [= <-]; split; [done | by left]].
  intros (pnl & Hp & E)%res_bind_ok. apply res_bind_ok in E as (t & Ht & [= <-]). unfold trade_row_of in Ht. destruct (_ && _); [|done]. injection Ht as <-.
  split; [done|]. right. eexists pos, _, _. split_and!; done.
Qed.

(** ** Where a trade comes from *)

Definition same_entry (p q : PositionState) : Prop :=
  ps_side q = ps_side p /\ ps_entry_time q = ps_entry_time p /\ ps_entry_price q = ps_entry_price p /\ ps_quantity q = ps_quantity p.

Lemma same_entry_trans p q r : same_entry p q -> same_entry q r -> same_entry p r.
Proof. unfold same_entry. intros (-> & -> & -> & ->). done. Qed.

Lemma partial_same_entry p qty price at_ p' : apply_partial_exit p qty price at_ = Ok p' -> same_entry p p'.
Proof.
  unfold apply_partial_exit. destruct (negb _); [done|]. destruct (_ || _); [done|]. destruct (f_leb price _); [done|]. cbv zeta.
  destruct (f_ltb _ _); [done|]. destruct (_ && _); [|done]. by intros [= <-].
Qed.

Lemma close_same_entry p : same_entry p (close_position p).
Proof. unfold close_position. by destruct (negb _). Qed.

Lemma update_same_entry p c pct : same_entry p (update_on_candle p c pct).
Proof. unfold update_on_candle. by destruct (negb _). Qed.

(** The trade is of this position, of this bar. *)
Definition of_position (p : PositionState) (bar : Candle) (reasons : list Condition) (t : Trade) : Prop :=
  td_side t = ps_side p /\ td_entry_time t = ps_entry_time p /\ td_entry_price t = ps_entry_price p /\ td_exit_time t = cd_timestamp bar
  /\ td_entry_reasons t = reasons.

Lemma apply_events_spec bar reasons events : forall pos closed realised pos' closed' realised',
  apply_events bar reasons costs quantity events pos closed realised = Ok (pos', closed', realised') ->
  same_entry pos pos' /\ exists l, closed' = closed ++ l /\ Forall (of_position pos bar reasons) l.
Proof.
  induction events as [|e events IH]; intros pos closed realised pos' closed' realised'; cbn [apply_events].
  { intros [= <- <- <-]. split; [done|]. exists []. by rewrite app_nil_r. }
  destruct (negb (ps_is_open pos)). { intros [= <- <- <-]. split; [done|]. exists []. by rewrite app_nil_r. }
  cbv zeta. set (fill := adjust_for_slippage _ _ _ _). destruct (bool_decide _); [destruct (partial_booked e pos); [apply IH|]|].
  - intros (pnl & Hpnl & E)%res_bind_ok. apply res_bind_ok in E as (p1 & Hp1 & E). apply res_bind_ok in E as (t & Ht & E).
    apply partial_same_entry in Hp1. apply IH in E as [Hs (l & -> & Hl)]. split; [by eapply same_entry_trans|]. unfold trade_row_of in Ht.
    destruct (_ && _); [|done]. injection Ht as <-. destruct Hp1 as (H1 & H2 & H3 & H4). eexists (_ :: l). rewrite <- List.app_assoc. split; [done|].
    constructor; [by unfold of_position; cbn|]. eapply Forall_impl; [exact Hl|]. intros t. unfold of_position. by rewrite H1, H2, H3.
  - intros (pnl & Hpnl & E)%res_bind_ok. apply res_bind_ok in E as (t & Ht & E). apply IH in E as [Hs (l & -> & Hl)].
    pose proof (close_same_entry pos) as Hc. split; [by eapply same_entry_trans|]. unfold trade_row_of in Ht. destruct (_ && _); [|done]. injection Ht as <-.
    destruct Hc as (H1 & H2 & H3 & H4). eexists (_ :: l). rewrite <- List.app_assoc. split; [done|]. constructor; [by unfold of_position; cbn|].
    eapply Forall_impl; [exact Hl|]. intros t. unfold of_position. by rewrite H1, H2, H3.
Qed.

Section Provenance.
Context (cs : list Candle).

(** The entry rule fired on the close of candle [k]. *)
Definition signalled (k : nat) (d : EntryDecision) : Prop :=
  exists bar prior now before, (1 <= k)%nat /\ nth_error cs k = Some bar /\ nth_error cs (k - 1) = Some prior
    /\ values_at s k = Ok now /\ values_at s (k - 1) = Ok before
    /\ evaluate_entry strategy bar (Some prior) now (Some before) = Ok d /\ ed_should_enter d = true.

(** An entry at the open of candle [j], the one after the signal. *)
Definition entered_at (j : nat) (side : OrderSide) (time : moment) (price : float64) (reasons : list Condition) : Prop :=
  exists k bar d, j = S k /\ signalled k d /\ nth_error cs j = Some bar /\ side = er_side (sj_entry strategy) /\ time = cd_timestamp bar
    /\ price = adjust_for_slippage (cd_open bar) side leg_entry costs /\ reasons = ed_reasons d.

(** A trade entered at one candle and closed on it or on a later one. *)
Definition traded (i : nat) (t : Trade) : Prop :=
  exists j k bar, (j <= k)%nat /\ (k <= i)%nat /\ entered_at j (td_side t) (td_entry_time t) (td_entry_price t) (td_entry_reasons t)
    /\ nth_error cs k = Some bar /\ td_exit_time t = cd_timestamp bar.

Record traced (i : nat) (st : sim_state) : Prop := {
  tr_pending d : sm_pending st = Some d -> signalled i d /\ sm_position st = None;
  tr_position pos : sm_position st = Some pos ->
    exists j, (j <= i)%nat /\ entered_at j (ps_side pos) (ps_entry_time pos) (ps_entry_price pos) (sm_reasons st);
  tr_trades : Forall (traded i) (sm_trades st)
}.

Lemma traded_later i i' t : (i <= i')%nat -> traded i t -> traded i' t.
Proof. intros Hi (j & k & bar & Hj & Hk & Hrest). exists j, k, bar. split_and!; try done; [lia | apply Hrest..]. Qed.

Lemma fill_pending_entry_spec d bar pos :
  fill_pending_entry quantity costs d bar = Ok pos ->
  exists side, ed_side d = Some side /\ ps_side pos = side /\ ps_entry_time pos = cd_timestamp bar
    /\ ps_entry_price pos = adjust_for_slippage (cd_open bar) side leg_entry costs.
Proof.
  unfold fill_pending_entry. destruct (ed_side d) as [side|]; [|done]. unfold open_position. destruct (f_leb _ _); [done|]. destruct (f_leb _ _); [done|].
  destruct (_ && _); [|done]. intros [= <-]. by exists side.
Qed.

Lemma signalled_side k d : signalled k d -> ed_side d = Some (er_side (sj_entry strategy)).
Proof.
  intros (bar & prior & now & before & _ & _ & _ & _ & _ & He & Hs). apply entry_decision in He as (_ & Hside & _). by rewrite Hside, Hs.
Qed.

Lemma bar_step_traced i prior bar st st' :
  nth_error cs i = Some prior -> nth_error cs (S i) = Some bar -> traced i st -> bar_step (S i) prior bar st = Ok st' -> traced (S i) st'.
Proof.
  intros Hprior Hbar [Hp Ho Ht] (st1 & st2 & b & st4 & H1 & H2 & _ & H4 & ->)%bar_step_inv.
  assert (T1 : sm_pending st1 = None /\ (forall pos, sm_position st1 = Some pos -> exists j, (j <= S i)%nat /\ entered_at j (ps_side pos) (ps_entry_time pos) (ps_entry_price pos) (sm_reasons st1))
               /\ sm_trades st1 = sm_trades st).
  { apply fill_step_inv in H1 as [[-> Hn] | (d & pos & c & Hd & Hnone & Hf & Hpos & Hpen & Hre & Htr & _)].
    - split_and!; [|intros pos Hpos; destruct (Ho pos Hpos) as (j & Hj & He); exists j; split; [lia | done] | done].
      cbn in Hn. destruct (sm_pending st) as [d|] eqn:Ed; [|done]. destruct (Hp d eq_refl) as [_ Hnone]. destruct Hn as [Hn | Hn]; [done | congruence].
    - split_and!; [done | | by rewrite Htr]. intros pos' Hpos'. rewrite Hpos in Hpos'. injection Hpos' as <-. exists (S i). split; [lia|].
      destruct (Hp d Hd) as [Hsig _]. apply fill_pending_entry_spec in Hf as (side & Hside & Hs & Htime & Hprice).
      rewrite (signalled_side i d Hsig) in Hside. injection Hside as <-. exists i, bar, d. rewrite Hs, Htime, Hprice, Hre. by split_and!. }
  destruct T1 as (Hpen1 & Hpos1 & Htr1).
  assert (T2 : sm_pending st2 = None /\ (forall pos, sm_position st2 = Some pos -> exists j, (j <= S i)%nat /\ entered_at j (ps_side pos) (ps_entry_time pos) (ps_entry_price pos) (sm_reasons st2))
               /\ Forall (traded (S i)) (sm_trades st2)).
  { assert (Hold : Forall (traded (S i)) (sm_trades st1)). { rewrite Htr1. eapply Forall_impl; [exact Ht|]. intros t. apply traded_later. lia. }
    apply exit_step_inv in H2 as [-> | (pos & now & before & ev & pos' & cl & re & Hpos & _ & _ & _ & _ & Ha & Hp2 & Hpen2 & Htr2 & _ & Hre2 & _)]; [done|].
    unfold apply_exit_events in Ha. apply res_bind_ok in Ha as ([[q l] x] & Ha & [= Eq <- _]). apply apply_events_spec in Ha as [(Hq1 & Hq2 & Hq3 & _) (l' & -> & Hl)].
    destruct (Hpos1 pos Hpos) as (j & Hj & He). split_and!; [by rewrite Hpen2 | |].
    - intros p'. rewrite Hp2, Hre2, <- Eq. destruct (ps_is_open q); [|done]. intros [= <-]. exists j. by rewrite Hq1, Hq2, Hq3.
    - rewrite Htr2. apply Forall_app. split; [done|]. eapply Forall_impl; [exact Hl|]. intros t (E1 & E2 & E3 & E4 & E5).
      exists j, (S i), bar. rewrite E1, E2, E3, E4, E5. by split_and!. }
  destruct T2 as (Hpen2 & Hpos2 & Htr2). destruct (close_step_same bar st2) as (C1 & C2 & C3 & _ & _ & _ & C7).
  assert (T3 : forall pos, sm_position (close_step bar st2) = Some pos -> exists j, (j <= S i)%nat /\ entered_at j (ps_side pos) (ps_entry_time pos) (ps_entry_price pos) (sm_reasons st2)).
  { intros pos. rewrite C7. intros (p0 & E & ->)%fmap_Some. destruct (Hpos2 p0 E) as (j & Hj & He). destruct (update_same_entry p0 bar (xr_trailing_stop_percent (sj_exit strategy))) as (U1 & U2 & U3 & _).
    exists j. rewrite U1, U2, U3. done. }
  destruct b.
  { injection H4 as <-. split; cbn; [by rewrite Hpen2 | exact T3 | exact Htr2]. }
  apply entry_step_inv in H4 as [-> | (now & before & d & Hnone & Hn & Hb & He & Hs & ->)].
  { split; cbn; [by rewrite Hpen2 | exact T3 | exact Htr2]. }
  split; cbn; [|exact T3 | exact Htr2]. intros d' [= <-]. split; [|exact Hnone]. exists bar, prior, now, before. replace (S i - 1)%nat with i in * by lia.
  by split_and!; try done; lia.
Qed.

Lemma run_bars_traced bars : forall i prior st st' pre,
  cs = pre ++ bars -> length pre = S i -> nth_error cs i = Some prior -> traced i st -> run_bars (S i) prior bars st = Ok st' -> traced (i + length bars) st'.
Proof.
  induction bars as [|bar bars IH]; intros i prior st st' pre Hcs Hlen Hprior Ht; cbn [Backtest.run_bars length].
  { intros [= <-]. by rewrite Nat.add_0_r. }
  intros (st1 & H1 & H2)%res_bind_ok. assert (Hbar : nth_error cs (S i) = Some bar). { rewrite Hcs, nth_error_app2, Hlen, Nat.sub_diag by lia. done. }
  pose proof (bar_step_traced _ _ _ _ _ Hprior Hbar Ht H1) as Ht1. replace (i + S (length bars))%nat with (S i + length bars)%nat by lia.
  eapply (IH (S i) bar st1 st' (pre ++ [bar])); [by rewrite <- List.app_assoc | rewrite length_app; cbn; lia | done | done | done].
Qed.
End Provenance.

Lemma seed_traced cs first : traced cs 0 (seed initial_capital first).
Proof. by split. Qed.

Lemma last_nth {A : Type} (x : A) xs : nth_error (x :: xs) (length xs) = Some (List.last xs x).
Proof. revert x. induction xs as [|y xs IH]; intros x; [done|]. cbn [length nth_error]. by rewrite IH, last_of_cons. Qed.

Lemma simulate_spec cs st :
  simulate strategy s initial_capital quantity costs mode cs = Ok st ->
  length (sm_equity st) = length cs /\ sm_position st = None /\ Forall (traded cs (length cs - 1)) (sm_trades st).
Proof.
  unfold simulate. destruct cs as [|first bars]; [done|]. intros (st1 & Hrun & Hfc)%res_bind_ok.
  pose proof (run_bars_grows _ _ _ _ _ Hrun) as [_ (l & Hl & Hlen)].
  pose proof (run_bars_traced (first :: bars) bars 0 first _ _ [first] eq_refl eq_refl eq_refl (seed_traced _ _) Hrun) as [_ Hpos Htr].
  cbn [length] in *. replace (S (length bars) - 1)%nat with (0 + length bars)%nat by lia.
  assert (He : length (sm_equity st1) = S (length bars)). { rewrite Hl. cbn. by rewrite Hlen. }
  apply force_close_spec in Hfc as [Hnone [-> | (pos & t & p & Hsome & Ht & _ & _ & E1 & E2 & E3 & E4 & E5 & Heq)]]; [done|]. split_and!; [| done |].
  - rewrite Heq, length_app, removelast_firstn_len, length_firstn, He. cbn. lia.
  - rewrite Ht. apply Forall_app. split; [done|]. constructor; [|done]. destruct (Hpos pos Hsome) as (j & Hj & Hent).
    exists j, (0 + length bars)%nat, (List.last bars first). rewrite E1, E2, E3, E4, E5. split_and!; try done. apply last_nth.
Qed.

(** ** Caps *)

(** The entries of the day, and a queued one is below the cap. *)
Definition capped (cap : Z) (st : sim_state) : Prop :=
  0 <= dy_trades_today (sm_daily st) <= cap /\ (sm_pending st <> None -> sm_position st = None /\ dy_trades_today (sm_daily st) < cap).

Lemma roll_trades d day : dy_trades_today (roll_daily_stats d day) = dy_trades_today d \/ dy_trades_today (roll_daily_stats d day) = 0.
Proof. unfold roll_daily_stats. destruct (dy_current_day d); [|by left]. destruct (_ =? _); [by left | by right]. Qed.

Lemma not_blocked st : risk_blocked strategy initial_capital st = Ok false -> ~ cap_reached strategy (stats_of initial_capital st).
Proof.
  unfold risk_blocked. intros (risk & Hr & [= E])%res_bind_ok. apply orb_false_iff in E as [_ Ha]. apply negb_false_iff in Ha.
  apply risk_verdict in Hr as [Hv _]. intros Hc%Hv. congruence.
Qed.

Lemma bar_step_cap cap i prior bar st st' :
  rr_max_trades_per_day (sj_risk strategy) = Some cap -> 0 < cap -> capped cap st -> bar_step i prior bar st = Ok st' -> capped cap st'.
Proof.
  intros Hcap Hpos [Hle Hlt] (st1 & st2 & b & st4 & H1 & H2 & Hb & H4 & ->)%bar_step_inv.
  assert (T1 : 0 <= dy_trades_today (sm_daily st1) <= cap /\ sm_pending st1 = None).
  { pose proof (roll_trades (sm_daily st) (date_of (cd_timestamp bar))) as Hr.
    apply fill_step_inv in H1 as [[-> Hn] | (d & pos & c & Hd & Hn & _ & _ & Hpen & _ & _ & _ & _ & _ & Hday)]; cbn in *.
    - split; [lia|]. destruct (sm_pending st); [|done]. destruct (Hlt ltac:(done)) as [Hnone _]. by destruct Hn.
    - destruct (Hlt ltac:(congruence)) as [_ Hl]. rewrite Hday. cbn. split; [lia | done]. }
  destruct T1 as [Hd1 Hp1]. assert (T2 : dy_trades_today (sm_daily st2) = dy_trades_today (sm_daily st1) /\ sm_pending st2 = None).
  { apply exit_step_inv in H2 as [-> | (pos & now & before & ev & pos' & cl & re & _ & _ & _ & _ & _ & _ & _ & Hp & _ & _ & _ & Hd & _)]; [done|]. by rewrite Hp. }
  destruct T2 as [Hd2 Hp2]. destruct b.
  { injection H4 as <-. split; cbn; [lia | by rewrite Hp2]. }
  apply entry_step_inv in H4 as [-> | (now & before & d & Hnone & _ & _ & _ & _ & ->)].
  { split; cbn; [lia | by rewrite Hp2]. }
  split; cbn; [lia|]. intros _. split; [done|]. apply not_blocked in Hb. apply Znot_ge_lt. intros Hge. apply Hb. right; left. rewrite Hcap.
  cbn. apply Z.leb_le. lia.
Qed.

Lemma run_bars_cap cap bars : forall i prior st st',
  rr_max_trades_per_day (sj_risk strategy) = Some cap -> 0 < cap -> capped cap st -> run_bars i prior bars st = Ok st' -> capped cap st'.
Proof.
  induction bars as [|bar bars IH]; intros i prior st st' Hcap Hpos Hst; cbn [Backtest.run_bars]; [by intros [= <-]|].
  intros (st1 & H1 & H2)%res_bind_ok. eapply IH; [done | done | | exact H2]. by eapply bar_step_cap.
Qed.

(** Flat, nothing queued and the losing streak at its cap. *)
Definition struck (cap : Z) (st : sim_state) : Prop := sm_position st = None /\ sm_pending st = None /\ cap <= sm_streak st.

Lemma bar_step_struck cap i prior bar st st' :
  rr_max_loss_streak (sj_risk strategy) = Some cap -> struck cap st -> bar_step i prior bar st = Ok st' -> struck cap st' /\ sm_trades st' = sm_trades st.
Proof.
  intros Hcap (Hpos & Hpen & Hstreak) (st1 & st2 & b & st4 & H1 & H2 & Hb & H4 & ->)%bar_step_inv.
  apply fill_step_inv in H1 as [[-> _] | (d & pos & c & Hd & _)]; [|cbn in Hd; congruence].
  apply exit_step_inv in H2 as [-> | (pos & now & before & ev & pos' & cl & re & Hp & _)]; [|cbn in Hp; congruence].
  destruct b; cycle 1.
  { destruct (not_blocked _ Hb). right; right. rewrite Hcap. cbn. apply Z.leb_le. lia. }
  injection H4 as <-. split; [|done]. split_and!; [|done|done]. cbn. by rewrite Hpos.
Qed.

Lemma run_bars_struck cap bars : forall i prior st st',
  rr_max_loss_streak (sj_risk strategy) = Some cap -> struck cap st -> run_bars i prior bars st = Ok st' -> struck cap st' /\ sm_trades st' = sm_trades st.
Proof.
  induction bars as [|bar bars IH]; intros i prior st st' Hcap Hst; cbn [Backtest.run_bars]; [by intros [= <-]|].
  intros (st1 & H1 & H2)%res_bind_ok. destruct (bar_step_struck _ _ _ _ _ _ Hcap Hst H1) as [Hst1 Ht1].
  destruct (IH _ _ _ _ Hcap Hst1 H2) as [Hst2 Ht2]. split; [done|]. by rewrite Ht2.
Qed.
End Simulation.

(** ** No look-ahead *)

Section Prefix.
Context (strategy : StrategyJSON) (s1 s2 : series) (initial_capital quantity : float64) (costs : CostSettings) (mode : ambiguity).

(** The series say the same of the first [n] candles. *)
Definition agree (n : nat) : Prop := forall i, (i < n)%nat -> values_at s1 i = values_at s2 i.

Lemma bar_step_agree n i prior bar st : agree n -> (i < n)%nat ->
  bar_step strategy s1 initial_capital quantity costs mode i prior bar st = bar_step strategy s2 initial_capital quantity costs mode i prior bar st.
Proof.
  intros Ha Hi. assert (Hi' : (i - 1 < n)%nat) by lia. unfold bar_step.
  assert (Hx : forall st1, exit_step strategy s1 quantity costs mode i bar st1 = exit_step strategy s2 quantity costs mode i bar st1).
  { intros st1. unfold exit_step. by rewrite (Ha _ Hi), (Ha _ Hi'). }
  assert (Hn : forall st1, entry_step strategy s1 i prior bar st1 = entry_step strategy s2 i prior bar st1).
  { intros st1. unfold entry_step. by rewrite (Ha _ Hi), (Ha _ Hi'). }
  destruct (fill_step _ _ _ _) as [st1|]; [|done]. cbn [mbind result_bind]. rewrite Hx. destruct (exit_step _ _ _ _ _ _ _ _) as [st2|]; [|done]. cbn [mbind result_bind].
  cbv zeta. destruct (risk_blocked _ _ _) as [b|]; [|done]. cbn [mbind result_bind]. by rewrite Hn.
Qed.

Lemma run_bars_agree n bars : forall i prior st, agree n -> (i + length bars <= n)%nat ->
  run_bars strategy s1 initial_capital quantity costs mode i prior bars st = run_bars strategy s2 initial_capital quantity costs mode i prior bars st.
Proof.
  induction bars as [|bar bars IH]; intros i prior st Ha Hn; [done|]. cbn [run_bars length] in *. rewrite (bar_step_agree n) by (done || lia).
  destruct (bar_step _ _ _ _ _ _ _ _ _ _) as [st'|]; [|done]. cbn [mbind result_bind]. apply IH; [done | lia].
Qed.
End Prefix.

(** What the run on a longer list of candles adds to the run on its beginning. *)
Lemma simulate_extends strategy s capital quantity costs mode first pre more st :
  more <> [] -> simulate strategy s capital quantity costs mode ((first :: pre) ++ more) = Ok st ->
  exists st0, run_bars strategy s capital quantity costs mode 1 first pre (seed capital first) = Ok st0
    /\ length (sm_equity st0) = S (length pre)
    /\ (exists l, sm_trades st = sm_trades st0 ++ l) /\ take (S (length pre)) (sm_equity st) = sm_equity st0.
Proof.
  intros Hne. cbn [app simulate]. intros (st1 & Hrun & Hfc)%res_bind_ok. rewrite run_bars_app in Hrun. apply res_bind_ok in Hrun as (st0 & Hpre & Hmore).
  exists st0. pose proof (run_bars_grows _ _ _ _ _ _ _ _ _ _ _ Hpre) as [_ (l0 & Hl0 & Hlen0)].
  pose proof (run_bars_grows _ _ _ _ _ _ _ _ _ _ _ Hmore) as [[lt Hlt] (l1 & Hl1 & Hlen1)].
  assert (He : length (sm_equity st0) = S (length pre)). { rewrite Hl0. cbn. by rewrite Hlen0. }
  assert (Hl1ne : l1 <> []). { intros ->. destruct more; [done|]. cbn in Hlen1. lia. }
  split_and!; [done | done | |].
  - apply force_close_spec in Hfc as [_ [-> | (pos & t & p & _ & Ht & _)]]; [by exists lt|]. exists (lt ++ [t]). by rewrite Ht, Hlt, List.app_assoc.
  - rewrite <- He. apply force_close_spec in Hfc as [_ [-> | (pos & t & p & _ & _ & _ & _ & _ & _ & _ & _ & _ & Heq)]].
    + by rewrite Hl1, take_app_length.
    + rewrite Heq, Hl1, removelast_app by done. rewrite <- List.app_assoc. by rewrite take_app_length.
Qed.

(** ** Candles in order *)

Definition earlier (a b : Candle) : Prop := instant (cd_timestamp a) < instant (cd_timestamp b).
Definition not_later (a b : Candle) : Prop := instant (cd_timestamp a) <= instant (cd_timestamp b).
Definition comes_after (a b : Candle) : bool := instant (cd_timestamp b) <? instant (cd_timestamp a).

Lemma insert_sorted_perm {A : Type} (bf : A -> A -> bool) x l : insert_sorted bf x l ≡ₚ x :: l.
Proof.
  induction l as [|y l IH]; [done|]. cbn [insert_sorted]. destruct (bf x y); [|done]. rewrite IH. apply Permutation_swap.
Qed.

Lemma sort_stable_perm {A : Type} (bf : A -> A -> bool) l : sort_stable bf l ≡ₚ l.
Proof.
  induction l as [|x l IH]; [done|]. change (sort_stable bf (x :: l)) with (insert_sorted bf x (sort_stable bf l)). by rewrite insert_sorted_perm, IH.
Qed.

Lemma insert_candle_sorted c l : StronglySorted not_later l -> StronglySorted not_later (insert_sorted comes_after c l).
Proof.
  induction l as [|d l IH]; intros Hl; cbn [insert_sorted]; [repeat constructor|]. apply StronglySorted_inv in Hl as [Hl Hd].
  unfold comes_after at 1. destruct (Z.ltb_spec (instant (cd_timestamp d)) (instant (cd_timestamp c))) as [Hlt|Hge].
  - constructor; [by apply IH|]. rewrite Forall_forall in Hd |- *. intros x. rewrite (insert_sorted_perm comes_after c l). intros [-> | Hx]%elem_of_cons; [unfold not_later; lia | by apply Hd].
  - constructor; [by constructor|]. constructor; [unfold not_later; lia|]. eapply Forall_impl; [exact Hd|]. unfold not_later. intros x Hx. lia.
Qed.

Lemma candles_sorted l : StronglySorted not_later (sort_stable comes_after l).
Proof. induction l as [|c l IH]; [constructor|]. by apply insert_candle_sorted. Qed.

Lemma strictly_sorted l : StronglySorted not_later l -> no_repeats l = true -> StronglySorted earlier l.
Proof.
  induction l as [|c l IH]; intros Hs Hr; [constructor|]. apply StronglySorted_inv in Hs as [Hs Hc]. destruct l as [|d l]; [by repeat constructor|].
  cbn [no_repeats] in Hr. apply andb_true_iff in Hr as [Hne Hr]. apply negb_true_iff, Z.eqb_neq in Hne. specialize (IH Hs Hr).
  constructor; [done|]. apply Forall_cons in Hc as [Hcd _]. unfold not_later in Hcd.
  constructor; [unfold earlier; lia|]. apply StronglySorted_inv in IH as [_ Hd]. eapply Forall_impl; [exact Hd|]. unfold earlier. intros x Hx. lia.
Qed.

(** What the simulator is given: the candles, in the order of time, no instant twice. *)
Lemma normalize_spec candles sorted :
  normalize_candles candles = Ok sorted -> sorted ≡ₚ candles /\ StronglySorted earlier sorted /\ (2 <= length sorted)%nat.
Proof.
  unfold normalize_candles. destruct (Nat.ltb_spec (length candles) MIN_CANDLES_FOR_SIMULATION) as [|Hlen]; [done|]. destruct (existsb _ _); [done|]. cbv zeta.
  change (fun a b => instant (cd_timestamp b) <? instant (cd_timestamp a)) with comes_after. destruct (no_repeats _) eqn:E; [|done]. intros [= <-].
  split_and!; [apply sort_stable_perm | by apply strictly_sorted, E; apply candles_sorted | rewrite (sort_stable_perm comes_after candles); exact Hlen].
Qed.

(** ** The drawdown *)

Lemma drawdown_nonneg curve : forall acc, f_leb f_zero (snd acc) = true -> f_leb f_zero (snd (fold_left drawdown_step curve acc)) = true.
Proof.
  induction curve as [|v curve IH]; intros [peak worst] Hw; [done|]. cbn [fold_left]. apply IH. unfold drawdown_step. destruct (f_ltb f_zero _); [|done]. cbn [snd] in *.
  destruct (f_ltb worst _) eqn:E; [|done]. eapply f_leb_trans; [exact Hw | by apply f_ltb_leb].
Qed.

(** ** The times of the curve *)

Lemma bar_step_times strategy s capital quantity costs mode i prior bar st st' :
  bar_step strategy s capital quantity costs mode i prior bar st = Ok st' ->
  map eq_timestamp (sm_equity st') = map eq_timestamp (sm_equity st) ++ [cd_timestamp bar].
Proof.
  intros E. pose proof (bar_step_grows _ _ _ _ _ _ _ _ _ _ _ E) as [_ (l & Hl & Hlen)]. apply bar_step_inv in E as (st1 & st2 & b & st4 & _ & _ & _ & _ & ->).
  cbn in Hl |- *. rewrite map_app. cbn. destruct l as [|x [|y l]]; cbn in Hlen; try lia. apply app_inj_tail in Hl as [-> _]. done.
Qed.

Lemma run_bars_times strategy s capital quantity costs mode bars : forall i prior st st',
  run_bars strategy s capital quantity costs mode i prior bars st = Ok st' ->
  map eq_timestamp (sm_equity st') = map eq_timestamp (sm_equity st) ++ map cd_timestamp bars.
Proof.
  induction bars as [|bar bars IH]; intros i prior st st'; cbn [run_bars map]; [intros [= <-]; by rewrite app_nil_r|].
  intros (st1 & H1 & H2)%res_bind_ok. apply bar_step_times in H1. apply IH in H2. by rewrite H2, H1, <- List.app_assoc.
Qed.

Lemma removelast_map {A C : Type} (f : A -> C) l : map f (removelast l) = removelast (map f l).
Proof. induction l as [|a [|b l] IH]; [done | done|]. cbn [removelast map] in *. by rewrite IH. Qed.

Lemma last_of_map {A C : Type} (f : A -> C) l d : List.last (map f l) (f d) = f (List.last l d).
Proof. induction l as [|a [|b l] IH]; [done | done|]. exact IH. Qed.

Lemma simulate_times strategy s capital quantity costs mode cs st :
  simulate strategy s capital quantity costs mode cs = Ok st -> map eq_timestamp (sm_equity st) = map cd_timestamp cs.
Proof.
  unfold simulate. destruct cs as [|first bars]; [done|]. intros (st1 & Hrun & Hfc)%res_bind_ok. apply run_bars_times in Hrun. cbn in Hrun.
  unfold force_close in Hfc. destruct (sm_position st1) as [pos|]; [|by injection Hfc as <-]. apply res_bind_ok in Hfc as (pnl & _ & E).
  apply res_bind_ok in E as (t & _ & [= <-]). cbn. rewrite map_app, removelast_map, Hrun. cbn [map eq_timestamp].
  rewrite (app_removelast_last (cd_timestamp first) (l := cd_timestamp first :: map cd_timestamp bars)) at 2 by done. do 2 f_equal.
  change (cd_timestamp first :: map cd_timestamp bars) with (map cd_timestamp (first :: bars)). by rewrite last_of_map, last_of_cons.
Qed.

(** ** Properties *)

(** C31: every trade of a backtest comes from a signal.  The candles are simulated in the
    order of time, each once; the equity curve has one point per candle; and every trade
    was entered at the open of a candle, slippage included, on whose predecessor the
    strategy's entry rule fired, in the direction of the rule and with the conditions
    that matched as its reasons, and was closed on the candle of its entry or on a later
    one.  The drawdown is not negative. *)
Theorem backtest_trades_from_signals indicators candles strategy capital quantity costs mode r :
  run_backtest indicators candles strategy capital quantity costs mode = Ok r ->
  exists sorted, sorted ≡ₚ candles /\ StronglySorted earlier sorted
    /\ map eq_timestamp (br_equity_curve r) = map cd_timestamp sorted
    /\ Forall (traded strategy (indicators sorted) costs sorted (length sorted - 1)) (br_trades r)
    /\ br_total_trades r = Z.of_nat (length (br_trades r)) /\ f_leb f_zero (br_max_drawdown r) = true.
Proof.
  unfold run_backtest. intros (sorted & Hn & E)%res_bind_ok. apply res_bind_ok in E as (st & Hs & [= <-]). apply normalize_spec in Hn as (Hp & Hsorted & _).
  exists sorted. pose proof (simulate_spec _ _ _ _ _ _ _ _ Hs) as (_ & _ & Ht). split_and!; try done; [by eapply simulate_times|].
  cbn [br_max_drawdown]. unfold max_drawdown. destruct (map eq_equity (sm_equity st)); [done|]. by apply drawdown_nonneg.
Qed.

(** Trades closed on one of these candles. *)
Definition closed_on (bars : list Candle) (t : Trade) : Prop := exists bar, In bar bars /\ td_exit_time t = cd_timestamp bar.

Lemma closed_on_more xs ys t : closed_on xs t \/ closed_on ys t -> closed_on (xs ++ ys) t.
Proof. intros [(b & Hb & E) | (b & Hb & E)]; exists b; (split; [apply in_app_iff; auto | done]). Qed.

Lemma bar_step_closed strategy s capital quantity costs mode i prior bar st st' :
  bar_step strategy s capital quantity costs mode i prior bar st = Ok st' -> exists l, sm_trades st' = sm_trades st ++ l /\ Forall (closed_on [bar]) l.
Proof.
  intros (st1 & st2 & b & st4 & H1 & H2 & _ & H4 & ->)%bar_step_inv.
  assert (Hf : sm_trades st1 = sm_trades st).
  { by apply fill_step_inv in H1 as [[-> _] | (d & pos & c & _ & _ & _ & _ & _ & _ & Ht & _)]. }
  assert (Hn : sm_trades st4 = sm_trades st2).
  { destruct b; [by injection H4 as <-|]. by apply entry_step_inv in H4 as [-> | (now & before & d & _ & _ & _ & _ & _ & ->)]. }
  change (sm_trades (mark_step capital bar st4)) with (sm_trades st4). rewrite Hn, <- Hf.
  apply exit_step_inv in H2 as [-> | (pos & now & before & ev & pos' & cl & re & _ & _ & _ & _ & _ & Ha & _ & _ & Ht & _)]; [exists []; by rewrite app_nil_r|].
  exists cl. split; [done|]. unfold apply_exit_events in Ha. apply res_bind_ok in Ha as ([[q l] x] & Ha & [= _ <- _]).
  apply apply_events_spec in Ha as [_ (l' & -> & Hl)]. eapply Forall_impl; [exact Hl|]. intros t (_ & _ & _ & E & _). exists bar. split; [by left | done].
Qed.

Lemma run_bars_closed strategy s capital quantity costs mode bars : forall i prior st st',
  run_bars strategy s capital quantity costs mode i prior bars st = Ok st' -> exists l, sm_trades st' = sm_trades st ++ l /\ Forall (closed_on bars) l.
Proof.
  induction bars as [|bar bars IH]; intros i prior st st'; cbn [run_bars]; [intros [= <-]; exists []; by rewrite app_nil_r|].
  intros (st1 & H1 & H2)%res_bind_ok. apply bar_step_closed in H1 as (l1 & E1 & F1). apply IH in H2 as (l2 & E2 & F2). exists (l1 ++ l2).
  rewrite E2, E1, List.app_assoc. split; [done|]. change (bar :: bars) with ([bar] ++ bars).
  apply Forall_app. split; (eapply Forall_impl; [eassumption|]); intros t Ht; apply closed_on_more; auto.
Qed.

Lemma simulate_splits strategy s capital quantity costs mode first pre more st :
  more <> [] -> simulate strategy s capital quantity costs mode ((first :: pre) ++ more) = Ok st ->
  exists st0 l, run_bars strategy s capital quantity costs mode 1 first pre (seed capital first) = Ok st0
    /\ take (S (length pre)) (sm_equity st) = sm_equity st0 /\ sm_trades st = sm_trades st0 ++ l /\ Forall (closed_on more) l /\ Forall (closed_on pre) (sm_trades st0).
Proof.
  intros Hne E. destruct (simulate_extends _ _ _ _ _ _ _ _ _ _ Hne E) as (st0 & H0 & _ & _ & Heq). exists st0. cbn [app simulate] in E.
  apply res_bind_ok in E as (st1 & Hrun & Hfc). rewrite run_bars_app, H0 in Hrun. cbn [mbind result_bind] in Hrun.
  apply run_bars_closed in Hrun as (l & El & Fl). pose proof (run_bars_closed _ _ _ _ _ _ _ _ _ _ _ H0) as (l0 & El0 & Fl0). cbn in El0. subst l0.
  apply force_close_spec in Hfc as [_ [-> | (pos & t & p & _ & Ht & _ & _ & _ & Hx & _)]]; [by exists l|].
  exists (l ++ [t]). rewrite Ht, El, List.app_assoc. split_and!; try done. apply Forall_app. split; [done|]. constructor; [|done].
  exists (List.last (pre ++ more) first). split; [|done]. destruct (exists_last Hne) as (more' & x & ->). rewrite List.app_assoc, last_last.
  apply in_app_iff. right. by left.
Qed.

(** C30: a backtest does not look ahead.  Two runs of a strategy on candles that begin
    alike, with indicator series that say the same of that beginning, have the same
    equity there, have the same trades closed there, and differ only in what was closed
    on later candles. *)
Theorem backtest_no_lookahead strategy s1 s2 capital quantity costs mode first pre more1 more2 a b :
  more1 <> [] -> more2 <> [] -> agree s1 s2 (S (length pre)) ->
  simulate strategy s1 capital quantity costs mode ((first :: pre) ++ more1) = Ok a ->
  simulate strategy s2 capital quantity costs mode ((first :: pre) ++ more2) = Ok b ->
  take (S (length pre)) (sm_equity a) = take (S (length pre)) (sm_equity b)
  /\ exists same la lb, sm_trades a = same ++ la /\ sm_trades b = same ++ lb
       /\ Forall (closed_on pre) same /\ Forall (closed_on more1) la /\ Forall (closed_on more2) lb.
Proof.
  intros Hm1 Hm2 Hag Ha Hb. apply simulate_splits in Ha as (st & la & Hst & -> & Hta & Fa & Fs); [|done].
  apply simulate_splits in Hb as (st' & lb & Hst' & -> & Htb & Fb & _); [|done].
  rewrite (run_bars_agree strategy s1 s2 _ _ _ _ (S (length pre))) in Hst by (done || lia). rewrite Hst in Hst'. injection Hst' as <-.
  split; [done|]. by exists (sm_trades st), la, lb.
Qed.


(** A losing streak at its cap ends the run: nothing but a winning trade resets the
    streak, and no trade is entered while it stands. *)
Theorem loss_streak_final strategy s capital quantity costs mode cap i prior bars st st' :
  rr_max_loss_streak (sj_risk strategy) = Some cap -> struck cap st ->
  run_bars strategy s capital quantity costs mode i prior bars st = Ok st' -> struck cap st' /\ sm_trades st' = sm_trades st.
Proof. apply run_bars_struck. Qed.

(** ** Runs *)

(** Two days of the breakout strategy of [PaperTrading]: a signal, the fill, the stop. *)
Definition no_series (_ : list Candle) : series := ∅.

Definition bars_of (n : nat) : list Candle := take n two_signals.

Definition run_of (costs : CostSettings) (strategy : StrategyJSON) (bars : list Candle) : result engine_error BacktestResult :=
  run_backtest no_series bars strategy (f_of_Z 100000) f_one costs CONSERVATIVE.

Definition report_of (costs : CostSettings) (strategy : StrategyJSON) (bars : list Candle) (r : BacktestResult) : Prop := run_of costs strategy bars = Ok r.

Lemma breakout_runs : exists r, report_of no_costs breakout two_signals r /\ br_total_trades r = 2.
Proof. eexists. split; [vm_compute; reflexivity | vm_compute; reflexivity]. Qed.

Lemma backtest_trades_from_signals_witness :
  exists r sorted, run_of no_costs breakout two_signals = Ok r /\ br_total_trades r = 2 /\ sorted ≡ₚ two_signals /\ map eq_timestamp (br_equity_curve r) = map cd_timestamp sorted.
Proof.
  destruct breakout_runs as (r & Hr & Hn).
  destruct (backtest_trades_from_signals no_series two_signals breakout (f_of_Z 100000) f_one no_costs CONSERVATIVE r Hr) as (sorted & Hp & _ & Ht & _).
  exists r, sorted. split_and!; [exact Hr | exact Hn | exact Hp | exact Ht].
Defined.

Definition simulated (bars : list Candle) : sim_state :=
  match simulate breakout ∅ (f_of_Z 100000) f_one no_costs CONSERVATIVE bars with Ok st => st | Err _ => seed f_zero (bar_at 0 0 0 0 0) end.

(** The third candle, and another one in its place. *)
Definition shared_bars : list Candle := [bar_at 1 95 102 94 101; bar_at 2 102 103 90 95].

Lemma backtest_no_lookahead_witness :
  take 3 (sm_equity (simulated ((bar_at 0 90 95 85 90 :: shared_bars) ++ [bar_at 3 96 106 95 105])))
  = take 3 (sm_equity (simulated ((bar_at 0 90 95 85 90 :: shared_bars) ++ [bar_at 3 95 96 20 30; bar_at 4 30 31 29 30]))).
Proof.
  assert (H1 : [bar_at 3 96 106 95 105] <> []) by discriminate. assert (H2 : [bar_at 3 95 96 20 30; bar_at 4 30 31 29 30] <> []) by discriminate.
  assert (Hag : agree ∅ ∅ 3) by (intros i _; reflexivity).
  exact (proj1 (backtest_no_lookahead breakout ∅ ∅ (f_of_Z 100000) f_one no_costs CONSERVATIVE (bar_at 0 90 95 85 90) shared_bars _ _
    (simulated ((bar_at 0 90 95 85 90 :: shared_bars) ++ [bar_at 3 96 106 95 105]))
    (simulated ((bar_at 0 90 95 85 90 :: shared_bars) ++ [bar_at 3 95 96 20 30; bar_at 4 30 31 29 30]))
    H1 H2 Hag ltac:(vm_compute; reflexivity) ltac:(vm_compute; reflexivity))).
Defined.

(** One entry a day. *)
Definition once_a_day : StrategyJSON :=
  {| sj_id := "o"; sj_name := "once"; sj_mode := BEGINNER; sj_version := 1; sj_indicators := []; sj_entry := sj_entry breakout; sj_exit := sj_exit breakout;
     sj_risk := {| rr_max_daily_loss_percent := None; rr_max_trades_per_day := Some 1; rr_max_loss_streak := Some 1; rr_max_capital_per_trade_percent := None |};
     sj_execution := sj_execution breakout |}.

Definition once_state : sim_state :=
  match run_bars once_a_day ∅ (f_of_Z 100000) f_one no_costs CONSERVATIVE 1 (bar_at 0 90 95 85 90) (drop 1 two_signals) (seed (f_of_Z 100000) (bar_at 0 90 95 85 90)) with
  | Ok st => st | Err _ => seed f_zero (bar_at 0 0 0 0 0)
  end.


(** ** What the runs show *)

(** A cost of 10 a leg at an unchanged price: the trades add up to -10, the equity to -20. *)
Example entry_cost_not_in_trades :
  let flat := [bar_at 0 101 101 101 101; bar_at 1 101 101 101 101; bar_at 2 101 101 101 101; bar_at 3 101 101 101 101] in
  match run_of {| cs_fixed_cost := f_of_Z 10; cs_percent_cost := f_zero; cs_slippage_percent := f_zero; cs_spread_percent := f_zero |} breakout flat with
  | Ok r => f_eqb (br_total_pnl r) (f_neg (f_of_Z 10)) = true
      /\ f_eqb (List.last (map eq_equity (br_equity_curve r)) f_zero) (f_of_Z 99980) = true
  | Err _ => False
  end.
Proof. vm_compute. by split. Qed.

Definition with_exit (x : ExitRules) : StrategyJSON :=
  {| sj_id := "x"; sj_name := "x"; sj_mode := BEGINNER; sj_version := 1; sj_indicators := []; sj_entry := sj_entry breakout; sj_exit := x;
     sj_risk := no_risk_rules; sj_execution := sj_execution breakout |}.

Definition partials_only (l : list PartialExit) : ExitRules :=
  {| xr_target_percent := None; xr_stop_loss_percent := None; xr_trailing_stop_percent := None; xr_partial_exits := l; xr_square_off_time := None;
     xr_indicator_exits := []; xr_reverse_signal_exit := false |}.

Definition partial (qty target : Z) : PartialExit := {| pe_qty_percent := f_of_Z qty; pe_target_percent := f_of_Z target |}.

(** A bar that reaches both targets. *)
Definition rising : list Candle := [bar_at 0 90 95 85 90; bar_at 1 95 102 94 101; bar_at 2 102 150 101 149; bar_at 3 149 160 148 155].

(** Of two partial exits of the same size only one is booked. *)
Example equal_partials_once :
  strategy_ok (with_exit (partials_only [partial 50 5; partial 50 10])) = true
  /\ match run_of no_costs (with_exit (partials_only [partial 50 5; partial 50 10])) rising with
     | Ok r => map td_exit_reason (br_trades r) = [closed_partly 1 (partial 50 5); backtest_end]
     | Err _ => False
     end.
Proof. vm_compute. by split. Qed.

(** Partial exits of more than the position stop the backtest with an error. *)
Example partials_over_exit :
  strategy_ok (with_exit (partials_only [partial 60 5; partial 70 10])) = true
  /\ run_of no_costs (with_exit (partials_only [partial 60 5; partial 70 10])) rising = Err EValueError.
Proof. vm_compute. by split. Qed.

(** A square-off time of 99:99 is a valid strategy and an error on the first bar of a position. *)
Example impossible_square_off :
  let x := {| xr_target_percent := None; xr_stop_loss_percent := None; xr_trailing_stop_percent := None; xr_partial_exits := []; xr_square_off_time := Some "99:99"%string;
              xr_indicator_exits := []; xr_reverse_signal_exit := false |} in
  strategy_ok (with_exit x) = true /\ run_of no_costs (with_exit x) rising = Err EValueError.
Proof. vm_compute. by split. Qed.

(** A strategy whose only exit is the reverse signal is held to the end. *)
Example reverse_exit_never :
  let x := {| xr_target_percent := None; xr_stop_loss_percent := None; xr_trailing_stop_percent := None; xr_partial_exits := []; xr_square_off_time := None;
              xr_indicator_exits := []; xr_reverse_signal_exit := true |} in
  strategy_ok (with_exit x) = true
  /\ match run_of no_costs (with_exit x) two_signals with Ok r => map td_exit_reason (br_trades r) = [backtest_end] | Err _ => False end.
Proof. vm_compute. by split. Qed.
