(* ===== verification/Subscribers.v ===== *)
(** * Subscribers' own brokers: reading positions and detecting drift

    - backend/app/services/subscriber_broker_positions.py: the read-only fetch of
      a subscriber's live positions through the subscriber's own credential;
    - backend/app/services/subscriber_drift_service.py: the AUTO to MANUAL flip of
      a subscription whose broker holds less than the stored row;
    - backend/app/workers/subscriber_drift_pass.py: one pass over the candidates.

    The fetch memoises per credential; its memo is passed along explicitly.  The
    pass takes the batch of broker answers from [BrokerBatch.v].  Subscription rows
    are read where they are stored, so a row flipped earlier in a pass is seen
    flipped. *)

From Stdlib Require Import ZArith Lia List Bool String.
From stdpp Require Import base list strings gmap.
From S2P Require Import Prelude PyText SymbolMatch PyFloat PyDecimal PyNum Records Enums Models Safeguards Book Samples.
From S2P Require Import StrategyExecutor DayState KillSwitch BrokerBatch Fanout.

Definition RATE_LIMIT_MAX_REQUESTS : Z := 5.
Definition RATE_LIMIT_WINDOW_SECONDS : Z := 1.

Section Fetch.
Context {B R : Type} `{BrokerInterface B} `{RedisStore R} `{Decryptor}.

Definition unavailable {A : Type} : M B R A := raise SubscriberPositionUnavailableError.

(** [try: ... except Exception as exc: raise SubscriberPositionUnavailableError]. *)
Definition or_unavailable {A : Type} (m : M B R A) : M B R A :=
  outcome ← attempt m;
  match outcome with Ok a => mret a | Err _ => unavailable end.

Definition resolve_own_credential (subscriber_id : uuid) (explicit_id : option uuid) : M B R BrokerCredential :=
  creds ← gets w_credentials;
  let fallback := match latest_by c_created_at (List.filter (own_active subscriber_id) creds) with
                  | Some row => mret row
                  | None => unavailable
                  end in
  match (cid ← explicit_id; find_credential creds cid) with
  | Some row =>
      if own_active subscriber_id row then mret row
      else if negb (c_user_id row =? subscriber_id) then unavailable
      else fallback
  | None => fallback
  end.

(** [by_subscription[subscription_id]]: of equal ids the last one. *)
Definition by_subscription (subscribers : list SubscriberRef) (id : uuid) : option SubscriberRef :=
  List.find (fun s => sr_subscription_id s =? id) (rev subscribers).

(** The rows of the account, refused as a whole when one is malformed. *)
Definition well_formed_rows (positions : option (list (option broker_row))) : option (list broker_row) :=
  rows ← positions; mapM (fun r => r) rows.

Abbreviation memo := (gmap uuid (list broker_row)).

(** The per-user pre-flight. *)
Definition preflight (cred : BrokerCredential) (enforce_rate_limit : bool) : M B R unit :=
  if enforce_rate_limit then
    allowed ← or_unavailable (rate_limit_check (String.append "subscriber_positions:" (z_str (c_user_id cred)))
                                RATE_LIMIT_MAX_REQUESTS RATE_LIMIT_WINDOW_SECONDS);
    if negb allowed then unavailable else mret tt
  else mret tt.

(** The account of [cred], asked now. *)
Definition read_account (sub : SubscriberRef) (cred : BrokerCredential) (enforce_rate_limit : bool)
  : M B R (list broker_row) :=
  (if negb (c_user_id cred =? sr_subscriber_id sub) then unavailable else mret tt) ;;
  (if negb (c_is_active cred) then unavailable else mret tt) ;;
  preflight cred enforce_rate_limit ;;
  k ← or_unavailable (from_result (build_broker_credentials cred (c_user_id cred)));
  valid ← or_unavailable (on_broker (is_session_valid k));
  if negb valid then unavailable
  else
    positions ← or_unavailable (on_broker (get_positions k));
    match well_formed_rows positions with
    | Some rows => mret rows
    | None => unavailable
    end.

Definition fetch (subscribers : list SubscriberRef) (enforce_rate_limit : bool) (m : memo) (subscription_id : uuid)
  : M B R (list broker_row * memo) :=
  match by_subscription subscribers subscription_id with
  | None => unavailable
  | Some sub =>
      cred ← resolve_own_credential (sr_subscriber_id sub) (sr_broker_credential_id sub);
      match m !! c_id cred with
      | Some rows => mret (rows, m)
      | None =>
          rows ← read_account sub cred enforce_rate_limit;
          mret (rows, <[c_id cred := rows]> m)
      end
  end.
End Fetch.

(** ** Drift *)

Definition MANUAL_MODE : string := "offline".
Definition AUTO_MODE : string := "auto".
Definition DRIFT_FLIP_ACTION : string := "marketplace.subscription.auto_to_manual.broker_drift".
Definition AUDIT_RESOURCE_TYPE : string := "marketplace_subscription".

Inductive drift_reason : Type :=
| already_manual
| broker_unavailable
| no_drift
| broker_flat
| broker_partial.

#[export] Instance drift_reason_eq_dec : EqDecision drift_reason.
Proof. solve_decision. Defined.

Record DriftDecision : Type := {
  dd_subscription_id : uuid;
  dd_flipped : bool;
  dd_reason : drift_reason;
  dd_stored_quantity : Z;
  dd_broker_quantity : option Z;
  dd_symbol : string
}.

Definition drifted (d : DriftDecision) : bool :=
  bool_decide (dd_reason d = broker_flat) || bool_decide (dd_reason d = broker_partial).

Record DriftPassReport : Type := {
  dp_checked : Z;
  dp_flipped : Z;
  dp_unknown : Z;
  dp_decisions : list DriftDecision;
  dp_dormant : bool
}.

(** The outcome of a comparison of an AUTO subscription. *)
Definition drift_verdict (stored_quantity : Z) (broker_quantity : option Z) : drift_reason :=
  let observed := match broker_quantity with None => 0 | Some q => Z.abs q end in
  let expected := Z.abs stored_quantity in
  if (expected <=? 0) || (expected <=? observed) then no_drift
  else if observed =? 0 then broker_flat else broker_partial.

(** The batch's answer for one candidate: [Err] is how UNKNOWN is said. *)
Definition fetch_one (raw : evidence (list broker_row)) (symbol : string) : result exn (option Z) :=
  match raw with
  | POSITION_UNKNOWN => Err RuntimeError
  | Definite rows =>
      match total_matching_quantity (Some (L symbol)) rows with
      | (Some total, true) => Ok (if total =? 0 then None else Some total)
      | _ => Err RuntimeError
      end
  end.

Section Drift.
Context {B R : Type}.

Definition set_mode (id : uuid) (mode : string) (subs : list MarketplaceSubscription) : list MarketplaceSubscription :=
  map (fun m => if m_id m =? id then m <| m_execution_mode := mode |> else m) subs.

(** The audit row of a flip, and the flip. *)
Definition flip_audit (subscription : MarketplaceSubscription) : AuditLog :=
  {| au_user_id := Some (m_subscriber_id subscription); au_actor := ActorSystem; au_action := DRIFT_FLIP_ACTION;
     au_resource_type := Some AUDIT_RESOURCE_TYPE; au_resource_id := Some (z_str (m_id subscription)) |}.

Definition flip (subscription : MarketplaceSubscription) : M B R unit :=
  on_platform (fun f => f <| pf_subscriptions ::= set_mode (m_id subscription) MANUAL_MODE |>
                          <| pf_audit ::= fun l => l ++ [flip_audit subscription] |>).

Definition check_and_flip_subscription (subscription : MarketplaceSubscription) (symbol : string) (stored_quantity : Z)
    (fetch_broker_position : result exn (option Z)) : M B R DriftDecision :=
  let decide_as flipped reason stored broker :=
    {| dd_subscription_id := m_id subscription; dd_flipped := flipped; dd_reason := reason; dd_stored_quantity := stored;
       dd_broker_quantity := broker; dd_symbol := symbol |} in
  if negb (takes_auto (m_execution_mode subscription)) then
    mret (decide_as false already_manual stored_quantity None)
  else
    match fetch_broker_position with
    | Err _ => mret (decide_as false broker_unavailable stored_quantity None)
    | Ok broker_quantity =>
        let observed := match broker_quantity with None => 0 | Some q => Z.abs q end in
        match drift_verdict stored_quantity broker_quantity with
        | no_drift => mret (decide_as false no_drift (Z.abs stored_quantity) (Some observed))
        | reason => flip subscription ;; mret (decide_as true reason (Z.abs stored_quantity) (Some observed))
        end
    end.

Definition candidate (m : MarketplaceSubscription) (p : StrategyPosition) : bool :=
  bool_decide (p_subscription_id p = Some (m_id m)) && is_active_sub m && String.eqb (m_execution_mode m) AUTO_MODE
  && negb (m_is_paper m) && is_open p.

(** Active, AUTO, real-money subscriptions with their open rows. *)
Definition candidates : M B R (list (uuid * StrategyPosition)) :=
  gets (fun w => concat (map (fun m => map (fun p => (m_id m, p)) (List.filter (candidate m) (w_positions w)))
                           (pf_subscriptions (w_platform w)))).

(** The row of the identity map. *)
Definition subscription_row (id : uuid) : M B R (option MarketplaceSubscription) :=
  gets (fun w => List.find (fun m => m_id m =? id) (pf_subscriptions (w_platform w))).

Fixpoint check_rows (answers : gmap uuid (evidence (list broker_row))) (rows : list (uuid * StrategyPosition))
  : M B R (list DriftDecision) :=
  match rows with
  | [] => mret []
  | (id, p) :: rows' =>
      sub ← subscription_row id;
      match sub with
      | None => check_rows answers rows'
      | Some m =>
          d ← check_and_flip_subscription m (p_symbol p) (remaining_quantity p)
                (fetch_one (default POSITION_UNKNOWN (answers !! id)) (p_symbol p));
          ds ← check_rows answers rows';
          mret (d :: ds)
      end
  end.

Definition run_subscriber_drift_pass (settings : Settings)
    (fetch_broker_positions : uuid -> fetch_outcome (list broker_row))
    (per_call_timeout concurrency total_budget : option Z) : M B R DriftPassReport :=
  let report checked flipped unknown ds dormant :=
    {| dp_checked := checked; dp_flipped := flipped; dp_unknown := unknown; dp_decisions := ds; dp_dormant := dormant |} in
  if negb (subscriber_drift_enabled settings) then mret (report 0 0 0 [] true)
  else
    rows ← candidates;
    match rows with
    | [] => mret (report 0 0 0 [] false)
    | _ =>
        let answers := gather_broker_positions fetch_broker_positions (default PER_CALL_TIMEOUT per_call_timeout)
                         (default TOTAL_BUDGET total_budget) (map fst rows) (default MAX_CONCURRENCY concurrency) in
        decisions ← check_rows answers rows;
        mret (report (Z.of_nat (length rows)) (Z.of_nat (length (List.filter dd_flipped decisions)))
                (Z.of_nat (length (List.filter (fun d => bool_decide (dd_reason d = broker_unavailable)) decisions)))
                decisions false)
    end.
End Drift.

(** ** The fetch: own account, read only *)

(** The calls the fetch may make on account [k]. *)
Definition account_call {B : Type} `{BrokerInterface B} (k : BrokerCredentials) (b b' : B) : Prop :=
  (exists r, is_session_valid k b = (r, b')) \/ (exists r, get_positions k b = (r, b')).

Section FetchSafety.
Context {B R : Type} `{BrokerInterface B} `{RedisLaws R} `{Decryptor}.
Implicit Types (w : world B R).

(** Only broker reads on accounts in [ok] and rate counters. *)
Record only_reads (ok : BrokerCredentials -> Prop) (w w' : world B R) : Prop := {
  or_positions : w_positions w' = w_positions w;
  or_executions : w_executions w' = w_executions w;
  or_credentials : w_credentials w' = w_credentials w;
  or_strategies : w_strategies w' = w_strategies w;
  or_platform : w_platform w' = w_platform w;
  or_alerts : w_alerts w' = w_alerts w;
  or_orders : w_orders w' = w_orders w;
  or_now : w_now w' = w_now w;
  or_redis : forall k t, (forall s, k <> rate_key s) -> redis_get k t (w_redis w') = redis_get k t (w_redis w);
  or_broker : rtc (fun b b' => exists k, ok k /\ account_call k b b') (w_broker w) (w_broker w')
}.

#[local] Instance only_reads_preorder ok : PreOrder (only_reads ok).
Proof.
  split; [by split|]. intros u v w [] []. split; try (etransitivity; eauto; fail).
  intros k t Hk. rewrite or_redis1 by done. by apply or_redis0.
Qed.

Lemma on_account_reads ok k {A : Type} (f : B -> result exn A * B) :
  ok k -> (forall b r b', f b = (r, b') -> account_call k b b') -> preserves (only_reads ok) (@on_broker B R A f).
Proof.
  intros Hk Hf w r w'. unfold on_broker. destruct (f (w_broker w)) as [x b'] eqn:E. intros [= <- <-].
  split; simpl; auto. apply rtc_once. exists k. eauto.
Qed.

Lemma rate_limit_reads ok key n t : preserves (only_reads ok) (@rate_limit_check B R _ key n t).
Proof.
  apply preserves_bind; [apply _ | apply preserves_raise_when, _ | intros _].
  apply preserves_bind; [apply _ | apply preserves_raise_when, _ | intros _].
  apply preserves_bind; [apply _ | apply preserves_gets, _ | intros raw].
  destruct (counter_of_raw raw) as [c|]; [|apply preserves_raise, _].
  apply preserves_bind; [apply _ | | intros; apply preserves_ret, _].
  intros w r w' [= <- <-]. split; simpl; auto; [|done]. intros k u Hk. rewrite redis_get_put, decide_False; [done|]. intros E.
  by apply (Hk key).
Qed.

Lemma or_unavailable_reads ok {A : Type} (m : M B R A) :
  preserves (only_reads ok) m -> preserves (only_reads ok) (or_unavailable m).
Proof.
  intros Hm. apply preserves_bind; [apply _ | | intros []; [apply preserves_ret, _ | apply preserves_raise, _]].
  intros w r w'. unfold attempt. destruct (m w) as [x w1] eqn:E. intros [= <- <-]. by eapply Hm.
Qed.

(** A credential the subscriber owns, opened. *)
Definition own_account (subscriber_id : uuid) (creds : list BrokerCredential) (k : BrokerCredentials) : Prop :=
  exists cred, In cred creds /\ c_user_id cred = subscriber_id /\ c_is_active cred = true
               /\ build_broker_credentials cred (c_user_id cred) = Ok k.

Lemma own_active_spec user c : own_active user c = true <-> c_user_id c = user /\ c_is_active c = true.
Proof. unfold own_active. rewrite andb_true_iff, Z.eqb_eq. done. Qed.

Lemma resolve_own_cases subscriber_id explicit w r w' :
  resolve_own_credential subscriber_id explicit w = (r, w') ->
  w' = w
  /\ match r with
     | Ok cred => In cred (w_credentials w) /\ c_user_id cred = subscriber_id /\ c_is_active cred = true
     | Err e => e = SubscriberPositionUnavailableError
     end.
Proof.
  assert (Hfb : forall r w', match latest_by c_created_at (List.filter (own_active subscriber_id) (w_credentials w)) with
                             | Some row => mret row | None => unavailable end w = (r, w') ->
     w' = w /\ match r with
               | Ok cred => In cred (w_credentials w) /\ c_user_id cred = subscriber_id /\ c_is_active cred = true
               | Err e => e = SubscriberPositionUnavailableError end).
  { intros r0 w0. destruct (latest_by _ _) as [row|] eqn:E; intros Eq; injection Eq as <- <-; [|done].
    apply latest_by_in, filter_In in E as [Hin Ho]. apply own_active_spec in Ho. done. }
  unfold resolve_own_credential. intros E. apply bind_cases in E as [(creds & w0 & E0 & E) | (e & -> & [=])].
  injection E0 as <- <-. revert E.
  destruct (cid ← explicit; find_credential (w_credentials w) cid) as [row|] eqn:Ex; [|apply Hfb].
  destruct (own_active subscriber_id row) eqn:Eo.
  - intros Eq. injection Eq as <- <-. split; [done|]. apply own_active_spec in Eo. split; [|done].
    destruct explicit as [cid|]; [|done]. by apply find_some in Ex as [? _].
  - destruct (negb _); [intros Eq; by injection Eq as <- <- | apply Hfb].
Qed.

Lemma or_unavailable_spec {A : Type} (m : M B R A) w r w' :
  or_unavailable m w = (r, w') ->
  (exists a, r = Ok a /\ m w = (Ok a, w'))
  \/ (r = Err SubscriberPositionUnavailableError /\ exists e, m w = (Err e, w')).
Proof.
  unfold or_unavailable, attempt. cbv [mbind M_bind]. destruct (m w) as [[a|e] w1]; intros E; injection E as <- <-; eauto.
Qed.

Lemma well_formed_rows_some positions rows :
  well_formed_rows positions = Some rows -> positions = Some (map Some rows).
Proof.
  unfold well_formed_rows. destruct positions as [l|]; [|done]. simpl. intros E. f_equal.
  apply mapM_Some in E. induction E as [|x y l rows Hx _ IH]; [done|]. simpl. by rewrite Hx, IH.
Qed.

(** Every failure of the read has the one exception. *)
Definition outcome_ok {A : Type} (good : A -> Prop) (r : result exn A) : Prop :=
  match r with Ok a => good a | Err e => e = SubscriberPositionUnavailableError end.

Lemma or_unavailable_outcome ok {A : Type} (m : M B R A) w r w' :
  preserves (only_reads ok) m -> or_unavailable m w = (r, w') ->
  only_reads ok w w' /\ outcome_ok (fun a => m w = (Ok a, w')) r.
Proof.
  intros Hm E. split; [by eapply or_unavailable_reads|].
  by apply or_unavailable_spec in E as [(a & -> & ?) | (-> & _)].
Qed.

Lemma preflight_outcome ok cred limit w r w' :
  preflight cred limit w = (r, w') -> only_reads ok w w' /\ outcome_ok (fun _ => True) r.
Proof.
  destruct limit; [|intros [= <- <-]; by split].
  intros E. apply bind_cases in E as [(allowed & w1 & E1 & E) | (e & -> & E1)];
    apply (or_unavailable_outcome ok) in E1 as [Hr Ho]; try apply rate_limit_reads; [|done].
  by destruct allowed; injection E as <- <-.
Qed.

Lemma on_account_outcome ok k {A : Type} (f : B -> result exn A * B) w r w' :
  ok k -> (forall b r b', f b = (r, b') -> account_call k b b') ->
  or_unavailable (@on_broker B R A f) w = (r, w') ->
  only_reads ok w w' /\ outcome_ok (fun a => f (w_broker w) = (Ok a, w_broker w')) r.
Proof.
  intros Hk Hf E. apply (or_unavailable_outcome ok) in E as [Hr Ho]; [|by eapply on_account_reads].
  split; [done|]. destruct r as [a|e]; [|done]. simpl in *. unfold on_broker in Ho.
  by destruct (f (w_broker w)) as [x b]; injection Ho as -> <-.
Qed.

Lemma read_account_cases sub cred limit w r w' :
  In cred (w_credentials w) -> c_user_id cred = sr_subscriber_id sub -> c_is_active cred = true ->
  read_account sub cred limit w = (r, w') ->
  only_reads (own_account (sr_subscriber_id sub) (w_credentials w)) w w'
  /\ outcome_ok (fun rows => exists k b b', build_broker_credentials cred (c_user_id cred) = Ok k
                    /\ get_positions k b = (Ok (Some (map Some rows)), b')) r.
Proof.
  intros Hin Hu Ha. unfold read_account. rewrite Hu, Z.eqb_refl, Ha. cbn [negb].
  set (ok := own_account (sr_subscriber_id sub) (w_credentials w)).
  intros E. apply bind_cases in E as [([] & w0 & E0 & E) | (e & -> & [=])]. injection E0 as <-.
  apply bind_cases in E as [([] & w0 & E0 & E) | (e & -> & [=])]. injection E0 as <-.
  apply bind_cases in E as [([] & w1 & E1 & E) | (e & -> & E1)]; apply (preflight_outcome ok) in E1 as [Hr1 Ho1];
    [clear Ho1 | by split].
  apply bind_cases in E as [(k & w2 & E2 & E) | (e & -> & E2)];
    apply (or_unavailable_outcome ok) in E2 as [Hr2 Ho2]; try apply preserves_from_result, _;
    (assert (Hr12 : only_reads ok w w2) || assert (Hr12 : only_reads ok w w')); try (by transitivity w1); [|by split].
  injection Ho2 as Ek _.
  assert (Hk : ok k) by (exists cred; by rewrite Hu).
  apply bind_cases in E as [(valid & w3 & E3 & E) | (e & -> & E3)];
    apply (on_account_outcome ok k _ _ _ _ Hk (fun b r b' Eq => or_introl (ex_intro _ r Eq))) in E3 as [Hr3 Ho3];
    [|split; [by transitivity w2 | done]].
  assert (Hr13 : only_reads ok w w3) by (by transitivity w2).
  destruct valid; cbn [negb] in E; [|by injection E as <- <-].
  apply bind_cases in E as [(ps & w4 & E4 & E) | (e & -> & E4)];
    apply (on_account_outcome ok k _ _ _ _ Hk (fun b r b' Eq => or_intror (ex_intro _ r Eq))) in E4 as [Hr4 Ho4];
    [|split; [by transitivity w3 | done]].
  assert (Hr14 : only_reads ok w w4) by (by transitivity w3).
  destruct (well_formed_rows ps) as [rows|] eqn:Ew; injection E as <- <-; (split; [done|]); [|done].
  apply well_formed_rows_some in Ew as ->. simpl in *. eauto.
Qed.
End FetchSafety.
