(* ===== verification/DriftSafety.v ===== *)
(** * Subscribers' own brokers and drift: the guarantees

    Over [Subscribers.v]: the fetch reads the subscriber's own account and nothing
    else, its credential is the fan-out's, a drift pass flips exactly the
    subscriptions with a confirmed shortfall, and the fan-out leaves a flipped
    subscription's rows alone. *)

From Stdlib Require Import ZArith Lia List Bool String.
From stdpp Require Import base list strings gmap.
From S2P Require Import Prelude PyText SymbolMatch PyFloat PyDecimal PyNum Records Enums Models Safeguards Book Ledger Samples.
From S2P Require Import PositionManager StrategyExecutor DirectExit DayState KillSwitch BrokerBatch Fanout FanoutSafety.
From S2P Require Import Mirroring Subscribers.

(** ** The fetch *)

Section Fetching.
Context {B R : Type} `{BrokerInterface B} `{RedisLaws R} `{Decryptor}.
Implicit Types (w : world B R).

(** A subscriber's positions are read through the subscriber's own account
    and nothing else happens.  Whatever the outcome, the fetch makes only session
    checks and position reads, only on accounts of active credentials the
    subscriber owns, writes nothing but rate counters and sends no order.  It
    answers with the rows that account's broker reported, all of them, now or
    earlier in the pass; every failure, an unknown subscription included, is the
    one exception that means unknown, never an empty account. *)
Theorem fetch_own_account_only subscribers limit (m : gmap uuid (list broker_row)) id w r w' :
  fetch subscribers limit m id w = (r, w') ->
  match by_subscription subscribers id with
  | None => r = Err SubscriberPositionUnavailableError /\ w' = w
  | Some sub =>
      only_reads (own_account (sr_subscriber_id sub) (w_credentials w)) w w'
      /\ match r with
         | Err e => e = SubscriberPositionUnavailableError
         | Ok (rows, m') =>
             exists cred, In cred (w_credentials w) /\ own_active (sr_subscriber_id sub) cred = true
               /\ ((m !! c_id cred = Some rows /\ m' = m /\ w' = w)
                   \/ (m !! c_id cred = None /\ m' = <[c_id cred := rows]> m
                       /\ exists k b b', build_broker_credentials cred (sr_subscriber_id sub) = Ok k
                            /\ get_positions k b = (Ok (Some (map Some rows)), b')))
         end
  end.
Proof.
  unfold fetch. destruct (by_subscription subscribers id) as [sub|] eqn:Es; [|intros E; by injection E as <- <-].
  intros E. apply bind_cases in E as [(cred & w1 & E1 & E) | (e & -> & E1)];
    apply resolve_own_cases in E1 as [-> Hc]; [|by split].
  destruct Hc as (Hin & Hu & Ha). pose proof (proj2 (own_active_spec _ _) (conj Hu Ha)) as Ho.
  destruct (m !! c_id cred) as [rows|] eqn:Em.
  { injection E as <- <-. split; [done|]. exists cred. auto 6. }
  apply bind_cases in E as [(rows & w2 & E2 & E) | (e & -> & E2)];
    apply read_account_cases in E2 as [Hr Hok]; auto.
  injection E as <- <-. split; [done|]. exists cred. rewrite Hu in Hok. auto 6.
Qed.

(** The subscription points at a credential of somebody else. *)
Definition foreign (creds : list BrokerCredential) (sub : SubscriberRef) : bool :=
  match (cid ← sr_broker_credential_id sub; find_credential creds cid) with
  | Some row => negb (c_user_id row =? sr_subscriber_id sub)
  | None => false
  end.

(** The two credential resolutions agree, up to one case.  Unless the
    subscription points at a credential of another user, the reader's resolution
    finds a credential exactly when the fan-out's does, and the same one.  When
    it does point at another user's, the reader refuses, while the fan-out goes on
    with the subscriber's own latest active credential if there is one. *)
Theorem own_credential_agrees (sub : SubscriberRef) w :
  let '(read, w1) := resolve_own_credential (sr_subscriber_id sub) (sr_broker_credential_id sub) w in
  let '(mirrored, w2) := resolve_subscriber_credential sub w in
  w1 = w /\ w2 = w
  /\ exists res, mirrored = Ok res
       /\ if foreign (w_credentials w) sub
          then read = Err SubscriberPositionUnavailableError
               /\ cr_credential_id res
                  = c_id <$> latest_by c_created_at (List.filter (own_active (sr_subscriber_id sub)) (w_credentials w))
          else cr_usable res = is_ok read
               /\ cr_credential_id res = match read with Ok cred => Some (c_id cred) | Err _ => None end.
Proof.
  unfold resolve_own_credential, resolve_subscriber_credential, foreign. cbv [mbind M_bind gets mret M_ret option_bind unavailable raise].
  destruct (sr_broker_credential_id sub) as [cid|].
  2:{ destruct (latest_by _ _) as [row|]; simpl; eauto 10. }
  destruct (find_credential (w_credentials w) cid) as [row|] eqn:Ef.
  2:{ destruct (latest_by _ _) as [row|]; simpl; eauto 10. }
  destruct (own_active (sr_subscriber_id sub) row) eqn:Eo.
  - apply own_active_spec in Eo as Hu. destruct Hu as [-> _]. rewrite Z.eqb_refl. simpl.
    apply find_some in Ef as [_ Ec]. apply Z.eqb_eq in Ec. rewrite <- Ec. eauto 10.
  - destruct (c_user_id row =? sr_subscriber_id sub); simpl; destruct (latest_by _ _) as [row'|]; simpl; eauto 10.
Qed.
End Fetching.

(** ** The pass *)

(** What a shortfall is: the broker answered, every symbol of the answer was
    read, and the contract's rows add up to less than the stored quantity. *)
Definition shortfall (answer : evidence (list broker_row)) (p : StrategyPosition) : bool :=
  match answer with
  | POSITION_UNKNOWN => false
  | Definite rows =>
      match total_matching_quantity (Some (L (p_symbol p))) rows with
      | (Some total, true) => Z.abs total <? Z.abs (remaining_quantity p)
      | _ => false
      end
  end.

Abbreviation batch := (gmap uuid (evidence (list broker_row))).

Definition evidence_of (answers : batch) (id : uuid) : evidence (list broker_row) := default POSITION_UNKNOWN (answers !! id).

Definition demoted (m : MarketplaceSubscription) : MarketplaceSubscription := m <| m_execution_mode := MANUAL_MODE |>.

(** The subscriptions a walk over [rows] flips. *)
Definition flips (answers : batch) (rows : list (uuid * StrategyPosition)) (m : MarketplaceSubscription) : bool :=
  takes_auto (m_execution_mode m)
  && existsb (fun row => (fst row =? m_id m) && shortfall (evidence_of answers (fst row)) (snd row)) rows.

Lemma drift_verdict_spec stored q :
  drift_verdict stored q <> no_drift <-> match q with None => 0 | Some n => Z.abs n end < Z.abs stored.
Proof.
  unfold drift_verdict. set (o := match q with None => 0 | Some n => Z.abs n end).
  assert (0 <= o) by (unfold o; destruct q; lia).
  destruct (Z.leb_spec (Z.abs stored) 0), (Z.leb_spec (Z.abs stored) o), (o =? 0); simpl; split; done || lia.
Qed.

Lemma fetch_verdict answer p :
  match fetch_one answer (p_symbol p) with
  | Ok q => drift_verdict (remaining_quantity p) q <> no_drift
  | Err _ => False
  end <-> shortfall answer p = true.
Proof.
  unfold fetch_one, shortfall. destruct answer as [|rows]; [done|].
  destruct (total_matching_quantity _ _) as [[t|] [|]]; try done.
  rewrite drift_verdict_spec, Z.ltb_lt. by destruct (Z.eqb_spec t 0) as [->|Ht].
Qed.

Section Pass.
Context {B R : Type}.
Implicit Types (w : world B R) (m : MarketplaceSubscription).

Lemma set_mode_ids id mode (subs : list MarketplaceSubscription) : map m_id (set_mode id mode subs) = map m_id subs.
Proof. unfold set_mode. rewrite map_map. apply map_ext. intros m. by destruct (m_id m =? id). Qed.

(** The world with the subscription table replaced and audit rows appended. *)
Definition with_subs (subs : list MarketplaceSubscription) (new : list AuditLog) (w : world B R) : world B R :=
  w <| w_platform ::= fun f => f <| pf_subscriptions := subs |> <| pf_audit ::= fun l => l ++ new |> |>.

Lemma with_subs_twice subs1 new1 subs2 new2 w :
  with_subs subs2 new2 (with_subs subs1 new1 w) = with_subs subs2 (new1 ++ new2) w.
Proof. destruct w as [ps xs cs ss f rd al bk os nw nx]. destruct f. unfold with_subs, set. cbn. by rewrite <- List.app_assoc. Qed.

Lemma with_subs_same w : with_subs (pf_subscriptions (w_platform w)) [] w = w.
Proof. destruct w as [ps xs cs ss f rd al bk os nw nx]. destruct f. unfold with_subs, set. cbn. by rewrite List.app_nil_r. Qed.

(** The comparison of one row, as a case distinction on the shortfall. *)
Lemma check_cases m p answer w r w' :
  check_and_flip_subscription m (p_symbol p) (remaining_quantity p) (fetch_one answer (p_symbol p)) w = (r, w') ->
  exists d, r = Ok d /\ dd_subscription_id d = m_id m
    /\ dd_flipped d = takes_auto (m_execution_mode m) && shortfall answer p
    /\ w' = if dd_flipped d
            then with_subs (set_mode (m_id m) MANUAL_MODE (pf_subscriptions (w_platform w))) [flip_audit m] w
            else w.
Proof.
  unfold check_and_flip_subscription. pose proof (fetch_verdict answer p) as Hv.
  destruct (takes_auto (m_execution_mode m)); cbn [negb andb]; [|intros E; injection E as <- <-; eauto].
  destruct (fetch_one answer (p_symbol p)) as [q|e].
  - destruct (shortfall answer p); [|].
    + destruct Hv as [_ Hv]. specialize (Hv eq_refl).
      destruct (drift_verdict (remaining_quantity p) q); intros E; injection E as <- <-; try done; eexists; repeat split.
    + destruct (drift_verdict (remaining_quantity p) q); intros E;
        try (destruct Hv as [Hv _]; discriminate Hv; done); injection E as <- <-; eauto.
  - destruct (shortfall answer p); [destruct Hv as [_ Hv]; by destruct Hv|]. intros E. injection E as <- <-. eauto.
Qed.

Definition after_walk (F : MarketplaceSubscription -> bool) (subs : list MarketplaceSubscription) :=
  map (fun m => if F m then demoted m else m) subs.

Lemma flips_demoted answers rows m : flips answers rows (demoted m) = false.
Proof. reflexivity. Qed.

Lemma flips_nil answers m : flips answers [] m = false.
Proof. unfold flips. simpl. apply andb_false_r. Qed.

Lemma flips_other answers id p rows m : m_id m <> id -> flips answers ((id, p) :: rows) m = flips answers rows m.
Proof. intros Hm. unfold flips. simpl. by rewrite (proj2 (Z.eqb_neq id (m_id m))) by congruence. Qed.

Lemma flips_here answers p rows m :
  flips answers ((m_id m, p) :: rows) m
  = (takes_auto (m_execution_mode m) && shortfall (evidence_of answers (m_id m)) p) || flips answers rows m.
Proof. unfold flips. simpl. rewrite Z.eqb_refl. simpl. by rewrite andb_orb_distrib_r. Qed.

Lemma walk_nil answers (subs : list MarketplaceSubscription) :
  List.filter (flips answers []) subs = [] /\ after_walk (flips answers []) subs = subs.
Proof.
  induction subs as [|m subs [IH1 IH2]]; [done|]. unfold after_walk in *. cbn [map List.filter].
  by rewrite flips_nil, IH1, IH2.
Qed.

(** Rows of other ids take no part in a step. *)
Lemma others_step answers id p rows (l : list MarketplaceSubscription) :
  Forall (fun m => m_id m <> id) l ->
  set_mode id MANUAL_MODE l = l
  /\ List.filter (flips answers ((id, p) :: rows)) l = List.filter (flips answers rows) l
  /\ after_walk (flips answers ((id, p) :: rows)) l = after_walk (flips answers rows) l.
Proof.
  induction 1 as [|m l Hm _ (IH1 & IH2 & IH3)]; [done|].
  unfold set_mode, after_walk in *. cbn [map List.filter].
  by rewrite flips_other, (proj2 (Z.eqb_neq _ _) Hm), IH1, IH2, IH3.
Qed.

Lemma find_split id (subs : list MarketplaceSubscription) m :
  NoDup (map m_id subs) -> List.find (fun m => m_id m =? id) subs = Some m ->
  m_id m = id /\ exists l1 l2, subs = l1 ++ m :: l2 /\ Forall (fun m => m_id m <> id) l1 /\ Forall (fun m => m_id m <> id) l2.
Proof.
  intros Hnd Hf. apply find_some in Hf as [Hin E]. apply Z.eqb_eq in E. split; [done|].
  apply in_split in Hin as (l1 & l2 & ->). exists l1, l2. split; [done|].
  rewrite map_app in Hnd. simpl in Hnd. apply NoDup_app in Hnd as (_ & Hd & Hnd).
  apply NoDup_cons in Hnd as [Hn _]. rewrite !List.Forall_forall. split; intros m' Hm' E'.
  - apply (Hd (m_id m')); [by apply list_elem_of_In, in_map|]. rewrite E', E. constructor.
  - apply Hn. rewrite E, <- E'. by apply list_elem_of_In, in_map.
Qed.

Lemma walk_step answers p rows (subs : list MarketplaceSubscription) m :
  NoDup (map m_id subs) -> List.find (fun x => m_id x =? m_id m) subs = Some m ->
  if takes_auto (m_execution_mode m) && shortfall (evidence_of answers (m_id m)) p
  then map flip_audit (List.filter (flips answers ((m_id m, p) :: rows)) subs)
         ≡ₚ flip_audit m :: map flip_audit (List.filter (flips answers rows) (set_mode (m_id m) MANUAL_MODE subs))
       /\ after_walk (flips answers ((m_id m, p) :: rows)) subs
          = after_walk (flips answers rows) (set_mode (m_id m) MANUAL_MODE subs)
  else List.filter (flips answers ((m_id m, p) :: rows)) subs = List.filter (flips answers rows) subs
       /\ after_walk (flips answers ((m_id m, p) :: rows)) subs = after_walk (flips answers rows) subs.
Proof.
  intros Hnd Hf. apply find_split in Hf as (_ & l1 & l2 & -> & Hl1 & Hl2); [|done].
  destruct (others_step answers (m_id m) p rows l1 Hl1) as (S1 & F1 & A1).
  destruct (others_step answers (m_id m) p rows l2 Hl2) as (S2 & F2 & A2).
  assert (Hset : set_mode (m_id m) MANUAL_MODE (l1 ++ m :: l2) = l1 ++ demoted m :: l2).
  { unfold set_mode in *. rewrite map_app. cbn [map]. by rewrite S1, S2, Z.eqb_refl. }
  unfold after_walk in *. rewrite Hset, !List.filter_app, !map_app. cbn [map List.filter].
  rewrite F1, F2, A1, A2, flips_here, flips_demoted.
  destruct (takes_auto _ && shortfall _ _); cbn [orb]; [|done].
  split; [|done]. rewrite ?map_app. cbn [map]. symmetry. apply Permutation_middle.
Qed.

(** A walk flips the subscriptions that are on AUTO and short on one of its
    rows, with one audit row each. *)
Lemma check_rows_spec answers rows w r w' :
  NoDup (map m_id (pf_subscriptions (w_platform w))) -> check_rows answers rows w = (r, w') ->
  exists ds new, r = Ok ds
    /\ new ≡ₚ map flip_audit (List.filter (flips answers rows) (pf_subscriptions (w_platform w)))
    /\ length (List.filter dd_flipped ds) = length new
    /\ w' = with_subs (after_walk (flips answers rows) (pf_subscriptions (w_platform w))) new w.
Proof.
  revert w r w'. induction rows as [|[id p] rows IH]; intros w r w' Hnd E.
  { injection E as <- <-. exists [], []. split; [done|]. destruct (walk_nil answers (pf_subscriptions (w_platform w))) as [-> ->].
    split; [done|]. split; [done|]. symmetry. apply with_subs_same. }
  cbn [check_rows] in E. apply bind_cases in E as [(sub & w0 & E0 & E) | (e & -> & [=])]. injection E0 as <- <-.
  destruct (List.find _ _) as [m|] eqn:Ef.
  2:{ apply IH in E as (ds & new & -> & Hp & Hl & ->); [|done].
      assert (Hall : Forall (fun m => m_id m <> id) (pf_subscriptions (w_platform w))).
      { apply List.Forall_forall. intros m Hm Em. by apply (find_none _ _ Ef) in Hm; apply Z.eqb_neq in Hm. }
      destruct (others_step answers id p rows _ Hall) as (_ & E2 & E3). exists ds, new. by rewrite E2, E3. }
  assert (Hid : id = m_id m) by (apply find_some in Ef as [_ ?%Z.eqb_eq]; done). subst id.
  pose proof (walk_step answers p rows _ m Hnd Ef) as Hstep.
  apply bind_cases in E as [(d & w1 & E1 & E) | (e & -> & E1)]; apply check_cases in E1 as (d' & Ed & _ & Hd & ->); [|done].
  injection Ed as <-. fold (evidence_of answers (m_id m)) in Hd. rewrite <- Hd in Hstep. clear Hd.
  destruct (dd_flipped d) eqn:Edf; destruct Hstep as [Hf Ha];
    (apply bind_cases in E as [(ds & w2 & E2 & E) | (e & -> & E2)];
     (apply IH in E2 as (ds' & new & Eds & Hp & Hl & ->); [|simpl; rewrite ?set_mode_ids; done]); [|done]);
    injection Eds as <-; injection E as <- <-; exists (d :: ds); cbn [List.filter]; rewrite Edf.
  - exists (flip_audit m :: new). split; [done|]. split; [rewrite Hf, Hp; done|]. split; [simpl; by rewrite Hl|].
    rewrite with_subs_twice, Ha. done.
  - exists new. by rewrite Hf, Ha.
Qed.

(** No walk touches a position row, with or without unique ids. *)
Definition same_rows (w w' : world B R) : Prop := w_positions w' = w_positions w /\ w_next_id w' = w_next_id w.

Lemma check_rows_keeps answers rows w r w' : check_rows answers rows w = (r, w') -> same_rows w w'.
Proof.
  revert w r w'. induction rows as [|[id p] rows IH]; intros w r w' E; [by injection E as <- <-|].
  cbn [check_rows] in E. apply bind_cases in E as [(sub & w0 & E0 & E) | (e & -> & [=])]. injection E0 as <- <-.
  destruct (List.find _ _) as [m|]; [|by eapply IH].
  apply bind_cases in E as [(d & w1 & E1 & E) | (e & -> & E1)]; apply check_cases in E1 as (d' & Ed & _ & _ & ->); [|done].
  assert (Hsame : same_rows w (if dd_flipped d' then
     with_subs (set_mode (m_id m) MANUAL_MODE (pf_subscriptions (w_platform w))) [flip_audit m] w else w))
    by (by destruct (dd_flipped d')).
  apply bind_cases in E as [(ds & w2 & E2 & E) | (e & -> & E2)]; apply IH in E2 as [Hp Hn];
    [injection E as <- <-|]; destruct Hsame as [Hp' Hn']; split; congruence.
Qed.

Lemma drift_pass_keeps_rows settings fetch_broker_positions per_call_timeout concurrency total_budget w r w' :
  run_subscriber_drift_pass settings fetch_broker_positions per_call_timeout concurrency total_budget w = (r, w') ->
  same_rows w w'.
Proof.
  unfold run_subscriber_drift_pass. destruct (negb _); [intros E; by injection E as <- <-|].
  intros E. apply bind_cases in E as [(rows & w0 & E0 & E) | (e & -> & [=])]. injection E0 as <- <-.
  destruct (concat _) as [|row rows]; [by injection E as <- <-|].
  apply bind_cases in E as [(ds & w1 & E1 & E) | (e & -> & E1)]; apply check_rows_keeps in E1; [by injection E as <- <- | done].
Qed.

(** The candidates of a world. *)
Definition pairs (w : world B R) : list (uuid * StrategyPosition) :=
  concat (map (fun m => map (fun p => (m_id m, p)) (List.filter (candidate m) (w_positions w)))
            (pf_subscriptions (w_platform w))).

Lemma pairs_spec w id p :
  In (id, p) (pairs w) <->
  exists m, In m (pf_subscriptions (w_platform w)) /\ m_id m = id /\ In p (w_positions w) /\ candidate m p = true.
Proof.
  unfold pairs. rewrite in_concat. split.
  - intros (l & Hl & Hin). apply in_map_iff in Hl as (m & <- & Hm). apply in_map_iff in Hin as (q & [= <- <-] & Hq).
    apply filter_In in Hq as [? ?]. eauto.
  - intros (m & Hm & <- & Hp & Hc). eexists. split; [by apply (in_map (fun m => map (pair (m_id m)) _) _ _ Hm)|].
    apply in_map, filter_In. done.
Qed.

(** A subscription of the table has a shortfall on one of its candidate rows. *)
Definition short (answers : batch) (w : world B R) (m : MarketplaceSubscription) : bool :=
  existsb (fun p => candidate m p && shortfall (evidence_of answers (m_id m)) p) (w_positions w).

Lemma candidate_auto m p : candidate m p = true -> takes_auto (m_execution_mode m) = true.
Proof. unfold candidate. rewrite !andb_true_iff, String.eqb_eq. by intros ((((_ & _) & ->) & _) & _). Qed.

Lemma flips_short answers w m :
  NoDup (map m_id (pf_subscriptions (w_platform w))) -> In m (pf_subscriptions (w_platform w)) ->
  flips answers (pairs w) m = short answers w m.
Proof.
  intros Hnd Hm. apply eq_true_iff_eq. unfold flips, short. rewrite andb_true_iff, !existsb_exists. split.
  - intros (Ha & [id p] & Hin & Hs). simpl in Hs. apply andb_prop in Hs as [E Hs]. apply Z.eqb_eq in E. subst id.
    apply pairs_spec in Hin as (m' & Hm' & E & Hp & Hc).
    assert (m' = m) as -> by (by eapply (NoDup_map_inj m_id)).
    exists p. by rewrite Hc, Hs.
  - intros (p & Hp & Hs). apply andb_prop in Hs as [Hc Hs]. split; [by eapply candidate_auto|].
    exists (m_id m, p). split; [apply pairs_spec; eauto|]. simpl. by rewrite Z.eqb_refl, Hs.
Qed.

(** The evidence behind a flip. *)
Definition proven_short (fetch_broker_positions : uuid -> fetch_outcome (list broker_row)) (timeout : Z)
    (w : world B R) (m : MarketplaceSubscription) : Prop :=
  exists p took rows total, In p (w_positions w) /\ candidate m p = true
    /\ fetch_broker_positions (m_id m) = Answers took rows /\ Z.max 0 took < timeout
    /\ total_matching_quantity (Some (L (p_symbol p))) rows = (Some total, true)
    /\ Z.abs total < Z.abs (remaining_quantity p).

Lemma short_proven fetch_broker_positions timeout budget keys concurrency w m :
  short (gather_broker_positions fetch_broker_positions timeout budget keys concurrency) w m = true ->
  proven_short fetch_broker_positions timeout w m.
Proof.
  intros Hs. apply existsb_exists in Hs as (p & Hp & Hs). apply andb_prop in Hs as [Hc Hs].
  unfold shortfall, evidence_of in Hs. destruct (_ !! m_id m) as [[|rows]|] eqn:Ea; simpl in Hs; try done.
  apply gather_sound in Ea as (took & Ef & Ht).
  destruct (total_matching_quantity _ _) as [[total|] [|]] eqn:Em; try done. apply Z.ltb_lt in Hs.
  by exists p, took, rows, total.
Qed.

Lemma walk_pairs answers w :
  NoDup (map m_id (pf_subscriptions (w_platform w))) ->
  List.filter (flips answers (pairs w)) (pf_subscriptions (w_platform w))
    = List.filter (short answers w) (pf_subscriptions (w_platform w))
  /\ after_walk (flips answers (pairs w)) (pf_subscriptions (w_platform w))
    = after_walk (short answers w) (pf_subscriptions (w_platform w)).
Proof.
  intros Hnd. split; [apply filter_ext_in | apply map_ext_in]; intros m Hm; by rewrite (flips_short answers w m Hnd Hm).
Qed.

(** What a pass does, as one equation on the world. *)
Lemma drift_pass_spec settings fetch_broker_positions per_call_timeout concurrency total_budget w r w' :
  let timeout := default PER_CALL_TIMEOUT per_call_timeout in
  let answers := gather_broker_positions fetch_broker_positions timeout (default TOTAL_BUDGET total_budget)
                   (map fst (pairs w)) (default MAX_CONCURRENCY concurrency) in
  let subs := pf_subscriptions (w_platform w) in
  NoDup (map m_id subs) ->
  run_subscriber_drift_pass settings fetch_broker_positions per_call_timeout concurrency total_budget w = (r, w') ->
  exists report, r = Ok report
    /\ if subscriber_drift_enabled settings
       then exists new, new ≡ₚ map flip_audit (List.filter (short answers w) subs)
              /\ w' = with_subs (after_walk (short answers w) subs) new w
              /\ dp_checked report = Z.of_nat (length (pairs w)) /\ dp_flipped report = Z.of_nat (length new)
              /\ dp_dormant report = false
              /\ forall m, short answers w m = true -> proven_short fetch_broker_positions timeout w m
       else w' = w /\ dp_dormant report = true.
Proof.
  intros timeout answers subs Hnd. unfold run_subscriber_drift_pass.
  destruct (subscriber_drift_enabled settings); cbn [negb]; [|intros E; injection E as <- <-; eauto].
  intros E. apply bind_cases in E as [(rows & w0 & E0 & E) | (e & -> & [=])]. injection E0 as <- <-.
  fold (pairs w) in E. destruct (walk_pairs answers w Hnd) as [Hfl Haw]. fold subs in Hfl, Haw.
  assert (Hproven : forall m, short answers w m = true -> proven_short fetch_broker_positions timeout w m)
    by (intros m; apply short_proven).
  destruct (pairs w) as [|row rows] eqn:Ep.
  - injection E as <- <-. eexists. split; [reflexivity|]. exists [].
    destruct (walk_nil answers subs) as [E1 E2]. rewrite <- Hfl, <- Haw, E1, E2.
    split; [done|]. split; [symmetry; apply with_subs_same | done].
  - apply bind_cases in E as [(ds & w1 & E1 & E) | (e & -> & E1)];
      apply check_rows_spec in E1 as (ds' & new & Eds & Hp & Hl & ->); try done.
    injection Eds as <-. injection E as <- <-. eexists. split; [reflexivity|]. exists new.
    fold subs in Hp |- *. fold answers in Hp |- *. rewrite <- Hfl, <- Haw. simpl. by rewrite Hl.
Qed.

(** C28: a drift pass demotes exactly the subscriptions with a proven shortfall.
    Switched off it does nothing.  Switched on it always returns a report, and
    the only things that change are the execution mode of those subscriptions,
    to manual, and the audit log, by one row for each; the report counts them.
    A subscription is among them exactly when it is active, on AUTO, trades real
    money and the batch brought a definite answer for it in which one of its open
    rows is short; such an answer is its own broker's, given within the timeout,
    with every symbol read.  A slow, failing or ambiguous broker never costs a
    subscriber the AUTO mode, and a manual subscription is never touched. *)
Theorem drift_pass_demotes_exactly settings fetch_broker_positions per_call_timeout concurrency total_budget w r w' :
  let timeout := default PER_CALL_TIMEOUT per_call_timeout in
  let answers := gather_broker_positions fetch_broker_positions timeout (default TOTAL_BUDGET total_budget)
                   (map fst (pairs w)) (default MAX_CONCURRENCY concurrency) in
  let subs := pf_subscriptions (w_platform w) in
  NoDup (map m_id subs) ->
  run_subscriber_drift_pass settings fetch_broker_positions per_call_timeout concurrency total_budget w = (r, w') ->
  exists report, r = Ok report
    /\ if subscriber_drift_enabled settings
       then exists new, new ≡ₚ map flip_audit (List.filter (short answers w) subs)
              /\ w' = with_subs (after_walk (short answers w) subs) new w
              /\ dp_checked report = Z.of_nat (length (pairs w)) /\ dp_flipped report = Z.of_nat (length new)
              /\ dp_dormant report = false
              /\ forall m, short answers w m = true -> proven_short fetch_broker_positions timeout w m
       else w' = w /\ dp_dormant report = true.
Proof. apply drift_pass_spec. Qed.
End Pass.

(** ** After a flip *)

Definition mine (i : uuid) (p : StrategyPosition) : bool := bool_decide (p_subscription_id p = Some i).
Definition my_leg (i : uuid) (x : StrategyExecution) : bool := bool_decide (x_subscription_id x = Some i).

(** The rows and execution legs of subscription [i] are as they were. *)
Definition untouched {B R : Type} (i : uuid) (w w' : world B R) : Prop :=
  List.filter (mine i) (w_positions w') = List.filter (mine i) (w_positions w)
  /\ List.filter (my_leg i) (w_executions w') = List.filter (my_leg i) (w_executions w).

#[export] Instance untouched_preorder {B R : Type} i : PreOrder (@untouched B R i).
Proof. split; [by split|]. intros u v w [] []. split; congruence. Qed.

Section Demoted.
Context {B R P : Type} `{RedisLaws R} `{ProviderLaws P}.
Context (signal : StrategySignal) (strategy : Strategy) (signal_hash : option string).
Implicit Types (w : world B R) (prov : P).

Lemma mine_outside i j rows : j <> i ->
  List.filter (mine i) (List.filter (outside [j]) rows) = List.filter (mine i) rows.
Proof.
  intros Hj. induction rows as [|p rows IH]; [done|]. simpl.
  destruct (outside [j] p) eqn:Eo; simpl; rewrite IH; [done|].
  unfold mine at 2. case_bool_decide as Ep; [|done].
  unfold outside in Eo. rewrite Ep in Eo. bool_to_prop. by apply list_elem_of_singleton in Eo.
Qed.

Lemma served_untouched i j w w' : j <> i -> served [j] w w' -> untouched i w w'.
Proof.
  intros Hj Hs. split.
  - by rewrite <- (mine_outside i j (w_positions w')), (sv_rows _ _ _ Hs), mine_outside.
  - destruct (sv_legs _ _ _ Hs) as (xs & -> & Hxs). rewrite List.filter_app.
    replace (List.filter (my_leg i) xs) with (@nil StrategyExecution); [apply List.app_nil_r|].
    induction Hxs as [|x xs (k & [<- | []] & Ex) _ IH]; [done|]. simpl. unfold my_leg at 1. rewrite Ex.
    by rewrite bool_decide_eq_false_2 by congruence.
Qed.

Lemma no_rows_untouched i w w' : no_rows w w' -> untouched i w w'.
Proof. intros (_ & Hp & Hx). split; by rewrite ?Hp, ?Hx. Qed.

(** A run in which every turn keeps the book and leaves [i] alone. *)
Lemma run_untouched i turn subs w rs w' :
  (forall sub u res u', In sub subs -> book_inv u -> turn sub u res u' -> book_inv u' /\ untouched i u u') ->
  book_inv w -> fan_run turn subs w rs w' -> untouched i w w'.
Proof.
  intros Ht Hb Hrun. revert Ht Hb. induction Hrun as [w | sub subs w res w1 rs w' Hturn _ IH]; intros Ht Hb; [done|].
  destruct (Ht sub w res w1 (or_introl eq_refl) Hb Hturn) as [Hb1 Hu]. transitivity w1; [done|].
  apply IH; [|done]. intros s u r u' Hs. apply Ht. by right.
Qed.

Definition manual (i : uuid) (subs : list SubscriberRef) : Prop :=
  forall sub, In sub subs -> sr_subscription_id sub = i -> takes_auto (sr_execution_mode sub) = false.

Lemma dispatch_untouched i master margin prov subs w r w' :
  0 <= entry_lots strategy -> book_inv w -> manual i subs ->
  dispatch_subscriber_executions signal strategy signal_hash master margin prov subs w = (r, w') -> untouched i w w'.
Proof.
  intros Hl Hb Hm E. apply dispatch_runs in E as [(_ & -> & _) | [(e & _ & -> & _) | (es & rs & -> & _ & _ & Hrun)]]; try done.
  eapply run_untouched; [|exact Hb | exact Hrun]. intros sub u res u' Hs Hbu Ht.
  destruct Ht as [res u' (Hn & _) | res u' _ Hn _ | side res u' _ _ Hen].
  - split; [by apply (sv_book [] u), no_rows_served | by apply no_rows_untouched].
  - split; [by apply (sv_book [] u), no_rows_served | by apply no_rows_untouched].
  - pose proof (en_auto _ _ _ _ _ _ _ _ _ _ Hen) as Ha.
    assert (Hsv : served [sr_subscription_id sub] u u') by (eapply entered_served; [done | done | by left | exact Hen]).
    split; [apply Hsv|]. eapply served_untouched; [|exact Hsv]. intros E. by rewrite (Hm sub Hs E) in Ha.
Qed.

Lemma exit_untouched i action_kind prov subs w r w' :
  book_inv w -> manual i subs ->
  fan_out_exit signal strategy action_kind signal_hash prov subs w = (r, w') -> untouched i w w'.
Proof.
  intros Hb Hm E. apply exit_runs in E as [(_ & ->) | (price & rs & -> & _ & Hrun)]; [done|].
  eapply run_untouched; [|exact Hb | exact Hrun]. intros sub u res u' Hs Hbu Ht.
  destruct Ht as [res u' (Hn & _) | res p u' Hmi _].
  - split; [by apply (sv_book [] u), no_rows_served | by apply no_rows_untouched].
  - pose proof (mi_auto _ _ _ _ _ _ _ _ _ _ Hmi) as Ha.
    assert (Hsv : served [sr_subscription_id sub] u u') by (eapply mirrored_served; [done | by left | exact Hmi]).
    split; [apply Hsv|]. eapply served_untouched; [|exact Hsv]. intros E. by rewrite (Hm sub Hs E) in Ha.
Qed.

Lemma resolved_refs strategy_id w subs w' :
  resolve_active_subscriptions strategy_id w = (Ok subs, w') ->
  w' = w /\ forall sub, In sub subs -> exists m, In m (pf_subscriptions (w_platform w)) /\ sub = ref_of m.
Proof.
  intros [= <- <-]. split; [done|]. intros sub Hin. apply in_concat in Hin as (l & Hl & Hin).
  apply in_map_iff in Hl as (m & <- & Hm). apply filter_In in Hm as [Hm _].
  apply in_map_iff in Hin as (li & <- & _). eauto.
Qed.
End Demoted.

Lemma after_walk_manual (F : MarketplaceSubscription -> bool) subs m m' :
  NoDup (map m_id subs) -> In m subs -> F m = true -> In m' (after_walk F subs) -> m_id m' = m_id m ->
  m_execution_mode m' = MANUAL_MODE.
Proof.
  intros Hnd Hm HF Hin E. apply in_map_iff in Hin as (x & <- & Hx).
  assert (x = m) as ->; [|by rewrite HF].
  apply (NoDup_map_inj m_id subs); auto. by destruct (F x).
Qed.

(** Once demoted, left alone.  After a pass that found subscription [m] short,
    mirroring any signal of any strategy to the subscriptions read from the
    database, entries and exits, with any position provider, changes no position
    row and adds no execution leg of [m]. *)
Theorem demoted_left_alone {B R P : Type} `{RedisLaws R} `{ProviderLaws P} settings fetch_broker_positions
    (w : world B R) r w' m (signal : StrategySignal) (strategy : Strategy) hash refs w'' :
  let answers := gather_broker_positions fetch_broker_positions PER_CALL_TIMEOUT TOTAL_BUDGET (map fst (pairs w))
                   MAX_CONCURRENCY in
  NoDup (map m_id (pf_subscriptions (w_platform w))) -> book_inv w -> 0 <= entry_lots strategy ->
  subscriber_drift_enabled settings = true ->
  run_subscriber_drift_pass settings fetch_broker_positions None None None w = (r, w') ->
  In m (pf_subscriptions (w_platform w)) -> short answers w m = true ->
  resolve_active_subscriptions (s_id strategy) w' = (Ok refs, w'') ->
  (forall master margin (prov : P) r1 w1,
     dispatch_subscriber_executions signal strategy hash master margin prov refs w'' = (r1, w1) ->
     untouched (m_id m) w'' w1)
  /\ (forall action_kind (prov : P) r1 w1,
     fan_out_exit signal strategy action_kind hash prov refs w'' = (r1, w1) -> untouched (m_id m) w'' w1).
Proof.
  intros answers Hnd Hb Hl Hen E Hm Hs Er.
  apply drift_pass_spec in E as (rep & -> & E); [|done]. rewrite Hen in E.
  destruct E as (new & _ & -> & _). apply resolved_refs in Er as [-> Hrefs].
  set (w' := with_subs _ new w) in *.
  assert (Hb' : book_inv w') by (apply (book_inv_ext w); [done | done | reflexivity]).
  assert (Hman : manual (m_id m) refs).
  { intros sub Hin Eid. destruct (Hrefs sub Hin) as (m' & Hm' & ->). simpl in *.
    rewrite (after_walk_manual _ _ m m' Hnd Hm Hs Hm' Eid). reflexivity. }
  split; intros; [by eapply dispatch_untouched | by eapply exit_untouched].
Qed.

(** ** A concrete subscriber

    Subscription 61 of user 161 copies strategy 2 with real money on AUTO and is
    recorded long 750; the broker reports one lot of 375. *)
Definition copied_subscription : MarketplaceSubscription :=
  {| m_id := 61; m_listing_id := 50; m_subscriber_id := 161; m_subscribed_at := 1; m_access_until := None;
     m_status := sub_active; m_lots_override := Some 2; m_execution_mode := "auto"; m_is_paper := false;
     m_direction_filter := "all"; m_broker_credential_id := Some 7 |}.

Definition copied_position : StrategyPosition :=
  sample_position <| p_id := 21 |> <| p_user_id := 161 |> <| p_subscription_id := Some 61 |>.

Definition own_credential : BrokerCredential :=
  {| c_id := 7; c_user_id := 161; c_broker_name := DHAN; c_client_id_enc := "c"; c_api_key_enc := "k";
     c_api_secret_enc := "s"; c_access_token_enc := Some "t"; c_refresh_token_enc := None; c_is_active := true;
     c_created_at := 10 |}.

Definition half_row : broker_row := {| row_symbol := Some (L "BSE-AUG2026-FUT"); row_quantity := QInt 375; row_exchange := NFO; row_product_type := MARGIN |}.

Definition copied_world : world ScriptedBroker store :=
  sample_world <| w_positions := [sample_position; copied_position] |>
    <| w_credentials := [sample_credential; own_credential] |>
    <| w_broker := sample_broker <| sb_session := true |> <| sb_positions := [half_row] |> |>
    <| w_platform ::= fun f => f <| pf_subscriptions := [copied_subscription] |>
                                 <| pf_listings := [{| li_id := 50; li_strategy_id := 2|}] |> |>.

Lemma copied_book : book_inv copied_world.
Proof.
  split; [repeat constructor; set_solver | by repeat constructor |].
  repeat (apply Forall_cons; split; [apply pos_invb_sound; vm_compute; reflexivity|]). constructor.
Qed.

Lemma fetch_own_account_only_witness :
  exists rows m' w',
    fetch [ref_of copied_subscription] true (∅ : gmap uuid (list broker_row)) 61 copied_world = (Ok (rows, m'), w')
    /\ rows = [half_row] /\ w_orders w' = w_orders copied_world /\ w_positions w' = w_positions copied_world.
Proof.
  destruct (fetch [ref_of copied_subscription] true (∅ : gmap uuid (list broker_row)) 61 copied_world) as [r w'] eqn:E.
  assert (Hr : exists m', r = Ok ([half_row], m')) by (vm_compute in E; injection E as <- _; by eexists).
  pose proof (fetch_own_account_only _ _ _ _ _ _ _ E) as [Hreads _].
  destruct Hr as [m' ->]. exists [half_row], m', w'. split; [done|]. split; [done|]. split; apply Hreads.
Defined.

Definition half_answer (id : uuid) : fetch_outcome (list broker_row) := if id =? 61 then Answers 300 [half_row] else Hangs.

Definition drift_run (w : world ScriptedBroker store) :=
  run_subscriber_drift_pass sample_settings half_answer None None None w.

Lemma drift_pass_demotes_exactly_witness :
  proven_short half_answer 2000 copied_world copied_subscription
  /\ m_execution_mode <$> pf_subscriptions (w_platform (snd (drift_run copied_world))) = ["offline"%string].
Proof.
  split; [|vm_compute; reflexivity].
  destruct (drift_pass_demotes_exactly sample_settings half_answer None None None copied_world
              (fst (drift_run copied_world)) (snd (drift_run copied_world))) as (rep & _ & new & _ & _ & _ & _ & _ & Hp).
  - apply NoDup_singleton.
  - apply surjective_pairing.
  - apply Hp. vm_compute. reflexivity.
Defined.

Lemma demoted_left_alone_witness :
  let w' := snd (drift_run copied_world) in
  untouched 61 w' (snd (dispatch_subscriber_executions sample_signal sample_strategy None lot_master paper_margin_provider
                          paper_provider [ref_of (demoted copied_subscription)] w')).
Proof.
  intros w'.
  destruct (demoted_left_alone (P := PaperPositionProvider) sample_settings half_answer copied_world
              (fst (drift_run copied_world)) w' copied_subscription sample_signal sample_strategy None
              [ref_of (demoted copied_subscription)] w') as [Hd _].
  - apply NoDup_singleton.
  - exact copied_book.
  - vm_compute. discriminate.
  - reflexivity.
  - apply surjective_pairing.
  - by left.
  - vm_compute. reflexivity.
  - vm_compute. reflexivity.
  - eapply (Hd lot_master paper_margin_provider paper_provider). apply surjective_pairing.
Defined.

(** The two resolutions part on a subscription that names another user's
    credential: the reader refuses, the fan-out takes the subscriber's own. *)
Example foreign_credential_parts :
  let sub := ref_of (copied_subscription <| m_broker_credential_id := Some 5 |>) in
  is_ok (fst (resolve_own_credential 161 (Some 5) copied_world)) = false
  /\ fst (resolve_subscriber_credential sub copied_world)
     = Ok {| cr_credential_id := Some 7; cr_source := "fallback"; cr_usable := true |}.
Proof. vm_compute. done. Qed.
