(* ===== verification/Reconcile.v ===== *)
(** * Reconciliation: the database against the broker

    - backend/app/workers/reconciliation_loop.py: one tick over the credentials
      that back live strategies, the comparison of the open rows with the broker's
      positions, and the alerts;
    - backend/app/services/broker_resting_stops.py: the broker-held stops read
      along the way and cached for display.

    Legs are compared as sets of (symbol, side, quantity) triples, as in the
    code.  The loop's in-process memory of its last alerts is part of the world
    ([pf_last_alert]); its monotonic clock is the world's clock.  The endless loop
    around [reconcile_once] and its sleep are not modelled. *)

From Stdlib Require Import ZArith Lia List Bool String.
From stdpp Require Import base list strings gmap sorting.
From S2P Require Import Prelude PyText SymbolMatch PyFloat PyDecimal PyNum Records Enums Models Safeguards Book DayState KillSwitch.

(** ** Broker-held stops *)

Definition RESTING_TTL_SECONDS : Z := 300.
Definition STOP_LEG : string := "STOP_LOSS_LEG".
Definition RESTING_STATUSES : list string := ["PENDING"; "ACTIVE"; "TRIGGERED"; "CONFIRMED"]%string.

Definition stops_key (user_id : uuid) : string := String.append "broker:resting_stops:" (z_str user_id).

Definition positive_decimal (value : json) : option dec :=
  d ← decimal_of_json value; if dltb dzero d then Some d else None.

(** One row: [Ok None] is [continue]. *)
Definition resting_stop (row : payload) : result exn (option (string * (dec * string * Z))) :=
  let symbol := str_upper (str_strip (str_or_empty (jget row "tradingSymbol"))) in
  if negb (String.eqb (str_upper (str_or_empty (jget row "legName"))) STOP_LEG) then Ok None
  else if negb (existsb (String.eqb (str_upper (str_or_empty (jget row "orderStatus")))) RESTING_STATUSES) then Ok None
  else if String.eqb symbol "" then Ok None
  else
    match positive_decimal (jget row "triggerPrice") with
    | None => Ok None
    | Some price =>
        match int_of_json (j_or (jget row "quantity") (JInt 0)) with
        | IntOverflow => Err OverflowError
        | IntOk q => Ok (Some (symbol, (price, str_or_empty (jget row "orderId"), q)))
        | IntValueError => Ok (Some (symbol, (price, str_or_empty (jget row "orderId"), 0)))
        end
    end.

(** Of several stops on one symbol the last one is kept; rows that are not
    objects, and an answer that is not a list, are dropped. *)
Fixpoint parse_rows (rows : list (option payload)) (out : gmap string (dec * string * Z))
  : result exn (gmap string (dec * string * Z)) :=
  match rows with
  | [] => Ok out
  | None :: rows' => parse_rows rows' out
  | Some row :: rows' =>
      kept ← resting_stop row;
      parse_rows rows' (match kept with Some (symbol, stop) => <[symbol := stop]> out | None => out end)
  end.

Definition parse_resting_stops (rows : option (list (option payload))) : result exn (gmap string (dec * string * Z)) :=
  match rows with None => Ok ∅ | Some rows => parse_rows rows ∅ end.

(** ** Legs *)

Definition LIVE_STATUSES : list pos_status := [st_open; st_partial].
Definition ALERT_REPEAT_SECONDS : Z := 6 * 60 * 60.

Definition norm_symbol (symbol : string) : string := str_upper (str_strip symbol).

Definition broker_of (cred : BrokerCredential) : string :=
  match c_broker_name cred with
  | FYERS => "fyers" | DHAN => "dhan" | SHOONYA => "shoonya"
  | ZERODHA => "zerodha" | UPSTOX => "upstox" | ANGELONE => "angelone"
  end.

(** Tuples of Python compare field by field, strings by code point. *)
Definition leg_leb (a b : leg) : bool :=
  let '(s1, d1, q1) := a in
  let '(s2, d2, q2) := b in
  match String.compare s1 s2 with
  | Lt => true
  | Gt => false
  | Eq => match String.compare d1 d2 with Lt => true | Gt => false | Eq => q1 <=? q2 end
  end.

Definition sorted_legs (s : gset leg) : list leg := merge_sort (fun a b => leg_leb a b) (elements s).

Definition live_strategy (s : Strategy) : bool := s_is_active s && bool_decide (is_paper s = Some false).

Definition on_live_strategy (strategies : list Strategy) (p : StrategyPosition) : bool :=
  existsb (fun s => (s_id s =? p_strategy_id p) && bool_decide (is_paper s = Some false)) strategies.

(** The rows the tick compares for [cred]: the user's open owner rows of live
    strategies whose credential row names the same broker. *)
Definition reconciled (cred : BrokerCredential) (strategies : list Strategy) (creds : list BrokerCredential)
    (p : StrategyPosition) : bool :=
  (p_user_id p =? c_user_id cred)
  && existsb (fun c => (c_id c =? p_broker_credential_id p) && bool_decide (c_broker_name c = c_broker_name cred)) creds
  && existsb (fun st => bool_decide (status p = st)) LIVE_STATUSES
  && on_live_strategy strategies p && owner_row p.

Definition db_leg (p : StrategyPosition) : leg := (norm_symbol (p_symbol p), str_lower (p_side p), remaining_quantity p).

(** [continue] for a closed leg; a malformed row raises. *)
Definition broker_leg (row : option broker_row) : result exn (option leg) :=
  match row with
  | None => Err AttributeError
  | Some r =>
      match row_quantity r, row_symbol r with
      | QInt q, Some symbol =>
          Ok (if q =? 0 then None
              else Some (norm_symbol (string_of_list_ascii symbol), if 0 <? q then "buy"%string else "sell"%string, Z.abs q))
      | QInt q, None => if q =? 0 then Ok None else Err AttributeError
      | _, _ => Err TypeError
      end
  end.

Definition leg_set (legs : list (option leg)) : gset leg := list_to_set (omap (fun l => l) legs).

Definition traded_symbols (cred : BrokerCredential) (strategies : list Strategy) (rows : list StrategyPosition) : gset string :=
  list_to_set (map (fun p => norm_symbol (p_symbol p))
    (List.filter (fun p => (p_user_id p =? c_user_id cred) && on_live_strategy strategies p && owner_row p) rows)).

(** ** Credentials *)

Definition add_credential (c : BrokerCredential) (creds : list BrokerCredential) : list BrokerCredential :=
  if existsb (fun c' => c_id c' =? c_id c) creds then creds else creds ++ [c].

(** The active credential a stale link stands for, as the executor resolves it. *)
Definition rotated (rows : list BrokerCredential) (user_id cid : uuid) : option BrokerCredential :=
  pointed ← find_credential rows cid;
  latest_by c_created_at
    (List.filter (fun c => (c_user_id c =? user_id) && bool_decide (c_broker_name c = c_broker_name pointed)
                           && c_is_active c) rows).

Definition follow_rotation (rows : list BrokerCredential) (creds : list BrokerCredential) (s : Strategy)
  : list BrokerCredential :=
  match s_broker_credential_id s with
  | None => creds
  | Some cid =>
      if existsb (fun c => c_id c =? cid) creds then creds
      else match rotated rows (s_user_id s) cid with
           | None => creds
           | Some fallback => add_credential fallback creds
           end
  end.

Definition direct_credentials (rows : list BrokerCredential) (live : list Strategy) : list BrokerCredential :=
  List.filter (fun c => c_is_active c
                        && existsb (fun s => bool_decide (s_broker_credential_id s = Some (c_id c))) live) rows.

(** ** The tick *)

Section Tick.
Context {B R : Type} `{BrokerInterface B} `{RedisStore R} `{Decryptor}.
Context (settings : Settings).

Definition refresh_for_user (k : BrokerCredentials) (user_id : uuid) : M B R Z :=
  match resting_orders with
  | None => mret 0
  | Some call =>
      outcome ← attempt (on_broker (call k));
      match outcome with
      | Err _ => mret 0
      | Ok rows =>
          stops ← from_result (parse_resting_stops rows);
          written ← attempt (cache_set_json (stops_key user_id) (CachedStops stops) RESTING_TTL_SECONDS);
          mret (match written with Ok _ => Z.of_nat (size stops) | Err _ => 0 end)
      end
  end.

Definition list_credentials_backing_live_strategies : M B R (list BrokerCredential) :=
  gets (fun w =>
    let live := List.filter live_strategy (w_strategies w) in
    foldl (follow_rotation (w_credentials w)) (direct_credentials (w_credentials w) live) live).

Definition reconcile_alert (level : AlertLevel) (event : string) (legs : list leg) : M B R unit :=
  send_alert {| a_level := level; a_event := event; a_symbol := ""; a_qty := 0; a_remaining := 0; a_price := None;
                a_pnl := None; a_legs := legs |}.

(** The confirmed late fills of flagged orders. *)
Fixpoint reverse_phantoms (legs : list leg) : M B R unit :=
  match legs with
  | [] => mret tt
  | (sym, side, qty) :: legs' =>
      flagged_order ← is_flagged sym;
      match flagged_order with
      | None => mret tt
      | Some _ => reconcile_alert CRITICAL "reverse_phantom_confirmed" [(sym, side, qty)] ;; clear_flag sym
      end ;;
      reverse_phantoms legs'
  end.

Definition should_speak (previous : option (gset leg * datetime)) (signature : gset leg) (now : datetime) : bool :=
  match previous with
  | None => true
  | Some (old, at_) => negb (bool_decide (old = signature)) || (ALERT_REPEAT_SECONDS <=? now - at_)
  end.

(** An alert on a changed signature, or once per repeat interval. *)
Definition speak (key : uuid * string) (signature : gset leg) (event : string) : M B R unit :=
  now ← gets w_now;
  previous ← gets (fun w => pf_last_alert (w_platform w) !! key);
  if should_speak previous signature now then
    on_platform (fun f => f <| pf_last_alert ::= <[key := (signature, now)]> |>) ;;
    reconcile_alert CRITICAL event (sorted_legs signature)
  else mret tt.

Definition speak_unless_empty (key : uuid * string) (signature : gset leg) (event : string) : M B R unit :=
  if bool_decide (signature = ∅) then mret tt else speak key signature event.

(** The broker's side of the comparison. *)
Definition broker_legs (cred : BrokerCredential) : M B R (gset leg) :=
  k ← from_result (build_broker_credentials cred (c_user_id cred));
  ensure_session k ;;
  broker_positions ← on_broker (get_positions k);
  _ ← attempt (refresh_for_user k (c_user_id cred));
  rows ← from_result (match broker_positions with Some rows => Ok rows | None => Err TypeError end);
  legs ← from_result (mapM broker_leg rows);
  mret (leg_set legs).

Definition db_legs (cred : BrokerCredential) : M B R (gset leg) :=
  gets (fun w => list_to_set (map db_leg (List.filter (reconciled cred (w_strategies w) (w_credentials w)) (w_positions w)))).

(** The alerts of a tick that found a difference. *)
Definition report_drift (cred : BrokerCredential) (db_only broker_only : gset leg) : M B R unit :=
  reverse_phantoms (sorted_legs broker_only) ;;
  speak_unless_empty (c_user_id cred, broker_of cred) db_only "stale_position_row" ;;
  traded ← gets (fun w => traded_symbols cred (w_strategies w) (w_positions w));
  let ours := filter (fun l : leg => l.1.1 ∈ traded) broker_only in
  let theirs := broker_only ∖ ours in
  speak_unless_empty (c_user_id cred, String.append (broker_of cred) ":broker_only") ours "untracked_position" ;;
  if negb (bool_decide (theirs = ∅)) && reconciliation_telegram_enabled settings
  then reconcile_alert WARNING "broker_only" (sorted_legs theirs)
  else mret tt.

Definition reconcile_credential (cred : BrokerCredential) : M B R Z :=
  db_set ← db_legs cred;
  broker_set ← broker_legs cred;
  let db_only := db_set ∖ broker_set in
  let broker_only := broker_set ∖ db_set in
  let mismatches := Z.of_nat (size db_only) + Z.of_nat (size broker_only) in
  if mismatches =? 0 then mret 0
  else report_drift cred db_only broker_only ;; mret mismatches.

Fixpoint reconcile_all (creds : list BrokerCredential) : M B R Z :=
  match creds with
  | [] => mret 0
  | cred :: creds' =>
      outcome ← attempt (reconcile_credential cred);
      rest ← reconcile_all creds';
      mret (match outcome with Ok n => n | Err _ => 0 end + rest)
  end.

Definition reconcile_once : M B R Z :=
  creds ← list_credentials_backing_live_strategies;
  reconcile_all creds.
End Tick.
