(* ===== verification/ReconcileSafety.v ===== *)
(** * Reconciliation: the guarantees

    Over [Reconcile.v]: a tick only observes, it watches the account the executor
    trades on, it is silent exactly when rows and broker agree, and a standing
    difference is announced at a bounded cadence. *)

From Stdlib Require Import ZArith Lia List Bool String.
From stdpp Require Import base list strings gmap sorting relations.
From S2P Require Import Prelude PyText SymbolMatch PyFloat PyDecimal PyNum Records Enums Models Safeguards Book Samples.
From S2P Require Import StrategyExecutor DayState KillSwitch Reconcile.

#[local] Arguments broker_leg : simpl never.

(** ** What a tick may touch *)

(** The calls a tick may make on account [k]. *)
Definition watch_call {B : Type} `{BrokerInterface B} (k : BrokerCredentials) (b b' : B) : Prop :=
  (exists r, is_session_valid k b = (r, b')) \/ (exists r, login k b = (r, b'))
  \/ (exists r, get_positions k b = (r, b'))
  \/ (exists call r, resting_orders = Some call /\ call k b = (r, b')).

Section Observe.
Context {B R : Type} `{BrokerInterface B} `{RedisLaws R} `{Decryptor}.
Context (settings : Settings).
Implicit Types (w : world B R) (ok : BrokerCredentials -> Prop).

Record observed ok (w w' : world B R) : Prop := {
  ob_positions : w_positions w' = w_positions w;
  ob_executions : w_executions w' = w_executions w;
  ob_credentials : w_credentials w' = w_credentials w;
  ob_strategies : w_strategies w' = w_strategies w;
  ob_orders : w_orders w' = w_orders w;
  ob_now : w_now w' = w_now w;
  ob_next : w_next_id w' = w_next_id w;
  ob_platform : exists cache memory,
    w_platform w' = w_platform w <| pf_cache := cache |> <| pf_last_alert := memory |>;
  ob_redis : forall k t, redis_get k t (w_redis w') = redis_get k t (w_redis w)
               \/ (redis_get k t (w_redis w') = None /\ exists s, k = ambiguous_key s);
  ob_alerts : exists new, w_alerts w' = w_alerts w ++ new;
  ob_broker : rtc (fun b b' => exists k, ok k /\ watch_call k b b') (w_broker w) (w_broker w')
}.

#[global] Instance observed_preorder ok : PreOrder (observed ok).
Proof.
  split.
  - intros w. split; auto; try done; [|exists []; by rewrite List.app_nil_r].
    exists (pf_cache (w_platform w)), (pf_last_alert (w_platform w)). by destruct w as [????[]??????].
  - intros u v w [] []. split; try congruence.
    + destruct ob_platform0 as (c1 & m1 & E1), ob_platform1 as (c2 & m2 & E2). exists c2, m2. by rewrite E2, E1.
    + intros k t. destruct (ob_redis1 k t) as [->|?]; [apply ob_redis0 | by right].
    + destruct ob_alerts0 as (n1 & E1), ob_alerts1 as (n2 & E2). exists (n1 ++ n2). by rewrite E2, E1, List.app_assoc.
    + by transitivity (w_broker v).
Qed.

Ltac observe_step := intros w r w' [= <- <-]; split; simpl; eauto; try done.

Lemma alert_observed ok level event legs : preserves (observed ok) (@reconcile_alert B R level event legs).
Proof. observe_step. exists (pf_cache (w_platform w)), (pf_last_alert (w_platform w)). by destruct w as [????[]??????]. Qed.

Lemma on_platform_observed ok f :
  (forall p, exists cache memory, f p = p <| pf_cache := cache |> <| pf_last_alert := memory |>) ->
  preserves (observed ok) (@on_platform B R f).
Proof. intros Hf. observe_step. exists []. by rewrite List.app_nil_r. Qed.

Lemma clear_flag_observed ok s : preserves (observed ok) (@clear_flag B R _ s).
Proof.
  observe_step.
  - exists (pf_cache (w_platform w)), (pf_last_alert (w_platform w)). by destruct w as [????[]??????].
  - intros k t. rewrite redis_get_delete. case_decide as E; [right | left]; eauto.
  - exists []. by rewrite List.app_nil_r.
Qed.

Lemma on_account_observed ok k {A : Type} (f : B -> result exn A * B) :
  ok k -> (forall b r b', f b = (r, b') -> watch_call k b b') -> preserves (observed ok) (@on_broker B R A f).
Proof.
  intros Hk Hf w r w'. unfold on_broker. destruct (f (w_broker w)) as [x b'] eqn:E. intros [= <- <-].
  split; simpl; auto.
  - exists (pf_cache (w_platform w)), (pf_last_alert (w_platform w)). by destruct w as [????[]??????].
  - exists []. by rewrite List.app_nil_r.
  - apply rtc_once. exists k. eauto.
Qed.

Lemma attempt_observed ok {A : Type} (m : M B R A) : preserves (observed ok) m -> preserves (observed ok) (attempt m).
Proof. intros Hm w r w'. unfold attempt. destruct (m w) as [x w1] eqn:E. intros [= <- <-]. by eapply Hm. Qed.

Lemma phantoms_observed ok legs : preserves (observed ok) (@reverse_phantoms B R _ legs).
Proof.
  induction legs as [|[[sym side] q] legs IH]; [apply preserves_ret, _|].
  apply preserves_bind; [apply _ | apply preserves_gets, _ | intros flagged].
  apply preserves_bind; [apply _ | | intros _; exact IH].
  destruct flagged; [|apply preserves_ret, _].
  apply preserves_bind; [apply _ | apply alert_observed | intros _; apply clear_flag_observed].
Qed.

Lemma speak_observed ok key sig event : preserves (observed ok) (@speak_unless_empty B R key sig event).
Proof.
  unfold speak_unless_empty. case_bool_decide; [apply preserves_ret, _|].
  apply preserves_bind; [apply _ | apply preserves_gets, _ | intros now].
  apply preserves_bind; [apply _ | apply preserves_gets, _ | intros previous].
  destruct (should_speak _ _ _); [|apply preserves_ret, _].
  apply preserves_bind; [apply _ | | intros _; apply alert_observed].
  apply on_platform_observed. intros p.
  exists (pf_cache p), (<[key := (sig, now)]> (pf_last_alert p)). by destruct p.
Qed.

Lemma refresh_observed ok k u : ok k -> preserves (observed ok) (@refresh_for_user B R _ k u).
Proof.
  intros Hk. unfold refresh_for_user. destruct resting_orders as [call|] eqn:Ec; [|apply preserves_ret, _].
  apply preserves_bind; [apply _ | | intros [rows|e]; [|apply preserves_ret, _]].
  { apply attempt_observed, (on_account_observed ok k); [done|]. intros b r b' E. do 3 right. eauto. }
  apply preserves_bind; [apply _ | apply preserves_from_result, _ | intros stops].
  apply preserves_bind; [apply _ | | intros; apply preserves_ret, _].
  apply attempt_observed.
  apply preserves_bind; [apply _ | apply preserves_raise_when, _ | intros _].
  apply preserves_bind; [apply _ | apply preserves_gets, _ | intros now].
  apply on_platform_observed. intros p.
  exists ((stops_key u, (CachedStops stops, Some (now + RESTING_TTL_SECONDS))) :: pf_cache p), (pf_last_alert p).
  by destruct p.
Qed.

Lemma report_observed ok cred d b : preserves (observed ok) (@report_drift B R _ settings cred d b).
Proof.
  apply preserves_bind; [apply _ | apply phantoms_observed | intros _].
  apply preserves_bind; [apply _ | apply speak_observed | intros _].
  apply preserves_bind; [apply _ | apply preserves_gets, _ | intros traded].
  apply preserves_bind; [apply _ | apply speak_observed | intros _].
  destruct (_ && _); [apply alert_observed | apply preserves_ret, _].
Qed.

(** The account of [cred]. *)
Definition account_of (cred : BrokerCredential) (k : BrokerCredentials) : Prop :=
  build_broker_credentials cred (c_user_id cred) = Ok k.

Lemma session_observed ok k : ok k -> preserves (observed ok) (@ensure_session B R _ k).
Proof.
  intros Hk. apply preserves_bind; [apply _ | | intros []; [apply preserves_ret, _|]];
    apply (on_account_observed ok k); try done; intros b r b' E; unfold watch_call; eauto.
Qed.

(** The broker's side: what was asked and what came back. *)
Lemma broker_legs_spec cred w r w' :
  broker_legs cred w = (r, w') ->
  observed (account_of cred) w w'
  /\ match r with
     | Ok s => exists k b b' rows legs, account_of cred k /\ get_positions k b = (Ok (Some rows), b')
                 /\ mapM broker_leg rows = Ok legs /\ s = leg_set legs
     | Err _ => True
     end.
Proof.
  intros E. apply bind_cases in E as [(k & w1 & E1 & E) | (e & -> & E1)]; apply from_result_spec in E1 as [-> E1]; [|by split].
  assert (Hk : account_of cred k) by (by symmetry).
  apply bind_cases in E as [([] & w2 & E2 & E) | (e & -> & E2)];
    apply (session_observed (account_of cred) k Hk) in E2; [|by split].
  apply bind_cases in E as [(ps & w3 & E3 & E) | (e & -> & E3)];
    pose proof (on_account_observed (account_of cred) k _ Hk (fun b r b' Eq => or_intror (or_intror (or_introl (ex_intro _ r Eq)))) _ _ _ E3) as H3;
    [|split; [by transitivity w2 | done]].
  unfold on_broker in E3. destruct (get_positions k (w_broker w2)) as [rp b'] eqn:Ep. injection E3 as -> Ew3.
  apply bind_cases in E as [(x & w4 & E4 & E) | (e & -> & E4)];
    apply (attempt_observed (account_of cred) _ (refresh_observed (account_of cred) k _ Hk)) in E4;
    (assert (H4 : observed (account_of cred) w w4) || assert (H4 : observed (account_of cred) w w'));
    try (transitivity w3; [by transitivity w2 | done]); [|by split].
  apply bind_cases in E as [(rows & w5 & E5 & E) | (e & -> & E5)]; apply from_result_spec in E5 as [-> E5]; [|by split].
  apply bind_cases in E as [(legs & w6 & E6 & E) | (e & -> & E6)]; apply from_result_spec in E6 as [-> E6]; [|by split].
  injection E as <- <-. split; [done|]. destruct ps as [rows'|]; [|done]. injection E5 as ->.
  exists k, (w_broker w2), b', rows', legs. done.
Qed.

Definition db_set (cred : BrokerCredential) (w : world B R) : gset leg :=
  list_to_set (map db_leg (List.filter (reconciled cred (w_strategies w) (w_credentials w)) (w_positions w))).

(** One credential: the answer, the count, and what followed. *)
Lemma reconcile_credential_spec cred w r w' :
  reconcile_credential settings cred w = (r, w') ->
  observed (account_of cred) w w'
  /\ match r with
     | Ok n => exists k b b' rows legs w1, account_of cred k /\ get_positions k b = (Ok (Some rows), b')
         /\ mapM broker_leg rows = Ok legs /\ observed (account_of cred) w w1
         /\ let d := db_set cred w in
            let s := leg_set legs in
            n = Z.of_nat (size (d ∖ s)) + Z.of_nat (size (s ∖ d))
            /\ if n =? 0 then w' = w1 else report_drift settings cred (d ∖ s) (s ∖ d) w1 = (Ok tt, w')
     | Err _ => True
     end.
Proof.
  intros E. apply bind_cases in E as [(d & w0 & E0 & E) | (e & -> & [=])]. injection E0 as <- <-. fold (db_set cred w) in E.
  apply bind_cases in E as [(s & w1 & E1 & E) | (e & -> & E1)]; apply broker_legs_spec in E1 as [Hw1 Hs]; [|by split].
  destruct Hs as (k & b & b' & rows & legs & Hk & Ep & Em & ->).
  cbv zeta in E. set (n := Z.of_nat (size (db_set cred w ∖ leg_set legs)) + Z.of_nat (size (leg_set legs ∖ db_set cred w))) in *.
  destruct (n =? 0) eqn:En.
  - injection E as <- <-. split; [done|]. exists k, b, b', rows, legs, w1. apply Z.eqb_eq in En.
    by split_and!.
  - apply bind_cases in E as [([] & w2 & E2 & E) | (e & -> & E2)];
      pose proof (report_observed (account_of cred) _ _ _ _ _ _ E2) as Hw2; [|split; [by transitivity w1 | done]].
    injection E as <- <-. split; [by transitivity w1|]. exists k, b, b', rows, legs, w1.
    split_and!; try done. by rewrite En.
Qed.
End Observe.

(** ** The credentials watched *)

(** The credential the executor would load for the strategy. *)
Definition executor_credential (rows : list BrokerCredential) (s : Strategy) : option BrokerCredential :=
  cid ← s_broker_credential_id s;
  match find (fun c => (c_id c =? cid) && (c_user_id c =? s_user_id s) && c_is_active c) rows with
  | Some c => Some c
  | None => rotated rows (s_user_id s) cid
  end.

Lemma executor_credential_loads {B R : Type} s cid (w : world B R) c :
  s_broker_credential_id s = Some cid ->
  executor_credential (w_credentials w) s = Some c <-> load_credential cid (s_user_id s) w = (Ok c, w).
Proof.
  intros E. unfold executor_credential, load_credential, rotated, find_credential. rewrite E. cbv [mbind M_bind gets option_bind].
  destruct (find (fun c => (c_id c =? cid) && _ && _) (w_credentials w)) as [c'|].
  - split; [intros [= ->] | intros [= ->]]; done.
  - destruct (find (fun c => c_id c =? cid) (w_credentials w)) as [p|]; [|by split].
    destruct (latest_by _ _) as [c'|]; [|by split]. split; [intros [= ->] | intros [= ->]]; done.
Qed.

Section Watched.
Context (rows : list BrokerCredential).
Context (Hids : NoDup (map c_id rows)).

(** The strategy's credential, if it is still there, is its user's. *)
Definition links_own (s : Strategy) : Prop :=
  forall cid c, s_broker_credential_id s = Some cid -> In c rows -> c_id c = cid -> c_user_id c = s_user_id s.

Definition watchable (creds : list BrokerCredential) : Prop := forall c, In c creds -> In c rows /\ c_is_active c = true.

(** Every strategy of [l] linked to an active row has it in [creds]. *)
Definition direct_done (creds : list BrokerCredential) (l : list Strategy) : Prop :=
  forall s cid c, In s l -> s_broker_credential_id s = Some cid -> In c rows -> c_id c = cid -> c_is_active c = true -> In c creds.

Lemma rotated_in u cid c : rotated rows u cid = Some c -> In c rows /\ c_is_active c = true.
Proof.
  unfold rotated. intros E. apply bind_Some in E as (p & _ & E). apply latest_by_in, filter_In in E as [Hin Hb].
  rewrite !andb_true_iff in Hb. split; [done | apply Hb].
Qed.

Lemma add_credential_in creds c x :
  watchable creds -> In c rows -> In x (add_credential c creds) <-> In x creds \/ x = c.
Proof.
  intros Hw Hc. unfold add_credential. destruct (existsb _ creds) eqn:E.
  - apply existsb_exists in E as (c' & Hc' & E). apply Z.eqb_eq in E.
    assert (c' = c) as -> by (apply (NoDup_map_inj c_id rows); auto; by apply Hw). split; [auto|]. by intros [?| ->].
  - rewrite in_app_iff. simpl. intuition.
Qed.

Lemma follow_step creds s :
  watchable creds -> direct_done creds [s] -> links_own s ->
  forall x, In x (follow_rotation rows creds s) <-> In x creds \/ executor_credential rows s = Some x.
Proof.
  intros Hw Hd Hl x. unfold follow_rotation, executor_credential.
  destruct (s_broker_credential_id s) as [cid|] eqn:Es; cbn; [|by intuition].
  destruct (find _ rows) as [c|] eqn:Ef.
  - apply find_some in Ef as [Hin Hb]. rewrite !andb_true_iff, !Z.eqb_eq in Hb. destruct Hb as [[Hid _] Ha].
    assert (Hc : In c creds) by (eapply Hd; eauto; by left).
    replace (existsb (fun c0 => c_id c0 =? cid) creds) with true.
    + split; [auto|]. intros [?|[= <-]]; done.
    + symmetry. apply existsb_exists. exists c. split; [done|]. by apply Z.eqb_eq.
  - replace (existsb (fun c0 => c_id c0 =? cid) creds) with false.
    + destruct (rotated rows (s_user_id s) cid) as [c|] eqn:Er; [|by intuition].
      rewrite add_credential_in; [| done | by eapply rotated_in]. intuition congruence.
    + symmetry. apply not_true_is_false. intros Ex. apply existsb_exists in Ex as (c & Hc & Hid). apply Z.eqb_eq in Hid.
      destruct (Hw c Hc) as [Hr Ha]. apply (find_none _ _ Ef) in Hr as Hno.
      by rewrite (Hl cid c Es Hr Hid), Hid, !Z.eqb_refl, Ha in Hno.
Qed.

Lemma follow_all l creds :
  watchable creds -> direct_done creds l -> (forall s, In s l -> links_own s) ->
  forall x, In x (foldl (follow_rotation rows) creds l) <-> In x creds \/ exists s, In s l /\ executor_credential rows s = Some x.
Proof.
  revert creds. induction l as [|s l IH]; intros creds Hw Hd Hl x; simpl.
  { split; [auto|]. by intros [?|(? & [] & _)]. }
  assert (Hstep := follow_step creds s Hw).
  rewrite IH.
  - rewrite Hstep; [|intros s' cid c [<-|[]]; apply Hd; by left | apply Hl; by left].
    split; [intros [[?|?]|(s' & ? & ?)] | intros [?|(s' & [<-|?] & ?)]]; eauto.
  - intros c Hc. apply Hstep in Hc as [Hc|Hc]; [by apply Hw | |..].
    + unfold executor_credential in Hc. apply bind_Some in Hc as (cid & _ & Hc).
      destruct (find _ rows) as [c'|] eqn:Ef; [|by eapply rotated_in]. injection Hc as ->.
      apply find_some in Ef as [? Hb]. rewrite !andb_true_iff in Hb. split; [done | apply Hb].
    + intros s' cid c' [<-|[]]. apply Hd. by left.
    + apply Hl. by left.
  - intros s' cid c Hs' Es Hin Hid Ha. apply Hstep; [intros s0 cid0 c0 [<-|[]]; apply Hd; by left | apply Hl; by left|].
    left. eapply Hd; eauto. by right.
  - intros s' Hs'. apply Hl. by right.
Qed.

Lemma direct_credentials_ok live :
  watchable (direct_credentials rows live) /\ direct_done (direct_credentials rows live) live.
Proof.
  split.
  - intros c Hc. apply filter_In in Hc as [? Hb]. by apply andb_prop in Hb as [? _].
  - intros s cid c Hs Es Hin Hid Ha. apply filter_In. split; [done|]. rewrite Ha. simpl. apply existsb_exists.
    exists s. split; [done|]. apply bool_decide_eq_true_2. congruence.
Qed.

Lemma direct_is_executor live c :
  (forall s, In s live -> links_own s) -> In c (direct_credentials rows live) ->
  exists s, In s live /\ executor_credential rows s = Some c.
Proof.
  intros Hl Hc. apply filter_In in Hc as [Hin Hb]. apply andb_prop in Hb as [Ha Hb]. apply existsb_exists in Hb as (s & Hs & E).
  apply bool_decide_eq_true_1 in E. exists s. split; [done|]. unfold executor_credential. rewrite E. cbn.
  destruct (find _ rows) as [c'|] eqn:Ef.
  - apply find_some in Ef as [Hin' Hb]. rewrite !andb_true_iff, !Z.eqb_eq in Hb. f_equal.
    apply (NoDup_map_inj c_id rows); auto. by destruct Hb as [[-> _] _].
  - apply (find_none _ _ Ef) in Hin as Hno. by rewrite (Hl s Hs (c_id c) c E Hin eq_refl), !Z.eqb_refl, Ha in Hno.
Qed.
End Watched.

Lemma no_difference (d s : gset leg) : Z.of_nat (size (d ∖ s)) + Z.of_nat (size (s ∖ d)) = 0 <-> d = s.
Proof.
  split.
  - intros E. assert (E1 : size (d ∖ s) = 0%nat) by lia. assert (E2 : size (s ∖ d) = 0%nat) by lia.
    apply size_empty_inv in E1, E2. apply set_eq. intros l.
    specialize (E1 l). specialize (E2 l). rewrite elem_of_difference, elem_of_empty in E1, E2.
    destruct (decide (l ∈ d)), (decide (l ∈ s)); tauto.
  - intros ->. rewrite difference_diag_L, size_empty. done.
Qed.


Section Claims.
Context {B R : Type} `{BrokerInterface B} `{RedisLaws R} `{Decryptor}.
Context (settings : Settings).
Implicit Types (w : world B R).

Lemma observed_mono (ok ok' : BrokerCredentials -> Prop) w w' :
  (forall k, ok k -> ok' k) -> observed ok w w' -> observed ok' w w'.
Proof.
  intros Hk []. split; auto. eapply rtc_subrel; [|exact ob_broker0]. intros b b' (k & ? & ?). eauto.
Qed.

Lemma reconcile_all_observed creds ok w r w' :
  (forall cred k, In cred creds -> account_of cred k -> ok k) ->
  reconcile_all settings creds w = (r, w') -> (exists n, r = Ok n /\ 0 <= n) /\ observed ok w w'.
Proof.
  revert w r w'. induction creds as [|cred creds IH]; intros w r w' Hok E; [injection E as <- <-; split; [|done]; by exists 0|].
  cbn [reconcile_all] in E. unfold attempt in E. cbv [mbind M_bind] in E.
  destruct (reconcile_credential settings cred w) as [r1 w1] eqn:E1. apply reconcile_credential_spec in E1 as [Hw1 Hn].
  apply (observed_mono _ ok) in Hw1; [|intros k; apply Hok; by left].
  destruct (reconcile_all settings creds w1) as [r2 w2] eqn:E2.
  apply IH in E2 as [(n2 & -> & Hn2) Hw2]; [|intros c k Hc; apply Hok; by right].
  injection E as <- <-. split; [|by transitivity w1]. eexists. split; [reflexivity|].
  destruct r1 as [n1|]; [|lia]. destruct Hn as (? & ? & ? & ? & ? & ? & _ & _ & _ & _ & -> & _). lia.
Qed.

(** A tick leaves the rows alone, whatever the tables hold. *)
Lemma reconcile_once_rows w r w' :
  reconcile_once settings w = (r, w') -> w_positions w' = w_positions w /\ w_next_id w' = w_next_id w.
Proof.
  intros E. apply bind_cases in E as [(creds & w0 & E0 & E) | (e & -> & [=])]. injection E0 as <- <-.
  apply (reconcile_all_observed _ (fun _ => True)) in E as [_ Hob]; [|done]. split; apply Hob.
Qed.

(** A reconciliation tick only observes and always completes.  Whatever the
    brokers do, it returns a count and changes no position, execution, credential
    or strategy, sends no order and moves no clock; of Redis it can only clear
    ambiguous-fill markers; of the platform state only the display cache and the
    memory of its own alerts; and it makes only session checks, logins and reads,
    on accounts of active credentials that back a live strategy. *)
Theorem reconcile_observes_only w r w' :
  NoDup (map c_id (w_credentials w)) -> (forall s, In s (w_strategies w) -> links_own (w_credentials w) s) ->
  reconcile_once settings w = (r, w') ->
  (exists n, r = Ok n /\ 0 <= n)
  /\ observed (fun k => exists s cred, In s (w_strategies w) /\ live_strategy s = true
                  /\ executor_credential (w_credentials w) s = Some cred /\ account_of cred k) w w'.
Proof.
  intros Hids Hown E. unfold reconcile_once in E.
  apply bind_cases in E as [(creds & w0 & E0 & E) | (e & -> & [=])]. injection E0 as <- <-.
  eapply reconcile_all_observed; [|exact E]. intros cred k Hc Hk.
  assert (Hl : forall s, In s (List.filter live_strategy (w_strategies w)) -> links_own (w_credentials w) s).
  { intros s Hs. apply filter_In in Hs as [? _]. by apply Hown. }
  destruct (direct_credentials_ok (w_credentials w) (List.filter live_strategy (w_strategies w))) as [Hw Hd].
  apply (follow_all _ Hids _ _ Hw Hd Hl) in Hc as [Hc|(s & Hs & Hc)].
  - apply (direct_is_executor _ Hids _ _ Hl) in Hc as (s & Hs & Hc). apply filter_In in Hs as [? ?]. by exists s, cred.
  - apply filter_In in Hs as [? ?]. by exists s, cred.
Qed.


(** ** Silence *)

(** The broker row says what the stored row says. *)
Definition same_leg (row : broker_row) (p : StrategyPosition) : Prop :=
  broker_leg (Some row) = Ok (Some (db_leg p)).

(** The open quantity with its sign. *)
Definition signed_leg (l : leg) : Z := if String.eqb l.1.2 "buy" then l.2 else - l.2.

Lemma mapM_broker_leg rows legs :
  mapM broker_leg rows = Ok legs ->
  exists rs, rows = map Some rs /\ Forall2 (fun r l => broker_leg (Some r) = Ok l) rs legs.
Proof.
  revert legs. induction rows as [|r rows IH]; intros legs E.
  - injection E as <-. by exists [].
  - simpl in E. apply res_bind_ok in E as (l & El & E). apply res_bind_ok in E as (ls & Els & [= <-]).
    destruct (IH ls Els) as (rs & -> & Hrs). destruct r as [r|]; [|done]. exists (r :: rs). split; [done|]. by constructor.
Qed.

Lemma Forall2_In_leg (P : broker_row -> option leg -> Prop) rs legs r :
  Forall2 P rs legs -> In r rs -> exists l, In l legs /\ P r l.
Proof. induction 1 as [|r' l rs legs Hr _ IH]; [done|]. intros [<- | Hin]; [|destruct (IH Hin) as (l' & ? & ?)]; simpl; eauto. Qed.

Lemma broker_legs_fun rs legs legs' :
  Forall2 (fun r l => broker_leg (Some r) = Ok l) rs legs ->
  Forall2 (fun r l => broker_leg (Some r) = Ok l) rs legs' -> legs' = legs.
Proof.
  intros Hl. revert legs'. induction Hl as [|r l rs legs Hr _ IH]; intros legs' Hl'; inversion Hl'; subst; [done|].
  f_equal; [congruence | by apply IH].
Qed.

Lemma broker_leg_none row : broker_leg (Some row) = Ok None -> row_quantity row = QInt 0.
Proof.
  unfold broker_leg. destruct (row_quantity row) as [q| |]; try done.
  destruct (Z.eqb_spec q 0) as [->|]; [done|]. by destruct (row_symbol row).
Qed.

Lemma leg_set_elem rs legs l :
  Forall2 (fun r l => broker_leg (Some r) = Ok l) rs legs ->
  l ∈ leg_set legs <-> exists r, In r rs /\ broker_leg (Some r) = Ok (Some l).
Proof.
  unfold leg_set. rewrite elem_of_list_to_set. induction 1 as [|r o rs legs Hr _ IH]; simpl.
  - rewrite list_elem_of_In. simpl. naive_solver.
  - destruct o as [l'|]; rewrite ?elem_of_cons, IH; split.
    + intros [-> | (r' & ? & ?)]; eauto.
    + intros (r' & [<- | ?] & E); [left | right; eauto]. rewrite Hr in E. by injection E.
    + intros (r' & ? & ?). eauto.
    + intros (r' & [<- | ?] & E); [|eauto]. by rewrite Hr in E.
Qed.

Lemma db_set_elem cred w l :
  l ∈ db_set cred w <->
  exists p, In p (w_positions w) /\ reconciled cred (w_strategies w) (w_credentials w) p = true /\ db_leg p = l.
Proof.
  unfold db_set. rewrite elem_of_list_to_set, list_elem_of_In, in_map_iff. split.
  - intros (p & <- & Hp). apply filter_In in Hp as [? ?]. eauto.
  - intros (p & ? & ? & <-). exists p. split; [done|]. by apply filter_In.
Qed.

(** What a silent tick means.  A tick of a credential that returns, having
    read the account's positions, counts no difference exactly when every open
    live owner row of that user and broker is held at the broker with its symbol
    (up to case and blanks), side and quantity, and every open broker row is so
    recorded.  When moreover no two rows and no two broker rows are the same leg,
    silence means that the signed open quantities per contract agree. *)
Theorem silent_tick_means_agreement cred w n w' :
  reconcile_credential settings cred w = (Ok n, w') ->
  let mine := List.filter (reconciled cred (w_strategies w) (w_credentials w)) (w_positions w) in
  exists k b b' rows, account_of cred k /\ get_positions k b = (Ok (Some (map Some rows)), b')
    /\ (n = 0 <-> (forall p, In p mine -> exists row, In row rows /\ same_leg row p)
                  /\ (forall row, In row rows -> row_quantity row <> QInt 0 -> exists p, In p mine /\ same_leg row p))
    /\ (forall legs, Forall2 (fun r l => broker_leg (Some r) = Ok l) rows legs ->
          NoDup (map db_leg mine) -> NoDup (omap (fun l => l) legs) -> n = 0 ->
          forall symbol, sum_by (fun l => if String.eqb l.1.1 symbol then signed_leg l else 0) (map db_leg mine)
                         = sum_by (fun l => if String.eqb l.1.1 symbol then signed_leg l else 0) (omap (fun l => l) legs)).
Proof.
  intros E mine. apply reconcile_credential_spec in E as (_ & k & b & b' & orows & legs & w1 & Hk & Ep & Em & _ & Hn & _).
  apply mapM_broker_leg in Em as (rows & -> & Hrows). exists k, b, b', rows. split; [done|]. split; [done|].
  assert (Hz : n = 0 <-> db_set cred w = leg_set legs) by (rewrite Hn; apply no_difference).
  split.
  - rewrite Hz. split.
    + intros Eq. split.
      * intros p Hp. apply filter_In in Hp as [Hp Hr]. apply (leg_set_elem rows legs); [done|]. rewrite <- Eq.
        apply db_set_elem. eauto.
      * intros row Hin Hq. destruct (Forall2_In_leg _ _ _ _ Hrows Hin) as (o & Ho & El).
        destruct o as [l|]; [|by apply broker_leg_none in El].
        assert (Hl : l ∈ db_set cred w) by (rewrite Eq; apply (leg_set_elem rows legs); eauto).
        apply db_set_elem in Hl as (p & Hp & Hr & <-). exists p. split; [by apply filter_In | done].
    + intros [Hd Hs]. apply set_eq. intros l. rewrite db_set_elem, (leg_set_elem rows legs) by done. split.
      * intros (p & Hp & Hr & <-). apply Hd. by apply filter_In.
      * intros (row & Hin & El). destruct (Hs row Hin) as (p & Hp & Hl).
        { intros Eq. unfold broker_leg in El. rewrite Eq in El. by destruct (row_symbol row). }
        apply filter_In in Hp as [? ?]. exists p. split; [done|]. split; [done|].
        unfold same_leg in Hl. rewrite El in Hl. by injection Hl.
  - intros legs' Hlegs' Hnd1 Hnd2 Hn0 symbol. apply sum_by_perm.
    assert (legs' = legs) as -> by (eapply broker_legs_fun; eauto).
    apply NoDup_Permutation; [done..|]. intros l. apply Hz in Hn0.
    assert (Hl : l ∈ db_set cred w <-> l ∈ leg_set legs) by (by rewrite Hn0).
    unfold db_set, leg_set in Hl. by rewrite !elem_of_list_to_set in Hl.
Qed.
End Claims.
