(* ===== verification/ReconcileAlerts.v ===== *)
(** * Reconciliation alerts: cadence and examples

    A stale row is a standing condition: over any number of ticks that find the
    same stale rows, alerts are at least the repeat interval apart, and at every
    tick the last one is more recent than that.  The abstract clock of reminders
    and the simulation by the ticks; then concrete ticks. *)

From Stdlib Require Import ZArith Lia List Bool String.
From stdpp Require Import base list strings gmap sorting relations.
From S2P Require Import Prelude PyText SymbolMatch PyFloat PyDecimal PyNum Records Enums Models Safeguards Book Samples.
From S2P Require Import StrategyExecutor DayState KillSwitch Reconcile ReconcileSafety.

(** ** Reminders, abstractly *)

(** When to speak, given the time of the last reminder. *)
Definition due (last : option datetime) (t : datetime) : bool :=
  match last with None => true | Some t0 => ALERT_REPEAT_SECONDS <=? t - t0 end.

Fixpoint reminders (last : option datetime) (ts : list datetime) : list (datetime * bool) :=
  match ts with
  | [] => []
  | t :: ts' => (t, due last t) :: reminders (if due last t then Some t else last) ts'
  end.

(** The times are nondecreasing from [t0]. *)
Fixpoint from (t0 : datetime) (ts : list datetime) : Prop :=
  match ts with [] => True | t :: ts' => t0 <= t /\ from t ts' end.

Lemma from_le t0 t1 ts : t1 <= t0 -> from t0 ts -> from t1 ts.
Proof. destruct ts; simpl; [done|]. intros ? [? ?]. split; [lia | done]. Qed.

(** A reminder comes the repeat interval after the last one, at the earliest. *)
Lemma reminders_after t0 ts i u :
  reminders (Some t0) ts !! i = Some (u, true) -> from t0 ts -> ALERT_REPEAT_SECONDS <= u - t0.
Proof.
  revert t0 i. induction ts as [|t ts IH]; intros t0 i Hi Hts; [done|]. destruct Hts as [Ht Hts].
  destruct i as [|i]; cbn in Hi.
  - injection Hi as -> Hd. by apply Z.leb_le in Hd.
  - destruct (ALERT_REPEAT_SECONDS <=? t - t0) eqn:Ed.
    + specialize (IH t i Hi Hts). lia.
    + apply (IH t0 i Hi). by eapply from_le.
Qed.

Lemma reminders_spaced last t0 ts i j t u :
  reminders last ts !! i = Some (t, true) -> reminders last ts !! j = Some (u, true) -> (i < j)%nat -> from t0 ts ->
  ALERT_REPEAT_SECONDS <= u - t.
Proof.
  revert last t0 i j. induction ts as [|t1 ts IH]; intros last t0 i j Hi Hj Hij Hts; [done|]. destruct Hts as [Ht Hts].
  destruct j as [|j]; [lia|]. cbn in Hj. destruct i as [|i]; cbn in Hi.
  - injection Hi as -> Hd. rewrite Hd in Hj. by eapply reminders_after.
  - eapply IH; eauto. lia.
Qed.

(** At every time the last reminder, made now or earlier, is recent. *)
Lemma reminders_recent last ts i t b :
  reminders last ts !! i = Some (t, b) ->
  (exists j u, (j <= i)%nat /\ reminders last ts !! j = Some (u, true) /\ t - u < ALERT_REPEAT_SECONDS)
  \/ (exists u, last = Some u /\ t - u < ALERT_REPEAT_SECONDS).
Proof.
  revert last i. induction ts as [|t1 ts IH]; intros last i Hi; [done|]. destruct i as [|i]; cbn in Hi.
  - injection Hi as -> Hb. destruct (due last t) eqn:Ed.
    + left. exists 0%nat, t. cbn. rewrite Ed. split; [lia|]. split; [done|]. rewrite Z.sub_diag. reflexivity.
    + right. destruct last as [u|]; [|done]. exists u. simpl in Ed. apply Z.leb_gt in Ed. done.
  - apply IH in Hi as [(j & u & ? & ? & ?) | (u & E & ?)].
    + left. exists (S j), u. cbn. split; [lia|]. done.
    + destruct (due last t1) eqn:Ed; [|right; eauto]. injection E as <-. left. exists 0%nat, t1. cbn. rewrite Ed.
      split; [lia|]. done.
Qed.

(** ** A tick as a reminder *)

Definition stale_alerts (l : list alert) : list alert := List.filter (fun a => String.eqb (a_event a) "stale_position_row") l.

Section Cadence.
Context {B R : Type} `{BrokerInterface B} `{RedisLaws R} `{Decryptor}.
Context (settings : Settings) (cred : BrokerCredential).
Implicit Types (w : world B R) (X : gset leg).

Definition stale_key : uuid * string := (c_user_id cred, broker_of cred).
Definition remembered (w : world B R) : option (gset leg * datetime) := pf_last_alert (w_platform w) !! stale_key.

(** Nothing was said about stale rows. *)
Definition mute (w w' : world B R) : Prop :=
  w_now w' = w_now w /\ remembered w' = remembered w /\ stale_alerts (w_alerts w') = stale_alerts (w_alerts w).

#[local] Instance mute_preorder : PreOrder mute.
Proof. split; [done|]. intros u v w (? & ? & ?) (? & ? & ?). split_and!; congruence. Qed.

Lemma alert_mute level event legs :
  event <> "stale_position_row"%string -> preserves mute (@reconcile_alert B R level event legs).
Proof.
  intros Hne w r w' [= <- <-]. split; [done|]. split; [done|]. simpl. unfold stale_alerts. rewrite List.filter_app.
  simpl. rewrite (proj2 (String.eqb_neq _ _) Hne). apply List.app_nil_r.
Qed.

Lemma phantoms_mute legs : preserves mute (@reverse_phantoms B R _ legs).
Proof.
  induction legs as [|[[sym side] q] legs IH]; [apply preserves_ret, _|].
  apply preserves_bind; [apply _ | apply preserves_gets, _ | intros flagged].
  apply preserves_bind; [apply _ | | intros _; exact IH].
  destruct flagged; [|apply preserves_ret, _].
  apply preserves_bind; [apply _ | by apply alert_mute | intros _]. by intros w r w' [= <- <-].
Qed.

Lemma on_broker_mute {A : Type} (f : B -> result exn A * B) : preserves mute (@on_broker B R A f).
Proof. intros w r w'. unfold on_broker. destruct (f (w_broker w)). by intros [= <- <-]. Qed.

Lemma attempt_mute {A : Type} (m : M B R A) : preserves mute m -> preserves mute (attempt m).
Proof. intros Hm w r w'. unfold attempt. destruct (m w) as [x w1] eqn:E. intros [= <- <-]. by eapply Hm. Qed.

Lemma broker_legs_mute : preserves mute (@broker_legs B R _ _ cred).
Proof.
  apply preserves_bind; [apply _ | apply preserves_from_result, _ | intros k].
  apply preserves_bind; [apply _ | | intros _].
  { apply preserves_bind; [apply _ | apply on_broker_mute | intros []; [apply preserves_ret, _ | apply on_broker_mute]]. }
  apply preserves_bind; [apply _ | apply on_broker_mute | intros ps].
  apply preserves_bind; [apply _ | apply attempt_mute | intros _].
  { unfold refresh_for_user. destruct resting_orders as [call|]; [|apply preserves_ret, _].
    apply preserves_bind; [apply _ | apply attempt_mute, on_broker_mute | intros [rows|e]; [|apply preserves_ret, _]].
    apply preserves_bind; [apply _ | apply preserves_from_result, _ | intros stops].
    apply preserves_bind; [apply _ | apply attempt_mute | intros; apply preserves_ret, _].
    apply preserves_bind; [apply _ | apply preserves_raise_when, _ | intros _].
    apply preserves_bind; [apply _ | apply preserves_gets, _ | intros now]. by intros w r w' [= <- <-]. }
  apply preserves_bind; [apply _ | apply preserves_from_result, _ | intros rows].
  apply preserves_bind; [apply _ | apply preserves_from_result, _ | intros legs]. apply preserves_ret, _.
Qed.

Lemma other_key : stale_key <> (c_user_id cred, String.append (broker_of cred) ":broker_only").
Proof. unfold stale_key, broker_of. destruct (c_broker_name cred); intros [=]. Qed.

Lemma untracked_mute sig :
  preserves mute (@speak_unless_empty B R (c_user_id cred, String.append (broker_of cred) ":broker_only") sig "untracked_position").
Proof.
  unfold speak_unless_empty. case_bool_decide; [apply preserves_ret, _|].
  apply preserves_bind; [apply _ | apply preserves_gets, _ | intros now].
  apply preserves_bind; [apply _ | apply preserves_gets, _ | intros previous].
  destruct (should_speak _ _ _); [|apply preserves_ret, _].
  apply preserves_bind; [apply _ | | intros _; by apply alert_mute].
  intros w r w' [= <- <-]. split; [done|]. split; [|done]. unfold remembered. simpl.
  rewrite lookup_insert_ne; [done|]. apply not_eq_sym, other_key.
Qed.

(** The last time these very rows were announced. *)
Definition announced X (memory : option (gset leg * datetime)) : option datetime :=
  match memory with Some (Y, t) => if bool_decide (Y = X) then Some t else None | None => None end.

Definition stale_alert X : alert :=
  {| a_level := CRITICAL; a_event := "stale_position_row"; a_symbol := ""; a_qty := 0; a_remaining := 0; a_price := None;
     a_pnl := None; a_legs := sorted_legs X |}.

(** The reminder of one tick: the memory and the alerts afterwards. *)
Definition reminded X (w w' : world B R) : Prop :=
  let s := due (announced X (remembered w)) (w_now w) in
  w_now w' = w_now w
  /\ announced X (remembered w') = (if s then Some (w_now w) else announced X (remembered w))
  /\ stale_alerts (w_alerts w') = stale_alerts (w_alerts w) ++ (if s then [stale_alert X] else []).

Lemma should_speak_due previous X now : should_speak previous X now = due (announced X previous) now.
Proof. destruct previous as [[Y t]|]; [|done]. simpl. by case_bool_decide. Qed.

Lemma stale_speak X w r w' :
  X <> ∅ -> speak_unless_empty stale_key X "stale_position_row" w = (r, w') -> r = Ok tt /\ reminded X w w'.
Proof.
  intros HX. unfold speak_unless_empty. rewrite bool_decide_eq_false_2 by done.
  unfold speak. cbv [mbind M_bind gets]. rewrite should_speak_due. fold (remembered w). unfold reminded.
  destruct (due _ _) eqn:Ed; intros E; injection E as <- <-; (split; [done|]).
  - split; [done|]. split.
    + unfold remembered. simpl. rewrite lookup_insert_eq. simpl. by rewrite bool_decide_eq_true_2.
    + simpl. unfold stale_alerts. by rewrite List.filter_app.
  - by rewrite List.app_nil_r.
Qed.

Lemma reminded_mute X w0 w1 w2 w3 : mute w0 w1 -> reminded X w1 w2 -> mute w2 w3 -> reminded X w0 w3.
Proof.
  intros (Hn & Hr & Ha) (Hn' & Hr' & Ha') (Hn'' & Hr'' & Ha''). unfold reminded in *. rewrite Hr, Hn, Ha in *.
  rewrite Hr'', Ha'', Hn''. done.
Qed.

(** A tick of the credential in which exactly the rows [X] were stale. *)
Definition stale_tick X (w w' : world B R) : Prop :=
  exists s w1 n, broker_legs cred w = (Ok s, w1) /\ db_set cred w ∖ s = X /\ reconcile_credential settings cred w = (Ok n, w').

Lemma tick_reminds X w w' : X <> ∅ -> stale_tick X w w' -> reminded X w w'.
Proof.
  intros HX (s & w1 & n & Eb & Ed & E). unfold reconcile_credential in E.
  apply bind_cases in E as [(d & w0 & E0 & E) | (e & [=] & _)]. injection E0 as <- <-. fold (db_set cred w) in E.
  apply bind_cases in E as [(s' & w1' & Eb' & E) | (e & [=] & _)]. rewrite Eb in Eb'. injection Eb' as <- <-.
  cbv zeta in E. rewrite Ed in E. apply broker_legs_mute in Eb.
  destruct (_ =? 0) eqn:En.
  { exfalso. apply Z.eqb_eq in En. apply HX. apply leibniz_equiv, size_empty_inv. lia. }
  apply bind_cases in E as [([] & w2 & E2 & E) | (e & [=] & _)]. injection E as _ <-. unfold report_drift in E2.
  apply bind_cases in E2 as [([] & w3 & E3 & E2) | (e & [=] & _)]. apply phantoms_mute in E3.
  apply bind_cases in E2 as [([] & w4 & E4 & E2) | (e & [=] & _)]. apply stale_speak in E4 as [_ E4]; [|done].
  eapply reminded_mute; [by transitivity w1 | exact E4|].
  apply bind_cases in E2 as [(traded & w5 & E5 & E2) | (e & [=] & _)]. injection E5 as _ <-.
  apply bind_cases in E2 as [([] & w6 & E6 & E2) | (e & [=] & _)]. apply untracked_mute in E6. transitivity w6; [done|].
  destruct (_ && _); [by eapply alert_mute in E2 | by injection E2 as <-].
Qed.

(** Ticks that find the same stale rows, with anything in between that leaves the
    loop's memory of them alone; the trace keeps the time and what was said. *)
Definition said (w w' : world B R) : list alert :=
  drop (length (stale_alerts (w_alerts w))) (stale_alerts (w_alerts w')).

Inductive standing X : world B R -> list (datetime * list alert) -> world B R -> Prop :=
| standing_nil w : standing X w [] w
| standing_tick w w0 w1 tr w2 :
    w_now w <= w_now w0 -> remembered w0 = remembered w -> stale_tick X w0 w1 -> standing X w1 tr w2 ->
    standing X w ((w_now w0, said w0 w1) :: tr) w2.

Definition speech X (e : datetime * bool) : datetime * list alert := (e.1, if e.2 then [stale_alert X] else []).

Lemma standing_reminders X w tr w' :
  X <> ∅ -> standing X w tr w' ->
  tr = map (speech X) (reminders (announced X (remembered w)) (map fst tr)) /\ from (w_now w) (map fst tr).
Proof.
  intros HX Hrun. induction Hrun as [w | w w0 w1 tr w2 Ht Hr Htick _ IH]; [done|].
  apply tick_reminds in Htick as (Hn & Hm & Ha); [|done]. destruct IH as [IH Hfrom]. rewrite Hr in Hm, Ha.
  simpl. split; [|split; [done | by rewrite <- Hn]]. f_equal.
  - unfold speech, said. rewrite Ha, drop_app_length. simpl. by destruct (due _ _).
  - by rewrite IH at 1; rewrite Hm.
Qed.

(** A standing stale row is announced, and not too often.  Over any ticks of a
    credential that find exactly the same rows stale, whatever else happens in
    between: a tick says nothing or sends one CRITICAL alert that lists exactly
    those rows; two such alerts are at least six hours apart; and at every tick
    an alert of less than six hours ago exists, in the run or remembered from
    before it. *)
Theorem standing_drift_cadence X w tr w' :
  X <> ∅ -> standing X w tr w' ->
  (forall i t l, tr !! i = Some (t, l) -> l = [] \/ l = [stale_alert X])
  /\ (forall i j t u l l', tr !! i = Some (t, l) -> tr !! j = Some (u, l') -> (i < j)%nat -> l <> [] -> l' <> [] ->
        6 * 3600 <= u - t)
  /\ (forall i t l, tr !! i = Some (t, l) ->
        (exists j u, (j <= i)%nat /\ tr !! j = Some (u, [stale_alert X]) /\ t - u < 6 * 3600)
        \/ (exists u, remembered w = Some (X, u) /\ t - u < 6 * 3600)).
Proof.
  intros HX Hrun. destruct (standing_reminders X w tr w' HX Hrun) as [Etr Hfrom].
  remember (map fst tr) as ts eqn:Ets. clear Ets. subst tr. change (6 * 3600) with ALERT_REPEAT_SECONDS.
  assert (Hat : forall i t l, map (speech X) (reminders (announced X (remembered w)) ts) !! i = Some (t, l) ->
    exists b : bool, reminders (announced X (remembered w)) ts !! i = Some (t, b) /\ l = (if b then [stale_alert X] else [])).
  { intros i t l E. apply list_lookup_fmap_Some in E as ([t' b] & E' & E). injection E' as -> ->. eauto. }
  split; [|split].
  - intros i t l E. apply Hat in E as ([|] & _ & ->); auto.
  - intros i j t u l l' Ei Ej Hij Hl Hl'. apply Hat in Ei as ([|] & Ei & ->); [|done]. apply Hat in Ej as ([|] & Ej & ->); [|done].
    by eapply reminders_spaced.
  - intros i t l E. apply Hat in E as (b & E & _). apply reminders_recent in E as [(j & u & ? & E & ?) | (u & E & ?)].
    + left. exists j, u. split; [done|]. split; [|done]. apply list_lookup_fmap_Some. by exists (u, true).
    + right. exists u. split; [|done]. unfold announced in E. destruct (remembered w) as [[Y v]|]; [|done].
      case_bool_decide as EY; [|done]. injection E as ->. by rewrite EY.
Qed.
End Cadence.

(** ** Concrete ticks *)

(** Strategy 2 of user 1, long 750, with the broker holding [rows]. *)
Definition held_world (rows : list broker_row) (now : datetime) : world ScriptedBroker store :=
  sample_world <| w_broker := sample_broker <| sb_positions := rows |> |> <| w_now := now |>.

Definition held_row (symbol : string) (q : Z) : broker_row := {| row_symbol := Some (L symbol); row_quantity := QInt q; row_exchange := NFO; row_product_type := MARGIN |}.

Lemma sample_links : forall s, In s (w_strategies sample_world) -> links_own (w_credentials sample_world) s.
Proof. intros s [<- | []] cid c E [<- | []] _. reflexivity. Qed.

Lemma reconcile_observes_only_witness :
  let w' := snd (reconcile_once sample_settings (held_world [] 100)) in
  w_orders w' = [] /\ w_positions w' = [sample_position] /\ map a_legs (w_alerts w') = [[("BSE-AUG2026-FUT"%string, "buy"%string, 750)]].
Proof.
  intros w'.
  destruct (reconcile_observes_only sample_settings (held_world [] 100) (fst (reconcile_once sample_settings (held_world [] 100))) w')
    as [_ Hob].
  - apply NoDup_singleton.
  - exact sample_links.
  - apply surjective_pairing.
  - split; [apply Hob|]. split; [apply Hob | vm_compute; reflexivity].
Defined.

(** The link still points at the credential deactivated by last night's rotation. *)
Definition rotated_credential : BrokerCredential :=
  {| c_id := 7; c_user_id := 1; c_broker_name := DHAN; c_client_id_enc := "c"; c_api_key_enc := "k";
     c_api_secret_enc := "s"; c_access_token_enc := Some "t2"; c_refresh_token_enc := None; c_is_active := true;
     c_created_at := 20 |}.

Definition old_credential : BrokerCredential :=
  {| c_id := 5; c_user_id := 1; c_broker_name := DHAN; c_client_id_enc := "c"; c_api_key_enc := "k";
     c_api_secret_enc := "s"; c_access_token_enc := Some "t"; c_refresh_token_enc := None; c_is_active := false;
     c_created_at := 10 |}.

Definition rotated_world : world ScriptedBroker store :=
  sample_world <| w_credentials := [old_credential; rotated_credential] |>.


Definition agreed_world : world ScriptedBroker store := held_world [held_row "bse-Aug2026-FUT " 750] 100.

Example agreed_up_to_case :
  fst (reconcile_credential sample_settings sample_credential agreed_world) = Ok 0.
Proof. vm_compute. reflexivity. Qed.

Lemma silent_tick_means_agreement_witness :
  exists rows row, In row rows /\ same_leg row sample_position.
Proof.
  destruct (silent_tick_means_agreement sample_settings sample_credential agreed_world 0
              (snd (reconcile_credential sample_settings sample_credential agreed_world)))
    as (k & b & b' & rows & _ & _ & [Hz _] & _).
  - rewrite <- agreed_up_to_case. apply surjective_pairing.
  - destruct (Hz eq_refl) as [Hd _]. destruct (Hd sample_position) as (row & ? & ?); [by left|]. eauto.
Defined.

(** Two ticks a minute apart on a stale row: one alert. *)
Definition stale_legs : gset leg := {[("BSE-AUG2026-FUT"%string, "buy"%string, 750)]}.

Definition tick (w : world ScriptedBroker store) : world ScriptedBroker store :=
  snd (reconcile_credential sample_settings sample_credential w).

Definition minute_later (w : world ScriptedBroker store) : world ScriptedBroker store := w <| w_now := w_now w + 60 |>.

Definition first_tick := tick (held_world [] 100).
Definition second_tick := tick (minute_later first_tick).

Definition stale_trace : list (datetime * list alert) :=
  [(100, said (held_world [] 100) first_tick); (160, said (minute_later first_tick) second_tick)].

Example one_alert : stale_trace = [(100, [stale_alert stale_legs]); (160, [])].
Proof. vm_compute. reflexivity. Qed.

Definition flat_and_stale (w : world ScriptedBroker store) : bool :=
  match fst (broker_legs sample_credential w) with Ok s => bool_decide (s = ∅) | Err _ => false end
  && bool_decide (db_set sample_credential w = stale_legs)
  && is_ok (fst (reconcile_credential sample_settings sample_credential w)).

Lemma stale_at w : flat_and_stale w = true -> stale_tick sample_settings sample_credential stale_legs w (tick w).
Proof.
  unfold flat_and_stale, tick. rewrite !andb_true_iff. intros [[Hb Hd] Hok]. apply bool_decide_eq_true_1 in Hd.
  destruct (broker_legs sample_credential w) as [[s|e] w1] eqn:Eb; [|done]. apply bool_decide_eq_true_1 in Hb.
  simpl in Hb. subst s. destruct (reconcile_credential sample_settings sample_credential w) as [[n|e] w'] eqn:E; [|done].
  exists ∅, w1, n. split; [done|]. split; [by rewrite Hd, difference_empty_L | done].
Qed.

Lemma stale_ticks :
  standing sample_settings sample_credential stale_legs (held_world [] 100) stale_trace second_tick.
Proof.
  apply (standing_tick _ _ _ (held_world [] 100) (held_world [] 100) first_tick); [done | done | |].
  { apply stale_at; vm_compute; reflexivity. }
  apply (standing_tick _ _ _ first_tick (minute_later first_tick) second_tick); [vm_compute; discriminate | reflexivity | |].
  { apply stale_at; vm_compute; reflexivity. }
  apply standing_nil.
Qed.

Lemma standing_drift_cadence_witness :
  exists tr w', standing sample_settings sample_credential stale_legs (held_world [] 100) tr w'
    /\ forall i t l, tr !! i = Some (t, l) -> l = [] \/ l = [stale_alert stale_legs].
Proof.
  exists stale_trace, second_tick. split; [exact stale_ticks|].
  apply (standing_drift_cadence sample_settings sample_credential stale_legs (held_world [] 100) stale_trace second_tick); [|exact stale_ticks].
  apply non_empty_singleton_L.
Defined.

(** ** Limits of the comparison *)

(** Two strategies, each recorded long 375 of one contract, are one leg of the
    set: with the broker holding only one of the two lots the tick is silent. *)
Definition second_strategy : Strategy :=
  {| s_id := 3; s_user_id := 1; s_broker_credential_id := Some 5; entry_lots := 4; partial_profit_lots := 1;
     partial_profit_target_pct := None; trail_offset_pct := None; hard_sl_pct := None;
     ai_validation_enabled := false; exit_strategy_type := "internal"; strategy_json := None; is_paper := Some false;
     s_is_active := true; s_webhook_token_id := None; allowed_symbols := [] |}.

Definition one_lot (id strategy_id : uuid) : StrategyPosition :=
  sample_position <| p_id := id |> <| p_strategy_id := strategy_id |> <| total_quantity := 375 |> <| remaining_quantity := 375 |>.

Definition twin_world : world ScriptedBroker store :=
  held_world [held_row "BSE-AUG2026-FUT" 375] 100 <| w_positions := [one_lot 20 2; one_lot 21 3] |>
    <| w_strategies := [sample_strategy; second_strategy] |>.

Example missing_twin_unseen :
  fst (reconcile_credential sample_settings sample_credential twin_world) = Ok 0
  /\ sum_by remaining_quantity (w_positions twin_world) = 750.
Proof. vm_compute. done. Qed.

(** The ambiguous-fill watch is keyed by symbol alone: another user's untracked
    position on the contract is reported as the late fill of the flagged order,
    and the watch is gone. *)
Definition flagged_world : world ScriptedBroker store :=
  snd (flag_ambiguous_fill "order-of-user-9" "BSE-AUG2026-FUT" BUY 750 "entry"
         (held_world [held_row "BSE-AUG2026-FUT" 400] 100 <| w_positions := [] |>)).

Example phantom_of_another_user :
  existsb (fun a => String.eqb (a_event a) "reverse_phantom_confirmed") (w_alerts (tick flagged_world)) = true
  /\ fst (is_flagged "BSE-AUG2026-FUT" (tick flagged_world)) = Ok None.
Proof. vm_compute. done. Qed.

(** A difference that went away and came back within six hours is not announced
    again: the memory is not cleared by the ticks that found agreement. *)
Definition resolved (w : world ScriptedBroker store) : world ScriptedBroker store :=
  minute_later w <| w_broker := sample_broker <| sb_positions := [held_row "BSE-AUG2026-FUT" 750] |> |>.

Definition back_again (w : world ScriptedBroker store) : world ScriptedBroker store :=
  minute_later w <| w_broker := sample_broker |>.

Example recurrence_unannounced :
  let w1 := tick (held_world [] 100) in
  let w2 := tick (resolved w1) in
  let w3 := tick (back_again w2) in
  map (fun w => length (stale_alerts (w_alerts w))) [w1; w2; w3] = [1; 1; 1]%nat
  /\ fst (reconcile_credential sample_settings sample_credential (back_again w2)) = Ok 1.
Proof. vm_compute. done. Qed.

(** ** Two accounts of one user at one broker *)

(** The positions of each account, by client id. *)
Record TwoAccounts : Type := { first_account : list broker_row; second_account : list broker_row }.

#[export] Instance two_accounts : BrokerInterface TwoAccounts := {
  is_session_valid _ b := (Ok true, b);
  login _ b := (Ok tt, b);
  validate_symbol _ _ _ b := (Ok tt, b);
  get_lot_size := None;
  get_funds _ b := (Ok dzero, b);
  place_order _ _ b := (Err RuntimeError, b);
  confirm_fill _ _ _ b := (Err RuntimeError, b);
  get_quote_ltp _ _ _ b := (Err RuntimeError, b);
  get_positions k b := (Ok (Some (map Some (if String.eqb (k_client_id k) "c" then first_account b else second_account b))), b);
  broker_normalize_symbol _ s _ := Ok s;
  resting_orders := None
}.

Definition account (id : uuid) (client : string) : BrokerCredential :=
  {| c_id := id; c_user_id := 1; c_broker_name := DHAN; c_client_id_enc := client; c_api_key_enc := "k";
     c_api_secret_enc := "s"; c_access_token_enc := Some "t"; c_refresh_token_enc := None; c_is_active := true;
     c_created_at := 10 |}.

Definition other_strategy : Strategy :=
  {| s_id := 3; s_user_id := 1; s_broker_credential_id := Some 6; entry_lots := 4; partial_profit_lots := 1;
     partial_profit_target_pct := None; trail_offset_pct := None; hard_sl_pct := None;
     ai_validation_enabled := false; exit_strategy_type := "internal"; strategy_json := None; is_paper := Some false;
     s_is_active := true; s_webhook_token_id := None; allowed_symbols := [] |}.

(** Each account holds exactly what is recorded for it. *)
Definition two_world (now : datetime) (memory : gmap (uuid * string) (gset leg * datetime)) : world TwoAccounts store :=
  {| w_positions := [one_lot 20 2; one_lot 21 3 <| p_broker_credential_id := 6 |> <| p_symbol := "CDSL-AUG2026-FUT" |>];
     w_executions := []; w_credentials := [account 5 "c"; account 6 "d"]; w_strategies := [sample_strategy; other_strategy];
     w_platform := empty_platform <| pf_last_alert := memory |>; w_redis := []; w_alerts := [];
     w_broker := {| first_account := [held_row "BSE-AUG2026-FUT" 375]; second_account := [held_row "CDSL-AUG2026-FUT" 375] |};
     w_orders := []; w_now := now; w_next_id := 1000 |}.

Definition full_tick (w : world TwoAccounts store) : world TwoAccounts store := snd (reconcile_once sample_settings w).

(** Rows are scoped by user and broker, not by account, and the memory has one
    entry for both accounts: every tick calls both rows stale, and every tick
    announces them again. *)
Example two_accounts_alarm_every_tick :
  let w1 := full_tick (two_world 100 ∅) in
  let w2 := full_tick (two_world 160 (pf_last_alert (w_platform w1))) in
  map (fun w => length (stale_alerts (w_alerts w))) [w1; w2] = [2; 2]%nat.
Proof. vm_compute. done. Qed.
