(* ===== verification/Lifecycle.v ===== *)
(** * The whole bridge: reachable states and the ledger refinement

    The services composed the way the program runs them, as one step relation on
    worlds: entries (strategy_executor), passes of the position loop
    (position_manager), Pine-driven exits with their mirrors (direct_exit), mirrored
    entries (marketplace_fanout), drift passes (subscriber_drift_pass), reconciliation ticks
    (reconciliation_loop), TradingView alerts (the legacy and the strategy webhook), the
    worker's tasks (signal_execution, with the paper-only option and cash executors
    switched off, as shipped), expiry sweeps, forced closes, kill-switch trips and kills of all three tiers, and changes of configuration, of Redis and of the clock by others,
    in any order and with any outcome.  Every reachable state satisfies the
    book invariant, and every run refines the abstract ledger of [Ledger.v]. *)

From Stdlib Require Import ZArith Lia List Bool String.
From stdpp Require Import base list strings gmap relations.
From S2P Require Import Prelude PyText PyFloat PyDecimal PyNum Records Enums Models Safeguards Book Ledger Samples.
From S2P Require Import PositionManager StrategyExecutor DirectExit.
From S2P Require Import DayState KillSwitch KillSafety KillGate BrokerBatch Fanout FanoutSafety Mirroring MirroredExit.
From S2P Require Import Subscribers DriftSafety Reconcile ReconcileSafety OrderService Webhook WebhookGate StrategyWebhook StrategyGate.
From S2P Require Import ScripMaster FuturesResolver AiValidator PineMapper AnomalyShield TradeDna OptionOrder PaperExecutors SignalTask SignalSafety ExpirySweeps.

Section Lifecycle.
Context {B R : Type} `{BrokerInterface B} `{RedisLaws R} `{Decryptor}.
Context (settings : Settings).
Implicit Types (w : world B R).

(** One event of the running system.  An event may end in an exception: what it
    changed before stays. *)
Inductive bridge_step : world B R -> world B R -> Prop :=
| step_entry signal strategy rec w r w' :
    str_upper (g_symbol signal) = g_symbol signal ->
    place_strategy_orders settings signal strategy rec w = (r, w') -> bridge_step w w'
| step_loop uniform bias provider w r w' :
    manage_open_positions settings uniform bias provider w = (r, w') -> bridge_step w w'
| step_direct_exit action_kind signal strategy w r w' :
    direct_exit_and_mirror settings action_kind signal strategy w = (r, w') -> bridge_step w w'
| step_mirror_entry signal strategy signal_hash master margin subs w r w' :
    0 <= entry_lots strategy ->
    dispatch_subscriber_executions signal strategy signal_hash master margin paper_provider subs w = (r, w') ->
    bridge_step w w'
| step_drift_pass fetch_broker_positions per_call_timeout concurrency total_budget w r w' :
    run_subscriber_drift_pass settings fetch_broker_positions per_call_timeout concurrency total_budget w = (r, w') ->
    bridge_step w w'
| step_reconcile w r w' :
    reconcile_once settings w = (r, w') -> bridge_step w w'
| step_force_close p reason ltp w r w' :
    In p (w_positions w) -> reason <> "partial_target"%string ->
    close_position_now p reason ltp w = (r, w') -> bridge_step w w'
| step_trip u force w r w' :
    check_and_trigger settings u force w = (r, w') -> bridge_step w w'
| step_kill_subscriber id w r w' :
    credential_keys w -> kill_subscriber settings id w = (r, w') -> bridge_step w w'
| step_kill_strategy id w r w' :
    credential_keys w -> kill_strategy settings id w = (r, w') -> bridge_step w w'
| step_emergency w r w' :
    credential_keys w -> execute_master_emergency settings w = (r, w') -> bridge_step w w'
| step_webhook sha256_hex hmac_hex decode request w r w' :
    receive_webhook settings sha256_hex hmac_hex decode request w = (r, w') -> bridge_step w w'
| step_strategy_webhook `{Coercion} sha256_hex hmac_hex json_loads json_dumps scrip_cache scrip_load check_margin request w r w' :
    Forall (fun s => 0 <= entry_lots s) (w_strategies w) ->
    receive_strategy_signal settings sha256_hex hmac_hex json_loads json_dumps scrip_cache scrip_load check_margin request w = (r, w') ->
    bridge_step w w'
| step_signal_task `{Coercion} scrip_cache sid kind w r w' :
    cash_execution_enabled settings = false -> options_execution_enabled settings = false ->
    Forall (fun g => str_upper (g_symbol g) = g_symbol g) (pf_signals (w_platform w)) ->
    execute_signal_async settings scrip_cache sid kind w = (r, w') -> bridge_step w w'
| step_backstop master daily_bars holidays w r w' :
    sweep_expiry_backstop settings master daily_bars holidays w = (r, w') -> bridge_step w w'
| step_options_sweep master w r w' :
    sweep_expired_options settings master w = (r, w') -> bridge_step w w'
| step_outside w w' :
    w_positions w' = w_positions w -> w_next_id w <= w_next_id w' -> bridge_step w w'.

(** The state invariant of the system. *)
Definition well_formed (w : world B R) : Prop := book_inv w /\ one_open (w_positions w).

(** The concrete event preserves the invariant and is a run of the ledger. *)
Definition refines (w w' : world B R) : Prop :=
  well_formed w' /\ rtc ledger_step (exposure (w_positions w)) (exposure (w_positions w')).

Lemma same_rows_refines w w' :
  well_formed w -> w_positions w' = w_positions w -> w_next_id w <= w_next_id w' -> refines w w'.
Proof. intros [Hbook Hone] Hp Hn. split; rewrite ?Hp; [split; [by apply (book_inv_ext w) | by rewrite Hp] | done]. Qed.

Lemma tracked_refines signal strategy cid side resp w w' pid :
  book_inv w -> 0 < fr_filled_qty resp -> tracked signal strategy cid side resp w w' pid ->
  rtc ledger_step (exposure (w_positions w)) (exposure (w_positions w')).
Proof.
  intros Hbook Hpos [p p' Hin Hm Hs Hput | p' _ Ho Hid Happ]; apply rtc_once.
  - pose proof (book_rows _ Hbook) as Hall. rewrite List.Forall_forall in Hall.
    assert (Hop : 0 < remaining_quantity p).
    { apply (is_open_inv p (Hall p Hin)). unfold matches_entry in Hm. by bool_to_prop. }
    rewrite Hput, (exposure_put _ p), (sm_remaining _ _ _ Hs);
      [| apply Hbook | done | by rewrite (same_id _ _ (sm_row _ _ _ Hs))].
    apply ledger_grow; [apply exposure_lookup; [apply Hbook | done] | done | done].
  - assert (Hfresh : ~ In (p_id p') (map p_id (w_positions w))).
    { intros Hin. apply in_map_iff in Hin as (q & Eq & Hq). pose proof (book_fresh _ Hbook) as Hfr.
      rewrite List.Forall_forall in Hfr. specialize (Hfr q Hq). simpl in Hfr. lia. }
    rewrite Happ, exposure_snoc by done. destruct (op_quantity _ _ _ _ _ _ Ho) as [_ ->].
    apply ledger_open; [by apply exposure_absent | done].
Qed.

Lemma entry_refines signal strategy rec w r w' :
  well_formed w -> str_upper (g_symbol signal) = g_symbol signal ->
  place_strategy_orders settings signal strategy rec w = (r, w') -> refines w w'.
Proof.
  intros [Hbook Hone] Hup E. apply place_strategy_orders_cases in E.
  destruct (entry_tables _ _ _ _ _ _ _ E)
    as [(e & _ & Hp & Hn & _) | (res & side & cred & lot & q & resp & xs & w3 & _ & Hen)].
  { by apply same_rows_refines. }
  destruct Hen as [_ _ Hpos _ (Hp3 & Hn3) Htr Hn'].
  assert (Hbook3 : book_inv w3) by (by apply (book_inv_ext w)). split.
  - rewrite <- Hp3 in Hone. eapply tracked_keeps_book; eauto.
  - rewrite <- Hp3. eapply tracked_refines; eauto.
Qed.

Lemma passed_refines w w' : well_formed w -> passed w w' -> refines w w'.
Proof. intros [Hbook Hone] Hps. split; [split; [apply Hps | by apply Hps] | apply Hps]. Qed.

Lemma loop_refines uniform bias provider w r w' :
  well_formed w -> manage_open_positions settings uniform bias provider w = (r, w') -> refines w w'.
Proof.
  intros Hwf E. apply passed_refines; [done|]. unfold manage_open_positions, mbind, M_bind, gets in E.
  eapply manage_rows_passed; [apply Hwf | | | exact E].
  - apply NoDup_map_filter_ids. apply Hwf.
  - apply List.Forall_forall. intros q Hq. apply filter_In in Hq as [? Hq]. by bool_to_prop.
Qed.

Lemma direct_exit_refines action_kind signal strategy w r w' :
  well_formed w -> dispatch_direct_exit settings action_kind signal strategy w = (r, w') -> refines w w'.
Proof.
  intros [Hbook Hone] E. apply dispatch_cases, handled_tables in E as [Hn Htab].
  destruct Htab as [[Hp _] | (p & p' & n & x & Hin & _ & Ho & _ & Hq & Ha & Hrows & _)].
  { by apply same_rows_refines. }
  pose proof (book_rows _ Hbook) as Hall. pose proof (book_fresh _ Hbook) as Hfr.
  rewrite List.Forall_forall in Hall, Hfr. specialize (Hfr p Hin). simpl in Hfr.
  assert (Hid := same_id _ _ (proj1 Ha)). assert (Hinv' := after_exit_inv _ _ _ (Hall p Hin) Hq Ha).
  destruct Ha as (Hrow & Ht & Hrem & _). split; [split|].
  - apply (book_inv_update w w' p'); auto. lia.
  - rewrite Hrows. by apply (one_open_put p).
  - rewrite Hrows. apply (exposure_leave _ p); auto; [apply Hbook | lia].
Qed.

(** A mirrored entry, a mirrored exit. *)
Lemma mirror_entry_refines signal strategy signal_hash master margin subs w r w' :
  well_formed w -> 0 <= entry_lots strategy ->
  dispatch_subscriber_executions signal strategy signal_hash master margin paper_provider subs w = (r, w') ->
  refines w w'.
Proof.
  intros [Hbook Hone] Hl E. destruct (dispatch_served _ _ _ _ _ _ _ _ _ _ Hl Hbook E) as [Hsv _].
  split; [split; [apply Hsv|] | apply Hsv].
  apply dispatch_runs in E as [(_ & -> & _) | [(e & _ & -> & _) | (es & rs & _ & _ & _ & Hrun)]]; [done..|].
  by eapply dispatch_run_one_open.
Qed.

Lemma mirrored_exit_refines action_kind signal strategy w r w' :
  well_formed w -> direct_exit_and_mirror settings action_kind signal strategy w = (r, w') -> refines w w'.
Proof.
  intros Hwf E. unfold direct_exit_and_mirror in E.
  apply bind_cases in E as [(x & w1 & E1 & E) | (e & -> & E1)]; pose proof (direct_exit_refines _ _ _ _ _ _ Hwf E1) as Hr;
    [|done].
  destruct x as [reason oid | q left oid st]; [by injection E as _ <-|]. destruct Hr as [[Hbook1 Hone1] Hl1].
  assert (Hm : forall w2, maybe_fan_out_exit settings signal strategy action_kind w1 = (Ok tt, w2) -> refines w w2).
  { intros w2 E2. pose proof (maybe_fan_out_spec _ _ _ _ _ _ _ Hbook1 E2) as (_ & _ & subs & _ & Hsv).
    split; [split; [apply Hsv|] | etransitivity; [exact Hl1 | apply Hsv]].
    revert E2. unfold maybe_fan_out_exit, attempt. cbv [mbind M_bind mret M_ret].
    destruct (negb _); [by intros [= <-]|]. unfold resolve_active_subscriptions, gets.
    destruct (concat _) as [|s0 ss]; [by intros [= <-]|].
    destruct (fan_out_exit signal strategy action_kind None paper_provider (s0 :: ss) w1) as [r3 w3] eqn:E3.
    intros Eq. assert (w3 = w2) as -> by (by destruct r3; injection Eq).
    apply exit_runs in E3 as [(_ & ->) | (price & rs & _ & _ & Hrun)]; [done|]. eapply (exit_run_one_open (P := PaperPositionProvider)); [exact Hone1 | exact Hrun]. }
  apply bind_cases in E as [([] & w2 & E2 & E) | (e & -> & E2)].
  - injection E as _ <-. by apply Hm.
  - apply maybe_fan_out_spec in E2 as ([=] & _). done.
Qed.

(** A kill of any tier. *)
Lemma touched_refines scope ok w w' : well_formed w -> touched scope ok w w' -> refines w w'.
Proof. intros [_ Hone] Htc. split; [split; [apply Htc | by apply Htc] | apply Htc]. Qed.

Lemma contained_refines scope ok w w' : well_formed w -> contained scope ok w w' -> refines w w'.
Proof. intros [_ Hone] Hct. split; [split; [apply Hct | by apply Hct] | apply Hct]. Qed.

Lemma trip_refines u force w r w' :
  well_formed w -> check_and_trigger settings u force w = (r, w') -> refines w w'.
Proof.
  intros Hwf E. apply trigger_cases in E as [((Hsb & _) & _) | (res & reason & _ & Htr)]; [..|apply Hwf].
  - apply same_rows_refines; [done | apply Hsb..].
  - eapply touched_refines; [done | apply Htr].
Qed.

Lemma emergency_refines w r w' :
  well_formed w -> credential_keys w -> execute_master_emergency settings w = (r, w') -> refines w w'.
Proof.
  intros Hwf Hk E. destruct (marketplace_fanout_enabled settings) eqn:Hen.
  - destruct (emergency_spec settings w r w' (proj1 Hwf) Hk Hen E) as (_ & _ & _ & Htc). by eapply touched_refines.
  - unfold execute_master_emergency in E. rewrite Hen in E. injection E as _ <-. by apply same_rows_refines.
Qed.

Lemma webhook_refines sha256_hex hmac_hex decode request w r w' :
  well_formed w -> receive_webhook settings sha256_hex hmac_hex decode request w = (r, w') -> refines w w'.
Proof.
  intros [Hbook Hone] E. apply receive_rows in E as [[Hp Hn] | (w1 & scope & ok & Hp & Htc)]; [by apply same_rows_refines| |done].
  destruct Htc as [_ _ Hb' Ho Hl]. unfold refines, well_formed. rewrite <- Hp in *. auto.
Qed.

Lemma strategy_webhook_refines `{Coercion} sha256_hex hmac_hex json_loads json_dumps scrip_cache scrip_load check_margin request w r w' :
  well_formed w -> Forall (fun s => 0 <= entry_lots s) (w_strategies w) ->
  receive_strategy_signal settings sha256_hex hmac_hex json_loads json_dumps scrip_cache scrip_load check_margin request w = (r, w') ->
  refines w w'.
Proof.
  intros Hwf Hl E. apply receive_strategy_rows in E as (ids & w1 & Hp1 & _ & [[Hp Hn] | [Hsv Ho]]); [..|apply Hwf | done].
  - by apply same_rows_refines.
  - split; [split; [apply Hsv | by apply Ho, Hwf]|]. rewrite <- Hp1. apply Hsv.
Qed.

(** A worker's task. *)
Lemma refines_trans w w1 w2 : refines w w1 -> refines w1 w2 -> refines w w2.
Proof. intros [_ Hl1] [Hwf2 Hl2]. split; [done | by etransitivity]. Qed.

Lemma noted_refines sigs w w' : well_formed w -> noted sigs w w' -> refines w w'.
Proof. intros Hwf [[Hp _ _ _ _ _ Hn] _ _ _ _ _]. by apply same_rows_refines. Qed.

Lemma routed_refines sig strategy lots w r w' :
  well_formed w -> str_upper (g_symbol sig) = g_symbol sig ->
  cash_execution_enabled settings = false -> options_execution_enabled settings = false ->
  routed settings sig strategy lots w r w' -> refines w w'.
Proof.
  intros Hwf Hup Hc Ho [w1 sig2 _ _ Hn | e | w2 w1 found _ _ _ [?|?] _ | e w2 w1 sig2 _ E _ _ Hn | res w2 w3 w1 _ E Hn Eh].
  - by eapply noted_refines.
  - by split.
  - congruence.
  - congruence.
  - assert (Hr2 : refines w w2) by (by eapply entry_refines). apply (refines_trans _ w2); [done|]. eapply noted_refines; [apply Hr2 | done].
  - assert (Hr2 : refines w w2) by (by eapply entry_refines). assert (Hr3 : refines w2 w3) by (eapply noted_refines; [apply Hr2 | done]).
    apply (refines_trans _ w3); [by apply (refines_trans _ w2)|].
    apply hooks_spec in Eh as (_ & (ok & Htc & _) & _); [|apply Hr3]. eapply touched_refines; [apply Hr3 | done].
Qed.

Lemma signal_task_refines `{Coercion} scrip_cache sid kind w r w' :
  well_formed w -> cash_execution_enabled settings = false -> options_execution_enabled settings = false ->
  Forall (fun g => str_upper (g_symbol g) = g_symbol g) (pf_signals (w_platform w)) ->
  execute_signal_async settings scrip_cache sid kind w = (r, w') -> refines w w'.
Proof.
  intros Hwf Hc Ho Hup E. destruct (String.string_dec kind "entry") as [->|Hk].
  - apply entry_task_cases in E as (o & _ & [(sigs & Hn & _) | (sig & strategy & d & sig' & w1 & _ & Hep & Hrt)]); [by eapply noted_refines|].
    pose proof (entry_pass_same _ _ _ _ _ _ _ _ Hep) as [Hs _]. destruct Hep as [Hf _ _ _ _ Hn].
    assert (Hr1 : refines w w1) by (by eapply noted_refines). apply (refines_trans _ w1); [done|].
    eapply routed_refines; eauto; [apply Hr1|]. rewrite (ss_symbol _ _ Hs). rewrite List.Forall_forall in Hup.
    by apply Hup, (List.find_some _ _ Hf).
  - apply exit_task_cases in E as [_ [sigs w1 Hn | sig strategy w1 w2 found sigs w3 _ _ _ _ _ [?|?] _
      | sig strategy w1 out w2 sigs w3 _ _ _ _ Hn Ed Hn2]]; [|congruence..| |done].
    + by eapply noted_refines.
    + assert (Hr1 : refines w w1) by (by eapply noted_refines).
      assert (Hr2 : refines w1 w2) by (eapply mirrored_exit_refines; [apply Hr1 | done]).
      apply (refines_trans _ w1); [done|]. apply (refines_trans _ w2); [done|]. eapply noted_refines; [apply Hr2 | done].
Qed.

(** The expiry sweeps. *)
Lemma pass_refines due reason notes rows w w' : well_formed w -> pass_of due reason notes rows w w' -> refines w w'.
Proof. intros [_ Hone] Hps. split; [split; [apply Hps | by apply Hps] | apply Hps]. Qed.

Lemma backstop_refines master daily_bars holidays w r w' :
  well_formed w -> sweep_expiry_backstop settings master daily_bars holidays w = (r, w') -> refines w w'.
Proof.
  intros Hwf E. destruct (futures_expiry_backstop_enabled settings) eqn:Hen.
  - destruct (sweep_backstop_pass settings master daily_bars holidays w (proj1 Hwf) Hen) as (res & w1 & E1 & Hps & _).
    rewrite E1 in E. injection E as <- <-. by eapply pass_refines.
  - unfold sweep_expiry_backstop in E. rewrite Hen in E. injection E as _ <-. by split.
Qed.

Lemma options_sweep_refines master w r w' :
  well_formed w -> sweep_expired_options settings master w = (r, w') -> refines w w'.
Proof.
  intros Hwf E. destruct (options_execution_enabled settings) eqn:Hen.
  - destruct (sweep_options_pass settings master w (proj1 Hwf) Hen) as (res & w1 & E1 & Hps & _).
    rewrite E1 in E. injection E as <- <-. by eapply pass_refines.
  - unfold sweep_expired_options in E. rewrite Hen in E. injection E as _ <-. by split.
Qed.

Lemma bridge_step_refines w w' : well_formed w -> bridge_step w w' -> refines w w'.
Proof.
  intros Hwf Hs. destruct Hs.
  - by eapply entry_refines.
  - by eapply loop_refines.
  - by eapply mirrored_exit_refines.
  - by eapply mirror_entry_refines.
  - rename select (run_subscriber_drift_pass _ _ _ _ _ _ = _) into E. apply drift_pass_keeps_rows in E as [Hp Hn].
    apply same_rows_refines; [done | done | lia].
  - rename select (reconcile_once _ _ = _) into E. apply reconcile_once_rows in E as [Hp Hn].
    apply same_rows_refines; [done | done | lia].
  - apply passed_refines; [done|].
    destruct (close_position_now_polled p reason ltp w r w') as (_ & xs & Hpl); auto; [apply Hwf|].
    eapply polled_passed; [apply Hwf | exact Hpl].
  - by eapply trip_refines.
  - rename select (kill_subscriber _ _ _ = _) into E.
    apply kill_subscriber_spec in E as (res & _ & _ & Hc & _); [|apply Hwf | done]. by eapply contained_refines.
  - rename select (kill_strategy _ _ _ = _) into E.
    apply kill_strategy_spec in E as (res & _ & _ & Hc); [|apply Hwf | done]. by eapply contained_refines.
  - by eapply emergency_refines.
  - by eapply webhook_refines.
  - by eapply strategy_webhook_refines.
  - by eapply signal_task_refines.
  - by eapply backstop_refines.
  - by eapply options_sweep_refines.
  - by apply same_rows_refines.
Qed.

Lemma bridge_run_refines w w' : well_formed w -> rtc bridge_step w w' -> refines w w'.
Proof.
  intros Hwf Hrun. induction Hrun as [w | w w1 w2 Hs _ IH]; [by split|].
  destruct (bridge_step_refines w w1 Hwf Hs) as [Hwf1 Hl1]. destruct (IH Hwf1) as [Hwf2 Hl2].
  split; [done | by etransitivity].
Qed.



(** C3: a closed position never re-opens and is never lost: in every later state
    the same id is still there, closed, with nothing open. *)
Theorem closed_positions_stay_closed w w' p :
  well_formed w -> rtc bridge_step w w' -> In p (w_positions w) -> status p = st_closed ->
  exists p', In p' (w_positions w') /\ p_id p' = p_id p /\ status p' = st_closed /\ remaining_quantity p' = 0.
Proof.
  intros Hwf Hrun Hin Hcl. destruct (bridge_run_refines w w' Hwf Hrun) as [[Hbook' _] Hl].
  destruct Hwf as [Hbook _]. pose proof (book_rows _ Hbook) as Hall. pose proof (book_rows _ Hbook') as Hall'.
  rewrite List.Forall_forall in Hall, Hall'.
  pose proof (proj1 (inv_closed _ (Hall p Hin)) Hcl) as Hz.
  pose proof (exposure_lookup _ _ (book_ids _ Hbook) Hin) as Hlk. rewrite Hz in Hlk.
  pose proof (ledger_zero_stays _ _ _ Hl Hlk) as Hlk'.
  destruct (in_dec Z.eq_dec (p_id p) (map p_id (w_positions w'))) as [Hid|Hid].
  - apply in_map_iff in Hid as (p' & Hid & Hin'). exists p'.
    pose proof (exposure_lookup _ _ (book_ids _ Hbook') Hin') as Hl2. rewrite Hid, Hlk' in Hl2. injection Hl2 as Hl2.
    split; [done|]. split; [done|]. split; [by apply (inv_closed _ (Hall' p' Hin')) | done].
  - by rewrite (exposure_absent _ _ Hid) in Hlk'.
Qed.
End Lifecycle.

(** ** A concrete run: a long position is stopped out, then a new one is entered *)

Definition after_stop : world ScriptedBroker store :=
  snd (direct_exit_and_mirror sample_settings "sl_hit" exit_signal sample_strategy sample_world).

Definition after_entry : world ScriptedBroker store :=
  snd (place_strategy_orders sample_settings sample_signal sample_strategy None after_stop).

Lemma sample_run : rtc (bridge_step sample_settings) after_stop after_entry.
Proof.
  apply rtc_once. eapply step_entry; [|apply surjective_pairing]. reflexivity.
Qed.

Lemma sample_full_run : rtc (bridge_step sample_settings) sample_world after_entry.
Proof.
  eapply rtc_l; [|apply sample_run]. eapply step_direct_exit. apply surjective_pairing.
Qed.

Lemma sample_well_formed : well_formed sample_world.
Proof. split; [exact sample_book | by intros p q [<- | []] [<- | []]]. Qed.

Lemma stopped_well_formed : well_formed after_stop.
Proof.
  apply (bridge_run_refines sample_settings sample_world); [exact sample_well_formed|].
  apply rtc_once. eapply step_direct_exit. apply surjective_pairing.
Qed.



Definition stopped_row : StrategyPosition := default sample_position (head (w_positions after_stop)).

Lemma stopped_row_closed : In stopped_row (w_positions after_stop) /\ status stopped_row = st_closed.
Proof.
  split; [|vm_compute; reflexivity]. unfold stopped_row.
  assert (E : absent (head (w_positions after_stop)) = false) by (vm_compute; reflexivity).
  destruct (w_positions after_stop); [done | by left].
Qed.

Lemma closed_positions_stay_closed_witness :
  exists p', In p' (w_positions after_entry) /\ p_id p' = p_id stopped_row /\ status p' = st_closed
             /\ remaining_quantity p' = 0.
Proof.
  exact (closed_positions_stay_closed sample_settings after_stop after_entry stopped_row stopped_well_formed sample_run
           (proj1 stopped_row_closed) (proj2 stopped_row_closed)).
Defined.
